(* ===== verification/_CoqProject ===== *)
-Q . S2P
Prelude.v
Mem.v
EndianOps.v
Descriptor.v
Crc32.v
PsiSection.v
EntryLoop.v
TableCodec.v
MpegSections.v
DvbSections.v
SectionBuf.v
TransportPacket.v
DvbRingbuffer.v
DvbDemux.v
TsFilter.v
DmxFeeds.v
Asn1.v
CaLink.v
En50221Transport.v
En50221Poll.v
En50221Inv.v
En50221Safe.v
En50221Api.v
En50221Ops.v
En50221Deliver.v
En50221Session.v
En50221SlSafe.v
En50221Stack.v
En50221SlDeliver.v
CaPmt.v
AppResources.v
DvbCa.v
DvbCaIo.v
DvbCaRead.v
DvbCaInv.v
DvbCaThread.v
DvbCaSlot.v
DvbCaCard.v
DvbCaMsg.v
DvbCaOps.v
DvbCaCis.v
DvbNet.v
DvbNetUle.v
DvbNetCells.v
DvbNetMpe.v
DmxDev.v
DmxDevRead.v
DmxDevFilter.v
DvbTypes.v
AppMmi.v
AppMmiMenu.v
AppLowspeed.v
DvbFrontend.v
DvbFrontendTune.v
DvbFrontendStates.v
DvbFrontendEvents.v
DvbFrontendParams.v
AtscText.v
AtscHuffman.v
AtscSections.v
AtscFormats.v
AtscTables.v
AtscGuide.v
