(* ===== verification/Prelude.v ===== *)
(** * BGT3xxx: verification of the DVB stack

    ** The program

    The repository holds the Linux software of the Blackgold 3xxx DVB cards: a copy of the
    kernel's DVB core with the driver of the card (src/bgt-linux-pcie-drv), and the
    libraries and tools of the DVB applications (src/bgt-linux-dvb-apps).  A transport
    stream of 188-byte packets comes from the card; the demultiplexer of dvb-core
    (dvb_demux.c) sorts it to feeds and collects the sections of tables; ring buffers
    (dvb_ringbuffer.c) carry the bytes to user space, through the files of the demux devices
    (dmxdev.c); network packets are unpacked (dvb_net.c); the CA interface (dvb_ca_en50221.c)
    brings up conditional access modules and carries packets to and from them; libucsi decodes the sections there,
    or collects them itself from packets; libdvben50221 talks to the conditional access
    module through a transport layer, a session layer and the application resources.
    These parts are the subject of this library.

    ** Files

    Shared: Prelude.v (machine integers, lists addressed by [Z], tactics and hints),
    Mem.v (the monad of the in-place parsers: a byte memory, faults, total-correctness
    rules).

    libucsi:
    - EndianOps.v (endianops.h), Crc32.v (crc32.c, crc32.h), Descriptor.v (descriptor.h),
      PsiSection.v (section.h): the header of a section, its CRC, the tracking of the
      sections of a table.
    - EntryLoop.v, TableCodec.v: the two program shapes all table codecs share, proved once.
    - MpegSections.v (mpeg/*_section.[ch]), DvbSections.v (dvb/*_section.[ch]): every codec,
      accessor and iterator of these tables, each an instance of the shapes.
    - SectionBuf.v (section_buf.[ch]): sections from fragments and from packets.
    - TransportPacket.v (transport_packet.[ch]): adaptation fields, continuity counters.
    - DvbTypes.v (dvb/types.[ch]): dates, durations, packed decimal numbers, character sets.
    - AtscText.v (atsc/types.[ch]): ATSC texts and times.  AtscHuffman.v (atsc/atsc_text.c):
      the texts as UTF-8, both Huffman tables.
    - AtscSections.v (atsc/*_section.[ch]): the nine codecs, their accessors and iterators.
      AtscFormats.v: formats as values and what it takes for a codec to accept one;
      AtscTables.v: the formats of the tables, and that each codec accepts its own; that of
      the RRT takes something else.
      AtscGuide.v: the channels of a TVCT and the events of an EIT, read one by one.

    dvb-core:
    - DvbRingbuffer.v (dvb_ringbuffer.c): bytes, and packets with headers in the ring.
    - DvbDemux.v, TsFilter.v, DmxFeeds.v (dvb_demux.c): the section filter; packet
      synchronisation and dispatch; allocating, starting, stopping and releasing feeds.
    - DmxDev.v (dmxdev.c, and the front ends and the writing of dvb_demux.c): the files of
      the demux device and of the DVR device.  DmxDevRead.v: the file of a section filter.
      DmxDevFilter.v: what a filter means, its start, and feeds that get lost.
    - DvbNet.v (dvb_net.c): the decapsulation of ULE and MPE.  DvbNetUle.v, DvbNetCells.v:
      packets that come in the cells of a PID.  DvbNetMpe.v: packets that come in sections,
      and the runs that go wrong.
    - DvbCa.v, DvbCaIo.v (dvb_ca_en50221.c, and the counting of open files of dvbdev.c): the
      link layer over the registers of a CAM, the slot state machine, the thread; the file
      operations, set-up and removal.  DvbCaRead.v: the packets in the ring of a slot.
      DvbCaInv.v, DvbCaThread.v, DvbCaOps.v: the invariant, and that the thread and every
      operation keep it.  DvbCaSlot.v: the rules of the slot state machine.  DvbCaCard.v: a simulated card that is brought up.  DvbCaMsg.v:
      messages.  DvbCaCis.v: the attribute memory.
    - DvbFrontend.v (dvb_frontend.c): the cache of properties and the old parameters, the
      events, the software search, a turn of the thread, the requests.  The driver is the
      record [dvb_frontend_ops].  DvbFrontendTune.v: the order of the search.
      DvbFrontendStates.v: its state machine.  DvbFrontendEvents.v: the queue of events.
      DvbFrontendParams.v: parameters and properties that are read back.

    libdvben50221:
    - Asn1.v (asn_1.c), CaLink.v (libdvbapi/dvbca.c, libdvbmisc/dvbmisc.h): length fields;
      the calls to the system and the monad of the layers.
    - En50221Transport.v, En50221Poll.v: the operations and the polling of
      en50221_transport.c.  En50221Inv.v, En50221Safe.v, En50221Api.v, En50221Ops.v: the
      invariant and that everything keeps it.  En50221Deliver.v: messages and states.
    - En50221Session.v: en50221_session.c.  En50221SlSafe.v, En50221Stack.v: its invariant,
      alone and on top of the transport layer.  En50221SlDeliver.v: data and states.
    - CaPmt.v (en50221_app_ca.c): the CA PMT of a PMT section.
    - AppResources.v (en50221_app_rm.c, _ai.c, _auth.c, _ca.c, _dvb.c, _epg.c, _teletext.c,
      _smartcard.c): the messages and senders of the application resources.
      AppMmi.v (en50221_app_mmi.c): the man-machine interface.  AppMmiMenu.v: its menus,
      however they are cut.  AppLowspeed.v (en50221_app_lowspeed.c, _datetime.c): low speed
      communication, date and time.

    ** How the code is rendered

    A w-bit integer is a [Z] that is wrapped where the code wraps it ([u8], [u16], [u32],
    [u64], [s32]).  A buffer is the list of its bytes, a pointer into it an offset; a
    pointer to a structure of a table is its index.  An access outside an object, a null
    or freed pointer that is followed, and a mutex locked twice by the same task are the
    value [None] (in Mem.v the outcome [Fault]), which no safety theorem allows; an error
    the code reports is an ordinary value.  What the system answers ([malloc], [read],
    [write], [poll], the clock, [copy_to_user]) and the callbacks of clients are
    parameters; nothing is assumed of the system but the documented ranges of its answers.

    Loops that are not structural have fuel: the number of bytes of the buffer that the
    loop walks, of which each turn takes at least one ([while_mem], [for_each],
    [process_loop], [apdu_loop], [swfilter_loop]); or the time that is left, where each turn
    sleeps ([wait_loop], [attempt_loop]); or what a small counter allows: six turns of
    [autotune_loop], nine of the loops over delivery systems.  A loop out of fuel is a failure of the
    same kind as an access outside an object, so the safety theorems state termination;
    the two iterations that do not terminate (the descriptors of a SIT, the extension headers
    of an SNDU) are proved not to for every amount of fuel.

    ** Interfaces

    The transport layer states what a client has to promise as two classes, [EventClient]
    (callbacks made with a lock held) and [DataClient] (data callbacks, which may call
    back); its theorems are proved against them.  The session layer discharges both, as
    instances, for applications that keep their part, the class [AppClient].  The
    demultiplexer's theorems are stated for any driver whose start and stop functions
    return; the abstract specification of its section feeds is a function from packets to
    sections.  The CA interface is proved against three classes: [ca_system] is what it
    calls (the card's functions and the kernel's), [ca_system_ok] what these promise (a byte
    or an error, a clock that advances less than [2 ^ 32] jiffies in a call), and [ca_rely]
    what the other tasks keep while one sleeps.

    ** Theorems

    - Codecs (libucsi): each accepts exactly the encodings of its table, and the iterators
      return what was encoded; CRC arithmetic, corruption, round trip of the generic
      header; safety on every section with a whole header, and the inputs on which a codec
      does leave its section.
    - ATSC: seven codecs accept exactly the sections of their format, whose numbers they
      leave in the order of the host (that of the RRT reads a length in the wrong order
      of bytes, that of the DCCSCT reads the wrong place); the events of a section come out of the iterator as they were
      sent; a segment of a text, coded with either Huffman table or not at all, becomes the
      UTF-8 of its characters.
    - Collection: [section_buf] and the demultiplexer's section feeds deliver exactly the
      sections of the stream, in order and once, however it is cut into packets with payload;
      [section_ext_useful]
      collects a table.
    - Streams: the software filter finds the packets however they are cut into blocks; the
      ring buffer refines a bounded queue, and its packet interface a queue of packets, in
      rings of the sizes and contents for which its index does not slip.
    - Demux devices: the file of a section filter is a queue of whole sections, from a start
      that succeeds on and until a section that is half read gets lost; a filter passes the sections that user space asks for.
    - IP over DVB: packets come out as they were sent, in whatever cells or sections they
      travel, for the kinds of SNDU that [sndu_ok] names and for every datagram section, and
      nothing is read or written outside the buffers.
    - Dates: a time becomes the date of its day, whatever the rounding of doubles, and
      comes back but for the local zone.
    - Feeds: every sequence of operations that keeps the rules of the interface keeps the
      invariant of feeds, filters and lists.
    - Conditional access: every sequence of operations of both layers and of polls, for any
      behaviour of the module, keeps the invariant of the layers, releases the locks and
      does not touch freed memory; messages arrive as they were sent; the states of
      connections and sessions move along their state machines; the CA PMT of a table is
      what the standard asks for.
    - Application resources: what the standard lets a module send reaches the callback as it
      was sent, nothing a module sends makes a parser leave its message (with the
      exceptions shown), and what the senders send are the APDUs of the standard.  Menus and
      low speed data arrive whole, however they are cut into fragments that are
      not empty, and with other messages in between.

    - CA interface of the kernel: from set-up on, every sequence of file operations,
      interrupts and turns of the thread that keeps the rules of [op_ok] and [permitted] keeps
      the invariant of slots, locks and rings; a slot makes exactly the step of its state
      machine that the answers of the card and the clock determine; what is written to a
      CAM are the fragments of the message, and a message whose fragments were received is
      read as it was sent; which attribute memories are accepted.
    - Front ends: the search with a step tries its whole range once and ends; each of its turns
      follows the state machine, whatever the driver answers; the ring of events is a queue
      of the newest seven; what is set, by either interface, is what is read back.
    Where the code does something else than it means to, an [Example] or a property shows
    the run: the manifest lists these as findings.

    ** Limits

    Concurrency is modelled as locks that one task takes: data races between tasks are
    not.  In the CA interface another task runs where one sleeps (an update of the state
    that keeps the invariant), not between any two instructions.  The transport layer's invariant is claimed until a poll reports that memory ran
    out.  In the front end core the time between the turns of the thread is not modelled,
    and of other tasks only what they do to the queue of events.  DvbFrontendTune.v takes two caches
    with the same members for equal (functional extensionality).  The fields of the transport packet's private data and the printing of errors are
    not modelled.

    ** Not modelled

    Hardware drivers (saa7231, front ends, tuners): what they do is defined by chips of
    which the repository has no specification.  Ioctl wrappers, command line tools, tests,
    and the copies of kernel trees that the build does not use.  Inline descriptor parsers
    of libucsi that only read fields.

    Of dvb_net.c the management of the interfaces is left out; of dvb_frontend.c opening, closing
    and the life of the thread, the sharing of an adapter, the switch commands by voltage and the requests that only call the
    driver; of dvb-core dvb_math.c and the code no driver uses; of libdvben50221 the wrappers for a standard
    CAM; libesg, libdvbsec and libdvbcfg.
    *)

From stdpp Require Export base list option numbers.
From Stdlib Require Export ZArith Lia.

Open Scope Z_scope.

(** [lia] understands division and remainder by constants. *)
Ltac Zify.zify_post_hook ::= Z.to_euclidean_division_equations.

(** ** Machine integers *)

Definition u8 (z : Z) : Z := z mod 2 ^ 8.
Definition u16 (z : Z) : Z := z mod 2 ^ 16.
Definition u32 (z : Z) : Z := z mod 2 ^ 32.
Definition u64 (z : Z) : Z := z mod 2 ^ 64.

(** A signed 32-bit reading of a wrapped integer: the C [int] conversion. *)
Definition s32 (z : Z) : Z :=
  let w := u32 z in if decide (w < 2 ^ 31) then w else w - 2 ^ 32.

Definition byte (b : Z) : Prop := 0 <= b < 256.

Global Instance byte_dec (b : Z) : Decision (byte b).
Proof. unfold byte. apply _. Defined.

Abbreviation bytes := (Forall byte).

(** ** Lists indexed by [Z] *)

Definition zlen {A} (l : list A) : Z := Z.of_nat (length l).

Definition zget (l : list Z) (i : Z) : option Z :=
  if decide (0 <= i) then l !! Z.to_nat i else None.

Definition zset (l : list Z) (i v : Z) : list Z :=
  if decide (0 <= i) then <[Z.to_nat i := v]> l else l.

(** Total lookup, used in statements where the index is known to be in range. *)
Definition zat (l : list Z) (i : Z) : Z := default 0 (zget l i).

Declare Scope bgt_scope.
Delimit Scope bgt_scope with bgt.
Notation "l .[ i ]" := (zat l i)
  (at level 1, left associativity, format "l .[ i ]") : bgt_scope.
Open Scope bgt_scope.

Create HintDb bgt.

(** The error numbers the sources return, negated. *)
Definition EPERM : Z := 1.
Definition EFAULT : Z := 14.
Definition EBUSY : Z := 16.
Definition EINVAL : Z := 22.
Definition ERANGE : Z := 34.

(** ** Arithmetic lemmas *)

Lemma u8_range z : 0 <= u8 z < 256.
Proof. unfold u8. change (2 ^ 8) with 256. apply Z.mod_pos_bound. lia. Qed.
Lemma u16_range z : 0 <= u16 z < 65536.
Proof. unfold u16. change (2 ^ 16) with 65536. apply Z.mod_pos_bound. lia. Qed.
Lemma u32_range z : 0 <= u32 z < 2 ^ 32.
Proof. unfold u32. apply Z.mod_pos_bound. lia. Qed.
Lemma u64_range z : 0 <= u64 z < 2 ^ 64.
Proof. unfold u64. apply Z.mod_pos_bound. lia. Qed.

Lemma u8_small z : 0 <= z < 256 -> u8 z = z.
Proof. intros. unfold u8. change (2 ^ 8) with 256. apply Z.mod_small. lia. Qed.
Lemma u16_small z : 0 <= z < 65536 -> u16 z = z.
Proof. intros. unfold u16. change (2 ^ 16) with 65536. apply Z.mod_small. lia. Qed.
Lemma u32_small z : 0 <= z < 2 ^ 32 -> u32 z = z.
Proof. intros. unfold u32. apply Z.mod_small. lia. Qed.
Lemma u64_small z : 0 <= z < 2 ^ 64 -> u64 z = z.
Proof. intros. unfold u64. apply Z.mod_small. lia. Qed.

Lemma land_range a b : 0 <= b -> 0 <= Z.land a b <= b.
Proof.
  intros Hb. split; [apply Z.land_nonneg; lia|].
  destruct (Z.eq_dec b 0) as [->|Hb0]; [rewrite Z.land_0_r; lia|].
  apply Z.ldiff_le; [lia|].
  apply Z.bits_inj'. intros n Hn. rewrite Z.ldiff_spec, Z.land_spec, Z.bits_0.
  destruct (Z.testbit a n), (Z.testbit b n); reflexivity.
Qed.

Lemma land_ones_mod a n : 0 <= n -> Z.land a (2 ^ n - 1) = a mod 2 ^ n.
Proof. intros. rewrite <- Z.land_ones by lia. f_equal. rewrite Z.ones_equiv. lia. Qed.

Lemma land_255 a : Z.land a 0xff = a mod 256.
Proof. apply (land_ones_mod a 8). lia. Qed.
Lemma land_15 a : Z.land a 0xf = a mod 16.
Proof. apply (land_ones_mod a 4). lia. Qed.
Lemma land_4095 a : Z.land a 0xfff = a mod 4096.
Proof. apply (land_ones_mod a 12). lia. Qed.
Lemma land_65535 a : Z.land a 0xffff = a mod 65536.
Proof. apply (land_ones_mod a 16). lia. Qed.

(** Joining a high and a low part that do not overlap is addition. *)
Lemma lor_shiftl_add a b n :
  0 <= n -> 0 <= b < 2 ^ n -> Z.lor (Z.shiftl a n) b = a * 2 ^ n + b.
Proof.
  intros Hn Hb. rewrite <- Z.shiftl_mul_pow2 by lia.
  rewrite <- Z.add_lor_land.
  replace (Z.land (Z.shiftl a n) b) with 0; [lia|].
  symmetry. apply Z.bits_inj'. intros k Hk.
  rewrite Z.land_spec, Z.bits_0, Z.shiftl_spec by lia.
  destruct (decide (k < n)).
  - rewrite (Z.testbit_neg_r a) by lia. reflexivity.
  - rewrite <- (Z.mod_small b (2 ^ n)) by lia.
    rewrite Z.mod_pow2_bits_high by lia. apply andb_false_r.
Qed.

Lemma shiftl_8 a : Z.shiftl a 8 = a * 256.
Proof. rewrite Z.shiftl_mul_pow2 by lia. reflexivity. Qed.
Lemma shiftr_8 a : Z.shiftr a 8 = a / 256.
Proof. rewrite Z.shiftr_div_pow2 by lia. reflexivity. Qed.

Lemma lor_byte a b : 0 <= b < 256 -> Z.lor (Z.shiftl a 8) b = a * 256 + b.
Proof. intros. apply (lor_shiftl_add a b 8); [lia|]. change (2 ^ 8) with 256. lia. Qed.

Lemma u8_byte z : byte (u8 z).
Proof. apply u8_range. Qed.

(** The base-256 digits of a 32-bit value. *)
Lemma digits4 a b c d :
  0 <= a < 256 -> 0 <= b < 256 -> 0 <= c < 256 -> 0 <= d < 256 ->
  let v := d * 2 ^ 24 + c * 2 ^ 16 + b * 256 + a in
  v mod 256 = a /\ v / 256 mod 256 = b /\ v / 2 ^ 16 mod 256 = c /\ v / 2 ^ 24 = d /\
  0 <= v < 2 ^ 32.
Proof.
  intros ? ? ? ? v. subst v.
  change (2 ^ 16) with 65536. change (2 ^ 24) with 16777216. change (2 ^ 32) with 4294967296.
  repeat split; try lia.
Qed.

Lemma digits4_exist v : 0 <= v < 2 ^ 32 -> exists a b c d,
  0 <= a < 256 /\ 0 <= b < 256 /\ 0 <= c < 256 /\ 0 <= d < 256 /\
  v = d * 2 ^ 24 + c * 2 ^ 16 + b * 256 + a.
Proof.
  change (2 ^ 16) with 65536. change (2 ^ 24) with 16777216. change (2 ^ 32) with 4294967296.
  intros. exists (v mod 256), (v / 256 mod 256), (v / 256 / 256 mod 256), (v / 256 / 256 / 256).
  pose proof (Z.div_mod v 256 ltac:(lia)). pose proof (Z.div_mod (v / 256) 256 ltac:(lia)).
  pose proof (Z.div_mod (v / 256 / 256) 256 ltac:(lia)).
  repeat split; try apply Z.mod_pos_bound; try lia.
Qed.

(** ** All bytes *)

Definition all_bytes : list Z := seqZ 0 256.

Lemma all_bytes_spec b : byte b -> b ∈ all_bytes.
Proof. intros. apply elem_of_seqZ. unfold byte in *. lia. Qed.

(** A decidable property of one byte holds of all when it holds of the 256. *)
Lemma forall_byte (P : Z -> bool) : forallb P all_bytes = true -> forall b, byte b -> P b = true.
Proof.
  intros H b Hb. rewrite forallb_forall in H. apply H, list_elem_of_In. by apply all_bytes_spec.
Qed.

(** Joining a multiple of [2 ^ n] and a value below it. *)
Lemma lor_mul_add x b n : 0 <= n -> 0 <= b < 2 ^ n -> Z.lor (x * 2 ^ n) b = x * 2 ^ n + b.
Proof. intros. rewrite <- Z.shiftl_mul_pow2 by lia. rewrite lor_shiftl_add by lia. by rewrite Z.shiftl_mul_pow2 by lia. Qed.

(** ** List lemmas *)

Section lists.
Context {A : Type}.
Implicit Types l k : list A.

Lemma zlen_nonneg l : 0 <= zlen l.
Proof. unfold zlen. lia. Qed.
Lemma zlen_nil : zlen (@nil A) = 0.
Proof. reflexivity. Qed.
Lemma zlen_cons x l : zlen (x :: l) = 1 + zlen l.
Proof. unfold zlen. simpl. lia. Qed.
Lemma zlen_app l k : zlen (l ++ k) = zlen l + zlen k.
Proof. unfold zlen. rewrite length_app. lia. Qed.
Lemma zlen_nil_inv l : zlen l = 0 -> l = [].
Proof. destruct l; [done|]. rewrite zlen_cons. pose proof (zlen_nonneg l). lia. Qed.

(** The first [n] elements, and what follows them. *)
Definition ztake (n : Z) l : list A := take (Z.to_nat n) l.
Definition zdrop (n : Z) l : list A := drop (Z.to_nat n) l.

Lemma zlen_ztake n l : 0 <= n <= zlen l -> zlen (ztake n l) = n.
Proof. unfold zlen, ztake. rewrite length_take. lia. Qed.
Lemma zlen_ztake_le n l : 0 <= n -> zlen (ztake n l) <= n.
Proof. unfold zlen, ztake. rewrite length_take. lia. Qed.
Lemma zlen_zdrop n l : 0 <= n <= zlen l -> zlen (zdrop n l) = zlen l - n.
Proof. unfold zlen, zdrop. rewrite length_drop. lia. Qed.
Lemma ztake_zdrop n l : ztake n l ++ zdrop n l = l.
Proof. apply take_drop. Qed.
Lemma ztake_app n l k : n = zlen l -> ztake n (l ++ k) = l.
Proof. intros ->. unfold ztake, zlen. rewrite Nat2Z.id. apply take_app_length. Qed.
Lemma zdrop_app n l k : n = zlen l -> zdrop n (l ++ k) = k.
Proof. intros ->. unfold zdrop, zlen. rewrite Nat2Z.id. apply drop_app_length. Qed.
Lemma ztake_all n l : zlen l <= n -> ztake n l = l.
Proof. unfold ztake, zlen. intros. apply take_ge. lia. Qed.
Lemma zdrop_all n l : zlen l <= n -> zdrop n l = [].
Proof. unfold zdrop, zlen. intros. apply drop_ge. lia. Qed.
Lemma ztake_0 l : ztake 0 l = [].
Proof. reflexivity. Qed.
Lemma zdrop_0 l : zdrop 0 l = l.
Proof. reflexivity. Qed.
Lemma zdrop_zdrop a b l : 0 <= a -> 0 <= b -> zdrop b (zdrop a l) = zdrop (a + b) l.
Proof. intros. unfold zdrop. rewrite drop_drop. f_equal. lia. Qed.
Lemma ztake_ztake a b l : 0 <= a <= b -> ztake a (ztake b l) = ztake a l.
Proof. intros. unfold ztake. rewrite take_take. f_equal. lia. Qed.

Lemma ztake_app_plus n l k m : n = zlen l + m -> 0 <= m -> ztake n (l ++ k) = l ++ ztake m k.
Proof.
  intros -> ?. unfold ztake.
  replace (Z.to_nat (zlen l + m)) with (length l + Z.to_nat m)%nat by (unfold zlen; lia).
  apply take_app_add.
Qed.
Lemma zdrop_app_plus n l k m : n = zlen l + m -> 0 <= m -> zdrop n (l ++ k) = zdrop m k.
Proof.
  intros -> ?. unfold zdrop.
  replace (Z.to_nat (zlen l + m)) with (length l + Z.to_nat m)%nat by (unfold zlen; lia).
  apply drop_app_add.
Qed.
Lemma ztake_app_le n l k : n <= zlen l -> ztake n (l ++ k) = ztake n l.
Proof. intros ?. unfold ztake. apply take_app_le. unfold zlen in *. lia. Qed.
Lemma zdrop_app_le n l k : n <= zlen l -> zdrop n (l ++ k) = zdrop n l ++ k.
Proof. intros ?. unfold zdrop. apply drop_app_le. unfold zlen in *. lia. Qed.

Lemma Forall_ztake (P : A -> Prop) n l : Forall P l -> Forall P (ztake n l).
Proof. apply Forall_take. Qed.
Lemma Forall_zdrop (P : A -> Prop) n l : Forall P l -> Forall P (zdrop n l).
Proof. apply Forall_drop. Qed.
End lists.

(** [memcpy(dst + i, src, zlen src)] *)
Definition zsplice (dst : list Z) (i : Z) (src : list Z) : list Z :=
  ztake i dst ++ src ++ zdrop (i + zlen src) dst.

Lemma zlen_zsplice dst i src :
  0 <= i -> i + zlen src <= zlen dst -> zlen (zsplice dst i src) = zlen dst.
Proof.
  intros. pose proof (zlen_nonneg src). unfold zsplice.
  rewrite !zlen_app, zlen_ztake, zlen_zdrop by lia. lia.
Qed.

Lemma zsplice_nil dst i : zsplice dst i [] = dst.
Proof.
  unfold zsplice. rewrite zlen_nil, Z.add_0_r. simpl. apply ztake_zdrop.
Qed.

Lemma zsplice_bytes dst i src : bytes dst -> bytes src -> bytes (zsplice dst i src).
Proof.
  intros. unfold zsplice. apply Forall_app. split; [by apply Forall_ztake|].
  apply Forall_app. split; [done|by apply Forall_zdrop].
Qed.

Section zget.
Implicit Types l : list Z.

Lemma zget_Some_iff l i : is_Some (zget l i) <-> 0 <= i < zlen l.
Proof.
  unfold zget, zlen. case_decide.
  - rewrite lookup_lt_is_Some. lia.
  - split; [intros [? ?]; done|lia].
Qed.
Lemma zget_in l i : 0 <= i < zlen l -> zget l i = Some (l.[i]).
Proof.
  intros Hi. unfold zat. destruct (zget l i) eqn:E; [done|].
  apply zget_Some_iff in Hi as [? ?]. congruence.
Qed.
Lemma zget_out l i : ~ (0 <= i < zlen l) -> zget l i = None.
Proof.
  intros Hi. destruct (zget l i) eqn:E; [|done].
  exfalso. apply Hi, zget_Some_iff. eauto.
Qed.
Lemma zat_out l i : ~ (0 <= i < zlen l) -> l.[i] = 0.
Proof. intros. unfold zat. by rewrite zget_out. Qed.

Lemma zat_byte l i : bytes l -> byte (l.[i]).
Proof.
  intros Hb. unfold zat, zget. case_decide; [|done].
  destruct (l !! _) eqn:E; [|done]. by eapply Forall_lookup in E.
Qed.
Lemma zat_range l i : bytes l -> 0 <= l.[i] < 256.
Proof. apply zat_byte. Qed.

Lemma zlen_zset l i v : zlen (zset l i v) = zlen l.
Proof. unfold zset, zlen. case_decide; [|done]. by rewrite length_insert. Qed.
Lemma zset_bytes l i v : bytes l -> byte v -> bytes (zset l i v).
Proof. intros. unfold zset. case_decide; [|done]. by apply Forall_insert. Qed.
Lemma zat_zset l i j v :
  0 <= i < zlen l -> (zset l i v).[j] = if decide (i = j) then v else l.[j].
Proof.
  intros Hi. unfold zat, zget, zset. rewrite !(decide_True (P := 0 <= i)) by lia.
  case_decide; case_decide; try done.
  - subst. rewrite list_lookup_insert_eq; [done|]. unfold zlen in Hi. lia.
  - rewrite list_lookup_insert_ne by lia. done.
  - lia.
Qed.

Lemma zat_app l k i :
  0 <= i -> (l ++ k).[i] = if decide (i < zlen l) then l.[i] else k.[i - zlen l].
Proof.
  intros Hi. unfold zat, zget, zlen. rewrite !(decide_True (P := 0 <= i)) by lia.
  destruct (decide (i < Z.of_nat (length l))).
  - rewrite lookup_app_l by lia. done.
  - rewrite decide_True by lia. rewrite lookup_app_r by lia.
    do 2 f_equal. lia.
Qed.
Lemma zat_ztake l n i : 0 <= i < n -> (ztake n l).[i] = l.[i].
Proof.
  intros. unfold zat, zget, ztake. rewrite !decide_True by lia.
  rewrite lookup_take_lt by lia. done.
Qed.
Lemma zat_zdrop l n i : 0 <= n -> 0 <= i -> (zdrop n l).[i] = l.[n + i].
Proof.
  intros. unfold zat, zget, zdrop. rewrite !decide_True by lia.
  rewrite lookup_drop. do 2 f_equal. lia.
Qed.
Lemma zat_zsplice dst i src j :
  0 <= i -> i + zlen src <= zlen dst -> 0 <= j ->
  (zsplice dst i src).[j] =
    if decide (i <= j < i + zlen src) then src.[j - i] else dst.[j].
Proof.
  intros. pose proof (zlen_nonneg src). unfold zsplice.
  rewrite zat_app, zlen_ztake by lia.
  case_decide; [rewrite zat_ztake by lia; rewrite decide_False by lia; done|].
  rewrite zat_app by lia.
  case_decide; [rewrite decide_True by lia; done|].
  rewrite zat_zdrop by lia. rewrite decide_False by lia. f_equal. lia.
Qed.

Lemma zlist_eq l k :
  zlen l = zlen k -> (forall i, 0 <= i < zlen l -> l.[i] = k.[i]) -> l = k.
Proof.
  intros Hl H. apply list_eq_same_length with (length l).
  - unfold zlen in Hl. lia.
  - unfold zlen in Hl. lia.
  - intros i x y Hi Hx Hy. specialize (H (Z.of_nat i)).
    unfold zat, zget, zlen in H. rewrite !decide_True, !Nat2Z.id, Hx, Hy in H by lia.
    simpl in H. apply H. lia.
Qed.

Lemma zset_zset_same l i v w : zset (zset l i v) i w = zset l i w.
Proof. unfold zset. case_decide; [|done]. apply list_insert_insert_eq. Qed.
Lemma zset_id l i : 0 <= i < zlen l -> zset l i (l.[i]) = l.
Proof.
  intros. apply zlist_eq; rewrite zlen_zset; [done|]. intros j Hj.
  rewrite zat_zset by lia. case_decide; by subst.
Qed.
End zget.

(** ** Automation *)

(** Rewrites the indexing and length lemmas, leaving the side conditions to [lia]. *)
Create Rewrite HintDb zlist.
#[export] Hint Rewrite @zlen_app @zlen_cons @zlen_nil zlen_zset : zlist.

Ltac zlist_simpl := autorewrite with zlist in *.

(** Brings the range of every byte read of a byte list into the context. *)
Ltac learn_range t :=
  lazymatch goal with
  | _ : 0 <= t < 256 |- _ => fail
  | _ => idtac
  end.
Ltac byte_ranges :=
  repeat match goal with
  | H : Forall byte ?l |- context [zat ?l ?i] =>
      learn_range (zat l i); pose proof (zat_range l i H)
  | H : Forall byte ?l, _ : context [zat ?l ?i] |- _ =>
      learn_range (zat l i); pose proof (zat_range l i H)
  end.
Ltac lens :=
  repeat match goal with
  | |- context [zlen ?l] =>
      lazymatch goal with _ : 0 <= zlen l |- _ => fail | _ => pose proof (zlen_nonneg l) end
  | _ : context [zlen ?l] |- _ =>
      lazymatch goal with _ : 0 <= zlen l |- _ => fail | _ => pose proof (zlen_nonneg l) end
  end.
Ltac zlia := byte_ranges; lens; lia.

#[export] Hint Resolve zset_bytes zsplice_bytes u8_byte zat_byte Forall_ztake Forall_zdrop : bgt.
#[export] Hint Extern 1 (byte _) => unfold byte; lia : bgt.
