(* ===== verification/Mem.v ===== *)
(** * Mem: the in-place parsers' memory

    The libucsi codecs cast a byte buffer to packed structures and swap its
    multi-byte fields in place.  Here the buffer is the C object the pointer
    points into: a [list Z] of bytes, addressed by offsets from its start.  An
    access outside the object is the outcome [Fault]; [return NULL] is [Null];
    a loop whose fuel is used up is [NoFuel].  [wp] is total correctness: it
    excludes the last two kinds of failure, so every [wp] theorem is also a
    memory-safety and termination theorem. *)

From S2P Require Import Prelude.

Abbreviation mem := (list Z).

Inductive outcome (A : Type) : Type :=
| Ret (a : A) (m : mem)
| Null (m : mem)
| Fault
| NoFuel.
Arguments Ret {A} _ _.
Arguments Null {A} _.
Arguments Fault {A}.
Arguments NoFuel {A}.

Definition M (A : Type) : Type := mem -> outcome A.

Global Instance M_ret : MRet M := fun A a m => Ret a m.
Global Instance M_bind : MBind M := fun A B k c m =>
  match c m with
  | Ret a m' => k a m'
  | Null m' => Null m'
  | Fault => Fault
  | NoFuel => NoFuel
  end.

(** [return NULL;] *)
Definition ret_null {A} : M A := fun m => Null m.

(** [if (b) return NULL;] *)
Definition fail_if (b : bool) : M unit := if b then ret_null else mret tt.

(** [buf[p]] read and written as a [uint8_t]. *)
Definition rd8 (p : Z) : M Z := fun m =>
  match zget m p with Some v => Ret v m | None => Fault end.

Definition wr8 (p v : Z) : M unit := fun m =>
  match zget m p with Some _ => Ret tt (zset m p (u8 v)) | None => Fault end.

(** [*(uint16_t * )(buf + p)] on the little-endian host the library is built for. *)
Definition rd16 (p : Z) : M Z :=
  lo ← rd8 p; hi ← rd8 (p + 1); mret (Z.lor lo (Z.shiftl hi 8)).

Definition wr16 (p v : Z) : M unit :=
  wr8 p v;; wr8 (p + 1) (Z.shiftr v 8).

Definition rd32 (p : Z) : M Z :=
  lo ← rd16 p; hi ← rd16 (p + 2); mret (Z.lor lo (Z.shiftl hi 16)).

Definition wr32 (p v : Z) : M unit :=
  wr16 p v;; wr16 (p + 2) (Z.shiftr v 16).

(** [while (pos < len) pos = body(pos);] *)
Fixpoint while_lt (fuel : nat) (body : Z -> M Z) (len pos : Z) : M Z :=
  if pos <? len then
    match fuel with
    | O => fun _ => NoFuel
    | S f => pos' ← body pos; while_lt f body len pos'
    end
  else mret pos.

(** [for (i = 0; i < n; i++) pos = body(i, pos);] *)
Fixpoint for_upto (n : nat) (i : Z) (body : Z -> Z -> M Z) (pos : Z) : M Z :=
  match n with
  | O => mret pos
  | S n' => pos' ← body i pos; for_upto n' (i + 1) body pos'
  end.

(** The same loop when the body reads the object at [pos]: the size of the object
    then bounds the number of turns, whatever [len] claims. *)
Definition while_mem (body : Z -> M Z) (len pos : Z) : M Z := fun m =>
  while_lt (S (length m)) body len pos m.

(** The boundary of a function whose early exits return [d]. *)
Definition catch {A} (c : M A) (d : A) : M A := fun m =>
  match c m with Null m' => Ret d m' | o => o end.

(** [n] bytes at [p], as a consumer of a pointer and a length reads them. *)
Definition slice (m : mem) (p n : Z) : list Z := ztake n (zdrop p m).
Definition rd_bytes (p n : Z) : M (list Z) := fun m =>
  if decide (0 <= p /\ 0 <= n /\ p + n <= zlen m) then Ret (slice m p n) m else Fault.

(** [for (pos = first; pos; pos = next(pos)) visit(pos);] *)
Fixpoint for_each_fuel {B} (fuel : nat) (next : Z -> M (option Z)) (visit : Z -> M B)
    (pos : option Z) : M (list B) :=
  match pos with
  | None => mret []
  | Some p =>
      match fuel with
      | O => fun _ => NoFuel
      | S f => b ← visit p; n ← next p; bs ← for_each_fuel f next visit n; mret (b :: bs)
      end
  end.
Definition for_each {B} (next : Z -> M (option Z)) (visit : Z -> M B)
    (pos : option Z) : M (list B) := fun m =>
  for_each_fuel (S (length m)) next visit pos m.

(** ** Total correctness *)

Definition wp {A} (c : M A) (Q : A -> mem -> Prop) (N : mem -> Prop) (m : mem) : Prop :=
  match c m with
  | Ret a m' => Q a m'
  | Null m' => N m'
  | Fault | NoFuel => False
  end.

(** The code neither leaves the object nor runs forever. *)
Definition safe {A} (c : M A) (m : mem) : Prop :=
  wp c (fun _ _ => True) (fun _ => True) m.

Section rules.
Context {A B : Type}.
Implicit Types (c : M A) (Q : A -> mem -> Prop) (N : mem -> Prop).

Lemma wp_ret a Q N m : Q a m -> wp (mret a) Q N m.
Proof. done. Qed.
Lemma wp_null Q N m : N m -> wp ret_null Q N m.
Proof. done. Qed.
Lemma wp_bind c (k : A -> M B) (Q : B -> mem -> Prop) N m :
  wp c (fun a m' => wp (k a) Q N m') N m -> wp (c ≫= k) Q N m.
Proof. unfold wp, mbind, M_bind. destruct (c m); done. Qed.
Lemma wp_mono c Q Q' N N' m :
  wp c Q N m -> (forall a m', Q a m' -> Q' a m') -> (forall m', N m' -> N' m') ->
  wp c Q' N' m.
Proof. unfold wp. destruct (c m); auto. Qed.
Lemma wp_if (b : bool) c1 c2 Q N m :
  (b = true -> wp c1 Q N m) -> (b = false -> wp c2 Q N m) ->
  wp (if b then c1 else c2) Q N m.
Proof. destruct b; auto. Qed.
Lemma wp_safe c Q N m : wp c Q N m -> safe c m.
Proof. intros. by eapply wp_mono. Qed.
Lemma wp_Ret c Q N m a m' : wp c Q N m -> c m = Ret a m' -> Q a m'.
Proof. unfold wp. intros H E. by rewrite E in H. Qed.
Lemma wp_total c Q N m :
  wp c Q N m -> (exists a m', c m = Ret a m' /\ Q a m') \/ (exists m', c m = Null m' /\ N m').
Proof. unfold wp. destruct (c m); naive_solver. Qed.
Lemma bind_Ret c (k : A -> M B) m b m' :
  (c ≫= k) m = Ret b m' -> exists a m1, c m = Ret a m1 /\ k a m1 = Ret b m'.
Proof. unfold mbind, M_bind. destruct (c m); naive_solver. Qed.
End rules.

Lemma wp_fail_if b Q N m :
  (b = true -> N m) -> (b = false -> Q tt m) -> wp (fail_if b) Q N m.
Proof. intros H1 H2. destruct b; [by apply H1|by apply H2]. Qed.

Lemma wp_rd8 p Q N m : 0 <= p < zlen m -> Q (m.[p]) m -> wp (rd8 p) Q N m.
Proof. intros. unfold wp, rd8. by rewrite zget_in. Qed.
Lemma wp_wr8 p v Q N m :
  0 <= p < zlen m -> Q tt (zset m p (u8 v)) -> wp (wr8 p v) Q N m.
Proof. intros. unfold wp, wr8. by rewrite zget_in. Qed.

(** The value a 16-bit little-endian load reads. *)
Definition le16 (m : mem) (p : Z) : Z := Z.lor (m.[p]) (Z.shiftl (m.[p + 1]) 8).
(** The value of a 16-bit big-endian (network order) field. *)
Definition be16 (m : mem) (p : Z) : Z := m.[p] * 256 + m.[p + 1].
Definition be24 (m : mem) (p : Z) : Z := be16 m p * 256 + m.[p + 2].
Definition be32 (m : mem) (p : Z) : Z := be16 m p * 65536 + be16 m (p + 2).

Lemma le16_eq m p : bytes m -> le16 m p = m.[p] + m.[p + 1] * 256.
Proof.
  intros Hm. unfold le16. rewrite Z.lor_comm, lor_byte; [lia|by apply zat_range].
Qed.
Lemma le16_range m p : bytes m -> 0 <= le16 m p < 65536.
Proof. intros Hm. rewrite le16_eq by done. zlia. Qed.
Lemma be16_range m p : bytes m -> 0 <= be16 m p < 65536.
Proof. intros Hm. unfold be16. zlia. Qed.

Lemma wp_rd16 p Q N m :
  0 <= p -> p + 1 < zlen m -> Q (le16 m p) m -> wp (rd16 p) Q N m.
Proof.
  intros. unfold rd16. apply wp_bind, wp_rd8; [lia|].
  apply wp_bind, wp_rd8; [lia|]. by apply wp_ret.
Qed.

(** ** Loops

    The loop rule: an invariant, a bound that the fuel covers, and progress. *)
Lemma wp_while_lt (I : Z -> mem -> Prop) body len N fuel pos m :
  (forall p m, I p m -> p < len ->
    wp (body p) (fun p' m' => p < p' /\ I p' m') N m) ->
  (Z.to_nat (len - pos) <= fuel)%nat ->
  I pos m ->
  wp (while_lt fuel body len pos) (fun p' m' => len <= p' /\ I p' m') N m.
Proof.
  intros Hbody. revert pos m.
  induction fuel as [|f IH]; intros pos m Hf HI; simpl;
    destruct (pos <? len) eqn:E; [lia| |..|]; try (apply wp_ret; split; [lia|done]).
  apply wp_bind. eapply wp_mono; [apply Hbody; [done|lia]|simpl|done].
  intros p' m' [Hp ?]. apply IH; [lia|done].
Qed.

Lemma wp_while_mem (I : Z -> mem -> Prop) body len N pos m :
  (forall p m, I p m -> p < len ->
    wp (body p) (fun p' m' => p < p' /\ I p' m') N m) ->
  len - pos <= 1 + zlen m ->
  I pos m ->
  wp (while_mem body len pos) (fun p' m' => len <= p' /\ I p' m') N m.
Proof. intros. apply (wp_while_lt I); [done| |done]. unfold zlen in *. lia. Qed.

Lemma wp_catch {A} (c : M A) d Q N m :
  wp c Q (fun m' => Q d m') m -> wp (catch c d) Q N m.
Proof. unfold wp, catch. destruct (c m); done. Qed.

Lemma wp_rd_bytes p n Q N m :
  0 <= p -> 0 <= n -> p + n <= zlen m -> Q (slice m p n) m -> wp (rd_bytes p n) Q N m.
Proof. intros. unfold wp, rd_bytes. by rewrite decide_True. Qed.

Lemma wp_for_upto (I : Z -> mem -> Prop) body N n i pos m :
  (forall j p m, i <= j < i + Z.of_nat n -> I p m ->
    wp (body j p) (fun p' m' => I p' m') N m) ->
  I pos m ->
  wp (for_upto n i body pos) (fun p' m' => I p' m') N m.
Proof.
  revert i pos m. induction n as [|n IH]; intros i pos m Hb HI; simpl; [by apply wp_ret|].
  apply wp_bind. eapply wp_mono; [apply Hb; [lia|done]|simpl|done].
  intros p' m' HI'. apply IH; [|done]. intros. apply Hb; [lia|done].
Qed.

(** ** Automation

    [wp_step] applies the rule for the head of the program; the side conditions
    go to [lia]. *)
Ltac wp_step :=
  lazymatch goal with
  | |- wp (mbind _ _) _ _ _ => apply wp_bind
  | |- wp (mret _) _ _ _ => apply wp_ret
  | |- wp ret_null _ _ _ => apply wp_null
  | |- wp (fail_if _) _ _ _ => apply wp_fail_if; intro
  | |- wp (rd8 _) _ _ _ => apply wp_rd8; [zlia|]
  | |- wp (wr8 _ _) _ _ _ => apply wp_wr8; [zlia|]
  | |- wp (rd16 _) _ _ _ => apply wp_rd16; [zlia|zlia|]
  | |- wp (if ?b then _ else _) _ _ _ => apply wp_if; intro
  end.

(** The same facts as equations, for programs that are run rather than reasoned about. *)
Lemma rd8_run p m : 0 <= p < zlen m -> rd8 p m = Ret (m.[p]) m.
Proof. intros. unfold rd8. by rewrite zget_in. Qed.
Lemma rd16_run p m : 0 <= p -> p + 1 < zlen m -> rd16 p m = Ret (le16 m p) m.
Proof. intros. unfold rd16, mbind, M_bind. by rewrite !rd8_run by lia. Qed.
Lemma rd_bytes_run p n m :
  0 <= p -> 0 <= n -> p + n <= zlen m -> rd_bytes p n m = Ret (slice m p n) m.
Proof. intros. unfold rd_bytes. by rewrite decide_True. Qed.
Lemma bind_run {A B} (c : M A) (k : A -> M B) m a m' :
  c m = Ret a m' -> (c ≫= k) m = k a m'.
Proof. intros E. unfold mbind, M_bind. by rewrite E. Qed.
Lemma fail_if_run b m : fail_if b m = if b then Null m else Ret tt m.
Proof. by destruct b. Qed.
Lemma bind_fail_if {B} b (k : unit -> M B) m :
  (fail_if b ≫= k) m = if b then Null m else k tt m.
Proof. by destruct b. Qed.

(** ** Read-only code *)

Definition read_only {A} (c : M A) : Prop := forall m a m', c m = Ret a m' -> m' = m.

Lemma read_only_ret {A} (a : A) : read_only (mret a).
Proof. intros m b m' E. by injection E. Qed.
Lemma read_only_bind {A B} (c : M A) (k : A -> M B) :
  read_only c -> (forall a, read_only (k a)) -> read_only (c ≫= k).
Proof.
  intros Hc Hk m b m' E. apply bind_Ret in E as (a & m1 & E1 & E2).
  apply Hc in E1 as ->. by apply Hk in E2.
Qed.
Lemma read_only_rd8 p : read_only (rd8 p).
Proof. intros m a m' E. unfold rd8 in E. destruct (zget m p); [by injection E|done]. Qed.
Lemma read_only_rd_bytes p n : read_only (rd_bytes p n).
Proof. intros m a m' E. unfold rd_bytes in E. case_decide; [by injection E|done]. Qed.
#[export] Hint Resolve read_only_ret read_only_bind read_only_rd8 read_only_rd_bytes : bgt.

(** Two iterations that agree step by step on a memory agree on it. *)
Lemma for_each_fuel_ext {B} fuel (next1 next2 : Z -> M (option Z)) (visit : Z -> M B) m pos :
  (forall p, next1 p m = next2 p m) -> (forall p, read_only (visit p)) -> (forall p, read_only (next2 p)) ->
  for_each_fuel fuel next1 visit pos m = for_each_fuel fuel next2 visit pos m.
Proof.
  intros Hn Hv Hr. revert pos. induction fuel as [|fuel IH]; intros [p|]; simpl; try done.
  unfold mbind, M_bind. destruct (visit p m) as [b m1|m1| |] eqn:Ev; try done.
  apply Hv in Ev as ->. rewrite Hn.
  destruct (next2 p m) as [n m2|m2| |] eqn:En; try done. apply Hr in En as ->. by rewrite IH.
Qed.
