(* ===== verification/EndianOps.v ===== *)
(** * EndianOps: the byte-order primitives of libucsi/endianops.h

    The library is modelled as built for a little-endian host (the [#else]
    branch of the header).  Every [bswapN] is proved to reverse the N/8 bytes at
    its argument and to touch nothing else. *)

From S2P Require Import Prelude Mem.

(** The libc macros [bswap_16], [bswap_32] and [bswap_64] of <byteswap.h>. *)
Definition bswap_16 (x : Z) : Z :=
  Z.lor (Z.land (Z.shiftr x 8) 0xff) (Z.shiftl (Z.land x 0xff) 8).
Definition bswap_32 (x : Z) : Z :=
  Z.lor (bswap_16 (Z.shiftr x 16)) (Z.shiftl (bswap_16 (Z.land x 0xffff)) 16).

Definition bswap16 (buf : Z) : M unit := x ← rd16 buf; wr16 buf (bswap_16 x).

Definition bswap32 (buf : Z) : M unit := x ← rd32 buf; wr32 buf (bswap_32 x).

Definition bswap_64 (x : Z) : Z :=
  Z.lor (bswap_32 (Z.shiftr x 32)) (Z.shiftl (bswap_32 (Z.land x 0xffffffff)) 32).
Definition rd64 (p : Z) : M Z := lo ← rd32 p; hi ← rd32 (p + 4); mret (Z.lor lo (Z.shiftl hi 32)).
Definition wr64 (p v : Z) : M unit := wr32 p v;; wr32 (p + 4) (Z.shiftr v 32).
Definition bswap64 (buf : Z) : M unit := x ← rd64 buf; wr64 buf (bswap_64 x).

Definition bswap24 (buf : Z) : M unit :=
  tmp0 ← rd8 buf;
  b2 ← rd8 (buf + 2); wr8 buf b2;;
  wr8 (buf + 2) tmp0.

Definition bswap40 (buf : Z) : M unit :=
  tmp0 ← rd8 buf;
  tmp1 ← rd8 (buf + 1);
  b4 ← rd8 (buf + 4); wr8 buf b4;;
  b3 ← rd8 (buf + 3); wr8 (buf + 1) b3;;
  wr8 (buf + 3) tmp1;;
  wr8 (buf + 4) tmp0.

Definition bswap48 (buf : Z) : M unit :=
  tmp0 ← rd8 buf;
  tmp1 ← rd8 (buf + 1);
  tmp2 ← rd8 (buf + 2);
  b5 ← rd8 (buf + 5); wr8 buf b5;;
  b4 ← rd8 (buf + 4); wr8 (buf + 1) b4;;
  b3 ← rd8 (buf + 3); wr8 (buf + 2) b3;;
  wr8 (buf + 3) tmp2;;
  wr8 (buf + 4) tmp1;;
  wr8 (buf + 5) tmp0.

(** ** Specification: reversal of a slice *)

Definition rev_at (m : mem) (p n : Z) : mem := zsplice m p (reverse (ztake n (zdrop p m))).

Lemma zlen_reverse (l : list Z) : zlen (reverse l) = zlen l.
Proof. unfold zlen. by rewrite length_reverse. Qed.

Lemma zat_reverse (l : list Z) i : 0 <= i < zlen l -> (reverse l).[i] = l.[zlen l - 1 - i].
Proof.
  unfold zlen. intros Hi. unfold zat, zget. rewrite !decide_True by lia.
  rewrite reverse_lookup by lia. do 2 f_equal. lia.
Qed.

Section rev_at.
Context (m : mem) (p n : Z) (Hp : 0 <= p) (Hn : 0 <= n) (Hm : p + n <= zlen m).

Lemma zlen_slice : zlen (ztake n (zdrop p m)) = n.
Proof. rewrite zlen_ztake; [done|]. rewrite zlen_zdrop; zlia. Qed.

Lemma zlen_rev_at : zlen (rev_at m p n) = zlen m.
Proof. unfold rev_at. rewrite zlen_zsplice; rewrite ?zlen_reverse, ?zlen_slice; lia. Qed.

Lemma rev_at_bytes : bytes m -> bytes (rev_at m p n).
Proof.
  intros. unfold rev_at. apply zsplice_bytes; [done|].
  apply Forall_reverse. auto with bgt.
Qed.

Lemma zat_rev_at j :
  0 <= j -> (rev_at m p n).[j] = if decide (p <= j < p + n) then m.[2 * p + n - 1 - j] else m.[j].
Proof.
  intros Hj. unfold rev_at.
  rewrite zat_zsplice; rewrite ?zlen_reverse, ?zlen_slice; try lia.
  case_decide; [|done].
  rewrite zat_reverse; rewrite ?zlen_slice; try lia.
  rewrite zat_ztake, zat_zdrop by lia. f_equal. lia.
Qed.

Lemma zat_rev_at_out j : 0 <= j -> ~ (p <= j < p + n) -> (rev_at m p n).[j] = m.[j].
Proof. intros. rewrite zat_rev_at by lia. by rewrite decide_False by lia. Qed.
End rev_at.

(** A memory that agrees with a reversal pointwise is the reversal. *)
Lemma eq_rev_at m m' p n :
  0 <= p -> 0 <= n -> p + n <= zlen m -> zlen m' = zlen m ->
  (forall j, 0 <= j < zlen m ->
    m'.[j] = if decide (p <= j < p + n) then m.[2 * p + n - 1 - j] else m.[j]) ->
  m' = rev_at m p n.
Proof.
  intros ? ? ? Hl H. apply zlist_eq; [by rewrite zlen_rev_at|].
  rewrite Hl. intros j Hj. rewrite zat_rev_at by lia. by apply H.
Qed.

(** Swapping twice restores the buffer. *)
Lemma rev_at_involutive m p n :
  0 <= p -> 0 <= n -> p + n <= zlen m -> rev_at (rev_at m p n) p n = m.
Proof.
  intros. symmetry. apply eq_rev_at; rewrite ?zlen_rev_at by lia; try lia.
  intros j Hj. case_decide; rewrite zat_rev_at by lia.
  - rewrite decide_True by lia. f_equal. lia.
  - by rewrite decide_False by lia.
Qed.

Ltac resolve_zset :=
  repeat match goal with
  | |- context [(zset ?l ?i ?v).[?j]] => rewrite (zat_zset l i j v) by (rewrite ?zlen_zset; lia)
  end.
Ltac solve_swap :=
  rewrite ?zlen_zset; try lia;
  intros ? ?; resolve_zset; repeat case_decide; try lia; f_equal; lia.

Lemma bswap_16_val x :
  0 <= x < 65536 -> bswap_16 x = (x mod 256) * 256 + x / 256.
Proof.
  intros. unfold bswap_16. rewrite !land_255, shiftr_8, Z.lor_comm, lor_byte by lia.
  rewrite (Z.mod_small (x / 256)) by lia. lia.
Qed.

Lemma wp_wr16 p v Q N m :
  0 <= p -> p + 1 < zlen m ->
  Q tt (zset (zset m p (u8 v)) (p + 1) (u8 (v / 256))) -> wp (wr16 p v) Q N m.
Proof.
  intros. unfold wr16. apply wp_bind, wp_wr8; [lia|]. simpl.
  apply wp_wr8; [rewrite zlen_zset; lia|]. by rewrite shiftr_8.
Qed.

Lemma bswap_32_val x :
  0 <= x < 2 ^ 32 ->
  bswap_32 x = (x mod 256) * 2 ^ 24 + (x / 256 mod 256) * 2 ^ 16 + (x / 2 ^ 16 mod 256) * 256 + x / 2 ^ 24.
Proof.
  intros. unfold bswap_32.
  rewrite Z.shiftr_div_pow2 by lia. rewrite land_65535.
  change (2 ^ 16) with 65536. change (2 ^ 24) with 16777216. change (2 ^ 32) with 4294967296 in *.
  rewrite !bswap_16_val by lia.
  rewrite Z.lor_comm, lor_shiftl_add; [|lia|change (2 ^ 16) with 65536; lia].
  change (2 ^ 16) with 65536. lia.
Qed.

Lemma bswap16_run p m :
  bytes m -> 0 <= p -> p + 2 <= zlen m -> bswap16 p m = Ret tt (rev_at m p 2).
Proof.
  intros Hm ? ?. unfold bswap16.
  assert (wp (x ← rd16 p; wr16 p (bswap_16 x)) (fun _ m' => m' = rev_at m p 2)
            (fun _ => False) m) as Hwp.
  { apply wp_bind, wp_rd16; [lia..|]. apply wp_wr16; [lia..|].
    pose proof (le16_range m p Hm). rewrite bswap_16_val, le16_eq by done. byte_ranges.
    apply eq_rev_at; try lia; [by rewrite !zlen_zset|].
    intros j Hj. resolve_zset.
    repeat case_decide; try lia.
    - subst. replace (2 * p + 2 - 1 - (p + 1)) with p by lia. rewrite u8_small by lia. lia.
    - subst. replace (2 * j + 2 - 1 - j) with (j + 1) by lia.
      unfold u8. change (2 ^ 8) with 256. lia. }
  destruct (wp_total _ _ _ _ Hwp) as [([] & m' & -> & ->)|(? & _ & [])]. done.
Qed.

Lemma bswap24_run p m :
  bytes m -> 0 <= p -> p + 3 <= zlen m -> bswap24 p m = Ret tt (rev_at m p 3).
Proof.
  intros Hm ? ?. unfold bswap24, mbind, M_bind, rd8, wr8.
  rewrite ?zget_in by (rewrite ?zlen_zset; lia). byte_ranges.
  rewrite !u8_small by lia. f_equal. apply eq_rev_at; solve_swap.
Qed.

Lemma bswap40_run p m :
  bytes m -> 0 <= p -> p + 5 <= zlen m -> bswap40 p m = Ret tt (rev_at m p 5).
Proof.
  intros Hm ? ?. unfold bswap40, mbind, M_bind, rd8, wr8.
  rewrite ?zget_in by (rewrite ?zlen_zset; lia).
  resolve_zset. rewrite !decide_False by lia. byte_ranges.
  rewrite !u8_small by lia. f_equal. apply eq_rev_at; solve_swap.
Qed.

Lemma bswap48_run p m :
  bytes m -> 0 <= p -> p + 6 <= zlen m -> bswap48 p m = Ret tt (rev_at m p 6).
Proof.
  intros Hm ? ?. unfold bswap48, mbind, M_bind, rd8, wr8.
  rewrite ?zget_in by (rewrite ?zlen_zset; lia).
  resolve_zset. rewrite !decide_False by lia. byte_ranges.
  rewrite !u8_small by lia. f_equal. apply eq_rev_at; solve_swap.
Qed.

Lemma rd32_run p m :
  bytes m -> 0 <= p -> p + 4 <= zlen m ->
  rd32 p m = Ret (m.[p] + m.[p + 1] * 256 + m.[p + 2] * 2 ^ 16 + m.[p + 3] * 2 ^ 24) m.
Proof.
  intros Hm ? ?. unfold rd32, rd16, mbind, M_bind, mret, M_ret, rd8.
  rewrite ?zget_in by lia. f_equal.
  fold (le16 m p). replace (p + 3) with (p + 2 + 1) by lia. fold (le16 m (p + 2)).
  rewrite Z.lor_comm, lor_shiftl_add;
    [|lia|change (2 ^ 16) with 65536; apply le16_range; done].
  rewrite !le16_eq by done. change (2 ^ 16) with 65536. change (2 ^ 24) with 16777216. lia.
Qed.

(** The 32-bit store writes the four bytes of its argument, low byte first. *)
Lemma wr32_run p v m :
  0 <= p -> p + 4 <= zlen m ->
  wr32 p v m = Ret tt (zset (zset (zset (zset m p (u8 v)) (p + 1) (u8 (v / 256)))
                              (p + 2) (u8 (v / 2 ^ 16))) (p + 3) (u8 (v / 2 ^ 24))).
Proof.
  intros ? ?. unfold wr32, wr16, mbind, M_bind, wr8.
  rewrite ?zget_in by (rewrite ?zlen_zset; lia).
  rewrite !shiftr_8, Z.shiftr_div_pow2 by lia. replace (p + 2 + 1) with (p + 3) by lia.
  rewrite Z.div_div by lia. done.
Qed.

Lemma bswap32_run p m :
  bytes m -> 0 <= p -> p + 4 <= zlen m -> bswap32 p m = Ret tt (rev_at m p 4).
Proof.
  intros Hm ? ?. unfold bswap32, mbind, M_bind. rewrite rd32_run by done. byte_ranges.
  destruct (digits4 (m.[p]) (m.[p + 1]) (m.[p + 2]) (m.[p + 3])) as (E0 & E1 & E2 & E3 & Hr);
    [done..|].
  destruct (digits4 (m.[p + 3]) (m.[p + 2]) (m.[p + 1]) (m.[p])) as (F0 & F1 & F2 & F3 & _);
    [done..|].
  match type of E0 with ?v mod _ = _ =>
    match goal with |- context [bswap_32 ?w] => replace w with v by lia end end.
  rewrite bswap_32_val, E0, E1, E2, E3 by done. rewrite wr32_run by done.
  unfold u8. change (2 ^ 8) with 256. rewrite F0, F1, F2, F3, Z.mod_small by done.
  f_equal. apply eq_rev_at; try lia; [by rewrite !zlen_zset|].
  clear - H H0. intros j Hj. resolve_zset.
  repeat case_decide; try lia; subst; f_equal; lia.
Qed.

(** A word by its bytes. *)
Definition word32 (b0 b1 b2 b3 : Z) : Z := b0 + b1 * 256 + b2 * 2 ^ 16 + b3 * 2 ^ 24.
Lemma word32_range b0 b1 b2 b3 : byte b0 -> byte b1 -> byte b2 -> byte b3 -> 0 <= word32 b0 b1 b2 b3 < 2 ^ 32.
Proof. unfold word32, byte. change (2 ^ 32) with 4294967296. change (2 ^ 16) with 65536. change (2 ^ 24) with 16777216. lia. Qed.
Lemma bswap_32_word b0 b1 b2 b3 : byte b0 -> byte b1 -> byte b2 -> byte b3 -> bswap_32 (word32 b0 b1 b2 b3) = word32 b3 b2 b1 b0.
Proof.
  intros. rewrite bswap_32_val by (by apply word32_range).
  destruct (digits4 b0 b1 b2 b3) as (E0 & E1 & E2 & E3 & Hr); [done..|].
  replace (word32 b0 b1 b2 b3) with (b3 * 2 ^ 24 + b2 * 2 ^ 16 + b1 * 256 + b0) by (unfold word32; lia).
  rewrite E0, E1, E2, E3. unfold word32. lia.
Qed.
Lemma wr32_word p b0 b1 b2 b3 m : byte b0 -> byte b1 -> byte b2 -> byte b3 -> 0 <= p -> p + 4 <= zlen m ->
  wr32 p (word32 b0 b1 b2 b3) m = Ret tt (zset (zset (zset (zset m p b0) (p + 1) b1) (p + 2) b2) (p + 3) b3).
Proof.
  intros. rewrite wr32_run by done. destruct (digits4 b0 b1 b2 b3) as (E0 & E1 & E2 & E3 & Hr); [done..|].
  unfold u8. change (2 ^ 8) with 256. replace (b3 * 2 ^ 24 + b2 * 2 ^ 16 + b1 * 256 + b0) with (word32 b0 b1 b2 b3) in * by (unfold word32; lia).
  rewrite E0, E1, E2, E3, (Z.mod_small b3) by done. done.
Qed.
(** A 32-bit store takes its value modulo [2 ^ 32]. *)
Lemma wr32_mod p v k m : wr32 p (v + k * 2 ^ 32) m = wr32 p v m.
Proof.
  assert (E : forall n, 0 <= n <= 24 -> u8 (Z.shiftr (v + k * 2 ^ 32) n) = u8 (Z.shiftr v n)).
  { intros n Hn. rewrite !Z.shiftr_div_pow2 by lia. unfold u8. replace (2 ^ 32) with (2 ^ (32 - n - 8) * 2 ^ 8 * 2 ^ n) by (rewrite <- !Z.pow_add_r by lia; f_equal; lia).
    assert (2 ^ n <> 0) by (apply Z.pow_nonzero; lia).
    replace (v + k * (2 ^ (32 - n - 8) * 2 ^ 8 * 2 ^ n)) with (v + (k * 2 ^ (32 - n - 8) * 2 ^ 8) * 2 ^ n) by lia.
    rewrite Z.div_add by done. by rewrite Z.mod_add by done. }
  pose proof (E 0 ltac:(lia)) as E0. pose proof (E 8 ltac:(lia)) as E1. pose proof (E 16 ltac:(lia)) as E2. pose proof (E 24 ltac:(lia)) as E3.
  rewrite !Z.shiftr_0_r in E0. unfold wr32, wr16, mbind, M_bind, wr8. rewrite !Z.shiftr_shiftr by lia.
  change (16 + 8) with 24. by rewrite E0, E1, E2, E3.
Qed.
Lemma bswap_64_word lo hi lo' hi' : 0 <= lo < 2 ^ 32 -> 0 <= hi < 2 ^ 32 -> bswap_32 lo = lo' -> bswap_32 hi = hi' -> 0 <= hi' < 2 ^ 32 ->
  bswap_64 (Z.lor lo (Z.shiftl hi 32)) = hi' + lo' * 2 ^ 32.
Proof.
  intros Hlo Hhi El Eh Hh. unfold bswap_64. rewrite (Z.lor_comm lo), lor_shiftl_add by lia.
  change 0xffffffff with (Z.ones 32). rewrite Z.land_ones, Z.shiftr_div_pow2 by lia.
  rewrite Z.div_add_l, (Z.div_small lo), Z.add_0_r, Eh by lia.
  replace ((hi * 2 ^ 32 + lo) mod 2 ^ 32) with lo by (rewrite Z.add_comm, Z.mod_add, Z.mod_small; lia). rewrite El.
  rewrite Z.lor_comm, lor_shiftl_add by lia. lia.
Qed.
Lemma bswap64_run p m :
  bytes m -> 0 <= p -> p + 8 <= zlen m -> bswap64 p m = Ret tt (rev_at m p 8).
Proof.
  intros Hm ? ?. assert (Hz : forall j, byte (m.[j])) by (intros; by apply zat_byte).
  unfold bswap64, rd64. rewrite (bind_run _ _ m (Z.lor (word32 (m.[p]) (m.[p + 1]) (m.[p + 2]) (m.[p + 3]))
    (Z.shiftl (word32 (m.[p + 4]) (m.[p + 4 + 1]) (m.[p + 4 + 2]) (m.[p + 4 + 3])) 32)) m).
  2:{ by rewrite (bind_run _ _ m _ m (rd32_run p m Hm ltac:(lia) ltac:(lia))), (bind_run _ _ m _ m (rd32_run (p + 4) m Hm ltac:(lia) ltac:(lia))). }
  erewrite bswap_64_word by first [by apply word32_range|by apply bswap_32_word|rewrite bswap_32_word by done; by apply word32_range].
  unfold wr64. erewrite bind_run by (rewrite wr32_mod; by apply wr32_word; [..|lia]).
  rewrite Z.shiftr_div_pow2, Z.div_add, Z.div_small, Z.add_0_l by (lia || by apply word32_range).
  rewrite wr32_word by (done || rewrite ?zlen_zset; lia). f_equal.
  apply eq_rev_at; rewrite ?zlen_zset; try lia. clear Hz. solve_swap.
Qed.

(** ** Rules and the field read by a swapped load *)

Lemma wp_bswap16 p Q N m :
  bytes m -> 0 <= p -> p + 2 <= zlen m -> Q tt (rev_at m p 2) -> wp (bswap16 p) Q N m.
Proof. intros. unfold wp. by rewrite bswap16_run. Qed.
Lemma wp_bswap24 p Q N m :
  bytes m -> 0 <= p -> p + 3 <= zlen m -> Q tt (rev_at m p 3) -> wp (bswap24 p) Q N m.
Proof. intros. unfold wp. by rewrite bswap24_run. Qed.
Lemma wp_bswap32 p Q N m :
  bytes m -> 0 <= p -> p + 4 <= zlen m -> Q tt (rev_at m p 4) -> wp (bswap32 p) Q N m.
Proof. intros. unfold wp. by rewrite bswap32_run. Qed.
Lemma wp_bswap64 p Q N m :
  bytes m -> 0 <= p -> p + 8 <= zlen m -> Q tt (rev_at m p 8) -> wp (bswap64 p) Q N m.
Proof. intros. unfold wp. by rewrite bswap64_run. Qed.
Lemma wp_bswap48 p Q N m :
  bytes m -> 0 <= p -> p + 6 <= zlen m -> Q tt (rev_at m p 6) -> wp (bswap48 p) Q N m.
Proof. intros. unfold wp. by rewrite bswap48_run. Qed.

(** After the swap the host load reads the network-order value. *)
Lemma le16_rev_at m p :
  bytes m -> 0 <= p -> p + 2 <= zlen m -> le16 (rev_at m p 2) p = be16 m p.
Proof.
  intros Hm ? ?. rewrite le16_eq by (apply rev_at_bytes; done). unfold be16.
  rewrite !zat_rev_at by lia. rewrite !decide_True by lia.
  replace (2 * p + 2 - 1 - p) with (p + 1) by lia.
  replace (2 * p + 2 - 1 - (p + 1)) with p by lia. lia.
Qed.

Lemma le16_rev_at_ne m p n q :
  0 <= p -> 0 <= n -> p + n <= zlen m -> 0 <= q -> q + 2 <= p \/ p + n <= q ->
  le16 (rev_at m p n) q = le16 m q.
Proof.
  intros. unfold le16. rewrite !zat_rev_at by lia. by rewrite !decide_False by lia.
Qed.

#[export] Hint Resolve rev_at_bytes : bgt.
#[export] Hint Rewrite zlen_rev_at using zlia : zlist.
