(* ===== verification/Descriptor.v ===== *)
(** * Descriptor: the descriptor loops of libucsi/descriptor.h

    A descriptor is a tag byte, a length byte and that many bytes of data.  The
    specification is the encoder [encode_descriptors]; [verify_descriptors]
    accepts exactly its image, and the [for_each] iteration over an accepted loop
    visits exactly the encoded descriptors. *)

From S2P Require Import Prelude Mem.

(** ** The code *)

Definition next_descriptor (buf len : Z) (pos : option Z) : M (option Z) :=
  match pos with
  | None => mret None
  | Some pos =>
      l ← rd8 (pos + 1);
      let next := pos + 2 + l in
      mret (if buf + len <=? next then None else Some next)
  end.

Definition unknown_descriptor_data (d : Z) : Z := d + 2.
Definition unknown_descriptor_data_size (d : Z) : M Z := rd8 (d + 1).

Definition verify_descriptors (buf len : Z) : M Z :=
  catch (pos ← while_mem (fun pos =>
                fail_if (len <? pos + 2);;
                l ← rd8 (buf + pos + 1);
                mret (pos + (2 + l))) len 0;
         fail_if (negb (pos =? len));;
         mret 0) (-1).

(** ** Specification *)

Record descriptor := Descriptor { d_tag : Z; d_data : list Z }.

Definition descriptor_ok (d : descriptor) : Prop :=
  byte (d_tag d) /\ bytes (d_data d) /\ zlen (d_data d) < 256.

Definition encode_descriptor (d : descriptor) : list Z :=
  d_tag d :: zlen (d_data d) :: d_data d.
Definition encode_descriptors (ds : list descriptor) : list Z :=
  flat_map encode_descriptor ds.

(** What a client of the iterator reads at each position. *)
Definition read_descriptor (d : Z) : M descriptor :=
  tag ← rd8 d;
  n ← unknown_descriptor_data_size d;
  data ← rd_bytes (unknown_descriptor_data d) n;
  mret (Descriptor tag data).

(** The [_descriptors_first] / [_descriptors_next] pair over [len] bytes at [buf]. *)
Definition descriptors_for_each (buf len : Z) : M (list descriptor) :=
  for_each (fun p => next_descriptor buf len (Some p)) read_descriptor
    (if len =? 0 then None else Some buf).

(** ** Slices *)

Lemma zlen_slice_le m p n : 0 <= p -> 0 <= n -> p + n <= zlen m -> zlen (slice m p n) = n.
Proof. intros. unfold slice. rewrite zlen_ztake; [done|]. rewrite zlen_zdrop; zlia. Qed.
Lemma slice_bytes m p n : bytes m -> bytes (slice m p n).
Proof. intros. unfold slice. auto with bgt. Qed.
Lemma slice_nil m p n : n <= 0 -> slice m p n = [].
Proof. intros. unfold slice, ztake. by replace (Z.to_nat n) with 0%nat by lia. Qed.
Lemma zdrop_cons m p : 0 <= p < zlen m -> zdrop p m = m.[p] :: zdrop (p + 1) m.
Proof.
  intros Hp. unfold zdrop. replace (Z.to_nat (p + 1)) with (S (Z.to_nat p)) by lia.
  apply drop_S. pose proof (zget_in m p Hp) as E. unfold zget in E.
  by rewrite decide_True in E by lia.
Qed.
Lemma slice_cons m p n :
  0 <= p < zlen m -> 0 < n -> slice m p n = m.[p] :: slice m (p + 1) (n - 1).
Proof.
  intros. unfold slice, ztake. rewrite zdrop_cons by done.
  replace (Z.to_nat n) with (S (Z.to_nat (n - 1))) by lia. done.
Qed.
Lemma slice_split m p n k :
  0 <= p -> 0 <= k <= n -> p + n <= zlen m ->
  slice m p n = slice m p k ++ slice m (p + k) (n - k).
Proof.
  intros. unfold slice. rewrite <- (zdrop_zdrop p k) by lia.
  set (l := zdrop p m). unfold ztake, zdrop.
  rewrite <- (take_drop (Z.to_nat k) (take (Z.to_nat n) l)).
  rewrite take_take. replace (Z.to_nat k `min` Z.to_nat n)%nat with (Z.to_nat k) by lia.
  f_equal. rewrite skipn_firstn_comm. f_equal. lia.
Qed.

(** ** Correctness of the check *)

Lemma encode_descriptor_len d : zlen (encode_descriptor d) = 2 + zlen (d_data d).
Proof. unfold encode_descriptor. rewrite !zlen_cons. lia. Qed.

Lemma encode_descriptors_app a b :
  encode_descriptors (a ++ b) = encode_descriptors a ++ encode_descriptors b.
Proof. apply flat_map_app. Qed.

(** The descriptor at offset [p], and how it extends an encoded prefix. *)
Lemma slice_encode m p n :
  bytes m -> 0 <= p -> m.[p + 1] = n -> p + 2 + n <= zlen m ->
  exists d, descriptor_ok d /\ zlen (d_data d) = n /\ slice m p (2 + n) = encode_descriptor d.
Proof.
  intros Hm ? Hn ?. assert (0 <= n < 256) by (subst; by apply zat_range).
  exists (Descriptor (m.[p]) (slice m (p + 2) n)). unfold descriptor_ok, encode_descriptor. simpl.
  rewrite zlen_slice_le by lia. repeat split; try (by apply zat_byte); try lia.
  - by apply slice_bytes.
  - rewrite slice_cons by lia. rewrite slice_cons by lia.
    rewrite Hn. do 3 f_equal; lia.
Qed.

(** A nonempty encoding starts with its first descriptor. *)
Lemma slice_encode_inv m p len d ds :
  0 <= p -> 0 <= len -> p + len <= zlen m ->
  slice m p len = encode_descriptors (d :: ds) ->
  m.[p] = d_tag d /\ m.[p + 1] = zlen (d_data d) /\ 2 + zlen (d_data d) <= len /\
  slice m (p + 2) (zlen (d_data d)) = d_data d /\
  slice m (p + (2 + zlen (d_data d))) (len - (2 + zlen (d_data d))) = encode_descriptors ds.
Proof.
  intros ? ? ? E. set (n := zlen (d_data d)).
  assert (0 <= n) by apply zlen_nonneg.
  simpl in E.
  assert (Hlen : zlen (slice m p len) = 2 + n + zlen (encode_descriptors ds)).
  { rewrite E. change (flat_map _ _) with (encode_descriptors ds).
    rewrite !zlen_cons, zlen_app. subst n. lia. }
  pose proof (zlen_nonneg (encode_descriptors ds)).
  rewrite zlen_slice_le in Hlen by lia.
  rewrite slice_cons in E by lia. injection E as E0 E.
  rewrite slice_cons in E by lia. injection E as E1 E.
  rewrite (slice_split m (p + 1 + 1) (len - 1 - 1) n) in E by lia.
  apply app_inj_1 in E as [E2 E3];
    [|pose proof (zlen_slice_le m (p + 1 + 1) n); unfold zlen in *; subst n; lia].
  replace (p + 2) with (p + 1 + 1) by lia.
  replace (p + (2 + n)) with (p + 1 + 1 + n) by lia.
  replace (len - (2 + n)) with (len - 1 - 1 - n) by lia.
  repeat split; auto. lia.
Qed.

Definition verify_post (m : mem) (buf len r : Z) (m' : mem) : Prop :=
  m' = m /\
  (r = 0 /\ (exists ds, Forall descriptor_ok ds /\ slice m buf len = encode_descriptors ds) \/
   r = -1 /\ ~ (exists ds, slice m buf len = encode_descriptors ds)).

Section verify.
Context (m : mem) (buf len : Z).
Context (Hm : bytes m) (Hbuf : 0 <= buf) (Hlen : 0 <= len) (Hin : buf + len <= zlen m).

Definition tiled (p n : Z) : Prop := exists ds, slice m p n = encode_descriptors ds.

Definition verify_inv (pos : Z) (m' : mem) : Prop :=
  m' = m /\ 0 <= pos /\
  (pos <= len /\ (exists ds, Forall descriptor_ok ds /\ slice m buf pos = encode_descriptors ds) /\
     (tiled buf len -> tiled (buf + pos) (len - pos)) \/
   len < pos /\ ~ tiled buf len).

Lemma tiled_head p n : 0 <= p -> 0 < n -> p + n <= zlen m -> tiled p n ->
  2 + m.[p + 1] <= n /\ tiled (p + (2 + m.[p + 1])) (n - (2 + m.[p + 1])).
Proof.
  intros ? ? ? [[|d ds] E].
  - rewrite slice_cons in E by lia. done.
  - destruct (slice_encode_inv m p n d ds) as (_ & E1 & Hle & _ & E2); [lia..|done|].
    rewrite E1. split; [done|]. by exists ds.
Qed.

Lemma verify_step pos m' :
  verify_inv pos m' -> pos < len ->
  wp (fail_if (len <? pos + 2);; l ← rd8 (buf + pos + 1); mret (pos + (2 + l)))
     (fun pos' m'' => pos < pos' /\ verify_inv pos' m'')
     (fun m'' => m'' = m /\ ~ tiled buf len) m'.
Proof.
  intros (-> & Hpos & HI) Hlt. destruct HI as [(Hle & (ds & Hok & Eds) & Hrest)|[? ?]]; [|lia].
  assert (Hhead : tiled buf len -> 2 + m.[buf + pos + 1] <= len - pos /\
            tiled (buf + pos + (2 + m.[buf + pos + 1])) (len - pos - (2 + m.[buf + pos + 1]))).
  { intros Ht. apply tiled_head; [lia..|]. by apply Hrest. }
  byte_ranges.
  wp_step. wp_step.
  { split; [done|]. intros Ht. apply Hhead in Ht as [? _]. lia. }
  wp_step. wp_step. wp_step. split; [lia|].
  unfold verify_inv. split; [done|]. split; [lia|].
  destruct (decide (pos + (2 + m.[buf + pos + 1]) <= len)) as [Hfit|Hfit].
  - left. split; [done|]. split.
    + destruct (slice_encode m (buf + pos) (m.[buf + pos + 1])) as (d & Hd & _ & Ed); [lia || done..|].
      exists (ds ++ [d]). split; [by apply Forall_app; split; [|constructor]|].
      rewrite encode_descriptors_app, <- Eds.
      change (encode_descriptors [d]) with (encode_descriptor d ++ []).
      rewrite app_nil_r, <- Ed.
      rewrite (slice_split m buf (pos + (2 + m.[buf + pos + 1])) pos) by lia.
      do 2 f_equal. lia.
    + intros Ht. apply Hhead in Ht as [_ Ht].
      replace (buf + (pos + _)) with (buf + pos + (2 + m.[buf + pos + 1])) by lia.
      replace (len - (pos + _)) with (len - pos - (2 + m.[buf + pos + 1])) by lia. done.
  - right. split; [lia|]. intros Ht. apply Hhead in Ht as [? _]. lia.
Qed.

Lemma wp_verify_descriptors :
  wp (verify_descriptors buf len) (verify_post m buf len) (fun _ => False) m.
Proof.
  assert (Hneg : ~ tiled buf len -> verify_post m buf len (-1) m)
    by (intros; split; [done|right]; done).
  apply wp_catch, wp_bind. eapply wp_mono.
  - apply (wp_while_mem verify_inv) with (N := fun m' => m' = m /\ ~ tiled buf len).
    + intros. by apply verify_step.
    + lens. lia.
    + unfold verify_inv. split; [done|]. split; [lia|]. left. split; [lia|].
      split; [exists []; by rewrite slice_nil by lia|].
      intros. by rewrite Z.add_0_r, Z.sub_0_r.
  - simpl. intros pos m' (Hge & -> & Hpos & HI). wp_step. wp_step.
    + apply Hneg. destruct HI as [?|[? ?]]; [lia|done].
    + wp_step. assert (pos = len) as -> by lia. split; [done|left]. split; [done|].
      destruct HI as [(_ & ? & _)|]; [done|lia].
  - simpl. intros m' [-> Hn]. by apply Hneg.
Qed.
End verify.

(** ** Correctness of the iteration *)

Lemma wp_read_descriptor m p d :
  0 <= p -> p + 2 + zlen (d_data d) <= zlen m ->
  m.[p] = d_tag d -> m.[p + 1] = zlen (d_data d) -> slice m (p + 2) (zlen (d_data d)) = d_data d ->
  wp (read_descriptor p) (fun d' m' => d' = d /\ m' = m) (fun _ => False) m.
Proof.
  intros ? ? E0 E1 E2. unfold read_descriptor, unknown_descriptor_data_size, unknown_descriptor_data.
  lens. wp_step. wp_step. wp_step. wp_step. wp_step. apply wp_rd_bytes; [lia..|].
  wp_step. rewrite E0, E1, E2. by destruct d.
Qed.

Lemma wp_for_each_descriptors m buf len ds :
  forall fuel p n,
  (length ds < fuel)%nat -> buf <= p -> 0 <= buf -> 0 <= n -> p + n = buf + len ->
  p + n <= zlen m -> slice m p n = encode_descriptors ds ->
  wp (for_each_fuel fuel (fun p => next_descriptor buf len (Some p)) read_descriptor
        (if n =? 0 then None else Some p))
     (fun r m' => r = ds /\ m' = m) (fun _ => False) m.
Proof.
  induction ds as [|d ds IH]; intros fuel p n Hf ? ? ? ? ? E.
  - assert (n = 0) as ->.
    { destruct (decide (n = 0)); [done|]. rewrite slice_cons in E by lia. done. }
    destruct fuel; by apply wp_ret.
  - destruct (slice_encode_inv m p n d ds) as (E0 & E1 & Hle & E2 & E3); [lia..|done|].
    lens. destruct (n =? 0) eqn:En; [lia|].
    destruct fuel as [|fuel]; [simpl in Hf; lia|]. simpl.
    wp_step. eapply wp_mono; [apply (wp_read_descriptor m p d); done || lia| |done].
    simpl. intros d' m' [-> ->]. wp_step. unfold next_descriptor. wp_step. wp_step. wp_step.
    wp_step. rewrite E1.
    assert ((if buf + len <=? p + 2 + zlen (d_data d) then None else Some (p + 2 + zlen (d_data d)))
            = (if n - (2 + zlen (d_data d)) =? 0 then None
               else Some (p + (2 + zlen (d_data d))))) as ->.
    { destruct (buf + len <=? _) eqn:E4, (n - _ =? 0) eqn:E5; try lia; [done|].
      f_equal. lia. }
    eapply wp_mono; [apply IH; [simpl in Hf; lia|lia..|done]| |done].
    simpl. intros r m' [-> ->]. wp_step. done.
Qed.

Lemma encode_descriptors_len ds :
  2 * Z.of_nat (length ds) <= zlen (encode_descriptors ds).
Proof.
  induction ds as [|d ds IH]; [done|]. simpl length.
  change (encode_descriptors (d :: ds)) with (encode_descriptor d ++ encode_descriptors ds).
  rewrite zlen_app, encode_descriptor_len. lens. lia.
Qed.

Lemma wp_descriptors_for_each m buf len ds :
  0 <= buf -> 0 <= len -> buf + len <= zlen m -> slice m buf len = encode_descriptors ds ->
  wp (descriptors_for_each buf len) (fun r m' => r = ds /\ m' = m) (fun _ => False) m.
Proof.
  intros ? ? ? E. unfold descriptors_for_each, for_each, wp.
  pose proof (encode_descriptors_len ds) as Hl. rewrite <- E, zlen_slice_le in Hl by lia.
  apply (wp_for_each_descriptors m buf len ds); try lia; [|done]. unfold zlen in *. lia.
Qed.

Lemma read_descriptor_read_only p : read_only (read_descriptor p).
Proof. unfold read_descriptor, unknown_descriptor_data_size. auto 10 with bgt. Qed.
Lemma next_descriptor_read_only buf len p : read_only (next_descriptor buf len p).
Proof. destruct p; simpl; auto 10 with bgt. Qed.

(** ** Properties *)

(** [verify_descriptors] returns 0 or -1, terminates, leaves the memory unchanged,
    and returns 0 exactly when the bytes are the encoding of a list of descriptors;
    the [first]/[next] iteration over an accepted loop then visits exactly those
    descriptors, in order. *)
Theorem verify_descriptors_correct m buf len :
  bytes m -> 0 <= buf -> 0 <= len -> buf + len <= zlen m ->
  (exists ds, Forall descriptor_ok ds /\ slice m buf len = encode_descriptors ds /\
     verify_descriptors buf len m = Ret 0 m /\ descriptors_for_each buf len m = Ret ds m) \/
  (~ (exists ds, slice m buf len = encode_descriptors ds) /\
     verify_descriptors buf len m = Ret (-1) m).
Proof.
  intros Hb ? ? ?.
  destruct (wp_total _ _ _ _ (wp_verify_descriptors m buf len Hb ltac:(lia) ltac:(lia) ltac:(lia)))
    as [(r & m' & E & -> & [[-> (ds & Hok & Eds)]|[-> Hno]])|(? & _ & [])]; [left|by right].
  destruct (wp_total _ _ _ _ (wp_descriptors_for_each m buf len ds ltac:(lia) ltac:(lia) ltac:(lia) Eds))
    as [(r & m' & Er & -> & ->)|(? & _ & [])].
  by exists ds.
Qed.

(** A language descriptor and an empty private one, behind two other bytes. *)
Definition descriptors_example : mem := [0xaa; 0xbb; 0x0a; 0x04; 0x65; 0x6e; 0x67; 0x00; 0x80; 0x00].

Lemma verify_descriptors_correct_witness :
  exists ds, descriptors_for_each 2 8 descriptors_example = Ret ds descriptors_example /\
    verify_descriptors 2 8 descriptors_example = Ret 0 descriptors_example.
Proof.
  destruct (verify_descriptors_correct descriptors_example 2 8) as [(ds & _ & _ & Ev & E)|[_ Ev]];
    [repeat constructor; unfold byte; lia|lia|lia|vm_compute; discriminate|exists ds; exact (conj E Ev)|].
  vm_compute in Ev. discriminate Ev.
Defined.
