(* ===== verification/Crc32.v ===== *)
(** * Crc32: libucsi/crc32.c and crc32.h

    The table-driven MPEG-2 CRC.  It is proved equal to the bit-serial division
    by the generator polynomial, to leave residue 0 on a message followed by its
    own CRC, and to detect every corruption of a single byte. *)

From S2P Require Import Prelude.

(** ** The code *)

Definition crc32tbl : list Z :=
  [0x00000000; 0x04c11db7; 0x09823b6e; 0x0d4326d9;
   0x130476dc; 0x17c56b6b; 0x1a864db2; 0x1e475005;
   0x2608edb8; 0x22c9f00f; 0x2f8ad6d6; 0x2b4bcb61;
   0x350c9b64; 0x31cd86d3; 0x3c8ea00a; 0x384fbdbd;
   0x4c11db70; 0x48d0c6c7; 0x4593e01e; 0x4152fda9;
   0x5f15adac; 0x5bd4b01b; 0x569796c2; 0x52568b75;
   0x6a1936c8; 0x6ed82b7f; 0x639b0da6; 0x675a1011;
   0x791d4014; 0x7ddc5da3; 0x709f7b7a; 0x745e66cd;
   0x9823b6e0; 0x9ce2ab57; 0x91a18d8e; 0x95609039;
   0x8b27c03c; 0x8fe6dd8b; 0x82a5fb52; 0x8664e6e5;
   0xbe2b5b58; 0xbaea46ef; 0xb7a96036; 0xb3687d81;
   0xad2f2d84; 0xa9ee3033; 0xa4ad16ea; 0xa06c0b5d;
   0xd4326d90; 0xd0f37027; 0xddb056fe; 0xd9714b49;
   0xc7361b4c; 0xc3f706fb; 0xceb42022; 0xca753d95;
   0xf23a8028; 0xf6fb9d9f; 0xfbb8bb46; 0xff79a6f1;
   0xe13ef6f4; 0xe5ffeb43; 0xe8bccd9a; 0xec7dd02d;
   0x34867077; 0x30476dc0; 0x3d044b19; 0x39c556ae;
   0x278206ab; 0x23431b1c; 0x2e003dc5; 0x2ac12072;
   0x128e9dcf; 0x164f8078; 0x1b0ca6a1; 0x1fcdbb16;
   0x018aeb13; 0x054bf6a4; 0x0808d07d; 0x0cc9cdca;
   0x7897ab07; 0x7c56b6b0; 0x71159069; 0x75d48dde;
   0x6b93dddb; 0x6f52c06c; 0x6211e6b5; 0x66d0fb02;
   0x5e9f46bf; 0x5a5e5b08; 0x571d7dd1; 0x53dc6066;
   0x4d9b3063; 0x495a2dd4; 0x44190b0d; 0x40d816ba;
   0xaca5c697; 0xa864db20; 0xa527fdf9; 0xa1e6e04e;
   0xbfa1b04b; 0xbb60adfc; 0xb6238b25; 0xb2e29692;
   0x8aad2b2f; 0x8e6c3698; 0x832f1041; 0x87ee0df6;
   0x99a95df3; 0x9d684044; 0x902b669d; 0x94ea7b2a;
   0xe0b41de7; 0xe4750050; 0xe9362689; 0xedf73b3e;
   0xf3b06b3b; 0xf771768c; 0xfa325055; 0xfef34de2;
   0xc6bcf05f; 0xc27dede8; 0xcf3ecb31; 0xcbffd686;
   0xd5b88683; 0xd1799b34; 0xdc3abded; 0xd8fba05a;
   0x690ce0ee; 0x6dcdfd59; 0x608edb80; 0x644fc637;
   0x7a089632; 0x7ec98b85; 0x738aad5c; 0x774bb0eb;
   0x4f040d56; 0x4bc510e1; 0x46863638; 0x42472b8f;
   0x5c007b8a; 0x58c1663d; 0x558240e4; 0x51435d53;
   0x251d3b9e; 0x21dc2629; 0x2c9f00f0; 0x285e1d47;
   0x36194d42; 0x32d850f5; 0x3f9b762c; 0x3b5a6b9b;
   0x0315d626; 0x07d4cb91; 0x0a97ed48; 0x0e56f0ff;
   0x1011a0fa; 0x14d0bd4d; 0x19939b94; 0x1d528623;
   0xf12f560e; 0xf5ee4bb9; 0xf8ad6d60; 0xfc6c70d7;
   0xe22b20d2; 0xe6ea3d65; 0xeba91bbc; 0xef68060b;
   0xd727bbb6; 0xd3e6a601; 0xdea580d8; 0xda649d6f;
   0xc423cd6a; 0xc0e2d0dd; 0xcda1f604; 0xc960ebb3;
   0xbd3e8d7e; 0xb9ff90c9; 0xb4bcb610; 0xb07daba7;
   0xae3afba2; 0xaafbe615; 0xa7b8c0cc; 0xa379dd7b;
   0x9b3660c6; 0x9ff77d71; 0x92b45ba8; 0x9675461f;
   0x8832161a; 0x8cf30bad; 0x81b02d74; 0x857130c3;
   0x5d8a9099; 0x594b8d2e; 0x5408abf7; 0x50c9b640;
   0x4e8ee645; 0x4a4ffbf2; 0x470cdd2b; 0x43cdc09c;
   0x7b827d21; 0x7f436096; 0x7200464f; 0x76c15bf8;
   0x68860bfd; 0x6c47164a; 0x61043093; 0x65c52d24;
   0x119b4be9; 0x155a565e; 0x18197087; 0x1cd86d30;
   0x029f3d35; 0x065e2082; 0x0b1d065b; 0x0fdc1bec;
   0x3793a651; 0x3352bbe6; 0x3e119d3f; 0x3ad08088;
   0x2497d08d; 0x2056cd3a; 0x2d15ebe3; 0x29d4f654;
   0xc5a92679; 0xc1683bce; 0xcc2b1d17; 0xc8ea00a0;
   0xd6ad50a5; 0xd26c4d12; 0xdf2f6bcb; 0xdbee767c;
   0xe3a1cbc1; 0xe760d676; 0xea23f0af; 0xeee2ed18;
   0xf0a5bd1d; 0xf464a0aa; 0xf9278673; 0xfde69bc4;
   0x89b8fd09; 0x8d79e0be; 0x803ac667; 0x84fbdbd0;
   0x9abc8bd5; 0x9e7d9662; 0x933eb0bb; 0x97ffad0c;
   0xafb010b1; 0xab710d06; 0xa6322bdf; 0xa2f33668;
   0xbcb4666d; 0xb8757bda; 0xb5365d03; 0xb1f740b4].

Definition CRC32_INIT : Z := u32 (Z.lnot 0).

(** One turn of the loop of [crc32]. *)
Definition crc32_step (crc b : Z) : Z :=
  Z.lxor (u32 (Z.shiftl crc 8)) (crc32tbl.[Z.land (Z.lxor (Z.shiftr crc 24) b) 0xff]).

Definition crc32 (crc : Z) (buf : list Z) : Z := foldl crc32_step crc buf.

(** ** Reference: division by the generator polynomial, one bit at a time *)

Definition crc_poly : Z := 0x04c11db7.

Definition crc_bit (c : Z) : Z :=
  Z.lxor (u32 (Z.shiftl c 1)) (if Z.testbit c 31 then crc_poly else 0).

Definition crc_bits (n : nat) (c : Z) : Z := Nat.iter n crc_bit c.

Definition crc_ref_byte (c b : Z) : Z := crc_bits 8 (Z.lxor c (Z.shiftl b 24)).
Definition crc_ref (c : Z) (buf : list Z) : Z := foldl crc_ref_byte c buf.

(** ** Properties of the table *)

Lemma crc32tbl_ref i : byte i -> crc32tbl.[i] = crc_bits 8 (Z.shiftl i 24).
Proof.
  intros Hi. apply Z.eqb_eq.
  apply (forall_byte (fun i => crc32tbl.[i] =? crc_bits 8 (Z.shiftl i 24))); [|done].
  by vm_compute.
Qed.

Lemma crc32tbl_range i : byte i -> 0 <= crc32tbl.[i] < 2 ^ 32.
Proof.
  intros Hi.
  assert ((0 <=? crc32tbl.[i]) && (crc32tbl.[i] <? 2 ^ 32) = true) as H.
  { apply (forall_byte (fun i => (0 <=? crc32tbl.[i]) && (crc32tbl.[i] <? 2 ^ 32))); [|done].
    by vm_compute. }
  apply andb_true_iff in H as [? ?]. lia.
Qed.

(** The low byte of an entry identifies it: an inverse, checked on all entries. *)
Definition crc32tbl_find (low : Z) : Z :=
  default 0 (list_find (fun i => crc32tbl.[i] mod 256 = low) all_bytes ≫= fun p => Some p.2).

Lemma crc32tbl_low_inj i j :
  byte i -> byte j -> crc32tbl.[i] mod 256 = crc32tbl.[j] mod 256 -> i = j.
Proof.
  assert (Hinv : forall k, byte k -> crc32tbl_find (crc32tbl.[k] mod 256) = k).
  { intros k Hk. apply Z.eqb_eq.
    apply (forall_byte (fun k => crc32tbl_find (crc32tbl.[k] mod 256) =? k)); [|done].
    by vm_compute. }
  intros Hi Hj E. rewrite <- (Hinv i), <- (Hinv j) by done. by rewrite E.
Qed.

(** ** Bit-level lemmas *)

Lemma u32_lxor a b : u32 (Z.lxor a b) = Z.lxor (u32 a) (u32 b).
Proof.
  unfold u32. rewrite <- !Z.land_ones by lia. apply Z.bits_inj'. intros n Hn.
  rewrite !Z.land_spec, !Z.lxor_spec, !Z.land_spec.
  by destruct (Z.testbit a n), (Z.testbit b n), (Z.testbit (Z.ones 32) n).
Qed.

Lemma lxor_range n a b :
  0 <= n -> 0 <= a < 2 ^ n -> 0 <= b < 2 ^ n -> 0 <= Z.lxor a b < 2 ^ n.
Proof.
  intros Hn Ha Hb. rewrite <- (Z.mod_small a (2 ^ n)), <- (Z.mod_small b (2 ^ n)) by lia.
  rewrite <- !Z.land_ones by lia.
  replace (Z.lxor _ _) with (Z.land (Z.lxor a b) (Z.ones n)).
  - rewrite Z.land_ones by lia. apply Z.mod_pos_bound. lia.
  - apply Z.bits_inj'. intros k Hk. rewrite !Z.land_spec, !Z.lxor_spec, !Z.land_spec.
    by destruct (Z.testbit a k), (Z.testbit b k), (Z.testbit (Z.ones n) k).
Qed.

Lemma crc_bit_lxor x y : crc_bit (Z.lxor x y) = Z.lxor (crc_bit x) (crc_bit y).
Proof.
  unfold crc_bit. rewrite Z.shiftl_lxor, u32_lxor, Z.lxor_spec.
  set (a := u32 (Z.shiftl x 1)). set (b := u32 (Z.shiftl y 1)).
  destruct (Z.testbit x 31), (Z.testbit y 31); simpl;
    rewrite ?Z.lxor_0_r; try done.
  - rewrite Z.lxor_assoc, <- (Z.lxor_assoc crc_poly), (Z.lxor_comm crc_poly b).
    by rewrite Z.lxor_assoc, Z.lxor_nilpotent, Z.lxor_0_r.
  - by rewrite !Z.lxor_assoc, (Z.lxor_comm b).
  - by rewrite Z.lxor_assoc.
Qed.

Lemma crc_bits_lxor n x y : crc_bits n (Z.lxor x y) = Z.lxor (crc_bits n x) (crc_bits n y).
Proof. induction n; simpl; [done|]. unfold crc_bits in *. by rewrite IHn, crc_bit_lxor. Qed.

(** While the top bit is clear the division only shifts. *)
Lemma crc_bits_low n x :
  (n <= 8)%nat -> 0 <= x < 2 ^ 24 -> crc_bits n x = x * 2 ^ Z.of_nat n.
Proof.
  intros Hn Hx. induction n as [|n IH]; simpl crc_bits; [lia|].
  change (crc_bit (crc_bits n x) = x * 2 ^ Z.of_nat (S n)). rewrite IH by lia.
  assert (0 < 2 ^ Z.of_nat n <= 2 ^ 7).
  { split; [lia|]. apply Z.pow_le_mono_r; lia. }
  unfold crc_bit.
  assert (0 <= x * 2 ^ Z.of_nat n < 2 ^ 31) by nia.
  assert (Z.testbit (x * 2 ^ Z.of_nat n) 31 = false) as ->
    by (apply Z.testbit_false; [lia|]; by rewrite Z.div_small by lia).
  rewrite Z.lxor_0_r, Z.shiftl_mul_pow2 by lia.
  rewrite u32_small by lia. rewrite Nat2Z.inj_succ, Z.pow_succ_r by lia. lia.
Qed.

(** A register is its top byte and the 24 bits below it. *)
Lemma split_top c : 0 <= c < 2 ^ 32 ->
  c = Z.lxor (Z.shiftl (c / 2 ^ 24) 24) (c mod 2 ^ 24).
Proof.
  intros Hc. pose proof (Z.mod_pos_bound c (2 ^ 24)).
  rewrite <- Z.add_nocarry_lxor.
  - rewrite Z.shiftl_mul_pow2 by lia. lia.
  - pose proof (lor_shiftl_add (c / 2 ^ 24) (c mod 2 ^ 24) 24) as Hl.
    rewrite <- Z.shiftl_mul_pow2 in Hl by lia.
    pose proof (Z.add_lor_land (Z.shiftl (c / 2 ^ 24) 24) (c mod 2 ^ 24)). lia.
Qed.

Lemma shiftl_low_24 c : u32 (Z.shiftl c 8) = c mod 2 ^ 24 * 2 ^ 8.
Proof.
  unfold u32. rewrite Z.shiftl_mul_pow2 by lia.
  change (2 ^ 32) with (2 ^ 24 * 2 ^ 8). by rewrite Z.mul_mod_distr_r by lia.
Qed.

Lemma crc_index c b : 0 <= c < 2 ^ 32 -> byte b ->
  Z.land (Z.lxor (Z.shiftr c 24) b) 0xff = Z.lxor (c / 2 ^ 24) b /\ byte (Z.lxor (c / 2 ^ 24) b).
Proof.
  unfold byte. intros Hc Hb. rewrite Z.shiftr_div_pow2 by lia.
  pose proof (lxor_range 8 (c / 2 ^ 24) b) as H. change (2 ^ 8) with 256 in H.
  change (2 ^ 24) with 16777216 in *. change (2 ^ 32) with 4294967296 in *.
  rewrite land_255, Z.mod_small; lia.
Qed.

Lemma crc32_step_range c b : 0 <= c < 2 ^ 32 -> byte b -> 0 <= crc32_step c b < 2 ^ 32.
Proof.
  intros Hc Hb. unfold crc32_step. destruct (crc_index c b Hc Hb) as [-> Hi].
  apply lxor_range; [lia|apply u32_range|by apply crc32tbl_range].
Qed.

Lemma crc32_range c buf : 0 <= c < 2 ^ 32 -> bytes buf -> 0 <= crc32 c buf < 2 ^ 32.
Proof.
  revert c. induction buf as [|b buf IH]; intros c Hc Hb; simpl; [done|].
  inversion Hb; subst. apply IH; [|done]. by apply crc32_step_range.
Qed.

Lemma crc32_step_ref c b : 0 <= c < 2 ^ 32 -> byte b -> crc32_step c b = crc_ref_byte c b.
Proof.
  intros Hc Hb. unfold crc32_step, crc_ref_byte. destruct (crc_index c b Hc Hb) as [-> Hi].
  rewrite crc32tbl_ref by done.
  rewrite (split_top c Hc) at 3.
  rewrite Z.lxor_assoc, (Z.lxor_comm (c mod _)), <- Z.lxor_assoc, <- Z.shiftl_lxor.
  rewrite crc_bits_lxor, (crc_bits_low 8 (c mod _)); [|lia|apply Z.mod_pos_bound; lia].
  rewrite Z.lxor_comm. f_equal. apply shiftl_low_24.
Qed.

Lemma crc32_app c a b : crc32 c (a ++ b) = crc32 (crc32 c a) b.
Proof. apply foldl_app. Qed.

(** The big-endian bytes of a 32-bit word, as the CRC field of a section holds it. *)
Definition be32_bytes (v : Z) : list Z :=
  [v / 2 ^ 24 mod 256; v / 2 ^ 16 mod 256; v / 2 ^ 8 mod 256; v mod 256].

Lemma crc32_step_top d r : 0 <= d < 256 -> 0 <= r < 2 ^ 24 ->
  crc32_step (d * 2 ^ 24 + r) d = r * 256.
Proof.
  intros Hd Hr. unfold crc32_step.
  assert (Hc : 0 <= d * 2 ^ 24 + r < 2 ^ 32) by lia.
  destruct (crc_index (d * 2 ^ 24 + r) d Hc) as [-> _]; [done|].
  replace ((d * 2 ^ 24 + r) / 2 ^ 24) with d
    by (rewrite Z.div_add_l, Z.div_small; lia).
  rewrite Z.lxor_nilpotent. change (crc32tbl.[0]) with 0.
  rewrite Z.lxor_0_r, shiftl_low_24.
  rewrite Z.add_comm, Z.mod_add, Z.mod_small by lia. done.
Qed.

Lemma crc32_self c : 0 <= c < 2 ^ 32 -> crc32 c (be32_bytes c) = 0.
Proof.
  intros Hc. destruct (digits4_exist c Hc) as (a & b & c1 & d & ? & ? & ? & ? & Ev).
  destruct (digits4 a b c1 d) as (E0 & E1 & E2 & E3 & _); [done..|]. rewrite <- Ev in *.
  unfold be32_bytes, crc32. simpl foldl. change (2 ^ 8) with 256.
  rewrite E0, E1, E2, E3, (Z.mod_small d) by done. rewrite Ev.
  assert (E : forall v d r, v = d * 2 ^ 24 + r -> 0 <= d < 256 -> 0 <= r < 2 ^ 24 ->
    crc32_step v d = r * 256) by (intros ? ? ? ->; apply crc32_step_top).
  change (2 ^ 24) with 16777216 in *. change (2 ^ 16) with 65536.
  rewrite (E _ d (c1 * 65536 + b * 256 + a)) by lia.
  rewrite (E _ c1 (b * 65536 + a * 256)) by lia.
  rewrite (E _ b (a * 65536)) by lia.
  rewrite (E _ a 0) by lia. done.
Qed.

Lemma crc32_step_inj c c' b : 0 <= c < 2 ^ 32 -> 0 <= c' < 2 ^ 32 -> byte b ->
  crc32_step c b = crc32_step c' b -> c = c'.
Proof.
  intros Hc Hc' Hb. unfold crc32_step.
  destruct (crc_index c b Hc Hb) as [-> Hi], (crc_index c' b Hc' Hb) as [-> Hi'].
  rewrite !shiftl_low_24. intros E.
  assert (Hlow : forall x i, byte i ->
    Z.lxor (x mod 2 ^ 24 * 2 ^ 8) (crc32tbl.[i]) mod 256 = crc32tbl.[i] mod 256).
  { intros x i Hbi. rewrite <- !land_255. apply Z.bits_inj'. intros n Hn.
    rewrite !Z.land_spec, Z.lxor_spec.
    destruct (decide (n < 8)).
    - rewrite Z.mul_pow2_bits_low by lia. by rewrite xorb_false_l.
    - replace (Z.testbit 255 n) with false; [by rewrite !andb_false_r|].
      symmetry. change 255 with (Z.ones 8). apply Z.ones_spec_high. lia. }
  assert (Ei : Z.lxor (c / 2 ^ 24) b = Z.lxor (c' / 2 ^ 24) b).
  { apply crc32tbl_low_inj; [done..|].
    rewrite <- (Hlow c), <- (Hlow c') by done. by rewrite E. }
  rewrite Ei in E.
  assert (c mod 2 ^ 24 * 2 ^ 8 = c' mod 2 ^ 24 * 2 ^ 8) as E2.
  { apply (f_equal (fun z => Z.lxor z (crc32tbl.[Z.lxor (c' / 2 ^ 24) b]))) in E.
    by rewrite !Z.lxor_assoc, !Z.lxor_nilpotent, !Z.lxor_0_r in E. }
  apply (f_equal (fun z => Z.lxor z b)) in Ei.
  rewrite !Z.lxor_assoc, !Z.lxor_nilpotent, !Z.lxor_0_r in Ei. lia.
Qed.

Lemma crc32_step_byte_inj c b b' : 0 <= c < 2 ^ 32 -> byte b -> byte b' ->
  crc32_step c b = crc32_step c b' -> b = b'.
Proof.
  intros Hc Hb Hb'. unfold crc32_step.
  destruct (crc_index c b Hc Hb) as [-> Hi], (crc_index c b' Hc Hb') as [-> Hi'].
  intros E. set (s := u32 (Z.shiftl c 8)) in *.
  apply (f_equal (Z.lxor s)) in E.
  rewrite <- !Z.lxor_assoc, !Z.lxor_nilpotent, !Z.lxor_0_l in E.
  assert (Ei : Z.lxor (c / 2 ^ 24) b = Z.lxor (c / 2 ^ 24) b')
    by (apply crc32tbl_low_inj; [done..|by rewrite E]).
  apply (f_equal (Z.lxor (c / 2 ^ 24))) in Ei.
  by rewrite <- !Z.lxor_assoc, !Z.lxor_nilpotent, !Z.lxor_0_l in Ei.
Qed.

Lemma crc32_inj c c' buf : 0 <= c < 2 ^ 32 -> 0 <= c' < 2 ^ 32 -> bytes buf ->
  crc32 c buf = crc32 c' buf -> c = c'.
Proof.
  revert c c'. induction buf as [|b buf IH]; intros c c' Hc Hc' Hb E; [done|].
  inversion Hb; subst. simpl in E.
  apply (crc32_step_inj c c' b); [done..|]. apply IH; eauto using crc32_step_range.
Qed.

(** One changed byte always changes the CRC. *)
Lemma crc32_changed c a x y b :
  0 <= c < 2 ^ 32 -> bytes (a ++ x :: b) -> byte y -> x <> y ->
  crc32 c (a ++ x :: b) <> crc32 c (a ++ y :: b).
Proof.
  intros Hc Hb Hy Hne E. apply Forall_app in Hb as [Ha Hxb]. inversion Hxb; subst.
  rewrite !crc32_app in E. simpl in E.
  pose proof (crc32_range c a Hc Ha).
  apply crc32_inj in E; [|by apply crc32_step_range..|done].
  by apply crc32_step_byte_inj in E.
Qed.

(** ** Properties *)

(** C4: The table-driven [crc32] computes, on every message and from every register
    value, the bit-serial CRC of the generator polynomial 0x04c11db7. *)
Theorem crc32_bitserial c buf :
  0 <= c < 2 ^ 32 -> bytes buf -> crc32 c buf = crc_ref c buf.
Proof.
  revert c. induction buf as [|b buf IH]; intros c Hc Hb; [done|].
  inversion Hb; subst. simpl. rewrite <- crc32_step_ref by done.
  apply IH; [by apply crc32_step_range|done].
Qed.

Lemma crc32_bitserial_witness :
  crc32 CRC32_INIT [0x00; 0xb0; 0x0d; 0xff] = crc_ref CRC32_INIT [0x00; 0xb0; 0x0d; 0xff].
Proof.
  apply (crc32_bitserial CRC32_INIT [0x00; 0xb0; 0x0d; 0xff]);
    [by vm_compute|repeat constructor; unfold byte; lia].
Defined.
