(* ===== verification/PsiSection.v ===== *)
(** * PsiSection: libucsi/section.h

    The generic section header, its CRC and the tracking of the sections of a
    table.  A section pointer is offset 0 of its memory object: the buffer the
    caller handed to [section_codec]. *)

From S2P Require Import Prelude Mem EndianOps Descriptor Crc32.

Definition CRC_SIZE : Z := 4.

(** [sizeof(struct section)] and [sizeof(struct section_ext)], both packed. *)
Definition sizeof_section : Z := 3.
Definition sizeof_section_ext : Z := 8.

(** ** The packed structures

    The bit-fields of [struct section], read after [bswap16(buf+1)]: the fields are
    declared least significant first on a little-endian host. *)
Definition section_table_id : M Z := rd8 0.
Definition section_syntax_indicator : M Z := x ← rd16 1; mret (Z.shiftr x 15).
Definition section_private_indicator : M Z := x ← rd16 1; mret (Z.land (Z.shiftr x 14) 1).
Definition section_reserved : M Z := x ← rd16 1; mret (Z.land (Z.shiftr x 12) 3).
Definition section_length_field : M Z := x ← rd16 1; mret (Z.land x 0xfff).

(** The further fields of [struct section_ext]. *)
Definition section_ext_table_id_ext : M Z := rd16 3.
Definition section_ext_version_number : M Z := x ← rd8 5; mret (Z.land (Z.shiftr x 1) 0x1f).
Definition section_ext_current_next_indicator : M Z := x ← rd8 5; mret (Z.land x 1).
Definition section_ext_section_number : M Z := rd8 6.
Definition section_ext_last_section_number : M Z := rd8 7.

(** [section->length + sizeof(struct section)], in [size_t]. *)
Definition section_length : M Z :=
  l ← section_length_field; mret (u64 (l + sizeof_section)).

(** [section->length + sizeof(struct section) - CRC_SIZE], in [size_t]: a length of 0
    wraps around. *)
Definition section_ext_length : M Z :=
  l ← section_length_field; mret (u64 (l + sizeof_section - CRC_SIZE)).

Definition section_codec (len : Z) : M unit :=
  fail_if (len <? 3);;
  bswap16 1;;
  l ← section_length_field;
  fail_if (negb (len =? u32 (l + 3))).

Definition section_check_crc : M Z :=
  len ← section_length;
  bswap16 1;;
  buf ← rd_bytes 0 len;
  let crc := crc32 CRC32_INIT buf in
  bswap16 1;;
  mret (if negb (crc =? 0) then -1 else 0).

Definition section_ext_decode (check_crc : bool) : M unit :=
  syntax_indicator ← section_syntax_indicator;
  fail_if (syntax_indicator =? 0);;
  (if check_crc then r ← section_check_crc; fail_if (negb (r =? 0)) else mret tt);;
  bswap16 sizeof_section.

Definition section_ext_encode (update_crc : bool) : M unit :=
  syntax_indicator ← section_syntax_indicator;
  fail_if (syntax_indicator =? 0);;
  bswap16 sizeof_section;;
  if update_crc then
    l ← section_length_field;
    let len := sizeof_section + l in
    bswap16 1;;
    buf ← rd_bytes 0 (len - 4);
    let crc := crc32 CRC32_INIT buf in
    bswap16 1;;
    wr32 (len - 4) crc;;
    bswap32 (len - 4)
  else mret tt.

(** ** Tracking the sections of a table *)

Record psi_table_state := PsiTableState {
  pts_version_number : Z;       (* uint8_t *)
  pts_next_section_number : Z;  (* uint16_t *)
  pts_complete : bool;
  pts_new_table : bool
}.

(** The header fields of a parsed section that [section_ext_useful] reads. *)
Record section_ext_hdr := SectionExtHdr {
  sx_version_number : Z;
  sx_section_number : Z;
  sx_last_section_number : Z
}.
Definition read_section_ext_hdr : M section_ext_hdr :=
  v ← section_ext_version_number;
  s ← section_ext_section_number;
  l ← section_ext_last_section_number;
  mret (SectionExtHdr v s l).

Definition psi_table_state_reset (t : psi_table_state) : psi_table_state :=
  PsiTableState 0xff (pts_next_section_number t) (pts_complete t) (pts_new_table t).

(** The two statements after the conditional of [section_ext_useful]. *)
Definition psi_table_state_advance (s : section_ext_hdr) (t : psi_table_state) : psi_table_state :=
  let next := u16 (pts_next_section_number t + 1) in
  PsiTableState (pts_version_number t) next
    (if sx_last_section_number s <? next then true else pts_complete t) (pts_new_table t).

Definition section_ext_useful (s : section_ext_hdr) (t : psi_table_state) : bool * psi_table_state :=
  if (sx_version_number s =? pts_version_number t) && pts_complete t then (false, t)
  else if negb (sx_version_number s =? pts_version_number t) then
    if negb (sx_section_number s =? 0) then (false, t)
    else (true, psi_table_state_advance s (PsiTableState (sx_version_number s) 0 false true))
  else if sx_section_number s =? pts_next_section_number t then
    (true, psi_table_state_advance s
       (PsiTableState (pts_version_number t) (pts_next_section_number t) (pts_complete t) false))
  else (false, t).

(** ** The parsed section *)

(** A section after [section_codec]: the object holds exactly the section. *)
Definition parsed (m : mem) (L : Z) : Prop :=
  bytes m /\ zlen m = L + 3 /\ Z.land (le16 m 1) 0xfff = L.

Lemma length_field_range m : 0 <= Z.land (le16 m 1) 0xfff <= 4095.
Proof. apply land_range. lia. Qed.

Lemma wp_section_length_field Q N m :
  3 <= zlen m -> Q (Z.land (le16 m 1) 0xfff) m -> wp section_length_field Q N m.
Proof. intros. unfold section_length_field. wp_step. wp_step. by wp_step. Qed.

Lemma section_length_field_run m :
  3 <= zlen m -> section_length_field m = Ret (Z.land (le16 m 1) 0xfff) m.
Proof. intros. unfold section_length_field. by erewrite bind_run by (apply rd16_run; lia). Qed.

Lemma wp_section_length Q N m :
  3 <= zlen m -> Q (Z.land (le16 m 1) 0xfff + 3) m -> wp section_length Q N m.
Proof.
  intros. unfold section_length, sizeof_section. wp_step. apply wp_section_length_field; [done|].
  pose proof (length_field_range m). wp_step. by rewrite u64_small by lia.
Qed.

(** The extended length is the arithmetic one as soon as there is room for a CRC byte. *)
Lemma wp_section_ext_length Q N m :
  3 <= zlen m -> 0 < Z.land (le16 m 1) 0xfff -> Q (Z.land (le16 m 1) 0xfff - 1) m ->
  wp section_ext_length Q N m.
Proof.
  intros ? ? HQ. unfold section_ext_length, sizeof_section, CRC_SIZE. wp_step.
  apply wp_section_length_field; [done|]. pose proof (length_field_range m). wp_step.
  rewrite u64_small by lia. by replace (_ + 3 - 4) with (Z.land (le16 m 1) 0xfff - 1) by lia.
Qed.

(** A write elsewhere leaves the length field alone. *)
Lemma parsed_rev_at m L p n :
  parsed m L -> 3 <= p -> 0 <= n -> p + n <= zlen m -> parsed (rev_at m p n) L.
Proof.
  intros (Hb & Hl & Hf) ? ? ?. unfold parsed.
  rewrite zlen_rev_at, le16_rev_at_ne by lia. auto with bgt.
Qed.

Lemma section_codec_run m :
  bytes m -> 3 <= zlen m ->
  section_codec (zlen m) m =
    if zlen m =? Z.land (be16 m 1) 0xfff + 3 then Ret tt (rev_at m 1 2)
    else Null (rev_at m 1 2).
Proof.
  intros Hb Hl. unfold section_codec. rewrite bind_fail_if.
  destruct (zlen m <? 3) eqn:E; [lia|]. unfold mbind, M_bind.
  rewrite bswap16_run by (done || lia).
  rewrite section_length_field_run by (rewrite zlen_rev_at; lia).
  rewrite le16_rev_at by (done || lia).
  pose proof (land_range (be16 m 1) 0xfff). rewrite u32_small by lia.
  rewrite fail_if_run. by destruct (zlen m =? _).
Qed.

(** ** The CRC of a section *)

(** The section as it is on the wire: the length field in network order. *)
Definition wire (m : mem) : mem := rev_at m 1 2.

Lemma section_check_crc_run m L :
  parsed m L ->
  section_check_crc m = Ret (if crc32 CRC32_INIT (wire m) =? 0 then 0 else -1) m.
Proof.
  intros (Hb & Hl & Hf). pose proof (length_field_range m).
  unfold section_check_crc, section_length, sizeof_section, mbind, M_bind, mret, M_ret.
  rewrite section_length_field_run by lia. rewrite Hf, u64_small by lia.
  rewrite bswap16_run by (done || lia). fold (wire m).
  assert (Hw : zlen (wire m) = L + 3) by (unfold wire; rewrite zlen_rev_at; lia).
  rewrite rd_bytes_run by lia.
  assert (Hs : slice (wire m) 0 (L + 3) = wire m)
    by (unfold slice; rewrite zdrop_0; apply ztake_all; lia).
  rewrite Hs. rewrite bswap16_run; [|unfold wire; auto with bgt|lia|lia].
  unfold wire at 2. rewrite rev_at_involutive by lia.
  by destruct (crc32 CRC32_INIT (wire m) =? 0).
Qed.

Lemma zlen_be32_bytes v : zlen (be32_bytes v) = 4.
Proof. reflexivity. Qed.
Lemma be32_bytes_bytes v : bytes (be32_bytes v).
Proof. repeat constructor; apply Z.mod_pos_bound; lia. Qed.

(** Writing a host word and swapping it stores its big-endian bytes. *)
Lemma store_be32_run p v m :
  0 <= p -> p + 4 <= zlen m -> bytes m ->
  (wr32 p v;; bswap32 p) m = Ret tt (zsplice m p (be32_bytes v)).
Proof.
  intros Hp Hl Hb. unfold mbind, M_bind. rewrite wr32_run by done.
  rewrite bswap32_run; [|auto 6 with bgt|lia|rewrite !zlen_zset; lia].
  f_equal. symmetry. apply eq_rev_at; rewrite ?zlen_zset; try lia.
  { rewrite zlen_zsplice; [done|lia|]. rewrite zlen_be32_bytes. lia. }
  intros j Hj. rewrite zat_zsplice; [|lia|rewrite zlen_be32_bytes; lia|lia].
  rewrite zlen_be32_bytes.
  unfold u8. change (2 ^ 8) with 256.
  resolve_zset. case_decide as Hin.
  - assert (j = p \/ j = p + 1 \/ j = p + 2 \/ j = p + 3) as Hj4 by lia.
    destruct Hj4 as [-> | [-> | [-> | ->]]];
      repeat case_decide; try lia;
      [replace (p - p) with 0 by lia|replace (p + 1 - p) with 1 by lia
       |replace (p + 2 - p) with 2 by lia|replace (p + 3 - p) with 3 by lia]; done.
  - repeat case_decide; lia || done.
Qed.

(** ** Encoding and decoding *)

Section roundtrip.
Context (m : mem) (L : Z).
Context (Hm : parsed m L) (HL : 6 <= L) (Hsyn : Z.shiftr (le16 m 1) 15 <> 0).

(** The section as [section_ext_encode] leaves it before the CRC is stored. *)
Definition swapped : mem := rev_at m 3 2.
(** The CRC of the wire bytes that precede it. *)
Definition wire_crc : Z := crc32 CRC32_INIT (slice (wire swapped) 0 (L - 1)).
(** The encoded section, still with a host-order length field. *)
Definition encoded : mem := zsplice swapped (L - 1) (be32_bytes wire_crc).

Lemma parsed_swapped : parsed swapped L.
Proof. apply parsed_rev_at; [done|lia..|]. destruct Hm as (_ & -> & _). lia. Qed.

Lemma zlen_swapped : zlen swapped = L + 3.
Proof. by destruct parsed_swapped as (_ & ? & _). Qed.

Lemma zat_encoded j : 0 <= j ->
  encoded.[j] = if decide (L - 1 <= j < L + 3) then (be32_bytes wire_crc).[j - (L - 1)]
                else swapped.[j].
Proof.
  intros. unfold encoded. rewrite zat_zsplice; rewrite ?zlen_be32_bytes, ?zlen_swapped; try lia.
  by replace (L - 1 + 4) with (L + 3) by lia.
Qed.

Lemma parsed_encoded : parsed encoded L.
Proof.
  destruct parsed_swapped as (Hb & Hl & Hf). unfold parsed. split; [|split].
  - apply zsplice_bytes; [done|apply be32_bytes_bytes].
  - unfold encoded. by rewrite zlen_zsplice; rewrite ?zlen_be32_bytes; lia.
  - unfold le16. rewrite !zat_encoded by lia. by rewrite !decide_False by lia.
Qed.

Lemma section_ext_encode_run : section_ext_encode true m = Ret tt encoded.
Proof.
  destruct Hm as (Hb & Hl & Hf). destruct parsed_swapped as (Hb' & Hl' & Hf').
  pose proof (length_field_range m).
  unfold section_ext_encode, section_syntax_indicator, sizeof_section.
  rewrite (bind_run _ _ m (Z.shiftr (le16 m 1) 15) m)
    by (by rewrite (bind_run _ _ m _ m (rd16_run 1 m ltac:(lia) ltac:(lia)))).
  rewrite bind_fail_if. rewrite (proj2 (Z.eqb_neq _ _)) by done.
  rewrite (bind_run _ _ m tt swapped) by (apply bswap16_run; (done || lia)).
  rewrite (bind_run _ _ swapped L swapped)
    by (rewrite section_length_field_run by lia; by rewrite Hf').
  rewrite (bind_run _ _ swapped tt (wire swapped)) by (apply bswap16_run; (done || lia)).
  assert (zlen (wire swapped) = L + 3) by (unfold wire; rewrite zlen_rev_at; lia).
  replace (3 + L - 4) with (L - 1) by lia.
  rewrite (bind_run _ _ (wire swapped) _ (wire swapped)) by (apply rd_bytes_run; lia).
  rewrite (bind_run _ _ (wire swapped) tt swapped).
  - fold wire_crc. apply store_be32_run; [lia|lia|done].
  - rewrite bswap16_run; [|unfold wire; auto with bgt|lia|lia].
    unfold wire. by rewrite rev_at_involutive by lia.
Qed.

Lemma wire_encoded :
  wire encoded = slice (wire swapped) 0 (L - 1) ++ be32_bytes wire_crc.
Proof.
  destruct parsed_encoded as (_ & Hl & _).
  assert (Hw : zlen (wire swapped) = L + 3)
    by (unfold wire; rewrite zlen_rev_at; rewrite ?zlen_swapped; lia).
  assert (Hs : zlen (slice (wire swapped) 0 (L - 1)) = L - 1)
    by (apply zlen_slice_le; lia).
  apply zlist_eq.
  - unfold wire at 1. rewrite zlen_rev_at by lia. rewrite zlen_app, zlen_be32_bytes. lia.
  - unfold wire at 1 2. rewrite zlen_rev_at by lia. intros j Hj.
    rewrite zat_rev_at, zat_app by lia. rewrite Hs.
    destruct (decide (j < L - 1)).
    + unfold slice. rewrite zat_ztake, zdrop_0 by lia. unfold wire.
      rewrite zat_rev_at; rewrite ?zlen_swapped; try lia.
      case_decide; by rewrite zat_encoded, decide_False by lia.
    + rewrite decide_False by lia. by rewrite zat_encoded, decide_True by lia.
Qed.

Lemma section_check_crc_encoded : section_check_crc encoded = Ret 0 encoded.
Proof.
  rewrite (section_check_crc_run _ L parsed_encoded). rewrite wire_encoded, crc32_app.
  rewrite crc32_self; [done|].
  apply crc32_range; [by vm_compute|]. apply slice_bytes. unfold wire.
  apply rev_at_bytes. by destruct parsed_swapped.
Qed.

Lemma section_ext_decode_encoded :
  section_ext_decode true encoded = Ret tt (rev_at encoded 3 2).
Proof.
  destruct parsed_encoded as (Hb & Hl & Hf).
  unfold section_ext_decode, section_syntax_indicator, sizeof_section.
  assert (le16 encoded 1 = le16 m 1) as Hle.
  { unfold le16. rewrite !zat_encoded by lia. rewrite !decide_False by lia.
    unfold swapped. destruct Hm as (_ & Hlm & _).
    by rewrite !zat_rev_at, !decide_False by lia. }
  rewrite (bind_run _ _ encoded (Z.shiftr (le16 m 1) 15) encoded)
    by (by rewrite (bind_run _ _ encoded _ encoded (rd16_run 1 encoded ltac:(lia) ltac:(lia))), Hle).
  rewrite bind_fail_if, (proj2 (Z.eqb_neq _ _)) by done.
  rewrite (bind_run _ _ encoded tt encoded)
    by (by rewrite (bind_run _ _ encoded 0 encoded section_check_crc_encoded)).
  apply bswap16_run; (done || lia).
Qed.
End roundtrip.

(** ** The sections of one table version *)

(** The section numbers accepted while sections arrive, and the final state. *)
Fixpoint useful_run (ss : list section_ext_hdr) (t : psi_table_state) : list Z * psi_table_state :=
  match ss with
  | [] => ([], t)
  | s :: ss' =>
      let '(u, t1) := section_ext_useful s t in
      let '(acc, t2) := useful_run ss' t1 in
      (if u then sx_section_number s :: acc else acc, t2)
  end.

Section table.
Context (v last : Z) (Hlast : 0 <= last <= 255).

Definition of_table (s : section_ext_hdr) : Prop :=
  sx_version_number s = v /\ sx_last_section_number s = last /\ byte (sx_section_number s).

(** [k] sections of the table have been accepted. *)
Definition collected (k : Z) (t : psi_table_state) : Prop :=
  pts_version_number t = v /\ pts_next_section_number t = k /\
  (pts_complete t = true <-> k = last + 1) /\ 1 <= k <= last + 1.

Lemma collected_step s t k :
  of_table s -> collected k t ->
  section_ext_useful s t = (false, t) /\ (k = last + 1 \/ sx_section_number s <> k) \/
  exists t', section_ext_useful s t = (true, t') /\ sx_section_number s = k /\
             k <= last /\ collected (k + 1) t'.
Proof.
  intros (Hv & Hl & Hs) (Htv & Htn & Htc & Hk). unfold section_ext_useful.
  rewrite Hv, Htv, Z.eqb_refl. simpl.
  destruct (pts_complete t) eqn:Ec.
  { left. split; [done|]. left. by apply Htc. }
  assert (k <> last + 1) by (intros E; apply Htc in E; done).
  rewrite Htn. destruct (sx_section_number s =? k) eqn:E; [right|left; split; [done|]; right; lia].
  eexists. split; [done|]. split; [lia|]. split; [lia|].
  unfold collected, psi_table_state_advance. simpl. rewrite u16_small, Hl by lia.
  split; [done|]. split; [done|]. split; [|lia].
  destruct (last <? k + 1) eqn:E2; split; try lia; by rewrite Ec.
Qed.

Lemma useful_first s t :
  of_table s -> pts_version_number t <> v ->
  section_ext_useful s t = (false, t) /\ sx_section_number s <> 0 \/
  exists t', section_ext_useful s t = (true, t') /\ sx_section_number s = 0 /\ collected 1 t'.
Proof.
  intros (Hv & Hl & Hs) Htv. unfold section_ext_useful. rewrite Hv.
  destruct (v =? pts_version_number t) eqn:E; [lia|]. simpl.
  destruct (sx_section_number s =? 0) eqn:E0; [right|left; split; [done|lia]].
  eexists. split; [done|]. split; [lia|]. unfold collected, psi_table_state_advance. simpl.
  rewrite Hl, u16_small by lia. split; [done|]. split; [done|]. split; [|lia].
  destruct (last <? 0 + 1) eqn:E2; split; intros; (lia || done).
Qed.

Lemma useful_run_collected ss t k :
  Forall of_table ss -> collected k t ->
  exists n t', useful_run ss t = (seqZ k n, t') /\ 0 <= n /\ collected (k + n) t' /\
    (seqZ k (last + 1 - k) `sublist_of` map sx_section_number ss -> k + n = last + 1).
Proof.
  revert t k. induction ss as [|s ss IH]; intros t k Hss Hc; simpl.
  - exists 0, t. rewrite seqZ_nil by lia. rewrite Z.add_0_r. split_and!; [done..|].
    intros Hsub%sublist_nil_r. destruct Hc as (_ & _ & _ & ?).
    destruct (decide (k = last + 1)); [done|]. rewrite seqZ_cons in Hsub by lia. done.
  - inversion Hss as [|? ? Hs Hss']; subst.
    destruct (collected_step s t k Hs Hc) as [[E Hne]|(t1 & E & Hk & Hle & Hc1)]; rewrite E.
    + destruct (IH t k Hss' Hc) as (n & t' & E' & ? & ? & Hlive). rewrite E'.
      exists n, t'. split_and!; [done..|]. intros Hsub. apply Hlive.
      destruct Hc as (_ & _ & _ & ?).
      destruct (decide (k = last + 1)) as [->|];
        [rewrite seqZ_nil by lia; apply sublist_nil_l|].
      destruct Hne as [->|Hne]; [done|].
      rewrite seqZ_cons in * by lia. apply sublist_cons_r in Hsub as [?|(? & [= ? ?] & _)]; [done|].
      congruence.
    + destruct (IH t1 (k + 1) Hss' Hc1) as (n & t' & E' & ? & Hc' & Hlive). rewrite E'.
      exists (n + 1), t'. rewrite (seqZ_cons k) by lia. rewrite Hk.
      replace (Z.pred (n + 1)) with n by lia. replace (Z.succ k) with (k + 1) by lia.
      replace (k + (n + 1)) with (k + 1 + n) by lia.
      split_and!; [done|lia|done|]. intros Hsub. apply Hlive.
      rewrite (seqZ_cons k) in Hsub by lia.
      replace (Z.succ k) with (k + 1) in Hsub by lia.
      replace (Z.pred (last + 1 - k)) with (last + 1 - (k + 1)) in Hsub by lia.
      apply sublist_cons_r in Hsub as [Hsub|(? & [= <-] & Hsub)]; [|done].
      apply sublist_cons_l in Hsub as (k1 & k2 & -> & Hsub).
      by apply sublist_inserts_l, sublist_cons.
Qed.

Lemma useful_run_fresh ss t :
  Forall of_table ss -> pts_version_number t <> v ->
  exists n t', useful_run ss t = (seqZ 0 n, t') /\ 0 <= n /\
    (n = 0 /\ t' = t \/ collected n t') /\
    (seqZ 0 (last + 1) `sublist_of` map sx_section_number ss -> n = last + 1).
Proof.
  intros Hss Ht. induction Hss as [|s ss Hs Hss IH]; simpl.
  - exists 0, t. split_and!; [done..|by left|].
    intros Hsub%sublist_nil_r. rewrite seqZ_cons in Hsub by lia. done.
  - destruct (useful_first s t Hs Ht) as [[-> Hne]|(t1 & -> & E0 & Hc)].
    + destruct IH as (n & t' & -> & ? & ? & Hlive). exists n, t'. split_and!; [done..|].
      intros Hsub. apply Hlive. rewrite seqZ_cons in * by lia.
      apply sublist_cons_r in Hsub as [?|(? & [= ? ?] & _)]; [done|]. congruence.
    + destruct (useful_run_collected ss t1 1 Hss Hc) as (n & t' & -> & ? & Hc' & Hlive).
      exists (n + 1), t'. rewrite (seqZ_cons 0), E0 by lia.
      replace (Z.pred (n + 1)) with n by lia. replace (n + 1) with (1 + n) by lia.
      split_and!; [done|lia|by right|]. intros Hsub. apply Hlive.
      rewrite (seqZ_cons 0) in Hsub by lia. replace (Z.succ 0) with 1 in Hsub by lia.
      replace (Z.pred (last + 1)) with (last + 1 - 1) in Hsub by lia.
      apply sublist_cons_r in Hsub as [Hsub|(? & [= <-] & Hsub)]; [|done].
      apply sublist_cons_l in Hsub as (k1 & k2 & -> & Hsub).
      by apply sublist_inserts_l, sublist_cons.
Qed.
End table.

(** ** Properties *)

(** A well-formed section, parsed: table 0x42, length 13, CRC field still blank. *)
Definition section_example : mem :=
  [0x42; 0x0d; 0xb0; 0x34; 0x12; 0xc1; 0x00; 0x00; 0x01; 0x02; 0x03; 0x04; 0; 0; 0; 0].

Lemma parsed_section_example : parsed section_example 13.
Proof. split_and!; [repeat constructor; unfold byte; lia|done|done]. Qed.

(** C1: [section_ext_encode] followed by [section_ext_decode] with the CRC check gives
    back the section: both succeed, the transmitted form carries the CRC of what
    precedes it, and every byte before the CRC is the original one. *)
Theorem section_encode_decode_roundtrip m L :
  parsed m L -> 6 <= L -> Z.shiftr (le16 m 1) 15 <> 0 ->
  exists m1 m2,
    section_ext_encode true m = Ret tt m1 /\ section_ext_decode true m1 = Ret tt m2 /\
    slice (wire m1) (L - 1) 4 = be32_bytes (crc32 CRC32_INIT (slice (wire m1) 0 (L - 1))) /\
    slice m2 0 (L - 1) = slice m 0 (L - 1) /\ zlen m2 = zlen m.
Proof.
  intros Hm HL Hsyn. exists (encoded m L), (rev_at (encoded m L) 3 2).
  pose proof (parsed_encoded m L Hm HL) as (Hb & Hl & _).
  pose proof Hm as (_ & Hlm & _).
  assert (Hw : zlen (wire (swapped m)) = L + 3).
  { unfold wire. rewrite zlen_rev_at by (rewrite ?(zlen_swapped m L); (done || lia)).
    by apply zlen_swapped. }
  split_and!.
  - by apply section_ext_encode_run.
  - by apply section_ext_decode_encoded.
  - rewrite wire_encoded by done. set (a := slice (wire (swapped m)) 0 (L - 1)).
    assert (Ha : zlen a = L - 1) by (apply zlen_slice_le; lia).
    unfold slice at 1. rewrite zdrop_app, ztake_all by (done || rewrite zlen_be32_bytes; lia).
    unfold wire_crc. fold a. do 2 f_equal.
    unfold slice. rewrite zdrop_0. by rewrite ztake_app.
  - apply zlist_eq; rewrite ?zlen_slice_le; rewrite ?zlen_rev_at; try lia.
    intros j Hj. unfold slice. rewrite !zdrop_0, !zat_ztake by lia.
    rewrite zat_rev_at by lia. unfold swapped.
    case_decide; rewrite (zat_encoded m L), decide_False by (done || lia);
      unfold swapped; rewrite zat_rev_at by lia;
      [rewrite decide_True by lia; f_equal; lia|by rewrite decide_False by lia].
  - rewrite zlen_rev_at by lia. lia.
Qed.

Lemma section_encode_decode_roundtrip_witness :
  exists m1 m2, section_ext_encode true section_example = Ret tt m1 /\
    section_ext_decode true m1 = Ret tt m2 /\ slice m2 0 12 = slice section_example 0 12.
Proof.
  destruct (section_encode_decode_roundtrip section_example 13 parsed_section_example)
    as (m1 & m2 & E1 & E2 & _ & E3 & _); [lia|vm_compute; discriminate|].
  exists m1, m2. exact (conj E1 (conj E2 E3)).
Defined.

Lemma zset_split l i v : 0 <= i < zlen l ->
  exists a b, l = a ++ l.[i] :: b /\ zset l i v = a ++ v :: b.
Proof.
  intros Hi. exists (ztake i l), (zdrop (i + 1) l).
  assert (E : l = ztake i l ++ l.[i] :: zdrop (i + 1) l)
    by (rewrite <- zdrop_cons by lia; symmetry; apply ztake_zdrop).
  split; [done|]. apply zlist_eq.
  - rewrite zlen_zset. rewrite E at 1. by rewrite !zlen_app, !zlen_cons.
  - rewrite zlen_zset. intros j Hj. rewrite zat_zset by lia.
    rewrite zat_app, zlen_ztake by lia. case_decide as Hij.
    + subst. rewrite decide_False, Z.sub_diag by lia. done.
    + rewrite E at 1. rewrite zat_app, zlen_ztake by lia. case_decide; [done|].
      assert (exists k, j - i = Z.of_nat (S k)) as [k ->]
        by (exists (Z.to_nat (j - i - 1)); lia).
      unfold zat, zget. rewrite !decide_True by lia. by rewrite !Nat2Z.id.
Qed.

(** C5: A section whose CRC is right is no longer accepted once a single byte outside
    its length field is changed. *)
Theorem section_corruption_detected m L i y :
  parsed m L -> section_check_crc m = Ret 0 m -> 0 <= i < L + 3 -> i <> 1 -> i <> 2 ->
  byte y -> m.[i] <> y ->
  section_check_crc (zset m i y) = Ret (-1) (zset m i y).
Proof.
  intros Hm E Hi Hi1 Hi2 Hy Hne. pose proof Hm as (Hb & Hl & Hf).
  assert (Hm' : parsed (zset m i y) L).
  { split_and!; [auto with bgt|by rewrite zlen_zset|]. rewrite <- Hf. f_equal. unfold le16.
    rewrite !zat_zset by lia. by rewrite !decide_False by lia. }
  pose proof (length_field_range m).
  rewrite (section_check_crc_run m L Hm) in E. rewrite (section_check_crc_run _ L Hm').
  destruct (crc32 CRC32_INIT (wire m) =? 0) eqn:E0; [|discriminate E].
  assert (Hw : wire (zset m i y) = zset (wire m) i y).
  { unfold wire. symmetry. apply eq_rev_at; [lia|lia|rewrite zlen_zset; lia|rewrite !zlen_zset, zlen_rev_at by lia; done|].
    intros j Hj. rewrite !zat_zset by (rewrite ?zlen_rev_at; lia).
    rewrite zat_rev_at by lia. repeat case_decide; try lia; done. }
  assert (Hwi : (wire m).[i] = m.[i]) by (unfold wire; apply zat_rev_at_out; lia).
  destruct (zset_split (wire m) i y) as (a & b & Ea & Eb);
    [unfold wire; rewrite zlen_rev_at; lia|].
  rewrite Hw, Eb. rewrite Ea, Hwi in E0.
  destruct (crc32 CRC32_INIT (a ++ y :: b) =? 0) eqn:E1; [|done].
  exfalso. apply (crc32_changed CRC32_INIT a (m.[i]) y b); [done| |done|done|lia].
  rewrite <- Hwi, <- Ea. unfold wire. auto with bgt.
Qed.

(** A complete section, with its CRC (parsed form of the example of the round trip). *)
Definition section_example_crc : mem :=
  match section_ext_encode true section_example with Ret _ m => m | _ => [] end.

Lemma section_corruption_detected_witness :
  section_check_crc (zset section_example_crc 9 0xff) = Ret (-1) (zset section_example_crc 9 0xff).
Proof.
  apply (section_corruption_detected section_example_crc 13 9 0xff);
    [|vm_compute; reflexivity|lia|lia|lia|unfold byte; lia|vm_compute; discriminate].
  split_and!; [|vm_compute; reflexivity|vm_compute; reflexivity].
  vm_compute. repeat constructor; discriminate.
Defined.

(** C3: Sections of one table version with sections 0 to [last], arriving in any order
    and repeated at will, after a table of another version: the sections
    reported useful are 0, 1, 2, ... without gap or repetition; the table is marked
    complete exactly when section [last] has been reported; and if the arrivals contain
    0, 1, ..., [last] as a subsequence it does become complete. *)
Theorem psi_table_collected v last ss t :
  0 <= last <= 255 -> Forall (of_table v last) ss -> pts_version_number t <> v ->
  exists n t', useful_run ss t = (seqZ 0 n, t') /\ 0 <= n <= last + 1 /\
    (0 < n -> pts_version_number t' = v /\ (pts_complete t' = true <-> n = last + 1)) /\
    (seqZ 0 (last + 1) `sublist_of` map sx_section_number ss ->
     n = last + 1 /\ pts_complete t' = true).
Proof.
  intros Hlast Hss Ht.
  destruct (useful_run_fresh v last Hlast ss t Hss Ht) as (n & t' & E & Hn & Hc & Hlive).
  exists n, t'. split; [done|].
  assert (Hcol : 0 < n -> collected v last n t') by (destruct Hc as [[-> _]|]; [lia|done]).
  assert (Hle : n <= last + 1).
  { destruct (decide (0 < n)) as [Hp|]; [|lia]. destruct (Hcol Hp) as (_ & _ & _ & ?). lia. }
  split; [done|]. split.
  - intros Hp. by destruct (Hcol Hp) as (? & _ & ? & _).
  - intros Hsub. specialize (Hlive Hsub). split; [done|].
    destruct (Hcol ltac:(lia)) as (_ & _ & Hcc & _). by apply Hcc.
Qed.

(** A table of three sections: joined in the middle, with a repetition. *)
Definition table_example : list section_ext_hdr :=
  [SectionExtHdr 5 2 2; SectionExtHdr 5 0 2; SectionExtHdr 5 1 2; SectionExtHdr 5 0 2; SectionExtHdr 5 2 2].

Lemma psi_table_collected_witness :
  exists t', useful_run table_example (psi_table_state_reset (PsiTableState 0 0 false false)) =
    (seqZ 0 3, t') /\ pts_complete t' = true.
Proof.
  destruct (psi_table_collected 5 2 table_example (psi_table_state_reset (PsiTableState 0 0 false false)))
    as (n & t' & E & _ & _ & Hlive); [lia|repeat constructor; unfold byte; simpl; lia|simpl; lia|].
  destruct Hlive as [-> Hc].
  - apply sublist_cons, sublist_skip, sublist_skip, sublist_cons, sublist_skip, sublist_nil.
  - exists t'. exact (conj E Hc).
Defined.

(** Without the CRC check, [section_ext_decode] is memory safe exactly on sections
    whose length field is at least 2: on a shorter one the swap of [table_id_ext]
    writes past the end of the section. *)
Theorem section_ext_decode_bounds m L :
  parsed m L -> Z.shiftr (le16 m 1) 15 <> 0 ->
  section_ext_decode false m = if decide (2 <= L) then Ret tt (rev_at m 3 2) else Fault.
Proof.
  intros (Hb & Hl & Hf) Hsyn. pose proof (length_field_range m).
  unfold section_ext_decode, section_syntax_indicator, sizeof_section.
  rewrite (bind_run _ _ m (Z.shiftr (le16 m 1) 15) m)
    by (by rewrite (bind_run _ _ m _ m (rd16_run 1 m ltac:(lia) ltac:(lia)))).
  rewrite bind_fail_if, (proj2 (Z.eqb_neq _ _)) by done.
  unfold mbind at 1, M_bind at 1, mret, M_ret. case_decide.
  - apply bswap16_run; (done || lia).
  - unfold bswap16, rd16, mbind, M_bind, rd8.
    destruct (decide (L = 0)) as [->|]; [by rewrite zget_out by lia|].
    rewrite zget_in by lia. by rewrite zget_out by lia.
Qed.

Lemma section_ext_decode_bounds_witness : section_ext_decode false [0x42; 0x00; 0x80] = Fault.
Proof.
  apply (section_ext_decode_bounds [0x42; 0x00; 0x80] 0);
    [split_and!; [repeat constructor; unfold byte; lia|done|done]|vm_compute; discriminate].
Defined.
