(* ===== verification/EntryLoop.v ===== *)
(** * EntryLoop: the section loop that the table codecs share

    Most DVB tables end in a loop of entries: a packed header of [h] bytes whose
    multi-byte fields must be swapped, one of which is a 12-bit length, followed by
    that many bytes of descriptors.  This file states such a loop once, by the size
    of its header, the offsets of its 16-bit fields and the offset of its length
    field, and proves it correct; the codecs of MpegSections.v and DvbSections.v are
    instances by computation. *)

From S2P Require Import Prelude Mem EndianOps Descriptor PsiSection.

(** ** Slices of agreeing memories *)

Lemma zat_slice m p n j : 0 <= p -> 0 <= j < n -> (slice m p n).[j] = m.[p + j].
Proof. intros. unfold slice. by rewrite zat_ztake, zat_zdrop by lia. Qed.

Lemma slice_ext m m' p n :
  0 <= p -> 0 <= n -> p + n <= zlen m -> p + n <= zlen m' ->
  (forall j, p <= j < p + n -> m.[j] = m'.[j]) -> slice m p n = slice m' p n.
Proof.
  intros. apply zlist_eq; rewrite !zlen_slice_le by lia; [done|].
  intros j Hj. rewrite !zat_slice by lia. auto with lia.
Qed.

Lemma le16_ext m m' p : m.[p] = m'.[p] -> m.[p + 1] = m'.[p + 1] -> le16 m p = le16 m' p.
Proof. unfold le16. by intros -> ->. Qed.
Lemma be16_ext m m' p : m.[p] = m'.[p] -> m.[p + 1] = m'.[p + 1] -> be16 m p = be16 m' p.
Proof. unfold be16. by intros -> ->. Qed.

Lemma be16_slice m p n o : 0 <= p -> 0 <= o -> o + 2 <= n -> be16 (slice m p n) o = be16 m (p + o).
Proof. intros. unfold be16. rewrite !zat_slice by lia. by rewrite Z.add_assoc. Qed.
Lemma le16_slice m p n o : 0 <= p -> 0 <= o -> o + 2 <= n -> le16 (slice m p n) o = le16 m (p + o).
Proof. intros. unfold le16. rewrite !zat_slice by lia. by rewrite Z.add_assoc. Qed.

(** ** Swapping the fields of a header *)

(** [pos + o], which the code writes [pos] when [o] is 0. *)
Definition field_at (pos o : Z) : Z := if o =? 0 then pos else pos + o.
Lemma field_at_eq pos o : field_at pos o = pos + o.
Proof. unfold field_at. destruct (o =? 0) eqn:E; lia. Qed.

Definition swap_mem (swaps : list Z) (p : Z) (m : mem) : mem :=
  foldl (fun m o => rev_at m (p + o) 2) m swaps.

(** The statements [bswap16(buf + pos + o);] one after the other. *)
Definition swap_fields (swaps : list Z) (pos : Z) {A} (k : M A) : M A :=
  foldr (fun o k => bswap16 (field_at pos o);; k) k swaps.

Definition fields_in (h : Z) (swaps : list Z) : Prop := Forall (fun o => 0 <= o /\ o + 2 <= h) swaps.

Section swaps.
Context (h : Z) (p : Z) (Hp : 0 <= p).

Lemma swap_mem_spec swaps m :
  fields_in h swaps -> bytes m -> p + h <= zlen m ->
  zlen (swap_mem swaps p m) = zlen m /\ bytes (swap_mem swaps p m) /\
  (forall j, 0 <= j -> ~ (p <= j < p + h) -> (swap_mem swaps p m).[j] = m.[j]).
Proof.
  intros Hs. revert m. induction Hs as [|o swaps [Ho1 Ho2] Hs IH]; intros m Hb Hl; [done|].
  simpl. destruct (IH (rev_at m (p + o) 2)) as (E1 & E2 & E3).
  { auto with bgt. }
  { rewrite zlen_rev_at by lia. lia. }
  rewrite zlen_rev_at in E1 by lia. split_and!; [done|done|].
  intros j Hj Hout. rewrite E3 by done. rewrite zat_rev_at by lia.
  by rewrite decide_False by lia.
Qed.

Lemma swap_fields_run {A} swaps (k : M A) m :
  fields_in h swaps -> bytes m -> p + h <= zlen m ->
  swap_fields swaps p k m = k (swap_mem swaps p m).
Proof.
  intros Hs. revert m. induction Hs as [|o swaps [Ho1 Ho2] Hs IH]; intros m Hb Hl; [done|].
  simpl. rewrite (bind_run _ _ m tt (rev_at m (p + o) 2)).
  - apply IH; [auto with bgt|]. rewrite zlen_rev_at by lia. lia.
  - rewrite field_at_eq. apply bswap16_run; [done|lia..].
Qed.

(** The swapped header is a function of the header alone. *)
Lemma slice_swap_mem swaps m :
  fields_in h swaps -> bytes m -> 0 <= h -> p + h <= zlen m ->
  slice (swap_mem swaps p m) p h = swap_mem swaps 0 (slice m p h).
Proof.
  intros Hs. revert m. induction Hs as [|o swaps [Ho1 Ho2] Hs IH]; intros m Hb Hh Hl; [done|].
  simpl. rewrite IH; [|auto with bgt|done|rewrite zlen_rev_at by lia; lia].
  f_equal. apply eq_rev_at; rewrite ?zlen_slice_le; rewrite ?zlen_rev_at; try lia.
  intros j Hj. rewrite zat_slice by lia. rewrite zat_rev_at by lia.
  case_decide.
  - rewrite decide_True by lia. rewrite zat_slice by lia. f_equal. lia.
  - rewrite decide_False by lia. by rewrite zat_slice by lia.
Qed.
End swaps.

(** ** The loop *)

Section entry_loop.
Context (h off : Z) (swaps : list Z).
Context (Hh : 0 < h) (Hswaps : fields_in h swaps) (Hoff : 0 <= off /\ off + 2 <= h).
(** The length field is one of the swapped fields. *)
Context (Hlenf : forall hdr, bytes hdr -> zlen hdr = h ->
           le16 (swap_mem swaps 0 hdr) off = be16 hdr off).

(** The body of [while (pos < len)]. *)
Definition entry_body (len pos : Z) : M Z :=
  fail_if (len <? pos + h);;
  swap_fields swaps pos (
    x ← rd16 (field_at pos off);
    let n := Z.land x 0xfff in
    let pos := pos + h in
    fail_if (len <? pos + n);;
    r ← verify_descriptors pos n;
    fail_if (negb (r =? 0));;
    mret (pos + n)).

(** An entry: its header as it is on the wire, and its descriptors. *)
Record entry := Entry { e_hdr : list Z; e_descs : list descriptor }.

Definition entry_ok (e : entry) : Prop :=
  bytes (e_hdr e) /\ zlen (e_hdr e) = h /\ Forall descriptor_ok (e_descs e) /\
  Z.land (be16 (e_hdr e) off) 0xfff = zlen (encode_descriptors (e_descs e)).

Definition encode_entry (e : entry) : list Z := e_hdr e ++ encode_descriptors (e_descs e).
Definition encode_entries (es : list entry) : list Z := flat_map encode_entry es.

(** The same entries in the memory of the host, after the codec. *)
Definition host_entry (e : entry) : list Z :=
  swap_mem swaps 0 (e_hdr e) ++ encode_descriptors (e_descs e).
Definition host_entries (es : list entry) : list Z := flat_map host_entry es.

Definition is_entries (l : list Z) : Prop := exists es, Forall entry_ok es /\ l = encode_entries es.

Lemma encode_entries_cons_inv m p n e es :
  0 <= p -> 0 <= n -> p + n <= zlen m -> entry_ok e ->
  slice m p n = encode_entries (e :: es) ->
  let k := Z.land (be16 m (p + off)) 0xfff in
  h + k <= n /\ slice m p h = e_hdr e /\ slice m (p + h) k = encode_descriptors (e_descs e) /\
  slice m (p + h + k) (n - h - k) = encode_entries es.
Proof.
  intros Hp Hn Hl (Hb & Hz & Hd & Hk) E k.
  pose proof (f_equal zlen E) as El. rewrite zlen_slice_le in El by lia.
  unfold encode_entries in El. simpl in El. unfold encode_entry in El at 1.
  rewrite !zlen_app in El. lens.
  simpl in E. unfold encode_entry in E at 1. rewrite <- app_assoc in E.
  rewrite (slice_split m p n h) in E by lia.
  apply app_inj_1 in E as [E1 E2];
    [|pose proof (zlen_slice_le m p h); unfold zlen in *; lia].
  assert (Hkk : k = zlen (encode_descriptors (e_descs e))).
  { unfold k. rewrite <- Hk, <- E1. by rewrite be16_slice by lia. }
  rewrite (slice_split m (p + h) (n - h) k) in E2 by lia.
  apply app_inj_1 in E2 as [E3 E4];
    [|pose proof (zlen_slice_le m (p + h) k); unfold zlen in *; lia].
  split_and!; [lia|done|done|done].
Qed.

(** What the loop leaves behind when it accepts. *)
Definition accepted (m : mem) (pos len : Z) (m' : mem) : Prop :=
  exists es, Forall entry_ok es /\ slice m pos (len - pos) = encode_entries es /\
    slice m' pos (len - pos) = host_entries es.

Lemma entry_body_run len pos m :
  bytes m -> 0 <= pos < len -> len <= zlen m ->
  let k := Z.land (be16 m (pos + off)) 0xfff in
  let m1 := swap_mem swaps pos m in
  (pos + h + k <= len /\ (exists ds, Forall descriptor_ok ds /\ slice m (pos + h) k = encode_descriptors ds)
    /\ entry_body len pos m = Ret (pos + h + k) m1) \/
  (~ (pos + h + k <= len /\ exists ds, slice m (pos + h) k = encode_descriptors ds)
    /\ exists m', entry_body len pos m = Null m').
Proof.
  intros Hb Hpos Hlen k m1. unfold entry_body. rewrite bind_fail_if.
  pose proof (land_range (be16 m (pos + off)) 0xfff ltac:(lia)) as Hk. fold k in Hk.
  destruct (len <? pos + h) eqn:E1.
  { right. split; [lia|eauto]. }
  rewrite (swap_fields_run h) by (done || lia). fold m1.
  destruct (swap_mem_spec h pos ltac:(lia) swaps m) as (Hl1 & Hb1 & Ho1); [done..|lia|].
  fold m1 in Hl1, Hb1, Ho1.
  assert (Hx : le16 m1 (pos + off) = be16 m (pos + off)).
  { pose proof (slice_swap_mem h pos ltac:(lia) swaps m) as Hs. fold m1 in Hs.
    specialize (Hlenf (slice m pos h) (slice_bytes _ _ _ Hb) (zlen_slice_le m pos h ltac:(lia) ltac:(lia) ltac:(lia))).
    rewrite <- Hs in Hlenf by (done || lia).
    by rewrite be16_slice, le16_slice in Hlenf by lia. }
  rewrite (bind_run _ _ m1 (le16 m1 (field_at pos off)) m1)
    by (rewrite field_at_eq; apply rd16_run; lia).
  rewrite field_at_eq, Hx. fold k. simpl. rewrite bind_fail_if.
  destruct (len <? pos + h + k) eqn:E2.
  { right. split; [lia|eauto]. }
  assert (Hsl : slice m1 (pos + h) k = slice m (pos + h) k)
    by (apply slice_ext; try lia; intros; apply Ho1; lia).
  destruct (wp_total _ _ _ _ (wp_verify_descriptors m1 (pos + h) k Hb1 ltac:(lia) ltac:(lia) ltac:(lia)))
    as [(r & m2 & E & -> & Hr)|(? & _ & [])].
  rewrite (bind_run _ _ m1 r m1 E), bind_fail_if. rewrite Hsl in Hr.
  destruct Hr as [[-> Hds]|[-> Hds]]; simpl.
  - left. split_and!; [lia|done|done].
  - right. split; [intros [_ Hex]; by apply Hds|eauto].
Qed.

Lemma entry_loop_run len fuel pos m :
  bytes m -> 0 <= pos <= len -> len <= zlen m -> len - pos < Z.of_nat fuel ->
  (exists m', while_lt fuel (entry_body len) len pos m = Ret len m' /\ accepted m pos len m' /\
     zlen m' = zlen m /\ bytes m' /\ (forall j, 0 <= j < pos -> m'.[j] = m.[j])) \/
  (~ is_entries (slice m pos (len - pos)) /\
     exists m', while_lt fuel (entry_body len) len pos m = Null m').
Proof.
  revert pos m. induction fuel as [|f IH]; intros pos m Hb Hpos Hlen Hf; [lia|]. simpl.
  destruct (pos <? len) eqn:E.
  2:{ left. exists m. assert (len = pos) as -> by lia.
      split_and!; [done| |done..]. exists []. by rewrite Z.sub_diag. }
  destruct (entry_body_run len pos m) as [(Hk & (ds & Hok & Hds) & Eb)|[Hno (m' & Eb)]];
    [done|lia|done| |]; unfold mbind, M_bind; rewrite Eb.
  2:{ right. split; [|eauto]. intros (es & Hes & Ees). destruct es as [|e es].
      - rewrite slice_cons in Ees by lia. done.
      - inversion Hes; subst.
        destruct (encode_entries_cons_inv m pos (len - pos) e es) as (? & _ & ? & _); [lia|lia|lia|done|done|].
        apply Hno. split; [lia|eauto]. }
  set (k := Z.land (be16 m (pos + off)) 0xfff) in *. set (m1 := swap_mem swaps pos m) in *.
  assert (0 <= k) by (apply land_range; lia).
  destruct (swap_mem_spec h pos ltac:(lia) swaps m) as (Hl1 & Hb1 & Ho1); [done|done|lia|].
  fold m1 in Hl1, Hb1, Ho1.
  assert (Hrest : slice m1 (pos + h + k) (len - (pos + h + k)) = slice m (pos + h + k) (len - (pos + h + k)))
    by (apply slice_ext; try lia; intros; apply Ho1; lia).
  destruct (IH (pos + h + k) m1) as [(m' & El & (es & Hes & E1 & E2) & Hl' & Hb' & Ho')|[Hno (m' & El)]];
    [done|lia|lia|lia| |].
  - left. exists m'. split_and!; [done| |lia|done|].
    + exists (Entry (slice m pos h) ds :: es).
      assert (Hhdr : entry_ok (Entry (slice m pos h) ds)).
      { split_and!; simpl; [by apply slice_bytes|by rewrite zlen_slice_le by lia|done|].
        rewrite <- Hds, zlen_slice_le by lia. unfold k.
        by rewrite be16_slice by lia. }
      split; [by constructor|]. rewrite Hrest in E1.
      split.
      * change (encode_entries _) with (encode_entry (Entry (slice m pos h) ds) ++ encode_entries es).
        unfold encode_entry. simpl. rewrite <- E1, <- Hds, <- app_assoc.
        rewrite (slice_split m pos (len - pos) h) by lia. f_equal.
        rewrite (slice_split m (pos + h) (len - pos - h) k) by lia. do 2 f_equal. lia.
      * change (host_entries _) with (host_entry (Entry (slice m pos h) ds) ++ host_entries es).
        unfold host_entry. simpl. rewrite <- E2, <- app_assoc.
        rewrite (slice_split m' pos (len - pos) h) by lia. f_equal.
        -- rewrite <- slice_swap_mem by (done || lia). fold m1. apply slice_ext; try lia.
           intros j Hj. apply Ho'. lia.
        -- rewrite (slice_split m' (pos + h) (len - pos - h) k) by lia. f_equal.
           ++ rewrite <- Hds. apply slice_ext; try lia. intros j Hj.
              rewrite Ho' by lia. apply Ho1; lia.
           ++ f_equal. lia.
    + intros j Hj. rewrite Ho' by lia. apply Ho1; lia.
  - right. split; [|eauto]. intros (es & Hes & Ees). apply Hno. rewrite Hrest.
    destruct es as [|e es]; [rewrite slice_cons in Ees by lia; done|].
    inversion Hes; subst.
    destruct (encode_entries_cons_inv m pos (len - pos) e es) as (_ & _ & _ & Er);
      [lia|lia|lia|done|done|].
    exists es. split; [done|]. fold k in Er. rewrite <- Er. f_equal. lia.
Qed.
(** ** Iteration over an accepted loop *)

Lemma swap_mem_len hdr : bytes hdr -> zlen hdr = h -> zlen (swap_mem swaps 0 hdr) = h.
Proof.
  intros Hb Hz. destruct (swap_mem_spec h 0 ltac:(lia) swaps hdr) as (-> & _); [done..|lia|done].
Qed.

Lemma host_entries_cons_inv m p n e es :
  0 <= p -> 0 <= n -> p + n <= zlen m -> entry_ok e ->
  slice m p n = host_entries (e :: es) ->
  let k := zlen (encode_descriptors (e_descs e)) in
  h + k <= n /\ slice m p h = swap_mem swaps 0 (e_hdr e) /\
  Z.land (le16 m (p + off)) 0xfff = k /\
  slice m (p + h) k = encode_descriptors (e_descs e) /\
  slice m (p + h + k) (n - h - k) = host_entries es.
Proof.
  intros Hp Hn Hl (Hb & Hz & Hd & Hk) E k. assert (0 <= k) by apply zlen_nonneg.
  pose proof (swap_mem_len _ Hb Hz) as Hsz.
  pose proof (f_equal zlen E) as El. rewrite zlen_slice_le in El by lia.
  change (host_entries (e :: es)) with (host_entry e ++ host_entries es) in *.
  unfold host_entry in *. rewrite !zlen_app in El.
  pose proof (zlen_nonneg (host_entries es)). rewrite <- app_assoc in E.
  rewrite (slice_split m p n h) in E by lia.
  apply app_inj_1 in E as [E1 E2];
    [|pose proof (zlen_slice_le m p h); unfold zlen in *; lia].
  rewrite (slice_split m (p + h) (n - h) k) in E2 by lia.
  apply app_inj_1 in E2 as [E3 E4];
    [|pose proof (zlen_slice_le m (p + h) k); unfold zlen in *; lia].
  split_and!; [lia|done| |done|done].
  unfold k. rewrite <- Hk, <- (Hlenf _ Hb Hz), <- E1. by rewrite le16_slice by lia.
Qed.

Section for_each.
Context {X : Type} (m : mem) (len : Z) (Hlen : len <= zlen m).
Context (next : Z -> M (option Z)) (visit : Z -> M X).
Context (view : list Z -> list descriptor -> X).

(** What the [_next] function of a table computes on the final memory. *)
Definition next_ok : Prop := forall p, 0 <= p -> p + h <= len ->
  next p m =
    let q := p + h + Z.land (le16 m (p + off)) 0xfff in
    Ret (if len <=? q then None else Some q) m.

(** What the client reads at an entry. *)
Definition visit_ok : Prop := forall p ds,
  0 <= p -> p + h + zlen (encode_descriptors ds) <= len ->
  Z.land (le16 m (p + off)) 0xfff = zlen (encode_descriptors ds) ->
  slice m (p + h) (zlen (encode_descriptors ds)) = encode_descriptors ds ->
  visit p m = Ret (view (slice m p h) ds) m.

Context (Hnext : next_ok) (Hvisit : visit_ok).

Definition view_entry (e : entry) : X := view (swap_mem swaps 0 (e_hdr e)) (e_descs e).

Lemma entries_for_each_fuel_run es :
  Forall entry_ok es ->
  forall fuel p n,
  (length es < fuel)%nat -> 0 <= p -> 0 <= n -> p + n = len ->
  slice m p n = host_entries es ->
  for_each_fuel fuel next visit (if n =? 0 then None else Some p) m =
    Ret (map view_entry es) m.
Proof.
  induction 1 as [|e es He Hes IH]; intros fuel p n Hf Hp Hn Hpn E.
  - assert (n = 0) as ->.
    { destruct (decide (n = 0)); [done|]. rewrite slice_cons in E by lia. done. }
    by destruct fuel.
  - destruct (host_entries_cons_inv m p n e es) as (Hle & E1 & Ek & E2 & E3);
      [lia..|done|done|].
    set (k := zlen (encode_descriptors (e_descs e))) in *.
    assert (0 <= k) by apply zlen_nonneg.
    destruct (n =? 0) eqn:En; [lia|]. destruct fuel as [|fuel]; [simpl in Hf; lia|].
    simpl for_each_fuel. simpl map.
    rewrite (bind_run _ _ m (view_entry e) m)
      by (rewrite (Hvisit p (e_descs e)) by (done || lia); by rewrite E1).
    rewrite (bind_run _ _ m (if n - h - k =? 0 then None else Some (p + h + k)) m).
    2:{ rewrite Hnext, Ek by lia. simpl. f_equal.
        destruct (len <=? p + h + k) eqn:?, (n - h - k =? 0) eqn:?; (lia || done). }
    by rewrite (bind_run _ _ m _ m (IH fuel (p + h + k) (n - h - k) ltac:(simpl in Hf; lia)
               ltac:(lia) ltac:(lia) ltac:(lia) E3)).
Qed.
End for_each.

Lemma host_entries_len es :
  Forall entry_ok es -> Z.of_nat (length es) <= zlen (host_entries es).
Proof.
  induction 1 as [|e es (Hb & Hz & _) Hes IH]; [done|].
  change (host_entries (e :: es)) with (host_entry e ++ host_entries es). unfold host_entry.
  rewrite !zlen_app, swap_mem_len by done. simpl length. lens. lia.
Qed.

(** The whole iteration, from the [_first] function's answer. *)
Lemma entries_for_each_run {X} m len next visit (view : list Z -> list descriptor -> X) es p :
  len <= zlen m -> next_ok m len next -> visit_ok m len visit view ->
  Forall entry_ok es -> 0 <= p <= len -> slice m p (len - p) = host_entries es ->
  for_each next visit (if len <=? p then None else Some p) m = Ret (map (view_entry view) es) m.
Proof.
  intros Hl Hn Hv Hes Hp E. unfold for_each.
  replace (if len <=? p then None else Some p) with (if len - p =? 0 then None else Some p)
    by (destruct (len - p =? 0) eqn:?, (len <=? p) eqn:?; lia || done).
  apply (entries_for_each_fuel_run m len Hl next visit view Hn Hv es Hes); try lia; [|done].
  pose proof (host_entries_len es Hes) as Hc. rewrite <- E, zlen_slice_le in Hc by lia.
  unfold zlen in *. lia.
Qed.
End entry_loop.
