(* ===== verification/TableCodec.v ===== *)
(** * TableCodec: what the table codecs share

    Running and stepping through a codec, and the two shapes that the DVB tables
    have: a fixed header and a loop of entries (SDT, EIT), and a header, a loop of
    descriptors, a second header and a loop of entries (NIT, BAT). *)

From S2P Require Import Prelude Mem EndianOps Descriptor PsiSection EntryLoop.

(** ** Running a codec *)

Lemma section_ext_length_run m L :
  parsed m L -> 1 <= L -> section_ext_length m = Ret (L - 1) m.
Proof.
  intros (Hb & Hl & Hf) HL. unfold section_ext_length, sizeof_section, CRC_SIZE.
  rewrite (bind_run _ _ m _ m (section_length_field_run m ltac:(lia))), Hf.
  pose proof (length_field_range m). rewrite u64_small by lia.
  unfold mret, M_ret. f_equal. lia.
Qed.

Lemma rd16_mask_run p mask m :
  0 <= p -> p + 2 <= zlen m -> (x ← rd16 p; mret (Z.land x mask)) m = Ret (Z.land (le16 m p) mask) m.
Proof. intros. by rewrite (bind_run _ _ m _ m (rd16_run p m ltac:(lia) ltac:(lia))). Qed.

(** A field read through an accessor: the value is a function of the word at [p]. *)
Lemma rd16_map_run (f : Z -> Z) p m :
  0 <= p -> p + 2 <= zlen m -> (x ← rd16 p; mret (f x)) m = Ret (f (le16 m p)) m.
Proof. intros. by rewrite (bind_run _ _ m _ m (rd16_run p m ltac:(lia) ltac:(lia))). Qed.
Lemma rd8_map_run (f : Z -> Z) p m :
  0 <= p < zlen m -> (x ← rd8 p; mret (f x)) m = Ret (f (m.[p])) m.
Proof. intros. by rewrite (bind_run _ _ m _ m (rd8_run p m ltac:(lia))). Qed.

(** Runs the next read of a program that only reads. *)
Ltac run_read :=
  match goal with
  | |- (mbind ?k ?c) ?m = _ =>
      erewrite (bind_run c k m _ m)
        by (first [ apply rd16_map_run; lia | apply rd8_map_run; lia | apply rd16_run; lia
                  | apply rd8_run; lia | apply rd_bytes_run; lia ]);
      cbv beta
  end.

(** Iterating the descriptors at a position whose length the code rereads each time. *)
Lemma for_each_descriptors_run m p n len (first : M (option Z)) next ds :
  0 <= p -> 0 <= n -> p + n <= zlen m -> slice m p n = encode_descriptors ds ->
  len m = Ret n m ->
  first m = Ret (if n =? 0 then None else Some p) m ->
  (forall q, next q = (n ← len; next_descriptor p n (Some q))) ->
  (f ← first; for_each next read_descriptor f) m = Ret ds m.
Proof.
  intros Hp Hn Hl E Elen Efirst Enext. rewrite (bind_run _ _ m _ m Efirst).
  destruct (wp_total _ _ _ _ (wp_descriptors_for_each m p n ds Hp Hn Hl E))
    as [(r & m' & Er & -> & ->)|(? & _ & [])].
  rewrite <- Er. apply for_each_fuel_ext.
  - intros q. by rewrite Enext, (bind_run _ _ m _ m Elen).
  - apply read_descriptor_read_only.
  - intros q. apply next_descriptor_read_only.
Qed.

Ltac solve_lenf :=
  intros; simpl;
  rewrite ?Z.add_0_l;
  repeat (rewrite le16_rev_at_ne by (rewrite ?zlen_rev_at by lia; lia));
  rewrite le16_rev_at; [|repeat (apply rev_at_bytes; try (rewrite ?zlen_rev_at by lia; lia)); done|lia
                        |rewrite ?zlen_rev_at by lia; lia];
  apply be16_ext; rewrite ?zat_rev_at_out by (rewrite ?zlen_rev_at by lia; lia); reflexivity.

(** ** Stepping through a codec *)

Ltac codec_start Hm :=
  let Hb := fresh "Hb" in let Hl := fresh "Hl" in let Hf := fresh "Hf" in
  let Hr := fresh "Hr" in
  destruct Hm as (Hb & Hl & Hf);
  lazymatch type of Hb with bytes ?m => pose proof (length_field_range m) as Hr end;
  rewrite Hf in Hr;
  apply wp_bind, wp_section_ext_length; [lia|lia|]; rewrite Hf.

(** [verify_descriptors] inside a codec: it returns, and changes nothing. *)
Lemma wp_verify_any buf len Q N m :
  bytes m -> 0 <= buf -> 0 <= len -> buf + len <= zlen m ->
  (forall r, Q r m) -> wp (verify_descriptors buf len) Q N m.
Proof.
  intros. eapply wp_mono; [by apply wp_verify_descriptors| |done].
  intros r m' [-> _]. auto.
Qed.

(** The state of a codec between two statements. *)
Definition codec_inv (m : mem) (m' : mem) : Prop := zlen m' = zlen m /\ bytes m'.

Lemma wp_bswap16_inv m0 p Q N m :
  codec_inv m0 m -> 0 <= p -> p + 2 <= zlen m0 -> (forall m', codec_inv m0 m' -> Q tt m') ->
  wp (bswap16 p) Q N m.
Proof.
  intros [Hl Hb] ? ? HQ. apply wp_bswap16; [done|lia|lia|]. apply HQ.
  split; [rewrite zlen_rev_at; lia|auto with bgt].
Qed.

Ltac codec_step :=
  lazymatch goal with
  | |- wp (verify_descriptors _ _) _ _ _ => apply wp_verify_any; [auto 6 with bgt|zlia|zlia|rewrite ?zlen_rev_at by zlia; zlia|intro]
  | |- wp (bswap16 _) _ _ _ =>
      apply wp_bswap16; [auto 6 with bgt|zlia|rewrite ?zlen_rev_at by zlia; zlia|]
  | |- wp (bswap32 _) _ _ _ =>
      apply wp_bswap32; [auto 6 with bgt|zlia|rewrite ?zlen_rev_at by zlia; zlia|]
  | |- wp (rd16 _) _ _ ?m =>
      apply wp_rd16; [zlia|rewrite ?zlen_rev_at by zlia; zlia|]
  | |- wp (rd8 _) _ _ ?m =>
      apply wp_rd8; [rewrite ?zlen_rev_at by zlia; zlia|]
  | |- _ => wp_step
  end.

(** A length that claims more than the object holds is followed off its end. *)
Lemma verify_overrun buf len m :
  bytes m -> 0 <= buf -> zlen m + 257 < len -> verify_descriptors buf len m = Fault.
Proof.
  intros Hb Hbuf Hlen. unfold verify_descriptors, catch, while_mem, mbind, M_bind.
  assert (Hloop : forall fuel pos, 0 <= pos <= zlen m + 255 -> zlen m - pos <= Z.of_nat fuel ->
    while_lt (S fuel) (fun pos => fail_if (len <? pos + 2);; l ← rd8 (buf + pos + 1);
                         mret (pos + (2 + l))) len pos m = Fault).
  { induction fuel as [|fuel IH]; intros pos Hpos Hf;
      cbn [while_lt]; rewrite (proj2 (Z.ltb_lt pos len)) by lia;
      unfold mbind, M_bind; rewrite fail_if_run, (proj2 (Z.ltb_ge len (pos + 2))) by lia;
      (destruct (decide (buf + pos + 1 < zlen m));
        [rewrite rd8_run by lia|unfold rd8; by rewrite zget_out by lia]).
    - lia.
    - unfold mret, M_ret. pose proof (zat_range m (buf + pos + 1) Hb). apply IH; lia. }
  rewrite Hloop; [done|lens; lia|unfold zlen; lia].
Qed.

(** ** A header and a loop of entries *)

(** Slices of adjacent regions, put together. *)
Lemma slice_join m p a b : 0 <= p -> 0 <= a -> 0 <= b -> p + a + b <= zlen m ->
  slice m p (a + b) = slice m p a ++ slice m (p + a) b.
Proof.
  intros. rewrite (slice_split m p (a + b) a) by lia. by replace (a + b - a) with b by lia.
Qed.

(** A parsed section keeps its length as long as its first bytes do not change. *)
Lemma parsed_ext m m' L :
  parsed m L -> bytes m' -> zlen m' = zlen m -> m'.[1] = m.[1] -> m'.[2] = m.[2] -> parsed m' L.
Proof.
  intros (_ & Hl & Hf) Hb' Hl' E1 E2. split_and!; [done|lia|]. rewrite <- Hf. f_equal.
  by apply le16_ext.
Qed.

Section flat_table.
Context (hs h off : Z) (hswaps swaps : list Z).
Context (Hhs : 8 <= hs) (Hhswaps : fields_in (hs - 8) hswaps).
Context (Hh : 0 < h) (Hswaps : fields_in h swaps) (Hoff : 0 <= off /\ off + 2 <= h).
Context (Hlenf : forall hdr, bytes hdr -> zlen hdr = h ->
           le16 (swap_mem swaps 0 hdr) off = be16 hdr off).

(** The codec of such a table, by its dimensions. *)
Definition flat_codec : M unit :=
  len ← section_ext_length;
  fail_if (len <? hs);;
  swap_fields hswaps 8 (
    pos ← while_mem (entry_body h off swaps len) len hs;
    fail_if (negb (pos =? len))).

(** The body of the table as it is transmitted. *)
Record flat_table := FlatTable { ft_head : list Z; ft_entries : list entry }.

Definition flat_ok (t : flat_table) : Prop :=
  bytes (ft_head t) /\ zlen (ft_head t) = hs - 8 /\ Forall (entry_ok h off) (ft_entries t).
Definition encode_flat (t : flat_table) : list Z := ft_head t ++ encode_entries (ft_entries t).

(** The section bodies that encode a table. *)
Definition is_flat (m : mem) (L : Z) : Prop :=
  hs + 1 <= L /\ exists t, flat_ok t /\ slice m 8 (L - 9) = encode_flat t.

(** The memory an accepting codec leaves: the table in host order. *)
Definition flat_host (t : flat_table) (L : Z) (m m' : mem) : Prop :=
  parsed m' L /\ (forall j, 0 <= j < 8 -> m'.[j] = m.[j]) /\
  slice m' 8 (hs - 8) = swap_mem hswaps 0 (ft_head t) /\
  slice m' hs (L - 1 - hs) = host_entries swaps (ft_entries t).

Lemma flat_codec_run m L :
  parsed m L -> 1 <= L ->
  (exists t m', flat_ok t /\ hs + 1 <= L /\ slice m 8 (L - 9) = encode_flat t /\
     flat_codec m = Ret tt m' /\ flat_host t L m m') \/
  (~ is_flat m L /\ exists m', flat_codec m = Null m').
Proof.
  intros Hm HL. pose proof Hm as (Hb & Hl & _). unfold flat_codec.
  rewrite (bind_run _ _ m _ m (section_ext_length_run m L Hm HL)), bind_fail_if.
  destruct (L - 1 <? hs) eqn:Efit; [right; split; [intros [? _]; lia|eauto]|].
  rewrite (swap_fields_run (hs - 8)) by (done || lia).
  destruct (swap_mem_spec (hs - 8) 8 ltac:(lia) hswaps m) as (Hl1 & Hb1 & Ho1); [done..|lia|].
  pose proof (slice_swap_mem (hs - 8) 8 ltac:(lia) hswaps m Hhswaps Hb ltac:(lia) ltac:(lia)) as Hs1.
  set (m1 := swap_mem hswaps 8 m) in *.
  assert (Hrest : slice m1 hs (L - 1 - hs) = slice m hs (L - 1 - hs))
    by (apply slice_ext; try lia; intros; apply Ho1; lia).
  assert (Hsplit : slice m 8 (L - 9) = slice m 8 (hs - 8) ++ slice m hs (L - 1 - hs)).
  { replace (L - 9) with ((hs - 8) + (L - 1 - hs)) by lia. rewrite slice_join by lia.
    do 2 f_equal. lia. }
  destruct (entry_loop_run h off swaps Hh Hswaps Hoff Hlenf (L - 1) (S (length m1)) hs m1)
    as [(m' & El & (es & Hes & E1 & E2) & Hl' & Hb' & Hlow)|[Hno (m' & El)]];
    [done|lia|lia|unfold zlen in *; lia| |]; unfold while_mem, mbind, M_bind; rewrite El.
  2:{ right. split; [|eauto]. intros (_ & t & (Htb & Htl & Hte) & Et). apply Hno. rewrite Hrest.
      rewrite Hsplit in Et. unfold encode_flat in Et.
      apply app_inj_1 in Et as [_ ->];
        [by exists (ft_entries t)|pose proof (zlen_slice_le m 8 (hs - 8)); unfold zlen in *; lia]. }
  left. rewrite Hrest in E1. exists (FlatTable (slice m 8 (hs - 8)) es), m'. split_and!.
  - split_and!; simpl; [by apply slice_bytes|by rewrite zlen_slice_le by lia|done].
  - lia.
  - unfold encode_flat. simpl. by rewrite Hsplit, E1.
  - by rewrite fail_if_run, Z.eqb_refl.
  - split_and!; simpl; [| | |done].
    + apply (parsed_ext m); try done; [lia|..]; rewrite Hlow by lia; apply Ho1; lia.
    + intros j Hj. rewrite Hlow by lia. apply Ho1; lia.
    + rewrite <- Hs1. apply slice_ext; try lia. intros j Hj. apply Hlow. lia.
Qed.

Lemma flat_for_each m' m t L {X} next (visit : Z -> M X) view :
  flat_host t L m m' -> hs + 1 <= L -> Forall (entry_ok h off) (ft_entries t) ->
  next_ok h off m' (L - 1) next -> visit_ok h off m' (L - 1) visit view ->
  for_each next visit (if L - 1 <=? hs then None else Some hs) m' =
    Ret (map (view_entry swaps view) (ft_entries t)) m'.
Proof.
  intros ((_ & Hl & _) & _ & _ & E) HL Hes Hn Hv.
  apply (entries_for_each_run h off swaps Hh Hswaps Hoff Hlenf m' (L - 1)); try done; lia.
Qed.
End flat_table.

(** ** A loop of descriptors and a loop of entries, each behind a 12-bit length *)

Section network_table.
Context (h off : Z) (swaps : list Z).
Context (Hh : 0 < h) (Hswaps : fields_in h swaps) (Hoff : 0 <= off /\ off + 2 <= h).
Context (Hlenf : forall hdr, bytes hdr -> zlen hdr = h ->
           le16 (swap_mem swaps 0 hdr) off = be16 hdr off).

Definition network_codec : M unit :=
  len ← section_ext_length;
  fail_if (len <? 10);;
  bswap16 8;;
  n ← (x ← rd16 8; mret (Z.land x 0xfff));
  fail_if (len <? 10 + n);;
  r ← verify_descriptors 10 n;
  fail_if (negb (r =? 0));;
  fail_if (len <? 10 + n + 2);;
  bswap16 (10 + n);;
  pos ← while_mem (entry_body h off swaps len) len (10 + n + 2);
  fail_if (negb (pos =? len)).

(** The two length words in network order, the descriptors, the entries. *)
Record network_table := NetworkTable {
  nt_word : list Z; nt_descs : list descriptor;
  nt_word2 : list Z; nt_entries : list entry }.

Definition network_ok (t : network_table) : Prop :=
  bytes (nt_word t) /\ zlen (nt_word t) = 2 /\ bytes (nt_word2 t) /\ zlen (nt_word2 t) = 2 /\
  Forall descriptor_ok (nt_descs t) /\ Forall (entry_ok h off) (nt_entries t) /\
  Z.land (be16 (nt_word t) 0) 0xfff = zlen (encode_descriptors (nt_descs t)).

Definition encode_network (t : network_table) : list Z :=
  nt_word t ++ encode_descriptors (nt_descs t) ++ nt_word2 t ++ encode_entries (nt_entries t).

Definition is_network (m : mem) (L : Z) : Prop :=
  exists t, network_ok t /\ slice m 8 (L - 9) = encode_network t.

(** The memory an accepting codec leaves. *)
Definition network_host (t : network_table) (L : Z) (m m' : mem) : Prop :=
  let n := zlen (encode_descriptors (nt_descs t)) in
  parsed m' L /\ 12 + n <= L - 1 /\ (forall j, 0 <= j < 8 -> m'.[j] = m.[j]) /\
  Z.land (le16 m' 8) 0xfff = n /\ slice m' 10 n = encode_descriptors (nt_descs t) /\
  le16 m' (10 + n) = be16 (nt_word2 t) 0 /\
  slice m' (12 + n) (L - 1 - (12 + n)) = host_entries swaps (nt_entries t).

Section run.
Context (m : mem) (L : Z) (Hm : parsed m L) (HL : 11 <= L).
Let n : Z := Z.land (be16 m 8) 0xfff.
Let m1 : mem := rev_at m 8 2.

Lemma network_split :
  12 + n <= L - 1 ->
  slice m 8 (L - 9) = slice m 8 2 ++ slice m 10 n ++ slice m (10 + n) 2 ++
                      slice m (12 + n) (L - 1 - (12 + n)).
Proof.
  destruct Hm as (_ & Hl & _). pose proof (land_range (be16 m 8) 0xfff ltac:(lia)). fold n in H.
  intros ?. replace (L - 9) with (2 + (n + (2 + (L - 1 - (12 + n))))) by lia.
  rewrite !slice_join by lia. replace (8 + 2) with 10 by lia.
  replace (10 + n + 2) with (12 + n) by lia. done.
Qed.

Lemma encode_network_inv t :
  network_ok t -> slice m 8 (L - 9) = encode_network t ->
  12 + n <= L - 1 /\ slice m 10 n = encode_descriptors (nt_descs t) /\
  slice m (10 + n) 2 = nt_word2 t /\
  slice m (12 + n) (L - 1 - (12 + n)) = encode_entries (nt_entries t).
Proof.
  destruct Hm as (Hb & Hl & _).
  intros (Hw & Hwl & Hw2 & Hw2l & _ & _ & Hn) E.
  pose proof (f_equal zlen E) as El. unfold encode_network in E, El.
  rewrite zlen_slice_le, !zlen_app in El by lia. lens.
  rewrite (slice_split m 8 (L - 9) 2) in E by lia.
  apply app_inj_1 in E as [E1 E]; [|pose proof (zlen_slice_le m 8 2); unfold zlen in *; lia].
  assert (Hnn : n = zlen (encode_descriptors (nt_descs t))).
  { rewrite <- Hn, <- E1. rewrite be16_slice by lia. done. }
  rewrite (slice_split m (8 + 2) (L - 9 - 2) n) in E by lia.
  apply app_inj_1 in E as [E2 E]; [|pose proof (zlen_slice_le m (8 + 2) n); unfold zlen in *; lia].
  rewrite (slice_split m (8 + 2 + n) (L - 9 - 2 - n) 2) in E by lia.
  apply app_inj_1 in E as [E3 E4]; [|pose proof (zlen_slice_le m (8 + 2 + n) 2); unfold zlen in *; lia].
  replace (8 + 2) with 10 in * by lia. replace (10 + n + 2) with (12 + n) in E4 by lia.
  replace (L - 9 - 2 - n - 2) with (L - 1 - (12 + n)) in E4 by lia.
  split_and!; [lia|done..].
Qed.

Lemma network_codec_run :
  (exists t m', network_ok t /\ slice m 8 (L - 9) = encode_network t /\
     network_codec m = Ret tt m' /\ network_host t L m m') \/
  (~ is_network m L /\ exists m', network_codec m = Null m').
Proof.
  pose proof Hm as (Hb & Hl & _). unfold network_codec.
  rewrite (bind_run _ _ m _ m (section_ext_length_run m L Hm ltac:(lia))), bind_fail_if.
  rewrite (proj2 (Z.ltb_ge _ _)) by lia.
  rewrite (bind_run _ _ m tt m1) by (apply bswap16_run; (done || lia)).
  assert (Hl1 : zlen m1 = L + 3) by (unfold m1; rewrite zlen_rev_at; lia).
  assert (Hb1 : bytes m1) by (unfold m1; auto with bgt).
  assert (Ho1 : forall j, 0 <= j -> ~ (8 <= j < 10) -> m1.[j] = m.[j])
    by (intros; unfold m1; apply zat_rev_at_out; lia).
  assert (E8 : le16 m1 8 = be16 m 8) by (apply le16_rev_at; (done || lia)).
  rewrite (bind_run _ _ m1 n m1) by (rewrite rd16_mask_run, E8 by lia; done).
  assert (Hn : 0 <= n <= 4095) by (apply land_range; lia).
  rewrite bind_fail_if. destruct (L - 1 <? 10 + n) eqn:Efit.
  { right. split; [|eauto]. intros (t & Ht & E). apply encode_network_inv in E as (? & _); [lia|done]. }
  assert (Hsd : slice m1 10 n = slice m 10 n)
    by (apply slice_ext; try lia; intros; apply Ho1; lia).
  destruct (wp_total _ _ _ _ (wp_verify_descriptors m1 10 n Hb1 ltac:(lia) ltac:(lia) ltac:(lia)))
    as [(r & m3 & E & -> & Hr)|(? & _ & [])].
  rewrite (bind_run _ _ m1 r m1 E), bind_fail_if. rewrite Hsd in Hr.
  destruct Hr as [[-> (ds & Hok & Eds)]|[-> Hno]]; simpl.
  2:{ right. split; [|eauto]. intros (t & Ht & Et). apply Hno.
      destruct (encode_network_inv t Ht Et) as (_ & ? & _). eauto. }
  rewrite bind_fail_if. destruct (L - 1 <? 10 + n + 2) eqn:Efit2.
  { right. split; [|eauto]. intros (t & Ht & Et). apply encode_network_inv in Et as (? & _); [lia|done]. }
  set (m2 := rev_at m1 (10 + n) 2).
  rewrite (bind_run _ _ m1 tt m2) by (apply bswap16_run; (done || lia)).
  assert (Hl2 : zlen m2 = L + 3) by (unfold m2; rewrite zlen_rev_at; lia).
  assert (Hb2 : bytes m2) by (unfold m2; auto with bgt).
  assert (Ho2 : forall j, 0 <= j -> ~ (10 + n <= j < 12 + n) -> m2.[j] = m1.[j])
    by (intros; unfold m2; apply zat_rev_at_out; lia).
  assert (Hse : slice m2 (12 + n) (L - 1 - (12 + n)) = slice m (12 + n) (L - 1 - (12 + n))).
  { apply slice_ext; try lia. intros. rewrite Ho2 by lia. apply Ho1; lia. }
  replace (10 + n + 2) with (12 + n) in * by lia.
  destruct (entry_loop_run h off swaps Hh Hswaps Hoff Hlenf (L - 1) (S (length m2)) (12 + n) m2)
    as [(m' & El & (es & Hes & E1 & E2) & Hl' & Hb' & Hlow)|[Hno (m' & El)]];
    [done|lia|lia|unfold zlen in *; lia| |]; unfold while_mem, mbind, M_bind; rewrite El.
  2:{ right. split; [|eauto]. intros (t & Ht & Et). apply Hno. rewrite Hse.
      destruct (encode_network_inv t Ht Et) as (_ & _ & _ & ->). exists (nt_entries t).
      split; [by apply Ht|done]. }
  left. rewrite Hse in E1.
  exists (NetworkTable (slice m 8 2) ds (slice m (10 + n) 2) es), m'.
  assert (Hlow' : forall j, 0 <= j < 10 + n -> m'.[j] = m1.[j])
    by (intros; rewrite Hlow by lia; apply Ho2; lia).
  assert (Ezn : zlen (encode_descriptors ds) = n) by (rewrite <- Eds, zlen_slice_le; lia).
  split_and!.
  - split_and!; simpl; try (by apply slice_bytes); try (by rewrite zlen_slice_le by lia); try done.
    rewrite be16_slice, Ezn by lia. done.
  - unfold encode_network. simpl. rewrite <- Eds, <- E1. apply network_split. lia.
  - by rewrite fail_if_run, Z.eqb_refl.
  - unfold network_host. simpl. rewrite Ezn. split_and!; [|lia| | | |..].
    + apply (parsed_ext m); try done; [lia|..]; rewrite Hlow' by lia; apply Ho1; lia.
    + intros j Hj. rewrite Hlow' by lia. apply Ho1; lia.
    + rewrite (le16_ext m' m1), E8 by (apply Hlow'; lia). done.
    + rewrite <- Eds, <- Hsd. apply slice_ext; try lia. intros. apply Hlow'. lia.
    + rewrite (le16_ext m' m2) by (apply Hlow; lia). unfold m2.
      rewrite le16_rev_at by (done || lia). rewrite be16_slice, Z.add_0_r by lia.
      apply be16_ext; apply Ho1; lia.
    + done.
Qed.
End run.
End network_table.
