(* ===== verification/MpegSections.v ===== *)
(** * MpegSections: the MPEG tables of libucsi/mpeg

    The codecs of the PAT, PMT, CAT, TSDT, ODSMT, metadata and datagram sections
    and their iterators.  The PAT and PMT codecs are proved to accept exactly the
    encodings of their tables and their iterators to return the encoded entries. *)

From S2P Require Import Prelude Mem EndianOps Descriptor Crc32 PsiSection EntryLoop TableCodec.

(** ** Program association table *)

Definition sizeof_mpeg_pat_section : Z := 8.
Definition sizeof_mpeg_pat_program : Z := 4.

Record mpeg_pat_program := PatProgram { pat_program_number : Z; pat_pid : Z }.

(** The fields of [struct mpeg_pat_program] at [p]; [pid] is the low 13 bits. *)
Definition read_mpeg_pat_program (p : Z) : M mpeg_pat_program :=
  n ← rd16 p; x ← rd16 (p + 2); mret (PatProgram n (Z.land x 0x1fff)).

Definition mpeg_pat_section_codec : M unit :=
  let pos := sizeof_section_ext in
  len ← section_ext_length;
  fail_if (len <? sizeof_mpeg_pat_section);;
  pos ← while_mem (fun pos =>
      fail_if (len <? pos + 4);;
      bswap16 pos;;
      bswap16 (pos + 2);;
      mret (pos + 4)) len pos;
  fail_if (negb (pos =? len)).

Definition mpeg_pat_section_transport_stream_id : M Z := section_ext_table_id_ext.

Definition mpeg_pat_section_programs_first : M (option Z) :=
  let pos := sizeof_mpeg_pat_section in
  len ← section_ext_length;
  mret (if len <=? pos then None else Some pos).

Definition mpeg_pat_section_programs_next (pos : Z) : M (option Z) :=
  end_ ← section_ext_length;
  let next := pos + sizeof_mpeg_pat_program in
  mret (if end_ <=? next then None else Some next).

Definition mpeg_pat_section_programs_for_each : M (list mpeg_pat_program) :=
  first ← mpeg_pat_section_programs_first;
  for_each mpeg_pat_section_programs_next read_mpeg_pat_program first.

(** ** Program map table *)

Definition sizeof_mpeg_pmt_section : Z := 12.
Definition sizeof_mpeg_pmt_stream : Z := 5.

Definition pmt_pcr_pid : M Z := x ← rd16 8; mret (Z.land x 0x1fff).
Definition pmt_program_info_length : M Z := x ← rd16 10; mret (Z.land x 0xfff).

Definition pmt_stream_type (s : Z) : M Z := rd8 s.
Definition pmt_stream_pid (s : Z) : M Z := x ← rd16 (s + 1); mret (Z.land x 0x1fff).
Definition pmt_stream_es_info_length (s : Z) : M Z := x ← rd16 (s + 3); mret (Z.land x 0xfff).

Definition mpeg_pmt_section_codec : M unit :=
  let pos := sizeof_section_ext in
  len ← section_ext_length;
  fail_if (len <? sizeof_mpeg_pmt_section);;
  bswap16 pos;;
  let pos := pos + 2 in
  bswap16 pos;;
  let pos := pos + 2 in
  n ← pmt_program_info_length;
  fail_if (len <? pos + n);;
  r ← verify_descriptors pos n;
  fail_if (negb (r =? 0));;
  let pos := pos + n in
  pos ← while_mem (fun pos =>
      let stream := pos in
      fail_if (len <? pos + sizeof_mpeg_pmt_stream);;
      bswap16 (pos + 1);;
      bswap16 (pos + 3);;
      x ← rd16 (stream + 3);
      let es_info_length := Z.land x 0xfff in
      let pos := pos + sizeof_mpeg_pmt_stream in
      fail_if (len <? pos + es_info_length);;
      r ← verify_descriptors pos es_info_length;
      fail_if (negb (r =? 0));;
      mret (pos + es_info_length)) len pos;
  fail_if (negb (pos =? len)).

Definition mpeg_pmt_section_program_number : M Z := section_ext_table_id_ext.

Definition mpeg_pmt_section_descriptors_first : M (option Z) :=
  n ← pmt_program_info_length;
  mret (if n =? 0 then None else Some sizeof_mpeg_pmt_section).
Definition mpeg_pmt_section_descriptors_next (pos : Z) : M (option Z) :=
  n ← pmt_program_info_length;
  next_descriptor sizeof_mpeg_pmt_section n (Some pos).

Definition mpeg_pmt_section_streams_first : M (option Z) :=
  n ← pmt_program_info_length;
  let pos := sizeof_mpeg_pmt_section + n in
  len ← section_ext_length;
  mret (if len <=? pos then None else Some pos).
Definition mpeg_pmt_section_streams_next (pos : Z) : M (option Z) :=
  end_ ← section_ext_length;
  n ← pmt_stream_es_info_length pos;
  let next := pos + sizeof_mpeg_pmt_stream + n in
  mret (if end_ <=? next then None else Some next).

Definition mpeg_pmt_stream_descriptors_first (stream : Z) : M (option Z) :=
  n ← pmt_stream_es_info_length stream;
  mret (if n =? 0 then None else Some (stream + sizeof_mpeg_pmt_stream)).
Definition mpeg_pmt_stream_descriptors_next (stream pos : Z) : M (option Z) :=
  n ← pmt_stream_es_info_length stream;
  next_descriptor (stream + sizeof_mpeg_pmt_stream) n (Some pos).

(** The three iterations, each with a client that collects what it sees. *)
Record mpeg_pmt_stream := PmtStream {
  stream_type : Z; stream_pid : Z; stream_descs : list descriptor }.

Definition mpeg_pmt_section_descriptors_for_each : M (list descriptor) :=
  first ← mpeg_pmt_section_descriptors_first;
  for_each mpeg_pmt_section_descriptors_next read_descriptor first.
Definition mpeg_pmt_stream_descriptors_for_each (stream : Z) : M (list descriptor) :=
  first ← mpeg_pmt_stream_descriptors_first stream;
  for_each (mpeg_pmt_stream_descriptors_next stream) read_descriptor first.
Definition read_mpeg_pmt_stream (s : Z) : M mpeg_pmt_stream :=
  t ← pmt_stream_type s;
  p ← pmt_stream_pid s;
  ds ← mpeg_pmt_stream_descriptors_for_each s;
  mret (PmtStream t p ds).
Definition mpeg_pmt_section_streams_for_each : M (list mpeg_pmt_stream) :=
  first ← mpeg_pmt_section_streams_first;
  for_each mpeg_pmt_section_streams_next read_mpeg_pmt_stream first.

(** ** Conditional access and transport stream description tables

    [section_ext_length(ext) - sizeof(...)] is a [size_t] subtraction: it wraps when
    the section is shorter than its own header. *)

Definition sizeof_mpeg_cat_section : Z := 8.
Definition mpeg_cat_section_codec : M unit :=
  let pos := sizeof_section_ext in
  len ← section_ext_length;
  r ← verify_descriptors pos (u64 (len - sizeof_mpeg_cat_section));
  fail_if (negb (r =? 0)).

Definition mpeg_cat_section_descriptors_first : M (option Z) :=
  let pos := sizeof_mpeg_cat_section in
  len ← section_ext_length;
  mret (if len <=? pos then None else Some pos).
Definition mpeg_cat_section_descriptors_next (pos : Z) : M (option Z) :=
  len ← section_ext_length;
  next_descriptor sizeof_mpeg_cat_section (u64 (len - sizeof_mpeg_cat_section)) (Some pos).

Definition sizeof_mpeg_tsdt_section : Z := 8.
Definition mpeg_tsdt_section_codec : M unit :=
  let pos := sizeof_section_ext in
  len ← section_ext_length;
  r ← verify_descriptors pos (u64 (len - sizeof_mpeg_tsdt_section));
  fail_if (negb (r =? 0)).

(** ** Object descriptor stream map table *)

Definition sizeof_mpeg_odsmt_section : Z := 9.
Definition sizeof_mpeg_odsmt_stream_single : Z := 3.
Definition sizeof_mpeg_odsmt_stream_multi : Z := 4.
Definition odsmt_stream_count : M Z := rd8 8.

Definition mpeg_odsmt_section_codec : M unit :=
  let pos := sizeof_section_ext in
  len ← section_ext_length;
  fail_if (len <? sizeof_mpeg_odsmt_section);;
  let pos := pos + 1 in
  stream_count ← odsmt_stream_count;
  pos ←
    (if stream_count =? 0 then
       let stream := pos in
       fail_if (len <? pos + sizeof_mpeg_odsmt_stream_single);;
       bswap16 pos;;
       let pos := pos + 3 in
       n ← rd8 (stream + 2);
       fail_if (len <=? pos + n);;
       r ← verify_descriptors pos n;
       fail_if (negb (r =? 0));;
       mret (pos + n)
     else
       for_upto (Z.to_nat stream_count) 0 (fun _ pos =>
         let stream := pos in
         fail_if (len <? pos + sizeof_mpeg_odsmt_stream_multi);;
         bswap16 pos;;
         let pos := pos + sizeof_mpeg_odsmt_stream_multi in
         n ← rd8 (stream + 3);
         fail_if (len <? pos + n);;
         r ← verify_descriptors pos n;
         fail_if (negb (r =? 0));;
         mret (pos + n)) pos);
  fail_if (negb (pos =? len)).

Definition mpeg_odsmt_section_pid : M Z := x ← section_ext_table_id_ext; mret (Z.land x 0x1fff).

Definition mpeg_odsmt_section_streams_first : M (option Z) :=
  let pos := sizeof_mpeg_odsmt_section in
  len ← section_ext_length;
  mret (if len <=? pos then None else Some pos).
Definition mpeg_odsmt_section_streams_next (pos _index : Z) : M (option Z) :=
  end_ ← section_ext_length;
  stream_count ← odsmt_stream_count;
  if stream_count <? _index then mret None
  else
    n ← rd8 (pos + 3);
    let next := pos + sizeof_mpeg_odsmt_stream_multi + n in
    mret (if end_ <=? next then None else Some next).

(** ** Metadata and datagram sections *)

Definition mpeg_metadata_section_codec : M unit := mret tt.
Definition mpeg_metadata_section_random_access_indicator : M Z :=
  x ← section_reserved; mret (Z.shiftr x 1).
Definition mpeg_metadata_section_decoder_config_flag : M Z :=
  x ← section_reserved; mret (Z.land x 1).
Definition mpeg_metadata_section_fragment_indicator : M Z := x ← rd8 5; mret (Z.shiftr x 6).
Definition mpeg_metadata_section_service_id : M Z :=
  x ← section_ext_table_id_ext; mret (Z.shiftr x 8).
Definition mpeg_metadata_section_data : Z := 8.
Definition mpeg_metadata_section_data_length : M Z :=
  len ← section_ext_length; mret (s32 (u64 (len - 8))).

Definition datagram_section_codec : M unit := mret tt.
Definition datagram_section_ip_data : Z := sizeof_section + 2 + 1 + 1 + 1 + 4.
Definition datagram_section_ip_data_length : M Z :=
  len ← section_length;
  mret (u64 (len - (sizeof_section + 2 + 1 + 1 + 1 + 4) - CRC_SIZE)).

(** ** Lemmas *)

(** The extended length of a parsed section, as an equation. *)
(** [x & mask] of a 16-bit load, as an equation. *)
(** *** PAT *)

Section pat.
Context (m : mem) (L : Z) (Hm : parsed m L) (HL : 9 <= L).

(** The [i]-th program of the section as transmitted. *)
Definition wire_program (i : Z) : mpeg_pat_program :=
  PatProgram (be16 m (8 + 4 * i)) (Z.land (be16 m (8 + 4 * i + 2)) 0x1fff).

Definition pat_inv (pos : Z) (m' : mem) : Prop :=
  zlen m' = zlen m /\ bytes m' /\ 8 <= pos <= L - 1 /\ (pos - 8) mod 4 = 0 /\
  (forall j, 0 <= j -> j < 8 \/ pos <= j -> m'.[j] = m.[j]) /\
  (forall i, 0 <= i -> 8 + 2 * i < pos -> le16 m' (8 + 2 * i) = be16 m (8 + 2 * i)).

Lemma pat_step pos m' :
  pat_inv pos m' -> pos < L - 1 ->
  wp (fail_if (L - 1 <? pos + 4);; bswap16 pos;; bswap16 (pos + 2);; mret (pos + 4))
     (fun pos' m'' => pos < pos' /\ pat_inv pos' m'')
     (fun _ => (L - 9) mod 4 <> 0) m'.
Proof.
  intros (Hl & Hb & Hpos & Hmod & Hsame & Hdone) Hlt. destruct Hm as (_ & Hlm & _).
  wp_step. wp_step; [lia|].
  wp_step. apply wp_bswap16; [done|lia|lia|].
  wp_step. apply wp_bswap16; [auto with bgt|lia|rewrite zlen_rev_at; lia|].
  wp_step. split; [lia|]. unfold pat_inv.
  rewrite !zlen_rev_at by (rewrite ?zlen_rev_at; lia).
  split_and!; [done|auto with bgt|lia|lia|lia| |].
  - intros j Hj Hout. rewrite !zat_rev_at_out by (rewrite ?zlen_rev_at; lia).
    apply Hsame; lia.
  - intros i Hi Hlt'. destruct (decide (8 + 2 * i < pos)) as [|Hge].
    + rewrite !le16_rev_at_ne by (rewrite ?zlen_rev_at; lia). by apply Hdone.
    + assert (8 + 2 * i = pos \/ 8 + 2 * i = pos + 2) as [-> | ->] by lia.
      * rewrite le16_rev_at_ne, le16_rev_at by (rewrite ?zlen_rev_at; (done || lia)).
        apply be16_ext; apply Hsame; lia.
      * rewrite le16_rev_at; [|auto with bgt|lia|rewrite zlen_rev_at; lia].
        apply be16_ext; rewrite zat_rev_at_out by lia; apply Hsame; lia.
Qed.

Lemma wp_pat_codec :
  wp mpeg_pat_section_codec (fun _ m' => pat_inv (L - 1) m' /\ (L - 9) mod 4 = 0)
     (fun _ => (L - 9) mod 4 <> 0) m.
Proof.
  destruct Hm as (Hb & Hl & Hf). unfold mpeg_pat_section_codec, sizeof_section_ext,
    sizeof_mpeg_pat_section.
  apply wp_bind, wp_section_ext_length; [lia|lia|]. rewrite Hf.
  wp_step. wp_step; [lia|]. wp_step. eapply wp_mono.
  - apply (wp_while_mem pat_inv); [apply pat_step|lens; lia|].
    unfold pat_inv. split_and!; [done|done|lia|lia|done|done|lia].
  - simpl. intros pos m' (Hge & HI). assert (pos = L - 1) as -> by (destruct HI as (_ & _ & ? & _); lia).
    apply wp_fail_if; [lia|]. intros _. split; [done|]. destruct HI as (_ & _ & _ & ? & _).
    by replace (L - 9) with (L - 1 - 8) by lia.
  - done.
Qed.

Lemma pat_programs_for_each_fuel m' :
  pat_inv (L - 1) m' -> (L - 9) mod 4 = 0 ->
  forall n i fuel, 0 <= i -> 8 + 4 * i + 4 * n = L - 1 -> 0 <= n -> n < Z.of_nat fuel ->
  for_each_fuel fuel mpeg_pat_section_programs_next read_mpeg_pat_program
    (if n =? 0 then None else Some (8 + 4 * i)) m' = Ret (map wire_program (seqZ i n)) m'.
Proof.
  intros (Hl & Hb & Hpos & Hmod & Hsame & Hdone) Hm4. destruct Hm as (Hbm & Hlm & Hfm).
  assert (Hp' : parsed m' L).
  { split_and!; [done|lia|]. rewrite <- Hfm. f_equal. apply le16_ext; apply Hsame; lia. }
  intros n i fuel Hi Hsum Hn. revert i fuel Hi Hsum. pattern n.
  apply natlike_ind; [| |done]; clear n Hn.
  - intros i fuel _ _ _. rewrite seqZ_nil by lia. by destruct fuel.
  - intros n Hn IH i [|fuel] Hi Hsum Hf; [lia|].
    rewrite (proj2 (Z.eqb_neq (Z.succ n) 0)) by lia. simpl for_each_fuel.
    rewrite seqZ_cons by lia. rewrite Z.pred_succ. simpl map.
    rewrite (bind_run _ _ m' (wire_program i) m').
    2:{ unfold read_mpeg_pat_program.
        rewrite (bind_run _ _ m' _ m' (rd16_run (8 + 4 * i) m' ltac:(lia) ltac:(lia))).
        rewrite (bind_run _ _ m' _ m' (rd16_run (8 + 4 * i + 2) m' ltac:(lia) ltac:(lia))).
        unfold wire_program, mret, M_ret.
        replace (8 + 4 * i) with (8 + 2 * (2 * i)) by lia.
        replace (8 + 2 * (2 * i) + 2) with (8 + 2 * (2 * i + 1)) by lia.
        by rewrite !Hdone by lia. }
    rewrite (bind_run _ _ m' (if n =? 0 then None else Some (8 + 4 * (i + 1))) m').
    2:{ unfold mpeg_pat_section_programs_next, sizeof_mpeg_pat_program.
        rewrite (bind_run _ _ m' _ m' (section_ext_length_run m' L Hp' ltac:(lia))).
        unfold mret, M_ret. f_equal.
        destruct (L - 1 <=? 8 + 4 * i + 4) eqn:?, (n =? 0) eqn:?; try lia; [done|].
        f_equal. lia. }
    by rewrite (bind_run _ _ m' _ m' (IH (i + 1) fuel ltac:(lia) ltac:(lia) ltac:(lia))).
Qed.
End pat.

(** The PAT codec accepts a parsed section exactly when its body is a whole number
    of 4-byte programs, and the [for_each] iteration over the accepted section
    returns, in order, the program numbers and PIDs that were transmitted in network
    byte order. *)
Theorem mpeg_pat_section_correct m L :
  parsed m L -> 1 <= L ->
  9 <= L /\ (L - 9) mod 4 = 0 /\
    (exists m', mpeg_pat_section_codec m = Ret tt m' /\
       mpeg_pat_section_programs_for_each m' = Ret (map (wire_program m) (seqZ 0 ((L - 9) / 4))) m') \/
  ~ (9 <= L /\ (L - 9) mod 4 = 0) /\ (exists m', mpeg_pat_section_codec m = Null m').
Proof.
  intros Hm HL. destruct (decide (9 <= L)) as [HL9|].
  2:{ right. split; [lia|]. exists m. unfold mpeg_pat_section_codec, sizeof_mpeg_pat_section.
      rewrite (bind_run _ _ m _ m (section_ext_length_run m L Hm HL)), bind_fail_if.
      by rewrite (proj2 (Z.ltb_lt _ _)) by lia. }
  destruct (wp_total _ _ _ _ (wp_pat_codec m L Hm HL9)) as [([] & m' & E & HI & Hmod)|(m' & E & Hmod)].
  2:{ right. split; [lia|eauto]. }
  left. split_and!; [done..|]. exists m'. split; [done|].
  assert (Hp' : parsed m' L).
  { destruct Hm as (? & ? & Hf), HI as (? & ? & ? & ? & Hs & _).
    split_and!; [done|lia|]. rewrite <- Hf. f_equal. apply le16_ext; apply Hs; lia. }
  unfold mpeg_pat_section_programs_for_each, mpeg_pat_section_programs_first, sizeof_mpeg_pat_section.
  rewrite (bind_run _ _ m' (if (L - 9) / 4 =? 0 then None else Some (8 + 4 * 0)) m').
  - apply (pat_programs_for_each_fuel m L Hm HL9 m' HI Hmod); try lia.
    destruct Hp' as (_ & Hl & _). unfold zlen in Hl. lia.
  - rewrite (bind_run _ _ m' _ m' (section_ext_length_run m' L Hp' HL)).
    unfold mret, M_ret. f_equal.
    destruct (L - 1 <=? 8) eqn:?, ((L - 9) / 4 =? 0) eqn:?; lia || done.
Qed.

(** A PAT with two programs: the second is transmitted as 01 02 e3 04. *)
Definition pat_example : mem :=
  [0x00; 0x11; 0xb0; 0x00; 0x01; 0xc1; 0x00; 0x00;
   0x00; 0x00; 0xe0; 0x10; 0x01; 0x02; 0xe3; 0x04; 0xaa; 0xbb; 0xcc; 0xdd].

Lemma parsed_pat_example : parsed pat_example 17.
Proof. split_and!; [repeat constructor; unfold byte; lia|done|done]. Qed.

Lemma mpeg_pat_section_correct_witness :
  9 <= 17 /\ (17 - 9) mod 4 = 0 /\
    (exists m', mpeg_pat_section_codec pat_example = Ret tt m' /\
       mpeg_pat_section_programs_for_each m' = Ret [PatProgram 0 0x10; PatProgram 0x102 0x304] m').
Proof.
  destruct (mpeg_pat_section_correct pat_example 17 parsed_pat_example ltac:(lia)) as [H|[H _]];
    [exact H|exfalso; apply H; split; [lia|reflexivity]].
Defined.

(** *** PMT *)

Definition pmt_swaps : list Z := [1; 3].

Lemma pmt_fields_in : fields_in 5 pmt_swaps.
Proof. repeat constructor; lia. Qed.

Lemma pmt_lenf hdr : bytes hdr -> zlen hdr = 5 -> le16 (swap_mem pmt_swaps 0 hdr) 3 = be16 hdr 3.
Proof. solve_lenf. Qed.

(** A program map table as it is transmitted after the generic header: the PCR PID
    and descriptor-length words, the program descriptors, the streams. *)
Record pmt := Pmt { pmt_words : list Z; pmt_descs : list descriptor; pmt_streams : list entry }.

Definition pmt_ok (t : pmt) : Prop :=
  bytes (pmt_words t) /\ zlen (pmt_words t) = 4 /\ Forall descriptor_ok (pmt_descs t) /\
  Z.land (be16 (pmt_words t) 2) 0xfff = zlen (encode_descriptors (pmt_descs t)) /\
  Forall (entry_ok 5 3) (pmt_streams t).

Definition encode_pmt (t : pmt) : list Z :=
  pmt_words t ++ encode_descriptors (pmt_descs t) ++ encode_entries (pmt_streams t).

(** The stream a transmitted entry denotes, its fields in network byte order. *)
Definition wire_stream (e : entry) : mpeg_pmt_stream :=
  PmtStream ((e_hdr e).[0]) (Z.land (be16 (e_hdr e) 1) 0x1fff) (e_descs e).

Definition host_stream (hdr : list Z) (ds : list descriptor) : mpeg_pmt_stream :=
  PmtStream (hdr.[0]) (Z.land (le16 hdr 1) 0x1fff) ds.

Lemma host_wire_stream e :
  entry_ok 5 3 e -> view_entry pmt_swaps host_stream e = wire_stream e.
Proof.
  intros (Hb & Hz & _). unfold view_entry, host_stream, wire_stream. simpl.
  rewrite !Z.add_0_l. rewrite !zat_rev_at_out by (rewrite ?zlen_rev_at; lia).
  rewrite le16_rev_at_ne, le16_rev_at by (rewrite ?zlen_rev_at; (done || lia)). done.
Qed.

Section pmt_iteration.
Context (m : mem) (L : Z) (Hm : parsed m L) (HL : 13 <= L).

Lemma pmt_stream_next_ok : next_ok 5 3 m (L - 1) mpeg_pmt_section_streams_next.
Proof.
  destruct Hm as (Hb & Hl & _). intros p Hp Hp5.
  unfold mpeg_pmt_section_streams_next, pmt_stream_es_info_length, sizeof_mpeg_pmt_stream.
  rewrite (bind_run _ _ m _ m (section_ext_length_run m L Hm ltac:(lia))).
  by rewrite (bind_run _ _ m _ m (rd16_mask_run (p + 3) 0xfff m ltac:(lia) ltac:(lia))).
Qed.

Lemma pmt_stream_visit_ok : visit_ok 5 3 m (L - 1) read_mpeg_pmt_stream host_stream.
Proof.
  destruct Hm as (Hb & Hl & _). intros p ds Hp Hfit Hk E. lens.
  assert (Hlen : pmt_stream_es_info_length p m = Ret (zlen (encode_descriptors ds)) m).
  { unfold pmt_stream_es_info_length. rewrite rd16_mask_run by lia. by rewrite Hk. }
  unfold read_mpeg_pmt_stream, pmt_stream_type, pmt_stream_pid.
  rewrite (bind_run _ _ m _ m (rd8_run p m ltac:(lia))).
  rewrite (bind_run _ _ m _ m (rd16_mask_run (p + 1) 0x1fff m ltac:(lia) ltac:(lia))).
  rewrite (bind_run _ _ m ds m).
  2:{ apply (for_each_descriptors_run m (p + 5) (zlen (encode_descriptors ds))
               (pmt_stream_es_info_length p)); try done; try lia.
      unfold mpeg_pmt_stream_descriptors_first. by rewrite (bind_run _ _ m _ m Hlen). }
  unfold mret, M_ret, host_stream. rewrite zat_slice, le16_slice by lia.
  by rewrite Z.add_0_r.
Qed.
End pmt_iteration.

(** The two words of the header swapped by the PMT codec. *)
Definition pmt_swapped (m : mem) : mem := rev_at (rev_at m 8 2) 10 2.

Section pmt_codec.
Context (m : mem) (L : Z) (Hm : parsed m L) (HL : 13 <= L).

Let n : Z := Z.land (be16 m 10) 0xfff.
Let m2 : mem := pmt_swapped m.

Lemma pmt_swapped_facts :
  parsed m2 L /\ (forall j, 0 <= j -> ~ (8 <= j < 12) -> m2.[j] = m.[j]) /\
  le16 m2 8 = be16 m 8 /\ le16 m2 10 = be16 m 10.
Proof.
  destruct Hm as (Hb & Hl & Hf). unfold m2, pmt_swapped.
  assert (H1 : parsed (rev_at m 8 2) L) by (apply parsed_rev_at; (done || lia)).
  pose proof H1 as (Hb1 & Hl1 & _).
  split; [apply parsed_rev_at; (done || lia)|]. split; [|split].
  - intros j Hj Hout. by rewrite !zat_rev_at_out by lia.
  - rewrite le16_rev_at_ne, le16_rev_at by (done || lia). done.
  - rewrite le16_rev_at by (done || lia). apply be16_ext; by rewrite zat_rev_at_out by lia.
Qed.

(** The codec up to its loop. *)
Lemma pmt_codec_prefix :
  mpeg_pmt_section_codec m =
    if L - 1 <? 12 + n then Null m2
    else (r ← verify_descriptors 12 n;
          fail_if (negb (r =? 0));;
          pos ← while_mem (entry_body 5 3 pmt_swaps (L - 1)) (L - 1) (12 + n);
          fail_if (negb (pos =? L - 1))) m2.
Proof.
  destruct Hm as (Hb & Hl & _). destruct pmt_swapped_facts as (Hp2 & _ & _ & E10).
  unfold mpeg_pmt_section_codec, sizeof_section_ext, sizeof_mpeg_pmt_section.
  rewrite (bind_run _ _ m _ m (section_ext_length_run m L Hm ltac:(lia))), bind_fail_if.
  rewrite (proj2 (Z.ltb_ge _ _)) by lia.
  rewrite (bind_run _ _ m tt (rev_at m 8 2)) by (apply bswap16_run; (done || lia)).
  rewrite (bind_run _ _ (rev_at m 8 2) tt m2)
    by (apply bswap16_run; [auto with bgt|lia|rewrite zlen_rev_at; lia]).
  rewrite (bind_run _ _ m2 n m2).
  2:{ unfold pmt_program_info_length. destruct Hp2 as (_ & Hl2 & _).
      rewrite rd16_mask_run by lia. by rewrite E10. }
  rewrite bind_fail_if. reflexivity.
Qed.

(** The codec leaves the generic header as it was. *)
Definition header_kept (m' : mem) : Prop := parsed m' L /\ forall j, 0 <= j < 8 -> m'.[j] = m.[j].

Definition pmt_accepts : Prop :=
  exists t, pmt_ok t /\ slice m 8 (L - 9) = encode_pmt t /\
  exists m', mpeg_pmt_section_codec m = Ret tt m' /\
    header_kept m' /\
    pmt_pcr_pid m' = Ret (Z.land (be16 (pmt_words t) 0) 0x1fff) m' /\
    mpeg_pmt_section_descriptors_for_each m' = Ret (pmt_descs t) m' /\
    mpeg_pmt_section_streams_for_each m' = Ret (map wire_stream (pmt_streams t)) m'.

Definition is_pmt : Prop := exists t, pmt_ok t /\ slice m 8 (L - 9) = encode_pmt t.

(** A body that encodes a table splits where the codec splits it. *)
Lemma encode_pmt_inv t :
  pmt_ok t -> slice m 8 (L - 9) = encode_pmt t ->
  12 + n <= L - 1 /\ slice m 12 n = encode_descriptors (pmt_descs t) /\
  slice m (12 + n) (L - 1 - (12 + n)) = encode_entries (pmt_streams t).
Proof.
  destruct Hm as (Hb & Hl & _). intros (Hwb & Hwl & Hd & Hn & Hs) E. unfold encode_pmt in E.
  pose proof (f_equal zlen E) as El. rewrite zlen_slice_le, !zlen_app in El by lia. lens.
  rewrite (slice_split m 8 (L - 9) 4) in E by lia.
  apply app_inj_1 in E as [E1 E2]; [|pose proof (zlen_slice_le m 8 4); unfold zlen in *; lia].
  assert (Hnn : n = zlen (encode_descriptors (pmt_descs t))).
  { rewrite <- Hn, <- E1. rewrite be16_slice by lia. done. }
  rewrite (slice_split m (8 + 4) (L - 9 - 4) n) in E2 by lia.
  apply app_inj_1 in E2 as [E2 E3];
    [|pose proof (zlen_slice_le m (8 + 4) n); unfold zlen in *; lia].
  replace (8 + 4) with 12 in * by lia. replace (L - 9 - 4 - n) with (L - 1 - (12 + n)) in E3 by lia.
  split_and!; [lia|done|done].
Qed.

Lemma pmt_codec_run : pmt_accepts \/ ~ is_pmt /\ exists m', mpeg_pmt_section_codec m = Null m'.
Proof.
  destruct Hm as (Hb & Hl & _). destruct pmt_swapped_facts as (Hp2 & Hout & E8 & E10).
  pose proof Hp2 as (Hb2 & Hl2 & _). unfold pmt_accepts. rewrite pmt_codec_prefix.
  assert (Hn : 0 <= n <= 4095) by (apply land_range; lia).
  destruct (L - 1 <? 12 + n) eqn:Efit.
  { right. split; [|eauto]. intros (t & Ht & E). apply encode_pmt_inv in E as (? & _); [lia|done]. }
  assert (Hsd : slice m2 12 n = slice m 12 n)
    by (apply slice_ext; try lia; intros; apply Hout; lia).
  assert (Hse : slice m2 (12 + n) (L - 1 - (12 + n)) = slice m (12 + n) (L - 1 - (12 + n)))
    by (apply slice_ext; try lia; intros; apply Hout; lia).
  destruct (wp_total _ _ _ _ (wp_verify_descriptors m2 12 n Hb2 ltac:(lia) ltac:(lia) ltac:(lia)))
    as [(r & m3 & E & -> & Hr)|(? & _ & [])].
  rewrite (bind_run _ _ m2 r m2 E), bind_fail_if. rewrite Hsd in Hr.
  destruct Hr as [[-> (ds & Hok & Eds)]|[-> Hno]]; simpl.
  2:{ right. split; [|eauto]. intros (t & Ht & Et). apply Hno.
      destruct (encode_pmt_inv t Ht Et) as (_ & ? & _). eauto. }
  destruct (entry_loop_run 5 3 pmt_swaps ltac:(lia) pmt_fields_in ltac:(lia) pmt_lenf
              (L - 1) (S (length m2)) (12 + n) m2)
    as [(m' & Eloop & (es & Hes & E1 & E2) & Hl' & Hb' & Hlow)|[Hno (m' & Eloop)]];
    [done|lia|lia|unfold zlen in *; lia| |].
  2:{ right. split.
      - intros (t & Ht & Et). apply Hno. rewrite Hse.
        destruct (encode_pmt_inv t Ht Et) as (_ & _ & ->). exists (pmt_streams t).
        split; [by apply Ht|done].
      - exists m'. unfold while_mem, mbind, M_bind. by rewrite Eloop. }
  left. rewrite Hse in E1.
  exists (Pmt (slice m 8 4) ds es). split; [|split].
  - split_and!; simpl; [by apply slice_bytes|by rewrite zlen_slice_le by lia|done| |done].
    rewrite be16_slice, <- Eds, zlen_slice_le by lia. done.
  - unfold encode_pmt. simpl. rewrite <- Eds, <- E1.
    rewrite (slice_split m 8 (L - 9) 4) by lia. f_equal.
    rewrite (slice_split m (8 + 4) (L - 9 - 4) n) by lia. do 2 f_equal; lia.
  - exists m'. assert (Hp' : parsed m' L).
    { destruct Hp2 as (_ & _ & <-). split_and!; [done|lia|]. f_equal.
      apply le16_ext; apply Hlow; lia. }
    assert (Hinfo : pmt_program_info_length m' = Ret n m').
    { unfold pmt_program_info_length. rewrite rd16_mask_run by lia.
      rewrite (le16_ext m' m2) by (apply Hlow; lia). by rewrite E10. }
    split_and!.
    + unfold while_mem, mbind, M_bind. rewrite Eloop. rewrite fail_if_run.
      by rewrite Z.eqb_refl.
    + split; [done|]. intros j Hj. rewrite Hlow, Hout by lia. done.
    + unfold pmt_pcr_pid. rewrite rd16_mask_run by lia.
      rewrite (le16_ext m' m2), E8 by (apply Hlow; lia). simpl. by rewrite be16_slice by lia.
    + apply (for_each_descriptors_run m' 12 n pmt_program_info_length); try done; try lia.
      * simpl. rewrite <- Eds, <- Hsd. apply slice_ext; try lia. intros. apply Hlow. lia.
      * unfold mpeg_pmt_section_descriptors_first. by rewrite (bind_run _ _ m' _ m' Hinfo).
    + unfold mpeg_pmt_section_streams_for_each, mpeg_pmt_section_streams_first.
      rewrite (bind_run _ _ m' (if L - 1 <=? 12 + n then None else Some (12 + n)) m').
      2:{ rewrite (bind_run _ _ m' _ m' Hinfo).
          by rewrite (bind_run _ _ m' _ m' (section_ext_length_run m' L Hp' ltac:(lia))). }
      rewrite (entries_for_each_run 5 3 pmt_swaps ltac:(lia) pmt_fields_in ltac:(lia) pmt_lenf
                m' (L - 1) _ _ host_stream es); try done; try lia.
      * f_equal. simpl. apply map_ext_Forall. eapply Forall_impl; [|exact Hes].
        exact host_wire_stream.
      * by apply pmt_stream_next_ok.
      * by apply pmt_stream_visit_ok.
Qed.
End pmt_codec.

(** C2: The PMT codec accepts a parsed section exactly when its body encodes a program
    map table; it leaves the generic header as it is, and the accessors of the accepted
    section then return the PCR PID, the program descriptors and the streams (type, PID,
    descriptors) that were encoded. *)
Theorem mpeg_pmt_section_correct m L :
  parsed m L -> 1 <= L ->
  13 <= L /\ pmt_accepts m L \/
  ~ (13 <= L /\ is_pmt m L) /\ (exists m', mpeg_pmt_section_codec m = Null m').
Proof.
  intros Hm HL. destruct (decide (13 <= L)) as [HL13|].
  - destruct (pmt_codec_run m L Hm HL13) as [|[Hno ?]]; [by left|right].
    split; [|done]. by intros [_ ?].
  - right. split; [lia|]. exists m. unfold mpeg_pmt_section_codec, sizeof_mpeg_pmt_section.
    rewrite (bind_run _ _ m _ m (section_ext_length_run m L Hm HL)), bind_fail_if.
    by rewrite (proj2 (Z.ltb_lt _ _)) by lia.
Qed.

(** A PMT with one program descriptor (09 02 05 00) and one MPEG-2 video stream. *)
Definition pmt_example : mem :=
  [0x02; 0x1b; 0xb0; 0x00; 0x01; 0xc1; 0x00; 0x00;
   0xe1; 0x00; 0xf0; 0x04; 0x09; 0x02; 0x05; 0x00;
   0x02; 0xe1; 0x01; 0xf0; 0x05; 0x52; 0x01; 0x07; 0x0a; 0x00; 0xaa; 0xbb; 0xcc; 0xdd].

Lemma parsed_pmt_example : parsed pmt_example 27.
Proof. split_and!; [repeat constructor; unfold byte; lia|done|done]. Qed.

Lemma mpeg_pmt_section_correct_witness : 13 <= 27 /\ pmt_accepts pmt_example 27.
Proof.
  destruct (mpeg_pmt_section_correct pmt_example 27 parsed_pmt_example ltac:(lia)) as [H|[H _]];
    [exact H|exfalso].
  apply H. split; [lia|].
  exists (Pmt [0xe1; 0x00; 0xf0; 0x04] [Descriptor 0x09 [0x05; 0x00]]
     [Entry [0x02; 0xe1; 0x01; 0xf0; 0x05] [Descriptor 0x52 [0x07]; Descriptor 0x0a []]]).
  split; [|vm_compute; reflexivity].
  repeat split; simpl; repeat constructor; unfold byte; try (vm_compute; (reflexivity || discriminate));
    simpl; try lia.
Defined.

(** ** Memory safety of the MPEG codecs *)

Lemma safe_pmt m L : parsed m L -> 9 <= L -> safe mpeg_pmt_section_codec m.
Proof.
  intros Hm HL. unfold safe, wp. destruct (decide (13 <= L)) as [HL13|].
  - destruct (pmt_codec_run m L Hm HL13) as [(t & _ & _ & m' & E & _)|(_ & m' & E)]; by rewrite E.
  - unfold mpeg_pmt_section_codec, sizeof_mpeg_pmt_section.
    rewrite (bind_run _ _ m _ m (section_ext_length_run m L Hm ltac:(lia))), bind_fail_if.
    by rewrite (proj2 (Z.ltb_lt _ _)) by lia.
Qed.

Lemma safe_cat m L : parsed m L -> 9 <= L -> safe mpeg_cat_section_codec m.
Proof.
  intros Hm HL. unfold mpeg_cat_section_codec, sizeof_section_ext, sizeof_mpeg_cat_section.
  apply wp_safe with (Q := fun _ _ => True) (N := fun _ => True). codec_start Hm.
  rewrite u64_small by lia. repeat codec_step; done.
Qed.

(** One stream of the [stream_count > 0] form. *)
Definition odsmt_multi (len : Z) (pos : Z) : M Z :=
  let stream := pos in
  fail_if (len <? pos + sizeof_mpeg_odsmt_stream_multi);;
  bswap16 pos;;
  let pos := pos + sizeof_mpeg_odsmt_stream_multi in
  n ← rd8 (stream + 3);
  fail_if (len <? pos + n);;
  r ← verify_descriptors pos n;
  fail_if (negb (r =? 0));;
  mret (pos + n).

Lemma wp_odsmt_multi m0 len pos m :
  codec_inv m0 m -> 0 <= pos <= len -> len <= zlen m0 ->
  wp (odsmt_multi len pos) (fun pos' m' => codec_inv m0 m' /\ 0 <= pos' <= len) (fun _ => True) m.
Proof.
  intros [Hl Hb] Hpos Hlen. unfold odsmt_multi, sizeof_mpeg_odsmt_stream_multi.
  repeat codec_step; try done.
  pose proof (zat_range (rev_at m pos 2) (pos + 3) ltac:(auto with bgt)).
  repeat codec_step; try done; rewrite ?zlen_rev_at by lia; try lia.
  unfold codec_inv. rewrite zlen_rev_at by lia. split_and!; auto with bgt; lia.
Qed.

Lemma safe_odsmt m L : parsed m L -> 9 <= L -> safe mpeg_odsmt_section_codec m.
Proof.
  intros Hm HL. apply wp_safe with (Q := fun _ _ => True) (N := fun _ => True).
  unfold mpeg_odsmt_section_codec, odsmt_stream_count, sizeof_section_ext, sizeof_mpeg_odsmt_section.
  codec_start Hm. repeat codec_step; try done.
  - change (8 + 1) with 9 in *. change (9 + 2) with 11 in *. change (9 + 3) with 12 in *.
    pose proof (zat_range (rev_at m 9 2) 11 ltac:(auto with bgt)).
    unfold sizeof_mpeg_odsmt_stream_single in *.
    repeat codec_step; try done; rewrite ?zlen_rev_at by lia; try lia.
  - eapply wp_mono.
    + apply (wp_for_upto (fun pos m' => codec_inv m m' /\ 0 <= pos <= L - 1))
        with (N := fun _ => True); [|unfold codec_inv; split_and!; (done || lia)].
      intros j p m' _ [Hi Hp]. apply (wp_odsmt_multi m); [done|done|lia].
    + simpl. intros. repeat codec_step; done.
    + done.
Qed.

(** On every parsed section with a complete extended header (length field at
    least 9), the PAT, PMT, CAT, TSDT and ODSMT codecs terminate without accessing a
    byte outside the section. *)
Theorem mpeg_codecs_safe m L :
  parsed m L -> 9 <= L ->
  safe mpeg_pat_section_codec m /\ safe mpeg_pmt_section_codec m /\
  safe mpeg_cat_section_codec m /\ safe mpeg_tsdt_section_codec m /\
  safe mpeg_odsmt_section_codec m.
Proof.
  intros Hm HL. split_and!.
  - by apply (wp_safe _ _ _ _ (wp_pat_codec m L Hm HL)).
  - by apply (safe_pmt m L).
  - by apply (safe_cat m L).
  - by apply (safe_cat m L).
  - by apply (safe_odsmt m L).
Qed.

Lemma mpeg_codecs_safe_witness :
  safe mpeg_pmt_section_codec pmt_example /\ safe mpeg_cat_section_codec pmt_example.
Proof.
  destruct (mpeg_codecs_safe pmt_example 27 parsed_pmt_example ltac:(lia)) as (_ & Hp & Hc & _).
  exact (conj Hp Hc).
Defined.

(** ** Sections too short for their own header *)

(** A conditional access section whose length field is between 5 and 8 - a section
    that [section_ext_decode] accepts - makes [section_ext_length - sizeof] wrap
    around, and the CAT codec reads past the end of the section. *)
Theorem mpeg_cat_short_section_overruns m L :
  parsed m L -> 1 <= L < 9 -> mpeg_cat_section_codec m = Fault.
Proof.
  intros Hm HL. unfold mpeg_cat_section_codec, sizeof_section_ext, sizeof_mpeg_cat_section.
  rewrite (bind_run _ _ m _ m (section_ext_length_run m L Hm ltac:(lia))).
  destruct Hm as (Hb & Hl & _). unfold mbind, M_bind.
  rewrite verify_overrun; [done|done|lia|].
  unfold u64. replace (L - 1 - 8) with (L - 9 + 2 ^ 64 + -1 * 2 ^ 64) by lia.
  rewrite Z.mod_add, Z.mod_small by lia. lia.
Qed.

(** The shortest section that carries the two bytes [section_ext_decode] swaps. *)
Definition short_cat_example : mem := [0x01; 0x05; 0xb0; 0x00; 0x00; 0xc1; 0x00; 0x00].

Lemma mpeg_cat_short_section_overruns_witness : mpeg_cat_section_codec short_cat_example = Fault.
Proof.
  apply (mpeg_cat_short_section_overruns short_cat_example 5);
    [split_and!; [repeat constructor; unfold byte; lia|done|done]|lia].
Defined.

(** An object descriptor stream map whose stream count is 0 is never accepted: the
    branch demands that its stream ends strictly before the end of the section, and
    the final test that it ends at the end. *)
Theorem mpeg_odsmt_single_rejected m L :
  parsed m L -> 1 <= L -> m.[8] = 0 ->
  exists m', mpeg_odsmt_section_codec m = Null m'.
Proof.
  intros Hm HL H0.
  assert (Hwp : wp mpeg_odsmt_section_codec (fun _ _ => False) (fun _ => True) m).
  { unfold mpeg_odsmt_section_codec, odsmt_stream_count, sizeof_section_ext, sizeof_mpeg_odsmt_section.
    codec_start Hm. repeat codec_step; try done; [|by rewrite H0 in *].
    unfold sizeof_mpeg_odsmt_stream_single in *.
    change (8 + 1) with 9 in *. change (9 + 2) with 11 in *. change (9 + 3) with 12 in *.
    pose proof (zat_range (rev_at m 9 2) 11 ltac:(auto with bgt)).
    repeat codec_step; try done; rewrite ?zlen_rev_at by lia; try lia. }
  destruct (wp_total _ _ _ _ Hwp) as [(? & ? & _ & [])|(m' & E & _)]. eauto.
Qed.

(** A well-formed section: one stream (ES 5) without descriptors. *)
Definition odsmt_example : mem :=
  [0x05; 0x0d; 0xb0; 0x00; 0x00; 0xc1; 0x00; 0x00; 0x00; 0x00; 0x05; 0x00; 0xaa; 0xbb; 0xcc; 0xdd].

Lemma mpeg_odsmt_single_rejected_witness : exists m', mpeg_odsmt_section_codec odsmt_example = Null m'.
Proof.
  apply (mpeg_odsmt_single_rejected odsmt_example 13);
    [split_and!; [repeat constructor; unfold byte; lia|done|done]|lia|reflexivity].
Defined.
