(* ===== verification/DvbSections.v ===== *)
(** * DvbSections: the DVB tables of libucsi/dvb

    The codecs and iterators of the NIT, BAT, SDT, EIT, INT, SIT, RST, TDT, TOT, DIT,
    ST and TVA container sections.  A section pointer is offset 0; a pointer to an
    inner structure is its offset. *)

From S2P Require Import Prelude Mem EndianOps Descriptor Crc32 PsiSection EntryLoop TableCodec.

(** ** Service description table *)

Definition sizeof_dvb_sdt_section : Z := 11.
Definition sizeof_dvb_sdt_service : Z := 5.

Definition dvb_sdt_section_codec : M unit :=
  let pos := sizeof_section_ext in
  len ← section_ext_length;
  fail_if (len <? sizeof_dvb_sdt_section);;
  bswap16 pos;;
  let pos := pos + 3 in
  pos ← while_mem (fun pos =>
      let service := pos in
      fail_if (len <? pos + sizeof_dvb_sdt_service);;
      bswap16 pos;;
      bswap16 (pos + 3);;
      x ← rd16 (service + 3);
      let descriptors_loop_length := Z.land x 0xfff in
      let pos := pos + sizeof_dvb_sdt_service in
      fail_if (len <? pos + descriptors_loop_length);;
      r ← verify_descriptors pos descriptors_loop_length;
      fail_if (negb (r =? 0));;
      mret (pos + descriptors_loop_length)) len pos;
  fail_if (negb (pos =? len)).

Definition dvb_sdt_section_transport_stream_id : M Z := section_ext_table_id_ext.
Definition sdt_original_network_id : M Z := rd16 8.

(** The fields of [struct dvb_sdt_service]; the flags are the low bits of byte 2. *)
Definition sdt_service_id (s : Z) : M Z := rd16 s.
Definition sdt_eit_schedule_flag (s : Z) : M Z := x ← rd8 (s + 2); mret (Z.land (Z.shiftr x 1) 1).
Definition sdt_eit_present_following_flag (s : Z) : M Z := x ← rd8 (s + 2); mret (Z.land x 1).
Definition sdt_running_status (s : Z) : M Z := x ← rd16 (s + 3); mret (Z.shiftr x 13).
Definition sdt_free_ca_mode (s : Z) : M Z := x ← rd16 (s + 3); mret (Z.land (Z.shiftr x 12) 1).
Definition sdt_descriptors_loop_length (s : Z) : M Z := x ← rd16 (s + 3); mret (Z.land x 0xfff).

Definition dvb_sdt_section_services_first : M (option Z) :=
  let pos := sizeof_dvb_sdt_section in
  len ← section_ext_length;
  mret (if len <=? pos then None else Some pos).
Definition dvb_sdt_section_services_next (pos : Z) : M (option Z) :=
  end_ ← section_ext_length;
  n ← sdt_descriptors_loop_length pos;
  let next := pos + sizeof_dvb_sdt_service + n in
  mret (if end_ <=? next then None else Some next).

Definition dvb_sdt_service_descriptors_first (svc : Z) : M (option Z) :=
  n ← sdt_descriptors_loop_length svc;
  mret (if n =? 0 then None else Some (svc + sizeof_dvb_sdt_service)).
Definition dvb_sdt_service_descriptors_next (svc pos : Z) : M (option Z) :=
  n ← sdt_descriptors_loop_length svc;
  next_descriptor (svc + sizeof_dvb_sdt_service) n (Some pos).

(** The [_for_each] macros, with clients that collect what they see. *)
Definition dvb_sdt_service_descriptors_for_each (svc : Z) : M (list descriptor) :=
  first ← dvb_sdt_service_descriptors_first svc;
  for_each (dvb_sdt_service_descriptors_next svc) read_descriptor first.

Record dvb_sdt_service := SdtService {
  sv_service_id : Z; sv_eit_schedule : Z; sv_eit_present_following : Z;
  sv_running_status : Z; sv_free_ca_mode : Z; sv_descs : list descriptor }.

Definition read_dvb_sdt_service (s : Z) : M dvb_sdt_service :=
  i ← sdt_service_id s;
  a ← sdt_eit_schedule_flag s;
  b ← sdt_eit_present_following_flag s;
  r ← sdt_running_status s;
  f ← sdt_free_ca_mode s;
  ds ← dvb_sdt_service_descriptors_for_each s;
  mret (SdtService i a b r f ds).
Definition dvb_sdt_section_services_for_each : M (list dvb_sdt_service) :=
  first ← dvb_sdt_section_services_first;
  for_each dvb_sdt_section_services_next read_dvb_sdt_service first.

(** ** Event information table *)

Definition sizeof_dvb_eit_section : Z := 14.
Definition sizeof_dvb_eit_event : Z := 12.

Definition dvb_eit_section_codec : M unit :=
  let pos := sizeof_section_ext in
  len ← section_ext_length;
  fail_if (len <? sizeof_dvb_eit_section);;
  bswap16 pos;;
  let pos := pos + 2 in
  bswap16 pos;;
  let pos := pos + 4 in
  pos ← while_mem (fun pos =>
      let event := pos in
      fail_if (len <? pos + sizeof_dvb_eit_event);;
      bswap16 pos;;
      bswap16 (pos + 10);;
      x ← rd16 (event + 10);
      let descriptors_loop_length := Z.land x 0xfff in
      let pos := pos + sizeof_dvb_eit_event in
      fail_if (len <? pos + descriptors_loop_length);;
      r ← verify_descriptors pos descriptors_loop_length;
      fail_if (negb (r =? 0));;
      mret (pos + descriptors_loop_length)) len pos;
  fail_if (negb (pos =? len)).

Definition dvb_eit_section_service_id : M Z := section_ext_table_id_ext.

(** The fields of [struct dvb_eit_event]; the date and the duration stay in network order. *)
Definition eit_event_id (e : Z) : M Z := rd16 e.
Definition eit_start_time (e : Z) : M (list Z) := rd_bytes (e + 2) 5.
Definition eit_duration (e : Z) : M (list Z) := rd_bytes (e + 7) 3.
Definition eit_running_status (e : Z) : M Z := x ← rd16 (e + 10); mret (Z.shiftr x 13).
Definition eit_free_ca_mode (e : Z) : M Z := x ← rd16 (e + 10); mret (Z.land (Z.shiftr x 12) 1).
Definition eit_descriptors_loop_length (e : Z) : M Z := x ← rd16 (e + 10); mret (Z.land x 0xfff).

Definition dvb_eit_section_events_first : M (option Z) :=
  let pos := sizeof_dvb_eit_section in
  len ← section_ext_length;
  mret (if len <=? pos then None else Some pos).
Definition dvb_eit_section_events_next (pos : Z) : M (option Z) :=
  end_ ← section_ext_length;
  n ← eit_descriptors_loop_length pos;
  let next := pos + sizeof_dvb_eit_event + n in
  mret (if end_ <=? next then None else Some next).

Definition dvb_eit_event_descriptors_first (t : Z) : M (option Z) :=
  n ← eit_descriptors_loop_length t;
  mret (if n =? 0 then None else Some (t + sizeof_dvb_eit_event)).
Definition dvb_eit_event_descriptors_next (t pos : Z) : M (option Z) :=
  n ← eit_descriptors_loop_length t;
  next_descriptor (t + sizeof_dvb_eit_event) n (Some pos).
Definition dvb_eit_event_descriptors_for_each (t : Z) : M (list descriptor) :=
  first ← dvb_eit_event_descriptors_first t;
  for_each (dvb_eit_event_descriptors_next t) read_descriptor first.

Record dvb_eit_event := EitEvent {
  ev_event_id : Z; ev_start_time : list Z; ev_duration : list Z;
  ev_running_status : Z; ev_free_ca_mode : Z; ev_descs : list descriptor }.

Definition read_dvb_eit_event (e : Z) : M dvb_eit_event :=
  i ← eit_event_id e;
  s ← eit_start_time e;
  d ← eit_duration e;
  r ← eit_running_status e;
  f ← eit_free_ca_mode e;
  ds ← dvb_eit_event_descriptors_for_each e;
  mret (EitEvent i s d r f ds).
Definition dvb_eit_section_events_for_each : M (list dvb_eit_event) :=
  first ← dvb_eit_section_events_first;
  for_each dvb_eit_section_events_next read_dvb_eit_event first.

(** ** Network information table *)

Definition sizeof_dvb_nit_section : Z := 10.
Definition sizeof_dvb_nit_section_part2 : Z := 2.
Definition sizeof_dvb_nit_transport : Z := 6.

Definition nit_network_descriptors_length : M Z := x ← rd16 8; mret (Z.land x 0xfff).

Definition dvb_nit_section_codec : M unit :=
  let pos := sizeof_section_ext in
  len ← section_ext_length;
  fail_if (len <? sizeof_dvb_nit_section);;
  bswap16 pos;;
  let pos := pos + 2 in
  n ← nit_network_descriptors_length;
  fail_if (len <? pos + n);;
  r ← verify_descriptors pos n;
  fail_if (negb (r =? 0));;
  let pos := pos + n in
  fail_if (len <? pos + sizeof_dvb_nit_section_part2);;
  bswap16 pos;;
  let pos := pos + 2 in
  pos ← while_mem (fun pos =>
      let transport := pos in
      fail_if (len <? pos + sizeof_dvb_nit_transport);;
      bswap16 pos;;
      bswap16 (pos + 2);;
      bswap16 (pos + 4);;
      x ← rd16 (transport + 4);
      let transport_descriptors_length := Z.land x 0xfff in
      let pos := pos + sizeof_dvb_nit_transport in
      fail_if (len <? pos + transport_descriptors_length);;
      r ← verify_descriptors pos transport_descriptors_length;
      fail_if (negb (r =? 0));;
      mret (pos + transport_descriptors_length)) len pos;
  fail_if (negb (pos =? len)).

Definition dvb_nit_section_network_id : M Z := section_ext_table_id_ext.

Definition dvb_nit_section_descriptors_first : M (option Z) :=
  n ← nit_network_descriptors_length;
  mret (if n =? 0 then None else Some sizeof_dvb_nit_section).
Definition dvb_nit_section_descriptors_next (pos : Z) : M (option Z) :=
  n ← nit_network_descriptors_length;
  next_descriptor sizeof_dvb_nit_section n (Some pos).
Definition dvb_nit_section_descriptors_for_each : M (list descriptor) :=
  first ← dvb_nit_section_descriptors_first;
  for_each dvb_nit_section_descriptors_next read_descriptor first.

Definition dvb_nit_section_part2 : M Z :=
  n ← nit_network_descriptors_length; mret (sizeof_dvb_nit_section + n).
Definition nit_transport_stream_loop_length (part2 : Z) : M Z :=
  x ← rd16 part2; mret (Z.land x 0xfff).

Definition nit_transport_descriptors_length (t : Z) : M Z := x ← rd16 (t + 4); mret (Z.land x 0xfff).

(** These two are bounded by the length in [part2], which the codec does not check. *)
Definition dvb_nit_section_transports_first (part2 : Z) : M (option Z) :=
  n ← nit_transport_stream_loop_length part2;
  mret (if n =? 0 then None else Some (part2 + sizeof_dvb_nit_section_part2)).
Definition dvb_nit_section_transports_next (part2 pos : Z) : M (option Z) :=
  n ← nit_transport_stream_loop_length part2;
  let end_ := part2 + sizeof_dvb_nit_section_part2 + n in
  k ← nit_transport_descriptors_length pos;
  let next := pos + sizeof_dvb_nit_transport + k in
  mret (if end_ <=? next then None else Some next).

Definition dvb_nit_transport_descriptors_first (t : Z) : M (option Z) :=
  n ← nit_transport_descriptors_length t;
  mret (if n =? 0 then None else Some (t + sizeof_dvb_nit_transport)).
Definition dvb_nit_transport_descriptors_next (t pos : Z) : M (option Z) :=
  n ← nit_transport_descriptors_length t;
  next_descriptor (t + sizeof_dvb_nit_transport) n (Some pos).
Definition dvb_nit_transport_descriptors_for_each (t : Z) : M (list descriptor) :=
  first ← dvb_nit_transport_descriptors_first t;
  for_each (dvb_nit_transport_descriptors_next t) read_descriptor first.

(** [struct dvb_nit_transport] and [struct dvb_bat_transport] have the same members. *)
Record dvb_transport := DvbTransport {
  tr_stream_id : Z; tr_network_id : Z; tr_descs : list descriptor }.

Definition read_dvb_nit_transport (t : Z) : M dvb_transport :=
  i ← rd16 t;
  o ← rd16 (t + 2);
  ds ← dvb_nit_transport_descriptors_for_each t;
  mret (DvbTransport i o ds).
Definition dvb_nit_section_transports_for_each : M (list dvb_transport) :=
  part2 ← dvb_nit_section_part2;
  first ← dvb_nit_section_transports_first part2;
  for_each (dvb_nit_section_transports_next part2) read_dvb_nit_transport first.

(** ** Bouquet association table *)

Definition sizeof_dvb_bat_section : Z := 10.
Definition sizeof_dvb_bat_section_part2 : Z := 2.
Definition sizeof_dvb_bat_transport : Z := 6.

Definition bat_bouquet_descriptors_length : M Z := x ← rd16 8; mret (Z.land x 0xfff).

Definition dvb_bat_section_codec : M unit :=
  let pos := sizeof_section_ext in
  len ← section_ext_length;
  fail_if (len <? sizeof_dvb_bat_section);;
  bswap16 pos;;
  let pos := pos + 2 in
  n ← bat_bouquet_descriptors_length;
  fail_if (len <? pos + n);;
  r ← verify_descriptors pos n;
  fail_if (negb (r =? 0));;
  let pos := pos + n in
  fail_if (len <? pos + sizeof_dvb_bat_section_part2);;
  bswap16 pos;;
  let pos := pos + sizeof_dvb_bat_section_part2 in
  pos ← while_mem (fun pos =>
      let transport := pos in
      fail_if (len <? pos + sizeof_dvb_bat_transport);;
      bswap16 pos;;
      bswap16 (pos + 2);;
      bswap16 (pos + 4);;
      x ← rd16 (transport + 4);
      let transport_descriptors_length := Z.land x 0xfff in
      let pos := pos + sizeof_dvb_bat_transport in
      fail_if (len <? pos + transport_descriptors_length);;
      r ← verify_descriptors pos transport_descriptors_length;
      fail_if (negb (r =? 0));;
      mret (pos + transport_descriptors_length)) len pos;
  fail_if (negb (pos =? len)).

Definition dvb_bat_section_bouquet_id : M Z := section_ext_table_id_ext.

Definition dvb_bat_section_descriptors_first : M (option Z) :=
  n ← bat_bouquet_descriptors_length;
  mret (if n =? 0 then None else Some sizeof_dvb_bat_section).
Definition dvb_bat_section_descriptors_next (pos : Z) : M (option Z) :=
  n ← bat_bouquet_descriptors_length;
  next_descriptor sizeof_dvb_bat_section n (Some pos).
Definition dvb_bat_section_descriptors_for_each : M (list descriptor) :=
  first ← dvb_bat_section_descriptors_first;
  for_each dvb_bat_section_descriptors_next read_descriptor first.

Definition dvb_bat_section_part2 : M Z :=
  n ← bat_bouquet_descriptors_length; mret (sizeof_dvb_bat_section + n).
Definition bat_transport_stream_loop_length (part2 : Z) : M Z :=
  x ← rd16 part2; mret (Z.land x 0xfff).
Definition bat_transport_descriptors_length (t : Z) : M Z := x ← rd16 (t + 4); mret (Z.land x 0xfff).

Definition dvb_bat_section_transports_first (part2 : Z) : M (option Z) :=
  n ← bat_transport_stream_loop_length part2;
  mret (if n =? 0 then None else Some (part2 + sizeof_dvb_bat_section_part2)).
Definition dvb_bat_section_transports_next (part2 pos : Z) : M (option Z) :=
  n ← bat_transport_stream_loop_length part2;
  let end_ := part2 + sizeof_dvb_bat_section_part2 + n in
  k ← bat_transport_descriptors_length pos;
  let next := pos + sizeof_dvb_bat_transport + k in
  mret (if end_ <=? next then None else Some next).

Definition dvb_bat_transport_descriptors_first (t : Z) : M (option Z) :=
  n ← bat_transport_descriptors_length t;
  mret (if n =? 0 then None else Some (t + sizeof_dvb_bat_transport)).
Definition dvb_bat_transport_descriptors_next (t pos : Z) : M (option Z) :=
  n ← bat_transport_descriptors_length t;
  next_descriptor (t + sizeof_dvb_bat_transport) n (Some pos).
Definition dvb_bat_transport_descriptors_for_each (t : Z) : M (list descriptor) :=
  first ← dvb_bat_transport_descriptors_first t;
  for_each (dvb_bat_transport_descriptors_next t) read_descriptor first.

Definition read_dvb_bat_transport (t : Z) : M dvb_transport :=
  i ← rd16 t;
  o ← rd16 (t + 2);
  ds ← dvb_bat_transport_descriptors_for_each t;
  mret (DvbTransport i o ds).
Definition dvb_bat_section_transports_for_each : M (list dvb_transport) :=
  part2 ← dvb_bat_section_part2;
  first ← dvb_bat_section_transports_first part2;
  for_each (dvb_bat_section_transports_next part2) read_dvb_bat_transport first.

(** ** IP/MAC notification table *)

Definition sizeof_dvb_int_section : Z := 14.
Definition sizeof_dvb_int_target : Z := 2.
Definition sizeof_dvb_int_operational_loop : Z := 2.

Definition int_platform_descriptors_length : M Z := x ← rd16 12; mret (Z.land x 0xfff).
Definition int_target_descriptors_length (t : Z) : M Z := x ← rd16 t; mret (Z.land x 0xfff).
Definition int_operational_descriptors_length (ol : Z) : M Z := x ← rd16 ol; mret (Z.land x 0xfff).

(** [len - pos] is a [size_t] subtraction. *)
Definition dvb_int_section_codec : M unit :=
  let pos := sizeof_section_ext in
  len ← section_ext_length;
  fail_if (len <? sizeof_dvb_int_section);;
  bswap32 8;;
  bswap16 12;;
  let pos := pos + 6 in
  n ← int_platform_descriptors_length;
  fail_if (u64 (len - pos) <? n);;
  r ← verify_descriptors pos n;
  fail_if (negb (r =? 0));;
  let pos := pos + n in
  pos ← while_mem (fun pos =>
      let s2 := pos in
      bswap16 pos;;
      t ← int_target_descriptors_length s2;
      fail_if (u64 (len - pos) <? t);;
      let pos := pos + sizeof_dvb_int_target in
      r ← verify_descriptors pos t;
      fail_if (negb (r =? 0));;
      let pos := pos + t in
      let s3 := pos in
      bswap16 pos;;
      o ← int_operational_descriptors_length s3;
      fail_if (u64 (len - pos) <? o);;
      let pos := pos + sizeof_dvb_int_operational_loop in
      r ← verify_descriptors pos o;
      fail_if (negb (r =? 0));;
      mret (pos + o)) len pos;
  mret tt.

Definition dvb_int_section_action_type : M Z :=
  x ← section_ext_table_id_ext; mret (u8 (Z.shiftr x 8)).
Definition dvb_int_section_platform_id_hash : M Z :=
  x ← section_ext_table_id_ext; mret (Z.land x 0xff).

Definition dvb_int_section_platform_descriptors_first : M (option Z) :=
  n ← int_platform_descriptors_length;
  mret (if n =? 0 then None else Some sizeof_dvb_int_section).
Definition dvb_int_section_platform_descriptors_next (pos : Z) : M (option Z) :=
  n ← int_platform_descriptors_length;
  next_descriptor sizeof_dvb_int_section n (Some pos).

(** The comparison is made in [size_t] after a conversion to [uint32_t]. *)
Definition dvb_int_section_target_loop_first : M (option Z) :=
  n ← int_platform_descriptors_length;
  len ← section_ext_length;
  mret (if u32 len <=? sizeof_dvb_int_section + n then None
        else Some (sizeof_dvb_int_section + n)).
Definition dvb_int_target_operational_loop (target : Z) : M Z :=
  t ← int_target_descriptors_length target; mret (target + sizeof_dvb_int_target + t).
Definition dvb_int_section_target_loop_next (pos : Z) : M (option Z) :=
  ol ← dvb_int_target_operational_loop pos;
  t ← int_target_descriptors_length pos;
  o ← int_operational_descriptors_length ol;
  let next := pos + sizeof_dvb_int_target + t + sizeof_dvb_int_operational_loop + o in
  end_ ← section_ext_length;
  mret (if end_ <=? next then None else Some next).

Definition dvb_int_target_target_descriptors_first (tl : Z) : M (option Z) :=
  t ← int_target_descriptors_length tl;
  mret (if t =? 0 then None else Some (tl + sizeof_dvb_int_target)).
Definition dvb_int_target_target_descriptors_next (tl pos : Z) : M (option Z) :=
  t ← int_target_descriptors_length tl;
  next_descriptor (tl + sizeof_dvb_int_target) t (Some pos).
Definition dvb_int_operational_loop_operational_descriptors_first (ol : Z) : M (option Z) :=
  o ← int_operational_descriptors_length ol;
  mret (if o =? 0 then None else Some (ol + sizeof_dvb_int_operational_loop)).
Definition dvb_int_operational_loop_operational_descriptors_next (ol pos : Z) : M (option Z) :=
  o ← int_operational_descriptors_length ol;
  next_descriptor (ol + sizeof_dvb_int_operational_loop) o (Some pos).

(** ** Selection information table *)

Definition sizeof_dvb_sit_section : Z := 10.
Definition sizeof_dvb_sit_service : Z := 4.

Definition sit_transmission_info_loop_length : M Z := x ← rd16 8; mret (Z.land x 0xfff).
Definition sit_service_loop_length (s : Z) : M Z := x ← rd16 (s + 2); mret (Z.land x 0xfff).

(** The third [bswap16] lies behind the four bytes of the service header. *)
Definition dvb_sit_section_codec : M unit :=
  let pos := sizeof_section_ext in
  len ← section_ext_length;
  fail_if (len <? sizeof_dvb_sit_section);;
  bswap16 pos;;
  let pos := pos + 2 in
  n ← sit_transmission_info_loop_length;
  fail_if (len <? pos + n);;
  r ← verify_descriptors pos n;
  fail_if (negb (r =? 0));;
  let pos := pos + n in
  pos ← while_mem (fun pos =>
      let service := pos in
      fail_if (len <? pos + sizeof_dvb_sit_service);;
      bswap16 pos;;
      bswap16 (pos + 2);;
      bswap16 (pos + 4);;
      let pos := pos + sizeof_dvb_sit_service in
      k ← sit_service_loop_length service;
      fail_if (len <? pos + k);;
      r ← verify_descriptors pos k;
      fail_if (negb (r =? 0));;
      mret (pos + k)) len pos;
  fail_if (negb (pos =? len)).

Definition dvb_sit_section_descriptors_first : M (option Z) :=
  n ← sit_transmission_info_loop_length;
  mret (if n =? 0 then None else Some sizeof_dvb_sit_section).
Definition dvb_sit_section_descriptors_next (pos : Z) : M (option Z) :=
  n ← sit_transmission_info_loop_length;
  next_descriptor sizeof_dvb_sit_section n (Some pos).

(** The macro advances with [_first]. *)
Definition dvb_sit_section_descriptors_for_each (fuel : nat) : M (list descriptor) :=
  first ← dvb_sit_section_descriptors_first;
  for_each_fuel fuel (fun _ => dvb_sit_section_descriptors_first) read_descriptor first.

Definition dvb_sit_section_services_first : M (option Z) :=
  n ← sit_transmission_info_loop_length;
  let pos := sizeof_dvb_sit_section + n in
  len ← section_ext_length;
  mret (if len <=? pos then None else Some pos).
Definition dvb_sit_section_services_next (pos : Z) : M (option Z) :=
  end_ ← section_ext_length;
  k ← sit_service_loop_length pos;
  let next := pos + sizeof_dvb_sit_service + k in
  mret (if end_ <=? next then None else Some next).
Definition dvb_sit_service_descriptors_first (t : Z) : M (option Z) :=
  k ← sit_service_loop_length t;
  mret (if k =? 0 then None else Some (t + sizeof_dvb_sit_service)).
Definition dvb_sit_service_descriptors_next (t pos : Z) : M (option Z) :=
  k ← sit_service_loop_length t;
  next_descriptor (t + sizeof_dvb_sit_service) k (Some pos).

(** ** The tables without an extended header *)

(** [struct dvb_rst_status] is not packed: nine bytes of members, padded to the
    alignment of its 16-bit members. *)
Definition sizeof_dvb_rst_section : Z := 3.
Definition sizeof_dvb_rst_status : Z := 10.

Definition dvb_rst_section_codec : M unit :=
  let pos := sizeof_section in
  len ← section_length;
  pos ← while_mem (fun pos =>
      fail_if (len <? pos + sizeof_dvb_rst_status);;
      bswap16 pos;;
      bswap16 (pos + 2);;
      bswap16 (pos + 4);;
      bswap16 (pos + 6);;
      mret (pos + sizeof_dvb_rst_status)) len pos;
  fail_if (negb (pos =? len)).

Definition dvb_rst_section_statuses_first : M (option Z) :=
  let pos := sizeof_dvb_rst_section in
  len ← section_length;
  mret (if len <=? pos then None else Some pos).
Definition dvb_rst_section_statuses_next (pos : Z) : M (option Z) :=
  end_ ← section_length;
  let next := pos + sizeof_dvb_rst_status in
  mret (if end_ <=? next then None else Some next).

Definition sizeof_dvb_tdt_section : Z := 8.
Definition dvb_tdt_section_codec : M unit :=
  len ← section_length;
  fail_if (negb (len =? sizeof_dvb_tdt_section)).

Definition sizeof_dvb_tot_section : Z := 10.
Definition tot_descriptors_loop_length : M Z := x ← rd16 8; mret (Z.land x 0xfff).

(** [section_length(section) - CRC_SIZE] wraps for an empty section. *)
Definition dvb_tot_section_codec : M unit :=
  let pos := sizeof_section in
  l ← section_length;
  let len := u64 (l - CRC_SIZE) in
  fail_if (len <? sizeof_dvb_tot_section);;
  let pos := pos + 5 in
  bswap16 pos;;
  let pos := pos + 2 in
  n ← tot_descriptors_loop_length;
  fail_if (len <? pos + n);;
  r ← verify_descriptors pos n;
  fail_if (negb (r =? 0));;
  let pos := pos + n in
  fail_if (negb (pos =? len)).

Definition dvb_tot_section_descriptors_first : M (option Z) :=
  n ← tot_descriptors_loop_length;
  mret (if n =? 0 then None else Some sizeof_dvb_tot_section).
Definition dvb_tot_section_descriptors_next (pos : Z) : M (option Z) :=
  n ← tot_descriptors_loop_length;
  next_descriptor sizeof_dvb_tot_section n (Some pos).
Definition dvb_tot_section_descriptors_for_each : M (list descriptor) :=
  first ← dvb_tot_section_descriptors_first;
  for_each dvb_tot_section_descriptors_next read_descriptor first.

Definition dvb_dit_section_codec : M unit :=
  l ← section_length_field;
  fail_if (l <? 1).

Definition sizeof_dvb_st_section : Z := 3.
Definition dvb_st_section_codec : M unit := mret tt.
Definition dvb_st_section_data : Z := sizeof_dvb_st_section.
Definition dvb_st_section_data_length : M Z := section_length_field.

Definition sizeof_dvb_tva_container_section : Z := 8.
Definition dvb_tva_container_section_codec : M unit :=
  len ← section_ext_length;
  fail_if (len <? sizeof_dvb_tva_container_section).
Definition dvb_tva_container_section_container_id : M Z := section_ext_table_id_ext.
Definition dvb_tva_container_section_data : Z := sizeof_dvb_tva_container_section.
Definition dvb_tva_container_section_data_length : M Z :=
  len ← section_ext_length; mret (s32 (len - sizeof_dvb_tva_container_section)).

(** ** SDT and EIT *)

Definition sdt_swaps : list Z := [0; 3].
Lemma sdt_fields_in : fields_in 5 sdt_swaps.
Proof. repeat constructor; lia. Qed.
Lemma sdt_lenf hdr : bytes hdr -> zlen hdr = 5 -> le16 (swap_mem sdt_swaps 0 hdr) 3 = be16 hdr 3.
Proof. solve_lenf. Qed.
Lemma sdt_head_in : fields_in (11 - 8) [0].
Proof. repeat constructor; lia. Qed.

Definition sdt_view (w0 w3 b2 : Z) (ds : list descriptor) : dvb_sdt_service :=
  SdtService w0 (Z.land (Z.shiftr b2 1) 1) (Z.land b2 1) (Z.shiftr w3 13)
    (Z.land (Z.shiftr w3 12) 1) ds.
Definition host_service (hdr : list Z) (ds : list descriptor) : dvb_sdt_service :=
  sdt_view (le16 hdr 0) (le16 hdr 3) (hdr.[2]) ds.
(** The service a transmitted entry denotes: its 16-bit fields in network order. *)
Definition wire_service (e : entry) : dvb_sdt_service :=
  sdt_view (be16 (e_hdr e) 0) (be16 (e_hdr e) 3) ((e_hdr e).[2]) (e_descs e).

Lemma host_wire_service e : entry_ok 5 3 e -> view_entry sdt_swaps host_service e = wire_service e.
Proof.
  intros (Hb & Hz & _). unfold view_entry, host_service, wire_service.
  rewrite sdt_lenf by done. simpl. rewrite !Z.add_0_l.
  rewrite !zat_rev_at_out by (rewrite ?zlen_rev_at; lia).
  by rewrite le16_rev_at_ne, le16_rev_at by (rewrite ?zlen_rev_at; (done || lia)).
Qed.

Lemma sdt_codec_flat m : dvb_sdt_section_codec m = flat_codec 11 5 3 [0] sdt_swaps m.
Proof. reflexivity. Qed.

Section sdt_iteration.
Context (m : mem) (L : Z) (Hm : parsed m L) (HL : 12 <= L).

Lemma sdt_next_ok : next_ok 5 3 m (L - 1) dvb_sdt_section_services_next.
Proof.
  destruct Hm as (Hb & Hl & _). intros p Hp Hp5.
  unfold dvb_sdt_section_services_next, sdt_descriptors_loop_length, sizeof_dvb_sdt_service.
  rewrite (bind_run _ _ m _ m (section_ext_length_run m L Hm ltac:(lia))). by run_read.
Qed.

Lemma sdt_visit_ok : visit_ok 5 3 m (L - 1) read_dvb_sdt_service host_service.
Proof.
  destruct Hm as (Hb & Hl & _). intros p ds Hp Hfit Hk E. lens.
  assert (Hlen : sdt_descriptors_loop_length p m = Ret (zlen (encode_descriptors ds)) m).
  { unfold sdt_descriptors_loop_length. rewrite rd16_mask_run by lia. by rewrite Hk. }
  unfold read_dvb_sdt_service, sdt_service_id, sdt_eit_schedule_flag,
    sdt_eit_present_following_flag, sdt_running_status, sdt_free_ca_mode.
  do 5 run_read.
  rewrite (bind_run _ _ m ds m).
  2:{ apply (for_each_descriptors_run m (p + 5) (zlen (encode_descriptors ds))
               (sdt_descriptors_loop_length p)); try done; try lia.
      unfold dvb_sdt_service_descriptors_first. by rewrite (bind_run _ _ m _ m Hlen). }
  unfold mret, M_ret, host_service, sdt_view. rewrite zat_slice, !le16_slice by lia.
  by rewrite Z.add_0_r.
Qed.
End sdt_iteration.

(** The SDT codec accepts a parsed section exactly when its body encodes a service
    description table; iterating the accepted section returns the original network id
    and every transmitted service - id, flags, running status, scrambling and
    descriptors - in order. *)
Theorem dvb_sdt_section_correct m L :
  parsed m L -> 1 <= L ->
  (exists t m', flat_ok 11 5 3 t /\ slice m 8 (L - 9) = encode_flat t /\
     dvb_sdt_section_codec m = Ret tt m' /\
     sdt_original_network_id m' = Ret (be16 (ft_head t) 0) m' /\
     dvb_sdt_section_services_for_each m' = Ret (map wire_service (ft_entries t)) m') \/
  (~ is_flat 11 5 3 m L /\ exists m', dvb_sdt_section_codec m = Null m').
Proof.
  intros Hm HL. rewrite sdt_codec_flat.
  destruct (flat_codec_run 11 5 3 [0] sdt_swaps ltac:(lia) sdt_head_in ltac:(lia) sdt_fields_in
              ltac:(lia) sdt_lenf m L Hm HL) as [(t & m' & Ht & HL12 & E & Ec & Hh)|Hno]; [left|by right].
  exists t, m'. pose proof Hh as (Hp' & Hlow & Ehd & _). pose proof Hp' as (Hb' & Hl' & _).
  pose proof Ht as (Hhb & Hhl & Hes). split_and!; [done..| |].
  - unfold sdt_original_network_id. rewrite rd16_run by lia.
    f_equal. pose proof (f_equal (fun l => le16 l 0) Ehd) as E0. simpl in E0.
    rewrite le16_slice in E0 by lia. change (8 + 0) with 8 in E0. rewrite E0.
    apply le16_rev_at; (done || lia).
  - unfold dvb_sdt_section_services_for_each, dvb_sdt_section_services_first, sizeof_dvb_sdt_section.
    rewrite (bind_run _ _ m' (if L - 1 <=? 11 then None else Some 11) m')
      by (by rewrite (bind_run _ _ m' _ m' (section_ext_length_run m' L Hp' HL))).
    rewrite (flat_for_each 11 5 3 [0] sdt_swaps ltac:(lia) ltac:(lia) sdt_fields_in ltac:(lia) sdt_lenf
               m' m t L _ _ host_service); try done; try lia.
    + f_equal. apply map_ext_Forall. eapply Forall_impl; [|exact Hes]. exact host_wire_service.
    + by apply sdt_next_ok.
    + by apply sdt_visit_ok.
Qed.

(** An SDT with one service: id 0x0102, running, with one (private) descriptor. *)
Definition sdt_example : mem :=
  [0x42; 0x14; 0xf0; 0x01; 0x00; 0xc1; 0x00; 0x00; 0x00; 0x20; 0xff;
   0x01; 0x02; 0xfd; 0x80; 0x03; 0x48; 0x01; 0x05; 0xaa; 0xbb; 0xcc; 0xdd].
Lemma parsed_sdt_example : parsed sdt_example 20.
Proof. split_and!; [repeat constructor; unfold byte; lia|done|done]. Qed.

Lemma dvb_sdt_section_correct_witness :
  exists t m', dvb_sdt_section_codec sdt_example = Ret tt m' /\
    dvb_sdt_section_services_for_each m' = Ret (map wire_service (ft_entries t)) m'.
Proof.
  destruct (dvb_sdt_section_correct sdt_example 20 parsed_sdt_example ltac:(lia))
    as [(t & m' & _ & _ & E1 & _ & E2)|[_ (m' & E)]]; [exists t, m'; exact (conj E1 E2)|].
  vm_compute in E. discriminate E.
Defined.

Definition eit_swaps : list Z := [0; 10].
Lemma eit_fields_in : fields_in 12 eit_swaps.
Proof. repeat constructor; lia. Qed.
Lemma eit_lenf hdr : bytes hdr -> zlen hdr = 12 -> le16 (swap_mem eit_swaps 0 hdr) 10 = be16 hdr 10.
Proof. solve_lenf. Qed.
Lemma eit_head_in : fields_in (14 - 8) [0; 2].
Proof. repeat constructor; lia. Qed.

Definition eit_view (w0 w10 : Z) (start duration : list Z) (ds : list descriptor) : dvb_eit_event :=
  EitEvent w0 start duration (Z.shiftr w10 13) (Z.land (Z.shiftr w10 12) 1) ds.
Definition host_event (hdr : list Z) (ds : list descriptor) : dvb_eit_event :=
  eit_view (le16 hdr 0) (le16 hdr 10) (slice hdr 2 5) (slice hdr 7 3) ds.
(** The event a transmitted entry denotes. *)
Definition wire_event (e : entry) : dvb_eit_event :=
  eit_view (be16 (e_hdr e) 0) (be16 (e_hdr e) 10) (slice (e_hdr e) 2 5) (slice (e_hdr e) 7 3) (e_descs e).

Lemma host_wire_event e : entry_ok 12 10 e -> view_entry eit_swaps host_event e = wire_event e.
Proof.
  intros (Hb & Hz & _). unfold view_entry, host_event, wire_event.
  rewrite eit_lenf by done. simpl. rewrite !Z.add_0_l.
  rewrite le16_rev_at_ne, le16_rev_at by (rewrite ?zlen_rev_at; (done || lia)).
  f_equal; apply slice_ext; rewrite ?zlen_rev_at; rewrite ?zlen_rev_at; try lia;
    intros; rewrite !zat_rev_at_out; rewrite ?zlen_rev_at; (done || lia).
Qed.

Lemma eit_codec_flat m : dvb_eit_section_codec m = flat_codec 14 12 10 [0; 2] eit_swaps m.
Proof. reflexivity. Qed.

Lemma slice_slice m p n a b : 0 <= p -> 0 <= a -> 0 <= b -> a + b <= n -> p + n <= zlen m ->
  slice (slice m p n) a b = slice m (p + a) b.
Proof.
  intros. assert (zlen (slice m p n) = n) by (apply zlen_slice_le; lia).
  apply zlist_eq; rewrite !zlen_slice_le by lia; [done|].
  intros j Hj. rewrite !zat_slice by lia. f_equal. lia.
Qed.

Section eit_iteration.
Context (m : mem) (L : Z) (Hm : parsed m L) (HL : 15 <= L).

Lemma eit_next_ok : next_ok 12 10 m (L - 1) dvb_eit_section_events_next.
Proof.
  destruct Hm as (Hb & Hl & _). intros p Hp Hp5.
  unfold dvb_eit_section_events_next, eit_descriptors_loop_length, sizeof_dvb_eit_event.
  rewrite (bind_run _ _ m _ m (section_ext_length_run m L Hm ltac:(lia))). by run_read.
Qed.

Lemma eit_visit_ok : visit_ok 12 10 m (L - 1) read_dvb_eit_event host_event.
Proof.
  destruct Hm as (Hb & Hl & _). intros p ds Hp Hfit Hk E. lens.
  assert (Hlen : eit_descriptors_loop_length p m = Ret (zlen (encode_descriptors ds)) m).
  { unfold eit_descriptors_loop_length. rewrite rd16_mask_run by lia. by rewrite Hk. }
  unfold read_dvb_eit_event, eit_event_id, eit_start_time, eit_duration, eit_running_status,
    eit_free_ca_mode.
  do 5 run_read.
  rewrite (bind_run _ _ m ds m).
  2:{ apply (for_each_descriptors_run m (p + 12) (zlen (encode_descriptors ds))
               (eit_descriptors_loop_length p)); try done; try lia.
      unfold dvb_eit_event_descriptors_first. by rewrite (bind_run _ _ m _ m Hlen). }
  unfold mret, M_ret, host_event, eit_view. rewrite !le16_slice, !slice_slice by lia.
  by rewrite Z.add_0_r.
Qed.
End eit_iteration.

(** The EIT codec accepts a parsed section exactly when its body encodes an event
    information table; iterating the accepted section returns every transmitted event -
    id, start time and duration bytes, running status, scrambling and descriptors. *)
Theorem dvb_eit_section_correct m L :
  parsed m L -> 1 <= L ->
  (exists t m', flat_ok 14 12 10 t /\ slice m 8 (L - 9) = encode_flat t /\
     dvb_eit_section_codec m = Ret tt m' /\
     dvb_eit_section_events_for_each m' = Ret (map wire_event (ft_entries t)) m') \/
  (~ is_flat 14 12 10 m L /\ exists m', dvb_eit_section_codec m = Null m').
Proof.
  intros Hm HL. rewrite eit_codec_flat.
  destruct (flat_codec_run 14 12 10 [0; 2] eit_swaps ltac:(lia) eit_head_in ltac:(lia) eit_fields_in
              ltac:(lia) eit_lenf m L Hm HL) as [(t & m' & Ht & HL12 & E & Ec & Hh)|Hno]; [left|by right].
  exists t, m'. pose proof Hh as (Hp' & _). pose proof Ht as (_ & _ & Hes). split_and!; [done..|].
  unfold dvb_eit_section_events_for_each, dvb_eit_section_events_first, sizeof_dvb_eit_section.
  rewrite (bind_run _ _ m' (if L - 1 <=? 14 then None else Some 14) m')
    by (by rewrite (bind_run _ _ m' _ m' (section_ext_length_run m' L Hp' HL))).
  rewrite (flat_for_each 14 12 10 [0; 2] eit_swaps ltac:(lia) ltac:(lia) eit_fields_in ltac:(lia) eit_lenf
             m' m t L _ _ host_event); try done; try lia.
  - f_equal. apply map_ext_Forall. eapply Forall_impl; [|exact Hes]. exact host_wire_event.
  - by apply eit_next_ok.
  - by apply eit_visit_ok.
Qed.

(** An EIT with one event and no descriptors. *)
Definition eit_example : mem :=
  [0x4e; 0x1b; 0xf0; 0x02; 0x01; 0xc1; 0x00; 0x01; 0x00; 0x01; 0x00; 0x20; 0x01; 0x4e;
   0x00; 0x2a; 0xc0; 0x79; 0x12; 0x45; 0x00; 0x01; 0x30; 0x00; 0x80; 0x00; 0xaa; 0xbb; 0xcc; 0xdd].
Lemma parsed_eit_example : parsed eit_example 27.
Proof. split_and!; [repeat constructor; unfold byte; lia|done|done]. Qed.

Lemma dvb_eit_section_correct_witness :
  exists t m', dvb_eit_section_codec eit_example = Ret tt m' /\
    dvb_eit_section_events_for_each m' = Ret (map wire_event (ft_entries t)) m'.
Proof.
  destruct (dvb_eit_section_correct eit_example 27 parsed_eit_example ltac:(lia))
    as [(t & m' & _ & _ & E1 & E2)|[_ (m' & E)]]; [exists t, m'; exact (conj E1 E2)|].
  vm_compute in E. discriminate E.
Defined.

(** ** NIT and BAT *)

Definition nit_swaps : list Z := [0; 2; 4].
Lemma nit_fields_in : fields_in 6 nit_swaps.
Proof. repeat constructor; lia. Qed.
Lemma nit_lenf hdr : bytes hdr -> zlen hdr = 6 -> le16 (swap_mem nit_swaps 0 hdr) 4 = be16 hdr 4.
Proof.
  intros Hb Hz. simpl. rewrite !Z.add_0_l.
  assert (Hb1 : bytes (rev_at hdr 0 2)) by auto with bgt.
  assert (Hz1 : zlen (rev_at hdr 0 2) = 6) by (rewrite zlen_rev_at; lia).
  assert (Hz2 : zlen (rev_at (rev_at hdr 0 2) 2 2) = 6) by (rewrite zlen_rev_at; lia).
  rewrite le16_rev_at by (auto with bgt || lia).
  apply be16_ext; rewrite !zat_rev_at_out by lia; done.
Qed.

Definition host_transport (hdr : list Z) (ds : list descriptor) : dvb_transport :=
  DvbTransport (le16 hdr 0) (le16 hdr 2) ds.
(** The transport stream a transmitted entry denotes. *)
Definition wire_transport (e : entry) : dvb_transport :=
  DvbTransport (be16 (e_hdr e) 0) (be16 (e_hdr e) 2) (e_descs e).

Lemma host_wire_transport e :
  entry_ok 6 4 e -> view_entry nit_swaps host_transport e = wire_transport e.
Proof.
  intros (Hb & Hz & _). unfold view_entry, host_transport, wire_transport. simpl.
  rewrite !Z.add_0_l.
  assert (Hb1 : bytes (rev_at (e_hdr e) 0 2)) by auto with bgt.
  assert (Hz1 : zlen (rev_at (e_hdr e) 0 2) = 6) by (rewrite zlen_rev_at; lia).
  assert (Hz2 : zlen (rev_at (rev_at (e_hdr e) 0 2) 2 2) = 6) by (rewrite zlen_rev_at; lia).
  f_equal.
  - rewrite !le16_rev_at_ne by lia. apply le16_rev_at; (done || lia).
  - rewrite le16_rev_at_ne, le16_rev_at by (done || lia).
    apply be16_ext; apply zat_rev_at_out; lia.
Qed.

Lemma nit_codec_network m : dvb_nit_section_codec m = network_codec 6 4 nit_swaps m.
Proof. reflexivity. Qed.

Section nit_iteration.
Context (m : mem) (L : Z) (Hm : parsed m L).
Context (p2 : Z) (Hp2 : 0 <= p2) (Hp2L : p2 + 2 <= L - 1).
Context (Hll : Z.land (le16 m p2) 0xfff = L - 1 - (p2 + 2)).

Lemma nit_loop_length_run : nit_transport_stream_loop_length p2 m = Ret (L - 1 - (p2 + 2)) m.
Proof.
  destruct Hm as (_ & Hl & _). unfold nit_transport_stream_loop_length. run_read.
  by rewrite Hll.
Qed.

Lemma nit_next_ok : next_ok 6 4 m (L - 1) (dvb_nit_section_transports_next p2).
Proof.
  destruct Hm as (_ & Hl & _). intros p Hp Hp6.
  unfold dvb_nit_section_transports_next, sizeof_dvb_nit_section_part2, sizeof_dvb_nit_transport.
  rewrite (bind_run _ _ m _ m nit_loop_length_run). unfold nit_transport_descriptors_length.
  run_read. replace (p2 + 2 + (L - 1 - (p2 + 2))) with (L - 1) by lia. done.
Qed.

Lemma nit_visit_ok : visit_ok 6 4 m (L - 1) read_dvb_nit_transport host_transport.
Proof.
  destruct Hm as (_ & Hl & _). intros p ds Hp Hfit Hk E. lens.
  assert (Hlen : nit_transport_descriptors_length p m = Ret (zlen (encode_descriptors ds)) m).
  { unfold nit_transport_descriptors_length. rewrite rd16_mask_run by lia. by rewrite Hk. }
  unfold read_dvb_nit_transport. do 2 run_read.
  rewrite (bind_run _ _ m ds m).
  2:{ apply (for_each_descriptors_run m (p + 6) (zlen (encode_descriptors ds))
               (nit_transport_descriptors_length p)); try done; try lia.
      unfold dvb_nit_transport_descriptors_first. by rewrite (bind_run _ _ m _ m Hlen). }
  unfold mret, M_ret, host_transport. rewrite !le16_slice by lia. by rewrite Z.add_0_r.
Qed.
End nit_iteration.

(** What an accepted section yields, stated for the NIT and reused for the BAT. *)
Definition network_yields (m : mem) (L : Z) (codec : M unit)
    (descs : M (list descriptor)) (transports : M (list dvb_transport)) : Prop :=
  exists t m', network_ok 6 4 t /\ slice m 8 (L - 9) = encode_network t /\
    codec m = Ret tt m' /\ descs m' = Ret (nt_descs t) m' /\
    (Z.land (be16 (nt_word2 t) 0) 0xfff = zlen (encode_entries (nt_entries t)) ->
     transports m' = Ret (map wire_transport (nt_entries t)) m').

Lemma nit_yields m L :
  parsed m L -> 1 <= L ->
  network_yields m L dvb_nit_section_codec dvb_nit_section_descriptors_for_each
    dvb_nit_section_transports_for_each \/
  (~ (11 <= L /\ is_network 6 4 m L) /\ exists m', dvb_nit_section_codec m = Null m').
Proof.
  intros Hm HL. unfold network_yields. rewrite nit_codec_network.
  destruct (decide (11 <= L)) as [HL11|].
  2:{ right. split; [lia|]. exists m. unfold network_codec.
      rewrite (bind_run _ _ m _ m (section_ext_length_run m L Hm HL)), bind_fail_if.
      by rewrite (proj2 (Z.ltb_lt _ _)) by lia. }
  destruct (network_codec_run 6 4 nit_swaps ltac:(lia) nit_fields_in ltac:(lia) nit_lenf m L Hm HL11)
    as [(t & m' & Ht & E & Ec & Hh)|[Hno ?]]; [left|right; split; [by intros [_ ?]|done]].
  exists t, m'. pose proof Hh as (Hp' & Hfit & _ & Hn & Ed & Ew2 & Ees).
  pose proof Hp' as (_ & Hl' & _). pose proof Ht as (_ & _ & _ & _ & _ & Hes & _).
  set (n := zlen (encode_descriptors (nt_descs t))) in *.
  assert (0 <= n) by apply zlen_nonneg.
  assert (Hlen : nit_network_descriptors_length m' = Ret n m').
  { unfold nit_network_descriptors_length. rewrite rd16_mask_run by lia. by rewrite Hn. }
  split_and!; [done..| |].
  - apply (for_each_descriptors_run m' 10 n nit_network_descriptors_length); try done; try lia.
    unfold dvb_nit_section_descriptors_first. by rewrite (bind_run _ _ m' _ m' Hlen).
  - intros Hll.
    assert (Ell : zlen (encode_entries (nt_entries t)) = L - 1 - (12 + n)).
    { pose proof (f_equal zlen E) as El. destruct Ht as (_ & Hw & _ & Hw2 & _).
      unfold encode_network in El. rewrite zlen_slice_le in El by (destruct Hm as (_ & ? & _); lia).
      rewrite !zlen_app, Hw, Hw2 in El. fold n in El. lia. }
    assert (Hll' : Z.land (le16 m' (10 + n)) 0xfff = L - 1 - (10 + n + 2)) by (rewrite Ew2; lia).
    unfold dvb_nit_section_transports_for_each, dvb_nit_section_part2, sizeof_dvb_nit_section.
    rewrite (bind_run _ _ m' (10 + n) m') by (by rewrite (bind_run _ _ m' _ m' Hlen)).
    rewrite (bind_run _ _ m' (if L - 1 <=? 12 + n then None else Some (12 + n)) m').
    2:{ unfold dvb_nit_section_transports_first, sizeof_dvb_nit_section_part2.
        rewrite (bind_run _ _ m' _ m' (nit_loop_length_run m' L Hp' (10 + n) ltac:(lia) ltac:(lia) Hll')).
        unfold mret, M_ret. replace (10 + n + 2) with (12 + n) by lia.
        destruct (L - 1 - (12 + n) =? 0) eqn:?, (L - 1 <=? 12 + n) eqn:?; (lia || done). }
    rewrite (entries_for_each_run 6 4 nit_swaps ltac:(lia) nit_fields_in ltac:(lia) nit_lenf
               m' (L - 1) _ _ host_transport (nt_entries t)); try done; try lia.
    + f_equal. apply map_ext_Forall. eapply Forall_impl; [|exact Hes]. exact host_wire_transport.
    + by apply nit_next_ok; try lia.
    + by apply nit_visit_ok.
Qed.

(** The NIT codec accepts a parsed section exactly when its body encodes a network
    information table; the accepted section yields its network descriptors, and - when
    the transmitted loop length is that of the loop - its transport streams (ids and
    descriptors) in order. *)
Theorem dvb_nit_section_correct m L :
  parsed m L -> 1 <= L ->
  network_yields m L dvb_nit_section_codec dvb_nit_section_descriptors_for_each
    dvb_nit_section_transports_for_each \/
  (~ (11 <= L /\ is_network 6 4 m L) /\ exists m', dvb_nit_section_codec m = Null m').
Proof. apply nit_yields. Qed.

(** A NIT with a network name descriptor and one transport stream. *)
Definition nit_example : mem :=
  [0x40; 0x17; 0xf0; 0x01; 0x00; 0xc1; 0x00; 0x00; 0xf0; 0x04; 0x40; 0x02; 0x42; 0x47;
   0xf0; 0x06; 0x01; 0x02; 0x03; 0x04; 0xf0; 0x00; 0xaa; 0xbb; 0xcc; 0xdd].
Lemma parsed_nit_example : parsed nit_example 23.
Proof. split_and!; [repeat constructor; unfold byte; lia|done|done]. Qed.

Lemma dvb_nit_section_correct_witness :
  network_yields nit_example 23 dvb_nit_section_codec dvb_nit_section_descriptors_for_each
    dvb_nit_section_transports_for_each.
Proof.
  destruct (dvb_nit_section_correct nit_example 23 parsed_nit_example ltac:(lia))
    as [H|[_ (m' & E)]]; [exact H|].
  vm_compute in E. discriminate E.
Defined.

(** The same for the BAT codec and its iterators. *)
Theorem dvb_bat_section_correct m L :
  parsed m L -> 1 <= L ->
  network_yields m L dvb_bat_section_codec dvb_bat_section_descriptors_for_each
    dvb_bat_section_transports_for_each \/
  (~ (11 <= L /\ is_network 6 4 m L) /\ exists m', dvb_bat_section_codec m = Null m').
Proof. exact (nit_yields m L). Qed.

Lemma dvb_bat_section_correct_witness :
  network_yields nit_example 23 dvb_bat_section_codec dvb_bat_section_descriptors_for_each
    dvb_bat_section_transports_for_each.
Proof.
  destruct (dvb_bat_section_correct nit_example 23 parsed_nit_example ltac:(lia))
    as [H|[_ (m' & E)]]; [exact H|].
  vm_compute in E. discriminate E.
Defined.

(** The example with the loop length 0x006 replaced by 0xfff. *)
Definition nit_overlong_example : mem := zset (zset nit_example 14 0xff) 15 0xff.

(** The NIT codec does not compare the transmitted transport loop length with the
    section: there is a section it accepts whose [transports_for_each] iteration reads
    outside the section. *)
Theorem dvb_nit_transports_overrun :
  exists m L m', parsed m L /\ dvb_nit_section_codec m = Ret tt m' /\
    dvb_nit_section_transports_for_each m' = Fault.
Proof.
  exists nit_overlong_example, 23.
  exists (match dvb_nit_section_codec nit_overlong_example with Ret _ m => m | _ => [] end).
  split_and!; [|vm_compute; reflexivity|vm_compute; reflexivity].
  split_and!; [|vm_compute; reflexivity|vm_compute; reflexivity].
  repeat constructor; unfold byte; lia.
Qed.

(** ** INT, SIT, RST and TOT *)

(** The target descriptors may end two bytes behind the checked length, so that the
    operational loop is read from the CRC and [len - pos] wraps. *)
Definition int_example : mem :=
  [0x4c; 0x13; 0xf0; 0x00; 0x01; 0xc1; 0x00; 0x00; 0x00; 0x00; 0x05; 0x00; 0xf0; 0x00;
   0xf0; 0x04; 0x80; 0x02; 0x12; 0x34; 0xff; 0xff].

(** There is a parsed INT section, long enough for its fixed part, on which the
    codec itself reads outside the section. *)
Theorem dvb_int_section_overruns :
  exists m L, parsed m L /\ sizeof_dvb_int_section < L /\ dvb_int_section_codec m = Fault.
Proof.
  exists int_example, 19. split_and!; [|by vm_compute|by vm_compute].
  split_and!; [|vm_compute; reflexivity|vm_compute; reflexivity].
  repeat constructor; unfold byte; lia.
Qed.

(** The [dvb_sit_section_descriptors_for_each] macro advances with [_first]: on every
    section with a nonempty descriptor loop, whatever number of turns is granted, the
    iteration is not finished. *)
Theorem dvb_sit_descriptors_for_each_diverges m ds fuel :
  ds <> [] -> 10 + zlen (encode_descriptors ds) <= zlen m ->
  Z.land (le16 m 8) 0xfff = zlen (encode_descriptors ds) ->
  slice m 10 (zlen (encode_descriptors ds)) = encode_descriptors ds ->
  dvb_sit_section_descriptors_for_each fuel m = NoFuel.
Proof.
  intros Hds Hl Hn E. destruct ds as [|d ds]; [done|].
  assert (Hpos : 0 < zlen (encode_descriptors (d :: ds))).
  { pose proof (encode_descriptors_len (d :: ds)). simpl length in *. lia. }
  assert (Hfirst : dvb_sit_section_descriptors_first m = Ret (Some 10) m).
  { unfold dvb_sit_section_descriptors_first, sit_transmission_info_loop_length, sizeof_dvb_sit_section.
    rewrite (bind_run _ _ m _ m (rd16_mask_run 8 0xfff m ltac:(lia) ltac:(lia))), Hn.
    by rewrite (proj2 (Z.eqb_neq _ _)) by lia. }
  destruct (slice_encode_inv m 10 (zlen (encode_descriptors (d :: ds))) d ds ltac:(lia) ltac:(lia) ltac:(lia) E)
    as (E0 & E1 & Hle & E2 & _).
  assert (Hread : read_descriptor 10 m = Ret d m).
  { destruct (wp_total _ _ _ _ (wp_read_descriptor m 10 d ltac:(lia) ltac:(lia) E0 E1 E2))
      as [(? & ? & -> & -> & ->)|(? & _ & [])]. done. }
  unfold dvb_sit_section_descriptors_for_each. rewrite (bind_run _ _ m _ m Hfirst).
  induction fuel as [|fuel IH]; [done|]. simpl.
  rewrite (bind_run _ _ m _ m Hread), (bind_run _ _ m _ m Hfirst).
  unfold mbind, M_bind. by rewrite IH.
Qed.

(** A SIT with a (private) descriptor and no service, after the codec. *)
Definition sit_example : mem :=
  [0x7f; 0x0e; 0xf0; 0xff; 0xff; 0xc1; 0x00; 0x00; 0x03; 0xf0; 0x80; 0x01; 0x07; 0xaa; 0xbb; 0xcc; 0xdd].

Lemma dvb_sit_descriptors_for_each_diverges_witness :
  dvb_sit_section_descriptors_for_each 1000 sit_example = NoFuel.
Proof.
  apply (dvb_sit_descriptors_for_each_diverges sit_example [Descriptor 0x80 [0x07]] 1000);
    [discriminate|vm_compute; discriminate|vm_compute; reflexivity|vm_compute; reflexivity].
Defined.

(** A well-formed SIT with one service and one descriptor (80 00): the third swap of the
    service header turns the descriptor into 00 80, and the section is rejected. *)
Definition sit_service_example : mem :=
  [0x7f; 0x11; 0xf0; 0xff; 0xff; 0xc1; 0x00; 0x00; 0xf0; 0x00;
   0x01; 0x02; 0x80; 0x02; 0x80; 0x00; 0xaa; 0xbb; 0xcc; 0xdd].

Example dvb_sit_section_codec_swaps_descriptor :
  verify_descriptors 14 2 sit_service_example = Ret 0 sit_service_example /\
  exists m', dvb_sit_section_codec sit_service_example = Null m'.
Proof. split; [by vm_compute|]. eexists. by vm_compute. Qed.

(** The RST codec terminates without leaving the section, and accepts it exactly
    when its length is a multiple of 10, the padded size of [struct dvb_rst_status] -
    not of 9, the size of a transmitted event. *)
Theorem dvb_rst_section_codec_length m L :
  parsed m L ->
  (L mod 10 = 0 /\ exists m', dvb_rst_section_codec m = Ret tt m') \/
  (L mod 10 <> 0 /\ exists m', dvb_rst_section_codec m = Null m').
Proof.
  intros (Hb & Hl & Hf). pose proof (length_field_range m) as Hr. rewrite Hf in Hr.
  assert (Hwp : wp dvb_rst_section_codec (fun _ _ => L mod 10 = 0) (fun _ => L mod 10 <> 0) m).
  { unfold dvb_rst_section_codec, sizeof_section, sizeof_dvb_rst_status.
    apply wp_bind, wp_section_length; [lia|]. rewrite Hf. apply wp_bind.
    eapply wp_mono; [apply (wp_while_mem (fun pos m' => codec_inv m m' /\ 3 <= pos <= L + 3 /\
                       (pos - 3) mod 10 = 0)) with (N := fun _ => L mod 10 <> 0)|simpl|done].
    - intros p m1 (Hi & Hp & Hmod) Hlt. apply wp_bind, wp_fail_if; intros Hfit; [lia|].
      do 4 (apply wp_bind, (wp_bswap16_inv m); [done|lia|lia|]; clear m1 Hi; intros m1 Hi).
      apply wp_ret. split_and!; (done || lia).
    - lia.
    - unfold codec_inv. split_and!; (done || lia).
    - intros p m1 (Hge & _ & Hp & Hmod). repeat codec_step; lia. }
  destruct (wp_total _ _ _ _ Hwp) as [([] & m' & E & H)|(m' & E & H)]; [left|right]; eauto.
Qed.

(** One transmitted event: nine bytes. *)
Definition rst_example : mem := [0x71; 0x09; 0x70; 0; 1; 0; 2; 0; 3; 0; 4; 0xfc].
Lemma dvb_rst_section_codec_length_witness : exists m', dvb_rst_section_codec rst_example = Null m'.
Proof.
  destruct (dvb_rst_section_codec_length rst_example 9) as [[H _]|[_ H]]; [|discriminate H|exact H].
  split_and!; [repeat constructor; unfold byte; lia|done|done].
Defined.

(** The body of a time offset table: the date, the length word, the descriptors. *)
Record tot := Tot { tot_utc_time : list Z; tot_word : list Z; tot_descs : list descriptor }.
Definition tot_ok (t : tot) : Prop :=
  bytes (tot_utc_time t) /\ zlen (tot_utc_time t) = 5 /\ bytes (tot_word t) /\ zlen (tot_word t) = 2 /\
  Forall descriptor_ok (tot_descs t) /\
  Z.land (be16 (tot_word t) 0) 0xfff = zlen (encode_descriptors (tot_descs t)).
Definition encode_tot (t : tot) : list Z :=
  tot_utc_time t ++ tot_word t ++ encode_descriptors (tot_descs t).

Section tot.
Context (m : mem) (L : Z) (Hm : parsed m L) (HL : 11 <= L).
Let n : Z := Z.land (be16 m 8) 0xfff.
Let m1 : mem := rev_at m 8 2.

Lemma encode_tot_inv t :
  tot_ok t -> slice m 3 (L - 4) = encode_tot t ->
  10 + n = L - 1 /\ slice m 10 n = encode_descriptors (tot_descs t).
Proof.
  destruct Hm as (Hb & Hl & _). intros (_ & Hd & _ & Hw & _ & Hn) E.
  pose proof (f_equal zlen E) as El. unfold encode_tot in E, El.
  rewrite zlen_slice_le, !zlen_app in El by lia. lens.
  rewrite (slice_split m 3 (L - 4) 5) in E by lia.
  apply app_inj_1 in E as [_ E]; [|pose proof (zlen_slice_le m 3 5); unfold zlen in *; lia].
  rewrite (slice_split m (3 + 5) (L - 4 - 5) 2) in E by lia.
  apply app_inj_1 in E as [E1 E2]; [|pose proof (zlen_slice_le m (3 + 5) 2); unfold zlen in *; lia].
  assert (Hnn : n = zlen (encode_descriptors (tot_descs t))).
  { rewrite <- Hn, <- E1. rewrite be16_slice by lia. done. }
  split; [lia|]. rewrite <- E2. f_equal; lia.
Qed.

Lemma tot_codec_prefix :
  dvb_tot_section_codec m =
    if L - 1 <? 10 + n then Null m1
    else (r ← verify_descriptors 10 n;
          fail_if (negb (r =? 0));;
          fail_if (negb (10 + n =? L - 1))) m1.
Proof.
  destruct Hm as (Hb & Hl & Hf). pose proof (length_field_range m) as Hr.
  assert (Hl1 : zlen m1 = L + 3) by (unfold m1; rewrite zlen_rev_at; lia).
  unfold dvb_tot_section_codec, sizeof_dvb_tot_section, sizeof_section, CRC_SIZE.
  rewrite (bind_run _ _ m (L + 3) m).
  2:{ unfold section_length, sizeof_section.
      rewrite (bind_run _ _ m _ m (section_length_field_run m ltac:(lia))), Hf.
      by rewrite u64_small by lia. }
  rewrite u64_small by lia. replace (L + 3 - 4) with (L - 1) by lia. rewrite bind_fail_if.
  rewrite (proj2 (Z.ltb_ge _ _)) by lia.
  rewrite (bind_run _ _ m tt m1) by (apply bswap16_run; (done || lia)).
  rewrite (bind_run _ _ m1 n m1).
  2:{ unfold tot_descriptors_loop_length. rewrite rd16_mask_run by lia.
      unfold m1. by rewrite le16_rev_at by (done || lia). }
  rewrite bind_fail_if. reflexivity.
Qed.

Lemma tot_codec_run :
  (exists t m', tot_ok t /\ slice m 3 (L - 4) = encode_tot t /\
     dvb_tot_section_codec m = Ret tt m' /\ slice m' 3 5 = tot_utc_time t /\
     dvb_tot_section_descriptors_for_each m' = Ret (tot_descs t) m') \/
  (~ (exists t, tot_ok t /\ slice m 3 (L - 4) = encode_tot t) /\
   exists m', dvb_tot_section_codec m = Null m').
Proof.
  pose proof Hm as (Hb & Hl & _). rewrite tot_codec_prefix.
  assert (Hn : 0 <= n <= 4095) by (apply land_range; lia).
  assert (Hl1 : zlen m1 = L + 3) by (unfold m1; rewrite zlen_rev_at; lia).
  assert (Hb1 : bytes m1) by (unfold m1; auto with bgt).
  assert (Ho1 : forall j, 0 <= j -> ~ (8 <= j < 10) -> m1.[j] = m.[j])
    by (intros; unfold m1; apply zat_rev_at_out; lia).
  destruct (L - 1 <? 10 + n) eqn:Efit.
  { right. split; [|eauto]. intros (t & Ht & E). apply encode_tot_inv in E as (? & _); [lia|done]. }
  assert (Hsd : slice m1 10 n = slice m 10 n)
    by (apply slice_ext; try lia; intros; apply Ho1; lia).
  destruct (wp_total _ _ _ _ (wp_verify_descriptors m1 10 n Hb1 ltac:(lia) ltac:(lia) ltac:(lia)))
    as [(r & m3 & E & -> & Hr)|(? & _ & [])].
  rewrite (bind_run _ _ m1 r m1 E), bind_fail_if. rewrite Hsd in Hr.
  destruct Hr as [[-> (ds & Hok & Eds)]|[-> Hno]]; simpl.
  2:{ right. split; [|eauto]. intros (t & Ht & Et). apply Hno.
      destruct (encode_tot_inv t Ht Et) as (_ & ?). eauto. }
  rewrite fail_if_run. destruct (10 + n =? L - 1) eqn:Eend; simpl.
  2:{ right. split; [|eauto]. intros (t & Ht & E'). apply encode_tot_inv in E' as (? & _); [lia|done]. }
  left. exists (Tot (slice m 3 5) (slice m 8 2) ds), m1. split_and!.
  - split_and!; simpl; try (by apply slice_bytes); try (by rewrite zlen_slice_le by lia); [done|].
    rewrite be16_slice, <- Eds, zlen_slice_le by lia. done.
  - unfold encode_tot. simpl. rewrite <- Eds. replace (L - 4) with (5 + (2 + n)) by lia.
    by rewrite !slice_join by lia.
  - done.
  - simpl. apply slice_ext; try lia. intros. apply Ho1; lia.
  - assert (Hlen : tot_descriptors_loop_length m1 = Ret n m1).
    { unfold tot_descriptors_loop_length. rewrite rd16_mask_run by lia.
      unfold m1. by rewrite le16_rev_at by (done || lia). }
    apply (for_each_descriptors_run m1 10 n tot_descriptors_loop_length); try done; try lia.
    + simpl. by rewrite Hsd.
    + unfold dvb_tot_section_descriptors_first. by rewrite (bind_run _ _ m1 _ m1 Hlen).
Qed.
End tot.

(** The TOT codec accepts a parsed section exactly when its body is a date, a length
    word and descriptors of that length, and the accepted section yields the date and
    the descriptors; on a section of length 0, [section_length - CRC_SIZE] wraps and
    the codec leaves the section. *)
Theorem dvb_tot_section_correct m L :
  parsed m L ->
  (exists t m', tot_ok t /\ slice m 3 (L - 4) = encode_tot t /\
     dvb_tot_section_codec m = Ret tt m' /\ slice m' 3 5 = tot_utc_time t /\
     dvb_tot_section_descriptors_for_each m' = Ret (tot_descs t) m') \/
  (1 <= L /\ ~ (11 <= L /\ exists t, tot_ok t /\ slice m 3 (L - 4) = encode_tot t) /\
     exists m', dvb_tot_section_codec m = Null m') \/
  (L = 0 /\ dvb_tot_section_codec m = Fault).
Proof.
  intros Hm. pose proof Hm as (Hb & Hl & Hf). pose proof (length_field_range m) as Hr.
  destruct (decide (11 <= L)) as [HL|HL].
  { destruct (tot_codec_run m L Hm HL) as [|[Hno ?]]; [by left|right; left].
    split_and!; [lia|by intros [_ ?]|done]. }
  unfold dvb_tot_section_codec, sizeof_dvb_tot_section, sizeof_section, CRC_SIZE.
  rewrite (bind_run _ _ m (L + 3) m).
  2:{ unfold section_length, sizeof_section.
      rewrite (bind_run _ _ m _ m (section_length_field_run m ltac:(lia))), Hf.
      by rewrite u64_small by lia. }
  right. destruct (decide (L = 0)) as [->|]; [right|left].
  - split; [done|]. rewrite bind_fail_if. simpl. unfold bswap16, rd16, mbind, M_bind, rd8.
    by rewrite zget_out by lia.
  - split_and!; [lia|lia|]. rewrite u64_small, bind_fail_if by lia.
    rewrite (proj2 (Z.ltb_lt _ _)) by lia. eauto.
Qed.

(** A TOT with one local time offset descriptor of two bytes. *)
Definition tot_example : mem :=
  [0x73; 0x0f; 0x70; 0xc0; 0x79; 0x12; 0x45; 0x00; 0xf0; 0x04; 0x58; 0x02; 0x47; 0x42; 0xaa; 0xbb; 0xcc; 0xdd].

Lemma dvb_tot_section_correct_witness :
  exists t m', dvb_tot_section_codec tot_example = Ret tt m' /\
    dvb_tot_section_descriptors_for_each m' = Ret (tot_descs t) m'.
Proof.
  destruct (dvb_tot_section_correct tot_example 15)
    as [(t & m' & _ & _ & E & _ & E')|[(_ & _ & m' & E)|[E _]]];
    [split_and!; [repeat constructor; unfold byte; lia|done|done]|exists t, m'; exact (conj E E')| |].
  - vm_compute in E. discriminate E.
  - discriminate E.
Defined.
