(* ===== verification/SectionBuf.v ===== *)
(** * SectionBuf: reassembling sections from fragments (libucsi/section_buf.c)

    A [section_buf] and the data area behind it are a record; a fragment is the list
    of its [len] bytes.  An access outside the data area or outside the fragment is
    [None].  The abstract specification is concatenation: however a section is cut
    into fragments, the buffer ends up holding its bytes. *)

From S2P Require Import Prelude.

Definition SECTION_HDR_SIZE : Z := 3.
Definition SECTION_PAD : Z := 0xff.

Record section_buf := SectionBuf {
  sb_max : Z;          (* uint32_t *)
  sb_count : Z;        (* uint32_t *)
  sb_len : Z;          (* uint32_t *)
  sb_header : bool;
  sb_wait_pdu : bool;
  sb_data : list Z     (* the caller's area behind the structure *)
}.

Definition set_wait_pdu (b : bool) (s : section_buf) : section_buf :=
  SectionBuf (sb_max s) (sb_count s) (sb_len s) (sb_header s) b (sb_data s).

Definition section_buf_init (s : section_buf) (max : Z) : section_buf * Z :=
  if max <? SECTION_HDR_SIZE then (s, - EINVAL)
  else (SectionBuf max 0 SECTION_HDR_SIZE false true (sb_data s), 0).

Definition section_buf_reset (s : section_buf) : section_buf :=
  let tmp := sb_wait_pdu s in
  set_wait_pdu tmp (section_buf_init s (s32 (sb_max s))).1.

Definition section_buf_remaining (s : section_buf) : Z := s32 (sb_len s - sb_count s).
Definition section_buf_data (s : section_buf) : list Z := sb_data s.

(** [memcpy(pos, frag, copy)] with [pos] in the data area. *)
Definition memcpy_data (s : section_buf) (pos : Z) (frag : list Z) (copy : Z) : option section_buf :=
  if decide (0 <= pos /\ 0 <= copy <= zlen frag /\ pos + copy <= zlen (sb_data s)) then
    Some (SectionBuf (sb_max s) (u32 (sb_count s + copy)) (sb_len s) (sb_header s) (sb_wait_pdu s)
            (zsplice (sb_data s) pos (ztake copy frag)))
  else None.

(** [while (len && ( *frag == SECTION_PAD))]: the padding bytes skipped and the rest. *)
Fixpoint skip_pad (frag : list Z) : Z * list Z :=
  match frag with
  | b :: frag' =>
      if b =? SECTION_PAD then let '(used, rest) := skip_pad frag' in (1 + used, rest)
      else (0, frag)
  | [] => (0, [])
  end.

(** The block [if (!section->header)]: [inl] continues with the state, the write
    position, the rest of the fragment and the bytes used; [inr] is a return of the
    state, the value and the status. *)
Definition section_buf_add_header (s : section_buf) (pos : Z) (frag : list Z) (used : Z) :
    option (section_buf * Z * list Z * Z + section_buf * Z * Z) :=
  if sb_header s then Some (inl (s, pos, frag, used)) else
  let len := zlen frag in
  let copy := s32 (SECTION_HDR_SIZE - sb_count s) in
  let copy := if len <? copy then len else copy in
  s ← memcpy_data s pos frag copy;
  let pos := pos + copy in
  let frag := zdrop copy frag in
  let used := used + copy in
  let len := len - copy in
  if negb (sb_count s =? SECTION_HDR_SIZE) then Some (inr (s, used, 0)) else
  d1 ← zget (sb_data s) 1;
  d2 ← zget (sb_data s) 2;
  let l := SECTION_HDR_SIZE + Z.lor (Z.shiftl (Z.land d1 0x0f) 8) d2 in
  let s := SectionBuf (sb_max s) (sb_count s) l (sb_header s) (sb_wait_pdu s) (sb_data s) in
  if sb_max s <? l then Some (inr (s, len + used, - ERANGE)) else
  Some (inl (SectionBuf (sb_max s) (sb_count s) l true (sb_wait_pdu s) (sb_data s), pos, frag, used)).

(** The rest of the function: [accumulate frag]. *)
Definition section_buf_accumulate (s : section_buf) (pos : Z) (frag : list Z) (used : Z) :
    option (section_buf * Z * Z) :=
  let len := zlen frag in
  let copy := s32 (sb_len s - sb_count s) in
  let copy := if len <? copy then len else copy in
  s ← memcpy_data s pos frag copy;
  let used := used + copy in
  Some (s, used, if sb_header s && (sb_len s =? sb_count s) then 1 else 0).

(** [section_buf_add]: the state, the returned number of bytes and [*section_status]. *)
Definition section_buf_add (s : section_buf) (frag : list Z) : option (section_buf * Z * Z) :=
  let pos := sb_count s in
  if sb_header s && (sb_len s =? sb_count s) then Some (s, 0, 1) else
  let '(used, frag) := if sb_count s =? 0 then skip_pad frag else (0, frag) in
  if (sb_count s =? 0) && (zlen frag =? 0) then Some (s, used, 0) else
  r ← section_buf_add_header s pos frag used;
  match r with
  | inr ret => Some ret
  | inl (s, pos, frag, used) => section_buf_accumulate s pos frag used
  end.

Definition section_buf_add_transport_payload (s : section_buf) (payload : list Z) (pdu_start : bool) :
    option (section_buf * Z * Z) :=
  let len := zlen payload in
  if sb_header s && (sb_len s =? sb_count s) then Some (s, 0, 1) else
  if sb_wait_pdu s && negb pdu_start then Some (s, len, 0) else
  let accumulate (s : section_buf) (used : Z) :=
    r ← section_buf_add s (zdrop used payload);
    let '(s, tmp, section_status) := r in
    let s := if section_status <? 0 then set_wait_pdu true s else s in
    Some (s, used + tmp, section_status) in
  if pdu_start then
    let s := set_wait_pdu false s in
    offset ← zget payload 0;
    if len <? offset + 1 then Some (set_wait_pdu true s, len, - EINVAL) else
    if negb (sb_count s =? 0) then
      r ← section_buf_add s (ztake offset (zdrop 1 payload));
      let '(s, tmp, section_status) := r in
      if negb (tmp =? offset) || negb (section_buf_remaining s =? 0) || negb (section_status =? 1)
      then Some (set_wait_pdu true s, 1 + tmp, - ERANGE)
      else Some (s, 1 + tmp, section_status)
    else accumulate s (1 + offset)
  else accumulate s 0.

(** ** Well-formed buffers

    [sb_ok] is what [section_buf_init] establishes and every call preserves: the
    received bytes lie inside the data area, and once the header is complete the
    expected length is the one in the header and fits the buffer. *)

Definition hdr_length (d : list Z) : Z := 3 + ((d.[1] mod 16) * 256 + d.[2]).

Definition sb_ok (s : section_buf) : Prop :=
  3 <= sb_max s < 2 ^ 31 /\ zlen (sb_data s) = sb_max s /\ bytes (sb_data s) /\
  (if sb_header s then
     sb_len s = hdr_length (sb_data s) /\ 3 <= sb_count s <= sb_len s /\ sb_len s <= sb_max s
   else
     0 <= sb_count s <= 3 /\ (sb_count s < 3 -> sb_len s = 3) /\
     (sb_count s = 3 -> sb_len s = hdr_length (sb_data s) /\ sb_max s < sb_len s)).

(** The bytes received so far. *)
Definition received (s : section_buf) : list Z := ztake (sb_count s) (sb_data s).

Lemma section_buf_init_ok s max :
  3 <= max < 2 ^ 31 -> zlen (sb_data s) = max -> bytes (sb_data s) ->
  sb_ok (section_buf_init s max).1 /\ received (section_buf_init s max).1 = [].
Proof.
  intros Hmax Hl Hb. unfold section_buf_init, SECTION_HDR_SIZE.
  rewrite (proj2 (Z.ltb_ge _ _)) by lia. split; [|done].
  split_and!; simpl; (done || lia).
Qed.

Lemma hdr_length_eq a b :
  byte b -> SECTION_HDR_SIZE + Z.lor (Z.shiftl (Z.land a 0x0f) 8) b = 3 + (a mod 16 * 256 + b).
Proof. intros. unfold SECTION_HDR_SIZE. by rewrite lor_byte, land_15. Qed.

Lemma hdr_length_range d : bytes d -> 3 <= hdr_length d < 4099.
Proof. intros Hb. unfold hdr_length. byte_ranges. pose proof (Z.mod_pos_bound (d.[1]) 16). lia. Qed.

Lemma s32_small z : 0 <= z < 2 ^ 31 -> s32 z = z.
Proof. intros. unfold s32. rewrite u32_small by lia. by rewrite decide_True by lia. Qed.

(** [received] after a copy at the write position. *)
Lemma memcpy_data_run s frag copy :
  0 <= sb_count s -> 0 <= copy <= zlen frag -> sb_count s + copy <= zlen (sb_data s) ->
  zlen (sb_data s) < 2 ^ 31 ->
  exists s', memcpy_data s (sb_count s) frag copy = Some s' /\
    sb_max s' = sb_max s /\ sb_len s' = sb_len s /\ sb_header s' = sb_header s /\
    sb_wait_pdu s' = sb_wait_pdu s /\ sb_count s' = sb_count s + copy /\
    sb_data s' = zsplice (sb_data s) (sb_count s) (ztake copy frag) /\
    zlen (sb_data s') = zlen (sb_data s) /\
    received s' = received s ++ ztake copy frag.
Proof.
  intros Hc Hcopy Hfit Hmax. unfold memcpy_data. rewrite decide_True by lia.
  eexists. split; [done|]. simpl. rewrite u32_small by lia.
  assert (Hz : zlen (ztake copy frag) = copy) by (apply zlen_ztake; lia).
  split_and!; try done.
  - rewrite zlen_zsplice; lia.
  - unfold received. simpl. unfold zsplice.
    rewrite (ztake_app_plus _ _ _ copy) by (rewrite ?zlen_ztake by lia; lia).
    by rewrite ztake_app.
Qed.

(** ** One call *)

Lemma min_if a b : (if a <? b then a else b) = Z.min a b.
Proof. destruct (a <? b) eqn:?; lia. Qed.

Lemma received_len s : sb_ok s -> zlen (received s) = sb_count s.
Proof.
  intros (Hmax & Hl & _ & H). unfold received. apply zlen_ztake.
  destruct (sb_header s); lia.
Qed.

Lemma zat_received s i : 0 <= i < sb_count s -> (received s).[i] = (sb_data s).[i].
Proof. intros. unfold received. by apply zat_ztake. Qed.

(** Bytes at or behind the write position do not touch the header. *)
Lemma hdr_length_zsplice d i src :
  3 <= i -> i + zlen src <= zlen d -> hdr_length (zsplice d i src) = hdr_length d.
Proof.
  intros. unfold hdr_length. rewrite !zat_zsplice by lia. by rewrite !decide_False by lia.
Qed.

Lemma accumulate_run s frag used :
  sb_ok s -> sb_header s = true -> bytes frag ->
  let k := Z.min (zlen frag) (sb_len s - sb_count s) in
  exists s', section_buf_accumulate s (sb_count s) frag used =
      Some (s', used + k, if sb_len s - sb_count s <=? zlen frag then 1 else 0) /\
    sb_ok s' /\ sb_header s' = true /\ sb_len s' = sb_len s /\ sb_max s' = sb_max s /\
    sb_wait_pdu s' = sb_wait_pdu s /\ received s' = received s ++ ztake k frag.
Proof.
  intros (Hmax & Hl & Hb & H) Hh Hf k. rewrite Hh in H. destruct H as (Hlen & Hc & Hle).
  pose proof (zlen_nonneg frag). unfold section_buf_accumulate.
  rewrite s32_small, min_if by lia. fold k.
  destruct (memcpy_data_run s frag k) as (s' & E & Em & El & Eh & Ew & Ec & Ed & Hl' & Er); [lia..|].
  rewrite E. simpl. rewrite Eh, El, Ec, Hh. simpl.
  assert (Hz : zlen (ztake k frag) = k) by (apply zlen_ztake; lia).
  exists s'. split_and!; try done.
  - do 2 f_equal. destruct (sb_len s =? _) eqn:?, (_ <=? _) eqn:?; lia || done.
  - unfold sb_ok. rewrite Eh, Hh, Em, El, Hl', Ed, Ec.
    split_and!; try (done || lia).
    + auto with bgt.
    + rewrite hdr_length_zsplice; lia.
  - congruence.
Qed.

(** What the header block does: it runs out of bytes, rejects the length, or
    completes the header and goes on with the rest of the fragment. *)
Definition header_post (s : section_buf) (frag : list Z) (used : Z)
    (r : section_buf * Z * list Z * Z + section_buf * Z * Z) : Prop :=
  let k := Z.min (zlen frag) (3 - sb_count s) in
  exists s', sb_ok s' /\ sb_max s' = sb_max s /\ sb_wait_pdu s' = sb_wait_pdu s /\
    received s' = received s ++ ztake k frag /\
    (sb_count s + zlen frag < 3 /\ sb_header s' = false /\ r = inr (s', used + zlen frag, 0) \/
     3 <= sb_count s + zlen frag /\ sb_count s' = 3 /\
     (sb_max s < hdr_length (received s') /\ sb_header s' = false /\
        r = inr (s', used + zlen frag, - ERANGE) \/
      hdr_length (received s') <= sb_max s /\ sb_header s' = true /\
        sb_len s' = hdr_length (received s') /\ r = inl (s', 3, zdrop k frag, used + k))).

Lemma header_run s frag used :
  sb_ok s -> sb_header s = false -> bytes frag ->
  exists r, section_buf_add_header s (sb_count s) frag used = Some r /\ header_post s frag used r.
Proof.
  intros (Hmax & Hl & Hb & H) Hh Hf. rewrite Hh in H. destruct H as (Hc & Hlt & Heq).
  pose proof (zlen_nonneg frag). unfold section_buf_add_header. rewrite Hh.
  change (SECTION_HDR_SIZE - sb_count s) with (3 - sb_count s).
  rewrite s32_small, min_if by lia. unfold header_post.
  set (k := Z.min (zlen frag) (3 - sb_count s)).
  destruct (memcpy_data_run s frag k) as (s1 & E & Em & El & Eh & Ew & Ec & Ed & Hl1 & Er); [lia..|].
  rewrite E. cbn [mbind option_bind]. change (sb_count s1 =? SECTION_HDR_SIZE) with (sb_count s1 =? 3).
  assert (Hb1 : bytes (sb_data s1)) by (rewrite Ed; auto with bgt).
  destruct (sb_count s1 =? 3) eqn:E3; simpl.
  - assert (3 <= sb_count s + zlen frag) by lia.
    rewrite !zget_in by lia. simpl. rewrite hdr_length_eq by auto with bgt.
    fold (hdr_length (sb_data s1)).
    assert (Hrec : hdr_length (received s1) = hdr_length (sb_data s1))
      by (unfold hdr_length; rewrite !zat_received by lia; done).
    pose proof (hdr_length_range (sb_data s1) Hb1).
    destruct (sb_max s1 <? hdr_length (sb_data s1)) eqn:Ebig.
    + eexists. split; [done|].
      exists (SectionBuf (sb_max s1) (sb_count s1) (hdr_length (sb_data s1)) (sb_header s1) (sb_wait_pdu s1) (sb_data s1)).
      split_and!; try done; [unfold sb_ok; simpl; rewrite Eh, Hh; split_and!; (done || lia)|].
      right. split_and!; [lia|simpl; lia|]. left. split_and!; [|by rewrite Eh|].
      * change (received _) with (received s1). lia.
      * do 2 f_equal. f_equal. lia.
    + eexists. split; [done|].
      exists (SectionBuf (sb_max s1) (sb_count s1) (hdr_length (sb_data s1)) true (sb_wait_pdu s1) (sb_data s1)).
      split_and!; try done; [unfold sb_ok; simpl; split_and!; (done || lia)|].
      right. split_and!; [lia|simpl; lia|]. right. change (received _) with (received s1).
      split_and!; [lia|done|by rewrite Hrec|]. do 4 f_equal; lia.
  - eexists. split; [done|]. exists s1. split_and!; try done.
    + unfold sb_ok. rewrite Eh, Hh. split_and!; try (done || lia).
    + left. split_and!; [lia|congruence|]. do 3 f_equal. lia.
Qed.

(** ** [section_buf_add] on arbitrary bytes *)

Definition complete (s : section_buf) : Prop := sb_header s = true /\ sb_len s = sb_count s.

Definition add_post (s : section_buf) (n : Z) (s' : section_buf) (used status : Z) : Prop :=
  sb_ok s' /\ sb_max s' = sb_max s /\ sb_wait_pdu s' = sb_wait_pdu s /\ 0 <= used <= n /\
  (status = 0 /\ used = n /\ ~ complete s' \/
   status = 1 /\ complete s' \/
   status = - ERANGE /\ used = n /\ ~ complete s').

Lemma skip_pad_spec frag :
  let '(used, rest) := skip_pad frag in
  frag = replicate (Z.to_nat used) SECTION_PAD ++ rest /\ 0 <= used /\
  (rest = [] \/ rest.[0] <> SECTION_PAD).
Proof.
  induction frag as [|b frag IH]; simpl; [split_and!; (done || by left)|].
  destruct (b =? SECTION_PAD) eqn:E.
  - destruct (skip_pad frag) as [used rest]. destruct IH as (-> & ? & ?).
    split_and!; [|lia|done]. rewrite Z.add_1_l, Z2Nat.inj_succ by lia. simpl. f_equal. lia.
  - split_and!; [done|done|right]. change ((b :: frag).[0]) with b. lia.
Qed.

Lemma skip_pad_len frag : zlen (skip_pad frag).2 = zlen frag - (skip_pad frag).1 /\
  0 <= (skip_pad frag).1 <= zlen frag /\ (bytes frag -> bytes (skip_pad frag).2).
Proof.
  pose proof (skip_pad_spec frag) as H. destruct (skip_pad frag) as [used rest]. simpl.
  destruct H as (-> & ? & _). unfold zlen. rewrite length_app, length_replicate.
  split_and!; try lia. by intros [_ ?]%Forall_app.
Qed.

Lemma complete_dec s : sb_header s && (sb_len s =? sb_count s) = true <-> complete s.
Proof. unfold complete. rewrite andb_true_iff, Z.eqb_eq. done. Qed.

(** The call behind the padding. *)
Lemma add_frag_run s frag used :
  sb_ok s -> ~ complete s -> bytes frag -> 0 <= used ->
  exists s' k status,
    (r ← section_buf_add_header s (sb_count s) frag used;
     match r with
     | inr ret => Some ret
     | inl (s, pos, frag, used) => section_buf_accumulate s pos frag used
     end) = Some (s', used + k, status) /\ add_post s (zlen frag) s' k status.
Proof.
  intros Hok Hnc Hb Hu. pose proof (zlen_nonneg frag). pose proof Hok as (Hmax & Hl & _ & Hs).
  destruct (sb_header s) eqn:Hh.
  - unfold section_buf_add_header. rewrite Hh. cbn [mbind option_bind].
    destruct (accumulate_run s frag used Hok Hh Hb) as (s' & E & Hok' & Hh' & El & Em & Ew & Er).
    set (k := Z.min _ _) in *. exists s', k, (if sb_len s - sb_count s <=? zlen frag then 1 else 0).
    split; [done|]. pose proof (received_len s Hok). pose proof (received_len s' Hok') as Hc'.
    rewrite Er, zlen_app, zlen_ztake in Hc' by lia.
    split_and!; [done..|lia|lia|]. unfold complete.
    destruct (_ <=? zlen frag) eqn:Efull; [right; left|left]; split_and!; (done || lia).
  - destruct (header_run s frag used Hok Hh Hb) as (r & E & s1 & Hok1 & Em & Ew & Er & Hr).
    rewrite E. cbn [mbind option_bind].
    destruct Hr as [(Hshort & Hh1 & ->)|(Hlong & Hc1 & [(Hbig & Hh1 & ->)|(Hfit & Hh1 & El1 & ->)])].
    + exists s1, (zlen frag), 0. split; [done|]. split_and!; try (done || lia).
      left. split_and!; [done..|]. unfold complete. by rewrite Hh1; intros [? _].
    + exists s1, (zlen frag), (- ERANGE). split; [done|]. split_and!; try (done || lia).
      right; right. split_and!; [done..|]. unfold complete. by rewrite Hh1; intros [? _].
    + set (k1 := Z.min (zlen frag) (3 - sb_count s)) in *.
      assert (Hzd : zlen (zdrop k1 frag) = zlen frag - k1) by (apply zlen_zdrop; lia).
      destruct (accumulate_run s1 (zdrop k1 frag) (used + k1) Hok1 Hh1) as
        (s' & E' & Hok' & Hh' & El & Em' & Ew' & Er'); [auto with bgt|].
      rewrite Hc1 in E'. set (k2 := Z.min (zlen (zdrop k1 frag)) (sb_len s1 - sb_count s1)) in *.
      exists s', (k1 + k2), (if sb_len s1 - 3 <=? zlen (zdrop k1 frag) then 1 else 0).
      split; [rewrite E'; do 3 f_equal; lia|].
      pose proof Hok1 as (_ & _ & _ & Hs1). rewrite Hh1 in Hs1.
      pose proof (received_len s1 Hok1). pose proof (received_len s' Hok') as Hc'.
      rewrite Er', zlen_app, zlen_ztake in Hc' by lia.
      split_and!; [done|congruence|congruence|lia|lia|]. unfold complete.
      destruct (_ <=? zlen (zdrop k1 frag)) eqn:Efull; [right; left|left]; split_and!; (done || lia).
Qed.

Lemma add_run s frag :
  sb_ok s -> bytes frag ->
  exists s' used status, section_buf_add s frag = Some (s', used, status) /\
    add_post s (zlen frag) s' used status.
Proof.
  intros Hok Hb. pose proof (zlen_nonneg frag). unfold section_buf_add.
  destruct (sb_header s && (sb_len s =? sb_count s)) eqn:Ec.
  { apply complete_dec in Ec. exists s, 0, 1. split; [done|].
    split_and!; [done..|lia|]. by right; left. }
  assert (Hnc : ~ complete s) by (by rewrite <- complete_dec, Ec).
  destruct (sb_count s =? 0) eqn:E0; simpl.
  - destruct (skip_pad_len frag) as (Hz & Hu & Hb'). destruct (skip_pad frag) as [used rest].
    simpl in *. destruct (zlen rest =? 0) eqn:Ez.
    + exists s, used, 0. split; [done|]. split_and!; [done..|lia|lia|]. left. split_and!; (done || lia).
    + destruct (add_frag_run s rest used Hok Hnc (Hb' Hb)) as (s' & k & st & E & H1 & H2 & H3 & H4 & H5);
        [lia|].
      exists s', (used + k), st. split; [done|]. split_and!; [done..|lia|lia|].
      destruct H5 as [(? & ? & ?)|[?|(? & ? & ?)]];
        [left|right; left|right; right]; split_and!; (done || lia || tauto).
  - destruct (add_frag_run s frag 0 Hok Hnc Hb) as (s' & k & st & E & Hp); [lia|].
    exists s', k, st. by rewrite E.
Qed.

(** ** Reassembly *)

(** A client that feeds fragments until one call reports something. *)
Fixpoint section_buf_feed (s : section_buf) (frags : list (list Z)) : option (section_buf * Z * Z) :=
  match frags with
  | [] => Some (s, 0, 0)
  | f :: fs =>
      '(s, used, status) ← section_buf_add s f;
      if status =? 0 then
        '(s, used', status) ← section_buf_feed s fs;
        Some (s, used + used', status)
      else Some (s, used, status)
  end.

(** The same for the payloads of transport packets and their start indicators. *)
Fixpoint section_buf_feed_ts (s : section_buf) (packets : list (list Z * bool)) :
    option (section_buf * Z * Z) :=
  match packets with
  | [] => Some (s, 0, 0)
  | (payload, pdu_start) :: ps =>
      '(s, used, status) ← section_buf_add_transport_payload s payload pdu_start;
      if status =? 0 then
        '(s, used', status) ← section_buf_feed_ts s ps;
        Some (s, used + used', status)
      else Some (s, used, status)
  end.

Section reassembly.
Context (sec : list Z) (max : Z).
(** A section: its header announces its length, and it does not look like padding. *)
Context (Hsb : bytes sec) (Hsl : zlen sec = hdr_length sec) (Hsmax : zlen sec <= max)
        (Hspad : sec.[0] <> SECTION_PAD).

(** The first [n] bytes of the section have been received. *)
Definition collecting (n : Z) (s : section_buf) : Prop :=
  sb_ok s /\ sb_max s = max /\ 0 <= n <= zlen sec /\ received s = ztake n sec.

Lemma collecting_intro n s :
  sb_ok s -> sb_max s = max -> 0 <= n <= zlen sec -> received s = ztake n sec -> collecting n s.
Proof. unfold collecting. tauto. Qed.

Lemma sec_len : 3 <= zlen sec.
Proof. rewrite Hsl. pose proof (hdr_length_range sec Hsb). lia. Qed.

Lemma collecting_count n s : collecting n s -> sb_count s = n.
Proof.
  intros (Hok & _ & Hn & E). rewrite <- received_len, E by done. by apply zlen_ztake.
Qed.

Lemma hdr_length_prefix n : 3 <= n -> hdr_length (ztake n sec) = zlen sec.
Proof. intros. rewrite Hsl. unfold hdr_length. by rewrite !zat_ztake by lia. Qed.

(** The header is complete exactly when its bytes are there. *)
Lemma collecting_header n s :
  collecting n s -> if sb_header s then 3 <= n /\ sb_len s = zlen sec else n < 3.
Proof.
  intros Hc. pose proof (collecting_count n s Hc) as Hcount.
  destruct Hc as ((_ & _ & _ & Hs) & Hmax & Hn & E).
  assert (Hh : 3 <= n -> hdr_length (sb_data s) = zlen sec).
  { intros. rewrite <- (hdr_length_prefix n), <- E by done. unfold hdr_length.
    by rewrite !zat_received by lia. }
  destruct (sb_header s).
  - destruct Hs as (Hlen & ? & _). split; [lia|]. rewrite Hlen. apply Hh. lia.
  - destruct (decide (n < 3)); [done|]. specialize (Hh ltac:(lia)). lia.
Qed.

Lemma collecting_complete n s : collecting n s -> complete s <-> n = zlen sec.
Proof.
  intros Hc. pose proof (collecting_count n s Hc). pose proof (collecting_header n s Hc) as Hh.
  pose proof sec_len. unfold complete. destruct (sb_header s); lia.
Qed.

Definition agrees (n : Z) (frag : list Z) : Prop :=
  ztake (Z.min (zlen frag) (zlen sec - n)) frag = ztake (Z.min (zlen frag) (zlen sec - n)) (zdrop n sec).

Lemma ztake_extend n k frag :
  0 <= n -> 0 <= k -> n + k <= zlen sec -> ztake k frag = ztake k (zdrop n sec) ->
  ztake n sec ++ ztake k frag = ztake (n + k) sec.
Proof.
  intros ? ? ? ->. rewrite <- (ztake_zdrop n sec) at 3.
  by rewrite (ztake_app_plus _ _ _ k) by (rewrite ?zlen_ztake by lia; lia).
Qed.

(** Feeding a fragment behind any padding: the section grows by the bytes used. *)
Lemma add_frag_collecting n s frag used :
  collecting n s -> n < zlen sec -> bytes frag -> agrees n frag ->
  let k := Z.min (zlen frag) (zlen sec - n) in
  exists s',
    (r ← section_buf_add_header s (sb_count s) frag used;
     match r with
     | inr ret => Some ret
     | inl (s, pos, frag, used) => section_buf_accumulate s pos frag used
     end) = Some (s', used + k, if zlen sec - n <=? zlen frag then 1 else 0) /\
    collecting (n + k) s' /\ sb_wait_pdu s' = sb_wait_pdu s.
Proof.
  intros Hc Hn Hb Hag k. unfold agrees in Hag. fold k in Hag.
  pose proof (zlen_nonneg frag). pose proof sec_len.
  pose proof (collecting_count n s Hc) as Hcount. pose proof (collecting_header n s Hc) as Hh.
  destruct Hc as (Hok & Hmax & Hn0 & Er). destruct (sb_header s) eqn:Eh.
  - unfold section_buf_add_header. rewrite Eh. cbn [mbind option_bind].
    destruct (accumulate_run s frag used Hok Eh Hb) as (s' & E & Hok' & Hh' & El & Em & Ew & Er').
    destruct Hh as [_ Hlen]. rewrite Hcount, Hlen in *. fold k in E, Er'.
    exists s'. split; [done|]. split; [apply collecting_intro; [done|lia|lia|]|done].
    rewrite Er', Er. apply ztake_extend; (done || lia).
  - destruct (header_run s frag used Hok Eh Hb) as (r & E & s1 & Hok1 & Em & Ew & Er1 & Hr).
    rewrite E. cbn [mbind option_bind]. rewrite Hcount in *.
    set (k1 := Z.min (zlen frag) (3 - n)) in *.
    assert (Hag1 : ztake k1 frag = ztake k1 (zdrop n sec)).
    { rewrite <- (ztake_ztake k1 k frag), <- (ztake_ztake k1 k (zdrop n sec)) by lia.
      by rewrite Hag. }
    rewrite Er, ztake_extend in Er1 by (done || lia).
    destruct Hr as [(Hshort & Hh1 & ->)|(Hlong & Hc1 & Hr)].
    + replace k1 with (zlen frag) in * by lia. exists s1.
      replace k with (zlen frag) by lia. rewrite (proj2 (Z.leb_gt _ _)) by lia.
      split; [done|]. split; [apply collecting_intro; (done || lia)|done].
    + replace (n + k1) with 3 in * by lia. rewrite Er1, hdr_length_prefix in Hr by lia.
      destruct Hr as [(Hbig & _)|(Hfit & Hh1 & El1 & ->)]; [lia|].
      assert (Hzd : zlen (zdrop k1 frag) = zlen frag - k1) by (apply zlen_zdrop; lia).
      destruct (accumulate_run s1 (zdrop k1 frag) (used + k1) Hok1 Hh1) as
        (s' & E' & Hok' & Hh' & El & Em' & Ew' & Er'); [auto with bgt|].
      rewrite Hc1, El1, Hzd in E', Er'.
      set (k2 := Z.min (zlen frag - k1) (zlen sec - 3)) in *. exists s'. split.
      { rewrite E'. do 3 f_equal; [lia|].
        destruct (_ <=? zlen frag - k1) eqn:?, (_ <=? zlen frag) eqn:?; (lia || done). }
      split; [apply collecting_intro; [done|congruence|lia|]|congruence].
      rewrite Er', Er1. replace (n + k) with (3 + k2) by lia. apply ztake_extend; try lia.
      assert (ztake (k1 + k2) frag = ztake (k1 + k2) (zdrop n sec)) as Hag2.
      { replace (k1 + k2) with k by lia. done. }
      apply (f_equal (zdrop k1)) in Hag2.
      replace 3 with (n + k1) by lia. rewrite <- zdrop_zdrop by lia.
      revert Hag2. unfold ztake, zdrop. rewrite !skipn_firstn_comm.
      by replace (Z.to_nat (k1 + k2) - Z.to_nat k1)%nat with (Z.to_nat k2) by lia.
Qed.
Lemma skip_pad_replicate p frag :
  frag = [] \/ frag.[0] <> SECTION_PAD ->
  skip_pad (replicate p SECTION_PAD ++ frag) = (Z.of_nat p, frag).
Proof using.
  intros Hf. induction p as [|p IH]; simpl.
  - destruct frag as [|b frag]; [done|]. simpl.
    destruct (b =? SECTION_PAD) eqn:E; [|done]. destruct Hf as [?|Hf]; [done|].
    exfalso. apply Hf. change ((b :: frag).[0]) with b. lia.
  - rewrite IH. f_equal. lia.
Qed.

Lemma add_collecting n s p frag :
  collecting n s -> n < zlen sec -> bytes frag -> agrees n frag -> (p = 0%nat \/ n = 0) ->
  let k := Z.min (zlen frag) (zlen sec - n) in
  exists s', section_buf_add s (replicate p SECTION_PAD ++ frag) =
      Some (s', Z.of_nat p + k, if zlen sec - n <=? zlen frag then 1 else 0) /\
    collecting (n + k) s' /\ sb_wait_pdu s' = sb_wait_pdu s.
Proof.
  intros Hc Hn Hb Hag Hp k. pose proof (zlen_nonneg frag). pose proof sec_len.
  pose proof (collecting_count n s Hc) as Hcount.
  assert (Hnc : ~ complete s) by (rewrite (collecting_complete n s Hc); lia).
  unfold section_buf_add. rewrite <- complete_dec in Hnc.
  destruct (sb_header s && _); [done|]. clear Hnc. destruct (sb_count s =? 0) eqn:E0.
  - assert (n = 0) as -> by lia. rewrite skip_pad_replicate; cycle 1.
    { destruct frag as [|b frag]; [by left|right]. rewrite zlen_cons in *. pose proof (zlen_nonneg frag).
      pose proof (f_equal (fun l => l.[0]) Hag) as E. simpl in E. rewrite zdrop_0 in E.
      rewrite !zat_ztake in E by (rewrite zlen_cons; lia). congruence. }
    simpl andb. destruct (zlen frag =? 0) eqn:Ez.
    + exists s. replace k with 0 by lia. rewrite (proj2 (Z.leb_gt _ _)), !Z.add_0_r by lia. done.
    + by apply add_frag_collecting.
  - assert (p = 0%nat) as -> by lia. simpl.
    destruct (add_frag_collecting n s frag 0 Hc Hn Hb Hag) as (s' & E & ?). exists s'. by rewrite E.
Qed.

(** Whether a fragment of the stream is longer than the padding before the section. *)
Lemma split_stream f fs p k : f ++ fs = replicate p SECTION_PAD ++ k ->
  (exists q, (q <= p)%nat /\ f = replicate q SECTION_PAD /\ fs = replicate (p - q) SECTION_PAD ++ k) \/
  (exists f', f = replicate p SECTION_PAD ++ f' /\ f' ++ fs = k).
Proof using.
  intros E. destruct (decide (length f <= p)%nat) as [Hl|Hl].
  - left. exists (length f). split; [done|].
    replace p with (length f + (p - length f))%nat in E at 1 by lia.
    rewrite replicate_add, <- app_assoc in E.
    apply app_inj_1 in E as [E1 E2]; [done|by rewrite length_replicate].
  - right. apply (f_equal (fun l => (take p l, drop p l))) in E. injection E as E1 E2.
    rewrite take_app_le, (take_app_length' _ _ p) in E1 by (rewrite ?length_replicate; lia).
    rewrite drop_app_le, (drop_app_length' _ _ p) in E2 by (rewrite ?length_replicate; lia).
    exists (drop p f). split; [by rewrite <- E1, take_drop|done].
Qed.

Lemma agrees_stream n f fs extra : 0 <= n <= zlen sec ->
  f ++ fs = zdrop n sec ++ extra -> agrees n f.
Proof.
  intros Hn E. unfold agrees. pose proof (zlen_nonneg f). set (k := Z.min _ _).
  assert (Hz : zlen (zdrop n sec) = zlen sec - n) by (apply zlen_zdrop; lia).
  rewrite <- (ztake_app_le k f fs), E by lia. apply ztake_app_le. lia.
Qed.

(** The invariant of a feed: what is left of the stream is what is left of the section. *)
Lemma feed_collecting extra frags n s p :
  collecting n s -> n < zlen sec -> Forall bytes frags -> (p = 0%nat \/ n = 0) ->
  concat frags = replicate p SECTION_PAD ++ zdrop n sec ++ extra ->
  exists s', section_buf_feed s frags = Some (s', Z.of_nat p + (zlen sec - n), 1) /\
    collecting (zlen sec) s' /\ sb_wait_pdu s' = sb_wait_pdu s.
Proof.
  revert n s p. induction frags as [|f fs IH]; intros n s p Hc Hn Hb Hp E.
  - assert (zlen (replicate p SECTION_PAD ++ zdrop n sec ++ extra) = 0) as Hz by (by rewrite <- E).
    rewrite !zlen_app, zlen_zdrop in Hz by (destruct Hc as (_ & _ & ? & _); lia). lens. lia.
  - inversion Hb as [|? ? Hbf Hbfs]; subst. simpl in E. simpl section_buf_feed.
    pose proof Hc as (_ & _ & Hn0 & _).
    apply split_stream in E as [(q & Hq & -> & E)|(f' & -> & E)].
    + destruct (add_collecting n s q [] Hc Hn) as (s1 & E1 & Hc1 & Hw1);
        [by apply Forall_nil|by unfold agrees; rewrite zlen_nil, Z.min_l by lia|destruct Hp; [left; lia|by right]|].
      rewrite app_nil_r, zlen_nil in E1. rewrite E1. simpl.
      rewrite (proj2 (Z.leb_gt _ _)) by lia. simpl.
      rewrite zlen_nil, Z.min_l, Z.add_0_r in * by lia.
      destruct (IH n s1 (p - q)%nat Hc1 Hn Hbfs) as (s' & E' & Hc' & Hw'); [|done|].
      { destruct Hp; [left; lia|by right]. }
      rewrite E'. exists s'. simpl. split; [do 3 f_equal; lia|]. split; [done|congruence].
    + apply Forall_app in Hbf as [_ Hbf'].
      pose proof (agrees_stream n f' (concat fs) extra Hn0 E) as Hag.
      destruct (add_collecting n s p f' Hc Hn Hbf' Hag Hp) as (s1 & E1 & Hc1 & Hw1).
      pose proof (zlen_nonneg f'). rewrite E1. simpl.
      destruct (zlen sec - n <=? zlen f') eqn:Edone.
      * simpl. rewrite Z.min_r in * by lia. exists s1. split; [done|].
        split; [|done]. by replace (zlen sec) with (n + (zlen sec - n)) by lia.
      * rewrite Z.min_l in * by lia. simpl.
        destruct (IH (n + zlen f') s1 0%nat Hc1) as (s' & E' & Hc' & Hw'); [lia|done|by left| |].
        { simpl. apply (f_equal (zdrop (zlen f'))) in E. rewrite zdrop_app in E by done.
          rewrite zdrop_app_le in E by (rewrite zlen_zdrop; lia).
          by rewrite zdrop_zdrop in E by lia. }
        rewrite E'. exists s'. simpl. split; [do 3 f_equal; lia|]. split; [done|congruence].
Qed.
End reassembly.

(** ** Properties *)

Lemma sb_ok_wait s b : sb_ok s -> sb_ok (set_wait_pdu b s).
Proof. by destruct s. Qed.

(** C6: [section_buf_add] never writes outside the data area, whatever bytes arrive:
    it preserves the buffer's invariant, uses at most the bytes it is given, and
    reports 1 exactly when the announced length has been received; unless it reports
    1 it has consumed the whole fragment. *)
Theorem section_buf_add_safe s frag :
  sb_ok s -> bytes frag ->
  exists s' used status, section_buf_add s frag = Some (s', used, status) /\
    sb_ok s' /\ sb_max s' = sb_max s /\ 0 <= used <= zlen frag /\
    (status = 1 <-> complete s') /\ (status = 0 \/ status = 1 \/ status = - ERANGE) /\
    (status <> 1 -> used = zlen frag).
Proof.
  intros Hok Hb. destruct (add_run s frag Hok Hb) as (s' & u & st & E & Hok' & Hm & _ & Hu & Hst).
  exists s', u, st. split; [done|]. split; [done|]. split; [done|]. split; [done|].
  unfold ERANGE in *. destruct Hst as [(-> & -> & ?)|[(-> & ?)|(-> & -> & ?)]];
    split_and!; try (done || lia || tauto); intros; tauto || lia.
Qed.

(** A buffer for sections of at most 16 bytes. *)
Definition empty_buf : section_buf :=
  (section_buf_init (SectionBuf 0 0 0 false false (replicate 16 0)) 16).1.
Lemma empty_buf_ok : sb_ok empty_buf.
Proof.
  apply (section_buf_init_ok _ 16); [lia|done|]. repeat constructor; unfold byte; lia.
Qed.

(** A section announcing 4098 bytes. *)
Lemma section_buf_add_safe_witness :
  exists s' used status, section_buf_add empty_buf [0xff; 0x42; 0xff; 0xff; 0x01] = Some (s', used, status) /\
    sb_ok s' /\ 0 <= used <= 5.
Proof.
  destruct (section_buf_add_safe empty_buf [0xff; 0x42; 0xff; 0xff; 0x01] empty_buf_ok)
    as (s' & u & st & E & H1 & _ & H2 & _);
    [repeat constructor; unfold byte; lia|]. exists s', u, st. exact (conj E (conj H1 H2)).
Defined.

(** C7: Reassembly does not depend on fragmentation: when the bytes of a section that fits
    the buffer arrive, behind padding and followed by anything, in whatever fragments,
    a client that adds them one after the other is told that the section is complete
    exactly after its last byte, and the buffer holds exactly the section. *)
Theorem section_buf_reassembles sec extra p frags s :
  bytes sec -> zlen sec = hdr_length sec -> zlen sec <= sb_max s -> sec.[0] <> SECTION_PAD ->
  sb_ok s -> received s = [] -> Forall bytes frags ->
  concat frags = replicate p SECTION_PAD ++ sec ++ extra ->
  exists s', section_buf_feed s frags = Some (s', Z.of_nat p + zlen sec, 1) /\
    received s' = sec /\ complete s'.
Proof.
  intros Hb Hl Hm Hp Hok Hr Hf E.
  assert (Hc : collecting sec (sb_max s) 0 s).
  { apply collecting_intro; [done|done|pose proof (zlen_nonneg sec); lia|by rewrite Hr]. }
  pose proof (sec_len sec Hb Hl).
  destruct (feed_collecting sec (sb_max s) Hb Hl Hm Hp extra frags 0 s p Hc)
    as (s' & E' & Hc' & _); [lia|done|by right|done|].
  exists s'. rewrite E', Z.sub_0_r. split; [done|]. split.
  - destruct Hc' as (_ & _ & _ & ->). apply ztake_all. lia.
  - by apply (collecting_complete sec (sb_max s) Hb Hl Hm _ _ Hc').
Qed.

Lemma section_buf_reassembles_witness :
  exists s', section_buf_feed empty_buf [[0xff]; [0xff; 0x70]; [0x70]; []; [0x02; 0xaa]; [0xbb; 0x00]] =
    Some (s', 7, 1) /\ received s' = [0x70; 0x70; 0x02; 0xaa; 0xbb].
Proof.
  destruct (section_buf_reassembles [0x70; 0x70; 0x02; 0xaa; 0xbb] [0x00] 2
      [[0xff]; [0xff; 0x70]; [0x70]; []; [0x02; 0xaa]; [0xbb; 0x00]] empty_buf)
    as (s' & E & H & _);
    [repeat constructor; unfold byte; lia|reflexivity|vm_compute; discriminate|vm_compute; discriminate
    |exact empty_buf_ok|reflexivity|repeat constructor; unfold byte; lia|reflexivity|].
  exists s'. exact (conj E H).
Defined.

(** The packets before the first start indicator are skipped. *)
Lemma feed_ts_waiting pre ps s :
  sb_ok s -> ~ complete s -> sb_wait_pdu s = true -> Forall (fun p => p.2 = false) pre ->
  section_buf_feed_ts s (pre ++ ps) =
    (fun '(s', used, st) => (s', zlen (concat (map fst pre)) + used, st)) <$> section_buf_feed_ts s ps.
Proof.
  intros Hok Hnc Hw Hpre. rewrite <- complete_dec in Hnc.
  induction Hpre as [|[f b] pre Hb Hpre IH]; simpl in *.
  - by destruct (section_buf_feed_ts s ps) as [[[? ?] ?]|].
  - subst b. unfold section_buf_add_transport_payload at 1.
    destruct (sb_header s && _); [done|]. rewrite Hw. simpl. rewrite IH. rewrite zlen_app.
    destruct (section_buf_feed_ts s ps) as [[[? ?] ?]|]; simpl; [|done].
    do 3 f_equal. lia.
Qed.

(** Behind the start, payloads are fragments. *)
Lemma feed_ts_started fs s s' u :
  sb_ok s -> Forall bytes fs -> sb_wait_pdu s = false ->
  section_buf_feed s fs = Some (s', u, 1) ->
  section_buf_feed_ts s (map (fun f => (f, false)) fs) = Some (s', u, 1).
Proof.
  revert s u. induction fs as [|f fs IH]; intros s u Hok Hb Hw; simpl; [done|].
  inversion Hb as [|? ? Hbf Hbfs]; subst. unfold section_buf_add_transport_payload.
  destruct (sb_header s && (sb_len s =? sb_count s)) eqn:Ec.
  - unfold section_buf_add. by rewrite Ec.
  - rewrite Hw. simpl. rewrite zdrop_0.
    destruct (add_run s f Hok Hbf) as (s1 & u1 & st & E & Hok1 & _ & Hw1 & _ & Hst).
    rewrite E. simpl. destruct Hst as [(-> & _)|[(-> & _)|(-> & _)]]; simpl; [|done|done].
    destruct (section_buf_feed s1 fs) as [[[s2 u2] st2]|] eqn:E2; [|done]. simpl. intros [= -> <- ->].
    by rewrite (IH s1 u2 Hok1 Hbfs ltac:(congruence) E2).
Qed.

(** Reassembly from transport packets: packets before the first start indicator are
    skipped; the pointer field of the packet with the start indicator skips the tail
    of the previous section; from there the section is collected, however it is
    divided over the packets, and reported complete with exactly its bytes. *)
Theorem section_buf_ts_reassembles sec extra pre junk f0 fs s :
  bytes sec -> zlen sec = hdr_length sec -> zlen sec <= sb_max s -> sec.[0] <> SECTION_PAD ->
  sb_ok s -> received s = [] -> sb_wait_pdu s = true ->
  Forall (fun p => p.2 = false) pre -> Forall bytes (f0 :: fs) ->
  concat (f0 :: fs) = sec ++ extra ->
  exists s', section_buf_feed_ts s (pre ++ (zlen junk :: junk ++ f0, true) :: map (fun f => (f, false)) fs) =
      Some (s', zlen (concat (map fst pre)) + (1 + zlen junk + zlen sec), 1) /\
    received s' = sec /\ complete s'.
Proof.
  intros Hb Hl Hm Hp Hok Hr Hw Hpre Hf E. pose proof (sec_len sec Hb Hl).
  pose proof (zlen_nonneg junk). pose proof (zlen_nonneg f0).
  set (s0 := set_wait_pdu false s). assert (Hok0 : sb_ok s0) by (by apply sb_ok_wait).
  assert (Hc : collecting sec (sb_max s) 0 s0) by (apply collecting_intro; (done || lia)).
  pose proof (collecting_count sec (sb_max s) 0 s0 Hc) as Hcount.
  assert (Hnc : ~ complete s0)
    by (rewrite (collecting_complete sec (sb_max s) Hb Hl Hm 0 s0 Hc); lia).
  destruct (feed_collecting sec (sb_max s) Hb Hl Hm Hp extra (f0 :: fs) 0 s0 0%nat Hc)
    as (s' & E' & Hc' & _); [lia|done|by left|done|].
  rewrite feed_ts_waiting by done. exists s'. split.
  - simpl section_buf_feed_ts. unfold section_buf_add_transport_payload.
    rewrite <- complete_dec in Hnc. change (sb_header s0) with (sb_header s) in Hnc.
    change (sb_len s0) with (sb_len s) in Hnc. change (sb_count s0) with (sb_count s) in Hnc.
    destruct (sb_header s && _); [done|]. rewrite Hw. simpl andb. cbv iota.
    rewrite (zget_in _ 0) by (rewrite zlen_cons; lens; lia). cbn [mbind option_bind].
    change ((zlen junk :: junk ++ f0).[0]) with (zlen junk). rewrite zlen_cons, zlen_app.
    rewrite (proj2 (Z.ltb_ge _ _)) by lia. fold s0.
    change (sb_count s0) with (sb_count s) in Hcount |- *. rewrite Hcount. simpl negb. cbv iota.
    replace (zdrop (1 + zlen junk) (zlen junk :: junk ++ f0)) with f0.
    2:{ symmetry. change (zlen junk :: junk ++ f0) with ([zlen junk] ++ (junk ++ f0)).
        rewrite (zdrop_app_plus _ _ _ (zlen junk)) by (rewrite ?zlen_cons, ?zlen_nil; lia).
        by apply zdrop_app. }
    inversion Hf as [|? ? Hbf Hbfs]; subst.
    destruct (add_run s0 f0 Hok0 Hbf) as (s1 & u1 & st & E1 & Hok1 & _ & Hw1 & _ & Hst).
    simpl section_buf_feed in E'. rewrite E1 in E' |- *. cbn [mbind option_bind] in E' |- *.
    destruct Hst as [(-> & _)|[(-> & _)|(-> & _)]]; simpl in E' |- *; [|injection E' as -> ->|done].
    + destruct (section_buf_feed s1 fs) as [[[s2 u2] st2]|] eqn:E2; [|done]. simpl in E'.
      injection E' as -> E3 ->.
      rewrite (feed_ts_started fs s1 s' u2 Hok1 Hbfs) by (done || congruence). simpl.
      do 3 f_equal. lia.
    + simpl. do 3 f_equal. lia.
  - split; [destruct Hc' as (_ & _ & _ & ->); apply ztake_all; lia|].
    by apply (collecting_complete sec (sb_max s) Hb Hl Hm _ _ Hc').
Qed.

(** One packet to skip, two stale bytes behind the pointer field, then two payloads. *)
Lemma section_buf_ts_reassembles_witness :
  exists s', section_buf_feed_ts empty_buf
      [([0x01; 0x02], false); ([0x02; 0xee; 0xee; 0x70], true); ([0x70; 0x02; 0xaa; 0xbb; 0xff], false)] =
    Some (s', 10, 1) /\ received s' = [0x70; 0x70; 0x02; 0xaa; 0xbb].
Proof.
  destruct (section_buf_ts_reassembles [0x70; 0x70; 0x02; 0xaa; 0xbb] [0xff] [([0x01; 0x02], false)]
      [0xee; 0xee] [0x70] [[0x70; 0x02; 0xaa; 0xbb; 0xff]] empty_buf)
    as (s' & E & H & _);
    [repeat constructor; unfold byte; lia|reflexivity|vm_compute; discriminate|vm_compute; discriminate
    |exact empty_buf_ok|reflexivity|reflexivity|by repeat constructor
    |repeat constructor; unfold byte; lia|reflexivity|].
  exists s'. exact (conj E H).
Defined.

Lemma accumulate_wait_safe s payload used :
  sb_ok s -> bytes payload -> 0 <= used <= zlen payload ->
  exists s' u st,
    (r ← section_buf_add s (zdrop used payload);
     let '(s, tmp, section_status) := r in
     let s := if section_status <? 0 then set_wait_pdu true s else s in
     Some (s, used + tmp, section_status)) = Some (s', u, st) /\
    sb_ok s' /\ 0 <= u <= zlen payload /\ (st = 0 \/ st = 1 \/ st = - ERANGE).
Proof.
  intros Hok Hb Hu.
  destruct (add_run s (zdrop used payload) Hok ltac:(auto with bgt)) as (s1 & u1 & st & E & Hok1 & _ & _ & Hu1 & Hst).
  rewrite zlen_zdrop in Hu1 by lia. rewrite E. cbn [mbind option_bind].
  eexists _, _, st. split; [done|]. split.
  - destruct (st <? 0); [by apply sb_ok_wait|done].
  - split; [lia|]. destruct Hst as [(-> & _)|[(-> & _)|(-> & _)]]; auto.
Qed.

(** [section_buf_add_transport_payload] leaves the payload only when it is empty and
    carries the start indicator; in every other case it stays inside the payload and
    the buffer, preserves the invariant and reports 0, 1, -ERANGE or -EINVAL. *)
Theorem section_buf_add_transport_payload_safe s payload pdu_start :
  sb_ok s -> bytes payload ->
  match section_buf_add_transport_payload s payload pdu_start with
  | None => payload = [] /\ pdu_start = true /\ ~ complete s
  | Some (s', used, status) =>
      sb_ok s' /\ 0 <= used <= zlen payload /\
      (status = 0 \/ status = 1 \/ status = - ERANGE \/ status = - EINVAL)
  end.
Proof.
  intros Hok Hb. unfold section_buf_add_transport_payload. pose proof (zlen_nonneg payload).
  destruct (sb_header s && _) eqn:Ec; [split_and!; (done || lia || auto)|].
  destruct (sb_wait_pdu s && negb pdu_start); [split_and!; (done || lia || auto)|].
  destruct pdu_start.
  - destruct payload as [|o rest] eqn:Ep.
    { split_and!; [done..|]. by rewrite <- complete_dec, Ec. }
    rewrite (zget_in _ 0) by (rewrite zlen_cons in *; lens; lia). cbn [mbind option_bind].
    set (offset := (o :: rest).[0]). assert (0 <= offset < 256) by (by apply zat_range).
    rewrite <- Ep in *. destruct (zlen payload <? offset + 1) eqn:Eo.
    { split_and!; [by apply sb_ok_wait|lia|lia|auto]. }
    set (s0 := set_wait_pdu false s). assert (Hok0 : sb_ok s0) by (by apply sb_ok_wait).
    destruct (sb_count s0 =? 0); simpl negb; cbv iota.
    + destruct (accumulate_wait_safe s0 payload (1 + offset) Hok0 Hb ltac:(lia))
        as (s' & u & st & E & ? & ? & ?). cbn [mbind option_bind] in E. rewrite E.
      split_and!; (done || lia || tauto).
    + destruct (add_run s0 (ztake offset (zdrop 1 payload)) Hok0 ltac:(auto with bgt))
        as (s1 & u1 & st & E & Hok1 & _ & _ & Hu1 & Hst). rewrite E. cbn [mbind option_bind].
      rewrite zlen_ztake in Hu1 by (rewrite zlen_zdrop; lia).
      destruct (_ || _).
      * split_and!; [by apply sb_ok_wait|lia|lia|auto].
      * split_and!; [done|lia|lia|]. destruct Hst as [(-> & _)|[(-> & _)|(-> & _)]]; auto.
  - destruct (accumulate_wait_safe s payload 0 Hok Hb ltac:(lia))
      as (s' & u & st & E & ? & ? & ?). cbv beta zeta in E |- *. rewrite E.
    split_and!; (done || lia || tauto).
Qed.

Lemma section_buf_add_transport_payload_safe_witness :
  exists s' used status, section_buf_add_transport_payload empty_buf [0x09; 0x01] true = Some (s', used, status) /\
    sb_ok s' /\ 0 <= used <= 2.
Proof.
  pose proof (section_buf_add_transport_payload_safe empty_buf [0x09; 0x01] true empty_buf_ok
    ltac:(repeat constructor; unfold byte; lia)) as H.
  destruct (section_buf_add_transport_payload empty_buf [0x09; 0x01] true) as [[[s' u] st]|] eqn:E.
  - exists s', u, st. exact (conj eq_refl (conj (proj1 H) (proj1 (proj2 H)))).
  - exfalso. destruct H as [H _]. discriminate H.
Defined.
