(* ===== verification/TransportPacket.v ===== *)
(** * TransportPacket: transport stream packets (libucsi/transport_packet.c)

    The 188-byte packet is the memory object; [pos], [adapend] and the payload pointer
    are offsets into it.  [transport_packet_values_extract] is a sequence of blocks,
    one per optional field, each with the rest of the function as continuation; a
    [return -1] is a value, with the output structure as it is at that point. *)

From S2P Require Import Prelude Mem Descriptor EntryLoop.

Definition TRANSPORT_PACKET_LENGTH : Z := 188.
Definition TRANSPORT_PACKET_SYNC : Z := 0x47.
Definition TRANSPORT_MAX_PIDS : Z := 0x2000.
Definition TRANSPORT_NULL_PID : Z := 0x1fff.

(** [enum transport_adaptation_flags] *)
Definition transport_adaptation_flag_pcr : Z := 0x10.
Definition transport_adaptation_flag_opcr : Z := 0x08.
Definition transport_adaptation_flag_splicing_point : Z := 0x04.
Definition transport_adaptation_flag_private_data : Z := 0x02.
Definition transport_adaptation_flag_extension : Z := 0x01.
(** [enum transport_adaptation_extension_flags] *)
Definition transport_adaptation_extension_flag_ltw : Z := 0x80.
Definition transport_adaptation_extension_flag_piecewise_rate : Z := 0x40.
Definition transport_adaptation_extension_flag_seamless_splice : Z := 0x20.
(** [enum transport_value] *)
Definition transport_value_pcr : Z := 0x0001.
Definition transport_value_opcr : Z := 0x0002.
Definition transport_value_splice_countdown : Z := 0x0004.
Definition transport_value_private_data : Z := 0x0008.
Definition transport_value_ltw : Z := 0x0100.
Definition transport_value_piecewise_rate : Z := 0x0200.
Definition transport_value_seamless_splice : Z := 0x0400.

(** The fields of [struct transport_packet]. *)
Definition sizeof_transport_packet : Z := 4.
Definition tp_sync_byte : M Z := rd8 0.
Definition tp_payload_unit_start_indicator : M Z := x ← rd8 1; mret (Z.land (Z.shiftr x 6) 1).
Definition tp_pid_hi : M Z := x ← rd8 1; mret (Z.land x 0x1f).
Definition tp_pid_lo : M Z := rd8 2.
Definition tp_adaptation_field_control : M Z := x ← rd8 3; mret (Z.land (Z.shiftr x 4) 3).
Definition tp_continuity_counter : M Z := x ← rd8 3; mret (Z.land x 0x0f).

Definition transport_packet_pid : M Z :=
  hi ← tp_pid_hi; lo ← tp_pid_lo; mret (Z.lor (Z.shiftl hi 8) lo).

Definition transport_packet_init : M unit :=
  sync ← tp_sync_byte;
  fail_if (negb (sync =? TRANSPORT_PACKET_SYNC));;
  pid ← transport_packet_pid;
  fail_if (TRANSPORT_MAX_PIDS <=? pid).

(** [payload] and [private_data] are offsets; [NULL] is [None]. *)
Record transport_values := TransportValues {
  tv_flags : Z;
  tv_payload : option Z; tv_payload_length : Z;
  tv_pcr : Z; tv_opcr : Z;
  tv_splice_countdown : Z;
  tv_private_data_length : Z; tv_private_data : option Z;
  tv_ltw_offset : Z; tv_piecewise_rate : Z; tv_splice_type : Z; tv_dts_next_au : Z }.

Definition set_pcr (v : Z) (o : transport_values) : transport_values :=
  TransportValues (tv_flags o) (tv_payload o) (tv_payload_length o) v (tv_opcr o)
    (tv_splice_countdown o) (tv_private_data_length o) (tv_private_data o) (tv_ltw_offset o)
    (tv_piecewise_rate o) (tv_splice_type o) (tv_dts_next_au o).
Definition set_opcr (v : Z) (o : transport_values) : transport_values :=
  TransportValues (tv_flags o) (tv_payload o) (tv_payload_length o) (tv_pcr o) v
    (tv_splice_countdown o) (tv_private_data_length o) (tv_private_data o) (tv_ltw_offset o)
    (tv_piecewise_rate o) (tv_splice_type o) (tv_dts_next_au o).
Definition set_splice_countdown (v : Z) (o : transport_values) : transport_values :=
  TransportValues (tv_flags o) (tv_payload o) (tv_payload_length o) (tv_pcr o) (tv_opcr o)
    v (tv_private_data_length o) (tv_private_data o) (tv_ltw_offset o)
    (tv_piecewise_rate o) (tv_splice_type o) (tv_dts_next_au o).
Definition set_private_data (n p : Z) (o : transport_values) : transport_values :=
  TransportValues (tv_flags o) (tv_payload o) (tv_payload_length o) (tv_pcr o) (tv_opcr o)
    (tv_splice_countdown o) n (Some p) (tv_ltw_offset o)
    (tv_piecewise_rate o) (tv_splice_type o) (tv_dts_next_au o).
Definition set_ltw_offset (v : Z) (o : transport_values) : transport_values :=
  TransportValues (tv_flags o) (tv_payload o) (tv_payload_length o) (tv_pcr o) (tv_opcr o)
    (tv_splice_countdown o) (tv_private_data_length o) (tv_private_data o) v
    (tv_piecewise_rate o) (tv_splice_type o) (tv_dts_next_au o).
Definition set_piecewise_rate (v : Z) (o : transport_values) : transport_values :=
  TransportValues (tv_flags o) (tv_payload o) (tv_payload_length o) (tv_pcr o) (tv_opcr o)
    (tv_splice_countdown o) (tv_private_data_length o) (tv_private_data o) (tv_ltw_offset o)
    v (tv_splice_type o) (tv_dts_next_au o).
Definition set_splice (t d : Z) (o : transport_values) : transport_values :=
  TransportValues (tv_flags o) (tv_payload o) (tv_payload_length o) (tv_pcr o) (tv_opcr o)
    (tv_splice_countdown o) (tv_private_data_length o) (tv_private_data o) (tv_ltw_offset o)
    (tv_piecewise_rate o) t d.
Definition set_payload (flags : Z) (p : option Z) (n : Z) (o : transport_values) : transport_values :=
  TransportValues flags p n (tv_pcr o) (tv_opcr o)
    (tv_splice_countdown o) (tv_private_data_length o) (tv_private_data o) (tv_ltw_offset o)
    (tv_piecewise_rate o) (tv_splice_type o) (tv_dts_next_au o).

Definition has (flags bit : Z) : bool := negb (Z.land flags bit =? 0).

(** What a block passes on: the position, the output and the mask extracted so far. *)
Definition extract_k : Type := Z -> transport_values -> Z -> M (Z * transport_values).

(** The 33-bit base and the 9-bit extension of a clock reference at [pos]. *)
Definition read_pcr (pos : Z) : M Z :=
  p0 ← rd8 pos; p1 ← rd8 (pos + 1); p2 ← rd8 (pos + 2);
  p3 ← rd8 (pos + 3); p4 ← rd8 (pos + 4);
  let base := Z.lor (Z.lor (Z.lor (Z.lor (Z.shiftl p0 25) (Z.shiftl p1 17)) (Z.shiftl p2 9))
                (Z.shiftl p3 1)) (Z.shiftr p4 7) in
  p5 ← rd8 (pos + 5);
  let ext := Z.lor (Z.shiftl (Z.land p4 1) 8) p5 in
  mret (u64 (base * 300 + ext)).

Definition extract_pcr (adapflags extract adapend pos : Z) (out : transport_values) (extracted : Z)
    (k : extract_k) : M (Z * transport_values) :=
  if has adapflags transport_adaptation_flag_pcr then
    if adapend <? pos + 6 then mret (-1, out) else
    if has extract transport_value_pcr then
      v ← read_pcr pos;
      k (pos + 6) (set_pcr v out) (Z.lor extracted transport_value_pcr)
    else k (pos + 6) out extracted
  else k pos out extracted.

Definition extract_opcr (adapflags extract adapend pos : Z) (out : transport_values) (extracted : Z)
    (k : extract_k) : M (Z * transport_values) :=
  if has adapflags transport_adaptation_flag_opcr then
    if adapend <? pos + 6 then mret (-1, out) else
    if has extract transport_value_opcr then
      v ← read_pcr pos;
      k (pos + 6) (set_opcr v out) (Z.lor extracted transport_value_opcr)
    else k (pos + 6) out extracted
  else k pos out extracted.

Definition extract_splice_countdown (adapflags extract adapend pos : Z) (out : transport_values)
    (extracted : Z) (k : extract_k) : M (Z * transport_values) :=
  if has adapflags transport_adaptation_flag_splicing_point then
    if adapend <? pos + 1 then mret (-1, out) else
    if has extract transport_value_splice_countdown then
      v ← rd8 pos;
      k (pos + 1) (set_splice_countdown v out) (Z.lor extracted transport_value_splice_countdown)
    else k (pos + 1) out extracted
  else k pos out extracted.

Definition extract_private_data (adapflags extract adapend pos : Z) (out : transport_values)
    (extracted : Z) (k : extract_k) : M (Z * transport_values) :=
  if has adapflags transport_adaptation_flag_private_data then
    if adapend <? pos + 1 then mret (-1, out) else
    n ← rd8 pos;
    if adapend <? pos + 1 + n then mret (-1, out) else
    if has extract transport_value_private_data then
      k (pos + (1 + n)) (set_private_data n (pos + 1) out) (Z.lor extracted transport_value_private_data)
    else k (pos + (1 + n)) out extracted
  else k pos out extracted.

Definition extract_ltw (adapextflags extract adapend pos : Z) (out : transport_values)
    (extracted : Z) (k : extract_k) : M (Z * transport_values) :=
  if has adapextflags transport_adaptation_extension_flag_ltw then
    if adapend <? pos + 2 then mret (-1, out) else
    if has extract transport_value_ltw then
      p0 ← rd8 pos;
      if has p0 0x80 then
        p1 ← rd8 (pos + 1);
        k (pos + 2) (set_ltw_offset (u16 (Z.lor (Z.shiftl (Z.land p0 0x7f) 8) p1)) out)
          (Z.lor extracted transport_value_ltw)
      else k (pos + 2) out extracted
    else k (pos + 2) out extracted
  else k pos out extracted.

Definition extract_piecewise_rate (adapextflags extract adapend pos : Z) (out : transport_values)
    (extracted : Z) (k : extract_k) : M (Z * transport_values) :=
  if has adapextflags transport_adaptation_extension_flag_piecewise_rate then
    if adapend <? pos + 3 then mret (-1, out) else
    if has extract transport_value_piecewise_rate then
      p0 ← rd8 pos; p1 ← rd8 (pos + 1); p2 ← rd8 (pos + 2);
      k (pos + 3)
        (set_piecewise_rate (Z.lor (Z.lor (Z.shiftl (Z.land p0 0x3f) 16) (Z.shiftl p1 8)) p2) out)
        (Z.lor extracted transport_value_piecewise_rate)
    else k (pos + 3) out extracted
  else k pos out extracted.

(** Guarded by the piecewise rate bit of [extract], as the source has it; the shifts are
    those of a 32-bit [int], which wraps and is then widened. *)
Definition extract_seamless_splice (adapextflags extract adapend pos : Z) (out : transport_values)
    (extracted : Z) (k : extract_k) : M (Z * transport_values) :=
  if has adapextflags transport_adaptation_extension_flag_seamless_splice then
    if adapend <? pos + 5 then mret (-1, out) else
    if has extract transport_value_piecewise_rate then
      p0 ← rd8 pos; p1 ← rd8 (pos + 1); p2 ← rd8 (pos + 2); p3 ← rd8 (pos + 3); p4 ← rd8 (pos + 4);
      let dts := Z.lor (Z.lor (Z.lor (Z.lor (Z.shiftl (Z.land p0 0x0e) 29) (Z.shiftl p1 22))
                   (Z.shiftl (Z.land p2 0xfe) 14)) (Z.shiftl p3 7)) (Z.shiftr (Z.land p4 0xfe) 1) in
      k (pos + 5) (set_splice (Z.shiftr p0 4) (u64 (s32 dts)) out)
        (Z.lor extracted transport_value_seamless_splice)
    else k (pos + 5) out extracted
  else k pos out extracted.

(** The label [extract_payload]. *)
Definition extract_payload (afc adaplength adapflags : Z) (out : transport_values) (extracted : Z) :
    M (Z * transport_values) :=
  if has afc 1 then
    let off := sizeof_transport_packet in
    let off := if has afc 2 then off + 1 else off in
    let off := off + adaplength in
    mret (extracted, set_payload adapflags (Some off) (u16 (TRANSPORT_PACKET_LENGTH - off)) out)
  else mret (extracted, set_payload adapflags None 0 out).

Definition transport_packet_values_extract (out : transport_values) (extract : Z) :
    M (Z * transport_values) :=
  let end_ := TRANSPORT_PACKET_LENGTH in
  let pos := sizeof_transport_packet in
  afc ← tp_adaptation_field_control;
  if negb (has afc 2) then extract_payload afc 0 0 out 0 else
  adaplength ← rd8 pos;
  let pos := pos + 1 in
  if adaplength =? 0 then extract_payload afc adaplength 0 out 0 else
  let adapend := pos + adaplength in
  if end_ <? adapend then mret (-1, out) else
  adapflags ← rd8 pos;
  let pos := pos + 1 in
  if Z.land extract 0xffff =? 0 then extract_payload afc adaplength adapflags out 0 else
  extract_pcr adapflags extract adapend pos out 0 (fun pos out extracted =>
  extract_opcr adapflags extract adapend pos out extracted (fun pos out extracted =>
  extract_splice_countdown adapflags extract adapend pos out extracted (fun pos out extracted =>
  extract_private_data adapflags extract adapend pos out extracted (fun pos out extracted =>
  if negb (has adapflags transport_adaptation_flag_extension)
  then extract_payload afc adaplength adapflags out extracted else
  if adapend <=? pos then mret (-1, out) else
  adapextlength ← rd8 pos;
  let pos := pos + 1 in
  if adapend <? pos + adapextlength then mret (-1, out) else
  if (Z.land extract 0xff00 =? 0) || (adapextlength =? 0)
  then extract_payload afc adaplength adapflags out extracted else
  adapextflags ← rd8 pos;
  let pos := pos + 1 in
  extract_ltw adapextflags extract adapend pos out extracted (fun pos out extracted =>
  extract_piecewise_rate adapextflags extract adapend pos out extracted (fun pos out extracted =>
  extract_seamless_splice adapextflags extract adapend pos out extracted (fun pos out extracted =>
  extract_payload afc adaplength adapflags out extracted))))))).

(** ** Continuity *)

Definition CONTINUITY_VALID : Z := 0x80.
Definition CONTINUITY_DUPESEEN : Z := 0x40.

(** [transport_packet_continuity_check], on the header fields it reads: the returned
    value and the new [*cstate]. *)
Definition continuity_check (pid afc pktcontinuity : Z) (discontinuity_indicator : bool) (cstate : Z) : Z * Z :=
  let prevcontinuity := Z.land cstate 0x0f in
  if pid =? TRANSPORT_NULL_PID then (0, cstate) else
  if negb (has cstate CONTINUITY_VALID) then (0, Z.lor pktcontinuity CONTINUITY_VALID) else
  if discontinuity_indicator then (0, Z.lor pktcontinuity CONTINUITY_VALID) else
  let nextcontinuity := if has afc 1 then Z.land (prevcontinuity + 1) 0xf else prevcontinuity in
  if nextcontinuity =? pktcontinuity then (0, Z.lor pktcontinuity CONTINUITY_VALID) else
  if (prevcontinuity =? pktcontinuity) && negb (has cstate CONTINUITY_DUPESEEN)
  then (0, Z.lor pktcontinuity (Z.lor CONTINUITY_VALID CONTINUITY_DUPESEEN)) else
  (-1, cstate).

Definition transport_packet_continuity_check (discontinuity_indicator : bool) (cstate : Z) : M (Z * Z) :=
  pktcontinuity ← tp_continuity_counter;
  pid ← transport_packet_pid;
  afc ← tp_adaptation_field_control;
  mret (continuity_check pid afc pktcontinuity discontinuity_indicator cstate).

(** ** Bounds *)

(** The pointer into the private data stays inside the packet. *)
Definition private_ok (o : transport_values) : Prop :=
  match tv_private_data o with
  | None => True
  | Some p => 6 <= p /\ 0 <= tv_private_data_length o /\
              p + tv_private_data_length o <= TRANSPORT_PACKET_LENGTH
  end.

Definition payload_ok (afc : Z) (o : transport_values) : Prop :=
  if has afc 1 then
    exists off, tv_payload o = Some off /\ sizeof_transport_packet <= off /\
      0 <= tv_payload_length o /\ off + tv_payload_length o = TRANSPORT_PACKET_LENGTH
  else tv_payload o = None /\ tv_payload_length o = 0.

Lemma private_ok_set o :
  private_ok o ->
  (forall v, private_ok (set_pcr v o)) /\ (forall v, private_ok (set_opcr v o)) /\
  (forall v, private_ok (set_splice_countdown v o)) /\ (forall v, private_ok (set_ltw_offset v o)) /\
  (forall v, private_ok (set_piecewise_rate v o)) /\ (forall t d, private_ok (set_splice t d o)).
Proof. done. Qed.

Section bounds.
Context (m : mem) (Hm : bytes m) (Hl : zlen m = TRANSPORT_PACKET_LENGTH).
Context (adapend : Z) (Hend : adapend <= TRANSPORT_PACKET_LENGTH).
Context (Q : Z * transport_values -> mem -> Prop).
Context (Herr : forall o, private_ok o -> Q (-1, o) m).

(** A continuation that is right wherever the block may leave the position. *)
Definition k_ok (pos : Z) (k : extract_k) : Prop :=
  forall pos' out ex, pos <= pos' <= adapend -> private_ok out -> 0 <= ex ->
  wp (k pos' out ex) Q (fun _ => False) m.

Definition block_ok (block : Z -> transport_values -> Z -> extract_k -> M (Z * transport_values)) : Prop :=
  forall pos out ex k, 6 <= pos <= adapend -> private_ok out -> 0 <= ex -> k_ok pos k ->
  wp (block pos out ex k) Q (fun _ => False) m.

Ltac private :=
  match goal with
  | H : private_ok ?o |- private_ok ?o => exact H
  | H : private_ok ?o |- _ =>
      let H' := fresh in pose proof (private_ok_set o H) as H'; decompose [and] H'; auto
  end.

Ltac block :=
  unfold TRANSPORT_PACKET_LENGTH in *;
  repeat first
    [ progress (cbv beta zeta)
    | match goal with |- wp (if ?b then _ else _) _ _ _ => destruct b eqn:? end
    | match goal with H : private_ok ?o |- wp (mret (-1, ?o)) _ _ _ => exact (wp_ret _ _ _ _ (Herr o H)) end
    | lazymatch goal with
      | |- wp (mbind _ _) _ _ _ => apply wp_bind
      | |- wp (rd8 _) _ _ _ => apply wp_rd8; [lia|]
      | |- wp (mret (u64 _)) _ _ _ => apply wp_ret
      end
    | match goal with
      | H : k_ok _ ?k |- wp (?k _ _ _) _ _ _ =>
          apply H; [lia|private|first [lia | apply Z.lor_nonneg; split; [lia|vm_compute; discriminate]]]
      end ].

Lemma extract_pcr_ok flags extract : block_ok (extract_pcr flags extract adapend).
Proof. intros pos out ex k Hpos Ho Hex Hk. unfold extract_pcr, read_pcr. block. Qed.
Lemma extract_opcr_ok flags extract : block_ok (extract_opcr flags extract adapend).
Proof. intros pos out ex k Hpos Ho Hex Hk. unfold extract_opcr, read_pcr. block. Qed.
Lemma extract_splice_countdown_ok flags extract : block_ok (extract_splice_countdown flags extract adapend).
Proof. intros pos out ex k Hpos Ho Hex Hk. unfold extract_splice_countdown. block. Qed.
Lemma extract_private_data_ok flags extract : block_ok (extract_private_data flags extract adapend).
Proof.
  intros pos out ex k Hpos Ho Hex Hk. unfold extract_private_data.
  pose proof (zat_range m pos Hm). unfold k_ok in Hk. block.
  - apply Hk; [lia| |apply Z.lor_nonneg; split; [lia|by vm_compute]].
    unfold private_ok. simpl. unfold TRANSPORT_PACKET_LENGTH. lia.
  - apply Hk; [lia|done|done].
  - apply Hk; [lia|done|done].
Qed.
Lemma extract_ltw_ok flags extract : block_ok (extract_ltw flags extract adapend).
Proof. intros pos out ex k Hpos Ho Hex Hk. unfold extract_ltw. block. Qed.
Lemma extract_piecewise_rate_ok flags extract : block_ok (extract_piecewise_rate flags extract adapend).
Proof. intros pos out ex k Hpos Ho Hex Hk. unfold extract_piecewise_rate. block. Qed.
Lemma extract_seamless_splice_ok flags extract : block_ok (extract_seamless_splice flags extract adapend).
Proof. intros pos out ex k Hpos Ho Hex Hk. unfold extract_seamless_splice. block. Qed.
End bounds.

Lemma wp_extract_payload afc adaplength adapflags out ex m :
  0 <= adaplength -> sizeof_transport_packet + 1 + adaplength <= TRANSPORT_PACKET_LENGTH ->
  private_ok out -> 0 <= ex ->
  wp (extract_payload afc adaplength adapflags out ex)
    (fun '(r, o) m' => m' = m /\ private_ok o /\ (r = -1 \/ 0 <= r /\ payload_ok afc o))
    (fun _ => False) m.
Proof.
  unfold sizeof_transport_packet, TRANSPORT_PACKET_LENGTH. intros ? ? Ho Hex. unfold extract_payload.
  destruct (has afc 1) eqn:E1; apply wp_ret; (split; [done|split; [exact Ho|right; split; [done|]]]);
    unfold payload_ok; rewrite E1; [|done].
  simpl. unfold sizeof_transport_packet, TRANSPORT_PACKET_LENGTH.
  destruct (has afc 2); eexists; (split; [done|]); rewrite u16_small by lia; lia.
Qed.

Lemma adaptation_field_control_run m :
  3 < zlen m -> tp_adaptation_field_control m = Ret (Z.land (Z.shiftr (m.[3]) 4) 3) m.
Proof. intros. unfold tp_adaptation_field_control. by rewrite (bind_run _ _ m _ m (rd8_run 3 m ltac:(lia))). Qed.

(** C8: On every 188-byte packet, whatever its flags and lengths, and for every request,
    [transport_packet_values_extract] terminates without reading outside the packet and
    without changing it; unless it reports an error, the payload pointer and length
    delimit exactly the rest of the packet (or are empty when the packet has no
    payload), and the private data it points to always lies inside the packet. *)
Theorem transport_packet_values_extract_safe m out extract :
  bytes m -> zlen m = TRANSPORT_PACKET_LENGTH -> private_ok out ->
  exists r out', transport_packet_values_extract out extract m = Ret (r, out') m /\
    private_ok out' /\
    (r = -1 \/ 0 <= r /\ payload_ok (Z.land (Z.shiftr (m.[3]) 4) 3) out').
Proof.
  intros Hm Hl Ho. set (afc := Z.land _ _).
  set (Q := fun '(r, o) m' => m' = m /\ private_ok o /\ (r = -1 \/ 0 <= r /\ payload_ok afc o)).
  assert (Hwp : wp (transport_packet_values_extract out extract) Q (fun _ => False) m).
  { unfold transport_packet_values_extract, TRANSPORT_PACKET_LENGTH, sizeof_transport_packet in *.
    assert (Herr : forall o, private_ok o -> Q (-1, o) m) by (intros; unfold Q; auto).
    apply wp_bind. unfold wp. rewrite adaptation_field_control_run by lia. fold afc.
    cbv beta zeta. destruct (negb (has afc 2)); [by apply wp_extract_payload|].
    apply wp_bind, wp_rd8; [lia|]. pose proof (zat_range m 4 Hm).
    destruct (m.[4] =? 0) eqn:E0;
      [apply wp_extract_payload; unfold sizeof_transport_packet, TRANSPORT_PACKET_LENGTH; (done || lia)|].
    change (4 + 1) with 5. change (5 + 1) with 6.
    destruct (188 <? 5 + m.[4]) eqn:Eend; [by apply wp_ret, Herr|].
    apply wp_bind, wp_rd8; [lia|].
    destruct (Z.land extract 0xffff =? 0);
      [apply wp_extract_payload; unfold sizeof_transport_packet, TRANSPORT_PACKET_LENGTH; (done || lia)|].
    set (adapend := 5 + m.[4]). assert (Hend : adapend <= TRANSPORT_PACKET_LENGTH)
      by (unfold TRANSPORT_PACKET_LENGTH; lia).
    assert (Hpay : forall pos o ex flags, pos <= adapend -> private_ok o -> 0 <= ex ->
              wp (extract_payload afc (m.[4]) flags o ex) Q (fun _ => False) m).
    { intros. apply wp_extract_payload; unfold sizeof_transport_packet, TRANSPORT_PACKET_LENGTH; (done || lia). }
    apply (extract_pcr_ok m Hl adapend Hend Q Herr); [lia|done|done|]. intros p1 o1 x1 ? ? ?.
    apply (extract_opcr_ok m Hl adapend Hend Q Herr); [lia|done|done|]. intros p2 o2 x2 ? ? ?.
    apply (extract_splice_countdown_ok m Hl adapend Hend Q Herr); [lia|done|done|]. intros p3 o3 x3 ? ? ?.
    apply (extract_private_data_ok m Hm Hl adapend Hend Q Herr); [lia|done|done|]. intros p4 o4 x4 ? ? ?.
    destruct (negb _); [by apply (Hpay p4); [lia|..]|].
    destruct (adapend <=? p4) eqn:E4; [by apply wp_ret, Herr|].
    unfold TRANSPORT_PACKET_LENGTH in Hend.
    apply wp_bind, wp_rd8; [lia|]. pose proof (zat_range m p4 Hm).
    destruct (adapend <? p4 + 1 + m.[p4]) eqn:E5; [by apply wp_ret, Herr|].
    destruct (_ || _) eqn:E6; [by apply (Hpay p4); [lia|..]|].
    apply orb_false_iff in E6 as [_ ?]. apply wp_bind, wp_rd8; [lia|].
    apply (extract_ltw_ok m Hl adapend Hend Q Herr); [lia|done|done|]. intros p5 o5 x5 ? ? ?.
    apply (extract_piecewise_rate_ok m Hl adapend Hend Q Herr); [lia|done|done|]. intros p6 o6 x6 ? ? ?.
    apply (extract_seamless_splice_ok m Hl adapend Hend Q Herr); [lia|done|done|]. intros p7 o7 x7 ? ? ?.
    apply (Hpay p7); (done || lia). }
  destruct (wp_total _ _ _ _ Hwp) as [([r o] & m' & E & -> & H1 & H2)|(? & _ & [])].
  by exists r, o.
Qed.

Definition no_values : transport_values := TransportValues 0 None 0 0 0 0 0 None 0 0 0 0.

(** A packet whose adaptation field announces more private data than it holds. *)
Definition private_example : mem := [0x47; 0x01; 0x00; 0x30; 0x07; 0x02; 0xff] ++ replicate 181 0xaa.

Lemma transport_packet_values_extract_safe_witness :
  exists r out', transport_packet_values_extract no_values 0x070f private_example = Ret (r, out') private_example.
Proof.
  destruct (transport_packet_values_extract_safe private_example no_values 0x070f) as (r & o & E & _);
    [repeat constructor; unfold byte; lia|reflexivity|exact I|]. exists r, o. exact E.
Defined.

(** ** What is extracted *)

(** [l] is in memory at [pos]. *)
Definition at_pos (m : mem) (pos : Z) (l : list Z) : Prop :=
  0 <= pos /\ pos + zlen l <= zlen m /\ slice m pos (zlen l) = l.

Lemma at_pos_get m pos l i : at_pos m pos l -> 0 <= i < zlen l -> m.[pos + i] = l.[i].
Proof.
  intros (Hp & Hl & E) Hi. pose proof (f_equal (fun l => l.[i]) E) as Ei. simpl in Ei.
  by rewrite zat_slice in Ei by lia.
Qed.

Lemma at_pos_app m pos a b : at_pos m pos (a ++ b) <-> at_pos m pos a /\ at_pos m (pos + zlen a) b.
Proof.
  unfold at_pos. rewrite zlen_app. pose proof (zlen_nonneg a). pose proof (zlen_nonneg b). split.
  - intros (Hp & Hl & E). rewrite (slice_split m pos (zlen a + zlen b) (zlen a)) in E by lia.
    apply app_inj_1 in E as [E1 E2];
      [|pose proof (zlen_slice_le m pos (zlen a)); unfold zlen in *; lia].
    replace (zlen a + zlen b - zlen a) with (zlen b) in E2 by lia. split_and!; (done || lia).
  - intros ((Hp & Hl & E1) & (_ & Hl2 & E2)). split_and!; [done|lia|].
    rewrite (slice_split m pos (zlen a + zlen b) (zlen a)) by lia.
    replace (zlen a + zlen b - zlen a) with (zlen b) by lia. by rewrite E1, E2.
Qed.

Lemma at_pos_all m : at_pos m 0 m.
Proof. split_and!; [done|lia|]. unfold slice. rewrite zdrop_0. by apply ztake_all. Qed.

(** The optional parts of an adaptation field. *)
Definition enc {A} (f : A -> list Z) (v : option A) : list Z := match v with Some a => f a | None => [] end.

(** A program clock reference: 33-bit base, six reserved bits, 9-bit extension. *)
Definition encode_pcr (v : Z * Z) : list Z :=
  let '(base, ext) := v in
  [base / 2 ^ 25; base / 2 ^ 17 mod 256; base / 2 ^ 9 mod 256; base / 2 mod 256;
   base mod 2 * 128 + 0x7e + ext / 256; ext mod 256].
Definition encode_byte (v : Z) : list Z := [v].
Definition encode_private (d : list Z) : list Z := zlen d :: d.
Definition encode_ltw (v : Z) : list Z := [128 + v / 256; v mod 256].
Definition encode_piecewise (v : Z) : list Z := [0xc0 + v / 65536; v / 256 mod 256; v mod 256].

Definition pcr_ok (v : Z * Z) : Prop := 0 <= v.1 < 2 ^ 33 /\ 0 <= v.2 < 512.
Definition pcr_value (v : Z * Z) : Z := v.1 * 300 + v.2.

(** Runs the read at the head and replaces the byte by its encoding. *)
Lemma rd8_at m pos l p i : at_pos m pos l -> p = pos + i -> 0 <= i < zlen l -> rd8 p m = Ret (l.[i]) m.
Proof.
  intros Hat -> Hi. pose proof Hat as (Hp & Hl & _). rewrite rd8_run by lia.
  by rewrite (at_pos_get m pos l i Hat).
Qed.

Lemma lor_shift_join x y n k :
  0 <= n -> 0 <= k -> 0 <= y < 2 ^ n ->
  Z.lor (Z.shiftl x (n + k)) (Z.shiftl y k) = Z.shiftl (x * 2 ^ n + y) k.
Proof.
  intros. rewrite <- Z.shiftl_shiftl, <- Z.shiftl_lor by lia.
  by rewrite lor_shiftl_add by lia.
Qed.

Lemma clock_base base : 0 <= base < 2 ^ 33 ->
  Z.lor (Z.lor (Z.lor (Z.lor (Z.shiftl (base / 2 ^ 25) 25) (Z.shiftl (base / 2 ^ 17 mod 256) 17))
    (Z.shiftl (base / 2 ^ 9 mod 256) 9)) (Z.shiftl (base / 2 mod 256) 1)) (base mod 2) = base.
Proof.
  intros Hb. change (2 ^ 33) with 8589934592 in Hb. change (2 ^ 25) with 33554432.
  change (2 ^ 17) with 131072. change (2 ^ 9) with 512.
  rewrite (lor_shift_join _ _ 8 17) by (change (2 ^ 8) with 256; lia).
  rewrite (lor_shift_join _ _ 8 9) by (change (2 ^ 8) with 256; lia).
  rewrite (lor_shift_join _ _ 8 1) by (change (2 ^ 8) with 256; lia).
  rewrite lor_shiftl_add by (change (2 ^ 1) with 2; lia).
  change (2 ^ 8) with 256. change (2 ^ 1) with 2. lia.
Qed.

Lemma land_1 a : Z.land a 1 = a mod 2.
Proof. apply (land_ones_mod a 1). lia. Qed.

Lemma read_pcr_run m pos v : pcr_ok v -> at_pos m pos (encode_pcr v) -> read_pcr pos m = Ret (pcr_value v) m.
Proof.
  destruct v as [base ext]. intros [Hbase Hext] Hat. simpl in Hbase, Hext.
  unfold read_pcr, pcr_value. simpl fst; simpl snd.
  rewrite (bind_run _ _ m _ m (rd8_at m pos _ pos 0 Hat ltac:(lia) ltac:(by vm_compute))).
  do 4 erewrite (bind_run _ _ m _ m) by (eapply (rd8_at m pos _ _); [exact Hat|reflexivity|by vm_compute]).
  cbv zeta.
  erewrite (bind_run _ _ m _ m) by (eapply (rd8_at m pos _ _); [exact Hat|reflexivity|by vm_compute]).
  unfold mret, M_ret. f_equal.
  change ((encode_pcr (base, ext)).[0]) with (base / 2 ^ 25).
  change ((encode_pcr (base, ext)).[1]) with (base / 2 ^ 17 mod 256).
  change ((encode_pcr (base, ext)).[2]) with (base / 2 ^ 9 mod 256).
  change ((encode_pcr (base, ext)).[3]) with (base / 2 mod 256).
  change ((encode_pcr (base, ext)).[4]) with (base mod 2 * 128 + 0x7e + ext / 256).
  change ((encode_pcr (base, ext)).[5]) with (ext mod 256).
  replace (Z.shiftr _ 7) with (base mod 2)
    by (rewrite Z.shiftr_div_pow2 by lia; change (2 ^ 7) with 128; lia).
  rewrite clock_base, land_1 by done.
  rewrite lor_byte by lia. rewrite u64_small; [lia|].
  change (2 ^ 33) with 8589934592 in Hbase. change (2 ^ 64) with 18446744073709551616. lia.
Qed.

(** The blocks on a field that is there, or not. *)
Section blocks.
Context (m : mem) (flags adapend pos : Z) (out : transport_values) (ex : Z) (k : extract_k).
Let all : Z := 0x030f.

Lemma extract_pcr_run v :
  has flags transport_adaptation_flag_pcr = bool_decide (is_Some v) ->
  from_option pcr_ok True v -> at_pos m pos (enc encode_pcr v) -> pos + zlen (enc encode_pcr v) <= adapend ->
  extract_pcr flags all adapend pos out ex k m =
    k (pos + zlen (enc encode_pcr v)) (from_option (fun v => set_pcr (pcr_value v) out) out v)
      (from_option (fun _ => Z.lor ex transport_value_pcr) ex v) m.
Proof.
  intros Hf Hv Hat Hend. unfold extract_pcr. rewrite Hf. destruct v as [v|]; simpl.
  - rewrite (proj2 (Z.ltb_ge _ _)) by (destruct v; simpl in *; exact Hend).
    rewrite (bind_run _ _ m _ m (read_pcr_run m pos v Hv Hat)). by destruct v.
  - by rewrite Z.add_0_r.
Qed.

Lemma extract_opcr_run v :
  has flags transport_adaptation_flag_opcr = bool_decide (is_Some v) ->
  from_option pcr_ok True v -> at_pos m pos (enc encode_pcr v) -> pos + zlen (enc encode_pcr v) <= adapend ->
  extract_opcr flags all adapend pos out ex k m =
    k (pos + zlen (enc encode_pcr v)) (from_option (fun v => set_opcr (pcr_value v) out) out v)
      (from_option (fun _ => Z.lor ex transport_value_opcr) ex v) m.
Proof.
  intros Hf Hv Hat Hend. unfold extract_opcr. rewrite Hf. destruct v as [v|]; simpl.
  - rewrite (proj2 (Z.ltb_ge _ _)) by (destruct v; simpl in *; exact Hend).
    rewrite (bind_run _ _ m _ m (read_pcr_run m pos v Hv Hat)). by destruct v.
  - by rewrite Z.add_0_r.
Qed.

Lemma extract_splice_countdown_run v :
  has flags transport_adaptation_flag_splicing_point = bool_decide (is_Some v) ->
  at_pos m pos (enc encode_byte v) -> pos + zlen (enc encode_byte v) <= adapend ->
  extract_splice_countdown flags all adapend pos out ex k m =
    k (pos + zlen (enc encode_byte v)) (from_option (fun v => set_splice_countdown v out) out v)
      (from_option (fun _ => Z.lor ex transport_value_splice_countdown) ex v) m.
Proof.
  intros Hf Hat Hend. unfold extract_splice_countdown. rewrite Hf. destruct v as [v|]; simpl.
  - rewrite (proj2 (Z.ltb_ge _ _)) by exact Hend.
    by rewrite (bind_run _ _ m _ m (rd8_at m pos _ pos 0 Hat ltac:(lia) ltac:(by vm_compute))).
  - by rewrite Z.add_0_r.
Qed.

Lemma extract_private_data_run v :
  has flags transport_adaptation_flag_private_data = bool_decide (is_Some v) ->
  at_pos m pos (enc encode_private v) -> pos + zlen (enc encode_private v) <= adapend ->
  extract_private_data flags all adapend pos out ex k m =
    k (pos + zlen (enc encode_private v)) (from_option (fun d => set_private_data (zlen d) (pos + 1) out) out v)
      (from_option (fun _ => Z.lor ex transport_value_private_data) ex v) m.
Proof.
  intros Hf Hat Hend. unfold extract_private_data. rewrite Hf. destruct v as [d|]; simpl in *.
  - unfold encode_private in *. rewrite zlen_cons in *. pose proof (zlen_nonneg d).
    rewrite (proj2 (Z.ltb_ge _ _)) by lia.
    rewrite (bind_run _ _ m _ m (rd8_at m pos _ pos 0 Hat ltac:(lia) ltac:(rewrite zlen_cons; lia))).
    change ((zlen d :: d).[0]) with (zlen d).
    rewrite (proj2 (Z.ltb_ge _ _)) by lia. done.
  - by rewrite Z.add_0_r.
Qed.

Lemma extract_ltw_run v :
  has flags transport_adaptation_extension_flag_ltw = bool_decide (is_Some v) ->
  from_option (fun v => 0 <= v < 2 ^ 15) True v ->
  at_pos m pos (enc encode_ltw v) -> pos + zlen (enc encode_ltw v) <= adapend ->
  extract_ltw flags all adapend pos out ex k m =
    k (pos + zlen (enc encode_ltw v)) (from_option (fun v => set_ltw_offset v out) out v)
      (from_option (fun _ => Z.lor ex transport_value_ltw) ex v) m.
Proof.
  intros Hf Hv Hat Hend. unfold extract_ltw. rewrite Hf. destruct v as [v|]; simpl in *.
  - change (2 ^ 15) with 32768 in Hv. rewrite (proj2 (Z.ltb_ge _ _)) by exact Hend.
    rewrite (bind_run _ _ m _ m (rd8_at m pos _ pos 0 Hat ltac:(lia) ltac:(by vm_compute))).
    change ((encode_ltw v).[0]) with (128 + v / 256).
    assert (Hlow : forall b, byte b -> (b <? 128) || (has b 128 && (Z.land b 0x7f =? b - 128)) = true)
      by (apply forall_byte; by vm_compute).
    specialize (Hlow (128 + v / 256) ltac:(unfold byte; lia)).
    rewrite (proj2 (Z.ltb_ge _ _)) in Hlow by lia. apply andb_true_iff in Hlow as [-> Hland].
    rewrite (bind_run _ _ m _ m (rd8_at m pos _ (pos + 1) 1 Hat ltac:(lia) ltac:(by vm_compute))).
    change ((encode_ltw v).[1]) with (v mod 256).
    replace (Z.land (128 + v / 256) 0x7f) with (v / 256) by lia.
    rewrite lor_byte by lia. replace (v / 256 * 256 + v mod 256) with v by lia.
    by rewrite u16_small by lia.
  - by rewrite Z.add_0_r.
Qed.

Lemma extract_piecewise_rate_run v :
  has flags transport_adaptation_extension_flag_piecewise_rate = bool_decide (is_Some v) ->
  from_option (fun v => 0 <= v < 2 ^ 22) True v ->
  at_pos m pos (enc encode_piecewise v) -> pos + zlen (enc encode_piecewise v) <= adapend ->
  extract_piecewise_rate flags all adapend pos out ex k m =
    k (pos + zlen (enc encode_piecewise v)) (from_option (fun v => set_piecewise_rate v out) out v)
      (from_option (fun _ => Z.lor ex transport_value_piecewise_rate) ex v) m.
Proof.
  intros Hf Hv Hat Hend. unfold extract_piecewise_rate. rewrite Hf. destruct v as [v|]; simpl in *.
  - change (2 ^ 22) with 4194304 in Hv. rewrite (proj2 (Z.ltb_ge _ _)) by exact Hend.
    rewrite (bind_run _ _ m _ m (rd8_at m pos _ pos 0 Hat ltac:(lia) ltac:(by vm_compute))).
    rewrite (bind_run _ _ m _ m (rd8_at m pos _ (pos + 1) 1 Hat ltac:(lia) ltac:(by vm_compute))).
    rewrite (bind_run _ _ m _ m (rd8_at m pos _ (pos + 2) 2 Hat ltac:(lia) ltac:(by vm_compute))).
    change ((encode_piecewise v).[0]) with (0xc0 + v / 65536).
    change ((encode_piecewise v).[1]) with (v / 256 mod 256).
    change ((encode_piecewise v).[2]) with (v mod 256).
    replace (Z.land (0xc0 + v / 65536) 0x3f) with (v / 65536)
      by (rewrite (land_ones_mod _ 6) by lia; change (2 ^ 6) with 64; lia).
    rewrite (lor_shift_join _ _ 8 8) by (change (2 ^ 8) with 256; lia).
    rewrite lor_byte by lia. change (2 ^ 8) with 256.
    replace ((v / 65536 * 256 + v / 256 mod 256) * 256 + v mod 256) with v by lia. done.
  - by rewrite Z.add_0_r.
Qed.
End blocks.

(** An adaptation field: the three indicator flags, the optional fields, the optional
    extension (legal time window offset, piecewise rate), stuffing. *)
Record adaptation := Adaptation {
  ad_misc : Z;
  ad_pcr : option (Z * Z); ad_opcr : option (Z * Z); ad_splice : option Z;
  ad_private : option (list Z); ad_ext : option (option Z * option Z); ad_stuffing : list Z }.

Definition present {A} (v : option A) : Z := match v with Some _ => 1 | None => 0 end.

Definition adaptation_flags (a : adaptation) : Z :=
  ad_misc a * 32 + present (ad_pcr a) * 16 + present (ad_opcr a) * 8 + present (ad_splice a) * 4 +
  present (ad_private a) * 2 + present (ad_ext a).
Definition ext_flags (e : option Z * option Z) : Z := present e.1 * 128 + present e.2 * 64 + 31.
Definition encode_ext (e : option Z * option Z) : list Z :=
  let body := ext_flags e :: enc encode_ltw e.1 ++ enc encode_piecewise e.2 in zlen body :: body.
Definition adaptation_body (a : adaptation) : list Z :=
  adaptation_flags a :: enc encode_pcr (ad_pcr a) ++ enc encode_pcr (ad_opcr a) ++
  enc encode_byte (ad_splice a) ++ enc encode_private (ad_private a) ++ enc encode_ext (ad_ext a) ++
  ad_stuffing a.

Definition adaptation_ok (a : adaptation) : Prop :=
  0 <= ad_misc a < 8 /\ from_option pcr_ok True (ad_pcr a) /\ from_option pcr_ok True (ad_opcr a) /\
  match ad_ext a with
  | Some (l, p) => from_option (fun v => 0 <= v < 2 ^ 15) True l /\ from_option (fun v => 0 <= v < 2 ^ 22) True p
  | None => True
  end.

(** A packet with an adaptation field and a payload. *)
Definition encode_packet (h0 h1 h2 h3 : Z) (a : adaptation) (payload : list Z) : mem :=
  [h0; h1; h2; h3; zlen (adaptation_body a)] ++ adaptation_body a ++ payload.

(** The result reports exactly the fields of [a] and [payload]. *)
Definition reports (m : mem) (a : adaptation) (payload : list Z) (r : Z) (o : transport_values) : Prop :=
  tv_flags o = adaptation_flags a /\
  (exists p, tv_payload o = Some p /\ slice m p (tv_payload_length o) = payload) /\
  has r transport_value_pcr = bool_decide (is_Some (ad_pcr a)) /\
  (forall v, ad_pcr a = Some v -> tv_pcr o = pcr_value v) /\
  has r transport_value_opcr = bool_decide (is_Some (ad_opcr a)) /\
  (forall v, ad_opcr a = Some v -> tv_opcr o = pcr_value v) /\
  has r transport_value_splice_countdown = bool_decide (is_Some (ad_splice a)) /\
  (forall v, ad_splice a = Some v -> tv_splice_countdown o = v) /\
  has r transport_value_private_data = bool_decide (is_Some (ad_private a)) /\
  (forall d, ad_private a = Some d ->
     exists p, tv_private_data o = Some p /\ slice m p (tv_private_data_length o) = d) /\
  has r transport_value_ltw = bool_decide (is_Some (ad_ext a ≫= fst)) /\
  (forall v, ad_ext a ≫= fst = Some v -> tv_ltw_offset o = v) /\
  has r transport_value_piecewise_rate = bool_decide (is_Some (ad_ext a ≫= snd)) /\
  (forall v, ad_ext a ≫= snd = Some v -> tv_piecewise_rate o = v).

Lemma adaptation_flags_has a : 0 <= ad_misc a < 8 ->
  let f := adaptation_flags a in
  has f transport_adaptation_flag_pcr = bool_decide (is_Some (ad_pcr a)) /\
  has f transport_adaptation_flag_opcr = bool_decide (is_Some (ad_opcr a)) /\
  has f transport_adaptation_flag_splicing_point = bool_decide (is_Some (ad_splice a)) /\
  has f transport_adaptation_flag_private_data = bool_decide (is_Some (ad_private a)) /\
  has f transport_adaptation_flag_extension = bool_decide (is_Some (ad_ext a)).
Proof.
  intros Hm. destruct a as [misc pcr opcr sp pr ext st]. unfold adaptation_flags. simpl in *.
  assert (misc = 0 \/ misc = 1 \/ misc = 2 \/ misc = 3 \/ misc = 4 \/ misc = 5 \/ misc = 6 \/ misc = 7)
    as Hc by lia.
  destruct pcr, opcr, sp, pr, ext; simpl; clear Hm;
    repeat (destruct Hc as [->|Hc]; [split_and!; reflexivity|]); subst; split_and!; reflexivity.
Qed.

Lemma ext_flags_has e :
  has (ext_flags e) transport_adaptation_extension_flag_ltw = bool_decide (is_Some e.1) /\
  has (ext_flags e) transport_adaptation_extension_flag_piecewise_rate = bool_decide (is_Some e.2) /\
  has (ext_flags e) transport_adaptation_extension_flag_seamless_splice = false.
Proof. destruct e as [[|] [|]]; split_and!; reflexivity. Qed.

(** The tail of the function, behind the private data. *)
Definition extract_extension (afc adaplength adapflags adapend extract : Z) : extract_k :=
  fun pos out extracted =>
  if negb (has adapflags transport_adaptation_flag_extension)
  then extract_payload afc adaplength adapflags out extracted else
  if adapend <=? pos then mret (-1, out) else
  adapextlength ← rd8 pos;
  let pos := pos + 1 in
  if adapend <? pos + adapextlength then mret (-1, out) else
  if (Z.land extract 0xff00 =? 0) || (adapextlength =? 0)
  then extract_payload afc adaplength adapflags out extracted else
  adapextflags ← rd8 pos;
  let pos := pos + 1 in
  extract_ltw adapextflags extract adapend pos out extracted (fun pos out extracted =>
  extract_piecewise_rate adapextflags extract adapend pos out extracted (fun pos out extracted =>
  extract_seamless_splice adapextflags extract adapend pos out extracted (fun pos out extracted =>
  extract_payload afc adaplength adapflags out extracted))).

Lemma extract_extension_run m afc adaplength flags adapend pos out ex e :
  has flags transport_adaptation_flag_extension = bool_decide (is_Some e) ->
  match e with
  | Some (l, p) => from_option (fun v => 0 <= v < 2 ^ 15) True l /\ from_option (fun v => 0 <= v < 2 ^ 22) True p
  | None => True
  end ->
  at_pos m pos (enc encode_ext e) -> pos + zlen (enc encode_ext e) <= adapend ->
  extract_extension afc adaplength flags adapend 0x030f pos out ex m =
    extract_payload afc adaplength flags
      (from_option (fun v => set_piecewise_rate v (from_option (fun v => set_ltw_offset v out) out (e ≫= fst)))
         (from_option (fun v => set_ltw_offset v out) out (e ≫= fst)) (e ≫= snd))
      (from_option (fun _ => Z.lor (from_option (fun _ => Z.lor ex transport_value_ltw) ex (e ≫= fst))
                               transport_value_piecewise_rate)
         (from_option (fun _ => Z.lor ex transport_value_ltw) ex (e ≫= fst)) (e ≫= snd)) m.
Proof.
  intros Hf He Hat Hend. unfold extract_extension. rewrite Hf.
  destruct e as [[l p]|]; [|done]. cbn [enc] in *. destruct He as [Hl Hp].
  change (bool_decide (is_Some (Some (l, p)))) with true. cbn [negb].
  unfold encode_ext in Hat, Hend. cbn [fst snd] in Hat, Hend.
  set (body := ext_flags (l, p) :: enc encode_ltw l ++ enc encode_piecewise p) in *.
  pose proof (zlen_nonneg body). assert (0 < zlen body)
    by (unfold body; rewrite zlen_cons; lens; lia).
  rewrite zlen_cons in Hend. rewrite (proj2 (Z.leb_gt _ _)) by lia.
  rewrite (bind_run _ _ m _ m (rd8_at m pos _ pos 0 Hat ltac:(lia) ltac:(rewrite zlen_cons; lia))).
  change ((zlen body :: body).[0]) with (zlen body).
  rewrite (proj2 (Z.ltb_ge _ _)) by lia.
  change (Z.land 0x030f 0xff00 =? 0) with false. rewrite (proj2 (Z.eqb_neq _ _)) by lia. cbn [orb].
  change (zlen body :: body) with ([zlen body] ++ body) in Hat.
  apply at_pos_app in Hat as [_ Hat]. rewrite zlen_cons, zlen_nil, Z.add_0_r in Hat.
  rewrite (bind_run _ _ m _ m (rd8_at m (pos + 1) _ (pos + 1) 0 Hat ltac:(lia) ltac:(lia))).
  unfold body in Hat, Hend. change (ext_flags (l, p) :: enc encode_ltw l ++ enc encode_piecewise p)
    with ([ext_flags (l, p)] ++ enc encode_ltw l ++ enc encode_piecewise p) in Hat.
  apply at_pos_app in Hat as [_ Hat]. rewrite zlen_cons, zlen_nil, Z.add_0_r in Hat.
  apply at_pos_app in Hat as [Hat1 Hat2]. rewrite zlen_cons, zlen_app in Hend.
  change (body.[0]) with (ext_flags (l, p)). cbv zeta. destruct (ext_flags_has (l, p)) as (F1 & F2 & F3).
  pose proof (zlen_nonneg (enc encode_piecewise p)). 
  rewrite (extract_ltw_run m _ adapend _ out ex _ l F1 Hl Hat1) by lia.
  rewrite (extract_piecewise_rate_run m _ adapend _ _ _ _ p F2 Hp Hat2) by lia.
  unfold extract_seamless_splice. rewrite F3. done.
Qed.

Lemma reports_values m afc a payload p0 p1 out r o :
  slice m p0 (TRANSPORT_PACKET_LENGTH - p0) = payload -> 0 <= p0 <= TRANSPORT_PACKET_LENGTH ->
  (forall d, ad_private a = Some d -> slice m p1 (zlen d) = d) ->
  let out1 := from_option (fun v => set_pcr (pcr_value v) out) out (ad_pcr a) in
  let out2 := from_option (fun v => set_opcr (pcr_value v) out1) out1 (ad_opcr a) in
  let out3 := from_option (fun v => set_splice_countdown v out2) out2 (ad_splice a) in
  let out4 := from_option (fun d => set_private_data (zlen d) p1 out3) out3 (ad_private a) in
  let out5 := from_option (fun v => set_ltw_offset v out4) out4 (ad_ext a ≫= fst) in
  let out6 := from_option (fun v => set_piecewise_rate v out5) out5 (ad_ext a ≫= snd) in
  let ex1 := from_option (fun _ => Z.lor 0 transport_value_pcr) 0 (ad_pcr a) in
  let ex2 := from_option (fun _ => Z.lor ex1 transport_value_opcr) ex1 (ad_opcr a) in
  let ex3 := from_option (fun _ => Z.lor ex2 transport_value_splice_countdown) ex2 (ad_splice a) in
  let ex4 := from_option (fun _ => Z.lor ex3 transport_value_private_data) ex3 (ad_private a) in
  let ex5 := from_option (fun _ => Z.lor ex4 transport_value_ltw) ex4 (ad_ext a ≫= fst) in
  let ex6 := from_option (fun _ => Z.lor ex5 transport_value_piecewise_rate) ex5 (ad_ext a ≫= snd) in
  has afc 1 = true -> has afc 2 = true -> p0 = sizeof_transport_packet + 1 + zlen (adaptation_body a) ->
  extract_payload afc (zlen (adaptation_body a)) (adaptation_flags a) out6 ex6 m = Ret (r, o) m ->
  reports m a payload r o.
Proof.
  intros Hpay Hp0 Hpriv out1 out2 out3 out4 out5 out6 ex1 ex2 ex3 ex4 ex5 ex6 H1 H2 Ep0.
  unfold extract_payload. rewrite H1, H2, <- Ep0. intros [= <- <-]. unfold reports.
  assert (Hlen : u16 (TRANSPORT_PACKET_LENGTH - p0) = TRANSPORT_PACKET_LENGTH - p0)
    by (unfold TRANSPORT_PACKET_LENGTH in *; apply u16_small; lia).
  subst out1 out2 out3 out4 out5 out6 ex1 ex2 ex3 ex4 ex5 ex6. clear Ep0 H1 H2.
  split; [done|]. split; [exists p0; split; [done|]; simpl; by rewrite Hlen|].
  destruct a as [misc pcr opcr sp pr ext st]. simpl in Hpriv |- *.
  destruct ext as [[[l|] [p|]]|], pcr, opcr, sp, pr; simpl;
    (split_and!; [reflexivity|intros; simplify_eq; reflexivity|reflexivity|intros; simplify_eq; reflexivity
     |reflexivity|intros; simplify_eq; reflexivity|reflexivity| |reflexivity|intros; simplify_eq; reflexivity
     |reflexivity|intros; simplify_eq; reflexivity]);
    intros d [= ->]; eauto.
Qed.

(** Extracting everything from a packet with an adaptation field returns what was put
    into it: the flags, both clock references (base * 300 + extension), the splice
    countdown, the private data, the legal time window offset and the piecewise rate -
    each reported exactly when it is there - and the payload. *)
Theorem transport_packet_values_roundtrip h0 h1 h2 h3 a payload out :
  let m := encode_packet h0 h1 h2 h3 a payload in
  Z.land (Z.shiftr h3 4) 3 = 3 -> adaptation_ok a -> zlen m = TRANSPORT_PACKET_LENGTH ->
  exists r o, transport_packet_values_extract out 0x030f m = Ret (r, o) m /\ reports m a payload r o.
Proof.
  intros m Hafc (Hmisc & Hpcr & Hopcr & Hext) Hl. pose proof (zlen_nonneg payload).
  set (body := adaptation_body a) in *. set (n := zlen body) in *.
  assert (Hat0 : at_pos m 0 ([h0; h1; h2; h3; n] ++ body ++ payload)) by apply at_pos_all.
  apply at_pos_app in Hat0 as [Hhd Hat]. change (0 + zlen [h0; h1; h2; h3; n]) with 5 in Hat.
  apply at_pos_app in Hat as [Hbody Hpay]. fold n in Hpay.
  assert (Hm188 : 5 + n + zlen payload = TRANSPORT_PACKET_LENGTH).
  { rewrite <- Hl. unfold m, encode_packet. fold body. rewrite !zlen_app. fold n. lens. unfold zlen. simpl. lia. }
  unfold TRANSPORT_PACKET_LENGTH in *.
  assert (Hn : 0 < n) by (unfold n, body, adaptation_body; rewrite zlen_cons; lens; lia).
  destruct (adaptation_flags_has a Hmisc) as (F1 & F2 & F3 & F4 & F5).
  set (flags := adaptation_flags a) in *.
  set (l1 := enc encode_pcr (ad_pcr a)) in *. set (l2 := enc encode_pcr (ad_opcr a)) in *.
  set (l3 := enc encode_byte (ad_splice a)) in *. set (l4 := enc encode_private (ad_private a)) in *.
  set (l5 := enc encode_ext (ad_ext a)) in *.
  assert (Hparts : n = 1 + zlen l1 + zlen l2 + zlen l3 + zlen l4 + zlen l5 + zlen (ad_stuffing a)).
  { unfold n, body, adaptation_body. rewrite zlen_cons, !zlen_app. fold l1 l2 l3 l4 l5. lia. }
  assert (Hb : at_pos m 5 ([flags] ++ l1 ++ l2 ++ l3 ++ l4 ++ l5 ++ ad_stuffing a)) by exact Hbody.
  apply at_pos_app in Hb as [Hb0 Hb]. change (5 + zlen [flags]) with 6 in Hb.
  apply at_pos_app in Hb as [Hb1 Hb]. apply at_pos_app in Hb as [Hb2 Hb].
  apply at_pos_app in Hb as [Hb3 Hb]. apply at_pos_app in Hb as [Hb4 Hb].
  apply at_pos_app in Hb as [Hb5 _]. lens.
  unfold transport_packet_values_extract.
  rewrite (bind_run _ _ m 3 m).
  2:{ rewrite adaptation_field_control_run by lia.
      rewrite (at_pos_get m 0 _ 3 Hhd ltac:(by vm_compute) : m.[3] = _).
      change ([h0; h1; h2; h3; n].[3]) with h3. by rewrite Hafc. }
  change (has 3 2) with true. cbn [negb]. unfold sizeof_transport_packet.
  rewrite (bind_run _ _ m _ m (rd8_at m 0 _ 4 4 Hhd ltac:(lia) ltac:(by vm_compute))).
  change ([h0; h1; h2; h3; n].[4]) with n. rewrite (proj2 (Z.eqb_neq _ _)) by lia.
  change (4 + 1) with 5. change (5 + 1) with 6. unfold TRANSPORT_PACKET_LENGTH.
  rewrite (proj2 (Z.ltb_ge _ _)) by lia.
  rewrite (bind_run _ _ m _ m (rd8_at m 5 _ 5 0 Hb0 ltac:(lia) ltac:(by vm_compute))).
  change ([flags].[0]) with flags. change (Z.land 0x030f 0xffff =? 0) with false. cbv iota.
  fold (extract_extension 3 n flags (5 + n) 0x030f).
  rewrite (extract_pcr_run m flags (5 + n) 6 out 0 _ (ad_pcr a) F1 Hpcr Hb1) by (fold l1; lia). fold l1.
  rewrite (extract_opcr_run m flags (5 + n) _ _ _ _ (ad_opcr a) F2 Hopcr Hb2) by (fold l2; lia). fold l2.
  rewrite (extract_splice_countdown_run m flags (5 + n) _ _ _ _ (ad_splice a) F3 Hb3) by (fold l3; lia). fold l3.
  rewrite (extract_private_data_run m flags (5 + n) _ _ _ _ (ad_private a) F4 Hb4) by (fold l4; lia). fold l4.
  rewrite (extract_extension_run m 3 n flags (5 + n) _ _ _ (ad_ext a) F5 Hext Hb5) by (fold l5; lia).
  match goal with |- exists r o, ?e = _ /\ _ => destruct e as [[r o] m'| | |] eqn:E end;
    try (unfold extract_payload in E; discriminate E).
  assert (m' = m) as -> by (unfold extract_payload in E; by injection E).
  exists r, o. split; [done|].
  eapply (reports_values m 3 a payload (5 + n) (6 + zlen l1 + zlen l2 + zlen l3 + 1) out);
    [| | |reflexivity|reflexivity|unfold sizeof_transport_packet; fold body n; lia|exact E].
  - destruct Hpay as (_ & _ & Hs). unfold TRANSPORT_PACKET_LENGTH.
    by replace (188 - (5 + n)) with (zlen payload) by lia.
  - unfold TRANSPORT_PACKET_LENGTH. lia.
  - intros d Ed. unfold l4 in Hb4. rewrite Ed in Hb4. cbn [enc] in Hb4. unfold encode_private in Hb4.
    change (zlen d :: d) with ([zlen d] ++ d) in Hb4. apply at_pos_app in Hb4 as [_ (_ & _ & Hs)].
    exact Hs.
Qed.

(** A packet with a clock reference, one byte of private data and a piecewise rate. *)
Definition adaptation_example : adaptation :=
  Adaptation 2 (Some (0x123456789, 0x101)) None (Some 7) (Some [0xab]) (Some (None, Some 0x12345)) (replicate 10 0xff).
Definition payload_example : list Z := replicate (188 - 5 - 25) 0x55.

Lemma transport_packet_values_roundtrip_witness :
  let m := encode_packet 0x47 0x01 0x00 0x3f adaptation_example payload_example in
  exists r o, transport_packet_values_extract no_values 0x030f m = Ret (r, o) m /\
    reports m adaptation_example payload_example r o.
Proof.
  apply (transport_packet_values_roundtrip 0x47 0x01 0x00 0x3f adaptation_example payload_example no_values);
    [reflexivity|repeat split; simpl; try lia; vm_compute; intuition discriminate|reflexivity].
Defined.

(** ** Continuity

    The state of a PID is the last counter and whether its packet came twice. *)

Definition cstate_of (c : Z) (dup : bool) : Z := 0x80 + (if dup then 0x40 else 0) + c.

(** The counter sequences of a stream without loss: a packet with payload has the next
    counter; it may come a second time; a packet without payload repeats the counter. *)
Inductive continuous (c : Z) (dup : bool) : list (bool * Z) -> Prop :=
| continuous_nil : continuous c dup []
| continuous_next ps :
    continuous ((c + 1) mod 16) false ps -> continuous c dup ((true, (c + 1) mod 16) :: ps)
| continuous_dup ps : dup = false -> continuous c true ps -> continuous c dup ((true, c) :: ps)
| continuous_idle ps : continuous c false ps -> continuous c dup ((false, c) :: ps).

(** The check on the packets of one PID; it stops at the first error. *)
Fixpoint continuity_run (pid cstate : Z) (ps : list (bool * Z)) : Z * Z :=
  match ps with
  | [] => (0, cstate)
  | (payload, cc) :: ps =>
      let '(r, cstate') := continuity_check pid (if payload then 1 else 2) cc false cstate in
      if r =? 0 then continuity_run pid cstate' ps else (r, cstate')
  end.

Definition counters : list Z := seqZ 0 16.

Lemma continuity_step pid (payload : bool) c cc dup :
  pid <> TRANSPORT_NULL_PID -> 0 <= c < 16 -> 0 <= cc < 16 ->
  continuity_check pid (if payload then 1 else 2) cc false (cstate_of c dup) =
    if decide (cc = if payload then (c + 1) mod 16 else c) then (0, cstate_of cc false)
    else if decide (payload = true /\ cc = c /\ dup = false) then (0, cstate_of cc true)
    else (-1, cstate_of c dup).
Proof.
  intros Hpid Hc Hcc. unfold continuity_check. rewrite (proj2 (Z.eqb_neq _ _)) by done.
  assert (Hall : Forall (fun c => Forall (fun cc =>
    forall (payload dup : bool), continuity_check 0 (if payload then 1 else 2) cc false (cstate_of c dup) =
    if decide (cc = if payload then (c + 1) mod 16 else c) then (0, cstate_of cc false)
    else if decide (payload = true /\ cc = c /\ dup = false) then (0, cstate_of cc true)
    else (-1, cstate_of c dup)) counters) counters).
  { change counters with [0; 1; 2; 3; 4; 5; 6; 7; 8; 9; 10; 11; 12; 13; 14; 15].
    repeat (apply Forall_cons_2; [repeat (apply Forall_cons_2; [intros [|] [|]; reflexivity|]); by apply Forall_nil_2|]).
    by apply Forall_nil_2. }
  rewrite Forall_forall in Hall. specialize (Hall c ltac:(apply list_elem_of_In, elem_of_seqZ; lia)).
  rewrite Forall_forall in Hall. exact (Hall cc ltac:(apply list_elem_of_In, elem_of_seqZ; lia) payload dup).
Qed.

(** On the packets of one PID, from any state, the continuity check succeeds on
    exactly the sequences without loss: consecutive counters on payload packets, each
    repeated at most once, unchanged counters on packets without payload. *)
Theorem continuity_check_correct pid c dup ps :
  pid <> TRANSPORT_NULL_PID -> 0 <= c < 16 -> Forall (fun p => 0 <= p.2 < 16) ps ->
  (continuity_run pid (cstate_of c dup) ps).1 = 0 <-> continuous c dup ps.
Proof.
  intros Hpid. revert c dup. induction ps as [|[payload cc] ps IH]; intros c dup Hc Hps.
  { split; [intros; constructor|done]. }
  inversion Hps as [|? ? Hcc Hps']; subst. simpl in Hcc. simpl continuity_run.
  rewrite continuity_step by done. case_decide as E; simpl.
  - rewrite IH by done. destruct payload; subst cc; split.
    + apply continuous_next.
    + intros H. inversion H; subst; [done|]. lia.
    + apply continuous_idle.
    + intros H. by inversion H; subst.
  - case_decide as Hno; [destruct Hno as (-> & -> & ->)|]; simpl.
    + rewrite IH by done. split; [by apply continuous_dup|]. intros H. by inversion H; subst.
    + split; [done|]. intros H. exfalso. inversion H; subst; [by apply E|by apply Hno|by apply E].
Qed.

(** Counter 15, its duplicate, 0, an idle packet, and then 2: packet 1 was lost. *)
Lemma continuity_check_correct_witness :
  ~ continuous 15 false [(true, 15); (true, 0); (false, 0); (true, 2)].
Proof.
  rewrite <- (continuity_check_correct 0x100 15 false [(true, 15); (true, 0); (false, 0); (true, 2)]);
    [vm_compute; discriminate|discriminate|lia|repeat constructor; simpl; lia].
Defined.
