(* ===== verification/DvbRingbuffer.v ===== *)
(** * DvbRingbuffer: the ring buffer of dvb-core/dvb_ringbuffer.c

    The buffer is a record; a [memcpy] that leaves the data area is [None].  The
    abstract state of a buffer is the queue of its unread bytes ([contents]) and, for
    the packet interface, the queue of its packets. *)

From S2P Require Import Prelude.

Definition PKT_READY : Z := 0.
Definition PKT_DISPOSED : Z := 1.
Definition DVB_RINGBUFFER_PKTHDRSIZE : Z := 3.

(** The lock and the wait queue are not modelled: the operations are those of one
    reader and one writer between which the callers serialise. *)
Record dvb_ringbuffer := DvbRingbuffer {
  rb_data : list Z; rb_size : Z; rb_pread : Z; rb_pwrite : Z; rb_error : Z }.

Definition set_pread (v : Z) (r : dvb_ringbuffer) : dvb_ringbuffer :=
  DvbRingbuffer (rb_data r) (rb_size r) v (rb_pwrite r) (rb_error r).
Definition set_pwrite (v : Z) (r : dvb_ringbuffer) : dvb_ringbuffer :=
  DvbRingbuffer (rb_data r) (rb_size r) (rb_pread r) v (rb_error r).
Definition set_data (d : list Z) (r : dvb_ringbuffer) : dvb_ringbuffer :=
  DvbRingbuffer d (rb_size r) (rb_pread r) (rb_pwrite r) (rb_error r).

Definition dvb_ringbuffer_init (data : list Z) (len : Z) : dvb_ringbuffer :=
  DvbRingbuffer data len 0 0 0.

Definition dvb_ringbuffer_empty (r : dvb_ringbuffer) : bool := rb_pread r =? rb_pwrite r.

Definition dvb_ringbuffer_free (r : dvb_ringbuffer) : Z :=
  let free := rb_pread r - rb_pwrite r in
  let free := if free <=? 0 then free + rb_size r else free in
  free - 1.

Definition dvb_ringbuffer_avail (r : dvb_ringbuffer) : Z :=
  let avail := rb_pwrite r - rb_pread r in
  if avail <? 0 then avail + rb_size r else avail.

Definition dvb_ringbuffer_flush (r : dvb_ringbuffer) : dvb_ringbuffer :=
  DvbRingbuffer (rb_data r) (rb_size r) (rb_pwrite r) (rb_pwrite r) 0.

Definition dvb_ringbuffer_reset (r : dvb_ringbuffer) : dvb_ringbuffer :=
  DvbRingbuffer (rb_data r) (rb_size r) 0 0 0.

Definition dvb_ringbuffer_flush_spinlock_wakeup (r : dvb_ringbuffer) : dvb_ringbuffer :=
  dvb_ringbuffer_flush r.

(** [memcpy(buf, data + p, n)] and [memcpy(data + p, buf, zlen buf)]. *)
Definition copy_from (data : list Z) (p n : Z) : option (list Z) :=
  if decide (0 <= p /\ 0 <= n /\ p + n <= zlen data) then Some (ztake n (zdrop p data)) else None.
Definition copy_into (data : list Z) (p : Z) (buf : list Z) : option (list Z) :=
  if decide (0 <= p /\ p + zlen buf <= zlen data) then Some (zsplice data p buf) else None.

Definition dvb_ringbuffer_read (r : dvb_ringbuffer) (len : Z) : option (list Z * dvb_ringbuffer) :=
  let split := if rb_size r <? rb_pread r + len then rb_size r - rb_pread r else 0 in
  if 0 <? split then
    b1 ← copy_from (rb_data r) (rb_pread r) split;
    let todo := len - split in
    let r := set_pread 0 r in
    b2 ← copy_from (rb_data r) (rb_pread r) todo;
    Some (b1 ++ b2, set_pread ((rb_pread r + todo) mod rb_size r) r)
  else
    b ← copy_from (rb_data r) (rb_pread r) len;
    Some (b, set_pread ((rb_pread r + len) mod rb_size r) r).

Definition dvb_ringbuffer_write (r : dvb_ringbuffer) (buf : list Z) : option (Z * dvb_ringbuffer) :=
  let len := zlen buf in
  let split := if rb_size r <? rb_pwrite r + len then rb_size r - rb_pwrite r else 0 in
  if 0 <? split then
    d ← copy_into (rb_data r) (rb_pwrite r) (ztake split buf);
    let buf := zdrop split buf in
    let todo := len - split in
    let r := set_pwrite 0 (set_data d r) in
    d ← copy_into (rb_data r) (rb_pwrite r) buf;
    let r := set_data d r in
    Some (len, set_pwrite ((rb_pwrite r + todo) mod rb_size r) r)
  else
    d ← copy_into (rb_data r) (rb_pwrite r) buf;
    let r := set_data d r in
    Some (len, set_pwrite ((rb_pwrite r + len) mod rb_size r) r).

(** The [_user] variants copy to user space; [copy_to_user] returns the number of bytes
    it could not copy. *)
Section user.
Context (copy_to_user : list Z -> Z).

Definition dvb_ringbuffer_read_user (r : dvb_ringbuffer) (len : Z) :
    option (Z * list Z * dvb_ringbuffer) :=
  let split := if rb_size r <? rb_pread r + len then rb_size r - rb_pread r else 0 in
  if 0 <? split then
    b1 ← copy_from (rb_data r) (rb_pread r) split;
    if negb (copy_to_user b1 =? 0) then Some (- EFAULT, [], r) else
    let todo := len - split in
    let r := set_pread 0 r in
    b2 ← copy_from (rb_data r) (rb_pread r) todo;
    if negb (copy_to_user b2 =? 0) then Some (- EFAULT, [], r) else
    Some (len, b1 ++ b2, set_pread ((rb_pread r + todo) mod rb_size r) r)
  else
    b ← copy_from (rb_data r) (rb_pread r) len;
    if negb (copy_to_user b =? 0) then Some (- EFAULT, [], r) else
    Some (len, b, set_pread ((rb_pread r + len) mod rb_size r) r).

Definition dvb_ringbuffer_pkt_read_user (r : dvb_ringbuffer) (idx offset len : Z) : option (Z * list Z) :=
  h ← zget (rb_data r) idx;
  l ← zget (rb_data r) ((idx + 1) mod rb_size r);
  let pktlen := Z.lor (Z.shiftl h 8) l in
  if pktlen <? u64 offset then Some (- EINVAL, []) else
  let len := if pktlen <? u64 (offset + len) then u64 (pktlen - offset) else len in
  let idx := u64 (idx + DVB_RINGBUFFER_PKTHDRSIZE + offset) mod rb_size r in
  let split := if rb_size r <? idx + len then rb_size r - idx else 0 in
  if 0 <? split then
    b1 ← copy_from (rb_data r) idx split;
    if negb (copy_to_user b1 =? 0) then Some (- EFAULT, []) else
    b2 ← copy_from (rb_data r) 0 (len - split);
    if negb (copy_to_user b2 =? 0) then Some (- EFAULT, []) else
    Some (len, b1 ++ b2)
  else
    b ← copy_from (rb_data r) idx len;
    if negb (copy_to_user b =? 0) then Some (- EFAULT, []) else
    Some (len, b).
End user.

(** ** Packets *)

Definition DVB_RINGBUFFER_PEEK (r : dvb_ringbuffer) (offs : Z) : option Z :=
  zget (rb_data r) ((rb_pread r + offs) mod rb_size r).
Definition DVB_RINGBUFFER_SKIP (r : dvb_ringbuffer) (num : Z) : dvb_ringbuffer :=
  set_pread ((rb_pread r + num) mod rb_size r) r.
Definition DVB_RINGBUFFER_WRITE_BYTE (r : dvb_ringbuffer) (b : Z) : option dvb_ringbuffer :=
  d ← copy_into (rb_data r) (rb_pwrite r) [u8 b];
  Some (set_pwrite ((rb_pwrite r + 1) mod rb_size r) (set_data d r)).

(** [status] is an [int]: the length that [dvb_ringbuffer_write] returns is truncated. *)
Definition dvb_ringbuffer_pkt_write (r : dvb_ringbuffer) (buf : list Z) : option (Z * dvb_ringbuffer) :=
  let len := zlen buf in
  let oldpwrite := rb_pwrite r in
  r ← DVB_RINGBUFFER_WRITE_BYTE r (Z.shiftr len 8);
  r ← DVB_RINGBUFFER_WRITE_BYTE r (Z.land len 0xff);
  r ← DVB_RINGBUFFER_WRITE_BYTE r PKT_READY;
  '(n, r) ← dvb_ringbuffer_write r buf;
  let status := s32 n in
  Some (status, if status <? 0 then set_pwrite oldpwrite r else r).

Definition dvb_ringbuffer_pkt_read (r : dvb_ringbuffer) (idx offset len : Z) : option (Z * list Z) :=
  h ← zget (rb_data r) idx;
  l ← zget (rb_data r) ((idx + 1) mod rb_size r);
  let pktlen := Z.lor (Z.shiftl h 8) l in
  if pktlen <? u64 offset then Some (- EINVAL, []) else
  let len := if pktlen <? u64 (offset + len) then u64 (pktlen - offset) else len in
  let idx := u64 (idx + DVB_RINGBUFFER_PKTHDRSIZE + offset) mod rb_size r in
  let split := if rb_size r <? idx + len then rb_size r - idx else 0 in
  if 0 <? split then
    b1 ← copy_from (rb_data r) idx split;
    b2 ← copy_from (rb_data r) 0 (len - split);
    Some (len, b1 ++ b2)
  else
    b ← copy_from (rb_data r) idx len;
    Some (len, b).

(** The clean-up loop: [None] also when the fuel is used up. *)
Fixpoint pkt_clean (fuel : nat) (r : dvb_ringbuffer) : option dvb_ringbuffer :=
  if DVB_RINGBUFFER_PKTHDRSIZE <? dvb_ringbuffer_avail r then
    match fuel with
    | O => None
    | S fuel =>
        status ← DVB_RINGBUFFER_PEEK r 2;
        if status =? PKT_DISPOSED then
          h ← DVB_RINGBUFFER_PEEK r 0;
          l ← DVB_RINGBUFFER_PEEK r 1;
          let pktlen := Z.lor (Z.shiftl h 8) l in
          pkt_clean fuel (DVB_RINGBUFFER_SKIP r (pktlen + DVB_RINGBUFFER_PKTHDRSIZE))
        else Some r
    end
  else Some r.

Definition dvb_ringbuffer_pkt_dispose (r : dvb_ringbuffer) (idx : Z) : option dvb_ringbuffer :=
  d ← copy_into (rb_data r) ((idx + 2) mod rb_size r) [PKT_DISPOSED];
  let r := set_data d r in
  pkt_clean (length (rb_data r)) r.

(** The loop of [dvb_ringbuffer_pkt_next]; [inl] is the index and the length of a ready
    packet, [inr tt] is [-1]. *)
Fixpoint pkt_next_loop (fuel : nat) (r : dvb_ringbuffer) (idx consumed : Z) : option (Z * Z + unit) :=
  if DVB_RINGBUFFER_PKTHDRSIZE <? dvb_ringbuffer_avail r - consumed then
    match fuel with
    | O => None
    | S fuel =>
        h ← zget (rb_data r) idx;
        l ← zget (rb_data r) ((idx + 1) mod rb_size r);
        curpktstatus ← zget (rb_data r) ((idx + 2) mod rb_size r);
        let curpktlen := Z.lor (Z.shiftl h 8) l in
        if curpktstatus =? PKT_READY then Some (inl (idx, curpktlen))
        else pkt_next_loop fuel r ((idx + curpktlen + DVB_RINGBUFFER_PKTHDRSIZE) mod rb_size r)
               (consumed + (curpktlen + DVB_RINGBUFFER_PKTHDRSIZE))
    end
  else Some (inr tt).

(** [idx] is [None] for the argument -1.  The subtraction [idx - rbuf->pread] is made in
    [size_t], and its remainder is stored in an [int]. *)
Definition dvb_ringbuffer_pkt_next (r : dvb_ringbuffer) (idx : option Z) : option (Z * Z + unit) :=
  idx ← match idx with
        | None => Some (rb_pread r)
        | Some idx =>
            h ← zget (rb_data r) idx;
            l ← zget (rb_data r) ((idx + 1) mod rb_size r);
            let curpktlen := Z.lor (Z.shiftl h 8) l in
            Some ((idx + curpktlen + DVB_RINGBUFFER_PKTHDRSIZE) mod rb_size r)
        end;
  let consumed := s32 (u64 (idx - rb_pread r) mod rb_size r) in
  pkt_next_loop (length (rb_data r)) r idx consumed.

(** ** The ring as a queue *)

Definition rb_ok (r : dvb_ringbuffer) : Prop :=
  0 < rb_size r < 2 ^ 31 /\ zlen (rb_data r) = rb_size r /\
  0 <= rb_pread r < rb_size r /\ 0 <= rb_pwrite r < rb_size r.

(** [n] bytes of a ring, starting at [p]. *)
Definition ring_slice (data : list Z) (p n : Z) : list Z :=
  map (fun k => data.[(p + k) mod zlen data]) (seqZ 0 n).

(** The unread bytes. *)
Definition contents (r : dvb_ringbuffer) : list Z :=
  ring_slice (rb_data r) (rb_pread r) (dvb_ringbuffer_avail r).

Lemma mod_wrap a b size :
  0 < size -> 0 <= a < size -> 0 <= b <= size ->
  (a + b) mod size = if decide (a + b < size) then a + b else a + b - size.
Proof.
  intros. case_decide; [by apply Z.mod_small; lia|].
  symmetry. apply (Z.mod_unique _ _ 1); lia.
Qed.

Lemma zlen_ring_slice d p n : 0 <= n -> zlen (ring_slice d p n) = n.
Proof. intros. unfold ring_slice, zlen. rewrite length_map, length_seqZ. lia. Qed.

Lemma zat_ring_slice d p n k : 0 <= k < n -> (ring_slice d p n).[k] = d.[(p + k) mod zlen d].
Proof.
  intros. unfold ring_slice, zat at 1, zget. rewrite decide_True by lia.
  rewrite list_lookup_fmap, lookup_seqZ_lt by lia. simpl. do 2 f_equal. lia.
Qed.

Lemma ring_slice_app d p a b :
  0 <= a -> 0 <= b -> 0 < zlen d ->
  ring_slice d p (a + b) = ring_slice d p a ++ ring_slice d ((p + a) mod zlen d) b.
Proof.
  intros. apply zlist_eq; rewrite ?zlen_app, !zlen_ring_slice by lia; [done|].
  intros k Hk. rewrite zat_ring_slice, zat_app, zlen_ring_slice by lia. case_decide.
  - by rewrite zat_ring_slice by lia.
  - rewrite zat_ring_slice by lia. rewrite Zplus_mod_idemp_l. do 2 f_equal. lia.
Qed.

Lemma ring_slice_line d p n :
  0 <= p -> 0 <= n -> p + n <= zlen d -> ring_slice d p n = ztake n (zdrop p d).
Proof.
  intros. pose proof (zlen_zdrop p d). apply zlist_eq.
  - rewrite zlen_ring_slice, zlen_ztake by lia. done.
  - rewrite zlen_ring_slice by lia. intros k Hk.
    rewrite zat_ring_slice, zat_ztake, zat_zdrop by lia. by rewrite Z.mod_small by lia.
Qed.

Lemma ring_slice_ext d d' p n :
  zlen d = zlen d' -> 0 <= n ->
  (forall k, 0 <= k < n -> d.[(p + k) mod zlen d] = d'.[(p + k) mod zlen d]) ->
  ring_slice d p n = ring_slice d' p n.
Proof.
  intros Hl Hn H. apply zlist_eq; rewrite !zlen_ring_slice by lia; [done|].
  intros k Hk. rewrite !zat_ring_slice by lia. rewrite <- Hl. auto.
Qed.

(** The two-part copy of the read routines. *)
Lemma copy_from_ring d p n :
  0 < zlen d -> 0 <= p < zlen d -> 0 <= n <= zlen d ->
  (let split := if zlen d <? p + n then zlen d - p else 0 in
   if 0 <? split then
     exists b1 b2, copy_from d p split = Some b1 /\ copy_from d 0 (n - split) = Some b2 /\
       b1 ++ b2 = ring_slice d p n /\ (n - split) mod zlen d = (p + n) mod zlen d
   else copy_from d p n = Some (ring_slice d p n)).
Proof.
  intros Hd Hp Hn. unfold copy_from.
  destruct (zlen d <? p + n) eqn:E; simpl.
  - rewrite (proj2 (Z.ltb_lt _ _)) by lia. rewrite !decide_True by lia.
    eexists _, _. split; [done|]. split; [done|]. split.
    + rewrite <- !ring_slice_line by lia.
      replace n with (zlen d - p + (n - (zlen d - p))) at 2 by lia.
      rewrite ring_slice_app by lia. do 2 f_equal.
      replace (p + (zlen d - p)) with (zlen d) by lia. by rewrite Z.mod_same by lia.
    + rewrite mod_wrap by lia. rewrite decide_False by lia. rewrite Z.mod_small by lia. lia.
  - rewrite decide_True by lia. by rewrite ring_slice_line by lia.
Qed.

Lemma avail_cases r :
  rb_pread r <= rb_pwrite r /\ dvb_ringbuffer_avail r = rb_pwrite r - rb_pread r \/
  rb_pwrite r < rb_pread r /\ dvb_ringbuffer_avail r = rb_pwrite r - rb_pread r + rb_size r.
Proof. unfold dvb_ringbuffer_avail. destruct (_ <? 0) eqn:?; lia. Qed.

Lemma avail_range r : rb_ok r -> 0 <= dvb_ringbuffer_avail r < rb_size r.
Proof.
  intros (Hs & Hl & Hr & Hw). unfold dvb_ringbuffer_avail. destruct (_ <? 0) eqn:?; lia.
Qed.

Lemma zlen_contents r : rb_ok r -> zlen (contents r) = dvb_ringbuffer_avail r.
Proof. intros H. apply zlen_ring_slice. by apply avail_range. Qed.

Lemma avail_free r : rb_ok r ->
  dvb_ringbuffer_free r = rb_size r - 1 - dvb_ringbuffer_avail r /\ 0 <= dvb_ringbuffer_free r.
Proof.
  intros (Hs & Hl & Hr & Hw). unfold dvb_ringbuffer_free, dvb_ringbuffer_avail.
  destruct (_ <=? 0) eqn:?, (_ <? 0) eqn:?; lia.
Qed.

(** The write position is [avail] behind the read position. *)
Lemma pwrite_avail r : rb_ok r ->
  rb_pwrite r = (rb_pread r + dvb_ringbuffer_avail r) mod rb_size r.
Proof.
  intros Hok. pose proof (avail_range r Hok). destruct Hok as (Hs & Hl & Hr & Hw).
  rewrite mod_wrap by lia. unfold dvb_ringbuffer_avail.
  destruct (_ <? 0) eqn:?; case_decide; lia.
Qed.

(** Moving the read pointer over the first [n] unread bytes. *)
Lemma skip_contents r n :
  rb_ok r -> 0 <= n <= dvb_ringbuffer_avail r ->
  let r' := set_pread ((rb_pread r + n) mod rb_size r) r in
  rb_ok r' /\ dvb_ringbuffer_avail r' = dvb_ringbuffer_avail r - n /\
  contents r' = zdrop n (contents r) /\
  ztake n (contents r) = ring_slice (rb_data r) (rb_pread r) n.
Proof.
  intros Hok Hn r'. pose proof (avail_range r Hok). pose proof Hok as (Hs & Hl & Hr & Hw).
  assert (Hok' : rb_ok r').
  { subst r'. unfold rb_ok. simpl. pose proof (Z.mod_pos_bound (rb_pread r + n) (rb_size r)).
    split_and!; lia. }
  assert (Ha : dvb_ringbuffer_avail r' = dvb_ringbuffer_avail r - n).
  { pose proof (avail_cases r). pose proof (avail_cases r') as Hc. subst r'. simpl in Hc.
    rewrite mod_wrap in Hc |- * by lia. case_decide; lia. }
  assert (Hc : contents r = ring_slice (rb_data r) (rb_pread r) n ++ contents r').
  { unfold contents at 1. replace (dvb_ringbuffer_avail r) with (n + (dvb_ringbuffer_avail r - n)) by lia.
    rewrite ring_slice_app by lia. unfold contents. rewrite Ha. subst r'. simpl. by rewrite Hl. }
  split; [done|]. split; [done|]. rewrite Hc.
  split; [rewrite zdrop_app|rewrite ztake_app]; rewrite ?zlen_ring_slice; (done || lia).
Qed.

(** A read takes bytes from the front of the queue. *)
Lemma read_run r n :
  rb_ok r -> 0 <= n <= dvb_ringbuffer_avail r ->
  exists r', dvb_ringbuffer_read r n = Some (ztake n (contents r), r') /\
    rb_ok r' /\ contents r' = zdrop n (contents r) /\ rb_size r' = rb_size r.
Proof.
  intros Hok Hn. pose proof (avail_range r Hok).
  destruct (skip_contents r n Hok Hn) as (Hok' & _ & Hd & Ht). pose proof Hok as (Hs & Hl & Hr & Hw).
  pose proof (copy_from_ring (rb_data r) (rb_pread r) n ltac:(lia) ltac:(lia) ltac:(lia)) as Hcp.
  unfold dvb_ringbuffer_read. rewrite Hl in Hcp. cbv zeta in Hcp.
  eexists. split; [|split_and!; [exact Hok'|exact Hd|done]].
  destruct (0 <? _).
  - destruct Hcp as (b1 & b2 & E1 & E2 & E3 & E4). rewrite E1. simpl. rewrite E2. simpl.
    rewrite Ht, <- E3. unfold set_pread. simpl. by rewrite Z.add_0_l, E4.
  - rewrite Hcp. simpl. by rewrite Ht.
Qed.

(** The two-part copy of the write routine: afterwards the bytes at distance [k] from
    the write position are those of [buf], all others are unchanged. *)
Lemma write_data r buf :
  rb_ok r -> zlen buf <= rb_size r ->
  exists d, dvb_ringbuffer_write r buf =
      Some (zlen buf, set_pwrite ((rb_pwrite r + zlen buf) mod rb_size r) (set_data d r)) /\
    zlen d = rb_size r /\
    (forall k, 0 <= k < rb_size r ->
       d.[(rb_pwrite r + k) mod rb_size r] =
       if decide (k < zlen buf) then buf.[k] else (rb_data r).[(rb_pwrite r + k) mod rb_size r]).
Proof.
  intros (Hs & Hl & Hr & Hw) Hn. pose proof (zlen_nonneg buf).
  unfold dvb_ringbuffer_write, copy_into.
  destruct (rb_size r <? rb_pwrite r + zlen buf) eqn:E.
  - set (split := rb_size r - rb_pwrite r) in *. rewrite (proj2 (Z.ltb_lt _ _)) by lia.
    assert (Hz1 : zlen (ztake split buf) = split) by (apply zlen_ztake; lia).
    assert (Hz2 : zlen (zdrop split buf) = zlen buf - split) by (apply zlen_zdrop; lia).
    rewrite decide_True by lia. cbn [mbind option_bind]. unfold set_pwrite, set_data. simpl.
    rewrite decide_True by (rewrite zlen_zsplice; lia). simpl.
    eexists. split; [|split].
    + do 3 f_equal. rewrite Z.add_0_l, (mod_wrap (rb_pwrite r)) by lia. rewrite decide_False by lia.
      rewrite Z.mod_small by lia. lia.
    + rewrite !zlen_zsplice; rewrite ?zlen_zsplice; lia.
    + intros k Hk. rewrite mod_wrap by lia.
      rewrite !zat_zsplice; rewrite ?zlen_zsplice; try lia; [|case_decide; lia..].
      rewrite Hz1, Hz2. repeat case_decide; try lia; try done;
        first [rewrite zat_ztake by lia | rewrite zat_zdrop by lia]; f_equal; lia.
  - simpl. rewrite decide_True by lia. simpl. eexists. split; [done|]. split.
    + rewrite zlen_zsplice; lia.
    + intros k Hk. rewrite mod_wrap by lia.
      rewrite zat_zsplice by (try case_decide; lia). repeat case_decide; try lia; try done.
      f_equal. lia.
Qed.

(** A write appends to the queue. *)
Lemma write_run r buf :
  rb_ok r -> zlen buf <= dvb_ringbuffer_free r ->
  exists r', dvb_ringbuffer_write r buf = Some (zlen buf, r') /\
    rb_ok r' /\ contents r' = contents r ++ buf /\ rb_size r' = rb_size r /\
    rb_pread r' = rb_pread r.
Proof.
  intros Hok Hn. pose proof (avail_range r Hok) as Ha. destruct (avail_free r Hok) as [Hf _].
  pose proof (zlen_nonneg buf). pose proof (pwrite_avail r Hok) as Hpw.
  destruct (write_data r buf Hok ltac:(lia)) as (d & E & Hzd & Hd).
  pose proof Hok as (Hs & Hl & Hr & Hw). eexists. split; [exact E|].
  set (r' := set_pwrite _ _).
  assert (Hok' : rb_ok r').
  { subst r'. unfold rb_ok. simpl. pose proof (Z.mod_pos_bound (rb_pwrite r + zlen buf) (rb_size r)).
    split_and!; lia. }
  assert (Ha' : dvb_ringbuffer_avail r' = dvb_ringbuffer_avail r + zlen buf).
  { pose proof (avail_cases r). pose proof (avail_cases r') as Hc. subst r'. simpl in Hc.
    rewrite mod_wrap in Hc |- * by lia. case_decide; lia. }
  split; [done|]. split; [|done]. apply zlist_eq.
  { rewrite zlen_app, !zlen_contents by done. lia. }
  rewrite zlen_contents, Ha' by done. intros j Hj.
  rewrite zat_app, zlen_contents by (done || lia). unfold contents.
  change (rb_data r') with d. change (rb_pread r') with (rb_pread r).
  rewrite zat_ring_slice, Hzd by lia.
  case_decide as Hlt.
  - (* an old byte: its distance behind the write position is at least [zlen buf] *)
    rewrite zat_ring_slice, Hl by lia.
    set (k := j + rb_size r - dvb_ringbuffer_avail r).
    assert (Ek : (rb_pwrite r + k) mod rb_size r = (rb_pread r + j) mod rb_size r).
    { rewrite Hpw, Zplus_mod_idemp_l. unfold k.
      replace (rb_pread r + dvb_ringbuffer_avail r + (j + rb_size r - dvb_ringbuffer_avail r))
        with (rb_pread r + j + 1 * rb_size r) by lia. by rewrite Z.mod_add by lia. }
    rewrite <- Ek, Hd by (unfold k; lia). by rewrite decide_False by (unfold k; lia).
  - assert (Ek : (rb_pwrite r + (j - dvb_ringbuffer_avail r)) mod rb_size r = (rb_pread r + j) mod rb_size r).
    { rewrite Hpw, Zplus_mod_idemp_l. f_equal. lia. }
    rewrite <- Ek, Hd by lia. by rewrite decide_True by lia.
Qed.

(** *** The abstract queue

    A client that follows the notes of dvb_ringbuffer.h: it writes only what is free
    and reads at most what is available. *)
Inductive ring_op :=
| RWrite (buf : list Z) | RRead (n : Z) | RFlush | RReset.

Definition ring_step (r : dvb_ringbuffer) (o : ring_op) : option (list Z * dvb_ringbuffer) :=
  match o with
  | RWrite buf =>
      if zlen buf <=? dvb_ringbuffer_free r then '(_, r) ← dvb_ringbuffer_write r buf; Some ([], r)
      else Some ([], r)
  | RRead n => dvb_ringbuffer_read r (Z.min (Z.max 0 n) (dvb_ringbuffer_avail r))
  | RFlush => Some ([], dvb_ringbuffer_flush r)
  | RReset => Some ([], dvb_ringbuffer_reset r)
  end.

(** The same client of a bounded queue. *)
Definition queue_step (capacity : Z) (q : list Z) (o : ring_op) : list Z * list Z :=
  match o with
  | RWrite buf => ([], if zlen q + zlen buf <=? capacity then q ++ buf else q)
  | RRead n => (ztake (Z.max 0 n) q, zdrop (Z.max 0 n) q)
  | RFlush | RReset => ([], [])
  end.

Fixpoint ring_run (r : dvb_ringbuffer) (os : list ring_op) : option (list (list Z) * dvb_ringbuffer) :=
  match os with
  | [] => Some ([], r)
  | o :: os => '(out, r) ← ring_step r o; '(outs, r) ← ring_run r os; Some (out :: outs, r)
  end.
Fixpoint queue_run (capacity : Z) (q : list Z) (os : list ring_op) : list (list Z) * list Z :=
  match os with
  | [] => ([], q)
  | o :: os => let '(out, q) := queue_step capacity q o in
               let '(outs, q) := queue_run capacity q os in (out :: outs, q)
  end.

Lemma ztake_min {A} (l : list A) n : 0 <= n -> ztake (Z.min n (zlen l)) l = ztake n l.
Proof.
  intros. destruct (decide (n <= zlen l)); [by rewrite Z.min_l by lia|].
  rewrite Z.min_r, !ztake_all by lia. done.
Qed.
Lemma zdrop_min {A} (l : list A) n : 0 <= n -> zdrop (Z.min n (zlen l)) l = zdrop n l.
Proof.
  intros. destruct (decide (n <= zlen l)); [by rewrite Z.min_l by lia|].
  rewrite Z.min_r, !zdrop_all by lia. done.
Qed.

Lemma ring_step_refines r o :
  rb_ok r ->
  let '(out, q) := queue_step (rb_size r - 1) (contents r) o in
  exists r', ring_step r o = Some (out, r') /\ rb_ok r' /\ contents r' = q /\ rb_size r' = rb_size r.
Proof.
  intros Hok. pose proof (avail_range r Hok). destruct (avail_free r Hok) as [Hf _].
  pose proof Hok as (Hs & Hl & Hr & Hw). destruct o as [buf|n| |]; simpl.
  - rewrite zlen_contents by done. destruct (zlen buf <=? _) eqn:E.
    + rewrite (proj2 (Z.leb_le _ _)) by lia.
      destruct (write_run r buf Hok ltac:(lia)) as (r' & -> & ? & ? & ? & _). exists r'. done.
    + rewrite (proj2 (Z.leb_gt _ _)) by lia. exists r. done.
  - destruct (read_run r (Z.min (Z.max 0 n) (dvb_ringbuffer_avail r)) Hok ltac:(lia)) as (r' & E & ? & Ec & ?).
    rewrite <- (zlen_contents r Hok), ztake_min in E by lia.
    rewrite <- (zlen_contents r Hok), zdrop_min in Ec by lia.
    rewrite <- (zlen_contents r Hok). by exists r'.
  - eexists. split; [done|]. unfold dvb_ringbuffer_flush, rb_ok, contents, dvb_ringbuffer_avail. simpl.
    rewrite Z.sub_diag. simpl. split_and!; (done || lia).
  - eexists. split; [done|]. unfold dvb_ringbuffer_reset, rb_ok, contents, dvb_ringbuffer_avail. simpl.
    split_and!; (done || lia).
Qed.

(** C9: A ring buffer of [size] bytes is a first-in first-out queue of capacity
    [size - 1]: for every sequence of guarded writes, reads, flushes and resets, no copy
    leaves the data area, and the bytes read are those that the abstract queue gives,
    also across the wrap-around of either pointer. *)
Theorem dvb_ringbuffer_fifo r os :
  rb_ok r ->
  exists r', ring_run r os = Some ((queue_run (rb_size r - 1) (contents r) os).1, r') /\
    rb_ok r' /\ contents r' = (queue_run (rb_size r - 1) (contents r) os).2 /\
    dvb_ringbuffer_avail r' = zlen (contents r') /\
    dvb_ringbuffer_free r' = rb_size r - 1 - zlen (contents r') /\
    (dvb_ringbuffer_empty r' = true <-> contents r' = []).
Proof.
  revert r. induction os as [|o os IH]; intros r Hok.
  - exists r. destruct (avail_free r Hok) as [Hf _]. pose proof (zlen_contents r Hok) as Hz.
    split_and!; try done; [lia|split].
    + unfold dvb_ringbuffer_empty. intros E. apply zlen_nil_inv. rewrite Hz.
      pose proof (avail_cases r). pose proof (avail_range r Hok). lia.
    + unfold dvb_ringbuffer_empty. intros E. rewrite E in Hz. change (zlen []) with 0 in Hz.
      pose proof (avail_cases r). pose proof Hok as (? & ? & ? & ?). lia.
  - pose proof (ring_step_refines r o Hok) as Hst. simpl.
    destruct (queue_step _ _ o) as [out q]. destruct Hst as (r1 & -> & Hok1 & <- & Hsz). simpl.
    destruct (IH r1 Hok1) as (r' & E & H). rewrite Hsz in *.
    destruct (queue_run _ (contents r1) os) as [outs q']. simpl in *. rewrite E. by exists r'.
Qed.

Lemma init_ok data len : 0 < len < 2 ^ 31 -> zlen data = len ->
  rb_ok (dvb_ringbuffer_init data len) /\ contents (dvb_ringbuffer_init data len) = [].
Proof. intros. unfold rb_ok, contents, dvb_ringbuffer_avail. simpl. split_and!; (done || lia). Qed.

(** A ring of five bytes, written and read across its end. *)
Lemma dvb_ringbuffer_fifo_witness :
  exists r', ring_run (dvb_ringbuffer_init [0; 0; 0; 0; 0] 5)
      [RWrite [1; 2; 3]; RRead 2; RWrite [4; 5; 6]; RWrite [7]; RRead 9] =
    Some ([[]; [1; 2]; []; []; [3; 4; 5; 6]], r').
Proof.
  destruct (dvb_ringbuffer_fifo (dvb_ringbuffer_init [0; 0; 0; 0; 0] 5)
    [RWrite [1; 2; 3]; RRead 2; RWrite [4; 5; 6]; RWrite [7]; RRead 9]) as (r' & E & _).
  - apply (init_ok [0; 0; 0; 0; 0] 5); [lia|reflexivity].
  - exists r'. exact E.
Defined.

(** ** The packet queue

    A packet buffer holds packets one behind the other, each a 16-bit length, a status
    and its bytes. *)

Record packet := Packet { p_status : Z; p_bytes : list Z }.

Definition packet_ok (p : packet) : Prop :=
  (p_status p = PKT_READY \/ p_status p = PKT_DISPOSED) /\ 0 < zlen (p_bytes p) < 65536.

Definition encode_pkt (p : packet) : list Z :=
  [zlen (p_bytes p) / 256; zlen (p_bytes p) mod 256; p_status p] ++ p_bytes p.
Definition encode_pkts (ps : list packet) : list Z := flat_map encode_pkt ps.

Definition holds (r : dvb_ringbuffer) (ps : list packet) : Prop :=
  rb_ok r /\ Forall packet_ok ps /\ contents r = encode_pkts ps.

(** The index of a packet behind the packets [ps]. *)
Definition index_after (r : dvb_ringbuffer) (ps : list packet) : Z :=
  (rb_pread r + zlen (encode_pkts ps)) mod rb_size r.

Lemma encode_pkt_len p : zlen (encode_pkt p) = 3 + zlen (p_bytes p).
Proof. unfold encode_pkt. rewrite zlen_app. done. Qed.
Lemma encode_pkts_app a b : encode_pkts (a ++ b) = encode_pkts a ++ encode_pkts b.
Proof. apply flat_map_app. Qed.
Lemma encode_pkts_cons p b : encode_pkts (p :: b) = encode_pkt p ++ encode_pkts b.
Proof. done. Qed.

Lemma encode_pkts_count ps : Forall packet_ok ps -> 4 * Z.of_nat (length ps) <= zlen (encode_pkts ps).
Proof.
  induction 1 as [|p ps [_ Hp] Hps IH]; [done|]. rewrite encode_pkts_cons, zlen_app, encode_pkt_len.
  simpl length. lia.
Qed.

Lemma zat_contents r k :
  rb_ok r -> 0 <= k < dvb_ringbuffer_avail r ->
  (contents r).[k] = (rb_data r).[(rb_pread r + k) mod rb_size r].
Proof. intros (_ & Hl & _) Hk. unfold contents. by rewrite zat_ring_slice, Hl by lia. Qed.

(** What lies at the index of a packet. *)
Lemma packet_at r ps p ps' :
  holds r (ps ++ p :: ps') ->
  let idx := index_after r ps in
  0 <= idx < rb_size r /\
  zget (rb_data r) idx = Some (zlen (p_bytes p) / 256) /\
  zget (rb_data r) ((idx + 1) mod rb_size r) = Some (zlen (p_bytes p) mod 256) /\
  zget (rb_data r) ((idx + 2) mod rb_size r) = Some (p_status p) /\
  (forall a n, 0 <= a -> 0 <= n -> a + n <= zlen (p_bytes p) ->
     ring_slice (rb_data r) ((idx + 3 + a) mod rb_size r) n = ztake n (zdrop a (p_bytes p))) /\
  Z.lor (Z.shiftl (zlen (p_bytes p) / 256) 8) (zlen (p_bytes p) mod 256) = zlen (p_bytes p) /\
  zlen (encode_pkts ps) + (3 + zlen (p_bytes p)) <= dvb_ringbuffer_avail r.
Proof.
  intros (Hok & Hps & Hc) idx. pose proof (avail_range r Hok). pose proof (zlen_contents r Hok) as Hz.
  pose proof (fun k => zat_contents r k Hok) as Hat. pose proof Hok as (Hs & Hl & Hr & Hw).
  apply Forall_app in Hps as [_ Hps]. inversion Hps as [|? ? [_ Hp] _]; subst.
  rewrite encode_pkts_app, encode_pkts_cons in Hc. rewrite Hc in Hat, Hz.
  set (off := zlen (encode_pkts ps)) in *. assert (Hoff : 0 <= off) by apply zlen_nonneg.
  rewrite !zlen_app, encode_pkt_len in Hz. fold off in Hz. pose proof (zlen_nonneg (encode_pkts ps')).
  assert (Hget : forall k, 0 <= k < 3 + zlen (p_bytes p) ->
            (rb_data r).[(idx + k) mod rb_size r] = (encode_pkt p).[k]).
  { intros k Hk. specialize (Hat (off + k) ltac:(lia)).
    unfold idx, index_after. fold off. rewrite Zplus_mod_idemp_l, <- Z.add_assoc, <- Hat.
    rewrite zat_app by lia. rewrite decide_False by (fold off; lia).
    fold off. rewrite zat_app, encode_pkt_len by lia. rewrite decide_True by lia. f_equal. lia. }
  assert (Hidx : 0 <= idx < rb_size r) by (apply Z.mod_pos_bound; lia).
  assert (Hb : forall k, 0 <= (idx + k) mod rb_size r < rb_size r) by (intros; apply Z.mod_pos_bound; lia).
  split_and!; try lia.
  - rewrite zget_in by lia. specialize (Hget 0 ltac:(lia)).
    rewrite Z.add_0_r, Z.mod_small in Hget by lia. by rewrite Hget.
  - rewrite zget_in by (rewrite Hl; apply Hb). by rewrite Hget by lia.
  - rewrite zget_in by (rewrite Hl; apply Hb). by rewrite Hget by lia.
  - intros a n Ha Hn Han. apply zlist_eq.
    { rewrite zlen_ring_slice, zlen_ztake by (rewrite ?zlen_zdrop; lia). done. }
    rewrite zlen_ring_slice by lia. intros k Hk.
    rewrite zat_ring_slice, Hl, Zplus_mod_idemp_l by lia.
    replace (idx + 3 + a + k) with (idx + (3 + a + k)) by lia. rewrite Hget by lia.
    unfold encode_pkt. rewrite zat_app by lia. change (zlen [_; _; _]) with 3.
    rewrite decide_False, zat_ztake, zat_zdrop by lia. f_equal. lia.
  - rewrite lor_byte by lia. lia.
Qed.

(** [DVB_RINGBUFFER_WRITE_BYTE] is a write of one byte. *)
Lemma write_byte_run r b :
  rb_ok r -> 1 <= dvb_ringbuffer_free r ->
  exists r', DVB_RINGBUFFER_WRITE_BYTE r b = Some r' /\ rb_ok r' /\
    contents r' = contents r ++ [u8 b] /\ rb_size r' = rb_size r.
Proof.
  intros Hok Hf. destruct (write_run r [u8 b] Hok ltac:(done)) as (r' & E & H1 & H2 & H3 & _).
  exists r'. split; [|done]. destruct Hok as (Hs & Hl & Hr & Hw).
  unfold dvb_ringbuffer_write in E. change (zlen [u8 b]) with 1 in E.
  rewrite (proj2 (Z.ltb_ge (rb_size r) (rb_pwrite r + 1))) in E by lia. simpl in E.
  unfold DVB_RINGBUFFER_WRITE_BYTE. destruct (copy_into _ _ _) as [d|]; [|done].
  simpl in *. by injection E as ->.
Qed.

(** A packet write appends a ready packet. *)
Lemma pkt_write_run r ps buf :
  holds r ps -> 0 < zlen buf < 65536 -> zlen buf + 3 <= dvb_ringbuffer_free r ->
  exists r', dvb_ringbuffer_pkt_write r buf = Some (zlen buf, r') /\
    holds r' (ps ++ [Packet PKT_READY buf]) /\ rb_size r' = rb_size r.
Proof.
  intros (Hok & Hps & Hc) Hb Hf. unfold dvb_ringbuffer_pkt_write.
  assert (Hfree : forall r0, rb_ok r0 -> dvb_ringbuffer_free r0 = rb_size r0 - 1 - zlen (contents r0)).
  { intros r0 H0. rewrite zlen_contents by done. by apply avail_free. }
  rewrite Hfree in Hf by done.
  destruct (write_byte_run r (Z.shiftr (zlen buf) 8) Hok) as (r1 & -> & Hok1 & Hc1 & Hs1);
    [rewrite Hfree by done; lia|].
  pose proof (f_equal zlen Hc1) as Hl1. rewrite zlen_app in Hl1. change (zlen [_]) with 1 in Hl1. simpl.
  destruct (write_byte_run r1 (Z.land (zlen buf) 0xff) Hok1) as (r2 & -> & Hok2 & Hc2 & Hs2);
    [rewrite Hfree by done; lia|].
  pose proof (f_equal zlen Hc2) as Hl2. rewrite zlen_app in Hl2. change (zlen [_]) with 1 in Hl2. simpl.
  destruct (write_byte_run r2 PKT_READY Hok2) as (r3 & -> & Hok3 & Hc3 & Hs3);
    [rewrite Hfree by done; lia|].
  pose proof (f_equal zlen Hc3) as Hl3. rewrite zlen_app in Hl3. change (zlen [_]) with 1 in Hl3. simpl.
  destruct (write_run r3 buf Hok3) as (r4 & -> & Hok4 & Hc4 & Hs4 & _); [rewrite Hfree by done; lia|].
  simpl. assert (Hs32 : s32 (zlen buf) = zlen buf).
  { unfold s32. rewrite u32_small by lia. by rewrite decide_True by lia. }
  rewrite Hs32, (proj2 (Z.ltb_ge _ _)) by lia. exists r4. split; [done|]. split; [|congruence].
  split_and!; [done|apply Forall_app; split; [done|repeat constructor; simpl; auto; lia]|].
  rewrite Hc4, Hc3, Hc2, Hc1, Hc, encode_pkts_app, <- !app_assoc. f_equal.
  rewrite encode_pkts_cons. unfold encode_pkt. simpl. rewrite app_nil_r, shiftr_8, land_255.
  by rewrite !u8_small by lia.
Qed.

Definition dispose (p : packet) : packet := Packet PKT_DISPOSED (p_bytes p).
Definition ready (p : packet) : bool := p_status p =? PKT_READY.

(** The queue without the disposed packets at its front. *)
Fixpoint drop_disposed (ps : list packet) : list packet :=
  match ps with
  | p :: ps' => if ready p then ps else drop_disposed ps'
  | [] => []
  end.

(** The first ready packet, with the packets before it. *)
Fixpoint first_ready (before ps : list packet) : option (list packet * packet) :=
  match ps with
  | p :: ps' => if ready p then Some (before, p) else first_ready (before ++ [p]) ps'
  | [] => None
  end.

(** What [pkt_next] answers about it. *)
Definition next_result (r : dvb_ringbuffer) (o : option (list packet * packet)) : Z * Z + unit :=
  match o with
  | Some (ps, p) => inl (index_after r ps, zlen (p_bytes p))
  | None => inr tt
  end.

Lemma holds_count r ps : holds r ps -> (length ps < length (rb_data r))%nat.
Proof.
  intros (Hok & Hps & Hc). pose proof (encode_pkts_count _ Hps) as H. rewrite <- Hc, zlen_contents in H by done.
  pose proof (avail_range r Hok). destruct Hok as (? & Hl & _). unfold zlen in Hl. lia.
Qed.

Lemma holds_avail r ps : holds r ps -> dvb_ringbuffer_avail r = zlen (encode_pkts ps).
Proof. intros (Hok & _ & Hc). by rewrite <- Hc, zlen_contents. Qed.

Lemma index_after_app r a b :
  rb_ok r -> (index_after r a + zlen (encode_pkts b)) mod rb_size r = index_after r (a ++ b).
Proof.
  intros (Hs & _). unfold index_after.
  rewrite encode_pkts_app, zlen_app, Zplus_mod_idemp_l. f_equal. lia.
Qed.

Lemma index_after_snoc r a p :
  rb_ok r -> (index_after r a + zlen (p_bytes p) + 3) mod rb_size r = index_after r (a ++ [p]).
Proof.
  intros Hok. rewrite <- index_after_app by done. rewrite encode_pkts_cons, zlen_app, encode_pkt_len.
  change (zlen (encode_pkts [])) with 0. f_equal. lia.
Qed.

Lemma index_after_nil r : rb_ok r -> index_after r [] = rb_pread r.
Proof. intros (Hs & _ & Hr & _). unfold index_after. rewrite Z.add_0_r. by apply Z.mod_small. Qed.

(** The loop of [pkt_next] walks from packet to packet, also when [consumed] is too large
    by less than the size of every packet left. *)
Lemma pkt_next_loop_run r e rest : 0 <= e -> forall ps fuel,
  holds r (ps ++ rest) -> Forall (fun p => e < zlen (p_bytes p)) rest -> (length rest <= fuel)%nat ->
  pkt_next_loop fuel r (index_after r ps) (zlen (encode_pkts ps) + e) =
    Some (next_result r (first_ready ps rest)).
Proof.
  intros He. induction rest as [|p rest IH]; intros ps fuel H Hlt Hf; pose proof (holds_avail _ _ H) as Ha;
    pose proof H as (Hok & Hps & _); rewrite encode_pkts_app, zlen_app in Ha.
  - change (zlen (encode_pkts [])) with 0 in Ha.
    assert (E : (3 <? dvb_ringbuffer_avail r - (zlen (encode_pkts ps) + e)) = false) by lia.
    destruct fuel; cbn [pkt_next_loop]; unfold DVB_RINGBUFFER_PKTHDRSIZE; by rewrite E.
  - destruct fuel as [|fuel]; [simpl in Hf; lia|].
    destruct (packet_at r ps p rest H) as (Hi & E0 & E1 & E2 & _ & El & Hle).
    apply Forall_app in Hps as [_ Hps]. inversion Hps as [|? ? [Hst Hp] _]; subst.
    apply Forall_cons_iff in Hlt as [Hep Hlt].
    cbn [pkt_next_loop first_ready]. unfold DVB_RINGBUFFER_PKTHDRSIZE.
    rewrite (proj2 (Z.ltb_lt _ _)) by lia. rewrite E0. cbn [mbind option_bind].
    rewrite E1. cbn [mbind option_bind]. rewrite E2. cbn [mbind option_bind]. rewrite El.
    unfold ready. destruct (p_status p =? PKT_READY); [done|].
    rewrite index_after_snoc by done.
    replace (zlen (encode_pkts ps) + e + (zlen (p_bytes p) + 3)) with (zlen (encode_pkts (ps ++ [p])) + e).
    + apply IH; [by rewrite <- app_assoc|done|simpl in Hf; lia].
    + rewrite encode_pkts_app, zlen_app, encode_pkts_cons, zlen_app, encode_pkt_len.
      change (zlen (encode_pkts [])) with 0. lia.
Qed.

Lemma packets_nonempty r ps rest : holds r (ps ++ rest) -> Forall (fun p => 0 < zlen (p_bytes p)) rest.
Proof.
  intros (_ & Hps & _). apply Forall_app in Hps as [_ Hps].
  eapply Forall_impl; [|exact Hps]. by intros p [_ [? _]].
Qed.

(** [consumed]: the subtraction in [size_t] is the distance when the size divides 2^64. *)
Lemma consumed_exact r ps :
  holds r ps -> (rb_size r | 2 ^ 64) -> forall a b, ps = a ++ b ->
  s32 (u64 (index_after r a - rb_pread r) mod rb_size r) = zlen (encode_pkts a).
Proof.
  intros H Hdiv a b ->. pose proof (holds_avail _ _ H) as Ha. destruct H as (Hok & _ & _).
  pose proof (avail_range r Hok). pose proof Hok as (Hs & _).
  rewrite encode_pkts_app, zlen_app in Ha. pose proof (zlen_nonneg (encode_pkts a)).
  pose proof (zlen_nonneg (encode_pkts b)).
  assert (E : u64 (index_after r a - rb_pread r) mod rb_size r = zlen (encode_pkts a)).
  { unfold u64. rewrite Z.mod_mod_divide by done.
    unfold index_after. rewrite Zminus_mod_idemp_l.
    replace (rb_pread r + zlen (encode_pkts a) - rb_pread r) with (zlen (encode_pkts a)) by lia.
    by apply Z.mod_small; lia. }
  rewrite E. unfold s32. rewrite u32_small by lia. by rewrite decide_True by lia.
Qed.

Lemma pkt_next_start r ps : holds r ps ->
  dvb_ringbuffer_pkt_next r None = Some (next_result r (first_ready [] ps)).
Proof.
  intros H. pose proof H as (Hok & _). unfold dvb_ringbuffer_pkt_next. cbn [mbind option_bind].
  rewrite Z.sub_diag. unfold u64, s32, u32. rewrite !Zmod_0_l. rewrite decide_True by lia.
  rewrite <- (index_after_nil r Hok) at 1.
  apply (pkt_next_loop_run r 0 ps ltac:(lia) []); [done|by apply (packets_nonempty r [])|].
  pose proof (holds_count _ _ H). lia.
Qed.

Lemma pkt_next_after r ps p rest : holds r (ps ++ p :: rest) -> (rb_size r | 2 ^ 64) ->
  dvb_ringbuffer_pkt_next r (Some (index_after r ps)) = Some (next_result r (first_ready (ps ++ [p]) rest)).
Proof.
  intros H Hdiv. pose proof H as (Hok & _).
  destruct (packet_at r ps p rest H) as (Hi & E0 & E1 & _ & _ & El & _).
  unfold dvb_ringbuffer_pkt_next. rewrite E0. cbn [mbind option_bind]. rewrite E1. cbn [mbind option_bind].
  rewrite El, index_after_snoc by done.
  rewrite (consumed_exact r _ H Hdiv (ps ++ [p]) rest) by (by rewrite <- app_assoc).
  rewrite <- (Z.add_0_r (zlen _)). apply pkt_next_loop_run; [lia|by rewrite <- app_assoc| |].
  - apply (packets_nonempty r (ps ++ [p])). by rewrite <- app_assoc.
  - pose proof (holds_count _ _ H) as Hc. rewrite length_app in Hc. simpl in Hc. lia.
Qed.

(** With the 65535 bytes of dvb_ca_en50221.c, [consumed] is one too large once the index
    has wrapped around.  The answer is right while a byte of the ring is free and no
    packet is shorter than two bytes. *)
Lemma consumed_65535 r a b :
  holds r (a ++ b) -> rb_size r = 65535 -> 0 < dvb_ringbuffer_free r ->
  exists e, 0 <= e <= 1 /\
    s32 (u64 (index_after r a - rb_pread r) mod rb_size r) = zlen (encode_pkts a) + e.
Proof.
  intros H Hs Hfree. pose proof (holds_avail _ _ H) as Ha. destruct H as (Hok & _ & _).
  pose proof (avail_range r Hok). destruct (avail_free r Hok) as [Hf _].
  pose proof Hok as (_ & _ & Hr & _). rewrite encode_pkts_app, zlen_app in Ha.
  pose proof (zlen_nonneg (encode_pkts a)). pose proof (zlen_nonneg (encode_pkts b)).
  unfold index_after. rewrite Hs in *. set (L := zlen (encode_pkts a)) in *.
  assert (HL : 0 <= L <= 65533) by lia.
  assert (Hs32 : forall v, 0 <= v < 65535 -> s32 v = v).
  { intros v Hv. unfold s32. rewrite u32_small by lia. by rewrite decide_True by lia. }
  destruct (decide (rb_pread r + L < 65535)) as [Hlt|Hge].
  - exists 0. split; [lia|]. rewrite (Z.mod_small (_ + L)) by lia.
    rewrite u64_small by lia. rewrite (Z.mod_small (_ - _)) by lia. rewrite Hs32; lia.
  - exists 1. split; [lia|].
    rewrite (mod_wrap (rb_pread r) L 65535), decide_False by lia.
    assert (E : u64 (rb_pread r + L - 65535 - rb_pread r) = 281479271743489 * 65535 + (L + 1 - 65535)).
    { unfold u64. symmetry. apply (Z.mod_unique _ _ (-1)); lia. }
    rewrite E. replace (281479271743489 * 65535 + (L + 1 - 65535)) with (L + 1 + 281479271743488 * 65535) by lia.
    rewrite Z.mod_add, Z.mod_small by lia. apply Hs32. lia.
Qed.

Lemma pkt_next_after_65535 r ps p rest :
  holds r (ps ++ p :: rest) -> rb_size r = 65535 -> 0 < dvb_ringbuffer_free r ->
  Forall (fun p => 2 <= zlen (p_bytes p)) rest ->
  dvb_ringbuffer_pkt_next r (Some (index_after r ps)) = Some (next_result r (first_ready (ps ++ [p]) rest)).
Proof.
  intros H Hs Hfree Hlen. pose proof H as (Hok & _).
  destruct (packet_at r ps p rest H) as (Hi & E0 & E1 & _ & _ & El & _).
  unfold dvb_ringbuffer_pkt_next. rewrite E0. cbn [mbind option_bind]. rewrite E1. cbn [mbind option_bind].
  rewrite El, index_after_snoc by done.
  assert (H' : holds r ((ps ++ [p]) ++ rest)) by (by rewrite <- app_assoc).
  destruct (consumed_65535 r _ _ H' Hs Hfree) as (e & He & ->).
  apply pkt_next_loop_run; [lia|done| |].
  - eapply Forall_impl; [|exact Hlen]. simpl. lia.
  - pose proof (holds_count _ _ H) as Hc. rewrite length_app in Hc. simpl in Hc. lia.
Qed.

(** A packet read copies out a part of one packet. *)
Lemma pkt_read_run r ps p rest offset len :
  holds r (ps ++ p :: rest) -> 0 <= offset < 2 ^ 31 -> 0 <= len < 2 ^ 31 ->
  dvb_ringbuffer_pkt_read r (index_after r ps) offset len =
    Some (if zlen (p_bytes p) <? offset then (- EINVAL, [])
          else let b := ztake len (zdrop offset (p_bytes p)) in (zlen b, b)).
Proof.
  intros H Ho Hlen. pose proof H as (Hok & Hps & _). pose proof Hok as (Hs & Hl & _).
  pose proof (avail_range r Hok).
  destruct (packet_at r ps p rest H) as (Hi & E0 & E1 & _ & Hsl & El & Hle).
  pose proof (zlen_nonneg (encode_pkts ps)). pose proof (zlen_nonneg (p_bytes p)).
  unfold dvb_ringbuffer_pkt_read. rewrite E0. cbn [mbind option_bind]. rewrite E1. cbn [mbind option_bind].
  rewrite El. cbv zeta. rewrite (u64_small offset), (u64_small (offset + len)) by lia.
  destruct (zlen (p_bytes p) <? offset) eqn:Eo; [done|].
  set (n := if _ <? offset + len then _ else _).
  assert (Hn : 0 <= n <= zlen (p_bytes p) - offset /\ ztake len (zdrop offset (p_bytes p)) = ztake n (zdrop offset (p_bytes p))).
  { subst n. destruct (_ <? offset + len) eqn:E; [|split; [lia|done]].
    rewrite u64_small by lia. split; [lia|].
    rewrite !ztake_all by (rewrite zlen_zdrop; lia). done. }
  destruct Hn as [Hn ->]. clearbody n. rewrite zlen_ztake by (rewrite zlen_zdrop; lia).
  unfold DVB_RINGBUFFER_PKTHDRSIZE. rewrite u64_small by lia.
  specialize (Hsl offset n ltac:(lia) ltac:(lia) ltac:(lia)).
  pose proof (copy_from_ring (rb_data r) ((index_after r ps + 3 + offset) mod rb_size r) n) as Hcp.
  rewrite Hl in Hcp. specialize (Hcp ltac:(lia) ltac:(apply Z.mod_pos_bound; lia) ltac:(lia)).
  cbv zeta in Hcp. rewrite Hsl in Hcp. destruct (0 <? _).
  - destruct Hcp as (b1 & b2 & -> & E & E3 & _). cbn [mbind option_bind]. rewrite E. cbn [mbind option_bind].
    by rewrite E3.
  - by rewrite Hcp.
Qed.

(** Reading to user space is reading and then copying. *)
Lemma pkt_read_user_run copy_to_user r ps p rest offset len :
  (forall b, copy_to_user b = 0) ->
  holds r (ps ++ p :: rest) -> 0 <= offset < 2 ^ 31 -> 0 <= len < 2 ^ 31 ->
  dvb_ringbuffer_pkt_read_user copy_to_user r (index_after r ps) offset len =
    dvb_ringbuffer_pkt_read r (index_after r ps) offset len.
Proof.
  intros Hcp H Ho Hlen. unfold dvb_ringbuffer_pkt_read_user, dvb_ringbuffer_pkt_read.
  repeat lazymatch goal with
  | |- mbind _ ?x = _ => destruct x; cbn [mbind option_bind]; [|done]
  | |- (if copy_to_user _ =? 0 then _ else _) = _ => idtac
  | |- context [copy_to_user ?b =? 0] => rewrite (Hcp b); cbn [Z.eqb negb]
  | |- (if ?b then _ else _) = _ => destruct b; [|]; try done
  end; try done.
  all: repeat match goal with
    | |- context [copy_from ?d ?p ?n] => destruct (copy_from d p n); cbn [mbind option_bind]; rewrite ?Hcp; try done
    end.
Qed.

Lemma zset_middle (a b : list Z) x y : zset (a ++ x :: b) (zlen a) y = a ++ y :: b.
Proof.
  unfold zset, zlen. rewrite decide_True, Nat2Z.id by lia. rewrite insert_app_r_alt by lia.
  by rewrite Nat.sub_diag.
Qed.

(** Overwriting the status byte of a packet. *)
Lemma set_status_run r ps p rest :
  holds r (ps ++ p :: rest) ->
  exists d, copy_into (rb_data r) ((index_after r ps + 2) mod rb_size r) [PKT_DISPOSED] = Some d /\
    holds (set_data d r) (ps ++ dispose p :: rest).
Proof.
  intros H. pose proof H as (Hok & Hps & Hc). pose proof (avail_range r Hok).
  pose proof (packet_at r ps p rest H) as (_ & _ & _ & _ & _ & _ & Hle).
  pose proof (zlen_contents r Hok) as Hz. pose proof Hok as (Hs & Hl & Hr & Hw).
  pose proof (zlen_nonneg (encode_pkts ps)). pose proof (zlen_nonneg (p_bytes p)).
  set (off := zlen (encode_pkts ps) + 2). set (pos := (index_after r ps + 2) mod rb_size r).
  assert (Epos : pos = (rb_pread r + off) mod rb_size r).
  { unfold pos, index_after, off. rewrite Zplus_mod_idemp_l. f_equal. lia. }
  assert (Hpos : 0 <= pos < rb_size r) by (apply Z.mod_pos_bound; lia).
  unfold copy_into. rewrite decide_True by (change (zlen [_]) with 1; lia). eexists. split; [done|].
  set (d := zsplice _ _ _). assert (Hzd : zlen d = rb_size r).
  { unfold d. rewrite zlen_zsplice; change (zlen [_]) with 1; lia. }
  assert (Hok' : rb_ok (set_data d r)) by (unfold rb_ok; simpl; lia).
  split; [done|]. split.
  { apply Forall_app in Hps as [Ha Hb]. inversion Hb as [|? ? [_ Hp] Hps']; subst.
    apply Forall_app. split; [done|]. constructor; [split; [by right|done]|done]. }
  replace (contents (set_data d r)) with (zset (contents r) off PKT_DISPOSED).
  - rewrite Hc, !encode_pkts_app, !encode_pkts_cons. unfold encode_pkt.
    change (p_bytes (dispose p)) with (p_bytes p).
    pose proof (zset_middle (encode_pkts ps ++ [zlen (p_bytes p) / 256; zlen (p_bytes p) mod 256])
      (p_bytes p ++ encode_pkts rest) (p_status p) PKT_DISPOSED) as E.
    rewrite zlen_app in E. rewrite <- !app_assoc in E |- *. exact E.
  - symmetry. apply zlist_eq; rewrite ?zlen_zset, !zlen_contents by done; [done|].
    change (dvb_ringbuffer_avail (set_data d r)) with (dvb_ringbuffer_avail r). intros k Hk.
    rewrite zat_zset, !zat_contents by (try done; rewrite ?zlen_contents by done; unfold off; lia).
    simpl. unfold d. rewrite zat_zsplice by (change (zlen [_]) with 1; try case_decide; try lia; apply Z.mod_pos_bound; lia).
    change (zlen [_]) with 1. rewrite Epos.
    rewrite !mod_wrap by (unfold off; lia). unfold off.
    repeat case_decide; try lia; try done; by replace (_ - _) with 0 by lia.
Qed.

(** The disposed packets at the front. *)
Fixpoint disposed_front (ps : list packet) : list packet :=
  match ps with
  | p :: ps' => if ready p then [] else p :: disposed_front ps'
  | [] => []
  end.

Lemma disposed_front_app ps : disposed_front ps ++ drop_disposed ps = ps.
Proof. induction ps as [|p ps IH]; simpl; [done|]. destruct (ready p); simpl; by rewrite ?IH. Qed.

(** [r'] is [r] with the packets [f] at the front given up: every other packet keeps its
    index. *)
Definition advanced (r r' : dvb_ringbuffer) (f : list packet) : Prop :=
  rb_size r' = rb_size r /\ rb_pread r' = index_after r f.

Lemma advanced_index r r' f a : rb_ok r -> advanced r r' f -> index_after r' a = index_after r (f ++ a).
Proof.
  intros Hok [Hs Hp]. unfold index_after at 1. rewrite Hs, Hp. by apply index_after_app.
Qed.

(** The clean-up loop drops the disposed packets at the front. *)
Lemma pkt_clean_run fuel : forall r ps,
  holds r ps -> (length ps <= fuel)%nat ->
  exists r', pkt_clean fuel r = Some r' /\ holds r' (drop_disposed ps) /\ advanced r r' (disposed_front ps).
Proof.
  induction fuel as [|fuel IH]; intros r ps H Hf; pose proof (holds_avail _ _ H) as Ha;
    (destruct ps as [|p ps]; [|try (simpl in Hf; lia)]).
  1,2: exists r; cbn [pkt_clean disposed_front]; rewrite Ha; split; [done|]; split; [done|];
    split; [done|]; rewrite index_after_nil; [done|apply H].
  pose proof H as (Hok & Hps & Hc). pose proof (packet_at r [] p ps H) as Hp.
  rewrite index_after_nil in Hp by done. destruct Hp as (Hi & E0 & E1 & E2 & _ & El & Hle).
  inversion Hps as [|? ? [Hst Hpb] Hps']; subst. change (zlen (encode_pkts [])) with 0 in Hle.
  cbn [pkt_clean drop_disposed disposed_front]. unfold DVB_RINGBUFFER_PKTHDRSIZE, DVB_RINGBUFFER_PEEK.
  rewrite (proj2 (Z.ltb_lt _ _)) by lia. rewrite E2. cbn [mbind option_bind].
  rewrite Z.add_0_r, (Z.mod_small (rb_pread r)) by lia. rewrite E0. cbn [mbind option_bind].
  rewrite E1. cbn [mbind option_bind]. rewrite El. unfold ready.
  destruct Hst as [Est|Est]; rewrite Est; simpl.
  { exists r. split; [done|]. split; [done|]. split; [done|]. by rewrite index_after_nil. }
  unfold DVB_RINGBUFFER_SKIP.
  destruct (skip_contents r (zlen (p_bytes p) + 3) Hok ltac:(lia)) as (Hok' & _ & Hd & _).
  set (r1 := set_pread _ r) in *.
  assert (Hadv : advanced r r1 [p]).
  { split; [done|]. unfold r1, index_after. cbn [rb_pread set_pread].
    rewrite encode_pkts_cons, zlen_app, encode_pkt_len. change (zlen (encode_pkts [])) with 0. f_equal. lia. }
  destruct (IH r1 ps) as (r' & E & Hh & Hsz & Hpr); [|simpl in Hf; lia|].
  - split; [done|split; [done|]]. rewrite Hd, Hc, encode_pkts_cons.
    apply zdrop_app. rewrite encode_pkt_len. lia.
  - exists r'. split; [done|]. split; [done|]. split; [by rewrite Hsz|].
    by rewrite Hpr, (advanced_index r r1 [p]).
Qed.

Lemma pkt_dispose_run r ps p rest :
  holds r (ps ++ p :: rest) ->
  exists r', dvb_ringbuffer_pkt_dispose r (index_after r ps) = Some r' /\
    holds r' (drop_disposed (ps ++ dispose p :: rest)) /\
    advanced r r' (disposed_front (ps ++ dispose p :: rest)).
Proof.
  intros H. destruct (set_status_run r ps p rest H) as (d & E & H').
  unfold dvb_ringbuffer_pkt_dispose. rewrite E. cbn [mbind option_bind].
  destruct (pkt_clean_run (length d) _ _ H') as (r' & E' & Hh & Hsz & Hp).
  - pose proof (holds_count _ _ H'). simpl in *. lia.
  - exists r'. done.
Qed.

(** When [pkt_next] counts right from a packet on, [rest] being the packets behind it: the
    size of the ring divides 2^64, or it is that of dvb_ca_en50221.c, no packet behind is
    shorter than two bytes and a byte of the ring is free. *)
Definition next_exact (r : dvb_ringbuffer) (rest : list packet) : Prop :=
  (rb_size r | 2 ^ 64) \/
  rb_size r = 65535 /\ 0 < dvb_ringbuffer_free r /\ Forall (fun p => 2 <= zlen (p_bytes p)) rest.

(** C10: The packet interface of a ring buffer is a queue of packets, while its packets
    have from 1 to 65535 bytes and what is written fits: writing appends a ready packet;
    [pkt_next] without an index answers the first ready packet; reading a packet at an
    offset copies out exactly its bytes, or refuses an offset behind its end; disposing a
    packet marks it and frees the disposed packets at the front.  [pkt_next] behind a
    packet answers the next ready one when the size of the ring divides 2^64, and with the
    65535 bytes of dvb_ca_en50221.c when the packets behind have two bytes or more and a
    byte of the ring is free.  No loop runs out of fuel and no access leaves the data area. *)
Theorem dvb_ringbuffer_packet_queue r ps p rest buf offset len :
  holds r (ps ++ p :: rest) ->
  0 < zlen buf < 65536 -> zlen buf + 3 <= dvb_ringbuffer_free r ->
  0 <= offset < 2 ^ 31 -> 0 <= len < 2 ^ 31 ->
  let idx := index_after r ps in
  (exists r', dvb_ringbuffer_pkt_write r buf = Some (zlen buf, r') /\
     holds r' (ps ++ p :: rest ++ [Packet PKT_READY buf])) /\
  dvb_ringbuffer_pkt_next r None = Some (next_result r (first_ready [] (ps ++ p :: rest))) /\
  (next_exact r rest ->
     dvb_ringbuffer_pkt_next r (Some idx) = Some (next_result r (first_ready (ps ++ [p]) rest))) /\
  dvb_ringbuffer_pkt_read r idx offset len =
    Some (if zlen (p_bytes p) <? offset then (- EINVAL, [])
          else let b := ztake len (zdrop offset (p_bytes p)) in (zlen b, b)) /\
  (exists r', dvb_ringbuffer_pkt_dispose r idx = Some r' /\
     holds r' (drop_disposed (ps ++ dispose p :: rest))).
Proof.
  intros H Hb Hf Ho Hn idx. split_and!.
  - destruct (pkt_write_run r _ buf H Hb Hf) as (r' & E & H' & _). exists r'. split; [done|].
    by rewrite <- app_assoc in H'.
  - by apply pkt_next_start.
  - intros [Hdiv|(Hs & Hfree & Hlen)]; [by apply (pkt_next_after r ps p rest)|].
    by apply (pkt_next_after_65535 r ps p rest).
  - by apply (pkt_read_run r ps p rest).
  - destruct (pkt_dispose_run r ps p rest H) as (r' & E & H' & _). by exists r'.
Qed.

(** Two packets; the second is found behind the first and disposed of.  And the ring of a CA
    slot, where a packet is found across its end. *)
Definition ca_ring : dvb_ringbuffer :=
  DvbRingbuffer ([20; 21; 0; 2; 0; 30; 31] ++ replicate (Z.to_nat 65520) 0 ++ [0; 2; 1; 10; 11; 0; 2; 1])
    65535 65527 7 0.
Lemma dvb_ringbuffer_packet_queue_witness :
  let r := DvbRingbuffer [0; 1; 0; 10; 0; 2; 0; 20; 21; 0; 0; 0; 0; 0; 0; 0] 16 0 9 0 in
  (exists r', dvb_ringbuffer_pkt_dispose r (index_after r [Packet PKT_READY [10]]) = Some r' /\
     holds r' [Packet PKT_READY [10]; Packet PKT_DISPOSED [20; 21]]) /\
  dvb_ringbuffer_pkt_next r (Some 0) = Some (inl (4, 2)) /\
  dvb_ringbuffer_pkt_next ca_ring (Some 65527) = Some (inl (2, 2)).
Proof.
  intros r.
  assert (H : holds r ([Packet PKT_READY [10]] ++ Packet PKT_READY [20; 21] :: [])).
  { split; [|split; [|reflexivity]]; [by unfold rb_ok; rewrite <- (bool_decide_eq_true _)|].
    by rewrite <- (bool_decide_eq_true _). }
  split; [|split; [reflexivity|]].
  - destruct (dvb_ringbuffer_packet_queue r [Packet PKT_READY [10]] (Packet PKT_READY [20; 21]) []
      [1] 0 0 H ltac:(done) ltac:(vm_compute; discriminate) ltac:(lia) ltac:(lia))
      as (_ & _ & _ & _ & H'). exact H'.
  - set (rest := [Packet PKT_DISPOSED [20; 21]; Packet PKT_READY [30; 31]]).
    assert (Hr : holds ca_ring ([] ++ Packet PKT_DISPOSED [10; 11] :: rest)).
    { split; [|split; [by apply (bool_decide_unpack _); vm_compute|by vm_compute]].
      unfold rb_ok. apply (bool_decide_unpack _). by vm_compute. }
    destruct (dvb_ringbuffer_packet_queue ca_ring [] (Packet PKT_DISPOSED [10; 11]) rest [1; 2] 0 0 Hr
      ltac:(done) ltac:(vm_compute; discriminate) ltac:(lia) ltac:(lia)) as (_ & _ & Hn & _).
    rewrite (Hn : _ -> dvb_ringbuffer_pkt_next ca_ring (Some 65527) = _); [by vm_compute|].
    right. split; [done|]. split; [by vm_compute|]. by apply (bool_decide_unpack _); vm_compute.
Defined.

(** With another size the unsigned subtraction of [pkt_next] is wrong once the index has
    wrapped around: behind the last of two packets it reports a packet of length 0 that
    was never written, where it should answer -1. *)
Definition wrapped_ring : dvb_ringbuffer :=
  DvbRingbuffer [0; 65; 0; 1; 0; 66; 0; 0; 0; 1] 10 8 6 0.
Example dvb_ringbuffer_pkt_next_phantom :
  holds wrapped_ring [Packet PKT_READY [65]; Packet PKT_READY [66]] /\
  dvb_ringbuffer_pkt_next wrapped_ring (Some (index_after wrapped_ring [Packet PKT_READY [65]])) =
    Some (inl (6, 0)) /\
  next_result wrapped_ring (first_ready [Packet PKT_READY [65]; Packet PKT_READY [66]] []) = inr tt.
Proof.
  split; [|split; reflexivity]. split; [by unfold rb_ok; rewrite <- (bool_decide_eq_true _)|].
  split; [by rewrite <- (bool_decide_eq_true _)|reflexivity].
Qed.
