(* ===== verification/DvbDemux.v ===== *)
(** * DvbDemux: the section filter of dvb-core/dvb_demux.c

    The feeds and filters of the software demultiplexer, and the path of one transport
    packet through a section feed: [dvb_dmx_swfilter_section_packet] collects payloads in
    [secbuf_base], cuts the collected bytes into sections and gives each to the filters
    of the feed. *)

From S2P Require Import Prelude.

Definition DMX_TYPE_TS : Z := 0.
Definition DMX_TYPE_SEC : Z := 1.
Definition DMX_STATE_FREE : Z := 0.
Definition DMX_STATE_ALLOCATED : Z := 1.
Definition DMX_STATE_READY : Z := 3.
Definition DMX_STATE_GO : Z := 4.
Definition DVB_DEMUX_MASK_MAX : Z := 18.
Definition DMX_MAX_SECTION_SIZE : Z := 4096.
Definition DMX_MAX_SECFEED_SIZE : Z := DMX_MAX_SECTION_SIZE + 188.

(** A filter; [filter_feed] is the index of the feed it belongs to. *)
Record dvb_demux_filter := Filter {
  filter_value : list Z; filter_mask : list Z; filter_mode : list Z;
  maskandmode : list Z; maskandnotmode : list Z; doneq : Z;
  filter_state : Z; filter_type : Z; filter_feed : nat }.

(** [secbuf] is an offset into [secbuf_base]. *)
Record dmx_section_feed := SecFeed {
  check_crc : bool; crc_val : Z; secbuf : Z; secbuf_base : list Z;
  secbufp : Z; seclen : Z; tsfeedp : Z }.

(** A feed; the linked list of its filters is the list of their indices.  The field
    [is_filtering] is the first of both members of the union [feed]. *)
Record dvb_demux_feed := Feed {
  feed_type : Z; feed_state : Z; feed_pid : Z; is_filtering : bool;
  feed_filter : list nat; ts_type : Z; pes_type : Z;
  feed_cc : Z; pusi_seen : bool; peslen : Z; sec : dmx_section_feed }.

Definition with_crc (v : Z) (s : dmx_section_feed) : dmx_section_feed :=
  SecFeed (check_crc s) v (secbuf s) (secbuf_base s) (secbufp s) (seclen s) (tsfeedp s).
Definition with_seclen (v : Z) (s : dmx_section_feed) : dmx_section_feed :=
  SecFeed (check_crc s) (crc_val s) (secbuf s) (secbuf_base s) (secbufp s) v (tsfeedp s).
Definition with_secbuf (b p : Z) (s : dmx_section_feed) : dmx_section_feed :=
  SecFeed (check_crc s) (crc_val s) b (secbuf_base s) p (seclen s) (tsfeedp s).
Definition with_base (d : list Z) (t : Z) (s : dmx_section_feed) : dmx_section_feed :=
  SecFeed (check_crc s) (crc_val s) (secbuf s) d (secbufp s) (seclen s) t.
Definition with_sec (s : dmx_section_feed) (f : dvb_demux_feed) : dvb_demux_feed :=
  Feed (feed_type f) (feed_state f) (feed_pid f) (is_filtering f) (feed_filter f)
    (ts_type f) (pes_type f) (feed_cc f) (pusi_seen f) (peslen f) s.
Definition with_cc (cc : Z) (f : dvb_demux_feed) : dvb_demux_feed :=
  Feed (feed_type f) (feed_state f) (feed_pid f) (is_filtering f) (feed_filter f)
    (ts_type f) (pes_type f) cc (pusi_seen f) (peslen f) (sec f).
Definition with_pusi (b : bool) (f : dvb_demux_feed) : dvb_demux_feed :=
  Feed (feed_type f) (feed_state f) (feed_pid f) (is_filtering f) (feed_filter f)
    (ts_type f) (pes_type f) (feed_cc f) b (peslen f) (sec f).
Definition with_peslen (n : Z) (f : dvb_demux_feed) : dvb_demux_feed :=
  Feed (feed_type f) (feed_state f) (feed_pid f) (is_filtering f) (feed_filter f)
    (ts_type f) (pes_type f) (feed_cc f) (pusi_seen f) n (sec f).

(** What the callbacks of the demultiplexer are given. *)
Inductive event :=
| EvSection (filter : nat) (data : list Z)
| EvTs (feed : nat) (data : list Z)
| EvDecoder (feed : nat) (data : list Z).

(** ** Packet headers *)

Definition section_length (b1 b2 : Z) : Z := u16 (3 + Z.shiftl (Z.land b1 0x0f) 8 + b2).
Definition ts_pid (buf : list Z) : Z := u16 (Z.shiftl (Z.land buf.[1] 0x1f) 8 + buf.[2]).

Definition payload (tsp : list Z) : Z :=
  if Z.land tsp.[3] 0x10 =? 0 then 0
  else if negb (Z.land tsp.[3] 0x20 =? 0) then
    if 183 <? tsp.[4] then 0 else u8 (184 - 1 - tsp.[4])
  else 184.

(** ** Section filters *)

(** The loop over the filters of a feed in [prepare_secfilters], for one filter. *)
Fixpoint prepare_masks (mode mask : list Z) (n : nat) (i : Z) : list Z * list Z * Z :=
  match n with
  | O => ([], [], 0)
  | S n =>
      let '(am, an, dq) := prepare_masks mode mask n (i + 1) in
      let a := Z.land mask.[i] mode.[i] in
      let b := u8 (Z.land mask.[i] (Z.lnot mode.[i])) in
      (a :: am, b :: an, Z.lor b dq)
  end.
Definition prepare_secfilter (f : dvb_demux_filter) : dvb_demux_filter :=
  let '(am, an, dq) := prepare_masks (filter_mode f) (filter_mask f) (Z.to_nat DVB_DEMUX_MASK_MAX) 0 in
  Filter (filter_value f) (filter_mask f) (filter_mode f) am an
    (if dq =? 0 then 0 else 1) (filter_state f) (filter_type f) (filter_feed f).

Section callbacks.
(** The kernel's CRC; the results of the client's callbacks; the bytes of the structure
    behind [secbuf_base], which [secbuf[i]] reaches when it leaves the array. *)
Context (crc32_be : Z -> list Z -> Z).
Context (cb_sec : nat -> list Z -> Z).
Context (after_base : Z -> Z).

(** [sec->secbuf[i]] *)
Definition secbuf_at (s : dmx_section_feed) (i : Z) : Z :=
  match zget (secbuf_base s) (secbuf s + i) with
  | Some b => b
  | None => after_base (secbuf s + i - DMX_MAX_SECFEED_SIZE)
  end.
Definition secbuf_data (s : dmx_section_feed) (n : Z) : list Z := map (secbuf_at s) (seqZ 0 n).

Definition dvb_dmx_crc32 (s : dmx_section_feed) (src : list Z) : dmx_section_feed * Z :=
  let c := crc32_be (crc_val s) src in (with_crc c s, c).

(** The comparison loop: [None] is its [return 0]. *)
Fixpoint sectionfilter_loop (s : dmx_section_feed) (f : dvb_demux_filter) (n : nat) (i neq : Z) :
    option Z :=
  match n with
  | O => Some neq
  | S n =>
      let xor := u8 (Z.lxor (filter_value f).[i] (secbuf_at s i)) in
      if negb (Z.land (maskandmode f).[i] xor =? 0) then None
      else sectionfilter_loop s f n (i + 1) (u8 (Z.lor neq (Z.land (maskandnotmode f).[i] xor)))
  end.

Definition dvb_dmx_swfilter_sectionfilter (s : dmx_section_feed) (i : nat) (f : dvb_demux_filter) :
    list event * Z :=
  match sectionfilter_loop s f (Z.to_nat DVB_DEMUX_MASK_MAX) 0 0 with
  | None => ([], 0)
  | Some neq =>
      if negb (doneq f =? 0) && (neq =? 0) then ([], 0)
      else let data := secbuf_data s (seclen s) in ([EvSection i data], cb_sec i data)
  end.

(** The [do ... while] over the filters.  No callback changes [is_filtering]. *)
Fixpoint section_feed_filters (filters : list dvb_demux_filter) (s : dmx_section_feed)
    (chain : list nat) : option (list event * Z) :=
  match chain with
  | [] => Some ([], 0)
  | i :: chain =>
      f ← filters !! i;
      let '(ev, ret) := dvb_dmx_swfilter_sectionfilter s i f in
      if ret <? 0 then Some (ev, -1)
      else '(evs, ret) ← section_feed_filters filters s chain; Some (ev ++ evs, ret)
  end.

Definition dvb_dmx_swfilter_section_feed (filters : list dvb_demux_filter) (feed : dvb_demux_feed) :
    option (dvb_demux_feed * list event * Z) :=
  let s := sec feed in
  if negb (is_filtering feed) then Some (feed, [], 0)
  else match feed_filter feed with
  | [] => Some (feed, [], 0)
  | chain =>
      let '(s, bad) :=
        if check_crc s then
          if negb (Z.land (secbuf_at s 1) 0x80 =? 0) then
            let '(s, c) := dvb_dmx_crc32 s (secbuf_data s (seclen s)) in (s, negb (c =? 0))
          else (s, false)
        else (s, false) in
      if (bad : bool) then Some (with_sec s feed, [], -1)
      else
        '(evs, ret) ← section_feed_filters filters s chain;
        if ret <? 0 then Some (with_sec s feed, evs, -1)
        else Some (with_sec (with_seclen 0 s) feed, evs, 0)
  end.

(** ** Collecting sections *)

Definition dvb_dmx_swfilter_section_new (feed : dvb_demux_feed) : dvb_demux_feed :=
  let s := sec feed in
  with_sec (with_base (secbuf_base s) 0 (with_seclen 0 (with_secbuf 0 0 s))) feed.

(** The loop that dumps the collected sections; [None] also when the fuel is used up. *)
Fixpoint copy_dump_loop (fuel : nat) (filters : list dvb_demux_filter) (limit : Z)
    (feed : dvb_demux_feed) : option (dvb_demux_feed * list event) :=
  let s := sec feed in
  if secbufp s + 2 <? limit then
    match fuel with
    | O => None
    | S fuel =>
        let n := section_length (secbuf_at s 1) (secbuf_at s 2) in
        if (n <=? 0) || (DMX_MAX_SECTION_SIZE <? n) || (limit <? n + secbufp s) then Some (feed, [])
        else
          let feed := with_sec (with_crc (2 ^ 32 - 1) (with_seclen n s)) feed in
          '(feed, evs) ←
            (if pusi_seen feed then
               '(feed, evs, _) ← dvb_dmx_swfilter_section_feed filters feed; Some (feed, evs)
             else Some (feed, []));
          let s := sec feed in
          let feed := with_sec (with_secbuf (secbuf s + n) (u16 (secbufp s + n)) s) feed in
          '(feed, evs') ← copy_dump_loop fuel filters limit feed;
          Some (feed, evs ++ evs')
    end
  else Some (feed, []).

(** [buf] and [len] together are the list [data]; the copy is cut to what fits. *)
Definition dvb_dmx_swfilter_section_copy_dump (filters : list dvb_demux_filter)
    (feed : dvb_demux_feed) (data : list Z) : option (dvb_demux_feed * list event * Z) :=
  let s := sec feed in
  let len := zlen data in
  if DMX_MAX_SECFEED_SIZE <=? tsfeedp s then Some (feed, [], 0) else
  let len := if DMX_MAX_SECFEED_SIZE <? tsfeedp s + len then u8 (DMX_MAX_SECFEED_SIZE - tsfeedp s)
             else len in
  if len <=? 0 then Some (feed, [], 0) else
  if decide (tsfeedp s + len <= zlen (secbuf_base s)) then
    let base := zsplice (secbuf_base s) (tsfeedp s) (ztake len data) in
    let s := with_base base (u16 (tsfeedp s + len)) s in
    let limit := tsfeedp s in
    if DMX_MAX_SECFEED_SIZE <? limit then Some (with_sec s feed, [], -1) else
    let s := with_secbuf (secbufp s) (secbufp s) s in
    '(feed, evs) ← copy_dump_loop (Z.to_nat limit) filters limit (with_sec s feed);
    Some (feed, evs, 0)
  else None.

Definition dvb_dmx_swfilter_section_packet (filters : list dvb_demux_filter)
    (feed : dvb_demux_feed) (buf : list Z) : option (dvb_demux_feed * list event * Z) :=
  let count := payload buf in
  if count =? 0 then Some (feed, [], -1) else
  let p := u8 (188 - count) in
  let cc := Z.land buf.[3] 0x0f in
  let ccok := Z.land (feed_cc feed + 1) 0x0f =? cc in
  let feed := with_cc cc feed in
  let dc_i := negb (Z.land buf.[3] 0x20 =? 0) && (0 <? buf.[4]) && negb (Z.land buf.[5] 0x80 =? 0) in
  let feed := if negb ccok || dc_i then dvb_dmx_swfilter_section_new (with_pusi false feed) else feed in
  if negb (Z.land buf.[1] 0x40 =? 0) then
    if (1 <? count) && (buf.[p] <? count) then
      let before_len := buf.[p] in
      let after_len := u8 (count - 1 - before_len) in
      '(feed, evs, _) ←
        dvb_dmx_swfilter_section_copy_dump filters feed (ztake before_len (zdrop (p + 1) buf));
      let feed := dvb_dmx_swfilter_section_new (with_pusi true feed) in
      '(feed, evs', _) ←
        dvb_dmx_swfilter_section_copy_dump filters feed
          (ztake after_len (zdrop (p + 1 + before_len) buf));
      Some (feed, evs ++ evs', 0)
    else Some (feed, [], 0)
  else
    '(feed, evs, _) ← dvb_dmx_swfilter_section_copy_dump filters feed (ztake count (zdrop p buf));
    Some (feed, evs, 0).

(** ** One packet for one feed *)

Definition TS_PACKET : Z := 1.
Definition TS_PAYLOAD_ONLY : Z := 2.
Definition TS_DECODER : Z := 4.
Definition TS_DEMUX : Z := 8.

Definition dvb_dmx_swfilter_payload (idx : nat) (feed : dvb_demux_feed) (buf : list Z) :
    dvb_demux_feed * list event :=
  let count := payload buf in
  if count =? 0 then (feed, []) else
  let p := 188 - count in
  let feed := if negb (Z.land buf.[1] 0x40 =? 0) then with_peslen 0xfffa feed else feed in
  let feed := with_peslen (u16 (peslen feed + count)) feed in
  (feed, [EvTs idx (ztake count (zdrop p buf))]).

(** [write_to_decoder] says whether the driver has that operation. *)
Definition dvb_dmx_swfilter_packet_type (filters : list dvb_demux_filter) (write_to_decoder : bool)
    (idx : nat) (feed : dvb_demux_feed) (buf : list Z) : option (dvb_demux_feed * list event) :=
  if feed_type feed =? DMX_TYPE_TS then
    if negb (is_filtering feed) then Some (feed, []) else
    let '(feed, evs) :=
      if negb (Z.land (ts_type feed) TS_PACKET =? 0) then
        if negb (Z.land (ts_type feed) TS_PAYLOAD_ONLY =? 0) then dvb_dmx_swfilter_payload idx feed buf
        else (feed, [EvTs idx (ztake 188 buf)])
      else (feed, []) in
    if negb (Z.land (ts_type feed) TS_DECODER =? 0) && write_to_decoder
    then Some (feed, evs ++ [EvDecoder idx (ztake 188 buf)]) else Some (feed, evs)
  else if feed_type feed =? DMX_TYPE_SEC then
    if negb (is_filtering feed) then Some (feed, []) else
    '(feed, evs, ret) ← dvb_dmx_swfilter_section_packet filters feed buf;
    if ret <? 0 then
      let s := sec feed in Some (with_sec (with_secbuf (secbuf s) 0 (with_seclen 0 s)) feed, evs)
    else Some (feed, evs)
  else Some (feed, []).
End callbacks.

(** ** What a filter accepts *)

(** The bits of [mask] at which [mode] is 1 must equal the filter value; if there are
    bits of [mask] at which [mode] is 0, one of them at least must differ. *)
Definition filter_xor (f : dvb_demux_filter) (d : list Z) (k : Z) : Z :=
  Z.lxor (filter_value f).[k] d.[k].
Definition positive (f : dvb_demux_filter) (k : Z) : Z := Z.land (filter_mask f).[k] (filter_mode f).[k].
Definition negative (f : dvb_demux_filter) (k : Z) : Z :=
  Z.land (filter_mask f).[k] (255 - (filter_mode f).[k]).
Definition accepts (f : dvb_demux_filter) (d : list Z) : bool :=
  forallb (fun k => Z.land (positive f k) (filter_xor f d k) =? 0) (seqZ 0 18) &&
  (forallb (fun k => negative f k =? 0) (seqZ 0 18) ||
   existsb (fun k => negb (Z.land (negative f k) (filter_xor f d k) =? 0)) (seqZ 0 18)).

Definition filter_ok (f : dvb_demux_filter) : Prop :=
  bytes (filter_value f) /\ bytes (filter_mask f) /\ bytes (filter_mode f) /\
  prepare_secfilter f = f.

(** The filter looks at the first [n] bytes only. *)
Definition filter_fits (f : dvb_demux_filter) (n : Z) : Prop :=
  forall k, n <= k -> (filter_mask f).[k] = 0.

Lemma lor_byte_range a b : byte a -> byte b -> byte (Z.lor a b).
Proof.
  intros Ha Hb. unfold byte in *.
  assert (E : Z.lor a b = Z.land (Z.lor a b) 255).
  { rewrite Z.land_lor_distr_l, !land_255, !Z.mod_small by lia. done. }
  rewrite E, land_255. apply Z.mod_pos_bound. lia.
Qed.

Lemma land_byte_range a b : 0 <= b < 256 -> byte (Z.land a b).
Proof. intros. unfold byte. pose proof (land_range a b). lia. Qed.

Lemma land_lxor_u8 a x : byte a -> Z.land a (u8 x) = Z.land a x.
Proof.
  intros Ha. unfold byte in Ha. unfold u8. change (2 ^ 8) with 256.
  rewrite <- land_255, (Z.land_comm x), Z.land_assoc, land_255, Z.mod_small by lia. done.
Qed.

Lemma u8_lnot_land a b : byte a -> byte b -> u8 (Z.land a (Z.lnot b)) = Z.land a (255 - b).
Proof.
  intros Ha Hb. unfold byte in *. unfold u8. change (2 ^ 8) with 256.
  rewrite <- land_255. replace (255 - b) with (Z.land 255 (Z.lnot b)).
  - apply Z.bits_inj'. intros k Hk. rewrite !Z.land_spec.
    by destruct (Z.testbit a k), (Z.testbit (Z.lnot b) k), (Z.testbit 255 k).
  - rewrite Z.land_comm, land_255. unfold Z.lnot. lia.
Qed.

Lemma seqZ_S i n : seqZ i (Z.of_nat (S n)) = i :: seqZ (i + 1) (Z.of_nat n).
Proof. rewrite seqZ_cons by lia. f_equal. f_equal; lia. Qed.

Lemma zat_map_seqZ (g : Z -> Z) i n k : 0 <= k < n -> (map g (seqZ i n)).[k] = g (i + k).
Proof.
  intros. unfold zat, zget. rewrite decide_True by lia.
  rewrite list_lookup_fmap, lookup_seqZ_lt by lia. simpl. f_equal. lia.
Qed.


(** The masks that [prepare_secfilters] computes. *)
Lemma prepare_masks_run mode mask n : forall i,
  bytes mode -> bytes mask ->
  let '(am, an, dq) := prepare_masks mode mask n i in
  am = map (fun k => Z.land mask.[k] mode.[k]) (seqZ i (Z.of_nat n)) /\
  an = map (fun k => Z.land mask.[k] (255 - mode.[k])) (seqZ i (Z.of_nat n)) /\
  byte dq /\ (dq =? 0) = forallb (fun k => Z.land mask.[k] (255 - mode.[k]) =? 0) (seqZ i (Z.of_nat n)).
Proof.
  induction n as [|n IH]; intros i Hmode Hmask; [done|].
  cbn [prepare_masks]. specialize (IH (i + 1) Hmode Hmask).
  destruct (prepare_masks _ _ n (i + 1)) as [[am an] dq]. destruct IH as (-> & -> & Hb & E).
  pose proof (zat_byte mask i Hmask) as H1. pose proof (zat_byte mode i Hmode) as H2.
  rewrite u8_lnot_land by done. rewrite seqZ_S. cbn [map forallb].
  assert (H3 : byte (Z.land mask.[i] (255 - mode.[i]))) by (apply land_byte_range; unfold byte in *; lia).
  split; [done|]. split; [done|]. split; [by apply lor_byte_range|]. rewrite <- E.
  apply Bool.eq_iff_eq_true. rewrite andb_true_iff, !Z.eqb_eq. apply Z.lor_eq_0_iff.
Qed.

Lemma prepare_secfilter_idem f : prepare_secfilter (prepare_secfilter f) = prepare_secfilter f.
Proof. unfold prepare_secfilter.
  destruct (prepare_masks (filter_mode f) (filter_mask f) _ 0) as [[am an] dq] eqn:E.
  cbn [filter_mode filter_mask]. by rewrite E.
Qed.

Lemma filter_ok_masks f : filter_ok f ->
  (forall k, 0 <= k < 18 -> (maskandmode f).[k] = positive f k /\ (maskandnotmode f).[k] = negative f k) /\
  (doneq f =? 0) = forallb (fun k => negative f k =? 0) (seqZ 0 18).
Proof.
  intros (Hv & Hm & Hmo & Hp). pose proof (prepare_masks_run (filter_mode f) (filter_mask f) 18 0 Hmo Hm) as H.
  unfold prepare_secfilter in Hp. change (Z.to_nat DVB_DEMUX_MASK_MAX) with 18%nat in Hp.
  destruct (prepare_masks _ _ _ _) as [[am an] dq]. destruct H as (-> & -> & _ & E).
  change (Z.of_nat 18) with 18 in *. pose proof (f_equal maskandmode Hp) as E1.
  pose proof (f_equal maskandnotmode Hp) as E2. pose proof (f_equal doneq Hp) as E3.
  cbn [maskandmode maskandnotmode doneq] in *. split.
  - intros k Hk. rewrite <- E1, <- E2, !zat_map_seqZ by lia. done.
  - unfold negative. rewrite <- E, <- E3. by destruct (dq =? 0).
Qed.

Section filter_lemmas.
Context (cb_sec : nat -> list Z -> Z) (after_base : Z -> Z).
Abbreviation at_ := (secbuf_at after_base).

Lemma sectionfilter_loop_run s f d n : forall i neq,
  filter_ok f -> byte neq -> 0 <= i -> i + Z.of_nat n <= 18 ->
  (forall k, i <= k < i + Z.of_nat n ->
     Z.land (filter_mask f).[k] (at_ s k) = Z.land (filter_mask f).[k] d.[k]) ->
  match sectionfilter_loop after_base s f n i neq with
  | None => forallb (fun k => Z.land (positive f k) (filter_xor f d k) =? 0) (seqZ i (Z.of_nat n)) = false
  | Some v =>
      forallb (fun k => Z.land (positive f k) (filter_xor f d k) =? 0) (seqZ i (Z.of_nat n)) = true /\
      negb (v =? 0) = negb (neq =? 0) ||
        existsb (fun k => negb (Z.land (negative f k) (filter_xor f d k) =? 0)) (seqZ i (Z.of_nat n))
  end.
Proof.
  induction n as [|n IH]; intros i neq Hf Hn Hi Hle Hs.
  { simpl. by rewrite orb_false_r. }
  destruct (filter_ok_masks f Hf) as [Hmk _]. pose proof Hf as (Hv & Hm & Hmo & _).
  assert (Hx : forall w, Z.land (Z.land (filter_mask f).[i] w) (Z.lxor (filter_value f).[i] (at_ s i)) =
                 Z.land (Z.land (filter_mask f).[i] w) (filter_xor f d i)).
  { intros w. specialize (Hs i ltac:(lia)). unfold filter_xor.
    apply Z.bits_inj'. intros k Hk. apply (f_equal (fun z => Z.testbit z k)) in Hs.
    rewrite !Z.land_spec in *. rewrite !Z.lxor_spec.
    destruct (Z.testbit (filter_mask f).[i] k); [|done]. simpl in *. by rewrite Hs. }
  assert (Hb : forall w, byte (Z.land (filter_mask f).[i] w)).
  { intros w. rewrite Z.land_comm. apply land_byte_range. by apply zat_byte. }
  destruct (Hmk i ltac:(lia)) as [Ea En].
  cbn [sectionfilter_loop]. rewrite seqZ_S. cbn [forallb existsb].
  rewrite Ea, En, !land_lxor_u8 by apply Hb.
  pose proof (Hx (filter_mode f).[i]) as Hp. pose proof (Hx (255 - (filter_mode f).[i])) as Hng.
  fold (positive f i) in Hp. fold (negative f i) in Hng. rewrite Hp, Hng.
  destruct (Z.land (positive f i) _ =? 0); [|done]. cbn [negb andb].
  assert (Hq : byte (Z.land (negative f i) (filter_xor f d i))).
  { rewrite Z.land_comm. apply land_byte_range, Hb. }
  specialize (IH (i + 1) (u8 (Z.lor neq (Z.land (negative f i) (filter_xor f d i)))) Hf (u8_byte _)
    ltac:(lia) ltac:(lia) ltac:(intros; apply Hs; lia)).
  destruct (sectionfilter_loop _ _ _ _ _ _) as [v|]; [|done].
  destruct IH as [-> ->]. split; [done|].
  rewrite u8_small by (by apply lor_byte_range). rewrite orb_assoc. f_equal.
  apply Bool.eq_iff_eq_true. rewrite orb_true_iff, !negb_true_iff, !Z.eqb_neq.
  rewrite Z.lor_eq_0_iff. destruct (decide (neq = 0)), (decide (Z.land (negative f i) (filter_xor f d i) = 0)); tauto.
Qed.

Lemma secbuf_data_at s n k : 0 <= k < n -> (secbuf_data after_base s n).[k] = at_ s k.
Proof. intros. unfold secbuf_data. by rewrite zat_map_seqZ by lia. Qed.

(** A filter sees a section exactly when the section matches it. *)
Lemma sectionfilter_run s i f :
  filter_ok f -> 0 <= seclen s -> filter_fits f (seclen s) ->
  let d := secbuf_data after_base s (seclen s) in
  dvb_dmx_swfilter_sectionfilter cb_sec after_base s i f =
    if accepts f d then ([EvSection i d], cb_sec i d) else ([], 0).
Proof.
  intros Hf Hl Hfit d. destruct (filter_ok_masks f Hf) as [_ Hq].
  unfold dvb_dmx_swfilter_sectionfilter, accepts. change (Z.to_nat DVB_DEMUX_MASK_MAX) with 18%nat.
  pose proof (sectionfilter_loop_run s f d 18 0 0 Hf ltac:(unfold byte; lia) ltac:(lia) ltac:(lia)) as H.
  destruct (sectionfilter_loop _ _ _ _ _ _) as [v|].
  - destruct H as [E1 E2].
    { intros k Hk. destruct (decide (k < seclen s)).
      - unfold d. by rewrite secbuf_data_at by lia.
      - by rewrite Hfit, !Z.land_0_l by lia. }
    change (Z.of_nat 18) with 18 in *. rewrite E1, Hq. cbn [Z.eqb negb orb] in E2. rewrite <- E2.
    by destruct (forallb _ _), (v =? 0).
  - change (Z.of_nat 18) with 18 in *. rewrite H; [done|]. intros k Hk. destruct (decide (k < seclen s)).
    + unfold d. by rewrite secbuf_data_at by lia.
    + by rewrite Hfit, !Z.land_0_l by lia.
Qed.
End filter_lemmas.

(** ** Cutting bytes into sections *)












(** ** What a section feed delivers *)

Section delivery.
Context (crc32_be : Z -> list Z -> Z) (cb_sec : nat -> list Z -> Z) (after_base : Z -> Z).
Context (filters : list dvb_demux_filter).






(** The feed after a section: only the CRC and [seclen] are changed. *)
Definition touched (feed : dvb_demux_feed) (c n : Z) : dvb_demux_feed :=
  with_sec (with_crc c (with_seclen n (sec feed))) feed.

Lemma touched_touched feed c n c' n' : touched (touched feed c n) c' n' = touched feed c' n'.
Proof. done. Qed.
Lemma touched_id feed : touched feed (crc_val (sec feed)) (seclen (sec feed)) = feed.
Proof. by destruct feed as [? ? ? ? ? ? ? ? ? ? []]. Qed.


(** *** The buffer *)

Definition sec_ok (s : dmx_section_feed) : Prop :=
  zlen (secbuf_base s) = DMX_MAX_SECFEED_SIZE /\ bytes (secbuf_base s) /\
  0 <= secbufp s <= tsfeedp s /\ tsfeedp s <= DMX_MAX_SECFEED_SIZE.

(** The bytes that are collected and not yet cut off. *)
Definition pending (s : dmx_section_feed) : list Z :=
  ztake (tsfeedp s - secbufp s) (zdrop (secbufp s) (secbuf_base s)).

(** The feed that has consumed its buffer up to [p]. *)
Definition moved (feed : dvb_demux_feed) (p c n : Z) : dvb_demux_feed :=
  touched (with_sec (with_secbuf p p (sec feed)) feed) c n.

Lemma moved_id feed : secbuf (sec feed) = secbufp (sec feed) ->
  exists c n, moved feed (secbufp (sec feed)) c n = feed.
Proof.
  intros E. exists (crc_val (sec feed)), (seclen (sec feed)).
  destruct feed as [? ? ? ? ? ? ? ? ? ? []]. simpl in *. by subst.
Qed.

Lemma zlen_pending s : sec_ok s -> zlen (pending s) = tsfeedp s - secbufp s.
Proof. intros (Hl & _ & Hp & Ht). unfold pending. rewrite zlen_ztake; [done|]. rewrite zlen_zdrop; lia. Qed.




(** What the client of a feed sees of it. *)
Definition same_client (f f' : dvb_demux_feed) : Prop :=
  feed_type f' = feed_type f /\ is_filtering f' = is_filtering f /\
  feed_filter f' = feed_filter f /\ check_crc (sec f') = check_crc (sec f) /\
  feed_state f' = feed_state f /\ feed_pid f' = feed_pid f.

Lemma same_client_refl f : same_client f f.
Proof. done. Qed.
Lemma same_client_trans f f' f'' : same_client f f' -> same_client f' f'' -> same_client f f''.
Proof. unfold same_client. intros (-> & -> & -> & -> & -> & ->) (-> & -> & -> & -> & -> & ->). done. Qed.


(** Adding bytes to the buffer. *)
Definition added (s : dmx_section_feed) (data : list Z) : dmx_section_feed :=
  with_secbuf (secbufp s) (secbufp s)
    (with_base (zsplice (secbuf_base s) (tsfeedp s) data) (tsfeedp s + zlen data) s).

Lemma added_ok s data :
  sec_ok s -> bytes data -> tsfeedp s + zlen data <= DMX_MAX_SECFEED_SIZE ->
  sec_ok (added s data) /\ pending (added s data) = pending s ++ data.
Proof.
  intros Hok Hd Hle. pose proof Hok as (Hl & Hb & Hp & Ht). pose proof (zlen_nonneg data).
  assert (Hok' : sec_ok (added s data)).
  { unfold sec_ok. simpl. rewrite zlen_zsplice by lia.
    split_and!; try lia. by apply zsplice_bytes. }
  split; [done|]. apply zlist_eq; rewrite ?zlen_app, !zlen_pending by done; simpl; [lia|].
  intros k Hk. rewrite zat_app, zlen_pending by (done || lia). unfold pending. simpl.
  rewrite zat_ztake, zat_zdrop, zat_zsplice by lia.
  repeat case_decide; try lia;
    first [by rewrite zat_ztake, zat_zdrop by lia | f_equal; lia].
Qed.

Lemma copy_dump_unfold feed data :
  let s := sec feed in
  sec_ok s -> 0 < zlen data < 256 -> tsfeedp s + zlen data <= DMX_MAX_SECFEED_SIZE ->
  dvb_dmx_swfilter_section_copy_dump crc32_be cb_sec after_base filters feed data =
    '(feed', evs) ← copy_dump_loop crc32_be cb_sec after_base (Z.to_nat (tsfeedp s + zlen data)) filters
      (tsfeedp s + zlen data) (with_sec (added s data) feed);
    Some (feed', evs, 0).
Proof.
  intros s (Hl & Hb & Hp & Ht) Hd Hle. unfold dvb_dmx_swfilter_section_copy_dump. fold s.
  rewrite (proj2 (Z.leb_gt _ _)) by lia.
  rewrite (proj2 (Z.ltb_ge _ _)) by lia. rewrite (proj2 (Z.leb_gt (zlen data) 0)) by lia.
  rewrite decide_True by lia. rewrite ztake_all by lia.
  change (tsfeedp (with_base (zsplice (secbuf_base s) (tsfeedp s) data) (u16 (tsfeedp s + zlen data)) s))
    with (u16 (tsfeedp s + zlen data)).
  rewrite u16_small by (unfold DMX_MAX_SECFEED_SIZE, DMX_MAX_SECTION_SIZE in *; lia).
  rewrite (proj2 (Z.ltb_ge _ (tsfeedp s + _))) by lia. done.
Qed.


(** *** Packets *)

(** The payload of a packet: [Cont] without a section start, [Start] with the bytes
    before and after the place the pointer field names. *)
Inductive chunk := Cont (b : list Z) | Start (before after : list Z).

Definition chunk_of (buf : list Z) : option chunk :=
  let count := payload buf in
  let p := 188 - count in
  if count =? 0 then None
  else if negb (Z.land buf.[1] 0x40 =? 0) then
    if (1 <? count) && (buf.[p] <? count)
    then Some (Start (ztake buf.[p] (zdrop (p + 1) buf)) (zdrop (p + 1 + buf.[p]) buf)) else None
  else Some (Cont (zdrop p buf)).

Definition discontinuity (buf : list Z) : bool :=
  negb (Z.land buf.[3] 0x20 =? 0) && (0 <? buf.[4]) && negb (Z.land buf.[5] 0x80 =? 0).

Definition is_packet (buf : list Z) : Prop := bytes buf /\ zlen buf = 188.

(** The check of the continuity counter. *)
Definition enter (feed : dvb_demux_feed) (buf : list Z) : dvb_demux_feed :=
  let cc := Z.land buf.[3] 0x0f in
  if negb (Z.land (feed_cc feed + 1) 0x0f =? cc) || discontinuity buf
  then dvb_dmx_swfilter_section_new (with_pusi false (with_cc cc feed)) else with_cc cc feed.

Lemma payload_range buf : is_packet buf -> 0 <= payload buf <= 184.
Proof.
  intros [Hb _]. unfold payload. pose proof (zat_range buf 4 Hb).
  destruct (_ =? 0); [lia|]. destruct (negb _); [|lia].
  destruct (183 <? buf.[4]) eqn:E; [lia|]. rewrite u8_small by lia. lia.
Qed.

Lemma section_packet_run feed buf :
  is_packet buf ->
  dvb_dmx_swfilter_section_packet crc32_be cb_sec after_base filters feed buf =
  match chunk_of buf with
  | Some (Cont b) =>
      '(feed, evs, _) ← dvb_dmx_swfilter_section_copy_dump crc32_be cb_sec after_base filters (enter feed buf) b;
      Some (feed, evs, 0)
  | Some (Start before after) =>
      '(feed, evs, _) ← dvb_dmx_swfilter_section_copy_dump crc32_be cb_sec after_base filters (enter feed buf) before;
      '(feed, evs', _) ← dvb_dmx_swfilter_section_copy_dump crc32_be cb_sec after_base filters
          (dvb_dmx_swfilter_section_new (with_pusi true feed)) after;
      Some (feed, evs ++ evs', 0)
  | None => if payload buf =? 0 then Some (feed, [], -1) else Some (enter feed buf, [], 0)
  end.
Proof.
  intros Hpk. pose proof (payload_range buf Hpk) as Hc. destruct Hpk as [Hb Hl].
  unfold dvb_dmx_swfilter_section_packet, chunk_of. destruct (payload buf =? 0) eqn:E0; [done|].
  rewrite u8_small by lia. set (p := 188 - payload buf). pose proof (zat_range buf p Hb).
  unfold enter, discontinuity. cbv zeta. change (feed_cc (with_cc (Z.land buf.[3] 15) feed)) with (Z.land buf.[3] 15).
  set (feed1 := if _ || _ then _ else _).
  destruct (negb (Z.land buf.[1] 64 =? 0)).
  - destruct (1 <? payload buf) eqn:E1, (buf.[p] <? payload buf) eqn:E2; cbn [andb]; try done.
    rewrite u8_small by lia.
    rewrite (ztake_all (payload buf - 1 - buf.[p])) by (rewrite zlen_zdrop; lia). done.
  - rewrite ztake_all by (rewrite zlen_zdrop; lia). done.
Qed.

(** *** Any packet *)

Definition chain_ok (feed : dvb_demux_feed) : Prop :=
  Forall (fun i => is_Some (filters !! i)) (feed_filter feed).

Lemma section_feed_filters_total s chain :
  Forall (fun i => is_Some (filters !! i)) chain ->
  is_Some (section_feed_filters cb_sec after_base filters s chain).
Proof.
  induction 1 as [|i chain [f Hi] _ [[evs ret] IH]]; [by eexists|].
  cbn [section_feed_filters]. rewrite Hi. cbn [mbind option_bind].
  destruct (dvb_dmx_swfilter_sectionfilter _ _ _ _ _) as [ev r]. destruct (r <? 0); [by eexists|].
  rewrite IH. by eexists.
Qed.

Lemma section_feed_total feed :
  chain_ok feed ->
  exists c n evs ret, dvb_dmx_swfilter_section_feed crc32_be cb_sec after_base filters feed =
    Some (touched feed c n, evs, ret).
Proof.
  intros Hch. unfold dvb_dmx_swfilter_section_feed.
  assert (Eid : touched feed (crc_val (sec feed)) (seclen (sec feed)) = feed) by apply touched_id.
  destruct (negb (is_filtering feed)); [do 4 eexists; by rewrite Eid|].
  unfold chain_ok in Hch. destruct (feed_filter feed) as [|i chain]; [do 4 eexists; by rewrite Eid|].
  set (r := if check_crc _ then _ else _).
  assert (Er : exists c b, r = (with_crc c (sec feed), b)).
  { assert (E0 : with_crc (crc_val (sec feed)) (sec feed) = sec feed) by (by destruct (sec feed)).
    subst r. unfold dvb_dmx_crc32. destruct (check_crc _); [|do 2 eexists; by rewrite E0].
    destruct (negb (Z.land _ 0x80 =? 0)); do 2 eexists; [reflexivity|by rewrite E0]. }
  destruct Er as (c & b & ->). destruct b; [by do 4 eexists|].
  destruct (section_feed_filters_total (with_crc c (sec feed)) _ Hch) as [[evs ret] ->].
  cbn [mbind option_bind]. destruct (ret <? 0); by do 4 eexists.
Qed.

Lemma copy_dump_loop_total fuel : forall feed,
  let s := sec feed in
  sec_ok s -> secbuf s = secbufp s -> tsfeedp s - secbufp s <= Z.of_nat fuel -> chain_ok feed ->
  exists p c n evs, copy_dump_loop crc32_be cb_sec after_base fuel filters (tsfeedp s) feed =
      Some (moved feed p c n, evs) /\
    sec_ok (sec (moved feed p c n)) /\ (pusi_seen feed = false -> evs = []).
Proof.
  induction fuel as [|fuel IH]; intros feed s Hok Hsb Hfuel Hch; pose proof Hok as (Hl & Hb & Hp & Ht);
    destruct (moved_id feed Hsb) as (c0 & n0 & E0).
  { cbn [copy_dump_loop]. fold s. rewrite (proj2 (Z.ltb_ge _ _)) by lia.
    exists (secbufp s), c0, n0, []. unfold s in *. by rewrite E0. }
  cbn [copy_dump_loop]. fold s. destruct (secbufp s + 2 <? tsfeedp s) eqn:Elt.
  2:{ exists (secbufp s), c0, n0, []. unfold s in *. by rewrite E0. }
  set (N := section_length _ _). set (feed1 := with_sec _ feed).
  destruct ((N <=? 0) || (DMX_MAX_SECTION_SIZE <? N) || (tsfeedp s <? N + secbufp s)) eqn:Ec.
  { exists (secbufp s), c0, n0, []. unfold s in *. by rewrite E0. }
  apply orb_false_iff in Ec as [Ec E3]. apply orb_false_iff in Ec as [E1 E2].
  set (step := if pusi_seen feed1 then _ else _).
  assert (Est : exists c n evs, step = Some (touched feed c n, evs) /\ (pusi_seen feed = false -> evs = [])).
  { subst step. change (pusi_seen feed1) with (pusi_seen feed). destruct (pusi_seen feed); [|by do 3 eexists].
    destruct (section_feed_total feed1 Hch) as (c & n & evs & ret & ->). by exists c, n, evs. }
  destruct Est as (c & n & evs & -> & Hevs). cbn [mbind option_bind].
  set (feed2 := with_sec (with_secbuf _ _ _) _).
  assert (Ef : feed2 = moved feed (secbufp s + N) c n).
  { subst feed2. unfold moved, touched. simpl. fold s. rewrite Hsb, u16_small; [done|].
    unfold DMX_MAX_SECFEED_SIZE, DMX_MAX_SECTION_SIZE in *. lia. }
  rewrite Ef. clear Ef feed2.
  destruct (IH (moved feed (secbufp s + N) c n)) as (p' & c' & n' & evs' & E & Hok' & Hn).
  - unfold sec_ok. simpl. fold s. split_and!; (done || lia).
  - done.
  - simpl. fold s. lia.
  - done.
  - change (tsfeedp (sec (moved feed (secbufp s + N) c n))) with (tsfeedp s) in E. rewrite E.
    cbn [mbind option_bind]. exists p', c', n', (evs ++ evs'). split; [done|]. split; [done|].
    intros Hps. rewrite Hevs by done. by apply Hn.
Qed.

(** Only the buffer, the counter and [pusi_seen] change. *)
Lemma copy_dump_total feed data :
  sec_ok (sec feed) -> bytes data -> zlen data < 256 -> chain_ok feed ->
  exists feed' evs ret,
    dvb_dmx_swfilter_section_copy_dump crc32_be cb_sec after_base filters feed data = Some (feed', evs, ret) /\
    sec_ok (sec feed') /\ same_client feed feed' /\ feed_cc feed' = feed_cc feed /\
    (pusi_seen feed = false -> evs = []).
Proof.
  intros Hok Hd Hlen Hch. pose proof Hok as (Hl & Hb & Hp & Ht). pose proof (zlen_nonneg data).
  destruct (decide (DMX_MAX_SECFEED_SIZE <= tsfeedp (sec feed) \/ data = [])) as [Hfull|Hroom].
  { exists feed, [], 0. split; [|done]. unfold dvb_dmx_swfilter_section_copy_dump.
    destruct (_ <=? tsfeedp (sec feed)) eqn:E; [done|]. destruct Hfull as [?| ->]; [lia|].
    change (zlen []) with 0. rewrite Z.add_0_r, (proj2 (Z.ltb_ge DMX_MAX_SECFEED_SIZE _)) by lia. done. }
  set (m := Z.min (zlen data) (DMX_MAX_SECFEED_SIZE - tsfeedp (sec feed))).
  assert (Hm : 0 < m <= zlen data).
  { destruct data as [|x data]; [tauto|]. unfold m. rewrite zlen_cons in *. pose proof (zlen_nonneg data).
    split; [|lia]. destruct (decide (DMX_MAX_SECFEED_SIZE <= tsfeedp (sec feed))); [tauto|lia]. }
  assert (Ecut : dvb_dmx_swfilter_section_copy_dump crc32_be cb_sec after_base filters feed data =
                 dvb_dmx_swfilter_section_copy_dump crc32_be cb_sec after_base filters feed (ztake m data)).
  { unfold dvb_dmx_swfilter_section_copy_dump. rewrite (zlen_ztake m data) by lia.
    destruct (_ <=? tsfeedp (sec feed)); [done|].
    rewrite (proj2 (Z.ltb_ge DMX_MAX_SECFEED_SIZE (_ + m))) by lia.
    replace (if DMX_MAX_SECFEED_SIZE <? _ then _ else _) with m; [by rewrite ztake_ztake by lia|].
    destruct (DMX_MAX_SECFEED_SIZE <? _) eqn:E; [rewrite u8_small by lia|]; lia. }
  rewrite Ecut. set (data' := ztake m data) in *. assert (Hz : zlen data' = m) by (apply zlen_ztake; lia).
  assert (Hle : tsfeedp (sec feed) + zlen data' <= DMX_MAX_SECFEED_SIZE) by lia.
  rewrite copy_dump_unfold by (done || lia).
  destruct (added_ok (sec feed) data' Hok ltac:(by apply Forall_ztake) Hle) as [Hok' _].
  destruct (copy_dump_loop_total (Z.to_nat (tsfeedp (sec feed) + zlen data')) (with_sec (added (sec feed) data') feed))
    as (p & c & n & evs & E & Ho & Hev); [done|done|simpl; lia|done|].
  change (tsfeedp (sec (with_sec (added (sec feed) data') feed))) with (tsfeedp (sec feed) + zlen data') in E.
  rewrite E. cbn [mbind option_bind]. do 3 eexists. split; [reflexivity|]. by split_and!.
Qed.

Lemma enter_ok feed buf :
  sec_ok (sec feed) -> sec_ok (sec (enter feed buf)) /\ same_client feed (enter feed buf) /\
    (pusi_seen feed = false -> pusi_seen (enter feed buf) = false).
Proof.
  intros (Hl & Hb & Hp & Ht). unfold enter. destruct (negb _ || _).
  - split; [|by split]. unfold sec_ok. simpl. split_and!; (done || lia).
  - by split.
Qed.

Lemma section_new_ok feed :
  sec_ok (sec feed) -> sec_ok (sec (dvb_dmx_swfilter_section_new feed)) /\
    pending (sec (dvb_dmx_swfilter_section_new feed)) = [].
Proof.
  intros (Hl & Hb & Hp & Ht). unfold sec_ok. simpl. split; [|done]. split_and!; (done || lia).
Qed.

(** The size of a payload. *)
Lemma chunk_size buf c : is_packet buf -> chunk_of buf = Some c ->
  match c with
  | Cont b => bytes b /\ 0 < zlen b <= 184
  | Start before after => bytes before /\ bytes after /\ zlen before + zlen after <= 183
  end.
Proof.
  intros Hpk. pose proof (payload_range buf Hpk) as Hc. destruct Hpk as [Hb Hl].
  unfold chunk_of. destruct (payload buf =? 0) eqn:E0; [done|].
  pose proof (zat_range buf (188 - payload buf) Hb). destruct (negb _).
  - destruct (1 <? payload buf) eqn:E1, (buf.[188 - payload buf] <? payload buf) eqn:E2; simpl; try done; intros [= <-].
    split_and!; [by apply Forall_ztake, Forall_zdrop|by apply Forall_zdrop|].
    rewrite zlen_ztake; rewrite ?zlen_zdrop; lia.
  - intros [= <-]. split; [by apply Forall_zdrop|]. rewrite zlen_zdrop; lia.
Qed.

(** ** Streams of packets *)




Fixpoint feed_run (idx : nat) (feed : dvb_demux_feed) (bufs : list (list Z)) :
    option (dvb_demux_feed * list event) :=
  match bufs with
  | [] => Some (feed, [])
  | buf :: bufs =>
      '(feed, evs) ← dvb_dmx_swfilter_packet_type crc32_be cb_sec after_base filters false idx feed buf;
      '(feed, evs') ← feed_run idx feed bufs;
      Some (feed, evs ++ evs')
  end.








Lemma section_packet_total feed buf :
  sec_ok (sec feed) -> chain_ok feed -> is_packet buf ->
  exists feed' evs ret,
    dvb_dmx_swfilter_section_packet crc32_be cb_sec after_base filters feed buf = Some (feed', evs, ret) /\
    sec_ok (sec feed') /\ same_client feed feed' /\
    (ret = -1 <-> payload buf = 0) /\ (ret = 0 \/ ret = -1).
Proof.
  intros Hok Hch Hpk. rewrite section_packet_run by done.
  assert (Hch' : forall f', same_client feed f' -> chain_ok f').
  { intros f' (_ & _ & E & _). unfold chain_ok. by rewrite E. }
  destruct (enter_ok feed buf Hok) as (Hok1 & Hsc1 & _).
  destruct (payload buf =? 0) eqn:E0.
  { unfold chunk_of. rewrite E0. exists feed, [], (-1). split; [done|]. split; [done|]. split; [done|]. lia. }
  assert (Hret : (0 = -1 <-> payload buf = 0) /\ (0 = 0 \/ 0 = -1)) by lia.
  destruct (chunk_of buf) as [c|] eqn:Ec.
  2:{ by exists (enter feed buf), [], 0. }
  pose proof (chunk_size buf c Hpk Ec) as Hsz. destruct c as [b|b a].
  - destruct Hsz as [Hb Hl].
    destruct (copy_dump_total (enter feed buf) b Hok1 Hb ltac:(lia) (Hch' _ Hsc1))
      as (feed' & evs & ret & -> & Ho & Hsc & _). cbn [mbind option_bind].
    exists feed', evs, 0. split; [done|]. split; [done|]. split; [by eapply same_client_trans|done].
  - destruct Hsz as (Hb & Ha & Hl). pose proof (zlen_nonneg b). pose proof (zlen_nonneg a).
    destruct (copy_dump_total (enter feed buf) b Hok1 Hb ltac:(lia) (Hch' _ Hsc1))
      as (feed1 & evs1 & ret1 & -> & Ho1 & Hsc2 & _). cbn [mbind option_bind].
    assert (Hs1 : same_client feed feed1) by (by eapply same_client_trans).
    destruct (section_new_ok (with_pusi true feed1) Ho1) as [Ho2 _].
    destruct (copy_dump_total
      (dvb_dmx_swfilter_section_new (with_pusi true feed1)) a Ho2 Ha ltac:(lia) (Hch' _ Hs1))
      as (feed' & evs & ret & -> & Ho & Hsc & _). cbn [mbind option_bind].
    exists feed', (evs1 ++ evs), 0. split; [done|]. split; [done|]. split; [by eapply same_client_trans|done].
Qed.

(** Whatever the packets of a section feed contain, no copy leaves [secbuf_base], the
    loop that dumps sections ends, and the buffer stays well formed. *)
Theorem dvb_dmx_swfilter_section_packet_safe feed buf :
  sec_ok (sec feed) -> chain_ok feed -> is_packet buf ->
  exists feed' evs ret,
    dvb_dmx_swfilter_section_packet crc32_be cb_sec after_base filters feed buf = Some (feed', evs, ret) /\
    sec_ok (sec feed') /\ chain_ok feed' /\
    (ret = -1 <-> payload buf = 0) /\ (ret = 0 \/ ret = -1).
Proof.
  intros Hok Hch Hpk. destruct (section_packet_total feed buf Hok Hch Hpk) as (feed' & evs & ret & E & Ho & Hsc & Hr).
  exists feed', evs, ret. split; [done|]. split; [done|]. split; [|done].
  destruct Hsc as (_ & _ & Ef & _). unfold chain_ok. by rewrite Ef.
Qed.

End delivery.

(** A packet whose pointer field reaches beyond its end, on a feed with one filter. *)
Definition sample_feed (filters : list nat) (pusi : bool) (base : list Z) (tsfeedp : Z) : dvb_demux_feed :=
  Feed DMX_TYPE_SEC DMX_STATE_GO 0x12 true filters 0 0 15 pusi 0
    (SecFeed false 0 0 (base ++ replicate (Z.to_nat (DMX_MAX_SECFEED_SIZE - zlen base)) 0) 0 0 tsfeedp).
Lemma sample_feed_ok filters pusi : sec_ok (sec (sample_feed filters pusi [] 0)).
Proof.
  split; [reflexivity|]. split; [|by vm_compute].
  cbn [sample_feed sec secbuf_base]. apply Forall_app. split; [constructor|]. by apply Forall_replicate.
Qed.
Definition ts_packet (pusi : Z) (cc : Z) (data : list Z) : list Z :=
  [0x47; pusi; 0x12; 0x10 + cc] ++ data ++ replicate (Z.to_nat (184 - zlen data)) 0xff.

Lemma dvb_dmx_swfilter_section_packet_safe_witness :
  exists feed', dvb_dmx_swfilter_section_packet (fun _ _ => 0) (fun _ _ => 0) (fun _ => 0) []
    (sample_feed [] true [] 0) (ts_packet 0x40 0 [200]) = Some (feed', [], 0).
Proof.
  destruct (dvb_dmx_swfilter_section_packet_safe (fun _ _ => 0) (fun _ _ => 0) (fun _ => 0) []
    (sample_feed [] true [] 0) (ts_packet 0x40 0 [200])) as (feed' & evs & ret & E & _).
  - apply sample_feed_ok.
  - constructor.
  - split; [by apply (bool_decide_unpack _)|reflexivity].
  - exists feed'. rewrite E. vm_compute in E. injection E as _ <- <-. reflexivity.
Defined.

(** A filter that [prepare_secfilters] has set up passes a section on exactly when
    the section matches it: all positive bits of value and mask agree and, if there are
    negative bits, one of them differs. *)
Theorem dvb_dmx_swfilter_sectionfilter_correct cb_sec after_base s i f :
  bytes (filter_value f) -> bytes (filter_mask f) -> bytes (filter_mode f) ->
  0 <= seclen s -> filter_fits f (seclen s) ->
  let d := secbuf_data after_base s (seclen s) in
  dvb_dmx_swfilter_sectionfilter cb_sec after_base s i (prepare_secfilter f) =
    if accepts f d then ([EvSection i d], cb_sec i d) else ([], 0).
Proof.
  intros Hv Hm Hmo Hl Hfit d.
  assert (Ef : filter_value (prepare_secfilter f) = filter_value f /\
    filter_mask (prepare_secfilter f) = filter_mask f /\ filter_mode (prepare_secfilter f) = filter_mode f).
  { unfold prepare_secfilter. by destruct (prepare_masks _ _ _ _) as [[? ?] ?]. }
  destruct Ef as (E1 & E2 & E3).
  rewrite sectionfilter_run; [|split_and!; rewrite ?E1, ?E2, ?E3; try done; apply prepare_secfilter_idem|done|].
  - unfold accepts, positive, negative, filter_xor. by rewrite E1, E2, E3.
  - intros k Hk. rewrite E2. by apply Hfit.
Qed.

(** A filter for table 0x4e of all services but 0x1234. *)
Definition sample_filter : dvb_demux_filter :=
  Filter [0x4e; 0; 0; 0x12; 0x34] [0xff; 0; 0; 0xff; 0xff] [0xff; 0xff; 0xff; 0; 0] [] [] 0 3 1 0.
Definition sample_section (sid : Z) : list Z := [0x4e; 0x70; 5; 0x12; sid; 0xc1; 0; 0].
Definition sample_sec (base : list Z) (len : Z) : dmx_section_feed :=
  SecFeed false 0 0 base 0 len len.

Lemma dvb_dmx_swfilter_sectionfilter_correct_witness :
  let run sid := dvb_dmx_swfilter_sectionfilter (fun _ _ => 0) (fun _ => 0)
    (sample_sec (sample_section sid) 8) 7 (prepare_secfilter sample_filter) in
  run 0x35 = ([EvSection 7 (sample_section 0x35)], 0) /\ run 0x34 = ([], 0).
Proof.
  assert (Hf : filter_fits sample_filter 8).
  { intros k Hk. apply zat_out. change (zlen (filter_mask sample_filter)) with 5. lia. }
  cbv zeta. split; (rewrite dvb_dmx_swfilter_sectionfilter_correct;
    [reflexivity|by apply (bool_decide_unpack _)..|done|exact Hf]).
Defined.




(** What goes wrong outside that theorem.

    A packet without payload makes [dvb_dmx_swfilter_packet_type] set [secbufp] to 0 but
    leaves the collected bytes: the next packet delivers the section again. *)
Definition no_payload_packet (cc : Z) : list Z := [0x47; 0x00; 0x12; 0x20 + cc; 183] ++ replicate 183 0.

Example dvb_dmx_section_delivered_twice :
  let '(evs, bufs) := (map (EvSection 0) [sample_section 0x36; sample_section 0x36],
    [ts_packet 0x40 0 ([0] ++ sample_section 0x36); no_payload_packet 0; ts_packet 0x00 1 []]) in
  exists feed', feed_run (fun _ _ => 0) (fun _ _ => 0) (fun _ => 0) [prepare_secfilter sample_filter] 5
    (sample_feed [0%nat] false [] 0) bufs = Some (feed', evs).
Proof. eexists. vm_compute. reflexivity. Qed.

(** [pusi_seen] is not cleared when a feed is started: a feed that starts with the flag
    of an earlier use delivers what comes before the first section start. *)
Example dvb_dmx_stale_pusi_seen :
  exists feed', feed_run (fun _ _ => 0) (fun _ _ => 0) (fun _ => 0) [prepare_secfilter sample_filter] 5
    (sample_feed [0%nat] true [] 0) [ts_packet 0x00 0 (sample_section 0x36)] =
    Some (feed', [EvSection 0 (sample_section 0x36)]).
Proof. eexists. vm_compute. reflexivity. Qed.

(** A filter compares 18 bytes also of a shorter section: behind the end of [secbuf_base]
    the outcome depends on the bytes that follow it in the structure. *)
Definition wide_filter : dvb_demux_filter :=
  prepare_secfilter (Filter (replicate 18 0) (replicate 3 0 ++ replicate 15 0xff) (replicate 18 0xff) [] [] 0 3 1 0).
Definition section_at_end : dmx_section_feed :=
  SecFeed false 0 (DMX_MAX_SECFEED_SIZE - 3) (replicate (Z.to_nat DMX_MAX_SECFEED_SIZE) 0)
    (DMX_MAX_SECFEED_SIZE - 3) 3 DMX_MAX_SECFEED_SIZE.
Example dvb_dmx_sectionfilter_leaves_buffer :
  let run after := dvb_dmx_swfilter_sectionfilter (fun _ _ => 0) after section_at_end 0 wide_filter in
  run (fun _ => 0) = ([EvSection 0 [0; 0; 0]], 0) /\ run (fun _ => 1) = ([], 0).
Proof. split; vm_compute; reflexivity. Qed.
