(* ===== verification/TsFilter.v ===== *)
(** * TsFilter: from a byte stream to the feeds

    The rest of the software filter of dvb-core/dvb_demux.c: [dvb_dmx_swfilter_packet]
    gives one transport packet to all feeds of its PID, and [_dvb_dmx_swfilter] finds the
    packets of 188 or 204 bytes in the blocks a driver delivers. *)

From S2P Require Import Prelude DvbDemux.

Definition MAX_PID : Z := 0x1fff.

(** The demultiplexer without its packet buffer: tables of feeds and filters, the list of
    active feeds as indices, the continuity counters (if they could be allocated). *)
Record demux_core := Core {
  feeds : list dvb_demux_feed; filters : list dvb_demux_filter; feed_list : list nat;
  cnt_storage : option (list Z); write_to_decoder : bool }.

Record dvb_demux := Demux { core : demux_core; tsbuf : list Z; tsbufp : Z }.

Definition with_feeds (l : list dvb_demux_feed) (d : demux_core) : demux_core :=
  Core l (filters d) (feed_list d) (cnt_storage d) (write_to_decoder d).
Definition with_cnt (c : option (list Z)) (d : demux_core) : demux_core :=
  Core (feeds d) (filters d) (feed_list d) c (write_to_decoder d).

Definition DVR_FEED (f : dvb_demux_feed) : bool :=
  (feed_type f =? DMX_TYPE_TS) && is_filtering f &&
  (Z.land (ts_type f) (Z.lor TS_PACKET TS_DEMUX) =? TS_PACKET).

Section swfilter.
Context (crc32_be : Z -> list Z -> Z) (cb_sec : nat -> list Z -> Z) (after_base : Z -> Z).
(** Module parameters.  [dvb_demux_speedcheck] only prints and is left out. *)
Context (dvb_demux_tscheck dvb_demux_feed_err_pkts : bool).

(** The check of the packet counters; it has no effect on the delivery. *)
Definition check_counter (d : demux_core) (pid : Z) (buf : list Z) : demux_core :=
  match cnt_storage d with
  | Some cnt =>
      if dvb_demux_tscheck && (pid <? MAX_PID) then
        let cnt := if negb (Z.land buf.[3] 0x10 =? 0)
                   then zset cnt pid (Z.land (cnt.[pid] + 1) 0xf) else cnt in
        let cnt := if negb (Z.land buf.[3] 0xf =? cnt.[pid])
                   then zset cnt pid (Z.land buf.[3] 0xf) else cnt in
        with_cnt (Some cnt) d
      else d
  | None => d
  end.

(** The loop over [feed_list]. *)
Fixpoint packet_feeds (l : list nat) (pid : Z) (buf : list Z) (dvr_done : bool) (d : demux_core) :
    option (demux_core * list event) :=
  match l with
  | [] => Some (d, [])
  | i :: l =>
      feed ← feeds d !! i;
      if negb (feed_pid feed =? pid) && negb (feed_pid feed =? 0x2000)
      then packet_feeds l pid buf dvr_done d
      else if DVR_FEED feed && dvr_done then packet_feeds l pid buf dvr_done d
      else
        let dvr_done := dvr_done || DVR_FEED feed in
        if feed_pid feed =? pid then
          '(feed, evs) ←
            dvb_dmx_swfilter_packet_type crc32_be cb_sec after_base (filters d) (write_to_decoder d) i feed buf;
          '(d, evs') ← packet_feeds l pid buf dvr_done (with_feeds (<[i := feed]> (feeds d)) d);
          Some (d, evs ++ evs')
        else if feed_pid feed =? 0x2000 then
          '(d, evs') ← packet_feeds l pid buf dvr_done d;
          Some (d, EvTs i (ztake 188 buf) :: evs')
        else packet_feeds l pid buf dvr_done d
  end.

Definition dvb_dmx_swfilter_packet (d : demux_core) (buf : list Z) : option (demux_core * list event) :=
  let pid := ts_pid buf in
  if negb (Z.land buf.[1] 0x80 =? 0) then
    if negb dvb_demux_feed_err_pkts then Some (d, [])
    else packet_feeds (feed_list d) pid buf false d
  else packet_feeds (feed_list d) pid buf false (check_counter d pid buf).

(** [count] packets of 188 bytes. *)
Fixpoint dvb_dmx_swfilter_packets (count : nat) (d : demux_core) (buf : list Z) :
    option (demux_core * list event) :=
  match count with
  | O => Some (d, [])
  | S count =>
      '(d, evs) ← (if buf.[0] =? 0x47 then dvb_dmx_swfilter_packet d (ztake 188 buf) else Some (d, []));
      '(d, evs') ← dvb_dmx_swfilter_packets count d (zdrop 188 buf);
      Some (d, evs ++ evs')
  end.

(** ** Synchronisation *)

Definition is_sync (b pktsize : Z) : bool := (b =? 0x47) || ((pktsize =? 204) && (b =? 0xb8)).

Fixpoint find_sync (fuel : nat) (buf : list Z) (pos pktsize : Z) : option Z :=
  if pos <? zlen buf then
    match fuel with
    | O => None
    | S fuel =>
        b ← zget buf pos;
        if is_sync b pktsize then Some pos else find_sync fuel buf (pos + 1) pktsize
    end
  else Some pos.

Definition find_next_packet (buf : list Z) (pos pktsize : Z) : option Z :=
  let start := pos in
  pos ← find_sync (length buf) buf pos pktsize;
  if negb (pos - start =? 0) then
    let backtrack := pos - pktsize in
    if 0 <=? backtrack then
      b ← zget buf backtrack;
      if is_sync b pktsize then Some backtrack else Some pos
    else Some pos
  else Some pos.

(** [memcpy] into [tsbuf], which has 204 bytes. *)
Definition tsbuf_copy (t : list Z) (pos : Z) (data : list Z) : option (list Z) :=
  if decide (0 <= pos /\ pos + zlen data <= zlen t) then Some (zsplice t pos data) else None.

(** The [while (1)] loop; the position at which it breaks comes with the state. *)
Fixpoint swfilter_loop (fuel : nat) (pktsize : Z) (buf : list Z) (p : Z) (d : dvb_demux) :
    option (dvb_demux * list event * Z) :=
  match fuel with
  | O => None
  | S fuel =>
      p ← find_next_packet buf p pktsize;
      if zlen buf <=? p then Some (d, [], p)
      else if zlen buf - p <? pktsize then Some (d, [], p)
      else
        b ← zget buf p;
        '(t, q) ←
          (if (pktsize =? 204) && (b =? 0xb8) then
             t ← tsbuf_copy (tsbuf d) 0 (ztake 188 (zdrop p buf));
             let t := zset t 0 0x47 in Some (t, ztake 188 t)
           else Some (tsbuf d, ztake 188 (zdrop p buf)));
        '(c, evs) ← dvb_dmx_swfilter_packet (core d) q;
        '(d, evs', p) ← swfilter_loop fuel pktsize buf (p + pktsize) (Demux c t (tsbufp d));
        Some (d, evs ++ evs', p)
  end.

(** The buffer that is carried to the next block. *)
Definition swfilter_rest (pktsize : Z) (buf : list Z) (p : Z) (d : dvb_demux) : option dvb_demux :=
  let i := zlen buf - p in
  if negb (i =? 0) then
    t ← tsbuf_copy (tsbuf d) 0 (zdrop p buf);
    let t := if (pktsize =? 204) && (t.[0] =? 0xb8) then zset t 0 0x47 else t in
    Some (Demux (core d) t i)
  else Some d.

(** The loop and what follows it; [evs] was delivered before. *)
Definition swfilter_finish (pktsize : Z) (buf : list Z) (d : dvb_demux) (p : Z) (evs : list event) :
    option (dvb_demux * list event) :=
  '(d, evs', p) ← swfilter_loop (S (length buf)) pktsize buf p d;
  d ← swfilter_rest pktsize buf p d;
  Some (d, evs ++ evs').

Definition _dvb_dmx_swfilter (pktsize : Z) (d : dvb_demux) (buf : list Z) : option (dvb_demux * list event) :=
  if negb (tsbufp d =? 0) then
    let i := tsbufp d in
    let j := pktsize - i in
    if zlen buf <? j then
      t ← tsbuf_copy (tsbuf d) i buf;
      Some (Demux (core d) t (tsbufp d + zlen buf), [])
    else
      t ← tsbuf_copy (tsbuf d) i (ztake j buf);
      '(c, evs) ← (if t.[0] =? 0x47 then dvb_dmx_swfilter_packet (core d) (ztake 188 t) else Some (core d, []));
      swfilter_finish pktsize buf (Demux c t 0) j evs
  else swfilter_finish pktsize buf d 0 [].

Definition dvb_dmx_swfilter (d : dvb_demux) (buf : list Z) : option (dvb_demux * list event) :=
  _dvb_dmx_swfilter 188 d buf.
Definition dvb_dmx_swfilter_204 (d : dvb_demux) (buf : list Z) : option (dvb_demux * list event) :=
  _dvb_dmx_swfilter 204 d buf.
Definition dvb_dmx_swfilter_raw (d : dvb_demux) (buf : list Z) : option (dvb_demux * list event) :=
  Some (d, [EvTs 0 buf]).
End swfilter.

(** ** Any input *)

(** The active feeds exist, and the section feeds among them are well formed. *)
Definition feed_ok (d : demux_core) (i : nat) : Prop :=
  exists f, feeds d !! i = Some f /\
    (feed_type f = DMX_TYPE_SEC -> sec_ok (sec f) /\ chain_ok (filters d) f).
Definition core_ok (d : demux_core) : Prop := Forall (feed_ok d) (feed_list d).

(** [secbuf_base] is an array of bytes. *)
Definition base_ok (f : dvb_demux_feed) : Prop :=
  zlen (secbuf_base (sec f)) = DMX_MAX_SECFEED_SIZE /\ bytes (secbuf_base (sec f)).

(** A feed after a packet. *)
Definition feed_step (f f' : dvb_demux_feed) : Prop :=
  same_client f f' /\ (feed_type f = DMX_TYPE_SEC -> sec_ok (sec f) -> sec_ok (sec f')) /\
  (base_ok f -> base_ok f').
(** The demultiplexer after a packet: nothing but the contents of feeds has changed. *)
Definition core_step (d d' : demux_core) : Prop :=
  filters d' = filters d /\ feed_list d' = feed_list d /\
  Forall2 feed_step (feeds d) (feeds d').

(** Both are preorders. *)
Global Instance feed_step_preorder : PreOrder feed_step.
Proof.
  split; [by split; [apply same_client_refl|]|].
  intros f f' f'' (H1 & H2 & Hb) (H3 & H4 & Hb'). split; [by eapply same_client_trans|]. split; [|auto].
  intros Ht Hs. apply H4; [|by apply H2]. destruct H1 as (-> & _). done.
Qed.
Global Instance core_step_preorder : PreOrder core_step.
Proof.
  split; [by split; [|split; [|reflexivity]]|].
  intros d d' d'' (E1 & E2 & H) (E3 & E4 & H'). split; [congruence|]. split; [congruence|]. by etrans.
Qed.

Lemma feed_ok_step d d' i : core_step d d' -> feed_ok d i -> feed_ok d' i.
Proof.
  intros (E1 & _ & H) (f & Ef & Hf). destruct (Forall2_lookup_l _ _ _ _ _ H Ef) as (f' & Ef' & Hsc & Hs & _).
  exists f'. split; [done|]. pose proof Hsc as (Et & _ & Ec & _). rewrite Et. intros Ht.
  destruct (Hf Ht) as [Hs1 Hc1]. split; [by apply Hs|]. unfold chain_ok. by rewrite E1, Ec.
Qed.
Lemma core_ok_step d d' : core_step d d' -> core_ok d -> core_ok d'.
Proof.
  intros H Hok. unfold core_ok in *. pose proof H as (_ & -> & _).
  eapply Forall_impl; [|exact Hok]. intros i. by apply feed_ok_step.
Qed.

Definition demux_ok (pktsize : Z) (d : dvb_demux) : Prop :=
  core_ok (core d) /\ zlen (tsbuf d) = 204 /\ bytes (tsbuf d) /\ 0 <= tsbufp d < pktsize.

Definition is_pktsize (n : Z) : Prop := n = 188 \/ n = 204.

Lemma find_sync_run buf pktsize fuel : forall pos,
  0 <= pos <= zlen buf -> zlen buf - pos <= Z.of_nat fuel ->
  exists r, find_sync fuel buf pos pktsize = Some r /\ pos <= r <= zlen buf /\
    (r = zlen buf \/ (r < zlen buf /\ is_sync buf.[r] pktsize = true)) /\
    (pos < zlen buf -> is_sync buf.[pos] pktsize = true -> r = pos).
Proof.
  induction fuel as [|fuel IH]; intros pos Hp Hf; cbn [find_sync].
  { rewrite (proj2 (Z.ltb_ge _ _)) by lia. exists pos. split; [done|]. split; [lia|]. split; [left; lia|done]. }
  destruct (pos <? zlen buf) eqn:E.
  2:{ exists pos. split; [done|]. split; [lia|]. split; [left; lia|done]. }
  rewrite zget_in by lia. cbn [mbind option_bind]. destruct (is_sync buf.[pos] pktsize) eqn:Es.
  - exists pos. split; [done|]. split; [lia|]. split; [|done]. right. split; [lia|done].
  - destruct (IH (pos + 1) ltac:(lia) ltac:(lia)) as (r & Er & Hr & Hs & _). exists r.
    split; [done|]. split; [lia|]. by split.
Qed.

Lemma find_next_packet_run buf pktsize pos :
  0 <= pos <= zlen buf -> 0 < pktsize ->
  exists r, find_next_packet buf pos pktsize = Some r /\ 0 <= r <= zlen buf /\ pos < r + pktsize /\
    (r = zlen buf \/ is_sync buf.[r] pktsize = true) /\
    (pos = zlen buf \/ is_sync buf.[pos] pktsize = true -> r = pos).
Proof.
  intros Hp Hn. unfold find_next_packet.
  destruct (find_sync_run buf pktsize (length buf) pos Hp) as (r & -> & Hr & Hs & Hh); [unfold zlen; lia|].
  cbn [mbind option_bind].
  assert (Hh' : pos = zlen buf \/ is_sync buf.[pos] pktsize = true -> r = pos).
  { intros [?|?]; [lia|]. destruct (decide (pos < zlen buf)); [by apply Hh|lia]. }
  assert (Hsame : exists r', Some r = Some r' /\ 0 <= r' <= zlen buf /\ pos < r' + pktsize /\
    (r' = zlen buf \/ is_sync buf.[r'] pktsize = true) /\
    (pos = zlen buf \/ is_sync buf.[pos] pktsize = true -> r' = pos)).
  { exists r. split; [done|]. split; [lia|]. split; [lia|]. split; [destruct Hs as [?|[? ?]]; [by left|by right]|done]. }
  destruct (negb (r - pos =? 0)) eqn:El; [|done].
  destruct (0 <=? r - pktsize) eqn:Eb; [|done].
  rewrite zget_in by lia. cbn [mbind option_bind].
  destruct (is_sync buf.[r - pktsize] pktsize) eqn:Es; [|done].
  exists (r - pktsize). split; [done|]. split; [lia|]. split; [lia|]. split; [by right|].
  intros H1. rewrite Hh' in El by done. lia.
Qed.

Lemma bytes_cut buf p n : bytes buf -> bytes (ztake n (zdrop p buf)).
Proof. intros. by apply Forall_ztake, Forall_zdrop. Qed.

Lemma is_packet_cut buf p :
  bytes buf -> 0 <= p -> 188 <= zlen buf - p -> is_packet (ztake 188 (zdrop p buf)).
Proof. intros. split; [by apply bytes_cut|]. rewrite zlen_ztake; rewrite ?zlen_zdrop; lia. Qed.

Lemma tsbuf_copy_run t pos data :
  zlen t = 204 -> bytes t -> 0 <= pos -> pos + zlen data <= 204 -> bytes data ->
  tsbuf_copy t pos data = Some (zsplice t pos data) /\ zlen (zsplice t pos data) = 204 /\
  bytes (zsplice t pos data).
Proof.
  intros. unfold tsbuf_copy. rewrite decide_True by lia. rewrite zlen_zsplice by lia.
  split; [done|]. split; [lia|]. by apply zsplice_bytes.
Qed.

Section swfilter_lemmas.
Context (crc32_be : Z -> list Z -> Z) (cb_sec : nat -> list Z -> Z) (after_base : Z -> Z).
Context (dvb_demux_tscheck dvb_demux_feed_err_pkts : bool).
Abbreviation swfilter_packet :=
  (dvb_dmx_swfilter_packet crc32_be cb_sec after_base dvb_demux_tscheck dvb_demux_feed_err_pkts).
Abbreviation swfilter :=
  (_dvb_dmx_swfilter crc32_be cb_sec after_base dvb_demux_tscheck dvb_demux_feed_err_pkts).
Abbreviation loop :=
  (swfilter_loop crc32_be cb_sec after_base dvb_demux_tscheck dvb_demux_feed_err_pkts).

Abbreviation finish :=
  (swfilter_finish crc32_be cb_sec after_base dvb_demux_tscheck dvb_demux_feed_err_pkts).

Lemma packet_type_total fs wd i feed buf :
  (feed_type feed = DMX_TYPE_SEC -> sec_ok (sec feed) /\ chain_ok fs feed) -> is_packet buf ->
  exists feed' evs, dvb_dmx_swfilter_packet_type crc32_be cb_sec after_base fs wd i feed buf = Some (feed', evs) /\
    feed_step feed feed'.
Proof.
  intros Hok Hpk. unfold dvb_dmx_swfilter_packet_type.
  assert (Hrefl : feed_step feed feed) by reflexivity. destruct (feed_type feed =? DMX_TYPE_TS) eqn:Ets.
  - destruct (negb (is_filtering feed)); [by do 2 eexists|].
    set (r := if _ : bool then (if _ : bool then _ else _) else _).
    assert (Hr : feed_step feed r.1).
    { subst r. unfold dvb_dmx_swfilter_payload. repeat (case_match; try done). }
    destruct r as [f evs]. destruct (_ && wd); by do 2 eexists.
  - destruct (feed_type feed =? DMX_TYPE_SEC) eqn:Es; [|by do 2 eexists].
    destruct (negb (is_filtering feed)); [by do 2 eexists|]. destruct (Hok ltac:(lia)) as [Hs Hc].
    destruct (section_packet_total crc32_be cb_sec after_base fs feed buf Hs Hc Hpk)
      as (feed' & evs & ret & -> & Hok' & Hsc & _). cbn [mbind option_bind].
    destruct (ret <? 0); do 2 eexists; (split; [reflexivity|]); (split; [done|]);
      (split; [intros _ _|intros _; by destruct Hok' as (? & ? & _)]); [|done].
    destruct Hok' as (? & ? & ? & ?). unfold sec_ok. simpl. split_and!; (done || lia).
Qed.

Lemma packet_feeds_total l pid buf : forall dvr d,
  Forall (feed_ok d) l -> is_packet buf ->
  exists d' evs, packet_feeds crc32_be cb_sec after_base l pid buf dvr d = Some (d', evs) /\ core_step d d'.
Proof.
  induction l as [|i l IH]; intros dvr d Hl Hpk; [do 2 eexists; split; [done|reflexivity]|].
  inversion Hl as [|? ? (feed & Ef & Hi) Hl']; subst. cbn [packet_feeds].
  rewrite Ef. cbn [mbind option_bind].
  destruct (negb _ && negb _); [by apply IH|]. destruct (DVR_FEED feed && dvr); [by apply IH|].
  destruct (feed_pid feed =? pid).
  - destruct (packet_type_total (filters d) (write_to_decoder d) i feed buf Hi Hpk)
      as (feed' & evs & -> & Hst). cbn [mbind option_bind].
    assert (Hd : core_step d (with_feeds (<[i := feed']> (feeds d)) d)).
    { split; [done|]. split; [done|]. simpl.
      rewrite <- (list_insert_id (feeds d) i feed) at 1 by done. by apply Forall2_insert. }
    destruct (IH (dvr || DVR_FEED feed) (with_feeds (<[i := feed']> (feeds d)) d)) as (d' & evs' & -> & Hok').
    { eapply Forall_impl; [|exact Hl']. intros j. by apply feed_ok_step. } { done. }
    do 2 eexists. split; [done|]. by etrans.
  - destruct (feed_pid feed =? 0x2000); [|by apply IH].
    destruct (IH (dvr || DVR_FEED feed) d Hl' Hpk) as (d' & evs' & -> & Hok'). by do 2 eexists.
Qed.

Lemma swfilter_packet_step d buf :
  core_ok d -> is_packet buf ->
  exists d' evs, swfilter_packet d buf = Some (d', evs) /\ core_step d d'.
Proof.
  intros Hok Hpk. unfold dvb_dmx_swfilter_packet.
  destruct (negb (Z.land buf.[1] 0x80 =? 0)).
  - destruct (negb dvb_demux_feed_err_pkts); [do 2 eexists; split; [done|reflexivity]|].
    by apply packet_feeds_total.
  - set (d1 := check_counter _ _ _ _). assert (Hd1 : core_step d d1).
    { subst d1. unfold check_counter. destruct (cnt_storage d); [|reflexivity].
      destruct (_ && _); split; done. }
    destruct (packet_feeds_total (feed_list d) (ts_pid buf) buf false d1) as (d' & evs & -> & Hd'); [|done|].
    { eapply Forall_impl; [|exact Hok]. intros j. by apply feed_ok_step. }
    do 2 eexists. split; [done|]. by etrans.
Qed.

Lemma swfilter_packet_total d buf :
  core_ok d -> is_packet buf ->
  exists d' evs, swfilter_packet d buf = Some (d', evs) /\ core_ok d'.
Proof.
  intros Hok Hpk. destruct (swfilter_packet_step d buf Hok Hpk) as (d' & evs & E & Hd').
  exists d', evs. split; [done|]. by eapply core_ok_step.
Qed.

Lemma loop_total pktsize buf fuel : forall p d,
  is_pktsize pktsize -> demux_ok pktsize d -> bytes buf -> 0 <= p <= zlen buf ->
  zlen buf - p < Z.of_nat fuel ->
  exists d' evs p', loop fuel pktsize buf p d = Some (d', evs, p') /\ demux_ok pktsize d' /\
    0 <= p' <= zlen buf /\ zlen buf - p' < pktsize /\ (tsbufp d' = tsbufp d).
Proof.
  induction fuel as [|fuel IH]; intros p d Hn Hok Hb Hp Hf; [lia|].
  cbn [swfilter_loop]. unfold is_pktsize in Hn.
  destruct (find_next_packet_run buf pktsize p Hp ltac:(lia)) as (r & -> & Hr & Hadv & _). cbn [mbind option_bind].
  destruct (zlen buf <=? r) eqn:E1.
  { exists d, [], r. split_and!; try done; lia. }
  destruct (zlen buf - r <? pktsize) eqn:E2.
  { exists d, [], r. split_and!; try done; lia. }
  rewrite zget_in by lia. cbn [mbind option_bind].
  pose proof (is_packet_cut buf r Hb ltac:(lia) ltac:(lia)) as Hq. destruct Hok as (Hc & Ht & Htb & Htp).
  set (tq := if (pktsize =? 204) && _ then _ else _).
  assert (Etq : exists t q, tq = Some (t, q) /\ zlen t = 204 /\ bytes t /\ is_packet q).
  { subst tq. destruct (_ && _); [|by do 2 eexists]. destruct Hq as [Hqb Hql].
    destruct (tsbuf_copy_run (tsbuf d) 0 _ Ht Htb ltac:(lia) ltac:(rewrite Hql; lia) Hqb) as (-> & Hz & Hzb).
    cbn [mbind option_bind]. do 2 eexists. split; [reflexivity|].
    assert (Hb2 : bytes (zset (zsplice (tsbuf d) 0 (ztake 188 (zdrop r buf))) 0 71)).
    { apply zset_bytes; [done|unfold byte; lia]. }
    split_and!; [by rewrite zlen_zset|done|]. split; [by apply Forall_ztake|].
    rewrite zlen_ztake; [done|]. rewrite zlen_zset. lia. }
  destruct Etq as (t & q & -> & Ht' & Htb' & Hq'). cbn [mbind option_bind].
  destruct (swfilter_packet_total (core d) q Hc Hq') as (c & evs & -> & Hc'). cbn [mbind option_bind].
  destruct (IH (r + pktsize) (Demux c t (tsbufp d))) as (d' & evs' & p' & -> & Hok' & Hp' & Hr' & Htp');
    [done|by split|done|lia|lia|].
  cbn [mbind option_bind]. do 3 eexists. by split.
Qed.

Lemma swfilter_total pktsize d buf :
  is_pktsize pktsize -> demux_ok pktsize d -> bytes buf ->
  exists d' evs, swfilter pktsize d buf = Some (d', evs) /\ demux_ok pktsize d'.
Proof.
  intros Hn Hok Hb. pose proof (zlen_nonneg buf). unfold is_pktsize in Hn.
  assert (Hfin : forall c t p evs, core_ok c -> zlen t = 204 -> bytes t -> 0 <= p <= zlen buf ->
    exists d' evs', finish pktsize buf (Demux c t 0) p evs = Some (d', evs') /\ demux_ok pktsize d').
  { intros c t p evs Hc Ht Htb Hp. unfold swfilter_finish.
    destruct (loop_total pktsize buf (S (length buf)) p (Demux c t 0) Hn) as (d' & evs' & p' & -> & Hok' & Hp' & Hr & Etp);
      [split_and!; try done; simpl; lia|done|done|unfold zlen; lia|].
    cbn [mbind option_bind]. unfold swfilter_rest. destruct Hok' as (Hc' & Ht' & Htb' & _). simpl in Etp.
    destruct (negb (zlen buf - p' =? 0)) eqn:E.
    - destruct (tsbuf_copy_run (tsbuf d') 0 (zdrop p' buf) Ht' Htb') as (-> & Hz & Hzb);
        [lia|rewrite zlen_zdrop; lia|by apply Forall_zdrop|].
      cbn [mbind option_bind]. do 2 eexists. split; [reflexivity|].
      split_and!; simpl; try done; try lia; destruct (_ && _); try done; [by rewrite zlen_zset|].
      apply zset_bytes; [done|unfold byte; lia].
    - do 2 eexists. split; [reflexivity|]. split_and!; try done; lia. }
  destruct Hok as (Hc & Ht & Htb & Htp). unfold _dvb_dmx_swfilter.
  destruct (negb (tsbufp d =? 0)) eqn:E.
  - destruct (zlen buf <? pktsize - tsbufp d) eqn:El.
    + destruct (tsbuf_copy_run (tsbuf d) (tsbufp d) buf Ht Htb ltac:(lia) ltac:(lia) Hb) as (-> & Hz & Hzb).
      cbn [mbind option_bind]. do 2 eexists. split; [reflexivity|]. split_and!; simpl; try done; lia.
    + assert (Hzj : zlen (ztake (pktsize - tsbufp d) buf) = pktsize - tsbufp d) by (apply zlen_ztake; lia).
      destruct (tsbuf_copy_run (tsbuf d) (tsbufp d) (ztake (pktsize - tsbufp d) buf) Ht Htb ltac:(lia) ltac:(lia)
        ltac:(by apply Forall_ztake)) as (-> & Hz & Hzb).
      cbn [mbind option_bind]. set (t := zsplice _ _ _) in *.
      assert (Hpt : is_packet (ztake 188 t)) by (split; [by apply Forall_ztake|apply zlen_ztake; lia]).
      set (st := if t.[0] =? 71 then _ else _).
      assert (Est : exists c evs, st = Some (c, evs) /\ core_ok c).
      { subst st. destruct (t.[0] =? 71); [by apply swfilter_packet_total|by do 2 eexists]. }
      destruct Est as (c & evs & -> & Hc'). cbn [mbind option_bind]. apply Hfin; [done..|lia].
  - assert (Ed : d = Demux (core d) (tsbuf d) 0) by (destruct d as [c t p]; simpl in *; f_equal; lia).
    rewrite Ed. apply Hfin; [done..|lia].
Qed.

(** ** Packets in blocks of any size *)

Definition is_block (pktsize : Z) (q : list Z) : Prop :=
  bytes q /\ zlen q = pktsize /\ is_sync q.[0] pktsize = true.

(** The first part of a packet. *)
Definition partial (pktsize : Z) (r : list Z) : Prop :=
  bytes r /\ zlen r < pktsize /\ (r = [] \/ is_sync r.[0] pktsize = true).

(** The sync byte 0xb8 of a 204-byte packet is replaced. *)
Definition resync (q : list Z) : list Z := zset q 0 0x47.

Fixpoint packets_run (d : demux_core) (qs : list (list Z)) : option (demux_core * list event) :=
  match qs with
  | [] => Some (d, [])
  | q :: qs =>
      '(d, evs) ← swfilter_packet d (ztake 188 (resync q));
      '(d, evs') ← packets_run d qs;
      Some (d, evs ++ evs')
  end.

Fixpoint stream_run (pktsize : Z) (d : dvb_demux) (bufs : list (list Z)) : option (dvb_demux * list event) :=
  match bufs with
  | [] => Some (d, [])
  | buf :: bufs =>
      '(d, evs) ← swfilter pktsize d buf;
      '(d, evs') ← stream_run pktsize d bufs;
      Some (d, evs ++ evs')
  end.

(** [tsbuf] holds the first part [r] of a packet. *)
Definition holding (d : dvb_demux) (r : list Z) : Prop :=
  zlen (tsbuf d) = 204 /\ bytes (tsbuf d) /\ tsbufp d = zlen r /\
  ztake (zlen r) (tsbuf d) = resync r.

Lemma resync_app a b : a <> [] -> resync (a ++ b) = resync a ++ b.
Proof. by destruct a. Qed.
Lemma zlen_resync a : zlen (resync a) = zlen a.
Proof. apply zlen_zset. Qed.
Lemma resync_ztake n a : 0 < n -> ztake n (resync a) = resync (ztake n a).
Proof.
  intros. destruct a as [|x a]; [change (resync []) with (@nil Z); by rewrite ztake_all by (change (zlen (@nil Z)) with 0; lia)|].
  unfold resync, zset, ztake. simpl. replace (Z.to_nat n) with (S (Z.to_nat (n - 1))) by lia. done.
Qed.
Lemma resync_id a : a.[0] = 0x47 -> resync a = a.
Proof. destruct a as [|x a]; [done|]. unfold resync, zset, zat. simpl. by intros ->. Qed.
Lemma resync_bytes a : bytes a -> bytes (resync a).
Proof. intros. by apply zset_bytes. Qed.

Lemma is_sync_188 b : is_sync b 188 = true -> b = 0x47.
Proof. unfold is_sync. simpl. rewrite orb_false_r. lia. Qed.
Lemma is_sync_cases b n : is_sync b n = true -> b = 0x47 \/ (n = 204 /\ b = 0xb8).
Proof. unfold is_sync. rewrite orb_true_iff, andb_true_iff. lia. Qed.

Lemma is_block_packet pktsize q :
  is_pktsize pktsize -> is_block pktsize q -> is_packet (ztake 188 (resync q)).
Proof.
  intros Hn (Hb & Hl & _). unfold is_pktsize in Hn. split; [by apply Forall_ztake, resync_bytes|].
  rewrite zlen_ztake; [done|]. rewrite zlen_resync. lia.
Qed.

Lemma packets_run_total pktsize qs : is_pktsize pktsize -> Forall (is_block pktsize) qs -> forall d,
  core_ok d -> exists d' evs, packets_run d qs = Some (d', evs) /\ core_ok d'.
Proof.
  intros Hn. induction 1 as [|q qs Hq _ IH]; intros d Hd; [by do 2 eexists|]. cbn [packets_run].
  destruct (swfilter_packet_total d _ Hd (is_block_packet _ _ Hn Hq)) as (d1 & evs & -> & Hd1).
  cbn [mbind option_bind]. destruct (IH d1 Hd1) as (d2 & evs' & -> & Hd2). by do 2 eexists.
Qed.

(** A prefix of a stream of packets ends with the first part of a packet. *)
Lemma prefix_split pktsize qs r' : 0 < pktsize -> Forall (is_block pktsize) qs -> partial pktsize r' ->
  forall s t, s ++ t = concat qs ++ r' ->
  exists qs1 qs2 r, qs = qs1 ++ qs2 /\ s = concat qs1 ++ r /\ partial pktsize r /\
    r ++ t = concat qs2 ++ r'.
Proof.
  intros Hn. induction 1 as [|q qs (Hb & Hl & Hs) Hqs IH]; intros Hr s t E.
  - exists [], [], s. simpl in *. split_and!; try done. destruct Hr as (Hrb & Hrl & Hrs). subst r'.
    apply Forall_app in Hrb as [Hsb _]. rewrite zlen_app in Hrl. pose proof (zlen_nonneg t).
    split; [done|]. split; [lia|]. destruct s as [|x s]; [by left|]. right. by destruct Hrs.
  - destruct (decide (zlen s < pktsize)) as [Hlt|Hge].
    + exists [], (q :: qs), s. simpl in *. split; [done|]. split; [done|]. split; [|done].
      assert (Hsq : s = ztake (zlen s) q).
      { rewrite <- app_assoc in E. apply (f_equal (ztake (zlen s))) in E.
        rewrite ztake_app, ztake_app_le in E by lia. done. }
      split; [rewrite Hsq; by apply Forall_ztake|]. split; [done|].
      destruct s as [|x s]; [by left|right]. destruct q as [|y q]; [rewrite zlen_nil in Hl; lia|].
      simpl in E. by injection E as -> _.
    + assert (Hsq : s = q ++ zdrop pktsize s).
      { rewrite <- (ztake_zdrop pktsize s) at 1. f_equal. simpl in E. rewrite <- app_assoc in E.
        apply (f_equal (ztake pktsize)) in E. rewrite ztake_app_le, ztake_app in E by lia. done. }
      set (s' := zdrop pktsize s) in *. rewrite Hsq in E. simpl in E. rewrite <- !app_assoc in E.
      apply app_inv_head in E. destruct (IH Hr s' t E) as (qs1 & qs2 & r & -> & -> & Hp & Er).
      exists (q :: qs1), qs2, r. simpl. rewrite <- app_assoc. done.
Qed.

Lemma block_at pktsize buf p q rest :
  0 <= p -> zdrop p buf = q ++ rest -> is_block pktsize q -> 0 < pktsize ->
  p + pktsize <= zlen buf /\ buf.[p] = q.[0] /\ ztake 188 (zdrop p buf) = ztake 188 (q ++ rest) /\
  zdrop (p + pktsize) buf = rest.
Proof.
  intros Hp E (Hb & Hl & Hs) Hn. pose proof (zlen_nonneg rest).
  assert (Hlen : zlen (zdrop p buf) = pktsize + zlen rest) by (rewrite E, zlen_app; lia).
  assert (Hple : p <= zlen buf).
  { destruct (decide (p <= zlen buf)); [done|]. rewrite zdrop_all in Hlen by lia. change (zlen []) with 0 in Hlen. lia. }
  rewrite zlen_zdrop in Hlen by lia. split; [lia|]. split; [|split; [by rewrite E|]].
  - replace p with (p + 0) at 1 by lia. rewrite <- zat_zdrop, E, zat_app by lia. by rewrite decide_True by lia.
  - rewrite <- zdrop_zdrop, E by lia. by apply zdrop_app.
Qed.

(** The loop on whole packets. *)
Lemma loop_run pktsize buf r' qs : is_pktsize pktsize -> Forall (is_block pktsize) qs -> partial pktsize r' ->
  forall fuel p d c' evs,
  0 <= p <= zlen buf -> zdrop p buf = concat qs ++ r' -> (length qs < fuel)%nat ->
  zlen (tsbuf d) = 204 -> bytes (tsbuf d) ->
  packets_run (core d) qs = Some (c', evs) ->
  exists t, loop fuel pktsize buf p d = Some (Demux c' t (tsbufp d), evs, zlen buf - zlen r') /\
    zlen t = 204 /\ bytes t.
Proof.
  intros Hn. assert (Hpos : 188 <= pktsize) by (unfold is_pktsize in Hn; lia).
  induction 1 as [|q qs Hq Hqs IH]; intros Hr fuel p d c' evs Hp E Hf Ht Htb Hrun;
    (destruct fuel as [|fuel]; [lia|]); cbn [swfilter_loop];
    destruct (find_next_packet_run buf pktsize p Hp ltac:(lia)) as (r & -> & Hr1 & _ & Hr2 & Hr3);
    cbn [mbind option_bind].
  - simpl in *. injection Hrun as <- <-. destruct Hr as (Hrb & Hrl & Hrs).
    assert (Hl : zlen buf - p = zlen r') by (rewrite <- E, zlen_zdrop by lia; lia).
    exists (tsbuf d). split; [|done]. assert (Er : r = p).
    { apply Hr3. destruct Hrs as [->|Hs]; [left; change (zlen []) with 0 in *; lia|right].
      rewrite <- Hs, <- E, zat_zdrop by lia. do 2 f_equal. lia. }
    subst r. replace (zlen buf - zlen r') with p by lia. destruct d as [c t tp]. simpl.
    destruct (zlen buf <=? p); [done|]. by rewrite (proj2 (Z.ltb_lt _ _)) by lia.
  - cbn [concat] in E. rewrite <- app_assoc in E.
    destruct (block_at pktsize buf p q _ ltac:(lia) E Hq ltac:(lia)) as (Hle & H0 & Htk & Hdr).
    destruct Hq as (Hqb & Hql & Hqs0). rewrite Hr3 by (right; by rewrite H0).
    rewrite (proj2 (Z.leb_gt _ _)), (proj2 (Z.ltb_ge _ _)) by lia.
    rewrite zget_in by lia. cbn [mbind option_bind]. rewrite H0, Htk.
    rewrite ztake_app_le by lia.
    set (tq := if (pktsize =? 204) && _ then _ else _).
    assert (Etq : exists t, tq = Some (t, ztake 188 (resync q)) /\ zlen t = 204 /\ bytes t).
    { subst tq. assert (Hz : zlen (ztake 188 q) = 188) by (apply zlen_ztake; lia).
      destruct ((pktsize =? 204) && (q.[0] =? 184)) eqn:Ec.
      - destruct (tsbuf_copy_run (tsbuf d) 0 (ztake 188 q) Ht Htb ltac:(lia) ltac:(lia) ltac:(by apply Forall_ztake))
          as (-> & Hz1 & Hz2). cbn [mbind option_bind]. eexists. split; [|split].
        + do 2 f_equal. change (zset ?l 0 71) with (resync l). rewrite resync_ztake, resync_ztake by lia. f_equal.
          unfold zsplice. rewrite ztake_0, app_nil_l, ztake_app by done. done.
        + by rewrite zlen_zset.
        + by apply resync_bytes.
      - exists (tsbuf d). split; [|done]. do 2 f_equal. rewrite resync_id; [done|].
        destruct (is_sync_cases _ _ Hqs0) as [?|[-> Eb]]; [done|]. by rewrite Eb in Ec. }
    destruct Etq as (t & -> & Ht' & Htb'). cbn [mbind option_bind].
    cbn [packets_run] in Hrun.
    destruct (swfilter_packet (core d) _) as [[c1 evs1]|]; [|done]. cbn [mbind option_bind] in *.
    destruct (packets_run c1 qs) as [[c2 evs2]|] eqn:E2; [|done]. cbn [mbind option_bind] in *.
    injection Hrun as <- <-.
    destruct (IH Hr fuel (p + pktsize) (Demux c1 t (tsbufp d)) c2 evs2) as (t' & -> & H1 & H2); try done; try lia.
    { simpl in Hf. lia. }
    cbn [mbind option_bind]. by exists t'.
Qed.

Lemma zsplice_front t a : zlen a <= zlen t -> ztake (zlen a) (zsplice t 0 a) = a.
Proof. intros. unfold zsplice. rewrite ztake_0, app_nil_l. by apply ztake_app. Qed.

Lemma zlen_concat_blocks pktsize qs : 0 < pktsize -> Forall (is_block pktsize) qs ->
  Z.of_nat (length qs) <= zlen (concat qs).
Proof.
  intros Hn. induction 1 as [|q qs (_ & Hl & _) _ IH]; [done|].
  simpl length. simpl concat. rewrite zlen_app. lia.
Qed.

(** The loop and the rest that is kept, from position [p]. *)
Lemma finish_run pktsize buf p c t qs r' c' evs0 evs :
  is_pktsize pktsize -> Forall (is_block pktsize) qs -> partial pktsize r' ->
  0 <= p <= zlen buf -> zdrop p buf = concat qs ++ r' -> zlen t = 204 -> bytes t ->
  packets_run c qs = Some (c', evs) ->
  exists d', finish pktsize buf (Demux c t 0) p evs0 = Some (d', evs0 ++ evs) /\ core d' = c' /\ holding d' r'.
Proof.
  intros Hn Hqs Hr Hp E Ht Htb Hrun. assert (Hpos : 188 <= pktsize <= 204) by (unfold is_pktsize in Hn; lia).
  pose proof (zlen_concat_blocks pktsize qs ltac:(lia) Hqs) as Hcnt.
  assert (Hlen : zlen buf - p = zlen (concat qs) + zlen r') by (by rewrite <- zlen_app, <- E, zlen_zdrop by lia).
  pose proof (zlen_nonneg r') as Hr0. pose proof (zlen_nonneg (concat qs)). unfold swfilter_finish.
  destruct (loop_run pktsize buf r' qs Hn Hqs Hr (S (length buf)) p (Demux c t 0) c' evs Hp E) as (t' & -> & Ht' & Htb');
    [unfold zlen in *; lia|done..|]. cbn [mbind option_bind].
  destruct Hr as (Hrb & Hrl & Hrs). unfold swfilter_rest.
  replace (zlen buf - (zlen buf - zlen r')) with (zlen r') by lia.
  destruct (negb (zlen r' =? 0)) eqn:E0.
  - assert (Edr : zdrop (zlen buf - zlen r') buf = r').
    { replace (zlen buf - zlen r') with (p + zlen (concat qs)) by lia.
      rewrite <- zdrop_zdrop, E by lia. by apply zdrop_app. }
    rewrite Edr. cbn [tsbuf core].
    destruct (tsbuf_copy_run t' 0 r' Ht' Htb' ltac:(lia) ltac:(lia) Hrb) as (-> & Hz & Hzb). cbn [mbind option_bind].
    eexists. split; [reflexivity|]. split; [done|].
    pose proof (zsplice_front t' r' ltac:(lia)) as Hfr.
    assert (H0 : (zsplice t' 0 r').[0] = r'.[0]) by (rewrite <- Hfr at 2; by rewrite zat_ztake by lia).
    rewrite H0. destruct ((pktsize =? 204) && (r'.[0] =? 184)) eqn:Ec.
    + split; [cbn [tsbuf]; by rewrite zlen_zset|]. split; [by apply resync_bytes|]. split; [done|].
      cbn [tsbuf]. change (zset ?l 0 71) with (resync l). rewrite resync_ztake, Hfr by lia. done.
    + split; [done|]. split; [done|]. split; [done|]. cbn [tsbuf]. rewrite Hfr, resync_id; [done|].
      destruct Hrs as [->|Hs]; [by rewrite zlen_nil in E0|].
      destruct (is_sync_cases _ _ Hs) as [?|[-> Eb]]; [done|]. by rewrite Eb in Ec.
  - destruct r' as [|x r']; [|rewrite zlen_cons in *; pose proof (zlen_nonneg r'); lia].
    eexists. split; [reflexivity|]. done.
Qed.

(** One block. *)
Lemma swfilter_run pktsize d buf r qs r' c' evs :
  is_pktsize pktsize -> holding d r -> partial pktsize r -> bytes buf ->
  r ++ buf = concat qs ++ r' -> Forall (is_block pktsize) qs -> partial pktsize r' ->
  packets_run (core d) qs = Some (c', evs) ->
  exists d', swfilter pktsize d buf = Some (d', evs) /\ core d' = c' /\ holding d' r'.
Proof.
  intros Hn (Ht & Htb & Htp & Htk) (Hrb & Hrl & Hrs) Hb E Hqs Hr Hrun.
  assert (Hpos : 188 <= pktsize <= 204) by (unfold is_pktsize in Hn; lia).
  unfold _dvb_dmx_swfilter. pose proof (zlen_nonneg r). pose proof (zlen_nonneg buf).
  destruct (negb (tsbufp d =? 0)) eqn:E0.
  2:{ assert (Er : r = []) by (destruct r; [done|]; rewrite zlen_cons in *; pose proof (zlen_nonneg r); lia).
      subst r. assert (Ed : d = Demux (core d) (tsbuf d) 0) by (destruct d as [c t p]; simpl in *; f_equal; lia).
      rewrite Ed. apply (finish_run pktsize buf 0 _ _ qs r' c' [] evs); try done. }
  rewrite Htp. destruct (zlen buf <? pktsize - zlen r) eqn:El.
  - (* still not a whole packet *)
    destruct qs as [|q qs].
    2:{ inversion Hqs as [|? ? (_ & Hql & _) _]; subst. apply (f_equal zlen) in E. simpl in E.
        rewrite !zlen_app in E. pose proof (zlen_nonneg (concat qs)). pose proof (zlen_nonneg r'). lia. }
    simpl in E, Hrun. injection Hrun as <- <-. subst r'.
    destruct (tsbuf_copy_run (tsbuf d) (zlen r) buf Ht Htb ltac:(lia) ltac:(lia) Hb) as (-> & Hz & Hzb).
    cbn [mbind option_bind]. eexists. split; [reflexivity|]. split; [done|]. split; [done|]. split; [done|].
    cbn [tsbufp tsbuf]. rewrite zlen_app. split; [done|]. unfold zsplice. rewrite Htk, app_assoc.
    rewrite resync_app by (intros ->; rewrite zlen_nil in *; lia).
    apply ztake_app. by rewrite zlen_app, zlen_resync.
  - (* the packet is completed *)
    destruct qs as [|q qs].
    { simpl in E. subst r'. destruct Hr as (_ & Hl & _). rewrite zlen_app in Hl. lia. }
    inversion Hqs as [|? ? Hq Hqs']; subst. pose proof Hq as (Hqb & Hql & Hqs0). simpl in E. rewrite <- app_assoc in E.
    set (j := pktsize - zlen r) in *.
    assert (Eq : q = r ++ ztake j buf).
    { apply (f_equal (ztake pktsize)) in E. rewrite (ztake_app_plus pktsize r buf j), ztake_app in E by lia. done. }
    assert (Erest : zdrop j buf = concat qs ++ r').
    { apply (f_equal (zdrop pktsize)) in E. rewrite (zdrop_app_plus pktsize r buf j), zdrop_app in E by lia. done. }
    assert (Hzj : zlen (ztake j buf) = j) by (apply zlen_ztake; lia).
    destruct (tsbuf_copy_run (tsbuf d) (zlen r) (ztake j buf) Ht Htb ltac:(lia) ltac:(lia) ltac:(by apply Forall_ztake))
      as (-> & Hz & Hzb). cbn [mbind option_bind]. set (t := zsplice _ _ _) in *.
    assert (Ht188 : forall n, 0 < n <= pktsize -> ztake n t = ztake n (resync q)).
    { intros n Hn'. unfold t, zsplice. rewrite Htk, app_assoc, <- resync_app
        by (intros ->; rewrite zlen_nil in *; lia).
      rewrite <- Eq. apply ztake_app_le. rewrite zlen_resync. lia. }
    assert (H71 : t.[0] = 71).
    { replace t.[0] with (ztake 1 t).[0] by (by apply zat_ztake; lia). rewrite Ht188 by lia.
      destruct q as [|x q]; [rewrite zlen_nil in Hql; lia|done]. }
    rewrite H71, Ht188 by lia. cbn [packets_run] in Hrun.
    change (71 =? 71) with true. cbv iota.
    destruct (swfilter_packet (core d) _) as [[c1 evs1]|]; [|done]. cbn [mbind option_bind] in *.
    destruct (packets_run c1 qs) as [[c2 evs2]|] eqn:E2; [|done]. cbn [mbind option_bind] in *.
    injection Hrun as <- <-. by apply (finish_run pktsize buf j c1 t qs r' c2 evs1 evs2); try done; lia.
Qed.

Lemma stream_run_packets pktsize bufs : is_pktsize pktsize -> forall d r qs r',
  core_ok (core d) -> holding d r -> partial pktsize r -> Forall bytes bufs ->
  r ++ concat bufs = concat qs ++ r' -> Forall (is_block pktsize) qs -> partial pktsize r' ->
  exists d' evs, stream_run pktsize d bufs = Some (d', evs) /\ packets_run (core d) qs = Some (core d', evs) /\
    holding d' r'.
Proof.
  intros Hn. assert (Hpos : 188 <= pktsize <= 204) by (unfold is_pktsize in Hn; lia).
  induction bufs as [|buf bufs IH]; intros d r qs r' Hc Hh Hr Hb E Hqs Hr'.
  - simpl in E. rewrite app_nil_r in E.
    assert (Hnil : qs = [] /\ r = r').
    { destruct qs as [|q qs]; [done|]. exfalso. inversion Hqs as [|? ? (_ & Hql & _) _]; subst.
      destruct Hr as (_ & Hl & _). simpl in Hl. rewrite !zlen_app in Hl.
      pose proof (zlen_nonneg (concat qs)). pose proof (zlen_nonneg r'). lia. }
    destruct Hnil as [-> ->]. by exists d, [].
  - inversion Hb as [|? ? Hb1 Hb2]; subst. simpl in E. rewrite app_assoc in E.
    destruct (prefix_split pktsize qs r' ltac:(lia) Hqs Hr' _ _ E) as (qs1 & qs2 & r1 & -> & E1 & Hr1 & E2).
    apply Forall_app in Hqs as [Hq1 Hq2].
    destruct (packets_run_total pktsize qs1 Hn Hq1 (core d) Hc) as (c1 & evs1 & Hrun1 & Hc1).
    destruct (swfilter_run pktsize d buf r qs1 r1 c1 evs1 Hn Hh Hr Hb1 E1 Hq1 Hr1 Hrun1) as (d1 & Es & Ec1 & Hh1).
    subst c1. destruct (IH d1 r1 qs2 r' Hc1 Hh1 Hr1 Hb2 E2 Hq2 Hr') as (d2 & evs2 & Es2 & Hrun2 & Hh2).
    exists d2, (evs1 ++ evs2). cbn [stream_run]. rewrite Es. cbn [mbind option_bind]. rewrite Es2.
    split; [done|]. split; [|done].
    clear -Hrun1 Hrun2. revert Hrun1. generalize (core d) evs1. induction qs1 as [|q qs1 IH]; intros c evs H.
    { simpl in H. injection H as -> <-. done. }
    cbn [packets_run app] in *. destruct (swfilter_packet c _) as [[c2 ev]|]; [|done]. cbn [mbind option_bind] in *.
    destruct (packets_run c2 qs1) as [[c3 ev3]|] eqn:E3; [|done]. cbn [mbind option_bind] in *. injection H as -> <-.
    rewrite (IH _ _ E3). cbn [mbind option_bind]. by rewrite app_assoc.
Qed.

(** Whatever bytes a driver delivers, in blocks of any size, the software filter ends,
    never reads outside the block, never writes outside [tsbuf], keeps less than one packet
    for the next block, and keeps every feed well formed. *)
Theorem dvb_dmx_swfilter_safe pktsize d bufs :
  is_pktsize pktsize -> demux_ok pktsize d -> Forall bytes bufs ->
  exists d' evs, stream_run pktsize d bufs = Some (d', evs) /\ demux_ok pktsize d'.
Proof.
  intros Hn Hok Hb. revert d Hok. induction Hb as [|buf bufs Hbuf _ IH]; intros d Hok; [by do 2 eexists|].
  cbn [stream_run]. destruct (swfilter_total pktsize d buf Hn Hok Hbuf) as (d1 & evs1 & -> & Hok1).
  cbn [mbind option_bind]. destruct (IH d1 Hok1) as (d2 & evs2 & -> & Hok2). by do 2 eexists.
Qed.

(** C12: How a driver cuts a stream of packets into blocks does not matter: the filter
    hands on exactly the packets of the stream, in order and once, each as when it is
    filtered on its own, and keeps the incomplete packet at the end.  A packet of 204
    bytes is handed on with its first 188 bytes and its sync byte restored. *)
Theorem dvb_dmx_swfilter_blocks pktsize d bufs qs r :
  is_pktsize pktsize -> demux_ok pktsize d -> tsbufp d = 0 -> Forall bytes bufs ->
  concat bufs = concat qs ++ r -> Forall (is_block pktsize) qs -> partial pktsize r ->
  exists d' evs, stream_run pktsize d bufs = Some (d', evs) /\
    packets_run (core d) qs = Some (core d', evs) /\
    tsbufp d' = zlen r /\ ztake (zlen r) (tsbuf d') = resync r.
Proof.
  intros Hn (Hc & Ht & Htb & _) H0 Hb E Hqs Hr.
  assert (Hp0 : partial pktsize []).
  { split; [constructor|]. split; [rewrite zlen_nil; unfold is_pktsize in Hn; lia|by left]. }
  assert (Hh : holding d []) by (split; [done|]; split; [done|]; split; [done|by rewrite zlen_nil, ztake_0]).
  destruct (stream_run_packets pktsize bufs Hn d [] qs r Hc Hh Hp0 Hb E Hqs Hr) as (d' & evs & E1 & E2 & _ & _ & Htp & Htk).
  by exists d', evs.
Qed.
End swfilter_lemmas.

(** A feed of whole packets and a section feed on the same PID. *)
Definition sample_demux : dvb_demux :=
  Demux (Core [Feed DMX_TYPE_TS DMX_STATE_GO 0x12 true [0%nat] TS_PACKET 0 0 false 0 (sec (sample_feed [] false [] 0));
               sample_feed [0%nat] false [] 0]
           [prepare_secfilter sample_filter] [1%nat; 0%nat] None false) (replicate 204 0) 0.

Lemma sample_demux_ok pktsize : is_pktsize pktsize -> demux_ok pktsize sample_demux.
Proof.
  intros Hn. split; [|split; [reflexivity|split; [by apply Forall_replicate|]]].
  - apply Forall_cons_2; [|apply Forall_cons_2; [|apply Forall_nil_2]].
    + eexists. split; [reflexivity|]. intros _. split; [apply sample_feed_ok|repeat constructor]. by eexists.
    + eexists. split; [reflexivity|]. discriminate.
  - unfold is_pktsize in Hn. simpl. lia.
Qed.

Lemma sample_packet_bytes pusi cc data : byte pusi -> byte (0x10 + cc) -> bytes data -> bytes (ts_packet pusi cc data).
Proof.
  intros. unfold ts_packet. rewrite !Forall_app. split; [|split; [done|by apply Forall_replicate]].
  by repeat (apply Forall_cons_2; [done || (unfold byte; lia)|]); apply Forall_nil_2.
Qed.

(** Garbage alone. *)
Lemma dvb_dmx_swfilter_safe_witness :
  exists d' evs, stream_run (fun _ _ => 0) (fun _ _ => 0) (fun _ => 0) true true 188 sample_demux
    [[1; 2; 0x47; 3]; replicate 200 0x47] = Some (d', evs) /\ demux_ok 188 d'.
Proof.
  apply (dvb_dmx_swfilter_safe (fun _ _ => 0) (fun _ _ => 0) (fun _ => 0) true true 188 sample_demux).
  - by left.
  - apply sample_demux_ok. by left.
  - by apply (bool_decide_unpack _).
Defined.

(** One packet in three blocks; its section is delivered when the last block arrives. *)
Lemma dvb_dmx_swfilter_blocks_witness :
  let q := ts_packet 0x40 0 ([0] ++ sample_section 0x35) in
  exists d' evs, stream_run (fun _ _ => 0) (fun _ _ => 0) (fun _ => 0) false true 188 sample_demux
    [ztake 100 q; ztake 87 (zdrop 100 q); zdrop 187 q ++ [0x47]] = Some (d', evs) /\
    packets_run (fun _ _ => 0) (fun _ _ => 0) (fun _ => 0) false true (core sample_demux) [q] =
      Some (core d', evs) /\ tsbufp d' = 1.
Proof.
  intros q.
  assert (Hq : bytes q).
  { apply sample_packet_bytes; [unfold byte; lia..|]. by apply (bool_decide_unpack _). }
  destruct (dvb_dmx_swfilter_blocks (fun _ _ => 0) (fun _ _ => 0) (fun _ => 0) false true 188 sample_demux
    [ztake 100 q; ztake 87 (zdrop 100 q); zdrop 187 q ++ [0x47]] [q] [0x47]) as (d' & evs & E1 & E2 & E3 & _).
  - by left.
  - apply sample_demux_ok. by left.
  - reflexivity.
  - apply Forall_cons_2; [by apply Forall_ztake|]. apply Forall_cons_2; [by apply Forall_ztake, Forall_zdrop|].
    apply Forall_cons_2; [|constructor]. apply Forall_app. split; [by apply Forall_zdrop|by apply (bool_decide_unpack _)].
  - reflexivity.
  - apply Forall_cons_2; [|constructor]. split; [done|]. split; reflexivity.
  - split; [by apply (bool_decide_unpack _)|]. split; [reflexivity|by right].
  - exists d', evs. split; [exact E1|]. split; [exact E2|exact E3].
Defined.
