(* ===== verification/DmxFeeds.v ===== *)
(** * DmxFeeds: the feeds and filters of dvb-core/dvb_demux.c

    The operations by which clients allocate, set, start, stop and release feeds and
    filters.  A pointer to a feed or filter is its index in the table of the
    demultiplexer.  [None] is a crash or a deadlock: an index out of range, the
    null pointer at the end of a filter chain, or a task that locks the mutex it holds. *)

From S2P Require Import Prelude DvbDemux TsFilter.

Definition ERESTARTSYS : Z := 512.
Definition ENODEV : Z := 19.
Definition EUSERS : Z := 87.
Definition DMX_MAX_PID : Z := 0x2000.
Definition DMX_PES_OTHER : Z := 20.
Definition MAX_DVB_DEMUX_USERS : Z := 10.

Record dmx := Dmx {
  dm_core : demux_core; mutex : bool; pesfilter : list (option nat); pids : list Z; users : Z }.

Definition with_core (c : demux_core) (d : dmx) : dmx := Dmx c (mutex d) (pesfilter d) (pids d) (users d).
Definition with_mutex (b : bool) (d : dmx) : dmx := Dmx (dm_core d) b (pesfilter d) (pids d) (users d).
Definition with_pes (p : list (option nat)) (q : list Z) (d : dmx) : dmx :=
  Dmx (dm_core d) (mutex d) p q (users d).
Definition with_users (n : Z) (d : dmx) : dmx := Dmx (dm_core d) (mutex d) (pesfilter d) (pids d) n.
Definition with_feed_list (l : list nat) (c : demux_core) : demux_core :=
  Core (feeds c) (filters c) l (cnt_storage c) (write_to_decoder c).
Definition with_filters (l : list dvb_demux_filter) (c : demux_core) : demux_core :=
  Core (feeds c) l (feed_list c) (cnt_storage c) (write_to_decoder c).

(** Assignments to the fields of a feed. *)
Definition set_state (v : Z) (f : dvb_demux_feed) : dvb_demux_feed :=
  Feed (feed_type f) v (feed_pid f) (is_filtering f) (feed_filter f) (ts_type f) (pes_type f)
    (feed_cc f) (pusi_seen f) (peslen f) (sec f).
Definition set_pid (v : Z) (f : dvb_demux_feed) : dvb_demux_feed :=
  Feed (feed_type f) (feed_state f) v (is_filtering f) (feed_filter f) (ts_type f) (pes_type f)
    (feed_cc f) (pusi_seen f) (peslen f) (sec f).
Definition set_filtering (v : bool) (f : dvb_demux_feed) : dvb_demux_feed :=
  Feed (feed_type f) (feed_state f) (feed_pid f) v (feed_filter f) (ts_type f) (pes_type f)
    (feed_cc f) (pusi_seen f) (peslen f) (sec f).
Definition set_chain (v : list nat) (f : dvb_demux_feed) : dvb_demux_feed :=
  Feed (feed_type f) (feed_state f) (feed_pid f) (is_filtering f) v (ts_type f) (pes_type f)
    (feed_cc f) (pusi_seen f) (peslen f) (sec f).
Definition set_types (t p : Z) (f : dvb_demux_feed) : dvb_demux_feed :=
  Feed (feed_type f) (feed_state f) (feed_pid f) (is_filtering f) (feed_filter f) t p
    (feed_cc f) (pusi_seen f) (peslen f) (sec f).
Definition set_type (t : Z) (f : dvb_demux_feed) : dvb_demux_feed :=
  Feed t (feed_state f) (feed_pid f) (is_filtering f) (feed_filter f) (ts_type f) (pes_type f)
    (feed_cc f) (pusi_seen f) (peslen f) (sec f).
Definition set_check_crc (b : bool) (f : dvb_demux_feed) : dvb_demux_feed :=
  let s := sec f in
  with_sec (SecFeed b (crc_val s) (secbuf s) (secbuf_base s) (secbufp s) (seclen s) (tsfeedp s)) f.
Definition set_filter (st ty : Z) (fe : nat) (f : dvb_demux_filter) : dvb_demux_filter :=
  Filter (filter_value f) (filter_mask f) (filter_mode f) (maskandmode f) (maskandnotmode f) (doneq f) st ty fe.

(** Updating one entry of a table. *)
Definition upd_feed (i : nat) (g : dvb_demux_feed -> dvb_demux_feed) (d : dmx) : option dmx :=
  f ← feeds (dm_core d) !! i;
  Some (with_core (with_feeds (<[i := g f]> (feeds (dm_core d))) (dm_core d)) d).
Definition upd_filter (i : nat) (g : dvb_demux_filter -> dvb_demux_filter) (d : dmx) : option dmx :=
  f ← filters (dm_core d) !! i;
  Some (with_core (with_filters (<[i := g f]> (filters (dm_core d))) (dm_core d)) d).

(** A task that locks a mutex it holds waits for ever. *)
Definition mutex_lock (d : dmx) : option dmx := if mutex d then None else Some (with_mutex true d).
Definition mutex_unlock (d : dmx) : dmx := with_mutex false d.

(** [mutex_lock_interruptible]: [sig] says that a signal arrives while it waits. *)
Definition locked (sig : bool) (d : dmx) (body : dmx -> option (dmx * Z)) : option (dmx * Z) :=
  if sig then Some (d, - ERESTARTSYS) else
  d ← mutex_lock d;
  '(d, ret) ← body d;
  Some (mutex_unlock d, ret).

(** The first free entry of a table. *)
Definition dvb_dmx_filter_alloc (d : dmx) : option (dmx * option nat) :=
  match list_find (fun f => filter_state f = DMX_STATE_FREE) (filters (dm_core d)) with
  | None => Some (d, None)
  | Some (i, f) =>
      d ← upd_filter i (set_filter DMX_STATE_ALLOCATED (filter_type f) (filter_feed f)) d;
      Some (d, Some i)
  end.
Definition dvb_dmx_feed_alloc (d : dmx) : option (dmx * option nat) :=
  match list_find (fun f => feed_state f = DMX_STATE_FREE) (feeds (dm_core d)) with
  | None => Some (d, None)
  | Some (i, _) => d ← upd_feed i (set_state DMX_STATE_ALLOCATED) d; Some (d, Some i)
  end.

Definition dvb_demux_feed_find (i : nat) (d : dmx) : bool := bool_decide (i ∈ feed_list (dm_core d)).
Definition dvb_demux_feed_add (i : nat) (d : dmx) : dmx :=
  if dvb_demux_feed_find i d then d
  else with_core (with_feed_list (i :: feed_list (dm_core d)) (dm_core d)) d.
Definition dvb_demux_feed_del (i : nat) (d : dmx) : dmx :=
  if negb (dvb_demux_feed_find i d) then d
  else with_core (with_feed_list (list_difference (feed_list (dm_core d)) [i]) (dm_core d)) d.

Section operations.
(** The operations of the driver, if it has them, by their results. *)
Context (start_feed stop_feed : option (nat -> Z)).

(** ** Transport stream feeds *)

Definition dmx_ts_feed_set (sig : bool) (i : nat) (pid type pes : Z) (d : dmx) : option (dmx * Z) :=
  if DMX_MAX_PID <? pid then Some (d, - EINVAL) else
  locked sig d (fun d =>
    let finish d :=
      let d := dvb_demux_feed_add i d in
      d ← upd_feed i (fun f => set_state DMX_STATE_READY (set_types type pes (set_pid pid f))) d;
      Some (d, 0) in
    if negb (Z.land type TS_DECODER =? 0) then
      if DMX_PES_OTHER <=? pes then Some (d, - EINVAL) else
      owner ← pesfilter d !! Z.to_nat pes;
      match owner with
      | Some j =>
          if negb (Nat.eqb j i) then Some (d, - EINVAL)
          else finish (with_pes (<[Z.to_nat pes := Some i]> (pesfilter d)) (zset (pids d) pes pid) d)
      | None => finish (with_pes (<[Z.to_nat pes := Some i]> (pesfilter d)) (zset (pids d) pes pid) d)
      end
    else finish d).

Definition dmx_ts_feed_start_filtering (sig : bool) (i : nat) (d : dmx) : option (dmx * Z) :=
  locked sig d (fun d =>
    f ← feeds (dm_core d) !! i;
    if negb (feed_state f =? DMX_STATE_READY) || negb (feed_type f =? DMX_TYPE_TS) then Some (d, - EINVAL) else
    match start_feed with
    | None => Some (d, - ENODEV)
    | Some start =>
        let ret := start i in
        if ret <? 0 then Some (d, ret) else
        d ← upd_feed i (fun f => set_state DMX_STATE_GO (set_filtering true f)) d;
        Some (d, 0)
    end).

Definition dmx_ts_feed_stop_filtering (i : nat) (d : dmx) : option (dmx * Z) :=
  locked false d (fun d =>
    f ← feeds (dm_core d) !! i;
    if feed_state f <? DMX_STATE_GO then Some (d, - EINVAL) else
    match stop_feed with
    | None => Some (d, - ENODEV)
    | Some stop =>
        let ret := stop i in
        d ← upd_feed i (fun f => set_state DMX_STATE_ALLOCATED (set_filtering false f)) d;
        Some (d, ret)
    end).

(** What is stored through the pointer [ts_feed] comes with the result; when no filter is
    left it is a feed that is free again. *)
Definition dvbdmx_allocate_ts_feed (sig : bool) (d : dmx) : option (dmx * Z * option nat) :=
  if sig then Some (d, - ERESTARTSYS, None) else
  d ← mutex_lock d;
  '(d, i) ← dvb_dmx_feed_alloc d;
  match i with
  | None => Some (mutex_unlock d, - EBUSY, None)
  | Some i =>
      d ← upd_feed i (fun f =>
            set_filtering false (with_peslen 0xfffa (set_pid 0xffff (set_type DMX_TYPE_TS f)))) d;
      '(d, j) ← dvb_dmx_filter_alloc d;
      match j with
      | None =>
          d ← upd_feed i (fun f => set_state DMX_STATE_FREE (set_chain [] f)) d;
          Some (mutex_unlock d, - EBUSY, Some i)
      | Some j =>
          d ← upd_feed i (set_chain [j]) d;
          d ← upd_filter j (set_filter DMX_STATE_READY DMX_TYPE_TS i) d;
          Some (mutex_unlock d, 0, Some i)
      end
  end.

Definition dvbdmx_release_ts_feed (i : nat) (d : dmx) : option (dmx * Z) :=
  locked false d (fun d =>
    f ← feeds (dm_core d) !! i;
    if feed_state f =? DMX_STATE_FREE then Some (d, - EINVAL) else
    d ← upd_feed i (set_state DMX_STATE_FREE) d;
    j ← head (feed_filter f);
    g ← filters (dm_core d) !! j;
    d ← upd_filter j (set_filter DMX_STATE_FREE (filter_type g) (filter_feed g)) d;
    let d := dvb_demux_feed_del i d in
    d ← upd_feed i (set_pid 0xffff) d;
    let d := if negb (Z.land (ts_type f) TS_DECODER =? 0) && (pes_type f <? DMX_PES_OTHER)
             then with_pes (<[Z.to_nat (pes_type f) := None]> (pesfilter d)) (pids d) d else d in
    Some (d, 0)).

(** ** Section feeds *)

Definition dmx_section_feed_allocate_filter (sig : bool) (i : nat) (d : dmx) : option (dmx * Z * option nat) :=
  if sig then Some (d, - ERESTARTSYS, None) else
  d ← mutex_lock d;
  '(d, j) ← dvb_dmx_filter_alloc d;
  match j with
  | None => Some (mutex_unlock d, - EBUSY, None)
  | Some j =>
      d ← upd_filter j (set_filter DMX_STATE_READY DMX_TYPE_SEC i) d;
      d ← upd_feed i (fun f => set_chain (j :: feed_filter f) f) d;
      Some (mutex_unlock d, 0, Some j)
  end.

Definition dmx_section_feed_set (sig : bool) (i : nat) (pid : Z) (crc : bool) (d : dmx) : option (dmx * Z) :=
  if 0x1fff <? pid then Some (d, - EINVAL) else
  locked sig d (fun d =>
    let d := dvb_demux_feed_add i d in
    d ← upd_feed i (fun f => set_state DMX_STATE_READY (set_check_crc crc (set_pid pid f))) d;
    Some (d, 0)).

(** The masks of all filters of a chain. *)
Fixpoint prepare_secfilters (chain : list nat) (d : dmx) : option dmx :=
  match chain with
  | [] => Some d
  | j :: chain => d ← upd_filter j prepare_secfilter d; prepare_secfilters chain d
  end.

Definition dmx_section_feed_start_filtering (sig : bool) (i : nat) (d : dmx) : option (dmx * Z) :=
  locked sig d (fun d =>
    f ← feeds (dm_core d) !! i;
    if is_filtering f then Some (d, - EBUSY) else
    match feed_filter f with
    | [] => Some (d, - EINVAL)
    | chain =>
        d ← upd_feed i dvb_dmx_swfilter_section_new d;
        match start_feed with
        | None => Some (d, - ENODEV)
        | Some start =>
            d ← prepare_secfilters chain d;
            let ret := start i in
            if ret <? 0 then Some (d, ret) else
            d ← upd_feed i (fun f => set_state DMX_STATE_GO (set_filtering true f)) d;
            Some (d, 0)
        end
    end).

Definition dmx_section_feed_stop_filtering (i : nat) (d : dmx) : option (dmx * Z) :=
  locked false d (fun d =>
    match stop_feed with
    | None => Some (d, - ENODEV)
    | Some stop =>
        let ret := stop i in
        d ← upd_feed i (fun f => set_filtering false (set_state DMX_STATE_READY f)) d;
        Some (d, ret)
    end).

(** [stop_filtering] is called with the mutex held. *)
Definition dmx_section_feed_release_filter (i j : nat) (d : dmx) : option (dmx * Z) :=
  locked false d (fun d =>
    g ← filters (dm_core d) !! j;
    if negb (Nat.eqb (filter_feed g) i) then Some (d, - EINVAL) else
    f ← feeds (dm_core d) !! i;
    d ← (if is_filtering f then '(d, _) ← dmx_section_feed_stop_filtering i d; Some d else Some d);
    if decide (j ∈ feed_filter f) then
      d ← upd_feed i (fun f => set_chain (list_difference (feed_filter f) [j]) f) d;
      d ← upd_filter j (set_filter DMX_STATE_FREE (filter_type g) (filter_feed g)) d;
      Some (d, 0)
    else None).

Definition dvbdmx_allocate_section_feed (sig : bool) (d : dmx) : option (dmx * Z * option nat) :=
  if sig then Some (d, - ERESTARTSYS, None) else
  d ← mutex_lock d;
  '(d, i) ← dvb_dmx_feed_alloc d;
  match i with
  | None => Some (mutex_unlock d, - EBUSY, None)
  | Some i =>
      d ← upd_feed i (fun f => set_filtering false (set_chain []
            (dvb_dmx_swfilter_section_new (set_pid 0xffff (set_type DMX_TYPE_SEC f))))) d;
      Some (mutex_unlock d, 0, Some i)
  end.

Definition dvbdmx_release_section_feed (i : nat) (d : dmx) : option (dmx * Z) :=
  locked false d (fun d =>
    f ← feeds (dm_core d) !! i;
    if feed_state f =? DMX_STATE_FREE then Some (d, - EINVAL) else
    d ← upd_feed i (set_state DMX_STATE_FREE) d;
    let d := dvb_demux_feed_del i d in
    d ← upd_feed i (set_pid 0xffff) d;
    Some (d, 0)).
End operations.

(** ** Users *)

Definition dvbdmx_open (d : dmx) : dmx * Z :=
  if MAX_DVB_DEMUX_USERS <=? users d then (d, - EUSERS) else (with_users (users d + 1) d, 0).
Definition dvbdmx_close (d : dmx) : dmx * Z :=
  if users d =? 0 then (d, - ENODEV) else (with_users (users d - 1) d, 0).

Definition ENOMEM : Z := 12.

(** The memory of the tables comes from [vmalloc], which may fail and does not clear it. *)
Definition dvb_dmx_init (filter_mem : option (list dvb_demux_filter)) (feed_mem : option (list dvb_demux_feed))
    (cnt : option (list Z)) (has_decoder : bool) : option dmx * Z :=
  match filter_mem, feed_mem with
  | None, _ | _, None => (None, - ENOMEM)
  | Some gs, Some fs =>
      let gs := map (fun g => set_filter DMX_STATE_FREE (filter_type g) (filter_feed g) g) gs in
      let fs := map (set_state DMX_STATE_FREE) fs in
      (Some (Dmx (Core fs gs [] cnt has_decoder) false
         (replicate (Z.to_nat DMX_PES_OTHER) None) (replicate (Z.to_nat DMX_PES_OTHER) 0xffff) 0), 0)
  end.

(** ** The invariant *)

Definition used_filter (gs : list dvb_demux_filter) (i j : nat) : Prop :=
  exists g, gs !! j = Some g /\ filter_state g <> DMX_STATE_FREE /\ filter_feed g = i.

(** A feed that is in use has its own filters, none of them free. *)
Definition feed_inv (gs : list dvb_demux_filter) (i : nat) (f : dvb_demux_feed) : Prop :=
  NoDup (feed_filter f) /\ Forall (used_filter gs i) (feed_filter f) /\
  (feed_type f = DMX_TYPE_TS \/ feed_type f = DMX_TYPE_SEC) /\
  (feed_type f = DMX_TYPE_TS -> exists j, feed_filter f = [j]) /\
  (feed_type f = DMX_TYPE_SEC -> sec_ok (sec f)).

Definition in_use (c : demux_core) (i : nat) : Prop :=
  exists f, feeds c !! i = Some f /\ feed_state f <> DMX_STATE_FREE.

(** The active feeds are in use, and each is in the list once. *)
Definition core_inv (c : demux_core) : Prop :=
  NoDup (feed_list c) /\ Forall (in_use c) (feed_list c) /\
  (forall i f, feeds c !! i = Some f -> feed_state f <> DMX_STATE_FREE -> feed_inv (filters c) i f) /\
  Forall base_ok (feeds c).

Definition inv (d : dmx) : Prop :=
  core_inv (dm_core d) /\ length (pesfilter d) = Z.to_nat DMX_PES_OTHER.

Definition put_feed (i : nat) (f : dvb_demux_feed) (c : demux_core) : demux_core :=
  with_feeds (<[i := f]> (feeds c)) c.
Definition put_filter (j : nat) (g : dvb_demux_filter) (c : demux_core) : demux_core :=
  with_filters (<[j := g]> (filters c)) c.

Lemma upd_feed_run i g d f : feeds (dm_core d) !! i = Some f ->
  upd_feed i g d = Some (with_core (put_feed i (g f) (dm_core d)) d).
Proof. intros E. unfold upd_feed. by rewrite E. Qed.
Lemma upd_filter_run j g d f : filters (dm_core d) !! j = Some f ->
  upd_filter j g d = Some (with_core (put_filter j (g f) (dm_core d)) d).
Proof. intros E. unfold upd_filter. by rewrite E. Qed.

Lemma put_feed_lookup i f f' c : feeds c !! i = Some f -> feeds (put_feed i f' c) !! i = Some f'.
Proof. intros E. simpl. apply list_lookup_insert_eq. by eapply lookup_lt_Some. Qed.
Lemma put_feed_twice i f f' c : put_feed i f' (put_feed i f c) = put_feed i f' c.
Proof. unfold put_feed, with_feeds. simpl. by rewrite list_insert_insert_eq. Qed.
Lemma put_filter_lookup j g g' c : filters c !! j = Some g -> filters (put_filter j g' c) !! j = Some g'.
Proof. intros E. simpl. apply list_lookup_insert_eq. by eapply lookup_lt_Some. Qed.
Lemma put_filter_twice j g g' c : put_filter j g' (put_filter j g c) = put_filter j g' c.
Proof. unfold put_filter, with_filters. simpl. by rewrite list_insert_insert_eq. Qed.

Lemma lookup_insert_cases {A} (l : list A) i j x y :
  <[i := x]> l !! j = Some y -> (j = i /\ y = x) \/ (j <> i /\ l !! j = Some y).
Proof.
  intros H. destruct (decide (j = i)) as [->|Hne].
  - left. split; [done|]. rewrite list_lookup_insert_eq in H; [congruence|].
    apply lookup_lt_Some in H. by rewrite length_insert in H.
  - right. by rewrite list_lookup_insert_ne in H by done.
Qed.

Lemma core_inv_put_feed c i f f' :
  core_inv c -> feeds c !! i = Some f -> secbuf_base (sec f') = secbuf_base (sec f) ->
  (feed_state f' = DMX_STATE_FREE -> i ∉ feed_list c) ->
  (feed_state f' <> DMX_STATE_FREE -> feed_inv (filters c) i f') ->
  core_inv (put_feed i f' c).
Proof.
  intros (Hnd & Hact & Hfe & Hmem) Ef Hbase Hfree Hnew. split; [done|]. split; [|split].
  - simpl. apply list.Forall_forall. intros k Hk. pose proof (proj1 (list.Forall_forall _ _) Hact k Hk) as (fk & Ek & Hk').
    destruct (decide (k = i)) as [->|Hne].
    + exists f'. split; [by eapply put_feed_lookup|]. intros E. by apply (Hfree E).
    + exists fk. simpl. by rewrite list_lookup_insert_ne by done.
  - intros k fk Ek Hk. simpl in *. apply lookup_insert_cases in Ek as [[-> ->]|[_ Ek]]; [by apply Hnew|by apply Hfe].
  - apply Forall_insert; [done|]. unfold base_ok. rewrite Hbase. by apply (Forall_lookup_1 _ _ _ _ Hmem Ef).
Qed.

Lemma core_inv_put_filter c j g g' :
  core_inv c -> filters c !! j = Some g ->
  (forall i f, feeds c !! i = Some f -> feed_state f <> DMX_STATE_FREE -> j ∈ feed_filter f ->
     filter_state g' <> DMX_STATE_FREE /\ filter_feed g' = i) ->
  core_inv (put_filter j g' c).
Proof.
  intros (Hnd & Hact & Hfe & Hmem) Eg Hg. split; [done|]. split; [done|]. split; [|done].
  intros i f Ef Hf. destruct (Hfe i f Ef Hf) as (Hn & Hch & Hrest). split; [done|]. split; [|done].
  apply list.Forall_forall. intros k Hk. pose proof (proj1 (list.Forall_forall _ _) Hch k Hk) as (gk & Ek & Hgk).
  destruct (decide (k = j)) as [->|Hne].
  - exists g'. split; [by eapply put_filter_lookup|]. by apply (Hg i f).
  - exists gk. simpl. by rewrite list_lookup_insert_ne by done.
Qed.

(** A free filter belongs to no feed that is in use. *)
Lemma free_filter_unused c j g i f :
  core_inv c -> filters c !! j = Some g -> filter_state g = DMX_STATE_FREE ->
  feeds c !! i = Some f -> feed_state f <> DMX_STATE_FREE -> j ∉ feed_filter f.
Proof.
  intros (_ & _ & Hfe & _) Eg Hg Ef Hf Hin. destruct (Hfe i f Ef Hf) as (_ & Hch & _).
  destruct (proj1 (list.Forall_forall _ _) Hch j Hin) as (g' & Eg' & Hg' & _). congruence.
Qed.

(** A filter of one feed is not a filter of another. *)
Lemma filter_of_other c j i i' f f' :
  core_inv c -> feeds c !! i = Some f -> feed_state f <> DMX_STATE_FREE -> j ∈ feed_filter f ->
  feeds c !! i' = Some f' -> feed_state f' <> DMX_STATE_FREE -> j ∈ feed_filter f' -> i' = i.
Proof.
  intros (_ & _ & Hfe & _) Ef Hf Hin Ef' Hf' Hin'.
  destruct (proj1 (list.Forall_forall _ _) (proj1 (proj2 (Hfe i f Ef Hf))) j Hin) as (g & Eg & _ & E1).
  destruct (proj1 (list.Forall_forall _ _) (proj1 (proj2 (Hfe i' f' Ef' Hf'))) j Hin') as (g' & Eg' & _ & E2). congruence.
Qed.

Lemma core_inv_not_active c i f :
  core_inv c -> feeds c !! i = Some f -> feed_state f = DMX_STATE_FREE -> i ∉ feed_list c.
Proof.
  intros (_ & Hact & _) Ef Hf Hin. destruct (proj1 (list.Forall_forall _ _) Hact i Hin) as (f' & Ef' & Hf'). congruence.
Qed.

Lemma core_inv_list c l :
  core_inv c -> NoDup l -> Forall (in_use c) l -> core_inv (with_feed_list l c).
Proof. intros (_ & _ & H) Hn Ha. by split. Qed.

Lemma feed_add_run i d : inv d -> in_use (dm_core d) i ->
  exists l, dvb_demux_feed_add i d = with_core (with_feed_list l (dm_core d)) d /\
    core_inv (with_feed_list l (dm_core d)) /\ i ∈ l.
Proof.
  intros [Hc _] Hi. unfold dvb_demux_feed_add, dvb_demux_feed_find. pose proof Hc as (Hn & Ha & _).
  case_bool_decide as Hin.
  - exists (feed_list (dm_core d)). split; [by destruct d as [[] ? ? ? ?]|]. by split; [apply core_inv_list|].
  - exists (i :: feed_list (dm_core d)). split; [done|]. split; [|by left].
    apply core_inv_list; [done|by apply NoDup_cons_2|by apply Forall_cons_2].
Qed.

Lemma feed_del_run i d :
  core_inv (dm_core d) ->
  exists l, dvb_demux_feed_del i d = with_core (with_feed_list l (dm_core d)) d /\
    core_inv (with_feed_list l (dm_core d)) /\ i ∉ l.
Proof.
  intros Hc. unfold dvb_demux_feed_del, dvb_demux_feed_find. pose proof Hc as (Hn & Ha & _).
  case_bool_decide as Hin; simpl.
  - exists (list_difference (feed_list (dm_core d)) [i]). split; [done|]. split.
    + apply core_inv_list; [done|by apply NoDup_list_difference|by apply Forall_list_difference].
    + rewrite list_elem_of_difference. intros [_ H]. apply H. by left.
  - exists (feed_list (dm_core d)). split; [by destruct d as [[] ? ? ? ?]|]. by split; [apply core_inv_list|].
Qed.

(** ** Every operation preserves the invariant *)

Definition ok (d : dmx) : Prop := inv d /\ mutex d = false.

(** The feed [i] was allocated with this type. *)
Definition client_feed (d : dmx) (i : nat) (ty : Z) : Prop :=
  exists f, feeds (dm_core d) !! i = Some f /\ feed_state f <> DMX_STATE_FREE /\ feed_type f = ty.

Definition results (r : option (dmx * Z)) : Prop := exists d ret, r = Some (d, ret) /\ ok d.
Definition returns_inv (r : option (dmx * Z)) : Prop := exists d ret, r = Some (d, ret) /\ inv d.

Lemma locked_ok sig d body :
  ok d -> (forall d1, inv d1 -> dm_core d1 = dm_core d -> pesfilter d1 = pesfilter d -> mutex d1 = true ->
             returns_inv (body d1)) ->
  results (locked sig d body).
Proof.
  intros [Hi Hm] Hb. unfold locked. destruct sig; [by exists d, (- ERESTARTSYS)|].
  unfold mutex_lock. rewrite Hm. cbn [mbind option_bind].
  destruct (Hb (with_mutex true d) Hi eq_refl eq_refl eq_refl) as (d' & ret & -> & Hi').
  exists (mutex_unlock d'), ret. by split.
Qed.

(** A change of a feed that keeps its type and its filters. *)
Lemma inv_touch d i f f' :
  inv d -> feeds (dm_core d) !! i = Some f -> feed_state f <> DMX_STATE_FREE ->
  feed_state f' <> DMX_STATE_FREE -> feed_type f' = feed_type f -> feed_filter f' = feed_filter f ->
  secbuf_base (sec f') = secbuf_base (sec f) ->
  (feed_type f = DMX_TYPE_SEC -> sec_ok (sec f) -> sec_ok (sec f')) ->
  inv (with_core (put_feed i f' (dm_core d)) d).
Proof.
  intros [Hc Hp] Ef Hf Hf' Et Ech Hbase Hs. split; [|done]. apply (core_inv_put_feed _ _ f); [done..|].
  intros _. pose proof Hc as (_ & _ & Hfe & _). destruct (Hfe i f Ef Hf) as (H1 & H2 & H3 & H4 & H5).
  unfold feed_inv. rewrite Et, Ech. split; [done|]. split; [done|]. split; [done|]. split; [done|]. auto.
Qed.

Section operation_lemmas.
Context (start_feed stop_feed : option (nat -> Z)).

Lemma upd_touch d i f g ret :
  inv d -> feeds (dm_core d) !! i = Some f -> feed_state f <> DMX_STATE_FREE ->
  feed_state (g f) <> DMX_STATE_FREE -> feed_type (g f) = feed_type f -> feed_filter (g f) = feed_filter f ->
  secbuf_base (sec (g f)) = secbuf_base (sec f) ->
  (feed_type f = DMX_TYPE_SEC -> sec_ok (sec f) -> sec_ok (sec (g f))) ->
  returns_inv (d ← upd_feed i g d; Some (d, ret)).
Proof.
  intros Hi Ef Hf Hg Ht Hch Hbase Hs. rewrite (upd_feed_run i g d f Ef). cbn [mbind option_bind].
  eexists _, ret. split; [reflexivity|]. by apply (inv_touch d i f).
Qed.

Lemma ts_set_ok sig i pid type pes d :
  ok d -> client_feed d i DMX_TYPE_TS -> 0 <= pes -> results (dmx_ts_feed_set sig i pid type pes d).
Proof.
  intros Hok (f & Ef & Hf & Ht) Hpes. unfold dmx_ts_feed_set.
  destruct (DMX_MAX_PID <? pid); [by exists d, (- EINVAL)|].
  apply locked_ok; [done|]. intros d1 Hi Ec Ep Hm.
  assert (Hfin : forall d2, inv d2 -> dm_core d2 = dm_core d -> returns_inv
    (let d := dvb_demux_feed_add i d2 in
     d ← upd_feed i (fun f => set_state DMX_STATE_READY (set_types type pes (set_pid pid f))) d; Some (d, 0))).
  { intros d2 Hi2 Ec2. rewrite <- Ec2 in Ef. destruct (feed_add_run i d2 Hi2) as (l & -> & Hl & _); [by exists f|].
    apply (upd_touch _ _ f); try done. destruct Hi2. by split. }
  destruct (negb (Z.land type TS_DECODER =? 0)); [|by apply Hfin].
  destruct (DMX_PES_OTHER <=? pes) eqn:Eo; [by exists d1, (- EINVAL)|].
  destruct Hi as [Hc Hlen]. destruct (lookup_lt_is_Some_2 (pesfilter d1) (Z.to_nat pes)) as [owner Eow]; [lia|].
  rewrite Eow. cbn [mbind option_bind].
  assert (Hi2 : inv (with_pes (<[Z.to_nat pes := Some i]> (pesfilter d1)) (zset (pids d1) pes pid) d1)).
  { split; [done|]. simpl. by rewrite length_insert. }
  destruct owner as [j|]; [|by apply Hfin]. destruct (negb _); [|by apply Hfin].
  by exists d1, (- EINVAL).
Qed.

Lemma ts_start_ok sig i d :
  ok d -> client_feed d i DMX_TYPE_TS -> results (dmx_ts_feed_start_filtering start_feed sig i d).
Proof.
  intros Hok (f & Ef & Hf & Ht). apply locked_ok; [done|]. intros d1 Hi Ec Ep Hm. rewrite <- Ec in Ef.
  rewrite Ef. cbn [mbind option_bind]. destruct (_ || _); [by exists d1, (- EINVAL)|].
  destruct start_feed as [start|]; [|by exists d1, (- ENODEV)].
  cbv zeta. destruct (start i <? 0); [by exists d1, (start i)|]. by apply (upd_touch _ _ f).
Qed.

Lemma ts_stop_ok i d :
  ok d -> client_feed d i DMX_TYPE_TS -> results (dmx_ts_feed_stop_filtering stop_feed i d).
Proof.
  intros Hok (f & Ef & Hf & Ht). apply locked_ok; [done|]. intros d1 Hi Ec Ep Hm. rewrite <- Ec in Ef.
  rewrite Ef. cbn [mbind option_bind]. destruct (_ <? _); [by exists d1, (- EINVAL)|].
  destruct stop_feed as [stop|]; [|by exists d1, (- ENODEV)]. by apply (upd_touch _ _ f).
Qed.

Lemma section_set_ok sig i pid crc d :
  ok d -> client_feed d i DMX_TYPE_SEC -> results (dmx_section_feed_set sig i pid crc d).
Proof.
  intros Hok (f & Ef & Hf & Ht). unfold dmx_section_feed_set. destruct (_ <? pid); [by exists d, (- EINVAL)|].
  apply locked_ok; [done|]. intros d1 Hi Ec Ep Hm. rewrite <- Ec in Ef.
  destruct (feed_add_run i d1 Hi) as (l & -> & Hl & _); [by exists f|].
  apply (upd_touch _ _ f); try done. destruct Hi. by split.
Qed.

Lemma section_stop_ok i d :
  ok d -> client_feed d i DMX_TYPE_SEC -> results (dmx_section_feed_stop_filtering stop_feed i d).
Proof.
  intros Hok (f & Ef & Hf & Ht). apply locked_ok; [done|]. intros d1 Hi Ec Ep Hm. rewrite <- Ec in Ef.
  destruct stop_feed as [stop|]; [|by exists d1, (- ENODEV)]. by apply (upd_touch _ _ f).
Qed.

(** Setting up the masks of a chain changes no filter's owner or state. *)
Lemma prepare_secfilters_run chain : forall d i,
  inv d -> Forall (used_filter (filters (dm_core d)) i) chain ->
  exists d', prepare_secfilters chain d = Some d' /\ inv d' /\ feeds (dm_core d') = feeds (dm_core d) /\
    mutex d' = mutex d.
Proof.
  induction chain as [|j chain IH]; intros d i Hi Hch; [by exists d|].
  inversion Hch as [|? ? (g & Eg & Hg & Hgi) Hch']; subst. cbn [prepare_secfilters].
  rewrite (upd_filter_run j prepare_secfilter d g Eg). cbn [mbind option_bind].
  assert (Eq : filter_state (prepare_secfilter g) = filter_state g /\ filter_feed (prepare_secfilter g) = filter_feed g).
  { unfold prepare_secfilter. by destruct (prepare_masks _ _ _ _) as [[? ?] ?]. }
  destruct Eq as [Es Eo].
  destruct (IH (with_core (put_filter j (prepare_secfilter g) (dm_core d)) d) (filter_feed g)) as (d' & E & Hi' & Ef' & Em').
  - destruct Hi as [Hc Hp]. split; [|done]. apply (core_inv_put_filter _ _ g); [done..|].
    intros i f Ef Hf Hin. rewrite Es, Eo. split; [done|].
    destruct Hc as (_ & _ & Hfe & _). destruct (Hfe i f Ef Hf) as (_ & Hu & _).
    destruct (proj1 (list.Forall_forall _ _) Hu j Hin) as (g' & Eg' & _ & E'). congruence.
  - eapply Forall_impl; [|exact Hch']. intros k (gk & Ek & Hk & Hki). destruct (decide (k = j)) as [->|Hne].
    + exists (prepare_secfilter g). split; [by eapply put_filter_lookup|]. rewrite Es, Eo. done.
    + exists gk. simpl. by rewrite list_lookup_insert_ne by done.
  - by exists d'.
Qed.

Lemma section_start_ok sig i d :
  ok d -> client_feed d i DMX_TYPE_SEC -> results (dmx_section_feed_start_filtering start_feed sig i d).
Proof.
  intros Hok (f & Ef & Hf & Ht). apply locked_ok; [done|]. intros d1 Hi Ec Ep Hm. rewrite <- Ec in Ef.
  rewrite Ef. cbn [mbind option_bind]. destruct (is_filtering f); [by exists d1, (- EBUSY)|].
  destruct (feed_filter f) as [|j chain] eqn:Ech; [by exists d1, (- EINVAL)|]. rewrite <- Ech.
  rewrite (upd_feed_run i _ d1 f Ef). cbn [mbind option_bind].
  set (d2 := with_core _ d1). set (f2 := dvb_dmx_swfilter_section_new f) in *.
  assert (Hi2 : inv d2).
  { apply (inv_touch d1 i f); try done. intros _ Hs. by apply section_new_ok. }
  assert (Ef2 : feeds (dm_core d2) !! i = Some f2) by (by eapply put_feed_lookup).
  destruct start_feed as [start|]; [|by exists d2, (- ENODEV)].
  destruct (prepare_secfilters_run (feed_filter f) d2 i Hi2) as (d3 & -> & Hi3 & Ef3 & Hm3).
  { destruct Hi as [(_ & _ & Hfe & _) _]. by destruct (Hfe i f Ef Hf) as (_ & Hu & _). }
  cbn [mbind option_bind]. cbv zeta. destruct (start i <? 0); [by exists d3, (start i)|].
  apply (upd_touch d3 i f2); try done. by rewrite Ef3.
Qed.

(** Releasing an entry of the table of feeds. *)
Lemma release_run d i f f' :
  inv d -> feeds (dm_core d) !! i = Some f -> feed_state f' = DMX_STATE_FREE ->
  secbuf_base (sec f') = secbuf_base (sec f) ->
  exists l, dvb_demux_feed_del i (with_core (put_feed i f' (dm_core d)) d) =
      with_core (with_feed_list l (put_feed i f' (dm_core d))) d /\
    core_inv (with_feed_list l (put_feed i f' (dm_core d))) /\ i ∉ l.
Proof.
  intros [Hc _] Ef Hf' Hbase. destruct (feed_del_run i d Hc) as (l & E & Hl & Hni). exists l.
  split; [|split; [|done]].
  - unfold dvb_demux_feed_del, dvb_demux_feed_find in *. cbn -[list_difference] in *.
    destruct (bool_decide _); cbn -[list_difference] in *.
    + apply (f_equal (fun d => feed_list (dm_core d))) in E. simpl in E. by rewrite E.
    + apply (f_equal (fun d => feed_list (dm_core d))) in E. simpl in E. rewrite <- E. by destruct d as [[] ? ? ? ?].
  - change (with_feed_list l (put_feed i f' (dm_core d))) with (put_feed i f' (with_feed_list l (dm_core d))).
    by apply (core_inv_put_feed _ _ f).
Qed.

Lemma section_release_ok i d :
  ok d -> client_feed d i DMX_TYPE_SEC -> results (dvbdmx_release_section_feed i d).
Proof.
  intros Hok (f & Ef & Hf & Ht). apply locked_ok; [done|]. intros d1 Hi Ec Ep Hm. rewrite <- Ec in Ef.
  rewrite Ef. cbn [mbind option_bind]. rewrite (proj2 (Z.eqb_neq _ _)) by done.
  rewrite (upd_feed_run i _ d1 f Ef). cbn [mbind option_bind].
  destruct (release_run d1 i f (set_state DMX_STATE_FREE f) Hi Ef eq_refl eq_refl) as (l & -> & Hl & Hni).
  cbv zeta. erewrite upd_feed_run by (by eapply put_feed_lookup). cbn [mbind option_bind].
  eexists _, 0. split; [reflexivity|]. destruct Hi as [_ Hp]. split; [|done]. cbn [dm_core with_core].
  eapply core_inv_put_feed; [exact Hl|by eapply put_feed_lookup|done|done|done].
Qed.

Lemma ts_release_ok i d :
  ok d -> client_feed d i DMX_TYPE_TS -> results (dvbdmx_release_ts_feed i d).
Proof.
  intros Hok (f & Ef & Hf & Ht). apply locked_ok; [done|]. intros d1 Hi Ec Ep Hm. rewrite <- Ec in Ef.
  rewrite Ef. cbn [mbind option_bind]. rewrite (proj2 (Z.eqb_neq _ _)) by done.
  rewrite (upd_feed_run i _ d1 f Ef). cbn [mbind option_bind].
  pose proof Hi as [Hc Hp]. pose proof Hc as (_ & _ & Hfe & _).
  destruct (Hfe i f Ef Hf) as (Hn & Hu & _ & Hone & _). destruct (Hone Ht) as (j & Ech). rewrite Ech in *. cbn [head mbind option_bind].
  inversion Hu as [|? ? (g & Eg & Hg & Hgi) _]; subst.
  set (f' := set_state DMX_STATE_FREE f). set (g' := set_filter DMX_STATE_FREE (filter_type g) (filter_feed g) g).
  cbn [dm_core with_core put_feed with_feeds filters]. rewrite Eg. cbn [mbind option_bind].
  rewrite (upd_filter_run j _ _ g) by done. cbn [mbind option_bind]. fold g'.
  change (dvb_demux_feed_del (filter_feed g) _) with
    (dvb_demux_feed_del (filter_feed g) (with_core (put_feed (filter_feed g) f' (put_filter j g' (dm_core d1)))
       (with_core (put_filter j g' (dm_core d1)) d1))).
  destruct (feed_del_run (filter_feed g) d1 Hc) as (l & E & Hl & Hni).
  assert (Edel : forall c, feed_list c = feed_list (dm_core d1) -> forall d0,
            dvb_demux_feed_del (filter_feed g) (with_core c d0) = with_core (with_feed_list l c) d0).
  { intros c Elc d0. apply (f_equal (fun d => feed_list (dm_core d))) in E. unfold dvb_demux_feed_del, dvb_demux_feed_find in *.
    cbn -[list_difference] in *. rewrite Elc. destruct (bool_decide _); cbn -[list_difference] in *; [by rewrite E|].
    rewrite <- E, <- Elc. by destruct c. }
  rewrite Edel by done. cbv zeta.
  set (c2 := with_feed_list l _). assert (Ef2 : feeds c2 !! filter_feed g = Some f') by (by eapply put_feed_lookup).
  rewrite (upd_feed_run _ _ _ f') by exact Ef2. cbn [mbind option_bind].
  set (f2 := set_pid 0xffff f').
  assert (Hc3 : core_inv (put_feed (filter_feed g) f2 c2)).
  { apply (core_inv_put_feed _ _ f'); [|done|done|done|done].
    change c2 with (put_filter j g' (put_feed (filter_feed g) f' (with_feed_list l (dm_core d1)))).
    apply (core_inv_put_filter _ _ g); [by apply (core_inv_put_feed _ _ f)|done|].
    intros k fk Ek Hk Hin. exfalso. simpl in Ek. apply lookup_insert_cases in Ek as [[-> ->]|[Hne Ek]]; [done|].
    apply Hne. eapply (filter_of_other (dm_core d1) j _ k f fk); try done. rewrite Ech. by left. }
  eexists _, 0. split; [reflexivity|].
  destruct (_ && _); split; cbn [dm_core with_core with_pes pesfilter]; try done. by rewrite length_insert.
Qed.

(** Allocation. *)
Lemma feed_alloc_run d :
  match list_find (fun f => feed_state f = DMX_STATE_FREE) (feeds (dm_core d)) with
  | None => dvb_dmx_feed_alloc d = Some (d, None)
  | Some (i, f) =>
      feeds (dm_core d) !! i = Some f /\ feed_state f = DMX_STATE_FREE /\
      dvb_dmx_feed_alloc d = Some (with_core (put_feed i (set_state DMX_STATE_ALLOCATED f) (dm_core d)) d, Some i)
  end.
Proof.
  unfold dvb_dmx_feed_alloc. destruct (list_find _ _) as [[i f]|] eqn:E; [|done].
  apply list_find_Some in E as (Ef & Hf & _). split; [done|]. split; [done|].
  by rewrite (upd_feed_run i _ d f Ef).
Qed.

Lemma filter_alloc_run d :
  match list_find (fun f => filter_state f = DMX_STATE_FREE) (filters (dm_core d)) with
  | None => dvb_dmx_filter_alloc d = Some (d, None)
  | Some (j, g) =>
      filters (dm_core d) !! j = Some g /\ filter_state g = DMX_STATE_FREE /\
      dvb_dmx_filter_alloc d =
        Some (with_core (put_filter j (set_filter DMX_STATE_ALLOCATED (filter_type g) (filter_feed g) g) (dm_core d)) d, Some j)
  end.
Proof.
  unfold dvb_dmx_filter_alloc. destruct (list_find _ _) as [[j g]|] eqn:E; [|done].
  apply list_find_Some in E as (Eg & Hg & _). split; [done|]. split; [done|].
  by rewrite (upd_filter_run j _ d g Eg).
Qed.

(** The result of an allocation: a free feed exists or the answer is -EBUSY. *)
Definition allocates (ty : Z) (d : dmx) (r : option (dmx * Z * option nat)) : Prop :=
  exists d' ret o, r = Some (d', ret, o) /\ ok d' /\
    (ret = 0 \/ ret = - EBUSY \/ ret = - ERESTARTSYS) /\
    (ret = 0 -> exists i, o = Some i /\ client_feed d' i ty /\ ~ in_use (dm_core d) i).

Lemma section_allocate_ok sig d :
  ok d -> allocates DMX_TYPE_SEC d (dvbdmx_allocate_section_feed sig d).
Proof.
  intros [[Hc Hp] Hm]. pose proof Hc as (_ & _ & _ & Hmem). unfold dvbdmx_allocate_section_feed.
  destruct sig; [exists d, (- ERESTARTSYS), None; split; [done|]; split; [done|]; split; [by auto|done]|].
  unfold mutex_lock. rewrite Hm. cbn [mbind option_bind].
  pose proof (feed_alloc_run (with_mutex true d)) as Hal. cbn [dm_core with_mutex] in Hal.
  destruct (list_find _ _) as [[i f]|].
  2:{ rewrite Hal. cbn [mbind option_bind]. eexists _, _, _. split; [reflexivity|]. split; [done|]. split; [by auto|done]. }
  destruct Hal as (Ef & Hf & ->). cbn [mbind option_bind].
  set (f1 := set_state DMX_STATE_ALLOCATED f).
  rewrite (upd_feed_run i _ _ f1) by (by eapply put_feed_lookup). cbn [mbind option_bind dm_core with_core].
  rewrite put_feed_twice. eexists _, 0, (Some i). split; [reflexivity|].
  pose proof (proj1 (Forall_lookup _ _) Hmem i f Ef) as [Hz Hb].
  split; [split; [split; [|done]|done]|split; [by left|]].
  - cbn [dm_core with_core mutex_unlock with_mutex]. apply (core_inv_put_feed _ _ f); [done|done|done|done|].
    intros _. split; [constructor|]. split; [constructor|]. split; [by right|]. split; [done|].
    intros _. unfold sec_ok. simpl. split_and!; (done || lia).
  - intros _. exists i. split; [done|]. split.
    + eexists. split; [by eapply put_feed_lookup|]. by split.
    + intros (f2 & Ef2 & Hf2). congruence.
Qed.

Lemma ts_allocate_ok sig d : ok d -> allocates DMX_TYPE_TS d (dvbdmx_allocate_ts_feed sig d).
Proof.
  intros [[Hc Hp] Hm]. unfold dvbdmx_allocate_ts_feed.
  destruct sig; [exists d, (- ERESTARTSYS), None; split; [done|]; split; [done|]; split; [by auto|done]|].
  unfold mutex_lock. rewrite Hm. cbn [mbind option_bind].
  pose proof (feed_alloc_run (with_mutex true d)) as Hal. cbn [dm_core with_mutex] in Hal.
  destruct (list_find _ _) as [[i f]|].
  2:{ rewrite Hal. cbn [mbind option_bind]. eexists _, _, _. split; [reflexivity|]. split; [done|]. split; [by auto|done]. }
  destruct Hal as (Ef & Hf & ->). cbn [mbind option_bind].
  set (f1 := set_state DMX_STATE_ALLOCATED f).
  rewrite (upd_feed_run i _ _ f1) by (by eapply put_feed_lookup). cbn [mbind option_bind dm_core with_core].
  rewrite put_feed_twice. set (f2 := set_filtering false _). set (d2 := with_core (put_feed i f2 (dm_core d)) _).
  pose proof (filter_alloc_run d2) as Hfa. change (filters (dm_core d2)) with (filters (dm_core d)) in Hfa.
  assert (Ef2 : feeds (dm_core d2) !! i = Some f2) by (by eapply put_feed_lookup).
  destruct (list_find _ (filters _)) as [[j g]|].
  - destruct Hfa as (Eg & Hg & ->). cbn [mbind option_bind].
    rewrite (upd_feed_run i _ _ f2) by exact Ef2. cbn [mbind option_bind].
    erewrite upd_filter_run by (by eapply put_filter_lookup). cbn [mbind option_bind].
    set (g' := set_filter DMX_STATE_READY DMX_TYPE_TS i _).
    eexists _, 0, (Some i). split; [reflexivity|].
    cbn [dm_core with_core]. set (c3 := put_filter j g' _).
    assert (Ec3 : c3 = put_feed i (set_chain [j] f2) (put_filter j g' (dm_core d))).
    { unfold c3. change (put_feed i (set_chain [j] f2) (put_filter j ?a (dm_core d2))) with
        (put_filter j a (put_feed i (set_chain [j] f2) (dm_core d2))).
      rewrite put_filter_twice. unfold d2. cbn [dm_core with_core]. by rewrite put_feed_twice. }
    split; [split; [split; [|done]|done]|split; [by left|]].
    + cbn [dm_core with_core mutex_unlock with_mutex]. rewrite Ec3.
      apply (core_inv_put_feed _ _ f); [|done|done| |].
      * apply (core_inv_put_filter _ _ g); [done..|]. intros k fk Ek Hk Hin.
        by destruct (free_filter_unused (dm_core d) j g k fk).
      * done.
      * intros _. split; [apply NoDup_singleton|]. split; [|split; [by left|split; [|done]]]; [|by exists j].
        constructor; [|constructor]. exists g'. split; [by eapply put_filter_lookup|]. done.
    + intros _. exists i. split; [done|]. split.
      * exists (set_chain [j] f2). split; [|done]. cbn [dm_core with_core mutex_unlock with_mutex]. rewrite Ec3.
        by eapply put_feed_lookup.
      * intros (f3 & Ef3 & Hf3). congruence.
  - rewrite Hfa. cbn [mbind option_bind]. rewrite (upd_feed_run i _ _ f2) by exact Ef2. cbn [mbind option_bind].
    eexists _, _, _. split; [reflexivity|]. split; [split; [split; [|done]|done]|split; [by auto|done]].
    cbn [dm_core with_core mutex_unlock with_mutex]. unfold d2. cbn [dm_core with_core]. rewrite put_feed_twice.
    apply (core_inv_put_feed _ _ f); [done|done|done| |done]. intros _. by apply (core_inv_not_active _ _ f).
Qed.

Lemma allocate_filter_ok sig i d :
  ok d -> client_feed d i DMX_TYPE_SEC ->
  exists d' ret o, dmx_section_feed_allocate_filter sig i d = Some (d', ret, o) /\ ok d' /\
    (ret = 0 \/ ret = - EBUSY \/ ret = - ERESTARTSYS) /\
    (ret = 0 -> exists j, o = Some j /\ used_filter (filters (dm_core d')) i j /\ client_feed d' i DMX_TYPE_SEC).
Proof.
  intros [[Hc Hp] Hm] (f & Ef & Hf & Ht). unfold dmx_section_feed_allocate_filter.
  destruct sig; [exists d, (- ERESTARTSYS), None; split; [done|]; split; [done|]; split; [by auto|done]|].
  unfold mutex_lock. rewrite Hm. cbn [mbind option_bind].
  pose proof (filter_alloc_run (with_mutex true d)) as Hfa. cbn [dm_core with_mutex] in Hfa.
  destruct (list_find _ _) as [[j g]|].
  2:{ rewrite Hfa. cbn [mbind option_bind]. eexists _, _, _. split; [reflexivity|]. split; [done|]. split; [by auto|done]. }
  destruct Hfa as (Eg & Hg & ->). cbn [mbind option_bind].
  erewrite upd_filter_run by (by eapply put_filter_lookup). cbn [mbind option_bind dm_core with_core].
  rewrite put_filter_twice. set (g' := set_filter DMX_STATE_READY DMX_TYPE_SEC i _).
  rewrite (upd_feed_run i _ _ f) by exact Ef. cbn [mbind option_bind dm_core with_core].
  eexists _, 0, (Some j). split; [reflexivity|].
  assert (Hu : used_filter (<[j:=g']> (filters (dm_core d))) i j).
  { exists g'. split; [by eapply (put_filter_lookup _ _ _ (dm_core d))|done]. }
  split; [split; [split; [|done]|done]|split; [by left|]].
  - cbn [dm_core with_core mutex_unlock with_mutex].
    pose proof Hc as (_ & _ & Hfe & _). destruct (Hfe i f Ef Hf) as (Hn & Hus & Hty & Hts & Hsec).
    apply (core_inv_put_feed _ _ f); [|done|done|done|].
    + apply (core_inv_put_filter _ _ g); [done..|]. intros k fk Ek Hk Hin. by destruct (free_filter_unused (dm_core d) j g k fk).
    + intros _. split; [|split; [|split; [done|split; [|done]]]].
      * apply NoDup_cons_2; [|done]. by eapply free_filter_unused.
      * constructor; [done|]. eapply Forall_impl; [|exact Hus]. intros k (gk & Ek & Hk & Hki).
        destruct (decide (k = j)) as [->|Hne]; [done|]. exists gk. simpl. by rewrite list_lookup_insert_ne by done.
      * cbn [feed_type set_chain]. rewrite Ht. done.
  - intros _. exists j. split; [done|]. split; [done|]. eexists. split; [by eapply put_feed_lookup|]. done.
Qed.

Lemma release_filter_ok i j d :
  ok d -> client_feed d i DMX_TYPE_SEC -> (j < length (filters (dm_core d)))%nat ->
  (forall f g, feeds (dm_core d) !! i = Some f -> filters (dm_core d) !! j = Some g -> filter_feed g = i ->
     is_filtering f = false /\ j ∈ feed_filter f) ->
  results (dmx_section_feed_release_filter stop_feed i j d).
Proof.
  intros Hok (f & Ef & Hf & Ht) Hj Hown. destruct (lookup_lt_is_Some_2 _ _ Hj) as [g Eg].
  apply locked_ok; [done|]. intros d1 Hi Ec Ep Hm. rewrite <- Ec in *.
  rewrite Eg. cbn [mbind option_bind]. destruct (Nat.eqb (filter_feed g) i) eqn:Eo; cbn [negb]; [|by exists d1, (- EINVAL)].
  apply Nat.eqb_eq in Eo. destruct (Hown f g Ef Eg Eo) as [Hfi Hin].
  rewrite Ef. cbn [mbind option_bind]. rewrite Hfi. cbn [mbind option_bind]. rewrite decide_True by done.
  rewrite (upd_feed_run i _ _ f) by done. cbn [mbind option_bind].
  rewrite (upd_filter_run j _ _ g) by done. cbn [mbind option_bind].
  eexists _, 0. split; [reflexivity|]. destruct Hi as [Hc Hp]. split; [|done]. cbn [dm_core with_core].
  set (f' := set_chain _ f). set (g' := set_filter _ _ _ g).
  pose proof Hc as (_ & _ & Hfe & _). destruct (Hfe i f Ef Hf) as (Hn & Hus & Hty & Hts & Hsec).
  assert (Hnin : j ∉ feed_filter f').
  { cbn [feed_filter f' set_chain]. rewrite list_elem_of_difference. intros [_ H]. apply H. by left. }
  apply (core_inv_put_filter _ _ g); [|done|].
  - apply (core_inv_put_feed _ _ f); [done|done|done|done|]. intros _.
    split; [by apply NoDup_list_difference|]. split; [by apply Forall_list_difference|]. split; [done|].
    split; [|done]. cbn [feed_type f' set_chain]. rewrite Ht. done.
  - intros k fk Ek Hk Hink. exfalso. simpl in Ek. apply lookup_insert_cases in Ek as [[-> ->]|[Hne Ek]]; [done|].
    apply Hne. by eapply (filter_of_other (dm_core d1) j _ k f fk).
Qed.
End operation_lemmas.

(** ** Clients, driver and packets together *)

Section system.
Context (start_feed stop_feed : option (nat -> Z)).
Context (crc32_be : Z -> list Z -> Z) (cb_sec : nat -> list Z -> Z) (after_base : Z -> Z).
Context (dvb_demux_tscheck dvb_demux_feed_err_pkts : bool).

(** The operations of the clients, and a packet from the driver; [sig] says that a signal
    interrupts the wait for the mutex.  [OWriteFilter] is the client that fills in the
    filter it was given. *)
Inductive dmx_op :=
| OAllocTs (sig : bool) | OSetTs (sig : bool) (i : nat) (pid type pes : Z)
| OStartTs (sig : bool) (i : nat) | OStopTs (i : nat) | OReleaseTs (i : nat)
| OAllocSec (sig : bool) | OAllocFilter (sig : bool) (i : nat)
| OWriteFilter (j : nat) (value mask mode : list Z)
| OSetSec (sig : bool) (i : nat) (pid : Z) (crc : bool)
| OStartSec (sig : bool) (i : nat) | OStopSec (i : nat)
| OReleaseFilter (i j : nat) | OReleaseSec (i : nat)
| OOpen | OClose | OPacket (buf : list Z).

Definition write_filter (value mask mode : list Z) (g : dvb_demux_filter) : dvb_demux_filter :=
  Filter value mask mode (maskandmode g) (maskandnotmode g) (doneq g) (filter_state g) (filter_type g) (filter_feed g).

Definition dmx_step (o : dmx_op) (d : dmx) : option (dmx * Z) :=
  match o with
  | OAllocTs sig => '(d, r, _) ← dvbdmx_allocate_ts_feed sig d; Some (d, r)
  | OSetTs sig i pid type pes => dmx_ts_feed_set sig i pid type pes d
  | OStartTs sig i => dmx_ts_feed_start_filtering start_feed sig i d
  | OStopTs i => dmx_ts_feed_stop_filtering stop_feed i d
  | OReleaseTs i => dvbdmx_release_ts_feed i d
  | OAllocSec sig => '(d, r, _) ← dvbdmx_allocate_section_feed sig d; Some (d, r)
  | OAllocFilter sig i => '(d, r, _) ← dmx_section_feed_allocate_filter sig i d; Some (d, r)
  | OWriteFilter j v m mo => d ← upd_filter j (write_filter v m mo) d; Some (d, 0)
  | OSetSec sig i pid crc => dmx_section_feed_set sig i pid crc d
  | OStartSec sig i => dmx_section_feed_start_filtering start_feed sig i d
  | OStopSec i => dmx_section_feed_stop_filtering stop_feed i d
  | OReleaseFilter i j => dmx_section_feed_release_filter stop_feed i j d
  | OReleaseSec i => dvbdmx_release_section_feed i d
  | OOpen => Some (dvbdmx_open d)
  | OClose => Some (dvbdmx_close d)
  | OPacket buf =>
      '(c, _) ← dvb_dmx_swfilter_packet crc32_be cb_sec after_base dvb_demux_tscheck dvb_demux_feed_err_pkts (dm_core d) buf;
      Some (with_core c d, 0)
  end.

(** The rules of the interface: a client uses the feeds it was given and has not released,
    and releases the filters of a feed that is stopped; packets have 188 bytes. *)
Definition valid (o : dmx_op) (d : dmx) : Prop :=
  match o with
  | OSetTs _ i _ _ pes => client_feed d i DMX_TYPE_TS /\ 0 <= pes
  | OStartTs _ i | OStopTs i | OReleaseTs i => client_feed d i DMX_TYPE_TS
  | OAllocFilter _ i | OSetSec _ i _ _ | OStartSec _ i | OStopSec i | OReleaseSec i => client_feed d i DMX_TYPE_SEC
  | OWriteFilter j _ _ _ => (j < length (filters (dm_core d)))%nat
  | OReleaseFilter i j =>
      client_feed d i DMX_TYPE_SEC /\ (j < length (filters (dm_core d)))%nat /\
      (forall f g, feeds (dm_core d) !! i = Some f -> filters (dm_core d) !! j = Some g -> filter_feed g = i ->
         is_filtering f = false /\ j ∈ feed_filter f)
  | OPacket buf => is_packet buf
  | OAllocTs _ | OAllocSec _ | OOpen | OClose => True
  end.

Lemma core_inv_ok c : core_inv c -> core_ok c.
Proof.
  intros (_ & Hact & Hfe & _). eapply Forall_impl; [|exact Hact]. intros i (f & Ef & Hf). exists f. split; [done|].
  intros Ht. destruct (Hfe i f Ef Hf) as (_ & Hu & _ & _ & Hs). split; [by apply Hs|].
  eapply Forall_impl; [|exact Hu]. intros j (g & Eg & _). by eexists.
Qed.

Lemma core_inv_step c c' : core_step c c' -> core_inv c -> core_inv c'.
Proof.
  intros (E1 & E2 & H) (Hn & Hact & Hfe & Hm). unfold core_inv, in_use. rewrite E1, E2.
  split; [done|]. split; [|split].
  - eapply Forall_impl; [|exact Hact]. intros i (f & Ef & Hf).
    destruct (Forall2_lookup_l _ _ _ _ _ H Ef) as (f' & Ef' & (_ & _ & _ & _ & Es & _) & _). exists f'. by rewrite Es.
  - intros i f' Ef' Hf'. destruct (Forall2_lookup_r _ _ _ _ _ H Ef') as (f & Ef & (Et & _ & Ech & _ & Es & _) & Hsec & _).
    rewrite Es in Hf'. destruct (Hfe i f Ef Hf') as (H1 & H2 & H3 & H4 & H5).
    unfold feed_inv. rewrite Et, Ech. split; [done|]. split; [done|]. split; [done|]. split; [done|]. auto.
  - apply Forall_lookup. intros i f' Ef'. destruct (Forall2_lookup_r _ _ _ _ _ H Ef') as (f & Ef & _ & _ & Hb).
    apply Hb. by apply (Forall_lookup_1 _ _ _ _ Hm Ef).
Qed.

Lemma dmx_step_ok o d : ok d -> valid o d -> results (dmx_step o d).
Proof.
  intros Hok Hv. destruct o; cbn [dmx_step valid] in *.
  - destruct (ts_allocate_ok sig d Hok) as (d' & ret & o & -> & Hok' & _). by exists d', ret.
  - destruct Hv. by apply ts_set_ok.
  - by apply ts_start_ok.
  - by apply ts_stop_ok.
  - by apply ts_release_ok.
  - destruct (section_allocate_ok sig d Hok) as (d' & ret & o & -> & Hok' & _). by exists d', ret.
  - destruct (allocate_filter_ok sig i d Hok Hv) as (d' & ret & o & -> & Hok' & _). by exists d', ret.
  - destruct (lookup_lt_is_Some_2 _ _ Hv) as [g Eg]. rewrite (upd_filter_run j _ d g Eg).
    eexists _, 0. split; [reflexivity|]. destruct Hok as [[Hc Hp] Hm]. split; [|done]. split; [|done].
    apply (core_inv_put_filter _ _ g); [done..|]. intros i f Ef Hf Hin. destruct Hc as (_ & _ & Hfe & _).
    destruct (Hfe i f Ef Hf) as (_ & Hu & _). destruct (proj1 (list.Forall_forall _ _) Hu j Hin) as (g' & Eg' & H).
    simpl. congruence.
  - by apply section_set_ok.
  - by apply section_start_ok.
  - by apply section_stop_ok.
  - destruct Hv as (H1 & H2 & H3). by apply release_filter_ok.
  - by apply section_release_ok.
  - unfold dvbdmx_open. destruct (_ <=? _); eexists _, _; by split.
  - unfold dvbdmx_close. destruct (_ =? _); eexists _, _; by split.
  - destruct Hok as [[Hc Hp] Hm].
    destruct (swfilter_packet_step crc32_be cb_sec after_base dvb_demux_tscheck dvb_demux_feed_err_pkts (dm_core d) buf
      (core_inv_ok _ Hc) Hv) as (c' & evs & -> & Hst). cbn [mbind option_bind].
    eexists _, 0. split; [reflexivity|]. split; [|done]. split; [|done]. by apply (core_inv_step (dm_core d)).
Qed.

Fixpoint dmx_run (os : list dmx_op) (d : dmx) : option (list Z * dmx) :=
  match os with
  | [] => Some ([], d)
  | o :: os => '(d, r) ← dmx_step o d; '(rs, d) ← dmx_run os d; Some (r :: rs, d)
  end.

(** Every operation is valid in the state in which it is made. *)
Fixpoint valid_run (os : list dmx_op) (d : dmx) : Prop :=
  match os with
  | [] => True
  | o :: os => valid o d /\ forall d' r, dmx_step o d = Some (d', r) -> valid_run os d'
  end.

(** C13: From [dvb_dmx_init] on, every sequence of client operations and packets that
    keeps the rules of the interface runs to its end, without deadlock or access outside
    the tables, releases the mutex each time, and preserves the invariant: a feed is
    active at most once and only while it is allocated, a feed in use has filters of its
    own that are in use, a transport stream feed exactly one, and section buffers are
    well formed. *)
Theorem dmx_operations_invariant gs fs cnt dec d os :
  Forall base_ok fs -> dvb_dmx_init (Some gs) (Some fs) cnt dec = (Some d, 0) -> valid_run os d ->
  exists rs d', dmx_run os d = Some (rs, d') /\ ok d'.
Proof.
  intros Hb Hinit. injection Hinit as <-. set (d := Dmx _ _ _ _ _).
  assert (Hok : ok d).
  { split; [|done]. split; [|done]. split; [constructor|]. split; [constructor|]. split.
    - intros i f Ef Hf. exfalso. apply list_lookup_fmap_Some in Ef as (f0 & -> & _). by apply Hf.
    - simpl. apply Forall_map. by eapply Forall_impl; [|exact Hb]. }
  revert Hok. generalize d. clear. induction os as [|o os IH]; intros d Hok Hv; [by exists [], d|].
  destruct Hv as [Hv Hrest]. cbn [dmx_run]. destruct (dmx_step_ok o d Hok Hv) as (d1 & r & E & Hok1).
  rewrite E. cbn [mbind option_bind]. destruct (IH d1 Hok1 (Hrest d1 r E)) as (rs & d2 & -> & Hok2).
  by exists (r :: rs), d2.
Qed.

(** Releasing a filter of a feed that is still filtering never returns:
    [stop_filtering] waits for the mutex that [release_filter] holds. *)
Theorem dmx_release_filter_deadlocks i j d f g :
  feeds (dm_core d) !! i = Some f -> filters (dm_core d) !! j = Some g ->
  filter_feed g = i -> is_filtering f = true ->
  dmx_section_feed_release_filter stop_feed i j d = None.
Proof.
  intros Ef Eg Eo Hf. unfold dmx_section_feed_release_filter, locked, mutex_lock.
  destruct (mutex d); [done|]. cbn [mbind option_bind dm_core with_mutex]. rewrite Eg. cbn [mbind option_bind].
  rewrite (proj2 (Nat.eqb_eq _ _) Eo). cbn [negb]. rewrite Ef. cbn [mbind option_bind]. rewrite Hf.
  reflexivity.
Qed.
End system.

Definition empty_base : list Z := replicate (Z.to_nat DMX_MAX_SECFEED_SIZE) 0.
Definition raw_feed (base : list Z) : dvb_demux_feed :=
  Feed 7 7 7 true [9%nat] 7 7 0 true 0 (SecFeed true 7 7 base 7 7 7).
Definition raw_filter : dvb_demux_filter := Filter [] [] [] [] [] 7 7 7 7.
Definition initial (base : list Z) : dmx :=
  default (Dmx (Core [] [] [] None false) true [] [] 0)
    (dvb_dmx_init (Some [raw_filter; raw_filter]) (Some [raw_feed base; raw_feed base]) None false).1.

(** One feed of each type, from allocation to release. *)
Definition session : list dmx_op :=
  [OAllocTs false; OAllocSec false; OSetTs false 0 0x12 TS_PACKET 0; OStartTs false 0;
   OAllocFilter false 1; OSetSec false 1 0x12 true; OStopTs 0; OReleaseFilter 1 1; OReleaseSec 1; OReleaseTs 0].

Lemma empty_base_ok : base_ok (raw_feed empty_base).
Proof. split; [reflexivity|by apply Forall_replicate]. Qed.

Lemma initial_run base :
  dvb_dmx_init (Some [raw_filter; raw_filter]) (Some [raw_feed base; raw_feed base]) None false = (Some (initial base), 0).
Proof. reflexivity. Qed.

Ltac next_step := intros ? ? E; lazy in E; injection E as <- <-; (split; [|]).
Ltac a_feed := eexists; (split; [reflexivity|]); (split; [discriminate|reflexivity]).

Lemma session_valid base :
  valid_run (Some (fun _ => 0)) (Some (fun _ => 0)) (fun _ _ => 0) (fun _ _ => 0) (fun _ => 0) true true
    session (initial base).
Proof.
  split; [exact I|]. next_step; [exact I|]. next_step; [split; [a_feed|done]|]. next_step; [a_feed|]. next_step; [a_feed|].
  next_step; [a_feed|]. next_step; [a_feed|]. next_step.
  { split; [a_feed|]. split; [simpl; lia|]. intros f g [= <-] [= <-] _. split; [reflexivity|by left]. }
  next_step; [a_feed|]. next_step; [a_feed|]. done.
Qed.

Lemma dmx_operations_invariant_witness :
  exists rs d', dmx_run (Some (fun _ => 0)) (Some (fun _ => 0)) (fun _ _ => 0) (fun _ _ => 0) (fun _ => 0) true true
    session (initial empty_base) = Some (rs, d') /\ ok d'.
Proof.
  apply (dmx_operations_invariant (Some (fun _ => 0)) (Some (fun _ => 0)) (fun _ _ => 0) (fun _ _ => 0) (fun _ => 0) true true
    [raw_filter; raw_filter] [raw_feed empty_base; raw_feed empty_base] None false).
  - apply Forall_cons_2; [exact empty_base_ok|]. apply Forall_cons_2; [exact empty_base_ok|apply Forall_nil_2].
  - apply initial_run.
  - apply session_valid.
Defined.

Lemma dmx_release_filter_deadlocks_witness :
  exists d, dmx_run (Some (fun _ => 0)) (Some (fun _ => 0)) (fun _ _ => 0) (fun _ _ => 0) (fun _ => 0) true true
      [OAllocSec false; OAllocFilter false 0; OSetSec false 0 0x12 true; OStartSec false 0] (initial []) =
      Some ([0; 0; 0; 0], d) /\
    dmx_section_feed_release_filter (Some (fun _ => 0)) 0 0 d = None.
Proof.
  eexists. split; [vm_compute; reflexivity|].
  eapply (dmx_release_filter_deadlocks (Some (fun _ => 0)) 0 0); [reflexivity..].
Defined.

(** A feed that is allocated again still has the [ts_type] of its last use: releasing it
    before it is set takes the decoder from another feed, and a third can set it. *)
Example dmx_stale_ts_type :
  let run := dmx_run (Some (fun _ => 0)) (Some (fun _ => 0)) (fun _ _ => 0) (fun _ _ => 0) (fun _ => 0) true true in
  let set i := OSetTs false i 0x12 TS_DECODER 0 in
  (exists d, run [OAllocTs false; set 0%nat; OAllocTs false; set 1%nat] (initial []) = Some ([0; 0; 0; - EINVAL], d)) /\
  (exists d, run [OAllocTs false; set 0%nat; OReleaseTs 0; OAllocTs false; OAllocTs false; set 1%nat;
                  OReleaseTs 0; OAllocTs false; set 0%nat] (initial []) = Some ([0; 0; 0; 0; 0; 0; 0; 0; 0], d)).
Proof. split; eexists; vm_compute; reflexivity. Qed.
