(* ===== verification/Asn1.v ===== *)
(** * Asn1: the length fields of libdvben50221/asn_1.c

    A pointer into an array is the array and an offset.  [None] is an access outside
    the array. *)

From S2P Require Import Prelude.

(** [a[i] = v] for an array of [uint8_t]. *)
Definition put8 (a : list Z) (i v : Z) : option (list Z) :=
  if decide (0 <= i < zlen a) then Some (zset a i (u8 v)) else None.

(** [memcpy(a + i, src, zlen src)] *)
Definition copy_to (a : list Z) (i : Z) (src : list Z) : option (list Z) :=
  if decide (0 <= i /\ i + zlen src <= zlen a) then Some (zsplice a i src) else None.

(** The value returned, and what is stored in [*length], if anything. *)
Definition asn_1_decode (a : list Z) (p asn_1_array_len : Z) : option (Z * option Z) :=
  if asn_1_array_len <? 1 then Some (-1, None) else
  length_field ← zget a p;
  if length_field <? 0x80 then Some (1, Some (Z.land length_field 0x7f))
  else if length_field =? 0x81 then
    if asn_1_array_len <? 2 then Some (-1, None) else
    b ← zget a (p + 1);
    Some (2, Some (u8 b))
  else if length_field =? 0x82 then
    if asn_1_array_len <? 3 then Some (-1, None) else
    hi ← zget a (p + 1);
    lo ← zget a (p + 2);
    Some (3, Some (u16 (Z.lor (Z.shiftl hi 8) lo)))
  else Some (-1, None).

(** [length] is a [uint16_t]: the callers convert their argument. *)
Definition asn_1_encode (length : Z) (a : list Z) (p asn_1_array_len : Z) : option (Z * list Z) :=
  if length <? 0x80 then
    if asn_1_array_len <? 1 then Some (-1, a) else
    a ← put8 a p (Z.land length 0x7f);
    Some (1, a)
  else if length <? 0x100 then
    if asn_1_array_len <? 2 then Some (-1, a) else
    a ← put8 a p 0x81;
    a ← put8 a (p + 1) length;
    Some (2, a)
  else
    if asn_1_array_len <? 3 then Some (-1, a) else
    a ← put8 a p 0x82;
    a ← put8 a (p + 1) (Z.shiftr length 8);
    a ← put8 a (p + 2) length;
    Some (3, a).

(** ** The encoding *)

Ltac len_lia := rewrite ?zlen_zsplice; rewrite ?zlen_app, ?zlen_cons, ?zlen_nil; lia.

Lemma land_127 n : 0 <= n < 128 -> Z.land n 127 = n.
Proof. intros. transitivity (n mod 2 ^ 7); [by apply (land_ones_mod n 7)|]. apply Z.mod_small. lia. Qed.

(** The bytes of a length field. *)
Definition asn_field (n : Z) : list Z :=
  if n <? 0x80 then [n] else if n <? 0x100 then [0x81; n] else [0x82; n / 256; n mod 256].

Lemma asn_field_bytes n : 0 <= n < 65536 -> bytes (asn_field n).
Proof.
  intros. unfold asn_field. destruct (n <? 128) eqn:E1; [|destruct (n <? 256) eqn:E2];
    repeat (apply Forall_cons_2 || apply Forall_nil_2); unfold byte; lia.
Qed.
Lemma asn_field_len n : 1 <= zlen (asn_field n) <= 3.
Proof. unfold asn_field. destruct (n <? 128); [|destruct (n <? 256)]; cbv; done. Qed.

Lemma put8_splice a i v : 0 <= i < zlen a -> byte v -> put8 a i v = Some (zsplice a i [v]).
Proof.
  intros Hi Hv. unfold put8. rewrite decide_True by lia. f_equal. rewrite u8_small by apply Hv.
  apply zlist_eq.
  - rewrite zlen_zset, zlen_zsplice; rewrite ?zlen_cons, ?zlen_nil; lia.
  - intros j Hj. rewrite zlen_zset in Hj. rewrite zat_zset, zat_zsplice by (rewrite ?zlen_cons, ?zlen_nil; lia).
    rewrite zlen_cons, zlen_nil. repeat case_decide; try lia. subst. by rewrite Z.sub_diag.
Qed.

(** Copies one after the other are one copy. *)
Lemma zsplice_app a i l k :
  0 <= i -> i + zlen l + zlen k <= zlen a ->
  zsplice (zsplice a i l) (i + zlen l) k = zsplice a i (l ++ k).
Proof.
  intros Hi Hl. pose proof (zlen_nonneg l). pose proof (zlen_nonneg k).
  apply zlist_eq.
  - rewrite !zlen_zsplice; rewrite ?zlen_app, ?zlen_zsplice; lia.
  - intros j Hj. rewrite !zlen_zsplice in Hj by (rewrite ?zlen_zsplice; lia).
    rewrite !zat_zsplice by (rewrite ?zlen_app, ?zlen_zsplice; lia). rewrite zlen_app.
    repeat case_decide; try lia; rewrite zat_app by lia; case_decide; try lia; try done.
    f_equal. lia.
Qed.
Lemma zsplice_snoc a i l v :
  0 <= i -> i + zlen l + 1 <= zlen a ->
  zsplice (zsplice a i l) (i + zlen l) [v] = zsplice a i (l ++ [v]).
Proof. intros. by apply zsplice_app. Qed.
Lemma zsplice_0 a l : zlen l <= zlen a -> zsplice a 0 l = l ++ zdrop (zlen l) a.
Proof. done. Qed.

Lemma asn_1_encode_eq n a p len :
  0 <= n < 65536 -> 0 <= p -> p + len <= zlen a ->
  asn_1_encode n a p len =
    if decide (zlen (asn_field n) <= len)
    then Some (zlen (asn_field n), zsplice a p (asn_field n)) else Some (-1, a).
Proof.
  intros Hn Hp Hlen. unfold asn_1_encode, asn_field.
  destruct (n <? 128) eqn:E1; [|destruct (n <? 256) eqn:E2];
    [change (zlen [n]) with 1|change (zlen [129; n]) with 2|change (zlen [130; n / 256; n mod 256]) with 3];
    match goal with |- context [len <? ?k] => destruct (len <? k) eqn:E3 end;
    case_decide; try lia; try done; cbn [mbind option_bind].
  - rewrite land_127 by lia.
    rewrite put8_splice; [done|lia|unfold byte; lia].
  - rewrite put8_splice; [|lia|unfold byte; lia]. cbn [mbind option_bind].
    rewrite put8_splice; [|len_lia|unfold byte; lia]. cbn [mbind option_bind].
    by rewrite (zsplice_snoc a p [129]) by len_lia.
  - rewrite put8_splice; [|lia|unfold byte; lia]. cbn [mbind option_bind]. rewrite shiftr_8.
    rewrite put8_splice; [|len_lia|unfold byte; lia]. cbn [mbind option_bind].
    rewrite (zsplice_snoc a p [130]) by len_lia.
    assert (E : put8 (zsplice a p ([130] ++ [n / 256])) (p + 2) n =
                put8 (zsplice a p ([130] ++ [n / 256])) (p + 2) (n mod 256)).
    { unfold put8, u8. by rewrite Z.mod_mod by lia. }
    rewrite E, put8_splice; [|len_lia|unfold byte; lia]. cbn [mbind option_bind].
    by rewrite (zsplice_snoc a p ([130] ++ [n / 256])) by len_lia.
Qed.

(** What follows [pre] in an array that starts with it. *)
Lemma zget_mid pre l post i :
  0 <= i < zlen l -> zget (pre ++ l ++ post) (zlen pre + i) = Some (l.[i]).
Proof.
  intros. pose proof (zlen_nonneg pre). pose proof (zlen_nonneg post).
  rewrite zget_in by (rewrite !zlen_app; lia). f_equal.
  rewrite zat_app by lia. rewrite decide_False by lia.
  rewrite zat_app by lia. rewrite decide_True by lia. f_equal. lia.
Qed.

Lemma asn_1_decode_field pre n post len :
  0 <= n < 65536 ->
  asn_1_decode (pre ++ asn_field n ++ post) (zlen pre) len =
    if decide (zlen (asn_field n) <= len) then Some (zlen (asn_field n), Some n) else Some (-1, None).
Proof.
  intros Hn. unfold asn_1_decode.
  destruct (len <? 1) eqn:E0; [rewrite decide_False; [done|pose proof (asn_field_len n); lia]|].
  pose proof (zget_mid pre (asn_field n) post) as Hget.
  pose proof (Hget 0 ltac:(pose proof (asn_field_len n); lia)) as H0.
  rewrite Z.add_0_r in H0. rewrite H0. clear H0.
  cbn [mbind option_bind]. revert Hget. unfold asn_field.
  destruct (n <? 128) eqn:E1; [|destruct (n <? 256) eqn:E2]; intros Hget; cbn -[Z.land Z.lor Z.shiftl Z.le Z.add zlen].
  - change (zlen [n]) with 1. change ([n].[0]) with n. rewrite E1, decide_True by lia.
    by rewrite land_127 by lia.
  - change ([129; n].[0]) with 129. cbn -[Z.le Z.add zlen]. change (zlen [129; n]) with 2.
    case_decide; destruct (len <? 2) eqn:E3; try lia; [|done].
    rewrite Hget by done. cbn -[Z.le Z.add zlen u8]. change ([129; n].[1]) with n. by rewrite u8_small by lia.
  - change ([130; n / 256; n mod 256].[0]) with 130. cbn -[Z.le Z.add zlen Z.lor Z.shiftl].
    change (zlen [130; n / 256; n mod 256]) with 3.
    case_decide; destruct (len <? 3) eqn:E3; try lia; [|done].
    rewrite Hget by done. cbn -[Z.le Z.add zlen Z.lor Z.shiftl]. rewrite Hget by done.
    cbn -[Z.le Z.add zlen Z.lor Z.shiftl].
    change ([130; n / 256; n mod 256].[1]) with (n / 256).
    change ([130; n / 256; n mod 256].[2]) with (n mod 256).
    rewrite lor_byte by lia. rewrite u16_small by lia. do 3 f_equal. lia.
Qed.

Lemma zlen_byte_field n : n < 256 -> zlen (asn_field n) <= 2.
Proof. intros. unfold asn_field. destruct (n <? 128); [done|]. destruct (n <? 256) eqn:E; [done|lia]. Qed.

(** What the decoder accepts: it stays in the array, and the length it returns is a
    [uint16_t] that the field of its size can hold. *)
Lemma asn_1_decode_cases a p len :
  0 <= p -> p + len <= zlen a ->
  asn_1_decode a p len = Some (-1, None) \/
  exists k n, asn_1_decode a p len = Some (k, Some n) /\ 1 <= k <= 3 /\ k <= len /\
    0 <= n < 65536 /\ zlen (asn_field n) <= k.
Proof.
  intros Hp Hlen. unfold asn_1_decode.
  destruct (len <? 1) eqn:E0; [by left|].
  rewrite (zget_in a p) by lia. cbn [mbind option_bind].
  destruct (_ <? 128) eqn:E1.
  { right. pose proof (land_range (a.[p]) 127 ltac:(lia)). eexists 1, _. split; [done|].
    repeat split; try lia. unfold asn_field. destruct (Z.land _ _ <? 128) eqn:E2; [done|lia]. }
  destruct (_ =? 129).
  { destruct (len <? 2) eqn:E2; [by left|]. right. rewrite zget_in by lia. cbn [mbind option_bind].
    pose proof (u8_range (a.[p + 1])). eexists 2, _. split; [done|].
    repeat split; try lia. apply zlen_byte_field; lia. }
  destruct (_ =? 130); [|by left].
  destruct (len <? 3) eqn:E2; [by left|]. right. rewrite !zget_in by lia. cbn [mbind option_bind].
  eexists 3, _. split; [done|]. pose proof (u16_range (Z.lor (Z.shiftl (a.[p + 1]) 8) (a.[p + 2]))).
  repeat split; try lia. apply asn_field_len.
Qed.

(** C36: Length fields.  For every [uint16_t] the encoder writes its field into an array
    with room for it, touches nothing else, and the decoder returns the length and the
    size of the field from the result, whatever follows; with less room the encoder
    returns -1 and changes nothing, and the decoder returns -1 for the cut field.  On any
    bytes the decoder stays in the array; what it accepts is never shorter than the
    encoder's field of the same length. *)
Theorem asn_1_roundtrip n a p len :
  0 <= n < 65536 -> bytes a -> 0 <= p -> 0 <= len -> p + len <= zlen a ->
  (zlen (asn_field n) <= len ->
    exists a', asn_1_encode n a p len = Some (zlen (asn_field n), a') /\ zlen a' = zlen a /\
      (forall i, 0 <= i < zlen a -> ~ p <= i < p + zlen (asn_field n) -> a'.[i] = a.[i]) /\
      asn_1_decode a' p len = Some (zlen (asn_field n), Some n) /\
      forall cut, 0 <= cut < zlen (asn_field n) -> asn_1_decode a' p cut = Some (-1, None)) /\
  (len < zlen (asn_field n) -> asn_1_encode n a p len = Some (-1, a)) /\
  (asn_1_decode a p len = Some (-1, None) \/
   exists k m, asn_1_decode a p len = Some (k, Some m) /\ k <= len /\ 0 <= m < 65536 /\
     zlen (asn_field m) <= k).
Proof.
  intros Hn Hb Hp Hl Hlen. pose proof (asn_field_len n). rewrite asn_1_encode_eq by done. split; [|split].
  - intros Hr. rewrite decide_True by done. eexists. split; [done|].
    split; [apply zlen_zsplice; lia|]. split.
    { intros i Hi Ho. rewrite zat_zsplice by lia. by rewrite decide_False by lia. }
    assert (Hd : forall cut, asn_1_decode (zsplice a p (asn_field n)) p cut =
      if decide (zlen (asn_field n) <= cut) then Some (zlen (asn_field n), Some n) else Some (-1, None)).
    { intros cut. pose proof (asn_1_decode_field (ztake p a) n (zdrop (p + zlen (asn_field n)) a) cut Hn) as E.
      by rewrite zlen_ztake in E by lia. }
    split; [|intros cut Hc]; rewrite Hd; by case_decide; try lia.
  - intros. by rewrite decide_False by lia.
  - destruct (asn_1_decode_cases a p len) as [|(k & m & ? & ? & ? & ? & ?)]; [done|lia|by left|].
    right. exists k, m. auto.
Qed.

Lemma asn_1_roundtrip_witness :
  exists a', asn_1_encode 300 [0; 0; 0; 7] 0 3 = Some (3, a') /\ asn_1_decode a' 0 3 = Some (3, Some 300).
Proof.
  destruct (asn_1_roundtrip 300 [0; 0; 0; 7] 0 3) as [(a' & H1 & _ & _ & H2 & _) _];
    [lia|by apply (bool_decide_unpack _)|lia|lia|done|done|]. exists a'. split; [exact H1|exact H2].
Defined.
