(* ===== verification/CaLink.v ===== *)
(** * CaLink: the calls the EN 50221 layers make to the system

    [dvbca_link_write] and [dvbca_link_read] of libdvbapi/dvbca.c, [time_after] of
    libdvbmisc/dvbmisc.h, and the monad in which the transport and session layers are
    written: it threads the state of the layers, counts the calls made to the system
    and keeps what was written to the devices.  What the system answers to the call of
    number [n] is a parameter, the [environment].  [None] is undefined behaviour or a
    deadlock: an access outside an object, the use of freed memory, a task that locks a
    mutex it holds.  An error the code reports is an ordinary result. *)

From S2P Require Import Prelude.

Record timeval := Timeval { tv_sec : Z; tv_usec : Z }.

(** The answers of the system: [malloc] succeeds, what [write] returns, the bytes [read]
    has ([None]: it fails), the [revents] of [poll] ([None]: it fails), the clock. *)
Record environment := Env {
  malloc_ok : nat -> bool;
  write_res : nat -> Z;
  read_res : nat -> option (list Z);
  poll_res : nat -> option (list Z);
  clock : nat -> timeval }.

Record world (S : Type) := World {
  w_st : S;
  w_tick : nat;
  w_sent : list (Z * list Z) }.
Arguments World {S} _ _ _.
Arguments w_st {S} _.
Arguments w_tick {S} _.
Arguments w_sent {S} _.

Definition T (S A : Type) : Type := world S -> option (A * world S).

Global Instance T_ret S : MRet (T S) := fun A a w => Some (a, w).
Global Instance T_bind S : MBind (T S) := fun A B k c w =>
  match c w with Some (a, w') => k a w' | None => None end.

Section prim.
Context {S : Type}.

Definition stuck {A} : T S A := fun _ => None.
Definition get : T S S := fun w => Some (w_st w, w).
Definition modify (f : S -> S) : T S unit := fun w => Some (tt, World (f (w_st w)) (w_tick w) (w_sent w)).
(** An update that may leave an object. *)
Definition update (f : S -> option S) : T S unit := fun w =>
  match f (w_st w) with Some s => Some (tt, World s (w_tick w) (w_sent w)) | None => None end.
Definition lift {A} (o : option A) : T S A := fun w =>
  match o with Some a => Some (a, w) | None => None end.
(** The number of this system call. *)
Definition tick : T S nat := fun w => Some (w_tick w, World (w_st w) (1 + w_tick w) (w_sent w)).
Definition sent (fd : Z) (buf : list Z) : T S unit := fun w =>
  Some (tt, World (w_st w) (w_tick w) (w_sent w ++ [(fd, buf)])).

(** [for (i = lo; i < lo + n; i++) if (body(i)) return the result;] *)
Fixpoint for_range {A} (n : nat) (lo : Z) (body : Z -> T S (option A)) : T S (option A) :=
  match n with
  | O => mret None
  | Datatypes.S n' =>
      r ← body lo;
      match r with Some a => mret (Some a) | None => for_range n' (lo + 1) body end
  end.
End prim.

Section system.
Context (env : environment) {S : Type}.

Definition env_malloc : T S bool := n ← tick; mret (malloc_ok env n).
Definition env_write (fd : Z) (buf : list Z) : T S Z := n ← tick; sent fd buf;; mret (write_res env n).
(** [read] returns at most [count] bytes, and only bytes. *)
Definition env_read (count : Z) : T S (option (list Z)) :=
  n ← tick; mret (match read_res env n with Some l => Some (u8 <$> ztake count l) | None => None end).
Definition env_poll : T S (option (list Z)) := n ← tick; mret (poll_res env n).
Definition gettimeofday : T S timeval := n ← tick; mret (clock env n).

(** Milliseconds as a [uint64_t]. *)
Definition timeval_ms (t : timeval) : Z := u64 (tv_sec t * 1000 + Z.quot (tv_usec t) 1000).

Definition time_after (oldtime : timeval) (delta_ms : Z) : T S bool :=
  let oldtime_ms := u64 (timeval_ms oldtime + delta_ms) in
  nowtime ← gettimeofday;
  mret (oldtime_ms <? timeval_ms nowtime).

(** [data_length] is a [uint16_t]. *)
Definition dvbca_link_write (fd slot connection_id : Z) (data : list Z) (len : Z) : T S Z :=
  let data_length := u16 len in
  ok ← env_malloc;
  if negb ok then mret (-1) else
  if decide (data_length <= zlen data) then
    env_write fd (slot :: connection_id :: ztake data_length data)
  else stuck.

(** The size read, the slot, the connection and the data. *)
Definition dvbca_link_read (fd : Z) (len : Z) : T S (Z * Z * Z * list Z) :=
  let data_length := u16 len in
  ok ← env_malloc;
  if negb ok then mret (-1, 0, 0, []) else
  r ← env_read (data_length + 2);
  match r with
  | Some (slot :: connection_id :: data) => mret (zlen data, slot, connection_id, data)
  | _ => mret (-1, 0, 0, [])
  end.
End system.

(** ** Total correctness *)

Definition twp {S A} (c : T S A) (Q : A -> world S -> Prop) (w : world S) : Prop :=
  match c w with Some (a, w') => Q a w' | None => False end.

Section rules.
Context {S A B : Type}.
Implicit Types (c : T S A) (w : world S).

Lemma twp_ret (a : A) Q w : Q a w -> twp (mret a) Q w.
Proof. done. Qed.
Lemma twp_bind c (k : A -> T S B) Q w : twp c (fun a w' => twp (k a) Q w') w -> twp (c ≫= k) Q w.
Proof. unfold twp, mbind, T_bind. destruct (c w) as [[??]|]; done. Qed.
Lemma twp_mono c (Q Q' : A -> world S -> Prop) w :
  twp c Q w -> (forall a w', Q a w' -> Q' a w') -> twp c Q' w.
Proof. unfold twp. destruct (c w) as [[??]|]; auto. Qed.
Lemma twp_if (b : bool) c1 c2 (Q : A -> world S -> Prop) w :
  (b = true -> twp c1 Q w) -> (b = false -> twp c2 Q w) -> twp (if b then c1 else c2) Q w.
Proof. destruct b; auto. Qed.
Lemma twp_run c Q w : twp c Q w -> exists a w', c w = Some (a, w') /\ Q a w'.
Proof. unfold twp. destruct (c w) as [[??]|]; [eauto|done]. Qed.
Lemma twp_elim c Q w a w' : twp c Q w -> c w = Some (a, w') -> Q a w'.
Proof. unfold twp. intros H E. by rewrite E in H. Qed.
Lemma twp_intro c Q w a w' : c w = Some (a, w') -> Q a w' -> twp c Q w.
Proof. unfold twp. intros E H. by rewrite E. Qed.
End rules.

(** A call to the system leaves the state of the layers alone. *)
Definition same_st {S} (w w' : world S) : Prop := w_st w' = w_st w.

Section system_rules.
Context (env : environment) {S : Type}.
Implicit Types (w : world S).

Lemma twp_get (Q : S -> world S -> Prop) w : Q (w_st w) w -> twp get Q w.
Proof. done. Qed.
Lemma twp_modify f (Q : unit -> world S -> Prop) w :
  Q tt (World (f (w_st w)) (w_tick w) (w_sent w)) -> twp (modify f) Q w.
Proof. done. Qed.
Lemma twp_malloc (Q : bool -> world S -> Prop) w :
  (forall w', w_st w' = w_st w -> w_sent w' = w_sent w -> Q (malloc_ok env (w_tick w)) w') ->
  twp (env_malloc env) Q w.
Proof. intros H. by apply H. Qed.
Lemma twp_gettimeofday (Q : timeval -> world S -> Prop) w :
  (forall t w', w_st w' = w_st w -> Q t w') -> twp (gettimeofday env) Q w.
Proof. intros H. by apply H. Qed.
Lemma twp_poll (Q : option (list Z) -> world S -> Prop) w :
  (forall r w', w_st w' = w_st w -> Q r w') -> twp (env_poll env) Q w.
Proof. intros H. by apply H. Qed.
Lemma twp_time_after t d (Q : bool -> world S -> Prop) w :
  (forall b w', w_st w' = w_st w -> Q b w') -> twp (time_after env t d) Q w.
Proof. intros H. by apply H. Qed.
Lemma twp_dvbca_link_write fd s c data len (Q : Z -> world S -> Prop) w :
  u16 len <= zlen data ->
  (forall r w', w_st w' = w_st w -> Q r w') -> twp (dvbca_link_write env fd s c data len) Q w.
Proof.
  intros Hl H. unfold dvbca_link_write. apply twp_bind, twp_malloc. intros w' E _.
  destruct (malloc_ok env (w_tick w)); simpl; [|by apply twp_ret, H]. rewrite decide_True by done. by apply H.
Qed.
Lemma twp_dvbca_link_read fd len (Q : Z * Z * Z * list Z -> world S -> Prop) w :
  (forall s c data w', w_st w' = w_st w -> zlen data <= u16 len -> bytes data -> byte s -> Q (zlen data, s, c, data) w') ->
  (forall w', w_st w' = w_st w -> Q (-1, 0, 0, []) w') ->
  twp (dvbca_link_read env fd len) Q w.
Proof.
  intros H1 H2. pose proof (u16_range len). unfold dvbca_link_read.
  apply twp_bind, twp_malloc. intros w' E _.
  destruct (malloc_ok env (w_tick w)); simpl; [|by apply twp_ret, H2]. unfold twp, env_read, tick, mbind, T_bind, mret, T_ret. simpl.
  destruct (read_res env (w_tick w')) as [l|]; [|by apply H2].
  pose proof (zlen_ztake_le (u16 len + 2) l ltac:(lia)) as Hl.
  destruct (ztake (u16 len + 2) l) as [|s [|c data]]; [by apply H2..|].
  rewrite !zlen_cons in Hl. cbn [fmap list_fmap].
  assert (Hz : zlen (u8 <$> data) = zlen data) by (unfold zlen; by rewrite length_fmap).
  apply H1; [done|lia| |apply u8_byte]. apply Forall_fmap, Forall_true. apply u8_byte.
Qed.
End system_rules.

(** ** The steps that make no call to the system *)

Class KeepsTick {S A} (c : T S A) : Prop := keeps_tick w a w' : c w = Some (a, w') -> w_tick w' = w_tick w.

Section tick.
Context {S : Type}.

#[export] Instance keeps_tick_ret {A} (a : A) : KeepsTick (S := S) (mret a).
Proof. intros w a' w' H. by injection H as _ <-. Qed.
#[export] Instance keeps_tick_bind {A B} (c : T S A) (k : A -> T S B) :
  KeepsTick c -> (forall a, KeepsTick (k a)) -> KeepsTick (c ≫= k).
Proof.
  intros Hc Hk w b w' H. unfold mbind, T_bind in H. destruct (c w) as [[a w1]|] eqn:E; [|done].
  rewrite (Hk a w1 b w' H). by eapply Hc.
Qed.
#[export] Instance keeps_tick_get : KeepsTick (S := S) get.
Proof. intros w a w' H. by injection H as _ <-. Qed.
#[export] Instance keeps_tick_modify (f : S -> S) : KeepsTick (modify f).
Proof. intros w a w' H. by injection H as _ <-. Qed.
#[export] Instance keeps_tick_update (f : S -> option S) : KeepsTick (update f).
Proof. intros w a w' H. unfold update in H. destruct (f (w_st w)); [|done]. by injection H as _ <-. Qed.
#[export] Instance keeps_tick_lift {A} (o : option A) : KeepsTick (S := S) (lift o).
Proof. intros w a w' H. unfold lift in H. destruct o; [|done]. by injection H as _ <-. Qed.
#[export] Instance keeps_tick_for_range {A} n lo (body : Z -> T S (option A)) :
  (forall i, KeepsTick (body i)) -> KeepsTick (for_range n lo body).
Proof.
  intros Hb. revert lo. induction n as [|n IH]; intros lo; cbn [for_range]; [exact _|].
  apply keeps_tick_bind; [apply Hb|]. intros [a|]; [exact _|apply IH].
Qed.

(** Such a step leaves the number of the next call as it is. *)
Lemma twp_keeps_tick {A} (c : T S A) `{!KeepsTick c} Q w :
  twp c (fun a w' => w_tick w' = w_tick w -> Q a w') w -> twp c Q w.
Proof.
  unfold twp. destruct (c w) as [[a w']|] eqn:E; [|done]. intros H. apply H. by eapply keeps_tick.
Qed.
End tick.

(** What [dvbca_link_write] returns as call [n], and the number of the call after it:
    [malloc] comes first, and [write] when it succeeds. *)
Definition link_write_res (env : environment) (n : nat) : Z :=
  if malloc_ok env n then write_res env (S n) else -1.
Definition link_write_next (env : environment) (n : nat) : nat := if malloc_ok env n then S (S n) else S n.

Lemma twp_dvbca_link_write_at (env : environment) {S} fd s c data len (Q : Z -> world S -> Prop) (w : world S) :
  u16 len <= zlen data ->
  (forall w', w_st w' = w_st w -> w_tick w' = link_write_next env (w_tick w) ->
    Q (link_write_res env (w_tick w)) w') ->
  twp (dvbca_link_write env fd s c data len) Q w.
Proof.
  intros Hl H. unfold dvbca_link_write, link_write_res, link_write_next in *.
  unfold twp, env_malloc, env_write, tick, sent, mbind, T_bind, mret, T_ret. cbn.
  destruct (malloc_ok env (w_tick w)); cbn; [|by apply H]. rewrite decide_True by done. by apply H.
Qed.

Section for_rule.
Context {S A : Type}.

(** The loop rule: an invariant that every turn without a result keeps. *)
Lemma twp_for_range (I : world S -> Prop) (Q : option A -> world S -> Prop) n lo body w :
  (forall i w, lo <= i < lo + Z.of_nat n -> I w ->
    twp (body i) (fun r w' => match r with Some a => Q (Some a) w' | None => I w' end) w) ->
  (forall w, I w -> Q None w) ->
  I w -> twp (for_range n lo body) Q w.
Proof.
  intros Hb Hq. revert lo w Hb. induction n as [|n IH]; intros lo w Hb HI; simpl; [by apply twp_ret, Hq|].
  apply twp_bind. eapply twp_mono; [apply Hb; [lia|done]|].
  intros [a|] w' HQ; simpl in *; [by apply twp_ret|].
  apply IH; [|done]. intros i w'' Hi. apply Hb. lia.
Qed.
End for_rule.

(** ** Runs of operations *)

Section runs.
Context {S Op : Type} (run : Op -> T S Z).

(** What each operation returns. *)
Fixpoint run_all (ops : list Op) : T S (list Z) :=
  match ops with
  | [] => mret []
  | op :: ops => r ← run op; rs ← run_all ops; mret (r :: rs)
  end.

(** An invariant that every operation keeps, unless the run stops there. *)
Lemma run_all_inv (I : world S -> Prop) (ok : Op -> Prop) (stop : Op -> Z -> world S -> Prop) ops w :
  (forall op w, I w -> ok op -> twp (run op) (fun r w' => I w' \/ stop op r w') w) ->
  I w -> Forall ok ops ->
  exists n rs w', run_all (take n ops) w = Some (rs, w') /\
    (n = length ops /\ I w' \/
     exists op r, ops !! pred n = Some op /\ rs !! pred n = Some r /\ stop op r w').
Proof.
  intros Hrun HI Hops. revert w HI. induction Hops as [|op ops Hop _ IH]; intros w HI.
  { exists 0%nat, [], w. split; [done|]. by left. }
  destruct (twp_run _ _ _ (Hrun op w HI Hop)) as (r & w1 & E1 & [HI1|Hs]).
  - destruct (IH w1 HI1) as (n & rs & w' & E & Hn). exists (Datatypes.S n), (r :: rs), w'. split.
    + cbn [take run_all]. unfold mbind, T_bind. rewrite E1. by rewrite E.
    + destruct Hn as [[-> ?]|(op' & r' & Ho & Hr & Hs)]; [left; auto|right].
      destruct n as [|n]; [by injection E as <- _|]. by exists op', r'.
  - exists 1%nat, [r], w1. split; [cbn [take run_all]; unfold mbind, T_bind; by rewrite E1|].
    right. by exists op, r.
Qed.
End runs.

Ltac twp_step :=
  lazymatch goal with
  | |- twp (mbind _ _) _ _ => apply twp_bind
  | |- twp (mret _) _ _ => apply twp_ret
  | |- twp get _ _ => apply twp_get
  | |- twp (modify _) _ _ => apply twp_modify
  | |- twp (if ?b then _ else _) _ _ => apply twp_if; intro
  end.
