(* ===== verification/En50221Transport.v ===== *)
(** * En50221Transport: the transport layer of libdvben50221/en50221_transport.c

    A [send_queue] is the list of its messages: the tail pointer is the last of them.
    The state [host U] is the transport layer and the state [U] of the layers above it,
    which the callback changes.  The two kinds of callback are two parameters: those
    for [T_CALLBACK_REASON_DATA], during which no lock is held and which may call back
    into this layer, and the others, which must not (en50221_transport.h, 60-65). *)

From S2P Require Import Prelude Asn1 CaLink.

Definition T_SB : Z := 0x80.
Definition T_RCV : Z := 0x81.
Definition T_CREATE_T_C : Z := 0x82.
Definition T_C_T_C_REPLY : Z := 0x83.
Definition T_DELETE_T_C : Z := 0x84.
Definition T_D_T_C_REPLY : Z := 0x85.
Definition T_REQUEST_T_C : Z := 0x86.
Definition T_NEW_T_C : Z := 0x87.
Definition T_T_C_ERROR : Z := 0x77.
Definition T_DATA_LAST : Z := 0xA0.
Definition T_DATA_MORE : Z := 0xA1.

Definition T_STATE_IDLE : Z := 0x01.
Definition T_STATE_ACTIVE : Z := 0x02.
Definition T_STATE_ACTIVE_DELETEQUEUED : Z := 0x04.
Definition T_STATE_IN_CREATION : Z := 0x08.
Definition T_STATE_IN_DELETION : Z := 0x10.

Definition T_CALLBACK_REASON_CONNECTIONOPEN : Z := 0.
Definition T_CALLBACK_REASON_CAMCONNECTIONOPEN : Z := 1.
Definition T_CALLBACK_REASON_DATA : Z := 2.
Definition T_CALLBACK_REASON_CONNECTIONCLOSE : Z := 3.
Definition T_CALLBACK_REASON_SLOTCLOSE : Z := 4.

Definition EN50221ERR_CAREAD : Z := -1.
Definition EN50221ERR_CAWRITE : Z := -2.
Definition EN50221ERR_TIMEOUT : Z := -3.
Definition EN50221ERR_BADSLOTID : Z := -4.
Definition EN50221ERR_BADCONNECTIONID : Z := -5.
Definition EN50221ERR_BADSTATE : Z := -6.
Definition EN50221ERR_BADCAMDATA : Z := -7.
Definition EN50221ERR_OUTOFMEMORY : Z := -8.
Definition EN50221ERR_ASNENCODE : Z := -9.
Definition EN50221ERR_OUTOFCONNECTIONS : Z := -10.
Definition EN50221ERR_OUTOFSLOTS : Z := -11.

Definition POLLIN : Z := 1.
Definition POLLPRI : Z := 2.
Definition POLLERR : Z := 8.

Record en50221_message := Msg { m_length : Z; m_data : list Z }.

(** A heap pointer: null, to an object, or to an object that was freed. *)
Inductive heap_ptr := PNull | PBuf (l : list Z) | PFreed.

Record en50221_connection := Conn {
  state : Z;
  tx_time : timeval;
  last_poll_time : timeval;
  chain_buffer : heap_ptr;
  buffer_length : Z;
  send_queue : list en50221_message }.

Record en50221_slot := Slot {
  ca_hndl : Z;
  slot_nr : Z;
  connections : list en50221_connection;
  slot_lock : bool;
  response_timeout : Z;
  poll_delay : Z }.

Record pollfd := Pollfd { p_fd : Z; p_events : Z; p_revents : Z }.

Record en50221_transport_layer := Tl {
  max_slots : Z;
  max_connections_per_slot : Z;
  slots : list en50221_slot;
  slot_pollfds : list pollfd;
  slots_changed : bool;
  global_lock : bool;
  setcallback_lock : bool;
  error : Z;
  error_slot : Z;
  callback : bool }.

(** Assignments to the fields of a connection, a slot, the layer. *)
Definition set_state (v : Z) (c : en50221_connection) : en50221_connection :=
  Conn v (tx_time c) (last_poll_time c) (chain_buffer c) (buffer_length c) (send_queue c).
Definition set_tx_time (v : timeval) (c : en50221_connection) : en50221_connection :=
  Conn (state c) v (last_poll_time c) (chain_buffer c) (buffer_length c) (send_queue c).
(** [tx_time.tv_sec = 0;] *)
Definition clear_tx_time (c : en50221_connection) : en50221_connection :=
  set_tx_time (Timeval 0 (tv_usec (tx_time c))) c.
Definition set_last_poll (v : timeval) (c : en50221_connection) : en50221_connection :=
  Conn (state c) (tx_time c) v (chain_buffer c) (buffer_length c) (send_queue c).
Definition set_chain (p : heap_ptr) (n : Z) (c : en50221_connection) : en50221_connection :=
  Conn (state c) (tx_time c) (last_poll_time c) p n (send_queue c).
Definition set_queue (q : list en50221_message) (c : en50221_connection) : en50221_connection :=
  Conn (state c) (tx_time c) (last_poll_time c) (chain_buffer c) (buffer_length c) q.
Definition with_connections (l : list en50221_connection) (s : en50221_slot) : en50221_slot :=
  Slot (ca_hndl s) (slot_nr s) l (slot_lock s) (response_timeout s) (poll_delay s).
Definition with_slot_lock (b : bool) (s : en50221_slot) : en50221_slot :=
  Slot (ca_hndl s) (slot_nr s) (connections s) b (response_timeout s) (poll_delay s).
Definition with_hndl (h : Z) (s : en50221_slot) : en50221_slot :=
  Slot h (slot_nr s) (connections s) (slot_lock s) (response_timeout s) (poll_delay s).
Definition with_slots (l : list en50221_slot) (t : en50221_transport_layer) : en50221_transport_layer :=
  Tl (max_slots t) (max_connections_per_slot t) l (slot_pollfds t) (slots_changed t) (global_lock t)
    (setcallback_lock t) (error t) (error_slot t) (callback t).
Definition with_pollfds (l : list pollfd) (t : en50221_transport_layer) : en50221_transport_layer :=
  Tl (max_slots t) (max_connections_per_slot t) (slots t) l (slots_changed t) (global_lock t)
    (setcallback_lock t) (error t) (error_slot t) (callback t).
Definition with_changed (b : bool) (t : en50221_transport_layer) : en50221_transport_layer :=
  Tl (max_slots t) (max_connections_per_slot t) (slots t) (slot_pollfds t) b (global_lock t)
    (setcallback_lock t) (error t) (error_slot t) (callback t).
Definition with_locks (g s : bool) (t : en50221_transport_layer) : en50221_transport_layer :=
  Tl (max_slots t) (max_connections_per_slot t) (slots t) (slot_pollfds t) (slots_changed t) g
    s (error t) (error_slot t) (callback t).
Definition with_error (e : Z) (t : en50221_transport_layer) : en50221_transport_layer :=
  Tl (max_slots t) (max_connections_per_slot t) (slots t) (slot_pollfds t) (slots_changed t) (global_lock t)
    (setcallback_lock t) e (error_slot t) (callback t).
Definition with_error_slot (i : Z) (t : en50221_transport_layer) : en50221_transport_layer :=
  Tl (max_slots t) (max_connections_per_slot t) (slots t) (slot_pollfds t) (slots_changed t) (global_lock t)
    (setcallback_lock t) (error t) i (callback t).
Definition with_callback (b : bool) (t : en50221_transport_layer) : en50221_transport_layer :=
  Tl (max_slots t) (max_connections_per_slot t) (slots t) (slot_pollfds t) (slots_changed t) (global_lock t)
    (setcallback_lock t) (error t) (error_slot t) b.

Record host (U : Type) := Host { tl : en50221_transport_layer; upper : U }.
Arguments Host {U} _ _.
Arguments tl {U} _.
Arguments upper {U} _.

(** Entry [i] of an array, and updating it. *)
Definition alter_at {A} (l : list A) (i : Z) (f : A -> option A) : option (list A) :=
  if decide (0 <= i) then x ← l !! Z.to_nat i; y ← f x; Some (<[Z.to_nat i := y]> l) else None.
Definition entry {A} (l : list A) (i : Z) : option A := if decide (0 <= i) then l !! Z.to_nat i else None.

(** ** Heap *)

Definition free (p : heap_ptr) : option unit := match p with PFreed => None | _ => Some tt end.

(** glibc: [realloc(p, 0)] frees [p] and returns NULL when [p] is not null; a negative
    [int] is a size no allocation has.  The result, and what the old pointer now points to. *)
Definition realloc (ok : bool) (p : heap_ptr) (n : Z) : option (option (list Z) * heap_ptr) :=
  match p with
  | PFreed => None
  | PNull => if ok && (0 <=? n) then Some (Some (replicate (Z.to_nat n) 0), PNull) else Some (None, PNull)
  | PBuf l =>
      if n =? 0 then Some (None, PFreed)
      else if ok && (0 <? n) then Some (Some (ztake n l ++ replicate (Z.to_nat (n - zlen l)) 0), PFreed)
      else Some (None, p)
  end.

Section layer.
Context (env : environment) {U : Type}.

Abbreviation M := (T (host U)).

Definition get_tl : M en50221_transport_layer := h ← get; mret (tl h).
Definition mod_tl (f : en50221_transport_layer -> en50221_transport_layer) : M unit :=
  modify (fun h => Host (f (tl h)) (upper h)).
Definition upd_tl (f : en50221_transport_layer -> option en50221_transport_layer) : M unit :=
  update (fun h => t ← f (tl h); Some (Host t (upper h))).
Definition get_slot (i : Z) : M en50221_slot := t ← get_tl; lift (entry (slots t) i).
Definition get_conn (i j : Z) : M en50221_connection := s ← get_slot i; lift (entry (connections s) j).
Definition upd_slot (i : Z) (f : en50221_slot -> option en50221_slot) : M unit :=
  upd_tl (fun t => l ← alter_at (slots t) i f; Some (with_slots l t)).
Definition mod_conn (i j : Z) (f : en50221_connection -> en50221_connection) : M unit :=
  upd_slot i (fun s => l ← alter_at (connections s) j (fun c => Some (f c)); Some (with_connections l s)).

(** A task that locks a mutex it holds waits for ever. *)
Definition lock_slot (i : Z) : M unit :=
  upd_slot i (fun s => if slot_lock s then None else Some (with_slot_lock true s)).
Definition unlock_slot (i : Z) : M unit := upd_slot i (fun s => Some (with_slot_lock false s)).
Definition lock_global : M unit :=
  upd_tl (fun t => if global_lock t then None else Some (with_locks true (setcallback_lock t) t)).
Definition unlock_global : M unit := mod_tl (fun t => with_locks false (setcallback_lock t) t).
Definition lock_setcallback : M unit :=
  upd_tl (fun t => if setcallback_lock t then None else Some (with_locks (global_lock t) true t)).
Definition unlock_setcallback : M unit := mod_tl (fun t => with_locks (global_lock t) false t).

Definition set_error (e : Z) : M unit := mod_tl (with_error e).
Definition set_error_slot (i : Z) : M unit := mod_tl (with_error_slot i).
(** [tl->error_slot = i; tl->error = e; return -1;] *)
Definition fail (i e : Z) : M Z := set_error_slot i;; set_error e;; mret (-1).

(** The callback pointer, read under its lock. *)
Definition read_callback : M bool :=
  lock_setcallback;; t ← get_tl; unlock_setcallback;; mret (callback t).

Definition en50221_tl_register_callback (cb : bool) : M unit :=
  lock_setcallback;; mod_tl (with_callback cb);; unlock_setcallback.
Definition en50221_tl_get_error_slot : M Z := t ← get_tl; mret (error_slot t).
Definition en50221_tl_get_error : M Z := t ← get_tl; mret (error t).

Definition queue_message (slot_id connection_id : Z) (msg : en50221_message) : M unit :=
  mod_conn slot_id connection_id (fun c => set_queue (send_queue c ++ [msg]) c).

(** The first unused connection, from 1. *)
Definition en50221_tl_alloc_new_tc (slot_id : Z) : M Z :=
  t ← get_tl;
  conid ← for_range (Z.to_nat (max_connections_per_slot t - 1)) 1 (fun i =>
    c ← get_conn slot_id i;
    mret (if state c =? T_STATE_IDLE then Some i else None));
  match conid with
  | None => mret (-1)
  | Some i =>
      mod_conn slot_id i (set_state T_STATE_IN_CREATION);;
      mod_conn slot_id i (set_chain PNull 0);;
      mret i
  end.

(** ** What the application calls *)

Definition en50221_tl_register_slot (hndl slot timeout delay : Z) : M Z :=
  lock_global;;
  t ← get_tl;
  slot_id ← for_range (Z.to_nat (max_slots t)) 0 (fun i =>
    s ← get_slot i; mret (if ca_hndl s =? -1 then Some i else None));
  match slot_id with
  | None => set_error EN50221ERR_OUTOFSLOTS;; unlock_global;; mret (-1)
  | Some i =>
      lock_slot i;;
      upd_slot i (fun s => Some (Slot hndl slot (connections s) (slot_lock s) timeout delay));;
      unlock_slot i;;
      mod_tl (with_changed true);;
      unlock_global;;
      mret i
  end.

(** The checks the operations on a slot begin with: [None] when they pass. *)
Definition check_slot (slot_id : Z) : M (option Z) :=
  t ← get_tl;
  if max_slots t <=? slot_id then set_error EN50221ERR_BADSLOTID;; mret (Some (-1)) else
  lock_slot slot_id;;
  s ← get_slot slot_id;
  if ca_hndl s =? -1 then set_error EN50221ERR_BADSLOTID;; unlock_slot slot_id;; mret (Some (-1))
  else mret None.
Definition check_connection (slot_id connection_id : Z) : M (option Z) :=
  t ← get_tl;
  if max_connections_per_slot t <=? connection_id then
    set_error_slot slot_id;; set_error EN50221ERR_BADCONNECTIONID;; unlock_slot slot_id;; mret (Some (-1))
  else mret None.

(** [if (check) return;] *)
Definition guarded {A} (c : M (option A)) (k : M A) : M A :=
  r ← c; match r with Some a => mret a | None => k end.

Definition check_active (slot_id connection_id : Z) : M (option Z) :=
  c ← get_conn slot_id connection_id;
  if negb (state c =? T_STATE_ACTIVE) then
    set_error EN50221ERR_BADCONNECTIONID;; unlock_slot slot_id;; mret (Some (-1))
  else mret None.

(** The rest of [en50221_tl_send_datav] after its checks; [en50221_tl_send_data] is the
    same code for one vector.  The vectors are the [iovec]s. *)
Definition send_message (slot_id connection_id : Z) (vector : list (list Z)) : M Z :=
  let data_size := foldl (fun n v => u32 (n + zlen v)) 0 vector in
  ok ← env_malloc env;
  if negb ok then
    set_error_slot slot_id;; set_error EN50221ERR_OUTOFMEMORY;; unlock_slot slot_id;; mret (-1)
  else
  let data := replicate (Z.to_nat (data_size + 10)) 0 in
  data ← lift (put8 data 0 T_DATA_LAST);
  '(length_field_len, data) ← lift (asn_1_encode (u16 (data_size + 1)) data 1 3);
  if length_field_len <? 0 then
    set_error_slot slot_id;; set_error EN50221ERR_ASNENCODE;; unlock_slot slot_id;; mret (-1)
  else
  data ← lift (put8 data (1 + length_field_len) connection_id);
  '(_, data) ← lift (foldl (fun acc v => '(pos, data) ← acc; data ← copy_to data pos v; Some (pos + zlen v, data))
    (Some (1 + length_field_len + 1, data)) vector);
  queue_message slot_id connection_id (Msg (u32 (1 + length_field_len + 1 + data_size)) data);;
  unlock_slot slot_id;;
  mret 0.

Definition en50221_tl_send_datav (slot_id connection_id : Z) (vector : list (list Z)) : M Z :=
  guarded (check_slot slot_id) (guarded (check_connection slot_id connection_id)
    (guarded (check_active slot_id connection_id) (send_message slot_id connection_id vector))).
Definition en50221_tl_send_data (slot_id connection_id : Z) (data : list Z) : M Z :=
  guarded (check_slot slot_id) (guarded (check_connection slot_id connection_id)
    (guarded (check_active slot_id connection_id) (send_message slot_id connection_id [data]))).

Definition en50221_tl_new_tc (slot_id : Z) : M Z :=
  guarded (check_slot slot_id) (
    conid ← en50221_tl_alloc_new_tc slot_id;
    if conid =? -1 then
      set_error_slot slot_id;; set_error EN50221ERR_OUTOFCONNECTIONS;; unlock_slot slot_id;; mret (-1)
    else
    ok ← env_malloc env;
    if negb ok then
      set_error_slot slot_id;; set_error EN50221ERR_OUTOFMEMORY;; unlock_slot slot_id;; mret (-1)
    else
    queue_message slot_id conid (Msg 3 [T_CREATE_T_C; 1; u8 conid]);;
    unlock_slot slot_id;;
    mret conid).

Definition en50221_tl_del_tc (slot_id connection_id : Z) : M Z :=
  guarded (check_slot slot_id) (guarded (check_connection slot_id connection_id) (
    c ← get_conn slot_id connection_id;
    if Z.land (state c) (Z.lor T_STATE_ACTIVE T_STATE_IN_DELETION) =? 0 then
      set_error_slot slot_id;; set_error EN50221ERR_BADSTATE;; unlock_slot slot_id;; mret (-1)
    else
    ok ← env_malloc env;
    if negb ok then
      set_error_slot slot_id;; set_error EN50221ERR_OUTOFMEMORY;; unlock_slot slot_id;; mret (-1)
    else
    queue_message slot_id connection_id (Msg 3 [T_DELETE_T_C; 1; connection_id]);;
    mod_conn slot_id connection_id (set_state T_STATE_ACTIVE_DELETEQUEUED);;
    unlock_slot slot_id;;
    mret 0)).

Definition en50221_tl_get_connection_state (slot_id connection_id : Z) : M Z :=
  guarded (check_slot slot_id) (guarded (check_connection slot_id connection_id) (
    c ← get_conn slot_id connection_id;
    unlock_slot slot_id;;
    mret (state c))).
End layer.
