(* ===== verification/En50221Poll.v ===== *)
(** * En50221Poll: reception and polling in libdvben50221/en50221_transport.c

    [process_loop] has fuel for every byte of the data: each TPDU takes at least three. *)

From S2P Require Import Prelude Asn1 CaLink En50221Transport.

Section layer.
Context (env : environment) {U : Type}.
Context (cb_event : Z -> Z -> Z -> U -> U) (cb_data : list Z -> Z -> Z -> T (host U) unit).

Abbreviation M := (T (host U)).

(** Calling the upper layers with a lock held, and for data, with the slot unlocked. *)
Definition notify (reason slot_id connection_id : Z) : M unit :=
  cb ← read_callback;
  if (cb : bool) then modify (fun h => Host (tl h) (cb_event reason slot_id connection_id (upper h))) else mret tt.
Definition deliver (slot_id connection_id : Z) (data : list Z) (data_length : Z) : M unit :=
  cb ← read_callback;
  if cb && negb (data_length =? 0) then
    unlock_slot slot_id;; cb_data data slot_id connection_id;; lock_slot slot_id
  else mret tt.

(** [dvbca_link_write] to the device and CAM of a slot. *)
Definition slot_write (slot_id connection_id : Z) (data : list Z) (len : Z) : M Z :=
  s ← get_slot slot_id;
  dvbca_link_write env (ca_hndl s) (slot_nr s) connection_id data len.

(** [gettimeofday(&connection->tx_time, 0);] *)
Definition stamp_tx (slot_id connection_id : Z) : M unit :=
  now ← gettimeofday env; mod_conn slot_id connection_id (set_tx_time now).

Definition en50221_tl_poll_tc (slot_id connection_id : Z) : M Z :=
  stamp_tx slot_id connection_id;;
  r ← slot_write slot_id connection_id [T_DATA_LAST; 1; connection_id] 3;
  if r <? 0 then fail slot_id EN50221ERR_CAWRITE else mret 0.

(** ** The handlers of the TPDUs *)

Definition en50221_tl_handle_create_tc_reply (slot_id connection_id : Z) : M Z :=
  c ← get_conn slot_id connection_id;
  if state c =? T_STATE_IN_CREATION then
    mod_conn slot_id connection_id (set_state T_STATE_ACTIVE);;
    mod_conn slot_id connection_id clear_tx_time;;
    notify T_CALLBACK_REASON_CONNECTIONOPEN slot_id connection_id;;
    mret 0
  else fail slot_id EN50221ERR_BADCAMDATA.

(** [free(chain_buffer); chain_buffer = NULL; buffer_length = 0;] *)
Definition drop_chain (slot_id connection_id : Z) : M unit :=
  c ← get_conn slot_id connection_id;
  lift (free (chain_buffer c));;
  mod_conn slot_id connection_id (set_chain PNull 0).

Definition en50221_tl_handle_delete_tc (slot_id connection_id : Z) : M Z :=
  c ← get_conn slot_id connection_id;
  if negb (Z.land (state c) (Z.lor T_STATE_ACTIVE T_STATE_IN_DELETION) =? 0) then
    mod_conn slot_id connection_id (set_state T_STATE_IDLE);;
    drop_chain slot_id connection_id;;
    r ← slot_write slot_id connection_id [T_D_T_C_REPLY; 1; connection_id] 3;
    if r <? 0 then fail slot_id EN50221ERR_CAWRITE else
    notify T_CALLBACK_REASON_CONNECTIONCLOSE slot_id connection_id;;
    mret 0
  else fail slot_id EN50221ERR_BADCAMDATA.

Definition en50221_tl_handle_delete_tc_reply (slot_id connection_id : Z) : M Z :=
  c ← get_conn slot_id connection_id;
  if state c =? T_STATE_IN_DELETION then
    mod_conn slot_id connection_id (set_state T_STATE_IDLE);; mret 0
  else fail slot_id EN50221ERR_BADCAMDATA.

Definition en50221_tl_handle_request_tc (slot_id connection_id : Z) : M Z :=
  conid ← en50221_tl_alloc_new_tc slot_id;
  if conid =? -1 then
    r ← slot_write slot_id connection_id [T_T_C_ERROR; 2; connection_id; 1] 4;
    if r <? 0 then fail slot_id EN50221ERR_CAWRITE else
    mod_conn slot_id connection_id clear_tx_time;;
    mret 0
  else
    r ← slot_write slot_id connection_id [T_NEW_T_C; 2; connection_id; u8 conid] 4;
    if r <? 0 then
      mod_conn slot_id conid (set_state T_STATE_IDLE);; fail slot_id EN50221ERR_CAWRITE
    else
    mod_conn slot_id connection_id clear_tx_time;;
    r ← slot_write slot_id (u8 conid) [T_CREATE_T_C; 1; u8 conid; u8 conid] 3;
    if r <? 0 then
      mod_conn slot_id conid (set_state T_STATE_IDLE);; fail slot_id EN50221ERR_CAWRITE
    else
    stamp_tx slot_id conid;;
    notify T_CALLBACK_REASON_CAMCONNECTIONOPEN slot_id (u8 conid);;
    mret 0.

Definition en50221_tl_handle_data_more (slot_id connection_id : Z) (data : list Z) : M Z :=
  c ← get_conn slot_id connection_id;
  if negb (state c =? T_STATE_ACTIVE) then fail slot_id EN50221ERR_BADCAMDATA else
  mod_conn slot_id connection_id clear_tx_time;;
  let new_data_length := s32 (buffer_length c + zlen data) in
  ok ← env_malloc env;
  '(new_data_buffer, old) ← lift (realloc ok (chain_buffer c) new_data_length);
  match new_data_buffer with
  | None =>
      mod_conn slot_id connection_id (set_chain old (buffer_length c));;
      fail slot_id EN50221ERR_OUTOFMEMORY
  | Some buf =>
      buf ← lift (copy_to buf (buffer_length c) data);
      mod_conn slot_id connection_id (set_chain (PBuf buf) (u32 new_data_length));;
      mret 0
  end.

Definition en50221_tl_handle_data_last (slot_id connection_id : Z) (data : list Z) : M Z :=
  c ← get_conn slot_id connection_id;
  if negb (state c =? T_STATE_ACTIVE) then fail slot_id EN50221ERR_BADCAMDATA else
  mod_conn slot_id connection_id clear_tx_time;;
  match chain_buffer c with
  | PNull => deliver slot_id connection_id data (zlen data);; mret 0
  | _ =>
      let new_data_length := s32 (buffer_length c + zlen data) in
      ok ← env_malloc env;
      '(new_data_buffer, old) ← lift (realloc ok (chain_buffer c) new_data_length);
      match new_data_buffer with
      | None =>
          mod_conn slot_id connection_id (set_chain old (buffer_length c));;
          fail slot_id EN50221ERR_OUTOFMEMORY
      | Some buf =>
          buf ← lift (copy_to buf (buffer_length c) data);
          mod_conn slot_id connection_id (set_chain PNull 0);;
          deliver slot_id connection_id buf (zlen data);;
          mret 0
      end
  end.

Definition en50221_tl_handle_sb (slot_id connection_id : Z) (data : list Z) : M Z :=
  c ← get_conn slot_id connection_id;
  if negb (state c =? T_STATE_ACTIVE) then fail slot_id EN50221ERR_BADCAMDATA else
  if negb (zlen data =? 1) then fail slot_id EN50221ERR_BADCAMDATA else
  b ← lift (zget data 0);
  if negb (Z.land b 0x80 =? 0) then
    r ← slot_write slot_id connection_id [T_RCV; 1; connection_id] 3;
    if r <? 0 then fail slot_id EN50221ERR_CAWRITE else
    stamp_tx slot_id connection_id;; mret 0
  else mod_conn slot_id connection_id clear_tx_time;; mret 0.

(** The [switch] over the tag. *)
Definition process_tpdu (slot_id tpdu_tag connection_id : Z) (data : list Z) : M Z :=
  if tpdu_tag =? T_C_T_C_REPLY then en50221_tl_handle_create_tc_reply slot_id connection_id
  else if tpdu_tag =? T_DELETE_T_C then en50221_tl_handle_delete_tc slot_id connection_id
  else if tpdu_tag =? T_D_T_C_REPLY then en50221_tl_handle_delete_tc_reply slot_id connection_id
  else if tpdu_tag =? T_REQUEST_T_C then en50221_tl_handle_request_tc slot_id connection_id
  else if tpdu_tag =? T_DATA_MORE then en50221_tl_handle_data_more slot_id connection_id data
  else if tpdu_tag =? T_DATA_LAST then en50221_tl_handle_data_last slot_id connection_id data
  else if tpdu_tag =? T_SB then en50221_tl_handle_sb slot_id connection_id data
  else fail slot_id EN50221ERR_BADCAMDATA.

Fixpoint process_loop (fuel : nat) (slot_id : Z) (data : list Z) : M Z :=
  let data_length := zlen data in
  if data_length =? 0 then mret 0 else
  match fuel with
  | O => stuck
  | S f =>
      tpdu_tag ← lift (zget data 0);
      '(length_field_len, asn) ← lift (asn_1_decode data 1 (data_length - 1));
      let asn_data_length := default 0 asn in
      if length_field_len <? 0 then fail slot_id EN50221ERR_BADCAMDATA else
      if (asn_data_length <? 1) || (u32 (data_length - (1 + length_field_len)) <? asn_data_length)
      then fail slot_id EN50221ERR_BADCAMDATA else
      connection_id ← lift (zget data (1 + length_field_len));
      let data := zdrop (1 + length_field_len + 1) data in
      let asn_data_length := u16 (asn_data_length - 1) in
      t ← get_tl;
      if max_connections_per_slot t <=? connection_id then fail slot_id EN50221ERR_BADCONNECTIONID else
      result ← process_tpdu slot_id tpdu_tag connection_id (ztake asn_data_length data);
      if result <? 0 then mret (-1) else
      process_loop f slot_id (zdrop asn_data_length data)
  end.

Definition en50221_tl_process_data (slot_id : Z) (data : list Z) : M Z :=
  process_loop (length data) slot_id data.

(** ** [en50221_tl_poll] *)

(** The turn for one connection: [Some] is a return from the function. *)
Definition poll_send (slot_id j : Z) : M (option Z) :=
  c ← get_conn slot_id j;
  if Z.land (state c) (Z.lor T_STATE_IN_CREATION (Z.lor T_STATE_ACTIVE T_STATE_ACTIVE_DELETEQUEUED)) =? 0
  then mret None else
  match send_queue c with
  | msg :: rest =>
      if tv_sec (tx_time c) =? 0 then
        mod_conn slot_id j (set_queue rest);;
        r ← slot_write slot_id (u8 j) (m_data msg) (m_length msg);
        if r <? 0 then
          unlock_slot slot_id;; r ← fail slot_id EN50221ERR_CAWRITE; mret (Some r)
        else
        stamp_tx slot_id j;;
        first ← (if m_length msg =? 0 then mret 0 else lift (zget (m_data msg) 0));
        if negb (m_length msg =? 0) && (first =? T_DELETE_T_C) then
          mod_conn slot_id j (set_state T_STATE_IN_DELETION);;
          drop_chain slot_id j;;
          mret None
        else mret None
      else mret None
  | [] => mret None
  end.

Definition poll_poll (slot_id j : Z) : M (option Z) :=
  c ← get_conn slot_id j;
  if Z.land (state c) T_STATE_ACTIVE =? 0 then mret None else
  if negb (tv_sec (tx_time c) =? 0) then mret None else
  s ← get_slot slot_id;
  after ← time_after env (last_poll_time c) (poll_delay s);
  if negb after then mret None else
  now ← gettimeofday env;
  mod_conn slot_id j (set_last_poll now);;
  r ← en50221_tl_poll_tc slot_id (u8 j);
  if negb (r =? 0) then unlock_slot slot_id;; mret (Some (-1)) else mret None.

Definition poll_timeout (slot_id j : Z) : M (option Z) :=
  c ← get_conn slot_id j;
  if tv_sec (tx_time c) =? 0 then mret None else
  s ← get_slot slot_id;
  after ← time_after env (tx_time c) (response_timeout s);
  if negb after then mret None else
  if negb (Z.land (state c) (Z.lor T_STATE_IN_CREATION T_STATE_IN_DELETION) =? 0) then
    mod_conn slot_id j (set_state T_STATE_IDLE);; mret None
  else if negb (Z.land (state c) (Z.lor T_STATE_ACTIVE T_STATE_ACTIVE_DELETEQUEUED) =? 0) then
    set_error_slot slot_id;; set_error EN50221ERR_TIMEOUT;; unlock_slot slot_id;; mret (Some (-1))
  else mret None.

(** [if (a) return; b], for code whose returns are [Some]. *)
Definition then_ {A} (a b : M (option A)) : M (option A) :=
  r ← a; match r with Some x => mret (Some x) | None => b end.

Definition poll_connection (slot_id j : Z) : M (option Z) :=
  c ← get_conn slot_id j;
  if state c =? T_STATE_IDLE then mret None else
  then_ (poll_send slot_id j) (then_ (poll_poll slot_id j) (poll_timeout slot_id j)).

(** Reading what the device of a slot has, for this CAM or another of the same device. *)
Definition poll_read (slot_id hndl : Z) : M (option Z) :=
  '(readcnt, r_slot_id, _, data) ← dvbca_link_read env hndl 4096;
  if readcnt <? 0 then
    set_error_slot slot_id;; set_error EN50221ERR_CAREAD;; unlock_slot slot_id;; mret (Some (-1))
  else if 0 <? readcnt then
    s ← get_slot slot_id;
    if negb (slot_nr s =? r_slot_id) then
      t ← get_tl;
      new_slot_id ← for_range (Z.to_nat (max_slots t)) 0 (fun i =>
        s ← get_slot i;
        mret (if (ca_hndl s =? hndl) && (slot_nr s =? r_slot_id) then Some i else None));
      match new_slot_id with
      | Some i =>
          lock_slot i;;
          r ← en50221_tl_process_data i data;
          if negb (r =? 0) then unlock_slot i;; unlock_slot slot_id;; mret (Some (-1))
          else unlock_slot i;; mret None
      | None => set_error EN50221ERR_BADSLOTID;; unlock_slot slot_id;; mret (Some (-1))
      end
    else
      r ← en50221_tl_process_data slot_id data;
      if negb (r =? 0) then unlock_slot slot_id;; mret (Some (-1)) else mret None
  else mret None.

Definition poll_slot (slot_id : Z) : M (option Z) :=
  lock_slot slot_id;;
  s ← get_slot slot_id;
  if ca_hndl s =? -1 then unlock_slot slot_id;; mret None else
  t ← get_tl;
  p ← lift (entry (slot_pollfds t) slot_id);
  then_
    (if negb (Z.land (p_revents p) (Z.lor POLLPRI POLLIN) =? 0) then poll_read slot_id (ca_hndl s)
     else if negb (Z.land (p_revents p) POLLERR =? 0) then
       set_error_slot slot_id;; set_error EN50221ERR_CAREAD;; unlock_slot slot_id;; mret (Some (-1))
     else mret None)
    (then_ (for_range (Z.to_nat (max_connections_per_slot t)) 0 (poll_connection slot_id))
       (unlock_slot slot_id;; mret None)).

(** The [pollfd] of a slot. *)
Definition make_pollfd (s : en50221_slot) : pollfd :=
  if negb (ca_hndl s =? -1) then Pollfd (ca_hndl s) (Z.lor POLLIN (Z.lor POLLPRI POLLERR)) 0
  else Pollfd 0 0 0.
Definition refresh_pollfds : M unit :=
  lock_global;;
  t ← get_tl;
  (if slots_changed t then
     mod_tl (fun t => with_changed false (with_pollfds (make_pollfd <$> slots t) t))
   else mret tt);;
  unlock_global.

(** [poll] stores the [revents] of the answer. *)
Definition set_revents (l : list pollfd) (revents : list Z) : list pollfd :=
  imap (fun i p => Pollfd (p_fd p) (p_events p) (default 0 (revents !! i))) l.

Definition en50221_tl_poll : M Z :=
  refresh_pollfds;;
  r ← env_poll env;
  match r with
  | None => set_error_slot (-1);; set_error EN50221ERR_CAREAD;; mret (-1)
  | Some revents =>
      mod_tl (fun t => with_pollfds (set_revents (slot_pollfds t) revents) t);;
      t ← get_tl;
      r ← for_range (Z.to_nat (max_slots t)) 0 poll_slot;
      mret (default 0 r)
  end.

(** ** Creation and destruction *)

Definition clear_connection (c : en50221_connection) : en50221_connection :=
  Conn T_STATE_IDLE (Timeval 0 (tv_usec (tx_time c))) (Timeval 0 0) PNull 0 [].

Definition en50221_tl_destroy_slot (slot_id : Z) : M unit :=
  t ← get_tl;
  if max_slots t <=? slot_id then mret tt else
  lock_global;;
  lock_slot slot_id;;
  upd_slot slot_id (fun s => Some (with_hndl (-1) s));;
  for_range (Z.to_nat (max_connections_per_slot t)) 0 (fun i =>
    c ← get_conn slot_id i;
    lift (free (chain_buffer c));;
    mod_conn slot_id i clear_connection;;
    mret (@None unit));;
  unlock_slot slot_id;;
  notify T_CALLBACK_REASON_SLOTCLOSE slot_id 0;;
  mod_tl (with_changed true);;
  unlock_global.
End layer.

(** [en50221_tl_create]: [None] is the NULL it returns when an allocation fails.  On the
    way out [en50221_tl_destroy] reads the [connections] pointer of every slot: those of
    the slots after the failing one were never set. *)
Definition new_connection : en50221_connection :=
  Conn T_STATE_IDLE (Timeval 0 0) (Timeval 0 0) PNull 0 [].
Section create.
Context (env : environment) {S : Type}.

Fixpoint create_slots (n : nat) (conns : Z) : T S (option (list en50221_slot)) :=
  match n with
  | O => mret (Some [])
  | Datatypes.S n' =>
      ok ← env_malloc env;
      if negb ok then match n' with O => mret None | _ => stuck end else
      r ← create_slots n' conns;
      mret (match r with
            | Some l => Some (Slot (-1) 0 (replicate (Z.to_nat conns) new_connection) false 0 0 :: l)
            | None => None
            end)
  end.

Definition en50221_tl_create (n_slots conns : Z) : T S (option en50221_transport_layer) :=
  ok ← env_malloc env;
  if negb ok then mret None else
  ok ← env_malloc env;
  if negb ok then mret None else
  l ← create_slots (Z.to_nat n_slots) conns;
  match l with
  | None => mret None
  | Some l =>
      ok ← env_malloc env;
      if negb ok then mret None else
      mret (Some (Tl n_slots conns l (replicate (Z.to_nat n_slots) (Pollfd 0 0 0)) true false false 0 0 false))
  end.
End create.

(** [en50221_tl_destroy] frees every chain buffer. *)
Definition en50221_tl_destroy (t : en50221_transport_layer) : option unit :=
  foldr (fun s k => foldr (fun c k => free (chain_buffer c);; k) k (connections s)) (Some tt) (slots t).
