(* ===== verification/En50221Inv.v ===== *)
(** * En50221Inv: the invariant of the transport layer

    The structure of the layer and its locks, the invariant of a connection, and that
    the operations of En50221Transport.v and En50221Poll.v keep them. *)

From S2P Require Import Prelude Asn1 CaLink En50221Transport En50221Poll.

(** ** The invariant *)

Definition is_delete (m : en50221_message) : bool :=
  negb (m_length m =? 0) && (default 0 (zget (m_data m) 0) =? T_DELETE_T_C).

(** What is written of a message is part of it. *)
Definition msg_wf (m : en50221_message) : Prop := 0 <= m_length m <= zlen (m_data m).

(** A delete request is queued only in the state of that name, as the last message. *)
Definition no_delete (q : list en50221_message) : Prop := Forall (fun m => is_delete m = false) q.
Definition queue_ok (st : Z) (q : list en50221_message) : Prop :=
  Forall msg_wf q /\
  (no_delete q \/
   st = T_STATE_ACTIVE_DELETEQUEUED /\ exists q' m, q = q' ++ [m] /\ is_delete m = true /\ no_delete q').

(** A chained message is kept only while the connection is up; the length is that of
    the buffer. *)
Definition chain_ok (st : Z) (p : heap_ptr) (n : Z) : Prop :=
  match p with
  | PNull => n = 0
  | PBuf l => n = zlen l /\ n < 2 ^ 31 /\ (st = T_STATE_ACTIVE \/ st = T_STATE_ACTIVE_DELETEQUEUED)
  | PFreed => False
  end.

Definition state_ok (st : Z) : Prop :=
  st ∈ [T_STATE_IDLE; T_STATE_ACTIVE; T_STATE_ACTIVE_DELETEQUEUED; T_STATE_IN_CREATION; T_STATE_IN_DELETION].

Record conn_wf (c : en50221_connection) : Prop := ConnWf {
  cw_state : state_ok (state c);
  cw_chain : chain_ok (state c) (chain_buffer c) (buffer_length c);
  cw_queue : queue_ok (state c) (send_queue c) }.

Definition conn_at (t : en50221_transport_layer) (i j : Z) : option en50221_connection :=
  s ← entry (slots t) i; entry (connections s) j.

(** The structure of the layer with [ms] slots of [mc] connections; [lk] are the locks
    held on the slots, [g] says whether the global lock is held. *)
Record tl_struct (ms mc : Z) (lk : list bool) (g : bool) (t : en50221_transport_layer) : Prop := TlStruct {
  ts_ms : max_slots t = ms;
  ts_mc : max_connections_per_slot t = mc;
  ts_slots : zlen (slots t) = ms;
  ts_pollfds : zlen (slot_pollfds t) = ms;
  ts_conns : Forall (fun s => zlen (connections s) = mc) (slots t);
  ts_locks : slot_lock <$> slots t = lk;
  ts_global : global_lock t = g;
  ts_setcallback : setcallback_lock t = false }.

(** The connections are well formed but for those in [ex]. *)
Definition conns_wf (ex : Z -> Z -> Prop) (t : en50221_transport_layer) : Prop :=
  forall i j c, conn_at t i j = Some c -> ~ ex i j -> conn_wf c.
Definition nowhere (i j : Z) : Prop := False.
Definition only_at (i j i' j' : Z) : Prop := i' = i /\ j' = j.

Definition tl_inv (ms mc : Z) (lk : list bool) (g : bool) (t : en50221_transport_layer) : Prop :=
  tl_struct ms mc lk g t /\ conns_wf nowhere t.

(** ** Arrays *)

Lemma entry_Some {A} (l : list A) i : 0 <= i < zlen l -> exists x, entry l i = Some x.
Proof.
  intros. unfold entry. rewrite decide_True by lia.
  destruct (lookup_lt_is_Some_2 l (Z.to_nat i)) as [x E]; [unfold zlen in *; lia|eauto].
Qed.
Lemma entry_range {A} (l : list A) i x : entry l i = Some x -> 0 <= i < zlen l.
Proof.
  unfold entry. case_decide; [|done]. intros E%lookup_lt_Some. unfold zlen. lia.
Qed.
Lemma alter_at_Some {A} (l : list A) i f x y :
  entry l i = Some x -> f x = Some y -> alter_at l i f = Some (<[Z.to_nat i := y]> l).
Proof.
  unfold entry, alter_at. case_decide; [|done]. intros E1 E2. rewrite E1. cbn [mbind option_bind].
  rewrite E2. done.
Qed.
Lemma entry_insert {A} (l : list A) i j y :
  0 <= i < zlen l -> entry (<[Z.to_nat i := y]> l) j = if decide (j = i) then Some y else entry l j.
Proof.
  intros. unfold entry. destruct (decide (0 <= j)) as [Hj|Hj]; [|rewrite decide_False by lia; done].
  case_decide as E.
  - subst. rewrite list_lookup_insert_eq; [done|unfold zlen in *; lia].
  - rewrite list_lookup_insert_ne by lia. done.
Qed.
Lemma zlen_insert {A} (l : list A) n y : zlen (<[n := y]> l) = zlen l.
Proof. unfold zlen. by rewrite length_insert. Qed.
Lemma insert_same {A} (l : list A) i x : entry l i = Some x -> <[Z.to_nat i := x]> l = l.
Proof. unfold entry. case_decide; [|done]. apply list_insert_id. Qed.

(** Replacing a slot by one with as many connections. *)
Lemma tl_struct_slot ms mc lk g t i s s' :
  tl_struct ms mc lk g t -> entry (slots t) i = Some s -> zlen (connections s') = zlen (connections s) ->
  tl_struct ms mc (<[Z.to_nat i := slot_lock s']> lk) g (with_slots (<[Z.to_nat i := s']> (slots t)) t).
Proof.
  intros [] Hs Hl. pose proof (entry_range _ _ _ Hs) as Hr. constructor; cbn; try done.
  - by rewrite zlen_insert.
  - apply Forall_insert; [done|]. rewrite Hl. unfold entry in Hs. rewrite decide_True in Hs by lia.
    by eapply (Forall_lookup_1 (fun s => zlen (connections s) = mc)).
  - rewrite list_fmap_insert. congruence.
Qed.
Lemma struct_slot_lock ms mc lk g t i s :
  tl_struct ms mc lk g t -> entry (slots t) i = Some s -> entry lk i = Some (slot_lock s).
Proof.
  intros [] Hs. unfold entry in *. case_decide; [|done]. subst lk. rewrite list_lookup_fmap, Hs. done.
Qed.
Lemma conn_at_slot t i s s' i' j :
  entry (slots t) i = Some s ->
  conn_at (with_slots (<[Z.to_nat i := s']> (slots t)) t) i' j =
    if decide (i' = i) then entry (connections s') j else conn_at t i' j.
Proof.
  intros Hs. pose proof (entry_range _ _ _ Hs). unfold conn_at. cbn. rewrite entry_insert by done.
  case_decide; done.
Qed.
Lemma struct_conns ms mc lk g t i s :
  tl_struct ms mc lk g t -> entry (slots t) i = Some s -> zlen (connections s) = mc.
Proof.
  intros [] Hs. unfold entry in Hs. case_decide; [|done].
  by eapply (Forall_lookup_1 (fun s => zlen (connections s) = mc)).
Qed.
Lemma conn_at_same_conns t i s s' i' j :
  entry (slots t) i = Some s -> connections s' = connections s ->
  conn_at (with_slots (<[Z.to_nat i := s']> (slots t)) t) i' j = conn_at t i' j.
Proof.
  intros Hs Hc. rewrite (conn_at_slot _ _ _ _ _ _ Hs), Hc. case_decide; [subst|done].
  unfold conn_at. by rewrite Hs.
Qed.
Lemma conn_at_range ms mc lk g t i j c :
  tl_struct ms mc lk g t -> conn_at t i j = Some c -> 0 <= i < ms /\ 0 <= j < mc.
Proof.
  intros Ht E. unfold conn_at in E. destruct (entry (slots t) i) as [s|] eqn:Es; [|done].
  cbn in E. pose proof (entry_range _ _ _ Es). pose proof (entry_range _ _ _ E).
  rewrite <- (struct_conns _ _ _ _ _ _ _ Ht Es). destruct Ht. lia.
Qed.
Lemma conn_at_Some ms mc lk g t i j :
  tl_struct ms mc lk g t -> 0 <= i < ms -> 0 <= j < mc -> exists c, conn_at t i j = Some c.
Proof.
  intros Ht Hi Hj. unfold conn_at. destruct (entry_Some (slots t) i) as [s Es]; [destruct Ht; lia|]. rewrite Es. cbn.
  apply entry_Some. by rewrite (struct_conns _ _ _ _ _ _ _ Ht Es).
Qed.

Lemma conns_wf_weaken (ex ex' : Z -> Z -> Prop) t :
  conns_wf ex t -> (forall i j, ex i j -> ex' i j) -> conns_wf ex' t.
Proof. intros H Hx i j c Hc Hn. eapply H; eauto. Qed.
Lemma conns_wf_close i j c t :
  conns_wf (only_at i j) t -> conn_at t i j = Some c -> conn_wf c -> conns_wf nowhere t.
Proof.
  intros H Hc Hw i' j' c' Hc' _. destruct (decide (i' = i /\ j' = j)) as [[-> ->]|Hn].
  - congruence.
  - by eapply H.
Qed.

(** What the layers above keep true of their state, the callbacks that are called with a
    lock held included. *)
Class UpperInv (U : Type) : Type := upper_ok : U -> Prop.
Class EventClient {U : Type} `{!UpperInv U} (ev : Z -> Z -> Z -> U -> U) : Prop :=
  event_inv : forall reason i j u, upper_ok u -> upper_ok (ev reason i j u).

Section rules.
Context (env : environment) {U : Type} `{!UpperInv U} (ms mc : Z).
Implicit Types (w : world (host U)) (lk : list bool) (g : bool).

Abbreviation tlw w := (tl (w_st w)).

(** The invariant, and the invariant but for connection [j] of slot [i], which is [c]. *)
Definition inv lk g w : Prop := tl_inv ms mc lk g (tlw w) /\ upper_ok (upper (w_st w)).
Definition focus lk g i j c w : Prop :=
  tl_struct ms mc lk g (tlw w) /\ (conns_wf (only_at i j) (tlw w) /\ upper_ok (upper (w_st w))) /\
  conn_at (tlw w) i j = Some c.
Definition struct lk g w : Prop := tl_struct ms mc lk g (tlw w).

Lemma inv_struct lk g w : inv lk g w -> struct lk g w.
Proof. intros [[? _] _]. done. Qed.
Lemma inv_st lk g w w' : w_st w' = w_st w -> inv lk g w -> inv lk g w'.
Proof. unfold inv. by intros ->. Qed.
Lemma focus_st lk g i j c w w' : w_st w' = w_st w -> focus lk g i j c w -> focus lk g i j c w'.
Proof. unfold focus. by intros ->. Qed.
Lemma focus_struct lk g i j c w : focus lk g i j c w -> struct lk g w.
Proof. intros (? & _). done. Qed.
Lemma inv_open lk g i j w :
  inv lk g w -> 0 <= i < ms -> 0 <= j < mc -> exists c, focus lk g i j c w /\ conn_wf c.
Proof.
  intros [[Hs Hc] Hp] Hi Hj. destruct (conn_at_Some _ _ _ _ _ i j Hs) as [c E]; [done|done|].
  exists c. split; [|by eapply Hc; [|intros []]]. split; [done|]. split; [|done]. split; [|done].
  eapply conns_wf_weaken; [done|]. intros ?? [].
Qed.
Lemma inv_focus lk g i j c w : inv lk g w -> conn_at (tlw w) i j = Some c -> focus lk g i j c w /\ conn_wf c.
Proof.
  intros HI E. destruct (conn_at_range _ _ _ _ _ _ _ _ (inv_struct _ _ _ HI) E).
  destruct (inv_open lk g i j w HI) as (c' & HF & Hw); [done|done|].
  destruct HF as (? & ? & E'). rewrite E in E'. injection E' as ->. done.
Qed.
Lemma focus_close lk g i j c w : focus lk g i j c w -> conn_wf c -> inv lk g w.
Proof. intros (Hs & [Hc Hp] & E) Hw. split; [|done]. split; [done|]. by eapply conns_wf_close. Qed.
Lemma focus_range lk g i j c w : focus lk g i j c w -> 0 <= i < ms /\ 0 <= j < mc.
Proof. intros (Hs & _ & E). by eapply conn_at_range. Qed.

(** ** Reading *)

Lemma twp_get_tl (Q : en50221_transport_layer -> world (host U) -> Prop) w :
  Q (tlw w) w -> twp get_tl Q w.
Proof. done. Qed.
Lemma twp_lift {A} (o : option A) a (Q : A -> world (host U) -> Prop) w :
  o = Some a -> Q a w -> twp (lift o) Q w.
Proof. intros -> H. done. Qed.
Lemma twp_get_slot lk g i (Q : en50221_slot -> world (host U) -> Prop) w :
  struct lk g w -> 0 <= i < ms -> (forall s, entry (slots (tlw w)) i = Some s -> Q s w) ->
  twp (get_slot i) Q w.
Proof.
  intros Hs Hi HQ. unfold get_slot. apply twp_bind, twp_get_tl.
  destruct (entry_Some (slots (tlw w)) i) as [s E]; [destruct Hs; lia|].
  by eapply twp_lift, HQ.
Qed.
Lemma twp_get_conn lk g i j c (Q : en50221_connection -> world (host U) -> Prop) w :
  focus lk g i j c w -> Q c w -> twp (get_conn i j) Q w.
Proof.
  intros HF HQ. destruct (focus_range _ _ _ _ _ _ HF). unfold get_conn.
  apply twp_bind. eapply twp_get_slot; [by eapply focus_struct|done|]. intros s Es.
  destruct HF as (_ & _ & E). unfold conn_at in E. rewrite Es in E. by eapply twp_lift.
Qed.

(** ** Updating *)

(** Nothing was written and the layers above did not change. *)
Definition quiet w w' : Prop :=
  upper (w_st w') = upper (w_st w) /\ w_sent w' = w_sent w /\ callback (tlw w') = callback (tlw w).
#[global] Instance quiet_preorder : PreOrder quiet.
Proof.
  split; [done|]. intros ??? (E1 & E2 & E3) (F1 & F2 & F3). unfold quiet. by rewrite F1, F2, F3.
Qed.
Lemma quiet_st w w' : w_st w' = w_st w -> w_sent w' = w_sent w -> quiet w w'.
Proof. intros E1 E2. unfold quiet. by rewrite E1, E2. Qed.

Lemma twp_mod_tl f (Q : unit -> world (host U) -> Prop) w :
  Q tt (World (Host (f (tlw w)) (upper (w_st w))) (w_tick w) (w_sent w)) -> twp (mod_tl f) Q w.
Proof. done. Qed.
Lemma twp_upd_tl f t' (Q : unit -> world (host U) -> Prop) w :
  f (tlw w) = Some t' ->
  Q tt (World (Host t' (upper (w_st w))) (w_tick w) (w_sent w)) -> twp (upd_tl f) Q w.
Proof. intros E HQ. unfold twp, upd_tl, update. rewrite E. done. Qed.
Lemma twp_upd_slot f i s s' (Q : unit -> world (host U) -> Prop) w :
  entry (slots (tlw w)) i = Some s -> f s = Some s' ->
  (forall w', tlw w' = with_slots (<[Z.to_nat i := s']> (slots (tlw w))) (tlw w) -> quiet w w' -> Q tt w') ->
  twp (upd_slot i f) Q w.
Proof.
  intros E1 E2 HQ. eapply twp_upd_tl; [by rewrite (alter_at_Some _ _ _ _ _ E1 E2)|]. by apply HQ.
Qed.
Lemma twp_mod_conn lk g i j c f (Q : unit -> world (host U) -> Prop) w :
  focus lk g i j c w ->
  (forall w', focus lk g i j (f c) w' ->
    quiet w w' /\ (forall i' j', ~ only_at i j i' j' -> conn_at (tlw w') i' j' = conn_at (tlw w) i' j') -> Q tt w') ->
  twp (mod_conn i j f) Q w.
Proof.
  intros HF HQ. pose proof (focus_range _ _ _ _ _ _ HF) as [Hi Hj].
  destruct HF as (Hs & [Hc Hp] & E). pose proof E as E0. unfold conn_at in E0.
  destruct (entry (slots (tlw w)) i) as [s|] eqn:Es; [|done]. cbn in E0.
  eapply twp_upd_slot; [done| |].
  { by rewrite (alter_at_Some _ _ _ c (f c) E0 eq_refl). }
  intros w' Ew Hq. pose proof (entry_range _ _ _ E0) as Hr.
  assert (Ha : forall i' j', conn_at (tlw w') i' j' =
    if decide (i' = i /\ j' = j) then Some (f c) else conn_at (tlw w) i' j').
  { intros i' j'. rewrite Ew, (conn_at_slot _ _ _ _ _ _ Es). cbn.
    case_decide as D1; [subst i'|].
    - rewrite entry_insert by done. destruct (decide (j' = j)) as [->|].
      + rewrite decide_True by done. done.
      + rewrite decide_False by (by intros [??]). unfold conn_at. by rewrite Es.
    - rewrite decide_False by (by intros [??]). done. }
  apply HQ.
  - split; [|split; [split|]].
    + rewrite Ew. pose proof (tl_struct_slot _ _ _ _ _ _ _ (with_connections (<[Z.to_nat j := f c]> (connections s)) s) Hs Es) as H.
      cbn in H. rewrite (insert_same lk) in H by (by eapply struct_slot_lock). apply H. by rewrite zlen_insert.
    + intros i' j' c' Hc' Hn. rewrite Ha in Hc'. rewrite decide_False in Hc' by done. by eapply Hc.
    + by destruct Hq as (-> & _).
    + rewrite Ha. by rewrite decide_True.
  - split; [done|]. intros i' j' Hn. rewrite Ha. by rewrite decide_False.
Qed.

(** The fields the invariant does not speak of. *)
Definition core_eq (t t' : en50221_transport_layer) : Prop :=
  max_slots t' = max_slots t /\ max_connections_per_slot t' = max_connections_per_slot t /\
  slots t' = slots t /\ zlen (slot_pollfds t') = zlen (slot_pollfds t) /\
  global_lock t' = global_lock t /\ setcallback_lock t' = setcallback_lock t.
Definition same_core w w' : Prop := core_eq (tlw w) (tlw w') /\ upper (w_st w') = upper (w_st w).
Lemma struct_core lk g w w' : same_core w w' -> struct lk g w -> struct lk g w'.
Proof.
  intros [(E1 & E2 & E3 & E4 & E5 & E6) _] []. constructor; rewrite ?E1, ?E2, ?E3, ?E4, ?E5, ?E6; done.
Qed.
Lemma conn_at_core w w' i j : same_core w w' -> conn_at (tlw w') i j = conn_at (tlw w) i j.
Proof. intros [(_ & _ & E & _) _]. unfold conn_at. by rewrite E. Qed.
Lemma inv_core lk g w w' : same_core w w' -> inv lk g w -> inv lk g w'.
Proof.
  intros Hc [[Hs Hw] Hp]. split; [|by destruct Hc as [_ ->]]. split; [by eapply struct_core|].
  intros i j c. rewrite (conn_at_core _ _ _ _ Hc). apply Hw.
Qed.

Lemma twp_mod_core f (Q : unit -> world (host U) -> Prop) w :
  core_eq (tlw w) (f (tlw w)) ->
  (forall w', same_core w w' -> tlw w' = f (tlw w) -> Q tt w') -> twp (mod_tl f) Q w.
Proof. intros Hc HQ. apply twp_mod_tl. by apply HQ. Qed.

(** ** Errors, locks and callbacks *)

Lemma twp_fail i e (Q : Z -> world (host U) -> Prop) w :
  (forall w', same_core w w' -> error (tlw w') = e -> Q (-1) w') -> twp (fail i e) Q w.
Proof.
  intros HQ. unfold fail. apply twp_bind, twp_mod_tl, twp_bind, twp_mod_tl, twp_ret. by apply HQ.
Qed.

Lemma inv_slot lk g i s s' w w' :
  inv lk g w -> entry (slots (tlw w)) i = Some s ->
  tlw w' = with_slots (<[Z.to_nat i := s']> (slots (tlw w))) (tlw w) ->
  quiet w w' -> connections s' = connections s -> inv (<[Z.to_nat i := slot_lock s']> lk) g w'.
Proof.
  intros [[Hs Hw] Hp] Es Ew (Eu & _) Ec. unfold inv. rewrite Ew, Eu. split; [|done]. split.
  - eapply tl_struct_slot; [done|done|by rewrite Ec].
  - intros i' j c. rewrite (conn_at_slot _ _ _ _ _ _ Es), Ec. intros E.
    apply (Hw i' j). revert E. case_decide; [subst|done]. unfold conn_at. by rewrite Es.
Qed.
Lemma struct_slot lk g i s s' w w' :
  struct lk g w -> entry (slots (tlw w)) i = Some s ->
  tlw w' = with_slots (<[Z.to_nat i := s']> (slots (tlw w))) (tlw w) ->
  connections s' = connections s -> struct (<[Z.to_nat i := slot_lock s']> lk) g w'.
Proof.
  intros Hs Es Ew Ec. unfold struct. rewrite Ew. eapply tl_struct_slot; [done|done|by rewrite Ec].
Qed.

Lemma twp_lock_slot lk g i (Q : unit -> world (host U) -> Prop) w :
  inv lk g w -> entry lk i = Some false ->
  (forall w', inv (<[Z.to_nat i := true]> lk) g w' -> quiet w w' ->
    (forall i' j, conn_at (tlw w') i' j = conn_at (tlw w) i' j) -> Q tt w') -> twp (lock_slot i) Q w.
Proof.
  intros HI Hl HQ. pose proof (entry_range _ _ _ Hl) as Hr.
  pose proof (inv_struct _ _ _ HI) as Hs.
  assert (zlen lk = ms) by (destruct Hs; subst lk; unfold zlen in *; by rewrite length_fmap).
  destruct (entry_Some (slots (tlw w)) i) as [s Es]; [destruct Hs; lia|].
  pose proof (struct_slot_lock _ _ _ _ _ _ _ Hs Es) as El. rewrite Hl in El. injection El as El.
  eapply twp_upd_slot; [done|by rewrite <- El|]. intros w' Ew Hq.
  apply HQ; [by pose proof (inv_slot _ _ _ _ _ _ _ HI Es Ew Hq eq_refl)|done|].
  intros i' j. rewrite Ew. by apply conn_at_same_conns with (s := s).
Qed.
Lemma twp_unlock_slot lk g i (Q : unit -> world (host U) -> Prop) w :
  inv lk g w -> 0 <= i < ms ->
  (forall w', inv (<[Z.to_nat i := false]> lk) g w' -> quiet w w' ->
    (forall i' j, conn_at (tlw w') i' j = conn_at (tlw w) i' j) -> Q tt w') ->
  twp (unlock_slot i) Q w.
Proof.
  intros HI Hi HQ. pose proof (inv_struct _ _ _ HI) as Hs.
  destruct (entry_Some (slots (tlw w)) i) as [s Es]; [destruct Hs; lia|].
  eapply twp_upd_slot; [done|done|]. intros w' Ew Hq.
  apply HQ; [by pose proof (inv_slot _ _ _ _ _ _ _ HI Es Ew Hq eq_refl)|done|].
  intros i' j. rewrite Ew. by apply conn_at_same_conns with (s := s).
Qed.
Lemma twp_read_callback lk g (Q : bool -> world (host U) -> Prop) w :
  inv lk g w -> (forall b w', inv lk g w' -> tlw w' = tlw w -> b = callback (tlw w) -> quiet w w' -> Q b w') -> twp read_callback Q w.
Proof.
  intros HI HQ. pose proof (inv_struct _ _ _ HI) as Hs. unfold read_callback.
  apply twp_bind. unfold lock_setcallback. eapply twp_upd_tl; [by rewrite (ts_setcallback _ _ _ _ _ Hs)|].
  apply twp_bind, twp_get_tl, twp_bind, twp_mod_tl, twp_ret. cbn.
  assert (E : with_locks (global_lock (tlw w)) false (with_locks (global_lock (tlw w)) true (tlw w)) = tlw w).
  { destruct Hs. destruct (tlw w). cbn in *. by subst. }
  apply HQ; [|done|done|].
  - unfold inv. cbn. by rewrite E.
  - done.
Qed.
End rules.
