(* ===== verification/En50221Safe.v ===== *)
(** * En50221Safe: the transport layer keeps its invariant

    Each operation of the transport layer ends, keeps the invariant and releases its
    locks; what a data callback has to promise is the class [DataClient]. *)

From S2P Require Import Prelude Asn1 CaLink En50221Transport En50221Poll En50221Inv.

(** What the transport layer asks of the function registered for data: called with less
    than 2 GiB and with the slot of the data and the global lock free, it keeps the
    invariant and leaves the locks as they were. *)
Class DataClient {U : Type} `{!UpperInv U} (ms mc : Z) (cb_data : list Z -> Z -> Z -> T (host U) unit) : Prop :=
  client_inv : forall data i j lk w,
    inv ms mc lk false w -> entry lk i = Some false -> 0 <= j < mc -> zlen data < 2 ^ 31 ->
    twp (cb_data data i j) (fun _ w' => inv ms mc lk false w') w.

(** An allocation failed: only the structure of the layer is known. *)
Definition oom {U} `{!UpperInv U} (ms mc : Z) (lk : list bool) (g : bool) (w : world (host U)) : Prop :=
  struct ms mc lk g w /\ error (tl (w_st w)) = EN50221ERR_OUTOFMEMORY.
(** The end of a function that returns 0 or -1. *)
Definition post {U} `{!UpperInv U} (ms mc : Z) (lk : list bool) (g : bool) (r : Z) (w : world (host U)) : Prop :=
  (inv ms mc lk g w /\ (r = 0 \/ r = -1)) \/ (r = -1 /\ oom ms mc lk g w).

(** ** Well-formed connections *)

Lemma wf_tx_time v c : conn_wf c -> conn_wf (set_tx_time v c).
Proof. intros []. by constructor. Qed.
Lemma wf_clear_tx_time c : conn_wf c -> conn_wf (clear_tx_time c).
Proof. apply wf_tx_time. Qed.
Lemma wf_last_poll v c : conn_wf c -> conn_wf (set_last_poll v c).
Proof. intros []. by constructor. Qed.
#[export] Hint Resolve wf_tx_time wf_clear_tx_time wf_last_poll : bgt.

Lemma queue_ok_no_delete st q : queue_ok st q -> st <> T_STATE_ACTIVE_DELETEQUEUED -> no_delete q.
Proof. by intros [_ [Hq|[? _]]] Hn. Qed.
Lemma queue_ok_state st st' q :
  queue_ok st q -> st <> T_STATE_ACTIVE_DELETEQUEUED -> queue_ok st' q.
Proof. intros Hq H1. split; [apply Hq|]. left. by eapply queue_ok_no_delete. Qed.
Lemma queue_ok_snoc st q m :
  queue_ok st q -> st <> T_STATE_ACTIVE_DELETEQUEUED -> msg_wf m -> is_delete m = false -> queue_ok st (q ++ [m]).
Proof.
  intros Hq H1 Hm Hd. split.
  - apply Forall_app. split; [apply Hq|by apply Forall_cons_2].
  - left. apply Forall_app. split; [by eapply queue_ok_no_delete|by apply Forall_cons_2].
Qed.

(** A state change away from and to states without a queued delete request. *)
Lemma wf_state st c :
  conn_wf c -> state_ok st -> state c <> T_STATE_ACTIVE_DELETEQUEUED -> st <> T_STATE_ACTIVE_DELETEQUEUED ->
  (chain_buffer c = PNull \/ st = T_STATE_ACTIVE) -> conn_wf (set_state st c).
Proof.
  intros [Hs Hc Hq] Ho H1 H2 Hch. constructor; cbn; [done| |by eapply queue_ok_state].
  destruct Hch as [E| ->]; [rewrite E in *; done|].
  unfold chain_ok in *. destruct (chain_buffer c); [done| |done].
  destruct Hc as (? & ? & _). auto.
Qed.
Lemma wf_idle_state st c :
  conn_wf c -> state_ok st -> state c <> T_STATE_ACTIVE -> state c <> T_STATE_ACTIVE_DELETEQUEUED ->
  st <> T_STATE_ACTIVE_DELETEQUEUED -> conn_wf (set_state st c).
Proof.
  intros Hw Ho H1 H2 H3. apply wf_state; try done. left.
  destruct Hw as [_ Hc _]. destruct (chain_buffer c); [done| |done].
  by destruct Hc as (_ & _ & [?|?]).
Qed.
Lemma wf_null_chain c : conn_wf c -> conn_wf (set_chain PNull 0 c).
Proof. intros []. by constructor. Qed.

Lemma wf_new : conn_wf new_connection.
Proof.
  constructor; [by apply (bool_decide_unpack _)|done|]. split; [constructor|]. left. constructor.
Qed.
Lemma wf_clear_connection c : conn_wf (clear_connection c).
Proof. destruct wf_new. by constructor. Qed.
Ltac state_ok_tac := unfold state_ok; by apply (bool_decide_unpack _).
#[export] Hint Extern 1 (state_ok _) => state_ok_tac : bgt.

(** ** Chained messages *)

(** The part of a chained message that has arrived. *)
Definition chain_data (c : en50221_connection) : list Z :=
  match chain_buffer c with PBuf l => l | _ => [] end.

Lemma chain_data_len c : conn_wf c -> zlen (chain_data c) = buffer_length c /\ 0 <= buffer_length c < 2 ^ 31.
Proof.
  intros [_ Hc _]. unfold chain_data, chain_ok in *. destruct (chain_buffer c) as [|l|]; [|..|done].
  - subst. by rewrite Hc, zlen_nil.
  - destruct Hc as (-> & ? & _). pose proof (zlen_nonneg l). lia.
Qed.

(** The buffer grown for the next fragment: it begins with what was there. *)
Lemma realloc_chain ok c n :
  conn_wf c -> 0 <= n < 65536 ->
  exists r old, realloc ok (chain_buffer c) (s32 (buffer_length c + n)) = Some (r, old) /\
    match r with
    | None => ok = true -> 0 < buffer_length c + n -> 2 ^ 31 <= buffer_length c + n
    | Some buf => s32 (buffer_length c + n) = buffer_length c + n /\ zlen buf = buffer_length c + n /\
        buffer_length c + n < 2 ^ 31 /\ ztake (buffer_length c) buf = chain_data c
    end.
Proof.
  intros Hw Hn. destruct (chain_data_len c Hw) as [Hd Hb].
  destruct Hw as [_ Hc _]. unfold chain_ok, chain_data, realloc in *.
  assert (Hs : s32 (buffer_length c + n) = buffer_length c + n /\ buffer_length c + n < 2 ^ 31 \/
    s32 (buffer_length c + n) < 0 /\ 2 ^ 31 <= buffer_length c + n).
  { unfold s32. rewrite u32_small by lia. case_decide; lia. }
  destruct (chain_buffer c) as [|l|]; [|..|done].
  - rewrite Hc in *. destruct (ok && _) eqn:E.
    + apply andb_true_iff in E as [-> E]. eexists _, _. split; [done|].
      assert (s32 (0 + n) = 0 + n) as -> by lia. repeat split; try lia.
      unfold zlen. rewrite length_replicate. lia.
    + eexists _, _. split; [done|]. intros ->. simpl in E. lia.
  - destruct (s32 _ =? 0) eqn:E0; [eexists _, _; split; [done|]; intros; lia|].
    destruct (ok && _) eqn:E.
    + apply andb_true_iff in E as [-> E]. eexists _, _. split; [done|]. destruct Hc as (El & _ & _).
      assert (s32 (buffer_length c + n) = buffer_length c + n) as -> by lia.
      repeat split; try lia.
      * unfold zlen in *. rewrite length_app, length_replicate.
        pose proof (ztake_all (buffer_length c + n) l) as Et. unfold zlen in Et. rewrite Et; lia.
      * rewrite (ztake_all _ l) by lia. by apply ztake_app.
    + eexists _, _. split; [done|]. intros ->. simpl in E. lia.
Qed.

(** Copying the fragment behind it. *)
Lemma copy_chain c buf data :
  conn_wf c -> zlen buf = buffer_length c + zlen data -> ztake (buffer_length c) buf = chain_data c ->
  copy_to buf (buffer_length c) data = Some (chain_data c ++ data).
Proof.
  intros Hw Hl Ht. destruct (chain_data_len c Hw) as [_ ?].
  unfold copy_to. rewrite decide_True by lia. f_equal. unfold zsplice.
  rewrite Ht, zdrop_all by lia. by rewrite app_nil_r.
Qed.

Section safe.
Context (env : environment) {U : Type} `{!UpperInv U} (ms mc : Z).
Context (Hms : 0 <= ms < 256) (Hmc : 0 <= mc < 256).
Implicit Types (w : world (host U)) (lk : list bool) (g : bool).

Abbreviation tlw w := (tl (w_st w)).
Abbreviation inv := (inv ms mc).
Abbreviation focus := (focus ms mc).
Abbreviation struct := (struct ms mc).
Abbreviation post := (post ms mc).

Lemma post_ok lk g w : inv lk g w -> post lk g 0 w.
Proof. left. auto. Qed.
Lemma post_fail lk g w : inv lk g w -> post lk g (-1) w.
Proof. left. auto. Qed.
#[local] Hint Resolve post_ok post_fail : bgt.

Lemma twp_fail_post lk g i e w : inv lk g w -> twp (fail i e) (post lk g) w.
Proof. intros HI. apply twp_fail. intros w' Hc _. apply post_fail. by eapply inv_core. Qed.
Lemma twp_fail_oom lk g i w : struct lk g w -> twp (fail i EN50221ERR_OUTOFMEMORY) (post lk g) w.
Proof.
  intros HI. apply twp_fail. intros w' Hc He. right. split; [done|]. split; [by eapply struct_core|done].
Qed.

Lemma twp_notify ev `{!EventClient ev} reason i j lk g (Q : unit -> world (host U) -> Prop) w :
  inv lk g w -> (forall w', inv lk g w' -> tlw w' = tlw w -> Q tt w') -> twp (notify ev reason i j) Q w.
Proof.
  intros HI HQ. unfold notify. apply twp_bind. eapply twp_read_callback; [done|].
  intros b w' HI' Et _ _. destruct b; [apply twp_modify|by apply twp_ret, HQ].
  apply HQ; [|done]. destruct HI' as [Ht Hp]. split; [exact Ht|by apply event_inv].
Qed.

Lemma twp_slot_write i j data len lk g (Q : Z -> world (host U) -> Prop) w :
  struct lk g w -> 0 <= i < ms -> u16 len <= zlen data ->
  (forall r w', w_st w' = w_st w -> Q r w') -> twp (slot_write env i j data len) Q w.
Proof.
  intros Hs Hi Hl HQ. unfold slot_write. apply twp_bind. eapply twp_get_slot; [done|done|].
  intros s _. by apply twp_dvbca_link_write.
Qed.

Lemma twp_stamp_tx i j c lk g (Q : unit -> world (host U) -> Prop) w :
  focus lk g i j c w ->
  (forall v w', focus lk g i j (set_tx_time v c) w' -> Q tt w') -> twp (stamp_tx env i j) Q w.
Proof.
  intros HF HQ. unfold stamp_tx. apply twp_bind, twp_gettimeofday. intros v w' E.
  eapply twp_mod_conn; [by eapply focus_st|]. intros w'' HF' _. by eapply HQ.
Qed.

(** Opening a connection the context knows to be in range. *)
Ltac open_conn i j c HF Hw :=
  match goal with
  | H : En50221Inv.inv _ _ _ _ ?w |- context [?w] =>
      destruct (inv_open ms mc _ _ i j w H) as (c & HF & Hw); [lia|lia|]
  end.
Ltac mod_conn HF := eapply twp_mod_conn; [exact HF|]; clear HF; intros ? HF _.

Lemma twp_poll_tc i j lk g w :
  inv lk g w -> 0 <= i < ms -> 0 <= j < mc -> twp (en50221_tl_poll_tc env i j) (post lk g) w.
Proof.
  intros HI Hi Hj. open_conn i j c HF Hw. unfold en50221_tl_poll_tc.
  apply twp_bind. eapply twp_stamp_tx; [done|]. intros v w1 HF1.
  apply twp_bind. eapply twp_slot_write; [by eapply focus_struct|done|done|].
  intros r w2 E. assert (HI2 : inv lk g w2) by (eapply inv_st, focus_close; eauto with bgt).
  apply twp_if; intros _; [by apply twp_fail_post|by apply twp_ret, post_ok].
Qed.

Lemma twp_handle_create_tc_reply ev `{!EventClient ev} i j lk g w :
  inv lk g w -> 0 <= i < ms -> 0 <= j < mc ->
  twp (en50221_tl_handle_create_tc_reply ev i j) (post lk g) w.
Proof.
  intros HI Hi Hj. open_conn i j c HF Hw. unfold en50221_tl_handle_create_tc_reply.
  apply twp_bind. eapply twp_get_conn; [done|]. apply twp_if; intros Es; [|by apply twp_fail_post].
  apply Z.eqb_eq in Es. apply twp_bind. mod_conn HF. apply twp_bind. mod_conn HF.
  apply twp_bind. eapply (twp_notify ev); [|by intros; apply twp_ret, post_ok].
  eapply focus_close; [done|]. apply wf_clear_tx_time, wf_idle_state; rewrite ?Es; auto with bgt; done.
Qed.

Lemma twp_drop_chain i j c lk g (Q : unit -> world (host U) -> Prop) w :
  focus lk g i j c w -> chain_buffer c <> PFreed ->
  (forall w', focus lk g i j (set_chain PNull 0 c) w' -> Q tt w') -> twp (drop_chain i j) Q w.
Proof.
  intros HF Hc HQ. unfold drop_chain. apply twp_bind. eapply twp_get_conn; [done|].
  apply twp_bind. eapply (twp_lift _ tt); [by destruct (chain_buffer c)|].
  eapply twp_mod_conn; [done|]. auto.
Qed.

Lemma wf_not_freed c : conn_wf c -> chain_buffer c <> PFreed.
Proof. intros [_ Hc _] E. by rewrite E in Hc. Qed.

(** The test [state & mask] on the states there are. *)
Lemma state_mask st m :
  state_ok st -> negb (Z.land st m =? 0) = existsb (fun s => (st =? s) && negb (Z.land s m =? 0))
    [T_STATE_IDLE; T_STATE_ACTIVE; T_STATE_ACTIVE_DELETEQUEUED; T_STATE_IN_CREATION; T_STATE_IN_DELETION].
Proof.
  intros Hs. unfold state_ok in Hs. repeat (apply elem_of_cons in Hs as [->|Hs]); [..|by apply not_elem_of_nil in Hs];
    cbn -[Z.land]; rewrite ?orb_false_r; done.
Qed.

Lemma twp_handle_delete_tc ev `{!EventClient ev} i j lk g w :
  inv lk g w -> 0 <= i < ms -> 0 <= j < mc -> twp (en50221_tl_handle_delete_tc env ev i j) (post lk g) w.
Proof.
  intros HI Hi Hj. open_conn i j c HF Hw. unfold en50221_tl_handle_delete_tc.
  apply twp_bind. eapply twp_get_conn; [done|]. apply twp_if; intros Es; [|by apply twp_fail_post].
  rewrite state_mask in Es by apply Hw. apply twp_bind. mod_conn HF. apply twp_bind.
  eapply twp_drop_chain; [done|by apply wf_not_freed in Hw|]. intros w1 HF1.
  apply twp_bind. eapply twp_slot_write; [by eapply focus_struct|done|done|].
  intros r w2 E. assert (HI2 : inv lk g w2).
  { eapply inv_st, focus_close; [done|done|]. apply (wf_state _ (set_chain PNull 0 c));
      [by apply wf_null_chain|auto with bgt| |done|by left].
    cbn. intros E'. by rewrite E' in Es. }
  apply twp_if; intros _; [by apply twp_fail_post|].
  apply twp_bind. eapply (twp_notify ev); [done|]. by intros; apply twp_ret, post_ok.
Qed.

Lemma twp_handle_delete_tc_reply i j lk g w :
  inv lk g w -> 0 <= i < ms -> 0 <= j < mc -> twp (en50221_tl_handle_delete_tc_reply i j) (post lk g) w.
Proof.
  intros HI Hi Hj. open_conn i j c HF Hw. unfold en50221_tl_handle_delete_tc_reply.
  apply twp_bind. eapply twp_get_conn; [done|]. apply twp_if; intros Es; [|by apply twp_fail_post].
  apply Z.eqb_eq in Es. apply twp_bind. mod_conn HF. apply twp_ret, post_ok.
  eapply focus_close; [done|]. apply wf_idle_state; rewrite ?Es; auto with bgt; done.
Qed.

(** ** New connections *)

(** The search for an unused connection finds the first one. *)
Lemma twp_for_idle n lo i lk g w (Q : option Z -> world (host U) -> Prop) :
  inv lk g w -> 0 <= i < ms -> 1 <= lo -> lo + Z.of_nat n <= Z.max 1 mc ->
  (forall k' c', 1 <= k' < lo -> conn_at (tlw w) i k' = Some c' -> state c' <> T_STATE_IDLE) ->
  ((forall k' c', 1 <= k' < lo + Z.of_nat n -> conn_at (tlw w) i k' = Some c' -> state c' <> T_STATE_IDLE) ->
    Q None w) ->
  (forall k c, 1 <= k < mc -> conn_at (tlw w) i k = Some c -> state c = T_STATE_IDLE ->
    (forall k' c', 1 <= k' < k -> conn_at (tlw w) i k' = Some c' -> state c' <> T_STATE_IDLE) -> Q (Some k) w) ->
  twp (for_range n lo (fun k =>
    c ← get_conn i k; mret (if state c =? T_STATE_IDLE then Some k else None))) Q w.
Proof.
  intros HI Hi H1 Hlo Hb Hn Hs. revert lo H1 Hb Hlo Hn.
  induction n as [|n IH]; intros lo H1 Hb Hlo Hn; cbn [for_range].
  { apply twp_ret, Hn. intros k' c' Hk. apply Hb. lia. }
  apply twp_bind, twp_bind.
  destruct (inv_open ms mc _ _ i lo w HI) as (c & HF & Hw); [done|lia|].
  eapply twp_get_conn; [done|]. apply twp_ret.
  destruct HF as (_ & _ & Ec). destruct (state c =? T_STATE_IDLE) eqn:Es.
  - apply twp_ret. eapply Hs; [lia|done|lia|done].
  - apply IH; [lia| |lia|].
    + intros k' c' Hk Ec'. destruct (decide (k' = lo)) as [->|].
      * rewrite Ec in Ec'. injection Ec' as <-. lia.
      * apply (Hb k'); [lia|done].
    + intros Hall. apply Hn. intros k' c' Hk. apply Hall. lia.
Qed.

Lemma twp_alloc_new_tc i lk g (Q : Z -> world (host U) -> Prop) w :
  inv lk g w -> 0 <= i < ms ->
  ((forall k c, 1 <= k < mc -> conn_at (tlw w) i k = Some c -> state c <> T_STATE_IDLE) -> Q (-1) w) ->
  (forall k c w', 1 <= k < mc -> conn_at (tlw w) i k = Some c -> state c = T_STATE_IDLE ->
    focus lk g i k (set_chain PNull 0 (set_state T_STATE_IN_CREATION c)) w' ->
    (forall k' c', 1 <= k' < k -> conn_at (tlw w) i k' = Some c' -> state c' <> T_STATE_IDLE) /\
    (forall i' j', ~ only_at i k i' j' -> conn_at (tlw w') i' j' = conn_at (tlw w) i' j') ->
    Q k w') ->
  twp (en50221_tl_alloc_new_tc i) Q w.
Proof.
  intros HI Hi H1 H2. unfold en50221_tl_alloc_new_tc. apply twp_bind, twp_get_tl.
  assert (Em : max_connections_per_slot (tlw w) = mc) by apply HI. rewrite Em.
  apply twp_bind. apply (twp_for_idle _ _ i lk g); [done|done|lia|lia|lia| |].
  - intros Hall. apply twp_ret, H1. intros k c Hk. apply Hall. lia.
  - intros k c Hk Ec Es Hbefore. destruct (inv_focus _ _ _ _ _ _ _ _ HI Ec) as [HF Hw].
    apply twp_bind. eapply twp_mod_conn; [exact HF|]. intros w1 HF1 [_ Ho1].
    apply twp_bind. eapply twp_mod_conn; [exact HF1|]. intros w2 HF2 [_ Ho2].
    apply twp_ret. eapply H2; [done|done|done|exact HF2|]. split; [done|].
    intros i' j' Hn. by rewrite Ho2, Ho1.
Qed.

Lemma wf_new_connection c :
  conn_wf c -> state c = T_STATE_IDLE -> conn_wf (set_chain PNull 0 (set_state T_STATE_IN_CREATION c)).
Proof.
  intros Hw Es. apply wf_null_chain, wf_idle_state; rewrite ?Es; auto with bgt; done.
Qed.

(** [tx_time.tv_sec = 0] on any connection keeps the invariant and all states. *)
Lemma twp_clear_tx i j lk g (Q : unit -> world (host U) -> Prop) w :
  inv lk g w -> 0 <= i < ms -> 0 <= j < mc ->
  (forall w', inv lk g w' ->
    (forall i' j' c, conn_at (tlw w) i' j' = Some c ->
      exists c', conn_at (tlw w') i' j' = Some c' /\ state c' = state c) -> Q tt w') ->
  twp (mod_conn i j clear_tx_time) Q w.
Proof.
  intros HI Hi Hj HQ. open_conn i j c HF Hw. pose proof HF as (_ & _ & Ec).
  eapply twp_mod_conn; [exact HF|]. intros w' HF' [_ Ho]. apply HQ; [by eapply focus_close, wf_clear_tx_time|].
  intros i' j' c' Ec'. destruct (decide (i' = i /\ j' = j)) as [[-> ->]|Hn].
  - destruct HF' as (_ & _ & E'). rewrite Ec in Ec'. injection Ec' as <-. eauto.
  - rewrite Ho by done. eauto.
Qed.

(** Giving up a connection that was in creation. *)
Lemma twp_abandon i k e lk g c w :
  inv lk g w -> conn_at (tlw w) i k = Some c -> state c = T_STATE_IN_CREATION ->
  twp (mod_conn i k (set_state T_STATE_IDLE);; fail i e) (post lk g) w.
Proof.
  intros HI Ec Es. destruct (inv_focus _ _ _ _ _ _ _ _ HI Ec) as [HF Hw].
  apply twp_bind. mod_conn HF. apply twp_fail_post. eapply focus_close; [done|].
  apply wf_idle_state; rewrite ?Es; auto with bgt; done.
Qed.

Lemma twp_handle_request_tc ev `{!EventClient ev} i j lk g w :
  inv lk g w -> 0 <= i < ms -> 0 <= j < mc -> twp (en50221_tl_handle_request_tc env ev i j) (post lk g) w.
Proof.
  intros HI Hi Hj. unfold en50221_tl_handle_request_tc. apply twp_bind.
  eapply twp_alloc_new_tc; [done|done| |].
  - intros _. apply twp_if; [intros _|done]. apply twp_bind.
    eapply twp_slot_write; [by apply inv_struct|done|done|]. intros r w1 E1.
    pose proof (inv_st _ _ _ _ _ _ E1 HI) as HI1.
    apply twp_if; intros _; [by apply twp_fail_post|]. apply twp_bind.
    eapply twp_clear_tx; [done|done|done|]. intros w2 HI2 _. by apply twp_ret, post_ok.
  - intros k c w1 Hk Ec Es HF _. apply twp_if; [lia|intros _].
    pose proof (inv_focus _ _ _ _ _ _ _ _ HI Ec) as [_ Hw].
    pose proof (focus_close _ _ _ _ _ _ _ _ HF (wf_new_connection _ Hw Es)) as HI1.
    destruct HF as (_ & _ & Ek). set (c1 := set_chain _ _ _) in Ek.
    assert (E1 : state c1 = T_STATE_IN_CREATION) by done. clearbody c1.
    apply twp_bind. eapply twp_slot_write; [by apply inv_struct|done|done|]. intros r w2 E2.
    pose proof (inv_st _ _ _ _ _ _ E2 HI1) as HI2. rewrite <- E2 in Ek.
    apply twp_if; intros _; [by eapply twp_abandon|].
    apply twp_bind. eapply twp_clear_tx; [done|done|done|]. intros w3 HI3 Hst.
    destruct (Hst _ _ _ Ek) as (c3 & Ek3 & Es3). rewrite E1 in Es3.
    apply twp_bind. eapply twp_slot_write; [by apply inv_struct|done|done|]. intros r' w4 E4.
    pose proof (inv_st _ _ _ _ _ _ E4 HI3) as HI4. rewrite <- E4 in Ek3.
    apply twp_if; intros _; [by eapply twp_abandon|].
    destruct (inv_focus _ _ _ _ _ _ _ _ HI4 Ek3) as [HF4 Hw4].
    apply twp_bind. eapply twp_stamp_tx; [done|]. intros v w5 HF5.
    apply twp_bind. eapply (twp_notify ev); [by eapply focus_close, wf_tx_time|].
    intros. by apply twp_ret, post_ok.
Qed.

Lemma twp_handle_sb i j data lk g w :
  inv lk g w -> 0 <= i < ms -> 0 <= j < mc -> twp (en50221_tl_handle_sb env i j data) (post lk g) w.
Proof.
  intros HI Hi Hj. open_conn i j c HF Hw. unfold en50221_tl_handle_sb.
  apply twp_bind. eapply twp_get_conn; [done|]. apply twp_if; intros _; [by apply twp_fail_post|].
  apply twp_if; intros El; [by apply twp_fail_post|].
  apply twp_bind. eapply twp_lift; [apply zget_in; lia|].
  apply twp_if; intros _.
  - apply twp_bind. eapply twp_slot_write; [by apply inv_struct|done|done|]. intros r w1 E1.
    pose proof (focus_st _ _ _ _ _ _ _ _ _ E1 HF) as HF1.
    apply twp_if; intros _; [apply twp_fail_post; by eapply focus_close|].
    apply twp_bind. eapply twp_stamp_tx; [done|]. intros v w2 HF2.
    apply twp_ret, post_ok. by eapply focus_close, wf_tx_time.
  - apply twp_bind. eapply twp_clear_tx; [done|done|done|]. intros w2 HI2 _. by apply twp_ret, post_ok.
Qed.

Lemma wf_chain c l :
  conn_wf c -> state c = T_STATE_ACTIVE -> zlen l < 2 ^ 31 -> conn_wf (set_chain (PBuf l) (zlen l) c).
Proof. intros [] Es Hl. constructor; cbn; auto. Qed.

Lemma twp_data_more i j data c lk g (Q : Z -> world (host U) -> Prop) w :
  focus lk g i j c w -> conn_wf c -> zlen data < 65536 ->
  (state c <> T_STATE_ACTIVE -> forall w', inv lk g w' -> Q (-1) w') ->
  (~ ((forall n, malloc_ok env n = true) /\ 0 < buffer_length c + zlen data < 2 ^ 31) ->
    forall w', oom ms mc lk g w' -> Q (-1) w') ->
  (state c = T_STATE_ACTIVE -> forall w', quiet w w' ->
    zlen (chain_data c ++ data) < 2 ^ 31 ->
    focus lk g i j (set_chain (PBuf (chain_data c ++ data)) (zlen (chain_data c ++ data)) (clear_tx_time c)) w' ->
    Q 0 w') ->
  twp (en50221_tl_handle_data_more env i j data) Q w.
Proof.
  intros HF Hw Hd H1 H2 H3. pose proof (zlen_nonneg data).
  unfold en50221_tl_handle_data_more. apply twp_bind. eapply twp_get_conn; [done|].
  apply twp_if; intros Es.
  { apply twp_fail. intros w' Hc _. apply H1; [lia|]. by eapply inv_core, focus_close. }
  apply twp_bind. eapply twp_mod_conn; [exact HF|]. intros w1 HF1 [Hq1 _].
  apply twp_bind, twp_malloc. intros w2 E2 E2'. pose proof (focus_st _ _ _ _ _ _ _ _ _ E2 HF1) as HF2.
  destruct (realloc_chain (malloc_ok env (w_tick w1)) c (zlen data) Hw) as (r & old & Er & Hr); [lia|].
  apply twp_bind. eapply twp_lift; [exact Er|]. cbn beta iota. destruct r as [buf|].
  - destruct Hr as (Ei & El & Hlt & Et). apply twp_bind.
    eapply twp_lift; [by apply copy_chain|].
    apply twp_bind. eapply twp_mod_conn; [exact HF2|]. intros w3 HF3 [Hq3 _]. apply twp_ret.
    destruct (chain_data_len c Hw) as [Hcd ?].
    assert (Ez : u32 (s32 (buffer_length c + zlen data)) = zlen (chain_data c ++ data)).
    { rewrite Ei, u32_small, zlen_app by lia. lia. }
    rewrite Ez in HF3. apply H3; [lia| |rewrite zlen_app; lia|done].
    etrans; [exact Hq1|]. etrans; [by apply quiet_st|exact Hq3].
  - apply twp_bind. eapply twp_mod_conn; [exact HF2|]. intros w3 HF3 _.
    apply twp_fail. intros w4 Hc4 He. apply H2.
    + intros [Ha Hb]. rewrite Ha in Hr. specialize (Hr eq_refl). lia.
    + split; [|done]. by eapply struct_core, focus_struct.
Qed.

Lemma twp_handle_data_more i j data lk g w :
  inv lk g w -> 0 <= i < ms -> 0 <= j < mc -> zlen data < 65536 ->
  twp (en50221_tl_handle_data_more env i j data) (post lk g) w.
Proof.
  intros HI Hi Hj Hd. open_conn i j c HF Hw.
  eapply twp_data_more; [done|done|done| | |].
  - intros _ w'. apply post_fail.
  - intros _ w' Ho. by right.
  - intros Es w' _ Hlt HF'. apply post_ok. eapply focus_close; [done|]. apply wf_chain; auto with bgt.
Qed.

(** The last fragment: the whole message is delivered, unless the fragment is empty. *)
Lemma twp_data_last cb i j data c lk g (Q : Z -> world (host U) -> Prop) w :
  focus lk g i j c w -> conn_wf c -> zlen data < 65536 ->
  (state c <> T_STATE_ACTIVE -> forall w', inv lk g w' -> Q (-1) w') ->
  (~ ((forall n, malloc_ok env n = true) /\ 0 < buffer_length c + zlen data < 2 ^ 31) ->
    forall w', oom ms mc lk g w' -> Q (-1) w') ->
  (state c = T_STATE_ACTIVE -> forall w', quiet w w' -> inv lk g w' ->
    zlen (chain_data c ++ data) < 2 ^ 31 ->
    conn_at (tlw w') i j = Some (set_chain PNull 0 (clear_tx_time c)) ->
    twp (deliver cb i j (chain_data c ++ data) (zlen data);; mret 0) Q w') ->
  twp (en50221_tl_handle_data_last env cb i j data) Q w.
Proof.
  intros HF Hw Hd H1 H2 H3. pose proof (zlen_nonneg data).
  unfold en50221_tl_handle_data_last. apply twp_bind. eapply twp_get_conn; [done|].
  apply twp_if; intros Es.
  { apply twp_fail. intros w' Hc _. apply H1; [lia|]. by eapply inv_core, focus_close. }
  assert (Ea : state c = T_STATE_ACTIVE) by lia.
  apply twp_bind. eapply twp_mod_conn; [exact HF|]. intros w1 HF1 [Hq1 _].
  pose proof (wf_clear_tx_time _ Hw) as Hw1.
  destruct (chain_buffer c) as [|l|] eqn:Ech; [|..|by destruct Hw as [_ Hc _]; rewrite Ech in Hc].
  - assert (Ed : chain_data c = []) by (unfold chain_data; by rewrite Ech). rewrite Ed in H3.
    apply H3; [done|done|by eapply focus_close|cbn [app]; lia|].
    destruct HF1 as (_ & _ & ->). do 2 f_equal. destruct Hw as [_ Hc _]. rewrite Ech in Hc.
    destruct c. cbn in *. by subst.
  - rewrite <- Ech. apply twp_bind, twp_malloc. intros w2 E2 E2'.
    pose proof (focus_st _ _ _ _ _ _ _ _ _ E2 HF1) as HF2.
    destruct (realloc_chain (malloc_ok env (w_tick w1)) c (zlen data) Hw) as (r & old & Er & Hr); [lia|].
    apply twp_bind. eapply twp_lift; [exact Er|]. cbn beta iota. destruct r as [buf|].
    + destruct Hr as (Ei & El & Hlt & Et). apply twp_bind.
      eapply twp_lift; [by apply copy_chain|].
      apply twp_bind. eapply twp_mod_conn; [exact HF2|]. intros w3 HF3 [Hq3 _].
      destruct (chain_data_len c Hw) as [Hcd ?].
      apply H3; [done| |eapply focus_close; [exact HF3|by apply wf_null_chain]|rewrite zlen_app; lia|
        by destruct HF3 as (_ & _ & ->)].
      etrans; [exact Hq1|]. etrans; [by apply quiet_st|exact Hq3].
    + apply twp_bind. eapply twp_mod_conn; [exact HF2|]. intros w3 HF3 _.
      apply twp_fail. intros w4 Hc4 He. apply H2.
      * intros [Ha Hb]. rewrite Ha in Hr. specialize (Hr eq_refl). lia.
      * split; [|done]. by eapply struct_core, focus_struct.
Qed.

Lemma lock_unlock (lk : list bool) i :
  entry lk i = Some true -> <[Z.to_nat i := true]> (<[Z.to_nat i := false]> lk) = lk.
Proof. intros E. rewrite list_insert_insert_eq. by apply insert_same. Qed.
Lemma entry_unlocked (lk : list bool) i :
  entry lk i = Some true -> entry (<[Z.to_nat i := false]> lk) i = Some false.
Proof. intros E. rewrite entry_insert by (by eapply entry_range). by rewrite decide_True. Qed.

Lemma inv_locks_len lk g w : inv lk g w -> zlen lk = ms.
Proof. intros [[[] _] _]. subst lk. unfold zlen in *. by rewrite length_fmap. Qed.

Lemma twp_deliver cb i j data n lk (Q : unit -> world (host U) -> Prop) w :
  inv lk false w -> entry lk i = Some true ->
  (callback (tlw w) = true -> n <> 0 -> forall w',
    inv (<[Z.to_nat i := false]> lk) false w' -> quiet w w' ->
    (forall i' j', conn_at (tlw w') i' j' = conn_at (tlw w) i' j') ->
    twp (cb data i j;; lock_slot i) Q w') ->
  (callback (tlw w) = false \/ n = 0 -> forall w', inv lk false w' -> quiet w w' ->
    (forall i' j', conn_at (tlw w') i' j' = conn_at (tlw w) i' j') -> Q tt w') ->
  twp (deliver cb i j data n) Q w.
Proof.
  intros HI Hl H1 H2. unfold deliver. apply twp_bind. eapply twp_read_callback; [done|].
  intros b w' HI' Et -> Hq. apply twp_if; intros Eb.
  - apply andb_true_iff in Eb as [Eb En]. apply twp_bind.
    eapply twp_unlock_slot; [done|pose proof (entry_range _ _ _ Hl); rewrite (inv_locks_len _ _ _ HI) in *; done|].
    intros w'' HI'' Hq' Hc. apply H1; [done|lia|done|by etrans|]. intros. rewrite Hc. by rewrite Et.
  - apply twp_ret. apply H2; [|done|done|].
    + apply andb_false_iff in Eb as [Eb|Eb]; [by left|right; lia].
    + intros. by rewrite Et.
Qed.

(** ** With a client that keeps the invariant *)

Context (ev : Z -> Z -> Z -> U -> U) (cb : list Z -> Z -> Z -> T (host U) unit).
Context `{Hev : !EventClient ev} `{Hcb : !DataClient ms mc cb}.

Lemma twp_deliver_safe i j data n lk (Q : unit -> world (host U) -> Prop) w :
  inv lk false w -> entry lk i = Some true -> 0 <= j < mc -> zlen data < 2 ^ 31 ->
  (forall w', inv lk false w' -> Q tt w') -> twp (deliver cb i j data n) Q w.
Proof.
  intros HI Hl Hj Hd HQ. eapply twp_deliver; [done|done| |auto].
  intros _ _ w' HI' _ _. apply twp_bind. eapply twp_mono.
  - apply Hcb; [done|by apply entry_unlocked|done|done].
  - intros [] w'' HI''. cbn beta in HI''. eapply twp_lock_slot; [done|by apply entry_unlocked|].
    intros w3 HI3 _ _. rewrite lock_unlock in HI3 by done. by apply HQ.
Qed.

Lemma twp_handle_data_last i j data lk w :
  inv lk false w -> entry lk i = Some true -> 0 <= j < mc -> zlen data < 65536 ->
  twp (en50221_tl_handle_data_last env cb i j data) (post lk false) w.
Proof.
  intros HI Hl Hj Hd. assert (0 <= i < ms) as Hi.
  { rewrite <- (inv_locks_len _ _ _ HI). by eapply entry_range. }
  open_conn i j c HF Hw. eapply twp_data_last; [done|done|done| | |].
  - intros _ w'. apply post_fail.
  - intros _ w' Ho. by right.
  - intros _ w' _ HI' Hz _. apply twp_bind. eapply twp_deliver_safe; [done|done|done|done|].
    intros. by apply twp_ret, post_ok.
Qed.

Lemma twp_process_tpdu i tag j data lk w :
  inv lk false w -> entry lk i = Some true -> 0 <= j < mc -> zlen data < 65536 ->
  twp (process_tpdu env ev cb i tag j data) (post lk false) w.
Proof.
  intros HI Hl Hj Hd. assert (0 <= i < ms) as Hi.
  { rewrite <- (inv_locks_len _ _ _ HI). by eapply entry_range. }
  unfold process_tpdu.
  repeat (apply twp_if; intros _); [by apply twp_handle_create_tc_reply|by apply twp_handle_delete_tc|
    by apply twp_handle_delete_tc_reply|by apply twp_handle_request_tc|by apply twp_handle_data_more|
    by apply twp_handle_data_last|by apply twp_handle_sb|by apply twp_fail_post].
Qed.

Lemma twp_process_loop fuel i data lk w :
  inv lk false w -> entry lk i = Some true -> bytes data -> zlen data < 65536 -> (length data <= fuel)%nat ->
  twp (process_loop env ev cb fuel i data) (post lk false) w.
Proof.
  intros HI Hl. revert data w HI. induction fuel as [|fuel IH]; intros data w HI Hb Hd Hf; cbn [process_loop].
  { assert (data = []) as -> by (destruct data; [done|simpl in Hf; lia]). by apply twp_ret, post_ok. }
  apply twp_if; intros E0; [by apply twp_ret, post_ok|]. pose proof (zlen_nonneg data).
  apply twp_bind. eapply twp_lift; [apply zget_in; lia|].
  apply twp_bind. destruct (asn_1_decode_cases data 1 (zlen data - 1)) as [Ea|(k & n & Ea & Hk & Hkl & Hn & _)];
    [lia|lia| |]; (eapply twp_lift; [exact Ea|]); cbn beta iota.
  { by apply twp_fail_post. }
  apply twp_if; intros E1; [lia|]. cbn [default]. apply twp_if; intros E2; [by apply twp_fail_post|].
  apply orb_false_iff in E2 as [E2 E3]. cbn [id] in *. rewrite u32_small in E3 by lia.
  apply twp_bind. eapply twp_lift; [apply zget_in; lia|].
  apply twp_bind, twp_get_tl. assert (Em : max_connections_per_slot (tlw w) = mc) by apply HI. rewrite Em.
  apply twp_if; intros E4; [by apply twp_fail_post|].
  pose proof (zat_range data (1 + k) Hb).
  assert (Hz : zlen (zdrop (1 + k + 1) data) = zlen data - (1 + k + 1)) by (apply zlen_zdrop; lia).
  assert (Eu : u16 (n - 1) = n - 1) by (apply u16_small; lia). rewrite Eu.
  apply twp_bind. eapply twp_mono.
  { apply twp_process_tpdu; [done|done|lia|]. rewrite zlen_ztake; lia. }
  intros r w' [[HI' [-> | ->]]|[-> Ho]].
  - apply IH; [done|by repeat apply Forall_zdrop|rewrite zlen_zdrop; lia|].
    assert (zlen (zdrop (n - 1) (zdrop (1 + k + 1) data)) < zlen data) by (rewrite zlen_zdrop; lia).
    unfold zlen in *. lia.
  - apply twp_ret. by left; auto.
  - apply twp_ret. by right.
Qed.

Lemma twp_process_data i data lk w :
  inv lk false w -> entry lk i = Some true -> bytes data -> zlen data < 65536 ->
  twp (en50221_tl_process_data env ev cb i data) (post lk false) w.
Proof. intros. by apply twp_process_loop. Qed.
End safe.
