(* ===== verification/En50221Api.v ===== *)
(** * En50221Api: the operations of the transport layer

    That they keep the invariant, what they queue, and how chained messages arrive. *)

From S2P Require Import Prelude Asn1 CaLink En50221Transport En50221Poll En50221Inv En50221Safe.

(** ** The TPDU that carries data *)

(** With [n] in its length field. *)
Definition tpdu_of (n tag connection_id : Z) (data : list Z) : list Z :=
  tag :: asn_field n ++ connection_id :: data.
(** The TPDU: its length field counts the connection id and the data. *)
Definition tpdu (tag connection_id : Z) (data : list Z) : list Z :=
  tpdu_of (zlen data + 1) tag connection_id data.
(** What is queued: the length is a [uint16_t]. *)
Definition tpdu_queued (tag connection_id : Z) (data : list Z) : list Z :=
  tpdu_of (u16 (zlen data + 1)) tag connection_id data.

Lemma tpdu_len tag j data : zlen (tpdu tag j data) = 2 + zlen (asn_field (zlen data + 1)) + zlen data.
Proof. unfold tpdu, tpdu_of. rewrite zlen_cons, zlen_app, zlen_cons. lia. Qed.
Lemma tpdu_queued_len tag j data :
  zlen (tpdu_queued tag j data) = 2 + zlen (asn_field (u16 (zlen data + 1))) + zlen data.
Proof. unfold tpdu_queued, tpdu_of. rewrite zlen_cons, zlen_app, zlen_cons. lia. Qed.
Lemma tpdu_queued_eq tag j data : zlen data < 65535 -> tpdu_queued tag j data = tpdu tag j data.
Proof. intros Hd. pose proof (zlen_nonneg data). unfold tpdu_queued, tpdu. by rewrite u16_small by lia. Qed.

Lemma total_size (vector : list (list Z)) n :
  0 <= n -> n + zlen (concat vector) < 2 ^ 32 ->
  foldl (fun n v => u32 (n + zlen v)) n vector = n + zlen (concat vector).
Proof.
  revert n. induction vector as [|v vs IH]; intros n Hn Ht; cbn [concat foldl] in *; [rewrite zlen_nil; lia|].
  rewrite zlen_app in *. pose proof (zlen_nonneg v). pose proof (zlen_nonneg (concat vs)).
  rewrite u32_small by lia. rewrite IH; lia.
Qed.

Lemma copy_vectors a l (vector : list (list Z)) :
  zlen l + zlen (concat vector) <= zlen a ->
  foldl (fun acc v => '(pos, data) ← acc; data ← copy_to data pos v; Some (pos + zlen v, data))
    (Some (zlen l, zsplice a 0 l)) vector =
  Some (zlen l + zlen (concat vector), zsplice a 0 (l ++ concat vector)).
Proof.
  revert l. induction vector as [|v vs IH]; intros l Hl; cbn [concat foldl] in *.
  { change (zlen (@nil Z)) with 0. by rewrite Z.add_0_r, app_nil_r. }
  rewrite zlen_app in Hl. pose proof (zlen_nonneg v). pose proof (zlen_nonneg (concat vs)).
  pose proof (zlen_nonneg l).
  cbn [mbind option_bind]. unfold copy_to at 2. rewrite zlen_zsplice by lia. rewrite decide_True by lia.
  cbn [mbind option_bind]. pose proof (zsplice_app a 0 l v) as Ea. rewrite Z.add_0_l in Ea. rewrite Ea by lia.
  assert (E : zlen l + zlen v = zlen (l ++ v)) by (by rewrite zlen_app). rewrite E, IH by (rewrite zlen_app; lia).
  rewrite zlen_app, <- app_assoc. do 2 f_equal. rewrite zlen_app. lia.
Qed.

(** Building the message of [send_message]. *)
Lemma build_message conn (vector : list (list Z)) :
  zlen (concat vector) < 2 ^ 32 - 10 -> byte conn ->
  let size := foldl (fun n v => u32 (n + zlen v)) 0 vector in
  let field := asn_field (u16 (size + 1)) in
  exists d0 d1 d2 d3 pos pad,
    put8 (replicate (Z.to_nat (size + 10)) 0) 0 T_DATA_LAST = Some d0 /\
    asn_1_encode (u16 (size + 1)) d0 1 3 = Some (zlen field, d1) /\
    put8 d1 (1 + zlen field) conn = Some d2 /\
    foldl (fun acc v => '(pos, data) ← acc; data ← copy_to data pos v; Some (pos + zlen v, data))
      (Some (1 + zlen field + 1, d2)) vector = Some (pos, d3) /\
    d3 = tpdu_queued T_DATA_LAST conn (concat vector) ++ pad /\
    u32 (1 + zlen field + 1 + size) = zlen (tpdu_queued T_DATA_LAST conn (concat vector)).
Proof.
  intros Ht Hc size field. pose proof (zlen_nonneg (concat vector)).
  assert (Es : size = zlen (concat vector)) by (subst size; rewrite total_size; lia).
  set (a := replicate (Z.to_nat (size + 10)) 0).
  assert (Ea : zlen a = size + 10) by (unfold a, zlen; rewrite length_replicate; lia).
  pose proof (u16_range (size + 1)). pose proof (asn_field_len (u16 (size + 1))) as Hf. fold field in Hf.
  eexists _, _, _, _, _, (zdrop (zlen (tpdu_queued T_DATA_LAST conn (concat vector))) a).
  split; [apply put8_splice; [lia|done]|].
  split. { rewrite asn_1_encode_eq by (rewrite ?zlen_zsplice; change (zlen [T_DATA_LAST]) with 1; lia). rewrite decide_True by (fold field; lia). done. }
  fold field. pose proof (zsplice_app a 0 [T_DATA_LAST] field) as E1. change (0 + zlen [T_DATA_LAST]) with 1 in E1.
  rewrite E1 by (change (zlen [T_DATA_LAST]) with 1; lia).
  split. { apply put8_splice; [|done]. rewrite zlen_zsplice; rewrite ?zlen_app; change (zlen [T_DATA_LAST]) with 1; lia. }
  pose proof (zsplice_app a 0 ([T_DATA_LAST] ++ field) [conn]) as E2. rewrite Z.add_0_l, zlen_app in E2.
  change (zlen [T_DATA_LAST]) with 1 in E2. change (zlen [conn]) with 1 in E2. rewrite E2 by lia.
  pose proof (copy_vectors a (([T_DATA_LAST] ++ field) ++ [conn]) vector) as E3. rewrite !zlen_app in E3.
  change (zlen [T_DATA_LAST]) with 1 in E3. change (zlen [conn]) with 1 in E3.
  assert (Hl : zlen (tpdu_queued T_DATA_LAST conn (concat vector)) = 1 + zlen field + 1 + size).
  { rewrite tpdu_queued_len, <- Es. fold field. lia. }
  split; [apply E3; lia|]. split.
  - rewrite zsplice_0.
    + assert (E : ((([T_DATA_LAST] ++ field) ++ [conn]) ++ concat vector) = tpdu_queued T_DATA_LAST conn (concat vector)).
      { unfold tpdu_queued, tpdu_of. rewrite <- Es. fold field. by rewrite <- !app_assoc. }
      by rewrite E.
    + rewrite !zlen_app. change (zlen [T_DATA_LAST]) with 1. change (zlen [conn]) with 1. lia.
  - rewrite Hl, u32_small; [done|]. lia.
Qed.

(** The bytes of a message that are written. *)
Definition m_bytes (m : en50221_message) : list Z := ztake (m_length m) (m_data m).

Section api.
Context (env : environment) {U : Type} `{!UpperInv U} (ms mc : Z).
Context (Hms : 0 <= ms < 256) (Hmc : 0 <= mc < 256).
Implicit Types (w : world (host U)) (lk : list bool) (g : bool).

Abbreviation tlw w := (tl (w_st w)).
Abbreviation inv := (inv ms mc).
Abbreviation focus := (focus ms mc).
Abbreviation struct := (struct ms mc).
Abbreviation post := (post ms mc).
Abbreviation held lk i := (<[Z.to_nat i := true]> lk).
Abbreviation released lk i := (<[Z.to_nat i := false]> lk).

Lemma twp_guarded {A} (c : T (host U) (option A)) (k : T (host U) A) Q w :
  twp c (fun r w' => match r with Some a => Q a w' | None => twp k Q w' end) w -> twp (guarded c k) Q w.
Proof.
  intros H. unfold guarded. apply twp_bind. eapply twp_mono; [exact H|]. by intros [a|] w' HQ; [apply twp_ret|].
Qed.

Lemma released_held lk i : entry lk i = Some false -> released (held lk i) i = lk.
Proof. intros E. rewrite list_insert_insert_eq. by apply insert_same. Qed.
Lemma inv_entry lk g i w : inv lk g w -> 0 <= i < ms -> exists b, entry lk i = Some b.
Proof. intros HI Hi. apply entry_Some. by rewrite (inv_locks_len _ _ _ _ _ HI). Qed.

(** The same connections. *)
Definition same_conns w w' : Prop := forall i j, conn_at (tlw w') i j = conn_at (tlw w) i j.

(** Refusals: nothing changes but the error. *)
Definition refused lk g e w w' : Prop :=
  inv lk g w' /\ quiet w w' /\ same_conns w w' /\ error (tlw w') = e.

Lemma twp_unlock_refused {A} (r : A) i e lk g (Q : A -> world (host U) -> Prop) w w0 :
  refused (held lk i) g e w0 w -> entry lk i = Some false ->
  (forall w', refused lk g e w0 w' -> Q r w') ->
  twp (unlock_slot i;; mret r) Q w.
Proof.
  intros (HI & Hq & Hc & He) Hl HQ. apply twp_bind.
  assert (Hi : 0 <= i < ms).
  { rewrite <- (inv_locks_len _ _ _ _ _ HI), zlen_insert. by eapply entry_range. }
  destruct (entry_Some (slots (tlw w)) i) as [s Es].
  { destruct (inv_struct _ _ _ _ _ HI). lia. }
  eapply twp_upd_slot; [done|done|]. intros w' Ew Hq'. apply twp_ret, HQ.
  pose proof (inv_slot _ _ _ _ _ _ _ _ _ HI Es Ew Hq' eq_refl) as HI'. rewrite released_held in HI' by done.
  split; [done|]. split; [by etrans|]. split.
  - intros i' j. rewrite Ew, (conn_at_same_conns _ _ s) by done. apply Hc.
  - by rewrite Ew.
Qed.

Lemma twp_refuse {A} (r : A) i e lk g (Q : A -> world (host U) -> Prop) w :
  inv (held lk i) g w -> entry lk i = Some false ->
  (forall w', refused lk g e w w' -> Q r w') ->
  twp (set_error e;; unlock_slot i;; mret r) Q w.
Proof.
  intros HI Hl HQ. apply twp_bind, twp_mod_tl.
  eapply twp_unlock_refused; [|done|exact HQ].
  split; [by eapply inv_core; [|exact HI]|]. done.
Qed.
Lemma twp_refuse_slot {A} (r : A) i e lk g (Q : A -> world (host U) -> Prop) w :
  inv (held lk i) g w -> entry lk i = Some false ->
  (forall w', refused lk g e w w' -> Q r w') ->
  twp (set_error_slot i;; set_error e;; unlock_slot i;; mret r) Q w.
Proof.
  intros HI Hl HQ. apply twp_bind, twp_mod_tl, twp_bind, twp_mod_tl.
  eapply twp_unlock_refused; [|done|exact HQ].
  split; [by eapply inv_core; [|exact HI]|]. done.
Qed.

Lemma refused_trans lk g e w w1 w' :
  quiet w w1 -> same_conns w w1 -> refused lk g e w1 w' -> refused lk g e w w'.
Proof.
  intros Hq Hc (HI & Hq' & Hc' & He). split; [done|]. split; [by etrans|]. split; [|done].
  intros i j. by rewrite Hc', Hc.
Qed.

(** The registered slots are those with a device. *)
Definition hndl_at w i : Z := match entry (slots (tlw w)) i with Some s => ca_hndl s | None => -1 end.

Lemma twp_check_slot i lk g (Q : option Z -> world (host U) -> Prop) w :
  inv lk g w -> 0 <= i -> (i < ms -> entry lk i = Some false) ->
  (ms <= i \/ hndl_at w i = -1 -> forall w', refused lk g EN50221ERR_BADSLOTID w w' -> Q (Some (-1)) w') ->
  (i < ms -> hndl_at w i <> -1 -> forall w', inv (held lk i) g w' -> quiet w w' -> same_conns w w' -> Q None w') ->
  twp (check_slot i) Q w.
Proof.
  intros HI Hi Hl H1 H2. unfold check_slot. apply twp_bind, twp_get_tl.
  assert (Em : max_slots (tlw w) = ms) by apply HI. rewrite Em. apply twp_if; intros E.
  { apply twp_bind, twp_mod_tl, twp_ret. apply H1; [lia|].
    split; [by eapply inv_core; [|exact HI]|done]. }
  assert (Hr : 0 <= i < ms) by lia. specialize (Hl ltac:(lia)). apply twp_bind.
  destruct (entry_Some (slots (tlw w)) i) as [s Es].
  { destruct (inv_struct _ _ _ _ _ HI). lia. }
  pose proof (struct_slot_lock _ _ _ _ _ _ _ (inv_struct _ _ _ _ _ HI) Es) as El.
  rewrite Hl in El. injection El as El.
  eapply twp_upd_slot; [done|by rewrite <- El|]. intros w1 Ew Hq.
  pose proof (inv_slot _ _ _ _ _ _ _ _ _ HI Es Ew Hq eq_refl) as HI1. cbn in HI1.
  assert (Hc : same_conns w w1).
  { intros i' j. rewrite Ew. by apply conn_at_same_conns with (s := s). }
  assert (Eh : hndl_at w i = ca_hndl s) by (unfold hndl_at; by rewrite Es). rewrite Eh in *.
  apply twp_bind. eapply twp_get_slot; [by apply inv_struct|done|]. intros s1 Es1.
  rewrite Ew in Es1. cbn in Es1. rewrite entry_insert in Es1 by (by eapply entry_range).
  rewrite decide_True in Es1 by done. injection Es1 as <-.
  apply twp_if; cbn [ca_hndl with_slot_lock]; intros Eq.
  - eapply twp_refuse; [done|done|]. intros w' Hw'. apply H1; [lia|]. by eapply refused_trans.
  - apply twp_ret, H2; [lia|lia|done|done|done].
Qed.

Lemma twp_check_connection i j lk g (Q : option Z -> world (host U) -> Prop) w :
  inv (held lk i) g w -> entry lk i = Some false ->
  (mc <= j -> forall w', refused lk g EN50221ERR_BADCONNECTIONID w w' -> Q (Some (-1)) w') ->
  (j < mc -> Q None w) ->
  twp (check_connection i j) Q w.
Proof.
  intros HI Hl H1 H2. unfold check_connection. apply twp_bind, twp_get_tl.
  assert (Em : max_connections_per_slot (tlw w) = mc) by apply HI. rewrite Em. apply twp_if; intros E.
  - eapply twp_refuse_slot; [done|done|]. apply H1. lia.
  - apply twp_ret, H2. lia.
Qed.

Lemma twp_check_active i j c lk g (Q : option Z -> world (host U) -> Prop) w :
  focus (held lk i) g i j c w -> conn_wf c -> entry lk i = Some false ->
  (state c <> T_STATE_ACTIVE -> forall w', refused lk g EN50221ERR_BADCONNECTIONID w w' -> Q (Some (-1)) w') ->
  (state c = T_STATE_ACTIVE -> Q None w) ->
  twp (check_active i j) Q w.
Proof.
  intros HF Hw Hl H1 H2. unfold check_active. apply twp_bind. eapply twp_get_conn; [done|].
  apply twp_if; intros E.
  - eapply twp_refuse; [by eapply focus_close|done|]. apply H1. lia.
  - apply twp_ret, H2. lia.
Qed.

Lemma wf_queue_data c m :
  conn_wf c -> state c = T_STATE_ACTIVE -> msg_wf m -> is_delete m = false -> conn_wf (set_queue (send_queue c ++ [m]) c).
Proof.
  intros [Hs Hc Hq] Ea Hmw Hd. constructor; [done|done|]. cbn. apply queue_ok_snoc; [done| |done|done].
  by rewrite Ea.
Qed.

(** A message is queued, and nothing else is changed. *)
Definition queued lk g i j (m : en50221_message) w w' : Prop :=
  inv lk g w' /\ quiet w w' /\
  (exists c, conn_at (tlw w) i j = Some c /\ conn_at (tlw w') i j = Some (set_queue (send_queue c ++ [m]) c)) /\
  (forall i' j', ~ only_at i j i' j' -> conn_at (tlw w') i' j' = conn_at (tlw w) i' j').

Lemma twp_send_message i j c (vector : list (list Z)) lk g (Q : Z -> world (host U) -> Prop) w :
  focus (held lk i) g i j c w -> conn_wf c -> state c = T_STATE_ACTIVE -> entry lk i = Some false ->
  zlen (concat vector) < 2 ^ 32 - 10 ->
  (~ (forall n, malloc_ok env n = true) -> forall w', refused lk g EN50221ERR_OUTOFMEMORY w w' -> Q (-1) w') ->
  (forall m w', queued lk g i j m w w' -> m_bytes m = tpdu_queued T_DATA_LAST j (concat vector) -> Q 0 w') ->
  twp (send_message env i j vector) Q w.
Proof.
  intros HF Hw Ha Hl Ht H1 H2. destruct (focus_range _ _ _ _ _ _ _ _ HF) as [Hi Hj].
  unfold send_message. apply twp_bind, twp_malloc. intros w1 E1 E1'.
  pose proof (focus_st _ _ _ _ _ _ _ _ _ E1 HF) as HF1.
  assert (Hq1 : quiet w w1) by by apply quiet_st.
  assert (Hc1 : same_conns w w1) by (intros i' j'; by rewrite E1).
  apply twp_if; intros Em.
  { eapply twp_refuse_slot; [by eapply focus_close|done|]. intros w' Hr.
    apply H1; [|by eapply refused_trans]. intros Hall. by rewrite Hall in Em. }
  destruct (build_message j vector Ht) as (d0 & d1 & d2 & d3 & pos & pad & B0 & B1 & B2 & B3 & B4 & B5).
  { unfold byte. lia. }
  apply twp_bind. eapply twp_lift; [exact B0|]. apply twp_bind. eapply twp_lift; [exact B1|]. cbn beta iota.
  pose proof (asn_field_len (u16 (foldl (fun n v => u32 (n + zlen v)) 0 vector + 1))).
  apply twp_if; intros El; [lia|].
  apply twp_bind. eapply twp_lift; [exact B2|]. apply twp_bind. eapply twp_lift; [exact B3|]. cbn beta iota.
  rewrite B5. set (m := Msg _ d3).
  assert (Hmb : m_bytes m = tpdu_queued T_DATA_LAST j (concat vector)).
  { unfold m_bytes, m. cbn. rewrite B4. by apply ztake_app. }
  pose proof (zlen_nonneg (tpdu_queued T_DATA_LAST j (concat vector))). pose proof (zlen_nonneg pad).
  assert (Hmw : msg_wf m). { unfold msg_wf, m. cbn. rewrite B4, zlen_app. lia. }
  assert (Hmd : is_delete m = false).
  { unfold is_delete, m. cbn [m_data m_length]. rewrite B4. apply andb_false_iff. right. done. }
  clearbody m. unfold queue_message.
  apply twp_bind. eapply twp_mod_conn; [exact HF1|]. intros w2 HF2 [Hq2 Ho2].
  pose proof (focus_close _ _ _ _ _ _ _ _ HF2 (wf_queue_data _ _ Hw Ha Hmw Hmd)) as HI2.
  apply twp_bind. eapply twp_unlock_slot; [done|lia|]. intros w3 HI3 Hq3 Hc3.
  apply twp_ret. apply (H2 m); [|done]. rewrite released_held in HI3 by done.
  destruct HF as (_ & _ & Ec). destruct HF2 as (_ & _ & Ec2).
  split; [done|]. split; [by etrans; [|etrans]|]. split.
  - exists c. split; [done|]. by rewrite Hc3.
  - intros i' j' Hn. rewrite Hc3, Ho2 by done. apply Hc1.
Qed.

Lemma queued_trans lk g i j m w w1 w' :
  quiet w w1 -> same_conns w w1 -> queued lk g i j m w1 w' -> queued lk g i j m w w'.
Proof.
  intros Hq Hc (HI & Hq' & (c & E1 & E2) & Ho). split; [done|]. split; [by etrans|]. split.
  - exists c. split; [|done]. by rewrite <- Hc.
  - intros. by rewrite Ho, Hc.
Qed.

(** The value a refusal returns and the errors it sets, and what is queued otherwise. *)
Lemma twp_send_datav i j (vector : list (list Z)) lk g (Q : Z -> world (host U) -> Prop) w :
  inv lk g w -> 0 <= i -> 0 <= j -> (i < ms -> entry lk i = Some false) ->
  zlen (concat vector) < 2 ^ 32 - 10 ->
  (ms <= i \/ hndl_at w i = -1 -> forall w', refused lk g EN50221ERR_BADSLOTID w w' -> Q (-1) w') ->
  (i < ms -> hndl_at w i <> -1 ->
    (forall c, conn_at (tlw w) i j = Some c -> state c <> T_STATE_ACTIVE) ->
    forall w', refused lk g EN50221ERR_BADCONNECTIONID w w' -> Q (-1) w') ->
  (forall c, i < ms -> hndl_at w i <> -1 -> conn_at (tlw w) i j = Some c -> state c = T_STATE_ACTIVE ->
    ~ (forall n, malloc_ok env n = true) -> forall w', refused lk g EN50221ERR_OUTOFMEMORY w w' -> Q (-1) w') ->
  (forall c m w', i < ms -> hndl_at w i <> -1 -> conn_at (tlw w) i j = Some c -> state c = T_STATE_ACTIVE ->
    queued lk g i j m w w' -> m_bytes m = tpdu_queued T_DATA_LAST j (concat vector) -> Q 0 w') ->
  twp (en50221_tl_send_datav env i j vector) Q w.
Proof.
  intros HI Hi Hj Hl Ht H1 H2 H3 H4. unfold en50221_tl_send_datav.
  apply twp_guarded. eapply twp_check_slot; [done|done|done|exact H1|].
  intros Hr Hh w1 HI1 Hq1 Hc1. specialize (Hl Hr). specialize (H2 Hr Hh).
  apply twp_guarded. eapply twp_check_connection; [done|done| |].
  { intros Hm w' Hw'. apply H2; [|by eapply refused_trans]. intros c Hc.
    destruct (conn_at_range _ _ _ _ _ _ _ _ (inv_struct _ _ _ _ _ HI) Hc). lia. }
  intros Hm. destruct (inv_open _ _ _ _ i j _ HI1) as (c & HF & Hw); [lia|lia|].
  assert (Ec : conn_at (tlw w) i j = Some c) by (destruct HF as (_ & _ & <-); by rewrite Hc1).
  apply twp_guarded. eapply twp_check_active; [done|done|done| |].
  { intros Hs w' Hw'. apply H2; [|by eapply refused_trans]. intros c' Hc'. congruence. }
  intros Ha. eapply twp_send_message; [done|done|done|done|done| |].
  - intros Hn w' Hw'. eapply H3; [done|done|done|done|done|]. by eapply refused_trans.
  - intros m w' Hqd Hb. eapply H4; [done|done|done|done| |done]. by eapply queued_trans.
Qed.

Lemma send_data_datav i j data :
  en50221_tl_send_data env i j data = en50221_tl_send_datav (U := U) env i j [data].
Proof. done. Qed.

(** ** The other operations keep the invariant *)

Definition done_inv lk g (r : Z) w : Prop := inv lk g w /\ -1 <= r.

Lemma done_refused lk g e w w' : refused lk g e w w' -> done_inv lk g (-1) w'.
Proof. intros [HI _]. by split. Qed.
#[local] Hint Resolve done_refused : bgt.

Lemma twp_send_datav_inv i j (vector : list (list Z)) lk g w :
  inv lk g w -> 0 <= i -> 0 <= j -> (i < ms -> entry lk i = Some false) ->
  zlen (concat vector) < 2 ^ 32 - 10 ->
  twp (en50221_tl_send_datav env i j vector) (done_inv lk g) w.
Proof.
  intros. eapply twp_send_datav; eauto with bgt. intros c m w' _ _ _ _ [HI _] _. by split.
Qed.

Lemma msg_wf_3 a b c : msg_wf (Msg 3 [a; b; c]).
Proof. by split. Qed.

Lemma twp_new_tc i lk g w :
  inv lk g w -> 0 <= i -> (i < ms -> entry lk i = Some false) ->
  twp (en50221_tl_new_tc env i) (done_inv lk g) w.
Proof.
  intros HI Hi Hl. unfold en50221_tl_new_tc. apply twp_guarded. eapply twp_check_slot; [done|done|done|eauto with bgt|].
  intros Hr _ w1 HI1 _ _. specialize (Hl Hr). apply twp_bind.
  eapply (twp_alloc_new_tc ms mc Hms Hmc); [done|lia| |].
  - intros _. apply twp_if; [intros _|done]. eapply twp_refuse_slot; [done|done|]. eauto with bgt.
  - intros k c w2 Hk Ec Es HF _. pose proof (inv_focus _ _ _ _ _ _ _ _ HI1 Ec) as [_ Hw].
    pose proof (wf_new_connection _ Hw Es) as Hw2. apply twp_if; [lia|intros _].
    apply twp_bind, twp_malloc. intros w3 E3 _. pose proof (focus_st _ _ _ _ _ _ _ _ _ E3 HF) as HF3.
    apply twp_if; intros _.
    { eapply twp_refuse_slot; [by eapply focus_close|done|]. eauto with bgt. }
    apply twp_bind. unfold queue_message. eapply twp_mod_conn; [exact HF3|]. intros w4 HF4 _.
    apply twp_bind. eapply twp_unlock_slot; [eapply focus_close; [exact HF4|]|lia|].
    + destruct Hw2 as [Hs Hc Hq]. constructor; [done|done|]. apply queue_ok_snoc; [done|done|apply msg_wf_3|done].
    + intros w5 HI5 _ _. rewrite released_held in HI5 by done. apply twp_ret. split; [done|lia].
Qed.

Lemma wf_delete_queued c j :
  conn_wf c -> state c = T_STATE_ACTIVE \/ state c = T_STATE_IN_DELETION ->
  conn_wf (set_state T_STATE_ACTIVE_DELETEQUEUED (set_queue (send_queue c ++ [Msg 3 [T_DELETE_T_C; 1; j]]) c)).
Proof.
  intros [Hs Hc Hq] Ha. constructor; cbn; [by apply (bool_decide_unpack _)| |].
  - unfold chain_ok in *. destruct (chain_buffer c); [done| |done]. destruct Hc as (? & ? & _). auto.
  - split; [apply Forall_app; split; [apply Hq|]; apply Forall_cons_2; [apply msg_wf_3|done]|].
    right. split; [done|]. eexists _, _. split; [done|]. split; [done|].
    eapply queue_ok_no_delete; [done|]. by destruct Ha as [-> | ->].
Qed.

Lemma twp_del_tc i j lk g w :
  inv lk g w -> 0 <= i -> 0 <= j -> (i < ms -> entry lk i = Some false) ->
  twp (en50221_tl_del_tc env i j) (done_inv lk g) w.
Proof.
  intros HI Hi Hj Hl. unfold en50221_tl_del_tc. apply twp_guarded. eapply twp_check_slot; [done|done|done|eauto with bgt|].
  intros Hr _ w1 HI1 _ _. specialize (Hl Hr).
  apply twp_guarded. eapply twp_check_connection; [done|done|eauto with bgt|]. intros Hm.
  destruct (inv_open _ _ _ _ i j _ HI1) as (c & HF & Hw); [lia|lia|].
  apply twp_bind. eapply twp_get_conn; [done|]. apply twp_if; intros Es.
  { eapply twp_refuse_slot; [by eapply focus_close|done|]. eauto with bgt. }
  apply twp_bind, twp_malloc. intros w2 E2 _. pose proof (focus_st _ _ _ _ _ _ _ _ _ E2 HF) as HF2.
  apply twp_if; intros _.
  { eapply twp_refuse_slot; [by eapply focus_close|done|]. eauto with bgt. }
  apply twp_bind. unfold queue_message. eapply twp_mod_conn; [exact HF2|]. intros w3 HF3 _.
  apply twp_bind. eapply twp_mod_conn; [exact HF3|]. intros w4 HF4 _.
  apply twp_bind. eapply twp_unlock_slot; [eapply focus_close; [exact HF4|]|lia|].
  - apply wf_delete_queued; [done|].
    apply (f_equal negb) in Es.
    rewrite state_mask in Es by apply Hw. cbn -[Z.eqb] in Es. rewrite !andb_false_r, !andb_true_r in Es.
    cbn -[Z.eqb] in Es. rewrite !orb_false_r in Es. apply orb_true_iff in Es as [?|?]; lia.
  - intros w5 HI5 _ _. rewrite released_held in HI5 by done. apply twp_ret. by split.
Qed.

Lemma twp_get_connection_state i j lk g w :
  inv lk g w -> 0 <= i -> 0 <= j -> (i < ms -> entry lk i = Some false) ->
  twp (en50221_tl_get_connection_state i j) (done_inv lk g) w.
Proof.
  intros HI Hi Hj Hl. unfold en50221_tl_get_connection_state.
  apply twp_guarded. eapply twp_check_slot; [done|done|done|eauto with bgt|].
  intros Hr _ w1 HI1 _ _. specialize (Hl Hr).
  apply twp_guarded. eapply twp_check_connection; [done|done|eauto with bgt|]. intros Hm.
  destruct (inv_open _ _ _ _ i j _ HI1) as (c & HF & Hw); [lia|lia|].
  apply twp_bind. eapply twp_get_conn; [done|].
  apply twp_bind. eapply twp_unlock_slot; [done|lia|]. intros w2 HI2 _ _.
  rewrite released_held in HI2 by done. apply twp_ret. split; [done|].
  destruct Hw as [Hs _ _]. unfold state_ok in Hs.
  repeat (apply elem_of_cons in Hs as [->|Hs]); [..|by apply not_elem_of_nil in Hs]; done.
Qed.
End api.
