(* ===== verification/En50221Ops.v ===== *)
(** * En50221Ops: runs of the transport layer

    Polling, creating, registering and destroying keep the invariant; so does every
    sequence of operations. *)

From S2P Require Import Prelude Asn1 CaLink En50221Transport En50221Poll En50221Inv En50221Safe En50221Api.

Section poll.
Context (env : environment) {U : Type} `{!UpperInv U} (ms mc : Z).
Context (Hms : 0 <= ms < 256) (Hmc : 0 <= mc < 256).
Context (ev : Z -> Z -> Z -> U -> U) (cb : list Z -> Z -> Z -> T (host U) unit).
Context `{Hev : !EventClient ev} `{Hcb : !DataClient ms mc cb}.
Implicit Types (w : world (host U)) (lk : list bool) (g : bool).

Abbreviation tlw w := (tl (w_st w)).
Abbreviation inv := (inv ms mc).
Abbreviation focus := (focus ms mc).
Abbreviation struct := (struct ms mc).
Abbreviation post := (post ms mc).
Abbreviation oom := (oom ms mc).
Abbreviation held lk i := (<[Z.to_nat i := true]> lk).

(** A function that returns early has released its lock. *)
Definition rpost lk i (r : option Z) w : Prop :=
  match r with
  | None => inv (held lk i) false w
  | Some x => x = -1 /\ (inv lk false w \/ oom lk false w)
  end.

Lemma twp_unlock_oom {A} i lk g (k : T (host U) A) (Q : A -> world (host U) -> Prop) w :
  oom (held lk i) g w -> entry lk i = Some false ->
  (forall w', oom lk g w' -> twp k Q w') -> twp (unlock_slot i;; k) Q w.
Proof.
  intros [HI He] Hl HQ. apply twp_bind.
  assert (Hi : 0 <= i < zlen (slots (tlw w))).
  { pose proof (entry_range _ _ _ Hl) as Hr. rewrite <- (zlen_insert lk (Z.to_nat i) true) in Hr.
    destruct HI as [_ _ _ _ _ El _ _]. rewrite <- El in Hr. unfold zlen in *. by rewrite length_fmap in Hr. }
  destruct (entry_Some _ _ Hi) as [s Es]. eapply twp_upd_slot; [done|done|]. intros w' Ew _.
  apply HQ. pose proof (struct_slot _ _ _ _ _ _ _ _ _ HI Es Ew eq_refl) as HI'. cbn in HI'.
  rewrite released_held in HI' by done. split; [done|]. by rewrite Ew.
Qed.
Lemma twp_unlock_post i x lk w :
  post (held lk i) false x w -> x <> 0 -> entry lk i = Some false ->
  twp (unlock_slot i;; mret (Some (-1))) (rpost lk i) w.
Proof.
  intros [[HI _]|[_ Ho]] Hx Hl.
  - assert (0 <= i < ms) by (pose proof (entry_range _ _ _ Hl); rewrite <- (inv_locks_len _ _ _ _ _ HI), zlen_insert; lia).
    apply twp_bind. eapply twp_unlock_slot; [done|done|]. intros w' HI' _ _.
    rewrite released_held in HI' by done. apply twp_ret. split; [done|]. by left.
  - eapply twp_unlock_oom; [done|done|]. intros w' Ho'. apply twp_ret. split; [done|]. by right.
Qed.

Lemma twp_refuse_poll i e lk w :
  inv (held lk i) false w -> entry lk i = Some false ->
  twp (set_error e;; unlock_slot i;; mret (Some (-1))) (rpost lk i) w.
Proof. intros HI Hl. eapply (twp_refuse ms mc Hms Hmc); [done|done|]. intros w' [HI' _]. split; [done|]. by left. Qed.
Lemma twp_refuse_poll_slot i e lk w :
  inv (held lk i) false w -> entry lk i = Some false ->
  twp (set_error_slot i;; set_error e;; unlock_slot i;; mret (Some (-1))) (rpost lk i) w.
Proof. intros HI Hl. eapply (twp_refuse_slot ms mc Hms Hmc); [done|done|]. intros w' [HI' _]. split; [done|]. by left. Qed.

Lemma twp_then {A} (a b : T (host U) (option A)) (Q : option A -> world (host U) -> Prop) w :
  twp a (fun r w' => match r with Some x => Q (Some x) w' | None => twp b Q w' end) w -> twp (then_ a b) Q w.
Proof.
  intros H. unfold then_. apply twp_bind. eapply twp_mono; [exact H|]. intros [x|] w' HQ; [by apply twp_ret|done].
Qed.

(** The head of the queue goes; a delete request was the last. *)
Lemma queue_ok_pop st m q : queue_ok st (m :: q) -> queue_ok st q.
Proof.
  intros [Hm Hq]. apply Forall_cons_1 in Hm as [_ Hm]. split; [done|].
  destruct Hq as [Hq|(Est & q' & m' & E & Hd & Hf)]; [left; by apply Forall_cons_1 in Hq as [_ ?]|].
  destruct q' as [|m0 q']; injection E as -> ->; [left; constructor|].
  right. split; [done|]. exists q', m'. split; [done|]. split; [done|]. by apply Forall_cons_1 in Hf as [_ ?].
Qed.
Lemma queue_ok_delete st m q :
  queue_ok st (m :: q) -> is_delete m = true -> st = T_STATE_ACTIVE_DELETEQUEUED /\ q = [].
Proof.
  intros [_ [Hq|(Est & q' & m' & E & _ & Hf)]] Hd; [apply Forall_cons_1 in Hq as [? _]; congruence|].
  split; [done|]. destruct q' as [|m0 q']; injection E as -> ->; [done|].
  apply Forall_cons_1 in Hf as [? _]. congruence.
Qed.

Lemma wf_pop c m q : conn_wf c -> send_queue c = m :: q -> conn_wf (set_queue q c).
Proof. intros [Hs Hc Hq] Eq. rewrite Eq in Hq. constructor; [done|done|]. by eapply queue_ok_pop. Qed.
(** The delete request was sent. *)
Lemma wf_deleting v c m q :
  conn_wf c -> send_queue c = m :: q -> is_delete m = true ->
  conn_wf (set_chain PNull 0 (set_state T_STATE_IN_DELETION (set_tx_time v (set_queue q c)))).
Proof.
  intros [Hs Hc Hq] Eq Hd. rewrite Eq in Hq. destruct (queue_ok_delete _ _ _ Hq Hd) as [_ ->].
  constructor; cbn; [by apply (bool_decide_unpack _)|done|]. split; [constructor|]. left. constructor.
Qed.

Lemma twp_poll_send i j lk w :
  inv (held lk i) false w -> entry lk i = Some false -> 0 <= i < ms -> 0 <= j < mc ->
  twp (poll_send env i j) (rpost lk i) w.
Proof.
  intros HI Hl Hi Hj. destruct (inv_open _ _ _ _ i j _ HI) as (c & HF & Hw); [done|done|].
  unfold poll_send. apply twp_bind. eapply twp_get_conn; [done|].
  apply twp_if; intros _; [by apply twp_ret|].
  destruct (send_queue c) as [|m q] eqn:Eq; [by apply twp_ret|].
  apply twp_if; intros _; [|by apply twp_ret].
  assert (Hm : msg_wf m) by (destruct Hw as [_ _ [Hm _]]; rewrite Eq in Hm; by apply Forall_cons_1 in Hm as [? _]).
  apply twp_bind. eapply twp_mod_conn; [exact HF|]. intros w1 HF1 _.
  apply twp_bind. eapply twp_slot_write; [by eapply focus_struct|done| |].
  { destruct Hm. unfold u16. etrans; [by apply Z.mod_le|done]. }
  intros r w2 E2. pose proof (focus_st _ _ _ _ _ _ _ _ _ E2 HF1) as HF2.
  pose proof (wf_pop _ _ _ Hw Eq) as Hw2.
  apply twp_if; intros _.
  { apply twp_bind. eapply twp_unlock_slot; [by eapply focus_close|done|]. intros w3 HI3 _ _.
    rewrite released_held in HI3 by done. apply twp_bind, twp_fail. intros w4 Hc4 _. apply twp_ret.
    split; [done|]. left. by eapply inv_core. }
  apply twp_bind. eapply twp_stamp_tx; [done|]. intros v w3 HF3. apply twp_bind.
  assert (Hfirst : forall Q : Z -> world (host U) -> Prop,
    Q (if m_length m =? 0 then 0 else default 0 (zget (m_data m) 0)) w3 ->
    twp (if m_length m =? 0 then mret 0 else lift (zget (m_data m) 0)) Q w3).
  { intros Q HQ. destruct (m_length m =? 0) eqn:E0; [done|].
    destruct Hm. pose proof (zget_in (m_data m) 0 ltac:(lia)) as Eg. rewrite Eg in *. done. }
  apply Hfirst. assert (Ed : is_delete m = negb (m_length m =? 0) &&
    ((if m_length m =? 0 then 0 else default 0 (zget (m_data m) 0)) =? T_DELETE_T_C)).
  { unfold is_delete. by destruct (m_length m =? 0). }
  rewrite <- Ed. apply twp_if; intros Em.
  - apply twp_bind. eapply twp_mod_conn; [exact HF3|]. intros w4 HF4 _.
    apply twp_bind. eapply twp_drop_chain; [exact HF4|by apply wf_not_freed in Hw|]. intros w5 HF5.
    apply twp_ret. eapply focus_close; [exact HF5|]. by eapply wf_deleting.
  - apply twp_ret. eapply focus_close; [exact HF3|]. by apply wf_tx_time.
Qed.

Lemma twp_poll_poll i j lk w :
  inv (held lk i) false w -> entry lk i = Some false -> 0 <= i < ms -> 0 <= j < mc ->
  twp (poll_poll env i j) (rpost lk i) w.
Proof.
  intros HI Hl Hi Hj. destruct (inv_open _ _ _ _ i j _ HI) as (c & HF & Hw); [done|done|].
  unfold poll_poll. apply twp_bind. eapply twp_get_conn; [done|].
  apply twp_if; intros _; [by apply twp_ret|]. apply twp_if; intros _; [by apply twp_ret|].
  apply twp_bind. eapply twp_get_slot; [by apply inv_struct|done|]. intros s _.
  apply twp_bind, twp_time_after. intros b w1 E1. pose proof (focus_st _ _ _ _ _ _ _ _ _ E1 HF) as HF1.
  apply twp_if; intros _; [apply twp_ret; by eapply focus_close|].
  apply twp_bind, twp_gettimeofday. intros now w2 E2. pose proof (focus_st _ _ _ _ _ _ _ _ _ E2 HF1) as HF2.
  apply twp_bind. eapply twp_mod_conn; [exact HF2|]. intros w3 HF3 _.
  assert (Eu : u8 j = j) by (apply u8_small; lia). rewrite Eu. apply twp_bind. eapply twp_mono.
  { eapply (twp_poll_tc _ ms mc Hms Hmc); [eapply focus_close; [exact HF3|by apply wf_last_poll]|done|done]. }
  intros r w4 HP. apply twp_if; intros Er; [apply (twp_unlock_post i r); [done|lia|done]|].
  apply twp_ret. destruct HP as [[? _]|[-> _]]; done.
Qed.

Lemma twp_poll_timeout i j lk w :
  inv (held lk i) false w -> entry lk i = Some false -> 0 <= i < ms -> 0 <= j < mc ->
  twp (poll_timeout env i j) (rpost lk i) w.
Proof.
  intros HI Hl Hi Hj. destruct (inv_open _ _ _ _ i j _ HI) as (c & HF & Hw); [done|done|].
  unfold poll_timeout. apply twp_bind. eapply twp_get_conn; [done|].
  apply twp_if; intros _; [by apply twp_ret|].
  apply twp_bind. eapply twp_get_slot; [by apply inv_struct|done|]. intros s _.
  apply twp_bind, twp_time_after. intros b w1 E1. pose proof (focus_st _ _ _ _ _ _ _ _ _ E1 HF) as HF1.
  apply twp_if; intros _; [apply twp_ret; by eapply focus_close|].
  apply twp_if; intros Es.
  - rewrite state_mask in Es by apply Hw.
    apply twp_bind. eapply twp_mod_conn; [exact HF1|]. intros w2 HF2 _. apply twp_ret.
    eapply focus_close; [exact HF2|]. apply wf_idle_state; auto with bgt; intros E; by rewrite E in Es.
  - apply twp_if; intros _; [|apply twp_ret; by eapply focus_close].
    apply twp_refuse_poll_slot; [by eapply focus_close|done].
Qed.

Lemma twp_poll_connection i j lk w :
  inv (held lk i) false w -> entry lk i = Some false -> 0 <= i < ms -> 0 <= j < mc ->
  twp (poll_connection env i j) (rpost lk i) w.
Proof.
  intros HI Hl Hi Hj. destruct (inv_open _ _ _ _ i j _ HI) as (c & HF & Hw); [done|done|].
  unfold poll_connection. apply twp_bind. eapply twp_get_conn; [done|].
  apply twp_if; intros _; [by apply twp_ret|]. apply twp_then. eapply twp_mono; [by apply twp_poll_send|].
  intros [x|] w1 H1; [done|]. apply twp_then. eapply twp_mono; [by apply twp_poll_poll|].
  intros [x|] w2 H2; [done|]. by apply twp_poll_timeout.
Qed.

(** The search for the slot of another CAM. *)
Lemma twp_for_slot (p : en50221_slot -> bool) n lo lk g (Q : option Z -> world (host U) -> Prop) w :
  struct lk g w -> 0 <= lo -> lo + Z.of_nat n <= ms ->
  Q None w ->
  (forall i s, 0 <= i < ms -> entry (slots (tlw w)) i = Some s -> p s = true -> Q (Some i) w) ->
  twp (for_range n lo (fun i => s ← get_slot i; mret (if p s then Some i else None))) Q w.
Proof.
  clear env Hms Hmc ev cb Hev Hcb. intros Hs Hlo Hn H1 H2. revert lo Hlo Hn. induction n as [|n IH]; intros lo Hlo Hn; cbn [for_range]; [by apply twp_ret|].
  apply twp_bind, twp_bind. eapply twp_get_slot; [done|lia|]. intros s Es. apply twp_ret.
  destruct (p s) eqn:Ep; [apply twp_ret; eapply H2; [lia|done|done]|apply IH; lia].
Qed.

(** No slot is locked. *)
Definition no_lock lk : Prop := Forall (fun b => b = false) lk.
Lemma free_entry lk i b : no_lock lk -> entry lk i = Some b -> b = false.
Proof. intros Hf. unfold entry. case_decide; [|done]. intros E. by apply (Forall_lookup_1 _ _ _ _ Hf) in E. Qed.

Lemma twp_poll_read i h lk w :
  inv (held lk i) false w -> no_lock lk -> 0 <= i < ms ->
  twp (poll_read env ev cb i h) (rpost lk i) w.
Proof.
  intros HI Hfr Hi. destruct (inv_entry ms mc (held lk i) false i w HI Hi) as [b0 Hb0].
  assert (Hl : entry lk i = Some false).
  { destruct (entry_Some lk i) as [b Eb]; [pose proof (entry_range _ _ _ Hb0); by rewrite zlen_insert in *|].
    by rewrite (free_entry _ _ _ Hfr Eb) in Eb. }
  unfold poll_read. apply twp_bind. apply twp_dvbca_link_read.
  2:{ intros w1 E1. cbn beta iota. apply twp_if; [intros _|done].
      apply twp_refuse_poll_slot; [by eapply inv_st|done]. }
  intros rs c0 data w1 E1 Hd Hb Hrs. cbn beta iota. pose proof (inv_st _ _ _ _ _ _ E1 HI) as HI1.
  pose proof (zlen_nonneg data).
  assert (Hd' : zlen data < 65536) by (change (u16 4096) with 4096 in Hd; lia).
  apply twp_if; intros E0; [lia|]. apply twp_if; intros _; [|by apply twp_ret].
  apply twp_bind. eapply twp_get_slot; [by apply inv_struct|done|]. intros s Es.
  assert (Hh : entry (held lk i) i = Some true).
  { rewrite entry_insert by (by eapply entry_range). by rewrite decide_True. }
  apply twp_if; intros En.
  - apply twp_bind, twp_get_tl. assert (Em : max_slots (tlw w1) = ms) by apply HI1. rewrite Em.
    apply twp_bind. eapply (twp_for_slot (fun s => (ca_hndl s =? h) && (slot_nr s =? rs)));
      [by apply inv_struct|lia|lia| |].
    { by apply twp_refuse_poll. }
    intros i' s' Hi' Es' Ep. apply andb_true_iff in Ep as [_ Ep].
    assert (Hne : i' <> i) by (intros ->; rewrite Es in Es'; injection Es' as ->; lia).
    destruct (inv_entry _ _ _ _ i' _ HI1 Hi') as [b Eb]. pose proof Eb as Eb'.
    rewrite entry_insert, decide_False in Eb' by (done || by eapply entry_range).
    rewrite (free_entry _ _ _ Hfr Eb') in Eb.
    apply twp_bind. eapply twp_lock_slot; [done|done|]. intros w2 HI2 _ _.
    assert (Hh' : entry (held (held lk i) i') i' = Some true).
    { rewrite entry_insert by (by eapply entry_range). by rewrite decide_True. }
    apply twp_bind. eapply twp_mono; [by eapply (twp_process_data _ ms mc Hms Hmc)|].
    intros r w3 [[HI3 Hr]|[-> Ho]].
    + apply twp_if; intros Er; (apply twp_bind; eapply twp_unlock_slot; [done|done|]); intros w4 HI4 _ _;
        rewrite released_held in HI4 by done; [|by apply twp_ret].
      apply twp_bind. eapply twp_unlock_slot; [done|done|]. intros w5 HI5 _ _.
      rewrite released_held in HI5 by done. apply twp_ret. split; [done|by left].
    + apply twp_if; [intros _|done].
      apply (twp_unlock_oom i' (held lk i) false); [done|done|]. intros w4 Ho4.
      eapply twp_unlock_oom; [done|done|]. intros w5 Ho5. apply twp_ret. split; [done|by right].
  - apply twp_bind. eapply twp_mono; [by eapply (twp_process_data _ ms mc Hms Hmc)|].
    intros r w3 HP. apply twp_if; intros Er; [apply (twp_unlock_post i r); [done|lia|done]|].
    apply twp_ret. destruct HP as [[? _]|[-> _]]; done.
Qed.

Lemma twp_poll_slot i lk w :
  inv lk false w -> no_lock lk -> 0 <= i < ms ->
  twp (poll_slot env ev cb i) (fun r w' => match r with
    | None => inv lk false w' | Some x => x = -1 /\ (inv lk false w' \/ oom lk false w') end) w.
Proof.
  intros HI Hfr Hi. destruct (inv_entry _ _ _ _ i _ HI Hi) as [b Hl].
  rewrite (free_entry _ _ _ Hfr Hl) in Hl.
  unfold poll_slot. apply twp_bind. eapply twp_lock_slot; [done|done|]. intros w1 HI1 _ _.
  apply twp_bind. eapply twp_get_slot; [by apply inv_struct|done|]. intros s Es.
  assert (Hun : forall w', inv (held lk i) false w' ->
    twp (unlock_slot i;; mret None) (fun r w' => match r with
      | None => inv lk false w' | Some x => x = -1 /\ (inv lk false w' \/ oom lk false w') end) w').
  { intros w' HI'. apply twp_bind. eapply twp_unlock_slot; [done|done|]. intros w'' HI'' _ _.
    rewrite released_held in HI'' by done. by apply twp_ret. }
  apply twp_if; intros _; [by apply Hun|].
  apply twp_bind, twp_get_tl. apply twp_bind.
  destruct (entry_Some (slot_pollfds (tlw w1)) i) as [p Ep].
  { pose proof (ts_pollfds _ _ _ _ _ (inv_struct _ _ _ _ _ HI1)) as E. lia. }
  eapply twp_lift; [exact Ep|]. assert (Em : max_connections_per_slot (tlw w1) = mc) by apply HI1. rewrite Em.
  apply twp_then. apply (twp_mono _ (rpost lk i)).
  { apply twp_if; intros _; [by apply twp_poll_read|]. apply twp_if; intros _; [by apply twp_refuse_poll_slot|].
    by apply twp_ret. }
  intros [x|] w2 H2; [done|]. apply twp_then.
  apply (twp_for_range (fun w' => inv (held lk i) false w')); [|by apply Hun|done].
  intros j w' Hj HI'. eapply twp_mono; [apply twp_poll_connection; [done|done|done|lia]|]. by intros [y|] w''.
Qed.

(** The global lock. *)
Lemma twp_lock_global lk (Q : unit -> world (host U) -> Prop) w :
  inv lk false w -> (forall w', inv lk true w' -> slots (tlw w') = slots (tlw w) -> quiet w w' -> Q tt w') -> twp lock_global Q w.
Proof.
  intros HI HQ. pose proof (ts_global _ _ _ _ _ (inv_struct _ _ _ _ _ HI)) as Eg.
  eapply twp_upd_tl; [by rewrite Eg|]. apply HQ; [|done|done]. destruct HI as [[[] Hw] Hp]. split; [split; [by constructor|exact Hw]|exact Hp].
Qed.
Lemma twp_unlock_global lk (Q : unit -> world (host U) -> Prop) w :
  inv lk true w -> (forall w', inv lk false w' -> Q tt w') -> twp unlock_global Q w.
Proof.
  intros HI HQ. apply twp_mod_tl, HQ. destruct HI as [[[] Hw] Hp]. split; [split; [by constructor|exact Hw]|exact Hp].
Qed.

Lemma twp_refresh lk (Q : unit -> world (host U) -> Prop) w :
  inv lk false w -> (forall w', inv lk false w' -> Q tt w') -> twp refresh_pollfds Q w.
Proof.
  intros HI HQ. unfold refresh_pollfds. apply twp_bind. eapply twp_lock_global; [done|]. intros w1 HI1 _ _.
  apply twp_bind, twp_get_tl, twp_bind.
  assert (Hk : forall w', inv lk true w' -> twp unlock_global Q w') by (intros; by eapply twp_unlock_global).
  apply twp_if; intros _; [|by apply twp_ret, Hk].
  apply twp_mod_core; [|intros w2 Hc _; apply Hk; by eapply inv_core].
  repeat split. cbn. unfold zlen. rewrite length_fmap.
  destruct (inv_struct _ _ _ _ _ HI1). unfold zlen in *. lia.
Qed.

Lemma twp_poll_all lk w :
  inv lk false w -> no_lock lk ->
  twp (en50221_tl_poll env ev cb) (fun r w' => (inv lk false w' /\ (r = 0 \/ r = -1)) \/ (r = -1 /\ oom lk false w')) w.
Proof.
  intros HI Hfr. unfold en50221_tl_poll. apply twp_bind. eapply twp_refresh; [done|]. intros w1 HI1.
  apply twp_bind, twp_poll. intros r w2 E2. pose proof (inv_st _ _ _ _ _ _ E2 HI1) as HI2.
  destruct r as [revents|].
  2:{ apply twp_bind, twp_mod_tl, twp_bind, twp_mod_tl, twp_ret. left. split; [by eapply inv_core; [|exact HI2]|by right]. }
  apply twp_bind, twp_mod_core; [repeat split; cbn; unfold set_revents, zlen; rewrite ?length_imap; done|].
  intros w3 Hc3 _. pose proof (inv_core _ _ _ _ _ _ Hc3 HI2) as HI3.
  apply twp_bind, twp_get_tl. assert (Em : max_slots (tlw w3) = ms) by apply HI3. rewrite Em.
  apply twp_bind. apply (twp_for_range (fun w' => inv lk false w')); [| |done].
  - intros i w' Hi HI'. eapply twp_mono; [apply twp_poll_slot; [done|done|lia]|].
    intros [x|] w''; [|done]. intros [-> [HI''|Ho]]; apply twp_ret; [left|by right]. by split; [|right].
  - intros w' HI'. apply twp_ret. left. by split; [|left].
Qed.
End poll.

Section ops.
Context (env : environment) {U : Type} `{!UpperInv U} (ms mc : Z).
Context (Hms : 0 <= ms < 256) (Hmc : 0 <= mc < 256).
Implicit Types (w : world (host U)) (lk : list bool) (g : bool).

Abbreviation tlw w := (tl (w_st w)).
Abbreviation inv := (inv ms mc).
Abbreviation focus := (focus ms mc).
Abbreviation struct := (struct ms mc).

Lemma twp_register_slot h s t d lk w :
  inv lk false w -> no_lock lk ->
  twp (en50221_tl_register_slot h s t d) (done_inv ms mc lk false) w.
Proof.
  intros HI Hfr. unfold en50221_tl_register_slot. apply twp_bind. eapply twp_lock_global; [done|]. intros w1 HI1 _ _.
  apply twp_bind, twp_get_tl. assert (Em : max_slots (tlw w1) = ms) by apply HI1. rewrite Em.
  apply twp_bind. eapply (twp_for_slot ms mc (fun s => ca_hndl s =? -1)); [by apply inv_struct|lia|lia| |].
  { apply twp_bind, twp_mod_tl, twp_bind. eapply twp_unlock_global; [by eapply inv_core; [|exact HI1]|].
    intros w2 HI2. apply twp_ret. by split. }
  intros i s0 Hi Es _. destruct (inv_entry _ _ _ _ i _ HI1 Hi) as [b Hl].
  rewrite (free_entry _ _ _ Hfr Hl) in Hl.
  apply twp_bind. eapply twp_lock_slot; [done|done|]. intros w2 HI2 _ _.
  apply twp_bind. destruct (entry_Some (slots (tlw w2)) i) as [s2 Es2].
  { destruct (inv_struct _ _ _ _ _ HI2). lia. }
  eapply twp_upd_slot; [done|done|]. intros w3 Ew3 Hq3.
  pose proof (inv_slot _ _ _ _ _ _ _ _ _ HI2 Es2 Ew3 Hq3 eq_refl) as HI3. cbn in HI3.
  rewrite (insert_same _ _ (slot_lock s2)) in HI3
    by (eapply struct_slot_lock; [by apply (inv_struct _ _ _ _ _ HI2)|done]).
  apply twp_bind. eapply twp_unlock_slot; [done|done|]. intros w4 HI4 _ _. rewrite released_held in HI4 by done.
  apply twp_bind, twp_mod_tl, twp_bind. eapply twp_unlock_global; [by eapply inv_core; [|exact HI4]|].
  intros w5 HI5. apply twp_ret. split; [done|lia].
Qed.

Lemma twp_destroy_slot ev `{!EventClient ev} i lk w :
  inv lk false w -> no_lock lk -> 0 <= i ->
  twp (en50221_tl_destroy_slot ev i) (fun _ w' => inv lk false w') w.
Proof.
  intros HI Hfr Hi. unfold en50221_tl_destroy_slot. apply twp_bind, twp_get_tl.
  assert (Em : max_slots (tlw w) = ms) by apply HI. rewrite Em. apply twp_if; intros Hr; [by apply twp_ret|].
  assert (Hi' : 0 <= i < ms) by lia. destruct (inv_entry _ _ _ _ i _ HI Hi') as [b Hl].
  rewrite (free_entry _ _ _ Hfr Hl) in Hl.
  apply twp_bind. eapply twp_lock_global; [done|]. intros w1 HI1 _ _.
  apply twp_bind. eapply twp_lock_slot; [done|done|]. intros w2 HI2 _ _.
  apply twp_bind. destruct (entry_Some (slots (tlw w2)) i) as [s2 Es2].
  { destruct (inv_struct _ _ _ _ _ HI2). lia. }
  eapply twp_upd_slot; [done|done|]. intros w3 Ew3 Hq3.
  pose proof (inv_slot _ _ _ _ _ _ _ _ _ HI2 Es2 Ew3 Hq3 eq_refl) as HI3. cbn in HI3.
  rewrite (insert_same _ _ (slot_lock s2)) in HI3
    by (eapply struct_slot_lock; [by apply (inv_struct _ _ _ _ _ HI2)|done]).
  assert (Em3 : max_connections_per_slot (tlw w) = mc) by apply HI. rewrite Em3.
  apply twp_bind, (twp_for_range (fun w' => inv (<[Z.to_nat i := true]> lk) true w')); [| |done].
  - intros j w' Hj HI'. destruct (inv_open _ _ _ _ i j _ HI') as (c & HF & Hw); [done|lia|].
    apply twp_bind. eapply twp_get_conn; [done|]. apply twp_bind.
    eapply (twp_lift _ tt); [apply wf_not_freed in Hw; by destruct (chain_buffer c)|].
    apply twp_bind. eapply twp_mod_conn; [exact HF|]. intros w4 HF4 _. apply twp_ret.
    eapply focus_close; [exact HF4|apply wf_clear_connection].
  - intros w4 HI4. apply twp_bind. eapply twp_unlock_slot; [done|done|]. intros w5 HI5 _ _.
    rewrite released_held in HI5 by done.
    apply twp_bind. eapply (twp_notify ms mc ev); [done|]. intros w6 HI6 _.
    apply twp_bind, twp_mod_tl. eapply twp_unlock_global; [by eapply inv_core; [|exact HI6]|]. done.
Qed.

Lemma twp_register_callback b lk g w :
  inv lk g w -> twp (en50221_tl_register_callback b) (fun _ w' => inv lk g w') w.
Proof.
  intros HI. pose proof (ts_setcallback _ _ _ _ _ (inv_struct _ _ _ _ _ HI)) as E.
  unfold en50221_tl_register_callback. apply twp_bind. unfold lock_setcallback.
  eapply twp_upd_tl; [by rewrite E|]. apply twp_bind, twp_mod_tl, twp_mod_tl.
  eapply inv_core; [|exact HI]. repeat split. done.
Qed.

(** ** Creation *)

Definition unlocked : list bool := replicate (Z.to_nat ms) false.
Lemma unlocked_free : no_lock unlocked.
Proof. unfold no_lock, unlocked. apply list.Forall_forall. intros b Hb. by apply elem_of_replicate in Hb as [-> _]. Qed.

Definition new_slot : en50221_slot := Slot (-1) 0 (replicate (Z.to_nat mc) new_connection) false 0 0.
Definition new_layer : en50221_transport_layer :=
  Tl ms mc (replicate (Z.to_nat ms) new_slot) (replicate (Z.to_nat ms) (Pollfd 0 0 0)) true false false 0 0 false.

Lemma create_slots_spec {S} n (w : world S) r (w' : world S) :
  create_slots env n mc w = Some (r, w') -> w_st w' = w_st w /\ (r = None \/ r = Some (replicate n new_slot)).
Proof.
  revert w r w'. induction n as [|n IH]; intros w r w' E; cbn [create_slots] in E.
  { injection E as <- <-. auto. }
  unfold mbind, T_bind, env_malloc, tick, mret, T_ret, mbind, T_bind in E. cbn in E.
  destruct (malloc_ok env (w_tick w)); cbn in E.
  - destruct (create_slots env n mc _) as [[r1 w1]|] eqn:E1; [|done].
    apply IH in E1 as [Ew1 Hr1]. injection E as <- <-. split; [done|].
    destruct Hr1 as [-> | ->]; auto.
  - destruct n; [|done]. injection E as <- <-. auto.
Qed.

Lemma create_spec {S} (w : world S) t (w' : world S) :
  en50221_tl_create env ms mc w = Some (Some t, w') -> t = new_layer.
Proof.
  unfold en50221_tl_create, mbind, T_bind, env_malloc, tick, mret, T_ret, mbind, T_bind. cbn.
  destruct (malloc_ok env _); cbn; [|done]. destruct (malloc_ok env _); cbn; [|done].
  destruct (create_slots env _ mc _) as [[r w1]|] eqn:E1; [|done].
  apply create_slots_spec in E1 as [_ [-> | ->]]; cbn; [done|].
  destruct (malloc_ok env _); cbn; [|done]. by intros [= <- _].
Qed.

Lemma new_layer_inv (u : U) n s : upper_ok u -> inv unlocked false (World (Host new_layer u) n s).
Proof.
  intros Hu. split; [|exact Hu]. split.
  - constructor; cbn; try done; unfold zlen; rewrite ?length_replicate; try lia.
    + apply list.Forall_forall. intros s0 Hs0. apply elem_of_replicate in Hs0 as [-> _].
      unfold new_slot, zlen. cbn. rewrite length_replicate. lia.
    + unfold unlocked. by rewrite fmap_replicate.
  - intros i j c Hc _. unfold conn_at in Hc.
    destruct (entry (slots _) i) as [s0|] eqn:E0; [|done]. cbn in E0, Hc. unfold entry in E0.
    case_decide; [|done]. apply lookup_replicate in E0 as [-> _]. unfold entry in Hc. cbn in Hc.
    case_decide; [|done]. apply lookup_replicate in Hc as [-> _]. apply wf_new.
Qed.
End ops.

(** ** Sequences of operations *)

Inductive tl_op :=
| RegisterSlot (hndl slot timeout delay : Z)
| DestroySlot (slot_id : Z)
| RegisterCallback (cb : bool)
| SendData (slot_id connection_id : Z) (data : list Z)
| SendDatav (slot_id connection_id : Z) (vector : list (list Z))
| NewTc (slot_id : Z)
| DelTc (slot_id connection_id : Z)
| GetState (slot_id connection_id : Z)
| Poll.

(** The arguments are values of their C types, and the length of a message does not wrap. *)
Definition op_ok (op : tl_op) : Prop :=
  match op with
  | RegisterSlot _ _ _ _ | RegisterCallback _ | Poll => True
  | DestroySlot i | NewTc i => byte i
  | SendData i j data => byte i /\ byte j /\ zlen data < 2 ^ 32 - 10
  | SendDatav i j vector => byte i /\ byte j /\ zlen (concat vector) < 2 ^ 32 - 10
  | DelTc i j | GetState i j => byte i /\ byte j
  end.

Section run.
Context (env : environment) {U : Type}.
Context (ev : Z -> Z -> Z -> U -> U) (cb : list Z -> Z -> Z -> T (host U) unit).

Definition run_op (op : tl_op) : T (host U) Z :=
  match op with
  | RegisterSlot h s t d => en50221_tl_register_slot h s t d
  | DestroySlot i => en50221_tl_destroy_slot ev i;; mret 0
  | RegisterCallback b => en50221_tl_register_callback b;; mret 0
  | SendData i j data => en50221_tl_send_data env i j data
  | SendDatav i j vector => en50221_tl_send_datav env i j vector
  | NewTc i => en50221_tl_new_tc env i
  | DelTc i j => en50221_tl_del_tc env i j
  | GetState i j => en50221_tl_get_connection_state i j
  | Poll => en50221_tl_poll env ev cb
  end.
Definition run_ops : list tl_op -> T (host U) (list Z) := run_all run_op.

Context (ms mc : Z) (Hms : 0 <= ms < 256) (Hmc : 0 <= mc < 256).
Context `{!UpperInv U} `{Hev : !EventClient ev} `{Hcb : !DataClient ms mc cb}.

Lemma twp_run_op op w :
  inv ms mc (unlocked ms) false w -> op_ok op ->
  twp (run_op op) (fun r w' => inv ms mc (unlocked ms) false w' \/
    r = -1 /\ op = Poll /\ oom ms mc (unlocked ms) false w') w.
Proof.
  intros HI Hop. pose proof (unlocked_free ms) as Hfr.
  assert (Hl : forall i, byte i -> i < ms -> entry (unlocked ms) i = Some false).
  { intros i [Hi _] Hm. destruct (inv_entry _ _ _ _ i _ HI) as [b Eb]; [lia|].
    by rewrite (free_entry _ _ _ Hfr Eb) in Eb. }
  assert (Hd : forall (c : T (host U) Z),
    twp c (done_inv ms mc (unlocked ms) false) w ->
    twp c (fun r w' => inv ms mc (unlocked ms) false w' \/
      r = -1 /\ op = Poll /\ oom ms mc (unlocked ms) false w') w).
  { intros c Hc. eapply twp_mono; [exact Hc|]. intros r w' [? _]. by left. }
  destruct op; cbn [run_op op_ok] in *.
  - by apply Hd, twp_register_slot.
  - apply twp_bind. eapply twp_mono; [eapply (twp_destroy_slot ms mc); [done..|apply Hop]|].
    intros [] w' H'. apply twp_ret. by left.
  - apply twp_bind. eapply twp_mono; [by eapply (twp_register_callback ms mc)|].
    intros [] w' H'. apply twp_ret. by left.
  - destruct Hop as (Hi & Hj & Hz). apply Hd. rewrite send_data_datav.
    apply twp_send_datav_inv; auto; [apply Hi|apply Hj|]. cbn. by rewrite app_nil_r.
  - destruct Hop as (Hi & Hj & Hz). apply Hd. apply twp_send_datav_inv; auto; [apply Hi|apply Hj].
  - apply Hd, twp_new_tc; auto. apply Hop.
  - destruct Hop as (Hi & Hj). apply Hd, twp_del_tc; auto; [apply Hi|apply Hj].
  - destruct Hop as (Hi & Hj). apply Hd, twp_get_connection_state; auto; [apply Hi|apply Hj].
  - eapply twp_mono; [by apply (twp_poll_all env ms mc Hms Hmc)|]. intros r w' [[? _]|[-> ?]]; [by left|by right].
Qed.

Lemma run_ops_inv ops w :
  inv ms mc (unlocked ms) false w -> Forall op_ok ops ->
  exists n rs w', run_ops (take n ops) w = Some (rs, w') /\
    (n = length ops /\ inv ms mc (unlocked ms) false w' \/
     rs !! pred n = Some (-1) /\ ops !! pred n = Some Poll /\ oom ms mc (unlocked ms) false w').
Proof.
  intros HI Hops. destruct (run_all_inv run_op _ _ _ ops w twp_run_op HI Hops)
    as (n & rs & w' & E & [H|(op & r & Eo & Er & -> & -> & Ho)]); exists n, rs, w'; auto.
Qed.
End run.

(** C26: The transport layer.  Start from any successful [en50221_tl_create], with
    callbacks that keep the invariant: every sequence of operations and polls, whatever
    the module sends and the system answers, runs to its end without a self-deadlock, an
    access outside an object or a use of freed memory, with every lock released, every
    connection in one of its five states, a chain buffer of the recorded length kept only
    by connections that are up, and a delete request queued only as the last message of a
    connection in state DELETEQUEUED; unless a poll ends with -1 and OUTOFMEMORY. *)
Theorem en50221_tl_invariant (env : environment) {S U} `{!UpperInv U} (ev : Z -> Z -> Z -> U -> U) `{!EventClient ev}
    (cb : list Z -> Z -> Z -> T (host U) unit) ms mc `{!DataClient ms mc cb} (w0 : world S) t w1 u ops :
  0 <= ms < 256 -> 0 <= mc < 256 -> upper_ok u ->
  en50221_tl_create env ms mc w0 = Some (Some t, w1) ->
  Forall op_ok ops ->
  exists n rs w', run_ops env ev cb (take n ops) (World (Host t u) (w_tick w1) (w_sent w1)) = Some (rs, w') /\
    (n = length ops /\ tl_inv ms mc (replicate (Z.to_nat ms) false) false (tl (w_st w')) /\ upper_ok (upper (w_st w')) \/
     rs !! pred n = Some (-1) /\ ops !! pred n = Some Poll /\
     tl_struct ms mc (replicate (Z.to_nat ms) false) false (tl (w_st w')) /\
     error (tl (w_st w')) = EN50221ERR_OUTOFMEMORY).
Proof.
  intros Hms Hmc Hu Ec Hops. apply create_spec in Ec as ->.
  destruct (run_ops_inv env ev cb ms mc Hms Hmc ops _ (new_layer_inv ms mc Hms Hmc u (w_tick w1) (w_sent w1) Hu) Hops)
    as (n & rs & w' & E & H). by exists n, rs, w'.
Qed.

(** ** A concrete system and client *)

(** A client that keeps what it is given. *)
Definition keep_data (data : list Z) (i j : Z) : T (host (list (list Z))) unit :=
  modify (fun h => Host (tl h) (upper h ++ [data])).
Definition no_event {U} (reason i j : Z) (u : U) : U := u.
#[global] Instance kept_upper : UpperInv (list (list Z)) := fun _ => True.
#[global] Instance unit_upper : UpperInv unit := fun _ => True.
#[global] Instance no_event_client {U} `{!UpperInv U} : EventClient (U := U) no_event.
Proof. intros reason i j u Hu. exact Hu. Qed.
#[global] Instance keep_data_client ms mc : DataClient ms mc keep_data.
Proof. intros data i j lk w [HI _] _ _ _. apply twp_modify. by split. Qed.

(** Every allocation and write succeeds, the devices have nothing. *)
Definition quiet_env : environment :=
  Env (fun _ => true) (fun _ => 1) (fun _ => None) (fun _ => Some []) (fun n => Timeval (1 + Z.of_nat n) 0).

Lemma en50221_tl_invariant_witness :
  exists n rs w', run_ops quiet_env no_event keep_data
      (take n [RegisterCallback true; RegisterSlot 5 0 1000 100; NewTc 0; Poll; SendData 0 1 [1; 2]; DestroySlot 0])
      (World (Host (new_layer 1 2) []) 4 []) = Some (rs, w') /\
    (n = 6%nat /\ tl_inv 1 2 [false] false (tl (w_st w')) /\ upper_ok (upper (w_st w')) \/
     rs !! pred n = Some (-1) /\
     [RegisterCallback true; RegisterSlot 5 0 1000 100; NewTc 0; Poll; SendData 0 1 [1; 2]; DestroySlot 0] !! pred n = Some Poll /\
     tl_struct 1 2 [false] false (tl (w_st w')) /\
     error (tl (w_st w')) = EN50221ERR_OUTOFMEMORY).
Proof.
  apply (en50221_tl_invariant quiet_env no_event keep_data 1 2 (World tt 0 []) (new_layer 1 2) (World tt 4 [])).
  - lia.
  - lia.
  - exact I.
  - reflexivity.
  - by apply Forall_cons_2; [|apply Forall_cons_2; [|apply Forall_cons_2; [|apply Forall_cons_2; [|apply Forall_cons_2; [|apply Forall_cons_2; [|apply Forall_nil_2]]]]]].
Defined.
