(* ===== verification/En50221Deliver.v ===== *)
(** * En50221Deliver: what the transport layer queues and delivers

    Messages are queued as TPDUs, fragments are delivered as the message they make up,
    and the TPDUs drive the state machine of the connections.  The examples at the end
    are runs that go wrong. *)

From S2P Require Import Prelude Asn1 CaLink En50221Transport En50221Poll En50221Inv En50221Safe En50221Api En50221Ops.

Section deliver.
Context (env : environment) {U : Type} `{!UpperInv U} (ms mc : Z).
Context (Hms : 0 <= ms < 256) (Hmc : 0 <= mc < 256).
Context (ev : Z -> Z -> Z -> U -> U) `{Hev : !EventClient ev} (cb : list Z -> Z -> Z -> T (host U) unit).
Implicit Types (w : world (host U)) (lk : list bool) (g : bool).

Abbreviation tlw w := (tl (w_st w)).
Abbreviation inv := (inv ms mc).
Abbreviation focus := (focus ms mc).

(** One turn of the loop on a TPDU that is complete. *)
Lemma process_step fuel i tag j data rest w :
  max_connections_per_slot (tlw w) = mc -> 0 <= j < mc -> zlen data < 65535 -> zlen rest < 2 ^ 31 ->
  process_loop env ev cb (S fuel) i (tpdu tag j data ++ rest) w =
    (result ← process_tpdu env ev cb i tag j data;
     if result <? 0 then mret (-1) else process_loop env ev cb fuel i rest) w.
Proof.
  intros Em Hj Hd Hr. pose proof (zlen_nonneg data). pose proof (zlen_nonneg rest).
  set (n := zlen data + 1). assert (Hn : u16 n = n) by (apply u16_small; lia).
  pose proof (asn_field_len n) as Hf.
  assert (El : zlen (tpdu tag j data ++ rest) = 2 + zlen (asn_field n) + zlen data + zlen rest).
  { rewrite zlen_app, tpdu_len. fold n. lia. }
  assert (Eb : tpdu tag j data ++ rest = [tag] ++ asn_field n ++ (j :: data ++ rest)).
  { unfold tpdu, tpdu_of. fold n. cbn. by rewrite <- app_assoc. }
  cbn [process_loop]. rewrite El. destruct (_ =? 0) eqn:E0; [lia|]. clear E0.
  unfold mbind at 1, T_bind at 1, lift at 1.
  rewrite Eb. change (zget ([tag] ++ asn_field n ++ j :: data ++ rest) 0) with (Some tag).
  cbn beta iota. unfold mbind at 1, T_bind at 1, lift at 1.
  pose proof (asn_1_decode_field [tag] n (j :: data ++ rest) (2 + zlen (asn_field n) + zlen data + zlen rest - 1)) as Ed.
  change (zlen [tag]) with 1 in Ed. rewrite Ed, decide_True by lia. cbn beta iota. cbn [default].
  destruct (zlen (asn_field n) <? 0) eqn:E1; [lia|]. rewrite u32_small by lia.
  destruct (_ || _) eqn:E2; [exfalso; cbn [id] in E2; lia|]. clear E2. cbn [id].
  unfold mbind at 1, T_bind at 1, lift at 1.
  assert (Ej : zget ([tag] ++ asn_field n ++ j :: data ++ rest) (1 + zlen (asn_field n)) = Some j).
  { pose proof (zget_mid ([tag] ++ asn_field n) [j] (data ++ rest) 0) as E. rewrite zlen_app, Z.add_0_r in E.
    change (zlen [tag]) with 1 in E. rewrite <- app_assoc in E. apply E. change (zlen [j]) with 1. lia. }
  rewrite Ej. cbn beta iota. unfold mbind at 1, T_bind at 1.
  change (get_tl w) with (Some (tlw w, w)). cbn beta iota. rewrite Em.
  destruct (mc <=? j) eqn:E3; [lia|].
  assert (Ez : zdrop (1 + zlen (asn_field n) + 1) ([tag] ++ asn_field n ++ j :: data ++ rest) = data ++ rest).
  { rewrite app_assoc, (cons_middle j). rewrite app_assoc. apply zdrop_app. rewrite !zlen_app.
    change (zlen [tag]) with 1. change (zlen [j]) with 1. lia. }
  rewrite Ez. assert (En : u16 (n - 1) = zlen data) by (rewrite u16_small; lia). rewrite En.
  rewrite ztake_app, zdrop_app by done. done.
Qed.

(** The TPDUs of a message sent in fragments. *)
Definition fragments (j : Z) (mores : list (list Z)) (last : list Z) : list Z :=
  concat (tpdu T_DATA_MORE j <$> mores) ++ tpdu T_DATA_LAST j last.

Lemma fragments_len j mores last : zlen (concat mores ++ last) <= zlen (fragments j mores last).
Proof.
  clear. unfold fragments. rewrite !zlen_app, tpdu_len. pose proof (asn_field_len (zlen last + 1)).
  assert (zlen (concat mores) <= zlen (concat (tpdu T_DATA_MORE j <$> mores))); [|lia].
  induction mores as [|f mores IH]; [done|]. cbn [fmap list_fmap concat]. rewrite !zlen_app, tpdu_len.
  pose proof (asn_field_len (zlen f + 1)). lia.
Qed.

Definition fragment_ok (f : list Z) : Prop := f <> [] /\ zlen f < 65535.

Lemma zlen_pos {A} (l : list A) : l <> [] -> 0 < zlen l.
Proof. destruct l; [done|]. rewrite zlen_cons. pose proof (zlen_nonneg l). lia. Qed.

Context (Halloc : forall n, malloc_ok env n = true).

(** Between the fragments the connection keeps what has arrived. *)
Lemma process_fragments fuel i j mores last c lk (Q : Z -> world (host U) -> Prop) w :
  inv lk false w -> entry lk i = Some true -> conn_at (tlw w) i j = Some c -> state c = T_STATE_ACTIVE ->
  callback (tlw w) = true ->
  Forall fragment_ok (mores ++ [last]) ->
  zlen (chain_data c) + zlen (fragments j mores last) < 2 ^ 31 ->
  (length (fragments j mores last) <= fuel)%nat ->
  (forall w' c', inv (<[Z.to_nat i := false]> lk) false w' -> quiet w w' ->
    conn_at (tlw w') i j = Some c' -> state c' = T_STATE_ACTIVE -> chain_buffer c' = PNull ->
    tv_sec (tx_time c') = 0 -> send_queue c' = send_queue c ->
    twp (cb (chain_data c ++ concat mores ++ last) i j;; lock_slot i;; mret 0) Q w') ->
  twp (process_loop env ev cb fuel i (fragments j mores last)) Q w.
Proof.
  intros HI Hl Ec Ea Hcb Hok Hsz Hf HQ.
  revert fuel c w HI Ec Ea Hcb Hsz Hf HQ.
  induction mores as [|f mores IH]; intros fuel c w HI Ec Ea Hcb Hsz Hf HQ;
    pose proof (conn_at_range _ _ _ _ _ _ _ _ (inv_struct _ _ _ _ _ HI) Ec) as [Hi Hj];
    destruct (inv_focus _ _ _ _ _ _ _ _ HI Ec) as [HF Hw];
    destruct (chain_data_len c Hw) as [Hcl Hbl];
    assert (Em : max_connections_per_slot (tlw w) = mc) by apply HI;
    (destruct fuel as [|fuel]; [exfalso; revert Hf; unfold fragments, tpdu, tpdu_of; rewrite length_app; cbn; lia|]);
    apply Forall_cons_1 in Hok as [[Hne Hfl] Hok].
  - pose proof (process_step fuel i T_DATA_LAST j last [] w Em Hj Hfl) as E. rewrite app_nil_r in E.
    unfold twp, fragments in *. cbn [fmap list_fmap concat app] in *. rewrite E by done. clear E.
    rewrite tpdu_len in Hsz. pose proof (asn_field_len (zlen last + 1)). pose proof (zlen_pos _ Hne).
    change (twp (result ← process_tpdu env ev cb i T_DATA_LAST j last;
      if result <? 0 then mret (-1) else process_loop env ev cb fuel i []) Q w).
    apply twp_bind. change (process_tpdu env ev cb i T_DATA_LAST j last) with (en50221_tl_handle_data_last env cb i j last).
    eapply (twp_data_last env ms mc Hms Hmc); [done|done|lia|done| |].
    + intros Hn. exfalso. apply Hn. split; [done|lia].
    + intros _ w1 Hq1 HI1 _ Ec1. apply twp_bind.
      eapply (twp_deliver ms mc Hms Hmc); [done|done| |].
      2:{ destruct Hq1 as (_ & _ & Ecb). intros [Hn|Hn]; [congruence|lia]. }
      intros _ _ w2 HI2 Hq2 Hc2. rewrite <- Hc2 in Ec1.
      specialize (HQ w2 _ HI2 ltac:(by etrans) Ec1 Ea eq_refl eq_refl eq_refl). cbn [app] in HQ.
      unfold twp, mbind, T_bind in *. destruct (cb _ i j w2) as [[[] w3]|]; [|done].
      destruct (lock_slot i w3) as [[[] w4]|]; [|done]. cbn. by destruct fuel.
  - assert (Hr : zlen (fragments j mores last) < 2 ^ 31).
    { unfold fragments in *. cbn [fmap list_fmap concat] in Hsz. rewrite <- app_assoc, zlen_app in Hsz.
      pose proof (zlen_nonneg (tpdu T_DATA_MORE j f)). pose proof (zlen_nonneg (chain_data c)). lia. }
    assert (Ef : fragments j (f :: mores) last = tpdu T_DATA_MORE j f ++ fragments j mores last).
    { unfold fragments. cbn [fmap list_fmap concat]. by rewrite <- app_assoc. }
    rewrite Ef in *. rewrite zlen_app, tpdu_len in Hsz. rewrite length_app in Hf.
    pose proof (asn_field_len (zlen f + 1)). pose proof (zlen_pos _ Hne).
    pose proof (zlen_nonneg (fragments j mores last)).
    unfold twp. rewrite (process_step fuel i T_DATA_MORE j f _ w Em Hj Hfl Hr).
    change (twp (result ← process_tpdu env ev cb i T_DATA_MORE j f;
      if result <? 0 then mret (-1) else process_loop env ev cb fuel i (fragments j mores last)) Q w).
    apply twp_bind. change (process_tpdu env ev cb i T_DATA_MORE j f) with (en50221_tl_handle_data_more (U := U) env i j f).
    eapply (twp_data_more env ms mc Hms Hmc); [done|done|lia|done| |].
    + intros Hn. exfalso. apply Hn. split; [done|lia].
    + intros _ w1 Hq1 Hlt HF1. cbn. pose proof (wf_chain _ _ (wf_clear_tx_time _ Hw) Ea Hlt) as Hw1.
      eapply IH; [done|by eapply focus_close|by destruct HF1 as (_ & _ & ->)|done| | | |].
      * destruct Hq1 as (_ & _ & ->). done.
      * cbn [chain_data chain_buffer set_chain]. rewrite zlen_app. lia.
      * unfold tpdu, tpdu_of in Hf. cbn in Hf. lia.
      * intros w' c' HI' Hq' Ec' Ea' Ech' Etx' Eq'. cbn [chain_data chain_buffer set_chain].
        rewrite <- app_assoc. rewrite app_assoc with (l := f).
        by eapply (HQ w' c'); [|etrans| | | | |].
Qed.
End deliver.

(** ** The state machine of a connection *)

(** The next state of a connection when a TPDU for it is accepted; [None]: refused. *)
Definition tpdu_next (tag st data_length : Z) : option Z :=
  if tag =? T_C_T_C_REPLY then if st =? T_STATE_IN_CREATION then Some T_STATE_ACTIVE else None
  else if tag =? T_DELETE_T_C then
    if (st =? T_STATE_ACTIVE) || (st =? T_STATE_IN_DELETION) then Some T_STATE_IDLE else None
  else if tag =? T_D_T_C_REPLY then if st =? T_STATE_IN_DELETION then Some T_STATE_IDLE else None
  else if tag =? T_REQUEST_T_C then Some st
  else if (tag =? T_DATA_MORE) || (tag =? T_DATA_LAST) then if st =? T_STATE_ACTIVE then Some st else None
  else if tag =? T_SB then if (st =? T_STATE_ACTIVE) && (data_length =? 1) then Some st else None
  else None.

Section machine.
Context (env : environment) {U : Type} `{!UpperInv U} (ms mc : Z).
Context (Hms : 0 <= ms < 256) (Hmc : 0 <= mc < 256).
Context (ev : Z -> Z -> Z -> U -> U) `{Hev : !EventClient ev} (cb : list Z -> Z -> Z -> T (host U) unit).
Implicit Types (w : world (host U)) (lk : list bool) (g : bool).

Abbreviation tlw w := (tl (w_st w)).
Abbreviation inv := (inv ms mc).
Abbreviation focus := (focus ms mc).

(** The state of every connection. *)
Definition state_at w i j : option Z := state <$> conn_at (tlw w) i j.

(** Refused: only the error is set. *)
Definition bad_data i w w' : Prop :=
  same_conns w w' /\ error (tlw w') = EN50221ERR_BADCAMDATA /\ error_slot (tlw w') = i.
(** Accepted: connection [j] of slot [i] is in state [st], the others where they were. *)
Definition moved i j st w w' : Prop :=
  forall i' j', state_at w' i' j' = if bool_decide (i' = i /\ j' = j) then Some st else state_at w i' j'.

(** A requested connection is the first unused one from 1. *)
Definition first_idle i k w : Prop :=
  1 <= k < mc /\ state_at w i k = Some T_STATE_IDLE /\
  forall k', 1 <= k' < k -> state_at w i k' <> Some T_STATE_IDLE.
Definition same_states w w' : Prop := forall i j, state_at w' i j = state_at w i j.

(** The call of number [n] fails when it is a write to the device. *)
Definition write_fails (n : nat) : bool := link_write_res env n <? 0.
(** The chain of a connection takes [len] bytes more: [realloc] succeeds, which it does
    not with size 0 of a buffer there is, and the length stays an [int]. *)
Definition chain_grows (n : nat) (c : en50221_connection) (len : Z) : bool :=
  malloc_ok env n && (buffer_length c + len <? 2 ^ 31) &&
  ((0 <? buffer_length c + len) || match chain_buffer c with PNull => true | _ => false end).

(** The error of the system a TPDU accepted on connection [c] ends with, if any, the next
    call to the system being number [n]. *)
Definition system_error (tag : Z) (c : en50221_connection) (data : list Z) (n : nat) : option Z :=
  if tag =? T_DELETE_T_C then if write_fails n then Some EN50221ERR_CAWRITE else None
  else if tag =? T_DATA_MORE then if chain_grows n c (zlen data) then None else Some EN50221ERR_OUTOFMEMORY
  else if tag =? T_SB then
    if negb (Z.land (default 0 (zget data 0)) 0x80 =? 0) && write_fails n then Some EN50221ERR_CAWRITE else None
  else None.
(** What is returned: 0, or -1 with the error and the slot noted. *)
Definition returned i (e : option Z) (r : Z) w' : Prop :=
  match e with
  | None => r = 0
  | Some e => r = -1 /\ error (tlw w') = e /\ error_slot (tlw w') = i
  end.

(** A request for a connection: the first unused one is announced, then created, in two
    writes; the connection is unused again when one of them fails.  With none unused the
    refusal is written. *)
Definition requested i w (r : Z) w' : Prop :=
  let n := w_tick w in
  (exists k, first_idle i k w /\
     if write_fails n || write_fails (link_write_next env n)
     then returned i (Some EN50221ERR_CAWRITE) r w' /\ same_states w w'
     else r = 0 /\ moved i k T_STATE_IN_CREATION w w') \/
  (forall k, ~ first_idle i k w) /\ same_states w w' /\
    returned i (if write_fails n then Some EN50221ERR_CAWRITE else None) r w'.
Definition accepted tag i j c data st w (r : Z) w' : Prop :=
  if tag =? T_REQUEST_T_C then requested i w r w'
  else moved i j st w w' /\ returned i (system_error tag c data (w_tick w)) r w'.

Lemma twp_bad_data i w :
  twp (fail i EN50221ERR_BADCAMDATA) (fun r w' => r = -1 /\ bad_data i w w') w.
Proof.
  unfold fail. apply twp_bind, twp_mod_tl, twp_bind, twp_mod_tl, twp_ret. done.
Qed.
Lemma twp_system_error i e (Q : Z -> world (host U) -> Prop) w :
  (forall w', same_conns w w' -> returned i (Some e) (-1) w' -> Q (-1) w') -> twp (fail i e) Q w.
Proof.
  intros HQ. unfold fail. apply twp_bind, twp_mod_tl, twp_bind, twp_mod_tl, twp_ret. by apply HQ.
Qed.

(** Only [n] is seen of the number of the next call. *)
Lemma twp_slot_write_at i j data len lk g (Q : Z -> world (host U) -> Prop) w n :
  struct ms mc lk g w -> 0 <= i < ms -> u16 len <= zlen data -> w_tick w = n ->
  (forall w', w_st w' = w_st w -> w_tick w' = link_write_next env n -> Q (link_write_res env n) w') ->
  twp (slot_write env i j data len) Q w.
Proof.
  intros Hs Hi Hl <- HQ. unfold slot_write. apply twp_bind. eapply twp_get_slot; [done|done|].
  intros s _. by apply twp_dvbca_link_write_at.
Qed.

Lemma realloc_chain_grows n c len r old :
  conn_wf c -> 0 <= len < 65536 ->
  realloc (malloc_ok env n) (chain_buffer c) (s32 (buffer_length c + len)) = Some (r, old) ->
  chain_grows n c len = match r with Some _ => true | None => false end.
Proof.
  intros Hw Hn. destruct (chain_data_len c Hw) as [Hd Hb]. destruct Hw as [_ Hc _].
  assert (Hs : s32 (buffer_length c + len) = buffer_length c + len /\ buffer_length c + len < 2 ^ 31 \/
    s32 (buffer_length c + len) < 0 /\ 2 ^ 31 <= buffer_length c + len).
  { unfold s32. rewrite u32_small by lia. case_decide; lia. }
  unfold chain_ok, chain_data, realloc, chain_grows in *.
  destruct (malloc_ok env n), (chain_buffer c) as [|l|]; cbn [andb]; repeat case_match; try done;
    intros; simplify_eq; lia.
Qed.

Lemma moved_focus i j c' w w' :
  conn_at (tlw w') i j = Some c' ->
  (forall i' j', ~ only_at i j i' j' -> conn_at (tlw w') i' j' = conn_at (tlw w) i' j') ->
  moved i j (state c') w w'.
Proof.
  intros Ec Ho i' j'. case_bool_decide as Hd.
  - destruct Hd as [-> ->]. unfold state_at. by rewrite Ec.
  - unfold state_at. by rewrite Ho.
Qed.
Lemma moved_trans i j st st' w w1 w' : moved i j st w w1 -> moved i j st' w1 w' -> moved i j st' w w'.
Proof. intros H1 H2 i' j'. rewrite H2, H1. by case_bool_decide. Qed.
Lemma moved_st i j st w w1 w' : moved i j st w w1 -> w_st w' = w_st w1 -> moved i j st w w'.
Proof. intros H E i' j'. rewrite <- H. unfold state_at. by rewrite E. Qed.
Lemma moved_tl i j st w w1 w' : moved i j st w w1 -> tlw w' = tlw w1 -> moved i j st w w'.
Proof. intros H E i' j'. rewrite <- H. unfold state_at. by rewrite E. Qed.

Lemma moved_same i j st w w1 w' : moved i j st w w1 -> same_states w1 w' -> moved i j st w w'.
Proof. intros H E i' j'. by rewrite E, H. Qed.
Lemma same_trans w w1 w' : same_states w w1 -> same_states w1 w' -> same_states w w'.
Proof. intros H E i' j'. by rewrite E, H. Qed.
Lemma same_states_st w w' : w_st w' = w_st w -> same_states w w'.
Proof. intros E i j. unfold state_at. by rewrite E. Qed.
Lemma same_states_conns w w' : same_conns w w' -> same_states w w'.
Proof. intros E i j. unfold state_at. by rewrite E. Qed.
Lemma same_states_tl w w' : tlw w' = tlw w -> same_states w w'.
Proof. intros E i j. unfold state_at. by rewrite E. Qed.
#[local] Hint Resolve same_states_st same_states_conns same_states_tl : bgt.

(** [mod_conn] as a move. *)
Lemma twp_move lk g i j c f (Q : unit -> world (host U) -> Prop) w :
  focus lk g i j c w ->
  (forall w', focus lk g i j (f c) w' -> moved i j (state (f c)) w w' -> w_tick w' = w_tick w -> Q tt w') ->
  twp (mod_conn i j f) Q w.
Proof.
  intros HF HQ. apply twp_keeps_tick; [exact _|]. eapply twp_mod_conn; [exact HF|]. intros w' HF' [_ Ho] Ht.
  apply HQ; [done| |done]. eapply moved_focus; [|done]. by destruct HF' as (_ & _ & ->).
Qed.
Lemma moved_self lk g i j c w : focus lk g i j c w -> moved i j (state c) w w.
Proof. intros HF. eapply moved_focus; [|done]. by destruct HF as (_ & _ & ->). Qed.

Lemma machine_create_tc_reply i j c data lk g w :
  focus lk g i j c w -> conn_wf c ->
  twp (en50221_tl_handle_create_tc_reply ev i j) (fun r w' =>
    match tpdu_next T_C_T_C_REPLY (state c) (zlen data) with
    | None => r = -1 /\ bad_data i w w' | Some st => accepted T_C_T_C_REPLY i j c data st w r w' end) w.
Proof.
  intros HF Hw. unfold en50221_tl_handle_create_tc_reply. apply twp_bind. eapply twp_get_conn; [done|].
  unfold tpdu_next. cbn [Z.eqb]. change (T_C_T_C_REPLY =? T_C_T_C_REPLY) with true. cbn iota.
  destruct (state c =? T_STATE_IN_CREATION) eqn:Es; [|apply twp_bad_data].
  apply twp_bind. eapply twp_move; [done|]. intros w1 HF1 Hm1 _. apply twp_bind. eapply twp_move; [done|].
  intros w2 HF2 Hm2 _. apply twp_bind. eapply (twp_notify ms mc ev).
  { eapply focus_close; [exact HF2|]. apply Z.eqb_eq in Es. apply wf_clear_tx_time, wf_idle_state; rewrite ?Es; auto with bgt; done. }
  intros w3 _ Et. apply twp_ret. split; [|done].
  eapply moved_same; [|eauto with bgt]. by eapply moved_trans.
Qed.

Lemma machine_delete_tc i j c data lk g w :
  focus lk g i j c w -> conn_wf c ->
  twp (en50221_tl_handle_delete_tc env ev i j) (fun r w' =>
    match tpdu_next T_DELETE_T_C (state c) (zlen data) with
    | None => r = -1 /\ bad_data i w w' | Some st => accepted T_DELETE_T_C i j c data st w r w' end) w.
Proof.
  intros HF Hw. destruct (focus_range _ _ _ _ _ _ _ _ HF) as [Hi Hj].
  unfold en50221_tl_handle_delete_tc. apply twp_bind. eapply twp_get_conn; [done|].
  change (tpdu_next T_DELETE_T_C (state c) (zlen data)) with
    (if (state c =? T_STATE_ACTIVE) || (state c =? T_STATE_IN_DELETION) then Some T_STATE_IDLE else None).
  rewrite state_mask by apply Hw. cbn -[Z.eqb]. rewrite !andb_false_r, !andb_true_r, !orb_false_l, !orb_false_r.
  destruct (_ || _) eqn:Es; [|apply twp_bad_data].
  change (accepted T_DELETE_T_C i j c data T_STATE_IDLE w) with (fun r w' => moved i j T_STATE_IDLE w w' /\
    returned i (if write_fails (w_tick w) then Some EN50221ERR_CAWRITE else None) r w').
  apply twp_bind. eapply twp_move; [done|]. intros w1 HF1 Hm1 Ht1.
  apply twp_bind. unfold drop_chain. apply twp_bind. eapply twp_get_conn; [done|].
  apply twp_bind. eapply (twp_lift _ tt); [apply wf_not_freed in Hw; cbn; by destruct (chain_buffer c)|].
  eapply twp_move; [exact HF1|]. intros w2 HF2 Hm2 Ht2.
  apply twp_bind. eapply twp_slot_write_at; [by eapply focus_struct|done|done|by rewrite Ht2|]. intros w3 E3 _.
  assert (Hm3 : moved i j T_STATE_IDLE w w3) by (eapply moved_same; [by eapply moved_trans|eauto with bgt]).
  unfold write_fails. apply twp_if; intros ->.
  { apply twp_system_error. intros w4 Hc4 Hr4. split; [|done]. eapply moved_same; eauto with bgt. }
  assert (HI3 : inv lk g w3).
  { eapply inv_st, focus_close; [done|done|]. apply (wf_state _ (set_chain PNull 0 c));
      [by apply wf_null_chain|auto with bgt| |done|by left].
    cbn. intros E'. by rewrite E' in Es. }
  apply twp_bind. eapply (twp_notify ms mc ev); [done|]. intros w4 _ E4. apply twp_ret. split; [|done].
  eapply moved_same; eauto with bgt.
Qed.

Lemma machine_delete_tc_reply i j c data lk g w :
  focus lk g i j c w ->
  twp (en50221_tl_handle_delete_tc_reply i j) (fun r w' =>
    match tpdu_next T_D_T_C_REPLY (state c) (zlen data) with
    | None => r = -1 /\ bad_data i w w' | Some st => accepted T_D_T_C_REPLY i j c data st w r w' end) w.
Proof.
  intros HF. unfold en50221_tl_handle_delete_tc_reply. apply twp_bind. eapply twp_get_conn; [done|].
  change (tpdu_next T_D_T_C_REPLY (state c) (zlen data)) with
    (if state c =? T_STATE_IN_DELETION then Some T_STATE_IDLE else None).
  destruct (state c =? T_STATE_IN_DELETION); [|apply twp_bad_data].
  apply twp_bind. eapply twp_move; [done|]. intros w1 HF1 Hm1 _. by apply twp_ret.
Qed.

Lemma machine_data_more i j c data lk g w :
  focus lk g i j c w -> conn_wf c -> zlen data < 65536 ->
  twp (en50221_tl_handle_data_more env i j data) (fun r w' =>
    match tpdu_next T_DATA_MORE (state c) (zlen data) with
    | None => r = -1 /\ bad_data i w w' | Some st => accepted T_DATA_MORE i j c data st w r w' end) w.
Proof.
  intros HF Hw Hd. unfold en50221_tl_handle_data_more. apply twp_bind. eapply twp_get_conn; [done|].
  change (tpdu_next T_DATA_MORE (state c) (zlen data)) with
    (if state c =? T_STATE_ACTIVE then Some (state c) else None).
  destruct (state c =? T_STATE_ACTIVE); [|apply twp_bad_data]. cbn [negb].
  change (accepted T_DATA_MORE i j c data (state c) w) with (fun r w' => moved i j (state c) w w' /\
    returned i (if chain_grows (w_tick w) c (zlen data) then None else Some EN50221ERR_OUTOFMEMORY) r w').
  apply twp_bind. eapply twp_move; [done|]. intros w1 HF1 Hm1 Ht1.
  apply twp_bind, twp_malloc. intros w2 E2 _. pose proof (focus_st _ _ _ _ _ _ _ _ _ E2 HF1) as HF2.
  pose proof (zlen_nonneg data).
  destruct (realloc_chain (malloc_ok env (w_tick w1)) c (zlen data) Hw) as (r & old & Er & Hr); [lia|].
  rewrite <- Ht1, (realloc_chain_grows _ _ (zlen data) _ _ Hw ltac:(lia) Er).
  apply twp_bind. eapply twp_lift; [exact Er|]. cbn beta iota. destruct r as [buf|].
  - destruct Hr as (Ei & El & Hlt & Et). apply twp_bind. eapply twp_lift; [by apply copy_chain|].
    apply twp_bind. eapply twp_move; [exact HF2|]. intros w3 HF3 Hm3 _. apply twp_ret. split; [|done].
    eapply moved_trans; [|exact Hm3]. eapply moved_same; eauto with bgt.
  - apply twp_bind. eapply twp_move; [exact HF2|]. intros w3 HF3 Hm3 _.
    apply twp_system_error. intros w4 Hc4 Hr4. split; [|done]. eapply moved_same; [|by apply same_states_conns].
    eapply moved_trans; [|exact Hm3]. eapply moved_same; eauto with bgt.
Qed.

Lemma machine_sb i j c data lk g w :
  focus lk g i j c w -> conn_wf c ->
  twp (en50221_tl_handle_sb env i j data) (fun r w' =>
    match tpdu_next T_SB (state c) (zlen data) with
    | None => r = -1 /\ bad_data i w w' | Some st => accepted T_SB i j c data st w r w' end) w.
Proof.
  intros HF Hw. destruct (focus_range _ _ _ _ _ _ _ _ HF) as [Hi Hj].
  unfold en50221_tl_handle_sb. apply twp_bind. eapply twp_get_conn; [done|].
  change (tpdu_next T_SB (state c) (zlen data)) with
    (if (state c =? T_STATE_ACTIVE) && (zlen data =? 1) then Some (state c) else None).
  destruct (state c =? T_STATE_ACTIVE); [|apply twp_bad_data]. cbn [negb andb].
  destruct (zlen data =? 1) eqn:El; [|apply twp_bad_data]. cbn [negb].
  pose proof (zget_in data 0 ltac:(lia)) as Eb. apply twp_bind. eapply twp_lift; [exact Eb|].
  change (accepted T_SB i j c data (state c) w) with (fun r w' => moved i j (state c) w w' /\
    returned i (if negb (Z.land (default 0 (zget data 0)) 0x80 =? 0) && write_fails (w_tick w)
                then Some EN50221ERR_CAWRITE else None) r w').
  rewrite Eb. cbn [default id]. unfold write_fails. apply twp_if; intros ->; cbn [andb].
  - apply twp_bind. eapply twp_slot_write_at; [by eapply focus_struct|done|done|done|]. intros w1 E1 _.
    pose proof (focus_st _ _ _ _ _ _ _ _ _ E1 HF) as HF1.
    assert (Hm1 : moved i j (state c) w w1) by (eapply moved_same; [by eapply moved_self|eauto with bgt]).
    apply twp_if; intros ->.
    { apply twp_system_error. intros w2 Hc2 Hr2. split; [|done]. eapply moved_same; eauto with bgt. }
    unfold stamp_tx. apply twp_bind, twp_bind, twp_gettimeofday. intros v w2 E2.
    pose proof (focus_st _ _ _ _ _ _ _ _ _ E2 HF1) as HF2.
    eapply twp_move; [exact HF2|]. intros w3 HF3 Hm3 _. apply twp_ret. split; [|done].
    eapply moved_trans; [|exact Hm3]. eapply moved_same; eauto with bgt.
  - apply twp_bind. eapply twp_move; [exact HF|]. intros w3 HF3 Hm3 _. by apply twp_ret.
Qed.

(** Setting [tx_time] changes no state. *)
Lemma twp_tx_same v i j lk g (Q : unit -> world (host U) -> Prop) w :
  inv lk g w -> 0 <= i < ms -> 0 <= j < mc ->
  (forall w', inv lk g w' -> same_states w w' -> w_tick w' = w_tick w -> Q tt w') ->
  twp (mod_conn i j (fun c => set_tx_time (v c) c)) Q w.
Proof.
  intros HI Hi Hj HQ. destruct (inv_open _ _ _ _ i j _ HI) as (c & HF & Hw); [done|done|].
  eapply twp_move; [exact HF|]. intros w' HF' Hm Ht. apply HQ; [by eapply focus_close, wf_tx_time| |done].
  intros i' j'. rewrite Hm. case_bool_decide as Hd; [|done]. destruct Hd as [-> ->].
  destruct HF as (_ & _ & Ec). unfold state_at. by rewrite Ec.
Qed.

Lemma moved_back i k st w w1 w' :
  state_at w i k = Some T_STATE_IDLE -> moved i k st w w1 -> moved i k T_STATE_IDLE w1 w' -> same_states w w'.
Proof. intros E H1 H2 i' j'. rewrite H2, H1. case_bool_decide as Hd; [|done]. by destruct Hd as [-> ->]. Qed.

(** The connection that was to be created is unused again. *)
Lemma twp_request_back i k lk g w w1 (Q : Z -> world (host U) -> Prop) :
  state_at w i k = Some T_STATE_IDLE -> moved i k T_STATE_IN_CREATION w w1 -> inv lk g w1 ->
  (forall w', returned i (Some EN50221ERR_CAWRITE) (-1) w' -> same_states w w' -> Q (-1) w') ->
  twp (mod_conn i k (set_state T_STATE_IDLE);; fail i EN50221ERR_CAWRITE) Q w1.
Proof.
  intros Ei Hm HI HQ. pose proof (Hm i k) as E1. rewrite bool_decide_eq_true_2 in E1 by done.
  unfold state_at in E1. destruct (conn_at (tlw w1) i k) as [c1|] eqn:Ec1; [|done].
  destruct (inv_focus _ _ _ _ _ _ _ _ HI Ec1) as [HF _].
  apply twp_bind. eapply twp_move; [exact HF|]. intros w2 _ Hm2 _.
  apply twp_system_error. intros w3 Hc3 Hr3. apply HQ; [done|].
  eapply same_trans; [by eapply moved_back|eauto with bgt].
Qed.

#[local] Instance keeps_tick_get_conn i j : KeepsTick (get_conn (U := U) i j).
Proof. unfold get_conn, get_slot, get_tl. exact _. Qed.
#[local] Instance keeps_tick_alloc i : KeepsTick (en50221_tl_alloc_new_tc (U := U) i).
Proof.
  unfold en50221_tl_alloc_new_tc. apply keeps_tick_bind; [unfold get_tl; exact _|intros t].
  apply keeps_tick_bind; [exact _|]. intros [k|]; [|exact _].
  repeat (apply keeps_tick_bind; [unfold mod_conn, upd_slot, upd_tl; exact _|intros _]). exact _.
Qed.

Lemma machine_request_tc i j lk g w :
  inv lk g w -> 0 <= i < ms -> 0 <= j < mc ->
  twp (en50221_tl_handle_request_tc env ev i j) (requested i w) w.
Proof.
  intros HI Hi Hj. unfold en50221_tl_handle_request_tc, requested. apply twp_bind, twp_keeps_tick; [exact _|].
  eapply (twp_alloc_new_tc ms mc Hms Hmc); [done|done| |].
  - intros Hnone _. apply twp_if; [intros _|done]. apply twp_bind.
    assert (Hn : forall k, ~ first_idle i k w).
    { intros k (Hk & Es & _). unfold state_at in Es. destruct (conn_at (tlw w) i k) as [c|] eqn:Ec; [|done].
      injection Es as Es. by eapply Hnone. }
    eapply twp_slot_write_at; [by apply inv_struct|done|done|done|]. intros w1 E1 _.
    unfold write_fails. apply twp_if; intros ->.
    { apply twp_system_error. intros w2 Hc2 Hr2. right. split; [done|]. split; [|done].
      apply (same_trans w w1); eauto with bgt. }
    apply twp_bind. eapply twp_tx_same; [by eapply inv_st|done|done|]. intros w2 _ Hs2 _. apply twp_ret. right.
    split; [done|]. split; [|done]. apply (same_trans w w1); eauto with bgt.
  - intros k c w1 Hk Ec Es HF [Hbefore Ho] Ht1. apply twp_if; [lia|intros _].
    pose proof (inv_focus _ _ _ _ _ _ _ _ HI Ec) as [_ Hw].
    pose proof (focus_close _ _ _ _ _ _ _ _ HF (wf_new_connection _ Hw Es)) as HI1.
    assert (Hm : moved i k T_STATE_IN_CREATION w w1).
    { assert (E : conn_at (tlw w1) i k = Some (set_chain PNull 0 (set_state T_STATE_IN_CREATION c)))
        by (by destruct HF as (_ & _ & ->)).
      by pose proof (moved_focus _ _ _ _ _ E Ho) as Hm. }
    assert (Eidle : state_at w i k = Some T_STATE_IDLE) by (unfold state_at; by rewrite Ec, <- Es).
    eapply twp_mono with (Q := fun r w' =>
      if write_fails (w_tick w) || write_fails (link_write_next env (w_tick w))
      then returned i (Some EN50221ERR_CAWRITE) r w' /\ same_states w w'
      else r = 0 /\ moved i k T_STATE_IN_CREATION w w').
    2:{ intros r w' HQ. left. exists k. split; [|exact HQ]. split; [done|]. split; [done|].
      intros k' Hk' E'. unfold state_at in E'. destruct (conn_at (tlw w) i k') as [c'|] eqn:Ec'; [|done].
      injection E' as E'. by eapply Hbefore. }
    clear HF Ec Es Hbefore Ho. unfold write_fails.
    apply twp_bind. eapply twp_slot_write_at; [by apply inv_struct|done|done|exact Ht1|]. intros w2 E2 Ht2.
    pose proof (inv_st _ _ _ _ _ _ E2 HI1) as HI2.
    assert (Hm2 : moved i k T_STATE_IN_CREATION w w2) by (eapply moved_same; eauto with bgt).
    apply twp_if; intros ->; cbn [orb]; [by eapply twp_request_back|].
    apply twp_bind. eapply twp_tx_same; [done|done|done|]. intros w3 HI3 Hs3 Ht3.
    apply twp_bind.
    eapply (twp_slot_write_at _ _ _ _ _ _ _ _ (link_write_next env (w_tick w))); [by apply inv_struct|done|done|by rewrite Ht3, Ht2|]. intros w4 E4 _.
    pose proof (inv_st _ _ _ _ _ _ E4 HI3) as HI4.
    assert (Hm4 : moved i k T_STATE_IN_CREATION w w4)
      by (eapply moved_same; [by eapply moved_same|eauto with bgt]).
    apply twp_if; intros ->; [by eapply twp_request_back|].
    unfold stamp_tx. apply twp_bind, twp_bind, twp_gettimeofday. intros v w5 E5.
    eapply (twp_tx_same (fun _ => v)); [by eapply inv_st|done|lia|]. intros w6 HI6 Hs6 _.
    apply twp_bind. eapply (twp_notify ms mc ev); [done|]. intros w7 _ E7. apply twp_ret. split; [done|].
    eapply moved_same; [exact Hm4|]. apply (same_trans w4 w5); [eauto with bgt|].
    apply (same_trans w5 w6); eauto with bgt.
Qed.

End machine.

(** C28: The state machine.  A TPDU for a connection that its state does not admit is
    refused with BADCAMDATA and changes no connection; one it admits moves exactly its
    own connection to the next state of [tpdu_next].  0 is returned, except in two cases:
    -1 with CAWRITE when the answer to a DELETE_T_C or to a status with data waiting
    cannot be written (the connection is deleted all the same), and -1 with OUTOFMEMORY
    when the chain does not take the fragment of a DATA_MORE ([chain_grows]).  A request
    for a connection moves the first unused connection from 1 to IN_CREATION, or none
    when all are in use; when one of its writes fails it returns -1 with CAWRITE and
    every connection is in the state it was in.  ([T_DATA_LAST], which calls the client,
    is the subject of the delivery theorem.) *)
Theorem en50221_tl_state_machine (env : environment) {U} `{!UpperInv U} (ev : Z -> Z -> Z -> U -> U) `{!EventClient ev}
    (cb : list Z -> Z -> Z -> T (host U) unit) ms mc lk g (w : world (host U)) i j c tag data :
  0 <= ms < 256 -> 0 <= mc < 256 ->
  inv ms mc lk g w -> conn_at (tl (w_st w)) i j = Some c -> zlen data < 65536 -> tag <> T_DATA_LAST ->
  exists r w', process_tpdu env ev cb i tag j data w = Some (r, w') /\
    match tpdu_next tag (state c) (zlen data) with
    | None => r = -1 /\ bad_data i w w'
    | Some st => accepted env mc tag i j c data st w r w'
    end.
Proof.
  intros Hms Hmc HI Ec Hd Htag. apply twp_run.
  destruct (conn_at_range _ _ _ _ _ _ _ _ (inv_struct _ _ _ _ _ HI) Ec) as [Hi Hj].
  destruct (inv_focus _ _ _ _ _ _ _ _ HI Ec) as [HF Hw]. unfold process_tpdu.
  destruct (tag =? T_C_T_C_REPLY) eqn:E1; [apply Z.eqb_eq in E1 as ->; by apply (machine_create_tc_reply env ms mc ev i j c data lk g w)|].
  destruct (tag =? T_DELETE_T_C) eqn:E2; [apply Z.eqb_eq in E2 as ->; by eapply machine_delete_tc|].
  destruct (tag =? T_D_T_C_REPLY) eqn:E3; [apply Z.eqb_eq in E3 as ->; by eapply machine_delete_tc_reply|].
  destruct (tag =? T_REQUEST_T_C) eqn:E4; [apply Z.eqb_eq in E4 as ->; exact (machine_request_tc env ms mc Hms Hmc ev cb i j lk g w HI Hi Hj)|].
  destruct (tag =? T_DATA_MORE) eqn:E5; [apply Z.eqb_eq in E5 as ->; exact (machine_data_more env ms mc Hms Hmc cb i j c data lk g w HF Hw Hd)|].
  destruct (tag =? T_DATA_LAST) eqn:E6; [lia|].
  destruct (tag =? T_SB) eqn:E7; [apply Z.eqb_eq in E7 as ->; exact (machine_sb env ms mc Hms Hmc cb i j c data lk g w HF Hw)|].
  unfold tpdu_next. rewrite E1, E2, E3, E4, E5, E6, E7. apply twp_bad_data.
Qed.

(** ** Delivery and sending *)

Lemma chained_message (env : environment) {U} `{!UpperInv U} (ev : Z -> Z -> Z -> U -> U) `{!EventClient ev}
    (cb : list Z -> Z -> Z -> T (host U) unit) ms mc `{!DataClient ms mc cb} lk (w : world (host U)) i j c mores last :
  0 <= ms < 256 -> 0 <= mc < 256 -> (forall n, malloc_ok env n = true) ->
  inv ms mc lk false w -> entry lk i = Some true ->
  conn_at (tl (w_st w)) i j = Some c -> state c = T_STATE_ACTIVE -> chain_buffer c = PNull ->
  callback (tl (w_st w)) = true ->
  Forall fragment_ok (mores ++ [last]) -> zlen (fragments j mores last) < 2 ^ 31 ->
  exists w1 c1 w2 w3,
    inv ms mc (<[Z.to_nat i := false]> lk) false w1 /\ quiet w w1 /\
    conn_at (tl (w_st w1)) i j = Some c1 /\ state c1 = T_STATE_ACTIVE /\ chain_buffer c1 = PNull /\
    tv_sec (tx_time c1) = 0 /\ send_queue c1 = send_queue c /\
    cb (concat mores ++ last) i j w1 = Some (tt, w2) /\ lock_slot i w2 = Some (tt, w3) /\
    en50221_tl_process_data env ev cb i (fragments j mores last) w = Some (0, w3).
Proof.
  intros Hms Hmc Ha HI Hl Ec Es Hch Hcb Hok Hsz.
  assert (Hcd : chain_data c = []) by (unfold chain_data; by rewrite Hch).
  assert (H : twp (process_loop env ev cb (length (fragments j mores last)) i (fragments j mores last))
    (fun r w3 => exists w1 c1 w2,
      (inv ms mc (<[Z.to_nat i := false]> lk) false w1 /\ quiet w w1 /\
      conn_at (tl (w_st w1)) i j = Some c1 /\ state c1 = T_STATE_ACTIVE /\ chain_buffer c1 = PNull /\
      tv_sec (tx_time c1) = 0 /\ send_queue c1 = send_queue c /\
      cb (concat mores ++ last) i j w1 = Some (tt, w2) /\ lock_slot i w2 = Some (tt, w3)) /\ r = 0) w).
  { eapply (process_fragments env ms mc Hms Hmc ev cb Ha); [done..|rewrite Hcd, zlen_nil; lia|done|].
    intros w1 c1 HI1 Hq Ec1 Es1 Hch1 Htx Hsq. rewrite Hcd. cbn [app].
    destruct (conn_at_range _ _ _ _ _ _ _ _ (inv_struct _ _ _ _ _ HI1) Ec1) as [_ Hj].
    destruct (twp_run _ _ _ (client_inv (concat mores ++ last) i j _ w1 HI1 (entry_unlocked _ _ Hl) Hj
      ltac:(pose proof (fragments_len j mores last); lia)))
      as ([] & w2 & E2 & HI2).
    apply twp_bind. eapply twp_intro; [exact E2|]. apply twp_bind.
    assert (Hlk : twp (lock_slot i) (fun _ w' => inv ms mc lk false w') w2).
    { eapply twp_lock_slot; [exact HI2|by apply entry_unlocked|]. intros w3 HI3 _ _. by rewrite lock_unlock in HI3. }
    destruct (twp_run _ _ _ Hlk) as ([] & w3 & E3 & _). eapply twp_intro; [exact E3|]. apply twp_ret.
    exists w1, c1, w2. done. }
  destruct (twp_run _ _ _ H) as (r & w3 & E & w1 & c1 & w2 & H1 & ->). exists w1, c1, w2, w3.
  destruct H1 as (? & ? & ? & ? & ? & ? & ? & ? & ?). done.
Qed.

(** C27: Chained messages.  As long as memory can be had, and whatever the sizes of its
    fragments from 1 to 65534 bytes, a message of less than 2^31 bytes with its headers, sent
    to an active connection without a pending chain as DATA_MORE TPDUs and a DATA_LAST TPDU,
    reaches the data callback in one call, as the concatenation of the fragments, with
    the slot unlocked, the chain empty again, the connection waiting for nothing and
    nothing written; 0 is returned once the callback is done and the slot is locked. *)
Theorem en50221_tl_chained_message (env : environment) {U} `{!UpperInv U} (ev : Z -> Z -> Z -> U -> U) `{!EventClient ev}
    (cb : list Z -> Z -> Z -> T (host U) unit) ms mc `{!DataClient ms mc cb} lk (w : world (host U)) i j c mores last :
  0 <= ms < 256 -> 0 <= mc < 256 -> (forall n, malloc_ok env n = true) ->
  inv ms mc lk false w -> entry lk i = Some true ->
  conn_at (tl (w_st w)) i j = Some c -> state c = T_STATE_ACTIVE -> chain_buffer c = PNull ->
  callback (tl (w_st w)) = true ->
  Forall fragment_ok (mores ++ [last]) -> zlen (fragments j mores last) < 2 ^ 31 ->
  exists w1 c1 w2 w3,
    inv ms mc (<[Z.to_nat i := false]> lk) false w1 /\ quiet w w1 /\
    conn_at (tl (w_st w1)) i j = Some c1 /\ state c1 = T_STATE_ACTIVE /\ chain_buffer c1 = PNull /\
    tv_sec (tx_time c1) = 0 /\ send_queue c1 = send_queue c /\
    cb (concat mores ++ last) i j w1 = Some (tt, w2) /\ lock_slot i w2 = Some (tt, w3) /\
    en50221_tl_process_data env ev cb i (fragments j mores last) w = Some (0, w3).
Proof. by apply chained_message. Qed.

(** Why sending is refused, if it is. *)
Definition send_error {U} ms (w : world (host U)) (i j : Z) : option Z :=
  if (ms <=? i) || (hndl_at w i =? -1) then Some EN50221ERR_BADSLOTID
  else match conn_at (tl (w_st w)) i j with
       | Some c => if state c =? T_STATE_ACTIVE then None else Some EN50221ERR_BADCONNECTIONID
       | None => Some EN50221ERR_BADCONNECTIONID
       end.

(** C29: Sending.  On every branch of [en50221_tl_send_datav]: an unregistered slot gives -1
    and BADSLOTID, a connection that does not exist or is not active -1 and
    BADCONNECTIONID, a failed allocation -1 and OUTOFMEMORY, each with nothing else
    changed and the lock released; otherwise 0, with one message appended to the queue of
    that connection and nothing else changed.  Its bytes are the DATA_LAST TPDU of the
    concatenated vectors when these are fewer than 65535 bytes; the length field is a
    [uint16_t], so that with more the same bytes follow a length taken modulo 65536. *)
Theorem en50221_tl_send_datav_correct (env : environment) {U} `{!UpperInv U} ms mc lk g (w : world (host U)) i j (vector : list (list Z)) :
  0 <= ms < 256 -> 0 <= mc < 256 -> inv ms mc lk g w -> 0 <= i -> 0 <= j -> (i < ms -> entry lk i = Some false) ->
  zlen (concat vector) < 2 ^ 32 - 10 ->
  exists r w', en50221_tl_send_datav env i j vector w = Some (r, w') /\
    match send_error ms w i j with
    | Some e => r = -1 /\ refused ms mc lk g e w w'
    | None => r = -1 /\ refused ms mc lk g EN50221ERR_OUTOFMEMORY w w' /\ ~ (forall n, malloc_ok env n = true) \/
        r = 0 /\ exists m, queued ms mc lk g i j m w w' /\
          m_bytes m = tpdu_of (u16 (zlen (concat vector) + 1)) T_DATA_LAST j (concat vector) /\
          (zlen (concat vector) < 65535 -> m_bytes m = tpdu T_DATA_LAST j (concat vector))
    end.
Proof.
  intros Hms Hmc HI Hi Hj Hl Hz. apply twp_run.
  assert (Hsome : forall c, i < ms -> hndl_at w i <> -1 -> conn_at (tl (w_st w)) i j = Some c ->
    state c = T_STATE_ACTIVE -> send_error ms w i j = None).
  { intros c Hlt Hh Ec Es. unfold send_error. rewrite Ec, Es. destruct (_ || _) eqn:E; [lia|done]. }
  eapply (twp_send_datav env ms mc Hms Hmc); [done..| | | |].
  - intros Hbad w' Hr. unfold send_error. destruct (_ || _) eqn:E; [done|].
    apply orb_false_iff in E as [E1 E2]. lia.
  - intros Hlt Hh Hna w' Hr. unfold send_error. destruct (_ || _) eqn:E; [lia|].
    destruct (conn_at _ i j) as [c|] eqn:Ec; [|done]. destruct (state c =? _) eqn:Es; [|done].
    exfalso. apply (Hna c eq_refl). lia.
  - intros c Hlt Hh Ec Es Hn w' Hr. rewrite Hsome with (c := c) by done. by left.
  - intros c m w' Hlt Hh Ec Es Hq Hb. rewrite Hsome with (c := c) by done. right. split; [done|]. exists m.
    split; [done|]. split; [exact Hb|]. intros Hs. by rewrite Hb, tpdu_queued_eq.
Qed.

Lemma queued_msg_wf {U} `{!UpperInv U} ms mc lk g i j m (w w2 : world (host U)) :
  queued ms mc lk g i j m w w2 -> msg_wf m.
Proof.
  intros (HI2 & _ & (c & _ & Ec2) & _).
  destruct (inv_focus _ _ _ _ _ _ _ _ HI2 Ec2) as [_ [_ _ [Hf _]]]. cbn in Hf.
  apply Forall_app in Hf as [_ Hf]. by apply Forall_cons_1 in Hf as [? _].
Qed.

(** A message with a TPDU of data is delivered by the peer that processes it. *)
Lemma message_arrives (env' : environment) {U'} `{!UpperInv U'}
    (ev : Z -> Z -> Z -> U' -> U') `{!EventClient ev} (cb : list Z -> Z -> Z -> T (host U') unit) ms' mc' `{!DataClient ms' mc' cb}
    j data m lk' (v : world (host U')) i' c' :
  msg_wf m -> m_bytes m = tpdu T_DATA_LAST j data -> 0 < zlen data < 65525 ->
  0 <= ms' < 256 -> 0 <= mc' < 256 -> (forall n, malloc_ok env' n = true) ->
  inv ms' mc' lk' false v -> entry lk' i' = Some true -> conn_at (tl (w_st v)) i' j = Some c' ->
  state c' = T_STATE_ACTIVE -> chain_buffer c' = PNull -> callback (tl (w_st v)) = true ->
  exists v1 v2 v3, quiet v v1 /\ cb data i' j v1 = Some (tt, v2) /\ lock_slot i' v2 = Some (tt, v3) /\
    inv ms' mc' (<[Z.to_nat i' := false]> lk') false v1 /\
    en50221_tl_process_data env' ev cb i' (ztake (u16 (m_length m)) (m_data m)) v = Some (0, v3).
Proof.
  intros Hm Hb Hd Hms' Hmc' Ha HI' Hl' Ec' Est Hch Hcb.
  assert (El : u16 (m_length m) = m_length m).
  { destruct Hm. apply u16_small. pose proof (zlen_ztake (m_length m) (m_data m) ltac:(lia)) as E.
    unfold m_bytes in Hb. rewrite Hb, tpdu_len in E. pose proof (asn_field_len (zlen data + 1)). lia. }
  assert (Hok : Forall fragment_ok ([] ++ [data])).
  { apply Forall_cons_2; [|done]. split; [|lia]. intros ->. change (zlen (@nil Z)) with 0 in Hd. lia. }
  assert (Hsz : zlen (fragments j [] data) < 2 ^ 31).
  { unfold fragments. cbn [fmap list_fmap concat app]. rewrite tpdu_len.
    pose proof (asn_field_len (zlen data + 1)). lia. }
  destruct (chained_message env' ev cb ms' mc' lk' v i' j c' [] data Hms' Hmc' Ha HI' Hl' Ec' Est Hch Hcb Hok Hsz)
    as (v1 & c1 & v2 & v3 & HI1 & Hqv & _ & _ & _ & _ & _ & E2 & E3 & E).
  exists v1, v2, v3. rewrite El. unfold m_bytes in Hb. rewrite Hb. cbn in E, E2. done.
Qed.

(** Round trip.  What [en50221_tl_send_data] queued on one connection is, as the bytes
    that [dvbca_link_write] passes on, delivered to the data callback of a peer in one
    call as the data sent, for 1 to 65524 bytes of data. *)
Theorem en50221_tl_roundtrip (env env' : environment) {U U'} `{!UpperInv U} `{!UpperInv U'}
    (ev : Z -> Z -> Z -> U' -> U') `{!EventClient ev} (cb : list Z -> Z -> Z -> T (host U') unit) ms mc ms' mc' `{!DataClient ms' mc' cb}
    lk g (w : world (host U)) i j w2 data lk' (v : world (host U')) i' c' :
  0 <= ms < 256 -> 0 <= mc < 256 -> inv ms mc lk g w -> 0 <= i -> 0 <= j -> (i < ms -> entry lk i = Some false) ->
  0 < zlen data < 65525 ->
  en50221_tl_send_data env i j data w = Some (0, w2) ->
  0 <= ms' < 256 -> 0 <= mc' < 256 -> (forall n, malloc_ok env' n = true) ->
  inv ms' mc' lk' false v -> entry lk' i' = Some true -> conn_at (tl (w_st v)) i' j = Some c' ->
  state c' = T_STATE_ACTIVE -> chain_buffer c' = PNull -> callback (tl (w_st v)) = true ->
  exists m v1 v2 v3, queued ms mc lk g i j m w w2 /\
    quiet v v1 /\ cb data i' j v1 = Some (tt, v2) /\ lock_slot i' v2 = Some (tt, v3) /\
    en50221_tl_process_data env' ev cb i' (ztake (u16 (m_length m)) (m_data m)) v = Some (0, v3).
Proof.
  intros Hms Hmc HI Hi Hj Hl Hd Es Hms' Hmc' Ha HI' Hl' Ec' Est Hch Hcb.
  assert (Ht : zlen (concat [data]) < 2 ^ 32 - 10) by (cbn; rewrite app_nil_r; lia).
  assert (Hs : twp (en50221_tl_send_datav env i j [data]) (fun r w' => r = 0 ->
    exists m, queued ms mc lk g i j m w w' /\ m_bytes m = tpdu T_DATA_LAST j data) w).
  { eapply (twp_send_datav env ms mc Hms Hmc); [done..| | | |]; try (intros; done).
    intros c m w' _ _ _ _ Hq Hb _. exists m. cbn in Hb. rewrite app_nil_r, tpdu_queued_eq in Hb by lia. done. }
  pose proof (twp_elim _ _ _ _ _ Hs Es eq_refl) as (m & Hq & Hb). pose proof (queued_msg_wf _ _ _ _ _ _ _ _ _ Hq) as Hm.
  destruct (message_arrives env' ev cb ms' mc' j data m lk' v i' c') as (v1 & v2 & v3 & ? & ? & ? & _ & ?); try done.
  by exists m, v1, v2, v3.
Qed.

(** ** Witnesses *)

(** One slot with an active connection 1 of two; [lock] says whether the slot is locked. *)
Definition demo_layer (lock : bool) (st : Z) : en50221_transport_layer :=
  Tl 1 2 [Slot 5 0 [new_connection; set_state st new_connection] lock 1000 100] [Pollfd 0 0 0]
    true false false 0 0 true.
Definition demo {U} (lock : bool) (st : Z) (u : U) : world (host U) := World (Host (demo_layer lock st) u) 0 [].

Lemma demo_inv {U} `{!UpperInv U} lock st (u : U) :
  state_ok st -> upper_ok u -> inv 1 2 [lock] false (demo lock st u).
Proof.
  intros Hs Hu. split; [|exact Hu]. split; [by constructor; try done; apply Forall_cons_2|].
  intros i j c Hc _. pose proof Hc as Hr. unfold conn_at in Hr.
  destruct (entry (slots _) i) as [s|] eqn:E; [|done]. pose proof (entry_range _ _ _ E) as Hi.
  change (0 <= i < 1) in Hi. assert (i = 0) as -> by lia. injection E as <-. cbn [connections mbind option_bind] in Hr.
  pose proof (entry_range _ _ _ Hr) as Hj. change (0 <= j < 2) in Hj.
  assert (j = 0 \/ j = 1) as [-> | ->] by lia; injection Hr as <-; [apply wf_new|].
  destruct wf_new as [_ Hch Hq]. constructor; [done|done|]. by eapply queue_ok_state.
Qed.

Lemma en50221_tl_state_machine_witness :
  exists r w', process_tpdu quiet_env no_event keep_data 0 T_C_T_C_REPLY 1 [] (demo true T_STATE_IN_CREATION []) = Some (r, w') /\
    accepted quiet_env 2 T_C_T_C_REPLY 0 1 (set_state T_STATE_IN_CREATION new_connection) [] T_STATE_ACTIVE (demo true T_STATE_IN_CREATION []) r w'.
Proof.
  apply (en50221_tl_state_machine quiet_env no_event keep_data 1 2 [true] false
    (demo true T_STATE_IN_CREATION []) 0 1 (set_state T_STATE_IN_CREATION new_connection) T_C_T_C_REPLY []).
  - lia.
  - lia.
  - apply demo_inv; [by apply (bool_decide_unpack _)|exact I].
  - reflexivity.
  - reflexivity.
  - discriminate.
Defined.

Lemma en50221_tl_chained_message_witness :
  exists w1 c1 w2 w3,
    inv 1 2 [false] false w1 /\ quiet (demo true T_STATE_ACTIVE []) w1 /\
    conn_at (tl (w_st w1)) 0 1 = Some c1 /\ state c1 = T_STATE_ACTIVE /\ chain_buffer c1 = PNull /\
    tv_sec (tx_time c1) = 0 /\ send_queue c1 = [] /\
    keep_data [1; 2; 3] 0 1 w1 = Some (tt, w2) /\ lock_slot 0 w2 = Some (tt, w3) /\
    en50221_tl_process_data quiet_env no_event keep_data 0 (fragments 1 [[1; 2]] [3]) (demo true T_STATE_ACTIVE []) = Some (0, w3).
Proof.
  apply (en50221_tl_chained_message quiet_env no_event keep_data 1 2 [true] (demo true T_STATE_ACTIVE []) 0 1
    (set_state T_STATE_ACTIVE new_connection) [[1; 2]] [3]).
  - lia.
  - lia.
  - reflexivity.
  - apply demo_inv; [by apply (bool_decide_unpack _)|exact I].
  - reflexivity.
  - reflexivity.
  - reflexivity.
  - reflexivity.
  - reflexivity.
  - apply Forall_cons_2; [|apply Forall_cons_2; [|apply Forall_nil_2]]; split; done.
  - reflexivity.
Defined.

Lemma en50221_tl_send_datav_correct_witness :
  exists r w', en50221_tl_send_datav quiet_env 0 1 [[7]; [8; 9]] (demo false T_STATE_ACTIVE tt) = Some (r, w') /\
    (r = -1 /\ refused 1 2 [false] false EN50221ERR_OUTOFMEMORY (demo false T_STATE_ACTIVE tt) w' /\
       ~ (forall n, malloc_ok quiet_env n = true) \/
     r = 0 /\ exists m, queued 1 2 [false] false 0 1 m (demo false T_STATE_ACTIVE tt) w' /\
       m_bytes m = tpdu_of 4 T_DATA_LAST 1 [7; 8; 9] /\
       (3 < 65535 -> m_bytes m = tpdu T_DATA_LAST 1 [7; 8; 9])).
Proof.
  apply (en50221_tl_send_datav_correct quiet_env 1 2 [false] false (demo false T_STATE_ACTIVE tt) 0 1 [[7]; [8; 9]]).
  - lia.
  - lia.
  - apply demo_inv; [by apply (bool_decide_unpack _)|exact I].
  - lia.
  - lia.
  - reflexivity.
  - reflexivity.
Defined.

(** What sending on the demonstration layer gives. *)
Definition demo_sent : world (host unit) :=
  match en50221_tl_send_data quiet_env 0 1 [7; 8; 9] (demo false T_STATE_ACTIVE tt) with
  | Some (_, w) => w | None => demo false T_STATE_ACTIVE tt
  end.

Lemma en50221_tl_roundtrip_witness :
  exists m v1 v2 v3, queued 1 2 [false] false 0 1 m (demo false T_STATE_ACTIVE tt) demo_sent /\
    quiet (demo true T_STATE_ACTIVE []) v1 /\ keep_data [7; 8; 9] 0 1 v1 = Some (tt, v2) /\
    lock_slot 0 v2 = Some (tt, v3) /\
    en50221_tl_process_data quiet_env no_event keep_data 0 (ztake (u16 (m_length m)) (m_data m))
      (demo true T_STATE_ACTIVE []) = Some (0, v3).
Proof.
  apply (en50221_tl_roundtrip quiet_env quiet_env no_event keep_data 1 2 1 2 [false] false
    (demo false T_STATE_ACTIVE tt) 0 1 demo_sent [7; 8; 9] [true] (demo true T_STATE_ACTIVE []) 0
    (set_state T_STATE_ACTIVE new_connection)).
  - lia.
  - lia.
  - apply demo_inv; [by apply (bool_decide_unpack _)|exact I].
  - lia.
  - lia.
  - reflexivity.
  - split; reflexivity.
  - vm_compute. reflexivity.
  - lia.
  - lia.
  - reflexivity.
  - apply demo_inv; [by apply (bool_decide_unpack _)|exact I].
  - reflexivity.
  - reflexivity.
  - reflexivity.
  - reflexivity.
  - reflexivity.
Defined.

(** ** Runs that go wrong *)

(** Two empty fragments: [realloc] to 0 bytes frees the chain buffer and the pointer is
    kept, so that removing the slot frees it again. *)
Example en50221_tl_empty_fragments_double_free :
  match en50221_tl_process_data quiet_env no_event keep_data 0 [T_DATA_MORE; 1; 1; T_DATA_MORE; 1; 1]
          (demo true T_STATE_ACTIVE []) with
  | Some (r, w) => r = -1 /\ error (tl (w_st w)) = EN50221ERR_OUTOFMEMORY /\
      (unlock_slot 0;; en50221_tl_destroy_slot no_event 0) w = None
  | None => False
  end.
Proof. vm_compute. repeat split. Qed.

(** A chained message whose last fragment is empty is dropped. *)
Example en50221_tl_empty_last_fragment_dropped :
  match en50221_tl_process_data quiet_env no_event keep_data 0 (fragments 1 [[1; 2]] []) (demo true T_STATE_ACTIVE []) with
  | Some (r, w) => r = 0 /\ upper (w_st w) = []
  | None => False
  end.
Proof. vm_compute. repeat split. Qed.

(** The device answers a read once: reads are numbered by the calls made. *)
Definition answer_at (n : nat) (l : list Z) (n' : nat) : option (list Z) :=
  if (n =? n')%nat then Some l else None.

(** Data for the CAM in slot 1 read from the device through slot 0: the callback may not
    send to slot 0, whose lock is held although no lock should be. *)
Definition two_cams : en50221_transport_layer :=
  Tl 2 2 [Slot 5 0 [new_connection; set_state T_STATE_ACTIVE new_connection] false 1000 100;
          Slot 5 1 [new_connection; set_state T_STATE_ACTIVE new_connection] false 1000 100]
     [Pollfd 0 0 0; Pollfd 0 0 0] true false false 0 0 true.
Definition reply_to_first (data : list Z) (i j : Z) : T (host unit) unit :=
  en50221_tl_send_data quiet_env 0 1 [1];; mret tt.
Example en50221_tl_callback_deadlock :
  en50221_tl_poll
    (Env (fun _ => true) (fun _ => 1) (answer_at 2 [1; 1; T_DATA_LAST; 2; 1; 9]) (fun _ => Some [1; 0])
       (fun n => Timeval 1 0)) no_event reply_to_first (World (Host two_cams tt) 0 []) = None.
Proof. vm_compute. reflexivity. Qed.
(** The same poll with a callback that sends nothing succeeds. *)
Example en50221_tl_callback_no_deadlock :
  match en50221_tl_poll
    (Env (fun _ => true) (fun _ => 1) (answer_at 2 [1; 1; T_DATA_LAST; 2; 1; 9]) (fun _ => Some [1; 0])
       (fun n => Timeval 1 0)) no_event (fun _ _ _ => mret tt) (World (Host two_cams tt) 0 []) with
  | Some (r, _) => r = 0
  | None => False
  end.
Proof. vm_compute. reflexivity. Qed.

(** Opening, closing and opening connection 1 again: the second request is queued but
    never sent, since [tx_time] still holds the time of the delete request; when the
    clock then moves on, the connection is idle again.  [late] is the call from which the
    clock shows 100 seconds. *)
Definition reopen (late : nat) : option (list Z * list (Z * list Z)) :=
  match run_ops
    (Env (fun _ => true) (fun _ => 1)
       (fun n => Some (if (n =? 10)%nat then [0; 1; T_C_T_C_REPLY; 1; 1]
                       else if (n =? 22)%nat then [0; 1; T_D_T_C_REPLY; 1; 1] else [0; 1]))
       (fun _ => Some [1]) (fun n => Timeval (if (n <? late)%nat then 1 else 100) 0))
    no_event keep_data
    [RegisterSlot 5 0 5000 1000000; NewTc 0; Poll; Poll; DelTc 0 1; Poll; Poll; NewTc 0; Poll; Poll; GetState 0 1]
    (World (Host (new_layer 1 2) []) 0 []) with
  | Some (rs, w) => Some (rs, w_sent w)
  | None => None
  end.
Example en50221_tl_reopened_never_sent :
  reopen 1000 = Some ([0; 1; 0; 0; 0; 0; 0; 1; 0; 0; T_STATE_IN_CREATION],
    [(5, [0; 1; T_CREATE_T_C; 1; 1]); (5, [0; 1; T_DELETE_T_C; 1; 1])]) /\
  reopen 30 = Some ([0; 1; 0; 0; 0; 0; 0; 1; 0; 0; T_STATE_IDLE],
    [(5, [0; 1; T_CREATE_T_C; 1; 1]); (5, [0; 1; T_DELETE_T_C; 1; 1])]).
Proof. vm_compute. split; reflexivity. Qed.
