(* ===== verification/En50221Session.v ===== *)
(** * En50221Session: the session layer of libdvben50221/en50221_session.c

    The layer is the client of the transport layer: [sl_data] is its callback for data,
    [sl_event] for the other reasons.  Its mutexes are held only around the accesses to
    one session and never across a call, so each such group of accesses is one step here.
    What the application registers is a parameter: [lookup], the session callback twice
    (from data, when no lock is held, and from transport events, when one is), and the
    resource callbacks, a function pointer with its argument being a number.  [uninit] is
    what a local variable holds that is never set. *)

From S2P Require Import Prelude Asn1 CaLink En50221Transport.

Definition S_STATUS_OPEN : Z := 0x00.
Definition S_STATUS_CLOSE_NO_RES : Z := 0xF0.
Definition S_STATUS_CLOSE_RES_UNAVAILABLE : Z := 0xF1.
Definition S_STATUS_CLOSE_RES_LOW_VERSION : Z := 0xF2.
Definition S_STATUS_CLOSE_RES_BUSY : Z := 0xF3.

Definition ST_OPEN_SESSION_REQ : Z := 0x91.
Definition ST_OPEN_SESSION_RES : Z := 0x92.
Definition ST_CREATE_SESSION : Z := 0x93.
Definition ST_CREATE_SESSION_RES : Z := 0x94.
Definition ST_CLOSE_SESSION_REQ : Z := 0x95.
Definition ST_CLOSE_SESSION_RES : Z := 0x96.
Definition ST_SESSION_NUMBER : Z := 0x90.

Definition S_STATE_IDLE : Z := 0x01.
Definition S_STATE_ACTIVE : Z := 0x02.
Definition S_STATE_IN_CREATION : Z := 0x04.
Definition S_STATE_IN_DELETION : Z := 0x08.

Definition S_SCALLBACK_REASON_CAMCONNECTING : Z := 0.
Definition S_SCALLBACK_REASON_CAMCONNECTED : Z := 1.
Definition S_SCALLBACK_REASON_CAMCONNECTFAIL : Z := 2.
Definition S_SCALLBACK_REASON_CONNECTED : Z := 3.
Definition S_SCALLBACK_REASON_CONNECTFAIL : Z := 4.
Definition S_SCALLBACK_REASON_CLOSE : Z := 5.
Definition S_SCALLBACK_REASON_TC_CONNECT : Z := 6.
Definition S_SCALLBACK_REASON_TC_CAMCONNECT : Z := 7.

Definition EN50221ERR_IOVLIMIT : Z := -12.
Definition EN50221ERR_BADSESSIONNUMBER : Z := -13.
Definition EN50221ERR_OUTOFSESSIONS : Z := -14.

Record en50221_session := Session {
  s_state : Z;
  s_resource_id : Z;
  s_slot_id : Z;
  s_connection_id : Z;
  s_callback : option Z }.

Record en50221_session_layer := Sl {
  max_sessions : Z;
  has_lookup : bool;
  has_session : bool;
  sl_error : Z;
  sessions : list en50221_session }.

(** The session layer and the application above it. *)
Record stack (A : Type) := Stack { sl : en50221_session_layer; app : A }.
Arguments Stack {A} _ _.
Arguments sl {A} _.
Arguments app {A} _.

Definition set_s_state (v : Z) (s : en50221_session) : en50221_session :=
  Session v (s_resource_id s) (s_slot_id s) (s_connection_id s) (s_callback s).
Definition with_sessions (l : list en50221_session) (s : en50221_session_layer) : en50221_session_layer :=
  Sl (max_sessions s) (has_lookup s) (has_session s) (sl_error s) l.
Definition with_sl_error (e : Z) (s : en50221_session_layer) : en50221_session_layer :=
  Sl (max_sessions s) (has_lookup s) (has_session s) e (sessions s).

(** The bytes of a 16 and a 32 bit number, most significant first. *)
Definition put16 (v : Z) : list Z := [u8 (Z.shiftr v 8); u8 v].
Definition put32 (v : Z) : list Z := [u8 (Z.shiftr v 24); u8 (Z.shiftr v 16); u8 (Z.shiftr v 8); u8 v].

(** [(data[i] << 8) | data[i + 1]] *)
Definition word16 (data : list Z) (i : Z) : option Z :=
  hi ← zget data i; lo ← zget data (i + 1); Some (u16 (Z.lor (Z.shiftl hi 8) lo)).

Section layer.
Context (env : environment) {A : Type}.

Abbreviation M := (T (host (stack A))).

Context (lookup : Z -> Z -> M (Z * option Z * option Z))
  (session_cb : Z -> Z -> Z -> Z -> M Z) (session_event : Z -> Z -> Z -> Z -> A -> A)
  (resource_cb : Z -> Z -> Z -> Z -> list Z -> M unit) (uninit : Z).

Definition get_sl : M en50221_session_layer := h ← get; mret (sl (upper h)).
Definition upd_sl (f : en50221_session_layer -> option en50221_session_layer) : M unit :=
  update (fun h => s ← f (sl (upper h)); Some (Host (tl h) (Stack s (app (upper h))))).
Definition mod_sl (f : en50221_session_layer -> en50221_session_layer) : M unit := upd_sl (fun s => Some (f s)).
Definition get_session (i : Z) : M en50221_session := s ← get_sl; lift (entry (sessions s) i).
Definition mod_session (i : Z) (f : en50221_session -> en50221_session) : M unit :=
  upd_sl (fun s => l ← alter_at (sessions s) i (fun x => Some (f x)); Some (with_sessions l s)).
Definition set_sl_error (e : Z) : M unit := mod_sl (with_sl_error e).

Definition en50221_sl_get_error : M Z := s ← get_sl; mret (sl_error s).
Definition en50221_sl_register_lookup_callback (b : bool) : M unit :=
  mod_sl (fun s => Sl (max_sessions s) b (has_session s) (sl_error s) (sessions s)).
Definition en50221_sl_register_session_callback (b : bool) : M unit :=
  mod_sl (fun s => Sl (max_sessions s) (has_lookup s) b (sl_error s) (sessions s)).

(** The first unused session, from 1. *)
Definition en50221_sl_alloc_new_session (resource_id slot_id connection_id : Z) (callback : option Z) : M Z :=
  s ← get_sl;
  n ← for_range (Z.to_nat (max_sessions s - 1)) 1 (fun i =>
    x ← get_session i; mret (if s_state x =? S_STATE_IDLE then Some i else None));
  match n with
  | None => set_sl_error EN50221ERR_OUTOFSESSIONS;; mret (-1)
  | Some i => mod_session i (fun _ => Session S_STATE_IN_CREATION resource_id slot_id connection_id callback);; mret i
  end.

(** ** What the application calls *)

(** After a failing send: the state falls back if it has not changed meanwhile. *)
Definition send_failed (session_number st : Z) : M unit :=
  x ← get_session session_number;
  (if s_state x =? st then mod_session session_number (set_s_state S_STATE_IDLE) else mret tt);;
  e ← en50221_tl_get_error;
  set_sl_error e.

Definition en50221_sl_create_session (slot_id connection_id resource_id : Z) (callback : option Z) : M Z :=
  session_number ← en50221_sl_alloc_new_session resource_id (u8 slot_id) connection_id callback;
  if session_number =? -1 then mret (-1) else
  r ← en50221_tl_send_data env (u8 slot_id) connection_id
    (ST_CREATE_SESSION :: 6 :: put32 resource_id ++ put16 session_number);
  if negb (r =? 0) then send_failed session_number S_STATE_IN_CREATION;; mret (-1)
  else mret session_number.

Definition bad_session : M Z := set_sl_error EN50221ERR_BADSESSIONNUMBER;; mret (-1).

Definition en50221_sl_destroy_session (session_number : Z) : M Z :=
  s ← get_sl;
  if max_sessions s <=? session_number then bad_session else
  x ← get_session session_number;
  if Z.land (s_state x) (Z.lor S_STATE_ACTIVE S_STATE_IN_DELETION) =? 0 then bad_session else
  mod_session session_number (set_s_state S_STATE_IN_DELETION);;
  r ← en50221_tl_send_data env (s_slot_id x) (s_connection_id x) (ST_CLOSE_SESSION_REQ :: 2 :: put16 session_number);
  if negb (r =? 0) then send_failed session_number S_STATE_IN_DELETION;; mret (-1)
  else mret 0.

(** The header of a session package. *)
Definition session_header (session_number : Z) : list Z := ST_SESSION_NUMBER :: 2 :: put16 session_number.

Definition en50221_sl_send_data (session_number : Z) (data : list Z) : M Z :=
  s ← get_sl;
  if max_sessions s <=? session_number then bad_session else
  x ← get_session session_number;
  if negb (s_state x =? S_STATE_ACTIVE) then bad_session else
  r ← en50221_tl_send_datav env (s_slot_id x) (s_connection_id x) [session_header session_number; data];
  if negb (r =? 0) then e ← en50221_tl_get_error; set_sl_error e;; mret (-1) else mret 0.

Definition en50221_sl_send_datav (session_number : Z) (vector : list (list Z)) : M Z :=
  s ← get_sl;
  if max_sessions s <=? session_number then bad_session else
  x ← get_session session_number;
  if negb (s_state x =? S_STATE_ACTIVE) then bad_session else
  if 9 <? zlen vector then set_sl_error EN50221ERR_IOVLIMIT;; mret (-1) else
  r ← en50221_tl_send_datav env (s_slot_id x) (s_connection_id x) (session_header session_number :: vector);
  if negb (r =? 0) then e ← en50221_tl_get_error; set_sl_error e;; mret (-1) else mret 0.

Definition en50221_sl_broadcast_data (slot_id resource_id : Z) (data : list Z) : M Z :=
  s ← get_sl;
  for_range (Z.to_nat (max_sessions s)) 0 (fun i =>
    x ← get_session i;
    if negb (s_state x =? S_STATE_ACTIVE) then mret (@None unit) else
    if negb (slot_id =? -1) && negb (slot_id =? s_slot_id x) then mret None else
    if s_resource_id x =? resource_id then en50221_sl_send_data (u16 i) data;; mret None else mret None);;
  mret 0.

(** ** What the module sends *)

Definition notify_session (reason slot_id session_number resource_id : Z) : M unit :=
  s ← get_sl;
  if has_session s then session_cb reason slot_id session_number resource_id;; mret tt else mret tt.

Definition lookup_status (r : Z) : Z :=
  if r =? 0 then S_STATUS_OPEN else if r =? -1 then S_STATUS_CLOSE_NO_RES
  else if r =? -2 then S_STATUS_CLOSE_RES_LOW_VERSION
  else if r =? -3 then S_STATUS_CLOSE_RES_UNAVAILABLE else r.

(** The session and the status a request for a resource gets. *)
Definition open_session (slot_id connection_id connected : Z) (callback : option Z) : M (Z * Z) :=
  session_number ← en50221_sl_alloc_new_session connected slot_id connection_id callback;
  if session_number =? -1 then mret (-1, S_STATUS_CLOSE_NO_RES) else
  s ← get_sl;
  if has_session s then
    r ← session_cb S_SCALLBACK_REASON_CAMCONNECTING slot_id (u16 session_number) connected;
    mret (session_number, if negb (r =? 0) then S_STATUS_CLOSE_RES_BUSY else S_STATUS_OPEN)
  else mret (session_number, S_STATUS_CLOSE_RES_UNAVAILABLE).

Definition en50221_sl_handle_open_session_request (data : list Z) (slot_id connection_id : Z) : M unit :=
  if zlen data <? 5 then mret tt else
  d0 ← lift (zget data 0);
  if negb (d0 =? 4) then mret tt else
  hi ← lift (word16 data 1);
  lo ← lift (word16 data 3);
  let requested_resource_id := u32 (Z.lor (Z.shiftl hi 16) lo) in
  s ← get_sl;
  '(status, callback, connected) ← (if has_lookup s
    then '(r, callback, connected) ← lookup slot_id requested_resource_id;
         mret (lookup_status r, callback, default uninit connected)
    else mret (S_STATUS_CLOSE_NO_RES, None, uninit));
  '(session_number, status) ← (if status =? S_STATUS_OPEN
    then open_session slot_id connection_id connected callback
    else mret (-1, status));
  r ← en50221_tl_send_data env slot_id connection_id
    (ST_OPEN_SESSION_RES :: 7 :: u8 status :: put32 connected ++ put16 session_number);
  let status := if negb (r =? 0) then S_STATUS_CLOSE_NO_RES else status in
  if negb (session_number =? -1) then
    mod_session session_number (set_s_state (if negb (status =? S_STATUS_OPEN) then S_STATE_IDLE else S_STATE_ACTIVE));;
    x ← get_session session_number;
    if s_state x =? S_STATE_ACTIVE then
      if status =? S_STATUS_OPEN then
        notify_session S_SCALLBACK_REASON_CAMCONNECTED slot_id (u16 session_number) connected
      else
        mod_session session_number (set_s_state S_STATE_IDLE);;
        notify_session S_SCALLBACK_REASON_CAMCONNECTFAIL slot_id (u16 session_number) connected
    else mret tt
  else mret tt.

Definition en50221_sl_handle_close_session_request (data : list Z) (slot_id connection_id : Z) : M unit :=
  if zlen data <? 3 then mret tt else
  d0 ← lift (zget data 0);
  if negb (d0 =? 2) then mret tt else
  session_number ← lift (word16 data 1);
  s ← get_sl;
  '(code, resource_id) ← (if max_sessions s <=? session_number then mret (0xF0, 0) else
    x ← get_session session_number;
    let code := if negb (slot_id =? s_slot_id x) || negb (connection_id =? s_connection_id x) ||
                   (Z.land (s_state x) (Z.lor S_STATE_ACTIVE S_STATE_IN_DELETION) =? 0) then 0xF0 else 0x00 in
    (if code =? 0x00 then mod_session session_number (set_s_state S_STATE_IDLE) else mret tt);;
    mret (code, s_resource_id x));
  en50221_tl_send_data env slot_id connection_id (ST_CLOSE_SESSION_RES :: 3 :: code :: put16 session_number);;
  if code =? 0x00 then notify_session S_SCALLBACK_REASON_CLOSE slot_id session_number resource_id else mret tt.

(** The session a response or package names, if it belongs to the connection it came on
    and is in the state it has to be in. *)
Definition session_for (session_number slot_id connection_id st : Z) : M (option en50221_session) :=
  s ← get_sl;
  if max_sessions s <=? session_number then mret None else
  x ← get_session session_number;
  mret (if negb (slot_id =? s_slot_id x) then None
        else if negb (connection_id =? s_connection_id x) then None
        else if negb (s_state x =? st) then None else Some x).

Definition en50221_sl_handle_create_session_response (data : list Z) (slot_id connection_id : Z) : M unit :=
  if zlen data <? 8 then mret tt else
  d0 ← lift (zget data 0);
  if negb (d0 =? 7) then mret tt else
  session_number ← lift (word16 data 5);
  x ← session_for session_number slot_id connection_id S_STATE_IN_CREATION;
  match x with
  | None => mret tt
  | Some x =>
      status ← lift (zget data 1);
      if negb (status =? S_STATUS_OPEN) then
        mod_session session_number (set_s_state S_STATE_IDLE);;
        notify_session S_SCALLBACK_REASON_CONNECTFAIL slot_id session_number (s_resource_id x)
      else
        mod_session session_number (set_s_state S_STATE_ACTIVE);;
        notify_session S_SCALLBACK_REASON_CONNECTED slot_id session_number (s_resource_id x)
  end.

Definition en50221_sl_handle_close_session_response (data : list Z) (slot_id connection_id : Z) : M unit :=
  if zlen data <? 5 then mret tt else
  d0 ← lift (zget data 0);
  if negb (d0 =? 4) then mret tt else
  session_number ← lift (word16 data 2);
  x ← session_for session_number slot_id connection_id S_STATE_IN_DELETION;
  match x with
  | None => mret tt
  | Some _ => mod_session session_number (set_s_state S_STATE_IDLE)
  end.

(** The APDUs of a package: each has a tag of three bytes and a length field. *)
Fixpoint apdu_loop (fuel : nat) (callback : option Z) (slot_id session_number resource_id : Z) (data : list Z) : M unit :=
  let data_length := zlen data in
  if data_length =? 0 then mret tt else
  match fuel with
  | O => stuck
  | S f =>
      if data_length <? 3 then mret tt else
      '(length_field_len, asn) ← lift (asn_1_decode data 3 (data_length - 3));
      if length_field_len <? 0 then mret tt else
      let apdu_length := u32 (3 + length_field_len + default 0 asn) in
      if data_length <? apdu_length then mret tt else
      match callback with
      | Some cb => resource_cb cb slot_id session_number resource_id (ztake apdu_length data)
      | None => mret tt
      end;;
      apdu_loop f callback slot_id session_number resource_id (zdrop apdu_length data)
  end.

Definition en50221_sl_handle_session_package (data : list Z) (slot_id connection_id : Z) : M unit :=
  if zlen data <? 3 then mret tt else
  d0 ← lift (zget data 0);
  if negb (d0 =? 2) then mret tt else
  session_number ← lift (word16 data 1);
  x ← session_for session_number slot_id connection_id S_STATE_ACTIVE;
  match x with
  | None => mret tt
  | Some x =>
      apdu_loop (length data) (s_callback x) slot_id session_number (s_resource_id x) (zdrop 3 data)
  end.

(** ** [en50221_sl_transport_callback] *)

Definition sl_data (data : list Z) (slot_id connection_id : Z) : M unit :=
  if zlen data <? 1 then mret tt else
  spdu_tag ← lift (zget data 0);
  let data := zdrop 1 data in
  if spdu_tag =? ST_OPEN_SESSION_REQ then en50221_sl_handle_open_session_request data slot_id connection_id
  else if spdu_tag =? ST_CLOSE_SESSION_REQ then en50221_sl_handle_close_session_request data slot_id connection_id
  else if spdu_tag =? ST_SESSION_NUMBER then en50221_sl_handle_session_package data slot_id connection_id
  else if spdu_tag =? ST_CREATE_SESSION_RES then en50221_sl_handle_create_session_response data slot_id connection_id
  else if spdu_tag =? ST_CLOSE_SESSION_RES then en50221_sl_handle_close_session_response data slot_id connection_id
  else mret tt.

(** Closing the sessions a test names, from session [i] on. *)
Definition event_cb (s : en50221_session_layer) (reason slot_id session_number resource_id : Z) (a : A) : A :=
  if has_session s then session_event reason slot_id session_number resource_id a else a.
Fixpoint close_sessions (p : en50221_session -> bool) (slot_of : en50221_session -> Z) (s : en50221_session_layer)
    (l : list en50221_session) (i : Z) (a : A) : list en50221_session * A :=
  match l with
  | [] => ([], a)
  | x :: l =>
      if (s_state x =? S_STATE_IDLE) || negb (p x) then
        let '(l', a') := close_sessions p slot_of s l (i + 1) a in (x :: l', a')
      else
        let a := event_cb s S_SCALLBACK_REASON_CLOSE (slot_of x) (u16 i) (s_resource_id x) a in
        let '(l', a') := close_sessions p slot_of s l (i + 1) a in (set_s_state S_STATE_IDLE x :: l', a')
  end.

Definition sl_event (reason slot_id connection_id : Z) (u : stack A) : stack A :=
  let s := sl u in
  if reason =? T_CALLBACK_REASON_CONNECTIONOPEN then
    Stack s (event_cb s S_SCALLBACK_REASON_TC_CONNECT slot_id connection_id 0 (app u))
  else if reason =? T_CALLBACK_REASON_CAMCONNECTIONOPEN then
    Stack s (event_cb s S_SCALLBACK_REASON_TC_CAMCONNECT slot_id connection_id 0 (app u))
  else if reason =? T_CALLBACK_REASON_CONNECTIONCLOSE then
    let '(l, a) := close_sessions (fun x => s_connection_id x =? connection_id) s_slot_id s (sessions s) 0 (app u) in
    Stack (with_sessions l s) a
  else if reason =? T_CALLBACK_REASON_SLOTCLOSE then
    let '(l, a) := close_sessions (fun x => s_slot_id x =? slot_id) (fun _ => slot_id) s (sessions s) 0 (app u) in
    Stack (with_sessions l s) a
  else u.

(** [en50221_sl_create]: [true] when the layer, which becomes that of the state, is not
    NULL.  The fields of a new session other than its state and callback are not set; none
    is read before the session is allocated but to be compared in vain. *)
Definition new_session : en50221_session := Session S_STATE_IDLE 0 0 0 None.
Definition en50221_sl_create (n : Z) : M bool :=
  ok ← env_malloc env;
  if negb ok then mret false else
  ok ← env_malloc env;
  if negb ok then mret false else
  mod_sl (fun _ => Sl n false false 0 (replicate (Z.to_nat n) new_session));;
  en50221_tl_register_callback true;;
  mret true.
End layer.
