(* ===== verification/En50221SlSafe.v ===== *)
(** * En50221SlSafe: the session layer keeps its invariant

    The session layer discharges the classes the transport layer states for its callbacks,
    [EventClient] and [DataClient], for applications that keep their part ([AppClient]);
    and what a module sends moves the session table by [spdu_step]s. *)

From stdpp Require Import relations.
From S2P Require Import Prelude Asn1 CaLink En50221Transport En50221Poll En50221Inv En50221Safe.
From S2P Require Import En50221Api En50221Ops En50221Session.

Definition s_state_ok (st : Z) : Prop :=
  st ∈ [S_STATE_IDLE; S_STATE_ACTIVE; S_STATE_IN_CREATION; S_STATE_IN_DELETION].
Record session_wf (x : en50221_session) : Prop := SessionWf {
  sw_state : s_state_ok (s_state x);
  sw_slot : byte (s_slot_id x);
  sw_connection : byte (s_connection_id x) }.
(** The layer has [n] sessions. *)
Record sl_wf (n : Z) (s : en50221_session_layer) : Prop := SlWf {
  sl_max : max_sessions s = n;
  sl_len : zlen (sessions s) = n;
  sl_sessions : Forall session_wf (sessions s) }.

(** The invariant of the session layer is what it adds to that of the transport layer. *)
Definition stack_upper {A} `{!UpperInv A} (n : Z) : UpperInv (stack A) :=
  fun u => sl_wf n (sl u) /\ upper_ok (app u).

Lemma entry_Forall {B} (P : B -> Prop) l i x : Forall P l -> entry l i = Some x -> P x.
Proof. unfold entry. case_decide; [|done]. apply (Forall_lookup_1 P). Qed.
Lemma session_at n s i : sl_wf n s -> 0 <= i < n -> exists x, entry (sessions s) i = Some x /\ session_wf x.
Proof.
  intros [Hm Hl Hs] Hi. destruct (entry_Some (sessions s) i) as [x E]; [lia|].
  exists x. split; [done|]. by eapply entry_Forall.
Qed.
Lemma sl_wf_insert n s i x :
  sl_wf n s -> session_wf x -> sl_wf n (with_sessions (<[Z.to_nat i := x]> (sessions s)) s).
Proof. intros [Hm Hl Hs] Hx. constructor; cbn; [done|by rewrite zlen_insert|by apply Forall_insert]. Qed.
Lemma session_wf_state st x : session_wf x -> s_state_ok st -> session_wf (set_s_state st x).
Proof. intros [??? ] Hs. by constructor. Qed.
Ltac state_done := by apply (bool_decide_unpack _).
Lemma word16_in (data : list Z) i : 0 <= i -> i + 1 < zlen data -> exists v, word16 data i = Some v /\ 0 <= v < 65536.
Proof.
  intros Hi Hl. unfold word16. rewrite (zget_in data i), (zget_in data (i + 1)) by lia.
  cbn [mbind option_bind]. eexists. split; [done|]. apply u16_range.
Qed.

(** ** What a module may do to the sessions *)

Definition owned (i j : Z) (x : en50221_session) : Prop := s_slot_id x = i /\ s_connection_id x = j.
(** One step for connection [j] of slot [i]: the first idle session from 1 is created for
    it, one of its sessions that is being created is opened or dropped, or one of its
    sessions that is open or being deleted is closed. *)
Inductive spdu_step (i j : Z) (l : list en50221_session) : list en50221_session -> Prop :=
| step_create k x id f :
    1 <= k -> entry l k = Some x -> s_state x = S_STATE_IDLE ->
    (forall k' x', 1 <= k' < k -> entry l k' = Some x' -> s_state x' <> S_STATE_IDLE) ->
    spdu_step i j l (<[Z.to_nat k := Session S_STATE_IN_CREATION id i j f]> l)
| step_created k x st :
    entry l k = Some x -> owned i j x -> s_state x = S_STATE_IN_CREATION ->
    st = S_STATE_ACTIVE \/ st = S_STATE_IDLE ->
    spdu_step i j l (<[Z.to_nat k := set_s_state st x]> l)
| step_closed k x :
    entry l k = Some x -> owned i j x -> s_state x = S_STATE_ACTIVE \/ s_state x = S_STATE_IN_DELETION ->
    spdu_step i j l (<[Z.to_nat k := set_s_state S_STATE_IDLE x]> l).

(** What the application does to the table while it is called: it leaves the sessions
    that are being created alone. *)
Class TableRel (R : list en50221_session -> list en50221_session -> Prop) : Prop :=
  rel_creating : forall l l' k x, R l l' -> entry l k = Some x -> s_state x = S_STATE_IN_CREATION -> entry l' k = Some x.

Section app.
Context {A : Type} `{!UpperInv A} (n ms mc : Z).
#[local] Instance stack_inv : UpperInv (stack A) := stack_upper n.
Abbreviation M := (T (host (stack A))).

Definition table (w : world (host (stack A))) : list en50221_session := sessions (sl (upper (w_st w))).
(** The slot of session [k] is [i]. *)
Definition on_slot (k i : Z) (w : world (host (stack A))) : Prop :=
  exists x, entry (table w) k = Some x /\ s_slot_id x = i.

(** What the session layer asks of an application.  While it handles data from a slot, no
    lock is held on that slot; the sessions it is called for are on that slot, so it may
    send on them; the session an APDU is for stays on it.  [R] is what it does to the table. *)
Class AppClient (R : list en50221_session -> list en50221_session -> Prop)
    (lookup : Z -> Z -> M (Z * option Z * option Z))
    (session_cb : Z -> Z -> Z -> Z -> M Z) (session_event : Z -> Z -> Z -> Z -> A -> A)
    (resource_cb : Z -> Z -> Z -> Z -> list Z -> M unit) : Prop := {
  app_table : TableRel R;
  app_lookup : forall i id lk w, inv ms mc lk false w -> entry lk i = Some false ->
    twp (lookup i id) (fun _ w' => inv ms mc lk false w' /\ R (table w) (table w')) w;
  app_session : forall reason i k id lk w, inv ms mc lk false w -> entry lk i = Some false -> on_slot k i w ->
    twp (session_cb reason i k id) (fun _ w' => inv ms mc lk false w' /\ R (table w) (table w')) w;
  app_event : forall reason i k id a, upper_ok a -> upper_ok (session_event reason i k id a);
  app_resource : forall f i k id data lk w, inv ms mc lk false w -> entry lk i = Some false -> on_slot k i w ->
    twp (resource_cb f i k id data)
      (fun _ w' => (inv ms mc lk false w' /\ R (table w) (table w')) /\ on_slot k i w') w }.
End app.

Section safe.
Context (env : environment) {A : Type} `{!UpperInv A} (n ms mc : Z).
Context (Hn : 0 <= n <= 65536) (Hms : 0 <= ms < 256) (Hmc : 0 <= mc < 256).
#[local] Instance stack_inv' : UpperInv (stack A) := stack_upper n.
Abbreviation M := (T (host (stack A))).
Implicit Types (w : world (host (stack A))) (lk : list bool) (g : bool).

Abbreviation slw w := (sl (upper (w_st w))).
Abbreviation inv := (inv ms mc).
Definition same_table w w' : Prop := table w' = table w.
Lemma same_table_trans w w1 w' : same_table w w1 -> same_table w1 w' -> same_table w w'.
Proof. unfold same_table. congruence. Qed.
Lemma on_slot_same k i w w' : same_table w w' -> on_slot k i w -> on_slot k i w'.
Proof. unfold same_table, on_slot. by intros ->. Qed.

Lemma inv_sl lk g w : inv lk g w -> sl_wf n (slw w).
Proof. intros [_ [H _]]. exact H. Qed.
(** Only the session layer changes. *)
Lemma inv_set_sl lk g w s :
  inv lk g w -> sl_wf n s -> inv lk g (World (Host (tl (w_st w)) (Stack s (app (upper (w_st w))))) (w_tick w) (w_sent w)).
Proof. intros [Ht [_ Ha]] Hs. split; [exact Ht|]. split; [exact Hs|exact Ha]. Qed.

Lemma twp_get_sl (Q : en50221_session_layer -> world (host (stack A)) -> Prop) w : Q (slw w) w -> twp get_sl Q w.
Proof. done. Qed.
Lemma twp_mod_sl lk g f (Q : unit -> world (host (stack A)) -> Prop) w :
  inv lk g w -> sl_wf n (f (slw w)) ->
  (forall w', inv lk g w' -> slw w' = f (slw w) -> Q tt w') -> twp (mod_sl f) Q w.
Proof. intros HI Hf HQ. unfold twp, mod_sl, upd_sl, update. apply HQ; [by apply inv_set_sl|done]. Qed.
Lemma twp_set_sl_error lk g e (Q : unit -> world (host (stack A)) -> Prop) w :
  inv lk g w -> (forall w', inv lk g w' -> same_table w w' -> Q tt w') -> twp (set_sl_error e) Q w.
Proof.
  intros HI HQ. eapply twp_mod_sl; [done|by destruct (inv_sl _ _ _ HI)|].
  intros w' HI' E. apply HQ; [done|]. unfold same_table, table. by rewrite E.
Qed.
Lemma twp_get_session lk g i (Q : en50221_session -> world (host (stack A)) -> Prop) w :
  inv lk g w -> 0 <= i < n -> (forall x, session_wf x -> entry (sessions (slw w)) i = Some x -> Q x w) ->
  twp (get_session i) Q w.
Proof.
  intros HI Hi HQ. destruct (session_at _ _ i (inv_sl _ _ _ HI) Hi) as (x & E & Hx).
  apply twp_bind, twp_get_sl. eapply twp_lift; [exact E|]. by apply HQ.
Qed.
Lemma twp_mod_session lk g i f (Q : unit -> world (host (stack A)) -> Prop) w :
  inv lk g w -> 0 <= i < n -> (forall x, session_wf x -> session_wf (f x)) ->
  (forall x w', inv lk g w' -> entry (sessions (slw w)) i = Some x ->
    slw w' = with_sessions (<[Z.to_nat i := f x]> (sessions (slw w))) (slw w) -> Q tt w') ->
  twp (mod_session i f) Q w.
Proof.
  intros HI Hi Hf HQ. destruct (session_at _ _ i (inv_sl _ _ _ HI) Hi) as (x & E & Hx).
  unfold twp, mod_session, upd_sl, update. rewrite (alter_at_Some _ _ _ _ (f x) E eq_refl).
  apply (HQ x); [|done|done]. apply inv_set_sl; [done|]. apply sl_wf_insert; [by eapply inv_sl|auto].
Qed.
Lemma twp_set_s_state lk g i st (Q : unit -> world (host (stack A)) -> Prop) w :
  inv lk g w -> 0 <= i < n -> s_state_ok st ->
  (forall x w', inv lk g w' -> entry (table w) i = Some x ->
    table w' = <[Z.to_nat i := set_s_state st x]> (table w) -> Q tt w') ->
  twp (mod_session i (set_s_state st)) Q w.
Proof.
  intros HI Hi Hs HQ. eapply twp_mod_session; [done|done|intros x Hx; by apply session_wf_state|].
  intros x w' HI' E E'. apply (HQ x); [done|done|]. unfold table. by rewrite E'.
Qed.

(** A new session is the first idle one, if there is any. *)
Definition created i j w (k : Z) w' : Prop :=
  k = -1 /\ same_table w w' \/
  1 <= k < n /\ spdu_step i j (table w) (table w') /\
  exists x, entry (table w') k = Some x /\ owned i j x /\ s_state x = S_STATE_IN_CREATION.

Lemma twp_alloc_new_session rid i j f lk g (Q : Z -> world (host (stack A)) -> Prop) w :
  inv lk g w -> byte i -> byte j ->
  (forall k w', inv lk g w' -> created i j w k w' -> Q k w') ->
  twp (en50221_sl_alloc_new_session rid i j f) Q w.
Proof.
  intros HI Hi Hj HQ. unfold en50221_sl_alloc_new_session. apply twp_bind, twp_get_sl.
  rewrite (sl_max _ _ (inv_sl _ _ _ HI)). apply twp_bind.
  assert (Hfor : forall c lo, 1 <= lo -> lo + Z.of_nat c <= Z.max 1 n ->
    twp (for_range c lo (fun i => x ← get_session i; mret (if s_state x =? S_STATE_IDLE then Some i else None)))
      (fun r w' => w' = w /\ match r with
        | Some k => lo <= k < n /\ (exists x, entry (table w) k = Some x /\ s_state x = S_STATE_IDLE) /\
            forall k' x', lo <= k' < k -> entry (table w) k' = Some x' -> s_state x' <> S_STATE_IDLE
        | None => True end) w).
  { induction c as [|c IH]; intros lo Hlo Hc; cbn [for_range]; [by apply twp_ret|].
    apply twp_bind, twp_bind. eapply twp_get_session; [done|lia|]. intros x _ Ex. apply twp_ret.
    destruct (s_state x =? _) eqn:Es.
    - apply twp_ret. split; [done|]. split; [lia|]. split; [exists x; split; [done|lia]|]. intros k' x' Hk'. lia.
    - eapply twp_mono; [apply IH; lia|]. intros [k|] w' [-> H]; [|done]. split; [done|].
      destruct H as (Hk & Hx & Hf). split; [lia|]. split; [done|]. intros k' x' Hk' Ex'.
      destruct (decide (k' = lo)) as [->|]; [|apply (Hf k'); [lia|done]].
      unfold table in *. rewrite Ex in Ex'. injection Ex' as <-. lia. }
  eapply twp_mono; [apply Hfor; lia|]. intros [k|] w' [-> Hk]; cbn beta iota.
  - destruct Hk as (Hk & (x & Ex & Es) & Hf). apply twp_bind. eapply twp_mod_session; [done|lia| |].
    + intros y _. by constructor; [state_done| |].
    + intros y w' HI' _ E'. apply twp_ret, HQ; [done|right]. split; [lia|].
      assert (Et : table w' = <[Z.to_nat k := Session S_STATE_IN_CREATION rid i j f]> (table w)) by (unfold table; by rewrite E').
      split; [rewrite Et; apply step_create with (x := x); [lia|exact Ex|exact Es|exact Hf]|].
      exists (Session S_STATE_IN_CREATION rid i j f). split; [|done]. rewrite Et.
      rewrite entry_insert, decide_True; [done|done|by eapply entry_range].
  - apply twp_bind. eapply twp_set_sl_error; [done|]. intros w' HI' S'. apply twp_ret, HQ; [done|by left].
Qed.

(** ** What the application calls *)

Definition sl_done lk g (r : Z) w : Prop := inv lk g w /\ -1 <= r.
Definition slot_free lk (i : Z) : Prop := i < ms -> entry lk i = Some false.

Lemma twp_sl_send i j (vector : list (list Z)) lk g (Q : Z -> world (host (stack A)) -> Prop) w :
  inv lk g w -> byte i -> byte j -> slot_free lk i -> zlen (concat vector) < 2 ^ 32 - 10 ->
  (forall r w', inv lk g w' -> same_table w w' -> Q r w') ->
  twp (en50221_tl_send_datav env i j vector) Q w.
Proof.
  intros HI [Hi _] [Hj _] Hl Hz HQ.
  assert (Hr : forall e r w', refused ms mc lk g e w w' -> Q r w').
  { intros e r w' (HI' & (E & _) & _). apply HQ; [done|]. unfold same_table, table. by rewrite E. }
  eapply (twp_send_datav env ms mc Hms Hmc); eauto. intros c m w' _ _ _ _ (HI' & (E & _) & _) _.
  apply HQ; [done|]. unfold same_table, table. by rewrite E.
Qed.
Lemma twp_sl_send_data i j data lk g (Q : Z -> world (host (stack A)) -> Prop) w :
  inv lk g w -> byte i -> byte j -> slot_free lk i -> zlen data < 2 ^ 32 - 10 ->
  (forall r w', inv lk g w' -> same_table w w' -> Q r w') ->
  twp (en50221_tl_send_data env i j data) Q w.
Proof. intros. rewrite send_data_datav. eapply twp_sl_send; try done. cbn. by rewrite app_nil_r. Qed.

Lemma twp_tl_error lk g (Q : unit -> world (host (stack A)) -> Prop) w :
  inv lk g w -> (forall w', inv lk g w' -> Q tt w') -> twp (e ← en50221_tl_get_error; set_sl_error e) Q w.
Proof. intros HI HQ. apply twp_bind, twp_bind, twp_get_tl, twp_ret. eapply twp_set_sl_error; eauto. Qed.
Lemma twp_sl_fail lk g w :
  inv lk g w -> twp (e ← en50221_tl_get_error; set_sl_error e;; mret (-1)) (sl_done lk g) w.
Proof.
  intros HI. apply twp_bind, twp_bind, twp_get_tl, twp_ret, twp_bind.
  eapply twp_set_sl_error; [done|]. intros w' HI' _. by apply twp_ret.
Qed.
Lemma twp_bad_session lk g w : inv lk g w -> twp bad_session (sl_done lk g) w.
Proof. intros HI. apply twp_bind. eapply twp_set_sl_error; [done|]. intros w' HI' _. by apply twp_ret. Qed.
Lemma twp_send_failed i st lk g (Q : unit -> world (host (stack A)) -> Prop) w :
  inv lk g w -> 0 <= i < n -> (forall w', inv lk g w' -> Q tt w') -> twp (send_failed i st) Q w.
Proof.
  intros HI Hi HQ. unfold send_failed. apply twp_bind. eapply twp_get_session; [done|done|]. intros x _ _.
  apply twp_bind, twp_if; intros _; [eapply twp_set_s_state; [done|done|state_done|]; intros y w' HI' _ _|apply twp_ret];
    by eapply twp_tl_error.
Qed.

Lemma zlen_session_header k l : zlen (session_header k ++ l) = 4 + zlen l.
Proof. rewrite zlen_app. done. Qed.

Lemma twp_create_session i j rid f lk g w :
  inv lk g w -> byte j -> slot_free lk (u8 i) -> twp (en50221_sl_create_session env i j rid f) (sl_done lk g) w.
Proof.
  intros HI Hj Hl. unfold en50221_sl_create_session. apply twp_bind.
  eapply twp_alloc_new_session; [done|apply u8_byte|done|]. intros k w1 HI1 Hk.
  apply twp_if; intros Ek; [by apply twp_ret|]. destruct Hk as [[-> _]|[Hk _]]; [done|]. apply twp_bind.
  eapply twp_sl_send_data; [done|apply u8_byte|done|done|done|]. intros r w2 HI2 _.
  apply twp_if; intros _.
  - apply twp_bind. eapply twp_send_failed; [done|lia|]. intros w3 HI3. by apply twp_ret.
  - apply twp_ret. split; [done|lia].
Qed.

(** The session an operation names, when it is one of the layer. *)
Definition free_slots lk : Prop := no_lock lk /\ zlen lk = ms.
Lemma free_slots_at lk i : free_slots lk -> byte i -> slot_free lk i.
Proof.
  clear Hn Hms Hmc. intros [Hf Hl] [Hi _] Hlt. destruct (entry_Some lk i) as [b Eb]; [lia|].
  by rewrite (free_entry _ _ _ Hf Eb) in Eb.
Qed.

Lemma twp_destroy_session k lk g w :
  inv lk g w -> free_slots lk -> 0 <= k -> twp (en50221_sl_destroy_session env k) (sl_done lk g) w.
Proof.
  intros HI Hf Hk. unfold en50221_sl_destroy_session. apply twp_bind, twp_get_sl.
  rewrite (sl_max _ _ (inv_sl _ _ _ HI)). apply twp_if; intros E; [by apply twp_bad_session|].
  apply twp_bind. eapply twp_get_session; [done|lia|]. intros x [_ Hi Hj] _.
  apply twp_if; intros _; [by apply twp_bad_session|]. apply twp_bind.
  eapply twp_set_s_state; [done|lia|state_done|]. intros y w1 HI1 _ _. apply twp_bind.
  eapply twp_sl_send_data; [done|done|done|by apply free_slots_at|done|]. intros r w2 HI2 _.
  apply twp_if; intros _; [|by apply twp_ret].
  apply twp_bind. eapply twp_send_failed; [done|lia|]. intros w3 HI3. by apply twp_ret.
Qed.

Lemma twp_sl_send_datav k (vector : list (list Z)) lk g w :
  inv lk g w -> (forall x, entry (sessions (slw w)) k = Some x -> slot_free lk (s_slot_id x)) -> 0 <= k ->
  zlen (concat vector) < 2 ^ 32 - 14 ->
  twp (en50221_sl_send_datav env k vector) (sl_done lk g) w.
Proof.
  intros HI Hf Hk Hz. unfold en50221_sl_send_datav. apply twp_bind, twp_get_sl.
  rewrite (sl_max _ _ (inv_sl _ _ _ HI)). apply twp_if; intros E; [by apply twp_bad_session|].
  apply twp_bind. eapply twp_get_session; [done|lia|]. intros x [_ Hi Hj] Ex.
  apply twp_if; intros _; [by apply twp_bad_session|]. apply twp_if; intros _.
  { apply twp_bind. eapply twp_set_sl_error; [done|]. intros w' HI' _. by apply twp_ret. }
  apply twp_bind. eapply twp_sl_send; [done|done|done|by apply Hf| |].
  { cbn [concat]. rewrite zlen_session_header. lia. }
  intros r w' HI' _. apply twp_if; intros _; [by apply twp_sl_fail|by apply twp_ret].
Qed.
Lemma twp_sl_send_data_session k data lk g w :
  inv lk g w -> (forall x, entry (sessions (slw w)) k = Some x -> slot_free lk (s_slot_id x)) -> 0 <= k ->
  zlen data < 2 ^ 32 - 14 ->
  twp (en50221_sl_send_data env k data) (fun r w' => sl_done lk g r w' /\ same_table w w') w.
Proof.
  intros HI Hf Hk Hz. unfold en50221_sl_send_data.
  assert (Hfail : forall e w1, inv lk g w1 -> same_table w w1 ->
    twp (set_sl_error e;; mret (-1)) (fun r w' => sl_done lk g r w' /\ same_table w w') w1).
  { intros e w1 HI1 S1. apply twp_bind. eapply twp_set_sl_error; [done|]. intros w' HI' S'.
    apply twp_ret. split; [by split|by eapply same_table_trans]. }
  apply twp_bind, twp_get_sl.
  rewrite (sl_max _ _ (inv_sl _ _ _ HI)). apply twp_if; intros E; [by apply Hfail|].
  apply twp_bind. eapply twp_get_session; [done|lia|]. intros x [_ Hi Hj] Ex.
  apply twp_if; intros _; [by apply Hfail|].
  apply twp_bind. eapply twp_sl_send; [done|done|done|by apply Hf| |].
  { cbn [concat]. rewrite zlen_session_header, app_nil_r. lia. }
  intros r w' HI' S'. apply twp_if; intros _; [|by apply twp_ret].
  apply twp_bind, twp_bind, twp_get_tl, twp_ret. by apply Hfail.
Qed.
Lemma sessions_free lk g w k x :
  inv lk g w -> free_slots lk -> entry (sessions (slw w)) k = Some x -> slot_free lk (s_slot_id x).
Proof.
  intros HI Hf E. apply free_slots_at; [done|].
  by destruct (entry_Forall _ _ _ _ (sl_sessions _ _ (inv_sl _ _ _ HI)) E).
Qed.

Lemma twp_broadcast i rid data lk g w :
  inv lk g w -> free_slots lk -> zlen data < 2 ^ 32 - 14 ->
  twp (en50221_sl_broadcast_data env i rid data) (sl_done lk g) w.
Proof.
  intros HI Hf Hz. unfold en50221_sl_broadcast_data. apply twp_bind, twp_get_sl.
  rewrite (sl_max _ _ (inv_sl _ _ _ HI)). apply twp_bind.
  apply (twp_for_range (fun w' => inv lk g w')); [|by intros; apply twp_ret|done].
  intros k w' Hk HI'. apply twp_bind. eapply twp_get_session; [done|lia|]. intros x _ _.
  apply twp_if; intros _; [by apply twp_ret|]. apply twp_if; intros _; [by apply twp_ret|].
  apply twp_if; intros _; [|by apply twp_ret]. apply twp_bind. eapply twp_mono.
  - eapply twp_sl_send_data_session; [done| |apply u16_range|done]. intros y Ey. by eapply sessions_free.
  - intros r w'' [[HI'' _] _]. by apply twp_ret.
Qed.

(** ** What the module sends *)

Context (R : list en50221_session -> list en50221_session -> Prop) (lookup : Z -> Z -> M (Z * option Z * option Z))
  (session_cb : Z -> Z -> Z -> Z -> M Z) (session_event : Z -> Z -> Z -> Z -> A -> A)
  (resource_cb : Z -> Z -> Z -> Z -> list Z -> M unit) (uninit : Z).
Context (Happ : AppClient n ms mc R lookup session_cb session_event resource_cb).
Implicit Types (Q : unit -> world (host (stack A)) -> Prop).

(** The slot data came from, and its connection. *)
Definition from lk i j : Prop := entry lk i = Some false /\ byte i /\ byte j.
Lemma from_free lk i j : from lk i j -> slot_free lk i.
Proof. intros [E _] _. exact E. Qed.

(** The table moves by steps of the module and of the application. *)
Definition table_moves i j : list en50221_session -> list en50221_session -> Prop :=
  rtc (fun l l' => R l l' \/ spdu_step i j l l').
Definition moves i j w w' : Prop := table_moves i j (table w) (table w').
Lemma moves_same i j w w' : same_table w w' -> moves i j w w'.
Proof. unfold same_table, moves. intros ->. apply rtc_refl. Qed.
Lemma moves_refl i j w : moves i j w w.
Proof. apply rtc_refl. Qed.
Lemma moves_app i j w w' : R (table w) (table w') -> moves i j w w'.
Proof. intros H. apply rtc_once. by left. Qed.
Lemma moves_step i j w w' : spdu_step i j (table w) (table w') -> moves i j w w'.
Proof. intros H. apply rtc_once. by right. Qed.
Lemma moves_trans i j w w1 w' : moves i j w w1 -> moves i j w1 w' -> moves i j w w'.
Proof. unfold moves, table_moves. intros. by etrans. Qed.
#[local] Hint Resolve moves_same moves_app moves_step : bgt.
(** The end of a handler. *)
Abbreviation ends lk i j w Q := (forall w', inv lk false w' -> moves i j w w' -> Q tt w').
Lemma ends_trans lk i j w w1 Q : moves i j w w1 -> ends lk i j w Q -> ends lk i j w1 Q.
Proof. intros H HQ w' HI' H'. apply HQ; [done|by eapply moves_trans]. Qed.
Lemma ends_now lk i j w Q : inv lk false w -> ends lk i j w Q -> Q tt w.
Proof. intros HI HQ. apply HQ; [done|]. by apply moves_same. Qed.

Lemma twp_notify_session reason i j k id lk Q w :
  inv lk false w -> from lk i j -> on_slot k i w -> ends lk i j w Q ->
  twp (notify_session session_cb reason i k id) Q w.
Proof.
  intros HI [Hl _] Ho HQ. unfold notify_session. apply twp_bind, twp_get_sl, twp_if; intros _;
    [|by apply twp_ret; eapply ends_now].
  apply twp_bind. eapply twp_mono; [by eapply app_session|]. intros r w' [HI' HR]. apply twp_ret, HQ; auto with bgt.
Qed.

(** Session [k], if any, is being created for the connection. *)
Definition creating i j (k : Z) w : Prop :=
  k = -1 \/ 1 <= k < n /\ exists x, entry (table w) k = Some x /\ owned i j x /\ s_state x = S_STATE_IN_CREATION.
Lemma creating_app i j k w w' : R (table w) (table w') -> creating i j k w -> creating i j k w'.
Proof.
  intros HR [->|(Hk & x & Ex & Ho & Es)]; [by left|right]. split; [done|]. exists x.
  split; [by eapply (app_table n ms mc (AppClient := Happ))|done].
Qed.
Lemma creating_same i j k w w' : same_table w w' -> creating i j k w -> creating i j k w'.
Proof. unfold same_table, creating. by intros ->. Qed.

Lemma twp_open_session i j id f lk w :
  inv lk false w -> from lk i j ->
  twp (open_session session_cb i j id f)
    (fun r w' => inv lk false w' /\ moves i j w w' /\ creating i j r.1 w') w.
Proof.
  intros HI Hfr. pose proof Hfr as (Hl & Hi & Hj). unfold open_session. apply twp_bind.
  eapply twp_alloc_new_session; [done|done|done|]. intros k w1 HI1 [[-> S1]|(Hk & Hst & Hx)].
  { apply twp_ret. split; [done|]. split; [by apply moves_same|by left]. }
  assert (Hc : creating i j k w1) by (by right). apply twp_if; intros Ek; [lia|].
  apply twp_bind, twp_get_sl, twp_if; intros _; [|apply twp_ret; auto with bgt].
  apply twp_bind. rewrite u16_small by lia. eapply twp_mono.
  { eapply app_session; [done|done|done|]. destruct Hx as (x & Ex & [Hs _] & _). by exists x. }
  intros r w' [HI' HR]. apply twp_ret. split; [done|]. split; [|by eapply creating_app].
  eapply moves_trans; [by apply moves_step|by apply moves_app].
Qed.

Lemma twp_lift_zget (data : list Z) i lk Q (k : Z -> M unit) w :
  inv lk false w -> 0 <= i < zlen data -> (forall b, twp (k b) Q w) -> twp (b ← lift (zget data i); k b) Q w.
Proof. intros _ Hi Hk. apply twp_bind. eapply twp_lift; [by apply zget_in|]. apply Hk. Qed.
Lemma twp_lift_word16 (data : list Z) i lk Q (k : Z -> M unit) w :
  inv lk false w -> 0 <= i -> i + 1 < zlen data -> (forall v, 0 <= v < 65536 -> twp (k v) Q w) ->
  twp (b ← lift (word16 data i); k b) Q w.
Proof.
  intros _ Hi Hl Hk. destruct (word16_in data i Hi Hl) as (v & E & Hv). apply twp_bind.
  eapply twp_lift; [exact E|]. by apply Hk.
Qed.

(** A session that is being created is opened or dropped. *)
Lemma twp_created i j k st lk Q w :
  inv lk false w -> 1 <= k < n -> creating i j k w -> st = S_STATE_ACTIVE \/ st = S_STATE_IDLE ->
  (forall x w', inv lk false w' -> moves i j w w' -> entry (table w') k = Some x -> owned i j x -> s_state x = st -> Q tt w') ->
  twp (mod_session k (set_s_state st)) Q w.
Proof.
  intros HI Hk [->|(_ & x & Ex & Ho & Es)] Hst HQ; [lia|].
  eapply twp_set_s_state; [done|lia|destruct Hst as [-> | ->]; state_done|].
  intros y w' HI' Ey Et. rewrite Ex in Ey. injection Ey as <-. apply (HQ (set_s_state st x)); [done| | |done|done].
  - apply moves_step. rewrite Et. by apply step_created.
  - rewrite Et, entry_insert, decide_True; [done|done|by eapply entry_range].
Qed.

Lemma owned_on_slot i j k x w : entry (table w) k = Some x -> owned i j x -> on_slot k i w.
Proof. intros Ex [Hs _]. by exists x. Qed.

(** The end of [en50221_sl_handle_open_session_request]. *)
Lemma twp_opened i j k id (b : bool) lk Q w :
  inv lk false w -> from lk i j -> 1 <= k < n -> creating i j k w -> ends lk i j w Q ->
  twp (mod_session k (set_s_state (if negb b then S_STATE_IDLE else S_STATE_ACTIVE));;
    x ← get_session k;
    if s_state x =? S_STATE_ACTIVE then
      if b then notify_session session_cb S_SCALLBACK_REASON_CAMCONNECTED i (u16 k) id
      else mod_session k (set_s_state S_STATE_IDLE);;
        notify_session session_cb S_SCALLBACK_REASON_CAMCONNECTFAIL i (u16 k) id
    else mret tt) Q w.
Proof.
  intros HI Hfr Hk Hc HQ. rewrite u16_small by lia. apply twp_bind.
  eapply twp_created; [done|done|done|destruct b; auto|]. intros x w1 HI1 Hm Ex Ho Es.
  apply twp_bind. eapply twp_get_session; [done|lia|]. intros y _ Ey. unfold table in Ex. rewrite Ex in Ey. injection Ey as <-.
  rewrite Es. destruct b; cbn -[notify_session]; [|by apply twp_ret, HQ].
  eapply twp_notify_session; [done|done|by eapply owned_on_slot|by eapply ends_trans].
Qed.

Lemma twp_handle_open data i j lk Q w :
  inv lk false w -> from lk i j -> ends lk i j w Q ->
  twp (en50221_sl_handle_open_session_request env lookup session_cb uninit data i j) Q w.
Proof.
  intros HI Hfr HQ. pose proof Hfr as (Hl & Hi & Hj). unfold en50221_sl_handle_open_session_request.
  apply twp_if; intros El; [by apply twp_ret; eapply ends_now|]. eapply twp_lift_zget; [done|lia|]. intros d0.
  apply twp_if; intros _; [by apply twp_ret; eapply ends_now|].
  eapply twp_lift_word16; [done|lia|lia|]. intros hi _. eapply twp_lift_word16; [done|lia|lia|]. intros lo _.
  apply twp_bind, twp_get_sl, twp_bind. eapply (twp_mono _ (fun _ w' => inv lk false w' /\ moves i j w w')).
  { apply twp_if; intros _; [|apply twp_ret; auto using moves_refl].
    apply twp_bind. eapply twp_mono; [by eapply app_lookup|].
    intros [[r f] id] w1 [HI1 HR]. apply twp_ret. auto with bgt. }
  intros [[status f] id] w1 [HI1 Hm1]. apply twp_bind.
  eapply (twp_mono _ (fun r w' => inv lk false w' /\ moves i j w1 w' /\ creating i j r.1 w')).
  { apply twp_if; intros _; [by apply twp_open_session|]. apply twp_ret. split; [done|]. split; [by apply moves_same|by left]. }
  intros [k st] w2 (HI2 & Hm2 & Hc). cbn [fst] in Hc. apply twp_bind.
  eapply twp_sl_send_data; [done|done|done|by eapply from_free|done|]. intros r w3 HI3 S3.
  assert (HQ3 : ends lk i j w3 Q).
  { eapply ends_trans; [by apply moves_same|]. eapply ends_trans; [done|]. by eapply ends_trans. }
  apply twp_if; intros Ek; [|by apply twp_ret; eapply ends_now].
  destruct Hc as [->|Hc]; [done|]. eapply twp_opened; [done|done|apply Hc| |done].
  eapply creating_same; [done|by right].
Qed.

Lemma state_open_mask x :
  session_wf x -> (Z.land (s_state x) (Z.lor S_STATE_ACTIVE S_STATE_IN_DELETION) =? 0) = false ->
  s_state x = S_STATE_ACTIVE \/ s_state x = S_STATE_IN_DELETION.
Proof.
  intros [Hs _ _] Hm. unfold s_state_ok in Hs.
  repeat (apply elem_of_cons in Hs as [Hs|Hs]; [rewrite Hs in *; try done; auto|]). by apply not_elem_of_nil in Hs.
Qed.

Lemma twp_handle_close data i j lk Q w :
  inv lk false w -> from lk i j -> ends lk i j w Q ->
  twp (en50221_sl_handle_close_session_request env session_cb data i j) Q w.
Proof.
  intros HI Hfr HQ. pose proof Hfr as (Hl & Hi & Hj). unfold en50221_sl_handle_close_session_request.
  apply twp_if; intros El; [by apply twp_ret; eapply ends_now|]. eapply twp_lift_zget; [done|lia|]. intros d0.
  apply twp_if; intros _; [by apply twp_ret; eapply ends_now|]. eapply twp_lift_word16; [done|lia|lia|]. intros k Hk.
  apply twp_bind, twp_get_sl, twp_bind. rewrite (sl_max _ _ (inv_sl _ _ _ HI)).
  eapply (twp_mono _ (fun r w' => inv lk false w' /\ moves i j w w' /\ (r.1 = 0 -> on_slot k i w'))).
  { apply twp_if; intros Em; [apply twp_ret; split; [done|]; split; [by apply moves_same|done]|]. apply twp_bind.
    eapply twp_get_session; [done|lia|]. intros x Hx Ex. apply twp_bind. rewrite <- orb_assoc.
    destruct (i =? s_slot_id x) eqn:Ei; cbn [negb orb];
      [|do 2 apply twp_ret; split; [done|]; split; [by apply moves_same|done]].
    destruct (j =? s_connection_id x) eqn:Ej; cbn [negb orb];
      [|do 2 apply twp_ret; split; [done|]; split; [by apply moves_same|done]].
    destruct (Z.land _ _ =? 0) eqn:Es; cbn [negb orb];
      [do 2 apply twp_ret; split; [done|]; split; [by apply moves_same|done]|].
    assert (Ho : owned i j x) by (split; lia).
    eapply twp_set_s_state; [done|lia|state_done|]. intros y w1 HI1 Ey Et. apply twp_ret. split; [done|].
    unfold table in Ey. rewrite Ex in Ey. injection Ey as <-. split.
    - apply moves_step. rewrite Et. apply step_closed; [done|done|by apply state_open_mask].
    - intros _. eapply owned_on_slot; [|exact (Ho : owned i j (set_s_state S_STATE_IDLE x))].
      rewrite Et, entry_insert, decide_True; [done|done|by eapply entry_range]. }
  intros [code id] w1 (HI1 & Hm1 & Ho). apply twp_bind.
  eapply twp_sl_send_data; [done|done|done|by eapply from_free|done|]. intros r w2 HI2 S2.
  assert (HQ2 : ends lk i j w2 Q).
  { eapply ends_trans; [by apply moves_same|]. by eapply ends_trans. }
  apply twp_if; intros Ec; [|by apply twp_ret; eapply ends_now].
  eapply twp_notify_session; [done|done|eapply on_slot_same; [done|apply Ho; cbn; lia]|done].
Qed.

Lemma twp_session_for k i j st lk (P : option en50221_session -> world (host (stack A)) -> Prop) w :
  inv lk false w -> 0 <= k -> P None w ->
  (forall x, k < n -> entry (table w) k = Some x -> owned i j x -> s_state x = st -> P (Some x) w) ->
  twp (session_for k i j st) P w.
Proof.
  intros HI Hk H1 H2. unfold session_for. apply twp_bind, twp_get_sl. rewrite (sl_max _ _ (inv_sl _ _ _ HI)).
  apply twp_if; intros E; [by apply twp_ret|]. apply twp_bind. eapply twp_get_session; [done|lia|]. intros x _ Ex.
  apply twp_ret. destruct (i =? _) eqn:E1; [|done]. destruct (j =? _) eqn:E2; [|done].
  destruct (_ =? st) eqn:E3; [|done]. apply H2; [lia|done|split; lia|lia].
Qed.

Lemma twp_handle_create_response data i j lk Q w :
  inv lk false w -> from lk i j -> ends lk i j w Q ->
  twp (en50221_sl_handle_create_session_response session_cb data i j) Q w.
Proof.
  intros HI Hfr HQ. unfold en50221_sl_handle_create_session_response.
  apply twp_if; intros El; [by apply twp_ret; eapply ends_now|]. eapply twp_lift_zget; [done|lia|]. intros d0.
  apply twp_if; intros _; [by apply twp_ret; eapply ends_now|]. eapply twp_lift_word16; [done|lia|lia|]. intros k Hk.
  apply twp_bind. eapply twp_session_for; [done|lia|by apply twp_ret; eapply ends_now|]. intros x Hx Ex Ho Es.
  eapply twp_lift_zget; [done|lia|]. intros status.
  assert (Hset : forall st id reason, st = S_STATE_ACTIVE \/ st = S_STATE_IDLE ->
    twp (mod_session k (set_s_state st);; notify_session session_cb reason i k id) Q w); [|apply twp_if; intros _; auto].
  intros st id reason Hst. apply twp_bind. eapply twp_set_s_state; [done|lia|destruct Hst as [-> | ->]; state_done|].
  intros y w1 HI1 Ey Et. rewrite Ex in Ey. injection Ey as <-. eapply twp_notify_session; [done|done| |].
  - eapply owned_on_slot; [|exact (Ho : owned i j (set_s_state st x))].
    rewrite Et, entry_insert, decide_True; [done|done|by eapply entry_range].
  - eapply ends_trans; [|exact HQ]. apply moves_step. rewrite Et. by apply step_created.
Qed.

Lemma twp_handle_close_response data i j lk Q w :
  inv lk false w -> ends lk i j w Q ->
  twp (en50221_sl_handle_close_session_response (A := A) data i j) Q w.
Proof.
  intros HI HQ. unfold en50221_sl_handle_close_session_response.
  apply twp_if; intros El; [by apply twp_ret; eapply ends_now|]. eapply twp_lift_zget; [done|lia|]. intros d0.
  apply twp_if; intros _; [by apply twp_ret; eapply ends_now|]. eapply twp_lift_word16; [done|lia|lia|]. intros k Hk.
  apply twp_bind. eapply twp_session_for; [done|lia|by apply twp_ret; eapply ends_now|]. intros x Hx Ex Ho Es.
  eapply twp_set_s_state; [done|lia|state_done|]. intros y w1 HI1 Ey Et. rewrite Ex in Ey. injection Ey as <-.
  apply HQ; [done|]. apply moves_step. rewrite Et. apply step_closed; auto.
Qed.

Lemma twp_apdu_loop fuel f i j k id data lk Q w :
  inv lk false w -> from lk i j -> on_slot k i w -> zlen data < 2 ^ 31 -> (length data <= fuel)%nat ->
  ends lk i j w Q -> twp (apdu_loop resource_cb fuel f i k id data) Q w.
Proof.
  intros HI [Hl _] Ho Hz Hf HQ. revert data w HI Ho Hz Hf HQ.
  induction fuel as [|fuel IH]; intros data w HI Ho Hz Hf HQ; cbn [apdu_loop].
  { assert (data = []) as -> by (destruct data; [done|simpl in Hf; lia]). apply twp_ret. by eapply ends_now. }
  assert (Hend : twp (mret tt) Q w) by (apply twp_ret; by eapply ends_now).
  apply twp_if; intros E0; [done|]. apply twp_if; intros E1; [done|].
  apply twp_bind. destruct (asn_1_decode_cases data 3 (zlen data - 3)) as [Ea|(h & m & Ea & Hh & Hhl & Hm & _)];
    [lia|lia| |]; (eapply twp_lift; [exact Ea|]); cbn beta iota; (apply twp_if; intros E2; [|]); try lia;
    [done|]. change (default 0 (Some m)) with m. rewrite u32_small by lia.
  apply twp_if; intros E3; [done|].
  assert (Hd : zlen (zdrop (3 + h + m) data) = zlen data - (3 + h + m)) by (apply zlen_zdrop; lia).
  assert (Hrest : forall w', inv lk false w' -> on_slot k i w' -> moves i j w w' ->
    twp (apdu_loop resource_cb fuel f i k id (zdrop (3 + h + m) data)) Q w').
  { intros w' HI' Ho' Hm'. apply IH; [done|done|lia| |by eapply ends_trans]. unfold zlen in *. lia. }
  apply twp_bind. destruct f as [f|]; [|apply twp_ret, Hrest; auto using moves_refl; done].
  eapply twp_mono; [by eapply app_resource|]. intros [] w' [[HI' HR] Ho']. apply Hrest; auto with bgt.
Qed.
Lemma twp_handle_package data i j lk Q w :
  inv lk false w -> from lk i j -> zlen data < 2 ^ 31 -> ends lk i j w Q ->
  twp (en50221_sl_handle_session_package resource_cb data i j) Q w.
Proof.
  intros HI Hfr Hz HQ. unfold en50221_sl_handle_session_package.
  apply twp_if; intros El; [by apply twp_ret; eapply ends_now|]. eapply twp_lift_zget; [done|lia|]. intros d0.
  apply twp_if; intros _; [by apply twp_ret; eapply ends_now|]. eapply twp_lift_word16; [done|lia|lia|]. intros k Hk.
  apply twp_bind. eapply twp_session_for; [done|lia|by apply twp_ret; eapply ends_now|]. intros x Hx Ex Ho _.
  assert (zlen (zdrop 3 data) = zlen data - 3) by (apply zlen_zdrop; lia).
  eapply twp_apdu_loop; [done|done|by eapply owned_on_slot|lia|unfold zlen in *; lia|done].
Qed.

Lemma twp_sl_data data i j lk w :
  inv lk false w -> from lk i j -> zlen data < 2 ^ 31 ->
  twp (sl_data env lookup session_cb resource_cb uninit data i j) (fun _ w' => inv lk false w' /\ moves i j w w') w.
Proof.
  intros HI Hfr Hz. unfold sl_data. apply twp_if; intros E0; [apply twp_ret; auto using moves_refl|].
  eapply twp_lift_zget; [done|lia|]. intros tag.
  assert (zlen (zdrop 1 data) = zlen data - 1) by (apply zlen_zdrop; lia).
  repeat lazymatch goal with |- twp (if _ then _ else _) _ _ => apply twp_if; intros _ end;
    [eapply twp_handle_open; eauto|eapply twp_handle_close; eauto|
    eapply twp_handle_package; [done|done|lia|auto]|eapply twp_handle_create_response; eauto|
    eapply twp_handle_close_response; eauto|apply twp_ret; auto using moves_refl].
Qed.
End safe.
