(* ===== verification/En50221Stack.v ===== *)
(** * En50221Stack: the session layer on the transport layer

    The session layer as a client of the transport layer, and runs of both. *)

From S2P Require Import Prelude Asn1 CaLink En50221Transport En50221Poll En50221Inv En50221Safe.
From S2P Require Import En50221Api En50221Ops En50221Session En50221SlSafe.

Section client.
Context (env : environment) {A : Type} `{!UpperInv A} (n ms mc : Z).
Context (Hn : 0 <= n <= 65536) (Hms : 0 <= ms < 256) (Hmc : 0 <= mc < 256).
#[local] Instance stack_inv' : UpperInv (stack A) := stack_upper n.
Abbreviation M := (T (host (stack A))).
Context (lookup : Z -> Z -> M (Z * option Z * option Z))
  (session_cb : Z -> Z -> Z -> Z -> M Z) (session_event : Z -> Z -> Z -> Z -> A -> A)
  (resource_cb : Z -> Z -> Z -> Z -> list Z -> M unit) (uninit : Z).
Context (R : list en50221_session -> list en50221_session -> Prop) (Happ : AppClient n ms mc R lookup session_cb session_event resource_cb).

Lemma event_cb_ok s reason i k id a : upper_ok a -> upper_ok (event_cb session_event s reason i k id a).
Proof. intros Ha. unfold event_cb. destruct (has_session s); [by eapply app_event|done]. Qed.
Lemma close_sessions_ok p slot_of s l i a l' a' :
  Forall session_wf l -> upper_ok a -> close_sessions session_event p slot_of s l i a = (l', a') ->
  Forall session_wf l' /\ zlen l' = zlen l /\ upper_ok a'.
Proof.
  intros Hl. revert i a l' a'. induction Hl as [|x l Hx Hl IH]; intros i a l' a' Ha E; cbn [close_sessions] in E.
  { by injection E as <- <-. }
  destruct (_ || _).
  - destruct (close_sessions _ _ _ _ l _ _) as [l1 a1] eqn:E1. injection E as <- <-.
    destruct (IH _ _ _ _ Ha E1) as (H1 & H2 & H3). split; [by constructor|]. rewrite !zlen_cons. auto with lia.
  - destruct (close_sessions _ _ _ _ l _ _) as [l1 a1] eqn:E1. injection E as <- <-.
    destruct (IH _ _ _ _ (event_cb_ok _ _ _ _ _ _ Ha) E1) as (H1 & H2 & H3).
    split; [constructor; [apply session_wf_state; [done|state_done]|done]|]. rewrite !zlen_cons. auto with lia.
Qed.

#[local] Instance sl_event_client : EventClient (sl_event session_event).
Proof.
  intros reason i j u [Hs Ha]. unfold sl_event. pose proof Hs as [Hm Hl Hw].
  repeat (destruct (reason =? _); [try (split; [exact Hs|by apply event_cb_ok])|]); [| |by split];
    destruct (close_sessions _ _ _ _ _ _ _) as [l' a'] eqn:E; apply close_sessions_ok in E as (? & ? & ?); try done;
    (split; [constructor; cbn; [done|congruence|done]|done]).
Qed.
#[local] Instance sl_data_client : DataClient ms mc (sl_data env lookup session_cb resource_cb uninit).
Proof.
  intros data i j lk w HI Hl Hj Hz. pose proof (entry_range _ _ _ Hl) as Hi. rewrite (inv_locks_len _ _ _ _ _ HI) in Hi.
  eapply twp_mono; [eapply (twp_sl_data env n ms mc Hn Hms Hmc R _ _ _ _ uninit Happ); [exact HI| |done]; split; [done|]; unfold byte; lia|].
  by intros [] w' [? _].
Qed.

Lemma twp_sl_create lk w :
  tl_inv ms mc lk false (tl (w_st w)) -> upper_ok (app (upper (w_st w))) ->
  twp (en50221_sl_create env n) (fun r w' => r = true -> inv ms mc lk false w') w.
Proof.
  intros Ht Ha. unfold en50221_sl_create. apply twp_bind, twp_malloc. intros w1 E1 _.
  apply twp_if; intros _; [by apply twp_ret|]. apply twp_bind, twp_malloc. intros w2 E2 _.
  apply twp_if; intros _; [by apply twp_ret|]. apply twp_bind. unfold twp, mod_sl, upd_sl, update.
  cbn [mbind option_bind]. rewrite E2, E1.
  set (w3 := World _ _ _). assert (HI : inv ms mc lk false w3).
  { split; [exact Ht|]. split; [|exact Ha]. constructor; cbn; [done|unfold zlen; rewrite length_replicate; lia|].
    apply list.Forall_forall. intros x Hx. apply elem_of_replicate in Hx as [-> _]. constructor; [state_done|done|done]. }
  apply twp_bind. eapply twp_mono; [by apply (twp_register_callback ms mc)|]. intros [] w' HI'. by apply twp_ret.
Qed.
End client.

(** ** Operations of both layers *)

Inductive sl_op :=
| Transport (op : tl_op)
| RegisterLookup (cb : bool)
| RegisterSession (cb : bool)
| CreateSession (slot_id connection_id resource_id : Z) (callback : option Z)
| DestroySession (session_number : Z)
| SessionSend (session_number : Z) (data : list Z)
| SessionSendv (session_number : Z) (vector : list (list Z))
| Broadcast (slot_id resource_id : Z) (data : list Z).

(** Session numbers and lengths are [uint16_t], connections [uint8_t]. *)
Definition sl_op_ok (op : sl_op) : Prop :=
  match op with
  | Transport op => op_ok op
  | RegisterLookup _ | RegisterSession _ => True
  | CreateSession _ j _ _ => byte j
  | DestroySession k => 0 <= k < 65536
  | SessionSend k data => 0 <= k < 65536 /\ zlen data < 65536
  | SessionSendv k vector => 0 <= k < 65536 /\ zlen (concat vector) < 2 ^ 32 - 14
  | Broadcast _ _ data => zlen data < 65536
  end.

Section run.
Context (env : environment) {A : Type}.
Abbreviation M := (T (host (stack A))).
Context (lookup : Z -> Z -> M (Z * option Z * option Z))
  (session_cb : Z -> Z -> Z -> Z -> M Z) (session_event : Z -> Z -> Z -> Z -> A -> A)
  (resource_cb : Z -> Z -> Z -> Z -> list Z -> M unit) (uninit : Z).

Definition run_sl_op (op : sl_op) : M Z :=
  match op with
  | Transport op => run_op env (sl_event session_event) (sl_data env lookup session_cb resource_cb uninit) op
  | RegisterLookup b => en50221_sl_register_lookup_callback b;; mret 0
  | RegisterSession b => en50221_sl_register_session_callback b;; mret 0
  | CreateSession i j id cb => en50221_sl_create_session env i j id cb
  | DestroySession k => en50221_sl_destroy_session env k
  | SessionSend k data => en50221_sl_send_data env k data
  | SessionSendv k vector => en50221_sl_send_datav env k vector
  | Broadcast i id data => en50221_sl_broadcast_data env i id data
  end.

Context `{!UpperInv A} (n ms mc : Z) (Hn : 0 <= n <= 65536) (Hms : 0 <= ms < 256) (Hmc : 0 <= mc < 256).
#[local] Instance stack_inv'' : UpperInv (stack A) := stack_upper n.
Context (R : list en50221_session -> list en50221_session -> Prop) (Happ : AppClient n ms mc R lookup session_cb session_event resource_cb).

Lemma twp_run_sl_op op w :
  inv ms mc (unlocked ms) false w -> sl_op_ok op ->
  twp (run_sl_op op) (fun r w' => inv ms mc (unlocked ms) false w' \/
    r = -1 /\ op = Transport Poll /\ oom ms mc (unlocked ms) false w') w.
Proof.
  intros HI Hop.
  assert (Hf : free_slots ms (unlocked ms)).
  { split; [apply unlocked_free|]. unfold unlocked, zlen. rewrite length_replicate. lia. }
  assert (Hd : forall c : M Z, twp c (sl_done n ms mc (unlocked ms) false) w ->
    twp c (fun r w' => inv ms mc (unlocked ms) false w' \/
      r = -1 /\ op = Transport Poll /\ oom ms mc (unlocked ms) false w') w).
  { intros c Hc. eapply twp_mono; [exact Hc|]. intros r w' [? _]. by left. }
  destruct op as [op|b|b|i j id cb|k|k data|k vector|i id data]; cbn [run_sl_op sl_op_ok] in *.
  - eapply twp_mono.
    + assert (Hev : EventClient (sl_event session_event)) 
        by exact (sl_event_client n ms mc Hms Hmc _ _ _ _ _ Happ).
      assert (Hcb : DataClient ms mc (sl_data env lookup session_cb resource_cb uninit)) 
        by exact (sl_data_client env n ms mc Hn Hms Hmc _ _ _ _ uninit _ Happ).
      by apply (twp_run_op env _ _ ms mc Hms Hmc).
    + intros r w' [?|(-> & -> & ?)]; auto.
  - apply twp_bind. eapply (twp_mod_sl n ms mc); [done|by destruct (inv_sl _ _ _ _ _ _ HI)|].
    intros w' HI' _. apply twp_ret. by left.
  - apply twp_bind. eapply (twp_mod_sl n ms mc); [done|by destruct (inv_sl _ _ _ _ _ _ HI)|].
    intros w' HI' _. apply twp_ret. by left.
  - apply Hd, twp_create_session; try done. by apply free_slots_at; [|apply u8_byte].
  - apply Hd, twp_destroy_session; try done. lia.
  - apply Hd. eapply twp_mono.
    + apply (twp_sl_send_data_session env n ms mc Hms Hmc k data (unlocked ms) false w HI); [|lia|lia].
      intros x Ex. eapply (sessions_free (A := A) n); [exact HI|exact Hf|exact Ex].
    + by intros r w' [? _].
  - apply Hd, twp_sl_send_datav; try done; [|lia|lia]. intros x Ex. eapply (sessions_free (A := A) n); [exact HI|exact Hf|exact Ex].
  - apply Hd, twp_broadcast; try done. lia.
Qed.

Definition run_sl_ops : list sl_op -> M (list Z) := run_all run_sl_op.
End run.

(** C30: Both layers.  Start from any successful [en50221_tl_create] and [en50221_sl_create],
    with an application that keeps its part: every sequence of operations of both layers
    and polls, whatever the module sends and the system answers, runs to its end without a
    self-deadlock, an access outside an object (the session table included) or a use of
    freed memory, with the invariant of the transport layer and every session in one of
    its four states on a slot and connection that fit their fields; unless a poll ends
    with -1 and OUTOFMEMORY. *)
Theorem en50221_sl_invariant (env : environment) {S A} `{!UpperInv A} lookup session_cb session_event resource_cb uninit
    n ms mc R (Happ : AppClient (A := A) n ms mc R lookup session_cb session_event resource_cb)
    (w0 : world S) t w1 s0 (a : A) w2 ops :
  0 <= n <= 65536 -> 0 <= ms < 256 -> 0 <= mc < 256 -> upper_ok a ->
  en50221_tl_create env ms mc w0 = Some (Some t, w1) ->
  en50221_sl_create env n (World (Host t (Stack s0 a)) (w_tick w1) (w_sent w1)) = Some (true, w2) ->
  Forall sl_op_ok ops ->
  exists k rs w',
    run_sl_ops env lookup session_cb session_event resource_cb uninit (take k ops) w2 = Some (rs, w') /\
    (k = length ops /\ tl_inv ms mc (replicate (Z.to_nat ms) false) false (tl (w_st w')) /\
       sl_wf n (sl (upper (w_st w'))) /\ upper_ok (app (upper (w_st w'))) \/
     rs !! pred k = Some (-1) /\ ops !! pred k = Some (Transport Poll) /\
     tl_struct ms mc (replicate (Z.to_nat ms) false) false (tl (w_st w')) /\
     error (tl (w_st w')) = EN50221ERR_OUTOFMEMORY).
Proof.
  intros Hn Hms Hmc Ha Et Es Hops. apply create_spec in Et as ->.
  pose proof (new_layer_inv (U := unit) ms mc Hms Hmc tt (w_tick w1) (w_sent w1) I) as [Ht _].
  assert (HI : @inv _ (stack_upper n) ms mc (unlocked ms) false w2).
  { assert (Hc := twp_sl_create env n ms mc Hn Hms Hmc (unlocked ms)
      (World (Host (new_layer ms mc) (Stack s0 a)) (w_tick w1) (w_sent w1)) Ht Ha).
    exact (twp_elim _ _ _ _ _ Hc Es eq_refl). }
  destruct (run_all_inv _ _ _ _ ops w2 (twp_run_sl_op env _ _ _ _ uninit n ms mc Hn Hms Hmc _ Happ) HI Hops)
    as (k & rs & w' & E & [(-> & Ht' & Hs' & Ha')|(op & r & Eo & Er & -> & -> & Ho)]);
    eexists _, rs, w'; (split; [exact E|]); [by left|by right].
Qed.

(** ** A concrete application *)

(** It offers every resource it is asked for and answers every APDU on its session. *)
Definition demo_lookup (i id : Z) : T (host (stack unit)) (Z * option Z * option Z) := mret (0, Some 7, Some id).
Definition demo_session (reason i k id : Z) : T (host (stack unit)) Z := mret 0.
Definition demo_event (reason i k id : Z) (a : unit) : unit := a.
Definition demo_resource (f i k id : Z) (data : list Z) : T (host (stack unit)) unit :=
  en50221_sl_send_data quiet_env k [0x9f; 0x80; 0x11; 0];; mret tt.

Lemma demo_app n ms mc : 0 <= n <= 65536 -> 0 <= ms < 256 -> 0 <= mc < 256 ->
  AppClient n ms mc eq demo_lookup demo_session demo_event demo_resource.
Proof.
  intros Hn Hms Hmc. constructor.
  - by intros l l' k x <-.
  - by intros i id lk w HI _.
  - by intros reason i k id lk w HI _ Ho.
  - done.
  - intros f i k id data lk w HI Hl Ho. unfold demo_resource. apply twp_bind. eapply twp_mono.
    + apply (twp_sl_send_data_session _ n ms mc Hms Hmc k [0x9f; 0x80; 0x11; 0] lk false w HI); [|by destruct Ho as (y & Ey & _); destruct (entry_range _ _ _ Ey)|done].
      intros x Ex _. destruct Ho as (y & Ey & <-). unfold table in Ey. rewrite Ex in Ey. by injection Ey as <-.
    + intros r w' [[HI' _] S']. apply twp_ret. split; [done|by eapply on_slot_same].
Qed.

Lemma en50221_sl_invariant_witness :
  exists w2 k rs w', 
    en50221_sl_create quiet_env 4 (World (Host (new_layer 1 2) (Stack (Sl 0 false false 0 []) tt)) 4 []) = Some (true, w2) /\
    run_sl_ops quiet_env demo_lookup demo_session demo_event demo_resource 0
      (take k [RegisterLookup true; RegisterSession true; Transport (RegisterSlot 5 0 1000 100); Transport (NewTc 0);
               Transport Poll; CreateSession 0 1 0x10041 None; SessionSend 1 [1; 2]; DestroySession 1;
               Transport (DestroySlot 0)]) w2 = Some (rs, w') /\
    (k = 9%nat /\ tl_inv 1 2 [false] false (tl (w_st w')) /\ sl_wf 4 (sl (upper (w_st w'))) /\ True \/
     rs !! pred k = Some (-1) /\
     [RegisterLookup true; RegisterSession true; Transport (RegisterSlot 5 0 1000 100); Transport (NewTc 0);
      Transport Poll; CreateSession 0 1 0x10041 None; SessionSend 1 [1; 2]; DestroySession 1;
      Transport (DestroySlot 0)] !! pred k = Some (Transport Poll) /\
     tl_struct 1 2 [false] false (tl (w_st w')) /\ error (tl (w_st w')) = EN50221ERR_OUTOFMEMORY).
Proof.
  destruct (en50221_sl_invariant quiet_env demo_lookup demo_session demo_event demo_resource 0 4 1 2 eq
    (demo_app 4 1 2 ltac:(lia) ltac:(lia) ltac:(lia))
    (World tt 0 []) (new_layer 1 2) (World tt 4 []) (Sl 0 false false 0 []) tt
    (World (Host (with_callback true (new_layer 1 2)) (Stack (Sl 4 false false 0 (replicate 4 new_session)) tt)) 6 [])
    [RegisterLookup true; RegisterSession true; Transport (RegisterSlot 5 0 1000 100); Transport (NewTc 0);
     Transport Poll; CreateSession 0 1 0x10041 None; SessionSend 1 [1; 2]; DestroySession 1;
     Transport (DestroySlot 0)]) as (k & rs & w' & H).
  - lia.
  - lia.
  - lia.
  - exact I.
  - reflexivity.
  - reflexivity.
  - repeat (apply Forall_cons_2; [by repeat split|]). apply Forall_nil_2.
  - eexists _, k, rs, w'. split; [reflexivity|exact H].
Defined.
