(* ===== verification/En50221SlDeliver.v ===== *)
(** * En50221SlDeliver: what the session layer sends and does

    Data sent on a session arrives as its APDUs at the resource of the peer's session, and
    what a module sends moves only the sessions of its own connection.  The examples at
    the end are runs that go wrong. *)

From stdpp Require Import relations.
From S2P Require Import Prelude Asn1 CaLink En50221Transport En50221Poll En50221Inv En50221Safe.
From S2P Require Import En50221Api En50221Ops En50221Deliver En50221Session En50221SlSafe En50221Stack.

(** ** Packages *)

(** An APDU: a tag of three bytes, a length field and the body. *)
Definition apdu (p : list Z * list Z) : list Z := p.1 ++ asn_field (zlen p.2) ++ p.2.
Definition apdu_ok (p : list Z * list Z) : Prop := zlen p.1 = 3 /\ zlen p.2 < 65536.
Lemma apdu_len p : apdu_ok p -> zlen (apdu p) = 3 + zlen (asn_field (zlen p.2)) + zlen p.2.
Proof. intros [Hl _]. unfold apdu. rewrite !zlen_app. lia. Qed.

(** A function is called for each of the data. *)
Fixpoint each {S} (run : list Z -> T S unit) (l : list (list Z)) : T S unit :=
  match l with [] => mret tt | x :: l => run x;; each run l end.

Section package.
Context {A : Type}.
Abbreviation M := (T (host (stack A))).
Context (resource_cb : Z -> Z -> Z -> Z -> list Z -> M unit).

Lemma apdu_loop_each fuel f i k id l w :
  Forall apdu_ok l -> zlen (concat (apdu <$> l)) < 2 ^ 31 -> (length (concat (apdu <$> l)) <= fuel)%nat ->
  apdu_loop resource_cb fuel (Some f) i k id (concat (apdu <$> l)) w = each (resource_cb f i k id) (apdu <$> l) w.
Proof.
  intros Hok. revert fuel w. induction Hok as [|p l [Hp Hb] Hok IH]; intros fuel w Hz Hf; [by destruct fuel|].
  pose proof (apdu_len p (conj Hp Hb)) as Hl. pose proof (asn_field_len (zlen p.2)).
  cbn [fmap list_fmap concat] in *. rewrite zlen_app in Hz. rewrite length_app in Hf.
  pose proof (zlen_nonneg (concat (apdu <$> l))). pose proof (zlen_nonneg p.2).
  destruct fuel as [|fuel]; [unfold zlen in *; unfold fmap in *; lia|].
  cbn [apdu_loop each]. rewrite zlen_app. fold (apdu <$> l).
  destruct (_ =? 0) eqn:E0; [unfold fmap in *; lia|]. destruct (_ <? 3) eqn:E1; [unfold fmap in *; lia|].
  assert (Ea : asn_1_decode (apdu p ++ concat (apdu <$> l)) 3 (zlen (apdu p) + zlen (concat (apdu <$> l)) - 3) =
    Some (zlen (asn_field (zlen p.2)), Some (zlen p.2))).
  { unfold apdu at 1. rewrite <- !app_assoc, <- Hp. rewrite asn_1_decode_field by lia. by rewrite decide_True by lia. }
  unfold mbind at 1, T_bind at 1, lift. rewrite Ea. destruct (_ <? 0) eqn:E2; [lia|].
  change (default 0 (Some (zlen p.2))) with (zlen p.2). rewrite u32_small by lia. rewrite <- Hl.
  destruct (_ <? zlen (apdu p)) eqn:E3; [unfold fmap in *; lia|]. rewrite ztake_app, zdrop_app by done.
  unfold mbind, T_bind. destruct (resource_cb _ _ _ _ _ w) as [[[] w']|]; [|done].
  apply IH; [unfold fmap in *; lia|]. unfold zlen in Hl. unfold fmap in *. lia.
Qed.

Context (env : environment) (lookup : Z -> Z -> M (Z * option Z * option Z))
  (session_cb : Z -> Z -> Z -> Z -> M Z) (uninit : Z).

(** The package of an active session is handed to its resource. *)
Lemma sl_data_package n k x f i j l w :
  sl_wf n (sl (upper (w_st w))) -> 0 <= k < 65536 -> entry (sessions (sl (upper (w_st w)))) k = Some x ->
  s_slot_id x = i -> s_connection_id x = j -> s_state x = S_STATE_ACTIVE -> s_callback x = Some f ->
  Forall apdu_ok l -> zlen (concat (apdu <$> l)) < 2 ^ 31 ->
  sl_data env lookup session_cb resource_cb uninit (session_header k ++ concat (apdu <$> l)) i j w =
    each (resource_cb f i k (s_resource_id x)) (apdu <$> l) w.
Proof.
  intros [Hm Hl _] Hk Ex Ei Ej Es Ef Hok Hz. pose proof (entry_range _ _ _ Ex) as Hr.
  set (d := concat (apdu <$> l)) in *. pose proof (zlen_nonneg d).
  assert (Hw : word16 (2 :: put16 k ++ d) 1 = Some k).
  { unfold word16. change (zget (2 :: put16 k ++ d) 1) with (Some (u8 (Z.shiftr k 8))).
    change (zget (2 :: put16 k ++ d) (1 + 1)) with (Some (u8 k)). cbn [mbind option_bind].
    unfold u8. rewrite shiftr_8, lor_byte by lia. f_equal. rewrite u16_small; lia. }
  unfold sl_data. rewrite zlen_session_header. destruct (_ <? 1) eqn:E1; [lia|].
  change (zget (session_header k ++ d) 0) with (Some ST_SESSION_NUMBER).
  unfold mbind at 1, T_bind at 1, lift at 1. cbn -[en50221_sl_handle_session_package Z.eqb].
  change (zdrop 1 (session_header k ++ d)) with (2 :: put16 k ++ d).
  change (en50221_sl_handle_session_package resource_cb (2 :: put16 k ++ d) i j w = each (resource_cb f i k (s_resource_id x)) (apdu <$> l) w).
  unfold en50221_sl_handle_session_package.
  assert (E3 : zlen (2 :: put16 k ++ d) = 3 + zlen d) by (rewrite zlen_cons, zlen_app; change (zlen (put16 k)) with 2; lia).
  rewrite E3. destruct (_ <? 3) eqn:E4; [lia|].
  change (zget (2 :: put16 k ++ d) 0) with (Some 2). unfold mbind at 1, T_bind at 1, lift at 1.
  change (negb (2 =? 2)) with false. cbn iota. rewrite Hw. unfold mbind at 1, T_bind at 1, lift at 1.
  unfold mbind at 1, T_bind at 1.
  assert (Ef' : session_for k i j S_STATE_ACTIVE w = Some (Some x, w)).
  { unfold session_for, get_sl, get_session, get_sl, lift, get, mbind, T_bind, mret, T_ret, mbind, T_bind.
    rewrite Hm. destruct (n <=? k) eqn:En; [lia|]. rewrite Ex, Ei, Ej, Es, !Z.eqb_refl. done. }
  rewrite Ef', Ef. change (zdrop 3 (2 :: put16 k ++ d)) with d.
  apply apdu_loop_each; [done|done|]. fold d. unfold zlen in E3. lia.
Qed.
End package.

(** What a successful send queued. *)
Lemma sl_send_queued (env : environment) {A} `{!UpperInv A} n ms mc lk g (w w2 : world (host (stack A))) k x data :
  0 <= ms < 256 -> 0 <= mc < 256 -> @inv _ (stack_upper n) ms mc lk g w ->
  entry (sessions (sl (upper (w_st w)))) k = Some x -> (s_slot_id x < ms -> entry lk (s_slot_id x) = Some false) ->
  zlen data < 65531 -> en50221_sl_send_data env k data w = Some (0, w2) ->
  exists m, @queued _ (stack_upper n) ms mc lk g (s_slot_id x) (s_connection_id x) m w w2 /\
    m_bytes m = tpdu T_DATA_LAST (s_connection_id x) (session_header k ++ data).
Proof.
  intros Hms Hmc HI Ex Hl Hz Es. pose proof (inv_sl _ _ _ _ _ _ HI) as [Hm Hn Hw].
  pose proof (entry_range _ _ _ Ex) as Hr. destruct (entry_Forall _ _ _ _ Hw Ex) as [_ [Hi _] [Hj _]].
  assert (Hs : twp (en50221_sl_send_data env k data) (fun r w' => r = 0 ->
    exists m, @queued _ (stack_upper n) ms mc lk g (s_slot_id x) (s_connection_id x) m w w' /\
      m_bytes m = tpdu T_DATA_LAST (s_connection_id x) (session_header k ++ data)) w); [|by apply (twp_elim _ _ _ _ _ Hs Es)].
  assert (Hbad : forall e w', twp (set_sl_error e;; mret (-1)) (fun r w' => r = 0 ->
    exists m, @queued _ (stack_upper n) ms mc lk g (s_slot_id x) (s_connection_id x) m w w' /\
      m_bytes m = tpdu T_DATA_LAST (s_connection_id x) (session_header k ++ data)) w').
  { done. }
  unfold en50221_sl_send_data. apply twp_bind, twp_get_sl. rewrite Hm. apply twp_if; intros E; [apply Hbad|].
  apply twp_bind, twp_bind, twp_get_sl. eapply twp_lift; [exact Ex|]. apply twp_if; intros _; [apply Hbad|].
  apply twp_bind. eapply (@twp_send_datav _ _ (stack_upper n) ms mc Hms Hmc); [exact HI|done|done|done| | | | |].
  { cbn [concat]. rewrite zlen_session_header, app_nil_r. lia. }
  - intros _ w' _. apply twp_if; [intros _|done]. apply twp_bind, twp_bind, twp_get_tl, twp_ret, Hbad.
  - intros _ _ _ w' _. apply twp_if; [intros _|done]. apply twp_bind, twp_bind, twp_get_tl, twp_ret, Hbad.
  - intros c _ _ _ _ _ w' _. apply twp_if; [intros _|done]. apply twp_bind, twp_bind, twp_get_tl, twp_ret, Hbad.
  - intros c m w' _ _ _ _ Hq Hb. apply twp_if; [done|intros _]. apply twp_ret. intros _. exists m.
    split; [exact Hq|]. cbn [concat] in Hb. rewrite app_nil_r in Hb.
    rewrite tpdu_queued_eq in Hb; [exact Hb|]. rewrite zlen_session_header. lia.
Qed.

(** C31: Round trip through both layers.  What [en50221_sl_send_data] queued on a session,
    as the bytes that [dvbca_link_write] passes on, makes a peer whose session of that
    number is active on that connection call its resource callback once for each APDU of
    the data, in order and with the APDU's bytes, and then finish with 0. *)
Theorem en50221_sl_roundtrip (env env' : environment) {A B} `{!UpperInv A} `{!UpperInv B} n ms mc lk g
    (w w2 : world (host (stack A))) k x l
    lookup session_cb session_event resource_cb uninit n' ms' mc' R
    (Happ : AppClient (A := B) n' ms' mc' R lookup session_cb session_event resource_cb)
    lk' (v : world (host (stack B))) i' c' x' f :
  0 <= ms < 256 -> 0 <= mc < 256 -> @inv _ (stack_upper n) ms mc lk g w -> 0 <= k < 65536 ->
  entry (sessions (sl (upper (w_st w)))) k = Some x -> (s_slot_id x < ms -> entry lk (s_slot_id x) = Some false) ->
  Forall apdu_ok l -> zlen (concat (apdu <$> l)) < 65521 ->
  en50221_sl_send_data env k (concat (apdu <$> l)) w = Some (0, w2) ->
  0 <= n' <= 65536 -> 0 <= ms' < 256 -> 0 <= mc' < 256 -> (forall n, malloc_ok env' n = true) ->
  @inv _ (stack_upper n') ms' mc' lk' false v -> entry lk' i' = Some true ->
  conn_at (tl (w_st v)) i' (s_connection_id x) = Some c' ->
  state c' = T_STATE_ACTIVE -> chain_buffer c' = PNull -> callback (tl (w_st v)) = true ->
  entry (sessions (sl (upper (w_st v)))) k = Some x' -> s_slot_id x' = i' -> s_connection_id x' = s_connection_id x ->
  s_state x' = S_STATE_ACTIVE -> s_callback x' = Some f ->
  exists m v1 v2 v3,
    @queued _ (stack_upper n) ms mc lk g (s_slot_id x) (s_connection_id x) m w w2 /\ quiet v v1 /\
    each (resource_cb f i' k (s_resource_id x')) (apdu <$> l) v1 = Some (tt, v2) /\ lock_slot i' v2 = Some (tt, v3) /\
    en50221_tl_process_data env' (sl_event session_event) (sl_data env' lookup session_cb resource_cb uninit) i'
      (ztake (u16 (m_length m)) (m_data m)) v = Some (0, v3).
Proof.
  intros Hms Hmc HI Hk Ex Hl Hok Hz Es Hn' Hms' Hmc' Ha HI' Hl' Ec' Est Hch Hcb Ex' Ei' Ej' Es' Ef'.
  destruct (sl_send_queued env n ms mc lk g w w2 k x (concat (apdu <$> l)) Hms Hmc HI Ex Hl ltac:(lia) Es) as (m & Hq & Hb).
  pose proof (@queued_msg_wf _ (stack_upper n) _ _ _ _ _ _ _ _ _ Hq) as Hm.
  pose proof (zlen_nonneg (concat (apdu <$> l))).
  destruct (@message_arrives env' _ (stack_upper n') (sl_event session_event)
    (sl_event_client n' ms' mc' Hms' Hmc' _ _ _ _ _ Happ) (sl_data env' lookup session_cb resource_cb uninit) ms' mc'
    (sl_data_client env' n' ms' mc' Hn' Hms' Hmc' _ _ _ _ uninit _ Happ) (s_connection_id x)
    (session_header k ++ concat (apdu <$> l)) m lk' v i' c') as (v1 & v2 & v3 & Hqv & E2 & E3 & HI1 & E); try done.
  { rewrite zlen_session_header. lia. }
  exists m, v1, v2, v3. split; [done|]. split; [done|]. split; [|done].
  rewrite <- E2. symmetry. eapply sl_data_package; try done; [by eapply inv_sl| |lia].
  destruct Hqv as (-> & _). done.
Qed.

(** The session table.  Whatever bytes arrive on connection [j] of slot [i], the
    session layer handles them without undefined behaviour, keeps its invariant, and moves
    the session table only by the steps of [spdu_step] and those the application itself
    makes when it is called: a session of another slot or connection is never changed, a
    new one is the first idle one from 1, and none becomes active but from creation. *)
Theorem en50221_sl_steps (env : environment) {A} `{!UpperInv A} lookup session_cb session_event resource_cb uninit
    n ms mc R (Happ : AppClient (A := A) n ms mc R lookup session_cb session_event resource_cb)
    lk (w : world (host (stack A))) data i j :
  0 <= n <= 65536 -> 0 <= ms < 256 -> 0 <= mc < 256 ->
  @inv _ (stack_upper n) ms mc lk false w -> entry lk i = Some false -> byte j -> zlen data < 2 ^ 31 ->
  exists w', sl_data env lookup session_cb resource_cb uninit data i j w = Some (tt, w') /\
    @inv _ (stack_upper n) ms mc lk false w' /\
    rtc (fun l l' => R l l' \/ spdu_step i j l l') (sessions (sl (upper (w_st w)))) (sessions (sl (upper (w_st w')))).
Proof.
  intros Hn Hms Hmc HI Hl Hj Hz. pose proof (entry_range _ _ _ Hl) as Hi.
  rewrite (@inv_locks_len _ (stack_upper n) _ _ _ _ _ HI) in Hi.
  assert (Hfr : from lk i j) by (split; [done|]; unfold byte in *; lia).
  destruct (twp_run _ _ _ (twp_sl_data env n ms mc Hn Hms Hmc R _ _ _ _ uninit Happ data i j lk w HI Hfr Hz))
    as ([] & w' & E & HI' & Hm).
  by exists w'.
Qed.

(** ** Witnesses *)

(** One slot with connection 1 active; session 1 is in state [st] on it. *)
Definition demo_sessions (st : Z) : en50221_session_layer :=
  Sl 3 true true 0 [new_session; Session st 0x10041 0 1 (Some 7); new_session].
Definition demo_stack {A} (lock : bool) (st : Z) (a : A) : world (host (stack A)) :=
  demo lock T_STATE_ACTIVE (Stack (demo_sessions st) a).

Lemma demo_stack_inv lock st : s_state_ok st -> @inv _ (stack_upper 3) 1 2 [lock] false (demo_stack lock st tt).
Proof.
  intros Hs. eapply (@demo_inv _ (stack_upper 3)); [by apply (bool_decide_unpack _)|]. split; [|exact I].
  assert (Hnew : session_wf new_session) by (constructor; [state_done|done|done]).
  constructor; [done|done|]. cbn. apply Forall_cons_2; [done|]. apply Forall_cons_2; [|by apply Forall_cons_2].
  by constructor.
Qed.

Lemma en50221_sl_steps_witness :
  exists w', sl_data quiet_env demo_lookup demo_session demo_resource 0 [0x91; 4; 0; 1; 0; 0x41] 0 1
      (demo_stack false S_STATE_IDLE tt) = Some (tt, w') /\
    @inv _ (stack_upper 3) 1 2 [false] false w' /\
    rtc (fun l l' => l = l' \/ spdu_step 0 1 l l') (sessions (demo_sessions S_STATE_IDLE)) (sessions (sl (upper (w_st w')))).
Proof.
  apply (en50221_sl_steps quiet_env demo_lookup demo_session demo_event demo_resource 0 3 1 2 eq
    (demo_app 3 1 2 ltac:(lia) ltac:(lia) ltac:(lia)) [false] (demo_stack false S_STATE_IDLE tt)).
  - lia.
  - lia.
  - lia.
  - apply demo_stack_inv. by apply (bool_decide_unpack _).
  - reflexivity.
  - split; [discriminate|reflexivity].
  - reflexivity.
Defined.

(** What sending two APDUs on session 1 gives. *)
Definition demo_apdus : list (list Z * list Z) := [([0x9f; 0x80; 0x10], []); ([0x9f; 0x80; 0x11], [1; 2])].
Definition demo_package : world (host (stack unit)) :=
  match en50221_sl_send_data quiet_env 1 (concat (apdu <$> demo_apdus)) (demo_stack false S_STATE_ACTIVE tt) with
  | Some (_, w) => w | None => demo_stack false S_STATE_ACTIVE tt
  end.

Lemma en50221_sl_roundtrip_witness :
  exists m v1 v2 v3,
    @queued _ (stack_upper 3) 1 2 [false] false 0 1 m (demo_stack false S_STATE_ACTIVE tt) demo_package /\
    quiet (demo_stack true S_STATE_ACTIVE tt) v1 /\
    each (demo_resource 7 0 1 0x10041) (apdu <$> demo_apdus) v1 = Some (tt, v2) /\ lock_slot 0 v2 = Some (tt, v3) /\
    en50221_tl_process_data quiet_env (sl_event demo_event) (sl_data quiet_env demo_lookup demo_session demo_resource 0) 0
      (ztake (u16 (m_length m)) (m_data m)) (demo_stack true S_STATE_ACTIVE tt) = Some (0, v3).
Proof.
  apply (en50221_sl_roundtrip quiet_env quiet_env 3 1 2 [false] false (demo_stack false S_STATE_ACTIVE tt) demo_package 1
    (Session S_STATE_ACTIVE 0x10041 0 1 (Some 7)) demo_apdus demo_lookup demo_session demo_event demo_resource 0 3 1 2 eq
    (demo_app 3 1 2 ltac:(lia) ltac:(lia) ltac:(lia)) [true] (demo_stack true S_STATE_ACTIVE tt) 0
    (set_state T_STATE_ACTIVE new_connection) (Session S_STATE_ACTIVE 0x10041 0 1 (Some 7)) 7).
  - lia.
  - lia.
  - apply demo_stack_inv. by apply (bool_decide_unpack _).
  - lia.
  - reflexivity.
  - reflexivity.
  - apply Forall_cons_2; [|apply Forall_cons_2; [|apply Forall_nil_2]]; split; reflexivity.
  - reflexivity.
  - vm_compute. reflexivity.
  - lia.
  - lia.
  - lia.
  - reflexivity.
  - apply demo_stack_inv. by apply (bool_decide_unpack _).
  - reflexivity.
  - reflexivity.
  - reflexivity.
  - reflexivity.
  - reflexivity.
  - reflexivity.
  - reflexivity.
  - reflexivity.
  - reflexivity.
  - reflexivity.
Defined.

(** ** Runs that go wrong *)

(** The states of the sessions after data. *)
Definition states_after (data : list Z) (w : world (host (stack unit))) : option (list Z) :=
  match sl_data quiet_env demo_lookup demo_session demo_resource 0 data 0 1 w with
  | Some (_, w) => Some (s_state <$> sessions (sl (upper (w_st w)))) | None => None
  end.

(** The response to creating session 1 with resource 0x10041, laid out as the layer's own
    OPEN_SESSION_RES: the session number is looked for one byte too early, and the session
    stays in creation; with the number one byte earlier it becomes active. *)
Example en50221_sl_create_response_ignored :
  states_after [ST_CREATE_SESSION_RES; 7; 0; 0; 1; 0; 0x41; 0; 1] (demo_stack false S_STATE_IN_CREATION tt) =
    Some [S_STATE_IDLE; S_STATE_IN_CREATION; S_STATE_IDLE] /\
  states_after [ST_CREATE_SESSION_RES; 7; 0; 0; 1; 0; 0; 1; 0] (demo_stack false S_STATE_IN_CREATION tt) =
    Some [S_STATE_IDLE; S_STATE_ACTIVE; S_STATE_IDLE].
Proof. vm_compute. split; reflexivity. Qed.

(** The layer's own CLOSE_SESSION_RES, of length 3, is ignored: the session stays in
    deletion; one of length 4 is accepted. *)
Example en50221_sl_close_response_ignored :
  states_after [ST_CLOSE_SESSION_RES; 3; 0; 0; 1] (demo_stack false S_STATE_IN_DELETION tt) =
    Some [S_STATE_IDLE; S_STATE_IN_DELETION; S_STATE_IDLE] /\
  states_after [ST_CLOSE_SESSION_RES; 4; 0; 0; 1; 0] (demo_stack false S_STATE_IN_DELETION tt) =
    Some [S_STATE_IDLE; S_STATE_IDLE; S_STATE_IDLE] /\
  match sl_data quiet_env demo_lookup demo_session demo_resource 0 [ST_CLOSE_SESSION_REQ; 2; 0; 1] 0 1
          (demo_stack false S_STATE_ACTIVE tt) with
  | Some (_, w) => m_bytes <$> concat (send_queue <$> concat (connections <$> slots (tl (w_st w)))) =
      [tpdu T_DATA_LAST 1 [ST_CLOSE_SESSION_RES; 3; 0; 0; 1]]
  | None => False
  end.
Proof. vm_compute. repeat split; reflexivity. Qed.

(** When connection 1 of slot 5 closes, so does the session on connection 1 of slot 0. *)
Example en50221_sl_close_other_slot :
  s_state <$> sessions (sl (sl_event demo_event T_CALLBACK_REASON_CONNECTIONCLOSE 5 1
    (Stack (demo_sessions S_STATE_ACTIVE) tt))) = [S_STATE_IDLE; S_STATE_IDLE; S_STATE_IDLE].
Proof. vm_compute. reflexivity. Qed.
