(* ===== verification/CaPmt.v ===== *)
(** * CaPmt: formatting a CA PMT, libdvben50221/en50221_app_ca.c

    [en50221_ca_format_pmt] turns a parsed PMT section into the CA PMT object sent to a
    module.  The linked lists of the code are lists; a descriptor in them is the bytes at
    its pointer.  The section is the memory of the monad, the output buffer a list of its
    own.  Which [malloc] succeeds is a parameter; the iterations over the section only
    read it, so each is run before the allocations its body makes. *)

From S2P Require Import Prelude Mem EndianOps Descriptor Crc32 PsiSection EntryLoop TableCodec MpegSections Asn1.

Definition dtag_mpeg_ca : Z := 0x09.

Abbreviation ca_pmt_descriptor := (list Z).
Record ca_pmt_stream := CaPmtStream {
  cs_stream_type : Z;
  cs_pid : Z;
  cs_descriptors : list ca_pmt_descriptor;
  cs_descriptors_length : Z;
  cs_descriptors_count : Z }.

Definition set_descriptors (ds : list ca_pmt_descriptor) (count : Z) (s : ca_pmt_stream) : ca_pmt_stream :=
  CaPmtStream (cs_stream_type s) (cs_pid s) ds (cs_descriptors_length s) count.
Definition set_length (n : Z) (s : ca_pmt_stream) : ca_pmt_stream :=
  CaPmtStream (cs_stream_type s) (cs_pid s) (cs_descriptors s) n (cs_descriptors_count s).

(** ** Collecting the CA descriptors *)

Section extract.
Context (malloc_ok : nat -> bool).

(** The body of a loop over descriptors: one allocation, of number [n], for each that is
    kept; [None] when one fails. *)
Fixpoint keep_ca (ds : list descriptor) (n : nat) : option (list ca_pmt_descriptor) * nat :=
  match ds with
  | [] => (Some [], n)
  | d :: ds =>
      if d_tag d =? dtag_mpeg_ca then
        if malloc_ok n then let '(r, n) := keep_ca ds (S n) in ((encode_descriptor d ::.) <$> r, n)
        else (None, S n)
      else keep_ca ds n
  end.

Definition en50221_ca_extract_pmt_descriptors (n : nat) : M (option (list ca_pmt_descriptor) * nat) :=
  ds ← mpeg_pmt_section_descriptors_for_each; mret (keep_ca ds n).

(** [descriptors_length] is set later. *)
Fixpoint keep_streams (ss : list mpeg_pmt_stream) (n : nat) : option (list ca_pmt_stream) * nat :=
  match ss with
  | [] => (Some [], n)
  | s :: ss =>
      if malloc_ok n then
        let '(ds, n) := keep_ca (stream_descs s) (S n) in
        match ds with
        | None => (None, n)
        | Some ds =>
            let '(r, n) := keep_streams ss n in
            ((CaPmtStream (stream_type s) (stream_pid s) ds 0 (u32 (zlen ds)) ::.) <$> r, n)
        end
      else (None, S n)
  end.
Definition en50221_ca_extract_streams (n : nat) : M (option (list ca_pmt_stream) * nat) :=
  ss ← mpeg_pmt_section_streams_for_each; mret (keep_streams ss n).
End extract.

(** ** Moving common descriptors to the programme

    [None] is a null pointer that is followed. *)

Fixpoint descriptors_match (cur first : list ca_pmt_descriptor) : option bool :=
  match cur, first with
  | [], _ => Some true
  | c :: cur, f :: first =>
      if negb (zlen c =? zlen f) then Some false
      else if decide (c = f) then descriptors_match cur first else Some false
  | _ :: _, [] => None
  end.
Fixpoint streams_match (first : ca_pmt_stream) (rest : list ca_pmt_stream) : option bool :=
  match rest with
  | [] => Some true
  | cur :: rest =>
      if negb (cs_descriptors_count cur =? cs_descriptors_count first) then Some false else
      b ← descriptors_match (cs_descriptors cur) (cs_descriptors first);
      if (b : bool) then streams_match first rest else Some false
  end.
Definition en50221_ca_try_move_pmt_descriptors (streams : list ca_pmt_stream) :
    option (list ca_pmt_descriptor * list ca_pmt_stream) :=
  match streams with
  | [] => Some ([], [])
  | first :: rest =>
      b ← streams_match first rest;
      Some (if (b : bool) then (cs_descriptors first, set_descriptors [] 0 <$> streams) else ([], streams))
  end.

(** ** Lengths *)

Definition descriptors_size (ds : list ca_pmt_descriptor) : Z :=
  let n := foldl (fun n d => u32 (n + zlen d)) 0 ds in
  if negb (n =? 0) then u32 (n + 1) else n.
(** The total, the length of the programme's descriptors, and the streams with theirs. *)
Definition en50221_ca_calculate_length (pmt_descriptors : list ca_pmt_descriptor) (streams : list ca_pmt_stream) :
    Z * Z * list ca_pmt_stream :=
  let pmt_descriptors_length := descriptors_size pmt_descriptors in
  let streams := (fun s => set_length (descriptors_size (cs_descriptors s)) s) <$> streams in
  (foldl (fun n s => u32 (n + (5 + cs_descriptors_length s))) (u32 (6 + pmt_descriptors_length)) streams,
   pmt_descriptors_length, streams).

(** ** Formatting *)

(** Writing at [data_pos] and advancing it. *)
Definition emit (l : list Z) (st : Z * list Z) : option (Z * list Z) :=
  data ← copy_to st.2 st.1 l; Some (u32 (st.1 + zlen l), data).
Definition emit_all (ls : list (list Z)) (st : Z * list Z) : option (Z * list Z) :=
  foldl (fun st l => st ← st; emit l st) (Some st) ls.
Definition format_descriptors (cmd_id length : Z) (ds : list ca_pmt_descriptor) (st : Z * list Z) : option (Z * list Z) :=
  if negb (length =? 0) then st ← emit [cmd_id] st; emit_all ds st else Some st.
Definition format_stream (cmd_id : Z) (s : ca_pmt_stream) (st : Z * list Z) : option (Z * list Z) :=
  let n := cs_descriptors_length s in
  st ← emit [cs_stream_type s; u8 (Z.land (Z.shiftr (cs_pid s) 8) 0x1f); u8 (cs_pid s);
             u8 (Z.land (Z.shiftr n 8) 0x0f); u8 n] st;
  format_descriptors cmd_id n (cs_descriptors s) st.
Definition format_streams (cmd_id : Z) (streams : list ca_pmt_stream) (st : Z * list Z) : option (Z * list Z) :=
  foldl (fun st s => st ← st; format_stream cmd_id s st) (Some st) streams.

Definition from_option {A} (o : option A) : M A := match o with Some a => mret a | None => fun _ => Fault end.

(** The value returned and the buffer. *)
Definition en50221_ca_format_pmt (malloc_ok : nat -> bool) (data : list Z) (data_length : Z) (move_ca_descriptors : bool)
    (ca_pmt_list_management ca_pmt_cmd_id : Z) : M (Z * list Z) :=
  '(pmt_descriptors, n) ← en50221_ca_extract_pmt_descriptors malloc_ok 0;
  match pmt_descriptors with
  | None => mret (-1, data)
  | Some pmt_descriptors =>
      '(pmt_streams, _) ← en50221_ca_extract_streams malloc_ok n;
      match pmt_streams with
      | None => mret (-1, data)
      | Some pmt_streams =>
          '(pmt_descriptors, pmt_streams) ←
            (if bool_decide (pmt_descriptors = []) && move_ca_descriptors
             then from_option (en50221_ca_try_move_pmt_descriptors pmt_streams)
             else mret (pmt_descriptors, pmt_streams));
          let '(total, n, pmt_streams) := en50221_ca_calculate_length pmt_descriptors pmt_streams in
          if data_length <? total then mret (-1, data) else
          program_number ← mpeg_pmt_section_program_number;
          version_number ← section_ext_version_number;
          current_next_indicator ← section_ext_current_next_indicator;
          from_option (
            st ← emit [ca_pmt_list_management; u8 (Z.shiftr program_number 8); u8 program_number;
                       u8 (Z.lor (Z.shiftl version_number 1) current_next_indicator);
                       u8 (Z.land (Z.shiftr n 8) 0x0f); u8 n] (0, data);
            st ← format_descriptors ca_pmt_cmd_id n pmt_descriptors st;
            st ← format_streams ca_pmt_cmd_id pmt_streams st;
            Some (s32 st.1, st.2))
      end
  end.

(** ** Specification

    What is sent to the module: the descriptors that are kept, where they go, and the
    bytes of the object. *)

Definition ca_descriptors (ds : list descriptor) : list ca_pmt_descriptor :=
  encode_descriptor <$> filter (fun d => d_tag d = dtag_mpeg_ca) ds.

(** A list of descriptors with its length field and, if there are any, the command. *)
Definition ca_info (cmd_id : Z) (ds : list ca_pmt_descriptor) : list Z :=
  let n := if bool_decide (ds = []) then 0 else 1 + zlen (concat ds) in
  [n / 256; n mod 256] ++ (if bool_decide (ds = []) then [] else cmd_id :: concat ds).

Definition ca_stream (cmd_id : Z) (ds : list ca_pmt_descriptor) (s : mpeg_pmt_stream) : list Z :=
  [stream_type s; stream_pid s / 256; stream_pid s mod 256] ++ ca_info cmd_id ds.

(** All streams have the same descriptors, which then go to the programme. *)
Definition ca_common (streams : list mpeg_pmt_stream) : option (list ca_pmt_descriptor) :=
  match streams with
  | [] => None
  | s :: _ =>
      let ds := ca_descriptors (stream_descs s) in
      if bool_decide (Forall (fun s => ca_descriptors (stream_descs s) = ds) streams) then Some ds else None
  end.

Definition ca_pmt_object (move : bool) (list_management cmd_id program_number version : Z)
    (ds : list descriptor) (streams : list mpeg_pmt_stream) : list Z :=
  let own := ca_descriptors ds in
  let moved := if bool_decide (own = []) && move then ca_common streams else None in
  [list_management; program_number / 256; program_number mod 256; version] ++
  ca_info cmd_id (default own moved) ++
  flat_map (fun s => ca_stream cmd_id
    (match moved with Some _ => [] | None => ca_descriptors (stream_descs s) end) s) streams.

(** The structures allocated. *)
Definition ca_streams_count (streams : list mpeg_pmt_stream) : nat :=
  list_sum ((fun s => S (length (ca_descriptors (stream_descs s)))) <$> streams).
Definition ca_count (ds : list descriptor) (streams : list mpeg_pmt_stream) : nat :=
  length (ca_descriptors ds) + ca_streams_count streams.
Definition all_allocated (malloc_ok : nat -> bool) (n k : nat) : bool := forallb malloc_ok (seq n k).

(** ** Collecting *)

Lemma all_allocated_S malloc_ok n k :
  all_allocated malloc_ok n (S k) = malloc_ok n && all_allocated malloc_ok (S n) k.
Proof. done. Qed.
Lemma all_allocated_app malloc_ok n a b :
  all_allocated malloc_ok n (a + b) = all_allocated malloc_ok n a && all_allocated malloc_ok (n + a) b.
Proof. unfold all_allocated. by rewrite seq_app, forallb_app. Qed.

(** The result of a loop that makes [k] allocations from number [n] on. *)
Definition collected {A} (malloc_ok : nat -> bool) (n k : nat) (r : option A * nat) (a : A) : Prop :=
  if all_allocated malloc_ok n k then r = (Some a, (n + k)%nat) else r.1 = None.

Lemma ca_descriptors_cons d ds :
  ca_descriptors (d :: ds) =
    (if d_tag d =? dtag_mpeg_ca then [encode_descriptor d] else []) ++ ca_descriptors ds.
Proof.
  unfold ca_descriptors. rewrite filter_cons. destruct (Z.eqb_spec (d_tag d) dtag_mpeg_ca).
  - by rewrite decide_True.
  - by rewrite decide_False.
Qed.

Lemma keep_ca_collected malloc_ok ds : forall n,
  collected malloc_ok n (length (ca_descriptors ds)) (keep_ca malloc_ok ds n) (ca_descriptors ds).
Proof.
  induction ds as [|d ds IH]; intros n; [unfold collected; simpl; by rewrite Nat.add_0_r|].
  rewrite ca_descriptors_cons. simpl. destruct (d_tag d =? dtag_mpeg_ca); [|exact (IH n)].
  cbn [app length]. specialize (IH (S n)). unfold collected in *. rewrite all_allocated_S.
  destruct (malloc_ok n); [|done]. destruct (keep_ca malloc_ok ds (S n)) as [r n'] eqn:E.
  cbn [andb]. destruct (all_allocated malloc_ok (S n) _); simpl in *.
  - injection IH as -> ->. simpl. f_equal. lia.
  - by rewrite IH.
Qed.

Definition kept_stream (s : mpeg_pmt_stream) : ca_pmt_stream :=
  let ds := ca_descriptors (stream_descs s) in
  CaPmtStream (stream_type s) (stream_pid s) ds 0 (u32 (zlen ds)).

Lemma keep_streams_collected malloc_ok ss : forall n,
  collected malloc_ok n (ca_streams_count ss) (keep_streams malloc_ok ss n) (kept_stream <$> ss).
Proof.
  induction ss as [|s ss IH]; intros n; [unfold collected; simpl; by rewrite Nat.add_0_r|].
  unfold collected. cbn [ca_streams_count keep_streams fmap list_fmap list_sum foldr].
  change (foldr Nat.add 0%nat _) with (ca_streams_count ss).
  rewrite Nat.add_succ_l, all_allocated_S, all_allocated_app. destruct (malloc_ok n); [|done].
  cbn [andb]. pose proof (keep_ca_collected malloc_ok (stream_descs s) (S n)) as H. unfold collected in H.
  destruct (keep_ca malloc_ok (stream_descs s) (S n)) as [r n1].
  destruct (all_allocated malloc_ok (S n) _); simpl in H |- *; [|by subst r].
  injection H as -> ->. specialize (IH (S n + length (ca_descriptors (stream_descs s)))%nat).
  unfold collected in IH. simpl in IH.
  destruct (keep_streams malloc_ok ss _) as [r2 n2] eqn:E. 
  destruct (all_allocated malloc_ok _ _); simpl in *.
  - injection IH as -> ->. simpl. f_equal. lia.
  - by rewrite IH.
Qed.

(** ** Moving *)

Lemma descriptors_match_run cur first :
  length cur = length first -> descriptors_match cur first = Some (bool_decide (cur = first)).
Proof.
  revert first. induction cur as [|c cur IH]; intros [|f first] E; try done. simpl.
  destruct (zlen c =? zlen f) eqn:El; simpl.
  - destruct (decide (c = f)) as [->|Hne].
    + rewrite IH by (simpl in E; lia). f_equal. apply bool_decide_ext. naive_solver.
    + rewrite bool_decide_eq_false_2; [done|naive_solver].
  - rewrite bool_decide_eq_false_2; [done|]. intros [= -> ->]. lia.
Qed.

(** The structures [format_pmt] works on, of the descriptors in [l]. *)
Definition ca_small (ds : list ca_pmt_descriptor) : Prop :=
  Forall (fun d => 2 <= zlen d) ds /\ zlen (concat ds) < 4095.

Lemma ca_small_zlen ds : ca_small ds -> 0 <= zlen ds <= zlen (concat ds).
Proof.
  intros [H _]. split; [apply zlen_nonneg|]. induction H as [|d ds Hd H IH]; [done|].
  simpl. rewrite zlen_cons, zlen_app. lia.
Qed.

Lemma bool_decide_Forall_cons {A} (P : A -> Prop) `{!forall x, Decision (P x)} x l :
  bool_decide (Forall P (x :: l)) = bool_decide (P x) && bool_decide (Forall P l).
Proof. rewrite <- bool_decide_and. apply bool_decide_ext, Forall_cons_iff. Qed.

Lemma streams_match_run s ss :
  ca_small (ca_descriptors (stream_descs s)) ->
  Forall (fun s => ca_small (ca_descriptors (stream_descs s))) ss ->
  streams_match (kept_stream s) (kept_stream <$> ss) =
    Some (bool_decide (Forall (fun s' => ca_descriptors (stream_descs s') = ca_descriptors (stream_descs s)) ss)).
Proof.
  intros H0 H. pose proof (ca_small_zlen _ H0) as Hz0. destruct H0 as [_ Hc0].
  induction H as [|s' ss H1 H IH]; [by rewrite bool_decide_eq_true_2|].
  pose proof (ca_small_zlen _ H1) as Hz. destruct H1 as [_ Hc]. cbn [fmap list_fmap streams_match].
  simpl cs_descriptors_count. rewrite !u32_small by lia. simpl.
  destruct (Z.eqb_spec (zlen (ca_descriptors (stream_descs s'))) (zlen (ca_descriptors (stream_descs s))));
    cbn [negb].
  - rewrite descriptors_match_run by (unfold zlen in *; lia). simpl.
    rewrite IH, bool_decide_Forall_cons. by destruct (bool_decide (_ = ca_descriptors (stream_descs s))).
  - rewrite bool_decide_eq_false_2; [done|]. rewrite Forall_cons_iff. intros [E _]. congruence.
Qed.

(** The streams left when the descriptors of [m] were moved. *)
Definition left_stream (m : option (list ca_pmt_descriptor)) (s : mpeg_pmt_stream) : ca_pmt_stream :=
  match m with Some _ => set_descriptors [] 0 (kept_stream s) | None => kept_stream s end.

Lemma try_move_run ss :
  Forall (fun s => ca_small (ca_descriptors (stream_descs s))) ss ->
  en50221_ca_try_move_pmt_descriptors (kept_stream <$> ss) =
    Some (default [] (ca_common ss), left_stream (ca_common ss) <$> ss).
Proof.
  intros H. destruct H as [|s ss H0 H]; [done|].
  cbn [fmap list_fmap en50221_ca_try_move_pmt_descriptors].
  rewrite streams_match_run by done. cbn [mbind option_bind]. unfold ca_common.
  rewrite bool_decide_Forall_cons, (bool_decide_eq_true_2 (ca_descriptors (stream_descs s) = ca_descriptors (stream_descs s))) by done. cbn [andb].
  destruct (bool_decide (Forall _ ss)); [|done]. simpl. do 3 f_equal. by rewrite <- list_fmap_compose.
Qed.

(** ** Lengths *)

Lemma u32_foldl {A} (f : A -> Z) l a :
  (forall x, 0 <= f x) -> 0 <= a -> a + foldr (fun x n => f x + n) 0 l < 2 ^ 32 ->
  foldl (fun n x => u32 (n + f x)) a l = a + foldr (fun x n => f x + n) 0 l.
Proof.
  intros Hf. revert a. induction l as [|x l IH]; intros a Ha Hs; simpl in *; [lia|].
  assert (0 <= foldr (fun x n => f x + n) 0 l).
  { clear -Hf. induction l; simpl; [lia|]. specialize (Hf a). lia. }
  specialize (Hf x). rewrite u32_small by lia. rewrite IH by lia. lia.
Qed.

Lemma zlen_concat (ds : list (list Z)) : zlen (concat ds) = foldr (fun d n => zlen d + n) 0 ds.
Proof. induction ds; simpl; [done|]. by rewrite zlen_app, IHds. Qed.

Definition info_size (ds : list ca_pmt_descriptor) : Z := if bool_decide (ds = []) then 0 else 1 + zlen (concat ds).

Lemma descriptors_size_run ds : ca_small ds -> descriptors_size ds = info_size ds.
Proof.
  intros [Hd Hs]. unfold descriptors_size, info_size. rewrite (u32_foldl zlen), <- zlen_concat.
  - destruct Hd as [|d ds Hd Hds]; [done|]. rewrite bool_decide_eq_false_2 by done. simpl in *.
    rewrite zlen_app in *. pose proof (zlen_nonneg (concat ds)).
    rewrite (proj2 (Z.eqb_neq _ _)) by lia. cbn [negb]. rewrite u32_small by lia. lia.
  - apply zlen_nonneg.
  - lia.
  - rewrite <- zlen_concat. lia.
Qed.

Lemma zlen_ca_info cmd_id ds : zlen (ca_info cmd_id ds) = 2 + info_size ds.
Proof.
  unfold ca_info, info_size. case_bool_decide; rewrite zlen_app; [done|].
  rewrite !zlen_cons, zlen_nil. lia.
Qed.

(** A stream with the length that is calculated for it. *)
Definition sized (s : ca_pmt_stream) : ca_pmt_stream := set_length (info_size (cs_descriptors s)) s.

Lemma info_size_nonneg ds : 0 <= info_size ds.
Proof. unfold info_size. pose proof (zlen_nonneg (concat ds)). case_bool_decide; lia. Qed.

Lemma calculate_length_run ds streams :
  ca_small ds -> Forall (fun s => ca_small (cs_descriptors s)) streams ->
  6 + info_size ds + foldr (fun s n => 5 + info_size (cs_descriptors s) + n) 0 streams < 2 ^ 32 ->
  en50221_ca_calculate_length ds streams =
    (6 + info_size ds + foldr (fun s n => 5 + info_size (cs_descriptors s) + n) 0 streams,
     info_size ds, sized <$> streams).
Proof.
  intros Hds Hs Hb. unfold en50221_ca_calculate_length. rewrite descriptors_size_run by done.
  assert (E : (fun s => set_length (descriptors_size (cs_descriptors s)) s) <$> streams = sized <$> streams).
  { apply list_fmap_ext. intros i s Hi. unfold sized. rewrite descriptors_size_run; [done|].
    rewrite Forall_lookup in Hs. eauto. }
  assert (Hn : forall l, 0 <= foldr (fun s n => 5 + info_size (cs_descriptors s) + n) 0 l).
  { intros l. induction l as [|x l IH]; simpl; [lia|]. pose proof (info_size_nonneg (cs_descriptors x)). lia. }
  rewrite E. pose proof (info_size_nonneg ds). pose proof (Hn streams). do 2 f_equal.
  rewrite u32_small by lia.
  assert (Ef : forall l a, foldl (fun n s => u32 (n + (5 + cs_descriptors_length s))) a (sized <$> l) =
    foldl (fun n s => u32 (n + (5 + info_size (cs_descriptors s)))) a l).
  { intros l. induction l as [|x l IH]; intros a; simpl; [done|]. apply IH. }
  rewrite Ef. apply (u32_foldl (fun s => 5 + info_size (cs_descriptors s))); try lia.
  intros x. pose proof (info_size_nonneg (cs_descriptors x)). lia.
Qed.

(** ** Formatting *)

Section formatting.
Context (data : list Z).

(** The state when [w] has been written to the start of the buffer. *)
Definition written (w : list Z) : Z * list Z := (zlen w, w ++ zdrop (zlen w) data).
Definition fits (w : list Z) : Prop := zlen w <= zlen data /\ zlen w < 2 ^ 32.

Lemma fits_app a b : fits (a ++ b) -> fits a.
Proof. unfold fits. rewrite zlen_app. pose proof (zlen_nonneg b). lia. Qed.

Lemma emit_written w l : fits (w ++ l) -> emit l (written w) = Some (written (w ++ l)).
Proof.
  unfold fits. rewrite zlen_app. intros [H1 H2]. pose proof (zlen_nonneg w). pose proof (zlen_nonneg l).
  unfold emit, written, copy_to. cbn [fst snd].
  rewrite decide_True by (rewrite zlen_app, zlen_zdrop by lia; lia). cbn [mbind option_bind].
  rewrite u32_small, zlen_app by lia. do 2 f_equal. unfold zsplice. rewrite ztake_app, <- app_assoc by done.
  do 2 f_equal. by rewrite (zdrop_app_plus _ _ _ (zlen l)), zdrop_zdrop by lia.
Qed.

Lemma emit_all_written ls w :
  fits (w ++ concat ls) -> emit_all ls (written w) = Some (written (w ++ concat ls)).
Proof.
  unfold emit_all. revert w. induction ls as [|l ls IH]; intros w H; simpl in *; [by rewrite app_nil_r|].
  rewrite app_assoc in H. rewrite emit_written by (by eapply fits_app). rewrite IH by done.
  by rewrite <- app_assoc.
Qed.

Definition info_body (cmd_id : Z) (ds : list ca_pmt_descriptor) : list Z :=
  if bool_decide (ds = []) then [] else cmd_id :: concat ds.
Lemma ca_info_split cmd_id ds :
  ca_info cmd_id ds = [info_size ds / 256; info_size ds mod 256] ++ info_body cmd_id ds.
Proof. done. Qed.

Lemma format_descriptors_written cmd_id ds w :
  fits (w ++ info_body cmd_id ds) ->
  format_descriptors cmd_id (info_size ds) ds (written w) = Some (written (w ++ info_body cmd_id ds)).
Proof.
  unfold format_descriptors, info_size, info_body. pose proof (zlen_nonneg (concat ds)).
  case_bool_decide; intros H1; [by rewrite app_nil_r|].
  rewrite (proj2 (Z.eqb_neq _ _)) by lia. cbn [negb].
  change (cmd_id :: concat ds) with ([cmd_id] ++ concat ds) in *. rewrite app_assoc in *.
  rewrite emit_written by (by eapply fits_app). by apply emit_all_written.
Qed.

(** The length bytes: the mask on the high one does not cut the length. *)
Lemma info_bytes ds :
  zlen (concat ds) < 4095 ->
  u8 (Z.land (Z.shiftr (info_size ds) 8) 0x0f) = info_size ds / 256 /\
  u8 (info_size ds) = info_size ds mod 256.
Proof.
  intros H. pose proof (zlen_nonneg (concat ds)).
  assert (0 <= info_size ds < 4096) by (unfold info_size; case_bool_decide; lia).
  rewrite shiftr_8. change 0x0f with (2 ^ 4 - 1). rewrite land_ones_mod, Z.mod_small by lia. unfold u8. by rewrite (Z.mod_small (_ / _)) by lia.
Qed.

Lemma format_stream_written cmd_id s ds w :
  zlen (concat ds) < 4095 -> byte (stream_type s) -> 0 <= stream_pid s < 2 ^ 13 ->
  fits (w ++ ca_stream cmd_id ds s) ->
  format_stream cmd_id (CaPmtStream (stream_type s) (stream_pid s) ds (info_size ds) (u32 (zlen ds))) (written w) =
    Some (written (w ++ ca_stream cmd_id ds s)).
Proof.
  intros Hd Ht Hp Hf. unfold format_stream. cbn [cs_stream_type cs_pid cs_descriptors cs_descriptors_length].
  destruct (info_bytes ds Hd) as [-> ->].
  rewrite shiftr_8. change 0x1f with (2 ^ 5 - 1). rewrite land_ones_mod, Z.mod_small by lia.
  assert (u8 (stream_pid s / 256) = stream_pid s / 256) as -> by (apply u8_small; lia).
  unfold ca_stream in *. rewrite ca_info_split in *. rewrite (app_assoc [_; _; _]) in *. rewrite app_assoc in *.
  cbn [app] in *. rewrite emit_written by (by eapply fits_app). by apply format_descriptors_written.
Qed.
End formatting.

(** ** The whole function *)

(** The descriptors left with a stream when [moved] went to the programme. *)
Definition stream_left (moved : option (list ca_pmt_descriptor)) (s : mpeg_pmt_stream) : list ca_pmt_descriptor :=
  match moved with Some _ => [] | None => ca_descriptors (stream_descs s) end.

Lemma sized_left_stream moved s :
  sized (left_stream moved s) =
    CaPmtStream (stream_type s) (stream_pid s) (stream_left moved s) (info_size (stream_left moved s))
      (u32 (zlen (stream_left moved s))).
Proof. by destruct moved. Qed.

(** A stream of a section: its fields and its descriptors are those of a [pmt]. *)
Definition stream_fields (s : mpeg_pmt_stream) : Prop :=
  ca_small (ca_descriptors (stream_descs s)) /\ byte (stream_type s) /\ 0 <= stream_pid s < 2 ^ 13.

Lemma ca_small_left moved s : stream_fields s -> ca_small (stream_left moved s).
Proof. intros [? _]. by destruct moved; [split|]. Qed.

Lemma format_streams_written data cmd_id moved ss w :
  Forall stream_fields ss ->
  fits data (w ++ flat_map (fun s => ca_stream cmd_id (stream_left moved s) s) ss) ->
  format_streams cmd_id (sized <$> (left_stream moved <$> ss)) (written data w) =
    Some (written data (w ++ flat_map (fun s => ca_stream cmd_id (stream_left moved s) s) ss)).
Proof.
  intros H. unfold format_streams. revert w. induction H as [|s ss Hs H IH]; intros w Hf.
  { simpl. by rewrite app_nil_r. }
  cbn [flat_map fmap list_fmap foldl mbind option_bind] in *.
  rewrite app_assoc in Hf. rewrite sized_left_stream. destruct (ca_small_left moved s Hs). destruct Hs as (_ & ? & ?).
  rewrite format_stream_written by (done || by eapply fits_app).
  rewrite IH by done. by rewrite <- app_assoc.
Qed.

Lemma zlen_ca_streams cmd_id moved ss :
  zlen (flat_map (fun s => ca_stream cmd_id (stream_left moved s) s) ss) =
    foldr (fun s n => 5 + info_size (cs_descriptors s) + n) 0 (left_stream moved <$> ss).
Proof.
  induction ss as [|s ss IH]; [done|]. cbn [flat_map fmap list_fmap foldr]. unfold ca_stream at 1.
  rewrite !zlen_app, zlen_ca_info, IH. change (zlen [_; _; _]) with 3. destruct moved; simpl; lia.
Qed.

(** Sizes in a section. *)
Lemma ca_descriptors_small ds :
  Forall (fun d => 2 <= zlen d) (ca_descriptors ds) /\ zlen (concat (ca_descriptors ds)) <= zlen (encode_descriptors ds).
Proof.
  induction ds as [|d ds [IH1 IH2]]; [done|]. rewrite ca_descriptors_cons. cbn [encode_descriptors flat_map].
  change (flat_map encode_descriptor ds) with (encode_descriptors ds).
  pose proof (zlen_nonneg (d_data d)). pose proof (encode_descriptor_len d).
  rewrite zlen_app.
  destruct (d_tag d =? dtag_mpeg_ca); cbn [app concat]; rewrite ?zlen_app.
  - split; [constructor; [lia|done]|lia].
  - split; [done|lia].
Qed.

Lemma version_byte x :
  0 <= x < 256 -> u8 (Z.lor (Z.shiftl (Z.land (Z.shiftr x 1) 0x1f) 1) (Z.land x 1)) = Z.land x 0x3f.
Proof.
  intros H. change 0x1f with (2 ^ 5 - 1). change 0x3f with (2 ^ 6 - 1). change (Z.land x 1) with (Z.land x (2 ^ 1 - 1)).
  rewrite !land_ones_mod, lor_shiftl_add, Z.shiftr_div_pow2 by lia. unfold u8. lia.
Qed.

(** The room that streams take. *)
Definition streams_size (ss : list mpeg_pmt_stream) : Z :=
  foldr (fun s n => 5 + zlen (encode_descriptors (stream_descs s)) + n) 0 ss.

Lemma encode_entries_size es :
  Forall (entry_ok 5 3) es -> zlen (encode_entries es) = streams_size (map wire_stream es).
Proof.
  induction 1 as [|e es (_ & Hz & _) _ IH]; [done|]. unfold encode_entries. simpl.
  change (flat_map encode_entry es) with (encode_entries es). unfold encode_entry.
  rewrite !zlen_app, Hz, IH. done.
Qed.

Lemma stream_fields_entry e :
  entry_ok 5 3 e -> zlen (encode_descriptors (e_descs e)) < 4095 -> stream_fields (wire_stream e).
Proof.
  intros (Hb & Hz & _) Hn. destruct (ca_descriptors_small (e_descs e)) as [H1 H2].
  pose proof (land_range (be16 (e_hdr e) 1) 0x1fff ltac:(lia)).
  split_and!; simpl; [split; [done|lia]|by apply zat_byte|lia..].
Qed.

(** The descriptors and streams of a section of at most 4098 bytes. *)
Lemma pmt_small m L t :
  parsed m L -> 13 <= L -> pmt_ok t -> slice m 8 (L - 9) = encode_pmt t ->
  ca_small (ca_descriptors (pmt_descs t)) /\ Forall stream_fields (map wire_stream (pmt_streams t)) /\
  streams_size (map wire_stream (pmt_streams t)) <= 4095.
Proof.
  intros Hm HL (_ & Hw & _ & _ & Hs) E. pose proof Hm as (_ & Hl & HLf). pose proof (length_field_range m).
  apply (f_equal zlen) in E. rewrite zlen_slice_le in E by lia. unfold encode_pmt in E. rewrite !zlen_app in E.
  pose proof (zlen_nonneg (encode_descriptors (pmt_descs t))). rewrite encode_entries_size in E by done.
  assert (He : streams_size (map wire_stream (pmt_streams t)) <= 4082) by lia.
  assert (Hn : forall ss, 0 <= streams_size ss).
  { induction ss as [|s ss IH]; simpl; [done|]. pose proof (zlen_nonneg (encode_descriptors (stream_descs s))). lia. }
  pose proof (Hn (map wire_stream (pmt_streams t))).
  split; [destruct (ca_descriptors_small (pmt_descs t)); split; [done|lia]|]. split; [|lia].
  clear - Hs He Hn. induction Hs as [|e es Hok Hs IH]; [constructor|]. simpl in He |- *.
  pose proof (Hn (map wire_stream es)). pose proof (zlen_nonneg (encode_descriptors (e_descs e))).
  constructor; [apply stream_fields_entry; (done || lia)|apply IH; lia].
Qed.

Lemma streams_room moved ss :
  Forall stream_fields ss ->
  0 <= foldr (fun s n => 5 + info_size (cs_descriptors s) + n) 0 (left_stream moved <$> ss) <= 2 * streams_size ss.
Proof.
  induction 1 as [|s ss _ _ IH]; [done|]. cbn [fmap list_fmap foldr streams_size].
  change (foldr _ 0 ss) with (streams_size ss).
  destruct (ca_descriptors_small (stream_descs s)) as [_ Hs].
  pose proof (zlen_nonneg (concat (ca_descriptors (stream_descs s)))).
  assert (0 <= info_size (cs_descriptors (left_stream moved s)) <= 1 + zlen (encode_descriptors (stream_descs s))).
  { unfold info_size. destruct moved; case_bool_decide; simpl; (done || lia). }
  lia.
Qed.

(** What goes to the programme. *)
Definition ca_moved (move : bool) (ds : list descriptor) (ss : list mpeg_pmt_stream) : option (list ca_pmt_descriptor) :=
  if bool_decide (ca_descriptors ds = []) && move then ca_common ss else None.

Lemma ca_moved_small move ds ss :
  ca_small (ca_descriptors ds) -> Forall stream_fields ss ->
  ca_small (default (ca_descriptors ds) (ca_moved move ds ss)).
Proof.
  intros Hd Hs. unfold ca_moved, ca_common. case_match; [|done]. destruct Hs as [|s ss [Hs _] _]; [done|].
  case_match; done.
Qed.

Lemma move_run move ds ss m :
  Forall stream_fields ss ->
  (if bool_decide (ca_descriptors ds = []) && move
   then from_option (en50221_ca_try_move_pmt_descriptors (kept_stream <$> ss))
   else mret (ca_descriptors ds, kept_stream <$> ss)) m =
  Ret (default (ca_descriptors ds) (ca_moved move ds ss), left_stream (ca_moved move ds ss) <$> ss) m.
Proof.
  intros Hs. unfold ca_moved. case_bool_decide as E; [destruct move|]; cbn [andb]; [|done..].
  rewrite try_move_run by (eapply Forall_impl; [|exact Hs]; intros ? [? _]; done). simpl. by rewrite E.
Qed.

(** The output of the last part of the function. *)
Lemma format_all_run data lm cmd pn x ds moved ss out :
  byte lm -> 0 <= pn < 2 ^ 16 -> 0 <= x < 256 -> ca_small ds -> Forall stream_fields ss ->
  out = [lm; pn / 256; pn mod 256; Z.land x 0x3f] ++ ca_info cmd ds ++
        flat_map (fun s => ca_stream cmd (stream_left moved s) s) ss ->
  fits data out -> zlen out < 2 ^ 31 ->
  (st ← emit [lm; u8 (Z.shiftr pn 8); u8 pn;
              u8 (Z.lor (Z.shiftl (Z.land (Z.shiftr x 1) 0x1f) 1) (Z.land x 1));
              u8 (Z.land (Z.shiftr (info_size ds) 8) 0x0f); u8 (info_size ds)] (0, data);
   st ← format_descriptors cmd (info_size ds) ds st;
   st ← format_streams cmd (sized <$> (left_stream moved <$> ss)) st;
   Some (s32 st.1, st.2)) = Some (zlen out, out ++ zdrop (zlen out) data).
Proof.
  intros Hlm Hpn Hx Hds Hss -> Hf Hi. rewrite version_byte by done. rewrite shiftr_8.
  assert (u8 (pn / 256) = pn / 256) as -> by (apply u8_small; lia).
  destruct (info_bytes ds (proj2 Hds)) as [-> ->]. set (tail := flat_map _ ss) in *.
  set (h := [lm; pn / 256; u8 pn; Z.land x 0x3f; info_size ds / 256; info_size ds mod 256]).
  assert (E : [lm; pn / 256; pn mod 256; Z.land x 0x3f] ++ ca_info cmd ds ++ tail = (h ++ info_body cmd ds) ++ tail).
  { rewrite ca_info_split. unfold h, u8. by rewrite <- !app_assoc. }
  rewrite E in *. change (0, data) with (written data []).
  rewrite (emit_written data [] h) by (simpl; eapply fits_app; by eapply fits_app). cbn [mbind option_bind app].
  rewrite format_descriptors_written by by eapply fits_app. cbn [mbind option_bind].
  rewrite format_streams_written by done. fold tail. cbn [mbind option_bind].
  unfold written. cbn [fst snd]. do 2 f_equal. unfold s32.
  pose proof (zlen_nonneg ((h ++ info_body cmd ds) ++ tail)). rewrite u32_small by lia.
  case_match; lia.
Qed.

Lemma ca_pmt_object_eq move lm cmd pn v ds ss :
  ca_pmt_object move lm cmd pn v ds ss =
    [lm; pn / 256; pn mod 256; v] ++ ca_info cmd (default (ca_descriptors ds) (ca_moved move ds ss)) ++
    flat_map (fun s => ca_stream cmd (stream_left (ca_moved move ds ss) s) s) ss.
Proof. done. Qed.

(** The version byte and the programme number of a section in memory. *)
Lemma header_reads m L :
  parsed m L -> 13 <= L ->
  mpeg_pmt_section_program_number m = Ret (le16 m 3) m /\
  section_ext_version_number m = Ret (Z.land (Z.shiftr (m.[5]) 1) 0x1f) m /\
  section_ext_current_next_indicator m = Ret (Z.land (m.[5]) 1) m /\
  0 <= le16 m 3 < 2 ^ 16 /\ 0 <= m.[5] < 256.
Proof.
  intros (Hb & Hl & _) HL. split_and!.
  - unfold mpeg_pmt_section_program_number, section_ext_table_id_ext. apply rd16_run; lia.
  - unfold section_ext_version_number. by rewrite (bind_run _ _ m _ m (rd8_run 5 m ltac:(lia))).
  - unfold section_ext_current_next_indicator. by rewrite (bind_run _ _ m _ m (rd8_run 5 m ltac:(lia))).
  - pose proof (le16_range m 3 Hb). lia.
  - pose proof (le16_range m 3 Hb). lia.
  - pose proof (zat_range m 5 Hb). lia.
  - pose proof (zat_range m 5 Hb). lia.
Qed.

(** After both collections. *)
Definition format_collected (data : list Z) (data_length : Z) (move : bool) (lm cmd : Z)
    (ds : list descriptor) (ss : list mpeg_pmt_stream) (ok : bool) (pn x : Z) : Z * list Z :=
  let out := ca_pmt_object move lm cmd pn (Z.land x 0x3f) ds ss in
  if ok && (zlen out <=? data_length) then (zlen out, out ++ zdrop (zlen out) data) else (-1, data).

Lemma format_pmt_run m L malloc_ok data data_length move lm cmd ds ss :
  parsed m L -> 13 <= L ->
  mpeg_pmt_section_descriptors_for_each m = Ret ds m ->
  mpeg_pmt_section_streams_for_each m = Ret ss m ->
  ca_small (ca_descriptors ds) -> Forall stream_fields ss -> streams_size ss <= 4095 ->
  byte lm -> 0 <= data_length <= zlen data ->
  en50221_ca_format_pmt malloc_ok data data_length move lm cmd m =
    Ret (format_collected data data_length move lm cmd ds ss (all_allocated malloc_ok 0 (ca_count ds ss))
           (le16 m 3) (m.[5])) m.
Proof.
  intros Hm HL Eds Ess Hds Hss Hsz Hlm Hlen. unfold en50221_ca_format_pmt, format_collected, ca_count.
  unfold en50221_ca_extract_pmt_descriptors, en50221_ca_extract_streams.
  rewrite (bind_run _ _ m (keep_ca malloc_ok ds 0) m) by by rewrite (bind_run _ _ m ds m Eds).
  rewrite all_allocated_app. pose proof (keep_ca_collected malloc_ok ds 0) as H. unfold collected in H.
  destruct (keep_ca malloc_ok ds 0) as [r n]. destruct (all_allocated malloc_ok 0 _); cbn [fst andb] in H |- *; cbv beta iota;
    [injection H as -> ->; cbv beta iota|by subst r].
  rewrite (bind_run _ _ m (keep_streams malloc_ok ss (length (ca_descriptors ds))) m)
    by by rewrite (bind_run _ _ m ss m Ess).
  pose proof (keep_streams_collected malloc_ok ss (length (ca_descriptors ds))) as H. unfold collected in H.
  destruct (keep_streams malloc_ok ss _) as [r n]. destruct (all_allocated malloc_ok _ _); cbn [fst andb] in H |- *; cbv beta iota;
    [injection H as -> ->; cbv beta iota|by subst r].
  rewrite (bind_run _ _ m _ m (move_run move ds ss m Hss)). cbv beta iota.
  pose proof (ca_moved_small move ds ss Hds Hss) as Hmv. pose proof (streams_room (ca_moved move ds ss) ss Hss).
  set (moved := ca_moved move ds ss) in *. set (own := default (ca_descriptors ds) moved) in *.
  assert (0 <= info_size own <= 4095) by (destruct Hmv; pose proof (zlen_nonneg (concat own));
    unfold info_size; case_bool_decide; lia).
  rewrite calculate_length_run; [|done| |lia]. cbv beta iota.
  2:{ rewrite Forall_fmap. eapply Forall_impl; [|exact Hss]. intros s Hs.
      pose proof (ca_small_left moved s Hs). by destruct moved. }
  destruct (header_reads m L Hm HL) as (Ep & Ev & Ec & Hpn & Hx).
  assert (Ez : zlen (ca_pmt_object move lm cmd (le16 m 3) (Z.land (m.[5]) 0x3f) ds ss) =
    6 + info_size own + foldr (fun s n => 5 + info_size (cs_descriptors s) + n) 0 (left_stream moved <$> ss)).
  { rewrite ca_pmt_object_eq, !zlen_app, zlen_ca_streams, zlen_ca_info. fold moved own.
    change (zlen [_; _; _; _]) with 4. lia. }
  rewrite <- Ez. set (out := ca_pmt_object _ _ _ _ _ _ _) in *.
  rewrite Z.ltb_antisym. destruct (zlen out <=? data_length) eqn:Efit; cbn [negb]; [|done].
  rewrite (bind_run _ _ m _ m Ep), (bind_run _ _ m _ m Ev), (bind_run _ _ m _ m Ec).
  rewrite (format_all_run data lm cmd (le16 m 3) (m.[5]) own moved ss out); [done|done|lia|done..| |lia].
  split; lia.
Qed.

(** C32: A PMT section that its codec accepts is formatted as the CA PMT of its contents:
    the header of the programme and of every stream, with the CA descriptors where they
    are in the section, or moved to the programme when that is asked, it has none and all
    streams have the same ones.  It is written at the start of the buffer and its length
    returned when it fits and every allocation succeeds; otherwise -1 is returned and the
    buffer is as it was.  The section is only read, no null pointer is followed and
    nothing outside the section or the buffer is touched. *)
Theorem en50221_ca_format_pmt_correct m L malloc_ok data data_length move list_management cmd_id :
  parsed m L -> 13 <= L -> is_pmt m L ->
  byte list_management -> 0 <= data_length <= zlen data ->
  exists t m', pmt_ok t /\ slice m 8 (L - 9) = encode_pmt t /\ mpeg_pmt_section_codec m = Ret tt m' /\
    let ds := pmt_descs t in
    let ss := map wire_stream (pmt_streams t) in
    let out := ca_pmt_object move list_management cmd_id (le16 m 3) (Z.land (m.[5]) 0x3f) ds ss in
    en50221_ca_format_pmt malloc_ok data data_length move list_management cmd_id m' =
      Ret (if all_allocated malloc_ok 0 (ca_count ds ss) && (zlen out <=? data_length)
           then (zlen out, out ++ zdrop (zlen out) data) else (-1, data)) m'.
Proof.
  intros Hm HL Hpmt Hlm Hlen. destruct (pmt_codec_run m L Hm HL) as [(t & Ht & E & m' & Ec & Hk & Hrest)|[? _]]; [|done].
  destruct Hk as [Hm' Hk]. destruct Hrest as (_ & Eds & Ess). exists t, m'. split_and!; [done..|].
  destruct (pmt_small m L t Hm HL Ht E) as (? & ? & ?). cbv zeta.
  rewrite (format_pmt_run m' L _ _ _ _ _ _ (pmt_descs t) (map wire_stream (pmt_streams t))) by done.
  unfold format_collected.
  rewrite Hk by lia. rewrite (le16_ext m' m) by (apply Hk; lia). done.
Qed.

(** A section without programme descriptors, of two streams with the same CA descriptor
    09 04 0b 00 e1 23, as [section_ext_decode] leaves it (programme number 256); the second one has another descriptor too. *)
Definition ca_example : mem :=
  [0x02; 0x26; 0xb0; 0x00; 0x01; 0xc3; 0x00; 0x00; 0xe1; 0x00; 0xf0; 0x00;
   0x02; 0xe1; 0x01; 0xf0; 0x06; 0x09; 0x04; 0x0b; 0x00; 0xe1; 0x23;
   0x04; 0xe1; 0x02; 0xf0; 0x09; 0x0a; 0x01; 0x65; 0x09; 0x04; 0x0b; 0x00; 0xe1; 0x23; 0xaa; 0xbb; 0xcc; 0xdd].
Definition ca_example_table : pmt :=
  let ca := Descriptor 0x09 [0x0b; 0x00; 0xe1; 0x23] in
  Pmt [0xe1; 0x00; 0xf0; 0x00] []
    [Entry [0x02; 0xe1; 0x01; 0xf0; 0x06] [ca];
     Entry [0x04; 0xe1; 0x02; 0xf0; 0x09] [Descriptor 0x0a [0x65]; ca]].

Lemma parsed_ca_example : parsed ca_example 38.
Proof. split_and!; [repeat constructor; unfold byte; lia|done|done]. Qed.
Lemma is_pmt_ca_example : is_pmt ca_example 38.
Proof.
  exists ca_example_table. split; [|vm_compute; reflexivity].
  repeat split; simpl; repeat constructor; unfold byte; try (vm_compute; (reflexivity || discriminate)); simpl; try lia.
Qed.

Example ca_pmt_moved :
  match mpeg_pmt_section_codec ca_example with
  | Ret _ m => en50221_ca_format_pmt (fun _ => true) (replicate 24 0xff) 24 true 3 1 m = Ret
      (23, [3; 1; 0; 3; 0; 7; 1; 0x09; 0x04; 0x0b; 0x00; 0xe1; 0x23; 2; 1; 1; 0; 0; 4; 1; 2; 0; 0; 0xff]) m
  | _ => False
  end.
Proof. vm_compute. reflexivity. Qed.
(** The third allocation fails. *)
Example ca_pmt_out_of_memory :
  match mpeg_pmt_section_codec ca_example with
  | Ret _ m => en50221_ca_format_pmt (fun n => negb (n =? 2)%nat) [] 0 true 3 1 m = Ret (-1, []) m
  | _ => False
  end.
Proof. vm_compute. reflexivity. Qed.

Lemma en50221_ca_format_pmt_correct_witness :
  exists t m', mpeg_pmt_section_codec ca_example = Ret tt m' /\
    let out := ca_pmt_object true 3 1 256 3 (pmt_descs t) (map wire_stream (pmt_streams t)) in
    exists r, en50221_ca_format_pmt (fun _ => true) (replicate 24 0xff) 24 true 3 1 m' = Ret r m' /\
      (r = (zlen out, out ++ zdrop (zlen out) (replicate 24 0xff)) \/ r.1 = -1).
Proof.
  destruct (en50221_ca_format_pmt_correct ca_example 38 (fun _ => true) (replicate 24 0xff) 24 true 3 1
    parsed_ca_example ltac:(lia) is_pmt_ca_example ltac:(unfold byte; lia) ltac:(split; vm_compute; discriminate))
    as (t & m' & _ & _ & Ec & E).
  exists t, m'. split; [exact Ec|]. eexists. split; [exact E|].
  change (le16 ca_example 3) with 256. change (Z.land (ca_example.[5]) 0x3f) with 3.
  destruct (all_allocated _ _ _ && _); [by left|by right].
Defined.
