(* ===== verification/AppResources.v ===== *)
(** * AppResources: the application resources of libdvben50221

    en50221_app_rm.c, _ai.c, _auth.c, _dvb.c, _epg.c, _teletext.c, _smartcard.c and the
    messages of _ca.c.  A resource parses the APDUs a module sends to it and calls the
    application; the application sends APDUs through it.  The received data is the memory
    of the monad, in which the parsers swap fields in place; a callback is a function
    pointer with its argument, and what it is told is an [app_event], pointers being
    offsets.  The mutex of a resource, held only around an access to one callback, is left
    out. *)

From S2P Require Import Prelude Mem EndianOps Asn1.

(** ** en50221_app_tags.h *)

Definition TAG_PROFILE_ENQUIRY : Z := 0x9f8010.
Definition TAG_PROFILE : Z := 0x9f8011.
Definition TAG_PROFILE_CHANGE : Z := 0x9f8012.
Definition TAG_APP_INFO_ENQUIRY : Z := 0x9f8020.
Definition TAG_APP_INFO : Z := 0x9f8021.
Definition TAG_ENTER_MENU : Z := 0x9f8022.
Definition TAG_CA_INFO_ENQUIRY : Z := 0x9f8030.
Definition TAG_CA_INFO : Z := 0x9f8031.
Definition TAG_CA_PMT : Z := 0x9f8032.
Definition TAG_CA_PMT_REPLY : Z := 0x9f8033.
Definition TAG_TUNE : Z := 0x9f8400.
Definition TAG_REPLACE : Z := 0x9f8401.
Definition TAG_CLEAR_REPLACE : Z := 0x9f8402.
Definition TAG_ASK_RELEASE : Z := 0x9f8403.
Definition TAG_AUTH_REQ : Z := 0x9f8200.
Definition TAG_AUTH_RESP : Z := 0x9f8201.
Definition TAG_TELETEXT_EBU : Z := 0x9f9000.
Definition TAG_SMARTCARD_COMMAND : Z := 0x9f8e00.
Definition TAG_SMARTCARD_REPLY : Z := 0x9f8e01.
Definition TAG_SMARTCARD_SEND : Z := 0x9f8e02.
Definition TAG_SMARTCARD_RCV : Z := 0x9f8e03.
Definition TAG_EPG_ENQUIRY : Z := 0x9f8f00.
Definition TAG_EPG_REPLY : Z := 0x9f8f01.

(** ** Callbacks *)

Inductive app_event :=
| RmEnq
| RmReply (resource_id_count resource_ids : Z)
| RmChanged
| AiInfo (application_type application_manufacturer manufacturer_code menu_string_length menu_string : Z)
| AuthRequest (auth_protocol_id auth_data auth_data_length : Z)
| CaInfo (ca_id_count ca_ids : Z)
| CaPmtReply (reply reply_size : Z)
| DvbTune (network_id original_network_id transport_stream_id service_id : Z)
| DvbReplace (replacement_ref replace_pid replacement_pid : Z)
| DvbClearReplace (replacement_ref : Z)
| EpgReply (event_status : Z)
| TeletextEbu (teletext_data teletext_data_length : Z)
| SmartcardCommand (command_id : Z)
| SmartcardSend (CLA INS P1 P2 in_ in_length out_length : Z).

(** Called with the slot and the session. *)
Definition callback : Type := Z -> Z -> app_event -> M Z.
Definition tell (cb : option callback) (slot_id session_number : Z) (ev : app_event) : M Z :=
  match cb with Some f => f slot_id session_number ev | None => mret 0 end.

(** ** Parsing an APDU *)

(** The tag, and the parser that the handler chooses by it. *)
Definition app_tag (data : Z) : M Z :=
  b0 ← rd8 data; b1 ← rd8 (data + 1); b2 ← rd8 (data + 2);
  mret (Z.lor (Z.lor (Z.shiftl b0 16) (Z.shiftl b1 8)) b2).
Definition dispatch (data data_length : Z) (parse : Z -> Z -> Z -> M Z) : M Z :=
  if data_length <? 3 then mret (-1) else
  tag ← app_tag data;
  parse tag (data + 3) (data_length - 3).

Definition rd_be16 (p : Z) : M Z := hi ← rd8 p; lo ← rd8 (p + 1); mret (Z.lor (Z.shiftl hi 8) lo).

Definition asn_1_decode_at (p len : Z) : M (Z * Z) := fun m =>
  match asn_1_decode m p len with Some (k, n) => Ret (k, default 0 n) m | None => Fault end.
(** Decoding the length field and checking it against the least length and against what
    was received. *)
Definition parse_length (data data_length least : Z) (parse : Z -> Z -> M Z) : M Z :=
  '(length_field_len, asn_data_length) ← asn_1_decode_at data data_length;
  if length_field_len <? 0 then mret (-1) else
  if asn_data_length <? least then mret (-1) else
  if u32 (data_length - length_field_len) <? asn_data_length then mret (-1) else
  parse (data + length_field_len) asn_data_length.

(** [for (i = 0; i < count; i++) { swap(data); data += size; }] *)
Definition swap_loop (swap : Z -> M unit) (size count data : Z) : M Z :=
  for_upto (Z.to_nat count) 0 (fun _ p => swap p;; mret (p + size)) data.

(** ** Resource manager *)

Record en50221_app_rm := AppRm {
  enqcallback : option callback; replycallback : option callback; changedcallback : option callback }.
Definition en50221_app_rm_create (malloc_ok : bool) : option en50221_app_rm :=
  if malloc_ok then Some (AppRm None None None) else None.
Definition en50221_app_rm_register_enq_callback (rm : en50221_app_rm) (cb : option callback) : en50221_app_rm :=
  AppRm cb (replycallback rm) (changedcallback rm).
Definition en50221_app_rm_register_reply_callback (rm : en50221_app_rm) (cb : option callback) : en50221_app_rm :=
  AppRm (enqcallback rm) cb (changedcallback rm).
Definition en50221_app_rm_register_changed_callback (rm : en50221_app_rm) (cb : option callback) : en50221_app_rm :=
  AppRm (enqcallback rm) (replycallback rm) cb.

Definition en50221_app_rm_parse_profile_enq (rm : en50221_app_rm) (slot_id session_number data data_length : Z) : M Z :=
  tell (enqcallback rm) slot_id session_number RmEnq.
Definition en50221_app_rm_parse_profile_reply (rm : en50221_app_rm) (slot_id session_number data data_length : Z) : M Z :=
  parse_length data data_length 0 (fun data asn_data_length =>
    let resources_count := asn_data_length / 4 in
    let resource_ids := data in
    swap_loop bswap32 4 resources_count data;;
    tell (replycallback rm) slot_id session_number (RmReply resources_count resource_ids)).
Definition en50221_app_rm_parse_profile_change (rm : en50221_app_rm) (slot_id session_number data data_length : Z) : M Z :=
  tell (changedcallback rm) slot_id session_number RmChanged.
Definition en50221_app_rm_message (rm : en50221_app_rm) (slot_id session_number resource_id data data_length : Z) : M Z :=
  dispatch data data_length (fun tag data data_length =>
    if tag =? TAG_PROFILE_ENQUIRY then en50221_app_rm_parse_profile_enq rm slot_id session_number data data_length
    else if tag =? TAG_PROFILE then en50221_app_rm_parse_profile_reply rm slot_id session_number data data_length
    else if tag =? TAG_PROFILE_CHANGE then en50221_app_rm_parse_profile_change rm slot_id session_number data data_length
    else mret (-1)).

(** ** Application information *)

Record en50221_app_ai := AppAi { ai_callback : option callback }.
Definition en50221_app_ai_create (malloc_ok : bool) : option en50221_app_ai :=
  if malloc_ok then Some (AppAi None) else None.
Definition en50221_app_ai_register_callback (ai : en50221_app_ai) (cb : option callback) : en50221_app_ai := AppAi cb.

Definition en50221_app_ai_parse_app_info (ai : en50221_app_ai) (slot_id session_number data data_length : Z) : M Z :=
  parse_length data data_length 6 (fun app_info asn_data_length =>
    application_type ← rd8 app_info;
    application_manufacturer ← rd_be16 (app_info + 1);
    manufacturer_code ← rd_be16 (app_info + 3);
    menu_string_length ← rd8 (app_info + 5);
    let menu_string := app_info + 6 in
    let menu_string_length :=
      if asn_data_length - 6 <? menu_string_length then u8 (asn_data_length - 6) else menu_string_length in
    tell (ai_callback ai) slot_id session_number
      (AiInfo application_type application_manufacturer manufacturer_code menu_string_length menu_string)).
Definition en50221_app_ai_message (ai : en50221_app_ai) (slot_id session_number resource_id data data_length : Z) : M Z :=
  dispatch data data_length (fun tag data data_length =>
    if tag =? TAG_APP_INFO then en50221_app_ai_parse_app_info ai slot_id session_number data data_length
    else mret (-1)).

(** ** Authentication *)

Record en50221_app_auth := AppAuth { auth_callback : option callback }.
Definition en50221_app_auth_create (malloc_ok : bool) : option en50221_app_auth :=
  if malloc_ok then Some (AppAuth None) else None.
Definition en50221_app_auth_register_request_callback (auth : en50221_app_auth) (cb : option callback) :
  en50221_app_auth := AppAuth cb.

Definition en50221_app_auth_parse_request (auth : en50221_app_auth) (slot_id session_number data data_length : Z) : M Z :=
  parse_length data data_length 2 (fun auth_data asn_data_length =>
    auth_protocol_id ← rd_be16 auth_data;
    tell (auth_callback auth) slot_id session_number
      (AuthRequest auth_protocol_id (auth_data + 2) (asn_data_length - 2))).
Definition en50221_app_auth_message (auth : en50221_app_auth) (slot_id session_number resource_id data data_length : Z) : M Z :=
  dispatch data data_length (fun tag data data_length =>
    if tag =? TAG_AUTH_REQ then en50221_app_auth_parse_request auth slot_id session_number data data_length
    else mret (-1)).

(** ** Conditional access *)

Record en50221_app_ca := AppCa { ca_info_callback : option callback; ca_pmt_reply_callback : option callback }.
Definition en50221_app_ca_create (malloc_ok : bool) : option en50221_app_ca :=
  if malloc_ok then Some (AppCa None None) else None.
Definition en50221_app_ca_register_info_callback (ca : en50221_app_ca) (cb : option callback) : en50221_app_ca :=
  AppCa cb (ca_pmt_reply_callback ca).
Definition en50221_app_ca_register_pmt_reply_callback (ca : en50221_app_ca) (cb : option callback) : en50221_app_ca :=
  AppCa (ca_info_callback ca) cb.

Definition en50221_app_ca_parse_info (ca : en50221_app_ca) (slot_id session_number data data_length : Z) : M Z :=
  parse_length data data_length 0 (fun data asn_data_length =>
    let ca_id_count := asn_data_length / 2 in
    let ids := data in
    swap_loop bswap16 2 ca_id_count data;;
    tell (ca_info_callback ca) slot_id session_number (CaInfo ca_id_count ids)).
(** [while (pos < asn_data_length)]: each turn swaps two bytes of the memory. *)
Definition en50221_app_ca_parse_reply (ca : en50221_app_ca) (slot_id session_number data data_length : Z) : M Z :=
  parse_length data data_length 4 (fun data asn_data_length =>
    bswap16 data;;
    while_mem (fun pos => bswap16 (data + pos);; mret (pos + 3)) asn_data_length 4;;
    tell (ca_pmt_reply_callback ca) slot_id session_number (CaPmtReply data asn_data_length)).
Definition en50221_app_ca_message (ca : en50221_app_ca) (slot_id session_number resource_id data data_length : Z) : M Z :=
  dispatch data data_length (fun tag data data_length =>
    if tag =? TAG_CA_INFO then en50221_app_ca_parse_info ca slot_id session_number data data_length
    else if tag =? TAG_CA_PMT_REPLY then en50221_app_ca_parse_reply ca slot_id session_number data data_length
    else mret (-1)).

(** ** DVB host control *)

Record en50221_app_dvb := AppDvb {
  tune_callback : option callback; replace_callback : option callback; clear_replace_callback : option callback }.
Definition en50221_app_dvb_create (malloc_ok : bool) : option en50221_app_dvb :=
  if malloc_ok then Some (AppDvb None None None) else None.
Definition en50221_app_dvb_register_tune_callback (dvb : en50221_app_dvb) (cb : option callback) : en50221_app_dvb :=
  AppDvb cb (replace_callback dvb) (clear_replace_callback dvb).
Definition en50221_app_dvb_register_replace_callback (dvb : en50221_app_dvb) (cb : option callback) : en50221_app_dvb :=
  AppDvb (tune_callback dvb) cb (clear_replace_callback dvb).
Definition en50221_app_dvb_register_clear_replace_callback (dvb : en50221_app_dvb) (cb : option callback) :
  en50221_app_dvb := AppDvb (tune_callback dvb) (replace_callback dvb) cb.

Definition en50221_app_dvb_parse_tune (dvb : en50221_app_dvb) (slot_id session_number data data_length : Z) : M Z :=
  if data_length <? 9 then mret (-1) else
  b ← rd8 data;
  if negb (b =? 8) then mret (-1) else
  let tune_data := data + 1 in
  network_id ← rd_be16 tune_data;
  original_network_id ← rd_be16 (tune_data + 2);
  transport_stream_id ← rd_be16 (tune_data + 4);
  service_id ← rd_be16 (tune_data + 6);
  tell (tune_callback dvb) slot_id session_number
    (DvbTune network_id original_network_id transport_stream_id service_id).
(** A PID: the high byte is masked. *)
Definition rd_pid (p : Z) : M Z := hi ← rd8 p; lo ← rd8 (p + 1); mret (Z.lor (Z.shiftl (Z.land hi 0x1f) 8) lo).
Definition en50221_app_dvb_parse_replace (dvb : en50221_app_dvb) (slot_id session_number data data_length : Z) : M Z :=
  if data_length <? 6 then mret (-1) else
  b ← rd8 data;
  if negb (b =? 5) then mret (-1) else
  let replace_data := data + 1 in
  replacement_ref ← rd8 replace_data;
  replace_pid ← rd_pid (replace_data + 1);
  replacement_pid ← rd_pid (replace_data + 3);
  tell (replace_callback dvb) slot_id session_number (DvbReplace replacement_ref replace_pid replacement_pid).
Definition en50221_app_dvb_parse_clear_replace (dvb : en50221_app_dvb) (slot_id session_number data data_length : Z) : M Z :=
  if data_length <? 2 then mret (-1) else
  b ← rd8 data;
  if negb (b =? 1) then mret (-1) else
  replacement_ref ← rd8 (data + 1);
  tell (clear_replace_callback dvb) slot_id session_number (DvbClearReplace replacement_ref).
Definition en50221_app_dvb_message (dvb : en50221_app_dvb) (slot_id session_number resource_id data data_length : Z) : M Z :=
  dispatch data data_length (fun tag data data_length =>
    if tag =? TAG_TUNE then en50221_app_dvb_parse_tune dvb slot_id session_number data data_length
    else if tag =? TAG_REPLACE then en50221_app_dvb_parse_replace dvb slot_id session_number data data_length
    else if tag =? TAG_CLEAR_REPLACE then en50221_app_dvb_parse_clear_replace dvb slot_id session_number data data_length
    else mret (-1)).

(** ** Event guide and teletext *)

Record en50221_app_epg := AppEpg { epg_callback : option callback }.
Definition en50221_app_epg_create (malloc_ok : bool) : option en50221_app_epg :=
  if malloc_ok then Some (AppEpg None) else None.
Definition en50221_app_epg_register_enquiry_callback (epg : en50221_app_epg) (cb : option callback) : en50221_app_epg :=
  AppEpg cb.
Definition en50221_app_epg_parse_reply (epg : en50221_app_epg) (slot_id session_number data data_length : Z) : M Z :=
  if negb (data_length =? 2) then mret (-1) else
  b ← rd8 data;
  if negb (b =? 1) then mret (-1) else
  event_status ← rd8 (data + 1);
  tell (epg_callback epg) slot_id session_number (EpgReply event_status).
Definition en50221_app_epg_message (epg : en50221_app_epg) (slot_id session_number resource_id data data_length : Z) : M Z :=
  dispatch data data_length (fun tag data data_length =>
    if tag =? TAG_EPG_REPLY then en50221_app_epg_parse_reply epg slot_id session_number data data_length
    else mret (-1)).

Record en50221_app_teletext := AppTeletext { teletext_callback : option callback }.
Definition en50221_app_teletext_create (malloc_ok : bool) : option en50221_app_teletext :=
  if malloc_ok then Some (AppTeletext None) else None.
Definition en50221_app_teletext_register_callback (teletext : en50221_app_teletext) (cb : option callback) :
  en50221_app_teletext := AppTeletext cb.
Definition en50221_app_teletext_parse_ebu (teletext : en50221_app_teletext)
    (slot_id session_number data data_length : Z) : M Z :=
  parse_length data data_length 0 (fun teletext_data asn_data_length =>
    tell (teletext_callback teletext) slot_id session_number (TeletextEbu teletext_data asn_data_length)).
Definition en50221_app_teletext_message (teletext : en50221_app_teletext)
    (slot_id session_number resource_id data data_length : Z) : M Z :=
  dispatch data data_length (fun tag data data_length =>
    if tag =? TAG_TELETEXT_EBU then en50221_app_teletext_parse_ebu teletext slot_id session_number data data_length
    else mret (-1)).

(** ** Smart card reader *)

Record en50221_app_smartcard := AppSmartcard {
  sc_command_callback : option callback; sc_send_callback : option callback }.
Definition en50221_app_smartcard_create (malloc_ok : bool) : option en50221_app_smartcard :=
  if malloc_ok then Some (AppSmartcard None None) else None.
Definition en50221_app_smartcard_register_command_callback (sc : en50221_app_smartcard) (cb : option callback) :
  en50221_app_smartcard := AppSmartcard cb (sc_send_callback sc).
Definition en50221_app_smartcard_register_send_callback (sc : en50221_app_smartcard) (cb : option callback) :
  en50221_app_smartcard := AppSmartcard (sc_command_callback sc) cb.

Definition en50221_app_smartcard_parse_command (sc : en50221_app_smartcard)
    (slot_id session_number data data_length : Z) : M Z :=
  if negb (data_length =? 2) then mret (-1) else
  b ← rd8 data;
  if negb (b =? 1) then mret (-1) else
  command_id ← rd8 (data + 1);
  tell (sc_command_callback sc) slot_id session_number (SmartcardCommand command_id).
Definition en50221_app_smartcard_parse_send (sc : en50221_app_smartcard)
    (slot_id session_number data data_length : Z) : M Z :=
  parse_length data data_length 8 (fun data asn_data_length =>
    CLA ← rd8 data; INS ← rd8 (data + 1); P1 ← rd8 (data + 2); P2 ← rd8 (data + 3);
    length_in ← rd_be16 (data + 4);
    let data_in := data + 6 in
    if negb (length_in + 8 =? asn_data_length) then mret (-1) else
    length_out ← rd_be16 (data + (6 + length_in));
    tell (sc_send_callback sc) slot_id session_number (SmartcardSend CLA INS P1 P2 data_in length_in length_out)).
Definition en50221_app_smartcard_message (sc : en50221_app_smartcard)
    (slot_id session_number resource_id data data_length : Z) : M Z :=
  dispatch data data_length (fun tag data data_length =>
    if tag =? TAG_SMARTCARD_COMMAND then en50221_app_smartcard_parse_command sc slot_id session_number data data_length
    else if tag =? TAG_SMARTCARD_SEND then en50221_app_smartcard_parse_send sc slot_id session_number data data_length
    else mret (-1)).

(** ** en50221_app_utils.c *)

Record en50221_app_public_resource_id := PublicResourceId {
  resource_class : Z; resource_type : Z; resource_version : Z }.
Definition MKRID (CLASS TYPE VERSION : Z) : Z :=
  Z.lor (Z.lor (Z.shiftl (Z.land CLASS 0xffff) 16) (Z.shiftl (Z.land TYPE 0x3ff) 6)) (Z.land VERSION 0x3f).
Definition en50221_app_decode_public_resource_id (resource_id : Z) : option en50221_app_public_resource_id :=
  if Z.land resource_id 0xc0000000 =? 0xc0000000 then None else
  Some (PublicResourceId (Z.land (Z.shiftr resource_id 16) 0xffff) (Z.land (Z.shiftr resource_id 6) 0x3ff)
          (Z.land resource_id 0x3f)).

(** ** Sending

    The lower layer is a pair of functions to some type [R] of computations, in which
    [fail] is [return -1].  [None] is an access outside an array; [uninit] is what the
    header array of a function holds before it is written. *)

Definition tag_bytes (tag : Z) : list Z :=
  [Z.land (Z.shiftr tag 16) 0xff; Z.land (Z.shiftr tag 8) 0xff; Z.land tag 0xff].
(** An iovec of [n] bytes. *)
Definition iov (base : list Z) (n : Z) : option (list Z) :=
  if decide (0 <= n <= zlen base) then Some (ztake n base) else None.

Section senders.
Context {R : Type} (fail : R) (send_data : Z -> list Z -> R) (send_datav : Z -> list (list Z) -> R).
Context (uninit : list Z).

Definition start_header (tag : Z) : list Z := zsplice uninit 0 (tag_bytes tag).
Definition send_empty (tag session_number : Z) : R := send_data session_number (tag_bytes tag ++ [0]).

Definition en50221_app_rm_enq (session_number : Z) : R := send_empty TAG_PROFILE_ENQUIRY session_number.
Definition en50221_app_rm_changed (session_number : Z) : R := send_empty TAG_PROFILE_CHANGE session_number.
Definition en50221_app_ai_enquiry (session_number : Z) : R := send_empty TAG_APP_INFO_ENQUIRY session_number.
Definition en50221_app_ai_entermenu (session_number : Z) : R := send_empty TAG_ENTER_MENU session_number.
Definition en50221_app_ca_info_enq (session_number : Z) : R := send_empty TAG_CA_INFO_ENQUIRY session_number.
Definition en50221_app_dvb_ask_release (session_number : Z) : R := send_empty TAG_ASK_RELEASE session_number.

(** The bytes of a [uint32_t] array. *)
Definition le32_bytes (x : Z) : list Z := [u8 x; u8 (Z.shiftr x 8); u8 (Z.shiftr x 16); u8 (Z.shiftr x 24)].
Definition en50221_app_rm_reply (session_number : Z) (resource_ids : list Z) : option R :=
  let resource_id_count := zlen resource_ids in
  '(length_field_len, buf) ← asn_1_encode (u16 (resource_id_count * 4)) (start_header TAG_PROFILE) 3 3;
  if length_field_len <? 0 then Some fail else
  let copy_resource_ids := flat_map le32_bytes resource_ids in
  match swap_loop bswap32 4 resource_id_count 0 copy_resource_ids with
  | Ret _ copy_resource_ids =>
      a ← iov buf (3 + length_field_len);
      b ← iov copy_resource_ids (u32 (resource_id_count * 4));
      Some (send_datav session_number [a; b])
  | _ => None
  end.

Definition en50221_app_auth_send (session_number auth_protocol_id : Z) (auth_data : list Z) (auth_data_length : Z) :
    option R :=
  '(length_field_len, buf) ← asn_1_encode (u16 (auth_data_length + 2)) (start_header TAG_AUTH_RESP) 3 3;
  if length_field_len <? 0 then Some fail else
  buf ← put8 buf (3 + length_field_len) (Z.shiftr auth_protocol_id 8);
  buf ← put8 buf (3 + length_field_len + 1) auth_protocol_id;
  a ← iov buf (3 + length_field_len + 2);
  b ← iov auth_data auth_data_length;
  Some (send_datav session_number [a; b]).

Definition en50221_app_ca_pmt (session_number : Z) (ca_pmt : list Z) (ca_pmt_length : Z) : option R :=
  '(length_field_len, buf) ← asn_1_encode (u16 ca_pmt_length) (start_header TAG_CA_PMT) 3 3;
  if length_field_len <? 0 then Some fail else
  a ← iov buf (3 + length_field_len);
  b ← iov ca_pmt ca_pmt_length;
  Some (send_datav session_number [a; b]).

Definition en50221_app_epg_enquire (session_number command_id network_id original_network_id transport_stream_id
    service_id event_id : Z) : R :=
  send_data session_number
    (tag_bytes TAG_EPG_ENQUIRY ++
     [11; u8 command_id; u8 (Z.shiftr network_id 8); u8 network_id;
      u8 (Z.shiftr original_network_id 8); u8 original_network_id;
      u8 (Z.shiftr transport_stream_id 8); u8 transport_stream_id;
      u8 (Z.shiftr service_id 8); u8 service_id; u8 (Z.shiftr event_id 8); u8 event_id]).

Definition SMARTCARD_REPLY_ID_ANSW_TO_RESET : Z := 0x04.
(** The length field is written to [data], not to [hdr], and without an answer to reset the
    iovec points to [data]: the second component of the result is [data] afterwards. *)
Definition en50221_app_smartcard_command_reply (session_number reply_id status : Z) (data : list Z) (data_length : Z) :
    option (R * list Z) :=
  let hdr := start_header TAG_SMARTCARD_REPLY in
  if reply_id =? SMARTCARD_REPLY_ID_ANSW_TO_RESET then
    '(length_field_len, data) ← asn_1_encode (u16 (data_length + 2)) data 3 3;
    if length_field_len <? 0 then Some (fail, data) else
    hdr ← put8 hdr (3 + length_field_len) reply_id;
    hdr ← put8 hdr (3 + length_field_len + 1) status;
    a ← iov hdr (3 + length_field_len + 2);
    b ← iov data data_length;
    Some (send_datav session_number [a; b], data)
  else
    a ← iov data 6;
    Some (send_datav session_number [a], data).

Definition en50221_app_smartcard_receive (session_number : Z) (data : list Z) (data_length SW1 SW2 : Z) : option R :=
  '(length_field_len, buf) ← asn_1_encode (u16 (data_length + 2)) (start_header TAG_SMARTCARD_RCV) 3 3;
  if length_field_len <? 0 then Some fail else
  a ← iov buf (3 + length_field_len);
  b ← iov data data_length;
  Some (send_datav session_number [a; b; [u8 SW1; u8 SW2]]).
End senders.

(** ** Specification: the APDUs

    A tag, the length of the body, the body. *)

Definition apdu (tag : Z) (body : list Z) : list Z := tag_bytes tag ++ asn_field (zlen body) ++ body.
Definition be16_bytes (x : Z) : list Z := [x / 256; x mod 256].
Definition be32_bytes (x : Z) : list Z := be16_bytes (x / 65536) ++ be16_bytes (x mod 65536).

(** What a module tells a resource. *)
Inductive app_message :=
| MsgProfileEnq | MsgProfile (ids : list Z) | MsgProfileChange
| MsgAppInfo (type manufacturer code : Z) (menu : list Z)
| MsgAuthReq (id : Z) (data : list Z)
| MsgCaInfo (ids : list Z)
| MsgCaReply (program version enable : Z) (streams : list (Z * Z))
| MsgTune (network original_network transport_stream service : Z)
| MsgReplace (ref pid replacement : Z)
| MsgClearReplace (ref : Z)
| MsgEpgReply (status : Z)
| MsgTeletext (data : list Z)
| MsgSmartcardCommand (command : Z)
| MsgSmartcardSend (CLA INS P1 P2 : Z) (data : list Z) (out_length : Z).

Definition message_tag (m : app_message) : Z :=
  match m with
  | MsgProfileEnq => TAG_PROFILE_ENQUIRY | MsgProfile _ => TAG_PROFILE | MsgProfileChange => TAG_PROFILE_CHANGE
  | MsgAppInfo _ _ _ _ => TAG_APP_INFO | MsgAuthReq _ _ => TAG_AUTH_REQ
  | MsgCaInfo _ => TAG_CA_INFO | MsgCaReply _ _ _ _ => TAG_CA_PMT_REPLY
  | MsgTune _ _ _ _ => TAG_TUNE | MsgReplace _ _ _ => TAG_REPLACE | MsgClearReplace _ => TAG_CLEAR_REPLACE
  | MsgEpgReply _ => TAG_EPG_REPLY | MsgTeletext _ => TAG_TELETEXT_EBU
  | MsgSmartcardCommand _ => TAG_SMARTCARD_COMMAND | MsgSmartcardSend _ _ _ _ _ _ => TAG_SMARTCARD_SEND
  end.
(** The body, with 16-bit numbers encoded by [w16] and 32-bit numbers by [w32]: in network
    byte order as it is sent ([wire_body]), in the order of the host in the fields that the
    parser leaves in place for the application ([host_body]). *)
Definition message_body (w16 w32 : Z -> list Z) (m : app_message) : list Z :=
  match m with
  | MsgProfileEnq | MsgProfileChange => []
  | MsgProfile ids => flat_map w32 ids
  | MsgAppInfo type manufacturer code menu =>
      [type] ++ be16_bytes manufacturer ++ be16_bytes code ++ [zlen menu] ++ menu
  | MsgAuthReq id data => be16_bytes id ++ data
  | MsgCaInfo ids => flat_map w16 ids
  | MsgCaReply program version enable streams =>
      w16 program ++ [version; enable] ++ flat_map (fun s => w16 s.1 ++ [s.2]) streams
  | MsgTune a b c d => be16_bytes a ++ be16_bytes b ++ be16_bytes c ++ be16_bytes d
  | MsgReplace ref pid replacement => [ref] ++ be16_bytes pid ++ be16_bytes replacement
  | MsgClearReplace ref => [ref]
  | MsgEpgReply status => [status]
  | MsgTeletext data => data
  | MsgSmartcardCommand command => [command]
  | MsgSmartcardSend CLA INS P1 P2 data out_length =>
      [CLA; INS; P1; P2] ++ be16_bytes (zlen data) ++ data ++ be16_bytes out_length
  end.
Definition wire_body : app_message -> list Z := message_body be16_bytes be32_bytes.
Definition host_body : app_message -> list Z := message_body (fun x => reverse (be16_bytes x)) (fun x => reverse (be32_bytes x)).
Definition word (x : Z) : Prop := 0 <= x < 65536.
Definition message_ok (m : app_message) : Prop :=
  zlen (wire_body m) < 65536 /\ bytes (wire_body m) /\
  match m with
  | MsgProfile ids => Forall (fun x => 0 <= x < 2 ^ 32) ids
  | MsgAppInfo _ manufacturer code menu => word manufacturer /\ word code
  | MsgAuthReq id _ => word id
  | MsgCaInfo ids => Forall word ids
  | MsgCaReply program _ _ streams => word program /\ Forall (fun s => word s.1) streams
  | MsgTune a b c d => word a /\ word b /\ word c /\ word d
  | MsgReplace _ pid replacement => 0 <= pid < 2 ^ 13 /\ 0 <= replacement < 2 ^ 13
  | MsgSmartcardSend _ _ _ _ data out_length => word (zlen data) /\ word out_length
  | _ => True
  end.
(** What the application is told of a message whose body is at [p]. *)
Definition message_event (p : Z) (m : app_message) : app_event :=
  match m with
  | MsgProfileEnq => RmEnq | MsgProfile ids => RmReply (zlen ids) p | MsgProfileChange => RmChanged
  | MsgAppInfo type manufacturer code menu => AiInfo type manufacturer code (zlen menu) (p + 6)
  | MsgAuthReq id data => AuthRequest id (p + 2) (zlen data)
  | MsgCaInfo ids => CaInfo (zlen ids) p
  | MsgCaReply _ _ _ streams => CaPmtReply p (4 + 3 * zlen streams)
  | MsgTune a b c d => DvbTune a b c d
  | MsgReplace ref pid replacement => DvbReplace ref pid replacement
  | MsgClearReplace ref => DvbClearReplace ref
  | MsgEpgReply status => EpgReply status
  | MsgTeletext data => TeletextEbu p (zlen data)
  | MsgSmartcardCommand command => SmartcardCommand command
  | MsgSmartcardSend CLA INS P1 P2 data out_length => SmartcardSend CLA INS P1 P2 (p + 6) (zlen data) out_length
  end.

(** ** Running the parsers on encoded data *)

Section mid.
Context (pre l post : list Z).

Lemma rd8_mid i : 0 <= i < zlen l -> rd8 (zlen pre + i) (pre ++ l ++ post) = Ret (l.[i]) (pre ++ l ++ post).
Proof. intros. unfold rd8. by rewrite zget_mid. Qed.

Lemma rd_be16_mid i :
  bytes l -> 0 <= i -> i + 2 <= zlen l ->
  rd_be16 (zlen pre + i) (pre ++ l ++ post) = Ret (be16 l i) (pre ++ l ++ post).
Proof.
  intros Hb ? ?. unfold rd_be16. rewrite (bind_run _ _ _ _ _ (rd8_mid i ltac:(lia))).
  rewrite <- Z.add_assoc, (bind_run _ _ _ _ _ (rd8_mid (i + 1) ltac:(lia))).
  pose proof (zat_range l (i + 1) Hb). rewrite lor_byte by lia. done.
Qed.

Lemma rev_at_mid n : n = zlen l -> rev_at (pre ++ l ++ post) (zlen pre) n = pre ++ reverse l ++ post.
Proof.
  intros ->. unfold rev_at, zsplice. rewrite zdrop_app, !ztake_app by done. do 2 f_equal.
  rewrite zlen_reverse, app_assoc. apply zdrop_app. by rewrite zlen_app.
Qed.
End mid.

Lemma tag_bytes_bytes tag : bytes (tag_bytes tag).
Proof.
  assert (H : forall x, byte (Z.land x 0xff)) by (intros x; pose proof (land_range x 0xff); unfold byte; lia).
  unfold tag_bytes. auto.
Qed.

Lemma tag_join tag :
  0 <= tag < 2 ^ 24 ->
  Z.lor (Z.lor (Z.shiftl (Z.land (Z.shiftr tag 16) 0xff) 16) (Z.shiftl (Z.land (Z.shiftr tag 8) 0xff) 8))
    (Z.land tag 0xff) = tag.
Proof.
  intros Ht. change 0xff with (2 ^ 8 - 1). rewrite !land_ones_mod, !Z.shiftr_div_pow2, !Z.shiftl_mul_pow2 by lia.
  rewrite lor_mul_add by lia.
  replace (tag / 2 ^ 16 mod 2 ^ 8 * 2 ^ 16 + tag / 2 ^ 8 mod 2 ^ 8 * 2 ^ 8)
    with ((tag / 2 ^ 8) * 2 ^ 8) by lia.
  rewrite lor_mul_add by lia. lia.
Qed.

Lemma dispatch_run pre tag rest len parse :
  0 <= tag < 2 ^ 24 -> 3 <= len ->
  dispatch (zlen pre) len parse (pre ++ tag_bytes tag ++ rest) =
    parse tag (zlen pre + 3) (len - 3) (pre ++ tag_bytes tag ++ rest).
Proof.
  intros Ht Hl. unfold dispatch, app_tag. rewrite (proj2 (Z.ltb_ge _ _)) by lia.
  pose proof (rd8_mid pre (tag_bytes tag) rest) as H.
  pose proof (H 0 ltac:(done)) as H0. rewrite Z.add_0_r in H0.
  erewrite bind_run; [reflexivity|].
  rewrite (bind_run _ _ _ _ _ H0), (bind_run _ _ _ _ _ (H 1 ltac:(done))), (bind_run _ _ _ _ _ (H 2 ltac:(done))).
  unfold mret, M_ret. f_equal. by apply tag_join.
Qed.

Lemma parse_length_run pre n rest len least parse :
  0 <= n < 65536 -> least <= n -> zlen (asn_field n) + n <= len < 2 ^ 32 ->
  parse_length (zlen pre) len least parse (pre ++ asn_field n ++ rest) =
    parse (zlen pre + zlen (asn_field n)) n (pre ++ asn_field n ++ rest).
Proof.
  intros Hn Hl Hlen. pose proof (asn_field_len n). unfold parse_length.
  erewrite bind_run; [|unfold asn_1_decode_at; rewrite asn_1_decode_field by done; rewrite decide_True by lia; done].
  cbv beta iota. cbn [default]. rewrite (proj2 (Z.ltb_ge (zlen (asn_field n)) 0)) by lia.
  cbv beta delta [from_option id] iota. rewrite (proj2 (Z.ltb_ge n least)) by lia.
  by rewrite u32_small, (proj2 (Z.ltb_ge (len - zlen (asn_field n)) n)) by lia.
Qed.

Lemma zlen_flat_map {A} (w : A -> list Z) (l : list A) k :
  (forall x, zlen (w x) = k) -> zlen (flat_map w l) = k * zlen l.
Proof.
  intros Hw. induction l as [|x l IH]; [change (0 = k * 0); lia|].
  cbn [flat_map]. rewrite zlen_app, zlen_cons, Hw, IH. lia.
Qed.

(** Swapping an array in place. *)
Lemma swap_loop_run {A} (swap : Z -> M unit) size (w : A -> list Z) (l : list A) pre post :
  (forall m p, bytes m -> 0 <= p -> p + size <= zlen m -> swap p m = Ret tt (rev_at m p size)) ->
  (forall x, zlen (w x) = size) -> bytes pre -> bytes (flat_map w l) -> bytes post ->
  swap_loop swap size (zlen l) (zlen pre) (pre ++ flat_map w l ++ post) =
    Ret (zlen pre + size * zlen l) (pre ++ flat_map (fun x => reverse (w x)) l ++ post).
Proof.
  intros Hswap Hw Hpre Hl Hpost. unfold swap_loop. assert (Z.to_nat (zlen l) = length l) as -> by (unfold zlen; lia).
  generalize 0 at 1 as i. revert pre Hpre Hl. induction l as [|x l IH]; intros pre Hpre Hl i; simpl.
  { rewrite zlen_nil. unfold mret, M_ret. f_equal. lia. }
  simpl in Hl. apply Forall_app in Hl as [Hx Hl]. rewrite <- (app_assoc (w x)).
  pose proof (zlen_nonneg (flat_map w l ++ post)).
  rewrite (bind_run _ _ _ (zlen pre + size) (pre ++ reverse (w x) ++ flat_map w l ++ post)).
  2:{ erewrite bind_run; [reflexivity|]. rewrite Hswap; [by rewrite rev_at_mid by done|by repeat apply Forall_app_2|apply zlen_nonneg|].
      rewrite zlen_app, zlen_app, Hw. lia. }
  rewrite app_assoc. replace (zlen pre + size) with (zlen (pre ++ reverse (w x)))
    by (by rewrite zlen_app, zlen_reverse, Hw).
  rewrite IH; [|apply Forall_app_2; [done|by apply Forall_reverse]|done].
  rewrite zlen_app, zlen_reverse, Hw, zlen_cons, <- !app_assoc. f_equal. lia.
Qed.

(** ** Delivery *)

Inductive app_resource :=
| RmOf (r : en50221_app_rm) | AiOf (r : en50221_app_ai) | AuthOf (r : en50221_app_auth) | CaOf (r : en50221_app_ca)
| DvbOf (r : en50221_app_dvb) | EpgOf (r : en50221_app_epg) | TeletextOf (r : en50221_app_teletext)
| SmartcardOf (r : en50221_app_smartcard).

(** The handler a resource is registered with. *)
Definition handler (r : app_resource) : Z -> Z -> Z -> Z -> Z -> M Z :=
  match r with
  | RmOf r => en50221_app_rm_message r | AiOf r => en50221_app_ai_message r
  | AuthOf r => en50221_app_auth_message r | CaOf r => en50221_app_ca_message r
  | DvbOf r => en50221_app_dvb_message r | EpgOf r => en50221_app_epg_message r
  | TeletextOf r => en50221_app_teletext_message r | SmartcardOf r => en50221_app_smartcard_message r
  end.
(** The callback a message is for; [None] when the resource has no such message. *)
Definition message_callback (r : app_resource) (m : app_message) : option (option callback) :=
  match r, m with
  | RmOf r, MsgProfileEnq => Some (enqcallback r)
  | RmOf r, MsgProfile _ => Some (replycallback r)
  | RmOf r, MsgProfileChange => Some (changedcallback r)
  | AiOf r, MsgAppInfo _ _ _ _ => Some (ai_callback r)
  | AuthOf r, MsgAuthReq _ _ => Some (auth_callback r)
  | CaOf r, MsgCaInfo _ => Some (ca_info_callback r)
  | CaOf r, MsgCaReply _ _ _ _ => Some (ca_pmt_reply_callback r)
  | DvbOf r, MsgTune _ _ _ _ => Some (tune_callback r)
  | DvbOf r, MsgReplace _ _ _ => Some (replace_callback r)
  | DvbOf r, MsgClearReplace _ => Some (clear_replace_callback r)
  | EpgOf r, MsgEpgReply _ => Some (epg_callback r)
  | TeletextOf r, MsgTeletext _ => Some (teletext_callback r)
  | SmartcardOf r, MsgSmartcardCommand _ => Some (sc_command_callback r)
  | SmartcardOf r, MsgSmartcardSend _ _ _ _ _ _ => Some (sc_send_callback r)
  | _, _ => None
  end.

Definition message_apdu (m : app_message) : list Z := apdu (message_tag m) (wire_body m).
(** What stands before the body. *)
Definition body_after (pre : list Z) (m : app_message) : list Z :=
  (pre ++ tag_bytes (message_tag m)) ++ asn_field (zlen (wire_body m)).

Lemma dispatch_apdu pre tag body post parse :
  0 <= tag < 2 ^ 24 ->
  dispatch (zlen pre) (zlen (apdu tag body)) parse (pre ++ apdu tag body ++ post) =
    parse tag (zlen (pre ++ tag_bytes tag)) (zlen (asn_field (zlen body)) + zlen body)
      ((pre ++ tag_bytes tag) ++ asn_field (zlen body) ++ body ++ post).
Proof.
  intros Ht. unfold apdu. rewrite <- !app_assoc. pose proof (asn_field_len (zlen body)). pose proof (zlen_nonneg body).
  rewrite dispatch_run; [|done|rewrite !zlen_app; change (zlen (tag_bytes tag)) with 3; lia].
  rewrite !zlen_app. change (zlen (tag_bytes tag)) with 3. f_equal. lia.
Qed.

Lemma parse_length_body pre body post least parse :
  zlen body < 65536 -> least <= zlen body ->
  parse_length (zlen pre) (zlen (asn_field (zlen body)) + zlen body) least parse
      (pre ++ asn_field (zlen body) ++ body ++ post) =
    parse (zlen (pre ++ asn_field (zlen body))) (zlen body) ((pre ++ asn_field (zlen body)) ++ body ++ post).
Proof.
  intros Hb Hl. pose proof (asn_field_len (zlen body)). pose proof (zlen_nonneg body).
  rewrite parse_length_run by lia. by rewrite zlen_app, <- app_assoc.
Qed.

(** Reading a field at an address that is written otherwise. *)
Lemma rd8_read_at pre l post i p v :
  p = zlen pre + i -> 0 <= i < zlen l -> l.[i] = v -> rd8 p (pre ++ l ++ post) = Ret v (pre ++ l ++ post).
Proof. intros -> ? <-. by apply rd8_mid. Qed.
Lemma rd_be16_read_at pre l post i p v :
  bytes l -> p = zlen pre + i -> 0 <= i /\ i + 2 <= zlen l -> be16 l i = v ->
  rd_be16 p (pre ++ l ++ post) = Ret v (pre ++ l ++ post).
Proof. intros ? -> [? ?] <-. by apply rd_be16_mid. Qed.
Lemma rd_pid_read_at pre l post i p v :
  bytes l -> p = zlen pre + i -> 0 <= i /\ i + 2 <= zlen l -> be16 l i = v -> v < 2 ^ 13 ->
  rd_pid p (pre ++ l ++ post) = Ret v (pre ++ l ++ post).
Proof.
  intros Hb -> [? ?] <- Hv. unfold be16 in *. pose proof (zat_range l i Hb). pose proof (zat_range l (i + 1) Hb).
  unfold rd_pid. rewrite (bind_run _ _ _ _ _ (rd8_mid pre l post i ltac:(lia))).
  rewrite <- Z.add_assoc, (bind_run _ _ _ _ _ (rd8_mid pre l post (i + 1) ltac:(lia))).
  unfold mret, M_ret. change 0x1f with (2 ^ 5 - 1). rewrite land_ones_mod, Z.mod_small by lia.
  by rewrite lor_byte by lia.
Qed.

Ltac field_len := unfold be16_bytes; repeat first [rewrite zlen_app|rewrite zlen_cons|rewrite zlen_nil]; lia.
(** Read the next field, at offset [i] of [l] between [pre] and [post]. *)
Ltac read8 pre l post i := erewrite bind_run; [|eapply (rd8_read_at pre l post i); [lia|field_len|reflexivity]].
Ltac read16 pre l post i v :=
  erewrite bind_run; [|apply (rd_be16_read_at pre l post i _ v); [done|lia|field_len|change (v / 256 * 256 + v mod 256 = v); lia]].

Section delivery.
Context (slot_id session_number : Z) (pre post : list Z) (Hpre : bytes pre) (Hpost : bytes post).

(** The run of a handler once the tag and the length are read. *)
Definition delivers (f : Z -> Z -> M Z) (body host : list Z) (cb : option callback) (ev : Z -> app_event) : Prop :=
  forall p0, bytes p0 -> let p := p0 ++ asn_field (zlen body) in
    f (zlen p0) (zlen (asn_field (zlen body)) + zlen body) (p0 ++ asn_field (zlen body) ++ body ++ post) =
    tell cb slot_id session_number (ev (zlen p)) (p ++ host ++ post).

Lemma delivers_profile r ids :
  message_ok (MsgProfile ids) ->
  delivers (en50221_app_rm_parse_profile_reply r slot_id session_number) (wire_body (MsgProfile ids))
    (host_body (MsgProfile ids)) (replycallback r) (fun p => RmReply (zlen ids) p).
Proof.
  intros (Hl & Hb & _) p0 Hp0 p. unfold en50221_app_rm_parse_profile_reply.
  rewrite parse_length_body by (done || apply zlen_nonneg). cbn zeta. fold p.
  assert (Hz : zlen (wire_body (MsgProfile ids)) = 4 * zlen ids).
  { by apply zlen_flat_map. }
  rewrite Hz. replace (4 * zlen ids / 4) with (zlen ids) by lia.
  erewrite bind_run; [reflexivity|]. unfold wire_body. simpl message_body.
  apply swap_loop_run; try done.
  - intros. by apply bswap32_run.
  - apply Forall_app_2; [done|]. apply asn_field_bytes. pose proof (zlen_nonneg (wire_body (MsgProfile ids))). lia.
Qed.

Lemma delivers_ca_info r ids :
  message_ok (MsgCaInfo ids) ->
  delivers (en50221_app_ca_parse_info r slot_id session_number) (wire_body (MsgCaInfo ids))
    (host_body (MsgCaInfo ids)) (ca_info_callback r) (fun p => CaInfo (zlen ids) p).
Proof.
  intros (Hl & Hb & _) p0 Hp0 p. unfold en50221_app_ca_parse_info.
  rewrite parse_length_body by (done || apply zlen_nonneg). cbn zeta. fold p.
  assert (Hz : zlen (wire_body (MsgCaInfo ids)) = 2 * zlen ids).
  { by apply zlen_flat_map. }
  rewrite Hz. replace (2 * zlen ids / 2) with (zlen ids) by lia.
  erewrite bind_run; [reflexivity|]. unfold wire_body. simpl message_body.
  apply swap_loop_run; try done.
  - intros. by apply bswap16_run.
  - apply Forall_app_2; [done|]. apply asn_field_bytes. pose proof (zlen_nonneg (wire_body (MsgCaInfo ids))). lia.
Qed.

Lemma delivers_app_info r type manufacturer code menu :
  message_ok (MsgAppInfo type manufacturer code menu) ->
  delivers (en50221_app_ai_parse_app_info r slot_id session_number)
    (wire_body (MsgAppInfo type manufacturer code menu)) (host_body (MsgAppInfo type manufacturer code menu))
    (ai_callback r) (fun p => AiInfo type manufacturer code (zlen menu) (p + 6)).
Proof.
  intros (Hl & Hb & Hm & Hc) p0 Hp0 p. unfold word in *. unfold en50221_app_ai_parse_app_info.
  set (body := wire_body (MsgAppInfo type manufacturer code menu)) in *.
  pose proof (zlen_nonneg menu).
  assert (Hz : zlen body = 6 + zlen menu) by (unfold body, wire_body; simpl; field_len).
  rewrite parse_length_body by lia. fold p.
  read8 p body post 0. read16 p body post 1 manufacturer.
  read16 p body post 3 code. read8 p body post 5.
  change (body.[5]) with (zlen menu). rewrite (proj2 (Z.ltb_ge _ _)) by lia. done.
Qed.

Lemma delivers_auth r id data :
  message_ok (MsgAuthReq id data) ->
  delivers (en50221_app_auth_parse_request r slot_id session_number) (wire_body (MsgAuthReq id data))
    (host_body (MsgAuthReq id data)) (auth_callback r) (fun p => AuthRequest id (p + 2) (zlen data)).
Proof.
  intros (Hl & Hb & Hi) p0 Hp0 p. unfold word in *. unfold en50221_app_auth_parse_request.
  set (body := wire_body (MsgAuthReq id data)) in *. pose proof (zlen_nonneg data).
  assert (Hz : zlen body = 2 + zlen data) by (unfold body, wire_body; simpl; field_len).
  rewrite parse_length_body by lia. fold p.
  erewrite bind_run; [|apply (rd_be16_read_at p body post 0 _ id); [done|lia|field_len|]].
  2:{ change (id / 256 * 256 + id mod 256 = id). lia. }
  by replace (zlen body - 2) with (zlen data) by lia.
Qed.

Lemma delivers_teletext r data :
  message_ok (MsgTeletext data) ->
  delivers (en50221_app_teletext_parse_ebu r slot_id session_number) (wire_body (MsgTeletext data))
    (host_body (MsgTeletext data)) (teletext_callback r) (fun p => TeletextEbu p (zlen data)).
Proof.
  intros (Hl & Hb & _) p0 Hp0 p. unfold en50221_app_teletext_parse_ebu.
  by rewrite parse_length_body by (done || apply zlen_nonneg).
Qed.

Lemma delivers_smartcard_send r CLA INS P1 P2 data out_length :
  message_ok (MsgSmartcardSend CLA INS P1 P2 data out_length) ->
  delivers (en50221_app_smartcard_parse_send r slot_id session_number)
    (wire_body (MsgSmartcardSend CLA INS P1 P2 data out_length))
    (host_body (MsgSmartcardSend CLA INS P1 P2 data out_length)) (sc_send_callback r)
    (fun p => SmartcardSend CLA INS P1 P2 (p + 6) (zlen data) out_length).
Proof.
  intros (Hl & Hb & Hd & Ho) p0 Hp0 p. unfold word in *. unfold en50221_app_smartcard_parse_send.
  set (body := wire_body (MsgSmartcardSend CLA INS P1 P2 data out_length)) in *.
  assert (Hz : zlen body = 8 + zlen data) by (unfold body, wire_body; simpl; field_len).
  rewrite parse_length_body by lia. fold p.
  read8 p body post 0. read8 p body post 1. read8 p body post 2. read8 p body post 3.
  read16 p body post 4 (zlen data).
  rewrite (proj2 (Z.eqb_eq _ _)) by lia. cbn [negb].
  erewrite bind_run; [|apply (rd_be16_read_at p body post (6 + zlen data) _ out_length); [done|lia|lia|]]; [done|].
  assert (Hx : forall i, 0 <= i < 2 -> body.[6 + zlen data + i] = (be16_bytes out_length).[i]).
  { intros i Hi. unfold body, wire_body. cbn [message_body].
    change ([CLA; INS; P1; P2] ++ be16_bytes (zlen data) ++ data ++ be16_bytes out_length)
      with ([CLA; INS; P1; P2; zlen data / 256; zlen data mod 256] ++ data ++ be16_bytes out_length).
    rewrite zat_app by lia. change (zlen [_; _; _; _; _; _]) with 6. rewrite decide_False by lia.
    rewrite zat_app by lia. rewrite decide_False by lia. f_equal. lia. }
  unfold be16. rewrite (Hx 1) by lia. specialize (Hx 0). rewrite Z.add_0_r in Hx. rewrite Hx by lia.
  change (out_length / 256 * 256 + out_length mod 256 = out_length). lia.
Qed.

(** Bodies of fixed length, whose length byte the parser compares itself. *)
Ltac short n body p0 post p :=
  change (zlen body) with n; change (asn_field n) with [n];
  lazymatch goal with |- (if ?c then _ else _) _ = _ => change c with false end; cbv iota;
  assert (Hz : zlen body = n) by done;
  assert (Hp : zlen p = zlen p0 + 1) by (unfold p; rewrite zlen_app; done);
  erewrite bind_run; [|apply (rd8_read_at p0 [n] (body ++ post) 0 _ n); [lia|done|done]];
  change (p0 ++ [n] ++ body ++ post) with (p0 ++ ([n] ++ body ++ post)); rewrite (app_assoc p0);
  change (p0 ++ [n]) with p;
  lazymatch goal with |- (if ?c then _ else _) _ = _ => change c with false end; cbv iota.

Lemma delivers_tune r a b c d :
  message_ok (MsgTune a b c d) ->
  delivers (en50221_app_dvb_parse_tune r slot_id session_number) (wire_body (MsgTune a b c d))
    (host_body (MsgTune a b c d)) (tune_callback r) (fun _ => DvbTune a b c d).
Proof.
  intros (Hl & Hb & Ha & Hb' & Hc & Hd) p0 Hp0 p. unfold word in *. unfold en50221_app_dvb_parse_tune.
  set (body := wire_body (MsgTune a b c d)) in *. short 8 body p0 post p. 
  read16 p body post 0 a. read16 p body post 2 b. read16 p body post 4 c. read16 p body post 6 d. done.
Qed.

Lemma delivers_replace r ref pid replacement :
  message_ok (MsgReplace ref pid replacement) ->
  delivers (en50221_app_dvb_parse_replace r slot_id session_number) (wire_body (MsgReplace ref pid replacement))
    (host_body (MsgReplace ref pid replacement)) (replace_callback r) (fun _ => DvbReplace ref pid replacement).
Proof.
  intros (Hl & Hb & Hpid & Hrep) p0 Hp0 p. unfold en50221_app_dvb_parse_replace.
  set (body := wire_body (MsgReplace ref pid replacement)) in *. short 5 body p0 post p.
  read8 p body post 0.
  erewrite bind_run; [|apply (rd_pid_read_at p body post 1 _ pid); [done|lia|field_len| |lia]];
    [|change (pid / 256 * 256 + pid mod 256 = pid); lia].
  erewrite bind_run; [|apply (rd_pid_read_at p body post 3 _ replacement); [done|lia|field_len| |lia]];
    [|change (replacement / 256 * 256 + replacement mod 256 = replacement); lia].
  done.
Qed.

Lemma delivers_clear_replace r ref :
  delivers (en50221_app_dvb_parse_clear_replace r slot_id session_number) (wire_body (MsgClearReplace ref))
    (host_body (MsgClearReplace ref)) (clear_replace_callback r) (fun _ => DvbClearReplace ref).
Proof.
  intros p0 Hp0 p. unfold en50221_app_dvb_parse_clear_replace.
  set (body := wire_body (MsgClearReplace ref)) in *. short 1 body p0 post p. read8 p body post 0. done.
Qed.

Lemma delivers_epg r status :
  delivers (en50221_app_epg_parse_reply r slot_id session_number) (wire_body (MsgEpgReply status))
    (host_body (MsgEpgReply status)) (epg_callback r) (fun _ => EpgReply status).
Proof.
  intros p0 Hp0 p. unfold en50221_app_epg_parse_reply.
  set (body := wire_body (MsgEpgReply status)) in *. short 1 body p0 post p. read8 p body post 0. done.
Qed.

Lemma delivers_smartcard_command r command :
  delivers (en50221_app_smartcard_parse_command r slot_id session_number) (wire_body (MsgSmartcardCommand command))
    (host_body (MsgSmartcardCommand command)) (sc_command_callback r) (fun _ => SmartcardCommand command).
Proof.
  intros p0 Hp0 p. unfold en50221_app_smartcard_parse_command.
  set (body := wire_body (MsgSmartcardCommand command)) in *. short 1 body p0 post p. read8 p body post 0. done.
Qed.

(** The loop over the streams of a reply: [pre] is what stands before them. *)
Lemma reply_loop_run base n (streams : list (Z * Z)) : forall fuel pos p,
  bytes p -> bytes (flat_map (fun s => be16_bytes s.1 ++ [s.2]) streams) ->
  base + pos = zlen p -> n = pos + 3 * zlen streams -> (length streams < fuel)%nat ->
  while_lt fuel (fun pos => bswap16 (base + pos);; mret (pos + 3)) n pos
      (p ++ flat_map (fun s => be16_bytes s.1 ++ [s.2]) streams ++ post) =
    Ret n (p ++ flat_map (fun s => reverse (be16_bytes s.1) ++ [s.2]) streams ++ post).
Proof.
  induction streams as [|s streams IH]; intros fuel pos p Hp Hs Ep En Hf.
  { change (zlen (@nil (Z * Z))) with 0 in En. destruct fuel; simpl; rewrite (proj2 (Z.ltb_ge _ _)) by lia; unfold mret, M_ret; f_equal; lia. }
  rewrite zlen_cons in En. pose proof (zlen_nonneg streams). destruct fuel as [|fuel]; [simpl in Hf; lia|].
  cbn [flat_map] in *. apply Forall_app in Hs as [Hs1 Hs].
  cbn [while_lt]. rewrite (proj2 (Z.ltb_lt _ _)) by lia.
  rewrite <- !(app_assoc _ [s.2]), <- !app_assoc, Ep.
  pose proof (zlen_nonneg p). pose proof (zlen_nonneg ([s.2] ++ flat_map (fun s => be16_bytes s.1 ++ [s.2]) streams ++ post)).
  rewrite (bind_run _ _ _ (pos + 3) (p ++ reverse (be16_bytes s.1) ++ [s.2] ++
      flat_map (fun s => be16_bytes s.1 ++ [s.2]) streams ++ post)).
  2:{ erewrite bind_run; [reflexivity|]. rewrite bswap16_run.
      - by rewrite rev_at_mid.
      - apply Forall_app_2; [done|]. apply Forall_app in Hs1 as [? ?]. by repeat apply Forall_app_2.
      - done.
      - rewrite zlen_app, zlen_app. change (zlen (be16_bytes s.1)) with 2. lia. }
  rewrite (app_assoc (reverse _)), (app_assoc p). rewrite IH; [by rewrite <- !app_assoc| |done| |lia|simpl in Hf; lia].
  - apply Forall_app_2; [done|]. apply Forall_app in Hs1 as [? ?]. apply Forall_app_2; [by apply Forall_reverse|done].
  - rewrite !zlen_app, zlen_reverse. change (zlen (be16_bytes s.1)) with 2. change (zlen [s.2]) with 1. lia.
Qed.

Lemma delivers_ca_reply r program version enable streams :
  message_ok (MsgCaReply program version enable streams) ->
  delivers (en50221_app_ca_parse_reply r slot_id session_number)
    (wire_body (MsgCaReply program version enable streams)) (host_body (MsgCaReply program version enable streams))
    (ca_pmt_reply_callback r) (fun p => CaPmtReply p (4 + 3 * zlen streams)).
Proof.
  intros (Hl & Hb & _) p0 Hp0 p. unfold en50221_app_ca_parse_reply.
  set (body := wire_body (MsgCaReply program version enable streams)) in *.
  set (tl := flat_map (fun s => be16_bytes s.1 ++ [s.2]) streams).
  assert (Ebody : body = be16_bytes program ++ [version; enable] ++ tl) by done.
  assert (Htl : zlen tl = 3 * zlen streams) by (unfold tl; by apply zlen_flat_map).
  assert (Hz : zlen body = 4 + 3 * zlen streams).
  { rewrite Ebody, !zlen_app, Htl. change (zlen (be16_bytes program)) with 2. change (zlen [version; enable]) with 2. lia. }
  pose proof (zlen_nonneg streams). rewrite parse_length_body by lia. fold p. rewrite Hz.
  assert (Hp : bytes p) by (apply Forall_app_2; [done|apply asn_field_bytes; lia]). clearbody p.
  rewrite Ebody in *. apply Forall_app in Hb as [Hb1 Hb]. apply Forall_app in Hb as [Hb2 Hb3].
  rewrite <- !app_assoc. pose proof (zlen_nonneg p). pose proof (zlen_nonneg (tl ++ post)).
  rewrite (bind_run _ _ _ tt (p ++ reverse (be16_bytes program) ++ [version; enable] ++ tl ++ post)).
  2:{ rewrite bswap16_run; [by rewrite rev_at_mid|by repeat apply Forall_app_2|done|].
      rewrite zlen_app, zlen_app. change (zlen (be16_bytes program)) with 2.
      pose proof (zlen_nonneg ([version; enable] ++ tl ++ post)). lia. }
  set (p4 := p ++ reverse (be16_bytes program) ++ [version; enable]).
  assert (Ep4 : forall l, p ++ reverse (be16_bytes program) ++ [version; enable] ++ l = p4 ++ l)
    by (intros; unfold p4; by rewrite <- !app_assoc).
  rewrite Ep4. erewrite bind_run; [|apply (reply_loop_run (zlen p) _ streams)].
  - unfold host_body. cbn [message_body]. by rewrite <- !app_assoc, <- Ep4.
  - repeat apply Forall_app_2; [done|by apply Forall_reverse|done].
  - done.
  - unfold p4. rewrite !zlen_app, zlen_reverse. done.
  - done.
  - rewrite !length_app. unfold zlen in Htl. assert (length streams <= length tl)%nat by lia. fold tl. lia.
Qed.
End delivery.

(** C33: Every message that a module sends in the format of EN 50221 makes its resource call
    the callback registered for it exactly once, with the slot, the session and the fields
    that were sent, or do nothing when none is registered; arrays are left in place, in the
    byte order of the host, and nothing outside the body is changed. *)
Theorem en50221_app_message_delivered r msg cb slot_id session_number resource_id pre post :
  message_callback r msg = Some cb -> message_ok msg -> bytes pre -> bytes post ->
  handler r slot_id session_number resource_id (zlen pre) (zlen (message_apdu msg)) (pre ++ message_apdu msg ++ post) =
    tell cb slot_id session_number (message_event (zlen (body_after pre msg)) msg)
      (body_after pre msg ++ host_body msg ++ post).
Proof.
  intros Hcb Hok Hpre Hpost. set (p0 := pre ++ tag_bytes (message_tag msg)).
  assert (Hp0 : bytes p0).
  { apply Forall_app_2; [done|apply tag_bytes_bytes]. }
  assert (Ht : 0 <= message_tag msg < 2 ^ 24) by (destruct msg; vm_compute; split; congruence).
  destruct r, msg; try discriminate Hcb; injection Hcb as <-; cbn [handler];
    match goal with |- ?f _ _ _ _ _ _ _ = _ => unfold f end; unfold message_apdu; rewrite dispatch_apdu by exact Ht;
    repeat lazymatch goal with |- (if ?c then _ else _) _ = _ => let b := eval vm_compute in c in change c with b; cbv iota end.
  - unfold en50221_app_rm_parse_profile_enq. f_equal. apply app_assoc.
  - by apply delivers_profile.
  - unfold en50221_app_rm_parse_profile_change. f_equal. apply app_assoc.
  - by apply delivers_app_info.
  - by apply delivers_auth.
  - by apply delivers_ca_info.
  - by apply delivers_ca_reply.
  - by apply delivers_tune.
  - by apply delivers_replace.
  - by apply delivers_clear_replace.
  - by apply delivers_epg.
  - by apply delivers_teletext.
  - by apply delivers_smartcard_command.
  - by apply delivers_smartcard_send.
Qed.

(** ** Safety on any input *)

(** Only bytes from [lo] on and before [hi] differ. *)
Definition same_outside (lo hi : Z) (m m' : mem) : Prop :=
  zlen m' = zlen m /\ bytes m' /\ forall j, 0 <= j -> ~ lo <= j < hi -> m'.[j] = m.[j].

(** The pointers of an event, with the lengths told along with them. *)
Definition event_within (lo hi : Z) (ev : app_event) : Prop :=
  let range p n := lo <= p /\ 0 <= n /\ p + n <= hi in
  match ev with
  | RmReply count ids => range ids (4 * count)
  | AiInfo _ _ _ n p => range p n
  | AuthRequest _ p n => range p n
  | CaInfo count ids => range ids (2 * count)
  | CaPmtReply p n => range p n /\ 4 <= n
  | TeletextEbu p n => range p n
  | SmartcardSend _ _ _ _ p n _ => range p n
  | _ => True
  end.
Definition callbacks (r : app_resource) : list (option callback) :=
  match r with
  | RmOf r => [enqcallback r; replycallback r; changedcallback r]
  | AiOf r => [ai_callback r] | AuthOf r => [auth_callback r]
  | CaOf r => [ca_info_callback r; ca_pmt_reply_callback r]
  | DvbOf r => [tune_callback r; replace_callback r; clear_replace_callback r]
  | EpgOf r => [epg_callback r] | TeletextOf r => [teletext_callback r]
  | SmartcardOf r => [sc_command_callback r; sc_send_callback r]
  end.
(** The streams of a CA PMT reply fill it: otherwise the parser swaps the last byte with the
    one behind the reply ([ca_reply_overrun]). *)
Definition reply_whole (r : app_resource) (m : mem) (data data_length : Z) : Prop :=
  match r with
  | CaOf _ => forall k n, asn_1_decode m (data + 3) (data_length - 3) = Some (k, Some n) -> (n - 4) mod 3 <> 1
  | _ => True
  end.

Lemma same_outside_refl lo hi m : bytes m -> same_outside lo hi m m.
Proof. done. Qed.
Lemma same_outside_rev_at lo hi m m' p n :
  same_outside lo hi m m' -> 0 <= lo <= p -> 0 <= n -> p + n <= hi -> hi <= zlen m -> same_outside lo hi m (rev_at m' p n).
Proof.
  intros (Hl & Hb & Ho) ? ? ? ?. split; [by rewrite zlen_rev_at by lia|].
  split; [apply rev_at_bytes; (done || lia)|].
  intros j Hj Hout. rewrite zat_rev_at_out by lia. by apply Ho.
Qed.

Section handled.
Context (cbs : list (option callback)) (slot_id session_number lo hi : Z) (m0 : mem).
Context (Hb0 : bytes m0) (Hlo : 0 <= lo) (Hhi : hi <= zlen m0).

(** [c] returns -1 or ends in one of the callbacks. *)
Definition handled (c : M Z) (m : mem) : Prop :=
  exists m', same_outside lo hi m0 m' /\
    (c m = Ret (-1) m' \/
     exists cb ev, cb ∈ cbs /\ event_within lo hi ev /\ c m = tell cb slot_id session_number ev m').

Lemma handled_fail m : same_outside lo hi m0 m -> handled (mret (-1)) m.
Proof. intros. exists m. eauto. Qed.
Lemma handled_tell cb ev m :
  same_outside lo hi m0 m -> cb ∈ cbs -> event_within lo hi ev -> handled (tell cb slot_id session_number ev) m.
Proof. intros. exists m. split; [done|]. right. eauto. Qed.
Lemma handled_bind {A} (c : M A) (k : A -> M Z) m a m1 :
  c m = Ret a m1 -> handled (k a) m1 -> handled (c ≫= k) m.
Proof. intros E (m' & Hs & H). exists m'. split; [done|]. by rewrite (bind_run _ _ _ _ _ E). Qed.
Lemma handled_if (b : bool) c1 c2 m :
  (b = true -> handled c1 m) -> (b = false -> handled c2 m) -> handled (if b then c1 else c2) m.
Proof. destruct b; auto. Qed.
Lemma handled_rd8 p (k : Z -> M Z) m :
  same_outside lo hi m0 m -> lo <= p < hi -> (forall v, 0 <= v < 256 -> handled (k v) m) -> handled (rd8 p ≫= k) m.
Proof.
  intros (Hl & Hb & _) Hp Hk. eapply handled_bind; [apply rd8_run; lia|]. apply Hk. by apply zat_range.
Qed.
Lemma handled_be16 p (k : Z -> M Z) m :
  same_outside lo hi m0 m -> lo <= p -> p + 2 <= hi ->
  (forall v, 0 <= v < 65536 -> handled (k v) m) -> handled (rd_be16 p ≫= k) m.
Proof.
  intros (Hl & Hb & _) Hp Hp2 Hk. pose proof (zat_range m p Hb). pose proof (zat_range m (p + 1) Hb).
  eapply (handled_bind _ _ _ (m.[p] * 256 + m.[p + 1])); [|apply Hk; lia].
  unfold rd_be16. rewrite (bind_run _ _ _ _ _ (rd8_run p m ltac:(lia))).
  rewrite (bind_run _ _ _ _ _ (rd8_run (p + 1) m ltac:(lia))). by rewrite lor_byte by lia.
Qed.
Lemma handled_pid p (k : Z -> M Z) m :
  same_outside lo hi m0 m -> lo <= p -> p + 2 <= hi -> (forall v, handled (k v) m) -> handled (rd_pid p ≫= k) m.
Proof.
  intros (Hl & Hb & _) Hp Hp2 Hk. eapply handled_bind; [|apply Hk].
  unfold rd_pid. rewrite (bind_run _ _ _ _ _ (rd8_run p m ltac:(lia))).
  by rewrite (bind_run _ _ _ _ _ (rd8_run (p + 1) m ltac:(lia))).
Qed.

Lemma handled_length p len least parse :
  lo <= p -> p + len = hi -> len < 2 ^ 32 ->
  (forall k n, asn_1_decode m0 p len = Some (k, Some n) -> 1 <= k <= 3 -> least <= n -> 0 <= n < 65536 -> k + n <= len ->
    handled (parse (p + k) n) m0) ->
  handled (parse_length p len least parse) m0.
Proof.
  intros Hp Hlen Hmax Hk. unfold parse_length.
  destruct (asn_1_decode_cases m0 p len) as [E|(k & n & E & Hk1 & Hk2 & Hn & _)]; [lia|lia| |].
  - eapply handled_bind; [unfold asn_1_decode_at; by rewrite E|]. by apply handled_fail.
  - eapply handled_bind; [unfold asn_1_decode_at; by rewrite E|]. cbv beta iota. cbn [default].
    change (default 0 (Some n)) with n.
    apply handled_if; [lia|intros _]. apply handled_if; [intros _; by apply handled_fail|intros].
    rewrite u32_small by lia. apply handled_if; [intros _; by apply handled_fail|intros].
    apply Hk; (done || lia).
Qed.

Lemma handled_swap swap size count p (k : Z -> M Z) m :
  (forall p m, bytes m -> 0 <= p -> p + size <= zlen m -> swap p m = Ret tt (rev_at m p size)) ->
  same_outside lo hi m0 m -> 0 <= size -> 0 <= count -> lo <= p -> p + size * count <= hi ->
  (forall v m', same_outside lo hi m0 m' -> handled (k v) m') ->
  handled (swap_loop swap size count p ≫= k) m.
Proof.
  intros Hswap Hm Hsz Hc Hp Hfit Hk.
  assert (H : forall n i p m, same_outside lo hi m0 m -> lo <= p -> p + size * Z.of_nat n <= hi ->
    exists v m', for_upto n i (fun _ p => swap p;; mret (p + size)) p m = Ret v m' /\ same_outside lo hi m0 m').
  { clear - Hlo Hhi Hswap Hsz. induction n as [|n IH]; intros i p m Hm Hp Hfit; simpl; [by exists p, m|].
    pose proof Hm as (Hl & Hb & _).
    rewrite (bind_run _ _ _ (p + size) (rev_at m p size)).
    2:{ erewrite bind_run; [reflexivity|]. apply Hswap; [done|lia|nia]. }
    apply IH; [apply same_outside_rev_at; (done || nia)|nia|nia]. }
  unfold swap_loop. destruct (H (Z.to_nat count) 0 p m) as (v & m' & E & Hm'); [done|done|nia|].
  eapply handled_bind; [exact E|]. by apply Hk.
Qed.
End handled.

(** The loop over the streams of a reply that they fill. *)
Lemma reply_loop_safe lo hi m0 base n :
  bytes m0 -> 0 <= lo -> hi <= zlen m0 -> lo <= base -> base + n <= hi -> forall fuel pos m,
  same_outside lo hi m0 m -> 0 <= pos -> (n - pos) mod 3 <> 1 -> n - pos < Z.of_nat fuel ->
  exists v m', while_lt fuel (fun pos => bswap16 (base + pos);; mret (pos + 3)) n pos m = Ret v m' /\
    same_outside lo hi m0 m'.
Proof.
  intros Hb0 Hlo Hhi Hbase Hfit. induction fuel as [|fuel IH]; intros pos m Hm Hpos Hmod Hf;
    cbn [while_lt]; destruct (pos <? n) eqn:E; try (by exists pos, m); [lia|].
  pose proof Hm as (Hl & Hb & _). assert (pos + 2 <= n) by lia.
  rewrite (bind_run _ _ _ (pos + 3) (rev_at m (base + pos) 2)).
  - apply IH; [apply same_outside_rev_at; (done || lia)|lia..].
  - erewrite bind_run; [reflexivity|]. apply bswap16_run; [done|lia..].
Qed.

(** Steps of a handler: the condition of an [if], a read, the end. *)
Ltac handled_step :=
  lazymatch goal with
  | |- handled _ _ _ _ _ _ (mret (-1)) _ => apply handled_fail; done
  | |- handled _ _ _ _ _ _ (tell _ _ _ _) _ =>
      apply handled_tell; [done|cbn [callbacks]; rewrite !elem_of_cons; tauto|simpl; try lia]
  | |- handled _ _ _ _ _ _ (if _ then _ else _) _ => apply handled_if; intros
  | |- handled _ _ _ _ _ _ (let _ := _ in _) _ => cbv zeta
  | |- handled _ _ _ _ _ _ (rd8 _ ≫= _) _ => apply handled_rd8; [(done || lia)..|intros]
  | |- handled _ _ _ _ _ _ (rd_be16 _ ≫= _) _ => apply handled_be16; [(done || lia)..|intros]
  | |- handled _ _ _ _ _ _ (rd_pid _ ≫= _) _ => apply handled_pid; [(done || lia)..|intros]
  | |- handled _ _ _ _ _ _ (parse_length _ _ _ _) _ => apply handled_length; [(done || lia)..|intros]
  end.

Lemma handled_dispatch cbs slot_id session_number m data data_length parse :
  bytes m -> 0 <= data -> data + data_length <= zlen m ->
  (forall tag, 3 <= data_length ->
    handled cbs slot_id session_number data (data + data_length) m (parse tag (data + 3) (data_length - 3)) m) ->
  handled cbs slot_id session_number data (data + data_length) m (dispatch data data_length parse) m.
Proof.
  intros Hb Hd Hfit Hk. unfold dispatch, app_tag.
  apply handled_if; intros; [by apply handled_fail|]. eapply handled_bind; [|apply Hk; lia].
  unfold mbind, M_bind. by rewrite !rd8_run by lia.
Qed.

Lemma handler_handled r slot_id session_number resource_id data data_length m :
  bytes m -> 0 <= data -> 0 <= data_length < 2 ^ 32 -> data + data_length <= zlen m ->
  reply_whole r m data data_length ->
  handled (callbacks r) slot_id session_number data (data + data_length) m
    (handler r slot_id session_number resource_id data data_length) m.
Proof.
  intros Hb Hd Hlen Hfit Hwhole. pose proof (same_outside_refl data (data + data_length) m Hb) as Hm.
  destruct r as [r|r|r|r|r|r|r|r]; cbn [handler];
    match goal with |- handled _ _ _ _ _ _ (?f _ _ _ _ _ _) _ => unfold f end;
    (apply handled_dispatch; [done..|intros tag Hl]).
  - unfold en50221_app_rm_parse_profile_enq, en50221_app_rm_parse_profile_reply, en50221_app_rm_parse_profile_change.
    repeat handled_step.
    apply handled_swap; try done; try lia; [intros; by apply bswap32_run|intros; handled_step].
  - unfold en50221_app_ai_parse_app_info. repeat handled_step.
    destruct (_ <? _) eqn:Ev; rewrite ?u8_small by lia; lia.
  - unfold en50221_app_auth_parse_request. repeat handled_step.
  - unfold en50221_app_ca_parse_info, en50221_app_ca_parse_reply. repeat handled_step.
    { apply handled_swap; try done; try lia; [intros; by apply bswap16_run|intros; handled_step]. }
    pose proof (same_outside_rev_at _ _ m m (data + 3 + k) 2 Hm) as Hm1.
    eapply handled_bind; [apply bswap16_run; [done|lia..]|].
    destruct (reply_loop_safe data (data + data_length) m (data + 3 + k) n Hb Hd ltac:(lia) ltac:(lia) ltac:(lia)
      (S (length (rev_at m (data + 3 + k) 2))) 4 (rev_at m (data + 3 + k) 2)) as (v & m' & E & Hm').
    { apply Hm1; lia. } { lia. } { by apply (Hwhole k). }
    { pose proof (zlen_rev_at m (data + 3 + k) 2). unfold zlen in *. lia. }
    eapply handled_bind; [exact E|]. handled_step. 
  - unfold en50221_app_dvb_parse_tune, en50221_app_dvb_parse_replace, en50221_app_dvb_parse_clear_replace.
    repeat handled_step.
  - unfold en50221_app_epg_parse_reply. repeat handled_step.
  - unfold en50221_app_teletext_parse_ebu. repeat handled_step.
  - unfold en50221_app_smartcard_parse_command, en50221_app_smartcard_parse_send. repeat handled_step.
Qed.

(** Whatever a module sends, the handler of a resource returns -1 or ends in one of the
    callbacks registered with it, made once, with pointers and lengths that stay in the
    APDU; it changes nothing outside the APDU, and on the way it does not leave the buffer
    the APDU is in.  The one exception is a CA PMT reply whose last stream is cut after its
    first byte. *)
Theorem en50221_app_message_safe r slot_id session_number resource_id data data_length m :
  bytes m -> 0 <= data -> 0 <= data_length < 2 ^ 32 -> data + data_length <= zlen m ->
  reply_whole r m data data_length ->
  exists m', same_outside data (data + data_length) m m' /\
    (handler r slot_id session_number resource_id data data_length m = Ret (-1) m' \/
     exists cb ev, cb ∈ callbacks r /\ event_within data (data + data_length) ev /\
       handler r slot_id session_number resource_id data data_length m = tell cb slot_id session_number ev m').
Proof. intros. by apply handler_handled. Qed.

(** ** What is sent *)

Lemma word_bytes x : word x -> [u8 (Z.shiftr x 8); u8 x] = be16_bytes x.
Proof. unfold word. intros H. rewrite shiftr_8. unfold be16_bytes. rewrite u8_small by lia. done. Qed.

Lemma le32_be32 x : 0 <= x < 2 ^ 32 -> reverse (le32_bytes x) = be32_bytes x.
Proof.
  intros H. unfold le32_bytes, be32_bytes, be16_bytes. rewrite !Z.shiftr_div_pow2 by lia. unfold u8.
  lazymatch goal with |- reverse [?a; ?b; ?c; ?d] = [?e; ?f] ++ [?g; ?h] => change ([d; c; b; a] = [e; f; g; h]) end.
  repeat (apply (f_equal2 cons); [lia|]). done.
Qed.

Section sent.
Context {R : Type} (fail : R) (send_data : Z -> list Z -> R) (send_datav : Z -> list (list Z) -> R).
Context (uninit : list Z) (Huninit : zlen uninit = 10).

(** The header array with [l] written to it. *)
Definition header_with (l : list Z) : list Z := zsplice uninit 0 l.

Lemma header_encode tag n :
  0 <= n < 65536 ->
  asn_1_encode (u16 n) (start_header uninit tag) 3 3 = Some (zlen (asn_field n), header_with (tag_bytes tag ++ asn_field n)).
Proof.
  intros Hn. pose proof (asn_field_len n). rewrite u16_small by lia.
  assert (Hz : zlen (start_header uninit tag) = 10).
  { unfold start_header. rewrite zlen_zsplice; [done|lia|]. change (zlen (tag_bytes tag)) with 3. lia. }
  rewrite asn_1_encode_eq by lia. rewrite decide_True by lia. do 2 f_equal.
  apply (zsplice_app uninit 0 (tag_bytes tag)); [lia|]. change (zlen (tag_bytes tag)) with 3. lia.
Qed.

Lemma header_put l i v :
  i = zlen l -> zlen l < 10 -> put8 (header_with l) i v = Some (header_with (l ++ [u8 v])).
Proof.
  intros -> Hl. pose proof (zlen_nonneg l). unfold header_with. rewrite <- (zsplice_snoc uninit 0 l) by lia.
  rewrite <- put8_splice; [|rewrite zlen_zsplice; lia|apply u8_range].
  unfold put8. by rewrite (u8_small (u8 v)) by apply u8_range.
Qed.

Lemma header_iov l n : n = zlen l -> zlen l <= 10 -> iov (header_with l) n = Some l.
Proof.
  intros -> Hl. pose proof (zlen_nonneg l). unfold iov, header_with.
  rewrite decide_True by (rewrite zlen_zsplice; lia). f_equal. rewrite zsplice_0 by lia. by apply ztake_app.
Qed.

Lemma iov_all (l : list Z) : iov l (zlen l) = Some l.
Proof. pose proof (zlen_nonneg l). unfold iov. rewrite decide_True by lia. f_equal. by apply ztake_all. Qed.

(** [c] sends one message in vectors that are the APDU [l] cut into pieces. *)
Definition sends (session_number : Z) (l : list Z) (c : option R) : Prop :=
  exists v, c = Some (send_datav session_number v) /\ concat v = l.

Lemma rm_reply_sends session_number ids :
  Forall (fun x => 0 <= x < 2 ^ 32) ids -> 4 * zlen ids < 65536 ->
  sends session_number (message_apdu (MsgProfile ids))
    (en50221_app_rm_reply fail send_datav uninit session_number ids).
Proof.
  intros Hids Hl. pose proof (zlen_nonneg ids). unfold en50221_app_rm_reply.
  rewrite header_encode by lia. cbn [mbind option_bind]. pose proof (asn_field_len (zlen ids * 4)).
  rewrite (proj2 (Z.ltb_ge _ _)) by lia.
  assert (Hb : bytes (flat_map le32_bytes ids)).
  { clear. induction ids as [|x ids IH]; [done|]. cbn [flat_map]. apply Forall_app_2; [|done].
    repeat constructor; apply u8_range. }
  pose proof (swap_loop_run bswap32 4 le32_bytes ids [] [] ltac:(intros; by apply bswap32_run) ltac:(done)
    ltac:(constructor) Hb ltac:(constructor)) as E.
  rewrite !app_nil_r in E. cbn [app] in E. change (zlen (@nil Z)) with 0 in E. rewrite E.
  assert (Ew : flat_map (fun x => reverse (le32_bytes x)) ids = wire_body (MsgProfile ids)).
  { clear - Hids. unfold wire_body. cbn [message_body]. induction Hids as [|x ids Hx _ IH]; [done|].
    cbn [flat_map]. by rewrite IH, le32_be32. }
  rewrite Ew. assert (Ez : zlen (wire_body (MsgProfile ids)) = zlen ids * 4).
  { rewrite Z.mul_comm. unfold wire_body. cbn [message_body]. by apply zlen_flat_map. }
  rewrite header_iov; [|rewrite zlen_app; done|rewrite zlen_app; change (zlen (tag_bytes _)) with 3; lia].
  cbn [mbind option_bind]. rewrite u32_small, <- Ez, iov_all by lia. cbn [mbind option_bind].
  eexists. split; [done|]. cbn [concat]. rewrite app_nil_r, <- app_assoc. unfold message_apdu, apdu. done.
Qed.

Lemma auth_send_sends session_number id data :
  word id -> zlen data + 2 < 65536 ->
  sends session_number (apdu TAG_AUTH_RESP (be16_bytes id ++ data))
    (en50221_app_auth_send fail send_datav uninit session_number id data (zlen data)).
Proof.
  intros Hid Hl. pose proof (zlen_nonneg data). unfold en50221_app_auth_send.
  rewrite header_encode by lia. cbn [mbind option_bind]. pose proof (asn_field_len (zlen data + 2)).
  rewrite (proj2 (Z.ltb_ge _ _)) by lia. set (h := tag_bytes TAG_AUTH_RESP ++ asn_field (zlen data + 2)).
  assert (Hh : zlen h = 3 + zlen (asn_field (zlen data + 2))) by (unfold h; by rewrite zlen_app).
  rewrite header_put by lia. cbn [mbind option_bind]. rewrite header_put by (rewrite zlen_app; change (zlen [_]) with 1; lia).
  cbn [mbind option_bind]. rewrite <- app_assoc. cbn [app]. rewrite word_bytes by done.
  rewrite header_iov by (rewrite zlen_app; change (zlen (be16_bytes id)) with 2; lia). cbn [mbind option_bind].
  rewrite iov_all. cbn [mbind option_bind]. eexists. split; [done|]. cbn [concat].
  unfold h, apdu. rewrite app_nil_r, <- !app_assoc. do 3 f_equal. rewrite zlen_app. change (zlen (be16_bytes id)) with 2. lia.
Qed.

Lemma ca_pmt_sends session_number ca_pmt :
  zlen ca_pmt < 65536 ->
  sends session_number (apdu TAG_CA_PMT ca_pmt)
    (en50221_app_ca_pmt fail send_datav uninit session_number ca_pmt (zlen ca_pmt)).
Proof.
  intros Hl. pose proof (zlen_nonneg ca_pmt). unfold en50221_app_ca_pmt.
  rewrite header_encode by lia. cbn [mbind option_bind]. pose proof (asn_field_len (zlen ca_pmt)).
  rewrite (proj2 (Z.ltb_ge _ _)) by lia.
  rewrite header_iov; [|by rewrite zlen_app|rewrite zlen_app; change (zlen (tag_bytes TAG_CA_PMT)) with 3; lia].
  cbn [mbind option_bind]. rewrite iov_all. cbn [mbind option_bind]. eexists. split; [done|]. cbn [concat].
  unfold apdu. by rewrite app_nil_r, <- app_assoc.
Qed.

Lemma smartcard_receive_sends session_number data SW1 SW2 :
  byte SW1 -> byte SW2 -> zlen data + 2 < 65536 ->
  sends session_number (apdu TAG_SMARTCARD_RCV (data ++ [SW1; SW2]))
    (en50221_app_smartcard_receive fail send_datav uninit session_number data (zlen data) SW1 SW2).
Proof.
  intros H1 H2 Hl. pose proof (zlen_nonneg data). unfold en50221_app_smartcard_receive.
  rewrite header_encode by lia. cbn [mbind option_bind]. pose proof (asn_field_len (zlen data + 2)).
  rewrite (proj2 (Z.ltb_ge _ _)) by lia.
  rewrite header_iov; [|by rewrite zlen_app|rewrite zlen_app; change (zlen (tag_bytes TAG_SMARTCARD_RCV)) with 3; lia].
  cbn [mbind option_bind]. rewrite iov_all. cbn [mbind option_bind]. eexists. split; [done|]. cbn [concat].
  rewrite !u8_small by done. unfold apdu. by rewrite app_nil_r, <- app_assoc, zlen_app.
Qed.

Lemma epg_enquire_sends session_number command a b c d e :
  byte command -> word a -> word b -> word c -> word d -> word e ->
  en50221_app_epg_enquire send_data session_number command a b c d e =
    send_data session_number (apdu TAG_EPG_ENQUIRY
      ([command] ++ be16_bytes a ++ be16_bytes b ++ be16_bytes c ++ be16_bytes d ++ be16_bytes e)).
Proof.
  intros Hc Ha Hb Hc' Hd He. unfold en50221_app_epg_enquire. rewrite u8_small by apply Hc.
  rewrite <- !word_bytes by done. done.
Qed.
End sent.

(** Sending: with arguments in their ranges and a body that the length field can hold
    (less than 65536 bytes), every sender hands the layer below the APDU of EN 50221 for its
    arguments, in one call; a list of resources goes out as the message that the peer's
    resource manager parses.  No header array is overrun, and what it held before is never
    sent. *)
Theorem en50221_app_senders_correct {R : Type} (fail : R) (send_data : Z -> list Z -> R)
    (send_datav : Z -> list (list Z) -> R) uninit session_number :
  zlen uninit = 10 ->
  en50221_app_rm_enq send_data session_number = send_data session_number (message_apdu MsgProfileEnq) /\
  en50221_app_rm_changed send_data session_number = send_data session_number (message_apdu MsgProfileChange) /\
  en50221_app_ai_enquiry send_data session_number = send_data session_number (apdu TAG_APP_INFO_ENQUIRY []) /\
  en50221_app_ai_entermenu send_data session_number = send_data session_number (apdu TAG_ENTER_MENU []) /\
  en50221_app_ca_info_enq send_data session_number = send_data session_number (apdu TAG_CA_INFO_ENQUIRY []) /\
  en50221_app_dvb_ask_release send_data session_number = send_data session_number (apdu TAG_ASK_RELEASE []) /\
  (forall command a b c d e, byte command -> word a -> word b -> word c -> word d -> word e ->
    en50221_app_epg_enquire send_data session_number command a b c d e =
      send_data session_number (apdu TAG_EPG_ENQUIRY
        ([command] ++ be16_bytes a ++ be16_bytes b ++ be16_bytes c ++ be16_bytes d ++ be16_bytes e))) /\
  (forall ids, Forall (fun x => 0 <= x < 2 ^ 32) ids -> 4 * zlen ids < 65536 ->
    sends send_datav session_number (message_apdu (MsgProfile ids))
      (en50221_app_rm_reply fail send_datav uninit session_number ids)) /\
  (forall id data, word id -> zlen data + 2 < 65536 ->
    sends send_datav session_number (apdu TAG_AUTH_RESP (be16_bytes id ++ data))
      (en50221_app_auth_send fail send_datav uninit session_number id data (zlen data))) /\
  (forall ca_pmt, zlen ca_pmt < 65536 ->
    sends send_datav session_number (apdu TAG_CA_PMT ca_pmt)
      (en50221_app_ca_pmt fail send_datav uninit session_number ca_pmt (zlen ca_pmt))) /\
  (forall data SW1 SW2, byte SW1 -> byte SW2 -> zlen data + 2 < 65536 ->
    sends send_datav session_number (apdu TAG_SMARTCARD_RCV (data ++ [SW1; SW2]))
      (en50221_app_smartcard_receive fail send_datav uninit session_number data (zlen data) SW1 SW2)).
Proof.
  intros Hu. do 6 (split; [done|]). split; [intros; by apply epg_enquire_sends|].
  split; [intros; by apply rm_reply_sends|]. split; [intros; by apply auth_send_sends|].
  split; intros; [by apply ca_pmt_sends|by apply smartcard_receive_sends].
Qed.

(** Resource identifiers are decoded to what they were made of, private ones apart. *)
Lemma decode_public_resource_id_MKRID class type version :
  0 <= class < 0xc000 -> 0 <= type < 1024 -> 0 <= version < 64 ->
  en50221_app_decode_public_resource_id (MKRID class type version) = Some (PublicResourceId class type version).
Proof.
  intros Hc Ht Hv. unfold MKRID. change 0xffff with (2 ^ 16 - 1). change 0x3ff with (2 ^ 10 - 1). change 0x3f with (2 ^ 6 - 1).
  rewrite !land_ones_mod, !Z.mod_small, !Z.shiftl_mul_pow2 by lia. rewrite lor_mul_add by lia.
  replace (class * 2 ^ 16 + type * 2 ^ 6) with ((class * 2 ^ 10 + type) * 2 ^ 6) by lia. rewrite lor_mul_add by lia.
  set (rid := (class * 2 ^ 10 + type) * 2 ^ 6 + version). unfold en50221_app_decode_public_resource_id.
  change 0xffff with (2 ^ 16 - 1). change 0x3ff with (2 ^ 10 - 1). change 0x3f with (2 ^ 6 - 1).
  rewrite !land_ones_mod, !Z.shiftr_div_pow2 by lia.
  assert (Hp : Z.land rid 0xc0000000 = 2 ^ 30 * Z.land (rid / 2 ^ 30) 3).
  { change 0xc0000000 with (Z.shiftl 3 30). rewrite <- Z.shiftr_div_pow2, (Z.mul_comm (2 ^ 30)), <- Z.shiftl_mul_pow2 by lia.
    apply Z.bits_inj'. intros i Hi. rewrite Z.land_spec. destruct (Z.lt_ge_cases i 30).
    - rewrite !Z.shiftl_spec_low by lia. apply andb_false_r.
    - rewrite !Z.shiftl_spec, Z.land_spec, Z.shiftr_spec by lia. f_equal. f_equal. lia. }
  assert (Hq : 0 <= rid / 2 ^ 30 < 3) by (unfold rid; lia).
  rewrite Hp. change 3 with (2 ^ 2 - 1). rewrite land_ones_mod by lia. rewrite (proj2 (Z.eqb_neq _ _)) by lia.
  do 2 f_equal; unfold rid; lia.
Qed.

(** ** Runs *)

(** An application that returns the first resource of a list it is told. *)
Definition demo_callback : callback := fun _ _ ev => match ev with RmReply _ ids => rd32 ids | _ => mret 0 end.
Definition demo_rm : app_resource := RmOf (AppRm None (Some demo_callback) None).

Lemma en50221_app_message_delivered_witness :
  handler demo_rm 1 2 0x10041 1 12 ([7] ++ message_apdu (MsgProfile [0x10041; 0x20041]) ++ [8]) =
    Ret 0x10041 [7; 0x9f; 0x80; 0x11; 8; 0x41; 0; 1; 0; 0x41; 0; 2; 0; 8].
Proof.
  refine (eq_trans (en50221_app_message_delivered demo_rm (MsgProfile [0x10041; 0x20041]) (Some demo_callback) 1 2 0x10041
    [7] [8] eq_refl _ _ _) _).
  - split; [done|]. split; [by apply (bool_decide_unpack _)|]. by apply (bool_decide_unpack _).
  - by apply (bool_decide_unpack _).
  - by apply (bool_decide_unpack _).
  - vm_compute. reflexivity.
Defined.

Definition demo_ca : app_resource := CaOf (AppCa None (Some (fun _ _ _ => mret 1))).
(** A reply with one stream, in front of another byte. *)
Definition demo_reply : mem := [0x9f; 0x80; 0x33; 7; 1; 0; 0xc3; 0x81; 0xe1; 1; 0x81; 0xee].
Lemma en50221_app_message_safe_witness :
  exists m', same_outside 0 11 demo_reply m' /\
    (handler demo_ca 0 1 0x30041 0 11 demo_reply = Ret (-1) m' \/
     exists cb ev, cb ∈ callbacks demo_ca /\ event_within 0 11 ev /\
       handler demo_ca 0 1 0x30041 0 11 demo_reply = tell cb 0 1 ev m').
Proof.
  apply (en50221_app_message_safe demo_ca 0 1 0x30041 0 11 demo_reply).
  - by apply (bool_decide_unpack _).
  - lia.
  - lia.
  - done.
  - intros k n E. vm_compute in E. injection E as <- <-. done.
Defined.

Lemma en50221_app_senders_correct_witness :
  sends (fun _ v => v) 5 (message_apdu (MsgProfile [0x10041]))
    (en50221_app_rm_reply [] (fun _ v => v) (replicate 10 0xee) 5 [0x10041]).
Proof.
  destruct (en50221_app_senders_correct (R := list (list Z)) [] (fun _ l => [l]) (fun _ v => v) (replicate 10 0xee) 5 eq_refl)
    as (_ & _ & _ & _ & _ & _ & _ & H & _).
  apply H; [by apply (bool_decide_unpack _)|done].
Defined.

(** A reply cut after the first byte of a stream: that byte is swapped with the one behind
    the reply, and a buffer that ends with the reply is left. *)
Example ca_reply_overrun :
  handler demo_ca 0 1 0x30041 0 9 [0x9f; 0x80; 0x33; 5; 1; 0; 0xc3; 0x81; 0xe1; 0xee] =
    Ret 1 [0x9f; 0x80; 0x33; 5; 0; 1; 0xc3; 0x81; 0xee; 0xe1] /\
  handler demo_ca 0 1 0x30041 0 9 [0x9f; 0x80; 0x33; 5; 1; 0; 0xc3; 0x81; 0xe1] = Fault.
Proof. vm_compute. done. Qed.

(** The answer to a reset: the length field goes over the fourth byte of the answer, and the
    header is sent without one; any other reply is six bytes of [data], not the header. *)
Example smartcard_command_reply_wrong :
  en50221_app_smartcard_command_reply [] (fun _ v => v) (replicate 10 0xee) 5 4 1 [0x3b; 0x10; 0x11; 0x12; 0x13; 0x14] 6 =
    Some ([[0x9f; 0x8e; 0x01; 0xee; 4; 1]; [0x3b; 0x10; 0x11; 8; 0x13; 0x14]], [0x3b; 0x10; 0x11; 8; 0x13; 0x14]) /\
  en50221_app_smartcard_command_reply [] (fun _ v => v) (replicate 10 0xee) 5 1 1 [] 0 = None.
Proof. vm_compute. done. Qed.
