(* ===== verification/DvbCa.v ===== *)
(** * DvbCa: the CA interface of the kernel, dvb-core/dvb_ca_en50221.c

    The state of the interface and its slots, the link layer over the registers of a
    CAM, the interrupt handlers and the thread that watches the slots.  What the card
    and the kernel answer is the class [ca_system]: the callbacks of [struct
    dvb_ca_en50221], the clock, the allocator and the copies from and to user space,
    over a state of their own.  The monad is that of CaLink.v; the values written to the
    registers are kept in its log, as the slot and the address and the value.  Tasks
    interleave where this code sleeps: what the others do meanwhile is [others]. *)

From S2P Require Import Prelude Asn1 CaLink DvbRingbuffer.

Definition EIO : Z := 5.
Definition EAGAIN : Z := 11.
Definition ENOMEM : Z := 12.
Definition ENODEV : Z := 19.
Definition ETIMEDOUT : Z := 110.
Definition ERESTARTSYS : Z := 512.

Definition DVB_CA_EN50221_POLL_CAM_PRESENT : Z := 1.
Definition DVB_CA_EN50221_POLL_CAM_CHANGED : Z := 2.
Definition DVB_CA_EN50221_POLL_CAM_READY : Z := 4.
Definition DVB_CA_EN50221_FLAG_IRQ_CAMCHANGE : Z := 1.
Definition DVB_CA_EN50221_FLAG_IRQ_DA : Z := 4.
Definition DVB_CA_EN50221_CAMCHANGE_REMOVED : Z := 0.
Definition DVB_CA_EN50221_CAMCHANGE_INSERTED : Z := 1.

Definition INIT_TIMEOUT_SECS : Z := 10.
Definition HOST_LINK_BUF_SIZE : Z := 0x200.
Definition RX_BUFFER_SIZE : Z := 65535.
Definition MAX_RX_PACKETS_PER_ITERATION : nat := 10.

Definition CTRLIF_DATA : Z := 0.
Definition CTRLIF_COMMAND : Z := 1.
Definition CTRLIF_STATUS : Z := 1.
Definition CTRLIF_SIZE_LOW : Z := 2.
Definition CTRLIF_SIZE_HIGH : Z := 3.

Definition CMDREG_HC : Z := 1.
Definition CMDREG_SW : Z := 2.
Definition CMDREG_SR : Z := 4.
Definition CMDREG_RS : Z := 8.
Definition CMDREG_DAIE : Z := 0x80.
Definition IRQEN : Z := CMDREG_DAIE.

Definition STATUSREG_RE : Z := 1.
Definition STATUSREG_WE : Z := 2.
Definition STATUSREG_FR : Z := 0x40.
Definition STATUSREG_DA : Z := 0x80.

Definition DVB_CA_SLOTSTATE_NONE : Z := 0.
Definition DVB_CA_SLOTSTATE_UNINITIALISED : Z := 1.
Definition DVB_CA_SLOTSTATE_RUNNING : Z := 2.
Definition DVB_CA_SLOTSTATE_INVALID : Z := 3.
Definition DVB_CA_SLOTSTATE_WAITREADY : Z := 4.
Definition DVB_CA_SLOTSTATE_VALIDATE : Z := 5.
Definition DVB_CA_SLOTSTATE_WAITFR : Z := 6.
Definition DVB_CA_SLOTSTATE_LINKINIT : Z := 7.

(** [rx_buffer] is [None] while its [data] is null. *)
Record dvb_ca_slot := CaSlot {
  slot_state : Z;
  slot_lock : bool;
  camchange_count : Z;
  camchange_type : Z;
  config_base : Z;
  config_option : Z;
  da_irq_supported : bool;
  link_buf_size : Z;
  rx_buffer : option dvb_ringbuffer;
  timeout : Z }.

(** The device node: how many more files may open it. *)
Record dvb_device := DvbDevice { users : Z; readers : Z; writers : Z }.

(** [wait_queue] counts the calls that wake up the readers. *)
Record dvb_ca_private := CaPrivate {
  dvbdev : dvb_device;
  flags : Z;
  slot_count : Z;
  slot_info : list dvb_ca_slot;
  wait_queue : Z;
  open : bool;
  wakeup : bool;
  delay : Z;
  next_read_slot : Z;
  ioctl_mutex : bool }.

(** Assignments to the fields. *)
Definition set_slot_state (v : Z) (s : dvb_ca_slot) : dvb_ca_slot :=
  CaSlot v (slot_lock s) (camchange_count s) (camchange_type s) (config_base s) (config_option s)
    (da_irq_supported s) (link_buf_size s) (rx_buffer s) (timeout s).
Definition set_slot_lock (v : bool) (s : dvb_ca_slot) : dvb_ca_slot :=
  CaSlot (slot_state s) v (camchange_count s) (camchange_type s) (config_base s) (config_option s)
    (da_irq_supported s) (link_buf_size s) (rx_buffer s) (timeout s).
Definition set_camchange (count type : Z) (s : dvb_ca_slot) : dvb_ca_slot :=
  CaSlot (slot_state s) (slot_lock s) count type (config_base s) (config_option s)
    (da_irq_supported s) (link_buf_size s) (rx_buffer s) (timeout s).
Definition set_config (base option : Z) (s : dvb_ca_slot) : dvb_ca_slot :=
  CaSlot (slot_state s) (slot_lock s) (camchange_count s) (camchange_type s) base option
    (da_irq_supported s) (link_buf_size s) (rx_buffer s) (timeout s).
Definition set_da_irq (v : bool) (s : dvb_ca_slot) : dvb_ca_slot :=
  CaSlot (slot_state s) (slot_lock s) (camchange_count s) (camchange_type s) (config_base s) (config_option s)
    v (link_buf_size s) (rx_buffer s) (timeout s).
Definition set_link_buf_size (v : Z) (s : dvb_ca_slot) : dvb_ca_slot :=
  CaSlot (slot_state s) (slot_lock s) (camchange_count s) (camchange_type s) (config_base s) (config_option s)
    (da_irq_supported s) v (rx_buffer s) (timeout s).
Definition set_rx_buffer (v : option dvb_ringbuffer) (s : dvb_ca_slot) : dvb_ca_slot :=
  CaSlot (slot_state s) (slot_lock s) (camchange_count s) (camchange_type s) (config_base s) (config_option s)
    (da_irq_supported s) (link_buf_size s) v (timeout s).
Definition set_timeout (v : Z) (s : dvb_ca_slot) : dvb_ca_slot :=
  CaSlot (slot_state s) (slot_lock s) (camchange_count s) (camchange_type s) (config_base s) (config_option s)
    (da_irq_supported s) (link_buf_size s) (rx_buffer s) v.

Definition set_slot_info (l : list dvb_ca_slot) (c : dvb_ca_private) : dvb_ca_private :=
  CaPrivate (dvbdev c) (flags c) (slot_count c) l (wait_queue c) (open c) (wakeup c) (delay c)
    (next_read_slot c) (ioctl_mutex c).
Definition set_dvbdev (v : dvb_device) (c : dvb_ca_private) : dvb_ca_private :=
  CaPrivate v (flags c) (slot_count c) (slot_info c) (wait_queue c) (open c) (wakeup c) (delay c)
    (next_read_slot c) (ioctl_mutex c).
Definition wake_up_interruptible (c : dvb_ca_private) : dvb_ca_private :=
  CaPrivate (dvbdev c) (flags c) (slot_count c) (slot_info c) (wait_queue c + 1) (open c) (wakeup c) (delay c)
    (next_read_slot c) (ioctl_mutex c).
Definition set_open (v : bool) (c : dvb_ca_private) : dvb_ca_private :=
  CaPrivate (dvbdev c) (flags c) (slot_count c) (slot_info c) (wait_queue c) v (wakeup c) (delay c)
    (next_read_slot c) (ioctl_mutex c).
Definition set_wakeup (v : bool) (c : dvb_ca_private) : dvb_ca_private :=
  CaPrivate (dvbdev c) (flags c) (slot_count c) (slot_info c) (wait_queue c) (open c) v (delay c)
    (next_read_slot c) (ioctl_mutex c).
Definition set_delay (v : Z) (c : dvb_ca_private) : dvb_ca_private :=
  CaPrivate (dvbdev c) (flags c) (slot_count c) (slot_info c) (wait_queue c) (open c) (wakeup c) v
    (next_read_slot c) (ioctl_mutex c).
Definition set_next_read_slot (v : Z) (c : dvb_ca_private) : dvb_ca_private :=
  CaPrivate (dvbdev c) (flags c) (slot_count c) (slot_info c) (wait_queue c) (open c) (wakeup c) (delay c)
    v (ioctl_mutex c).
Definition set_ioctl_mutex (v : bool) (c : dvb_ca_private) : dvb_ca_private :=
  CaPrivate (dvbdev c) (flags c) (slot_count c) (slot_info c) (wait_queue c) (open c) (wakeup c) (delay c)
    (next_read_slot c) v.

(** What the interface calls: the callbacks of the driver of the card, and the kernel.
    [poll_slot_status] may be null.  [sys_poll_bound] is used by no code: it bounds how
    often in a row the card reports a change. *)
Class ca_system (HW : Type) := {
  sys_read_attribute_mem : Z -> Z -> HW -> Z * HW;
  sys_write_attribute_mem : Z -> Z -> Z -> HW -> Z * HW;
  sys_read_cam_control : Z -> Z -> HW -> Z * HW;
  sys_write_cam_control : Z -> Z -> Z -> HW -> Z * HW;
  sys_slot_reset : Z -> HW -> Z * HW;
  sys_slot_shutdown : Z -> HW -> Z * HW;
  sys_slot_ts_enable : Z -> HW -> Z * HW;
  sys_poll_slot_status : option (Z -> bool -> HW -> Z * HW);
  sys_jiffies : HW -> Z * HW;
  sys_vmalloc : Z -> HW -> option (list Z) * HW;
  sys_interrupted : HW -> bool * HW;
  sys_try_module_get : HW -> bool * HW;
  sys_copy_from_user : list Z -> Z;
  sys_copy_to_user : list Z -> Z;
  sys_poll_bound : HW -> nat }.

(** The interface and its surroundings. *)
Record ca_state (HW : Type) := CaState { ca : dvb_ca_private; hw : HW }.
Arguments CaState {HW} _ _.
Arguments ca {HW} _.
Arguments hw {HW} _.

(** Equality of [n] characters that both strings have, up to a zero in both. *)
Fixpoint strncmp_eq (a b : list Z) (n : nat) : bool :=
  match n with
  | O => true
  | S n =>
      let x := default 0 (head a) in let y := default 0 (head b) in
      if negb (x =? y) then false else if x =? 0 then true else strncmp_eq (tail a) (tail b) n
  end.

(** The loop of [findstr] from [i]; the result is an offset into [haystack]. *)
Fixpoint findstr_loop (n : nat) (i : Z) (haystack needle : list Z) (nlen : Z) : option Z :=
  match n with
  | O => None
  | S n =>
      if strncmp_eq (zdrop i haystack) needle (Z.to_nat nlen) then Some i
      else findstr_loop n (i + 1) haystack needle nlen
  end.
Definition findstr (haystack : list Z) (hlen : Z) (needle : list Z) (nlen : Z) : option Z :=
  if hlen <? nlen then None else findstr_loop (Z.to_nat (hlen - nlen + 1)) 0 haystack needle nlen.

(** "DVB_CI_V", "1.00", "DVB_HOST" and "DVB_CI_MODULE". *)
Definition str_DVB_CI_V : list Z := [68; 86; 66; 95; 67; 73; 95; 86].
Definition str_1_00 : list Z := [49; 46; 48; 48].
Definition str_DVB_HOST : list Z := [68; 86; 66; 95; 72; 79; 83; 84].
Definition str_DVB_CI_MODULE : list Z := [68; 86; 66; 95; 67; 73; 95; 77; 79; 68; 85; 76; 69].

(** [time_after(a, b)] on an [unsigned long] of 64 bits. *)
Definition jiffies_after (a b : Z) : bool := 2 ^ 63 <=? u64 (b - a).

(** [if (v & mask)] *)
Definition bit (v mask : Z) : bool := negb (Z.land v mask =? 0).

Section interface.
Context {HW : Type} `{sys : ca_system HW} (HZ : Z) (others : ca_state HW -> ca_state HW).

Abbreviation M := (T (ca_state HW)).

(** ** Access to the state and the surroundings *)

Definition get_ca : M dvb_ca_private := s ← get; mret (ca s).
Definition mod_ca (f : dvb_ca_private -> dvb_ca_private) : M unit :=
  modify (fun s => CaState (f (ca s)) (hw s)).
Definition upd_ca (f : dvb_ca_private -> option dvb_ca_private) : M unit :=
  update (fun s => c ← f (ca s); Some (CaState c (hw s))).

(** An access to a slot that does not exist leaves the array. *)
Definition slot_at (c : dvb_ca_private) (slot : Z) : option dvb_ca_slot :=
  if decide (0 <= slot) then slot_info c !! Z.to_nat slot else None.
Definition alter_slot (slot : Z) (f : dvb_ca_slot -> option dvb_ca_slot) (c : dvb_ca_private) :
    option dvb_ca_private :=
  s ← slot_at c slot; s ← f s; Some (set_slot_info (<[Z.to_nat slot := s]> (slot_info c)) c).
Definition get_slot (slot : Z) : M dvb_ca_slot := c ← get_ca; lift (slot_at c slot).
Definition mod_slot (slot : Z) (f : dvb_ca_slot -> dvb_ca_slot) : M unit :=
  upd_ca (alter_slot slot (fun s => Some (f s))).

(** A task that locks a mutex it holds waits for ever. *)
Definition slot_mutex_lock (slot : Z) : M unit :=
  upd_ca (alter_slot slot (fun s => if slot_lock s then None else Some (set_slot_lock true s))).
Definition slot_mutex_unlock (slot : Z) : M unit := mod_slot slot (set_slot_lock false).

Definition sys_call {A} (f : HW -> A * HW) : M A := fun w =>
  let '(a, h) := f (hw (w_st w)) in Some (a, World (CaState (ca (w_st w)) h) (w_tick w) (w_sent w)).

Definition read_attribute_mem (slot address : Z) : M Z := sys_call (sys_read_attribute_mem slot address).
Definition write_attribute_mem (slot address value : Z) : M Z :=
  sys_call (sys_write_attribute_mem slot address value).
Definition read_cam_control (slot address : Z) : M Z := sys_call (sys_read_cam_control slot address).
Definition write_cam_control (slot address value : Z) : M Z :=
  sent slot [address; u8 value];; sys_call (sys_write_cam_control slot address (u8 value)).
Definition poll_slot_status (slot : Z) (op : bool) : M Z :=
  match sys_poll_slot_status with Some f => sys_call (f slot op) | None => stuck end.
Definition jiffies : M Z := sys_call sys_jiffies.
(** [msleep(1)], or any other wait. *)
Definition msleep : M unit := modify others.

(** ** Physical interface *)

Definition dvb_ca_en50221_thread_wakeup : M unit := mod_ca (set_wakeup true).

Definition dvb_ca_en50221_check_camstatus (slot : Z) : M bool :=
  c ← get_ca;
  if bit (flags c) DVB_CA_EN50221_FLAG_IRQ_CAMCHANGE then
    s ← get_slot slot; mret (negb (camchange_count s =? 0))
  else
  slot_status ← poll_slot_status slot (open c);
  let cam_present_now := bit slot_status DVB_CA_EN50221_POLL_CAM_PRESENT in
  s ← get_slot slot;
  let cam_changed :=
    if bit slot_status DVB_CA_EN50221_POLL_CAM_CHANGED then true
    else let cam_present_old := negb (slot_state s =? DVB_CA_SLOTSTATE_NONE) in
         negb (eqb cam_present_now cam_present_old) in
  if cam_changed then
    mod_slot slot (set_camchange 1 (if cam_present_now then DVB_CA_EN50221_CAMCHANGE_INSERTED
                                    else DVB_CA_EN50221_CAMCHANGE_REMOVED));;
    mret true
  else
    (if (slot_state s =? DVB_CA_SLOTSTATE_WAITREADY) && bit slot_status DVB_CA_EN50221_POLL_CAM_READY then
       mod_slot slot (set_slot_state DVB_CA_SLOTSTATE_VALIDATE)
     else mret tt);;
    mret false.

(** The loop that polls the status register; [timeout_hz] turns suffice, as each sleeps. *)
Fixpoint wait_loop (fuel : nat) (slot waitfor until : Z) : M Z :=
  match fuel with
  | O => stuck
  | S fuel =>
      res ← read_cam_control slot CTRLIF_STATUS;
      if res <? 0 then mret (- EIO) else
      if bit res waitfor then mret 0 else
      now ← jiffies;
      if jiffies_after now until then mret (- ETIMEDOUT) else
      msleep;;
      wait_loop fuel slot waitfor until
  end.
Definition dvb_ca_en50221_wait_if_status (slot waitfor timeout_hz : Z) : M Z :=
  start ← jiffies;
  now ← jiffies;
  wait_loop (Z.to_nat (timeout_hz + 2)) slot waitfor (u64 (now + timeout_hz)).

(** A tuple of attribute memory: the status, the address behind it, its type, its length
    and the tuple buffer. *)
Fixpoint tuple_loop (n : nat) (i slot address : Z) (tuple : list Z) : M (list Z) :=
  match n with
  | O => mret tuple
  | S n =>
      v ← read_attribute_mem slot (address + i * 2);
      tuple ← lift (put8 tuple i v);
      tuple_loop n (i + 1) slot address tuple
  end.
Record tuple_result := TupleResult { t_status : Z; t_address : Z; t_type : Z; t_length : Z; t_tuple : list Z }.
Definition dvb_ca_en50221_read_tuple (slot : Z) (r : tuple_result) : M tuple_result :=
  let failed status := TupleResult status (t_address r) (t_type r) (t_length r) (t_tuple r) in
  type ← read_attribute_mem slot (t_address r);
  if type <? 0 then mret (failed type) else
  if type =? 0xff then mret (TupleResult 0 (t_address r + 2) type 0 (t_tuple r)) else
  len ← read_attribute_mem slot (t_address r + 2);
  if len <? 0 then mret (failed len) else
  let address := t_address r + 4 in
  tuple ← tuple_loop (Z.to_nat len) 0 slot address (t_tuple r);
  mret (TupleResult 0 (address + len * 2) type len tuple).

(** [config_base |= tuple[2 + i] << (8 * i)] *)
Fixpoint config_base_loop (n : nat) (i base : Z) (tuple : list Z) : option Z :=
  match n with
  | O => Some base
  | S n => v ← zget tuple (2 + i); config_base_loop n (i + 1) (u32 (Z.lor base (Z.shiftl v (8 * i)))) tuple
  end.

(** The tuples from the first [CFTABLE_ENTRY] on; an error status, or whether an entry was
    found and the last address. *)
Fixpoint cftable_loop (fuel : nat) (slot : Z) (got : bool) (r : tuple_result) : M (Z * bool * Z) :=
  if t_address r <? 0x1000 then
    match fuel with
    | O => stuck
    | S fuel =>
        r ← dvb_ca_en50221_read_tuple slot r;
        if t_status r <? 0 then mret (t_status r, got, t_address r) else
        if t_type r =? 0x1B then
          if t_length r <? 2 + 11 + 17 then cftable_loop fuel slot got r else
          if got then cftable_loop fuel slot got r else
          v ← lift (zget (t_tuple r) 0);
          mod_slot slot (fun s => set_config (config_base s) (Z.land v 0x3f) s);;
          match findstr (t_tuple r) (t_length r) str_DVB_HOST 8,
                findstr (t_tuple r) (t_length r) str_DVB_CI_MODULE 13 with
          | Some _, Some _ => cftable_loop fuel slot true r
          | _, _ => cftable_loop fuel slot got r
          end
        else if t_type r =? 0xFF then mret (0, got, t_address r)
        else cftable_loop fuel slot got r
    end
  else mret (0, got, t_address r).

(** A tuple that must have the given type; the continuation gets it. *)
Definition expect_tuple (slot type : Z) (r : tuple_result) (k : tuple_result -> M Z) : M Z :=
  r ← dvb_ca_en50221_read_tuple slot r;
  if t_status r <? 0 then mret (t_status r) else
  if negb (t_type r =? type) then mret (- EINVAL) else k r.

(** [tuple0] is the uninitialised buffer on the stack. *)
Definition dvb_ca_en50221_parse_attributes (tuple0 : list Z) (slot : Z) : M Z :=
  expect_tuple slot 0x1D (TupleResult 0 0 0 0 tuple0) (fun r =>
  expect_tuple slot 0x1C r (fun r =>
  expect_tuple slot 0x15 r (fun r =>
  expect_tuple slot 0x20 r (fun r =>
  if negb (t_length r =? 4) then mret (- EINVAL) else
  expect_tuple slot 0x1A r (fun r =>
  let tuple := t_tuple r in
  let tupleLength := t_length r in
  if tupleLength <? 3 then mret (- EINVAL) else
  v ← lift (zget tuple 0);
  let rasz := Z.land v 3 in
  if tupleLength <? 3 + rasz + 14 then mret (- EINVAL) else
  base ← lift (config_base_loop (Z.to_nat (rasz + 1)) 0 0 tuple);
  mod_slot slot (fun s => set_config base (config_option s) s);;
  match findstr tuple tupleLength str_DVB_CI_V 8 with
  | None => mret (- EINVAL)
  | Some dvb_str =>
      if tupleLength <? dvb_str + 12 then mret (- EINVAL) else
      if negb (strncmp_eq (zdrop (dvb_str + 8) tuple) str_1_00 4) then mret (- EINVAL) else
      '(status, got_cftableentry, address) ← cftable_loop 0x1000 slot false r;
      if status <? 0 then mret status else
      if (0x1000 <? address) || negb got_cftableentry then mret (- EINVAL) else mret 0
  end))))).

Definition dvb_ca_en50221_set_configoption (slot : Z) : M Z :=
  s ← get_slot slot;
  write_attribute_mem slot (config_base s) (config_option s);;
  read_attribute_mem slot (config_base s);;
  mret 0.

(** ** Link layer *)

(** [buf[i] = read_cam_control(.., CTRLIF_DATA)]; the status that ended the loop, if one did. *)
Fixpoint fill_loop (n : nat) (i slot : Z) (buf : list Z) : M (option Z * list Z) :=
  match n with
  | O => mret (None, buf)
  | S n =>
      status ← read_cam_control slot CTRLIF_DATA;
      if status <? 0 then mret (Some status, buf) else
      buf ← lift (put8 buf i status);
      fill_loop n (i + 1) slot buf
  end.

(** [ebuf] is null or the memory it points to, which is returned; [buf0] is the
    uninitialised buffer on the stack. *)
Definition dvb_ca_en50221_read_data (buf0 : list Z) (slot : Z) (ebuf : option (list Z)) (ecount : Z) :
    M (Z * option (list Z)) :=
  s ← get_slot slot;
  let exit status := mret (status, ebuf) in
  let no_room := match ebuf, rx_buffer s with
    | None, None => Some (- EIO)
    | None, Some rx =>
        if dvb_ringbuffer_free rx <? link_buf_size s + DVB_RINGBUFFER_PKTHDRSIZE then Some (- EAGAIN) else None
    | Some _, _ => None
    end in
  match no_room with Some status => exit status | None =>
  status ← read_cam_control slot CTRLIF_STATUS;
  if status <? 0 then exit status else
  if negb (bit status STATUSREG_DA) then exit 0 else
  high ← read_cam_control slot CTRLIF_SIZE_HIGH;
  if high <? 0 then exit high else
  low ← read_cam_control slot CTRLIF_SIZE_LOW;
  if low <? 0 then exit low else
  let bytes_read := Z.lor (s32 (Z.shiftl high 8)) low in
  match ebuf with
  | None =>
      if (link_buf_size s <? bytes_read) || (bytes_read <? 2) then
        mod_slot slot (set_slot_state DVB_CA_SLOTSTATE_LINKINIT);;
        exit (- EIO)
      else mret (0, None)
  | Some _ => if ecount <? bytes_read then exit (- EIO) else mret (0, ebuf)
  end ≫= fun '(status, _) =>
  if status <? 0 then exit status else
  '(err, buf) ← fill_loop (Z.to_nat bytes_read) 0 slot buf0;
  match err with Some status => exit status | None =>
  status ← read_cam_control slot CTRLIF_STATUS;
  if status <? 0 then exit status else
  if bit status STATUSREG_RE then
    mod_slot slot (set_slot_state DVB_CA_SLOTSTATE_LINKINIT);;
    exit (- EIO)
  else
  match ebuf with
  | None =>
      s ← get_slot slot;
      match rx_buffer s with
      | None => mret (- EIO, None)
      | Some rx =>
          if decide (0 <= bytes_read <= zlen buf) then
            '(_, rx) ← lift (dvb_ringbuffer_pkt_write rx (ztake bytes_read buf));
            mod_slot slot (set_rx_buffer (Some rx));;
            mret (0, None)
          else stuck
      end
  | Some dst =>
      if decide (0 <= bytes_read <= zlen buf) then
        dst ← lift (copy_to dst 0 (ztake bytes_read buf)); mret (0, Some dst)
      else stuck
  end ≫= fun '(status, ebuf) =>
  if status <? 0 then mret (status, ebuf) else
  b ← lift (zget buf 1);
  (if Z.land b 0x80 =? 0 then mod_ca wake_up_interruptible else mret tt);;
  mret (bytes_read, ebuf)
  end
  end.

(** The bytes to the data register; the first status that is not 0 ends the loop. *)
Fixpoint send_loop (n : nat) (i slot : Z) (buf : list Z) : M Z :=
  match n with
  | O => mret 0
  | S n =>
      b ← lift (zget buf i);
      status ← write_cam_control slot CTRLIF_DATA b;
      if negb (status =? 0) then mret status else send_loop n (i + 1) slot buf
  end.

(** [if ((status = call) != 0) goto exit;] *)
Definition or_exit (c : M Z) (k : M Z) : M Z :=
  status ← c; if negb (status =? 0) then mret status else k.

Definition write_data_body (slot : Z) (buf : list Z) (bytes_write : Z) : M Z :=
  or_exit (write_cam_control slot CTRLIF_COMMAND (Z.lor IRQEN CMDREG_HC)) (
  status ← read_cam_control slot CTRLIF_STATUS;
  if status <? 0 then mret status else
  if negb (bit status STATUSREG_FR) then mret (- EAGAIN) else
  or_exit (write_cam_control slot CTRLIF_SIZE_HIGH (Z.shiftr bytes_write 8)) (
  or_exit (write_cam_control slot CTRLIF_SIZE_LOW (Z.land bytes_write 0xff)) (
  or_exit (send_loop (Z.to_nat bytes_write) 0 slot buf) (
  status ← read_cam_control slot CTRLIF_STATUS;
  if status <? 0 then mret status else
  if bit status STATUSREG_WE then
    mod_slot slot (set_slot_state DVB_CA_SLOTSTATE_LINKINIT);;
    mret (- EIO)
  else mret bytes_write)))).

Definition dvb_ca_en50221_write_data (slot : Z) (buf : list Z) (bytes_write : Z) : M Z :=
  s ← get_slot slot;
  if link_buf_size s <? bytes_write then mret (- EINVAL) else
  status ← read_cam_control slot CTRLIF_STATUS;
  if status <? 0 then mret status else
  if bit status (Z.lor STATUSREG_DA STATUSREG_RE) then
    (if bit status STATUSREG_DA then dvb_ca_en50221_thread_wakeup else mret tt);;
    mret (- EAGAIN)
  else
  status ← write_data_body slot buf bytes_write;
  write_cam_control slot CTRLIF_COMMAND IRQEN;;
  mret status.

(** [buf0] and [stack] are the uninitialised buffers of this function and of [read_data]. *)
Definition dvb_ca_en50221_link_init (buf0 stack : list Z) (slot : Z) : M Z :=
  mod_slot slot (fun s => set_link_buf_size 2 (set_da_irq false s));;
  or_exit (write_cam_control slot CTRLIF_COMMAND (Z.lor IRQEN CMDREG_SR)) (
  or_exit (dvb_ca_en50221_wait_if_status slot STATUSREG_DA (HZ / 10)) (
  '(ret, buf) ← dvb_ca_en50221_read_data stack slot (Some buf0) 2;
  if negb (ret =? 2) then mret (- EIO) else
  or_exit (write_cam_control slot CTRLIF_COMMAND IRQEN) (
  buf ← lift buf;
  b0 ← lift (zget buf 0);
  b1 ← lift (zget buf 1);
  let buf_size := Z.lor (Z.shiftl b0 8) b1 in
  let buf_size := if HOST_LINK_BUF_SIZE <? buf_size then HOST_LINK_BUF_SIZE else buf_size in
  mod_slot slot (set_link_buf_size buf_size);;
  let buf := [u8 (Z.shiftr buf_size 8); u8 (Z.land buf_size 0xff)] in
  or_exit (write_cam_control slot CTRLIF_COMMAND (Z.lor IRQEN CMDREG_SW)) (
  or_exit (dvb_ca_en50221_wait_if_status slot STATUSREG_FR (HZ / 10)) (
  ret ← dvb_ca_en50221_write_data slot buf 2;
  if negb (ret =? 2) then mret (- EIO) else
  write_cam_control slot CTRLIF_COMMAND IRQEN))))).

Definition dvb_ca_en50221_slot_shutdown (slot : Z) : M Z :=
  sys_call (sys_slot_shutdown slot);;
  mod_slot slot (set_slot_state DVB_CA_SLOTSTATE_NONE);;
  mod_ca wake_up_interruptible;;
  mret 0.

(** ** Interrupts *)

Definition dvb_ca_en50221_camchange_irq (slot change_type : Z) : M unit :=
  if (change_type =? DVB_CA_EN50221_CAMCHANGE_REMOVED) || (change_type =? DVB_CA_EN50221_CAMCHANGE_INSERTED) then
    mod_slot slot (fun s => set_camchange (s32 (camchange_count s + 1)) change_type s);;
    dvb_ca_en50221_thread_wakeup
  else mret tt.

Definition dvb_ca_en50221_camready_irq (slot : Z) : M unit :=
  s ← get_slot slot;
  if slot_state s =? DVB_CA_SLOTSTATE_WAITREADY then
    mod_slot slot (set_slot_state DVB_CA_SLOTSTATE_VALIDATE);;
    dvb_ca_en50221_thread_wakeup
  else mret tt.

Definition dvb_ca_en50221_frda_irq (slot : Z) : M unit :=
  s ← get_slot slot;
  if slot_state s =? DVB_CA_SLOTSTATE_LINKINIT then
    status ← read_cam_control slot CTRLIF_STATUS;
    if bit status STATUSREG_DA then mod_slot slot (set_da_irq true) else mret tt
  else if slot_state s =? DVB_CA_SLOTSTATE_RUNNING then
    c ← get_ca;
    if open c then dvb_ca_en50221_thread_wakeup else mret tt
  else mret tt.

(** ** The thread *)

(** How long the thread may sleep on account of one slot. *)
Definition slot_delay (c : dvb_ca_private) (s : dvb_ca_slot) : Z :=
  let irq_camchange := bit (flags c) DVB_CA_EN50221_FLAG_IRQ_CAMCHANGE in
  let st := slot_state s in
  if st =? DVB_CA_SLOTSTATE_INVALID then
    if irq_camchange then HZ * 60 else HZ / 10
  else if (st =? DVB_CA_SLOTSTATE_UNINITIALISED) || (st =? DVB_CA_SLOTSTATE_WAITREADY) ||
          (st =? DVB_CA_SLOTSTATE_VALIDATE) || (st =? DVB_CA_SLOTSTATE_WAITFR) ||
          (st =? DVB_CA_SLOTSTATE_LINKINIT) then HZ / 10
  else if st =? DVB_CA_SLOTSTATE_RUNNING then
    let delay := if irq_camchange then HZ * 60 else HZ / 10 in
    if open c && (negb (da_irq_supported s) || negb (bit (flags c) DVB_CA_EN50221_FLAG_IRQ_DA)) then HZ / 10
    else delay
  else if irq_camchange then HZ * 60 else HZ * 5.

Definition dvb_ca_en50221_thread_update_delay : M unit :=
  mod_ca (fun c => set_delay (foldl (fun curdelay s => if slot_delay c s <? curdelay then slot_delay c s else curdelay)
                                100000000 (slot_info c)) c).

(** [while (check_camstatus(ca, slot))]: handles the changes of a slot. *)
Fixpoint camchange_loop (fuel : nat) (slot : Z) : M unit :=
  changed ← dvb_ca_en50221_check_camstatus slot;
  if negb changed then mret tt else
  match fuel with
  | O => stuck
  | S fuel =>
      s ← get_slot slot;
      (if negb (slot_state s =? DVB_CA_SLOTSTATE_NONE) then dvb_ca_en50221_slot_shutdown slot else mret 0);;
      s ← get_slot slot;
      (if camchange_type s =? DVB_CA_EN50221_CAMCHANGE_INSERTED then
         mod_slot slot (set_slot_state DVB_CA_SLOTSTATE_UNINITIALISED)
       else mret tt);;
      dvb_ca_en50221_thread_update_delay;;
      mod_slot slot (fun s => set_camchange (s32 (camchange_count s - 1)) (camchange_type s) s);;
      camchange_loop fuel slot
  end.

(** [slot_state = st; thread_update_delay(ca);] *)
Definition set_state_delay (slot st : Z) : M unit :=
  mod_slot slot (set_slot_state st);; dvb_ca_en50221_thread_update_delay.

(** "this extra check for annoying interfaces": a CAM that failed may have been removed. *)
Definition invalid_or_removed (slot : Z) : M unit :=
  c ← get_ca;
  match sys_poll_slot_status with
  | Some poll =>
      if negb (bit (flags c) DVB_CA_EN50221_FLAG_IRQ_CAMCHANGE) then
        status ← sys_call (poll slot false);
        set_state_delay slot (if bit status DVB_CA_EN50221_POLL_CAM_PRESENT then DVB_CA_SLOTSTATE_INVALID
                              else DVB_CA_SLOTSTATE_NONE)
      else set_state_delay slot DVB_CA_SLOTSTATE_INVALID
  | None => set_state_delay slot DVB_CA_SLOTSTATE_INVALID
  end.

Definition slot_uninitialised (slot : Z) : M unit :=
  mod_slot slot (set_slot_state DVB_CA_SLOTSTATE_WAITREADY);;
  sys_call (sys_slot_reset slot);;
  now ← jiffies;
  mod_slot slot (set_timeout (u64 (now + INIT_TIMEOUT_SECS * HZ))).

Definition slot_waitready (slot : Z) : M unit :=
  now ← jiffies;
  s ← get_slot slot;
  if jiffies_after now (timeout s) then set_state_delay slot DVB_CA_SLOTSTATE_INVALID else mret tt.

Definition slot_validate (tuple0 : list Z) (slot : Z) : M unit :=
  status ← dvb_ca_en50221_parse_attributes tuple0 slot;
  if negb (status =? 0) then invalid_or_removed slot else
  status ← dvb_ca_en50221_set_configoption slot;
  if negb (status =? 0) then set_state_delay slot DVB_CA_SLOTSTATE_INVALID else
  status ← write_cam_control slot CTRLIF_COMMAND CMDREG_RS;
  if negb (status =? 0) then set_state_delay slot DVB_CA_SLOTSTATE_INVALID else
  now ← jiffies;
  mod_slot slot (fun s => set_slot_state DVB_CA_SLOTSTATE_WAITFR (set_timeout (u64 (now + INIT_TIMEOUT_SECS * HZ)) s));;
  mod_ca (set_wakeup true).

Definition slot_waitfr (slot : Z) : M unit :=
  now ← jiffies;
  s ← get_slot slot;
  if jiffies_after now (timeout s) then set_state_delay slot DVB_CA_SLOTSTATE_INVALID else
  status ← read_cam_control slot CTRLIF_STATUS;
  if bit status STATUSREG_FR then
    mod_slot slot (set_slot_state DVB_CA_SLOTSTATE_LINKINIT);;
    mod_ca (set_wakeup true)
  else mret tt.

Definition slot_linkinit (buf0 stack : list Z) (slot : Z) : M unit :=
  status ← dvb_ca_en50221_link_init buf0 stack slot;
  if negb (status =? 0) then invalid_or_removed slot else
  s ← get_slot slot;
  ok ← match rx_buffer s with
    | Some _ => mret true
    | None =>
        rxbuf ← sys_call (sys_vmalloc RX_BUFFER_SIZE);
        match rxbuf with
        | None => mret false
        | Some data => mod_slot slot (set_rx_buffer (Some (dvb_ringbuffer_init data RX_BUFFER_SIZE)));; mret true
        end
    end;
  if negb ok then set_state_delay slot DVB_CA_SLOTSTATE_INVALID else
  sys_call (sys_slot_ts_enable slot);;
  set_state_delay slot DVB_CA_SLOTSTATE_RUNNING.

(** At most [MAX_RX_PACKETS_PER_ITERATION] packets, counted down. *)
Fixpoint rx_loop (n : nat) (stack : list Z) (slot : Z) : M unit :=
  '(status, _) ← dvb_ca_en50221_read_data stack slot None 0;
  if status <=? 0 then mret tt else
  c ← get_ca;
  if negb (open c) then mret tt else
  changed ← dvb_ca_en50221_check_camstatus slot;
  if (changed : bool) then mod_ca (set_wakeup true) else
  match n with
  | S (S _ as n) => rx_loop n stack slot
  | _ => mod_ca (set_wakeup true)
  end.

Definition slot_running (stack : list Z) (slot : Z) : M unit :=
  c ← get_ca;
  if negb (open c) then mret tt else rx_loop MAX_RX_PACKETS_PER_ITERATION stack slot.

(** The uninitialised buffers of one turn of the thread. *)
Record garbage := Garbage { g_tuple : list Z; g_stack : list Z; g_buf : list Z }.

(** The body of the loop over the slots. *)
Definition thread_slot (g : garbage) (slot : Z) : M unit :=
  slot_mutex_lock slot;;
  s ← get_slot slot;
  h ← get;
  camchange_loop (Z.to_nat (u32 (camchange_count s)) + (2 * sys_poll_bound (hw h) + 1)) slot;;
  s ← get_slot slot;
  (let st := slot_state s in
   if st =? DVB_CA_SLOTSTATE_UNINITIALISED then slot_uninitialised slot
   else if st =? DVB_CA_SLOTSTATE_WAITREADY then slot_waitready slot
   else if st =? DVB_CA_SLOTSTATE_VALIDATE then slot_validate (g_tuple g) slot
   else if st =? DVB_CA_SLOTSTATE_WAITFR then slot_waitfr slot
   else if st =? DVB_CA_SLOTSTATE_LINKINIT then slot_linkinit (g_buf g) (g_stack g) slot
   else if st =? DVB_CA_SLOTSTATE_RUNNING then slot_running (g_stack g) slot
   else mret tt);;
  slot_mutex_unlock slot.

Fixpoint for_slots (n : nat) (slot : Z) (body : Z -> M unit) : M unit :=
  match n with
  | O => mret tt
  | S n => body slot;; for_slots n (slot + 1) body
  end.

(** One turn of the main loop, from where the thread wakes up. *)
Definition thread_iteration (g : garbage) : M unit :=
  mod_ca (set_wakeup false);;
  c ← get_ca;
  for_slots (Z.to_nat (slot_count c)) 0 (thread_slot g).

(** The thread runs until it is stopped: here, one turn for each element of [gs]. *)
Fixpoint thread_loop (gs : list garbage) : M Z :=
  match gs with
  | [] => mret 0
  | g :: gs =>
      c ← get_ca;
      (if negb (wakeup c) then msleep else mret tt);;
      thread_iteration g;;
      thread_loop gs
  end.
Definition dvb_ca_en50221_thread (gs : list garbage) : M Z :=
  dvb_ca_en50221_thread_update_delay;; thread_loop gs.
End interface.
