(* ===== verification/DvbCaIo.v ===== *)
(** * DvbCaIo: the file operations of dvb-core/dvb_ca_en50221.c

    [ioctl], [write], [read], [open], [release] and [poll] of the CA device over the
    state of DvbCa.v, its set-up and removal, and the counting of open files of
    dvb-core/dvbdev.c. *)

From S2P Require Import Prelude Asn1 CaLink DvbRingbuffer DvbCa.

Definition EINTR : Z := 4.
Definition EWOULDBLOCK : Z := 11.
Definition POLLIN : Z := 1.

Definition CA_CI_LINK : Z := 2.
Definition CA_CI_MODULE_PRESENT : Z := 1.
Definition CA_CI_MODULE_READY : Z := 2.

(** [_IO('o', 128)], [_IOR('o', 129, ca_caps_t)] and [_IOR('o', 130, ca_slot_info_t)]. *)
Definition CA_RESET : Z := 0x6f80.
Definition CA_GET_CAP : Z := 0x80106f81.
Definition CA_GET_SLOT_INFO : Z := 0x800c6f82.

(** What an ioctl leaves in its argument. *)
Record ca_slot_info := CaSlotInfo { num : Z; type : Z; info_flags : Z }.
Record ca_caps := CaCaps { slot_num : Z; slot_type : Z; descr_num : Z; descr_type : Z }.
Inductive ioctl_arg := NoArg | ArgCaps (c : ca_caps) | ArgSlotInfo (i : ca_slot_info).

(** ** Opening a device node *)

(** [O_ACCMODE] is read-only or not. *)
Definition dvb_generic_open (rdonly : bool) (d : dvb_device) : Z * dvb_device :=
  if users d =? 0 then (- EBUSY, d) else
  if rdonly then
    if readers d =? 0 then (- EBUSY, d) else (0, DvbDevice (users d - 1) (readers d - 1) (writers d))
  else
    if writers d =? 0 then (- EBUSY, d) else (0, DvbDevice (users d - 1) (readers d) (writers d - 1)).
Definition dvb_generic_release (rdonly : bool) (d : dvb_device) : Z * dvb_device :=
  (0, if rdonly then DvbDevice (users d + 1) (readers d + 1) (writers d)
      else DvbDevice (users d + 1) (readers d) (writers d + 1)).

Section interface.
Context {HW : Type} `{sys : ca_system HW} (HZ : Z) (others : ca_state HW -> ca_state HW).

Abbreviation M := (T (ca_state HW)).

(** [mutex_lock_interruptible] fails when a signal is pending. *)
Definition lock_ioctl : M bool :=
  intr ← sys_call sys_interrupted;
  if (intr : bool) then mret false else
  upd_ca (fun c => if ioctl_mutex c then None else Some (set_ioctl_mutex true c));; mret true.
Definition unlock_ioctl : M unit := mod_ca (set_ioctl_mutex false).

(** One slot of [CA_RESET]. *)
Definition reset_slot (slot : Z) : M unit :=
  slot_mutex_lock slot;;
  s ← get_slot slot;
  (if negb (slot_state s =? DVB_CA_SLOTSTATE_NONE) then
     dvb_ca_en50221_slot_shutdown slot;;
     c ← get_ca;
     if bit (flags c) DVB_CA_EN50221_FLAG_IRQ_CAMCHANGE then
       dvb_ca_en50221_camchange_irq slot DVB_CA_EN50221_CAMCHANGE_INSERTED
     else mret tt
   else mret tt);;
  slot_mutex_unlock slot.

Definition slot_info_flags (s : dvb_ca_slot) : Z :=
  let present := negb (slot_state s =? DVB_CA_SLOTSTATE_NONE) && negb (slot_state s =? DVB_CA_SLOTSTATE_INVALID) in
  let flags := if present then CA_CI_MODULE_PRESENT else 0 in
  if slot_state s =? DVB_CA_SLOTSTATE_RUNNING then Z.lor flags CA_CI_MODULE_READY else flags.

(** [n] is [info->num]; comparing it with the unsigned [slot_count] converts it. *)
Definition dvb_ca_en50221_io_do_ioctl (cmd n : Z) : M (Z * ioctl_arg) :=
  locked ← lock_ioctl;
  if negb locked then mret (- ERESTARTSYS, NoArg) else
  c ← get_ca;
  r ← (if cmd =? CA_RESET then
         for_slots (Z.to_nat (slot_count c)) 0 reset_slot;;
         mod_ca (set_next_read_slot 0);;
         dvb_ca_en50221_thread_wakeup;;
         mret (0, NoArg)
       else if cmd =? CA_GET_CAP then
         mret (0, ArgCaps (CaCaps (slot_count c) CA_CI_LINK 0 0))
       else if cmd =? CA_GET_SLOT_INFO then
         if (slot_count c <? u32 n) || (n <? 0) then mret (- EINVAL, NoArg) else
         s ← get_slot n;
         mret (0, ArgSlotInfo (CaSlotInfo n CA_CI_LINK (slot_info_flags s)))
       else mret (- EINVAL, NoArg));
  unlock_ioctl;;
  mret r.

(** ** Writing *)

(** Tries to write a fragment until half a second has passed: the last status, and
    whether the fragment was written or an error ends the call. *)
Inductive attempt := Written | Failed (status : Z) | TimedOut.
Fixpoint attempt_loop (fuel : nat) (slot : Z) (fragbuf : list Z) (len until : Z) : M attempt :=
  match fuel with
  | O => stuck
  | S fuel =>
      now ← jiffies;
      if jiffies_after now until then mret TimedOut else
      s ← get_slot slot;
      if negb (slot_state s =? DVB_CA_SLOTSTATE_RUNNING) then mret (Failed (- EIO)) else
      slot_mutex_lock slot;;
      status ← dvb_ca_en50221_write_data slot fragbuf len;
      slot_mutex_unlock slot;;
      if status =? len then mret Written else
      if negb (status =? - EAGAIN) then mret (Failed status) else
      msleep others;;
      attempt_loop fuel slot fragbuf len until
  end.

(** The length of the next fragment; [None] leaves the loop. *)
Definition fragment_length (link_buf_size remaining : Z) : option Z :=
  let fraglen := link_buf_size - 2 in
  if fraglen <? 0 then None else
  let fraglen := if HOST_LINK_BUF_SIZE - 2 <? fraglen then HOST_LINK_BUF_SIZE - 2 else fraglen in
  Some (if remaining <? fraglen then remaining else fraglen).

(** The fragments of [data] from [fragpos] on. *)
Fixpoint write_loop (fuel : nat) (slot connection_id : Z) (data : list Z) (fragpos : Z) : M Z :=
  let count := zlen data in
  if negb (fragpos <? count) then mret (count + 2) else
  match fuel with
  | O => stuck
  | S fuel =>
      s ← get_slot slot;
      match fragment_length (link_buf_size s) (count - fragpos) with
      | None => mret (count + 2)
      | Some fraglen =>
          let payload := ztake fraglen (zdrop fragpos data) in
          let fragbuf := connection_id :: (if fragpos + fraglen <? count then 0x80 else 0) :: payload in
          if negb (sys_copy_from_user payload =? 0) then mret (- EFAULT) else
          now ← jiffies;
          r ← attempt_loop (Z.to_nat (HZ / 2 + 2)) slot fragbuf (fraglen + 2) (u64 (now + HZ / 2));
          match r with
          | Written => write_loop fuel slot connection_id data (fragpos + fraglen)
          | Failed status => mret status
          | TimedOut => mret (- EIO)
          end
      end
  end.

Definition dvb_ca_en50221_io_write (buf : list Z) : M Z :=
  if zlen buf <? 2 then mret (- EINVAL) else
  match buf with
  | slot :: connection_id :: data =>
      if negb (sys_copy_from_user [slot] =? 0) then mret (- EFAULT) else
      if negb (sys_copy_from_user [connection_id] =? 0) then mret (- EFAULT) else
      s ← get_slot slot;
      if negb (slot_state s =? DVB_CA_SLOTSTATE_RUNNING) then mret (- EINVAL) else
      write_loop (S (length data)) slot connection_id data 0
  | _ => stuck
  end.

(** ** Reading *)

(** The packets of one ring from the one [next] names: the connection looked for, and
    whether the last fragment of a message of it was found. *)
Fixpoint condition_loop (fuel : nat) (rx : dvb_ringbuffer) (connection_id : option Z) (next : Z * Z + unit) :
    option (option Z * bool) :=
  match next with
  | inr _ => Some (connection_id, false)
  | inl (idx, _) =>
      match fuel with
      | O => None
      | S fuel =>
          '(_, hdr) ← dvb_ringbuffer_pkt_read rx idx 0 2;
          h0 ← zget hdr 0;
          h1 ← zget hdr 1;
          let id := default h0 connection_id in
          if (h0 =? id) && (Z.land h1 0x80 =? 0) then Some (Some id, true) else
          next ← dvb_ringbuffer_pkt_next rx (Some idx);
          condition_loop fuel rx (Some id) next
      end
  end.

(** The loop over the slots.  [inl]: the slot to start from next, and the slot found;
    [inr]: a running slot without a ring ends the function. *)
Fixpoint condition_slots (n : nat) (slot : Z) (connection_id : option Z) (c : dvb_ca_private) :
    option ((Z * option Z) + unit) :=
  match n with
  | O => Some (inl (slot, None))
  | S n =>
      let nextslot := (slot + 1) mod slot_count c in
      s ← slot_at c slot;
      if negb (slot_state s =? DVB_CA_SLOTSTATE_RUNNING) then condition_slots n nextslot connection_id c else
      match rx_buffer s with
      | None => Some (inr tt)
      | Some rx =>
          next ← dvb_ringbuffer_pkt_next rx None;
          '(connection_id, found) ← condition_loop (length (rb_data rx)) rx connection_id next;
          if (found : bool) then Some (inl (nextslot, Some slot)) else condition_slots n nextslot connection_id c
      end
  end.
Definition dvb_ca_en50221_io_read_condition : M (option Z) :=
  c ← get_ca;
  r ← lift (condition_slots (Z.to_nat (slot_count c)) (next_read_slot c) None c);
  match r with
  | inr _ => mret None
  | inl (next, found) => mod_ca (set_next_read_slot next);; mret found
  end.

(** [wait_event_interruptible]: the condition is tested when the task is woken up.  [n] is
    how often that happens; a task that still waits then is [None]. *)
Fixpoint wait_condition (n : nat) : M (option (Z + Z)) :=
  r ← dvb_ca_en50221_io_read_condition;
  match r with
  | Some slot => mret (Some (inl slot))
  | None =>
      intr ← sys_call sys_interrupted;
      if (intr : bool) then mret (Some (inr (- ERESTARTSYS))) else
      match n with
      | O => mret None
      | S n => msleep others;; wait_condition n
      end
  end.

(** How much of a fragment of [fraglen] bytes is copied behind [pktlen] bytes. *)
Definition copy_length (pktlen fraglen count : Z) : Z :=
  if count <? pktlen + fraglen - 2 then count - pktlen else fraglen - 2.

(** The fragments of a message: [out] is what was copied behind the header.  The result is
    the ring and a status, or the connection and the whole message. *)
Fixpoint message_loop (fuel : nat) (rx : dvb_ringbuffer) (connection_id : option Z) (next : Z * Z + unit)
    (out : list Z) (count : Z) : option (dvb_ringbuffer * (Z + Z * list Z)) :=
  match next with
  | inr _ => Some (rx, inl (- EIO))
  | inl (idx, fraglen) =>
      match fuel with
      | O => None
      | S fuel =>
          '(_, hdr) ← dvb_ringbuffer_pkt_read rx idx 0 2;
          h0 ← zget hdr 0;
          h1 ← zget hdr 1;
          let id := default h0 connection_id in
          if h0 =? id then
            let pktlen := 2 + zlen out in
            copied ← (if pktlen <? count then
                        '(status, bytes) ← dvb_ringbuffer_pkt_read_user sys_copy_to_user rx idx 2
                          (copy_length pktlen fraglen count);
                        Some (if status <? 0 then inl status else inr (out ++ bytes))
                      else Some (inr out));
            match copied with
            | inl status => Some (rx, inl status)
            | inr out =>
                next ← dvb_ringbuffer_pkt_next rx (Some idx);
                rx ← dvb_ringbuffer_pkt_dispose rx idx;
                if Z.land h1 0x80 =? 0 then Some (rx, inr (id, out))
                else message_loop fuel rx (Some id) next out count
            end
          else
            next ← dvb_ringbuffer_pkt_next rx (Some idx);
            message_loop fuel rx (Some id) next out count
      end
  end.

(** The rest of [read] once a slot was found: the status, and what was written to the
    user's buffer. *)
Definition read_slot (slot count : Z) : M (option (Z * list Z)) :=
  s ← get_slot slot;
  rx ← lift (rx_buffer s);
  next ← lift (dvb_ringbuffer_pkt_next rx None);
  '(rx, r) ← lift (message_loop (length (rb_data rx)) rx None next [] count);
  mod_slot slot (set_rx_buffer (Some rx));;
  match r with
  | inl status => mret (Some (status, []))
  | inr (id, out) =>
      if negb (sys_copy_to_user [u8 slot; id] =? 0) then mret (Some (- EFAULT, [])) else
      mret (Some (2 + zlen out, u8 slot :: id :: out))
  end.

(** [None] while the task waits. *)
Definition dvb_ca_en50221_io_read (nonblock : bool) (wakeups : nat) (count : Z) : M (option (Z * list Z)) :=
  if count <? 2 then mret (Some (- EINVAL, [])) else
  r ← dvb_ca_en50221_io_read_condition;
  w ← match r with
    | Some slot => mret (Some (inl slot))
    | None => if nonblock then mret (Some (inr (- EWOULDBLOCK))) else wait_condition wakeups
    end;
  match w with
  | None => mret None
  | Some (inr status) => mret (Some (status, []))
  | Some (inl slot) => read_slot slot count
  end.

(** ** Opening, closing, polling *)

Definition flush_slot (slot : Z) : M unit :=
  mod_slot slot (fun s =>
    if slot_state s =? DVB_CA_SLOTSTATE_RUNNING then set_rx_buffer (dvb_ringbuffer_flush <$> rx_buffer s) s else s).

Definition dvb_ca_en50221_io_open (rdonly : bool) : M Z :=
  ok ← sys_call sys_try_module_get;
  if negb ok then mret (- EIO) else
  c ← get_ca;
  let '(err, d) := dvb_generic_open rdonly (dvbdev c) in
  mod_ca (set_dvbdev d);;
  if err <? 0 then mret err else
  for_slots (Z.to_nat (slot_count c)) 0 flush_slot;;
  mod_ca (set_open true);;
  dvb_ca_en50221_thread_update_delay HZ;;
  dvb_ca_en50221_thread_wakeup;;
  mret 0.

Definition dvb_ca_en50221_io_release (rdonly : bool) : M Z :=
  mod_ca (set_open false);;
  dvb_ca_en50221_thread_update_delay HZ;;
  c ← get_ca;
  let '(err, d) := dvb_generic_release rdonly (dvbdev c) in
  mod_ca (set_dvbdev d);;
  mret err.

Definition dvb_ca_en50221_io_poll : M Z :=
  r ← dvb_ca_en50221_io_read_condition;
  match r with
  | Some _ => mret POLLIN
  | None =>
      r ← dvb_ca_en50221_io_read_condition;
      match r with Some _ => mret POLLIN | None => mret 0 end
  end.

(** ** Removal *)

Definition release_slot (slot : Z) : M unit :=
  dvb_ca_en50221_slot_shutdown slot;; mod_slot slot (set_rx_buffer None).
Definition dvb_ca_en50221_release : M unit :=
  c ← get_ca; for_slots (Z.to_nat (slot_count c)) 0 release_slot.
End interface.

(** ** Set-up *)

(** What the kernel answers: the two allocations, the registration of the device, a
    pending signal, the start of the thread. *)
Record init_answers := InitAnswers {
  a_kzalloc : bool; a_kcalloc : bool; a_register : Z; a_signal : bool; a_kthread : Z }.

Definition init_slot : dvb_ca_slot :=
  CaSlot DVB_CA_SLOTSTATE_NONE false 0 DVB_CA_EN50221_CAMCHANGE_REMOVED 0 0 false 0 None 0.

(** The result and [pubca->private]. *)
Definition dvb_ca_en50221_init (a : init_answers) (fl count : Z) : Z * option dvb_ca_private :=
  if count <? 1 then (- EINVAL, None) else
  if negb (a_kzalloc a) then (- ENOMEM, None) else
  if negb (a_kcalloc a) then (- ENOMEM, None) else
  if negb (a_register a =? 0) then (a_register a, None) else
  if a_signal a then (- EINTR, None) else
  if a_kthread a <? 0 then (a_kthread a, None) else
  (0, Some (CaPrivate (DvbDevice 1 1 1) (u32 fl) count (replicate (Z.to_nat count) init_slot) 0 false false 0 0 false)).
