(* ===== verification/DvbCaRead.v ===== *)
(** * DvbCaRead: reading messages from the ring of a CA slot

    The packets of a ring that are not disposed are a queue of fragments; the reader takes
    the fragments of the first message of a connection out of it.  [take_message] is that
    operation on the queue; the loops of DvbCaIo.v implement it. *)

From S2P Require Import Prelude Asn1 CaLink DvbRingbuffer DvbCa DvbCaIo.

(** ** The queue of fragments *)

Definition queue (ps : list packet) : list (list Z) := p_bytes <$> List.filter ready ps.

Lemma queue_app a b : queue (a ++ b) = queue a ++ queue b.
Proof. unfold queue. by rewrite List.filter_app, fmap_app. Qed.

Lemma queue_drop_disposed ps : queue (drop_disposed ps) = queue ps.
Proof. unfold queue. induction ps as [|p ps IH]; simpl; [done|]. destruct (ready p) eqn:E; simpl; by rewrite ?E. Qed.

Lemma queue_disposed_front ps : queue (disposed_front ps) = [].
Proof. unfold queue. induction ps as [|p ps IH]; simpl; [done|]. destruct (ready p) eqn:E; simpl; by rewrite ?E. Qed.

(** What [first_ready] finds in a queue. *)
Lemma first_ready_spec b rest :
  match first_ready b rest with
  | None => queue rest = []
  | Some (b', p) => exists d rest', rest = d ++ p :: rest' /\ b' = b ++ d /\ queue d = [] /\
      ready p = true /\ queue rest = p_bytes p :: queue rest'
  end.
Proof.
  revert b. induction rest as [|p rest IH]; intros b; [done|]. cbn [first_ready].
  destruct (ready p) eqn:E.
  - exists [], rest. rewrite app_nil_r. split_and!; try done. unfold queue. simpl. by rewrite E.
  - specialize (IH (b ++ [p])). destruct (first_ready (b ++ [p]) rest) as [[b' q]|].
    + destruct IH as (d & rest' & -> & -> & Hd & Hq & Hr). exists (p :: d), rest'.
      rewrite <- app_assoc. unfold queue in *. simpl. rewrite E. by split_and!.
    + unfold queue in *. simpl. by rewrite E.
Qed.

Lemma first_ready_skip b d rest : queue d = [] -> first_ready b (d ++ rest) = first_ready (b ++ d) rest.
Proof.
  revert b. induction d as [|p d IH]; intros b Hd; simpl; [by rewrite app_nil_r|].
  unfold queue in Hd. simpl in Hd. destruct (ready p); [done|]. rewrite IH by done. by rewrite <- app_assoc.
Qed.

Lemma first_ready_shift f b rest :
  first_ready (f ++ b) rest = (fun '(b', p) => (f ++ b', p)) <$> first_ready b rest.
Proof.
  revert b. induction rest as [|p rest IH]; intros b; [done|]. cbn [first_ready].
  destruct (ready p); [done|]. rewrite <- app_assoc. apply IH.
Qed.

(** Giving up the packets [f] at the front does not change what is next. *)
Lemma next_result_advanced r r' f b rest :
  rb_ok r -> advanced r r' f -> next_result r (first_ready (f ++ b) rest) = next_result r' (first_ready b rest).
Proof.
  intros Hok Ha. rewrite first_ready_shift. destruct (first_ready b rest) as [[b' p]|]; [|done].
  simpl. by rewrite (advanced_index r r' f).
Qed.

(** An index depends on the lengths of the packets only. *)
Lemma next_result_lengths r b b' rest :
  zlen (encode_pkts b) = zlen (encode_pkts b') ->
  next_result r (first_ready b rest) = next_result r (first_ready b' rest).
Proof.
  intros E. rewrite <- (app_nil_r b), <- (app_nil_r b'), !first_ready_shift.
  destruct (first_ready [] rest) as [[c p]|]; [|done]. simpl. unfold index_after.
  by rewrite !encode_pkts_app, !zlen_app, E.
Qed.

(** The ring of a slot holds link packets: of at least a header, and not more than the
    link buffer. *)
Definition link_packet (p : packet) : Prop := 2 <= zlen (p_bytes p) <= HOST_LINK_BUF_SIZE.
Definition link_ring (r : dvb_ringbuffer) (ps : list packet) : Prop :=
  holds r ps /\ rb_size r = RX_BUFFER_SIZE /\ Forall link_packet ps.
Definition not_full (r : dvb_ringbuffer) : Prop := 0 < dvb_ringbuffer_free r.

Lemma link_ring_min r a b : link_ring r (a ++ b) -> Forall (fun p => 2 <= zlen (p_bytes p)) b.
Proof.
  intros (_ & _ & H). apply Forall_app in H as [_ H].
  eapply Forall_impl; [|exact H]. intros p Hp. apply Hp.
Qed.

Lemma avail_advanced r r' ps f ps' :
  holds r ps -> holds r' ps' -> ps = f ++ ps' -> advanced r r' f -> dvb_ringbuffer_free r <= dvb_ringbuffer_free r'.
Proof.
  intros H H' -> [Hs _]. pose proof (holds_avail _ _ H) as Ha. pose proof (holds_avail _ _ H') as Ha'.
  destruct H as (Hok & _), H' as (Hok' & _).
  destruct (avail_free r Hok) as [-> _]. destruct (avail_free r' Hok') as [-> _].
  rewrite Ha, Ha', Hs, encode_pkts_app, zlen_app. pose proof (zlen_nonneg (encode_pkts f)). lia.
Qed.

(** Disposing of a packet, and what is next behind it: the same packet as before, with the
    same fragments before it. *)
Lemma dispose_next r b p rest :
  link_ring r (b ++ p :: rest) -> ready p = true -> not_full r ->
  exists r' b' rest',
    dvb_ringbuffer_pkt_dispose r (index_after r b) = Some r' /\
    link_ring r' (b' ++ rest') /\ not_full r' /\ queue b' = queue b /\ queue rest' = queue rest /\
    (length rest' <= length rest)%nat /\
    next_result r (first_ready (b ++ [p]) rest) = next_result r' (first_ready b' rest').
Proof.
  intros (H & Hs & Hl) Hp Hnf. destruct (pkt_dispose_run r b p rest H) as (r' & E & H' & Hadv).
  set (ps1 := b ++ dispose p :: rest) in *. set (f := disposed_front ps1) in *.
  assert (Hf : f ++ drop_disposed ps1 = (b ++ [dispose p]) ++ rest).
  { rewrite <- app_assoc. apply disposed_front_app. }
  assert (Hok : rb_ok r) by apply H.
  assert (Hl1 : Forall link_packet ps1).
  { apply Forall_app in Hl as [? Hl]. inversion Hl as [|? ? Hlp Hlr]; subst.
    apply Forall_app. split; [done|]. by constructor. }
  assert (Hl' : Forall link_packet (drop_disposed ps1)).
  { rewrite <- (disposed_front_app ps1) in Hl1. by apply Forall_app in Hl1 as [_ ?]. }
  assert (Hd : queue [dispose p] = []) by done.
  assert (Hnf' : not_full r').
  { destruct (set_status_run r b p rest H) as (d & Ed & Hd1). unfold not_full in *.
    pose proof (avail_advanced (set_data d r) r' ps1 f _ Hd1 H' (eq_sym (disposed_front_app ps1))) as Hv.
    eapply Z.lt_le_trans; [exact Hnf|]. apply Hv. destruct Hadv as [? Hpr]. by split. }
  assert (Hlen : zlen (encode_pkts (b ++ [p])) = zlen (encode_pkts (b ++ [dispose p]))).
  { rewrite !encode_pkts_app, !zlen_app, !encode_pkts_cons, !zlen_app, !encode_pkt_len. done. }
  pose proof (queue_disposed_front ps1) as Hqf. fold f in Hqf.
  exists r'. destruct (app_eq_inv _ _ _ _ Hf) as [(k & Ef & Er)|(k & Eb & Er)].
  - (* the whole of [b] and some packets behind it go *)
    exists [], (drop_disposed ps1). rewrite Ef, !queue_app in Hqf.
    apply app_nil in Hqf as [Hqb Hqk]. apply app_nil in Hqb as [Hqb _].
    split_and!; try done; [split_and!; [done|by destruct Hadv as [-> _]|done]| | |].
    + by rewrite Er, queue_app, Hqk.
    + rewrite Er, length_app. lia.
    + rewrite (next_result_lengths r _ (b ++ [dispose p])) by done.
      rewrite Er, first_ready_skip, <- Ef by done. rewrite <- (app_nil_r f) at 1. by apply next_result_advanced.
  - exists k, rest. rewrite Er in H', Hl'.
    assert (Hqk : queue k = queue b).
    { pose proof (f_equal queue Eb) as Eq. rewrite !queue_app, Hqf, Hd, app_nil_r in Eq. done. }
    split_and!; try done; [split_and!; [done|by destruct Hadv as [-> _]|done]|].
    rewrite (next_result_lengths r _ (b ++ [dispose p])) by done. rewrite Eb. by apply next_result_advanced.
Qed.

(** ** Messages *)

(** A fragment: its connection, whether it is the last of its message, what it carries. *)
Definition frag_id (p : list Z) : Z := p.[0].
Definition frag_last (p : list Z) : bool := Z.land p.[1] 0x80 =? 0.
Definition frag_payload (p : list Z) : list Z := zdrop 2 p.

(** The payloads of the first message of the connection [id] (of the first fragment, when
    none is given), the fragments left, and the connection when the message is complete. *)
Fixpoint take_message (id : option Z) (l : list (list Z)) : list (list Z) * list (list Z) * option Z :=
  match l with
  | [] => ([], [], None)
  | p :: l =>
      let c := default (frag_id p) id in
      if frag_id p =? c then
        if frag_last p then ([frag_payload p], l, Some c)
        else let '(m, kept, o) := take_message (Some c) l in (frag_payload p :: m, kept, o)
      else let '(m, kept, o) := take_message (Some c) l in (m, p :: kept, o)
  end.

(** The connection the reader has decided on after a look at the queue. *)
Definition decided (id : option Z) (l : list (list Z)) : option Z :=
  match id, l with Some c, _ => Some c | None, p :: _ => Some (frag_id p) | None, [] => None end.

Lemma link_packet_in r ps p : link_ring r ps -> p ∈ ps -> 2 <= zlen (p_bytes p) <= HOST_LINK_BUF_SIZE.
Proof. intros (_ & _ & H) Hp. by apply (proj1 (list.Forall_forall _ _) H). Qed.

(** The header of a fragment. *)
Lemma read_header r b p rest :
  link_ring r (b ++ p :: rest) ->
  exists hdr, dvb_ringbuffer_pkt_read r (index_after r b) 0 2 = Some (2, hdr) /\
    zget hdr 0 = Some (frag_id (p_bytes p)) /\ zget hdr 1 = Some (p_bytes p).[1].
Proof.
  intros H. pose proof (link_packet_in r _ p H) as Hp. unfold HOST_LINK_BUF_SIZE in Hp.
  assert (2 <= zlen (p_bytes p) <= 512) as Hlen.
  { apply Hp. apply elem_of_app. right. apply list_elem_of_here. }
  exists (ztake 2 (p_bytes p)). rewrite (pkt_read_run r b p rest) by (apply H || lia).
  rewrite (proj2 (Z.ltb_ge _ _)) by lia. rewrite zdrop_0. cbv zeta. rewrite zlen_ztake by lia.
  split; [done|]. unfold frag_id. rewrite !zget_in by (rewrite zlen_ztake; lia). by rewrite !zat_ztake by lia.
Qed.

(** What comes next behind a fragment, in a ring that is not full. *)
Lemma next_after r b p rest :
  link_ring r (b ++ p :: rest) -> not_full r ->
  dvb_ringbuffer_pkt_next r (Some (index_after r b)) = Some (next_result r (first_ready (b ++ [p]) rest)).
Proof.
  intros H Hnf. apply pkt_next_after_65535; [apply H|apply H|done|].
  apply (link_ring_min r (b ++ [p])). by rewrite <- app_assoc.
Qed.

(** [next] is the first fragment of [rest], which lies behind [b]. *)
Lemma next_cases r b rest :
  next_result r (first_ready b rest) = inr tt /\ queue rest = [] \/
  exists b' p rest', next_result r (first_ready b rest) = inl (index_after r b', zlen (p_bytes p)) /\
    b ++ rest = b' ++ p :: rest' /\ ready p = true /\ queue b' = queue b /\
    queue rest = p_bytes p :: queue rest' /\ (length rest' < length rest)%nat.
Proof.
  pose proof (first_ready_spec b rest) as H. destruct (first_ready b rest) as [[b' p]|]; [right|by left].
  destruct H as (d & rest' & -> & -> & Hd & Hp & Hq). exists (b ++ d), p, rest'.
  rewrite queue_app, Hd, app_nil_r, <- app_assoc. split_and!; try done.
  rewrite length_app. simpl. lia.
Qed.

(** The condition of [read]: whether the queue holds a whole message of the connection. *)
Lemma condition_loop_run fuel : forall r b rest id,
  link_ring r (b ++ rest) -> not_full r -> (length rest <= fuel)%nat ->
  exists id', condition_loop fuel r id (next_result r (first_ready b rest)) =
    Some (id', bool_decide (is_Some (take_message id (queue rest)).2)) /\
    id' = decided id (queue rest).
Proof.
  induction fuel as [|fuel IH]; intros r b rest id H Hnf Hf;
    destruct (next_cases r b rest) as [[-> ->]|(b' & p & rest' & -> & E & Hp & Hb & -> & Hlt)];
    try (exists id; simpl; split; [done|by destruct id]); [lia|].
  rewrite E in H. destruct (read_header r b' p rest' H) as (hdr & Eh & E0 & E1).
  cbn [condition_loop take_message]. rewrite Eh. cbn [mbind option_bind]. rewrite E0. cbn [mbind option_bind].
  rewrite E1. cbn [mbind option_bind]. rewrite (next_after r b' p rest') by done. cbn [mbind option_bind].
  fold (frag_last (p_bytes p)). set (c := default (frag_id (p_bytes p)) id).
  assert (Hc : decided id (p_bytes p :: queue rest') = Some c) by (by destruct id).
  rewrite Hc. destruct (frag_id (p_bytes p) =? c) eqn:Ec, (frag_last (p_bytes p)) eqn:El; simpl;
    try (exists (Some c); by split).
  all: destruct (IH r (b' ++ [p]) rest' (Some c)) as (id' & E' & ->);
    [by rewrite <- app_assoc|done|lia|]; exists (Some c); split; [|done]; simpl in E'; rewrite E'.
  all: by destruct (take_message (Some c) (queue rest')) as [[m kept] o].
Qed.

Lemma ztake_app_minus {A} (n : Z) (a b : list A) : 0 <= n -> ztake n (a ++ b) = ztake n a ++ ztake (n - zlen a) b.
Proof. intros. unfold ztake, zlen. rewrite take_app. do 2 f_equal. lia. Qed.

Lemma ztake_neg {A} (n : Z) (l : list A) : n <= 0 -> ztake n l = [].
Proof. intros. unfold ztake. by replace (Z.to_nat n) with 0%nat by lia. Qed.

(** Two copies into a buffer of [n] bytes. *)
Lemma ztake_two (n : Z) (out a b : list Z) : zlen out <= n ->
  (out ++ ztake (n - zlen out) a) ++ ztake (n - zlen (out ++ ztake (n - zlen out) a)) b =
  out ++ ztake (n - zlen out) (a ++ b).
Proof.
  intros. rewrite <- app_assoc. f_equal. pose proof (zlen_nonneg a). pose proof (zlen_nonneg out).
  rewrite ztake_app_minus by lia. f_equal. rewrite zlen_app.
  destruct (decide (zlen a <= n - zlen out)); [rewrite (ztake_all (n - zlen out) a) by lia; f_equal; lia|].
  rewrite zlen_ztake by lia. rewrite !ztake_neg by lia. done.
Qed.

Section reader.
Context {HW : Type} `{sys : ca_system HW}.
Hypothesis copy_ok : forall b, sys_copy_to_user b = 0.

(** Copying a fragment behind [out]: as much as the buffer of [count] bytes takes. *)
Lemma copy_fragment r b p rest out count :
  link_ring r (b ++ p :: rest) -> 2 <= count < 2 ^ 31 -> 2 + zlen out <= count ->
  (if 2 + zlen out <? count then
     '(status, bytes) ← dvb_ringbuffer_pkt_read_user sys_copy_to_user r (index_after r b) 2
       (copy_length (2 + zlen out) (zlen (p_bytes p)) count);
     Some (if status <? 0 then inl status else inr (out ++ bytes))
   else Some (inr out)) = Some (inr (out ++ ztake (count - 2 - zlen out) (frag_payload (p_bytes p)))).
Proof.
  intros H Hc Ho. pose proof (link_packet_in r _ p H) as Hp. unfold HOST_LINK_BUF_SIZE in Hp.
  assert (2 <= zlen (p_bytes p) <= 512) as Hlen.
  { apply Hp. apply elem_of_app. right. apply list_elem_of_here. }
  pose proof (zlen_nonneg out). unfold frag_payload.
  destruct (2 + zlen out <? count) eqn:E.
  2:{ replace (count - 2 - zlen out) with 0 by lia. by rewrite ztake_0, app_nil_r. }
  assert (0 <= copy_length (2 + zlen out) (zlen (p_bytes p)) count < 2 ^ 31) as Hcl.
  { unfold copy_length. destruct (count <? _) eqn:?; lia. }
  rewrite (pkt_read_user_run _ r b p rest) by (done || apply H || lia).
  rewrite (pkt_read_run r b p rest) by (apply H || lia).
  rewrite (proj2 (Z.ltb_ge _ _)) by lia. cbv zeta. cbn [mbind option_bind].
  rewrite (proj2 (Z.ltb_ge _ _)) by apply zlen_nonneg. do 3 f_equal.
  unfold copy_length. destruct (count <? _) eqn:Ec; [f_equal; lia|].
  rewrite !ztake_all; [done|rewrite zlen_zdrop; lia..].
Qed.

(** The reader takes the message out of the queue: the fragments of other connections stay,
    in order; an incomplete message is lost and reported. *)
Lemma message_loop_run fuel : forall r b rest id out count,
  link_ring r (b ++ rest) -> not_full r -> (length rest <= fuel)%nat ->
  2 <= count < 2 ^ 31 -> 2 + zlen out <= count ->
  let '(m, kept, o) := take_message id (queue rest) in
  exists r' ps', message_loop fuel r id (next_result r (first_ready b rest)) out count =
      Some (r', match o with Some c => inr (c, out ++ ztake (count - 2 - zlen out) (concat m)) | None => inl (- EIO) end) /\
    link_ring r' ps' /\ not_full r' /\ queue ps' = queue b ++ kept.
Proof.
  induction fuel as [|fuel IH]; intros r b rest id out count H Hnf Hf Hc Ho;
    destruct (next_cases r b rest) as [[-> Eq]|(b' & p & rest' & -> & E & Hp & Hb & Eq & Hlt)]; [|lia| |].
  1,2: rewrite Eq; exists r, (b ++ rest); by rewrite queue_app, Eq.
  rewrite Eq, <- Hb. rewrite E in H. clear Eq Hb E b. destruct (read_header r b' p rest' H) as (hdr & Eh & E0 & E1).
  cbn [message_loop take_message]. rewrite Eh. cbn [mbind option_bind]. rewrite E0. cbn [mbind option_bind].
  rewrite E1. cbn [mbind option_bind]. rewrite (next_after r b' p rest') by done. cbn [mbind option_bind].
  fold (frag_last (p_bytes p)). set (c := default (frag_id (p_bytes p)) id).
  destruct (frag_id (p_bytes p) =? c) eqn:Ec.
  - pose proof (copy_fragment r b' p rest' out count H Hc Ho) as ->. cbn [mbind option_bind].
    set (out' := out ++ _). destruct (dispose_next r b' p rest' H Hp Hnf) as
      (r' & b2 & rest2 & -> & H' & Hnf' & Hb2 & Hr2 & Hlen & ->). cbn [mbind option_bind].
    destruct (frag_last (p_bytes p)).
    + exists r', (b2 ++ rest2). simpl concat. rewrite app_nil_r, queue_app, Hb2, Hr2. done.
    + assert (Hz : zlen out' = Z.min (count - 2) (zlen out + zlen (frag_payload (p_bytes p)))).
      { unfold out'. rewrite zlen_app. unfold ztake, zlen in *. rewrite length_take. lia. }
      specialize (IH r' b2 rest2 (Some c) out' count H' Hnf' ltac:(lia) Hc ltac:(lia)). rewrite Hr2 in IH.
      destruct (take_message (Some c) (queue rest')) as [[m kept] o].
      destruct IH as (r'' & ps' & -> & Hl & Hn & Hq). exists r'', ps'. rewrite Hq, Hb2. split_and!; try done.
      destruct o as [o|]; [|done]. unfold out'. by rewrite ztake_two by lia.
  - specialize (IH r (b' ++ [p]) rest' (Some c) out count). rewrite <- app_assoc in IH.
    specialize (IH H Hnf ltac:(lia) Hc Ho).
    destruct (take_message (Some c) (queue rest')) as [[m kept] o].
    destruct IH as (r'' & ps' & -> & Hl & Hn & Hq). exists r'', ps'. split_and!; try done.
    rewrite Hq, queue_app, <- app_assoc. unfold queue at 2. simpl. by rewrite Hp.
Qed.
End reader.
