(* ===== verification/DvbCaInv.v ===== *)
(** * DvbCaInv: the invariant of the CA interface

    What is assumed of the card and the kernel ([ca_system_ok]), the invariant of the
    interface and its slots ([ca_wf]), and that the link layer and the thread of DvbCa.v
    keep it. *)

From S2P Require Import Prelude Asn1 CaLink DvbRingbuffer DvbCa DvbCaIo DvbCaRead.

(** ** What is assumed of the surroundings *)

(** No call takes longer than [2 ^ 32] jiffies, and none takes negative time. *)
Definition call_time : Z := 2 ^ 32.

(** The clock; [card] says whether a CAM is in a slot, and [sys_poll_bound] counts the
    insertions and removals still to come. *)
Class ca_system_ok {HW : Type} (sys : ca_system HW) := {
  now : HW -> Z;
  card : HW -> Z -> bool;
  quiet (h h' : HW) : Prop :=
    now h <= now h' <= now h + call_time /\
    ((sys_poll_bound h' < sys_poll_bound h)%nat \/
     sys_poll_bound h' = sys_poll_bound h /\ forall slot, card h' slot = card h slot);
  ok_read_attribute_mem slot a h :
    (sys_read_attribute_mem slot a h).1 < 256 /\ quiet h (sys_read_attribute_mem slot a h).2;
  ok_write_attribute_mem slot a v h : quiet h (sys_write_attribute_mem slot a v h).2;
  ok_read_cam_control slot a h :
    (sys_read_cam_control slot a h).1 < 256 /\ quiet h (sys_read_cam_control slot a h).2;
  ok_write_cam_control slot a v h : quiet h (sys_write_cam_control slot a v h).2;
  ok_slot_reset slot h : quiet h (sys_slot_reset slot h).2;
  ok_slot_shutdown slot h : quiet h (sys_slot_shutdown slot h).2;
  ok_slot_ts_enable slot h : quiet h (sys_slot_ts_enable slot h).2;
  ok_poll poll slot op h : sys_poll_slot_status = Some poll ->
    let '(st, h') := poll slot op h in quiet h h' /\
    (sys_poll_bound h' = sys_poll_bound h ->
     bit st DVB_CA_EN50221_POLL_CAM_CHANGED = false /\ bit st DVB_CA_EN50221_POLL_CAM_PRESENT = card h slot);
  ok_jiffies h : (sys_jiffies h).1 = u64 (now (sys_jiffies h).2) /\ quiet h (sys_jiffies h).2;
  ok_vmalloc n h : quiet h (sys_vmalloc n h).2 /\
    match (sys_vmalloc n h).1 with Some data => zlen data = n | None => True end;
  ok_interrupted h : quiet h (sys_interrupted h).2;
  ok_try_module_get h : quiet h (sys_try_module_get h).2 }.

Lemma jiffies_after_spec a b : - 2 ^ 62 < a - b < 2 ^ 62 -> jiffies_after (u64 a) (u64 b) = (b <? a).
Proof.
  intros H. unfold jiffies_after, u64.
  rewrite Zminus_mod_idemp_l, Zminus_mod_idemp_r. destruct (b <? a) eqn:Hlt.
  - rewrite <- (Z.mod_add _ 1) by lia. rewrite Z.mod_small by lia. apply Z.leb_le. lia.
  - rewrite Z.mod_small by lia. apply Z.leb_gt. lia.
Qed.

(** ** The invariant *)

Definition slot_states : list Z :=
  [DVB_CA_SLOTSTATE_NONE; DVB_CA_SLOTSTATE_UNINITIALISED; DVB_CA_SLOTSTATE_RUNNING; DVB_CA_SLOTSTATE_INVALID;
   DVB_CA_SLOTSTATE_WAITREADY; DVB_CA_SLOTSTATE_VALIDATE; DVB_CA_SLOTSTATE_WAITFR; DVB_CA_SLOTSTATE_LINKINIT].

(** A running slot has a ring; a ring holds link packets. *)
Record slot_wf (s : dvb_ca_slot) : Prop := SlotWf {
  sw_state : slot_state s ∈ slot_states;
  sw_link : 0 <= link_buf_size s <= HOST_LINK_BUF_SIZE;
  sw_count : - 2 ^ 31 <= camchange_count s < 2 ^ 31;
  sw_ring : match rx_buffer s with
            | Some r => exists ps, link_ring r ps
            | None => slot_state s <> DVB_CA_SLOTSTATE_RUNNING
            end }.

(** The interface with [n] slots and flags [fl]; [lk] are the locks held on the slots, [m]
    says whether the ioctl lock is held.  A file is open exactly when no other may be. *)
Record ca_wf (n fl : Z) (lk : list bool) (m : bool) (c : dvb_ca_private) : Prop := CaWf {
  cw_count : slot_count c = n;
  cw_flags : flags c = fl;
  cw_slots : zlen (slot_info c) = n;
  cw_locks : slot_lock <$> slot_info c = lk;
  cw_mutex : ioctl_mutex c = m;
  cw_next : 0 <= next_read_slot c < n;
  cw_users : users (dvbdev c) = if open c then 0 else 1;
  cw_wf : Forall slot_wf (slot_info c) }.

(** ** Changes of one slot *)

(** [c'] is [c] with slot [i] changed from [s] to an [s'] with [P s'], and none of the
    fields that only files change. *)
Definition touches (i : Z) (P : dvb_ca_slot -> Prop) (c c' : dvb_ca_private) : Prop :=
  (exists s', slot_at c' i = Some s' /\ P s') /\
  (forall j, j <> i -> slot_at c' j = slot_at c j) /\
  length (slot_info c') = length (slot_info c) /\
  flags c' = flags c /\ slot_count c' = slot_count c /\ dvbdev c' = dvbdev c /\ open c' = open c /\
  next_read_slot c' = next_read_slot c /\ ioctl_mutex c' = ioctl_mutex c.

Lemma slot_at_range c i s : slot_at c i = Some s -> 0 <= i < zlen (slot_info c).
Proof. unfold slot_at, zlen. case_decide; [|done]. intros Hs%lookup_lt_Some. lia. Qed.
Lemma slot_at_in c i : 0 <= i < zlen (slot_info c) -> exists s, slot_at c i = Some s.
Proof.
  unfold slot_at, zlen. intros. rewrite decide_True by lia.
  destruct (lookup_lt_is_Some_2 (slot_info c) (Z.to_nat i)) as [s ->]; [lia|]. by exists s.
Qed.

Lemma touches_refl i P c s : slot_at c i = Some s -> P s -> touches i P c c.
Proof. intros. split; [by exists s|]. by split_and!. Qed.
Lemma touches_trans i P Q c c' c'' :
  touches i P c c' -> (forall s, slot_at c' i = Some s -> P s -> touches i Q c' c'') -> touches i Q c c''.
Proof.
  intros ((s' & Hs & HP) & H1 & H2 & H3 & H4 & H5 & H6 & H7 & H8) H.
  destruct (H s' Hs HP) as (Hs' & K1 & K2 & K3 & K4 & K5 & K6 & K7 & K8).
  split; [done|]. split; [intros j Hj; by rewrite K1, H1|]. split_and!; congruence.
Qed.
Lemma touches_mono i (P Q : dvb_ca_slot -> Prop) c c' : touches i P c c' -> (forall s, P s -> Q s) -> touches i Q c c'.
Proof. intros ((s & Hs & HP) & Hrest) HPQ. split; [exists s; auto|done]. Qed.

Definition put_slot (c : dvb_ca_private) (i : Z) (s : dvb_ca_slot) : dvb_ca_private :=
  set_slot_info (<[Z.to_nat i := s]> (slot_info c)) c.
Lemma touches_put i P c s0 s : slot_at c i = Some s0 -> P s -> touches i P c (put_slot c i s).
Proof.
  intros H HP. pose proof (slot_at_range c i s0 H) as Hi. unfold touches, put_slot, slot_at in *. simpl.
  unfold zlen in Hi. rewrite decide_True in H |- * by lia. split.
  { exists s. split; [|done]. rewrite list_lookup_insert_eq; [done|]. lia. }
  split; [|by rewrite length_insert; split_and!].
  intros j Hj. case_decide; [|done]. by rewrite list_lookup_insert_ne by lia.
Qed.

Lemma slot_at_put c i s0 s : slot_at c i = Some s0 -> slot_at (put_slot c i s) i = Some s.
Proof. intros H. by destruct (touches_put i (eq s) c s0 s H eq_refl) as ((s' & ? & ->) & _). Qed.

(** A change that keeps the lock and the slot well formed keeps the invariant. *)
Lemma touches_wf n fl lk m i b c c' :
  ca_wf n fl lk m c -> touches i (fun s => slot_wf s /\ slot_lock s = b) c c' ->
  ca_wf n fl (<[Z.to_nat i := b]> lk) m c'.
Proof.
  intros [? ? Hz Hl ? ? ? Hwf] ((s & Hs & Hw & Hb) & Hoth & Hlen & H1 & H2 & H3 & H4 & H5 & H6).
  pose proof (slot_at_range c' i s Hs) as Hi. unfold zlen in *.
  assert (Hat : forall k, slot_info c' !! k = if decide (k = Z.to_nat i) then Some s else slot_info c !! k).
  { intros k. case_decide as Hk.
    - subst k. unfold slot_at in Hs. by rewrite decide_True in Hs by lia.
    - specialize (Hoth (Z.of_nat k) ltac:(lia)). unfold slot_at in Hoth.
      by rewrite !decide_True, !Nat2Z.id in Hoth by lia. }
  split; try congruence; [unfold zlen; lia| |by rewrite H3, H4|].
  - apply list_eq. intros k. rewrite list_lookup_fmap, Hat, <- Hl, list_lookup_insert, list_lookup_fmap.
    rewrite length_fmap. repeat case_decide; subst; simpl; try done; lia.
  - apply list.Forall_forall. intros x Hx. apply list_elem_of_lookup in Hx as [k Hk].
    rewrite Hat in Hk. case_decide; [by simplify_eq|]. by eapply Forall_lookup in Hk.
Qed.

(** ** Rules for code that works on one slot *)

Section slot_rules.
Context {HW : Type} {sys : ca_system HW} {sys_ok : ca_system_ok sys}.

Abbreviation W := (world (ca_state HW)).
Definition ca_of (w : W) : dvb_ca_private := ca (w_st w).
Definition hw_of (w : W) : HW := hw (w_st w).

(** From [w] to [w'] only slot [i] changed, to one with [P], and at most [k] calls were made. *)
Definition stepped (i : Z) (P : dvb_ca_slot -> Prop) (k : Z) (w w' : W) : Prop :=
  touches i P (ca_of w) (ca_of w') /\ now (hw_of w) <= now (hw_of w') <= now (hw_of w) + k * call_time.

Lemma stepped_start i s w : slot_at (ca_of w) i = Some s -> stepped i (eq s) 0 w w.
Proof. intros H. split; [by apply (touches_refl i _ _ s)|lia]. Qed.
Lemma stepped_mono i (P Q : dvb_ca_slot -> Prop) k k' w w' :
  stepped i P k w w' -> (forall s, P s -> Q s) -> k <= k' -> stepped i Q k' w w'.
Proof. intros [H ?] HPQ ?. split; [by eapply touches_mono|]. unfold call_time in *. lia. Qed.
Lemma stepped_trans i P Q k l w w1 w2 :
  stepped i P k w w1 -> (forall s, slot_at (ca_of w1) i = Some s -> P s -> stepped i Q l w1 w2) -> stepped i Q (k + l) w w2.
Proof.
  intros [H Ht] H'. pose proof H as ((s & Hs & HP) & _). destruct (H' s Hs HP) as [_ Ht'].
  split; [|unfold call_time in *; lia]. eapply touches_trans; [exact H|]. intros s1 H1 HP1. by apply (H' s1).
Qed.
Lemma stepped_slot i P k w w' : stepped i P k w w' -> exists s, slot_at (ca_of w') i = Some s /\ P s.
Proof. intros [[H _] _]. exact H. Qed.

Lemma stepped_same i P k w w' w'' :
  stepped i P k w w' -> ca_of w'' = ca_of w' -> quiet (hw_of w') (hw_of w'') -> stepped i P (k + 1) w w''.
Proof. intros [H ?] E [Ht _]. split; [by rewrite E|]. unfold call_time in *. lia. Qed.

(** The primitive steps. *)
Lemma twp_sys {A} (f : HW -> A * HW) (Q : A -> W -> Prop) w :
  (forall w', ca_of w' = ca_of w -> hw_of w' = (f (hw_of w)).2 -> Q (f (hw_of w)).1 w') -> twp (sys_call f) Q w.
Proof.
  intros H. unfold twp, sys_call. fold (hw_of w). destruct (f (hw_of w)) as [a h]. by apply H.
Qed.
Lemma twp_get_ca (Q : dvb_ca_private -> W -> Prop) w : Q (ca_of w) w -> twp get_ca Q w.
Proof. done. Qed.
Lemma twp_ca_slot i s (Q : dvb_ca_slot -> W -> Prop) w :
  slot_at (ca_of w) i = Some s -> Q s w -> twp (get_slot i) Q w.
Proof.
  intros H HQ. unfold get_slot. apply twp_bind, twp_get_ca. rewrite H. done.
Qed.
Lemma twp_ca_lift {A} (o : option A) a (Q : A -> W -> Prop) w : o = Some a -> Q a w -> twp (lift o) Q w.
Proof. intros -> H. exact H. Qed.
Lemma twp_mod_ca f (Q : unit -> W -> Prop) w :
  (forall w', ca_of w' = f (ca_of w) -> hw_of w' = hw_of w -> Q tt w') -> twp (mod_ca f) Q w.
Proof. intros H. by apply H. Qed.
Lemma twp_alter_slot_sent i f s s' (Q : unit -> W -> Prop) w :
  slot_at (ca_of w) i = Some s -> f s = Some s' ->
  (forall w', ca_of w' = put_slot (ca_of w) i s' -> hw_of w' = hw_of w -> w_sent w' = w_sent w -> Q tt w') ->
  twp (upd_ca (alter_slot i f)) Q w.
Proof.
  intros H Hf HQ. unfold twp, upd_ca, update, alter_slot. fold (ca_of w). rewrite H. cbn [mbind option_bind].
  rewrite Hf. cbn [mbind option_bind]. by apply HQ.
Qed.
Lemma twp_alter_slot i f s s' (Q : unit -> W -> Prop) w :
  slot_at (ca_of w) i = Some s -> f s = Some s' ->
  (forall w', ca_of w' = put_slot (ca_of w) i s' -> hw_of w' = hw_of w -> Q tt w') ->
  twp (upd_ca (alter_slot i f)) Q w.
Proof. intros H Hf HQ. eapply twp_alter_slot_sent; [done..|]. auto. Qed.
Lemma twp_mod_slot i f s (Q : unit -> W -> Prop) w :
  slot_at (ca_of w) i = Some s ->
  (forall w', ca_of w' = put_slot (ca_of w) i (f s) -> hw_of w' = hw_of w -> Q tt w') ->
  twp (mod_slot i f) Q w.
Proof. intros H HQ. unfold mod_slot. by eapply twp_alter_slot. Qed.

(** The same steps on a slot that was touched since [w0]. *)
Section touched.
Context {i k : Z} {P : dvb_ca_slot -> Prop} {w0 w : W} (S : stepped i P k w0 w).

Lemma st_read_cam slot a (Q : Z -> W -> Prop) :
  (forall r w', r < 256 -> stepped i P (k + 1) w0 w' -> Q r w') -> twp (read_cam_control slot a) Q w.
Proof.
  intros H. apply twp_sys. intros w' Ec Eh. destruct (ok_read_cam_control slot a (hw_of w)) as [Hr Hq].
  apply H; [done|]. eapply stepped_same; [exact S|done|by rewrite Eh].
Qed.
Lemma st_read_attribute slot a (Q : Z -> W -> Prop) :
  (forall r w', r < 256 -> stepped i P (k + 1) w0 w' -> Q r w') -> twp (read_attribute_mem slot a) Q w.
Proof.
  intros H. apply twp_sys. intros w' Ec Eh. destruct (ok_read_attribute_mem slot a (hw_of w)) as [Hr Hq].
  apply H; [done|]. eapply stepped_same; [exact S|done|by rewrite Eh].
Qed.
Lemma st_sys {A} (f : HW -> A * HW) (Q : A -> W -> Prop) :
  quiet (hw_of w) (f (hw_of w)).2 ->
  (forall w', stepped i P (k + 1) w0 w' -> Q (f (hw_of w)).1 w') -> twp (sys_call f) Q w.
Proof.
  intros Hq H. apply twp_sys. intros w' Ec Eh. apply H. eapply stepped_same; [exact S|done|by rewrite Eh].
Qed.
Lemma st_write_cam slot a v (Q : Z -> W -> Prop) :
  (forall r w', stepped i P (k + 1) w0 w' -> Q r w') -> twp (write_cam_control slot a v) Q w.
Proof.
  intros H. unfold write_cam_control. apply twp_bind. unfold sent. red. apply twp_sys. intros w' Ec Eh.
  apply H. eapply stepped_same; [exact S|done|rewrite Eh; apply ok_write_cam_control].
Qed.
Lemma st_get_slot (Q : dvb_ca_slot -> W -> Prop) :
  (forall s, slot_at (ca_of w) i = Some s -> P s -> Q s w) -> twp (get_slot i) Q w.
Proof.
  intros H. destruct (stepped_slot _ _ _ _ _ S) as (s & Hs & HP). eapply twp_ca_slot; [done|]. by apply H.
Qed.
Lemma st_mod_slot f (P' : dvb_ca_slot -> Prop) (Q : unit -> W -> Prop) :
  (forall s, P s -> P' (f s)) -> (forall w', stepped i P' k w0 w' -> Q tt w') -> twp (mod_slot i f) Q w.
Proof.
  intros Hf H. destruct (stepped_slot _ _ _ _ _ S) as (s & Hs & HP). apply (twp_mod_slot i f s); [done|].
  intros w' Ec Eh. apply H. destruct S as [Ht ?]. split; [|by rewrite Eh].
  eapply touches_trans; [exact Ht|]. intros s1 H1 HP1. rewrite Ec. simplify_eq. eapply touches_put; [done|auto].
Qed.
(** An assignment to [wait_queue], [wakeup] or [delay]. *)
Definition minor (f : dvb_ca_private -> dvb_ca_private) : Prop := forall c,
  slot_info (f c) = slot_info c /\ flags (f c) = flags c /\ slot_count (f c) = slot_count c /\
  dvbdev (f c) = dvbdev c /\ open (f c) = open c /\ next_read_slot (f c) = next_read_slot c /\
  ioctl_mutex (f c) = ioctl_mutex c.
Lemma st_mod_ca f (Q : unit -> W -> Prop) :
  minor f -> (forall w', stepped i P k w0 w' -> Q tt w') -> twp (mod_ca f) Q w.
Proof.
  intros Hf H. apply twp_mod_ca. intros w' Ec Eh. apply H. destruct S as [Ht ?]. split; [|by rewrite Eh].
  destruct (Hf (ca_of w)) as (E1 & E2 & E3 & E4 & E5 & E6 & E7). rewrite Ec.
  unfold touches, slot_at in *. rewrite E1, E2, E3, E4, E5, E6, E7. exact Ht.
Qed.
End touched.
End slot_rules.

#[export] Hint Extern 1 (minor _) => done : bgt.

(** One step of straight-line code on a slot: the hypothesis [S] says what it is by now. *)
Ltac st_bind := lazymatch goal with |- twp (mbind _ _) _ _ => apply twp_bind | _ => idtac end.
Ltac st_step :=
  st_bind;
  lazymatch goal with
  | S : stepped _ _ _ _ ?w |- twp (read_cam_control _ _) _ ?w =>
      let r := fresh "r" in let w' := fresh "w" in let S' := fresh "S" in
      apply (st_read_cam S); clear S; intros r w' ? S'
  | S : stepped _ _ _ _ ?w |- twp (read_attribute_mem _ _) _ ?w =>
      let r := fresh "r" in let w' := fresh "w" in let S' := fresh "S" in
      apply (st_read_attribute S); clear S; intros r w' ? S'
  | S : stepped _ _ _ _ ?w |- twp (write_cam_control _ _ _) _ ?w =>
      let r := fresh "r" in let w' := fresh "w" in let S' := fresh "S" in
      apply (st_write_cam S); clear S; intros r w' S'
  | S : stepped _ _ _ _ ?w |- twp (get_slot _) _ ?w =>
      let s := fresh "s" in let Hs := fresh "Hs" in let HP := fresh "HP" in
      apply (st_get_slot S); intros s Hs HP
  | S : stepped _ _ _ _ ?w |- twp (mod_ca _) _ ?w =>
      let w' := fresh "w" in let S' := fresh "S" in
      apply (st_mod_ca S); [by intros ?|]; clear S; intros w' S'
  | |- twp (if ?b then _ else _) _ _ => apply twp_if; intro
  | |- twp (mret _) _ _ => apply twp_ret
  | |- twp get_ca _ _ => apply twp_get_ca
  end.

(** ** The other tasks *)

(** What reading and writing need beyond the invariant, because the code fails without it:
    no ring is exactly full, and no running CAM has a link buffer of just the header. *)
Definition slot_good (s : dvb_ca_slot) : Prop :=
  (forall r, rx_buffer s = Some r -> not_full r) /\
  (slot_state s = DVB_CA_SLOTSTATE_RUNNING -> link_buf_size s <> 2).
Definition good (c : dvb_ca_private) : Prop := Forall slot_good (slot_info c).

Lemma touches_good i P c c' : good c -> touches i P c c' -> (forall s, P s -> slot_good s) -> good c'.
Proof.
  intros H ((s & Hs & HP) & Hoth & Hlen & _) HPg. apply list.Forall_forall. intros x Hx.
  apply list_elem_of_lookup in Hx as [k Hk]. pose proof (lookup_lt_Some _ _ _ Hk) as Hlt.
  assert (Hat : slot_at c' (Z.of_nat k) = Some x) by (unfold slot_at; by rewrite decide_True, Nat2Z.id by lia).
  destruct (decide (Z.of_nat k = i)) as [<-|Hne]; [simplify_eq; auto|].
  rewrite Hoth in Hat by done. unfold slot_at in Hat. rewrite decide_True, Nat2Z.id in Hat by lia.
  by eapply Forall_lookup in Hat.
Qed.

(** While a task sleeps, the others keep the invariant, with the same locks held, and time
    passes.  A card that does not report its changes by interrupts has a status to poll. *)
Class ca_rely {HW : Type} {sys : ca_system HW} {sys_ok : ca_system_ok sys}
    (HZ : Z) (others : ca_state HW -> ca_state HW) (n fl : Z) : Prop := {
  rely_hz : 10 <= HZ < 2 ^ 20;
  rely_poll : bit fl DVB_CA_EN50221_FLAG_IRQ_CAMCHANGE = true \/ is_Some sys_poll_slot_status;
  rely_time s : now (hw s) + 1 <= now (hw (others s)) <= now (hw s) + call_time;
  rely_wf lk m s : ca_wf n fl lk m (ca s) -> ca_wf n fl lk m (ca (others s));
  rely_good lk m s : ca_wf n fl lk m (ca s) -> good (ca s) -> good (ca (others s)) }.

(** ** The link layer *)

Section link_layer.
Context {HW : Type} {sys : ca_system HW} {sys_ok : ca_system_ok sys}.
Context (HZ : Z) (others : ca_state HW -> ca_state HW).
Abbreviation W := (world (ca_state HW)).

(** What the transfers do to a slot: an error sends it back to the link initialisation. *)
Definition io_change (s s' : dvb_ca_slot) : Prop := s' = s \/ s' = set_slot_state DVB_CA_SLOTSTATE_LINKINIT s.

Lemma send_loop_run n : forall j slot buf i P k (w0 w : W),
  stepped i P k w0 w -> 0 <= j -> j + Z.of_nat n <= zlen buf ->
  twp (send_loop n j slot buf) (fun _ w' => stepped i P (k + Z.of_nat n) w0 w') w.
Proof.
  induction n as [|n IH]; intros j slot buf i P k w0 w S Hj Hn; cbn [send_loop].
  - apply twp_ret. by rewrite Z.add_0_r.
  - apply twp_bind. eapply twp_ca_lift; [apply zget_in; lia|]. st_step. st_step.
    + apply twp_ret. eapply stepped_mono; [eassumption|done|lia].
    + eapply twp_mono; [eapply IH; [eassumption|lia..]|]. intros r2 w2 S2. simpl in S2.
      eapply stepped_mono; [exact S2|done|lia].
Qed.

Lemma write_data_body_run slot buf n s k (w0 w : W) :
  stepped slot (eq s) k w0 w -> 0 <= n <= zlen buf -> n <= 512 ->
  twp (write_data_body slot buf n) (fun _ w' => stepped slot (io_change s) (k + 520) w0 w') w.
Proof.
  intros S Hn Hmax. unfold write_data_body, or_exit.
  assert (Hexit : forall (r : Z) w', stepped slot (eq s) (k + 520) w0 w' ->
            twp (mret r : T _ Z) (fun _ w' => stepped slot (io_change s) (k + 520) w0 w') w').
  { intros r w' S'. apply twp_ret. eapply stepped_mono; [exact S'| |lia]. intros s' ->. by left. }
  do 2 st_step; [apply Hexit; eapply stepped_mono; [eassumption|done|lia]|].
  do 2 st_step; [apply Hexit; eapply stepped_mono; [eassumption|done|lia]|].
  st_step; [apply Hexit; eapply stepped_mono; [eassumption|done|lia]|].
  do 2 st_step; [apply Hexit; eapply stepped_mono; [eassumption|done|lia]|].
  do 2 st_step; [apply Hexit; eapply stepped_mono; [eassumption|done|lia]|].
  apply twp_bind. eapply twp_mono; [eapply send_loop_run; [eassumption|lia..]|]. intros r' w' S'. simpl in S'.
  st_step; [apply Hexit; eapply stepped_mono; [exact S'|done|lia]|].
  do 2 st_step; [apply Hexit; eapply stepped_mono; [eassumption|done|lia]|].
  st_step; [|apply Hexit; eapply stepped_mono; [eassumption|done|lia]].
  apply twp_bind. eapply (st_mod_slot ltac:(eassumption) _ (io_change s)).
  - intros s' ->. by right.
  - intros w9 S9. apply twp_ret. eapply stepped_mono; [exact S9|done|lia].
Qed.

Lemma write_data_run slot buf n s (w : W) :
  slot_at (ca_of w) slot = Some s -> link_buf_size s <= HOST_LINK_BUF_SIZE -> 0 <= n <= zlen buf ->
  twp (dvb_ca_en50221_write_data slot buf n) (fun _ w' => stepped slot (io_change s) 522 w w') w.
Proof.
  intros Hs Hlink Hn. unfold dvb_ca_en50221_write_data. pose proof (stepped_start slot s w Hs) as S.
  assert (Hexit : forall (r k : Z) w', stepped slot (eq s) k w w' -> k <= 522 ->
            twp (mret r : T _ Z) (fun _ w' => stepped slot (io_change s) 522 w w') w').
  { intros r k w' S' Hk. apply twp_ret. eapply stepped_mono; [exact S'| |done]. intros s' ->. by left. }
  st_step. subst s0. st_step; [by eapply Hexit|].
  do 2 st_step; [by eapply Hexit|].
  st_step.
  - apply twp_bind. destruct (bit r STATUSREG_DA).
    + unfold dvb_ca_en50221_thread_wakeup. st_step. by eapply Hexit.
    + apply twp_ret. by eapply Hexit.
  - apply twp_bind. eapply twp_mono; [eapply write_data_body_run; [eassumption|done|unfold HOST_LINK_BUF_SIZE in *; lia]|].
    intros r' w' S'. simpl in S'. st_step. apply twp_ret. eapply stepped_mono; [eassumption|done|lia].
Qed.

Lemma zlen_put8 l i v l' : put8 l i v = Some l' -> zlen l' = zlen l.
Proof. unfold put8. case_decide; [|done]. intros [= <-]. apply zlen_zset. Qed.
Lemma put8_in l i v : 0 <= i < zlen l -> put8 l i v = Some (zset l i (u8 v)).
Proof. intros. unfold put8. by rewrite decide_True. Qed.

Lemma fill_loop_run n : forall j slot buf i P k (w0 w : W),
  stepped i P k w0 w -> 0 <= j -> j + Z.of_nat n <= zlen buf ->
  twp (fill_loop n j slot buf) (fun '(err, buf') w' => stepped i P (k + Z.of_nat n) w0 w' /\ zlen buf' = zlen buf /\
    (bytes buf -> bytes buf') /\ match err with Some e => e < 0 | None => True end) w.
Proof.
  induction n as [|n IH]; intros j slot buf i P k w0 w S Hj Hn; cbn [fill_loop].
  - apply twp_ret. by rewrite Z.add_0_r.
  - st_step. st_step.
    + apply twp_ret. split; [eapply stepped_mono; [eassumption|done|lia]|]. split; [done|]. split; [done|].
      by apply Z.ltb_lt.
    + apply twp_bind. eapply twp_ca_lift; [apply put8_in; lia|].
      eapply twp_mono; [eapply (IH (j + 1)); [eassumption|lia|rewrite zlen_zset; lia]|].
      intros [err buf'] w2 (S2 & Hz & Hb & He). rewrite zlen_zset in Hz.
      split; [eapply stepped_mono; [exact S2|done|lia]|]. split; [done|]. split; [|done].
      intros ?. apply Hb. auto with bgt.
Qed.

(** The two bytes of a length read from the registers. *)
Lemma size_bytes high low : 0 <= high < 256 -> 0 <= low < 256 ->
  Z.lor (s32 (Z.shiftl high 8)) low = high * 256 + low.
Proof.
  intros. assert (E : s32 (Z.shiftl high 8) = Z.shiftl high 8).
  { rewrite shiftl_8. unfold s32. rewrite u32_small by lia. by rewrite decide_True by lia. }
  rewrite E. by apply lor_byte.
Qed.

(** What reading a packet into the ring does: an error may send the slot back to the link
    initialisation; a positive result is the length of the packet that was added. *)
Inductive rx_change (s : dvb_ca_slot) (st : Z) (s' : dvb_ca_slot) : Prop :=
| RxNothing : st <= 0 -> io_change s s' -> rx_change s st s'
| RxPacket r r' b : rx_buffer s = Some r -> s' = set_rx_buffer (Some r') s -> zlen b = st ->
    2 <= st <= link_buf_size s ->
    (forall ps, link_ring r ps -> link_ring r' (ps ++ [Packet PKT_READY b])) -> rx_change s st s'.

Lemma push_packet r ps b :
  link_ring r ps -> 2 <= zlen b <= HOST_LINK_BUF_SIZE -> zlen b + 3 <= dvb_ringbuffer_free r ->
  exists r', dvb_ringbuffer_pkt_write r b = Some (zlen b, r') /\
    forall ps, link_ring r ps -> link_ring r' (ps ++ [Packet PKT_READY b]).
Proof.
  intros (H & Hs & Hl) Hb Hf. unfold HOST_LINK_BUF_SIZE in Hb.
  destruct (pkt_write_run r ps b H ltac:(lia) Hf) as (r' & E & _). exists r'. split; [done|].
  intros ps' (H' & _ & Hl'). destruct (pkt_write_run r ps' b H' ltac:(lia) Hf) as (r'' & E' & H'' & Hs').
  rewrite E in E'. injection E' as <-. split; [done|]. split; [congruence|]. apply Forall_app.
  split; [done|]. constructor; [|constructor]. done.
Qed.

(** An error code is returned as it is. *)
Lemma rx_error slot s st k k' (w w' : W) (P : dvb_ca_slot -> Prop) :
  stepped slot P k w w' -> (forall s', P s' -> io_change s s') -> st <= 0 -> k <= k' ->
  stepped slot (rx_change s st) k' w w'.
Proof. intros H HP Hst Hk. eapply stepped_mono; [exact H| |exact Hk]. intros s' Hs'. apply RxNothing; auto. Qed.
Lemma io_same s s' : s = s' -> io_change s s'.
Proof. intros ->. by left. Qed.
#[local] Hint Resolve io_same : core.
#[local] Hint Unfold io_change : core.

Lemma read_data_run stack slot s (w : W) :
  slot_at (ca_of w) slot = Some s -> slot_wf s -> zlen stack = HOST_LINK_BUF_SIZE ->
  twp (dvb_ca_en50221_read_data stack slot None 0)
    (fun '(st, _) w' => stepped slot (rx_change s st) 600 w w') w.
Proof.
  intros Hs [_ Hlink _ Hring] Hst. unfold HOST_LINK_BUF_SIZE in *. unfold dvb_ca_en50221_read_data.
  pose proof (stepped_start slot s w Hs) as S0. st_step. subst s0.
  assert (Hexit : forall (st k : Z) P (w' : W), stepped slot P k w w' -> (forall s', P s' -> io_change s s') ->
            st <= 0 -> k <= 600 -> twp (mret (st, None) : T _ (Z * option (list Z)))
              (fun '(st, _) w' => stepped slot (rx_change s st) 600 w w') w').
  { intros. apply twp_ret. by eapply rx_error. }
  destruct (rx_buffer s) as [rx|] eqn:Erx; [|by eapply Hexit; eauto].
  destruct Hring as (ps & Hring).
  destruct (dvb_ringbuffer_free rx <? _) eqn:Efree; [by eapply Hexit; eauto|].
  unfold DVB_RINGBUFFER_PKTHDRSIZE in Efree.
  do 2 st_step; [eapply Hexit; [eassumption|auto|lia|lia]|].
  st_step; [eapply Hexit; [eassumption|auto|lia|lia]|].
  do 2 st_step; [eapply Hexit; [eassumption|auto|lia|lia]|].
  do 2 st_step; [eapply Hexit; [eassumption|auto|lia|lia]|].
  rewrite size_bytes by lia. set (n := r0 * 256 + r1).
  destruct ((link_buf_size s <? n) || (n <? 2)) eqn:En.
  { do 2 apply twp_bind. eapply (st_mod_slot ltac:(eassumption) _ (io_change s)).
    - intros s' ->. by right.
    - intros w9 S9. apply twp_ret. cbn. eapply Hexit; [exact S9|auto|done|lia]. }
  apply orb_false_iff in En as [En1 En2].
  apply twp_bind, twp_ret. cbn [Z.ltb Z.compare].
  apply twp_bind. eapply twp_mono; [eapply fill_loop_run; [eassumption|lia|lia]|].
  intros [err buf] w9 (S9 & Hz & _ & He).
  destruct err as [e|]; [eapply Hexit; [exact S9|auto|lia|lia]|].
  do 2 st_step; [eapply Hexit; [eassumption|auto|lia|lia]|].
  st_step.
  { apply twp_bind. eapply (st_mod_slot ltac:(eassumption) _ (io_change s)).
    - intros s' ->. by right.
    - intros w10 S10. eapply Hexit; [exact S10|auto|done|lia]. }
  apply twp_bind. st_step. subst s0. rewrite Erx. rewrite decide_True by lia.
  assert (Hb : zlen (ztake n buf) = n) by (apply zlen_ztake; lia).
  destruct (push_packet rx ps (ztake n buf) Hring) as (rx' & Ew & Hpush);
    [unfold HOST_LINK_BUF_SIZE; lia|lia|].
  apply twp_bind. eapply twp_ca_lift; [exact Ew|].
  apply twp_bind. eapply (st_mod_slot ltac:(eassumption) _ (eq (set_rx_buffer (Some rx') s))).
  - by intros s' <-.
  - intros w10 S10. apply twp_ret. cbn [Z.ltb Z.compare].
    apply twp_bind. eapply twp_ca_lift; [apply zget_in; lia|].
    assert (Hdone : forall w', stepped slot (eq (set_rx_buffer (Some rx') s)) (0 + 1 + 1 + 1 + Z.of_nat (Z.to_nat n) + 1) w w' ->
              stepped slot (rx_change s n) 600 w w').
    { intros w' S'. eapply stepped_mono; [exact S'| |lia]. intros s' <-.
      by apply (RxPacket s n _ rx rx' (ztake n buf)); try lia. }
    apply twp_bind. apply twp_if; intros _.
    + st_step. apply twp_ret. by apply Hdone.
    + apply twp_ret, twp_ret. by apply Hdone.
Qed.

(** Reading into a buffer of two bytes. *)
Lemma read_data_two stack slot s buf (w : W) :
  slot_at (ca_of w) slot = Some s -> zlen stack = HOST_LINK_BUF_SIZE -> zlen buf = 2 ->
  bytes stack -> bytes buf ->
  twp (dvb_ca_en50221_read_data stack slot (Some buf) 2)
    (fun '(st, e) w' => stepped slot (io_change s) 20 w w' /\ exists buf', e = Some buf' /\ zlen buf' = 2 /\ bytes buf') w.
Proof.
  intros Hs Hst Hbuf Hsb Hbb0. unfold HOST_LINK_BUF_SIZE in *. unfold dvb_ca_en50221_read_data.
  pose proof (stepped_start slot s w Hs) as S0. st_step. subst s0.
  set (Q := fun _ : Z * option (list Z) => _).
  assert (Hexit : forall (st k : Z) b (w' : W), stepped slot (eq s) k w w' -> k <= 20 -> zlen b = 2 /\ bytes b ->
            twp (mret (st, Some b) : T _ (Z * option (list Z))) Q w').
  { intros. apply twp_ret. split; [|by exists b]. eapply stepped_mono; [eassumption|auto|done]. }
  do 2 st_step; [eapply Hexit; [eassumption|lia|auto]|].
  st_step; [eapply Hexit; [eassumption|lia|auto]|].
  do 2 st_step; [eapply Hexit; [eassumption|lia|auto]|].
  do 2 st_step; [eapply Hexit; [eassumption|lia|auto]|].
  rewrite size_bytes by lia. set (n := r0 * 256 + r1).
  destruct (2 <? n) eqn:En.
  { apply twp_bind, twp_ret. cbn. eapply Hexit; [eassumption|lia|auto]. }
  apply twp_bind, twp_ret. cbn [Z.ltb Z.compare].
  apply twp_bind. eapply twp_mono; [eapply fill_loop_run; [eassumption|lia|lia]|].
  intros [err b] w9 (S9 & Hz & Hbb & He).
  destruct err as [e|]; [eapply Hexit; [exact S9|lia|auto]|].
  do 2 st_step; [eapply Hexit; [eassumption|lia|auto]|].
  st_step.
  { apply twp_bind. eapply (st_mod_slot ltac:(eassumption) _ (io_change s)).
    - intros s' ->. by right.
    - intros w10 S10. apply twp_ret. split; [|by exists buf]. eapply stepped_mono; [exact S10|auto|lia]. }
  rewrite decide_True by lia.
  assert (Hb : zlen (ztake n b) = n) by (apply zlen_ztake; lia).
  do 2 apply twp_bind. eapply twp_ca_lift.
  { unfold copy_to. rewrite decide_True by lia. done. }
  apply twp_ret. cbn [Z.ltb Z.compare].
  assert (Hz2 : zlen (zsplice buf 0 (ztake n b)) = 2) by (rewrite zlen_zsplice; lia).
  assert (Hb2 : bytes (zsplice buf 0 (ztake n b))) by auto with bgt.
  apply twp_bind. eapply twp_ca_lift; [apply zget_in; lia|].
  apply twp_bind. apply twp_if; intros _.
  - st_step. eapply Hexit; [eassumption|lia|auto].
  - apply twp_ret. eapply Hexit; [eassumption|lia|auto].
Qed.

Lemma io_change_wf s s' : slot_wf s -> io_change s s' -> slot_wf s' /\ slot_lock s' = slot_lock s.
Proof.
  intros H [->| ->]; [done|]. split; [|done]. destruct H as [_ Hl Hc Hr]. split; [|done|done|].
  - by apply (bool_decide_unpack _).
  - simpl. by destruct (rx_buffer s).
Qed.
Lemma rx_change_wf s st s' : slot_wf s -> rx_change s st s' -> slot_wf s' /\ slot_lock s' = slot_lock s.
Proof.
  intros H [_ Hio|r r' b Er -> _ _ Hp]; [by apply io_change_wf|]. split; [|done].
  destruct H as [Hst Hl Hc Hr]. rewrite Er in Hr. destruct Hr as (ps & Hr). split; [done|done|done|].
  simpl. exists (ps ++ [Packet PKT_READY b]). auto.
Qed.

(** ** Code that may sleep *)

Context (n fl : Z) {rely : ca_rely HZ others n fl}.

Lemma stepped_wf lk m i P k b (w w' : W) :
  ca_wf n fl lk m (ca_of w) -> stepped i P k w w' -> lk !! Z.to_nat i = Some b ->
  (forall s', P s' -> slot_wf s' /\ slot_lock s' = b) -> ca_wf n fl lk m (ca_of w').
Proof.
  intros H [Ht _] Hlk HP. rewrite <- (list_insert_id lk (Z.to_nat i) b) by done.
  eapply touches_wf; [exact H|]. by eapply touches_mono.
Qed.

Lemma wf_slot lk m c i : ca_wf n fl lk m c -> 0 <= i < n ->
  exists s, slot_at c i = Some s /\ slot_wf s /\ lk !! Z.to_nat i = Some (slot_lock s).
Proof.
  intros [_ _ Hz Hl _ _ _ Hwf] Hi. destruct (slot_at_in c i ltac:(lia)) as (s & Hs). exists s. split; [done|].
  unfold slot_at in Hs. rewrite decide_True in Hs by lia. split; [by eapply Forall_lookup in Hwf|].
  by rewrite <- Hl, list_lookup_fmap, Hs.
Qed.

(** The clock. *)
Lemma twp_jiffies (Q : Z -> W -> Prop) w :
  (forall w', ca_of w' = ca_of w -> quiet (hw_of w) (hw_of w') -> Q (u64 (now (hw_of w'))) w') -> twp jiffies Q w.
Proof.
  intros H. apply twp_sys. intros w' Ec Eh. destruct (ok_jiffies (hw_of w)) as [-> Hq]. rewrite <- Eh in *. by apply H.
Qed.
Lemma twp_read_cam slot a (Q : Z -> W -> Prop) w :
  (forall r w', ca_of w' = ca_of w -> quiet (hw_of w) (hw_of w') -> Q r w') -> twp (read_cam_control slot a) Q w.
Proof.
  intros H. apply twp_sys. intros w' Ec Eh. apply H; [done|]. rewrite Eh. apply ok_read_cam_control.
Qed.
Lemma twp_msleep (Q : unit -> W -> Prop) w :
  (forall w', w_st w' = others (w_st w) -> Q tt w') -> twp (msleep others) Q w.
Proof. intros H. by apply H. Qed.

(** Every turn of a waiting loop sleeps for a jiffy: it ends in time. *)
Lemma wait_loop_run fuel : forall T slot waitfor lk m (w : W),
  ca_wf n fl lk m (ca_of w) ->
  (0 < fuel)%nat -> T + 2 <= now (hw_of w) + Z.of_nat fuel -> now (hw_of w) <= T + 2 ^ 40 -> T - now (hw_of w) < 2 ^ 40 ->
  twp (wait_loop others fuel slot waitfor (u64 T)) (fun _ w' => ca_wf n fl lk m (ca_of w')) w.
Proof.
  assert (Hct : call_time = 2 ^ 32) by done.
  induction fuel as [|fuel IH]; intros T slot waitfor lk m w H H0 Hf Hu Hl; [lia|]. cbn [wait_loop].
  apply twp_bind, twp_read_cam. intros res w1 E1 [T1 _].
  apply twp_if; intros _; [apply twp_ret; by rewrite E1|].
  apply twp_if; intros _; [apply twp_ret; by rewrite E1|].
  apply twp_bind, twp_jiffies. intros w2 E2 [T2 _]. rewrite jiffies_after_spec by lia.
  apply twp_if; intros Hlt; [apply twp_ret; by rewrite E2, E1|].
  apply twp_bind, twp_msleep. intros w3 E3. pose proof (rely_time (w_st w2)) as Ho. rewrite <- E3 in Ho.
  fold (hw_of w2) (hw_of w3) in Ho.
  apply IH; [|lia..]. unfold ca_of. rewrite E3. apply (rely_wf (HZ := HZ)). fold (ca_of w2). by rewrite E2, E1.
Qed.

Lemma wait_if_status_run slot waitfor hz lk m (w : W) :
  ca_wf n fl lk m (ca_of w) -> 0 <= hz < 2 ^ 20 ->
  twp (dvb_ca_en50221_wait_if_status others slot waitfor hz) (fun _ w' => ca_wf n fl lk m (ca_of w')) w.
Proof.
  intros H Hhz. unfold dvb_ca_en50221_wait_if_status.
  apply twp_bind, twp_jiffies. intros w1 E1 _. apply twp_bind, twp_jiffies. intros w2 E2 _.
  replace (u64 (u64 (now (hw_of w2)) + hz)) with (u64 (now (hw_of w2) + hz)).
  - apply wait_loop_run; [by rewrite E2, E1|lia..].
  - unfold u64. by rewrite Zplus_mod_idemp_l.
Qed.

(** *** Attribute memory *)

Lemma tuple_loop_run k : forall j slot a tuple i P c (w0 w : W),
  stepped i P c w0 w -> 0 <= j -> j + Z.of_nat k <= zlen tuple ->
  twp (tuple_loop k j slot a tuple) (fun tuple' w' => stepped i P (c + Z.of_nat k) w0 w' /\ zlen tuple' = zlen tuple) w.
Proof.
  induction k as [|k IH]; intros j slot a tuple i P c w0 w S Hj Hn; cbn [tuple_loop].
  - apply twp_ret. by rewrite Z.add_0_r.
  - st_step. apply twp_bind. eapply twp_ca_lift; [apply put8_in; lia|].
    eapply twp_mono; [eapply (IH (j + 1)); [eassumption|lia|rewrite zlen_zset; lia]|].
    intros tuple' w2 (S2 & Hz). rewrite zlen_zset in Hz. split; [|done].
    eapply stepped_mono; [exact S2|done|lia].
Qed.

(** A tuple is read into the buffer, or an error is returned; the address moves on. *)
Definition tuple_ok (r r' : tuple_result) : Prop :=
  zlen (t_tuple r') = 257 /\
  (t_status r' < 0 \/ t_status r' = 0 /\ t_address r + 2 <= t_address r' /\ 0 <= t_length r' < 256).

Lemma read_tuple_run slot r i P c (w0 w : W) :
  stepped i P c w0 w -> zlen (t_tuple r) = 257 ->
  twp (dvb_ca_en50221_read_tuple slot r) (fun r' w' => stepped i P (c + 300) w0 w' /\ tuple_ok r r') w.
Proof.
  intros S Hz. unfold dvb_ca_en50221_read_tuple, tuple_ok.
  do 2 st_step; [apply twp_ret; split; [eapply stepped_mono; [eassumption|done|lia]|simpl; split; [done|lia]]|].
  st_step; [apply twp_ret; split; [eapply stepped_mono; [eassumption|done|lia]|simpl; split; [done|lia]]|].
  do 2 st_step; [apply twp_ret; split; [eapply stepped_mono; [eassumption|done|lia]|simpl; split; [done|lia]]|].
  apply twp_bind. eapply twp_mono; [eapply tuple_loop_run; [eassumption|lia..]|]. intros tuple' w9 (S9 & Hz').
  apply twp_ret. split; [eapply stepped_mono; [exact S9|done|lia]|]. simpl. split; [congruence|lia].
Qed.

(** What reading the attributes does to a slot. *)
Definition config_change (s s' : dvb_ca_slot) : Prop := exists base option, s' = set_config base option s.
Lemma config_change_refl s s' : s = s' -> config_change s s'.
Proof. intros <-. exists (config_base s), (config_option s). by destruct s. Qed.
Lemma config_change_set s b o s1 : config_change s s1 -> config_change s (set_config b o s1).
Proof. intros (b0 & o0 & ->). by exists b, o. Qed.

Lemma cftable_loop_run fuel : forall slot s got r c (w0 w : W),
  stepped slot (config_change s) c w0 w -> zlen (t_tuple r) = 257 -> 0x1000 <= t_address r + Z.of_nat fuel ->
  twp (cftable_loop fuel slot got r) (fun _ w' => exists c', stepped slot (config_change s) c' w0 w') w.
Proof.
  induction fuel as [|fuel IH]; intros slot s got r c w0 w S Hz Ha; cbn [cftable_loop].
  - rewrite (proj2 (Z.ltb_ge _ _)) by lia. apply twp_ret. by exists c.
  - st_step; [|apply twp_ret; by exists c].
    apply twp_bind. eapply twp_mono; [by eapply read_tuple_run|]. intros r1 w1 (S1 & Hz1 & Hr1).
    st_step; [apply twp_ret; by eexists|].
    assert (Hgo : forall b w', stepped slot (config_change s) (c + 300) w0 w' ->
              twp (cftable_loop fuel slot b r1) (fun _ w' => exists c', stepped slot (config_change s) c' w0 w') w').
    { intros b w' S'. eapply IH; [exact S'|done|lia]. }
    st_step; [|st_step; [apply twp_ret; by eexists|by apply Hgo]].
    st_step; [by apply Hgo|]. st_step; [by apply Hgo|].
    apply twp_bind. eapply twp_ca_lift; [apply zget_in; lia|].
    apply twp_bind. eapply (st_mod_slot S1 _ (config_change s)).
    + intros s' Hs'. by apply config_change_set.
    + intros w2 S2. destruct (findstr _ _ _ _); [destruct (findstr _ _ _ _)|]; by apply Hgo.
Qed.

Lemma expect_tuple_run slot type r k i P c (w0 w : W) (Q : Z -> W -> Prop) :
  stepped i P c w0 w -> zlen (t_tuple r) = 257 ->
  (forall st c' w', stepped i P c' w0 w' -> Q st w') ->
  (forall r' c' w', stepped i P c' w0 w' -> zlen (t_tuple r') = 257 -> t_address r <= t_address r' ->
    twp (k r') Q w') ->
  twp (expect_tuple slot type r k) Q w.
Proof.
  intros S Hz Hfail Hk. unfold expect_tuple. apply twp_bind.
  eapply twp_mono; [by eapply read_tuple_run|]. intros r1 w1 (S1 & Hz1 & Hr1).
  st_step; [apply twp_ret; by eapply Hfail|]. st_step; [apply twp_ret; by eapply Hfail|].
  eapply Hk; [exact S1|done|lia].
Qed.

Lemma config_base_loop_some k : forall i base tuple,
  0 <= i -> 2 + i + Z.of_nat k <= zlen tuple -> exists v, config_base_loop k i base tuple = Some v.
Proof.
  induction k as [|k IH]; intros i base tuple Hi Hk; cbn [config_base_loop]; [by exists base|].
  rewrite zget_in by lia. cbn [mbind option_bind]. apply IH; lia.
Qed.

Lemma parse_attributes_run tuple0 slot s (w : W) :
  slot_at (ca_of w) slot = Some s -> zlen tuple0 = 257 ->
  twp (dvb_ca_en50221_parse_attributes tuple0 slot)
    (fun _ w' => exists c, stepped slot (config_change s) c w w') w.
Proof.
  intros Hs Hz. assert (S : stepped slot (config_change s) 0 w w).
  { eapply stepped_mono; [by apply stepped_start|apply config_change_refl|lia]. }
  unfold dvb_ca_en50221_parse_attributes.
  set (Q := fun (_ : Z) (w' : W) => exists c, stepped slot (config_change s) c w w').
  assert (Hfail : forall (st c : Z) w', stepped slot (config_change s) c w w' -> Q st w') by (intros; by eexists).
  eapply (expect_tuple_run _ _ _ _ _ _ _ _ _ Q S); [done|done|]. clear S. intros r1 c1 w1 S Hz1 Ha1.
  eapply (expect_tuple_run _ _ _ _ _ _ _ _ _ Q S); [done|done|]. clear S. intros r2 c2 w2 S Hz2 Ha2.
  eapply (expect_tuple_run _ _ _ _ _ _ _ _ _ Q S); [done|done|]. clear S. intros r3 c3 w3 S Hz3 Ha3.
  eapply (expect_tuple_run _ _ _ _ _ _ _ _ _ Q S); [done|done|]. clear S. intros r4 c4 w4 S Hz4 Ha4.
  st_step; [apply twp_ret; by eapply Hfail|].
  eapply (expect_tuple_run _ _ _ _ _ _ _ _ _ Q S); [done|done|]. clear S. intros r5 c5 w5 S Hz5 Ha5.
  st_step; [apply twp_ret; by eapply Hfail|].
  apply twp_bind. eapply twp_ca_lift; [apply zget_in; lia|]. set (rasz := Z.land _ 3).
  pose proof (land_range (t_tuple r5).[0] 3 ltac:(lia)) as Hrasz. fold rasz in Hrasz.
  st_step; [apply twp_ret; by eapply Hfail|].
  destruct (config_base_loop_some (Z.to_nat (rasz + 1)) 0 0 (t_tuple r5)) as (base & Eb); [lia..|].
  apply twp_bind. eapply twp_ca_lift; [exact Eb|].
  apply twp_bind. eapply (st_mod_slot S _ (config_change s)); [intros s'; apply config_change_set|].
  clear S. intros w6 S.
  destruct (findstr _ _ _ _) as [str|]; [|apply twp_ret; by eapply Hfail].
  st_step; [apply twp_ret; by eapply Hfail|]. st_step; [apply twp_ret; by eapply Hfail|].
  apply twp_bind. eapply twp_mono; [eapply cftable_loop_run; [exact S|done|simpl in *; lia]|].
  intros [[st got] a] w7 (c7 & S7). st_step; [apply twp_ret; by eapply Hfail|].
  st_step; apply twp_ret; by eapply Hfail.
Qed.
End link_layer.
