(* ===== verification/DvbCaThread.v ===== *)
(** * DvbCaThread: the thread that watches the CA slots

    One turn of the thread keeps the invariant of DvbCaInv.v, never stops short, and moves
    each slot along the edges of the slot state machine ([next_states]). *)

From S2P Require Import Prelude Asn1 CaLink DvbRingbuffer DvbCa DvbCaIo DvbCaRead DvbCaInv.

(** ** The slot state machine *)

(** The states one turn of the thread may leave a slot in, from the state it finds. *)
Definition next_states (st : Z) : list Z :=
  if st =? DVB_CA_SLOTSTATE_UNINITIALISED then [DVB_CA_SLOTSTATE_WAITREADY]
  else if st =? DVB_CA_SLOTSTATE_WAITREADY then [DVB_CA_SLOTSTATE_WAITREADY; DVB_CA_SLOTSTATE_INVALID]
  else if st =? DVB_CA_SLOTSTATE_VALIDATE then
    [DVB_CA_SLOTSTATE_WAITFR; DVB_CA_SLOTSTATE_INVALID; DVB_CA_SLOTSTATE_NONE]
  else if st =? DVB_CA_SLOTSTATE_WAITFR then
    [DVB_CA_SLOTSTATE_WAITFR; DVB_CA_SLOTSTATE_LINKINIT; DVB_CA_SLOTSTATE_INVALID]
  else if st =? DVB_CA_SLOTSTATE_LINKINIT then
    [DVB_CA_SLOTSTATE_RUNNING; DVB_CA_SLOTSTATE_INVALID; DVB_CA_SLOTSTATE_NONE]
  else if st =? DVB_CA_SLOTSTATE_RUNNING then [DVB_CA_SLOTSTATE_RUNNING; DVB_CA_SLOTSTATE_LINKINIT]
  else [st].

(** What a change of the CAM does before that: it was removed, inserted, or became ready. *)
Inductive cam_change (st : Z) : Z -> Prop :=
| CamSame : cam_change st st
| CamRemoved : cam_change st DVB_CA_SLOTSTATE_NONE
| CamInserted : cam_change st DVB_CA_SLOTSTATE_UNINITIALISED
| CamReady : st = DVB_CA_SLOTSTATE_WAITREADY -> cam_change st DVB_CA_SLOTSTATE_VALIDATE.

Definition slot_step (st st' : Z) : Prop := exists st1, cam_change st st1 /\ st' ∈ next_states st1.

(** Counting in 32 bits. *)
Lemma s32_range z : - 2 ^ 31 <= s32 z < 2 ^ 31.
Proof. unfold s32. pose proof (u32_range z). case_decide; lia. Qed.
Lemma u32_s32 z : u32 (s32 z) = u32 z.
Proof.
  unfold s32. set (v := u32 z). pose proof (u32_range z) as Hv. fold v in Hv. case_decide; [by apply u32_small|].
  unfold u32. rewrite <- (Z.mod_add _ 1) by lia.
  replace (v - 2 ^ 32 + 1 * 2 ^ 32) with v by lia. by apply Z.mod_small.
Qed.
Lemma count_down c : - 2 ^ 31 <= c < 2 ^ 31 -> c <> 0 -> 0 < u32 c /\ u32 (s32 (c - 1)) = u32 c - 1.
Proof.
  intros Hc Hn. rewrite u32_s32. unfold u32. change (2 ^ 32) with 4294967296. change (2 ^ 31) with 2147483648 in Hc. lia.
Qed.

Section thread.
Context {HW : Type} {sys : ca_system HW} {sys_ok : ca_system_ok sys}.
Context (HZ : Z) (others : ca_state HW -> ca_state HW) (n fl : Z) {rely : ca_rely HZ others n fl}.
Context (lk : list bool) (m : bool) (i : Z).
Hypothesis i_range : 0 <= i < n.
Hypothesis i_locked : lk !! Z.to_nat i = Some true.
Abbreviation W := (world (ca_state HW)).
Implicit Types w : W.

(** The invariant while the thread works on slot [i], whose lock it holds. *)
Local Notation "'WF' w" := (ca_wf n fl lk m (ca_of w)) (at level 10, w at level 9).
Definition slot_in (l : list Z) (w : W) : Prop := exists s, slot_at (ca_of w) i = Some s /\ slot_state s ∈ l.
Definition kept (s s' : dvb_ca_slot) : Prop := slot_wf s' /\ slot_lock s' = slot_lock s.

Lemma wf_locked w : WF w -> exists s, slot_at (ca_of w) i = Some s /\ slot_wf s /\ slot_lock s = true.
Proof.
  intros H. destruct (wf_slot n fl lk m _ i H i_range) as (s & Hs & Hw & Hl). exists s.
  split; [done|]. split; [done|]. congruence.
Qed.

Lemma stepped_kept P k (w w' : W) :
  WF w -> stepped i P k w w' -> (forall s', P s' -> slot_wf s' /\ slot_lock s' = true) -> WF w'.
Proof. intros. by eapply stepped_wf. Qed.

(** Calls change nothing but the surroundings. *)
Lemma wf_sys {A} (f : HW -> A * HW) (Q : A -> W -> Prop) w :
  WF w -> (forall a w', ca_of w' = ca_of w -> WF w' -> Q a w') -> twp (sys_call f) Q w.
Proof. intros H HQ. apply twp_sys. intros w' E _. apply HQ; [done|]. by rewrite E. Qed.
Lemma wf_write_cam slot a v (Q : Z -> W -> Prop) w :
  WF w -> (forall r w', ca_of w' = ca_of w -> WF w' -> Q r w') -> twp (write_cam_control slot a v) Q w.
Proof. intros H HQ. unfold write_cam_control. apply twp_bind. unfold sent. red. by apply wf_sys. Qed.
Lemma wf_mod_ca f (Q : unit -> W -> Prop) w :
  minor f -> WF w -> (forall w', ca_of w' = f (ca_of w) -> WF w' -> Q tt w') -> twp (mod_ca f) Q w.
Proof.
  intros Hf H HQ. apply twp_mod_ca. intros w' E _. apply HQ; [done|]. rewrite E.
  destruct (Hf (ca_of w)) as (E1 & E2 & E3 & E4 & E5 & E6 & E7).
  destruct H. split; rewrite ?E1, ?E2, ?E3, ?E4, ?E5, ?E6, ?E7; done.
Qed.
Lemma wf_mod_slot f s (Q : unit -> W -> Prop) w :
  WF w -> slot_at (ca_of w) i = Some s -> kept s (f s) ->
  (forall w', WF w' -> slot_at (ca_of w') i = Some (f s) ->
     ca_of w' = put_slot (ca_of w) i (f s) /\ hw_of w' = hw_of w -> Q tt w') ->
  twp (mod_slot i f) Q w.
Proof.
  intros H Hs [Hw Hl] HQ. apply (twp_mod_slot i f s); [done|]. intros w' E Eh.
  assert (Ht : touches i (eq (f s)) (ca_of w) (ca_of w')) by (rewrite E; by eapply touches_put).
  pose proof Ht as ((s' & Hs' & <-) & _). apply HQ; [|done|by split].
  destruct (wf_locked w H) as (s1 & Hs1 & _ & Hl1). simplify_eq.
  rewrite <- (list_insert_id lk (Z.to_nat i) true) by done. eapply touches_wf; [exact H|].
  eapply touches_mono; [exact Ht|]. intros s' <-. split; [done|congruence].
Qed.

Lemma kept_state s st : slot_wf s -> st ∈ slot_states -> st <> DVB_CA_SLOTSTATE_RUNNING -> kept s (set_slot_state st s).
Proof.
  intros [_ Hl Hc Hr] Hst Hn. split; [|done]. split; [done|done|done|]. simpl. by destruct (rx_buffer s).
Qed.

Lemma kept_timeout v s : slot_wf s -> kept s (set_timeout v s).
Proof. intros H. split; [by destruct H|done]. Qed.
Lemma kept_trans s s' s'' : kept s s' -> kept s' s'' -> kept s s''.
Proof. intros [_ E] [? E']. split; [done|congruence]. Qed.

(** [slot_state = st; thread_update_delay(ca);] *)
Lemma set_state_delay_run st s w (L : list Z) :
  WF w -> slot_at (ca_of w) i = Some s -> kept s (set_slot_state st s) -> st ∈ L ->
  twp (set_state_delay HZ i st) (fun _ w' => WF w' /\ slot_in L w') w.
Proof.
  intros H Hs Hk HL. unfold set_state_delay. apply twp_bind. eapply wf_mod_slot; [done|done|done|].
  intros w1 H1 Hs1 _. apply wf_mod_ca; [by intros ?|done|]. intros w2 E H2. split; [done|].
  exists (set_slot_state st s). split; [|done]. rewrite E. exact Hs1.
Qed.

Ltac state_in := by apply (bool_decide_unpack _).

Lemma set_invalid_run w (L : list Z) :
  WF w -> DVB_CA_SLOTSTATE_INVALID ∈ L ->
  twp (set_state_delay HZ i DVB_CA_SLOTSTATE_INVALID) (fun _ w' => WF w' /\ slot_in L w') w.
Proof.
  intros H HL. destruct (wf_locked w H) as (s & Hs & Hw & _).
  eapply set_state_delay_run; [done|done| |done]. apply kept_state; [done|state_in|done].
Qed.

Lemma invalid_or_removed_run w (L : list Z) :
  WF w -> DVB_CA_SLOTSTATE_INVALID ∈ L -> DVB_CA_SLOTSTATE_NONE ∈ L ->
  twp (invalid_or_removed HZ i) (fun _ w' => WF w' /\ slot_in L w') w.
Proof.
  intros H HL1 HL2. unfold invalid_or_removed. apply twp_bind, twp_get_ca.
  destruct sys_poll_slot_status as [poll|] eqn:Ep; [|by apply set_invalid_run].
  apply twp_if; intros _; [|by apply set_invalid_run].
  apply twp_bind. apply wf_sys; [done|]. intros st w1 _ H1. destruct (wf_locked w1 H1) as (s & Hs & Hw & _).
  destruct (bit st _); (eapply set_state_delay_run; [done|done| |done]); (apply kept_state; [done|state_in|done]).
Qed.

(** *** The handlers of the states *)

Lemma slot_uninitialised_run w :
  WF w -> twp (slot_uninitialised HZ i) (fun _ w' => WF w' /\ slot_in [DVB_CA_SLOTSTATE_WAITREADY] w') w.
Proof.
  intros H. destruct (wf_locked w H) as (s & Hs & Hw & _). unfold slot_uninitialised.
  apply twp_bind. eapply wf_mod_slot; [done|done|by apply kept_state; [|state_in|]|]. intros w1 H1 Hs1 _.
  apply twp_bind. apply wf_sys; [done|]. intros _ w2 E2 H2. apply twp_bind. apply wf_sys; [done|].
  intros t w3 E3 H3. rewrite <- E2, <- E3 in Hs1. eapply wf_mod_slot; [done|done| |].
  - apply kept_timeout. by apply (kept_state s DVB_CA_SLOTSTATE_WAITREADY Hw); [state_in|].
  - intros w4 H4 Hs4 _. split; [done|]. eexists. split; [exact Hs4|]. apply list_elem_of_here.
Qed.

Lemma slot_waitready_run w s :
  WF w -> slot_at (ca_of w) i = Some s -> slot_state s = DVB_CA_SLOTSTATE_WAITREADY ->
  twp (slot_waitready HZ i) (fun _ w' => WF w' /\ slot_in (next_states DVB_CA_SLOTSTATE_WAITREADY) w') w.
Proof.
  intros H Hs Hst. unfold slot_waitready. apply twp_bind. apply wf_sys; [done|]. intros t w1 E1 H1.
  rewrite <- E1 in Hs. apply twp_bind. eapply twp_ca_slot; [done|].
  apply twp_if; intros _; [apply set_invalid_run; [done|state_in]|]. apply twp_ret. split; [done|].
  exists s. split; [done|]. rewrite Hst. state_in.
Qed.

Lemma slot_validate_run tuple0 w :
  WF w -> zlen tuple0 = 257 ->
  twp (slot_validate HZ tuple0 i) (fun _ w' => WF w' /\ slot_in (next_states DVB_CA_SLOTSTATE_VALIDATE) w') w.
Proof.
  intros H Hz. destruct (wf_locked w H) as (s & Hs & Hw & Hl). unfold slot_validate.
  apply twp_bind. eapply twp_mono; [by apply parse_attributes_run|]. intros st w1 (c & S1).
  assert (H1 : WF w1).
  { eapply stepped_kept; [done|exact S1|]. intros s' (b & o & ->). split; [|done]. by destruct Hw. }
  apply twp_if; intros _; [apply invalid_or_removed_run; [done|state_in|state_in]|].
  destruct (wf_locked w1 H1) as (s1 & Hs1 & Hw1 & _).
  apply twp_bind. unfold dvb_ca_en50221_set_configoption. apply twp_bind. eapply twp_ca_slot; [done|].
  apply twp_bind. apply wf_sys; [done|]. intros _ w2 _ H2. apply twp_bind. apply wf_sys; [done|]. intros _ w3 _ H3.
  apply twp_ret. cbn [negb Z.eqb]. apply twp_bind. apply wf_write_cam; [done|]. intros r w4 _ H4.
  apply twp_if; intros _; [apply set_invalid_run; [done|state_in]|].
  apply twp_bind. apply wf_sys; [done|]. intros t w5 _ H5. destruct (wf_locked w5 H5) as (s5 & Hs5 & Hw5 & _).
  apply twp_bind. eapply wf_mod_slot; [done|done| |].
  - eapply kept_trans; [by apply kept_timeout|]. apply kept_state; [by apply kept_timeout|state_in|done].
  - intros w6 H6 Hs6 _. apply wf_mod_ca; [by intros ?|done|]. intros w7 E7 H7. split; [done|].
    eexists. split; [rewrite E7; exact Hs6|]. state_in.
Qed.

Lemma slot_waitfr_run w s :
  WF w -> slot_at (ca_of w) i = Some s -> slot_state s = DVB_CA_SLOTSTATE_WAITFR ->
  twp (slot_waitfr HZ i) (fun _ w' => WF w' /\ slot_in (next_states DVB_CA_SLOTSTATE_WAITFR) w') w.
Proof.
  intros H Hs Hst. unfold slot_waitfr. apply twp_bind. apply wf_sys; [done|]. intros t w1 E1 H1.
  rewrite <- E1 in Hs. apply twp_bind. eapply twp_ca_slot; [done|].
  apply twp_if; intros _; [apply set_invalid_run; [done|state_in]|].
  apply twp_bind. apply wf_sys; [done|]. intros r w2 E2 H2. rewrite <- E2 in Hs.
  destruct (wf_locked w2 H2) as (s2 & Hs2 & Hw2 & _). simplify_eq.
  apply twp_if; intros _.
  - apply twp_bind. eapply wf_mod_slot; [done|done|by apply kept_state; [|state_in|]|]. intros w3 H3 Hs3 _.
    apply wf_mod_ca; [by intros ?|done|]. intros w4 E4 H4. split; [done|].
    eexists. split; [rewrite E4; exact Hs3|]. state_in.
  - apply twp_ret. split; [done|]. exists s. split; [done|]. rewrite Hst. state_in.
Qed.

(** *** Link initialisation *)

Lemma wf_or_exit (c k : T (ca_state HW) Z) w :
  twp c (fun _ w' => WF w') w -> (forall w', WF w' -> twp k (fun _ w' => WF w') w') ->
  twp (or_exit c k) (fun _ w' => WF w') w.
Proof.
  intros Hc Hk. unfold or_exit. apply twp_bind. eapply twp_mono; [exact Hc|]. intros st w1 H1.
  apply twp_if; intros _; [by apply twp_ret|auto].
Qed.
Lemma wf_write w a v : WF w -> twp (write_cam_control i a v) (fun _ w' => WF w') w.
Proof. intros H. by apply wf_write_cam. Qed.

(** The size of the link buffer: the smaller of what the CAM and the host have. *)
Lemma buf_size_range b0 b1 :
  byte b0 -> byte b1 ->
  let v := Z.lor (Z.shiftl b0 8) b1 in
  0 <= (if HOST_LINK_BUF_SIZE <? v then HOST_LINK_BUF_SIZE else v) <= HOST_LINK_BUF_SIZE.
Proof.
  unfold byte. intros H0 H1. cbv zeta. rewrite lor_byte by lia. unfold HOST_LINK_BUF_SIZE.
  destruct (_ <? _) eqn:?; lia.
Qed.

Lemma kept_link v s : slot_wf s -> 0 <= v <= HOST_LINK_BUF_SIZE -> kept s (set_link_buf_size v s).
Proof. intros H Hv. split; [by destruct H|done]. Qed.

Lemma link_init_run buf0 stack w :
  WF w -> zlen buf0 = 2 -> bytes buf0 -> zlen stack = HOST_LINK_BUF_SIZE -> bytes stack ->
  twp (dvb_ca_en50221_link_init HZ others buf0 stack i) (fun _ w' => WF w') w.
Proof.
  intros H Hb0 Hbb Hst Hsb. destruct (wf_locked w H) as (s & Hs & Hw & Hl).
  assert (Hhz : 10 <= HZ < 2 ^ 20) by (by destruct rely).
  unfold dvb_ca_en50221_link_init. apply twp_bind. eapply wf_mod_slot; [done|done| |].
  { eapply kept_trans; [|apply kept_link; [|unfold HOST_LINK_BUF_SIZE; lia]]; [split; [by destruct Hw|done]|by destruct Hw]. }
  intros w1 H1 Hs1 _. apply wf_or_exit; [by apply wf_write|]. clear w H Hs w1 H1 Hs1. intros w H.
  apply wf_or_exit; [eapply wait_if_status_run; [exact rely|done|lia]|]. clear w H. intros w H.
  destruct (wf_locked w H) as (s1 & Hs1 & Hw1 & Hl1).
  apply twp_bind. eapply twp_mono; [by eapply read_data_two|].
  intros [ret e] w1 (S1 & buf & -> & Hzb & Hb).
  assert (H1 : WF w1).
  { eapply stepped_kept; [done|exact S1|]. intros s' Hio. rewrite <- Hl1. by apply io_change_wf. }
  apply twp_if; intros _; [by apply twp_ret|]. apply wf_or_exit; [by apply wf_write|].
  clear w H Hs1 s1 Hw1 Hl1 w1 S1 H1. intros w H.
  apply twp_bind. eapply twp_ca_lift; [done|].
  apply twp_bind. eapply twp_ca_lift; [apply zget_in; lia|]. apply twp_bind. eapply twp_ca_lift; [apply zget_in; lia|].
  pose proof (buf_size_range _ _ (zat_byte buf 0 Hb) (zat_byte buf 1 Hb)) as Hsize. cbv zeta in Hsize |- *.
  set (size := if _ <? _ then _ else _) in *. clearbody size.
  destruct (wf_locked w H) as (s1 & Hs1 & Hw1 & Hl1).
  apply twp_bind. eapply wf_mod_slot; [done|done|by apply kept_link|]. intros w1 H1 _ _.
  apply wf_or_exit; [by apply wf_write|]. clear w H s1 Hs1 Hw1 Hl1 w1 H1. intros w H.
  apply wf_or_exit; [eapply wait_if_status_run; [exact rely|done|lia]|]. clear w H. intros w H.
  destruct (wf_locked w H) as (s1 & Hs1 & Hw1 & Hl1). apply twp_bind. eapply twp_mono.
  { eapply write_data_run; [done|by destruct Hw1 as [_ [_ ?] _ _]|]. split; [lia|done]. }
  intros ret' w1 S1. assert (H1 : WF w1).
  { eapply stepped_kept; [done|exact S1|]. intros s' Hio. rewrite <- Hl1. by apply io_change_wf. }
  apply twp_if; intros _; [by apply twp_ret|by apply wf_write].
Qed.

(** An empty ring. *)
Lemma new_ring data : zlen data = RX_BUFFER_SIZE -> link_ring (dvb_ringbuffer_init data RX_BUFFER_SIZE) [].
Proof.
  intros Hz. unfold RX_BUFFER_SIZE in *. destruct (init_ok data 65535 ltac:(lia) Hz) as [Hok Hc].
  split; [|done]. by split.
Qed.

Lemma slot_linkinit_run buf0 stack w :
  WF w -> zlen buf0 = 2 -> bytes buf0 -> zlen stack = HOST_LINK_BUF_SIZE -> bytes stack ->
  twp (slot_linkinit HZ others buf0 stack i)
    (fun _ w' => WF w' /\ slot_in (next_states DVB_CA_SLOTSTATE_LINKINIT) w') w.
Proof.
  intros H Hb0 Hbb Hst Hsb. unfold slot_linkinit.
  apply twp_bind. eapply twp_mono; [by apply link_init_run|]. intros st w1 H1.
  apply twp_if; intros _; [apply invalid_or_removed_run; [done|state_in|state_in]|].
  destruct (wf_locked w1 H1) as (s & Hs & Hw & Hl). apply twp_bind. eapply twp_ca_slot; [done|].
  assert (Hgo : forall w s, WF w -> slot_at (ca_of w) i = Some s -> slot_wf s -> is_Some (rx_buffer s) ->
    twp (if negb true then set_state_delay HZ i DVB_CA_SLOTSTATE_INVALID
         else sys_call (sys_slot_ts_enable i);; set_state_delay HZ i DVB_CA_SLOTSTATE_RUNNING)
      (fun _ w' => WF w' /\ slot_in (next_states DVB_CA_SLOTSTATE_LINKINIT) w') w).
  { clear -i_range i_locked sys_ok rely. intros w s H Hs Hw [r Hr]. cbn [negb]. apply twp_bind. apply wf_sys; [done|].
    intros _ w1 E1 H1. rewrite <- E1 in Hs. eapply set_state_delay_run; [done|done| |state_in].
    split; [|done]. destruct Hw as [_ Hlk Hc Hrx]. split; [state_in|done|done|]. simpl. by rewrite Hr in *. }
  destruct (rx_buffer s) as [r|] eqn:Er; [by apply twp_bind, twp_ret, (Hgo _ s); rewrite ?Er|].
  do 2 apply twp_bind. apply twp_sys. intros w2 E2 _. destruct (ok_vmalloc RX_BUFFER_SIZE (hw_of w1)) as [_ Hv].
  assert (H2 : WF w2) by (by rewrite E2).
  destruct ((sys_vmalloc RX_BUFFER_SIZE (hw_of w1)).1) as [data|].
  - rewrite <- E2 in Hs. apply twp_bind. eapply wf_mod_slot; [done|done| |].
    { split; [|done]. destruct Hw as [Hst1 Hlk Hc Hrx]. split; [done|done|done|].
      exists []. by apply new_ring. }
    intros w3 H3 Hs3 _. apply twp_ret. eapply (Hgo _ _ H3 Hs3); [|by eexists].
    destruct (wf_locked w3 H3) as (s3 & Hs3' & Hw3 & _). by simplify_eq.
  - apply twp_ret. cbn [negb]. apply set_invalid_run; [done|state_in].
Qed.

(** *** Changes of the CAM *)

Definition present (s : dvb_ca_slot) : bool := negb (slot_state s =? DVB_CA_SLOTSTATE_NONE).
Definition irq_camchange : bool := bit fl DVB_CA_EN50221_FLAG_IRQ_CAMCHANGE.
Abbreviation events w := (sys_poll_bound (hw_of w)).

Lemma kept_camchange c t s : slot_wf s -> - 2 ^ 31 <= c < 2 ^ 31 -> kept s (set_camchange c t s).
Proof. intros H Hc. split; [by destruct H|done]. Qed.

(** The answer of [check_camstatus] on slot [s], which becomes [s']: with interrupts, whether
    some are counted; else what polling the card says.  A change that is no new event is that
    the card and the state of the slot differ. *)
Definition cam_status (s s' : dvb_ca_slot) (changed : bool) (w w' : W) : Prop :=
  if irq_camchange then s' = s /\ changed = negb (camchange_count s =? 0)
  else quiet (hw_of w) (hw_of w') /\
    if changed then
      exists p : bool, s' = set_camchange 1 (if p then DVB_CA_EN50221_CAMCHANGE_INSERTED
                                          else DVB_CA_EN50221_CAMCHANGE_REMOVED) s /\
        (events w' = events w -> p = card (hw_of w) i /\ present s = negb p)
    else s' = s \/ slot_state s = DVB_CA_SLOTSTATE_WAITREADY /\ s' = set_slot_state DVB_CA_SLOTSTATE_VALIDATE s.

Lemma check_camstatus_run s w :
  WF w -> slot_at (ca_of w) i = Some s -> slot_wf s ->
  twp (dvb_ca_en50221_check_camstatus i)
    (fun b w' => WF w' /\ open (ca_of w') = open (ca_of w) /\
       exists s', slot_at (ca_of w') i = Some s' /\ cam_status s s' b w w') w.
Proof.
  intros H Hs Hw. unfold dvb_ca_en50221_check_camstatus, cam_status, irq_camchange. apply twp_bind, twp_get_ca.
  rewrite (cw_flags _ _ _ _ _ H). destruct (bit fl _) eqn:Eirq.
  { apply twp_bind. eapply twp_ca_slot; [done|]. apply twp_ret. split; [done|]. split; [done|]. by exists s. }
  unfold poll_slot_status. destruct sys_poll_slot_status as [poll|] eqn:Ep.
  2:{ destruct rely as [_ Hp _ _ _]. rewrite Eirq, Ep in Hp. by destruct Hp as [?|[? ?]]. }
  apply twp_bind, twp_sys. intros w1 E1 Eh. pose proof (ok_poll poll i (open (ca_of w)) (hw_of w) Ep) as Hpoll.
  rewrite <- E1 in Hs. assert (H1 : WF w1) by (by rewrite E1).
  destruct (poll i (open (ca_of w)) (hw_of w)) as [st h'] eqn:Epoll. simpl in Eh. subst h'.
  destruct Hpoll as [Hq Hev]. simpl. apply twp_bind. eapply twp_ca_slot; [done|].
  set (p := bit st DVB_CA_EN50221_POLL_CAM_PRESENT) in *.
  set (changed := if bit st DVB_CA_EN50221_POLL_CAM_CHANGED then true else _).
  destruct changed eqn:Ech.
  - apply twp_bind. eapply wf_mod_slot; [done|done|by apply kept_camchange|]. intros w2 H2 Hs2 [E2 Hhw]. apply twp_ret.
    split; [done|]. split; [by rewrite E2, <- E1|]. eexists. split; [exact Hs2|]. rewrite Hhw. split; [done|].
    exists p. split; [done|]. intros Eev. destruct (Hev Eev) as [Hc Hp].
    assert (Hcard : card (hw_of w1) i = card (hw_of w) i).
    { destruct Hq as (_ & [Hlt|[_ Hcd]]); [lia|]. apply Hcd. }
    split; [congruence|]. subst changed. rewrite Hc in Ech. unfold present.
    by destruct p, (slot_state s =? DVB_CA_SLOTSTATE_NONE).
  - apply twp_bind. destruct ((slot_state s =? _) && _) eqn:Er.
    + apply andb_true_iff in Er as [Est _]. apply Z.eqb_eq in Est.
      eapply wf_mod_slot; [done|done|by apply kept_state; [|state_in|]|]. intros w2 H2 Hs2 [E2 Hhw]. apply twp_ret.
      split; [done|]. split; [by rewrite E2, <- E1|]. eexists. split; [exact Hs2|]. rewrite Hhw. split; [done|]. by right.
    + apply twp_ret, twp_ret. split; [done|]. split; [by rewrite E1|]. exists s. split; [done|]. split; [done|]. by left.
Qed.

(** How many changes are still to be handled: those counted, or those the card can still
    report and the difference between the card and the slot. *)
Definition cam_fuel (s : dvb_ca_slot) w : nat :=
  if irq_camchange then Z.to_nat (u32 (camchange_count s))
  else 2 * events w + (if eqb (card (hw_of w) i) (present s) then 0 else 1).

(** The change is handled: the slot is shut down and, with a CAM present, starts anew. *)
Definition handled (s s' : dvb_ca_slot) : Prop :=
  slot_state s' = (if camchange_type s =? DVB_CA_EN50221_CAMCHANGE_INSERTED then DVB_CA_SLOTSTATE_UNINITIALISED
                   else DVB_CA_SLOTSTATE_NONE) /\
  camchange_count s' = s32 (camchange_count s - 1).

Lemma slot_shutdown_run s w (Q : Z -> W -> Prop) :
  WF w -> slot_at (ca_of w) i = Some s -> slot_wf s ->
  (forall w', WF w' -> slot_at (ca_of w') i = Some (set_slot_state DVB_CA_SLOTSTATE_NONE s) ->
     open (ca_of w') = open (ca_of w) -> quiet (hw_of w) (hw_of w') -> Q 0 w') ->
  twp (dvb_ca_en50221_slot_shutdown i) Q w.
Proof.
  intros H Hs Hw HQ. unfold dvb_ca_en50221_slot_shutdown. apply twp_bind, twp_sys. intros w1 E1 Eh1.
  rewrite <- E1 in Hs. assert (H1 : WF w1) by (by rewrite E1).
  apply twp_bind. eapply wf_mod_slot; [done|done|by apply kept_state; [|state_in|]|]. intros w2 H2 Hs2 [E2 Eh2].
  apply twp_bind. apply twp_mod_ca. intros w3 E3 Eh3. apply twp_ret. apply HQ.
  - rewrite E3. by destruct H2.
  - by rewrite E3.
  - rewrite E3. simpl. by rewrite E2, <- E1.
  - rewrite Eh3, Eh2, Eh1. apply ok_slot_shutdown.
Qed.

Lemma quiet_refl h : quiet h h.
Proof. split; [unfold call_time; lia|]. by right. Qed.

(** Handling one change. *)
Lemma handle_change_run s w (k : T (ca_state HW) unit) (Q : unit -> W -> Prop) :
  WF w -> slot_at (ca_of w) i = Some s -> slot_wf s ->
  (forall s' w', WF w' -> slot_at (ca_of w') i = Some s' -> slot_wf s' -> handled s s' ->
     open (ca_of w') = open (ca_of w) -> quiet (hw_of w) (hw_of w') -> twp k Q w') ->
  twp (s ← get_slot i;
       (if negb (slot_state s =? DVB_CA_SLOTSTATE_NONE) then dvb_ca_en50221_slot_shutdown i else mret 0);;
       s ← get_slot i;
       (if camchange_type s =? DVB_CA_EN50221_CAMCHANGE_INSERTED then
          mod_slot i (set_slot_state DVB_CA_SLOTSTATE_UNINITIALISED)
        else mret tt);;
       dvb_ca_en50221_thread_update_delay HZ;;
       mod_slot i (fun s => set_camchange (s32 (camchange_count s - 1)) (camchange_type s) s);;
       k) Q w.
Proof.
  intros H Hs Hw Hk. apply twp_bind. eapply twp_ca_slot; [done|].
  (* the rest, from the slot without a CAM *)
  assert (Hrest : forall s1 w1, WF w1 -> slot_at (ca_of w1) i = Some s1 -> slot_wf s1 ->
    slot_state s1 = DVB_CA_SLOTSTATE_NONE -> camchange_type s1 = camchange_type s ->
    camchange_count s1 = camchange_count s -> open (ca_of w1) = open (ca_of w) -> quiet (hw_of w) (hw_of w1) ->
    twp (s ← get_slot i;
       (if camchange_type s =? DVB_CA_EN50221_CAMCHANGE_INSERTED then
          mod_slot i (set_slot_state DVB_CA_SLOTSTATE_UNINITIALISED)
        else mret tt);;
       dvb_ca_en50221_thread_update_delay HZ;;
       mod_slot i (fun s => set_camchange (s32 (camchange_count s - 1)) (camchange_type s) s);;
       k) Q w1).
  { intros s1 w1 H1 Hs1 Hw1 Est Ety Ecnt Eop Hq. apply twp_bind. eapply twp_ca_slot; [done|].
    assert (Hend : forall s2 w2, WF w2 -> slot_at (ca_of w2) i = Some s2 -> slot_wf s2 ->
      slot_state s2 = (if camchange_type s =? DVB_CA_EN50221_CAMCHANGE_INSERTED then DVB_CA_SLOTSTATE_UNINITIALISED
                       else DVB_CA_SLOTSTATE_NONE) -> camchange_count s2 = camchange_count s ->
      open (ca_of w2) = open (ca_of w) -> quiet (hw_of w) (hw_of w2) ->
      twp (dvb_ca_en50221_thread_update_delay HZ;;
           mod_slot i (fun s => set_camchange (s32 (camchange_count s - 1)) (camchange_type s) s);; k) Q w2).
    { intros s2 w2 H2 Hs2 Hw2 Est2 Ecnt2 Eop2 Hq2. apply twp_bind. apply twp_mod_ca. intros w3 E3 Eh3.
      assert (H3 : WF w3) by (rewrite E3; by destruct H2).
      assert (Hs3 : slot_at (ca_of w3) i = Some s2) by (by rewrite E3).
      apply twp_bind. eapply wf_mod_slot; [done|done|apply kept_camchange; [done|apply s32_range]|].
      intros w4 H4 Hs4 [E4 Eh4]. eapply Hk; [done|exact Hs4| | | |].
      - apply kept_camchange; [done|apply s32_range].
      - split; simpl; [done|by rewrite Ecnt2].
      - rewrite E4, E3. done.
      - by rewrite Eh4, Eh3. }
    apply twp_bind. rewrite Ety. destruct (camchange_type s =? _) eqn:Ei.
    - eapply wf_mod_slot; [done|done|by apply kept_state; [|state_in|]|]. intros w2 H2 Hs2 [E2 Eh2].
      eapply Hend; [done|exact Hs2|by apply kept_state; [|state_in|]|done|done|by rewrite E2|by rewrite Eh2].
    - apply twp_ret. by eapply Hend. }
  apply twp_bind. destruct (slot_state s =? _) eqn:En; cbn [negb].
  - apply twp_ret. apply Z.eqb_eq in En. eapply (Hrest s); try done. apply quiet_refl.
  - eapply slot_shutdown_run; [done|done|done|]. intros w1 H1 Hs1 E1 Hq.
    eapply Hrest; [done|exact Hs1|by apply kept_state; [|state_in|]|done..].
Qed.

Lemma cam_change_trans a b c :
  b = DVB_CA_SLOTSTATE_NONE \/ b = DVB_CA_SLOTSTATE_UNINITIALISED -> cam_change b c -> cam_change a c.
Proof.
  intros Hb [ | | |Hr]; [|constructor..|].
  - destruct Hb as [->| ->]; constructor.
  - subst b. by destruct Hb.
Qed.

(** Each change handled leaves less to handle. *)
Lemma fuel_decreases s s1 s2 w w1 w2 fuel :
  slot_wf s -> cam_status s s1 true w w1 -> handled s1 s2 -> quiet (hw_of w1) (hw_of w2) ->
  (cam_fuel s w <= fuel)%nat -> exists fuel', fuel = S fuel' /\ (cam_fuel s2 w2 <= fuel')%nat.
Proof.
  intros Hw Hst [Est Ecnt] Hq Hf. unfold cam_status, cam_fuel in *. destruct irq_camchange eqn:Eirq.
  - destruct Hst as [-> Hc]. destruct Hw as [_ _ Hr _].
    destruct (count_down (camchange_count s) Hr) as [Hpos Hd]; [destruct (camchange_count s =? 0) eqn:?; [done|lia]|].
    rewrite Ecnt, Hd. destruct fuel as [|fuel]; [lia|]. exists fuel. split; [done|lia].
  - destruct Hst as [Hq1 (p & -> & Hp)]. simpl in Est.
    destruct Hq1 as [_ Hq1], Hq as [_ Hq].
    assert (Hm : forall b : bool, ((if b then 0 else 1) <= 1)%nat) by (intros []; lia).
    destruct Hq1 as [Hlt|[Eev Hcd]].
    { pose proof (Hm (eqb (card (hw_of w2) i) (present s2))). destruct fuel as [|fuel]; [lia|]. exists fuel. lia. }
    destruct (Hp Eev) as [Hcard Hpres]. rewrite <- Hcard, Hpres in Hf.
    assert (Hne : eqb p (negb p) = false) by (by destruct p). rewrite Hne in Hf.
    destruct fuel as [|fuel]; [lia|]. exists fuel. split; [done|].
    destruct Hq as [Hlt|[Eev2 Hcd2]]; [pose proof (Hm (eqb (card (hw_of w2) i) (present s2))); lia|].
    rewrite Hcd2, Hcd, <- Hcard. unfold present. rewrite Est. destruct p; simpl; lia.
Qed.

Lemma camchange_loop_run fuel : forall s w,
  WF w -> slot_at (ca_of w) i = Some s -> slot_wf s -> (cam_fuel s w <= fuel)%nat ->
  twp (camchange_loop HZ fuel i)
    (fun _ w' => WF w' /\ open (ca_of w') = open (ca_of w) /\
       exists s', slot_at (ca_of w') i = Some s' /\ slot_wf s' /\ cam_change (slot_state s) (slot_state s')) w.
Proof.
  induction fuel as [|fuel IH]; intros s w H Hs Hw Hf; cbn [camchange_loop];
    (apply twp_bind; eapply twp_mono; [by apply check_camstatus_run|]);
    intros changed w1 (H1 & E1 & s1 & Hs1 & Hst); (destruct (wf_locked w1 H1) as (s1' & Hs1' & Hw1 & _));
    simplify_eq; destruct changed; cbn [negb].
  2,4: apply twp_ret; split; [done|]; split; [done|]; exists s1; split; [done|]; split; [done|];
    unfold cam_status in Hst; destruct irq_camchange; [destruct Hst as [-> _]; constructor|];
    destruct Hst as [_ [->|[E ->]]]; constructor; done.
  - exfalso. destruct (fuel_decreases s s1 (set_camchange (s32 (camchange_count s1 - 1)) 0 (set_slot_state
      (if camchange_type s1 =? DVB_CA_EN50221_CAMCHANGE_INSERTED then DVB_CA_SLOTSTATE_UNINITIALISED
       else DVB_CA_SLOTSTATE_NONE) s1)) w w1 w1 0 Hw Hst ltac:(by split) (quiet_refl _) Hf) as (? & ? & _). done.
  - eapply handle_change_run; [done|done|done|]. intros s2 w2 H2 Hs2 Hw2 Hh E2 Hq.
    destruct (fuel_decreases s s1 s2 w w1 w2 (S fuel) Hw Hst Hh Hq Hf) as (fuel' & [= <-] & Hf').
    eapply twp_mono; [by apply (IH s2)|]. intros _ w3 (H3 & E3 & s3 & Hs3 & Hw3 & Hc). split; [done|].
    split; [congruence|]. exists s3. split; [done|]. split; [done|].
    eapply cam_change_trans; [|exact Hc]. destruct Hh as [-> _]. destruct (_ =? _); auto.
Qed.

(** *** The running state *)

Lemma rx_loop_run k : forall stack s w,
  WF w -> slot_at (ca_of w) i = Some s -> slot_wf s -> slot_state s = DVB_CA_SLOTSTATE_RUNNING ->
  zlen stack = HOST_LINK_BUF_SIZE ->
  twp (rx_loop k stack i) (fun _ w' => WF w' /\ slot_in (next_states DVB_CA_SLOTSTATE_RUNNING) w') w.
Proof.
  induction k as [|k IH]; intros stack s w H Hs Hw Hst Hz; cbn [rx_loop];
    (apply twp_bind; eapply twp_mono; [by apply read_data_run|]); intros [st e] w1 S1;
    (destruct (stepped_slot _ _ _ _ _ S1) as (s1 & Hs1 & Hrx));
    (destruct (wf_locked w H) as (s0 & Hs0 & _ & Hl); simplify_eq);
    (assert (Hk1 : slot_wf s1 /\ slot_lock s1 = slot_lock s) by (by eapply rx_change_wf));
    (assert (H1 : WF w1) by (eapply stepped_kept; [done|exact S1|]; intros s' Hs'; rewrite <- Hl; by eapply rx_change_wf));
    (assert (Hin : slot_in (next_states DVB_CA_SLOTSTATE_RUNNING) w1)
      by (exists s1; split; [done|]; destruct Hrx as [_ [->| ->]|? ? ? ? -> _ _ _]; simpl; rewrite ?Hst; state_in)).
  all: apply twp_if; intros Hpos; [by apply twp_ret|]; apply twp_bind, twp_get_ca;
    apply twp_if; intros _; [by apply twp_ret|];
    destruct Hrx as [Hneg _|r r' b Er -> Hb Hlen Hpush]; [lia|];
    destruct Hk1 as [Hw1 _]; apply twp_bind; (eapply twp_mono; [by apply check_camstatus_run|]);
    intros changed w2 (H2 & _ & s2 & Hs2 & Hcs).
  all: assert (Est2 : slot_state s2 = DVB_CA_SLOTSTATE_RUNNING)
    by (unfold cam_status in Hcs; destruct irq_camchange; [by destruct Hcs as [-> _]|];
        destruct Hcs as [_ Hcs]; destruct changed;
        [by destruct Hcs as (p & -> & _)|destruct Hcs as [->|[E _]]; [done|simpl in E; by rewrite Hst in E]]).
  all: assert (Hwake : twp (mod_ca (set_wakeup true))
         (fun _ w' => WF w' /\ slot_in (next_states DVB_CA_SLOTSTATE_RUNNING) w') w2)
    by (apply wf_mod_ca; [by intros ?|done|]; intros w3 E3 H3; split; [done|]; exists s2; rewrite E3; split; [done|];
        rewrite Est2; state_in).
  all: destruct changed; [exact Hwake|].
  - exact Hwake.
  - destruct k as [|k]; [exact Hwake|]. destruct (wf_locked w2 H2) as (s3 & Hs3 & Hw3 & _). simplify_eq. by apply (IH _ s2).
Qed.
End thread.

(** ** A turn of the thread *)

(** The uninitialised memory has the sizes of the buffers, and holds bytes. *)
Definition garbage_ok (g : garbage) : Prop :=
  zlen (g_tuple g) = 257 /\ zlen (g_stack g) = HOST_LINK_BUF_SIZE /\ bytes (g_stack g) /\
  zlen (g_buf g) = 2 /\ bytes (g_buf g).

Section turn.
Context {HW : Type} {sys : ca_system HW} {sys_ok : ca_system_ok sys}.
Context (HZ : Z) (others : ca_state HW -> ca_state HW) (n fl : Z) {rely : ca_rely HZ others n fl}.
Abbreviation W := (world (ca_state HW)).
Implicit Types w : W.

(** Taking and giving back the lock of a slot. *)
Lemma lock_slot_run lk m i (Q : unit -> W -> Prop) w :
  ca_wf n fl lk m (ca_of w) -> lk !! Z.to_nat i = Some false -> 0 <= i < n ->
  (forall s w', slot_at (ca_of w) i = Some s -> ca_wf n fl (<[Z.to_nat i := true]> lk) m (ca_of w') ->
     slot_at (ca_of w') i = Some (set_slot_lock true s) -> slot_wf (set_slot_lock true s) ->
     touches i (eq (set_slot_lock true s)) (ca_of w) (ca_of w') -> hw_of w' = hw_of w -> Q tt w') ->
  twp (slot_mutex_lock i) Q w.
Proof.
  intros H Hlk Hi HQ. destruct (wf_slot n fl lk m _ i H Hi) as (s & Hs & Hw & Hl).
  unfold slot_mutex_lock. eapply twp_alter_slot; [done| |].
  { simpl. rewrite Hlk in Hl. injection Hl as <-. done. }
  intros w' E Eh.
  assert (Hw' : slot_wf (set_slot_lock true s)) by (by destruct Hw).
  assert (Ht : touches i (eq (set_slot_lock true s)) (ca_of w) (ca_of w')) by (rewrite E; by eapply touches_put).
  pose proof Ht as ((s' & Hs' & <-) & _).
  apply (HQ s); [done| |done|done|done|done].
  eapply touches_wf; [exact H|]. eapply touches_mono; [exact Ht|]. by intros s' <-.
Qed.

Lemma unlock_slot_run lk m i (Q : unit -> W -> Prop) w :
  ca_wf n fl (<[Z.to_nat i := true]> lk) m (ca_of w) -> lk !! Z.to_nat i = Some false -> 0 <= i < n ->
  (forall s w', slot_at (ca_of w) i = Some s -> ca_wf n fl lk m (ca_of w') ->
     slot_at (ca_of w') i = Some (set_slot_lock false s) ->
     touches i (eq (set_slot_lock false s)) (ca_of w) (ca_of w') -> hw_of w' = hw_of w -> Q tt w') ->
  twp (slot_mutex_unlock i) Q w.
Proof.
  intros H Hlk Hi HQ. destruct (wf_slot _ _ _ _ _ i H Hi) as (s & Hs & Hw & Hl).
  unfold slot_mutex_unlock. apply (twp_mod_slot i _ s); [done|]. intros w' E Eh.
  assert (Ht : touches i (eq (set_slot_lock false s)) (ca_of w) (ca_of w')) by (rewrite E; by eapply touches_put).
  pose proof Ht as ((s' & Hs' & <-) & _).
  apply (HQ s); [done| |done|done|done].
  rewrite <- (list_insert_id lk (Z.to_nat i) false), <- (list_insert_insert_eq lk _ false true) by done.
  eapply touches_wf; [exact H|]. eapply touches_mono; [exact Ht|]. intros s' <-. split; [by destruct Hw|done].
Qed.

(** One slot: the invariant is kept, the lock given back, and the state moves by an edge of
    the state machine after what happened to the CAM. *)
Lemma thread_slot_run g lk m i s w :
  garbage_ok g -> ca_wf n fl lk m (ca_of w) -> lk !! Z.to_nat i = Some false -> 0 <= i < n ->
  slot_at (ca_of w) i = Some s ->
  twp (thread_slot HZ others g i)
    (fun _ w' => ca_wf n fl lk m (ca_of w') /\
       exists s', slot_at (ca_of w') i = Some s' /\ slot_step (slot_state s) (slot_state s')) w.
Proof.
  intros (Hg1 & Hg2 & Hg3 & Hg4 & Hg5) H Hlk Hi Hs. unfold thread_slot.
  apply twp_bind. eapply lock_slot_run; [done|done|done|]. intros s0 w1 Hs0 H1 Hs1 Hw1 _ _. simplify_eq.
  assert (Hlk1 : <[Z.to_nat i := true]> lk !! Z.to_nat i = Some true).
  { apply list_lookup_insert_eq. by eapply lookup_lt_Some. }
  apply twp_bind. eapply twp_ca_slot; [done|]. apply twp_bind, twp_get.
  apply twp_bind. eapply twp_mono.
  { eapply camchange_loop_run; [exact rely|exact Hi|exact Hlk1|exact H1|exact Hs1|exact Hw1|].
    unfold cam_fuel, hw_of. destruct (irq_camchange fl); [lia|].
    match goal with |- context [eqb ?a ?b] => destruct (eqb a b) end; lia. }
  intros _ w2 (H2 & _ & s2 & Hs2 & Hw2 & Hc). simpl in Hc.
  apply twp_bind. eapply twp_ca_slot; [done|]. apply twp_bind.
  eapply (twp_mono _ (fun _ w' => ca_wf n fl (<[Z.to_nat i := true]> lk) m (ca_of w') /\
    slot_in i (next_states (slot_state s2)) w')).
  2:{ intros _ w3 (H3 & s3 & Hs3 & Hin). eapply unlock_slot_run; [exact H3|done|done|].
      intros s4 w4 Hs4 H4 Hs4' _ _. simplify_eq. split; [done|]. eexists. split; [exact Hs4'|].
      by exists (slot_state s2). }
  cbv zeta. unfold next_states.
  destruct (slot_state s2 =? DVB_CA_SLOTSTATE_UNINITIALISED); [by eapply slot_uninitialised_run|].
  destruct (slot_state s2 =? DVB_CA_SLOTSTATE_WAITREADY) eqn:E1; [apply Z.eqb_eq in E1; by eapply slot_waitready_run|].
  destruct (slot_state s2 =? DVB_CA_SLOTSTATE_VALIDATE); [by eapply slot_validate_run|].
  destruct (slot_state s2 =? DVB_CA_SLOTSTATE_WAITFR) eqn:E2; [apply Z.eqb_eq in E2; by eapply slot_waitfr_run|].
  destruct (slot_state s2 =? DVB_CA_SLOTSTATE_LINKINIT); [by eapply slot_linkinit_run|].
  destruct (slot_state s2 =? DVB_CA_SLOTSTATE_RUNNING) eqn:E3.
  - apply Z.eqb_eq in E3. unfold slot_running. apply twp_bind, twp_get_ca. apply twp_if; intros _.
    + apply twp_ret. split; [done|]. exists s2. split; [done|]. rewrite E3. by apply (bool_decide_unpack _).
    + by eapply rx_loop_run.
  - apply twp_ret. split; [done|]. exists s2. split; [done|]. apply list_elem_of_here.
Qed.

(** A loop over the slots keeps what each turn keeps. *)
Lemma for_slots_run (I : W -> Prop) k : forall lo (body : Z -> T (ca_state HW) unit) w,
  (forall j w, lo <= j < lo + Z.of_nat k -> I w -> twp (body j) (fun _ w' => I w') w) -> I w ->
  twp (for_slots k lo body) (fun _ w' => I w') w.
Proof.
  induction k as [|k IH]; intros lo body w Hb HI; cbn [for_slots]; [by apply twp_ret|].
  apply twp_bind. eapply twp_mono; [apply Hb; [lia|done]|]. intros ? w1 H1.
  apply IH; [|done]. intros j w' Hj. apply Hb. lia.
Qed.

(** The invariant when no task works on the interface. *)
Definition idle (w : W) : Prop := ca_wf n fl (replicate (Z.to_nat n) false) false (ca_of w).

Lemma unlocked i : 0 <= i < n -> replicate (Z.to_nat n) false !! Z.to_nat i = Some false.
Proof. intros. apply lookup_replicate_2. lia. Qed.

Lemma thread_iteration_run g w :
  garbage_ok g -> idle w -> twp (thread_iteration HZ others g) (fun _ w' => idle w') w.
Proof.
  intros Hg H. unfold thread_iteration. apply twp_bind. apply twp_mod_ca. intros w1 E1 _.
  assert (H1 : idle w1) by (unfold idle; rewrite E1; by destruct H).
  apply twp_bind, twp_get_ca. rewrite (cw_count _ _ _ _ _ H1). apply for_slots_run; [|done].
  intros j w2 Hj H2. assert (Hj' : 0 <= j < n) by lia. destruct (wf_slot _ _ _ _ _ j H2 Hj') as (s & Hs & _).
  eapply twp_mono; [by eapply thread_slot_run; [| |apply unlocked| |]|]. intros ? w3 [H3 _]. exact H3.
Qed.

Lemma dvb_ca_en50221_thread_run gs w :
  Forall garbage_ok gs -> idle w -> twp (dvb_ca_en50221_thread HZ others gs) (fun _ w' => idle w') w.
Proof.
  intros Hgs H. unfold dvb_ca_en50221_thread. apply twp_bind, twp_mod_ca. intros w1 E1 _.
  assert (H1 : idle w1) by (unfold idle; rewrite E1; by destruct H). clear w H E1.
  revert w1 H1. induction Hgs as [|g gs Hg _ IH]; intros w H; cbn [thread_loop]; [by apply twp_ret|].
  apply twp_bind, twp_get_ca, twp_bind.
  apply (twp_mono _ (fun _ w' => idle w')).
  - destruct (negb _); [|by apply twp_ret]. apply twp_msleep. intros w' E. unfold idle, ca_of. rewrite E.
    by apply (rely_wf (HZ := HZ)).
  - intros ? w1 H1. apply twp_bind. eapply twp_mono; [by apply thread_iteration_run|]. auto.
Qed.
End turn.
