(* ===== verification/DvbCaSlot.v ===== *)
(** * DvbCaSlot: the state machine of a CA slot

    What one turn of the thread makes of a slot, and on account of which answers of the
    card: first what is found out about the CAM ([cam_phase]), then the step of the state
    the slot is in by then ([slot_rule]).  The rules name the answers as functions of the
    surroundings; that the code follows them is read off its successful runs. *)

From S2P Require Import Prelude Asn1 CaLink DvbRingbuffer DvbCa DvbCaInv.

(** ** The successful runs of the code *)

Section runs.
Context {HW : Type} `{sys : ca_system HW}.
Abbreviation W := (world (ca_state HW)).
Implicit Types w : W.

Lemma bind_done {A B} (c : T (ca_state HW) A) (k : A -> T (ca_state HW) B) w b w' :
  (c ≫= k) w = Some (b, w') -> exists a w1, c w = Some (a, w1) /\ k a w1 = Some (b, w').
Proof. unfold mbind, T_bind. destruct (c w) as [[a w1]|]; [|done]. intros H. by exists a, w1. Qed.
Lemma ret_done {A} (a b : A) w w' : (mret a : T (ca_state HW) A) w = Some (b, w') -> b = a /\ w' = w.
Proof. by intros [= <- <-]. Qed.
Lemma get_ca_done w c w' : get_ca w = Some (c, w') -> c = ca_of w /\ w' = w.
Proof. by intros [= <- <-]. Qed.
Lemma get_slot_done i w s w' : get_slot i w = Some (s, w') -> slot_at (ca_of w) i = Some s /\ w' = w.
Proof.
  intros (c & w1 & [-> ->]%get_ca_done & H)%bind_done. unfold lift in H. fold (ca_of w) in H.
  destruct (slot_at (ca_of w) i); [|done]. by injection H as <- <-.
Qed.
Lemma sys_done {A} (f : HW -> A * HW) w a w' :
  sys_call f w = Some (a, w') -> ca_of w' = ca_of w /\ a = (f (hw_of w)).1 /\ hw_of w' = (f (hw_of w)).2.
Proof. unfold sys_call. fold (hw_of w). destruct (f (hw_of w)). by intros [= -> <-]. Qed.
Lemma write_cam_done i a v w r w' :
  write_cam_control i a v w = Some (r, w') ->
  ca_of w' = ca_of w /\ r = (sys_write_cam_control i a (u8 v) (hw_of w)).1 /\
  hw_of w' = (sys_write_cam_control i a (u8 v) (hw_of w)).2.
Proof.
  unfold write_cam_control. intros (u & w1 & H1 & H)%bind_done. injection H1 as _ <-. by apply sys_done in H.
Qed.
Lemma mod_ca_done f w u w' : mod_ca f w = Some (u, w') -> ca_of w' = f (ca_of w) /\ hw_of w' = hw_of w.
Proof. by intros [= _ <-]. Qed.
Lemma alter_slot_done i f w u w' :
  upd_ca (alter_slot i f) w = Some (u, w') ->
  exists s s', slot_at (ca_of w) i = Some s /\ f s = Some s' /\ slot_at (ca_of w') i = Some s' /\
    ca_of w' = put_slot (ca_of w) i s' /\ hw_of w' = hw_of w.
Proof.
  unfold upd_ca, update, alter_slot. fold (ca_of w). destruct (slot_at (ca_of w) i) as [s|] eqn:Hs; [|done].
  cbn [mbind option_bind]. destruct (f s) as [s'|] eqn:Hf; [|done]. cbn [mbind option_bind]. intros [= _ <-].
  exists s, s'. split_and!; try done. by eapply slot_at_put.
Qed.
Lemma mod_slot_done i f w u w' :
  mod_slot i f w = Some (u, w') ->
  exists s, slot_at (ca_of w) i = Some s /\ slot_at (ca_of w') i = Some (f s) /\
    ca_of w' = put_slot (ca_of w) i (f s) /\ hw_of w' = hw_of w.
Proof. intros (s & s' & Hs & [= <-] & Hs' & H)%alter_slot_done. by exists s. Qed.
End runs.

(** ** The rules *)

Section machine.
Context {HW : Type} `{sys : ca_system HW} (HZ : Z) (others : ca_state HW -> ca_state HW) (i : Z).
Abbreviation W := (world (ca_state HW)).
Implicit Types (w : W) (s : dvb_ca_slot) (h : HW).

(** *** The CAM *)

(** A CAM that goes is shut down; one that comes has not been initialised. *)
Definition cam_gone s h : dvb_ca_slot * HW :=
  if slot_state s =? DVB_CA_SLOTSTATE_NONE then (s, h)
  else (set_slot_state DVB_CA_SLOTSTATE_NONE s, (sys_slot_shutdown i h).2).
Definition cam_event (inserted : bool) s h : dvb_ca_slot * HW :=
  let '(s, h) := cam_gone s h in
  (if inserted then set_slot_state DVB_CA_SLOTSTATE_UNINITIALISED s else s, h).

(** An answer of the card that is not what the state of the slot says: the CAM was changed,
    or one is there in state NONE, or none is there in another. *)
Definition cam_differs (answer : Z) s : bool :=
  bit answer DVB_CA_EN50221_POLL_CAM_CHANGED ||
  negb (eqb (bit answer DVB_CA_EN50221_POLL_CAM_PRESENT) (negb (slot_state s =? DVB_CA_SLOTSTATE_NONE))).
(** Nothing changed; a CAM that was waited for may be ready. *)
Definition cam_ready (answer : Z) s : dvb_ca_slot :=
  if (slot_state s =? DVB_CA_SLOTSTATE_WAITREADY) && bit answer DVB_CA_EN50221_POLL_CAM_READY
  then set_slot_state DVB_CA_SLOTSTATE_VALIDATE s else s.

(** What is handled before the step of the slot, with interrupts for the changes ([irq]) or
    by polling; [op] says whether the device is open. *)
Inductive cam_phase (irq op : bool) : dvb_ca_slot -> HW -> dvb_ca_slot -> HW -> Prop :=
| CamNoInterrupt s h : irq = true -> camchange_count s = 0 -> cam_phase irq op s h s h
| CamInterrupt s h s1 h1 s' h' :
    irq = true -> camchange_count s <> 0 ->
    cam_event (camchange_type s =? DVB_CA_EN50221_CAMCHANGE_INSERTED) s h = (s1, h1) ->
    cam_phase irq op (set_camchange (s32 (camchange_count s - 1)) (camchange_type s) s1) h1 s' h' ->
    cam_phase irq op s h s' h'
| CamAsBefore s h poll answer h1 :
    irq = false -> sys_poll_slot_status = Some poll -> poll i op h = (answer, h1) ->
    cam_differs answer s = false -> cam_phase irq op s h (cam_ready answer s) h1
| CamChanged s h poll answer h1 s2 h2 s' h' :
    irq = false -> sys_poll_slot_status = Some poll -> poll i op h = (answer, h1) ->
    cam_differs answer s = true ->
    cam_event (bit answer DVB_CA_EN50221_POLL_CAM_PRESENT) s h1 = (s2, h2) ->
    cam_phase irq op
      (set_camchange 0 (if bit answer DVB_CA_EN50221_POLL_CAM_PRESENT then DVB_CA_EN50221_CAMCHANGE_INSERTED
                        else DVB_CA_EN50221_CAMCHANGE_REMOVED) s2) h2 s' h' ->
    cam_phase irq op s h s' h'.

(** *** The step of the state *)

Definition slot_is w s : Prop := slot_at (ca_of w) i = Some s.
Definition ends_in w (st : Z) : Prop := exists s, slot_is w s /\ slot_state s = st.
(** In a new state with the time to wait for the next set. *)
Definition waits_in w (st : Z) h : Prop :=
  exists s, slot_is w s /\ slot_state s = st /\ timeout s = u64 ((sys_jiffies h).1 + INIT_TIMEOUT_SECS * HZ).
Definition timed_out s h : bool := jiffies_after (sys_jiffies h).1 (timeout s).

(** A CAM that failed is invalid, or gone if the card, asked again, has none. *)
Definition failed_state w : Z :=
  match sys_poll_slot_status with
  | Some poll =>
      if negb (bit (flags (ca_of w)) DVB_CA_EN50221_FLAG_IRQ_CAMCHANGE) &&
         negb (bit (poll i false (hw_of w)).1 DVB_CA_EN50221_POLL_CAM_PRESENT)
      then DVB_CA_SLOTSTATE_NONE else DVB_CA_SLOTSTATE_INVALID
  | None => DVB_CA_SLOTSTATE_INVALID
  end.
(** The configuration option is written and the interface of the CAM is reset. *)
Definition configured s h : Z * HW :=
  let h := (sys_write_attribute_mem i (config_base s) (config_option s) h).2 in
  let h := (sys_read_attribute_mem i (config_base s) h).2 in
  sys_write_cam_control i CTRLIF_COMMAND CMDREG_RS h.

(** The link is up: the CAM is reset and tells the size of its buffer, the smaller size of both
    is told to it, and every one of these steps succeeds. *)
Inductive link_up (g : garbage) w w' : Prop :=
| LinkUp u0 w0 w1 w2 buf w3 w4 b0 b1 u5 w5 w6 w7 w8 :
    mod_slot i (fun s => set_link_buf_size 2 (set_da_irq false s)) w = Some (u0, w0) ->
    write_cam_control i CTRLIF_COMMAND (Z.lor IRQEN CMDREG_SR) w0 = Some (0, w1) ->
    dvb_ca_en50221_wait_if_status others i STATUSREG_DA (HZ / 10) w1 = Some (0, w2) ->
    dvb_ca_en50221_read_data (g_stack g) i (Some (g_buf g)) 2 w2 = Some ((2, Some buf), w3) ->
    write_cam_control i CTRLIF_COMMAND IRQEN w3 = Some (0, w4) ->
    zget buf 0 = Some b0 -> zget buf 1 = Some b1 ->
    (let size := Z.min HOST_LINK_BUF_SIZE (Z.lor (Z.shiftl b0 8) b1) in
     mod_slot i (set_link_buf_size size) w4 = Some (u5, w5) /\
     write_cam_control i CTRLIF_COMMAND (Z.lor IRQEN CMDREG_SW) w5 = Some (0, w6) /\
     dvb_ca_en50221_wait_if_status others i STATUSREG_FR (HZ / 10) w6 = Some (0, w7) /\
     dvb_ca_en50221_write_data i [u8 (Z.shiftr size 8); u8 (Z.land size 0xff)] 2 w7 = Some (2, w8)) ->
    write_cam_control i CTRLIF_COMMAND IRQEN w8 = Some (0, w') -> link_up g w w'.

(** Reading [n] data registers; [None] when one cannot be read. *)
Fixpoint drained (n : nat) h : option HW :=
  match n with
  | O => Some h
  | S n => let '(v, h) := sys_read_cam_control i CTRLIF_DATA h in if v <? 0 then None else drained n h
  end.
(** The registers say that the link broke: data of a size it cannot have, or an error behind
    the data.  With no room in the ring nothing is read. *)
Definition link_breaks s h : bool :=
  match rx_buffer s with
  | None => false
  | Some rx =>
      if dvb_ringbuffer_free rx <? link_buf_size s + DVB_RINGBUFFER_PKTHDRSIZE then false else
      let '(status, h) := sys_read_cam_control i CTRLIF_STATUS h in
      if (status <? 0) || negb (bit status STATUSREG_DA) then false else
      let '(high, h) := sys_read_cam_control i CTRLIF_SIZE_HIGH h in
      if high <? 0 then false else
      let '(low, h) := sys_read_cam_control i CTRLIF_SIZE_LOW h in
      if low <? 0 then false else
      let size := Z.lor (s32 (Z.shiftl high 8)) low in
      if (link_buf_size s <? size) || (size <? 2) then true else
      match drained (Z.to_nat size) h with
      | None => false
      | Some h => let '(status, _) := sys_read_cam_control i CTRLIF_STATUS h in
                  negb (status <? 0) && bit status STATUSREG_RE
      end
  end.

(** Fragments that were received one after the other, the CAM staying as it was. *)
Inductive received (stack : list Z) : nat -> W -> W -> Prop :=
| ReceivedNone w : received stack 0 w w
| ReceivedMore n w size e w1 w2 w' :
    dvb_ca_en50221_read_data stack i None 0 w = Some ((size, e), w1) -> 0 < size ->
    dvb_ca_en50221_check_camstatus i w1 = Some (false, w2) ->
    received stack n w2 w' -> received stack (S n) w w'.

(** One step of a slot [s], from [w] to [w']. *)
Inductive slot_rule (g : garbage) w s w' : Prop :=
| RuleReset :
    slot_state s = DVB_CA_SLOTSTATE_UNINITIALISED ->
    waits_in w' DVB_CA_SLOTSTATE_WAITREADY (sys_slot_reset i (hw_of w)).2 -> slot_rule g w s w'
| RuleWaitReady :
    slot_state s = DVB_CA_SLOTSTATE_WAITREADY ->
    ends_in w' (if timed_out s (hw_of w) then DVB_CA_SLOTSTATE_INVALID else DVB_CA_SLOTSTATE_WAITREADY) ->
    slot_rule g w s w'
| RuleBadCard r w1 :
    slot_state s = DVB_CA_SLOTSTATE_VALIDATE ->
    dvb_ca_en50221_parse_attributes (g_tuple g) i w = Some (r, w1) -> r <> 0 ->
    ends_in w' (failed_state w1) -> slot_rule g w s w'
| RuleConfigured w1 s1 :
    slot_state s = DVB_CA_SLOTSTATE_VALIDATE ->
    dvb_ca_en50221_parse_attributes (g_tuple g) i w = Some (0, w1) -> slot_is w1 s1 ->
    (let '(r, h) := configured s1 (hw_of w1) in
     if r =? 0 then waits_in w' DVB_CA_SLOTSTATE_WAITFR h else ends_in w' DVB_CA_SLOTSTATE_INVALID) ->
    slot_rule g w s w'
| RuleWaitFr :
    slot_state s = DVB_CA_SLOTSTATE_WAITFR ->
    ends_in w' (if timed_out s (hw_of w) then DVB_CA_SLOTSTATE_INVALID
                else if bit (sys_read_cam_control i CTRLIF_STATUS (sys_jiffies (hw_of w)).2).1 STATUSREG_FR
                then DVB_CA_SLOTSTATE_LINKINIT else DVB_CA_SLOTSTATE_WAITFR) -> slot_rule g w s w'
| RuleNoLink r w1 :
    slot_state s = DVB_CA_SLOTSTATE_LINKINIT ->
    dvb_ca_en50221_link_init HZ others (g_buf g) (g_stack g) i w = Some (r, w1) -> (forall w2, ~ link_up g w w2) ->
    ends_in w' (failed_state w1) -> slot_rule g w s w'
| RuleLink w1 s1 :
    slot_state s = DVB_CA_SLOTSTATE_LINKINIT ->
    link_up g w w1 -> slot_is w1 s1 ->
    (let ring := match rx_buffer s1 with Some _ => true | None => false end in
     let memory := match (sys_vmalloc RX_BUFFER_SIZE (hw_of w1)).1 with Some _ => true | None => false end in
     ends_in w' (if ring || memory then DVB_CA_SLOTSTATE_RUNNING else DVB_CA_SLOTSTATE_INVALID)) ->
    slot_rule g w s w'
| RuleClosed :
    slot_state s = DVB_CA_SLOTSTATE_RUNNING -> open (ca_of w) = false -> w' = w -> slot_rule g w s w'
| RuleRunning n w1 s1 :
    slot_state s = DVB_CA_SLOTSTATE_RUNNING -> open (ca_of w) = true ->
    (n < MAX_RX_PACKETS_PER_ITERATION)%nat -> received (g_stack g) n w w1 -> slot_is w1 s1 ->
    ends_in w' (if link_breaks s1 (hw_of w1) then DVB_CA_SLOTSTATE_LINKINIT else DVB_CA_SLOTSTATE_RUNNING) ->
    slot_rule g w s w'
| RuleIdle :
    slot_state s = DVB_CA_SLOTSTATE_NONE \/ slot_state s = DVB_CA_SLOTSTATE_INVALID -> w' = w -> slot_rule g w s w'.
End machine.

(** ** The code follows the rules *)

Section follows.
Context {HW : Type} `{sys : ca_system HW} (HZ : Z) (others : ca_state HW -> ca_state HW) (i : Z).
Abbreviation W := (world (ca_state HW)).
Implicit Types (w : W) (s : dvb_ca_slot) (h : HW).

(** What the CAM is handled with leaves the mode of the device alone. *)
Definition same_mode w w' : Prop := flags (ca_of w') = flags (ca_of w) /\ open (ca_of w') = open (ca_of w).
(** The same slot of the same state, read twice: the older name is kept. *)
Ltac same_slot := repeat match goal with
  | H1 : slot_at ?c ?i = Some ?s, H2 : slot_at ?c ?i = Some ?s' |- _ =>
      tryif constr_eq s s' then clear H1 else (rewrite H2 in H1; injection H1 as <-)
  end.
Abbreviation irq w := (bit (flags (ca_of w)) DVB_CA_EN50221_FLAG_IRQ_CAMCHANGE).

Lemma check_camstatus_done w b w' s :
  dvb_ca_en50221_check_camstatus i w = Some (b, w') -> slot_is i w s ->
  same_mode w w' /\
  if irq w then b = negb (camchange_count s =? 0) /\ w' = w
  else exists poll answer, sys_poll_slot_status = Some poll /\
    poll i (open (ca_of w)) (hw_of w) = (answer, hw_of w') /\ b = cam_differs answer s /\
    slot_is i w' (if b then set_camchange 1 (if bit answer DVB_CA_EN50221_POLL_CAM_PRESENT
                                             then DVB_CA_EN50221_CAMCHANGE_INSERTED
                                             else DVB_CA_EN50221_CAMCHANGE_REMOVED) s
                  else cam_ready answer s).
Proof.
  intros (c & w0 & [-> ->]%get_ca_done & H)%bind_done Hs. unfold slot_is in *. destruct (irq w).
  { apply bind_done in H as (s0 & w0 & [Hs0 ->]%get_slot_done & [-> ->]%ret_done). same_slot. by split. }
  apply bind_done in H as (answer & w1 & H1 & H). unfold poll_slot_status in H1.
  destruct sys_poll_slot_status as [poll|]; [|done]. apply sys_done in H1 as (E1 & Ea & Eh1).
  apply bind_done in H as (s0 & w0 & [Hs0 ->]%get_slot_done & H). rewrite E1 in Hs0. same_slot.
  assert (Epoll : poll i (open (ca_of w)) (hw_of w) = (answer, hw_of w1)) by (rewrite Eh1, Ea; by destruct (poll _ _ _)).
  clear Ea Eh1.
  assert (Ed : (if bit answer DVB_CA_EN50221_POLL_CAM_CHANGED then true
    else negb (eqb (bit answer DVB_CA_EN50221_POLL_CAM_PRESENT) (negb (slot_state s =? DVB_CA_SLOTSTATE_NONE)))) =
    cam_differs answer s) by (unfold cam_differs; by destruct (bit answer DVB_CA_EN50221_POLL_CAM_CHANGED)).
  cbv zeta in H. rewrite Ed in H. clear Ed. destruct (cam_differs answer s) eqn:Ed.
  - apply bind_done in H as (u & w2 & (s1 & Hs1 & Hs1' & E2 & Eh2)%mod_slot_done & [-> ->]%ret_done).
    rewrite E1 in Hs1. same_slot. split; [by unfold same_mode; rewrite E2, E1|].
    exists poll, answer. by rewrite Eh2, Ed.
  - apply bind_done in H as (u & w2 & H2 & [-> ->]%ret_done). unfold cam_ready.
    destruct (_ && _) eqn:Er.
    + apply mod_slot_done in H2 as (s1 & Hs1 & Hs1' & E2 & Eh2). rewrite E1 in Hs1. same_slot.
      split; [by unfold same_mode; rewrite E2, E1|]. exists poll, answer. by rewrite Eh2, Ed, Er.
    + apply ret_done in H2 as [_ ->]. split; [by unfold same_mode; rewrite E1|]. exists poll, answer. by rewrite Ed, Er, E1.
Qed.

(** One change handled. *)
Lemma handle_change_done {A} (k : T (ca_state HW) A) w (a : A) w' s s1 h1 ty :
  (s ← get_slot i;
   (if negb (slot_state s =? DVB_CA_SLOTSTATE_NONE) then dvb_ca_en50221_slot_shutdown i else mret 0);;
   s ← get_slot i;
   (if camchange_type s =? DVB_CA_EN50221_CAMCHANGE_INSERTED then
      mod_slot i (set_slot_state DVB_CA_SLOTSTATE_UNINITIALISED) else mret tt);;
   dvb_ca_en50221_thread_update_delay HZ;;
   mod_slot i (fun s => set_camchange (s32 (camchange_count s - 1)) (camchange_type s) s);;
   k) w = Some (a, w') ->
  slot_is i w s -> camchange_type s = ty ->
  cam_event i (ty =? DVB_CA_EN50221_CAMCHANGE_INSERTED) s (hw_of w) = (s1, h1) ->
  exists w1, k w1 = Some (a, w') /\ slot_is i w1 (set_camchange (s32 (camchange_count s - 1)) ty s1) /\
    hw_of w1 = h1 /\ same_mode w w1.
Proof.
  intros (s0 & w0 & [Hs0 ->]%get_slot_done & H)%bind_done Hs <- He. unfold slot_is in Hs. same_slot.
  apply bind_done in H as (u1 & w1 & H1 & H).
  assert (Hg : exists s2, cam_gone i s (hw_of w) = (s2, hw_of w1) /\ slot_is i w1 s2 /\ same_mode w w1 /\
    camchange_type s2 = camchange_type s /\ camchange_count s2 = camchange_count s).
  { unfold cam_gone. destruct (slot_state s =? _); cbn [negb] in H1.
    { apply ret_done in H1 as [_ ->]. by exists s. }
    apply bind_done in H1 as (u2 & w2 & (E2 & _ & Eh2)%sys_done & H1).
    apply bind_done in H1 as (u3 & w3 & (s3 & Hs3 & Hs3' & E3 & Eh3)%mod_slot_done & H1).
    apply bind_done in H1 as (u4 & w4 & [E4 Eh4]%mod_ca_done & [_ ->]%ret_done).
    rewrite E2 in Hs3. same_slot. eexists. split; [by rewrite Eh4, Eh3, Eh2|].
    unfold slot_is, same_mode. rewrite E4. split; [exact Hs3'|]. simpl. by rewrite E3, E2. }
  destruct Hg as (s2 & Hgone & Hs2 & Hm & Ety & Ecnt). unfold cam_event in He. rewrite Hgone in He.
  apply bind_done in H as (s3 & w3 & [Hs3 ->]%get_slot_done & H). unfold slot_is in Hs2. same_slot. rewrite Ety in *.
  apply bind_done in H as (u4 & w4 & H4 & H).
  assert (H5 : slot_is i w4 s1 /\ hw_of w4 = h1 /\ same_mode w w4 /\ camchange_type s1 = camchange_type s /\
    camchange_count s1 = camchange_count s).
  { destruct (camchange_type s =? _); injection He as <- <-.
    - apply mod_slot_done in H4 as (s4 & Hs4 & Hs4' & E4 & Eh4). same_slot.
      unfold same_mode in *. by rewrite E4.
    - by apply ret_done in H4 as [_ ->]. }
  destruct H5 as (Hs4 & Eh4 & Hm4 & Ety4 & Ecnt4).
  apply bind_done in H as (u5 & w5 & [E5 Eh5]%mod_ca_done & H).
  apply bind_done in H as (u6 & w6 & (s6 & Hs6 & Hs6' & E6 & Eh6)%mod_slot_done & H).
  rewrite E5 in Hs6. unfold slot_is in Hs4. change (slot_at _ i) with (slot_at (ca_of w4) i) in Hs6. same_slot.
  exists w6. split; [exact H|]. rewrite <- Ety4, <- Ecnt4. split; [exact Hs6'|]. split; [congruence|].
  unfold same_mode in *. by rewrite E6, E5.
Qed.

Lemma camchange_loop_done fuel : forall w u w' s,
  camchange_loop HZ fuel i w = Some (u, w') -> slot_is i w s ->
  exists s', slot_is i w' s' /\ same_mode w w' /\
    cam_phase i (irq w) (open (ca_of w)) s (hw_of w) s' (hw_of w').
Proof.
  induction fuel as [|fuel IH]; intros w u w' s H Hs; cbn [camchange_loop] in H;
    apply bind_done in H as (b & w1 & H1 & H); destruct (check_camstatus_done _ _ _ _ H1 Hs) as [Hm Hc];
    destruct b; cbn [negb] in H; try done.
  1,3: apply ret_done in H as [_ ->]; destruct (irq w) eqn:Ei;
    [destruct Hc as [Hb ->]; exists s; split; [done|]; split; [done|]; constructor; [done|];
     destruct (camchange_count s =? 0) eqn:E; [lia|done]
    |destruct Hc as (poll & answer & Ep & Ea & Ed & Hs1); exists (cam_ready answer s); split; [done|]; split; [done|];
     by eapply CamAsBefore].
  destruct (irq w) eqn:Ei.
  - destruct Hc as [Hb ->]. destruct (cam_event i (camchange_type s =? DVB_CA_EN50221_CAMCHANGE_INSERTED) s (hw_of w)) as [s1 h1] eqn:Ee.
    destruct (handle_change_done _ _ _ _ _ _ _ _ H Hs eq_refl Ee) as (w1 & H2 & Hs1 & <- & Hm1).
    destruct (IH _ _ _ _ H2 Hs1) as (s' & Hs' & Hm' & Hp). exists s'. split; [done|].
    destruct Hm1 as [Ef Eo]. rewrite Ef, Eo, Ei in Hp. split; [unfold same_mode in *; by rewrite <- Ef, <- Eo|].
    eapply CamInterrupt; [done| |exact Ee|exact Hp]. destruct (camchange_count s =? 0) eqn:E; [done|lia].
  - destruct Hc as (poll & answer & Ep & Ea & Ed & Hs1). set (ty := if bit answer _ then _ else _) in Hs1.
    assert (Ety : (ty =? DVB_CA_EN50221_CAMCHANGE_INSERTED) = bit answer DVB_CA_EN50221_POLL_CAM_PRESENT)
      by (subst ty; by destruct (bit answer DVB_CA_EN50221_POLL_CAM_PRESENT)).
    destruct (cam_event i (bit answer DVB_CA_EN50221_POLL_CAM_PRESENT) s (hw_of w1)) as [s1 h1] eqn:Ee.
    assert (Ee' : cam_event i (ty =? DVB_CA_EN50221_CAMCHANGE_INSERTED) (set_camchange 1 ty s) (hw_of w1) =
      (set_camchange 1 ty s1, h1)).
    { rewrite Ety. revert Ee. unfold cam_event, cam_gone. simpl. destruct (slot_state s =? _), (bit answer _); by intros [= <- <-]. }
    destruct (handle_change_done _ _ _ _ _ _ _ ty H Hs1 eq_refl Ee') as (w2 & H2 & Hs2 & <- & Hm2).
    destruct (IH _ _ _ _ H2 Hs2) as (s' & Hs' & Hm' & Hp). exists s'. split; [done|].
    assert (Hm3 : same_mode w w2) by (unfold same_mode in *; destruct Hm, Hm2; split; congruence).
    split; [unfold same_mode in *; destruct Hm3, Hm'; split; congruence|].
    destruct Hm3 as [Ef Eo]. rewrite Ef, Eo, Ei in Hp.
    eapply CamChanged; [done|exact Ep|exact Ea|done|exact Ee|]. exact Hp.
Qed.

(** *** Fragments *)

Lemma read_cam_done a w v w' :
  read_cam_control i a w = Some (v, w') ->
  ca_of w' = ca_of w /\ sys_read_cam_control i a (hw_of w) = (v, hw_of w').
Proof. intros (E & -> & ->)%sys_done. split; [done|]. by destruct (sys_read_cam_control _ _ _). Qed.

Lemma fill_loop_done n : forall j buf w err buf' w',
  fill_loop n j i buf w = Some ((err, buf'), w') ->
  ca_of w' = ca_of w /\ drained i n (hw_of w) = (match err with None => Some (hw_of w') | Some _ => None end) /\
  match err with Some e => e < 0 | None => True end.
Proof.
  induction n as [|n IH]; intros j buf w err buf' w' H; cbn [fill_loop drained] in *.
  { apply ret_done in H as [[= -> ->] ->]. done. }
  apply bind_done in H as (v & w1 & [E1 Er]%read_cam_done & H). rewrite Er.
  destruct (v <? 0) eqn:Ev.
  - apply ret_done in H as [[= -> ->] ->]. split_and!; [done|done|lia].
  - apply bind_done in H as (b & w2 & H2 & H). unfold lift in H2. destruct (put8 _ _ _); [|done].
    injection H2 as _ <-. destruct (IH _ _ _ _ _ _ H) as (E & Ed & He). by rewrite E, E1.
Qed.

(** A fragment read for the ring leaves the slot running, unless the link breaks. *)
Definition link_after s (h : HW) : Z :=
  if link_breaks i s h then DVB_CA_SLOTSTATE_LINKINIT else DVB_CA_SLOTSTATE_RUNNING.

(** An exit of [read_data] that leaves the slot as it was. *)
Ltac exit_as Hsame E :=
  lazymatch goal with H : _ = Some ((_, _), _) |- _ =>
    apply ret_done in H as [[= -> ->] ->]; destruct (Hsame _ E); by split_and! end.

Lemma read_data_done stack w st e w' s :
  dvb_ca_en50221_read_data stack i None 0 w = Some ((st, e), w') ->
  slot_is i w s -> slot_state s = DVB_CA_SLOTSTATE_RUNNING ->
  same_mode w w' /\ ends_in i w' (link_after s (hw_of w)) /\ (link_breaks i s (hw_of w) = true -> st < 0).
Proof.
  intros (s0 & w0 & [Hs0 ->]%get_slot_done & H)%bind_done Hs Est. unfold slot_is in Hs. same_slot.
  unfold link_after, link_breaks, ends_in.
  assert (Hsame : forall w1, ca_of w1 = ca_of w -> same_mode w w1 /\
    (exists s', slot_is i w1 s' /\ slot_state s' = DVB_CA_SLOTSTATE_RUNNING)).
  { intros w1 E1. unfold same_mode, slot_is. rewrite E1. split; [done|]. by exists s. }
  destruct (rx_buffer s) as [rx|] eqn:Erx.
  2:{ exit_as Hsame (eq_refl (ca_of w)). }
  destruct (_ <? _) eqn:Eroom; [exit_as Hsame (eq_refl (ca_of w))|].
  apply bind_done in H as (status & w1 & [E1 Er1]%read_cam_done & H). rewrite Er1.
  destruct (status <? 0) eqn:Es; cbn [orb]; [exit_as Hsame E1|].
  destruct (bit status STATUSREG_DA); cbn [negb] in H |- *; [|exit_as Hsame E1].
  apply bind_done in H as (high & w2 & [E2 Er2]%read_cam_done & H). rewrite Er2. rewrite E1 in E2.
  destruct (high <? 0) eqn:Eh; [exit_as Hsame E2|].
  apply bind_done in H as (low & w3 & [E3 Er3]%read_cam_done & H). rewrite Er3. rewrite E2 in E3.
  destruct (low <? 0) eqn:El; [exit_as Hsame E3|].
  cbv zeta in H |- *. set (size := Z.lor (s32 (Z.shiftl high 8)) low) in *.
  assert (Hlinkinit : forall w4 w5 u, ca_of w4 = ca_of w -> mod_slot i (set_slot_state DVB_CA_SLOTSTATE_LINKINIT) w4 = Some (u, w5) ->
    same_mode w w5 /\ (exists s', slot_is i w5 s' /\ slot_state s' = DVB_CA_SLOTSTATE_LINKINIT)).
  { intros w4 w5 u E4 (s4 & _ & Hs4' & E5 & _)%mod_slot_done. unfold same_mode. rewrite E5, E4. split; [done|].
    by eexists. }
  apply bind_done in H as ([st4 e4] & w4 & H4 & H).
  destruct (_ || _) eqn:Esize.
  { apply bind_done in H4 as (u & w5 & H5 & [[= -> ->] ->]%ret_done). apply ret_done in H as [[= -> ->] ->].
    destruct (Hlinkinit _ _ _ E3 H5). by split_and!. }
  apply ret_done in H4 as [[= -> ->] ->]. cbn [Z.ltb Z.compare] in H.
  apply bind_done in H as ([err buf] & w5 & (E5 & Ed & He)%fill_loop_done & H). rewrite Ed. rewrite E3 in E5.
  destruct err as [er|]; [exit_as Hsame E5|].
  apply bind_done in H as (st6 & w6 & [E6 Er6]%read_cam_done & H). rewrite Er6. rewrite E5 in E6.
  destruct (st6 <? 0) eqn:Es6; cbn [negb andb]; [exit_as Hsame E6|].
  destruct (bit st6 STATUSREG_RE) eqn:Ere.
  { apply bind_done in H as (u & w7 & H7 & [[= -> ->] ->]%ret_done). destruct (Hlinkinit _ _ _ E6 H7). by split_and!. }
  clear Hlinkinit. apply bind_done in H as ([st7 e7] & w7 & H7 & H).
  assert (Hw7 : same_mode w w7 /\ (exists s', slot_is i w7 s' /\ slot_state s' = DVB_CA_SLOTSTATE_RUNNING)).
  { apply bind_done in H7 as (s7 & w8 & [Hs7 ->]%get_slot_done & H7). rewrite E6 in Hs7. same_slot. rewrite Erx in H7.
    destruct (decide _); [|done]. apply bind_done in H7 as ([n7 rx7] & w8 & H8 & H7).
    unfold lift in H8. destruct (dvb_ringbuffer_pkt_write _ _) as [[n8 rx8]|]; [|done]. injection H8 as -> -> <-.
    apply bind_done in H7 as (u & w9 & (s9 & Hs9 & Hs9' & E9 & _)%mod_slot_done & [[= -> ->] ->]%ret_done).
    rewrite E6 in Hs9. same_slot. unfold same_mode. rewrite E9, E6. split; [done|]. by exists (set_rx_buffer (Some rx7) s). }
  destruct Hw7 as [Hm7 (s7 & Hs7 & Est7)].
  destruct (st7 <? 0); [apply ret_done in H as [[= -> ->] ->]; split_and!; [done| |done]; by exists s7|].
  apply bind_done in H as (b & w8 & H8 & H). unfold lift in H8. destruct (zget _ _); [|done]. injection H8 as _ <-.
  apply bind_done in H as (u & w9 & H9 & [[= -> ->] ->]%ret_done).
  destruct (_ =? 0); [apply mod_ca_done in H9 as [E9 _]|apply ret_done in H9 as [_ ->]].
  - split_and!; [by unfold same_mode in *; rewrite E9| |done]. exists s7. unfold slot_is in *. by rewrite E9.
  - split_and!; [done| |done]. by exists s7.
Qed.

(** The loop over the fragments stops at the first that is not received. *)
Lemma rx_loop_done k : forall stack w u w' s,
  rx_loop k stack i w = Some (u, w') -> slot_is i w s -> slot_state s = DVB_CA_SLOTSTATE_RUNNING ->
  exists n w1 s1, (n < max 1 k)%nat /\ received i stack n w w1 /\ slot_is i w1 s1 /\
    ends_in i w' (link_after s1 (hw_of w1)).
Proof.
  induction k as [|k IH]; intros stack w u w' s H Hs Est; cbn [rx_loop] in H;
    apply bind_done in H as ([st e] & w1 & H1 & H);
    destruct (read_data_done _ _ _ _ _ _ H1 Hs Est) as (Hm & Hend & Hbreak);
    (destruct (st <=? 0) eqn:Est1;
     [apply ret_done in H as [_ ->]; exists 0%nat, w, s; split_and!; [lia|constructor|done|done]|]);
    apply bind_done in H as (c & w2 & [-> ->]%get_ca_done & H);
    (destruct (negb (open (ca_of w1)));
     [apply ret_done in H as [_ ->]; exists 0%nat, w, s; split_and!; [lia|constructor|done|done]|]);
    apply bind_done in H as (changed & w3 & H3 & H);
    unfold link_after in Hend; (destruct (link_breaks i s (hw_of w)) eqn:Eb; [specialize (Hbreak eq_refl); lia|]);
    destruct Hend as (s1 & Hs1 & Est1');
    destruct (check_camstatus_done _ _ _ _ H3 Hs1) as [Hm3 Hc];
    assert (Hs3 : ends_in i w3 DVB_CA_SLOTSTATE_RUNNING)
      by (destruct (irq w1); [destruct Hc as [_ ->]; by exists s1|];
          destruct Hc as (poll & answer & _ & _ & _ & Hs3); destruct changed; [by eexists|];
          unfold cam_ready in Hs3; rewrite Est1' in Hs3; by exists s1);
    assert (Hwake : forall w4, mod_ca (set_wakeup true) w3 = Some (u, w4) ->
      exists n w1 s1, (n < 1)%nat /\ received i stack n w w1 /\ slot_is i w1 s1 /\ ends_in i w4 (link_after s1 (hw_of w1)))
      by (intros w4 [E4 _]%mod_ca_done; exists 0%nat, w, s; split_and!; [lia|constructor|done|];
          unfold link_after, ends_in, slot_is in *; rewrite Eb, E4; exact Hs3);
    (destruct changed;
     [destruct (Hwake _ H) as (n & w5 & s5 & Hn & Hr); exists n, w5, s5; split; [lia|exact Hr]|]).
  - exact (Hwake _ H).
  - destruct k as [|k]; [exact (Hwake _ H)|].
    destruct Hs3 as (s3 & Hs3 & Est3). destruct (IH _ _ _ _ _ H Hs3 Est3) as (n & w5 & s5 & Hn & Hr & Hs5 & Hend).
    exists (S n), w5, s5. split_and!; [lia| |done|done]. eapply ReceivedMore; [exact H1|lia|exact H3|exact Hr].
Qed.

(** *** The handlers *)

Lemma set_state_delay_done st w u w' : set_state_delay HZ i st w = Some (u, w') -> ends_in i w' st.
Proof.
  intros (u1 & w1 & (s & Hs & Hs' & _)%mod_slot_done & [E _]%mod_ca_done)%bind_done.
  exists (set_slot_state st s). unfold slot_is. by rewrite E.
Qed.
Lemma invalid_or_removed_done w u w' : invalid_or_removed HZ i w = Some (u, w') -> ends_in i w' (failed_state i w).
Proof.
  intros (c & w1 & [-> ->]%get_ca_done & H)%bind_done. unfold failed_state.
  destruct sys_poll_slot_status as [poll|]; [|by apply set_state_delay_done in H].
  destruct (negb (irq w)); cbn [andb]; [|by apply set_state_delay_done in H].
  apply bind_done in H as (st & w1 & (_ & -> & _)%sys_done & H%set_state_delay_done). by destruct (bit _ _).
Qed.

Lemma slot_uninitialised_done w u w' s :
  slot_uninitialised HZ i w = Some (u, w') -> slot_is i w s ->
  waits_in HZ i w' DVB_CA_SLOTSTATE_WAITREADY (sys_slot_reset i (hw_of w)).2.
Proof.
  intros (u1 & w1 & (s1 & Hs1 & Hs1' & E1 & Eh1)%mod_slot_done & H)%bind_done Hs.
  apply bind_done in H as (u2 & w2 & (E2 & _ & Eh2)%sys_done & H).
  apply bind_done in H as (t & w3 & (E3 & -> & Eh3)%sys_done & H).
  apply mod_slot_done in H as (s4 & Hs4 & Hs4' & _). rewrite E3, E2 in Hs4. same_slot.
  eexists. split; [exact Hs4'|]. split; [done|]. cbn [timeout set_timeout]. by rewrite Eh2, Eh1.
Qed.

Lemma slot_waitready_done w u w' s :
  slot_waitready HZ i w = Some (u, w') -> slot_is i w s -> slot_state s = DVB_CA_SLOTSTATE_WAITREADY ->
  ends_in i w' (if timed_out s (hw_of w) then DVB_CA_SLOTSTATE_INVALID else DVB_CA_SLOTSTATE_WAITREADY).
Proof.
  intros (t & w1 & (E1 & -> & _)%sys_done & H)%bind_done Hs Est. unfold slot_is in Hs.
  apply bind_done in H as (s2 & w2 & [Hs2 ->]%get_slot_done & H). rewrite E1 in Hs2. same_slot.
  unfold timed_out. destruct (jiffies_after _ _); [by apply set_state_delay_done in H|].
  apply ret_done in H as [_ ->]. exists s. unfold slot_is. by rewrite E1.
Qed.

Lemma slot_waitfr_done w u w' s :
  slot_waitfr HZ i w = Some (u, w') -> slot_is i w s -> slot_state s = DVB_CA_SLOTSTATE_WAITFR ->
  ends_in i w' (if timed_out s (hw_of w) then DVB_CA_SLOTSTATE_INVALID
                else if bit (sys_read_cam_control i CTRLIF_STATUS (sys_jiffies (hw_of w)).2).1 STATUSREG_FR
                then DVB_CA_SLOTSTATE_LINKINIT else DVB_CA_SLOTSTATE_WAITFR).
Proof.
  intros (t & w1 & (E1 & -> & Eh1)%sys_done & H)%bind_done Hs Est. unfold slot_is in Hs.
  apply bind_done in H as (s2 & w2 & [Hs2 ->]%get_slot_done & H). rewrite E1 in Hs2. same_slot.
  unfold timed_out. destruct (jiffies_after _ _); [by apply set_state_delay_done in H|].
  apply bind_done in H as (st & w3 & (E3 & -> & _)%sys_done & H). rewrite Eh1 in H. destruct (bit _ _).
  - apply bind_done in H as (u4 & w4 & (s4 & _ & Hs4 & _)%mod_slot_done & [E5 _]%mod_ca_done).
    eexists. unfold slot_is. rewrite E5. split; [exact Hs4|done].
  - apply ret_done in H as [_ ->]. exists s. unfold slot_is. by rewrite E3, E1.
Qed.

Lemma slot_validate_done g w u w' s :
  slot_validate HZ (g_tuple g) i w = Some (u, w') -> slot_state s = DVB_CA_SLOTSTATE_VALIDATE ->
  slot_rule HZ others i g w s w'.
Proof.
  intros (r & w1 & Hr & H)%bind_done Est. destruct (r =? 0) eqn:Er; cbn [negb] in H.
  2:{ eapply RuleBadCard; [done|exact Hr|lia|by apply invalid_or_removed_done in H]. }
  apply Z.eqb_eq in Er as ->. apply bind_done in H as (c & w2 & H2 & H).
  apply bind_done in H2 as (s1 & w3 & [Hs1 ->]%get_slot_done & H2).
  apply bind_done in H2 as (u4 & w4 & (E4 & _ & Eh4)%sys_done & H2).
  apply bind_done in H2 as (u5 & w5 & (E5 & _ & Eh5)%sys_done & [-> ->]%ret_done). cbn [negb Z.eqb] in H.
  apply bind_done in H as (r6 & w6 & (E6 & Er6 & Eh6)%write_cam_done & H).
  eapply RuleConfigured; [done|exact Hr|exact Hs1|]. unfold configured. change (u8 CMDREG_RS) with CMDREG_RS in *.
  rewrite <- Eh4, <- Eh5. destruct (sys_write_cam_control i CTRLIF_COMMAND CMDREG_RS (hw_of w5)) as [r7 h7]. simpl in *.
  subst r7 h7. destruct (r6 =? 0); cbn [negb] in H; [|by apply set_state_delay_done in H].
  apply bind_done in H as (t & w7 & (E7 & -> & _)%sys_done & H).
  apply bind_done in H as (u8 & w8 & (s8 & _ & Hs8 & _)%mod_slot_done & [E9 _]%mod_ca_done).
  eexists. unfold slot_is. rewrite E9. split; [exact Hs8|done].
Qed.

Lemma or_exit_done (c k : T (ca_state HW) Z) w r w' :
  or_exit c k w = Some (r, w') -> exists st w1, c w = Some (st, w1) /\ (st = 0 /\ k w1 = Some (r, w') \/ st <> 0 /\ r = st).
Proof.
  intros (st & w1 & Hc & H)%bind_done. exists st, w1. split; [done|]. destruct (st =? 0) eqn:E; cbn [negb] in H.
  - left. split; [lia|done].
  - apply ret_done in H as [-> _]. right. split; [lia|done].
Qed.
Lemma or_exit_on (c k : T (ca_state HW) Z) w w1 : c w = Some (0, w1) -> or_exit c k w = k w1.
Proof. intros E. unfold or_exit, mbind, T_bind. by rewrite E. Qed.
Lemma bind_on {A B} (c : T (ca_state HW) A) (k : A -> T (ca_state HW) B) w a w1 : c w = Some (a, w1) -> (c ≫= k) w = k a w1.
Proof. unfold mbind, T_bind. by intros ->. Qed.
Lemma lift_done {A} (o : option A) w a w' : (lift o : T (ca_state HW) A) w = Some (a, w') -> o = Some a /\ w' = w.
Proof. unfold lift. destruct o; [|done]. by intros [= -> ->]. Qed.
Lemma min_size a v : (if a <? v then a else v) = Z.min a v.
Proof. destruct (a <? v) eqn:E; lia. Qed.

(** Initialisation reports success exactly when the link is up. *)
Lemma link_up_init g w w' :
  link_up HZ others i g w w' -> dvb_ca_en50221_link_init HZ others (g_buf g) (g_stack g) i w = Some (0, w').
Proof.
  intros [u0 w0 w1 w2 buf w3 w4 b0 b1 u5 w5 w6 w7 w8 H0 H1 H2 H3 H4 Hb0 Hb1 (H5 & H6 & H7 & H8) H9].
  unfold dvb_ca_en50221_link_init. rewrite (bind_on _ _ _ _ _ H0), (or_exit_on _ _ _ _ H1), (or_exit_on _ _ _ _ H2).
  rewrite (bind_on _ _ _ _ _ H3). cbn [Z.eqb Pos.eqb negb]. rewrite (or_exit_on _ _ _ _ H4).
  rewrite (bind_on (lift (Some buf)) _ w4 buf w4) by done. rewrite (bind_on (lift (zget buf 0)) _ w4 b0 w4) by (by rewrite Hb0).
  rewrite (bind_on (lift (zget buf 1)) _ w4 b1 w4) by (by rewrite Hb1). cbv zeta. rewrite min_size.
  rewrite (bind_on _ _ _ _ _ H5), (or_exit_on _ _ _ _ H6), (or_exit_on _ _ _ _ H7), (bind_on _ _ _ _ _ H8).
  cbn [Z.eqb Pos.eqb negb]. exact H9.
Qed.

Lemma link_init_up g w w' :
  dvb_ca_en50221_link_init HZ others (g_buf g) (g_stack g) i w = Some (0, w') -> link_up HZ others i g w w'.
Proof.
  intros (u0 & w0 & H0 & H)%bind_done.
  apply or_exit_done in H as (st1 & w1 & H1 & [[-> H]|[? <-]]); [|done].
  apply or_exit_done in H as (st2 & w2 & H2 & [[-> H]|[? <-]]); [|done].
  apply bind_done in H as ([ret e] & w3 & H3 & H). destruct (ret =? 2) eqn:E3; cbn [negb] in H; [|by apply ret_done in H as [? _]].
  apply Z.eqb_eq in E3 as ->. apply or_exit_done in H as (st4 & w4 & H4 & [[-> H]|[? <-]]); [|done].
  apply bind_done in H as (buf & wb & [-> ->]%lift_done & H). apply bind_done in H as (b0 & wb & [Hb0 ->]%lift_done & H).
  apply bind_done in H as (b1 & wb & [Hb1 ->]%lift_done & H). cbv zeta in H. rewrite min_size in H.
  apply bind_done in H as (u5 & w5 & H5 & H).
  apply or_exit_done in H as (st6 & w6 & H6 & [[-> H]|[? <-]]); [|done].
  apply or_exit_done in H as (st7 & w7 & H7 & [[-> H]|[? <-]]); [|done].
  apply bind_done in H as (ret & w8 & H8 & H). destruct (ret =? 2) eqn:E8; cbn [negb] in H; [|by apply ret_done in H as [? _]].
  apply Z.eqb_eq in E8 as ->. by eapply LinkUp.
Qed.

Lemma slot_linkinit_done g w u w' s :
  slot_linkinit HZ others (g_buf g) (g_stack g) i w = Some (u, w') -> slot_state s = DVB_CA_SLOTSTATE_LINKINIT ->
  slot_rule HZ others i g w s w'.
Proof.
  intros (r & w1 & Hr & H)%bind_done Est. destruct (r =? 0) eqn:Er; cbn [negb] in H.
  2:{ eapply RuleNoLink; [done|exact Hr| |by apply invalid_or_removed_done in H].
      intros w2 Hup%link_up_init. rewrite Hr in Hup. injection Hup as -> _. lia. }
  apply Z.eqb_eq in Er as ->. apply bind_done in H as (s1 & w2 & [Hs1 ->]%get_slot_done & H).
  eapply RuleLink; [done|by apply link_init_up|exact Hs1|]. apply bind_done in H as (ok & w3 & H3 & H). cbv zeta.
  assert (Hok : ok = (match rx_buffer s1 with Some _ => true | None => false end) ||
    (match (sys_vmalloc RX_BUFFER_SIZE (hw_of w1)).1 with Some _ => true | None => false end)).
  { destruct (rx_buffer s1); [by apply ret_done in H3 as [-> _]|].
    apply bind_done in H3 as (m & w4 & (_ & -> & _)%sys_done & H3). destruct (sys_vmalloc _ _).1.
    - by apply bind_done in H3 as (u5 & w5 & _ & [-> _]%ret_done).
    - by apply ret_done in H3 as [-> _]. }
  rewrite <- Hok. destruct ok; cbn [negb] in H; [|by apply set_state_delay_done in H].
  apply bind_done in H as (u4 & w4 & _ & H). by apply set_state_delay_done in H.
Qed.

Lemma slot_running_done g w u w' s :
  slot_running (g_stack g) i w = Some (u, w') -> slot_is i w s -> slot_state s = DVB_CA_SLOTSTATE_RUNNING ->
  slot_rule HZ others i g w s w'.
Proof.
  intros (c & w1 & [-> ->]%get_ca_done & H)%bind_done Hs Est. destruct (open (ca_of w)) eqn:Eo; cbn [negb] in H.
  - destruct (rx_loop_done _ _ _ _ _ _ H Hs Est) as (n & w1 & s1 & Hn & Hr & Hs1 & Hend).
    eapply RuleRunning; [done|done| |exact Hr|exact Hs1|exact Hend]. done.
  - apply ret_done in H as [_ ->]. by apply RuleClosed.
Qed.

(** The handler of the state the slot is in. *)
Lemma handler_done g w u w' s :
  (let st := slot_state s in
   if st =? DVB_CA_SLOTSTATE_UNINITIALISED then slot_uninitialised HZ i
   else if st =? DVB_CA_SLOTSTATE_WAITREADY then slot_waitready HZ i
   else if st =? DVB_CA_SLOTSTATE_VALIDATE then slot_validate HZ (g_tuple g) i
   else if st =? DVB_CA_SLOTSTATE_WAITFR then slot_waitfr HZ i
   else if st =? DVB_CA_SLOTSTATE_LINKINIT then slot_linkinit HZ others (g_buf g) (g_stack g) i
   else if st =? DVB_CA_SLOTSTATE_RUNNING then slot_running (g_stack g) i
   else mret tt) w = Some (u, w') ->
  slot_is i w s -> (w' = w -> slot_state s ∈ slot_states) -> slot_rule HZ others i g w s w'.
Proof.
  cbv zeta. intros H Hs Hst.
  destruct (slot_state s =? DVB_CA_SLOTSTATE_UNINITIALISED) eqn:E1.
  { apply RuleReset; [lia|]. by eapply slot_uninitialised_done. }
  destruct (slot_state s =? DVB_CA_SLOTSTATE_WAITREADY) eqn:E2.
  { apply RuleWaitReady; [lia|]. eapply slot_waitready_done; [done|done|lia]. }
  destruct (slot_state s =? DVB_CA_SLOTSTATE_VALIDATE) eqn:E3; [eapply slot_validate_done; [done|lia]|].
  destruct (slot_state s =? DVB_CA_SLOTSTATE_WAITFR) eqn:E4.
  { apply RuleWaitFr; [lia|]. eapply slot_waitfr_done; [done|done|lia]. }
  destruct (slot_state s =? DVB_CA_SLOTSTATE_LINKINIT) eqn:E5; [eapply slot_linkinit_done; [done|lia]|].
  destruct (slot_state s =? DVB_CA_SLOTSTATE_RUNNING) eqn:E6; [eapply slot_running_done; [done|done|lia]|].
  apply ret_done in H as [_ ->]. apply RuleIdle; [|done]. specialize (Hst eq_refl). unfold slot_states in Hst.
  rewrite !elem_of_cons in Hst. unfold DVB_CA_SLOTSTATE_NONE, DVB_CA_SLOTSTATE_INVALID in *.
  destruct Hst as [?|[?|[?|[?|[?|[?|[?|[?|[]%not_elem_of_nil]]]]]]]]; lia.
Qed.

(** A turn of the thread on a slot. *)
Lemma thread_slot_done g w u w' s :
  thread_slot HZ others g i w = Some (u, w') -> slot_is i w s ->
  (forall s', slot_is i w' s' -> slot_state s' ∈ slot_states) ->
  exists w1 s1 w2 s2,
    cam_phase i (irq w) (open (ca_of w)) (set_slot_lock true s) (hw_of w) s1 (hw_of w1) /\ slot_is i w1 s1 /\
    slot_rule HZ others i g w1 s1 w2 /\ slot_is i w2 s2 /\ slot_is i w' (set_slot_lock false s2).
Proof.
  intros (u0 & w0 & (s0 & s1 & Hs0 & Hl & Hs1 & E0 & Eh0)%alter_slot_done & H)%bind_done Hs Hst.
  unfold slot_is in Hs. same_slot. destruct (slot_lock s); [done|]. injection Hl as <-.
  apply bind_done in H as (s2 & w2 & [_ ->]%get_slot_done & H).
  apply bind_done in H as (h & w2 & [= <- <-] & H).
  apply bind_done in H as (u3 & w3 & H3 & H). destruct (camchange_loop_done _ _ _ _ _ H3 Hs1) as (s3 & Hs3 & _ & Hp).
  rewrite E0 in Hp. rewrite <- Eh0. change (flags (put_slot _ _ _)) with (flags (ca_of w)) in Hp.
  change (open (put_slot _ _ _)) with (open (ca_of w)) in Hp.
  apply bind_done in H as (s4 & w4 & [Hs4 ->]%get_slot_done & H). unfold slot_is in Hs3. same_slot.
  apply bind_done in H as (u5 & w5 & H5 & (s6 & Hs6 & Hs6' & _)%mod_slot_done).
  exists w3, s3, w5, s6. split_and!; try done. eapply handler_done; [exact H5|done|].
  intros ->. same_slot. exact (Hst _ Hs6').
Qed.
End follows.
