(* ===== verification/DvbCaCard.v ===== *)
(** * DvbCaCard: a simulated card

    A card for which what DvbCaInv.v assumes holds: a CAM in every slot, an attribute memory
    with a card information structure, control registers that answer from a script or are
    always free, and a clock that advances while a task sleeps.  The interface brings it up
    to the running state. *)

From S2P Require Import Prelude Asn1 CaLink DvbRingbuffer DvbCa DvbCaIo DvbCaRead DvbCaInv DvbCaThread.

(** What the control registers still answer, and the time. *)
Record card_state := Card { script : list Z; clock : Z }.

(** The tuples of the attribute memory, and the address of each byte is even. *)
Definition card_cis : list Z :=
  [0x1D; 0] ++ [0x1C; 1; 7] ++ [0x15; 2; 1; 2] ++ [0x20; 4; 1; 2; 3; 4] ++
  [0x1A; 17; 0; 0; 0x40] ++ str_DVB_CI_V ++ str_1_00 ++ [0; 0] ++
  [0x1B; 30; 5] ++ str_DVB_HOST ++ str_DVB_CI_MODULE ++ replicate 8 0 ++ [0xFF].

Definition card_answer (scripted : bool) (h : card_state) : Z * card_state :=
  match scripted, script h with
  | true, r :: l => (u8 r, Card l (clock h))
  | _, _ => (STATUSREG_FR, h)
  end.

Definition card_system (scripted : bool) : ca_system card_state := {|
  sys_read_attribute_mem slot a h := (if decide (0 <= a / 2 < zlen card_cis) then u8 (card_cis.[a / 2]) else 0xFF, h);
  sys_write_attribute_mem slot a v h := (0, h);
  sys_read_cam_control slot a h := card_answer scripted h;
  sys_write_cam_control slot a v h := (0, h);
  sys_slot_reset slot h := (0, h);
  sys_slot_shutdown slot h := (0, h);
  sys_slot_ts_enable slot h := (0, h);
  sys_poll_slot_status := Some (fun slot open h =>
    (Z.lor DVB_CA_EN50221_POLL_CAM_PRESENT DVB_CA_EN50221_POLL_CAM_READY, h));
  sys_jiffies h := (u64 (clock h), h);
  sys_vmalloc n h := (if decide (0 <= n) then Some (replicate (Z.to_nat n) 0) else None, h);
  sys_interrupted h := (false, h);
  sys_try_module_get h := (true, h);
  sys_copy_from_user _ := 0;
  sys_copy_to_user _ := 0;
  sys_poll_bound _ := 0%nat |}.

Lemma card_quiet (h h' : card_state) : clock h' = clock h ->
  clock h <= clock h' <= clock h + call_time /\ ((0 < 0)%nat \/ 0%nat = 0%nat /\ forall slot : Z, true = true).
Proof. intros E. rewrite E. unfold call_time. split; [lia|]. by right. Qed.

#[refine] Definition card_ok (scripted : bool) : ca_system_ok (card_system scripted) := {|
  now := clock; card _ _ := true |}.
Proof.
  all: simpl; intros; try (by apply card_quiet).
  - split; [case_decide; [apply u8_range|lia]|by apply card_quiet].
  - unfold card_answer. destruct scripted, (script h) as [|r l]; simpl; (split; [|by apply card_quiet]);
      try apply u8_range; by unfold STATUSREG_FR.
  - injection H as <-. split; [by apply card_quiet|]. by intros _.
  - split; [done|by apply card_quiet].
  - split; [by apply card_quiet|]. case_decide; [|done]. unfold zlen. rewrite length_replicate. lia.
Defined.

(** The other tasks only let time pass. *)
Definition card_others (s : ca_state card_state) : ca_state card_state :=
  CaState (ca s) (Card (script (hw s)) (clock (hw s) + 1)).

Lemma card_rely scripted n fl : @ca_rely _ _ (card_ok scripted) 100 card_others n fl.
Proof.
  split.
  - lia.
  - right. by eexists.
  - intros s. change (clock (hw s) + 1 <= clock (hw s) + 1 <= clock (hw s) + call_time). unfold call_time. lia.
  - done.
  - done.
Qed.

(** ** A CAM is brought up *)

Definition card_garbage : garbage :=
  Garbage (replicate 257 0) (replicate (Z.to_nat HOST_LINK_BUF_SIZE) 0) [0; 0].
Lemma card_garbage_ok : garbage_ok card_garbage.
Proof.
  split; [done|]. split; [done|]. split; [by apply Forall_replicate|]. split; [done|]. by repeat constructor.
Qed.

(** One slot, nothing known of it. *)
Definition card_start : dvb_ca_private := CaPrivate (DvbDevice 1 1 1) 0 1 [init_slot] 0 false false 0 0 false.

(** The registers of a CAM with a link buffer of 16 bytes: free when it was reset; then the
    data, a size of 2, the bytes [0; 16], no error; free, and free again. *)
Definition card_script : list Z :=
  [STATUSREG_FR] ++ [STATUSREG_DA] ++ [STATUSREG_DA; 0; 2; 0; 16; STATUSREG_DA] ++
  [STATUSREG_FR] ++ [STATUSREG_FR; STATUSREG_FR; STATUSREG_FR].

Definition slot_view (s : dvb_ca_slot) : Z * Z * Z * Z :=
  (slot_state s, config_base s, config_option s, link_buf_size s).

(** The states of the slot after each turn of the thread. *)
Fixpoint bring_up (k : nat) (w : world (ca_state card_state)) : option (list (Z * Z * Z * Z)) :=
  match k with
  | O => Some []
  | S k =>
      '(_, w) ← @thread_iteration _ (card_system true) 100 card_others card_garbage w;
      l ← bring_up k w;
      Some ((slot_view <$> slot_info (ca (w_st w))) ++ l)
  end.

Example card_bring_up :
  bring_up 5 (World (CaState card_start (Card card_script 0)) 0%nat []) =
    Some [(DVB_CA_SLOTSTATE_WAITREADY, 0, 0, 0); (DVB_CA_SLOTSTATE_WAITFR, 0x40, 5, 0);
          (DVB_CA_SLOTSTATE_LINKINIT, 0x40, 5, 0); (DVB_CA_SLOTSTATE_RUNNING, 0x40, 5, 16);
          (DVB_CA_SLOTSTATE_RUNNING, 0x40, 5, 16)].
Proof. vm_compute. reflexivity. Qed.

(** ** A running slot *)

(** A ring with the packets [ps]. *)
Definition ring_with (ps : list (list Z)) : dvb_ringbuffer :=
  let enc := encode_pkts (Packet PKT_READY <$> ps) in
  DvbRingbuffer (enc ++ replicate (Z.to_nat (RX_BUFFER_SIZE - zlen enc)) 0) RX_BUFFER_SIZE 0 (zlen enc) 0.

Definition running_slot (link : Z) (ps : list (list Z)) : dvb_ca_slot :=
  CaSlot DVB_CA_SLOTSTATE_RUNNING false 0 DVB_CA_EN50221_CAMCHANGE_REMOVED 0 0 false link (Some (ring_with ps)) 0.
Definition running_ca (link : Z) (ps : list (list Z)) : dvb_ca_private :=
  CaPrivate (DvbDevice 0 0 1) 0 1 [running_slot link ps] 0 true false 0 0 false.
Definition running_world (link : Z) (ps : list (list Z)) : world (ca_state card_state) :=
  World (CaState (running_ca link ps) (Card [] 0)) 0%nat [].

(** A message of two fragments on connection 9, and a fragment of connection 7 between. *)
Definition card_fragments : list (list Z) := [[9; 0x80; 1; 2]; [7; 0; 5]; [9; 0; 3]].

Lemma card_ring : link_ring (ring_with card_fragments) (Packet PKT_READY <$> card_fragments).
Proof.
  split; [split; [|split]|split; [done|]].
  - split; [done|]. split; [by vm_compute|]. by split; vm_compute.
  - repeat (constructor; [by split; [left|]|]). constructor.
  - vm_compute. reflexivity.
  - repeat (constructor; [done|]). constructor.
Qed.
Lemma card_ring_free : not_full (ring_with card_fragments).
Proof. by vm_compute. Qed.

Lemma running_idle link : 0 <= link <= HOST_LINK_BUF_SIZE -> idle 1 0 (running_world link card_fragments).
Proof.
  intros Hl. split; try done. constructor; [|constructor]. split; simpl; [|done|done|].
  - by apply (bool_decide_unpack _).
  - eexists. apply card_ring.
Qed.

(** The card is ready for a packet at any time. *)
Lemma card_free slot h : let r := (@sys_read_cam_control _ (card_system false) slot CTRLIF_STATUS h).1 in
  0 <= r /\ bit r STATUSREG_FR = true /\ bit r (Z.lor STATUSREG_DA STATUSREG_RE) = false /\ bit r STATUSREG_WE = false.
Proof. by vm_compute. Qed.
