(* ===== verification/DvbCaMsg.v ===== *)
(** * DvbCaMsg: reading and writing messages on the CA device

    [read] takes the first whole message out of the fragments that were received, whatever
    fragments of other connections lie between; [write] hands a message to the CAM in
    fragments.  A message written in fragments and received is the message read. *)

From S2P Require Import Prelude Asn1 CaLink DvbRingbuffer DvbCa DvbCaIo DvbCaRead DvbCaInv DvbCaThread DvbCaCard.

(** ** The queues of the slots *)

(** The fragments a running slot has received; [None] for a slot that is not running. *)
Definition slot_holds (s : dvb_ca_slot) (q : option (list (list Z))) : Prop :=
  match q with
  | None => slot_state s <> DVB_CA_SLOTSTATE_RUNNING
  | Some q => slot_state s = DVB_CA_SLOTSTATE_RUNNING /\
      exists r ps, rx_buffer s = Some r /\ link_ring r ps /\ not_full r /\ queue ps = q
  end.
Definition holds_all (c : dvb_ca_private) (qs : list (option (list (list Z)))) : Prop :=
  Forall2 slot_holds (slot_info c) qs.

Lemma slot_queue_exists s : slot_wf s -> slot_good s -> exists q, slot_holds s q.
Proof.
  intros [_ _ _ Hr] [Hg _]. destruct (decide (slot_state s = DVB_CA_SLOTSTATE_RUNNING)) as [E|E]; [|by exists None].
  destruct (rx_buffer s) as [r|] eqn:Er; [|done]. destruct Hr as (ps & Hr). exists (Some (queue ps)).
  split; [done|]. exists r, ps. split_and!; auto; apply Hr.
Qed.
Lemma queues_exist c : Forall slot_wf (slot_info c) -> good c -> exists qs, holds_all c qs.
Proof.
  unfold good, holds_all. generalize (slot_info c). intros l Hw. induction Hw as [|s l Hs _ IH]; intros Hg; [by exists []|].
  inversion Hg as [|? ? Hgs Hgl]; subst. destruct (slot_queue_exists s Hs Hgs) as (q & Hq).
  destruct (IH Hgl) as (qs & Hqs). exists (q :: qs). by constructor.
Qed.

(** The search of [read] for a slot with a whole message: it goes round the slots from the
    one after the last read, and looks for the connection of the first fragment it meets. *)
Fixpoint scan (k : nat) (slot : Z) (id : option Z) (n : Z) (qs : list (option (list (list Z)))) : Z * option Z :=
  match k with
  | O => (slot, None)
  | S k =>
      let next := (slot + 1) mod n in
      match qs !! Z.to_nat slot with
      | Some (Some q) =>
          match (take_message id q).2 with
          | Some _ => (next, Some slot)
          | None => scan k next (decided id q) n qs
          end
      | _ => scan k next id n qs
      end
  end.

Lemma scan_range k : forall slot id n qs, 0 < n -> 0 <= slot < n ->
  0 <= (scan k slot id n qs).1 < n /\
  match (scan k slot id n qs).2 with
  | Some j => 0 <= j < n /\ exists q, qs !! Z.to_nat j = Some (Some q)
  | None => True
  end.
Proof.
  induction k as [|k IH]; intros slot id n qs Hn Hs; cbn [scan]; [done|].
  pose proof (Z.mod_pos_bound (slot + 1) n ltac:(lia)) as Hm.
  destruct (qs !! Z.to_nat slot) as [[q|]|] eqn:Eq; [|by apply IH..].
  destruct (take_message id q).2; [|by apply IH]. simpl. split; [done|]. split; [done|]. by exists q.
Qed.

Lemma slot_at_lookup c slot : 0 <= slot -> slot_at c slot = slot_info c !! Z.to_nat slot.
Proof. intros. unfold slot_at. by rewrite decide_True by lia. Qed.

(** The search of the code is this one. *)
Lemma condition_slots_run c qs n k : forall slot id,
  slot_count c = n -> zlen (slot_info c) = n -> holds_all c qs -> 0 < n -> 0 <= slot < n ->
  condition_slots k slot id c = Some (inl (scan k slot id n qs)).
Proof.
  induction k as [|k IH]; intros slot id Hc Hz Hq Hn Hs; [done|]. cbn [condition_slots scan].
  pose proof (Z.mod_pos_bound (slot + 1) n ltac:(lia)) as Hm. rewrite Hc.
  destruct (lookup_lt_is_Some_2 (slot_info c) (Z.to_nat slot)) as [s Es]; [unfold zlen in Hz; lia|].
  rewrite (slot_at_lookup c slot), Es by lia. cbn [mbind option_bind].
  destruct (Forall2_lookup_l _ _ _ _ _ Hq Es) as (q & -> & Hsq). destruct q as [q|]; simpl in Hsq.
  - destruct Hsq as [-> (r & ps & -> & Hr & Hnf & <-)]. cbn [negb Z.eqb Pos.eqb].
    change (DVB_CA_SLOTSTATE_RUNNING =? DVB_CA_SLOTSTATE_RUNNING) with true. cbn [negb].
    rewrite (pkt_next_start r ps) by apply Hr. cbn [mbind option_bind].
    destruct (condition_loop_run (length (rb_data r)) r [] ps id Hr Hnf) as (id' & -> & ->).
    { pose proof (holds_count _ _ (proj1 Hr)). lia. }
    cbn [mbind option_bind]. destruct (take_message id (queue ps)).2 as [o|].
    + done.
    + rewrite bool_decide_false by (by intros [? ?]). by apply IH.
  - rewrite (proj2 (Z.eqb_neq _ _)) by done. cbn [negb]. by apply IH.
Qed.

Section messages.
Context {HW : Type} {sys : ca_system HW} {sys_ok : ca_system_ok sys}.
Context (HZ : Z) (others : ca_state HW -> ca_state HW) (n fl : Z) {rely : ca_rely HZ others n fl}.
Abbreviation W := (world (ca_state HW)).
Implicit Types w : W.

(** An assignment to [next_read_slot]. *)
Lemma wf_next lk m c v : ca_wf n fl lk m c -> 0 <= v < n -> ca_wf n fl lk m (set_next_read_slot v c).
Proof. intros [] ?. by split. Qed.

Lemma read_condition_run lk m qs w (Q : option Z -> W -> Prop) :
  ca_wf n fl lk m (ca_of w) -> holds_all (ca_of w) qs ->
  (forall w', let '(next, found) := scan (Z.to_nat n) (next_read_slot (ca_of w)) None n qs in
     ca_of w' = set_next_read_slot next (ca_of w) -> hw_of w' = hw_of w ->
     ca_wf n fl lk m (ca_of w') -> Q found w') ->
  twp dvb_ca_en50221_io_read_condition Q w.
Proof.
  intros H Hq HQ. pose proof H as [Hc _ Hz _ _ Hn _ _]. unfold dvb_ca_en50221_io_read_condition.
  apply twp_bind, twp_get_ca. rewrite Hc. apply twp_bind. eapply twp_ca_lift.
  { apply (condition_slots_run _ qs n); [done|done|done|lia|done]. }
  pose proof (scan_range (Z.to_nat n) (next_read_slot (ca_of w)) None n qs ltac:(lia) Hn) as [Hr _].
  destruct (scan _ _ _ _ _) as [next found]. simpl in Hr. apply twp_bind, twp_mod_ca. intros w' E Eh.
  apply twp_ret. apply HQ; [done|done|]. rewrite E. by apply wf_next.
Qed.

(** *** Reading *)

Hypothesis copy_ok : forall b, sys_copy_to_user b = 0.

(** What [read] returns of a message of connection [id] on a slot, into [count] bytes. *)
Definition read_result (slot count : Z) (m : list (list Z)) (o : option Z) : Z * list Z :=
  match o with
  | Some id => let out := ztake (count - 2) (concat m) in (2 + zlen out, u8 slot :: id :: out)
  | None => (- EIO, [])
  end.

Lemma read_slot_run lk m qs slot count q w :
  ca_wf n fl lk m (ca_of w) -> holds_all (ca_of w) qs -> 0 <= slot < n -> qs !! Z.to_nat slot = Some (Some q) ->
  2 <= count < 2 ^ 31 ->
  let '(msg, kept, o) := take_message None q in
  twp (read_slot slot count)
    (fun r w' => ca_wf n fl lk m (ca_of w') /\ holds_all (ca_of w') (<[Z.to_nat slot := Some kept]> qs) /\
       next_read_slot (ca_of w') = next_read_slot (ca_of w) /\ (good (ca_of w) -> good (ca_of w')) /\
       r = Some (read_result slot count msg o)) w.
Proof.
  intros H Hq Hslot Eq Hcount. destruct (wf_slot _ _ _ _ _ slot H Hslot) as (s & Hs & Hw & Hl).
  pose proof Hs as Hs'. rewrite slot_at_lookup in Hs' by lia.
  destruct (Forall2_lookup_lr _ _ _ _ _ _ Hq Hs' Eq) as [Est (r & ps & Er & Hr & Hnf & <-)].
  unfold read_slot.
  pose proof (message_loop_run (HW := HW) copy_ok (length (rb_data r)) r [] ps None [] count Hr Hnf) as Hloop.
  destruct (take_message None (queue ps)) as [[msg kept] o].
  destruct Hloop as (r' & ps' & El & Hr' & Hnf' & Hq'); [pose proof (holds_count _ _ (proj1 Hr)); lia|done|change (zlen []) with 0; lia|].
  apply twp_bind. eapply twp_ca_slot; [done|]. apply twp_bind. eapply twp_ca_lift; [exact Er|].
  apply twp_bind. eapply twp_ca_lift; [by apply pkt_next_start, Hr|].
  apply twp_bind. eapply twp_ca_lift; [exact El|]. cbn beta iota.
  apply twp_bind. apply (twp_mod_slot slot _ s _ _ Hs). intros w' E Eh.
  assert (Ht : touches slot (eq (set_rx_buffer (Some r') s)) (ca_of w) (ca_of w')) by (rewrite E; by eapply touches_put).
  assert (Hgood : good (ca_of w) -> good (ca_of w')).
  { intros Hg. eapply touches_good; [exact Hg|exact Ht|]. intros s' <-. split; [by intros ? [= <-]|].
    by destruct (proj1 (Forall_lookup _ _) Hg _ _ Hs'). }
  assert (Hwf : ca_wf n fl lk m (ca_of w')).
  { rewrite <- (list_insert_id lk (Z.to_nat slot) (slot_lock s)) by done. eapply touches_wf; [exact H|].
    eapply touches_mono; [exact Ht|]. intros s' <-. split; [|done]. destruct Hw as [H1 H2 H3 _].
    split; [done|done|done|]. by exists ps'. }
  assert (Hqs : holds_all (ca_of w') (<[Z.to_nat slot := Some kept]> qs)).
  { rewrite E. unfold holds_all. simpl. apply Forall2_insert; [done|]. split; [done|]. exists r', ps'.
    simpl in Hq'. by rewrite <- Hq'. }
  assert (Hnext : next_read_slot (ca_of w') = next_read_slot (ca_of w)) by (by rewrite E).
  unfold read_result. destruct o as [id|].
  - rewrite copy_ok. cbn [negb Z.eqb]. apply twp_ret. split_and!; try done.
    rewrite Z.sub_0_r. done.
  - apply twp_ret. by split_and!.
Qed.

(** [read] takes the first message out of the queue of the slot it finds. *)
Lemma io_read_run nonblock wakeups count qs w :
  idle n fl w -> holds_all (ca_of w) qs -> 2 <= count < 2 ^ 31 ->
  let '(next, found) := scan (Z.to_nat n) (next_read_slot (ca_of w)) None n qs in
  found <> None \/ nonblock = true ->
  twp (dvb_ca_en50221_io_read others nonblock wakeups count) (fun r w' =>
    idle n fl w' /\ next_read_slot (ca_of w') = next /\
    match found with
    | None => r = Some (- EWOULDBLOCK, []) /\ holds_all (ca_of w') qs
    | Some slot => exists q, qs !! Z.to_nat slot = Some (Some q) /\
        let '(msg, kept, o) := take_message None q in
        r = Some (read_result slot count msg o) /\ holds_all (ca_of w') (<[Z.to_nat slot := Some kept]> qs)
    end) w.
Proof.
  intros H Hq Hc. pose proof H as [_ _ _ _ _ Hn _ _].
  pose proof (scan_range (Z.to_nat n) (next_read_slot (ca_of w)) None n qs ltac:(lia) Hn) as [_ Hslot].
  destruct (scan _ _ _ _ _) as [next found] eqn:Escan. simpl in Hslot. intros Hfound.
  unfold dvb_ca_en50221_io_read. rewrite (proj2 (Z.ltb_ge _ _)) by lia.
  apply twp_bind. eapply read_condition_run; [exact H|exact Hq|]. intros w1. rewrite Escan. intros E1 _ H1.
  assert (Hq1 : holds_all (ca_of w1) qs) by (by rewrite E1).
  destruct found as [slot|].
  - apply twp_bind, twp_ret. destruct Hslot as (Hslot & q & Eq).
    pose proof (read_slot_run _ _ qs slot count q w1 H1 Hq1 Hslot Eq Hc) as Hrun.
    destruct (take_message None q) as [[msg kept] o] eqn:Et. eapply twp_mono; [exact Hrun|].
    intros r w2 (H2 & Hq2 & Hn2 & _ & ->). split; [exact H2|]. split; [by rewrite Hn2, E1|].
    exists q. rewrite Et. done.
  - destruct Hfound as [?| ->]; [done|]. apply twp_bind, twp_ret, twp_ret.
    split; [exact H1|]. split; [by rewrite E1|done].
Qed.
(** For a device whose running slots have received the fragments [qs]: [read] finds
    the slot [scan] finds, takes the first message out of its queue, and leaves the
    fragments of every other connection and slot as they were.  The user gets the slot, the
    connection and as much of the concatenated payloads as fits.  With no whole message a
    non-blocking [read] returns EWOULDBLOCK and takes nothing; when the connection found is
    not that of the first fragment of the slot, it reports EIO and the fragments are lost. *)
Theorem dvb_ca_en50221_io_read_correct nonblock wakeups count qs w :
  idle n fl w -> holds_all (ca_of w) qs -> 2 <= count < 2 ^ 31 ->
  let '(next, found) := scan (Z.to_nat n) (next_read_slot (ca_of w)) None n qs in
  found <> None \/ nonblock = true ->
  twp (dvb_ca_en50221_io_read others nonblock wakeups count) (fun r w' =>
    idle n fl w' /\ next_read_slot (ca_of w') = next /\
    match found with
    | None => r = Some (- EWOULDBLOCK, []) /\ holds_all (ca_of w') qs
    | Some slot => exists q, qs !! Z.to_nat slot = Some (Some q) /\
        let '(msg, kept, o) := take_message None q in
        r = Some (read_result slot count msg o) /\ holds_all (ca_of w') (<[Z.to_nat slot := Some kept]> qs)
    end) w.
Proof. apply io_read_run. Qed.
End messages.

Definition card_queues : list (option (list (list Z))) := [Some card_fragments].
Lemma running_holds link : holds_all (ca_of (running_world link card_fragments)) card_queues.
Proof.
  constructor; [|constructor]. split; [done|]. eexists _, _. split; [done|]. split; [apply card_ring|].
  split; [apply card_ring_free|done].
Qed.

Lemma dvb_ca_en50221_io_read_correct_witness :
  exists w', @dvb_ca_en50221_io_read _ (card_system false) card_others true 0 5 (running_world 16 card_fragments) =
    Some (Some (5, [0; 9; 1; 2; 3]), w') /\ holds_all (ca_of w') [Some [[7; 0; 5]]].
Proof.
  pose proof (@dvb_ca_en50221_io_read_correct _ (card_system false) card_others 1 0
    (fun _ => eq_refl) true 0 5 card_queues (running_world 16 card_fragments)
    (running_idle 16 ltac:(unfold HOST_LINK_BUF_SIZE; lia)) (running_holds 16) ltac:(lia)) as H.
  change (scan _ _ _ _ _) with (0, Some 0) in H. cbv beta iota in H.
  destruct (twp_run _ _ _ (H (or_intror eq_refl))) as (r & w' & E & _ & _ & q & Eq & Hq).
  injection Eq as <-. change (take_message None card_fragments) with ([[1; 2]; [3]], [[7; 0; 5]], Some 9) in Hq.
  cbv beta iota in Hq. destruct Hq as [-> Hq].
  exists w'. split; [exact E|exact Hq].
Defined.

(** ** Fragments *)

(** A message of a connection, cut for a link buffer of [size] bytes. *)
Fixpoint fragments_fuel (fuel : nat) (size id : Z) (data : list Z) : list (list Z) :=
  match fuel with
  | O => []
  | S fuel =>
      if zlen data =? 0 then [] else
      let k := Z.min (size - 2) (zlen data) in
      (id :: (if k <? zlen data then 0x80 else 0) :: ztake k data) :: fragments_fuel fuel size id (zdrop k data)
  end.
Definition fragments (size id : Z) (data : list Z) : list (list Z) := fragments_fuel (length data) size id data.

Definition on_connection (id : Z) (p : list Z) : bool := frag_id p =? id.

Lemma fragments_cons size id data :
  2 < size -> 0 < zlen data ->
  fragments size id data =
    (id :: (if Z.min (size - 2) (zlen data) <? zlen data then 0x80 else 0) :: ztake (size - 2) data) ::
    fragments size id (zdrop (size - 2) data).
Proof.
  intros Hs Hd.
  assert (Hfuel : forall f g d, (length d <= f)%nat -> (length d <= g)%nat ->
            fragments_fuel f size id d = fragments_fuel g size id d).
  { induction f as [|f IH]; intros g d Hf Hg.
    { destruct d; [|simpl in Hf; lia]. by destruct g. }
    destruct g as [|g]; [destruct d; [done|simpl in Hg; lia]|]. cbn [fragments_fuel].
    destruct (zlen d =? 0) eqn:E; [done|]. cbv zeta. f_equal. pose proof (zlen_nonneg d).
    apply IH; unfold zdrop, zlen in *; rewrite length_drop; lia. }
  unfold fragments. destruct data as [|x data]; [done|]. cbn [length fragments_fuel].
  rewrite (proj2 (Z.eqb_neq (zlen (x :: data)) 0)) by lia. cbv zeta.
  assert (E : ztake (Z.min (size - 2) (zlen (x :: data))) (x :: data) = ztake (size - 2) (x :: data)).
  { destruct (decide (size - 2 <= zlen (x :: data))); [by rewrite Z.min_l by lia|].
    by rewrite Z.min_r, !ztake_all by lia. }
  assert (E' : zdrop (Z.min (size - 2) (zlen (x :: data))) (x :: data) = zdrop (size - 2) (x :: data)).
  { destruct (decide (size - 2 <= zlen (x :: data))); [by rewrite Z.min_l by lia|].
    by rewrite Z.min_r, !zdrop_all by lia. }
  rewrite E, E'. f_equal. apply Hfuel; [|done]. unfold zdrop. rewrite length_drop. simpl. lia.
Qed.
Lemma fragments_nil (size id : Z) : fragments size id [] = [].
Proof. done. Qed.

Lemma take_message_other c (p : list Z) l :
  frag_id p <> c -> take_message (Some c) (p :: l) =
    let '(m, kept, o) := take_message (Some c) l in (m, p :: kept, o).
Proof. intros. cbn [take_message]. change (default (frag_id p) (Some c)) with c. by rewrite (proj2 (Z.eqb_neq _ _)). Qed.

(** The first message of a connection is taken out of a queue in which fragments of others
    lie between its own. *)
Lemma take_message_fragments size id : 2 < size -> forall data l later,
  0 < zlen data ->
  List.filter (on_connection id) l = fragments size id data ++ later ->
  exists msg kept, take_message (Some id) l = (msg, kept, Some id) /\ concat msg = data /\
    List.filter (on_connection id) kept = later /\
    forall other, other <> id -> List.filter (on_connection other) kept = List.filter (on_connection other) l.
Proof.
  intros Hs data l. revert data. induction l as [|p l IH]; intros data later Hd E;
    rewrite fragments_cons in E by done; [done|].
  cbn [List.filter] in E. unfold on_connection at 1 in E. destruct (frag_id p =? id) eqn:Eid.
  - injection E as Ep El. cbn [take_message]. change (default (frag_id p) (Some id)) with id. rewrite Eid. apply Z.eqb_eq in Eid.
    assert (Hpay : frag_payload p = ztake (size - 2) data) by (by rewrite Ep).
    assert (Hlast : frag_last p = negb (size - 2 <? zlen data)).
    { rewrite Ep. unfold frag_last. change ((id :: ?x :: ?t).[1]) with x.
      destruct (size - 2 <? zlen data) eqn:Ek.
      - by rewrite (proj2 (Z.ltb_lt _ _)) by lia.
      - by rewrite (proj2 (Z.ltb_ge _ _)) by lia. }
    assert (Hother : forall other, other <> id -> on_connection other p = false).
    { intros other Ho. unfold on_connection. rewrite Eid. apply Z.eqb_neq. done. }
    rewrite Hlast, Hpay. destruct (size - 2 <? zlen data) eqn:Ek; cbn [negb].
    + destruct (IH (zdrop (size - 2) data) later) as (msg & kept & -> & Hm & Hk & Ho);
        [rewrite zlen_zdrop by lia; lia|done|].
      exists (ztake (size - 2) data :: msg), kept. split; [done|]. split; [simpl; rewrite Hm; apply ztake_zdrop|].
      split; [done|]. intros other Hne. cbn [List.filter]. rewrite Hother by done. auto.
    + exists [ztake (size - 2) data], l. split; [done|]. simpl. rewrite app_nil_r.
      split; [apply ztake_all; lia|]. rewrite zdrop_all in El by lia. split; [done|].
      intros other Hne. by rewrite Hother.
  - apply Z.eqb_neq in Eid. rewrite take_message_other by done.
    destruct (IH data later Hd) as (msg & kept & -> & Hm & Hk & Ho); [by rewrite fragments_cons|].
    exists msg, (p :: kept). split; [done|]. split; [done|]. cbn [List.filter].
    split; [unfold on_connection at 1; by rewrite (proj2 (Z.eqb_neq _ _))|].
    intros other Hne. destruct (on_connection other p); [f_equal|]; auto.
Qed.

Lemma take_message_first id l p l' : l = p :: l' -> frag_id p = id -> take_message None l = take_message (Some id) l.
Proof. intros -> <-. done. Qed.

(** ** Writing *)

(** The register writes that hand a packet to the CAM. *)
Definition packet_regs (p : list Z) : list (list Z) :=
  [[CTRLIF_COMMAND; Z.lor IRQEN CMDREG_HC]; [CTRLIF_SIZE_HIGH; zlen p / 256]; [CTRLIF_SIZE_LOW; zlen p mod 256]] ++
  map (fun b => [CTRLIF_DATA; b]) p ++ [[CTRLIF_COMMAND; IRQEN]].

Section write.
Context {HW : Type} {sys : ca_system HW} {sys_ok : ca_system_ok sys}.
Context (HZ : Z) (others : ca_state HW -> ca_state HW) (n fl : Z) {rely : ca_rely HZ others n fl}.
Abbreviation W := (world (ca_state HW)).
Implicit Types w : W.

(** A CAM that is free, has nothing to read, and takes what is written; and a clock that is
    read, twice in a row, within half a second. *)
Definition ready_cam (slot : Z) : Prop :=
  (forall h, let r := (sys_read_cam_control slot CTRLIF_STATUS h).1 in
     0 <= r /\ bit r STATUSREG_FR = true /\ bit r (Z.lor STATUSREG_DA STATUSREG_RE) = false /\
     bit r STATUSREG_WE = false) /\
  (forall a v h, (sys_write_cam_control slot a v h).1 = 0) /\
  (forall h, now (sys_jiffies h).2 <= now h + HZ / 2) /\
  (forall b, sys_copy_from_user b = 0).

(** From [w] to [w'] only registers were written. *)
Definition wrote (slot : Z) (regs : list (list Z)) (w w' : W) : Prop :=
  ca_of w' = ca_of w /\ w_sent w' = w_sent w ++ (pair slot <$> regs).

Lemma wrote_refl slot w : wrote slot [] w w.
Proof. split; [done|]. by rewrite app_nil_r. Qed.
Lemma wrote_trans slot a b w w1 w2 : wrote slot a w w1 -> wrote slot b w1 w2 -> wrote slot (a ++ b) w w2.
Proof. intros [E1 S1] [E2 S2]. split; [congruence|]. by rewrite S2, S1, fmap_app, app_assoc. Qed.

Lemma wrote_sys {A} slot regs w0 w (f : HW -> A * HW) (Q : A -> W -> Prop) :
  wrote slot regs w0 w ->
  (forall w', wrote slot regs w0 w' -> hw_of w' = (f (hw_of w)).2 -> Q (f (hw_of w)).1 w') -> twp (sys_call f) Q w.
Proof.
  intros [E S] H. unfold twp, sys_call. fold (hw_of w). destruct (f (hw_of w)) as [a h]. by apply H.
Qed.

Context (slot : Z) (ready : ready_cam slot).

Lemma wrote_write regs w0 w a v (Q : Z -> W -> Prop) :
  wrote slot regs w0 w -> (forall w', wrote slot (regs ++ [[a; u8 v]]) w0 w' -> Q 0 w') ->
  twp (write_cam_control slot a v) Q w.
Proof.
  intros Hw H. destruct ready as (_ & Hz & _). unfold write_cam_control. apply twp_bind. unfold sent. red.
  eapply (wrote_sys slot (regs ++ [[a; u8 v]]) w0).
  - eapply wrote_trans; [exact Hw|]. by split.
  - intros w' Hw' _. rewrite Hz. by apply H.
Qed.
Lemma wrote_status regs w0 w (Q : Z -> W -> Prop) :
  wrote slot regs w0 w ->
  (forall r w', wrote slot regs w0 w' -> 0 <= r -> bit r STATUSREG_FR = true ->
     bit r (Z.lor STATUSREG_DA STATUSREG_RE) = false -> bit r STATUSREG_WE = false -> Q r w') ->
  twp (read_cam_control slot CTRLIF_STATUS) Q w.
Proof.
  intros Hw H. destruct ready as (Hst & _). eapply wrote_sys; [exact Hw|]. intros w' Hw' _.
  destruct (Hst (hw_of w)) as (? & ? & ? & ?). by apply H.
Qed.

Lemma send_loop_wrote k : forall j buf regs w0 w,
  wrote slot regs w0 w -> bytes buf -> 0 <= j -> j + Z.of_nat k <= zlen buf ->
  twp (send_loop k j slot buf) (fun r w' => r = 0 /\
    wrote slot (regs ++ map (fun b => [CTRLIF_DATA; b]) (ztake (Z.of_nat k) (zdrop j buf))) w0 w') w.
Proof.
  induction k as [|k IH]; intros j buf regs w0 w Hw Hb Hj Hk; cbn [send_loop].
  - apply twp_ret. split; [done|]. by rewrite app_nil_r.
  - apply twp_bind. eapply twp_ca_lift; [apply zget_in; lia|].
    apply twp_bind. eapply wrote_write; [exact Hw|]. intros w1 H1. cbn [Z.eqb negb].
    eapply twp_mono; [eapply (IH (j + 1)); [exact H1|done|lia|lia]|]. intros r w2 [-> H2]. split; [done|].
    rewrite u8_small in H2 by (by apply zat_range). rewrite <- app_assoc in H2.
    assert (E : ztake (Z.of_nat (S k)) (zdrop j buf) = buf.[j] :: ztake (Z.of_nat k) (zdrop (j + 1) buf)); [|by rewrite E].
    apply zlist_eq.
    + rewrite zlen_cons, !zlen_ztake by (rewrite zlen_zdrop; lia). lia.
    + intros i Hi. rewrite zlen_ztake in Hi by (rewrite zlen_zdrop; lia). rewrite zat_ztake, zat_zdrop by lia.
      change (buf.[j] :: ztake (Z.of_nat k) (zdrop (j + 1) buf)) with ([buf.[j]] ++ ztake (Z.of_nat k) (zdrop (j + 1) buf)).
      rewrite zat_app by lia. change (zlen [buf.[j]]) with 1. case_decide.
      * replace i with 0 by lia. by rewrite Z.add_0_r.
      * rewrite zat_ztake, zat_zdrop by lia. f_equal. lia.
Qed.

Lemma write_data_wrote s p regs w0 w :
  wrote slot regs w0 w -> slot_at (ca_of w) slot = Some s -> bytes p -> zlen p <= link_buf_size s -> zlen p < 65536 ->
  twp (dvb_ca_en50221_write_data slot p (zlen p))
    (fun r w' => r = zlen p /\ wrote slot (regs ++ packet_regs p) w0 w') w.
Proof.
  intros Hw Hs Hb Hlen Hmax. pose proof (zlen_nonneg p). unfold dvb_ca_en50221_write_data.
  apply twp_bind. eapply twp_ca_slot; [done|]. rewrite (proj2 (Z.ltb_ge _ _)) by lia.
  apply twp_bind. eapply wrote_status; [exact Hw|]. intros r1 w1 H1 Hr1 _ Hda _.
  rewrite (proj2 (Z.ltb_ge _ _)), Hda by lia. apply twp_bind. unfold write_data_body, or_exit.
  apply twp_bind. eapply wrote_write; [exact H1|]. intros w2 H2. cbn [Z.eqb negb].
  apply twp_bind. eapply wrote_status; [exact H2|]. intros r3 w3 H3 Hr3 Hfr _ _.
  rewrite (proj2 (Z.ltb_ge _ _)), Hfr by lia. cbn [negb].
  apply twp_bind. eapply wrote_write; [exact H3|]. intros w4 H4. cbn [Z.eqb negb].
  apply twp_bind. eapply wrote_write; [exact H4|]. intros w5 H5. cbn [Z.eqb negb].
  apply twp_bind. eapply twp_mono; [eapply send_loop_wrote; [exact H5|done|lia|lia]|].
  intros r6 w6 [-> H6]. cbn [Z.eqb negb]. rewrite zdrop_0, ztake_all in H6 by lia.
  apply twp_bind. eapply wrote_status; [exact H6|]. intros r7 w7 H7 Hr7 _ _ Hwe.
  rewrite (proj2 (Z.ltb_ge _ _)), Hwe by lia. apply twp_ret.
  apply twp_bind. eapply wrote_write; [exact H7|]. intros w8 H8. apply twp_ret. split; [done|].
  rewrite shiftr_8, land_255, (u8_small (zlen p / 256)), (u8_small (zlen p mod 256)) in H8 by lia.
  change (u8 (Z.lor IRQEN CMDREG_HC)) with (Z.lor IRQEN CMDREG_HC) in H8. change (u8 IRQEN) with IRQEN in H8.
  unfold packet_regs. by rewrite <- !app_assoc in H8.
Qed.

(** Locking and unlocking a slot is no change. *)
Lemma relock c s : slot_at c slot = Some s -> slot_lock s = false ->
  put_slot (put_slot c slot (set_slot_lock true s)) slot (set_slot_lock false (set_slot_lock true s)) = c.
Proof.
  intros Hs Hl. pose proof (slot_at_range _ _ _ Hs) as Hr. unfold put_slot, set_slot_info. simpl.
  rewrite list_insert_insert_eq. rewrite list_insert_id; [by destruct c|].
  rewrite slot_at_lookup in Hs by lia. rewrite Hs. f_equal. destruct s. simpl in *. by subst.
Qed.

Lemma attempt_wrote fuel s p until regs w0 w :
  wrote slot regs w0 w -> slot_at (ca_of w) slot = Some s -> slot_lock s = false ->
  slot_state s = DVB_CA_SLOTSTATE_RUNNING -> bytes p -> zlen p <= link_buf_size s -> zlen p < 65536 ->
  (0 < fuel)%nat -> until = u64 (now (hw_of w) + HZ / 2) -> 0 <= HZ < 2 ^ 20 ->
  twp (attempt_loop others fuel slot p (zlen p) until)
    (fun r w' => r = Written /\ wrote slot (regs ++ packet_regs p) w0 w') w.
Proof.
  intros Hw Hs Hl Hst Hb Hlen Hmax Hf -> HHZ. destruct fuel as [|fuel]; [lia|]. cbn [attempt_loop].
  destruct ready as (_ & _ & Hfast & _). apply twp_bind. eapply wrote_sys; [exact Hw|]. intros w1 H1 Eh1.
  destruct (ok_jiffies (hw_of w)) as [-> [Hq _]]. specialize (Hfast (hw_of w)).
  rewrite jiffies_after_spec by lia. rewrite (proj2 (Z.ltb_ge _ _)) by lia.
  assert (Hs1 : slot_at (ca_of w1) slot = Some s) by (by rewrite (proj1 H1), <- (proj1 Hw)).
  apply twp_bind. eapply twp_ca_slot; [done|]. rewrite Hst.
  change (DVB_CA_SLOTSTATE_RUNNING =? DVB_CA_SLOTSTATE_RUNNING) with true. cbn [negb].
  apply twp_bind. unfold slot_mutex_lock. eapply twp_alter_slot_sent; [done|by rewrite Hl|]. intros w2 E2 _ S2.
  apply twp_bind. eapply twp_mono.
  { eapply (write_data_wrote (set_slot_lock true s) p []); [apply wrote_refl| |done..].
    rewrite E2. by eapply slot_at_put. }
  intros r w3 [-> H3]. apply twp_bind. unfold slot_mutex_unlock, mod_slot.
  assert (Hs3 : slot_at (ca_of w3) slot = Some (set_slot_lock true s)).
  { rewrite (proj1 H3), E2. by eapply slot_at_put. }
  eapply twp_alter_slot_sent; [exact Hs3|done|]. intros w4 E4 _ S4. rewrite Z.eqb_refl. apply twp_ret. split; [done|].
  destruct H1 as [E1 S1], H3 as [E3 S3]. split.
  - rewrite E4, E3, E2, relock; [done|done|done].
  - rewrite S4, S3, S2, S1, app_nil_l, fmap_app. by rewrite <- app_assoc.
Qed.

(** The rest of a message, fragment by fragment. *)
Lemma write_loop_wrote fuel : forall s id data pos regs w0 w,
  wrote slot regs w0 w -> slot_at (ca_of w) slot = Some s -> slot_lock s = false ->
  slot_state s = DVB_CA_SLOTSTATE_RUNNING -> 2 < link_buf_size s <= HOST_LINK_BUF_SIZE -> bytes data -> byte id ->
  0 <= HZ < 2 ^ 20 -> 0 <= pos <= zlen data -> zlen data - pos < Z.of_nat fuel ->
  twp (write_loop HZ others fuel slot id data pos) (fun r w' => r = zlen data + 2 /\
    wrote slot (regs ++ flat_map packet_regs (fragments (link_buf_size s) id (zdrop pos data))) w0 w') w.
Proof.
  induction fuel as [|fuel IH]; intros s id data pos regs w0 w Hw Hs Hl Hst Hsize Hb Hid HHZ Hpos Hf; [lia|].
  cbn [write_loop]. destruct (pos <? zlen data) eqn:E; cbn [negb].
  2:{ apply twp_ret. split; [done|]. rewrite zdrop_all by lia. rewrite fragments_nil. by rewrite app_nil_r. }
  pose proof (zlen_zdrop pos data ltac:(lia)) as Hzd. unfold HOST_LINK_BUF_SIZE in Hsize.
  apply twp_bind. eapply twp_ca_slot; [done|]. unfold fragment_length, HOST_LINK_BUF_SIZE.
  rewrite (proj2 (Z.ltb_ge (link_buf_size s - 2) 0)) by lia.
  rewrite (proj2 (Z.ltb_ge (0x200 - 2) (link_buf_size s - 2))) by lia. cbv zeta.
  set (k := if zlen data - pos <? link_buf_size s - 2 then zlen data - pos else link_buf_size s - 2). set (L := link_buf_size s) in *.
  assert (Hk : k = Z.min (L - 2) (zlen data - pos)) by (unfold k; destruct (zlen data - pos <? L - 2) eqn:?; lia).
  clearbody k.
  destruct ready as (_ & _ & Hfast & Hcopy). rewrite Hcopy. cbn [Z.eqb negb].
  assert (Hpay : ztake k (zdrop pos data) = ztake (L - 2) (zdrop pos data)).
  { destruct (decide (L - 2 <= zlen data - pos)); [f_equal; lia|]. rewrite !ztake_all by lia. done. }
  assert (Hfirst : (if pos + k <? zlen data then 0x80 else 0) =
                   if Z.min (L - 2) (zlen (zdrop pos data)) <? zlen (zdrop pos data) then 0x80 else 0).
  { rewrite Hzd. destruct (pos + k <? zlen data) eqn:?; [rewrite (proj2 (Z.ltb_lt _ _)) by lia|
      rewrite (proj2 (Z.ltb_ge _ _)) by lia]; done. }
  rewrite Hfirst, Hpay. set (frag := id :: _ :: _).
  assert (Hlen : zlen frag = k + 2).
  { unfold frag. rewrite !zlen_cons, <- Hpay, zlen_ztake by lia. lia. }
  assert (Hbf : bytes frag).
  { unfold frag. constructor; [done|]. constructor; [case_match; unfold byte; lia|]. auto with bgt. }
  rewrite <- Hlen. apply twp_bind. eapply wrote_sys; [exact Hw|]. intros w1 H1 Eh1.
  destruct (ok_jiffies (hw_of w)) as [-> _]. rewrite <- Eh1.
  assert (Hs1 : slot_at (ca_of w1) slot = Some s) by (by rewrite (proj1 H1), <- (proj1 Hw)).
  apply twp_bind. eapply twp_mono.
  { eapply attempt_wrote; [exact H1|exact Hs1|done|done|done|lia|lia|lia| |done].
    unfold u64. by rewrite Zplus_mod_idemp_l. }
  intros r w2 [-> H2]. rewrite fragments_cons by lia. fold L frag. cbn [flat_map]. rewrite app_assoc.
  assert (Hrest : zdrop (L - 2) (zdrop pos data) = zdrop (pos + k) data).
  { rewrite zdrop_zdrop by lia. destruct (decide (L - 2 <= zlen data - pos)); [f_equal; lia|].
    rewrite !zdrop_all by lia. done. }
  rewrite Hrest. apply (IH s); try done; [by rewrite (proj1 H2), <- (proj1 H1)|lia|lia].
Qed.
End write.

Section roundtrip.
Context {HW : Type} {sys : ca_system HW} {sys_ok : ca_system_ok sys}.
Context (HZ : Z) (others : ca_state HW -> ca_state HW) (n fl : Z) {rely : ca_rely HZ others n fl}.
Abbreviation W := (world (ca_state HW)).
Implicit Types w : W.

Lemma idle_slot w slot s : idle n fl w -> slot_at (ca_of w) slot = Some s -> slot_lock s = false /\ slot_wf s /\ 0 <= slot < n.
Proof.
  intros H Hs. pose proof (slot_at_range _ _ _ Hs) as Hr. rewrite (cw_slots _ _ _ _ _ H) in Hr.
  destruct (wf_slot _ _ _ _ _ slot H Hr) as (s' & Hs' & Hw & Hl). simplify_eq.
  rewrite (unlocked n slot Hr) in Hl. by injection Hl as <-.
Qed.

(** C39: A message handed to a CAM is the message a peer gets.  Writing [slot; id] and
    [data] to a running slot with a link buffer of more than two bytes writes to the
    registers, on a CAM that is ready, exactly the fragments of [data] in order, and reports
    all bytes as written.  When the fragments of such a message are in the queue of a slot,
    with fragments of other connections between them and anything behind, the first fragment
    of the queue being one of the message, and the slot is next to be read into a buffer long
    enough, [read] returns [slot; id] and [data], and leaves what came later and
    the other connections as they were. *)
Theorem dvb_ca_en50221_message_roundtrip slot id data s w :
  idle n fl w -> slot_at (ca_of w) slot = Some s -> slot_state s = DVB_CA_SLOTSTATE_RUNNING ->
  2 < link_buf_size s -> bytes data -> byte id -> byte slot ->
  (ready_cam HZ slot ->
   twp (dvb_ca_en50221_io_write HZ others (slot :: id :: data)) (fun r w' =>
     r = zlen data + 2 /\ ca_of w' = ca_of w /\
     w_sent w' = w_sent w ++ (pair slot <$> flat_map packet_regs (fragments (link_buf_size s) id data))) w) /\
  (forall nonblock wakeups count qs q p l later,
   (forall b, sys_copy_to_user b = 0) ->
   holds_all (ca_of w) qs -> next_read_slot (ca_of w) = slot -> qs !! Z.to_nat slot = Some (Some q) ->
   q = p :: l -> frag_id p = id -> 0 < zlen data -> zlen data + 2 <= count < 2 ^ 31 ->
   List.filter (on_connection id) q = fragments (link_buf_size s) id data ++ later ->
   twp (dvb_ca_en50221_io_read others nonblock wakeups count) (fun r w' =>
     r = Some (zlen data + 2, slot :: id :: data) /\ idle n fl w' /\
     exists kept, holds_all (ca_of w') (<[Z.to_nat slot := Some kept]> qs) /\
       List.filter (on_connection id) kept = later /\
       forall other, other <> id -> List.filter (on_connection other) kept = List.filter (on_connection other) q) w).
Proof.
  intros H Hs Hst Hlink Hb Hid Hslot. destruct (idle_slot w slot s H Hs) as (Hl & Hw & Hr).
  assert (HHZ : 0 <= HZ < 2 ^ 20) by (destruct rely; lia).
  pose proof (zlen_nonneg data). split.
  - intros Hready. unfold dvb_ca_en50221_io_write. rewrite !zlen_cons, (proj2 (Z.ltb_ge _ _)) by lia.
    destruct Hready as (R1 & R2 & R3 & Hcopy). rewrite !Hcopy. cbn [Z.eqb negb].
    apply twp_bind. eapply twp_ca_slot; [done|]. rewrite Hst.
    change (DVB_CA_SLOTSTATE_RUNNING =? DVB_CA_SLOTSTATE_RUNNING) with true. cbn [negb].
    eapply twp_mono.
    { eapply (write_loop_wrote HZ others slot); [by split_and!|apply wrote_refl|done|done|done| |done|done|done|lia|].
      - destruct Hw as [_ ? _ _]. lia.
      - unfold zlen. lia. }
    intros r w1 [-> [E S1]]. by rewrite zdrop_0 in S1.
  - intros nonblock wakeups count qs q p l later Hcopy Hq Hnext Eq Ep Eid Hd Hc Hfil.
    destruct (take_message_fragments (link_buf_size s) id Hlink data q later Hd Hfil) as (msg & kept & Et & Hm & Hk & Ho).
    pose proof (take_message_first id q p l Ep Eid) as Et'. rewrite Et in Et'.
    pose proof (io_read_run others n fl Hcopy nonblock wakeups count qs w H Hq ltac:(lia)) as Hrun.
    assert (Escan : scan (Z.to_nat n) (next_read_slot (ca_of w)) None n qs = ((slot + 1) mod n, Some slot)).
    { rewrite Hnext. destruct (Z.to_nat n) as [|k] eqn:En; [lia|]. cbn [scan]. by rewrite Eq, Et'. }
    rewrite Escan in Hrun. eapply twp_mono; [apply Hrun; by left|].
    intros r w1 (H1 & _ & q' & Eq' & Hres). simplify_eq. rewrite Et' in Hres. destruct Hres as [-> Hq1].
    split; [|split; [done|by exists kept]]. unfold read_result. cbv zeta.
    rewrite ztake_all, u8_small by (done || lia). do 2 f_equal. lia.
Qed.
End roundtrip.

Lemma card_ready : @ready_cam _ (card_system false) (card_ok false) 100 0.
Proof. split; [apply card_free|]. split; [done|]. split; [simpl; lia|done]. Qed.

Lemma dvb_ca_en50221_message_roundtrip_witness :
  @slot_at (running_ca 4 card_fragments) 0 = Some (running_slot 4 card_fragments) /\
  fragments 4 9 [1; 2; 3] = [[9; 0x80; 1; 2]; [9; 0; 3]] /\
  twp (@dvb_ca_en50221_io_write _ (card_system false) 100 card_others [0; 9; 1; 2; 3]) (fun r w' => r = 5)
    (running_world 4 card_fragments) /\
  twp (@dvb_ca_en50221_io_read _ (card_system false) card_others true 0 100)
    (fun r w' => r = Some (5, [0; 9; 1; 2; 3])) (running_world 4 card_fragments).
Proof.
  split; [done|]. split; [done|].
  destruct (@dvb_ca_en50221_message_roundtrip _ (card_system false) (card_ok false) 100 card_others 1 0
    (card_rely false 1 0) 0 9 [1; 2; 3] (running_slot 4 card_fragments) (running_world 4 card_fragments)
    (running_idle 4 ltac:(unfold HOST_LINK_BUF_SIZE; lia)) eq_refl eq_refl eq_refl
    ltac:(repeat (constructor; [done|]); constructor) ltac:(done) ltac:(done)) as [Hw Hr].
  split.
  - eapply twp_mono; [apply Hw, card_ready|]. intros r w' [-> _]. done.
  - assert (Hread := Hr true 0%nat 100 card_queues card_fragments [9; 0x80; 1; 2] [[7; 0; 5]; [9; 0; 3]] []
      (fun _ => eq_refl) (running_holds 4) eq_refl eq_refl eq_refl eq_refl eq_refl ltac:(split; [by vm_compute|lia]) eq_refl).
    eapply twp_mono; [exact Hread|]. intros r w' [-> _]. reflexivity.
Defined.
