(* ===== verification/DvbCaOps.v ===== *)
(** * DvbCaOps: every operation on the CA device

    The interrupts, the file operations and the turns of the thread keep the invariant of
    DvbCaInv.v and run to their end, in any order.  The conditions under which they do are
    those of [op_ok] and [permitted]; where the code fails without them is shown at the end. *)

From S2P Require Import Prelude Asn1 CaLink DvbRingbuffer DvbCa DvbCaIo DvbCaRead DvbCaInv DvbCaThread DvbCaSlot DvbCaCard DvbCaMsg.

(** ** Reading when copies to the user may fail *)

Lemma pkt_read_user_some cp r idx offset len x :
  dvb_ringbuffer_pkt_read r idx offset len = Some x ->
  exists y, dvb_ringbuffer_pkt_read_user cp r idx offset len = Some y.
Proof.
  unfold dvb_ringbuffer_pkt_read, dvb_ringbuffer_pkt_read_user.
  destruct (zget (rb_data r) idx); [|done]. cbn [mbind option_bind].
  destruct (zget _ _); [|done]. cbn [mbind option_bind].
  case_match; [by eexists|]. cbv zeta.
  lazymatch goal with |- (if 0 <? ?s then _ else _) = _ -> _ => destruct (0 <? s) end.
  all: repeat (lazymatch goal with |- mbind _ ?c = _ -> _ => destruct c; [|done] end; cbn [mbind option_bind]).
  all: intros _; repeat case_match; by eexists.
Qed.

Section user.
Context {HW : Type} `{sys : ca_system HW}.

(** The ring stays a ring of link packets, whatever the copies do. *)
Lemma message_loop_safe fuel : forall r b rest id out count,
  link_ring r (b ++ rest) -> not_full r -> (length rest <= fuel)%nat -> 2 <= count < 2 ^ 31 ->
  exists r' res ps', message_loop fuel r id (next_result r (first_ready b rest)) out count = Some (r', res) /\
    link_ring r' ps'.
Proof.
  induction fuel as [|fuel IH]; intros r b rest id out count H Hnf Hf Hc;
    destruct (next_cases r b rest) as [[-> Eq]|(b' & p & rest' & -> & E & Hp & Hb & Eq & Hlt)]; [|lia| |].
  1,2: by eexists _, _, (b ++ rest).
  rewrite E in H. clear Eq Hb E b. destruct (read_header r b' p rest' H) as (hdr & Eh & E0 & E1).
  cbn [message_loop]. rewrite Eh. cbn [mbind option_bind]. rewrite E0. cbn [mbind option_bind].
  rewrite E1. cbn [mbind option_bind]. rewrite (next_after r b' p rest') by done. cbn [mbind option_bind].
  destruct (frag_id (p_bytes p) =? _).
  - set (copied := if _ <? count then _ else _).
    assert (Hcp : exists y, copied = Some y).
    { subst copied. case_match; [|by eexists]. pose proof (zlen_nonneg out).
      pose proof (link_packet_in r _ p H ltac:(apply elem_of_app; right; apply list_elem_of_here)) as Hlen.
      unfold HOST_LINK_BUF_SIZE in Hlen.
      set (len := copy_length _ _ _). assert (0 <= len < 2 ^ 31) by (subst len; unfold copy_length; case_match; lia).
      destruct (pkt_read_user_some sys_copy_to_user r (index_after r b') 2 len _
        (pkt_read_run r b' p rest' 2 len (proj1 H) ltac:(lia) ltac:(lia))) as ([st bs] & ->).
      by eexists. }
    destruct Hcp as (y & ->). cbn [mbind option_bind]. destruct y as [st|out']; [by eexists _, _, (b' ++ p :: rest')|].
    destruct (dispose_next r b' p rest' H Hp Hnf) as (r' & b2 & rest2 & -> & H' & Hnf' & _ & _ & Hlen & ->).
    cbn [mbind option_bind]. case_match; [by eexists _, _, (b2 ++ rest2)|].
    apply IH; [done|done|lia|done].
  - apply (IH r (b' ++ [p]) rest'); [by rewrite <- app_assoc|done|lia|done].
Qed.
End user.

Section ops.
Context {HW : Type} {sys : ca_system HW} {sys_ok : ca_system_ok sys}.
Context (HZ : Z) (others : ca_state HW -> ca_state HW) (n fl : Z) {rely : ca_rely HZ others n fl}.
Abbreviation W := (world (ca_state HW)).
Implicit Types w : W.

Local Notation wf lk m w := (ca_wf n fl lk m (ca_of w)).

Lemma wf_mod lk m i f w (Q : unit -> W -> Prop) :
  wf lk m w -> 0 <= i < n -> (forall s, slot_wf s -> slot_wf (f s) /\ slot_lock (f s) = slot_lock s) ->
  (forall w', wf lk m w' -> hw_of w' = hw_of w -> Q tt w') -> twp (mod_slot i f) Q w.
Proof.
  intros H Hi Hf HQ. destruct (wf_slot _ _ _ _ _ i H Hi) as (s & Hs & Hw & Hl). destruct (Hf s Hw) as [Hw' Hl'].
  apply (twp_mod_slot i f s _ _ Hs). intros w' E Eh. apply HQ; [|done].
  rewrite <- (list_insert_id lk (Z.to_nat i) (slot_lock s)) by done. eapply touches_wf; [exact H|].
  rewrite E. eapply touches_put; [done|]. by split.
Qed.
Lemma wf_get lk m i w (Q : dvb_ca_slot -> W -> Prop) :
  wf lk m w -> 0 <= i < n -> (forall s, slot_at (ca_of w) i = Some s -> slot_wf s -> Q s w) -> twp (get_slot i) Q w.
Proof.
  intros H Hi HQ. destruct (wf_slot _ _ _ _ _ i H Hi) as (s & Hs & Hw & _). eapply twp_ca_slot; [done|]. auto.
Qed.
Lemma wf_minor lk m f w (Q : unit -> W -> Prop) :
  wf lk m w -> minor f -> (forall w', wf lk m w' -> hw_of w' = hw_of w -> Q tt w') -> twp (mod_ca f) Q w.
Proof.
  intros H Hf HQ. apply twp_mod_ca. intros w' E Eh. apply HQ; [|done]. rewrite E.
  destruct (Hf (ca_of w)) as (E1 & E2 & E3 & E4 & E5 & E6 & E7).
  destruct H. split; rewrite ?E1, ?E2, ?E3, ?E4, ?E5, ?E6, ?E7; done.
Qed.
Lemma wf_call {A} lk m (f : HW -> A * HW) w (Q : A -> W -> Prop) :
  wf lk m w -> (forall a w', wf lk m w' -> Q a w') -> twp (sys_call f) Q w.
Proof. intros H HQ. apply twp_sys. intros w' E _. apply HQ. by rewrite E. Qed.

Lemma wf_set_state s st : st ∈ slot_states -> st <> DVB_CA_SLOTSTATE_RUNNING -> slot_wf s ->
  slot_wf (set_slot_state st s) /\ slot_lock (set_slot_state st s) = slot_lock s.
Proof. intros. by apply kept_state. Qed.

(** *** Interrupts *)

Lemma camchange_irq_run lk m i ty w (Q : unit -> W -> Prop) :
  wf lk m w -> 0 <= i < n -> (forall w', wf lk m w' -> Q tt w') -> twp (dvb_ca_en50221_camchange_irq i ty) Q w.
Proof.
  intros H Hi HQ. unfold dvb_ca_en50221_camchange_irq. apply twp_if; intros _; [|by apply twp_ret, HQ].
  apply twp_bind. eapply wf_mod; [done|done| |].
  - intros s Hw. by apply kept_camchange; [|apply s32_range].
  - intros w1 H1 _. eapply wf_minor; [done|by intros ?|]. auto.
Qed.

Lemma camready_irq_run lk m i w :
  wf lk m w -> 0 <= i < n -> twp (dvb_ca_en50221_camready_irq i) (fun _ w' => wf lk m w') w.
Proof.
  intros H Hi. unfold dvb_ca_en50221_camready_irq. apply twp_bind. eapply wf_get; [done|done|]. intros s Hs Hw.
  apply twp_if; intros _; [|by apply twp_ret]. apply twp_bind. eapply wf_mod; [done|done| |].
  - intros s'. by apply wf_set_state; [by apply (bool_decide_unpack _)|].
  - intros w1 H1 _. eapply wf_minor; [done|by intros ?|]. auto.
Qed.

Lemma frda_irq_run lk m i w :
  wf lk m w -> 0 <= i < n -> twp (dvb_ca_en50221_frda_irq i) (fun _ w' => wf lk m w') w.
Proof.
  intros H Hi. unfold dvb_ca_en50221_frda_irq. apply twp_bind. eapply wf_get; [done|done|]. intros s Hs Hw.
  apply twp_if; intros _.
  - apply twp_bind. eapply wf_call; [done|]. intros st w1 H1. apply twp_if; intros _; [|by apply twp_ret].
    eapply wf_mod; [done|done| |auto]. intros s' Hw'. split; [by destruct Hw'|done].
  - apply twp_if; intros _; [|by apply twp_ret]. apply twp_bind, twp_get_ca. apply twp_if; intros _; [|by apply twp_ret].
    eapply wf_minor; [done|by intros ?|]. auto.
Qed.

(** *** [ioctl] *)

Lemma reset_slot_run lk m i w :
  wf lk m w -> lk !! Z.to_nat i = Some false -> 0 <= i < n -> twp (reset_slot i) (fun _ w' => wf lk m w') w.
Proof.
  intros H Hlk Hi. unfold reset_slot. apply twp_bind. eapply lock_slot_run; [done|done|done|].
  intros s w1 _ H1 Hs1 Hw1 _ _. apply twp_bind. eapply twp_ca_slot; [done|]. apply twp_bind.
  apply (twp_mono _ (fun _ w' => wf (<[Z.to_nat i := true]> lk) m w')).
  - apply twp_if; intros _; [|by apply twp_ret].
    assert (Hlk1 : <[Z.to_nat i := true]> lk !! Z.to_nat i = Some true).
    { apply list_lookup_insert_eq. by eapply lookup_lt_Some. }
    apply twp_bind. eapply slot_shutdown_run; [exact Hi|exact Hlk1|exact H1|exact Hs1|exact Hw1|].
    intros w2 H2 _ _ _. apply twp_bind, twp_get_ca. apply twp_if; intros _; [|by apply twp_ret].
    by eapply camchange_irq_run.
  - intros ? w2 H2. eapply unlock_slot_run; [exact H2|done|done|]. auto.
Qed.

Lemma unlock_run w : wf (replicate (Z.to_nat n) false) true w -> twp unlock_ioctl (fun _ w' => idle n fl w') w.
Proof. intros H. apply twp_mod_ca. intros w' E _. unfold idle. rewrite E. by destruct H. Qed.

Lemma ioctl_run cmd k w :
  idle n fl w -> (cmd = CA_GET_SLOT_INFO -> k <> n) -> - 2 ^ 31 <= k < 2 ^ 31 -> n < 2 ^ 31 ->
  twp (dvb_ca_en50221_io_do_ioctl cmd k) (fun _ w' => idle n fl w') w.
Proof.
  intros H Hk Hr Hn. unfold dvb_ca_en50221_io_do_ioctl, lock_ioctl. apply twp_bind, twp_bind.
  eapply wf_call; [exact H|]. intros intr w1 H1. apply twp_if; intros _; [by apply twp_ret, twp_ret|].
  apply twp_bind. unfold upd_ca. unfold twp at 1. unfold update. fold (ca_of w1).
  rewrite (cw_mutex _ _ _ _ _ H1). cbn [mbind option_bind].
  set (w2 := World _ _ _). assert (H2 : wf (replicate (Z.to_nat n) false) true w2) by (destruct H1; by split).
  clearbody w2. apply twp_ret. cbn [negb]. apply twp_bind, twp_get_ca. rewrite (cw_count _ _ _ _ _ H2).
  apply twp_bind. apply (twp_mono _ (fun _ w' => wf (replicate (Z.to_nat n) false) true w')).
  2:{ intros r w3 H3. apply twp_bind. eapply twp_mono; [by apply unlock_run|]. intros ? w4 H4. by apply twp_ret. }
  apply twp_if; intros E1; [|apply twp_if; intros E2; [by apply twp_ret|apply twp_if; intros E3; [|by apply twp_ret]]].
  - apply twp_bind. eapply twp_mono.
    { apply (for_slots_run (fun w => wf (replicate (Z.to_nat n) false) true w)); [|exact H2].
      intros j w3 Hj H3. apply reset_slot_run; [done|apply unlocked|]; lia. }
    intros ? w3 H3. apply twp_bind. apply twp_mod_ca. intros w4 E4 _.
    assert (H4 : wf (replicate (Z.to_nat n) false) true w4).
    { rewrite E4. apply wf_next; [done|]. pose proof (cw_next _ _ _ _ _ H3). lia. }
    apply twp_bind. eapply wf_minor; [exact H4|by intros ?|]. intros w5 H5 _. by apply twp_ret.
  - apply Z.eqb_eq in E3. apply twp_if; intros E4; [by apply twp_ret|].
    apply orb_false_iff in E4 as [E4 E5]. unfold u32 in E4. rewrite Z.mod_small in E4 by lia.
    apply twp_bind. eapply wf_get; [exact H2|specialize (Hk E3); lia|]. intros s Hs Hw. by apply twp_ret.
Qed.

(** *** [write] *)

Lemma good_slot c i s : good c -> slot_at c i = Some s -> slot_good s.
Proof.
  unfold good, slot_at. intros H Hs. case_decide; [|done]. by eapply (proj1 (Forall_lookup _ _)) in Hs.
Qed.
Lemma slot_good_lock b s : slot_good s -> slot_good (set_slot_lock b s).
Proof. done. Qed.
Lemma slot_good_io s s' : slot_good s -> io_change s s' -> slot_good s'.
Proof. intros [H1 H2] [->| ->]; [done|]. by split. Qed.

(** One try: the lock is taken and given back. *)
Lemma try_write_run {A} lk m i p s (k : Z -> T (ca_state HW) A) w (Q : A -> W -> Prop) :
  wf lk m w -> good (ca_of w) -> lk !! Z.to_nat i = Some false -> 0 <= i < n -> slot_at (ca_of w) i = Some s ->
  (forall r w', wf lk m w' -> good (ca_of w') ->
     now (hw_of w) <= now (hw_of w') <= now (hw_of w) + 522 * call_time -> twp (k r) Q w') ->
  twp (slot_mutex_lock i;; status ← dvb_ca_en50221_write_data i p (zlen p); slot_mutex_unlock i;; k status) Q w.
Proof.
  intros H Hg Hlk Hi Hs HQ. apply twp_bind. eapply lock_slot_run; [done|done|done|].
  intros s0 w1 Hs0 H1 Hs1 Hw1 Ht1 Eh1. simplify_eq.
  assert (Hg1 : good (ca_of w1)).
  { eapply touches_good; [exact Hg|exact Ht1|]. intros ? <-. apply slot_good_lock. by eapply good_slot. }
  apply twp_bind. eapply twp_mono; [apply (write_data_run i p _ _ w1 Hs1); [by destruct (sw_link _ Hw1)|]|].
  { pose proof (zlen_nonneg p). lia. }
  intros ? w2 S2. pose proof S2 as [Ht2 Hn2].
  assert (Hlk1 : <[Z.to_nat i := true]> lk !! Z.to_nat i = Some true).
  { apply list_lookup_insert_eq. by eapply lookup_lt_Some. }
  assert (H2 : wf (<[Z.to_nat i := true]> lk) m w2).
  { eapply stepped_wf; [exact H1|exact S2|exact Hlk1|]. intros s' Hs'. by apply (io_change_wf _ _ Hw1) in Hs'. }
  assert (Hg2 : good (ca_of w2)).
  { eapply touches_good; [exact Hg1|exact Ht2|]. intros s'. apply slot_good_io. by eapply good_slot. }
  apply twp_bind. eapply unlock_slot_run; [exact H2|done|done|]. intros s3 w3 Hs3 H3 _ Ht3 Eh3.
  apply HQ; [done| |by rewrite Eh3, <- Eh1].
  eapply touches_good; [exact Hg2|exact Ht3|]. intros ? <-. apply slot_good_lock. by eapply good_slot.
Qed.

(** The time is up in the end; a slot that does not run is not written to. *)
Lemma attempt_loop_run fuel : forall T lk m i p w,
  wf lk m w -> good (ca_of w) -> lk !! Z.to_nat i = Some false -> 0 <= i < n ->
  (0 < fuel)%nat -> T + 2 <= now (hw_of w) + Z.of_nat fuel -> now (hw_of w) <= T + 2 ^ 50 -> T - now (hw_of w) < 2 ^ 40 ->
  twp (attempt_loop others fuel i p (zlen p) (u64 T)) (fun r w' => wf lk m w' /\ good (ca_of w') /\
    (r = Written -> exists s, slot_at (ca_of w) i = Some s /\ slot_state s = DVB_CA_SLOTSTATE_RUNNING)) w.
Proof.
  assert (Hct : call_time = 2 ^ 32) by done.
  induction fuel as [|fuel IH]; intros T lk m i p w H Hg Hlk Hi H0 Hf Hu Hl; [lia|]. cbn [attempt_loop].
  apply twp_bind, twp_jiffies. intros w1 E1 [T1 _]. rewrite jiffies_after_spec by lia.
  apply twp_if; intros Hlt; [by apply twp_ret; rewrite E1; split_and!|]. apply Z.ltb_ge in Hlt.
  destruct (wf_slot _ _ _ _ _ i H Hi) as (s & Hs & Hw & _). rewrite <- E1 in *.
  apply twp_bind. eapply twp_ca_slot; [done|]. apply twp_if; intros Est; [by apply twp_ret; split_and!|].
  apply negb_false_iff, Z.eqb_eq in Est.
  apply (twp_mono _ (fun _ w' => wf lk m w' /\ good (ca_of w'))).
  2:{ intros r w2 [H2 Hg2]. split_and!; [done|done|]. intros _. by exists s. }
  eapply try_write_run; [done|done|done|done|done|]. intros st w2 H2 Hg2 T2.
  apply twp_if; intros _; [by apply twp_ret|]. apply twp_if; intros _; [by apply twp_ret|].
  apply twp_bind, twp_msleep. intros w3 E3. pose proof (rely_time (w_st w2)) as Ho. rewrite <- E3 in Ho.
  fold (hw_of w2) (hw_of w3) in Ho.
  eapply twp_mono; [apply (IH T lk m i p w3); [| |done|done|lia..]|by intros r w4 (H4 & Hg4 & _)].
  - unfold ca_of. rewrite E3. by apply (rely_wf (HZ := HZ)).
  - unfold ca_of. rewrite E3. by apply (rely_good (HZ := HZ) lk m).
Qed.

Lemma fragment_length_range L rest k :
  fragment_length L rest = Some k -> 0 < rest -> 0 <= k <= rest /\ (L <> 2 -> 0 < k).
Proof.
  unfold fragment_length, HOST_LINK_BUF_SIZE. intros H Hr.
  destruct (L - 2 <? 0) eqn:E1; [done|]. cbv zeta in H. injection H as <-.
  destruct (0x200 - 2 <? L - 2); case_match; lia.
Qed.

Lemma write_loop_run fuel : forall lk m i id data pos w,
  wf lk m w -> good (ca_of w) -> lk !! Z.to_nat i = Some false -> 0 <= i < n ->
  0 <= pos <= zlen data -> zlen data - pos < Z.of_nat fuel ->
  twp (write_loop HZ others fuel i id data pos) (fun _ w' => wf lk m w') w.
Proof.
  assert (HHZ : 10 <= HZ < 2 ^ 20) by (destruct rely; lia).
  induction fuel as [|fuel IH]; intros lk m i id data pos w H Hg Hlk Hi Hpos Hf; [lia|]. cbn [write_loop].
  destruct (pos <? zlen data) eqn:E; cbn [negb]; [|by apply twp_ret].
  apply twp_bind. eapply wf_get; [done|done|]. intros s Hs Hw.
  destruct (fragment_length (link_buf_size s) (zlen data - pos)) as [k|] eqn:Ek; [|by apply twp_ret].
  destruct (fragment_length_range _ _ _ Ek ltac:(lia)) as [Hk Hk0].
  set (frag := id :: _ :: _). assert (Hlen : zlen frag = k + 2).
  { unfold frag. rewrite !zlen_cons, zlen_ztake; [lia|]. rewrite zlen_zdrop; lia. }
  apply twp_if; intros _; [by apply twp_ret|]. apply twp_bind, twp_jiffies. intros w1 E1 _.
  rewrite <- Hlen.
  replace (u64 (u64 (now (hw_of w1)) + HZ / 2)) with (u64 (now (hw_of w1) + HZ / 2)) by (unfold u64; by rewrite Zplus_mod_idemp_l).
  rewrite <- E1 in *.
  apply twp_bind. eapply twp_mono.
  { apply (attempt_loop_run _ (now (hw_of w1) + HZ / 2) lk m i frag w1); [done|done|done|done|lia..]. }
  intros r w2 (H2 & Hg2 & Hr). destruct r as [|st|]; [|by apply twp_ret..].
  destruct (Hr eq_refl) as (s' & Hs' & Hst). simplify_eq.
  assert (0 < k) by (apply Hk0; by apply (good_slot _ _ _ Hg Hs)). apply IH; [done|done|done|done|lia..].
Qed.

Lemma io_write_run buf w :
  idle n fl w -> good (ca_of w) -> (forall i rest, buf = i :: rest -> 0 <= i < n) ->
  twp (dvb_ca_en50221_io_write HZ others buf) (fun _ w' => idle n fl w') w.
Proof.
  intros H Hg Hbuf. unfold dvb_ca_en50221_io_write.
  destruct buf as [|i [|id data]]; [by apply twp_ret..|]. specialize (Hbuf i _ eq_refl).
  do 3 (apply twp_if; intros _; [by apply twp_ret|]).
  apply twp_bind. eapply wf_get; [exact H|done|]. intros s Hs Hw. apply twp_if; intros _; [by apply twp_ret|].
  pose proof (zlen_nonneg data). apply write_loop_run; [exact H|done|by apply unlocked|done|lia|unfold zlen in *; lia].
Qed.

(** *** [read] and [poll] *)

Lemma condition_wf w (Q : option Z -> W -> Prop) :
  idle n fl w -> good (ca_of w) ->
  (forall r w', idle n fl w' -> good (ca_of w') -> hw_of w' = hw_of w ->
     match r with Some i => 0 <= i < n /\ exists s, slot_at (ca_of w') i = Some s /\ slot_state s = DVB_CA_SLOTSTATE_RUNNING
     | None => True end -> Q r w') ->
  twp dvb_ca_en50221_io_read_condition Q w.
Proof.
  intros H Hg HQ. destruct (queues_exist (ca_of w) (cw_wf _ _ _ _ _ H) Hg) as (qs & Hqs).
  eapply read_condition_run; [exact H|exact Hqs|]. intros w1.
  pose proof (cw_next _ _ _ _ _ H) as Hn.
  pose proof (scan_range (Z.to_nat n) (next_read_slot (ca_of w)) None n qs ltac:(lia) Hn) as [_ Hs].
  destruct (scan _ _ _ _ _) as [next found]. intros E1 Eh H1. apply HQ; [done|by rewrite E1|done|].
  destruct found as [i|]; [|done]. simpl in Hs. destruct Hs as (Hi & q & Eq). split; [done|].
  destruct (wf_slot _ _ _ _ _ i H Hi) as (s & Hs & _). exists s. split; [by rewrite E1|].
  rewrite slot_at_lookup in Hs by lia. by destruct (Forall2_lookup_lr _ _ _ _ _ _ Hqs Hs Eq).
Qed.

Lemma io_poll_run w :
  idle n fl w -> good (ca_of w) -> twp dvb_ca_en50221_io_poll (fun _ w' => idle n fl w') w.
Proof.
  intros H Hg. unfold dvb_ca_en50221_io_poll. apply twp_bind, condition_wf; [done|done|].
  intros [i|] w1 H1 Hg1 _ _; [by apply twp_ret|]. apply twp_bind, condition_wf; [done|done|].
  intros [j|] w2 H2 _ _ _; by apply twp_ret.
Qed.

Lemma wait_condition_run k : forall w (Q : option (Z + Z) -> W -> Prop),
  idle n fl w -> good (ca_of w) ->
  (forall r w', idle n fl w' -> good (ca_of w') ->
     match r with
     | Some (inl i) => 0 <= i < n /\ exists s, slot_at (ca_of w') i = Some s /\ slot_state s = DVB_CA_SLOTSTATE_RUNNING
     | _ => True end -> Q r w') ->
  twp (wait_condition others k) Q w.
Proof.
  induction k as [|k IH]; intros w Q H Hg HQ; cbn [wait_condition];
    (apply twp_bind, condition_wf; [done|done|]); (intros [i|] w1 H1 Hg1 _ Hi; [by apply twp_ret, HQ|]);
    apply twp_bind, twp_sys; intros w2 E2 _; unfold idle in H1; rewrite <- E2 in H1, Hg1;
    (apply twp_if; intros _; [by apply twp_ret, HQ|]).
  - by apply twp_ret, HQ.
  - apply twp_bind, twp_msleep. intros w3 E3. apply IH; [| |done].
    + unfold idle, ca_of. rewrite E3. by apply (rely_wf (HZ := HZ)).
    + unfold ca_of. rewrite E3. by apply (rely_good (HZ := HZ) (replicate (Z.to_nat n) false) false).
Qed.

Lemma read_slot_idle i count s w :
  idle n fl w -> good (ca_of w) -> 0 <= i < n -> slot_at (ca_of w) i = Some s ->
  slot_state s = DVB_CA_SLOTSTATE_RUNNING -> 2 <= count < 2 ^ 31 ->
  twp (read_slot i count) (fun _ w' => idle n fl w') w.
Proof.
  intros H Hg Hi Hs Hst Hc. unfold read_slot. apply twp_bind. eapply wf_get; [exact H|done|]. intros s' Hs' Hw. simplify_eq.
  pose proof (good_slot _ _ _ Hg Hs) as [Hnf _]. pose proof Hw as [_ _ _ Hring].
  destruct (rx_buffer s) as [r|] eqn:Er; [|done]. destruct Hring as (ps & Hr).
  destruct (message_loop_safe (HW := HW) (length (rb_data r)) r [] ps None [] count) as (r' & res & ps' & El & Hr');
    [done|by apply Hnf|pose proof (holds_count _ _ (proj1 Hr)); lia|done|].
  apply twp_bind, (twp_ca_lift _ r); [done|]. apply twp_bind. eapply twp_ca_lift; [by apply pkt_next_start, Hr|].
  apply twp_bind. eapply twp_ca_lift; [exact El|]. cbn beta iota. apply twp_bind.
  apply (twp_mod_slot i _ s _ _ Hs). intros w1 E1 _.
  assert (H1 : idle n fl w1).
  { unfold idle. rewrite <- (list_insert_id (replicate _ _) (Z.to_nat i) false (unlocked n i Hi)).
    eapply touches_wf; [exact H|]. rewrite E1. eapply touches_put; [done|].
    destruct (idle_slot n fl w i s H Hs) as [? _]. destruct Hw. split; [|done]. split; [done..|]. by exists ps'. }
  destruct res as [st|[id out]]; [by apply twp_ret|]. apply twp_if; intros _; by apply twp_ret.
Qed.

Lemma io_read_idle nonblock wakeups count w :
  idle n fl w -> good (ca_of w) -> count < 2 ^ 31 ->
  twp (dvb_ca_en50221_io_read others nonblock wakeups count) (fun _ w' => idle n fl w') w.
Proof.
  intros H Hg Hc. unfold dvb_ca_en50221_io_read. apply twp_if; intros E; [by apply twp_ret|]. apply Z.ltb_ge in E.
  assert (Hread : forall i w', idle n fl w' -> good (ca_of w') ->
    0 <= i < n /\ (exists s, slot_at (ca_of w') i = Some s /\ slot_state s = DVB_CA_SLOTSTATE_RUNNING) ->
    twp (read_slot i count) (fun _ w' => idle n fl w') w').
  { intros i w' H' Hg' (Hi & s & Hs & Hst). by apply (read_slot_idle i count s). }
  apply twp_bind, condition_wf; [done|done|]. intros [i|] w1 H1 Hg1 _ Hi.
  - apply twp_bind, twp_ret. by apply Hread.
  - destruct nonblock; [by apply twp_bind, twp_ret, twp_ret|].
    apply twp_bind, wait_condition_run; [done|done|]. intros r w2 H2 Hg2 Hr.
    destruct r as [[i|st]|]; [by apply Hread|by apply twp_ret..].
Qed.

(** *** [open] and [release] *)

Lemma flush_ring r ps : link_ring r ps -> link_ring (dvb_ringbuffer_flush r) [].
Proof.
  intros ((Hok & _ & _) & Hs & _). split; [|by split]. destruct Hok as (H1 & H2 & H3 & H4). split.
  - unfold rb_ok. simpl. lia.
  - split; [by constructor|]. unfold contents, dvb_ringbuffer_avail, dvb_ringbuffer_flush. simpl.
    rewrite Z.sub_diag. done.
Qed.

(** The slots are flushed before the device counts as open. *)
Lemma flush_slot_run i w :
  0 <= i < n -> ca_wf n fl (replicate (Z.to_nat n) false) false (set_open true (ca_of w)) ->
  twp (flush_slot i)
    (fun _ w' => ca_wf n fl (replicate (Z.to_nat n) false) false (set_open true (ca_of w'))) w.
Proof.
  intros Hi H.
  destruct (wf_slot _ _ _ _ _ i H Hi) as (s & Hs & Hw & Hl).
  change (slot_at (ca_of w) i = Some s) in Hs. apply (twp_mod_slot i _ s _ _ Hs). intros w1 E1 _. rewrite E1.
  change (set_open true (put_slot ?c i ?s')) with (put_slot (set_open true c) i s').
  rewrite (unlocked n i Hi) in Hl. rewrite <- (list_insert_id (replicate _ _) (Z.to_nat i) false (unlocked n i Hi)).
  eapply touches_wf; [exact H|]. eapply touches_put; [exact Hs|]. injection Hl as Hl.
  case_match eqn:Est; [|done]. split; [|done]. destruct Hw as [H1 H2 H3 H4]. split; [done..|]. simpl.
  destruct (rx_buffer s) as [r|]; simpl; [|done]. destruct H4 as (ps & H4). exists []. by eapply flush_ring.
Qed.

Lemma update_delay_run lk m w (Q : unit -> W -> Prop) :
  wf lk m w -> (forall w', wf lk m w' -> open (ca_of w') = open (ca_of w) -> dvbdev (ca_of w') = dvbdev (ca_of w) -> Q tt w') ->
  twp (dvb_ca_en50221_thread_update_delay HZ) Q w.
Proof.
  intros H HQ. apply twp_mod_ca. intros w' E _. apply HQ; [|by rewrite E..]. rewrite E. by destruct H.
Qed.

(** A file is open after [open] returned 0, as before when it failed. *)
Lemma io_open_run rdonly w :
  idle n fl w -> twp (dvb_ca_en50221_io_open HZ rdonly)
    (fun r w' => idle n fl w' /\ (r = 0 -> open (ca_of w) = false /\ open (ca_of w') = true) /\
       (r <> 0 -> ca_of w' = ca_of w)) w.
Proof.
  intros H. unfold dvb_ca_en50221_io_open. apply twp_bind, twp_sys. intros w1 E1 _. unfold idle in *. rewrite <- E1 in *.
  apply twp_if; intros _; [by apply twp_ret; split_and!|]. apply twp_bind, twp_get_ca.
  pose proof (cw_users _ _ _ _ _ H) as Hu. unfold dvb_generic_open.
  assert (Hsame : forall w', ca_of w' = set_dvbdev (dvbdev (ca_of w1)) (ca_of w1) -> ca_of w' = ca_of w1).
  { intros w' ->. by destruct (ca_of w1). }
  destruct (open (ca_of w1)) eqn:Eo; rewrite Hu; cbn [Z.eqb Z.sub Z.opp Z.add].
  { apply twp_bind, twp_mod_ca. intros w2 E2%Hsame _. cbn. apply twp_ret. rewrite E2. by split_and!. }
  set (d := if rdonly then _ else _).
  assert (Hd : d = (- EBUSY, dvbdev (ca_of w1)) \/ exists d', d = (0, d') /\ users d' = 0).
  { subst d. destruct rdonly; case_match; [by left|right; by eexists|by left|right; by eexists]. }
  clearbody d. destruct Hd as [->|(d' & -> & Hd')]; apply twp_bind, twp_mod_ca; intros w2 E2 _; cbn [Z.ltb Z.compare EBUSY Z.opp].
  { apply Hsame in E2. apply twp_ret. rewrite E2. by split_and!. }
  assert (H2 : ca_wf n fl (replicate (Z.to_nat n) false) false (set_open true (ca_of w2))) by (rewrite E2; by destruct H).
  rewrite (cw_count _ _ _ _ _ H).
  apply twp_bind. eapply twp_mono.
  { apply (for_slots_run (fun w => ca_wf n fl (replicate (Z.to_nat n) false) false (set_open true (ca_of w)))); [|exact H2].
    intros j w3 Hj. apply flush_slot_run. lia. }
  intros ? w3 H3. apply twp_bind, twp_mod_ca. intros w4 E4 _.
  cbn beta in H3. rewrite <- E4 in H3.
  apply twp_bind. eapply update_delay_run; [exact H3|]. intros w5 H5 Ho5 _.
  apply twp_bind, twp_mod_ca. intros w6 E6 _. apply twp_ret. split_and!; [|intros _; split|]; try done.
  - rewrite E6. by destruct H5.
  - rewrite E6. change (open (set_wakeup true (ca_of w5))) with (open (ca_of w5)). by rewrite Ho5, E4.
Qed.

Lemma io_release_run rdonly w :
  idle n fl w -> open (ca_of w) = true ->
  twp (dvb_ca_en50221_io_release HZ rdonly)
    (fun r w' => idle n fl w' /\ r = 0 /\ open (ca_of w') = false) w.
Proof.
  intros H Ho. pose proof (cw_users _ _ _ _ _ H) as Hu. rewrite Ho in Hu.
  unfold dvb_ca_en50221_io_release. apply twp_bind, twp_mod_ca. intros w1 E1 _.
  apply twp_bind, twp_mod_ca. intros w2 E2 _. apply twp_bind, twp_get_ca. unfold dvb_generic_release.
  apply twp_bind, twp_mod_ca. intros w3 E3 _. apply twp_ret. rewrite E3, E2, E1. split; [|by split].
  unfold idle. rewrite E3, E2, E1. destruct H. split; try done. simpl. destruct rdonly; simpl; lia.
Qed.

Lemma camchange_irq_idle i ty w : idle n fl w -> 0 <= i < n -> twp (dvb_ca_en50221_camchange_irq i ty) (fun _ w' => idle n fl w') w.
Proof. intros H Hi. eapply camchange_irq_run; [exact H|done|]. by intros w'. Qed.

(** *** Removal *)

Lemma release_slot_run lk m i w (Q : unit -> W -> Prop) :
  wf lk m w -> 0 <= i < n ->
  (forall w' s, wf lk m w' -> touches i (eq s) (ca_of w) (ca_of w') ->
     slot_state s = DVB_CA_SLOTSTATE_NONE -> rx_buffer s = None -> Q tt w') ->
  twp (release_slot i) Q w.
Proof.
  intros H Hi HQ. destruct (wf_slot _ _ _ _ _ i H Hi) as (s & Hs & Hw & Hl).
  unfold release_slot, dvb_ca_en50221_slot_shutdown. do 2 apply twp_bind. apply twp_sys. intros w1 E1 _.
  apply twp_bind. rewrite <- E1 in *. apply (twp_mod_slot i _ s _ _ Hs). intros w2 E2 _.
  apply twp_bind, twp_mod_ca. intros w3 E3 _. apply twp_ret.
  set (s1 := set_slot_state DVB_CA_SLOTSTATE_NONE s) in *.
  assert (Hs3 : slot_at (ca_of w3) i = Some s1) by (rewrite E3; apply (slot_at_put _ _ _ s1 Hs) || (rewrite E2; apply (slot_at_put _ _ _ s1 Hs))).
  apply (twp_mod_slot i _ s1 _ _ Hs3). intros w4 E4 _.
  assert (Ht : touches i (eq (set_rx_buffer None s1)) (ca_of w1) (ca_of w4)).
  { rewrite E4, E3, E2. eapply touches_trans; [by apply (touches_put i (eq s1) _ _ s1 Hs)|].
    intros s' Hs' <-. by eapply (touches_put i _ (put_slot (ca_of w1) i s1)). }
  eapply HQ; [|exact Ht|done|done].
  rewrite <- (list_insert_id lk (Z.to_nat i) (slot_lock s)) by done. eapply touches_wf; [exact H|].
  eapply touches_mono; [exact Ht|]. intros s' <-. split; [|done]. destruct Hw as [_ H2 H3 _].
  split; [by apply (bool_decide_unpack _)|done|done|done].
Qed.

Lemma for_slots_each (I : Z -> W -> Prop) k : forall lo (body : Z -> T (ca_state HW) unit) w,
  (forall j w, lo <= j < lo + Z.of_nat k -> I j w -> twp (body j) (fun _ w' => I (j + 1) w') w) -> I lo w ->
  twp (for_slots k lo body) (fun _ w' => I (lo + Z.of_nat k) w') w.
Proof.
  induction k as [|k IH]; intros lo body w Hb HI; cbn [for_slots].
  - apply twp_ret. by rewrite Z.add_0_r.
  - apply twp_bind. eapply twp_mono; [apply Hb; [lia|done]|]. intros ? w1 H1. cbn beta in H1.
    replace (lo + Z.of_nat (S k)) with (lo + 1 + Z.of_nat k) by lia.
    apply IH; [|done]. intros j w' Hj. apply Hb. lia.
Qed.

(** The slots below [k] are shut down and their rings given back. *)
Definition removed (k : Z) (c : dvb_ca_private) : Prop := forall j s, slot_at c j = Some s -> j < k ->
  slot_state s = DVB_CA_SLOTSTATE_NONE /\ rx_buffer s = None.

Lemma removal_run w :
  idle n fl w -> twp dvb_ca_en50221_release (fun _ w' => idle n fl w' /\ removed n (ca_of w')) w.
Proof.
  intros H. unfold dvb_ca_en50221_release. apply twp_bind, twp_get_ca. rewrite (cw_count _ _ _ _ _ H).
  pose proof (cw_next _ _ _ _ _ H) as Hn.
  eapply twp_mono; [apply (for_slots_each (fun k w => idle n fl w /\ removed k (ca_of w)))|].
  - intros j w1 Hj [H1 Hr]. eapply release_slot_run; [exact H1|lia|].
    intros w2 s H2 ((s' & Hs' & <-) & Hoth & _) E1 E2. split; [done|]. intros j' s' Hj' Hlt.
    destruct (decide (j' = j)) as [->|Hne]; [by simplify_eq|]. rewrite Hoth in Hj' by done.
    apply (Hr j' s' Hj'). lia.
  - split; [done|]. intros j s Hs Hj. apply slot_at_range in Hs. lia.
  - intros ? w1 [H1 Hr]. split; [done|]. by rewrite Z2Nat.id in Hr by lia.
Qed.

(** *** Any operation, in any order *)

Inductive ca_op :=
  | OpOpen (rdonly : bool) | OpRelease (rdonly : bool) | OpIoctl (cmd k : Z) | OpWrite (buf : list Z)
  | OpRead (nonblock : bool) (wakeups : nat) (count : Z) | OpPoll
  | OpCamchange (slot ty : Z) | OpCamready (slot : Z) | OpFrda (slot : Z) | OpThread (g : garbage).

Definition run (op : ca_op) : T (ca_state HW) Z :=
  match op with
  | OpOpen rdonly => dvb_ca_en50221_io_open HZ rdonly
  | OpRelease rdonly => dvb_ca_en50221_io_release HZ rdonly
  | OpIoctl cmd k => r ← dvb_ca_en50221_io_do_ioctl cmd k; mret r.1
  | OpWrite buf => dvb_ca_en50221_io_write HZ others buf
  | OpRead nonblock wakeups count =>
      r ← dvb_ca_en50221_io_read others nonblock wakeups count;
      mret match r with Some (status, _) => status | None => 0 end
  | OpPoll => dvb_ca_en50221_io_poll
  | OpCamchange slot ty => dvb_ca_en50221_camchange_irq slot ty;; mret 0
  | OpCamready slot => dvb_ca_en50221_camready_irq slot;; mret 0
  | OpFrda slot => dvb_ca_en50221_frda_irq slot;; mret 0
  | OpThread g => thread_iteration HZ others g;; mret 0
  end.

(** The driver names slots that exist, and so does the user, who also asks for no more bytes
    than an [int] counts. *)
Definition op_ok (op : ca_op) : Prop :=
  match op with
  | OpIoctl cmd k => (cmd = CA_GET_SLOT_INFO -> k <> n) /\ - 2 ^ 31 <= k < 2 ^ 31
  | OpWrite buf => forall i rest, buf = i :: rest -> 0 <= i < n
  | OpRead _ _ count => count < 2 ^ 31
  | OpCamchange slot _ | OpCamready slot | OpFrda slot => 0 <= slot < n
  | OpThread g => garbage_ok g
  | _ => True
  end.

(** What must hold of the state: only an open file is released, and reading and writing
    need what [good] says. *)
Definition slot_goodb (s : dvb_ca_slot) : bool :=
  match rx_buffer s with Some r => 0 <? dvb_ringbuffer_free r | None => true end &&
  (negb (slot_state s =? DVB_CA_SLOTSTATE_RUNNING) || negb (link_buf_size s =? 2)).
Definition permitted (op : ca_op) (c : dvb_ca_private) : bool :=
  match op with
  | OpRelease _ => open c
  | OpWrite _ | OpRead _ _ _ | OpPoll => forallb slot_goodb (slot_info c)
  | _ => true
  end.
(** Each operation is permitted in the state the ones before it left. *)
Fixpoint obeys (ops : list ca_op) (w : W) : bool :=
  match ops with
  | [] => true
  | op :: ops => permitted op (ca_of w) && match run op w with Some (_, w') => obeys ops w' | None => true end
  end.

Lemma permitted_good c : forallb slot_goodb (slot_info c) = true -> good c.
Proof.
  intros H. apply list.Forall_forall. intros s Hs. rewrite forallb_forall in H.
  specialize (H s ltac:(by apply list_elem_of_In)). unfold slot_goodb in H. apply andb_true_iff in H as [H1 H2]. split.
  - intros r Er. rewrite Er in H1. unfold not_full. lia.
  - intros Est. rewrite Est in H2. destruct (link_buf_size s =? 2) eqn:E; [done|lia].
Qed.

Lemma twp_status {A} (c : T (ca_state HW) A) (f : A -> Z) w :
  twp c (fun _ w' => idle n fl w') w -> twp (r ← c; mret (f r)) (fun _ w' => idle n fl w') w.
Proof. intros H. apply twp_bind. eapply twp_mono; [exact H|]. intros ? w' H'. by apply twp_ret. Qed.

Lemma run_op op w :
  n < 2 ^ 31 -> idle n fl w -> op_ok op -> permitted op (ca_of w) = true -> twp (run op) (fun _ w' => idle n fl w') w.
Proof.
  intros Hn H Hok Hp. destruct op as [rd|rd|cmd k|buf|nb wk cnt| |i ty|i|i|g]; simpl in Hok, Hp |- *.
  - eapply twp_mono; [by apply io_open_run|]. by intros r w' [H' _].
  - eapply twp_mono; [by apply io_release_run|]. by intros r w' [H' _].
  - apply twp_status. by apply ioctl_run; try apply Hok.
  - apply io_write_run; [done|by apply permitted_good|done].
  - apply (twp_status _ (fun r => match r with Some (status, _) => status | None => 0 end)).
    apply io_read_idle; [done|by apply permitted_good|done].
  - apply io_poll_run; [done|by apply permitted_good].
  - apply (twp_status _ (fun _ => 0)). by apply camchange_irq_idle.
  - apply (twp_status _ (fun _ => 0)). by eapply camready_irq_run.
  - apply (twp_status _ (fun _ => 0)). by eapply frda_irq_run.
  - apply (twp_status _ (fun _ => 0)). by apply thread_iteration_run.
Qed.

Lemma run_ops ops : forall w,
  n < 2 ^ 31 -> idle n fl w -> Forall op_ok ops -> obeys ops w = true ->
  exists rs w', CaLink.run_all run ops w = Some (rs, w') /\ idle n fl w'.
Proof.
  induction ops as [|op ops IH]; intros w Hn H Hall Ho; [by exists [], w|].
  apply Forall_cons_1 in Hall as [Hok Hall]. cbn [obeys] in Ho. apply andb_true_iff in Ho as [Hp Ho].
  destruct (twp_run _ _ _ (run_op op w Hn H Hok Hp)) as (r & w1 & E1 & H1). rewrite E1 in Ho.
  destruct (IH w1 Hn H1 Hall Ho) as (rs & w' & E & H'). exists (r :: rs), w'. split; [|done].
  cbn [CaLink.run_all]. unfold mbind, T_bind. rewrite E1. by rewrite E.
Qed.

Lemma init_idle a fl0 (c : dvb_ca_private) (h : HW) tick sent :
  fl = u32 fl0 -> dvb_ca_en50221_init a fl0 n = (0, Some c) -> idle n fl (World (CaState c h) tick sent).
Proof.
  intros -> Hi. unfold dvb_ca_en50221_init in Hi. destruct (n <? 1) eqn:En; [done|]. repeat (case_match; [done|]).
  injection Hi as <-. assert (Hl : Z.of_nat (Z.to_nat n) = n) by lia. split; simpl; try done; try lia.
  - unfold zlen. rewrite length_replicate. lia.
  - by rewrite fmap_replicate.
  - apply Forall_replicate. split; simpl; unfold HOST_LINK_BUF_SIZE; try lia; [by apply (bool_decide_unpack _)|done].
Qed.

(** C37: From [dvb_ca_en50221_init] on, every sequence of opens, closes, ioctls, reads,
    writes, polls, interrupts and turns of the thread that keeps these rules - the driver
    and the user name only slots there are, a close is of the file that is open, a read asks
    for no more than an [int] counts, and reads, writes and polls come only while no ring is
    full and no running slot has a link buffer of two bytes - keeps the invariant: the
    states of the slots are states, the link buffer sizes fit the buffer, a running slot has
    a ring and the ring is a sequence of link packets, the locks are free again, and at most
    one file is open.  No operation goes out of a buffer, hangs, or locks what it holds; and
    then the removal leaves every slot shut down and without a ring. *)
Theorem dvb_ca_en50221_invariant a fl0 c h ops :
  fl = u32 fl0 -> n < 2 ^ 31 -> dvb_ca_en50221_init a fl0 n = (0, Some c) ->
  Forall op_ok ops -> obeys ops (World (CaState c h) 0%nat []) = true ->
  exists rs w' st w'',
    CaLink.run_all run ops (World (CaState c h) 0%nat []) = Some (rs, w') /\
    ca_wf n fl (replicate (Z.to_nat n) false) false (ca_of w') /\
    dvb_ca_en50221_release w' = Some (st, w'') /\ removed n (ca_of w'').
Proof.
  intros Hfl Hn Hi Hops Hall. pose proof (init_idle a fl0 c h 0%nat [] Hfl Hi) as H.
  destruct (run_ops ops _ Hn H Hops Hall) as (rs & w' & Er & H').
  destruct (twp_run _ _ _ (removal_run w' H')) as (st & w'' & E & H'' & Hr).
  exists rs, w', st, w''. by split_and!.
Qed.

(** C38: A turn of the thread on a slot, from a state that satisfies the invariant, follows
    the slot state machine.  First what happened to the CAM is handled ([cam_phase]): with
    interrupts each change that was counted, by polling each difference between the card's
    answer and the state of the slot - a CAM that went is shut down and the slot ends in
    NONE, one that came starts over in UNINITIALISED, one that was waited for and says it is
    ready goes to VALIDATE, and nothing else changes.  Then comes one step ([slot_rule]):
    UNINITIALISED is reset and waits in WAITREADY, with the time to wait; WAITREADY becomes
    INVALID exactly when that time is up; VALIDATE becomes WAITFR, with a new time, exactly
    when the attribute memory is accepted and the interface of the CAM is reset; WAITFR
    becomes INVALID exactly when that time is up and LINKINIT exactly when the CAM is free
    before; LINKINIT becomes RUNNING exactly when the link comes up ([link_up]) and there is a
    ring; a failure gives INVALID, or NONE when polling finds no CAM; RUNNING, with the
    device open, receives fragments and becomes LINKINIT exactly when the registers say the
    link broke; NONE and INVALID stay.  The invariant is kept, the turn ends, and the lock of
    the slot is given back, whatever the card answers and whatever the memory on the stack
    holds. *)
Theorem dvb_ca_en50221_slot_machine g i s w :
  garbage_ok g -> idle n fl w -> slot_at (ca_of w) i = Some s ->
  exists w', thread_slot HZ others g i w = Some (tt, w') /\ idle n fl w' /\
    exists w1 s1 w2 s2,
      cam_phase i (bit fl DVB_CA_EN50221_FLAG_IRQ_CAMCHANGE) (open (ca_of w)) (set_slot_lock true s) (hw_of w) s1 (hw_of w1) /\
      slot_is i w1 s1 /\ slot_rule HZ others i g w1 s1 w2 /\ slot_is i w2 s2 /\ slot_is i w' (set_slot_lock false s2).
Proof.
  intros Hg H Hs. pose proof (slot_at_range _ _ _ Hs) as Hr. rewrite (cw_slots _ _ _ _ _ H) in Hr.
  destruct (twp_run _ _ _ (thread_slot_run HZ others n fl g _ _ i s w Hg H (unlocked n i Hr) Hr Hs)) as ([] & w' & E & H' & _).
  exists w'. split; [done|]. split; [exact H'|]. rewrite <- (cw_flags _ _ _ _ _ H).
  apply (thread_slot_done HZ others i g w tt w' s E Hs). intros s' Hs'.
  destruct (idle_slot n fl w' i s' H' Hs') as (_ & Hw & _). by destruct Hw.
Qed.

(** ** What fails without the conditions *)

Lemma bind_none {A B} (c : T (ca_state HW) A) (k : A -> T (ca_state HW) B) w : c w = None -> (c ≫= k) w = None.
Proof. unfold mbind, T_bind. by intros ->. Qed.
Lemma bind_some {A B} (c : T (ca_state HW) A) (k : A -> T (ca_state HW) B) w a w' :
  c w = Some (a, w') -> (c ≫= k) w = k a w'.
Proof. unfold mbind, T_bind. by intros ->. Qed.
Lemma get_slot_eq i w : get_slot i w = match slot_at (ca_of w) i with Some s => Some (s, w) | None => None end.
Proof. unfold get_slot, get_ca. unfold mbind, T_bind, get, lift. cbn. fold (ca_of w). by destruct (slot_at _ _). Qed.
Lemma slot_behind lk m i w : wf lk m w -> n <= i -> slot_at (ca_of w) i = None.
Proof.
  intros H Hi. destruct (slot_at (ca_of w) i) eqn:E; [|done]. apply slot_at_range in E.
  rewrite (cw_slots _ _ _ _ _ H) in E. lia.
Qed.

(** [info->num] may be the number of slots: the slot behind the last is read. *)
Theorem ioctl_one_too_far w :
  idle n fl w -> n < 2 ^ 31 -> (sys_interrupted (hw_of w)).1 = false ->
  dvb_ca_en50221_io_do_ioctl CA_GET_SLOT_INFO n w = None.
Proof.
  intros H Hn Hi. pose proof (cw_next _ _ _ _ _ H) as Hr.
  destruct (sys_interrupted (hw_of w)) as [intr h] eqn:Ei. simpl in Hi. subst intr.
  set (w1 := World (CaState (set_ioctl_mutex true (ca_of w)) h) (w_tick w) (w_sent w)).
  assert (H1 : wf (replicate (Z.to_nat n) false) true w1) by (by destruct H).
  unfold dvb_ca_en50221_io_do_ioctl. rewrite (bind_some _ _ w true w1).
  2:{ unfold lock_ioctl, sys_call, mbind, T_bind. fold (hw_of w). rewrite Ei.
      unfold upd_ca, update. cbn [w_st ca]. fold (ca_of w). by rewrite (cw_mutex _ _ _ _ _ H). }
  cbn [negb]. rewrite (bind_some _ _ w1 (ca_of w1) w1) by done. apply bind_none.
  rewrite (cw_count _ _ _ _ _ H1), u32_small, Z.ltb_irrefl, (proj2 (Z.ltb_ge n 0)) by lia.
  change (CA_GET_SLOT_INFO =? CA_RESET) with false. change (CA_GET_SLOT_INFO =? CA_GET_CAP) with false.
  rewrite Z.eqb_refl. cbn [orb]. apply bind_none. by rewrite get_slot_eq, (slot_behind _ _ n w1 H1).
Qed.

(** [write] takes the slot from the user and does not compare it with the number of slots. *)
Theorem io_write_slot_unchecked w slot id data :
  idle n fl w -> n <= slot -> (forall b, sys_copy_from_user b = 0) ->
  dvb_ca_en50221_io_write HZ others (slot :: id :: data) w = None.
Proof.
  intros H Hn Hcopy. unfold dvb_ca_en50221_io_write. pose proof (zlen_nonneg data).
  rewrite !zlen_cons, (proj2 (Z.ltb_ge _ _)) by lia. rewrite !Hcopy. cbn [Z.eqb negb].
  apply bind_none. by rewrite get_slot_eq, (slot_behind _ _ slot w H).
Qed.

(** With a link buffer of two bytes every fragment is written without a byte of the
    message: the loop of [write] never ends. *)
Theorem io_write_two_byte_link fuel slot id data s w :
  idle n fl w -> slot_at (ca_of w) slot = Some s -> slot_state s = DVB_CA_SLOTSTATE_RUNNING ->
  link_buf_size s = 2 -> byte id -> 0 < zlen data -> ready_cam HZ slot ->
  write_loop HZ others fuel slot id data 0 w = None.
Proof.
  intros H Hs Hst Hlink Hid Hd Hready. destruct (idle_slot n fl w slot s H Hs) as (Hl & _).
  assert (HHZ : 0 <= HZ < 2 ^ 20) by (destruct rely; lia).
  pose proof Hready as (_ & _ & _ & Hcopy). clear H.
  revert w Hs. induction fuel as [|fuel IH]; intros w Hs; cbn [write_loop]; rewrite (proj2 (Z.ltb_lt _ _)) by lia; [done|].
  cbn [negb]. rewrite (bind_some _ _ w s w) by (by rewrite get_slot_eq, Hs).
  assert (Ef : fragment_length 2 (zlen data - 0) = Some 0).
  { change (Some (if zlen data - 0 <? 0 then zlen data - 0 else 0) = Some 0). by rewrite (proj2 (Z.ltb_ge _ _)) by lia. }
  rewrite Hlink, Ef. cbv zeta. rewrite Hcopy. cbn [Z.eqb negb].
  set (frag := id :: _ :: _).
  assert (Hw0 : wrote slot [] w w) by apply wrote_refl.
  destruct (twp_run jiffies (fun r w' => r = u64 (now (hw_of w')) /\ wrote slot [] w w') w) as (r & w1 & E1 & -> & H1).
  { eapply wrote_sys; [exact Hw0|]. intros w1 H1 Eh1. destruct (ok_jiffies (hw_of w)) as [-> _]. by rewrite <- Eh1. }
  rewrite (bind_some _ _ w _ w1 E1).
  assert (Hs1 : slot_at (ca_of w1) slot = Some s) by (by rewrite (proj1 H1)).
  destruct (twp_run (attempt_loop others (Z.to_nat (HZ / 2 + 2)) slot frag (zlen frag) (u64 (now (hw_of w1) + HZ / 2)))
    (fun r w' => r = Written /\ wrote slot ([] ++ packet_regs frag) w w') w1) as (r & w2 & E2 & -> & H2).
  { apply (attempt_wrote HZ others slot Hready _ s); try done; [|change (zlen frag) with 2; lia|lia].
    constructor; [done|]. constructor; [case_match; unfold byte; lia|]. exact (List.Forall_nil _). }
  replace (u64 (u64 (now (hw_of w1)) + HZ / 2)) with (u64 (now (hw_of w1) + HZ / 2)) by (unfold u64; by rewrite Zplus_mod_idemp_l).
  rewrite (bind_some _ _ w1 _ w2 E2). apply IH. by rewrite (proj1 H2).
Qed.
End ops.

(** [read] goes on to look for the connection of the first slot with fragments: it finds a
    message of connection 1 on the second slot, but then takes the fragments of the
    connection the second slot starts with, which are no message. *)
Example scan_keeps_connection :
  let q0 := [[1; 0x80; 10]] in let q1 := [[2; 0x80; 20]; [1; 0; 30]] in
  scan 2 0 None 2 [Some q0; Some q1] = (0, Some 1) /\
  take_message None q1 = ([[20]], [[1; 0; 30]], None) /\ read_result 1 100 [[20]] None = (- EIO, []).
Proof. done. Qed.

(** ** The theorems at a card *)

Definition card_ops : list ca_op :=
  [OpThread card_garbage; OpThread card_garbage; OpThread card_garbage; OpThread card_garbage;
   OpOpen false; OpWrite [0; 9; 1; 2; 3]; OpRead true 0 100; OpIoctl CA_RESET 0; OpPoll; OpRelease false].

Lemma dvb_ca_en50221_invariant_witness :
  exists rs w' st w'',
    CaLink.run_all (@run _ (card_system true) 100 card_others) card_ops (World (CaState card_start (Card card_script 0)) 0%nat []) = Some (rs, w') /\
    ca_wf 1 0 [false] false (ca_of w') /\
    @dvb_ca_en50221_release _ (card_system true) w' = Some (st, w'') /\ removed 1 (ca_of w'').
Proof.
  apply (@dvb_ca_en50221_invariant _ (card_system true) (card_ok true) 100 card_others 1 0 (card_rely true 1 0)
    (InitAnswers true true 0 false 0) 0 card_start (Card card_script 0) card_ops eq_refl ltac:(lia) eq_refl).
  - pose proof card_garbage_ok. do 4 (constructor; [exact card_garbage_ok|]).
    repeat (constructor; [first [exact I | intros ? ? [= <- <-]; lia | split; [done|lia] | simpl; lia]|]). constructor.
  - vm_compute. reflexivity.
Defined.

Lemma dvb_ca_en50221_slot_machine_witness :
  exists w', @thread_slot _ (card_system true) 100 card_others card_garbage 0 (running_world 16 card_fragments) = Some (tt, w') /\
    idle 1 0 w' /\ exists w1 s1 w2 s2,
      @cam_phase _ (card_system true) 0 (bit 0 DVB_CA_EN50221_FLAG_IRQ_CAMCHANGE) (open (ca_of (running_world 16 card_fragments)))
        (set_slot_lock true (running_slot 16 card_fragments)) (hw_of (running_world 16 card_fragments)) s1 (hw_of w1) /\
      slot_is 0 w1 s1 /\ @slot_rule _ (card_system true) 100 card_others 0 card_garbage w1 s1 w2 /\
      slot_is 0 w2 s2 /\ slot_is 0 w' (set_slot_lock false s2).
Proof.
  apply (@dvb_ca_en50221_slot_machine _ (card_system true) (card_ok true) 100 card_others 1 0 (card_rely true 1 0)
    card_garbage 0 (running_slot 16 card_fragments)); [exact card_garbage_ok|apply running_idle|reflexivity].
  unfold HOST_LINK_BUF_SIZE. lia.
Defined.
