(* ===== verification/DvbCaCis.v ===== *)
(** * DvbCaCis: reading the attribute memory of a CAM

    What [parse_attributes] of DvbCa.v makes of a card information structure, as a function
    of its tuples: which structures it accepts, and the address and the value of the
    configuration it stores. *)

From S2P Require Import Prelude Asn1 CaLink DvbRingbuffer DvbCa DvbCaIo DvbCaRead DvbCaInv DvbCaThread DvbCaCard.

(** ** Searching *)

(** The first place where [needle] occurs. *)
Fixpoint find_sub (needle l : list Z) : option Z :=
  if bool_decide (ztake (zlen needle) l = needle) then Some 0
  else match l with [] => None | _ :: l => Z.succ <$> find_sub needle l end.

Lemma strncmp_eq_spec needle :
  forall l, Forall (fun c => c <> 0) needle ->
  strncmp_eq l needle (length needle) = bool_decide (ztake (zlen needle) l = needle).
Proof.
  intros l H. unfold ztake, zlen. rewrite Nat2Z.id. revert l H.
  induction needle as [|c needle IH]; intros l H; [by rewrite bool_decide_true|].
  inversion H as [|? ? Hc H']; subst. cbn [strncmp_eq length head tail]. change (default 0 (Some c)) with c.
  destruct l as [|x l]; cbn [head take tail].
  - rewrite bool_decide_false by done. by rewrite (proj2 (Z.eqb_neq (default 0 None) c)) by (simpl; lia).
  - change (default 0 (Some x)) with x. destruct (x =? c) eqn:E; cbn [negb].
    + assert (x = c) by lia. subst. rewrite (proj2 (Z.eqb_neq c 0)) by done. rewrite IH by done.
      apply bool_decide_ext. split; [by intros ->|]. by intros [= ->].
    + rewrite bool_decide_false; [done|]. intros [= -> _]. lia.
Qed.

Lemma find_sub_short needle l : zlen l < zlen needle -> find_sub needle l = None.
Proof.
  induction l as [|x l IH]; intros H; cbn [find_sub].
  - rewrite bool_decide_false; [done|]. intros E. rewrite <- E in H. rewrite ztake_all in H by (pose proof (zlen_nonneg needle); rewrite zlen_nil; lia). lia.
  - rewrite zlen_cons in H. rewrite bool_decide_false.
    + by rewrite IH by lia.
    + intros E. pose proof (f_equal zlen E) as E'. rewrite ztake_all, zlen_cons in E' by (rewrite zlen_cons; lia). lia.
Qed.

(** The bytes behind the first [hlen] do not matter. *)
Lemma findstr_spec needle l :
  Forall (fun c => c <> 0) needle -> 0 < zlen needle -> forall junk,
  findstr (l ++ junk) (zlen l) needle (zlen needle) = find_sub needle l.
Proof.
  intros Hn H0 junk. unfold findstr. destruct (zlen l <? zlen needle) eqn:E; [by rewrite find_sub_short by lia|].
  apply Z.ltb_ge in E.
  assert (Hloop : forall k i m, i = zlen (ztake i l) -> 0 <= i -> Z.of_nat k = zlen l - zlen needle + 1 - i -> m = zdrop i l ->
    findstr_loop k i (l ++ junk) needle (zlen needle) = Z.add i <$> find_sub needle m).
  { induction k as [|k IH]; intros i m Hi Hi0 Hk ->; cbn [findstr_loop].
    - rewrite find_sub_short; [done|]. rewrite zlen_zdrop by lia. lia.
    - unfold zlen at 1. rewrite Nat2Z.id, strncmp_eq_spec by done.
      rewrite zdrop_app_le by lia. rewrite ztake_app_le by (rewrite zlen_zdrop; lia).
      assert (Hm : exists x m', zdrop i l = x :: m').
      { destruct (zdrop i l) as [|x m'] eqn:Em; [|eauto]. apply (f_equal zlen) in Em.
        rewrite zlen_zdrop, zlen_nil in Em by lia. lia. }
      destruct Hm as (x & m' & Em). rewrite Em. cbn [find_sub].
      destruct (bool_decide (ztake (zlen needle) (x :: m') = needle)).
      + simpl. f_equal. lia.
      + rewrite (IH (i + 1) m'); [|rewrite zlen_ztake; lia|lia|lia|].
        * destruct (find_sub needle m'); simpl; [|done]. f_equal. lia.
        * rewrite <- zdrop_zdrop by lia. by rewrite Em. }
  rewrite (Hloop _ 0 l); [|done|lia|lia|done]. by destruct (find_sub needle l).
Qed.

(** ** The reference *)

(** A tuple has a type and a body; the structure is ended by a type without a body. *)
Definition cis_tuple : Type := Z * list Z.
Definition tuple_bytes (t : cis_tuple) : list Z := t.1 :: zlen t.2 :: t.2.
Definition encode_cis (ts : list cis_tuple) : list Z := flat_map tuple_bytes ts ++ [0xFF].
Definition tuple_wf (t : cis_tuple) : Prop := 0 <= t.1 < 0xFF /\ bytes t.2 /\ zlen t.2 < 256.

(** The body of a tuple of the given type, and the tuples behind it. *)
Definition expect (type : Z) (ts : list cis_tuple) : option (list Z * list cis_tuple) :=
  match ts with t :: ts => if t.1 =? type then Some (t.2, ts) else None | [] => None end.

(** The body of the configuration tuple: before it there are the device information of
    common and attribute memory, the version and, of four bytes, the manufacturer. *)
Definition cis_header (ts : list cis_tuple) : option (list Z * list cis_tuple) :=
  '(_, ts) ← expect 0x1D ts;
  '(_, ts) ← expect 0x1C ts;
  '(_, ts) ← expect 0x15 ts;
  '(manfid, ts) ← expect 0x20 ts;
  if negb (zlen manfid =? 4) then None else expect 0x1A ts.

Definition le_number (l : list Z) : Z := foldr (fun b n => b + 256 * n) 0 l.

(** The address of the configuration register: at most four bytes, as the first byte says. *)
Definition cis_base (b : list Z) : option Z :=
  let rasz := Z.land b.[0] 3 in
  if zlen b <? 17 + rasz then None else Some (le_number (ztake (rasz + 1) (zdrop 2 b))).

(** "DVB_CI_V" with "1.00" behind it. *)
Definition cis_version (b : list Z) : bool :=
  match find_sub str_DVB_CI_V b with
  | Some i => bool_decide (ztake 4 (zdrop (i + 8) b) = str_1_00)
  | None => false
  end.

(** Of the configuration entries that are long enough, each sets the value of the
    configuration register, up to the first that names a DVB host and a CI module. *)
Definition cis_entry (st : bool * Z) (t : cis_tuple) : bool * Z :=
  if (t.1 =? 0x1B) && (30 <=? zlen t.2) && negb st.1 then
    (bool_decide (find_sub str_DVB_HOST t.2 <> None /\ find_sub str_DVB_CI_MODULE t.2 <> None),
     Z.land t.2.[0] 0x3f)
  else st.

Definition cis_parse (s : dvb_ca_slot) (ts : list cis_tuple) : Z * dvb_ca_slot :=
  match cis_header ts with
  | None => (- EINVAL, s)
  | Some (b, ts) =>
      match cis_base b with
      | None => (- EINVAL, s)
      | Some base =>
          if negb (cis_version b) then (- EINVAL, set_config base (config_option s) s) else
          let '(found, option) := fold_left cis_entry ts (false, config_option s) in
          (if found then 0 else - EINVAL, set_config base option s)
      end
  end.

(** ** What the code makes of it *)

Lemma config_base_loop_run l : forall i base pre post,
  bytes l -> zlen pre = 2 + i -> 0 <= i -> i + zlen l <= 4 -> 0 <= base < 2 ^ (8 * i) ->
  config_base_loop (length l) i base (pre ++ l ++ post) = Some (base + 2 ^ (8 * i) * le_number l).
Proof.
  induction l as [|v l IH]; intros i base pre post Hb Hp Hi Hl Hbase; cbn [config_base_loop length le_number foldr].
  { f_equal. lia. }
  inversion Hb as [|? ? Hv Hb']; subst. rewrite zlen_cons in Hl. pose proof (zlen_nonneg l).
  assert (Hpow : 2 ^ (8 * (i + 1)) = 256 * 2 ^ (8 * i)).
  { replace (8 * (i + 1)) with (8 + 8 * i) by lia. by rewrite Z.pow_add_r by lia. }
  assert (Hmax : 2 ^ (8 * (i + 1)) <= 2 ^ 32) by (apply Z.pow_le_mono_r; lia).
  unfold byte in Hv. assert (0 < 2 ^ (8 * i)) by (apply Z.pow_pos_nonneg; lia).
  assert (Hg : zget (pre ++ (v :: l) ++ post) (2 + i) = Some v).
  { rewrite zget_in by (rewrite !zlen_app, zlen_cons; pose proof (zlen_nonneg post); lia).
    rewrite zat_app by lia. rewrite decide_False by lia. rewrite Hp, Z.sub_diag. done. }
  rewrite Hg. cbn [mbind option_bind]. rewrite Z.lor_comm, lor_shiftl_add by lia. rewrite u32_small by nia.
  replace (pre ++ (v :: l) ++ post) with ((pre ++ [v]) ++ l ++ post) by (by rewrite <- app_assoc).
  rewrite IH; [|done|rewrite zlen_app, zlen_cons, zlen_nil; lia|lia|lia|nia].
  f_equal. rewrite Hpow. fold (le_number l). nia.
Qed.

Section card.
Context {HW : Type} {sys : ca_system HW} (slot : Z).
Abbreviation W := (world (ca_state HW)).
Implicit Types w : W.

(** The attribute memory of the CAM: [l] is at its even addresses from the [p]th on. *)
Definition attr_at (p : Z) (l : list Z) : Prop :=
  forall k, 0 <= k < zlen l -> forall h, (sys_read_attribute_mem slot (2 * (p + k)) h).1 = l.[k].

Lemma attr_at_app p a b : attr_at p (a ++ b) -> attr_at p a /\ attr_at (p + zlen a) b.
Proof.
  pose proof (zlen_nonneg a). pose proof (zlen_nonneg b). intros H'. split; intros k Hk h.
  - rewrite H' by (rewrite zlen_app; lia). rewrite zat_app by lia. by rewrite decide_True by lia.
  - rewrite <- Z.add_assoc, H' by (rewrite zlen_app; lia). rewrite zat_app by lia. rewrite decide_False by lia.
    f_equal. lia.
Qed.
Lemma attr_at_cons p v l : attr_at p (v :: l) -> attr_at p [v] /\ attr_at (p + 1) l.
Proof. intros H. by apply (attr_at_app p [v]) in H. Qed.

Lemma twp_attr p v a w (Q : Z -> W -> Prop) :
  attr_at p [v] -> a = 2 * p -> (forall w', ca_of w' = ca_of w -> Q v w') -> twp (read_attribute_mem slot a) Q w.
Proof.
  intros H -> HQ. apply twp_sys. intros w' E _. specialize (H 0 ltac:(done) (hw_of w)).
  rewrite Z.add_0_r in H. rewrite H. by apply HQ.
Qed.

Lemma tuple_loop_attr b : forall j p a tuple w (Q : list Z -> W -> Prop),
  attr_at p b -> bytes b -> a + j * 2 = 2 * p -> 0 <= j -> j + zlen b <= zlen tuple ->
  (forall w', ca_of w' = ca_of w -> Q (zsplice tuple j b) w') -> twp (tuple_loop (length b) j slot a tuple) Q w.
Proof.
  induction b as [|v b IH]; intros j p a tuple w Q H Hb Ha Hj Hz HQ; cbn [tuple_loop length].
  { apply twp_ret. rewrite <- (zsplice_nil tuple j). by apply HQ. }
  inversion Hb as [|? ? Hv Hb']; subst. rewrite zlen_cons in Hz. pose proof (zlen_nonneg b).
  apply attr_at_cons in H as [H H']. apply twp_bind. eapply twp_attr; [exact H|done|]. intros w1 E1.
  apply twp_bind. eapply twp_ca_lift; [by apply put8_splice; [lia|]|].
  apply (IH (j + 1) (p + 1)); [done|done|lia|lia|rewrite zlen_zsplice; rewrite ?zlen_cons, ?zlen_nil; lia|].
  intros w2 E2. change (j + 1) with (j + zlen [v]). rewrite (zsplice_app tuple j [v] b) by (rewrite ?zlen_cons, ?zlen_nil; lia).
  apply HQ. congruence.
Qed.

(** [r] is what reading the tuple [t], which ends at [p], gives. *)
Definition tuple_read (r : tuple_result) (p : Z) (t : cis_tuple) : Prop :=
  t_status r = 0 /\ t_address r = 2 * p /\ t_type r = t.1 /\ t_length r = zlen t.2 /\
  zlen (t_tuple r) = 257 /\ exists junk, t_tuple r = t.2 ++ junk.

Lemma read_tuple_attr p t l r w (Q : tuple_result -> W -> Prop) :
  attr_at p (tuple_bytes t ++ l) -> tuple_wf t -> t_address r = 2 * p -> zlen (t_tuple r) = 257 ->
  (forall r' w', ca_of w' = ca_of w -> tuple_read r' (p + zlen (tuple_bytes t)) t ->
     attr_at (p + zlen (tuple_bytes t)) l -> Q r' w') ->
  twp (dvb_ca_en50221_read_tuple slot r) Q w.
Proof.
  intros H (Ht & Hb & Hl) Ha Hz HQ. apply attr_at_app in H as [H Hrest]. unfold tuple_bytes in H.
  apply attr_at_cons in H as [H1 H]. apply attr_at_cons in H as [H2 H3].
  pose proof (zlen_nonneg t.2). unfold dvb_ca_en50221_read_tuple. cbv zeta.
  apply twp_bind. eapply twp_attr; [exact H1|done|]. intros w1 E1.
  rewrite (proj2 (Z.ltb_ge t.1 0)), (proj2 (Z.eqb_neq t.1 0xff)) by lia.
  apply twp_bind. eapply twp_attr; [exact H2|lia|]. intros w2 E2. rewrite (proj2 (Z.ltb_ge (zlen t.2) 0)) by lia.
  apply twp_bind. unfold zlen at 1. rewrite Nat2Z.id. eapply tuple_loop_attr; [exact H3|done|lia|lia|lia|].
  intros w3 E3. apply twp_ret. unfold tuple_bytes in HQ. rewrite !zlen_cons in HQ.
  apply HQ; [congruence| |by unfold tuple_bytes in Hrest; rewrite !zlen_cons in Hrest].
  split_and!; simpl; try done; [lia|rewrite zlen_zsplice; lia|]. eexists. apply zsplice_0. lia.
Qed.

Lemma read_end_attr p l r w (Q : tuple_result -> W -> Prop) :
  attr_at p (0xFF :: l) -> t_address r = 2 * p ->
  (forall r' w', ca_of w' = ca_of w -> t_status r' = 0 -> t_type r' = 0xFF -> t_address r' = 2 * p + 2 -> Q r' w') ->
  twp (dvb_ca_en50221_read_tuple slot r) Q w.
Proof.
  intros H Ha HQ. apply attr_at_cons in H as [H _]. unfold dvb_ca_en50221_read_tuple. cbv zeta.
  apply twp_bind. eapply twp_attr; [exact H|done|]. intros w1 E1. cbn [Z.ltb Z.compare Z.eqb Pos.eqb].
  apply twp_ret, HQ; simpl; try done. lia.
Qed.

Lemma expect_attr type r k ts p w (Q : Z -> W -> Prop) :
  attr_at p (encode_cis ts) -> Forall tuple_wf ts -> type <> 0xFF -> t_address r = 2 * p -> zlen (t_tuple r) = 257 ->
  match expect type ts with
  | None => forall w', ca_of w' = ca_of w -> Q (- EINVAL) w'
  | Some (b, ts') => forall r' p' w', ca_of w' = ca_of w -> attr_at p' (encode_cis ts') -> Forall tuple_wf ts' ->
      p <= p' /\ p' + zlen (encode_cis ts') = p + zlen (encode_cis ts) -> bytes b -> tuple_read r' p' (type, b) -> twp (k r') Q w'
  end ->
  twp (expect_tuple slot type r k) Q w.
Proof.
  intros H Hwf Hty Ha Hz HQ. unfold expect_tuple. apply twp_bind. destruct ts as [|t ts]; cbn [expect] in HQ.
  - eapply read_end_attr; [exact H|done|]. intros r' w' E -> -> _. cbn [Z.ltb Z.compare].
    rewrite (proj2 (Z.eqb_neq 0xFF type)) by lia. by apply twp_ret, HQ.
  - inversion Hwf as [|? ? Ht Hwf']; subst. unfold encode_cis in H. cbn [flat_map] in H. rewrite <- app_assoc in H.
    eapply read_tuple_attr; [exact H|done|done|done|]. intros r' w' E Hr Hrest.
    pose proof Hr as (E1 & _ & E2 & _). rewrite E1, E2. cbn [Z.ltb Z.compare].
    destruct (t.1 =? type) eqn:Et; cbn [negb]; [|by apply twp_ret, HQ].
    apply (HQ _ (p + zlen (tuple_bytes t))); [done|done|done| |by destruct Ht as (_ & ? & _)|].
    + pose proof (zlen_nonneg (tuple_bytes t)). unfold encode_cis. cbn [flat_map]. rewrite !zlen_app. lia.
    + apply Z.eqb_eq in Et. subst type. exact Hr.
Qed.

(** *** The configuration entries *)

Lemma put_put c i a b : put_slot (put_slot c i a) i b = put_slot c i b.
Proof. unfold put_slot, set_slot_info. simpl. by rewrite list_insert_insert_eq. Qed.
Lemma put_same c i s : slot_at c i = Some s -> put_slot c i s = c.
Proof.
  intros H. pose proof (slot_at_range _ _ _ H). unfold slot_at in H. rewrite decide_True in H by lia.
  unfold put_slot, set_slot_info. rewrite list_insert_id by done. by destruct c.
Qed.

Lemma find_in r p t needle :
  tuple_read r p t -> Forall (fun c => c <> 0) needle -> 0 < zlen needle ->
  findstr (t_tuple r) (t_length r) needle (zlen needle) = find_sub needle t.2.
Proof. intros (_ & _ & _ & -> & _ & junk & ->) Hn Hz. by apply findstr_spec. Qed.

(** The slot of [c] with the configuration set. *)
Definition configured (c : dvb_ca_private) (s : dvb_ca_slot) (base option : Z) w : Prop :=
  slot_at c slot = Some s /\ ca_of w = put_slot c slot (set_config base option s).

Lemma configured_set c s base opt base' opt' w (Q : unit -> W -> Prop) f :
  configured c s base opt w -> f (set_config base opt s) = set_config base' opt' s ->
  (forall w', configured c s base' opt' w' -> Q tt w') -> twp (mod_slot slot f) Q w.
Proof.
  intros [Hs E] Hf HQ. apply (twp_mod_slot slot f (set_config base opt s)).
  - rewrite E. by eapply slot_at_put.
  - intros w' E' _. apply HQ. split; [done|]. by rewrite E', E, put_put, Hf.
Qed.

Lemma cftable_attr fuel : forall c s base option found r p ts w,
  attr_at p (encode_cis ts) -> Forall tuple_wf ts -> t_address r = 2 * p -> zlen (t_tuple r) = 257 ->
  2 * (p + zlen (encode_cis ts)) <= 0x1000 -> (length ts < fuel)%nat -> configured c s base option w ->
  twp (cftable_loop fuel slot found r) (fun '(st, found', a) w' => st = 0 /\ a <= 0x1000 /\
    exists option', fold_left cis_entry ts (found, option) = (found', option') /\ configured c s base option' w') w.
Proof.
  induction fuel as [|fuel IH]; intros c s base option found r p ts w H Hwf Ha Hz Hend Hf Hc; [lia|].
  cbn [cftable_loop]. assert (Hlen : 0 < zlen (encode_cis ts)).
  { unfold encode_cis. rewrite zlen_app. pose proof (zlen_nonneg (flat_map tuple_bytes ts)). change (zlen [255]) with 1. lia. }
  rewrite (proj2 (Z.ltb_lt (t_address r) 0x1000)) by lia. apply twp_bind. destruct ts as [|t ts].
  - eapply read_end_attr; [exact H|done|]. intros r1 w1 E1 -> -> Ea. change (zlen (encode_cis [])) with 1 in Hend.
    cbn [Z.ltb Z.compare Z.eqb Pos.eqb]. apply twp_ret. split_and!; [done|lia|]. exists option. split; [done|].
    destruct Hc as [Hs Hc]. split; [done|]. by rewrite E1.
  - inversion Hwf as [|? ? Ht Hwf']; subst. simpl in Hf.
    assert (Hbytes : encode_cis (t :: ts) = tuple_bytes t ++ encode_cis ts) by (unfold encode_cis; cbn [flat_map]; by rewrite app_assoc).
    rewrite Hbytes in *. rewrite zlen_app in Hend. eapply read_tuple_attr; [exact H|done|done|done|]. intros r1 w1 E1 Hr Hrest.
    assert (Hc1 : configured c s base option w1) by (destruct Hc; split; [done|congruence]).
    pose proof Hr as (E2 & E3 & E4 & E5 & E6 & junk & E7). rewrite E2, E4, E5. cbn [Z.ltb Z.compare].
    assert (Hgo : forall found' option' w', configured c s base option' w' -> cis_entry (found, option) t = (found', option') ->
      twp (cftable_loop fuel slot found' r1) (fun '(st, found', a) w' => st = 0 /\ a <= 0x1000 /\
        exists option', fold_left cis_entry (t :: ts) (found, option) = (found', option') /\ configured c s base option' w') w').
    { intros found' option' w' Hc' He. cbn [fold_left]. rewrite He.
      apply (IH c s base option' found' r1 (p + zlen (tuple_bytes t))); [done|done|done|done|lia|lia|done]. }
    assert (Hskip : cis_entry (found, option) t = (found, option) ->
      twp (cftable_loop fuel slot found r1) (fun '(st, found', a) w' => st = 0 /\ a <= 0x1000 /\
        exists option', fold_left cis_entry (t :: ts) (found, option) = (found', option') /\ configured c s base option' w') w1).
    { intros. by eapply Hgo. }
    unfold cis_entry in Hskip, Hgo. cbn [fst] in Hskip, Hgo. destruct (t.1 =? 0x1B) eqn:Et.
    2:{ destruct Ht as (Ht & _). rewrite (proj2 (Z.eqb_neq t.1 0xff)) by lia. by apply Hskip. }
    destruct (zlen t.2 <? 2 + 11 + 17) eqn:El; [apply Hskip; rewrite (proj2 (Z.leb_gt _ _)) by lia; done|].
    rewrite (proj2 (Z.leb_le 30 (zlen t.2))) in Hskip, Hgo by lia.
    destruct found; [by apply Hskip|]. cbn [andb negb] in Hgo.
    apply twp_bind. eapply twp_ca_lift; [apply zget_in; lia|]. apply twp_bind.
    assert (E0 : (t_tuple r1).[0] = t.2.[0]) by (rewrite E7, zat_app by lia; by rewrite decide_True by lia).
    rewrite E0. eapply (configured_set _ _ _ _ base (Z.land t.2.[0] 0x3f)); [exact Hc1|done|]. intros w2 Hc2.
    rewrite <- E5. change 8 with (zlen str_DVB_HOST). change 13 with (zlen str_DVB_CI_MODULE).
    rewrite !(find_in r1 _ t _ Hr) by (done || (repeat (constructor; [done|]); constructor)).
    destruct (find_sub str_DVB_HOST t.2) eqn:F1; [destruct (find_sub str_DVB_CI_MODULE t.2) eqn:F2|].
    + by apply (Hgo true _ w2 Hc2).
    + by apply (Hgo false _ w2 Hc2).
    + by apply (Hgo false _ w2 Hc2).
Qed.

(** *** The structure *)

(** The version in the configuration tuple. *)
Lemma version_run {A} r p ty b (x y : A) :
  tuple_read r p (ty, b) ->
  match findstr (t_tuple r) (t_length r) str_DVB_CI_V 8 with
  | None => x
  | Some i => if t_length r <? i + 12 then x else
      if negb (strncmp_eq (zdrop (i + 8) (t_tuple r)) str_1_00 4) then x else y
  end = if cis_version b then y else x.
Proof.
  intros Hr. change 8 with (zlen str_DVB_CI_V) at 1.
  rewrite (find_in r p _ _ Hr) by (done || (repeat (constructor; [done|]); constructor)). cbn [snd].
  unfold cis_version. destruct (find_sub str_DVB_CI_V b) as [i|] eqn:Ei; [|done].
  assert (Hi : 0 <= i).
  { clear -Ei. revert i Ei. induction b as [|v b IH]; intros i; cbn [find_sub]; (case_match; [by intros [= <-]|]); [done|].
    destruct (find_sub str_DVB_CI_V b) as [j|]; [|done]. intros [= <-]. specialize (IH j eq_refl). lia. }
  destruct Hr as (_ & _ & _ & -> & _ & junk & ->). cbn [snd].
  destruct (zlen b <? i + 12) eqn:El.
  - rewrite bool_decide_false; [done|]. intros E. apply (f_equal zlen) in E. change (zlen str_1_00) with 4 in E.
    destruct (decide (i + 8 <= zlen b)).
    + rewrite ztake_all, zlen_zdrop in E by (rewrite ?zlen_zdrop; lia). lia.
    + rewrite (zdrop_all (i + 8)) in E by lia. done.
  - rewrite zdrop_app_le by lia. change 4%nat with (length str_1_00).
    rewrite strncmp_eq_spec by (repeat (constructor; [done|]); constructor). change (zlen str_1_00) with 4.
    rewrite ztake_app_le by (rewrite zlen_zdrop; lia). by destruct (bool_decide _).
Qed.

Lemma base_run r p ty b :
  tuple_read r p (ty, b) -> bytes b -> 17 + Z.land b.[0] 3 <= zlen b ->
  config_base_loop (Z.to_nat (Z.land b.[0] 3 + 1)) 0 0 (t_tuple r) = Some (le_number (ztake (Z.land b.[0] 3 + 1) (zdrop 2 b))).
Proof.
  intros (_ & _ & _ & _ & _ & junk & ->) Hb Hl. pose proof (land_range b.[0] 3 ltac:(lia)) as Hr. cbn [snd].
  set (k := Z.land b.[0] 3 + 1) in *. set (l := ztake k (zdrop 2 b)).
  assert (Hk : zlen l = k) by (apply zlen_ztake; rewrite zlen_zdrop; lia).
  assert (Eb : b ++ junk = ztake 2 b ++ l ++ (zdrop k (zdrop 2 b) ++ junk)).
  { rewrite !app_assoc. f_equal. rewrite <- app_assoc. unfold l. by rewrite ztake_zdrop, ztake_zdrop. }
  rewrite Eb. replace (Z.to_nat k) with (length l) by (unfold zlen in Hk; lia).
  rewrite (config_base_loop_run l 0 0); [f_equal; lia| |rewrite zlen_ztake; lia|lia|lia|lia].
  unfold l. auto with bgt.
Qed.

Lemma read_address r p t : tuple_read r p t -> t_address r = 2 * p.
Proof. by intros (_ & ? & _). Qed.
Lemma read_size r p t : tuple_read r p t -> zlen (t_tuple r) = 257.
Proof. by intros (_ & _ & _ & _ & ? & _). Qed.

(** One of the tuples that must be there: without it the parser ends, as [Hout] says;
    [Hp] is the reference, evaluated so far. *)
Ltac expect_step Hp Hout :=
  lazymatch goal with
  | H : attr_at _ (encode_cis ?ts), Hwf : Forall tuple_wf ?ts |- _ =>
    let r := fresh "r" in let p := fresh "p" in let w' := fresh "w" in
    let E := fresh "E" in let Hr := fresh "Hr" in let He := fresh "He" in let Hb := fresh "Hb" in
    eapply expect_attr; [exact H|exact Hwf|done|first [done|by eapply read_address]|first [done|by eapply read_size]|];
    clear H Hwf;
    lazymatch type of Hp with context [expect ?ty ts] =>
      destruct (expect ty ts) as [[? ?]|] eqn:?; cbn [mbind option_bind] in Hp; [|intros; apply Hout; congruence]
    end;
    intros r p w' E H Hwf He Hb Hr
  end.

(** C40: What [parse_attributes] makes of the attribute memory of a CAM, whatever the buffer
    on the stack holds: it returns 0 exactly for the structures [cis_parse] accepts - the
    five tuples in their order, a manufacturer of four bytes, "DVB_CI_V1.00" in a long
    enough configuration tuple, and a long enough configuration entry that names a DVB host
    and a CI module -, otherwise EINVAL; it stores the address of the configuration register
    and the value of that entry, and changes nothing else. *)
Theorem dvb_ca_en50221_parse_attributes_correct tuple0 s ts w :
  slot_at (ca_of w) slot = Some s -> zlen tuple0 = 257 -> attr_at 0 (encode_cis ts) -> Forall tuple_wf ts ->
  2 * zlen (encode_cis ts) <= 0x1000 ->
  twp (dvb_ca_en50221_parse_attributes tuple0 slot) (fun r w' =>
    r = (cis_parse s ts).1 /\ ca_of w' = put_slot (ca_of w) slot (cis_parse s ts).2) w.
Proof.
  intros Hs Hz H Hwf Hend. assert (Hp : cis_parse s ts = cis_parse s ts) by done.
  unfold cis_parse at 2, cis_header in Hp. set (res := cis_parse s ts) in *. clearbody res.
  assert (Hout : forall w', ca_of w' = ca_of w -> res = (- EINVAL, s) ->
            - EINVAL = res.1 /\ ca_of w' = put_slot (ca_of w) slot res.2).
  { intros w' E ->. rewrite E. simpl. by rewrite put_same. }
  unfold dvb_ca_en50221_parse_attributes.
  do 4 expect_step Hp Hout.
  pose proof Hr2 as (_ & _ & _ & El & _). cbn [snd] in El. rewrite El.
  destruct (zlen _ =? 4); cbn [negb] in Hp |- *; [|apply twp_ret, Hout; congruence].
  expect_step Hp Hout. pose proof Hr3 as (_ & _ & _ & El3 & _ & junk & Et3). cbn [snd] in El3, Et3.
  rename l7 into b, l8 into rest. pose proof (land_range b.[0] 3 ltac:(lia)) as Hrasz. unfold cis_base in Hp. cbv zeta in Hp.
  rewrite El3. destruct (zlen b <? 3) eqn:Eshort.
  { rewrite (proj2 (Z.ltb_lt _ (17 + _))) in Hp by lia. apply twp_ret, Hout; congruence. }
  assert (Eb : zget (t_tuple r3) 0 = Some b.[0]).
  { pose proof (zlen_nonneg junk). rewrite Et3, zget_in by (rewrite zlen_app; lia). rewrite zat_app by lia. by rewrite decide_True by lia. }
  apply twp_bind. eapply twp_ca_lift; [exact Eb|].
  destruct (zlen b <? 17 + Z.land b.[0] 3) eqn:E17.
  { rewrite (proj2 (Z.ltb_lt _ (3 + _ + 14))) by lia. apply twp_ret, Hout; congruence. }
  rewrite (proj2 (Z.ltb_ge _ (3 + _ + 14))) by lia.
  apply twp_bind. eapply twp_ca_lift; [by eapply base_run; [exact Hr3|..]; [done|lia]|].
  set (base := le_number _) in *. apply twp_bind.
  eapply (configured_set (ca_of w) s (config_base s) (config_option s)); [split; [done|]|by destruct s|].
  { replace (set_config (config_base s) (config_option s) s) with s by (by destruct s). rewrite put_same by done. congruence. }
  intros w5 Hc. rewrite <- El3, (version_run r3 _ _ b) by exact Hr3.
  destruct (cis_version b); cbn [negb] in Hp.
  2:{ apply twp_ret. destruct Hc as [_ ->]. by subst res. }
  assert (Hcount : forall ts : list cis_tuple, 2 * Z.of_nat (length ts) < zlen (encode_cis ts)).
  { clear. induction ts as [|t ts IH]; [done|]. unfold encode_cis, tuple_bytes in *. cbn [flat_map length].
    rewrite <- app_assoc, zlen_app, !zlen_cons. pose proof (zlen_nonneg t.2). lia. }
  specialize (Hcount rest). apply twp_bind. eapply twp_mono.
  { apply (cftable_attr 0x1000 (ca_of w) s base (config_option s) false r3 p3 rest w5 H Hwf
      (read_address _ _ _ Hr3) (read_size _ _ _ Hr3)); [lia|lia|exact Hc]. }
  intros [[st found] a] w6 (-> & Ha & option' & Ef & [_ Ec]). rewrite Ef in Hp. cbn [Z.ltb Z.compare].
  rewrite (proj2 (Z.ltb_ge 0x1000 a)) by lia. subst res. destruct found; by apply twp_ret.
Qed.
End card.

(** The card of DvbCaCard.v. *)
Definition card_tuples : list cis_tuple :=
  [(0x1D, []); (0x1C, [7]); (0x15, [1; 2]); (0x20, [1; 2; 3; 4]);
   (0x1A, [0; 0; 0x40] ++ str_DVB_CI_V ++ str_1_00 ++ [0; 0]);
   (0x1B, 5 :: str_DVB_HOST ++ str_DVB_CI_MODULE ++ replicate 8 0)].

Definition card_world : world (ca_state card_state) := World (CaState card_start (Card [] 0)) 0%nat [].

Lemma card_attr : @attr_at _ (card_system false) 0 0 (encode_cis card_tuples).
Proof.
  intros k Hk h. change (zlen (encode_cis card_tuples)) with (zlen card_cis) in Hk. change (encode_cis card_tuples) with card_cis.
  cbn [sys_read_attribute_mem card_system fst]. rewrite Z.add_0_l, Z.mul_comm, Z.div_mul by lia.
  rewrite decide_True by lia. apply u8_small. apply zat_range.
  repeat (constructor; [done|]). constructor.
Qed.
Lemma card_tuples_wf : Forall tuple_wf card_tuples.
Proof.
  repeat (constructor; [split; [done|split; [|done]]; repeat (constructor; [done|]); constructor|]). constructor.
Qed.

Lemma dvb_ca_en50221_parse_attributes_correct_witness :
  encode_cis card_tuples = card_cis /\ cis_parse init_slot card_tuples = (0, set_config 0x40 5 init_slot) /\
  twp (@dvb_ca_en50221_parse_attributes _ (card_system false) (replicate 257 0) 0) (fun r w' =>
    r = (cis_parse init_slot card_tuples).1 /\
    ca_of w' = put_slot (ca_of card_world) 0 (cis_parse init_slot card_tuples).2) card_world.
Proof.
  split; [reflexivity|]. split; [reflexivity|].
  exact (@dvb_ca_en50221_parse_attributes_correct _ (card_system false) 0 (replicate 257 0) init_slot card_tuples
    card_world eq_refl eq_refl card_attr card_tuples_wf ltac:(by vm_compute)).
Defined.
