(* ===== verification/DvbNet.v ===== *)
(** * DvbNet: dvb-core/dvb_net.c, the packets

    IP over DVB: the decapsulation of ULE from the cells of a transport stream and of MPE
    from sections, into frames for the network stack.  A socket buffer is its memory, where
    its data start and how long they are; what is handed to [netif_rx] is recorded in order.
    The CRC of the kernel and the allocator are parameters.  [None] is an access outside a
    buffer, or the overflow of a socket buffer. *)

From S2P Require Import Prelude.

Definition ETH_ALEN : Z := 6.
Definition ETH_HLEN : Z := 14.
Definition ETH_P_802_3 : Z := 1.
Definition ETH_P_802_2 : Z := 4.
Definition PACKET_HOST : Z := 0.
Definition PACKET_BROADCAST : Z := 1.
Definition PACKET_MULTICAST : Z := 2.

Definition TS_SZ : Z := 188.
Definition TS_SYNC : Z := 0x47.
Definition TS_TEI : Z := 0x80.
Definition TS_SC : Z := 0xC0.
Definition TS_PUSI : Z := 0x40.

Definition RX_MODE_UNI : Z := 0.
Definition RX_MODE_MULTI : Z := 1.
Definition RX_MODE_ALL_MULTI : Z := 2.
Definition RX_MODE_PROMISC : Z := 3.

(** ** Socket buffers *)

Record sk_buff := SkBuff { sk_mem : list Z; sk_data : Z; sk_len : Z }.

Definition skb_reserve (n : Z) (s : sk_buff) : sk_buff := SkBuff (sk_mem s) (sk_data s + n) (sk_len s).
(** [memcpy(skb_put(s, l), ..., l)] *)
Definition skb_put (l : list Z) (s : sk_buff) : option sk_buff :=
  if decide (sk_data s + sk_len s + zlen l <= zlen (sk_mem s)) then
    Some (SkBuff (zsplice (sk_mem s) (sk_data s + sk_len s) l) (sk_data s) (sk_len s + zlen l))
  else None.
Definition skb_pull (n : Z) (s : sk_buff) : sk_buff :=
  if sk_len s <? n then s else SkBuff (sk_mem s) (sk_data s + n) (sk_len s - n).
(** [memcpy(skb_push(s, l), ..., l)] *)
Definition skb_push (l : list Z) (s : sk_buff) : option sk_buff :=
  if sk_data s <? zlen l then None
  else Some (SkBuff (zsplice (sk_mem s) (sk_data s - zlen l) l) (sk_data s - zlen l) (sk_len s + zlen l)).
(** [n] bytes from [data + k] on, be they within the length or behind it. *)
Definition skb_bytes (k n : Z) (s : sk_buff) : option (list Z) :=
  if decide (0 <= sk_data s + k /\ 0 <= n /\ sk_data s + k + n <= zlen (sk_mem s)) then
    Some (ztake n (zdrop (sk_data s + k) (sk_mem s)))
  else None.
Definition be_pair (l : list Z) : Z := l.[0] * 256 + l.[1].
Definition skb_be16 (k : Z) (s : sk_buff) : option Z := be_pair <$> skb_bytes k 2 s.

(** ** The interface *)

Record net_device_stats := Stats {
  rx_packets : Z; rx_bytes : Z; rx_errors : Z; rx_dropped : Z;
  rx_length_errors : Z; rx_crc_errors : Z; rx_frame_errors : Z }.
Definition rx_frame_error (s : net_device_stats) : net_device_stats :=
  Stats (rx_packets s) (rx_bytes s) (u64 (rx_errors s + 1)) (rx_dropped s) (rx_length_errors s) (rx_crc_errors s) (u64 (rx_frame_errors s + 1)).
Definition rx_length_error (s : net_device_stats) : net_device_stats :=
  Stats (rx_packets s) (rx_bytes s) (u64 (rx_errors s + 1)) (rx_dropped s) (u64 (rx_length_errors s + 1)) (rx_crc_errors s) (rx_frame_errors s).
Definition rx_crc_error (s : net_device_stats) : net_device_stats :=
  Stats (rx_packets s) (rx_bytes s) (u64 (rx_errors s + 1)) (rx_dropped s) (rx_length_errors s) (u64 (rx_crc_errors s + 1)) (rx_frame_errors s).
Definition rx_drop (s : net_device_stats) : net_device_stats :=
  Stats (rx_packets s) (rx_bytes s) (rx_errors s) (u64 (rx_dropped s + 1)) (rx_length_errors s) (rx_crc_errors s) (rx_frame_errors s).
Definition rx_packet (len : Z) (s : net_device_stats) : net_device_stats :=
  Stats (u64 (rx_packets s + 1)) (u64 (rx_bytes s + len)) (rx_errors s) (rx_dropped s) (rx_length_errors s) (rx_crc_errors s) (rx_frame_errors s).

(** The part of the private data the decapsulation works on. *)
Record dvb_net_priv := NetPriv {
  need_pusi : bool; tscc : Z;
  ule_skb : option sk_buff; ule_next_hdr : Z; ule_sndu_len : Z; ule_sndu_type : Z;
  ule_sndu_type_1 : bool; ule_dbit : Z; ule_bridged : bool; ule_sndu_remain : Z; ts_count : Z }.

(** A frame handed to the stack: the frame with its header, the protocol in host order, and
    the kind of its destination. *)
Record net_frame := NetFrame { nf_frame : list Z; nf_protocol : Z; nf_type : Z }.

(** The state: the private data, the statistics, the frames handed on, and how many buffers
    were asked for. *)
Record net := Net { priv : dvb_net_priv; stats : net_device_stats; frames : list net_frame; allocs : nat }.

(** What is fixed while packets come in: the addresses and the mode of the device, the
    allocator, which gives the uninitialised memory of a buffer, and the CRC. *)
Record net_config := NetConfig {
  rx_mode : Z; multi_macs : list (list Z); dev_addr : list Z; broadcast : list Z;
  dev_alloc_skb : nat -> Z -> option (list Z); crc32_be : Z -> list Z -> Z }.

Definition set_priv (p : dvb_net_priv) (n : net) : net := Net p (stats n) (frames n) (allocs n).
Definition set_stats (f : net_device_stats -> net_device_stats) (n : net) : net := Net (priv n) (f (stats n)) (frames n) (allocs n).

Definition set_need_pusi v p := NetPriv v (tscc p) (ule_skb p) (ule_next_hdr p) (ule_sndu_len p) (ule_sndu_type p) (ule_sndu_type_1 p) (ule_dbit p) (ule_bridged p) (ule_sndu_remain p) (ts_count p).
Definition set_tscc v p := NetPriv (need_pusi p) v (ule_skb p) (ule_next_hdr p) (ule_sndu_len p) (ule_sndu_type p) (ule_sndu_type_1 p) (ule_dbit p) (ule_bridged p) (ule_sndu_remain p) (ts_count p).
Definition set_ule_skb v p := NetPriv (need_pusi p) (tscc p) v (ule_next_hdr p) (ule_sndu_len p) (ule_sndu_type p) (ule_sndu_type_1 p) (ule_dbit p) (ule_bridged p) (ule_sndu_remain p) (ts_count p).
Definition set_next_hdr v p := NetPriv (need_pusi p) (tscc p) (ule_skb p) v (ule_sndu_len p) (ule_sndu_type p) (ule_sndu_type_1 p) (ule_dbit p) (ule_bridged p) (ule_sndu_remain p) (ts_count p).
Definition set_sndu_len v p := NetPriv (need_pusi p) (tscc p) (ule_skb p) (ule_next_hdr p) v (ule_sndu_type p) (ule_sndu_type_1 p) (ule_dbit p) (ule_bridged p) (ule_sndu_remain p) (ts_count p).
Definition set_sndu_type v p := NetPriv (need_pusi p) (tscc p) (ule_skb p) (ule_next_hdr p) (ule_sndu_len p) v (ule_sndu_type_1 p) (ule_dbit p) (ule_bridged p) (ule_sndu_remain p) (ts_count p).
Definition set_sndu_type_1 v p := NetPriv (need_pusi p) (tscc p) (ule_skb p) (ule_next_hdr p) (ule_sndu_len p) (ule_sndu_type p) v (ule_dbit p) (ule_bridged p) (ule_sndu_remain p) (ts_count p).
Definition set_dbit v p := NetPriv (need_pusi p) (tscc p) (ule_skb p) (ule_next_hdr p) (ule_sndu_len p) (ule_sndu_type p) (ule_sndu_type_1 p) v (ule_bridged p) (ule_sndu_remain p) (ts_count p).
Definition set_bridged v p := NetPriv (need_pusi p) (tscc p) (ule_skb p) (ule_next_hdr p) (ule_sndu_len p) (ule_sndu_type p) (ule_sndu_type_1 p) (ule_dbit p) v (ule_sndu_remain p) (ts_count p).
Definition set_remain v p := NetPriv (need_pusi p) (tscc p) (ule_skb p) (ule_next_hdr p) (ule_sndu_len p) (ule_sndu_type p) (ule_sndu_type_1 p) (ule_dbit p) (ule_bridged p) v (ts_count p).
Definition count_ts p := NetPriv (need_pusi p) (tscc p) (ule_skb p) (ule_next_hdr p) (ule_sndu_len p) (ule_sndu_type p) (ule_sndu_type_1 p) (ule_dbit p) (ule_bridged p) (ule_sndu_remain p) (u64 (ts_count p + 1)).

Definition reset_ule (p : dvb_net_priv) : dvb_net_priv :=
  NetPriv (need_pusi p) (tscc p) None 0 0 0 false 0xFF false 0 (ts_count p).

(** ** Frames *)

(** The buffer behind the header, the kind of the destination, and the protocol. *)
Definition dvb_net_eth_type_trans (cfg : net_config) (skb : sk_buff) : option (sk_buff * Z * Z) :=
  let data := skb_pull ETH_HLEN skb in
  dest ← skb_bytes 0 ETH_ALEN skb;
  let pkt_type := if Z.land dest.[0] 1 =? 0 then PACKET_HOST
    else if bool_decide (dest = broadcast cfg) then PACKET_BROADCAST else PACKET_MULTICAST in
  proto ← skb_be16 12 skb;
  if 1536 <=? proto then Some (data, pkt_type, proto) else
  raw ← skb_bytes 0 2 data;
  Some (data, pkt_type, if bool_decide (raw = [0xFF; 0xFF]) then ETH_P_802_3 else ETH_P_802_2).

(** The end of both decapsulations: the frame is counted and handed on. *)
Definition netif_rx (cfg : net_config) (skb : sk_buff) (n : net) : option net :=
  frame ← skb_bytes 0 (sk_len skb) skb;
  '(data, pkt_type, proto) ← dvb_net_eth_type_trans cfg skb;
  Some (Net (priv n) (rx_packet (sk_len data) (stats n)) (frames n ++ [NetFrame frame proto pkt_type]) (allocs n)).

(** ** ULE extension headers *)

Definition ule_test_sndu (p : dvb_net_priv) : option (Z * dvb_net_priv) := Some (-1, p).
Definition ule_bridged_sndu (p : dvb_net_priv) : option (Z * dvb_net_priv) :=
  skb ← ule_skb p;
  h_proto ← skb_be16 (ule_next_hdr p + 12) skb;
  let framelen := ule_sndu_len p - (ule_next_hdr p + ETH_HLEN) in
  if (h_proto <? 1536) && negb (framelen =? h_proto) then Some (-1, p)
  else Some (0, set_bridged true p).

(** The tables of handlers have 255 entries, and a null pointer where there is none. *)
Definition ule_mandatory_ext_handlers (htype : Z) : option (option (dvb_net_priv -> option (Z * dvb_net_priv))) :=
  if 255 <=? htype then None else
  Some (if htype =? 0 then Some ule_test_sndu else if htype =? 1 then Some ule_bridged_sndu else None).

Definition handle_one_ule_extension (p : dvb_net_priv) : option (Z * dvb_net_priv) :=
  skb ← ule_skb p;
  let hlen := Z.shiftr (Z.land (ule_sndu_type p) 0x0700) 8 in
  let htype := Z.land (ule_sndu_type p) 0x00FF in
  if hlen =? 0 then
    handler ← ule_mandatory_ext_handlers htype;
    match handler with
    | Some handler =>
        '(ext_len, p) ← handler p;
        if 0 <=? ext_len then
          let p := set_next_hdr (ule_next_hdr p + ext_len) p in
          if negb (ule_bridged p) then
            type ← skb_be16 (ule_next_hdr p) skb;
            Some (ext_len, set_next_hdr (ule_next_hdr p + 2) (set_sndu_type type p))
          else
            type ← skb_be16 (ule_next_hdr p + (if ule_dbit p =? 0 then 3 else 2) * ETH_ALEN) skb;
            Some (ext_len, set_sndu_type type p)
        else Some (ext_len, p)
    | None => Some (-1, p)
    end
  else
    (* the optional handlers have 255 entries too, and do nothing *)
    if 255 <=? htype then None else
    let ext_len := Z.shiftl hlen 1 in
    let p := set_next_hdr (ule_next_hdr p + ext_len) p in
    type ← skb_be16 (ule_next_hdr p - 2) skb;
    Some (ext_len, set_sndu_type type p).

Fixpoint ule_extensions_loop (fuel : nat) (total_ext_len : Z) (p : dvb_net_priv) : option (Z * dvb_net_priv) :=
  match fuel with
  | O => None
  | S fuel =>
      '(l, p) ← handle_one_ule_extension p;
      if l <? 0 then Some (l, p) else
      if ule_sndu_type p <? 1536 then ule_extensions_loop fuel (total_ext_len + l) p
      else Some (total_ext_len + l, p)
  end.
Definition handle_ule_extensions (p : dvb_net_priv) : option (Z * dvb_net_priv) :=
  skb ← ule_skb p;
  ule_extensions_loop (S (length (sk_mem skb))) 0 (set_next_hdr 0 p).

(** ** A complete SNDU *)

(** Whether the destination of an SNDU with an address is not ours. *)
Definition ule_drop (cfg : net_config) (dest : list Z) : bool :=
  if rx_mode cfg =? RX_MODE_PROMISC then false else
  if negb (Z.land dest.[0] 0x01 =? 0) then
    if bool_decide (dest = replicate 6 0xff) then false else
    if rx_mode cfg =? RX_MODE_MULTI then negb (existsb (fun m => bool_decide (dest = m)) (multi_macs cfg))
    else negb (rx_mode cfg =? RX_MODE_ALL_MULTI)
  else negb (bool_decide (dest = dev_addr cfg)).

(** [iov_crc32] over the length with the D bit, the type and the data. *)
Definition ule_crc32 (cfg : net_config) (p : dvb_net_priv) (data : list Z) : Z :=
  let word v := [u8 (Z.shiftr v 8); u8 v] in
  let ulen := if ule_dbit p =? 0 then ule_sndu_len p else Z.lor (ule_sndu_len p) 0x8000 in
  crc32_be cfg (crc32_be cfg (crc32_be cfg 0xFFFFFFFF (word ulen)) (word (ule_sndu_type p))) data.

(** The SNDU passed the CRC: [skb] is without it. *)
Definition ule_accept (cfg : net_config) (skb : sk_buff) (n : net) : option net :=
  let p := priv n in
  dest ← (if ule_dbit p =? 0 then d ← skb_bytes 0 ETH_ALEN skb; Some d else Some (replicate 6 0));
  if (ule_dbit p =? 0) && ule_drop cfg dest then Some n else
  let skb := if ule_dbit p =? 0 then skb_pull ETH_ALEN skb else skb in
  '(l, p) ← (if ule_sndu_type p <? 1536 then handle_ule_extensions (set_ule_skb (Some skb) p) else Some (0, p));
  if l <? 0 then Some n else
  let skb := skb_pull l skb in
  skb ← (if ule_bridged p then Some skb
         else skb_push (dest ++ replicate 6 0 ++ [u8 (Z.shiftr (ule_sndu_type p) 8); u8 (ule_sndu_type p)]) skb);
  netif_rx cfg skb n.

(** [ule_skb] holds all of the SNDU. *)
Definition ule_complete (cfg : net_config) (skb : sk_buff) (n : net) : option net :=
  let p := priv n in
  data ← skb_bytes 0 (sk_len skb - 4) skb;
  tail ← skb_bytes (sk_len skb - 4) 4 skb;
  let expected_crc := Z.lor (Z.lor (Z.lor (u32 (Z.shiftl tail.[0] 24)) (Z.shiftl tail.[1] 16)) (Z.shiftl tail.[2] 8)) tail.[3] in
  n ← (if negb (ule_crc32 cfg p data =? expected_crc) then Some (set_stats rx_crc_error n)
       else ule_accept cfg (SkBuff (sk_mem skb) (sk_data skb) (sk_len skb - 4)) n);
  Some (set_priv (reset_ule (priv n)) n).

(** ** The cells *)

(** The local variables of [dvb_net_ule], pointers as offsets into the buffer. *)
Record ule_loop := UleLoop { ts : Z; from_where : Z; ts_remain : Z; new_ts : bool }.

(** Where a part of the body of the loop leads: to the next turn, on, or out of it. *)
Inductive flow := Again (s : ule_loop) (n : net) | Next (s : ule_loop) (n : net) | Return (n : net).
Definition then_ (x : option flow) (k : ule_loop -> net -> option flow) : option flow :=
  match x with Some (Next s n) => k s n | x => x end.

(** [ts += TS_SZ; priv->ts_count++;] *)
Definition next_cell (s : ule_loop) (n : net) : ule_loop * net :=
  (UleLoop (ts s + TS_SZ) (from_where s) (ts_remain s) (new_ts s), set_priv (count_ts (priv n)) n).
Definition again_cell (s : ule_loop) (n : net) : option flow := let '(s, n) := next_cell s n in Some (Again s n).

(** Drops a partly decoded SNDU. *)
Definition drop_sndu (n : net) : net :=
  set_stats (if ule_skb (priv n) then rx_frame_error else id) n.

Section cells.
Context (cfg : net_config) (buf : list Z).

Definition check_cell (s : ule_loop) (n : net) : option flow :=
  if negb (new_ts s) then Some (Next s n) else
  b0 ← zget buf (ts s);
  b1 ← zget buf (ts s + 1);
  b3 ← zget buf (ts s + 3);
  if negb (b0 =? TS_SYNC) || negb (Z.land b1 TS_TEI =? 0) || negb (Z.land b3 TS_SC =? 0) then
    let n := drop_sndu n in
    again_cell s (set_priv (set_need_pusi true (reset_ule (priv n))) n)
  else Some (Next (UleLoop (ts s) (ts s + 4) 184 (new_ts s)) n).

Definition sync_pusi (s : ule_loop) (n : net) : option flow :=
  if negb (need_pusi (priv n)) then Some (Next s n) else
  b1 ← zget buf (ts s + 1);
  if negb (Z.land b1 TS_PUSI =? 0) then
    b3 ← zget buf (ts s + 3);
    let n := set_priv (set_tscc (Z.land b3 0x0F) (priv n)) n in
    b4 ← zget buf (ts s + 4);
    if ts_remain s <? b4 then again_cell s n else
    Some (Next (UleLoop (ts s) (ts s + 5 + b4) (u8 (ts_remain s - (1 + b4))) (new_ts s)) n)
  else again_cell s n.

Definition check_pointer (s : ule_loop) (n : net) : option flow :=
  let p := priv n in
  b ← zget buf (from_where s);
  if negb (b <? ts_remain s - 1) || negb (b =? ule_sndu_remain p) then
    let n := set_stats (if bool_decide (is_Some (ule_skb p)) || negb (ule_sndu_remain p =? 0) then rx_frame_error else id) n in
    Some (Again s (set_priv (set_need_pusi true (reset_ule p)) n))
  else Some (Next (UleLoop (ts s) (from_where s + 1) (u8 (ts_remain s - 1)) (new_ts s)) n).

Definition check_continuity (s : ule_loop) (n : net) : option flow :=
  if negb (new_ts s) then Some (Next s n) else
  b3 ← zget buf (ts s + 3);
  if negb (Z.land b3 0x0F =? tscc (priv n)) then
    let n := drop_sndu n in
    Some (Again s (set_priv (set_need_pusi true (reset_ule (priv n))) n))
  else
  let n := set_priv (set_tscc (Z.land (tscc (priv n) + 1) 0x0F) (priv n)) n in
  b1 ← zget buf (ts s + 1);
  if Z.land b1 TS_PUSI =? 0 then Some (Next s n) else
  then_ (if negb (need_pusi (priv n)) then check_pointer s n
         else Some (Next s (set_priv (set_need_pusi false (priv n)) n))) (fun s n =>
  if 183 <? ule_sndu_remain (priv n) then
    b4 ← zget buf (ts s + 4);
    let n := set_stats rx_length_error n in
    Some (Next (UleLoop (ts s) (from_where s + b4) (u8 (ts_remain s - b4)) (new_ts s)) (set_priv (reset_ule (priv n)) n))
  else Some (Next s n)).

(** The length field of an SNDU, unless it was read in the cell before. *)
Definition ule_length_field (s : ule_loop) (n : net) : option flow :=
  if negb (ule_sndu_len (priv n) =? 0) then Some (Next s n) else
  b0 ← zget buf (from_where s);
  b1 ← zget buf (from_where s + 1);
  let len := Z.lor (Z.shiftl b0 8) b1 in
  let dbit := negb (Z.land len 0x8000 =? 0) in
  let len := if dbit then Z.land len 0x7FFF else len in
  let n := set_priv (set_dbit (if dbit then 1 else 0) (set_sndu_len len (priv n))) n in
  if len <? 5 then
    let n := set_stats rx_length_error n in
    again_cell (UleLoop (ts s) (from_where s) (ts_remain s) true)
      (set_priv (set_need_pusi true (set_sndu_len 0 (priv n))) n)
  else Some (Next (UleLoop (ts s) (from_where s + 2) (u8 (ts_remain s - 2)) (new_ts s)) n).

(** The type field, of which one byte or both may be in the next cell. *)
Definition ule_type_field (s : ule_loop) (n : net) : option flow :=
  let p := priv n in
  if ts_remain s =? 1 then
    b0 ← zget buf (from_where s);
    let p := set_sndu_type_1 true (set_sndu_type (Z.shiftl b0 8) (set_remain (ule_sndu_remain p - 1) p)) in
    again_cell (UleLoop (ts s) (from_where s + 1) (u8 (ts_remain s - 1)) true) (set_priv p n)
  else if ts_remain s =? 0 then again_cell (UleLoop (ts s) (from_where s) (ts_remain s) true) n
  else if ule_sndu_type_1 p then
    b0 ← zget buf (from_where s);
    let p := set_sndu_type (Z.lor (ule_sndu_type p) b0) (set_sndu_type_1 false p) in
    Some (Next (UleLoop (ts s) (from_where s + 1) (u8 (ts_remain s - 1)) (new_ts s)) (set_priv p n))
  else
    b0 ← zget buf (from_where s);
    b1 ← zget buf (from_where s + 1);
    let p := set_sndu_type (Z.lor (Z.shiftl b0 8) b1) p in
    Some (Next (UleLoop (ts s) (from_where s + 2) (u8 (ts_remain s - 2)) (new_ts s)) (set_priv p n)).

(** The buffer for the SNDU. *)
Definition alloc_sndu (s : ule_loop) (n : net) : option flow :=
  let p := priv n in
  let n := Net p (stats n) (frames n) (S (allocs n)) in
  match dev_alloc_skb cfg (pred (allocs n)) (ule_sndu_len p + ETH_HLEN + ETH_ALEN) with
  | None => Some (Return (set_stats rx_drop n))
  | Some mem =>
      let skb := skb_reserve (ETH_HLEN + ETH_ALEN) (SkBuff mem 0 0) in
      Some (Next s (set_priv (set_ule_skb (Some skb) (set_remain (ule_sndu_len p) p)) n))
  end.
Definition start_type (s : ule_loop) (n : net) : option flow :=
  then_ (ule_type_field s (set_priv (set_remain (ule_sndu_len (priv n) + 2) (priv n)) n)) alloc_sndu.
Definition start_sndu (s : ule_loop) (n : net) : option flow :=
  if bool_decide (is_Some (ule_skb (priv n))) then Some (Next s n) else
  if ts_remain s <? 2 then
    Some (Again (UleLoop (ts s + TS_SZ) (from_where s) (ts_remain s) (new_ts s))
      (set_priv (set_need_pusi true (set_sndu_len 0 (priv n))) n))
  else then_ (ule_length_field s n) start_type.

(** Copies what the cell has of the SNDU; a complete one is handed on. *)
Definition copy_sndu (s : ule_loop) (n : net) : option flow :=
  let p := priv n in
  skb ← ule_skb p;
  let how_much := Z.min (ule_sndu_remain p) (ts_remain s) in
  if decide (0 <= from_where s /\ from_where s + how_much <= zlen buf) then
    skb ← skb_put (ztake how_much (zdrop (from_where s) buf)) skb;
    let remain := ule_sndu_remain p - how_much in
    let s := UleLoop (ts s) (from_where s + how_much) (u8 (ts_remain s - how_much)) (new_ts s) in
    let n := set_priv (set_ule_skb (Some skb) (set_remain remain p)) n in
    if remain <=? 0 then n ← ule_complete cfg skb n; Some (Next s n) else Some (Next s n)
  else None.

(** Another SNDU in the cell, or the next cell. *)
Definition next_sndu (s : ule_loop) (n : net) : option flow :=
  more ← (if 2 <=? ts_remain s then
            b0 ← zget buf (from_where s);
            b1 ← zget buf (from_where s + 1);
            Some (negb ((b0 =? 0xFF) && (b1 =? 0xFF)))
          else Some false);
  if (more : bool) then
    Some (Again (UleLoop (ts s) (from_where s) (ts_remain s) false)
      (set_priv (set_sndu_len 0 (set_sndu_type_1 false (set_ule_skb None (priv n)))) n))
  else
    let '(s, n) := next_cell (UleLoop (ts s) (from_where s) (ts_remain s) true) n in
    Some (Again s (if bool_decide (is_Some (ule_skb (priv n))) then n
      else set_priv (set_sndu_len 0 (set_sndu_type_1 false (set_need_pusi true (priv n)))) n)).

Definition ule_body (s : ule_loop) (n : net) : option flow :=
  then_ (check_cell s n) (fun s n =>
  then_ (sync_pusi s n) (fun s n =>
  then_ (check_continuity s n) (fun s n =>
  then_ (start_sndu s n) (fun s n =>
  then_ (copy_sndu s n) next_sndu)))).

Fixpoint ule_loop_run (fuel : nat) (s : ule_loop) (n : net) : option net :=
  if ts s <? zlen buf then
    match fuel with
    | O => None
    | S fuel =>
        f ← ule_body s n;
        match f with
        | Again s n | Next s n => ule_loop_run fuel s n
        | Return n => Some n
        end
    end
  else Some n.
Definition dvb_net_ule (n : net) : option net := ule_loop_run (length buf) (UleLoop 0 0 0 true) n.
End cells.

(** [dvb_net_ts_callback]: only the first buffer is looked at. *)
Definition dvb_net_ts_callback (cfg : net_config) (buffer1 buffer2 : list Z) (n : net) : option net :=
  dvb_net_ule cfg buffer1 n.

(** ** MPE sections *)

Definition dvb_net_sec (cfg : net_config) (pkt : list Z) (n : net) : option net :=
  let pkt_len := zlen pkt in
  if pkt_len <? 16 then Some (set_stats rx_length_error n) else
  b5 ← zget pkt 5;
  if negb (Z.land b5 0x3c =? 0) then Some (set_stats rx_crc_error n) else
  let llc := negb (Z.land b5 0x02 =? 0) in
  if llc && ((pkt_len <? 24) || negb (bool_decide (ztake 6 (zdrop 12 pkt) = [0xaa; 0xaa; 0x03; 0; 0; 0])))
  then Some (set_stats rx_drop n) else
  let snap := if llc then 8 else 0 in
  b7 ← zget pkt 7;
  if negb (b7 =? 0) then Some (set_stats rx_frame_error n) else
  let n := Net (priv n) (stats n) (frames n) (S (allocs n)) in
  match dev_alloc_skb cfg (pred (allocs n)) (pkt_len - 4 - 12 + 14 + 2 - snap) with
  | None => Some (set_stats rx_drop n)
  | Some mem =>
      let skb := skb_reserve 2 (SkBuff mem 0 0) in
      b3 ← zget pkt 3; b4 ← zget pkt 4; b8 ← zget pkt 8; b9 ← zget pkt 9; b10 ← zget pkt 10; b11 ← zget pkt 11;
      proto ← (if llc then p0 ← zget pkt 18; p1 ← zget pkt 19; Some [p0; p1]
               else b12 ← zget pkt 12; Some (if Z.shiftr b12 4 =? 6 then [0x86; 0xdd] else [0x08; 0x00]));
      skb ← skb_put ([b11; b10; b9; b8; b4; b3] ++ replicate 6 0 ++ proto ++
                     ztake (pkt_len - 12 - 4 - snap) (zdrop (12 + snap) pkt)) skb;
      netif_rx cfg skb n
  end.
