(* ===== verification/DvbNetUle.v ===== *)
(** * DvbNetUle: ULE as the standard describes it, and its decapsulation

    The encapsulation of RFC 4326 - SNDUs with optional extension headers, packed into
    cells with pointer fields and padding, wherever the cells cut them - and the proof that
    [dvb_net_ule] hands on exactly the frames of the SNDUs, in order and once. *)

From S2P Require Import Prelude Crc32 DvbNet.

(** ** Socket buffers *)

(** The data [l], with [head] bytes before and [room] behind. *)
Definition skb_holds (s : sk_buff) (head : Z) (l : list Z) (room : Z) : Prop :=
  sk_data s = head /\ sk_len s = zlen l /\
  exists h t, sk_mem s = h ++ l ++ t /\ zlen h = head /\ zlen t = room.

Lemma skb_put_run s head l room k :
  skb_holds s head l room -> zlen k <= room ->
  exists s', skb_put k s = Some s' /\ skb_holds s' head (l ++ k) (room - zlen k).
Proof.
  intros (Hd & Hl & h & t & Hm & Hh & Ht) Hk. pose proof (zlen_nonneg l). pose proof (zlen_nonneg k).
  unfold skb_put. rewrite decide_True by (rewrite Hm, !zlen_app; lia). eexists. split; [done|].
  split; [done|]. split; [simpl; rewrite zlen_app; lia|]. exists h, (zdrop (zlen k) t).
  split; [|split; [done|rewrite zlen_zdrop; lia]]. simpl. unfold zsplice. rewrite Hm, Hd, Hl.
  rewrite (app_assoc h l t), ztake_app by (rewrite zlen_app; lia).
  rewrite (zdrop_app_plus _ (h ++ l) _ (zlen k)) by (rewrite ?zlen_app; lia). by rewrite <- !app_assoc.
Qed.

Lemma skb_bytes_run s head a b c room k n :
  skb_holds s head (a ++ b ++ c) room -> k = zlen a -> n = zlen b -> skb_bytes k n s = Some b.
Proof.
  intros (Hd & Hl & h & t & Hm & Hh & Ht) -> ->. pose proof (zlen_nonneg a). pose proof (zlen_nonneg b).
  pose proof (zlen_nonneg c). pose proof (zlen_nonneg h). pose proof (zlen_nonneg t).
  unfold skb_bytes. rewrite decide_True by (rewrite Hm, !zlen_app; lia). f_equal.
  rewrite Hm, <- !app_assoc, (app_assoc h a), zdrop_app by (rewrite zlen_app; lia). by rewrite ztake_app.
Qed.

Lemma skb_pull_run s head a b room n :
  skb_holds s head (a ++ b) room -> n = zlen a -> skb_holds (skb_pull n s) (head + n) b room.
Proof.
  intros (Hd & Hl & h & t & Hm & Hh & Ht) ->. pose proof (zlen_nonneg a). pose proof (zlen_nonneg b).
  rewrite zlen_app in Hl. unfold skb_pull. rewrite (proj2 (Z.ltb_ge _ _)) by lia.
  split; [simpl; lia|]. split; [simpl; lia|]. exists (h ++ a), t. simpl. rewrite Hm.
  split; [by rewrite <- !app_assoc|]. split; [rewrite zlen_app; lia|done].
Qed.

Lemma skb_push_run s head l room k :
  skb_holds s head l room -> zlen k <= head ->
  exists s', skb_push k s = Some s' /\ skb_holds s' (head - zlen k) (k ++ l) room.
Proof.
  intros (Hd & Hl & h & t & Hm & Hh & Ht) Hk. pose proof (zlen_nonneg k). unfold skb_push.
  rewrite (proj2 (Z.ltb_ge _ _)) by lia. eexists. split; [done|]. split; [simpl; lia|].
  split; [simpl; rewrite zlen_app; lia|]. exists (ztake (head - zlen k) h), t. split; [|split; [rewrite zlen_ztake; lia|done]].
  simpl. unfold zsplice. rewrite Hm, Hd, ztake_app_le by lia. rewrite Z.sub_add, zdrop_app by lia. by rewrite <- app_assoc.
Qed.

Lemma skb_trim_run s head a b room :
  skb_holds s head (a ++ b) room -> skb_holds (SkBuff (sk_mem s) (sk_data s) (sk_len s - zlen b)) head a (zlen b + room).
Proof.
  intros (Hd & Hl & h & t & Hm & Hh & Ht). rewrite zlen_app in Hl.
  split; [done|]. split; [simpl; lia|]. exists h, (b ++ t). simpl. rewrite Hm, <- app_assoc.
  split; [done|]. split; [done|]. rewrite zlen_app. lia.
Qed.

(** ** The standard *)

Definition word (v : Z) : list Z := [v / 256; v mod 256].

Lemma be_pair_word v : 0 <= v < 65536 -> be_pair (word v) = v.
Proof. intros. unfold be_pair, word. change ([v / 256; v mod 256].[0]) with (v / 256). change ([v / 256; v mod 256].[1]) with (v mod 256). lia. Qed.
Lemma be_word_bytes v : 0 <= v < 65536 -> bytes (word v).
Proof. intros. unfold word. repeat constructor; unfold byte; lia. Qed.
Lemma word_u8 v : 0 <= v < 65536 -> [u8 (Z.shiftr v 8); u8 v] = word v.
Proof. intros. rewrite shiftr_8, u8_small by lia. done. Qed.

(** An optional extension header: its length in 16-bit words with the type behind it, its
    type, its contents. *)
Record ule_ext := UleExt { x_len : Z; x_type : Z; x_data : list Z }.
Definition ule_ext_ok (x : ule_ext) : Prop :=
  1 <= x_len x <= 5 /\ 0 <= x_type x < 255 /\ zlen (x_data x) = 2 * x_len x - 2 /\ bytes (x_data x).

(** An SNDU: a destination address or none, extension headers, a type, and the PDU. *)
Record sndu := Sndu { sn_dest : option (list Z); sn_exts : list ule_ext; sn_type : Z; sn_data : list Z }.

(** The first type field of a chain of headers, and what is behind it. *)
Fixpoint ext_chain (exts : list ule_ext) (type : Z) (data : list Z) : Z * list Z :=
  match exts with
  | [] => (type, data)
  | x :: exts =>
      let '(t, d) := ext_chain exts type data in (x_len x * 256 + x_type x, x_data x ++ word t ++ d)
  end.

Definition ULE_TYPE_BRIDGED : Z := 1.
(** The types of test SNDUs and of mandatory headers without a handler; the type 255 is
    behind the end of the table of handlers. *)
Definition dropped_type (t : Z) : bool := (0 <=? t) && (t <? 255) && negb (t =? ULE_TYPE_BRIDGED).

Definition sndu_head (s : sndu) : Z := (ext_chain (sn_exts s) (sn_type s) (sn_data s)).1.
(** What is between the type field and the CRC. *)
Definition sndu_payload (s : sndu) : list Z := default [] (sn_dest s) ++ (ext_chain (sn_exts s) (sn_type s) (sn_data s)).2.
Definition sndu_length (s : sndu) : Z := zlen (sndu_payload s) + 4.
Definition sndu_length_field (s : sndu) : Z := sndu_length s + (if sn_dest s is Some _ then 0 else 0x8000).

(** The type is an Ethertype; or one whose SNDUs are dropped; or the PDU is an Ethernet frame
    with an Ethertype, and there is no address before it. *)
Definition sndu_ok (s : sndu) : Prop :=
  match sn_dest s with Some d => zlen d = 6 /\ bytes d | None => True end /\
  Forall ule_ext_ok (sn_exts s) /\ bytes (sn_data s) /\ 0 < zlen (sn_data s) /\
  (1536 <= sn_type s < 65536 \/ dropped_type (sn_type s) = true \/
   sn_type s = ULE_TYPE_BRIDGED /\ sn_dest s = None /\ 14 <= zlen (sn_data s) /\ 1536 <= be_pair (ztake 2 (zdrop 12 (sn_data s)))) /\
  sndu_length s < 0x8000 /\ sndu_length_field s <> 0xFFFF.

Section standard.
Context (crc : Z -> list Z -> Z).

Definition sndu_crc (s : sndu) : Z :=
  crc (crc (crc 0xFFFFFFFF (word (sndu_length_field s))) (word (sndu_head s))) (sndu_payload s).
(** What is behind the type field. *)
Definition sndu_body (s : sndu) : list Z := sndu_payload s ++ be32_bytes (sndu_crc s).
Definition encode_sndu (s : sndu) : list Z := word (sndu_length_field s) ++ word (sndu_head s) ++ sndu_body s.
End standard.

(** ** The frames *)

Definition dest_type (cfg : net_config) (dest : list Z) : Z :=
  if Z.land dest.[0] 1 =? 0 then PACKET_HOST
  else if bool_decide (dest = broadcast cfg) then PACKET_BROADCAST else PACKET_MULTICAST.

(** What the stack gets of an SNDU. *)
Definition sndu_frames (cfg : net_config) (s : sndu) : list net_frame :=
  if dropped_type (sn_type s) then []
  else if sn_type s =? ULE_TYPE_BRIDGED then
    [NetFrame (sn_data s) (be_pair (ztake 2 (zdrop 12 (sn_data s)))) (dest_type cfg (ztake 6 (sn_data s)))]
  else
    let frame dest := NetFrame (dest ++ replicate 6 0 ++ word (sn_type s) ++ sn_data s) (sn_type s) (dest_type cfg dest) in
    match sn_dest s with
    | Some dest => if ule_drop cfg dest then [] else [frame dest]
    | None => [frame (replicate 6 0)]
    end.

(** ** A complete SNDU *)

Lemma ext_chain_bytes exts type data :
  Forall ule_ext_ok exts -> bytes data -> 0 <= type < 65536 ->
  bytes (ext_chain exts type data).2 /\ 0 <= (ext_chain exts type data).1 < 65536.
Proof.
  intros He Hd Ht. induction He as [|x exts (Hl & Hx & Hz & Hb) He [IH1 IH2]]; [done|].
  cbn [ext_chain]. destruct (ext_chain exts type data) as [t d]. cbn [fst snd] in *. split; [|lia].
  apply Forall_app. split; [done|]. apply Forall_app. split; [by apply be_word_bytes|done].
Qed.
Lemma ext_chain_zlen exts type data :
  Forall ule_ext_ok exts ->
  zlen (ext_chain exts type data).2 = zlen data + 2 * foldr (fun x n => x_len x + n) 0 exts /\
  Z.of_nat (length exts) <= foldr (fun x n => x_len x + n) 0 exts.
Proof.
  induction 1 as [|x exts (Hl & Hx & Hz & Hb) He [IH1 IH2]]; [simpl; lia|].
  cbn [ext_chain foldr length]. destruct (ext_chain exts type data) as [t d]. cbn [fst snd] in *. rewrite !zlen_app.
  change (zlen (word t)) with 2. lia.
Qed.

(** One optional extension header: its length, and the type field at its end. *)
Lemma ext_type_fields x t : ule_ext_ok x ->
  t = x_len x * 256 + x_type x ->
  Z.shiftr (Z.land t 0x0700) 8 = x_len x /\ Z.land t 0xff = x_type x /\ (t <? 1536) = true.
Proof.
  intros (Hl & Hx & _) ->. rewrite land_255. split; [|split; lia].
  change 0x0700 with (Z.shiftl 7 8). rewrite shiftr_8.
  replace (Z.land (x_len x * 256 + x_type x) (Z.shiftl 7 8) / 256) with (Z.land (x_len x) 7).
  - change 7 with (Z.ones 3). rewrite Z.land_ones by lia. apply Z.mod_small. lia.
  - rewrite <- (Z.shiftr_div_pow2 _ 8), Z.shiftr_land by lia. change (Z.shiftr (Z.shiftl 7 8) 8) with 7.
    f_equal. rewrite Z.shiftr_div_pow2 by lia. change (2 ^ 8) with 256. lia.
Qed.

Lemma handle_optional x t d p s head room before :
  ule_ext_ok x -> 0 <= t < 65536 -> ule_skb p = Some s -> skb_holds s head (before ++ x_data x ++ word t ++ d) room ->
  ule_next_hdr p = zlen before -> ule_sndu_type p = x_len x * 256 + x_type x ->
  handle_one_ule_extension p =
    Some (2 * x_len x, set_sndu_type t (set_next_hdr (zlen (before ++ x_data x ++ word t)) p)).
Proof.
  intros Hok Ht Hs Hsk Hn Hty. destruct (ext_type_fields x _ Hok Hty) as (El & Ey & _).
  destruct Hok as (Hl & Hx & Hz & _). unfold handle_one_ule_extension. rewrite Hs. cbn [mbind option_bind].
  rewrite El, Ey, (proj2 (Z.eqb_neq (x_len x) 0)), (proj2 (Z.leb_gt 255 (x_type x))) by lia.
  rewrite Z.shiftl_mul_pow2, Z.mul_comm by lia. change (2 ^ 1 * x_len x) with (2 * x_len x). cbv zeta.
  assert (Hend : zlen (before ++ x_data x ++ word t) = zlen before + 2 * x_len x).
  { rewrite !zlen_app. change (zlen (word t)) with 2. lia. }
  cbn [ule_next_hdr set_next_hdr]. rewrite Hn, Hend.
  assert (Hword : skb_be16 (zlen before + 2 * x_len x - 2) s = Some t).
  { unfold skb_be16. rewrite (skb_bytes_run s head (before ++ x_data x) (word t) d room);
      [by simpl; rewrite be_pair_word|by rewrite <- app_assoc|rewrite zlen_app; lia|done]. }
  by rewrite Hword.
Qed.

Lemma handle_bridged p s head room before data :
  ule_skb p = Some s -> skb_holds s head (before ++ data) room -> ule_next_hdr p = zlen before ->
  ule_sndu_type p = ULE_TYPE_BRIDGED -> ule_dbit p = 1 -> 14 <= zlen data -> 1536 <= be_pair (ztake 2 (zdrop 12 data)) ->
  handle_one_ule_extension p =
    Some (0, set_sndu_type (be_pair (ztake 2 (zdrop 12 data))) (set_next_hdr (ule_next_hdr p) (set_bridged true p))).
Proof.
  intros Hs Hsk Hn Hty Hdb Hz Hp. set (proto := be_pair _) in *.
  assert (Hword : skb_be16 (zlen before + 12) s = Some proto).
  { unfold skb_be16. rewrite (skb_bytes_run s head (before ++ ztake 12 data) (ztake 2 (zdrop 12 data)) (zdrop 14 data) room); [done| | |].
    - rewrite <- app_assoc. rewrite <- (zdrop_zdrop 12 2) by lia. by rewrite !ztake_zdrop.
    - rewrite zlen_app, zlen_ztake by lia. done.
    - rewrite zlen_ztake; [done|]. rewrite zlen_zdrop by lia. lia. }
  unfold handle_one_ule_extension. rewrite Hs. cbn [mbind option_bind]. rewrite Hty.
  change (Z.shiftr (Z.land ULE_TYPE_BRIDGED 1792) 8 =? 0) with true.
  change (ule_mandatory_ext_handlers (Z.land ULE_TYPE_BRIDGED 255)) with (Some (Some ule_bridged_sndu)). cbn [mbind option_bind].
  unfold ule_bridged_sndu. rewrite Hs. cbn [mbind option_bind]. rewrite Hn, Hword. cbn [mbind option_bind].
  rewrite (proj2 (Z.ltb_ge proto 1536)) by lia. cbn [andb mbind option_bind]. change (0 <=? 0) with true. cbv iota zeta.
  cbn [ule_bridged set_bridged set_next_hdr negb ule_next_hdr ule_dbit]. rewrite Hn, Hdb, Z.add_0_r.
  change ((if 1 =? 0 then 3 else 2) * ETH_ALEN) with 12. by rewrite Hword.
Qed.

(** The headers from offset [zlen before] on. *)
Definition chain_ends (type : Z) (data : list Z) (dbit : Z) : Prop :=
  type = ULE_TYPE_BRIDGED /\ dbit = 1 /\ 14 <= zlen data /\ 1536 <= be_pair (ztake 2 (zdrop 12 data)).

Lemma ule_extensions_run type data exts : forall fuel tot p s head room before,
  Forall ule_ext_ok exts -> ule_skb p = Some s ->
  skb_holds s head (before ++ (ext_chain exts type data).2) room ->
  ule_next_hdr p = zlen before -> ule_sndu_type p = (ext_chain exts type data).1 -> (length exts < fuel)%nat ->
  1536 <= type < 65536 /\ exts <> [] \/ chain_ends type data (ule_dbit p) ->
  exists p', ule_extensions_loop fuel tot p = Some (tot + (zlen (ext_chain exts type data).2 - zlen data), p') /\
    (if type =? ULE_TYPE_BRIDGED then ule_bridged p' = true
     else ule_bridged p' = ule_bridged p /\ ule_sndu_type p' = type).
Proof.
  induction exts as [|x exts IH]; intros fuel tot p s head room before Hx Hs Hsk Hn Ht Hf Hcase;
    (destruct fuel as [|fuel]; [simpl in Hf; lia|]); cbn [ule_extensions_loop].
  - destruct Hcase as [[_ ?]|(-> & Hdb & Hz & Hp)]; [done|]. cbn [ext_chain fst snd] in *.
    rewrite (handle_bridged p s head room before data) by done. cbn [mbind option_bind Z.ltb Z.compare ule_sndu_type set_sndu_type].
    rewrite (proj2 (Z.ltb_ge (be_pair _) 1536)) by lia. eexists. split; [do 2 f_equal; lia|done].
  - inversion Hx as [|? ? Hok Hx']; subst. cbn [ext_chain] in *.
    assert (Htype : 0 <= type < 65536) by (destruct Hcase as [[? _]|(-> & _)]; unfold ULE_TYPE_BRIDGED; lia).
    assert (Hnext : 1536 <= type < 65536 /\ exts = [] /\ (ext_chain exts type data).1 = type \/
              ((ext_chain exts type data).1 <? 1536) = true /\
              (1536 <= type < 65536 /\ exts <> [] \/ chain_ends type data (ule_dbit p))).
    { destruct exts as [|x2 exts].
      - destruct Hcase as [[? _]|Hc]; [by left|right]. split; [|by right]. by destruct Hc as [-> _].
      - right. inversion Hx' as [|? ? Hok2 _]; subst. cbn [ext_chain]. destruct (ext_chain exts type data) as [t2 d2].
        destruct (ext_type_fields x2 _ Hok2 eq_refl) as (_ & _ & ?). split; [done|]. destruct Hcase as [[? _]|?]; [by left|by right]. }
    pose proof (IH fuel (tot + 2 * x_len x)) as IH'.
    assert (Htr : 0 <= (ext_chain exts type data).1 < 65536).
    { clear -Hx' Htype. induction Hx' as [|y ys (Hl & Hy & _) _ IH]; [done|]. cbn [ext_chain]. destruct (ext_chain ys type data). simpl. lia. }
    destruct (ext_chain exts type data) as [t d] eqn:Ec. cbn [fst snd] in *.
    rewrite (handle_optional x t d p s head room before) by done. cbn [mbind option_bind].
    pose proof Hok as (Hl & _ & Hz & _). rewrite (proj2 (Z.ltb_ge (2 * x_len x) 0)) by lia.
    assert (Hd : zlen (x_data x ++ word t ++ d) = 2 * x_len x + zlen d).
    { rewrite !zlen_app. change (zlen (word t)) with 2. lia. }
    rewrite Hd. cbn [ule_sndu_type set_sndu_type]. destruct Hnext as [(Hr & -> & ->)|(-> & Hc)].
    + simpl in Ec. injection Ec as <-. rewrite (proj2 (Z.ltb_ge type 1536)) by lia.
      eexists. split; [do 2 f_equal; lia|]. by rewrite (proj2 (Z.eqb_neq type ULE_TYPE_BRIDGED)) by (unfold ULE_TYPE_BRIDGED; lia).
    + destruct (IH' (set_sndu_type t (set_next_hdr (zlen (before ++ x_data x ++ word t)) p)) s head room
        (before ++ x_data x ++ word t)) as (p' & E & Hres); try done.
      * by rewrite <- !app_assoc.
      * simpl in Hf |- *. lia.
      * rewrite E. exists p'. split; [do 2 f_equal; lia|done].
Qed.

(** The chain of headers ends with a type that is dropped. *)
Lemma dropped_type_run p skb : dropped_type (ule_sndu_type p) = true -> ule_skb p = Some skb -> handle_one_ule_extension p = Some (-1, p).
Proof.
  unfold dropped_type, ULE_TYPE_BRIDGED. intros Ht Hs. apply andb_true_iff in Ht as [Ht Hb]. set (t := ule_sndu_type p) in *.
  assert (Hr : 0 <= t < 255 /\ t <> 1) by lia. unfold handle_one_ule_extension. rewrite Hs. cbn [mbind option_bind]. fold t.
  assert (El : Z.shiftr (Z.land t 0x0700) 8 = 0).
  { rewrite Z.shiftr_land, Z.shiftr_div_pow2, Z.div_small by lia. done. }
  assert (Ey : Z.land t 0x00FF = t) by (rewrite land_255; apply Z.mod_small; lia).
  rewrite El, Ey. unfold ule_mandatory_ext_handlers. rewrite (proj2 (Z.leb_gt 255 t)) by lia. cbn [Z.eqb mbind option_bind].
  destruct (t =? 0); [done|]. by rewrite (proj2 (Z.eqb_neq t 1)) by lia.
Qed.
Lemma ule_extensions_dropped type data exts : forall fuel tot p s head room before,
  Forall ule_ext_ok exts -> ule_skb p = Some s ->
  skb_holds s head (before ++ (ext_chain exts type data).2) room ->
  ule_next_hdr p = zlen before -> ule_sndu_type p = (ext_chain exts type data).1 -> (length exts < fuel)%nat ->
  dropped_type type = true ->
  exists p', ule_extensions_loop fuel tot p = Some (-1, p').
Proof.
  induction exts as [|x exts IH]; intros fuel tot p s head room before Hx Hs Hsk Hn Ht Hf Hd;
    (destruct fuel as [|fuel]; [simpl in Hf; lia|]); cbn [ule_extensions_loop].
  - cbn [ext_chain fst] in Ht. rewrite (dropped_type_run p s) by (by rewrite ?Ht). by exists p.
  - inversion Hx as [|? ? Hok Hx']; subst. cbn [ext_chain] in *.
    assert (Hty : 0 <= type < 255) by (unfold dropped_type in Hd; lia).
    assert (Hlt : 0 <= (ext_chain exts type data).1 < 1536).
    { clear -Hx' Hty. destruct exts as [|y ys]; [simpl; lia|]. apply Forall_cons_1 in Hx' as [Hy _]. cbn [ext_chain].
      destruct (ext_chain ys type data) as [t d]. destruct Hy as (? & ? & _). simpl. lia. }
    pose proof (IH fuel (tot + 2 * x_len x)) as IH'. destruct (ext_chain exts type data) as [t d] eqn:Ec. cbn [fst snd] in *.
    rewrite (handle_optional x t d p s head room before) by (done || lia). cbn [mbind option_bind].
    pose proof Hok as (Hl & _). rewrite (proj2 (Z.ltb_ge (2 * x_len x) 0)) by lia. cbn [ule_sndu_type set_sndu_type].
    rewrite (proj2 (Z.ltb_lt t 1536)) by lia.
    apply (IH' (set_sndu_type t (set_next_hdr (zlen (before ++ x_data x ++ word t)) p)) s head room (before ++ x_data x ++ word t)); try done.
    + by rewrite <- !app_assoc.
    + simpl in Hf. lia.
Qed.

(** The protocol that the stack is told of a frame. *)
Definition frame_protocol (frame : list Z) : Z :=
  let p := be_pair (ztake 2 (zdrop 12 frame)) in
  if 1536 <=? p then p else if bool_decide (ztake 2 (zdrop 14 frame) = [0xFF; 0xFF]) then ETH_P_802_3 else ETH_P_802_2.

Lemma netif_rx_any cfg skb head frame room n :
  skb_holds skb head frame room -> 14 <= zlen frame -> 1536 <= be_pair (ztake 2 (zdrop 12 frame)) \/ 16 <= zlen frame ->
  netif_rx cfg skb n = Some (Net (priv n) (rx_packet (zlen frame - 14) (stats n))
    (frames n ++ [NetFrame frame (frame_protocol frame) (dest_type cfg (ztake 6 frame))]) (allocs n)).
Proof.
  intros Hsk Hz Hor.
  assert (Hcut : forall k m, 0 <= k -> 0 <= m -> k + m <= zlen frame -> skb_bytes k m skb = Some (ztake m (zdrop k frame))).
  { intros k m Hk Hm Hkm. apply (skb_bytes_run skb head (ztake k frame) (ztake m (zdrop k frame)) (zdrop (k + m) frame) room).
    - rewrite <- (zdrop_zdrop k m) by lia. by rewrite !ztake_zdrop.
    - rewrite zlen_ztake; lia.
    - rewrite zlen_ztake; [done|]. rewrite zlen_zdrop; lia. }
  pose proof (proj1 (proj2 Hsk)) as Hl. unfold netif_rx, dvb_net_eth_type_trans, skb_be16, frame_protocol.
  rewrite (Hcut 0 (sk_len skb)), (Hcut 0 ETH_ALEN), (Hcut 12 2) by (unfold ETH_ALEN; lia).
  cbn [mbind option_bind fmap option_fmap option_map]. rewrite Hl, zdrop_0, ztake_all by lia.
  assert (Hsl : sk_len (skb_pull ETH_HLEN skb) = zlen frame - 14).
  { unfold skb_pull. rewrite (proj2 (Z.ltb_ge _ _)) by (unfold ETH_HLEN; lia). simpl. by rewrite Hl. }
  destruct (Z.leb_spec 1536 (be_pair (ztake 2 (zdrop 12 frame)))) as [Hp|Hp]; cbn [mbind option_bind]; [by rewrite Hsl|].
  assert (Hpull : skb_holds (skb_pull ETH_HLEN skb) (head + ETH_HLEN) (zdrop 14 frame) room).
  { apply (skb_pull_run skb head (ztake 14 frame)); [by rewrite ztake_zdrop|by rewrite zlen_ztake by lia]. }
  rewrite (skb_bytes_run (skb_pull ETH_HLEN skb) (head + ETH_HLEN) [] (ztake 2 (zdrop 14 frame)) (zdrop 2 (zdrop 14 frame)) room 0 2); [cbn [mbind option_bind]; by rewrite Hsl| |done|].
  - by rewrite app_nil_l, ztake_zdrop.
  - rewrite zlen_ztake; [done|]. rewrite zlen_zdrop; lia.
Qed.
Lemma netif_rx_run cfg skb head frame room n :
  skb_holds skb head frame room -> 14 <= zlen frame -> 1536 <= be_pair (ztake 2 (zdrop 12 frame)) ->
  netif_rx cfg skb n = Some (Net (priv n) (rx_packet (zlen frame - 14) (stats n))
    (frames n ++ [NetFrame frame (be_pair (ztake 2 (zdrop 12 frame))) (dest_type cfg (ztake 6 frame))]) (allocs n)).
Proof.
  intros Hsk Hz Hp. rewrite (netif_rx_any cfg skb head frame room) by (done || by left).
  unfold frame_protocol. by rewrite (proj2 (Z.leb_le 1536 _)) by lia.
Qed.

Lemma expected_crc c : 0 <= c < 2 ^ 32 ->
  let tail := be32_bytes c in
  Z.lor (Z.lor (Z.lor (u32 (Z.shiftl tail.[0] 24)) (Z.shiftl tail.[1] 16)) (Z.shiftl tail.[2] 8)) tail.[3] = c.
Proof.
  intros Hc. destruct (digits4_exist c Hc) as (a & b & c1 & d & ? & ? & ? & ? & Ev).
  destruct (digits4 a b c1 d) as (E0 & E1 & E2 & E3 & _); [done..|]. rewrite <- Ev in *.
  cbv zeta. unfold be32_bytes. change (2 ^ 8) with 256. rewrite E0, E1, E2, E3, (Z.mod_small d) by done.
  change ([d; c1; b; a].[0]) with d. change ([d; c1; b; a].[1]) with c1. change ([d; c1; b; a].[2]) with b. change ([d; c1; b; a].[3]) with a.
  rewrite !Z.shiftl_mul_pow2 by lia. change (2 ^ 24) with 16777216. change (2 ^ 16) with 65536. change (2 ^ 8) with 256.
  rewrite u32_small by lia.
  pose proof (lor_mul_add d (c1 * 65536) 24 ltac:(lia) ltac:(lia)) as L1. change (2 ^ 24) with 16777216 in L1. rewrite L1.
  replace (d * 16777216 + c1 * 65536) with ((d * 256 + c1) * 65536) by lia.
  pose proof (lor_mul_add (d * 256 + c1) (b * 256) 16 ltac:(lia) ltac:(lia)) as L2. change (2 ^ 16) with 65536 in L2. rewrite L2.
  replace ((d * 256 + c1) * 65536 + b * 256) with ((d * 65536 + c1 * 256 + b) * 256) by lia.
  pose proof (lor_mul_add (d * 65536 + c1 * 256 + b) a 8 ltac:(lia) ltac:(lia)) as L3. change (2 ^ 8) with 256 in L3. rewrite L3.
  lia.
Qed.

(** What the decoder knows of the SNDU when it is complete. *)
Definition decodes (p : dvb_net_priv) (s : sndu) : Prop :=
  ule_dbit p = (if sn_dest s is Some _ then 0 else 1) /\ ule_sndu_len p = sndu_length s /\
  ule_sndu_type p = sndu_head s /\ ule_bridged p = false.

Lemma sndu_head_range s : sndu_ok s -> 0 <= sndu_head s < 65536.
Proof.
  intros (_ & Hx & Hd & _ & Ht & _ & _). apply ext_chain_bytes; [done..|]. unfold dropped_type, ULE_TYPE_BRIDGED in Ht. lia.
Qed.

(** The extension headers, when there are any. *)
Lemma extensions_run s p skb head room :
  sndu_ok s -> dropped_type (sn_type s) = false -> decodes p s -> skb_holds skb head (ext_chain (sn_exts s) (sn_type s) (sn_data s)).2 room ->
  exists p', (if ule_sndu_type p <? 1536 then handle_ule_extensions (set_ule_skb (Some skb) p) else Some (0, p)) =
      Some (zlen (ext_chain (sn_exts s) (sn_type s) (sn_data s)).2 - zlen (sn_data s), p') /\
    (if sn_type s =? ULE_TYPE_BRIDGED then ule_bridged p' = true
     else ule_bridged p' = false /\ ule_sndu_type p' = sn_type s).
Proof.
  intros (Hdest & Hx & Hd & Hd0 & Ht & Hl) Hnd (Hdb & Hlen & Hty & Hbr) Hsk. unfold sndu_head in Hty.
  assert (Ht' : 1536 <= sn_type s < 65536 \/ sn_type s = ULE_TYPE_BRIDGED /\ sn_dest s = None /\ 14 <= zlen (sn_data s) /\
    1536 <= be_pair (ztake 2 (zdrop 12 (sn_data s)))) by (destruct Ht as [?|[?|?]]; [by left|congruence|by right]). clear Ht. rename Ht' into Ht.
  pose proof (ext_chain_zlen (sn_exts s) (sn_type s) (sn_data s) Hx) as [Hz Hcount].
  destruct (ule_sndu_type p <? 1536) eqn:E.
  - destruct (ule_extensions_run (sn_type s) (sn_data s) (sn_exts s) (S (length (sk_mem skb))) 0
      (set_next_hdr 0 (set_ule_skb (Some skb) p)) skb head room []) as (p' & Er & Hres); try done.
    + destruct Hsk as (_ & _ & h & t & -> & _ & _). rewrite !length_app. unfold zlen in Hz. lia.
    + destruct Ht as [Hr|(Hb & Hnone & Hz14 & Hp)]; [left|right].
      * split; [done|]. intros Hnil. rewrite Hnil in Hty. simpl in Hty. lia.
      * split_and!; try done. simpl. by rewrite Hdb, Hnone.
    + exists p'. split; [unfold handle_ule_extensions; cbn [ule_skb set_ule_skb mbind option_bind]; rewrite Er; do 2 f_equal; lia|].
      destruct (sn_type s =? ULE_TYPE_BRIDGED); [done|]. destruct Hres as [-> ->]. done.
  - assert (Hnil : sn_exts s = []).
    { destruct (sn_exts s) as [|x xs] eqn:Ex; [done|]. inversion Hx as [|? ? Hok _]; subst. cbn [ext_chain] in Hty.
      destruct (ext_chain xs (sn_type s) (sn_data s)). cbn [fst] in Hty.
      destruct (ext_type_fields x _ Hok Hty) as (_ & _ & ?). congruence. }
    rewrite Hnil in *. cbn [ext_chain fst snd] in *. exists p. split; [do 2 f_equal; lia|].
    rewrite Hty in E. rewrite (proj2 (Z.eqb_neq _ _)) by (unfold ULE_TYPE_BRIDGED; lia). done.
Qed.

Lemma extensions_dropped s p skb head room :
  sndu_ok s -> dropped_type (sn_type s) = true -> decodes p s -> skb_holds skb head (ext_chain (sn_exts s) (sn_type s) (sn_data s)).2 room ->
  exists p', (if ule_sndu_type p <? 1536 then handle_ule_extensions (set_ule_skb (Some skb) p) else Some (0, p)) = Some (-1, p').
Proof.
  intros (Hdest & Hx & Hd & Hd0 & Ht & Hl) Hdr (Hdb & Hlen & Hty & Hbr) Hsk. unfold sndu_head in Hty.
  pose proof (ext_chain_zlen (sn_exts s) (sn_type s) (sn_data s) Hx) as [Hz Hcount].
  assert (Hlt : ule_sndu_type p < 1536).
  { rewrite Hty. assert (0 <= sn_type s < 255) by (unfold dropped_type in Hdr; lia). destruct (sn_exts s) as [|x xs]; [simpl; lia|].
    apply Forall_cons_1 in Hx as [(? & ? & _) _]. cbn [ext_chain]. destruct (ext_chain xs _ _). simpl. lia. }
  rewrite (proj2 (Z.ltb_lt _ _)) by done.
  destruct (ule_extensions_dropped (sn_type s) (sn_data s) (sn_exts s) (S (length (sk_mem skb))) 0
    (set_next_hdr 0 (set_ule_skb (Some skb) p)) skb head room []) as (p' & Er); try done.
  { destruct Hsk as (_ & _ & h & t & -> & _ & _). rewrite !length_app. unfold zlen in Hz. lia. }
  exists p'. unfold handle_ule_extensions. cbn [ule_skb set_ule_skb mbind option_bind]. by rewrite Er.
Qed.

Lemma ule_accept_run cfg s skb head room n :
  sndu_ok s -> decodes (priv n) s -> skb_holds skb head (sndu_payload s) room -> 14 <= head -> 4 <= room ->
  exists st, ule_accept cfg skb n = Some (Net (priv n) st (frames n ++ sndu_frames cfg s) (allocs n)).
Proof.
  intros Hok Hdec Hsk Hhead Hroom. pose proof Hok as (Hdest & Hx & Hd & Hd0 & Ht & Hl).
  pose proof Hdec as (Hdb & Hlen & Hty & Hbr). unfold ule_accept. rewrite Hdb. unfold sndu_payload in Hsk.
  set (chain := (ext_chain (sn_exts s) (sn_type s) (sn_data s)).2) in *.
  assert (Hc : exists pre, chain = pre ++ sn_data s).
  { unfold chain. clear. induction (sn_exts s) as [|x xs [pre IH]]; [by exists []|]. cbn [ext_chain].
    destruct (ext_chain xs (sn_type s) (sn_data s)) as [t d]. cbn [snd] in *. rewrite IH.
    exists (x_data x ++ word t ++ pre). by rewrite <- !app_assoc. }
  destruct Hc as [pre Hpre].
  destruct (dropped_type (sn_type s)) eqn:Edr.
  { assert (Hn : Net (priv n) (stats n) (frames n ++ []) (allocs n) = n) by (rewrite app_nil_r; by destruct n).
    unfold sndu_frames. rewrite Edr. exists (stats n). rewrite Hn. destruct (sn_dest s) as [d|].
    - cbn [default from_option] in Hsk. destruct Hdest as [Hz6 Hb6].
      rewrite (skb_bytes_run skb head [] d chain room 0 ETH_ALEN) by (done || rewrite Hz6; done).
      cbn [mbind option_bind Z.eqb andb]. destruct (ule_drop cfg d); [done|].
      destruct (extensions_dropped s (priv n) (skb_pull ETH_ALEN skb) (head + ETH_ALEN) room Hok Edr Hdec) as (p' & ->); [|done].
      by apply (skb_pull_run skb head d).
    - cbn [mbind option_bind Z.eqb andb]. by destruct (extensions_dropped s (priv n) skb head room Hok Edr Hdec Hsk) as (p' & ->). }
  set (dest := match sn_dest s with Some d => d | None => replicate 6 0 end).
  assert (Hframe : forall skb head, 14 <= head -> skb_holds skb head chain room ->
    exists st, ('(l, p) ← (if ule_sndu_type (priv n) <? 1536 then handle_ule_extensions (set_ule_skb (Some skb) (priv n)) else Some (0, priv n));
      if l <? 0 then Some n else
      let skb := skb_pull l skb in
      skb ← (if ule_bridged p then Some skb
             else skb_push (dest ++ replicate 6 0 ++ [u8 (Z.shiftr (ule_sndu_type p) 8); u8 (ule_sndu_type p)]) skb);
      netif_rx cfg skb n) = Some (Net (priv n) st (frames n ++ if sn_type s =? ULE_TYPE_BRIDGED then
        [NetFrame (sn_data s) (be_pair (ztake 2 (zdrop 12 (sn_data s)))) (dest_type cfg (ztake 6 (sn_data s)))]
        else [NetFrame (dest ++ replicate 6 0 ++ word (sn_type s) ++ sn_data s) (sn_type s) (dest_type cfg dest)]) (allocs n))).
  { clear Hsk Hhead skb head. intros skb head Hhead Hsk.
    destruct (extensions_run s (priv n) skb head room Hok Edr Hdec Hsk) as (p' & -> & Hp'). fold chain. cbn [mbind option_bind].
    assert (El : zlen chain - zlen (sn_data s) = zlen pre) by (rewrite Hpre, zlen_app; lia). rewrite El.
    pose proof (zlen_nonneg pre). rewrite (proj2 (Z.ltb_ge (zlen pre) 0)) by lia. cbv zeta.
    assert (Hsk1 : skb_holds (skb_pull (zlen pre) skb) (head + zlen pre) (sn_data s) room).
    { apply (skb_pull_run skb head pre); [by rewrite <- Hpre|done]. }
    destruct (sn_type s =? ULE_TYPE_BRIDGED) eqn:Eb.
    - rewrite Hp'. cbn [mbind option_bind]. destruct Ht as [Ht|[Ht|(_ & _ & Hz & Hp)]]; [unfold ULE_TYPE_BRIDGED in Eb; lia|congruence|].
      rewrite (netif_rx_run cfg _ _ _ _ n Hsk1) by done. by eexists.
    - destruct Hp' as [-> ->]. destruct Ht as [Ht|[Ht|(Ht & _)]]; [|congruence|lia]. rewrite word_u8 by lia.
      assert (Hz : zlen dest = 6) by (unfold dest; destruct (sn_dest s); [apply Hdest|done]).
      destruct (skb_push_run _ _ _ _ (dest ++ replicate 6 0 ++ word (sn_type s)) Hsk1) as (skb' & -> & Hsk2).
      { rewrite !zlen_app, Hz. change (zlen (replicate 6 0)) with 6. change (zlen (word _)) with 2. lia. }
      cbn [mbind option_bind]. rewrite <- !app_assoc in Hsk2.
      assert (Hproto : ztake 2 (zdrop 12 (dest ++ replicate 6 0 ++ word (sn_type s) ++ sn_data s)) = word (sn_type s)).
      { rewrite (app_assoc dest), zdrop_app by (rewrite zlen_app, Hz; done). by rewrite ztake_app. }
      rewrite (netif_rx_run cfg _ _ _ _ n Hsk2).
      + rewrite Hproto, be_pair_word by lia. rewrite ztake_app by done. by eexists.
      + rewrite !zlen_app, Hz. change (zlen (replicate 6 0)) with 6. change (zlen (word _)) with 2. lia.
      + rewrite Hproto, be_pair_word by lia. lia. }
  unfold sndu_frames. rewrite Edr. destruct (sn_dest s) as [d|] eqn:Ed.
  - cbn [default from_option] in Hsk. destruct Hdest as [Hz6 Hb6].
    rewrite (skb_bytes_run skb head [] d chain room 0 ETH_ALEN) by (done || rewrite Hz6; done).
    cbn [mbind option_bind Z.eqb andb]. destruct Ht as [Ht|[Ht|(_ & ? & _)]]; [|congruence|done].
    rewrite (proj2 (Z.eqb_neq (sn_type s) ULE_TYPE_BRIDGED)) in Hframe |- * by (unfold ULE_TYPE_BRIDGED; lia).
    destruct (ule_drop cfg d); [exists (stats n); rewrite app_nil_r; by destruct n|].
    apply (Hframe _ (head + 6)); [lia|]. by apply (skb_pull_run skb head d).
  - cbn [mbind option_bind Z.eqb andb]. destruct (Hframe skb head Hhead Hsk) as [st E]. exists st.
    etransitivity; [exact E|]. by destruct (sn_type s =? ULE_TYPE_BRIDGED).
Qed.

Section decapsulation.
Context (cfg : net_config).
Local Abbreviation crc := (crc32_be cfg).
Context (crc_range : forall c l, 0 <= c < 2 ^ 32 -> bytes l -> 0 <= crc c l < 2 ^ 32).

Lemma sndu_length_pos s : sndu_ok s -> 5 <= sndu_length s < 0x8000.
Proof.
  intros (_ & Hx & _ & Hd & _ & Hl & _). split; [|done]. unfold sndu_length, sndu_payload. rewrite zlen_app.
  pose proof (ext_chain_zlen (sn_exts s) (sn_type s) (sn_data s) Hx) as [-> Hc]. pose proof (zlen_nonneg (default [] (sn_dest s))). lia.
Qed.
Lemma sndu_crc_range s : sndu_ok s -> 0 <= sndu_crc crc s < 2 ^ 32.
Proof.
  intros Hok. pose proof (sndu_length_pos s Hok). pose proof (sndu_head_range s Hok). destruct Hok as (Hdest & Hx & Hd & _ & Ht & _).
  unfold sndu_crc. apply crc_range; [apply crc_range; [apply crc_range; [done|]|]|].
  - apply be_word_bytes. unfold sndu_length_field. destruct (sn_dest s); lia.
  - by apply be_word_bytes.
  - unfold sndu_payload. apply Forall_app. split; [destruct (sn_dest s); [apply Hdest|constructor]|].
    apply ext_chain_bytes; [done..|]. unfold dropped_type, ULE_TYPE_BRIDGED in Ht. lia.
Qed.
Lemma zlen_sndu_body s : zlen (sndu_body crc s) = sndu_length s.
Proof. unfold sndu_body, sndu_length. by rewrite zlen_app. Qed.

Lemma ule_crc_run n s : sndu_ok s -> decodes (priv n) s -> ule_crc32 cfg (priv n) (sndu_payload s) = sndu_crc crc s.
Proof.
  intros Hok (Hdb & Hlen & Hty & _). pose proof (sndu_length_pos s Hok). pose proof (sndu_head_range s Hok).
  unfold ule_crc32, sndu_crc. rewrite Hty, (word_u8 (sndu_head s)) by done.
  replace (if ule_dbit (priv n) =? 0 then _ else _) with (sndu_length_field s); [by rewrite word_u8 by (unfold sndu_length_field; destruct (sn_dest s); lia)|].
  unfold sndu_length_field. rewrite Hdb, Hlen. destruct (sn_dest s); [simpl; lia|]. cbn [Z.eqb].
  rewrite Z.lor_comm. pose proof (lor_mul_add 1 (sndu_length s) 15 ltac:(lia) ltac:(lia)) as L. change (1 * 2 ^ 15) with 32768 in L. lia.
Qed.

Lemma ule_complete_run s skb room n :
  sndu_ok s -> decodes (priv n) s -> skb_holds skb 20 (sndu_body crc s) room -> 0 <= room ->
  exists st, ule_complete cfg skb n = Some (Net (reset_ule (priv n)) st (frames n ++ sndu_frames cfg s) (allocs n)).
Proof.
  intros Hok Hdec Hsk Hroom. pose proof (proj1 (proj2 Hsk)) as Hl. rewrite zlen_sndu_body in Hl.
  unfold ule_complete. unfold sndu_body in Hsk.
  assert (Hp : zlen (sndu_payload s) = sk_len skb - 4) by (unfold sndu_length in Hl; lia).
  rewrite (skb_bytes_run skb 20 [] (sndu_payload s) (be32_bytes (sndu_crc crc s)) room 0 (sk_len skb - 4)) by (exact Hsk || done || lia). cbn [mbind option_bind].
  rewrite (skb_bytes_run skb 20 (sndu_payload s) (be32_bytes (sndu_crc crc s)) [] room (sk_len skb - 4) 4) by (rewrite ?app_nil_r; (exact Hsk || lia || done)). cbn [mbind option_bind].
  rewrite expected_crc by by apply sndu_crc_range. rewrite ule_crc_run, Z.eqb_refl by done. cbn [negb].
  pose proof (skb_trim_run skb 20 (sndu_payload s) (be32_bytes (sndu_crc crc s)) room Hsk) as Ht.
  change (zlen (be32_bytes (sndu_crc crc s))) with 4 in Ht.
  destruct (ule_accept_run cfg s _ 20 (4 + room) n Hok Hdec Ht ltac:(lia) ltac:(lia)) as [st E]. rewrite E. exists st. done.
Qed.
End decapsulation.
