(* ===== verification/DvbNetCells.v ===== *)
(** * DvbNetCells: the reception of ULE from the cells of a transport stream

    Cells as they arrive - SNDUs back to back, cut wherever a cell ends, pointer fields,
    padding, and cells lost or damaged on the way - and the proof that [dvb_net_ule] hands on
    the frames of exactly the SNDUs that came in whole, in order and once, however the cells
    are grouped into buffers. *)

From S2P Require Import Prelude Crc32 DvbNet DvbNetUle.

(** [l] is in the buffer at [i]. *)
Definition at_ (buf : list Z) (i : Z) (l : list Z) : Prop := exists pre post, buf = pre ++ l ++ post /\ zlen pre = i.

Lemma at_get buf i l j k : at_ buf i l -> 0 <= j < zlen l -> k = i + j -> zget buf k = Some l.[j].
Proof.
  intros (pre & post & -> & <-) Hj ->. pose proof (zlen_nonneg pre). pose proof (zlen_nonneg post).
  rewrite zget_in by (rewrite !zlen_app; lia). f_equal.
  rewrite zat_app, decide_False by lia. rewrite zat_app, decide_True by lia. f_equal. lia.
Qed.
Lemma at_drop buf i a b k : at_ buf i (a ++ b) -> k = i + zlen a -> at_ buf k b.
Proof. intros (pre & post & -> & <-) ->. exists (pre ++ a), post. by rewrite zlen_app, <- !app_assoc. Qed.
Lemma at_take buf i a b : at_ buf i (a ++ b) -> at_ buf i a.
Proof. intros (pre & post & -> & <-). exists pre, (b ++ post). by rewrite <- !app_assoc. Qed.
Lemma at_copy buf i a : at_ buf i a -> 0 <= i /\ i + zlen a <= zlen buf /\ ztake (zlen a) (zdrop i buf) = a.
Proof.
  intros (pre & post & -> & <-). pose proof (zlen_nonneg pre). pose proof (zlen_nonneg post). rewrite !zlen_app.
  split_and!; [lia..|]. rewrite zdrop_app by done. by rewrite ztake_app.
Qed.

Lemma zat_ztake_two l : 2 <= zlen l -> ztake 2 l = [l.[0]; l.[1]].
Proof. destruct l as [|a [|b l]]; unfold zlen; cbn [length]; intros; [lia..|done]. Qed.

Section cells.
Context (cfg : net_config).
Local Abbreviation crc := (crc32_be cfg).
Local Abbreviation enc := (encode_sndu crc).

(** An SNDU of which so many bytes were sent. *)
Definition pending : Type := option (sndu * Z).

(** How a part of a cell is filled: the SNDUs that end in it, and what is pending then. *)
Inductive packs : pending -> list Z -> list sndu -> pending -> Prop :=
  | packs_split s k a :
      k + zlen a < zlen (enc s) -> a = ztake (zlen a) (zdrop k (enc s)) ->
      packs (Some (s, k)) a [] (Some (s, k + zlen a))
  | packs_end s k area ss p :
      packs None area ss p -> packs (Some (s, k)) (zdrop k (enc s) ++ area) (s :: ss) p
  | packs_padding a :
      zlen a < 2 \/ ztake 2 a = [0xFF; 0xFF] -> packs None a [] None
  | packs_start s area ss p :
      sndu_ok s -> packs (Some (s, 2)) area ss p -> packs None (word (sndu_length_field s) ++ area) ss p.

Definition cell_good (cell : list Z) : bool :=
  (cell.[0] =? TS_SYNC) && (Z.land cell.[1] TS_TEI =? 0) && (Z.land cell.[3] TS_SC =? 0).
Definition cell_pusi (cell : list Z) : bool := negb (Z.land cell.[1] TS_PUSI =? 0).
Definition cell_cc (cell : list Z) : Z := Z.land cell.[3] 0x0F.
Definition next_cc (cc : Z) : Z := Z.land (cc + 1) 0x0F.
Definition cell_data (cell : list Z) : list Z := zdrop 4 cell.

(** Cells as they arrive, with the continuity counter expected; [None] is also the state of a
    receiver that is not synchronised. *)
Inductive arrives : Z -> pending -> list (list Z) -> list sndu -> Z -> pending -> Prop :=
  | arrives_nil cc p : arrives cc p [] [] cc p
  (* a damaged or scrambled cell: the SNDU it belongs to is lost *)
  | arrives_damaged cc p cell cells ss cc' p' :
      zlen cell = TS_SZ -> cell_good cell = false ->
      arrives cc None cells ss cc' p' -> arrives cc p (cell :: cells) ss cc' p'
  (* cells are missing *)
  | arrives_lost cc sk cell cells ss cc' p' :
      zlen cell = TS_SZ -> cell_good cell = true -> cell_cc cell <> cc ->
      arrives cc None (cell :: cells) ss cc' p' -> arrives cc (Some sk) (cell :: cells) ss cc' p'
  (* no SNDU starts in the cell: nothing to synchronise on *)
  | arrives_idle cc cell cells ss cc' p' :
      zlen cell = TS_SZ -> cell_good cell = true -> cell_pusi cell = false ->
      arrives cc None cells ss cc' p' -> arrives cc None (cell :: cells) ss cc' p'
  (* the pointer field leads behind the rest of an SNDU that is lost *)
  | arrives_sync cc cell cells lost s area ss1 p1 ss2 cc' p' :
      zlen cell = TS_SZ -> cell_good cell = true -> cell_pusi cell = true ->
      cell_data cell = zlen lost :: lost ++ word (sndu_length_field s) ++ area ->
      sndu_ok s -> packs (Some (s, 2)) area ss1 p1 ->
      arrives (next_cc (cell_cc cell)) p1 cells ss2 cc' p' ->
      arrives cc None (cell :: cells) (ss1 ++ ss2) cc' p'
  | arrives_next cc sk cell cells ss1 p1 ss2 cc' p' :
      zlen cell = TS_SZ -> cell_good cell = true -> cell_pusi cell = false -> cell_cc cell = cc ->
      packs (Some sk) (cell_data cell) ss1 p1 ->
      arrives (next_cc cc) p1 cells ss2 cc' p' ->
      arrives cc (Some sk) (cell :: cells) (ss1 ++ ss2) cc' p'
  (* the pointer field is the length of what is pending *)
  | arrives_pointer cc s k area cell cells ss1 p1 ss2 cc' p' :
      zlen cell = TS_SZ -> cell_good cell = true -> cell_pusi cell = true -> cell_cc cell = cc ->
      cell_data cell = zlen (enc s) - k :: area -> zlen (enc s) - k <= 182 ->
      packs (Some (s, k)) area ss1 p1 ->
      arrives (next_cc cc) p1 cells ss2 cc' p' ->
      arrives cc (Some (s, k)) (cell :: cells) (ss1 ++ ss2) cc' p'.

(** ** The receiver *)

(** In the middle of an SNDU, of which [k] bytes came in. *)
Record mid (s : sndu) (k : Z) (p : dvb_net_priv) : Prop := {
  mid_ok : sndu_ok s;
  mid_k : 2 <= k < zlen (enc s);
  mid_len : ule_sndu_len p = sndu_length s;
  mid_dbit : ule_dbit p = (if sn_dest s is Some _ then 0 else 1);
  mid_remain : ule_sndu_remain p = zlen (enc s) - k;
  mid_bridged : ule_bridged p = false;
  mid_header :
    k = 2 /\ ule_skb p = None /\ ule_sndu_type_1 p = false \/
    k = 3 /\ ule_skb p = None /\ ule_sndu_type_1 p = true /\ ule_sndu_type p = sndu_head s / 256 * 256 \/
    4 <= k /\ ule_sndu_type p = sndu_head s /\
      exists skb room, ule_skb p = Some skb /\ skb_holds skb 20 (ztake (k - 4) (sndu_body crc s)) room /\ zlen (enc s) - k <= room }.

(** Before an SNDU. *)
Record fresh (p : dvb_net_priv) : Prop := {
  fresh_skb : ule_skb p = None; fresh_len : ule_sndu_len p = 0; fresh_type_1 : ule_sndu_type_1 p = false;
  fresh_remain : ule_sndu_remain p = 0; fresh_bridged : ule_bridged p = false }.

(** Between cells. *)
Definition receives (p : dvb_net_priv) (cc : Z) (pend : pending) : Prop :=
  match pend with
  | None => need_pusi p = true /\ fresh p
  | Some (s, k) => need_pusi p = false /\ tscc p = cc /\ mid s k p
  end.

Lemma zlen_enc s : zlen (enc s) = sndu_length s + 4.
Proof. unfold encode_sndu. rewrite !zlen_app, zlen_sndu_body. change (zlen (word _)) with 2. lia. Qed.
Lemma zdrop_enc s k : 4 <= k -> zdrop k (enc s) = zdrop (k - 4) (sndu_body crc s).
Proof.
  intros Hk. unfold encode_sndu. rewrite app_assoc. apply zdrop_app_plus; [rewrite zlen_app; change (zlen (word _)) with 2; lia|lia].
Qed.
Lemma zdrop_enc_2 s : zdrop 2 (enc s) = word (sndu_head s) ++ sndu_body crc s.
Proof. unfold encode_sndu. by rewrite zdrop_app. Qed.
Lemma zdrop_enc_3 s : zdrop 3 (enc s) = sndu_head s mod 256 :: sndu_body crc s.
Proof. rewrite <- (zdrop_zdrop 2 1), zdrop_enc_2 by lia. done. Qed.

Lemma reset_fresh p : fresh (reset_ule p).
Proof. done. Qed.

(** The allocator gives the memory asked for. *)
Context (alloc_ok : forall k size, 0 <= size -> exists mem, dev_alloc_skb cfg k size = Some mem /\ zlen mem = size).
Context (crc_range : forall c l, 0 <= c < 2 ^ 32 -> bytes l -> 0 <= crc c l < 2 ^ 32).
Context (buf : list Z).

(** The position in a cell: [area] is what is left of it. *)
Definition loop_at (s : ule_loop) (area : list Z) : Prop :=
  at_ buf (from_where s) area /\ ts_remain s = zlen area /\ zlen area < 256 /\ ts s < zlen buf.

(** One turn, from the point where it is known which SNDU the data belong to. *)
Definition resume (s : ule_loop) (n : net) : option flow :=
  then_ (if bool_decide (is_Some (ule_skb (priv n))) then Some (Next s n) else start_type cfg buf s n)
    (fun s n => then_ (copy_sndu cfg buf s n) (next_sndu buf)).

Lemma loop_at_drop s a b :
  loop_at s (a ++ b) ->
  loop_at (UleLoop (ts s) (from_where s + zlen a) (u8 (ts_remain s - zlen a)) (new_ts s)) b.
Proof.
  intros (Ha & Hr & Hz & Ht). rewrite zlen_app in *. pose proof (zlen_nonneg a). pose proof (zlen_nonneg b).
  split_and!; cbn [ts from_where ts_remain]; [by eapply at_drop|rewrite u8_small by lia; lia|lia|done].
Qed.

Lemma alloc_sndu_run s n sn :
  sndu_ok sn -> ule_sndu_type (priv n) = sndu_head sn -> ule_sndu_len (priv n) = sndu_length sn ->
  ule_dbit (priv n) = (if sn_dest sn is Some _ then 0 else 1) -> ule_bridged (priv n) = false ->
  exists n', alloc_sndu cfg s n = Some (Next s n') /\ mid sn 4 (priv n') /\
    need_pusi (priv n') = need_pusi (priv n) /\ tscc (priv n') = tscc (priv n) /\ frames n' = frames n.
Proof.
  intros Hok Ety El Ed Eb. pose proof (sndu_length_pos sn Hok) as Hl. unfold alloc_sndu. cbn [allocs].
  destruct (alloc_ok (pred (S (allocs n))) (ule_sndu_len (priv n) + ETH_HLEN + ETH_ALEN)) as (mem & -> & Hm); [unfold ETH_HLEN, ETH_ALEN; lia|].
  eexists. split; [reflexivity|]. split; [|done]. rewrite El in Hm. unfold ETH_HLEN, ETH_ALEN in Hm.
  split; try done.
  - rewrite zlen_enc. lia.
  - change (ule_sndu_len (priv n) = zlen (enc sn) - 4). rewrite zlen_enc. lia.
  - right; right. split; [lia|]. split; [done|]. eexists _, (sndu_length sn). split; [reflexivity|]. rewrite zlen_enc. split; [|lia].
    split; [done|]. split; [done|]. exists (ztake 20 mem), (zdrop 20 mem).
    split; [cbn [skb_reserve sk_mem]; rewrite ztake_0; by rewrite app_nil_l, ztake_zdrop|]. split; [rewrite zlen_ztake|rewrite zlen_zdrop]; lia.
Qed.

(** The type field: all of it, behind it the buffer for the SNDU... *)
Lemma start_type_run s n sn k a :
  mid sn k (priv n) -> ule_skb (priv n) = None -> loop_at s (zdrop k (ztake 4 (enc sn)) ++ a) -> 2 <= zlen (zdrop k (ztake 4 (enc sn)) ++ a) ->
  exists s' n', start_type cfg buf s n = Some (Next s' n') /\ mid sn 4 (priv n') /\ loop_at s' a /\
    ts s' = ts s /\ new_ts s' = new_ts s /\ need_pusi (priv n') = need_pusi (priv n) /\ tscc (priv n') = tscc (priv n) /\
    frames n' = frames n.
Proof.
  intros [Hok Hk Hlen Hdb Hrem Hbr Hh] Hskb Hat Hz2. pose proof (sndu_length_pos sn Hok) as Hl. pose proof (sndu_head_range sn Hok) as Hhd.
  assert (E4 : ztake 4 (enc sn) = word (sndu_length_field sn) ++ word (sndu_head sn)).
  { unfold encode_sndu. rewrite app_assoc. by apply ztake_app. }
  rewrite E4 in *. unfold start_type, ule_type_field. cbn [priv set_priv set_remain ule_sndu_type_1 ule_sndu_type ule_sndu_len].
  pose proof Hat as (Ha & Hr & Hlt & Hts). rewrite Hr.
  rewrite (proj2 (Z.eqb_neq _ 1)), (proj2 (Z.eqb_neq _ 0)) by lia.
  destruct Hh as [(-> & _ & ->)|[(-> & _ & -> & Hty)|(? & _ & skb & room & Hs & _)]]; [| |congruence].
  - change (zdrop 2 (word (sndu_length_field sn) ++ word (sndu_head sn))) with (word (sndu_head sn)) in *.
    rewrite (at_get _ _ _ 0 (from_where s) Ha), (at_get _ _ _ 1 (from_where s + 1) Ha) by lia. cbn [mbind option_bind then_].
    change ((word (sndu_head sn) ++ a).[0]) with (sndu_head sn / 256). change ((word (sndu_head sn) ++ a).[1]) with (sndu_head sn mod 256).
    rewrite lor_byte by lia. replace (sndu_head sn / 256 * 256 + sndu_head sn mod 256) with (sndu_head sn) by lia.
    edestruct alloc_sndu_run as (n' & E & Hm & Hp & Ht & Hf); cycle 5; [eexists _, n'; split; [exact E|]|done..].
    split; [exact Hm|]. split; [|done]. rewrite <- Hr. exact (loop_at_drop s (word (sndu_head sn)) a Hat).
  - change (zdrop 3 (word (sndu_length_field sn) ++ word (sndu_head sn))) with [sndu_head sn mod 256] in *.
    rewrite (at_get _ _ _ 0 (from_where s) Ha) by lia. cbn [mbind option_bind then_].
    change (([sndu_head sn mod 256] ++ a).[0]) with (sndu_head sn mod 256). rewrite Hty.
    pose proof (lor_mul_add (sndu_head sn / 256) (sndu_head sn mod 256) 8 ltac:(lia) ltac:(lia)) as L. change (2 ^ 8) with 256 in L. rewrite L.
    replace (sndu_head sn / 256 * 256 + sndu_head sn mod 256) with (sndu_head sn) by lia.
    edestruct alloc_sndu_run as (n' & E & Hm & Hp & Ht & Hf); cycle 5; [eexists _, n'; split; [exact E|]|done..].
    split; [exact Hm|]. split; [|done]. rewrite <- Hr. exact (loop_at_drop s [sndu_head sn mod 256] a Hat).
Qed.

(** The receiver at the next cell, after [m] turns at most. *)
Definition runs (m : Z) (s : ule_loop) (n : net) (ts' cc : Z) (pend : pending) (fr : list net_frame) : Prop :=
  exists k s' n', Z.of_nat k <= m /\ (forall fuel, ule_loop_run cfg buf (k + fuel) s n = ule_loop_run cfg buf fuel s' n') /\
    ts s' = ts' /\ new_ts s' = true /\ receives (priv n') cc pend /\ frames n' = frames n ++ fr.

Lemma runs_now s n ts' cc pend fr :
  ts s = ts' -> new_ts s = true -> receives (priv n) cc pend -> fr = [] -> runs 0 s n ts' cc pend fr.
Proof. intros ? ? ? ->. exists O, s, n. by rewrite app_nil_r. Qed.
Lemma runs_weaken m m' s n ts' cc pend fr : m <= m' -> runs m s n ts' cc pend fr -> runs m' s n ts' cc pend fr.
Proof. intros Hm (k & s' & n' & Hk & H). exists k, s', n'. split; [lia|exact H]. Qed.
Lemma runs_step m s n s1 n1 ts' cc pend fr fr' :
  ts s < zlen buf -> ule_body cfg buf s n = Some (Again s1 n1) -> frames n1 = frames n ++ fr ->
  runs m s1 n1 ts' cc pend fr' -> runs (1 + m) s n ts' cc pend (fr ++ fr').
Proof.
  intros Hts E Hf (k & s' & n' & Hk & Hrun & H1 & H2 & H3 & H4). exists (S k), s', n'. split; [lia|]. split_and!; try done.
  - intros fuel. cbn [Nat.add ule_loop_run]. rewrite (proj2 (Z.ltb_lt _ _)) by done. rewrite E. apply Hrun.
  - by rewrite H4, Hf, app_assoc.
Qed.

(** The data of a cell go behind what is there. *)
Lemma copy_chunk s n sn k a area rest :
  mid sn k (priv n) -> 4 <= k -> loop_at s (a ++ area) -> zdrop k (enc sn) = a ++ rest ->
  area = [] \/ rest = [] ->
  exists skb room, skb_holds skb 20 (ztake (k + zlen a - 4) (sndu_body crc sn)) room /\ zlen (enc sn) - (k + zlen a) <= room /\
    copy_sndu cfg buf s n =
      let s := UleLoop (ts s) (from_where s + zlen a) (u8 (ts_remain s - zlen a)) (new_ts s) in
      let n := set_priv (set_ule_skb (Some skb) (set_remain (zlen (enc sn) - (k + zlen a)) (priv n))) n in
      if zlen (enc sn) - (k + zlen a) <=? 0 then n ← ule_complete cfg skb n; Some (Next s n) else Some (Next s n).
Proof.
  intros [Hok Hk Hlen Hdb Hrem Hbr Hh] Hk4 Hat Hrest Hcase. pose proof Hat as (Ha & Hr & Hz & Hts).
  destruct Hh as [(-> & _)|[(-> & _)|(_ & Hty & skb & room & Hs & Hsk & Hroom)]]; [lia..|].
  pose proof (f_equal zlen Hrest) as Hzr. rewrite zlen_zdrop, !zlen_app in Hzr by lia. rewrite zlen_app in Hr, Hz.
  pose proof (zlen_nonneg a). pose proof (zlen_nonneg area). pose proof (zlen_nonneg rest).
  assert (Hmin : Z.min (ule_sndu_remain (priv n)) (ts_remain s) = zlen a).
  { rewrite Hrem, Hr. destruct Hcase as [-> | ->]; unfold zlen in *; simpl in *; lia. }
  destruct (at_copy _ _ _ (at_take _ _ _ _ Ha)) as (Hf0 & Hf1 & Hcopy).
  destruct (skb_put_run skb 20 _ room a Hsk ltac:(lia)) as (skb' & Eput & Hsk').
  exists skb', (room - zlen a). split_and!; [|lia|].
  - rewrite zdrop_enc in Hrest by done. replace (ztake (k + zlen a - 4) (sndu_body crc sn)) with (ztake (k - 4) (sndu_body crc sn) ++ a); [done|].
    rewrite <- (ztake_zdrop (k - 4) (sndu_body crc sn)) at 2. rewrite Hrest.
    rewrite zlen_enc in Hk. rewrite (ztake_app_plus _ _ _ (zlen a)) by (rewrite ?zlen_ztake by (rewrite ?zlen_sndu_body; lia); lia).
    by rewrite ztake_app.
  - unfold copy_sndu. rewrite Hs. cbn [mbind option_bind]. rewrite Hmin, decide_True by lia. rewrite Hcopy, Eput. cbn [mbind option_bind].
    rewrite Hrem. replace (zlen (enc sn) - k - zlen a) with (zlen (enc sn) - (k + zlen a)) by lia. done.
Qed.

(** The cell ends within the SNDU. *)
Lemma copy_split s n sn k a :
  mid sn k (priv n) -> 4 <= k -> loop_at s a -> k + zlen a < zlen (enc sn) -> a = ztake (zlen a) (zdrop k (enc sn)) ->
  exists s' n', then_ (copy_sndu cfg buf s n) (next_sndu buf) = Some (Again s' n') /\
    ts s' = ts s + TS_SZ /\ new_ts s' = true /\ mid sn (k + zlen a) (priv n') /\
    need_pusi (priv n') = need_pusi (priv n) /\ tscc (priv n') = tscc (priv n) /\ frames n' = frames n.
Proof.
  intros Hm Hk4 Hat Hlt Ea. pose proof (zlen_nonneg a). destruct (copy_chunk s n sn k a [] (zdrop (zlen a) (zdrop k (enc sn)))) as (skb & room & Hsk & Hroom & ->); try done.
  - by rewrite app_nil_r.
  - rewrite Ea at 1. by rewrite ztake_zdrop.
  - by left.
  - destruct Hat as (Ha & Hr & Hz & Hts). cbv zeta. rewrite (proj2 (Z.leb_gt _ 0)) by lia. cbn [then_].
    unfold next_sndu. cbn [ts_remain]. rewrite Hr, Z.sub_diag. change (u8 0) with 0. cbn. eexists _, _. split; [reflexivity|].
    split_and!; try done. destruct Hm as [Hok Hk Hlen Hdb Hrem Hbr Hh]. split; try done; [lia|].
    right; right. split; [lia|]. destruct Hh as [(-> & _)|[(-> & _)|(_ & Hty & _)]]; [lia..|].
    split; [done|]. by exists skb, room.
Qed.

(** The SNDU ends within the cell. *)
Lemma copy_end s n sn k area :
  mid sn k (priv n) -> 4 <= k -> loop_at s (zdrop k (enc sn) ++ area) ->
  exists s' n', copy_sndu cfg buf s n = Some (Next s' n') /\ loop_at s' area /\ ts s' = ts s /\
    fresh (priv n') /\ need_pusi (priv n') = need_pusi (priv n) /\ tscc (priv n') = tscc (priv n) /\
    frames n' = frames n ++ sndu_frames cfg sn.
Proof.
  intros Hm Hk4 Hat. pose proof Hm as [Hok Hk Hlen Hdb Hrem Hbr Hh].
  destruct (copy_chunk s n sn k (zdrop k (enc sn)) area []) as (skb & room & Hsk & Hroom & ->); try done; [by rewrite app_nil_r|by right|].
  rewrite zlen_zdrop in * by lia. cbv zeta. rewrite (proj2 (Z.leb_le _ 0)) by lia.
  rewrite ztake_all in Hsk by (rewrite zlen_sndu_body; rewrite zlen_enc in *; lia).
  destruct (ule_complete_run cfg crc_range sn skb room
    (set_priv (set_ule_skb (Some skb) (set_remain (zlen (enc sn) - (k + (zlen (enc sn) - k))) (priv n))) n) Hok) as [st E]; [|done|lia|].
  - split; [done|]. split; [done|]. split; [|done]. by destruct Hh as [(-> & _)|[(-> & _)|(_ & Hty & _)]].
  - rewrite E. eexists _, _. split; [reflexivity|]. split; [|done].
    pose proof (loop_at_drop s (zdrop k (enc sn)) area Hat) as H. by rewrite zlen_zdrop in H by lia.
Qed.

Lemma length_field_bits sn : sndu_ok sn ->
  Z.land (sndu_length_field sn) 0x8000 = (if sn_dest sn is Some _ then 0 else 0x8000) /\
  Z.land (sndu_length_field sn) 0x7FFF = sndu_length sn.
Proof.
  intros Hok. pose proof (sndu_length_pos sn Hok) as Hl.
  split; [|change 0x7FFF with (Z.ones 15); rewrite Z.land_ones by lia; unfold sndu_length_field; destruct (sn_dest sn); lia].
  assert (E : sndu_length_field sn / 2 ^ 15 = if sn_dest sn is Some _ then 0 else 1) by (unfold sndu_length_field; destruct (sn_dest sn); lia).
  assert (E2 : sndu_length_field sn = Z.lor (Z.shiftl (sndu_length_field sn / 2 ^ 15) 15) (sndu_length_field sn mod 2 ^ 15)).
  { rewrite Z.shiftl_mul_pow2, lor_mul_add by lia. lia. }
  rewrite E2, Z.land_lor_distr_l, E. replace (Z.land (sndu_length_field sn mod 2 ^ 15) 32768) with 0; [by destruct (sn_dest sn)|].
  rewrite <- Z.land_ones by lia. by rewrite <- Z.land_assoc, Z.land_0_r.
Qed.

Lemma start_fresh s n sn area :
  fresh (priv n) -> sndu_ok sn -> loop_at s (word (sndu_length_field sn) ++ area) ->
  exists s' n', start_sndu cfg buf s n = start_type cfg buf s' n' /\ mid sn 2 (priv n') /\ ule_skb (priv n') = None /\ loop_at s' area /\
    ts s' = ts s /\ need_pusi (priv n') = need_pusi (priv n) /\ tscc (priv n') = tscc (priv n) /\ frames n' = frames n.
Proof.
  intros [Hs Hlen Ht1 Hrem Hbr] Hok Hat. pose proof (sndu_length_pos sn Hok) as Hl. pose proof Hat as (Ha & Hr & Hz & Hts).
  unfold start_sndu, ule_length_field. rewrite Hs, Hlen. rewrite bool_decide_false by apply is_Some_None. cbn [negb Z.eqb].
  rewrite zlen_app in Hr, Hz. change (zlen (word (sndu_length_field sn))) with 2 in Hr, Hz. pose proof (zlen_nonneg area).
  rewrite (proj2 (Z.ltb_ge _ 2)) by lia.
  rewrite (at_get _ _ _ 0 (from_where s) Ha), (at_get _ _ _ 1 (from_where s + 1) Ha)
    by (rewrite ?zlen_app; change (zlen (word (sndu_length_field sn))) with 2; lia).
  cbn [mbind option_bind]. change ((word (sndu_length_field sn) ++ area).[0]) with (sndu_length_field sn / 256).
  change ((word (sndu_length_field sn) ++ area).[1]) with (sndu_length_field sn mod 256).
  rewrite lor_byte by lia. replace (sndu_length_field sn / 256 * 256 + sndu_length_field sn mod 256) with (sndu_length_field sn) by lia.
  destruct (length_field_bits sn Hok) as [-> Hlow]. rewrite Hlow.
  replace (if negb _ then sndu_length sn else sndu_length_field sn) with (sndu_length sn) by (unfold sndu_length_field; destruct (sn_dest sn); simpl; lia).
  rewrite (proj2 (Z.ltb_ge (sndu_length sn) 5)) by lia. cbn [then_].
  match goal with |- context [start_type cfg buf ?s0 ?n0 = _] =>
    exists s0, (set_priv (set_remain (ule_sndu_len (priv n0) + 2) (priv n0)) n0) end.
  split; [done|]. split; [|split; [done|split; [exact (loop_at_drop s (word (sndu_length_field sn)) area Hat)|done]]].
  split; try done.
  - rewrite zlen_enc. lia.
  - cbn. by destruct (sn_dest sn).
  - change (sndu_length sn + 2 = zlen (enc sn) - 2). rewrite zlen_enc. lia.
  - left. done.
Qed.

(** From an SNDU of which two bytes or more came in, to its body. *)
Lemma resume_body s n sn k a area rest :
  mid sn k (priv n) -> loop_at s (a ++ area) -> zdrop k (enc sn) = a ++ rest -> 4 - k <= zlen a -> (k < 4 -> 2 <= zlen (a ++ area)) ->
  exists s' n' a', resume s n = then_ (copy_sndu cfg buf s' n') (next_sndu buf) /\
    mid sn (Z.max k 4) (priv n') /\ loop_at s' (a' ++ area) /\ zdrop (Z.max k 4) (enc sn) = a' ++ rest /\
    Z.max k 4 + zlen a' = k + zlen a /\
    ts s' = ts s /\ need_pusi (priv n') = need_pusi (priv n) /\ tscc (priv n') = tscc (priv n) /\ frames n' = frames n.
Proof.
  intros Hm Hat Hrest Hlong Htwo. pose proof Hm as [Hok Hk Hlen Hdb Hrem Hbr Hh]. unfold resume.
  destruct (decide (4 <= k)) as [H4|H4].
  - rewrite Z.max_l by done. destruct Hh as [(-> & _)|[(-> & _)|(_ & _ & skb & room & Hs & _)]]; [lia..|].
    rewrite Hs. rewrite bool_decide_true by done. exists s, n, a. done.
  - assert (Hs : ule_skb (priv n) = None) by (destruct Hh as [(_ & -> & _)|[(_ & -> & _)|(? & _)]]; [done..|lia]).
    rewrite Hs, bool_decide_false by apply is_Some_None. rewrite Z.max_r by lia.
    assert (E : zdrop k (enc sn) = zdrop k (ztake 4 (enc sn)) ++ zdrop 4 (enc sn)).
    { rewrite <- (ztake_zdrop 4 (enc sn)) at 1. apply zdrop_app_le. rewrite zlen_ztake; [lia|]. pose proof (sndu_length_pos sn Hok). rewrite zlen_enc in *. lia. }
    assert (Hz : zlen (zdrop k (ztake 4 (enc sn))) = 4 - k).
    { assert (H4z : zlen (ztake 4 (enc sn)) = 4) by (pose proof (sndu_length_pos sn Hok); apply zlen_ztake; rewrite zlen_enc; lia).
      rewrite zlen_zdrop; lia. }
    assert (Ea : a = zdrop k (ztake 4 (enc sn)) ++ zdrop (4 - k) a).
    { rewrite <- (ztake_zdrop (4 - k) a) at 1. f_equal. rewrite Hrest in E. apply (f_equal (ztake (4 - k))) in E.
      rewrite ztake_app_le in E by done. by rewrite ztake_app in E by done. }
    set (a' := zdrop (4 - k) a) in *. rewrite Ea, <- app_assoc in Hat.
    destruct (start_type_run s n sn k (a' ++ area) Hm Hs Hat) as (s' & n' & -> & Hm' & Hat' & Hts & _ & Hp & Hc & Hf).
    { rewrite app_assoc, <- Ea. apply Htwo. lia. }
    cbn [then_]. exists s', n', a'. split_and!; try done.
    + rewrite Hrest, Ea, <- app_assoc in E. by apply app_inv_head in E.
    + rewrite Ea, zlen_app, Hz. lia.
Qed.

(** The cell ends within the header. *)
Lemma resume_header s n sn a :
  mid sn 2 (priv n) -> loop_at s a -> zlen a < 2 -> a = ztake (zlen a) (zdrop 2 (enc sn)) ->
  exists s' n', resume s n = Some (Again s' n') /\
    ts s' = ts s + TS_SZ /\ new_ts s' = true /\ mid sn (2 + zlen a) (priv n') /\
    need_pusi (priv n') = need_pusi (priv n) /\ tscc (priv n') = tscc (priv n) /\ frames n' = frames n.
Proof.
  intros [Hok Hk Hlen Hdb Hrem Hbr Hh] (Ha & Hr & Hz & Hts) Hlt Ea.
  destruct Hh as [(_ & Hs & Ht1)|[(? & _)|(? & _)]]; [|lia..]. pose proof (sndu_length_pos sn Hok) as Hl. rewrite zlen_enc in *.
  unfold resume. rewrite Hs, bool_decide_false by apply is_Some_None. unfold start_type, ule_type_field. rewrite Hr.
  destruct a as [|b a]; [|destruct a; [|rewrite !zlen_cons in Hlt; pose proof (zlen_nonneg a); lia]].
  - cbn. eexists _, _. split; [reflexivity|]. split_and!; try done. split; try done; [rewrite zlen_enc; done| |by left].
    change (ule_sndu_len (priv n) + 2 = zlen (enc sn) - 2). rewrite zlen_enc. lia.
  - rewrite zdrop_enc_2 in Ea. change (ztake (zlen [b]) (word (sndu_head sn) ++ sndu_body crc sn)) with [sndu_head sn / 256] in Ea.
    injection Ea as ->. rewrite (at_get _ _ _ 0 (from_where s) Ha) by (done || lia). cbn. eexists _, _. split; [reflexivity|]. split_and!; try done.
    split; try done; [rewrite zlen_enc; change (zlen [sndu_head sn / 256]) with 1; lia| |].
    + change (ule_sndu_len (priv n) + 2 - 1 = zlen (enc sn) - 3). rewrite zlen_enc. lia.
    + right; left. split_and!; try done. change (Z.shiftl (sndu_head sn / 256) 8 = sndu_head sn / 256 * 256). by rewrite shiftl_8.
Qed.

Lemma packs_run p area ss p' : packs p area ss p' ->
  let out := concat (map (sndu_frames cfg) ss) in
  match p with
  | Some (sn, k) => forall s n cc, mid sn k (priv n) -> loop_at s area -> (k = 3 -> 2 <= zlen area) ->
      need_pusi (priv n) = false -> tscc (priv n) = cc ->
      exists s1 n1 fr1 fr2, resume s n = Some (Again s1 n1) /\ frames n1 = frames n ++ fr1 /\ fr1 ++ fr2 = out /\
        runs (zlen area) s1 n1 (ts s + TS_SZ) cc p' fr2
  | None => forall s n cc, fresh (priv n) -> loop_at s area -> need_pusi (priv n) = false -> tscc (priv n) = cc ->
      exists s1 n1, next_sndu buf s n = Some (Again s1 n1) /\ frames n1 = frames n /\
        runs (zlen area) s1 n1 (ts s + TS_SZ) cc p' out
  end.
Proof.
  induction 1 as [sn k a Hlt Ea|sn k area ss p' Hp IH|a Hpad|sn area ss p' Hok Hp IH]; cbn zeta.
  - intros s n cc Hm Hat Hk3 Hnp Hcc. pose proof (zlen_nonneg a).
    assert (Hdone : forall s1 n1, ts s1 = ts s + TS_SZ -> new_ts s1 = true -> mid sn (k + zlen a) (priv n1) ->
      need_pusi (priv n1) = need_pusi (priv n) -> tscc (priv n1) = tscc (priv n) -> frames n1 = frames n ->
      resume s n = Some (Again s1 n1) -> exists s1 n1 fr1 fr2, resume s n = Some (Again s1 n1) /\ frames n1 = frames n ++ fr1 /\ fr1 ++ fr2 = [] /\
        runs (zlen a) s1 n1 (ts s + TS_SZ) cc (Some (sn, k + zlen a)) fr2).
    { intros s1 n1 H1 H2 H3 H4 H5 H6 H7. exists s1, n1, [], []. rewrite app_nil_r. split_and!; try done.
      apply (runs_weaken 0); [lia|]. apply runs_now; try done. split; [congruence|]. split; [congruence|done]. }
    pose proof Hm as [_ Hk _ _ _ _ _].
    destruct (decide (k = 2 /\ zlen a < 2)) as [[-> Hsmall]|Hbig].
    + destruct (resume_header s n sn a Hm Hat Hsmall Ea) as (s' & n' & E & ? & ? & ? & ? & ? & ?). by apply (Hdone s' n').
    + destruct (resume_body s n sn k a [] (zdrop (zlen a) (zdrop k (enc sn)))) as (s' & n' & a' & E & Hm' & Hat' & Hrest & Hz & Ht & Hp & Hc & Hf);
        try done; [by rewrite app_nil_r|rewrite Ea at 1; by rewrite ztake_zdrop|lia|rewrite app_nil_r; lia|].
      rewrite app_nil_r in Hat'.
      destruct (copy_split s' n' sn (Z.max k 4) a' Hm' ltac:(lia) Hat') as (s2 & n2 & E2 & Ht2 & Hn2 & Hm2 & Hp2 & Hc2 & Hf2); [lia|..].
      { rewrite Hrest. by rewrite ztake_app. }
      apply (Hdone s2 n2); congruence.
  - intros s n cc Hm Hat Hk3 Hnp Hcc. pose proof Hm as [Hok Hk _ _ _ _ _]. pose proof (sndu_length_pos sn Hok) as Hl.
    assert (Hzd : zlen (zdrop k (enc sn)) = zlen (enc sn) - k) by (apply zlen_zdrop; lia). pose proof (zlen_enc sn).
    destruct (resume_body s n sn k (zdrop k (enc sn)) area [] Hm Hat (eq_sym (app_nil_r _))) as (s' & n' & a' & E & Hm' & Hat' & Hrest & Hz & Ht & Hpu & Hc & Hf);
      [lia|rewrite zlen_app; pose proof (zlen_nonneg area); lia|].
    rewrite app_nil_r in Hrest. rewrite <- Hrest in Hat'.
    destruct (copy_end s' n' sn (Z.max k 4) area Hm' ltac:(lia) Hat') as (s2 & n2 & E2 & Hat2 & Ht2 & Hfr & Hp2 & Hc2 & Hf2).
    destruct (IH s2 n2 cc Hfr Hat2) as (s3 & n3 & E3 & Hf3 & Hr3); [congruence..|].
    exists s3, n3, (sndu_frames cfg sn), (concat (map (sndu_frames cfg) ss)). split_and!; [|congruence|done|].
    + rewrite E, E2. exact E3.
    + rewrite Ht2, Ht in Hr3. apply (runs_weaken (zlen area)); [rewrite zlen_app; lia|done].
  - intros s n cc Hfr (Ha & Hr & Hz & Hts) Hnp Hcc. unfold next_sndu. rewrite Hr.
    assert (Hmore : (if 2 <=? zlen a then b0 ← zget buf (from_where s); b1 ← zget buf (from_where s + 1); Some (negb ((b0 =? 0xFF) && (b1 =? 0xFF)))
      else Some false) = Some false).
    { destruct (2 <=? zlen a) eqn:E; [|done]. rewrite (at_get _ _ _ 0 (from_where s) Ha), (at_get _ _ _ 1 (from_where s + 1) Ha) by lia.
      destruct Hpad as [?|Hpad]; [lia|]. rewrite zat_ztake_two in Hpad by lia. injection Hpad as -> ->. done. }
    rewrite Hmore. cbn [mbind option_bind]. pose proof Hfr as [Hs _ _ _ _]. cbn [next_cell priv set_priv count_ts ule_skb].
    rewrite Hs, bool_decide_false by apply is_Some_None. eexists _, _. split; [reflexivity|]. split; [done|].
    apply (runs_weaken 0); [pose proof (zlen_nonneg a); lia|]. apply runs_now; try done. split; [done|]. destruct Hfr. by split.
  - intros s n cc Hfr Hat Hnp Hcc. pose proof Hat as (Ha & Hr & Hz & Hts).
    set (lf := sndu_length_field sn) in *. rewrite zlen_app in *. change (zlen (word lf)) with 2 in *. pose proof (zlen_nonneg area).
    assert (Hlf : ~ (lf / 256 = 255 /\ lf mod 256 = 255)).
    { pose proof Hok as (_ & _ & _ & _ & _ & _ & Hne). fold lf in Hne. lia. }
    unfold next_sndu. rewrite Hr, (proj2 (Z.leb_le 2 (2 + zlen area))) by lia.
    rewrite (at_get _ _ _ 0 (from_where s) Ha), (at_get _ _ _ 1 (from_where s + 1) Ha) by (rewrite ?zlen_app; change (zlen (word lf)) with 2; lia).
    cbn [mbind option_bind]. change ((word lf ++ area).[0]) with (lf / 256). change ((word lf ++ area).[1]) with (lf mod 256).
    rewrite (proj2 (Bool.negb_true_iff _)) by lia. eexists _, _. split; [reflexivity|]. split; [done|].
    match goal with |- runs _ ?s1 ?n1 _ _ _ _ => set (s1' := s1); set (n1' := n1) end.
    assert (Hfr1 : fresh (priv n1')) by (destruct Hfr; by split).
    assert (Hat1 : loop_at s1' (word lf ++ area)) by (split_and!; [exact Ha|by rewrite zlen_app|rewrite zlen_app; exact Hz|exact Hts]).
    destruct (start_fresh s1' n1' sn area Hfr1 Hok Hat1) as (s2 & n2 & E2 & Hm2 & Hs2 & Hat2 & Ht2 & Hp2 & Hc2 & Hf2).
    destruct (IH s2 n2 cc Hm2 Hat2) as (s3 & n3 & fr1 & fr2 & E3 & Hf3 & Hout & Hr3); [lia|by rewrite Hp2|by rewrite Hc2|].
    rewrite <- Hout. apply (runs_weaken (1 + zlen area)); [lia|]. apply (runs_step _ _ _ s3 n3); [done| | |].
    + unfold ule_body, check_cell. cbn [new_ts s1' negb then_]. unfold sync_pusi. change (need_pusi (priv n1')) with (need_pusi (priv n)).
      rewrite Hnp. cbn [negb then_]. unfold check_continuity. cbn [new_ts s1' negb then_]. rewrite E2.
      unfold resume in E3. rewrite Hs2, bool_decide_false in E3 by apply is_Some_None. exact E3.
    + rewrite Hf3. by rewrite Hf2.
    + rewrite Ht2 in Hr3. exact Hr3.
Qed.

(** ** Cells *)

(** A cell at the position the loop has come to. *)
Record cell_at (s : ule_loop) (cell : list Z) : Prop := {
  cell_in : at_ buf (ts s) cell; cell_len : zlen cell = TS_SZ; cell_new : new_ts s = true }.

Lemma cell_get s cell j k : cell_at s cell -> 0 <= j < TS_SZ -> k = ts s + j -> zget buf k = Some cell.[j].
Proof. intros [Hi Hz _] Hj Hk. apply (at_get _ (ts s)); [done|lia|done]. Qed.
Lemma cell_payload s cell : cell_at s cell ->
  loop_at (UleLoop (ts s) (ts s + 4) 184 true) (cell_data cell) /\ zlen (cell_data cell) = 184.
Proof.
  intros [Hi Hz Hn]. assert (Hp : zlen (cell_data cell) = 184) by (unfold cell_data, TS_SZ in *; rewrite zlen_zdrop; lia).
  destruct (at_copy _ _ _ Hi) as (H0 & H1 & _). unfold TS_SZ in *. split; [|done]. split_and!; cbn [ts from_where ts_remain]; [|lia..].
  apply (at_drop _ (ts s) (ztake 4 cell)); [unfold cell_data; by rewrite ztake_zdrop|]. rewrite zlen_ztake; lia.
Qed.

Lemma check_cell_run s n cell : cell_at s cell ->
  check_cell buf s n = if cell_good cell then Some (Next (UleLoop (ts s) (ts s + 4) 184 true) n)
    else again_cell s (set_priv (set_need_pusi true (reset_ule (priv (drop_sndu n)))) (drop_sndu n)).
Proof.
  intros Hc. pose proof Hc as [_ _ Hn]. unfold check_cell. rewrite Hn. cbn [negb].
  rewrite (cell_get s cell 0 (ts s)), (cell_get s cell 1 (ts s + 1)), (cell_get s cell 3 (ts s + 3)) by (done || lia). cbn [mbind option_bind].
  unfold cell_good. destruct (cell.[0] =? TS_SYNC), (Z.land cell.[1] TS_TEI =? 0), (Z.land cell.[3] TS_SC =? 0); done.
Qed.

(** A damaged cell. *)
Lemma damaged_run s n cc p cell : cell_at s cell -> cell_good cell = false -> receives (priv n) cc p ->
  runs 1 s n (ts s + TS_SZ) cc None [].
Proof.
  intros Hc Hg Hr. destruct (at_copy _ _ _ (cell_in _ _ Hc)) as (H0 & H1 & _). rewrite (cell_len _ _ Hc) in H1. unfold TS_SZ in H1.
  apply (runs_step 0 _ _ (UleLoop (ts s + TS_SZ) (from_where s) (ts_remain s) (new_ts s))
    (set_priv (count_ts (set_need_pusi true (reset_ule (priv n)))) (drop_sndu n)) _ _ _ [] []); [lia| |by rewrite app_nil_r|].
  - unfold ule_body. rewrite (check_cell_run s n cell), Hg by done. done.
  - apply runs_now; try done. apply Hc.
Qed.

(** A cell is missing: the same cell again, not synchronised. *)
Lemma lost_run s n cc sk cell : cell_at s cell -> cell_good cell = true -> cell_cc cell <> cc -> receives (priv n) cc (Some sk) ->
  exists s' n', ule_body cfg buf s n = Some (Again s' n') /\ cell_at s' cell /\ ts s' = ts s /\ receives (priv n') cc None /\ frames n' = frames n.
Proof.
  intros Hc Hg Hne Hr. destruct sk as [sn k]. destruct Hr as (Hnp & Hcc & Hm).
  exists (UleLoop (ts s) (ts s + 4) 184 true), (set_priv (set_need_pusi true (reset_ule (priv n))) (drop_sndu n)).
  split; [|split; [destruct Hc as [? ? ?]; by split|split; [done|split; [split; [done|by split]|done]]]].
  unfold ule_body. rewrite (check_cell_run s n cell), Hg by done. cbn [then_]. unfold sync_pusi. rewrite Hnp. cbn [negb then_].
  unfold check_continuity. cbn [new_ts negb ts]. rewrite (cell_get s cell 3 (ts s + 3)) by (done || lia). cbn [mbind option_bind].
  fold (cell_cc cell). rewrite Hcc, (proj2 (Z.eqb_neq _ _)) by done. done.
Qed.

(** No synchronisation in the cell. *)
Lemma idle_run s n cc cell : cell_at s cell -> cell_good cell = true -> cell_pusi cell = false -> receives (priv n) cc None ->
  runs 1 s n (ts s + TS_SZ) cc None [].
Proof.
  intros Hc Hg Hp [Hnp Hf]. destruct (at_copy _ _ _ (cell_in _ _ Hc)) as (H0 & H1 & _). rewrite (cell_len _ _ Hc) in H1. unfold TS_SZ in H1.
  apply (runs_step 0 _ _ (UleLoop (ts s + TS_SZ) (ts s + 4) 184 true) (set_priv (count_ts (priv n)) n) _ _ _ [] []); [lia| |by rewrite app_nil_r|].
  - unfold ule_body. rewrite (check_cell_run s n cell), Hg by done. cbn [then_]. unfold sync_pusi. rewrite Hnp. cbn [negb ts].
    rewrite (cell_get s cell 1 (ts s + 1)) by (done || lia). cbn [mbind option_bind]. fold (cell_pusi cell). rewrite Hp. done.
  - apply runs_now; try done. split; [done|]. destruct Hf. by split.
Qed.

(** The cell the receiver synchronises on. *)
Lemma sync_run s n cc cell lost sn area ss p' :
  cell_at s cell -> cell_good cell = true -> cell_pusi cell = true ->
  cell_data cell = zlen lost :: lost ++ word (sndu_length_field sn) ++ area -> sndu_ok sn -> packs (Some (sn, 2)) area ss p' ->
  receives (priv n) cc None ->
  runs 185 s n (ts s + TS_SZ) (next_cc (cell_cc cell)) p' (concat (map (sndu_frames cfg) ss)).
Proof.
  intros Hc Hg Hp Hpay Hok Hpk [Hnp Hf]. destruct (cell_payload s cell Hc) as (Hat & Hz). rewrite Hpay in Hat, Hz.
  rewrite zlen_cons, !zlen_app in Hz. change (zlen (word (sndu_length_field sn))) with 2 in Hz.
  pose proof (zlen_nonneg lost). pose proof (zlen_nonneg area). destruct Hat as (Ha & Hr & Hlt & Hts). cbn [from_where ts_remain ts] in *.
  pose proof (at_get _ _ _ 0 (ts s + 4) Ha ltac:(lia) ltac:(lia)) as Hb4.
  change ((zlen lost :: lost ++ word (sndu_length_field sn) ++ area).[0]) with (zlen lost) in Hb4.
  set (n1 := set_priv (set_need_pusi false (set_tscc (next_cc (cell_cc cell)) (priv n))) n).
  set (s1 := UleLoop (ts s) (ts s + 5 + zlen lost) (u8 (184 - (1 + zlen lost))) true).
  assert (Hat1 : loop_at s1 (word (sndu_length_field sn) ++ area)).
  { split; [|cbn [s1 ts from_where ts_remain]; rewrite zlen_app; change (zlen (word (sndu_length_field sn))) with 2].
    - apply (at_drop _ (ts s + 4) (zlen lost :: lost)); [done|]. cbn [s1 from_where]. rewrite zlen_cons. lia.
    - rewrite u8_small by lia. split_and!; lia. }
  assert (Hf1 : fresh (priv n1)) by (destruct Hf; by split).
  destruct (start_fresh s1 n1 sn area Hf1 Hok Hat1) as (s2 & n2 & E2 & Hm2 & Hs2 & Hat2 & Ht2 & Hp2 & Hc2 & Hf2).
  destruct (packs_run _ _ _ _ Hpk s2 n2 (next_cc (cell_cc cell)) Hm2 Hat2) as (s3 & n3 & fr1 & fr2 & E3 & Hf3 & Hout & Hr3); [lia|by rewrite Hp2|by rewrite Hc2|].
  rewrite <- Hout. apply (runs_weaken (1 + zlen area)); [lia|]. apply (runs_step _ _ _ s3 n3); [done| |by rewrite Hf3, Hf2|by rewrite Ht2 in Hr3].
  unfold ule_body. rewrite (check_cell_run s n cell), Hg by done. cbn [then_]. unfold sync_pusi. rewrite Hnp. cbn [negb ts ts_remain new_ts].
  rewrite (cell_get s cell 1 (ts s + 1)), (cell_get s cell 3 (ts s + 3)) by (done || lia). cbn [mbind option_bind]. fold (cell_pusi cell). rewrite Hp, Hb4. cbn [mbind option_bind].
  rewrite (proj2 (Z.ltb_ge 184 (zlen lost))) by lia. cbn [then_]. fold s1 (cell_cc cell).
  unfold check_continuity. cbn [new_ts s1 negb ts priv set_priv set_tscc tscc need_pusi].
  rewrite (cell_get s cell 3 (ts s + 3)), (cell_get s cell 1 (ts s + 1)) by (done || lia). cbn [mbind option_bind]. fold (cell_cc cell). rewrite Z.eqb_refl. cbn [negb].
  fold (next_cc (cell_cc cell)).
  assert (Hp' : (Z.land cell.[1] TS_PUSI =? 0) = false) by (unfold cell_pusi in Hp; by destruct (Z.land cell.[1] TS_PUSI =? 0)).
  rewrite Hp'. cbn [negb then_ set_priv priv ule_sndu_remain set_need_pusi set_tscc]. rewrite Hnp. cbn [negb then_ ule_sndu_remain priv set_priv set_need_pusi set_tscc].
  pose proof Hf as [_ _ _ Hrem _]. rewrite Hrem. cbn [Z.ltb Z.compare then_].
  change (then_ (start_sndu cfg buf s1 n1) (fun s n => then_ (copy_sndu cfg buf s n) (next_sndu buf)) = Some (Again s3 n3)).
  rewrite E2. unfold resume in E3. rewrite Hs2, bool_decide_false in E3 by apply is_Some_None. exact E3.
Qed.

Lemma start_mid s n sn k :
  mid sn k (priv n) -> 2 <= ts_remain s ->
  then_ (start_sndu cfg buf s n) (fun s n => then_ (copy_sndu cfg buf s n) (next_sndu buf)) = resume s n.
Proof.
  intros [Hok Hk Hlen Hdb Hrem Hbr Hh] Hr. pose proof (sndu_length_pos sn Hok). unfold start_sndu, resume.
  destruct (bool_decide (is_Some (ule_skb (priv n)))); [done|]. rewrite (proj2 (Z.ltb_ge _ 2)) by done.
  unfold ule_length_field. rewrite Hlen, (proj2 (Z.eqb_neq _ 0)) by lia. done.
Qed.

(** A cell in which the pending SNDU goes on, when the position behind the header and the
    pointer field is known. *)
Lemma going_on_run s n cc cell sn k area ss p' s1 n1 :
  cell_at s cell -> check_cell buf s n = Some (Next (UleLoop (ts s) (ts s + 4) 184 true) n) -> need_pusi (priv n) = false ->
  check_continuity buf (UleLoop (ts s) (ts s + 4) 184 true) n = Some (Next s1 n1) ->
  loop_at s1 area -> 183 <= zlen area <= 184 -> ts s1 = ts s -> mid sn k (priv n1) -> need_pusi (priv n1) = false -> tscc (priv n1) = cc ->
  frames n1 = frames n -> packs (Some (sn, k)) area ss p' ->
  runs 185 s n (ts s + TS_SZ) cc p' (concat (map (sndu_frames cfg) ss)).
Proof.
  intros Hc Hcheck Hnp Hcont Hat Hz Hts Hm Hnp1 Hcc1 Hf1 Hpk.
  destruct (packs_run _ _ _ _ Hpk s1 n1 cc Hm Hat ltac:(lia) Hnp1 Hcc1) as (s3 & n3 & fr1 & fr2 & E3 & Hf3 & Hout & Hr3).
  rewrite <- Hout. apply (runs_weaken (1 + zlen area)); [lia|].
  apply (runs_step _ _ _ s3 n3); [destruct Hat as (_ & _ & _ & ?); congruence| |by rewrite Hf3, Hf1|by rewrite Hts in Hr3].
  unfold ule_body. rewrite Hcheck. cbn [then_]. unfold sync_pusi. rewrite Hnp. cbn [negb then_]. rewrite Hcont. cbn [then_].
  rewrite (start_mid s1 n1 sn k); [done|done|]. destruct Hat as (_ & -> & _). lia.
Qed.

Lemma next_run s n cc cell sn k ss p' :
  cell_at s cell -> cell_good cell = true -> cell_pusi cell = false -> cell_cc cell = cc ->
  packs (Some (sn, k)) (cell_data cell) ss p' -> receives (priv n) cc (Some (sn, k)) ->
  runs 185 s n (ts s + TS_SZ) (next_cc cc) p' (concat (map (sndu_frames cfg) ss)).
Proof.
  intros Hc Hg Hp Hcc Hpk (Hnp & Hcc' & Hm). destruct (cell_payload s cell Hc) as (Hat & Hz).
  apply (going_on_run s n _ cell sn k (cell_data cell) ss p' (UleLoop (ts s) (ts s + 4) 184 true)
    (set_priv (set_tscc (next_cc cc) (priv n)) n)); try done; [by rewrite (check_cell_run s n cell), Hg| |lia|by destruct Hm].
  unfold check_continuity. cbn [new_ts negb ts]. rewrite (cell_get s cell 3 (ts s + 3)), (cell_get s cell 1 (ts s + 1)) by (done || lia).
  cbn [mbind option_bind]. fold (cell_cc cell). rewrite Hcc, Hcc', Z.eqb_refl. cbn [negb].
  assert (Hp' : (Z.land cell.[1] TS_PUSI =? 0) = true) by (unfold cell_pusi in Hp; by destruct (Z.land cell.[1] TS_PUSI =? 0)).
  by rewrite Hp'.
Qed.

Lemma pointer_run s n cc cell sn k area ss p' :
  cell_at s cell -> cell_good cell = true -> cell_pusi cell = true -> cell_cc cell = cc ->
  cell_data cell = zlen (enc sn) - k :: area -> zlen (enc sn) - k <= 182 ->
  packs (Some (sn, k)) area ss p' -> receives (priv n) cc (Some (sn, k)) ->
  runs 185 s n (ts s + TS_SZ) (next_cc cc) p' (concat (map (sndu_frames cfg) ss)).
Proof.
  intros Hc Hg Hp Hcc Hpay Hptr Hpk (Hnp & Hcc' & Hm). destruct (cell_payload s cell Hc) as (Hat & Hz).
  rewrite Hpay in Hat, Hz. rewrite zlen_cons in Hz.
  assert (Hat' : loop_at (UleLoop (ts s) (ts s + 4 + 1) (u8 (184 - 1)) true) area).
  { exact (loop_at_drop (UleLoop (ts s) (ts s + 4) 184 true) [zlen (enc sn) - k] area Hat). }
  apply (going_on_run s n _ cell sn k area ss p' (UleLoop (ts s) (ts s + 4 + 1) (u8 (184 - 1)) true)
    (set_priv (set_tscc (next_cc cc) (priv n)) n)); try done; [by rewrite (check_cell_run s n cell), Hg| |lia|by destruct Hm].
  unfold check_continuity. cbn [new_ts negb ts]. rewrite (cell_get s cell 3 (ts s + 3)), (cell_get s cell 1 (ts s + 1)) by (done || lia).
  cbn [mbind option_bind]. fold (cell_cc cell). rewrite Hcc, Hcc', Z.eqb_refl. cbn [negb].
  assert (Hp' : (Z.land cell.[1] TS_PUSI =? 0) = false) by (unfold cell_pusi in Hp; by destruct (Z.land cell.[1] TS_PUSI =? 0)).
  rewrite Hp'. cbn [negb priv set_priv need_pusi set_tscc]. rewrite Hnp. cbn [negb]. unfold check_pointer. cbn [from_where ts_remain].
  destruct Hat as (Ha & _). cbn [from_where] in Ha. rewrite (at_get _ _ _ 0 (ts s + 4) Ha) by (rewrite ?zlen_cons; lia). cbn [mbind option_bind].
  change ((zlen (enc sn) - k :: area).[0]) with (zlen (enc sn) - k). pose proof Hm as [_ _ _ _ Hrem _ _].
  cbn [priv set_priv set_tscc ule_sndu_remain]. rewrite Hrem, Z.eqb_refl, (proj2 (Z.ltb_lt _ (184 - 1))) by lia. cbn [negb orb then_ priv set_priv set_tscc ule_sndu_remain ts new_ts].
  rewrite Hrem, (proj2 (Z.ltb_ge 183 _)) by lia. done.
Qed.

(** What the loop does with the cells from the position on. *)
Definition processes (cc : Z) (p : pending) (cells : list (list Z)) (ss : list sndu) (cc' : Z) (p' : pending) : Prop :=
  forall s n fuel, receives (priv n) cc p -> new_ts s = true -> at_ buf (ts s) (concat cells) -> ts s + zlen (concat cells) = zlen buf ->
  188 * zlen cells <= Z.of_nat fuel + (if p is Some _ then 0 else 1) ->
  exists n', ule_loop_run cfg buf fuel s n = Some n' /\ receives (priv n') cc' p' /\
    frames n' = frames n ++ concat (map (sndu_frames cfg) ss).

Lemma processes_cell cc p cell cells ss1 cc1 p1 ss2 cc' p' :
  zlen cell = TS_SZ ->
  (forall s n, cell_at s cell -> receives (priv n) cc p -> runs 185 s n (ts s + TS_SZ) cc1 p1 (concat (map (sndu_frames cfg) ss1))) ->
  processes cc1 p1 cells ss2 cc' p' -> processes cc p (cell :: cells) (ss1 ++ ss2) cc' p'.
Proof.
  intros Hz Hcell IH s n fuel Hr Hn Hat Hend Hfuel. cbn [concat] in *. rewrite zlen_cons in Hfuel. rewrite zlen_app in Hend.
  pose proof (zlen_nonneg cells).
  destruct (Hcell s n) as (k & s1 & n1 & Hk & Hrun & Hts & Hn1 & Hr1 & Hf1); [split; [by eapply at_take|done..]|done|].
  destruct (IH s1 n1 (fuel - k)%nat Hr1 Hn1) as (n' & E & Hr' & Hf').
  - rewrite Hts. apply (at_drop _ (ts s) cell); [done|lia].
  - lia.
  - destruct p, p1; lia.
  - exists n'. split_and!; [|done|by rewrite Hf', Hf1, map_app, concat_app, app_assoc].
    rewrite <- E, <- Hrun. f_equal. destruct p; lia.
Qed.

Lemma arrives_run cc p cells ss cc' p' : arrives cc p cells ss cc' p' -> processes cc p cells ss cc' p'.
Proof.
  induction 1 as [cc p|cc p cell cells ss cc' p' Hz Hg _ IH|cc sk cell cells ss cc' p' Hz Hg Hne _ IH
    |cc cell cells ss cc' p' Hz Hg Hpu _ IH|cc cell cells lost sn area ss1 p1 ss2 cc' p' Hz Hg Hpu Hpay Hok Hpk _ IH
    |cc [sn k] cell cells ss1 p1 ss2 cc' p' Hz Hg Hpu Hcc Hpk _ IH|cc sn k area cell cells ss1 p1 ss2 cc' p' Hz Hg Hpu Hcc Hpay Hptr Hpk _ IH].
  - intros s n fuel Hr Hn Hat Hend Hfuel. exists n. split; [|split; [done|by rewrite app_nil_r]].
    assert (E : (ts s <? zlen buf) = false) by (apply Z.ltb_ge; change (zlen (concat [])) with 0 in Hend; lia).
    destruct fuel; cbn [ule_loop_run]; by rewrite E.
  - apply (processes_cell _ _ _ _ [] cc None ss); [done| |done]. intros s n Hc Hr.
    apply (runs_weaken 1); [lia|]. by apply (damaged_run s n cc p cell).
  - intros s n fuel Hr Hn Hat Hend Hfuel.
    assert (Hc : cell_at s cell) by (split; [by eapply at_take|done..]).
    destruct (lost_run s n cc sk cell Hc Hg Hne Hr) as (s1 & n1 & E1 & Hc1 & Ht1 & Hr1 & Hf1).
    rewrite zlen_cons in Hfuel. pose proof (zlen_nonneg cells). destruct fuel as [|fuel]; [lia|].
    destruct (IH s1 n1 fuel Hr1) as (n' & E & Hr' & Hf'); [by destruct Hc1|by rewrite Ht1|by rewrite Ht1|rewrite zlen_cons; lia|].
    exists n'. split; [|split; [done|by rewrite Hf', Hf1]]. cbn [ule_loop_run].
    destruct (at_copy _ _ _ (cell_in _ _ Hc)) as (H0 & H1 & _). rewrite Hz in H1. unfold TS_SZ in H1.
    rewrite (proj2 (Z.ltb_lt _ _)) by lia. rewrite E1. exact E.
  - apply (processes_cell _ _ _ _ [] cc None ss); [done| |done]. intros s n Hc Hr.
    apply (runs_weaken 1); [lia|]. by apply (idle_run s n cc cell).
  - eapply processes_cell; [done| |exact IH]. intros s n Hc Hr. by apply (sync_run s n cc cell lost sn area).
  - eapply processes_cell; [done| |exact IH]. intros s n Hc Hr. by apply (next_run s n cc cell sn k).
  - eapply processes_cell; [done| |exact IH]. intros s n Hc Hr. by apply (pointer_run s n cc cell sn k area).
Qed.
End cells.

(** ** The whole reception *)

Lemma arrives_zlen cfg cc p cells ss cc' p' : arrives cfg cc p cells ss cc' p' -> zlen (concat cells) = 188 * zlen cells.
Proof.
  induction 1; [done|..]; unfold TS_SZ in *; cbn [concat] in *; rewrite ?zlen_app, ?zlen_cons in *; lia.
Qed.

(** A part of the cells, and the rest. *)
Lemma arrives_app cfg cc p cells ss cc' p' : arrives cfg cc p cells ss cc' p' ->
  forall c1 c2, cells = c1 ++ c2 -> exists ss1 cc1 p1 ss2,
    ss = ss1 ++ ss2 /\ arrives cfg cc p c1 ss1 cc1 p1 /\ arrives cfg cc1 p1 c2 ss2 cc' p'.
Proof.
  induction 1; intros [|c1' c1] c2 E;
    try (simpl in E; subst; eexists [], _, _, _; split_and!; [reflexivity|constructor|by econstructor]);
    cbn [app] in E; simplify_eq.
  2: destruct (IHarrives (c1' :: c1) c2 eq_refl) as (s1 & cc1 & q1 & s2 & -> & Ha1 & Ha2);
    eexists s1, _, _, s2; split_and!; [reflexivity|by apply arrives_lost|done].
  all: destruct (IHarrives c1 c2 eq_refl) as (s1 & cc1 & q1 & s2 & -> & Ha1 & Ha2).
  1, 2: by eexists s1, _, _, s2; split_and!; [reflexivity| |exact Ha2]; constructor.
  all: eexists (ss1 ++ s1), _, _, s2; split_and!; [by rewrite app_assoc| |exact Ha2].
  - by eapply arrives_sync.
  - by eapply arrives_next.
  - by eapply arrives_pointer.
Qed.

(** The calls of the demultiplexer, each with some cells. *)
Definition ule_calls (cfg : net_config) (groups : list (list (list Z))) (n : net) : option net :=
  foldl (fun n cells => n ≫= dvb_net_ts_callback cfg (concat cells) []) (Some n) groups.

Lemma dvb_net_ule_run cfg n cc p cells ss cc' p' :
  (forall k size, 0 <= size -> exists mem, dev_alloc_skb cfg k size = Some mem /\ zlen mem = size) ->
  (forall c l, 0 <= c < 2 ^ 32 -> bytes l -> 0 <= crc32_be cfg c l < 2 ^ 32) ->
  receives cfg (priv n) cc p -> arrives cfg cc p cells ss cc' p' ->
  exists n', dvb_net_ule cfg (concat cells) n = Some n' /\ receives cfg (priv n') cc' p' /\
    frames n' = frames n ++ concat (map (sndu_frames cfg) ss).
Proof.
  intros Halloc Hcrc Hr Ha. pose proof (arrives_zlen _ _ _ _ _ _ _ Ha) as Hz. unfold dvb_net_ule.
  apply (arrives_run cfg Halloc Hcrc (concat cells) cc p cells ss cc' p' Ha); cbn [ts new_ts]; try done.
  - exists [], []. by rewrite app_nil_r.
  - unfold zlen in Hz. destruct p; unfold zlen; lia.
Qed.

(** C14: as long as memory can be had, whatever SNDUs of [sndu_ok] the cells of a PID carry - of an
    Ethertype, with or without address and with optional extension headers of types below 255; bridged
    frames without address and with an Ethertype; and test SNDUs and those with a mandatory header below
    255 that has no handler, which are dropped; none with an empty PDU -, cut by cells anywhere, packed
    behind one another, with cells damaged or lost in between as the continuity counter shows, and however
    the cells are grouped into calls of [dvb_net_ts_callback], the decoder hands on exactly the frames of
    the SNDUs that came in whole, in order and once, and is ready for what follows. *)
Theorem dvb_net_ule_correct cfg n cc p groups ss cc' p' :
  (forall k size, 0 <= size -> exists mem, dev_alloc_skb cfg k size = Some mem /\ zlen mem = size) ->
  (forall c l, 0 <= c < 2 ^ 32 -> bytes l -> 0 <= crc32_be cfg c l < 2 ^ 32) ->
  receives cfg (priv n) cc p -> arrives cfg cc p (concat groups) ss cc' p' ->
  exists n', ule_calls cfg groups n = Some n' /\ receives cfg (priv n') cc' p' /\
    frames n' = frames n ++ concat (map (sndu_frames cfg) ss).
Proof.
  intros Halloc Hcrc. revert n cc p ss. induction groups as [|cells groups IH]; intros n cc p ss Hr Ha.
  - exists n. inversion Ha; subst. rewrite app_nil_r. done.
  - destruct (arrives_app _ _ _ _ _ _ _ Ha cells (concat groups) eq_refl) as (ss1 & cc1 & p1 & ss2 & -> & H1 & H2).
    destruct (dvb_net_ule_run cfg n cc p cells ss1 cc1 p1 Halloc Hcrc Hr H1) as (n1 & E1 & Hr1 & Hf1).
    destruct (IH n1 cc1 p1 ss2 Hr1 H2) as (n2 & E2 & Hr2 & Hf2). exists n2.
    split; [|split; [done|by rewrite Hf2, Hf1, map_app, concat_app, app_assoc]].
    unfold ule_calls in *. cbn [foldl mbind option_bind]. unfold dvb_net_ts_callback at 2. rewrite E1. exact E2.
Qed.

(** Two SNDUs in two cells: the first is cut by the end of its cell, the second, an Ethernet
    frame behind an extension header, begins behind it and is followed by padding. *)
Definition sample_config : net_config :=
  NetConfig RX_MODE_UNI [] [2; 0; 0; 0; 0; 1] (replicate 6 0xff) (fun _ size => Some (replicate (Z.to_nat size) 0)) crc32.
Definition sample_1 : sndu := Sndu (Some [2; 0; 0; 0; 0; 1]) [] 0x0800 (replicate 200 0x45).
Definition sample_2 : sndu :=
  Sndu None [UleExt 2 7 [1; 2]] ULE_TYPE_BRIDGED ([2; 0; 0; 0; 0; 9] ++ [2; 0; 0; 0; 0; 8] ++ [0x86; 0xdd] ++ [1; 2; 3]).
Definition sample_cells : list (list Z) :=
  let e1 := encode_sndu crc32 sample_1 in let e2 := encode_sndu crc32 sample_2 in
  let area := zdrop 183 e1 ++ e2 in
  [[0x47; 0x40; 0x21; 0x1f] ++ 0 :: ztake 183 e1;
   [0x47; 0x40; 0x21; 0x10] ++ (zlen e1 - 183) :: area ++ replicate (Z.to_nat (183 - zlen area)) 0xff].
Definition net_start : net :=
  Net (NetPriv true 0 None 0 0 0 false 0xFF false 0 0) (Stats 0 0 0 0 0 0 0) [] 0.

Lemma sample_ok : sndu_ok sample_1 /\ sndu_ok sample_2.
Proof.
  split; (split; [try split; try done; by apply (bool_decide_unpack _)|]).
  - split; [constructor|]. split; [by apply (bool_decide_unpack _)|]. split; [done|]. split; [left; done|]. done.
  - split; [repeat constructor; by apply (bool_decide_unpack _)|]. split; [by apply (bool_decide_unpack _)|]. split; [done|]. split; [right; right; done|]. done.
Qed.

Lemma sample_alloc k size : 0 <= size -> exists mem, dev_alloc_skb sample_config k size = Some mem /\ zlen mem = size.
Proof. intros Hs. eexists. split; [reflexivity|]. unfold zlen. rewrite length_replicate. lia. Qed.

Definition sample_cell (i : nat) : list Z := nth i sample_cells [].
Lemma sample_arrives : arrives sample_config 15 None [sample_cell 0; sample_cell 1] [sample_1; sample_2] 1 None.
Proof.
  destruct sample_ok as [H1 H2].
  refine (arrives_sync sample_config 15 (sample_cell 0) [sample_cell 1] [] sample_1 (ztake 181 (zdrop 2 (encode_sndu crc32 sample_1))) []
    (Some (sample_1, 2 + zlen (ztake 181 (zdrop 2 (encode_sndu crc32 sample_1))))) [sample_1; sample_2] 1 None _ _ _ _ H1 _ _); [vm_compute; reflexivity..| |].
  - apply packs_split; vm_compute; reflexivity.
  - replace (2 + zlen (ztake 181 (zdrop 2 (encode_sndu crc32 sample_1)))) with 183 by (vm_compute; reflexivity).
    refine (arrives_pointer sample_config _ sample_1 183
      (zdrop 183 (encode_sndu crc32 sample_1) ++ word (sndu_length_field sample_2) ++ zdrop 2 (encode_sndu crc32 sample_2) ++ replicate 123 0xff) (sample_cell 1) []
      [sample_1; sample_2] None [] 1 None _ _ _ _ _ _ _ _); [vm_compute; reflexivity..| | |].
    + vm_compute. discriminate.
    + apply packs_end, packs_start; [exact H2|]. apply packs_end, packs_padding. right. reflexivity.
    + apply arrives_nil.
Qed.

Definition sample_frames : list net_frame := Eval vm_compute in concat (map (sndu_frames sample_config) [sample_1; sample_2]).
Lemma dvb_net_ule_correct_witness :
  exists n', ule_calls sample_config [[sample_cell 0]; [sample_cell 1]] net_start = Some n' /\
    receives sample_config (priv n') 1 None /\ frames n' = sample_frames.
Proof.
  exact (dvb_net_ule_correct sample_config net_start 15 None [[sample_cell 0]; [sample_cell 1]] [sample_1; sample_2] 1 None
    sample_alloc crc32_range (conj eq_refl (Build_fresh (priv net_start) eq_refl eq_refl eq_refl eq_refl eq_refl)) sample_arrives).
Defined.
