(* ===== verification/DvbNetMpe.v ===== *)
(** * DvbNetMpe: multiprotocol encapsulation

    The datagram sections of EN 301 192 and the frames [dvb_net_sec] makes of them; its
    accesses stay within the section whatever the section holds.  Then what the ULE decoder
    does with input the standard does not allow. *)

From S2P Require Import Prelude Crc32 DvbNet DvbNetUle DvbNetCells.

(** ** Datagram sections *)

(** A datagram: its destination, an LLC/SNAP header of six bytes with the protocol behind it
    or none, and the data. *)
Record mpe := Mpe { mpe_mac : list Z; mpe_snap : option (list Z * Z); mpe_data : list Z }.

Definition LLC_SNAP : list Z := [0xaa; 0xaa; 0x03; 0; 0; 0].
Definition mpe_payload (s : mpe) : list Z :=
  (if mpe_snap s is Some (llc, proto) then llc ++ word proto else []) ++ mpe_data s.

(** The header of the section, with the address in two parts and in reverse, and flags of
    which only those of LLC/SNAP and of scrambling matter. *)
Definition mpe_header (len1 len2 flags number last : Z) (s : mpe) : list Z :=
  [0x3e; len1; len2; (mpe_mac s).[5]; (mpe_mac s).[4]; flags; number; last;
   (mpe_mac s).[3]; (mpe_mac s).[2]; (mpe_mac s).[1]; (mpe_mac s).[0]].
Definition mpe_section (len1 len2 flags number last : Z) (s : mpe) (crc : list Z) : list Z :=
  mpe_header len1 len2 flags number last s ++ mpe_payload s ++ crc.

Definition mpe_proto (s : mpe) : Z :=
  match mpe_snap s with
  | Some (_, proto) => proto
  | None => if Z.shiftr (mpe_data s).[0] 4 =? 6 then 0x86dd else 0x0800
  end.

(** The flag of LLC/SNAP tells of the header; a protocol that is no Ethertype has two bytes of
    data behind it, which the kernel looks at. *)
Definition mpe_ok (flags : Z) (s : mpe) : Prop :=
  zlen (mpe_mac s) = 6 /\ 0 < zlen (mpe_data s) /\
  Z.land flags 0x02 = (if mpe_snap s is Some _ then 2 else 0) /\
  (if mpe_snap s is Some (llc, proto)
   then zlen llc = 6 /\ 0 <= proto < 65536 /\ (1536 <= proto \/ 2 <= zlen (mpe_data s)) else True).

Definition mpe_frame (s : mpe) : list Z := mpe_mac s ++ replicate 6 0 ++ word (mpe_proto s) ++ mpe_data s.
(** What becomes of a section: the reason for which it is dropped, or the frame. *)
Definition mpe_result (cfg : net_config) (flags last : Z) (s : mpe) (n : net) : net :=
  if negb (Z.land flags 0x3c =? 0) then set_stats rx_crc_error n
  else if (if mpe_snap s is Some (llc, _) then negb (bool_decide (llc = LLC_SNAP)) else false) then set_stats rx_drop n
  else if negb (last =? 0) then set_stats rx_frame_error n
  else match dev_alloc_skb cfg (allocs n) (16 + zlen (mpe_data s)) with
       | None => Net (priv n) (rx_drop (stats n)) (frames n) (S (allocs n))
       | Some _ => Net (priv n) (rx_packet (zlen (mpe_data s)) (stats n))
           (frames n ++ [NetFrame (mpe_frame s) (frame_protocol (mpe_frame s)) (dest_type cfg (mpe_mac s))]) (S (allocs n))
       end.

Lemma mac_bytes mac : zlen mac = 6 -> [mac.[0]; mac.[1]; mac.[2]; mac.[3]; mac.[4]; mac.[5]] = mac.
Proof.
  unfold zlen. intros H. do 6 (destruct mac as [|? mac]; [simpl in H; lia|]). destruct mac; [done|simpl in H; lia].
Qed.

(** The frame of an Ethernet header and data behind it. *)
Lemma mpe_frame_fields s : zlen (mpe_mac s) = 6 -> 0 <= mpe_proto s < 65536 ->
  zlen (mpe_frame s) = 14 + zlen (mpe_data s) /\ be_pair (ztake 2 (zdrop 12 (mpe_frame s))) = mpe_proto s /\ ztake 6 (mpe_frame s) = mpe_mac s.
Proof.
  intros Hz Hp. unfold mpe_frame. split; [rewrite !zlen_app, Hz; change (zlen (replicate 6 0)) with 6; change (zlen (word (mpe_proto s))) with 2; lia|].
  split; [|by rewrite ztake_app]. rewrite (app_assoc (mpe_mac s)), zdrop_app by (rewrite zlen_app, Hz; done).
  rewrite ztake_app by done. by apply be_pair_word.
Qed.

(** A buffer of the right size holds the frame. *)
Lemma skb_frame mem frame : zlen mem = 2 + zlen frame ->
  exists skb, skb_put frame (skb_reserve 2 (SkBuff mem 0 0)) = Some skb /\ skb_holds skb 2 frame 0.
Proof.
  intros Hz. pose proof (zlen_nonneg frame).
  destruct (skb_put_run (skb_reserve 2 (SkBuff mem 0 0)) 2 [] (zlen frame) frame) as (skb & E & Hsk); [|lia|].
  - split; [done|]. split; [done|]. exists (ztake 2 mem), (zdrop 2 mem). split; [by rewrite app_nil_l, ztake_zdrop|].
    split; [apply zlen_ztake; lia|rewrite zlen_zdrop; lia].
  - exists skb. split; [done|]. by rewrite Z.sub_diag in Hsk.
Qed.

Section datagram.
Context (len1 len2 flags number last : Z) (s : mpe) (crc : list Z) (Hok : mpe_ok flags s) (Hcrc : zlen crc = 4).
Local Abbreviation pkt := (mpe_section len1 len2 flags number last s crc).
Local Abbreviation head := (mpe_header len1 len2 flags number last s).
Definition snap_len : Z := if mpe_snap s is Some _ then 8 else 0.

Lemma mpe_section_len : zlen pkt = 16 + snap_len + zlen (mpe_data s).
Proof.
  destruct Hok as (_ & _ & _ & Hs). unfold mpe_section, mpe_payload, snap_len. rewrite !zlen_app, Hcrc. change (zlen head) with 12.
  destruct (mpe_snap s) as [[llc proto]|]; [|change (zlen []) with 0; lia].
  destruct Hs as [Hs _]. rewrite zlen_app, Hs. change (zlen (word _)) with 2. lia.
Qed.
Lemma mpe_section_head j : 0 <= j < 12 -> zget pkt j = Some head.[j].
Proof.
  intros Hj. destruct Hok as (_ & Hd & _). rewrite zget_in by (rewrite mpe_section_len; unfold snap_len; destruct (mpe_snap s); lia).
  f_equal. unfold mpe_section. rewrite zat_app, decide_True by (change (zlen head) with 12; lia). done.
Qed.
Lemma mpe_section_data : zdrop (12 + snap_len) pkt = mpe_data s ++ crc.
Proof.
  destruct Hok as (_ & _ & _ & Hs). unfold mpe_section, mpe_payload, snap_len. destruct (mpe_snap s) as [[llc proto]|]; [|by apply zdrop_app].
  rewrite <- !app_assoc, (app_assoc head), (app_assoc (head ++ llc)). apply zdrop_app.
  destruct Hs as [Hs _]. rewrite !zlen_app, Hs. done.
Qed.
Lemma mpe_section_snap llc proto : mpe_snap s = Some (llc, proto) ->
  ztake 6 (zdrop 12 pkt) = llc /\ zget pkt 18 = Some (proto / 256) /\ zget pkt 19 = Some (proto mod 256).
Proof.
  intros Es. destruct Hok as (_ & Hd & _ & Hs). rewrite Es in Hs. destruct Hs as [Hs _].
  unfold mpe_section, mpe_payload. rewrite Es, <- !app_assoc. split.
  - rewrite zdrop_app by done. by apply ztake_app.
  - rewrite (app_assoc head llc).
    assert (Hat : at_ ((head ++ llc) ++ word proto ++ mpe_data s ++ crc) 18 (word proto)).
    { exists (head ++ llc), (mpe_data s ++ crc). split; [done|]. rewrite zlen_app, Hs. done. }
    rewrite (at_get _ _ _ 0 18 Hat), (at_get _ _ _ 1 19 Hat) by done. done.
Qed.
Lemma mpe_section_version : mpe_snap s = None -> zget pkt 12 = Some (mpe_data s).[0].
Proof.
  intros Es. destruct Hok as (_ & Hd & _). unfold mpe_section, mpe_payload. rewrite Es, app_nil_l.
  apply (at_get _ 12 (mpe_data s) 0); [|lia|done]. by exists head, crc.
Qed.
Lemma mpe_proto_range : 0 <= mpe_proto s < 65536 /\ (1536 <= mpe_proto s \/ 2 <= zlen (mpe_data s)).
Proof.
  destruct Hok as (_ & _ & _ & Hs). unfold mpe_proto. destruct (mpe_snap s) as [[llc proto]|]; [split; apply Hs|].
  case_match; lia.
Qed.

(** The frame, when the protocol is known. *)
Lemma mpe_build cfg n mem : zlen mem = 16 + zlen (mpe_data s) ->
  (skb ← skb_put ([head.[11]; head.[10]; head.[9]; head.[8]; head.[4]; head.[3]] ++ replicate 6 0 ++ word (mpe_proto s) ++
      ztake (zlen pkt - 12 - 4 - snap_len) (zdrop (12 + snap_len) pkt)) (skb_reserve 2 (SkBuff mem 0 0));
   netif_rx cfg skb n) =
  Some (Net (priv n) (rx_packet (zlen (mpe_data s)) (stats n))
    (frames n ++ [NetFrame (mpe_frame s) (frame_protocol (mpe_frame s)) (dest_type cfg (mpe_mac s))]) (allocs n)).
Proof.
  intros Hmem. destruct mpe_proto_range as [Hp Hp2]. pose proof Hok as (Hmac & Hd & _).
  rewrite mpe_section_data, mpe_section_len, ztake_app by lia.
  change [head.[11]; head.[10]; head.[9]; head.[8]; head.[4]; head.[3]] with
    [(mpe_mac s).[0]; (mpe_mac s).[1]; (mpe_mac s).[2]; (mpe_mac s).[3]; (mpe_mac s).[4]; (mpe_mac s).[5]].
  rewrite (mac_bytes _ Hmac). fold (mpe_frame s).
  destruct (mpe_frame_fields s Hmac Hp) as (Hf1 & Hf2 & Hf3).
  destruct (skb_frame mem (mpe_frame s) ltac:(lia)) as (skb & -> & Hsk). cbn [mbind option_bind].
  rewrite (netif_rx_any cfg skb 2 (mpe_frame s) 0) by (rewrite ?Hf2; done || lia). rewrite Hf3, Hf1.
  by replace (14 + zlen (mpe_data s) - 14) with (zlen (mpe_data s)) by lia.
Qed.
End datagram.

(** C15: What [dvb_net_sec] does with the section of a datagram of at least one byte, with or without an
    LLC/SNAP header (and of at least two bytes behind a SNAP header whose protocol is no Ethertype), when the memory it gets has the size it asked for: a scrambled one is counted as a CRC error; one with another header
    than that of LLC/SNAP is dropped; one that is not the last of its datagram, by the number of the last section,
    is counted as a frame error; one for which there is no memory is dropped; and of any
    other one the stack gets the datagram behind an Ethernet header with the address of the
    section, reassembled from its two parts, no source, and the protocol of the SNAP header or of
    the IP version, and it is counted.  Nothing else changes. *)
Theorem dvb_net_sec_correct cfg n len1 len2 flags number last s crc :
  mpe_ok flags s -> zlen crc = 4 ->
  (forall k size mem, 0 <= size -> dev_alloc_skb cfg k size = Some mem -> zlen mem = size) ->
  dvb_net_sec cfg (mpe_section len1 len2 flags number last s crc) n = Some (mpe_result cfg flags last s n).
Proof.
  intros Hok Hcrc Halloc. pose proof Hok as (Hmac & Hdata & Hllc & Hsnap).
  pose proof (mpe_section_head len1 len2 flags number last s crc Hok Hcrc) as Hget.
  pose proof (mpe_section_len len1 len2 flags number last s crc Hok Hcrc) as Hz.
  pose proof (mpe_build len1 len2 flags number last s crc Hok Hcrc cfg (Net (priv n) (stats n) (frames n) (S (allocs n)))) as Hbuild.
  unfold mpe_proto in Hbuild. unfold snap_len in *. unfold dvb_net_sec, mpe_result. rewrite (proj2 (Z.ltb_ge (zlen _) 16)) by (destruct (mpe_snap s); lia).
  rewrite (Hget 5), (Hget 7), (Hget 3), (Hget 4), (Hget 8), (Hget 9), (Hget 10), (Hget 11) by lia.
  cbn [mbind option_bind]. change ((mpe_header len1 len2 flags number last s).[5]) with flags. change ((mpe_header len1 len2 flags number last s).[7]) with last.
  destruct (negb (Z.land flags 0x3c =? 0)); [done|]. rewrite Hllc. destruct (mpe_snap s) as [[llc proto]|] eqn:Es.
  - change (negb (2 =? 0)) with true. cbv iota. rewrite (proj2 (Z.ltb_ge (zlen _) 24)) by lia.
    destruct (mpe_section_snap len1 len2 flags number last s crc Hok llc proto Es) as (-> & -> & ->). cbn [orb andb]. fold LLC_SNAP.
    destruct (negb (bool_decide (llc = LLC_SNAP))); [done|]. destruct (negb (last =? 0)); [done|]. cbn [allocs pred priv stats frames].
    rewrite Hz at 1. replace (16 + 8 + zlen (mpe_data s) - 4 - 12 + 14 + 2 - 8) with (16 + zlen (mpe_data s)) by lia.
    destruct (dev_alloc_skb cfg _ _) as [mem|] eqn:Emem; [|done]. apply Halloc in Emem; [|lia].
    cbn [mbind option_bind]. by apply Hbuild.
  - change (negb (0 =? 0)) with false. cbn [andb]. destruct (negb (last =? 0)); [done|]. cbn [allocs pred priv stats frames].
    rewrite (mpe_section_version len1 len2 flags number last s crc Hok Es).
    rewrite Hz at 1. replace (16 + 0 + zlen (mpe_data s) - 4 - 12 + 14 + 2 - 0) with (16 + zlen (mpe_data s)) by lia.
    destruct (dev_alloc_skb cfg _ _) as [mem|] eqn:Emem; [|done]. apply Halloc in Emem; [|lia].
    cbn [mbind option_bind]. destruct (Z.shiftr (mpe_data s).[0] 4 =? 6); by apply Hbuild.
Qed.

(** Room for the first bytes of the datagram behind a SNAP header. *)
Definition snap_room (pkt : list Z) : Prop := Z.land pkt.[5] 0x02 = 0 \/ 26 <= zlen pkt.

(** [dvb_net_sec] never reads outside of the section or writes outside of its buffer, whatever
    the section holds and however short it is, unless it has a SNAP header with less than two
    bytes behind it; it hands on one frame at most. *)
Theorem dvb_net_sec_safe cfg pkt n :
  (forall k size mem, 0 <= size -> dev_alloc_skb cfg k size = Some mem -> zlen mem = size) ->
  snap_room pkt ->
  exists n', dvb_net_sec cfg pkt n = Some n' /\ priv n' = priv n /\ (frames n' = frames n \/ exists f, frames n' = frames n ++ [f]).
Proof.
  intros Halloc Hsnap. unfold snap_room in Hsnap. unfold dvb_net_sec. destruct (zlen pkt <? 16) eqn:E16; [eexists; split; [reflexivity|split; [done|by left]]|].
  assert (Hget : forall j, 0 <= j < 16 -> zget pkt j = Some pkt.[j]) by (intros; apply zget_in; lia).
  rewrite (Hget 5) by lia. cbn [mbind option_bind]. destruct (negb (Z.land pkt.[5] 0x3c =? 0)); [eexists; split; [reflexivity|split; [done|by left]]|].
  set (llc := negb (Z.land pkt.[5] 0x02 =? 0)).
  destruct (llc && _) eqn:Ellc; [eexists; split; [reflexivity|split; [done|by left]]|].
  rewrite (Hget 7) by lia. cbn [mbind option_bind]. destruct (negb (pkt.[7] =? 0)); [eexists; split; [reflexivity|split; [done|by left]]|].
  set (snap := if llc then 8 else 0). cbn [allocs pred].
  destruct (dev_alloc_skb cfg (allocs n) _) as [mem|] eqn:Emem; [|eexists; split; [reflexivity|split; [done|by left]]].
  assert (Hl26 : llc = true -> 26 <= zlen pkt) by (unfold llc; destruct (Z.land pkt.[5] 2 =? 0) eqn:E; [done|]; intros _; lia).
  apply Halloc in Emem; [|unfold snap in *; destruct llc; [specialize (Hl26 eq_refl)|]; lia]. rewrite (Hget 3), (Hget 4), (Hget 8), (Hget 9), (Hget 10), (Hget 11) by lia. cbn [mbind option_bind].
  assert (Hpro : exists a b, (if llc then p0 ← zget pkt 18; p1 ← zget pkt 19; Some [p0; p1]
     else b12 ← zget pkt 12; Some (if Z.shiftr b12 4 =? 6 then [0x86; 0xdd] else [0x08; 0x00])) = Some [a; b] /\
     (1536 <= be_pair [a; b] \/ llc = true)).
  { destruct llc.
    - rewrite (zget_in pkt 18), (zget_in pkt 19) by (specialize (Hl26 eq_refl); lia). eexists _, _. split; [reflexivity|by right].
    - rewrite (Hget 12) by lia. cbn [mbind option_bind]. destruct (_ =? 6); eexists _, _; (split; [reflexivity|left; by vm_compute]). }
  destruct Hpro as (a & b & -> & Hab). cbn [mbind option_bind].
  assert (Hlen : 0 <= zlen pkt - 12 - 4 - snap) by (unfold snap; destruct llc; [specialize (Hl26 eq_refl)|]; lia).
  set (data := ztake (zlen pkt - 12 - 4 - snap) (zdrop (12 + snap) pkt)).
  assert (Hd : zlen data = zlen pkt - 16 - snap).
  { unfold data. rewrite zlen_ztake; [lia|]. rewrite zlen_zdrop; unfold snap in *; destruct llc; lia. }
  change ([pkt.[11]; pkt.[10]; pkt.[9]; pkt.[8]; pkt.[4]; pkt.[3]] ++ replicate 6 0 ++ [a; b] ++ data)
    with ([pkt.[11]; pkt.[10]; pkt.[9]; pkt.[8]; pkt.[4]; pkt.[3]; 0; 0; 0; 0; 0; 0; a; b] ++ data).
  set (frame := [pkt.[11]; pkt.[10]; pkt.[9]; pkt.[8]; pkt.[4]; pkt.[3]; 0; 0; 0; 0; 0; 0; a; b] ++ data).
  assert (Hf : zlen frame = 14 + zlen data) by (unfold frame; rewrite zlen_app; done).
  destruct (skb_frame mem frame ltac:(lia)) as (skb & -> & Hsk). cbn [mbind option_bind].
  rewrite (netif_rx_any cfg skb 2 frame 0 _ Hsk); [|pose proof (zlen_nonneg data); lia|].
  - eexists. split; [reflexivity|]. split; [done|]. right. by eexists.
  - destruct Hab as [?|El]; [by left|right]. specialize (Hl26 El). unfold snap in *. rewrite El in *. lia.
Qed.

(** ** Samples *)

Definition sample_mpe : mpe := Mpe [0x01; 0x00; 0x5e; 0x01; 0x02; 0x03] (Some (LLC_SNAP, 0x0806)) [1; 2; 3; 4].
Lemma sample_mem k size mem : 0 <= size -> dev_alloc_skb sample_config k size = Some mem -> zlen mem = size.
Proof. intros Hs H. injection H as <-. unfold zlen. rewrite length_replicate. lia. Qed.
Lemma dvb_net_sec_correct_witness :
  dvb_net_sec sample_config (mpe_section 0xb0 0x1d 0xc3 0 0 sample_mpe [9; 9; 9; 9]) net_start =
    Some (Net (priv net_start) (Stats 1 4 0 0 0 0 0)
      [NetFrame ([0x01; 0x00; 0x5e; 0x01; 0x02; 0x03] ++ replicate 6 0 ++ [0x08; 0x06; 1; 2; 3; 4]) 0x0806 PACKET_MULTICAST] 1).
Proof.
  refine (dvb_net_sec_correct sample_config net_start 0xb0 0x1d 0xc3 0 0 sample_mpe [9; 9; 9; 9] _ eq_refl sample_mem).
  split; [reflexivity|]. split; [reflexivity|]. split; [reflexivity|]. cbn. split; [done|]. lia.
Defined.

Definition short_mpe : list Z := [0x3e; 0xb0; 13; 6; 5; 0xc1; 0; 0; 4; 3; 2; 1; 9; 9; 9; 9].
Lemma dvb_net_sec_safe_witness :
  exists n', dvb_net_sec sample_config short_mpe net_start = Some n' /\ priv n' = priv net_start /\
    (frames n' = [] \/ exists f, frames n' = [] ++ [f]).
Proof.
  apply (dvb_net_sec_safe sample_config short_mpe net_start).
  - exact sample_mem.
  - left. reflexivity.
Defined.

(** ** What the decoder does with other input *)

(** A pointer field of 184 is let through, although it leads behind the cell: the first byte
    of a header is read there, outside of the buffer when the cell is the last one. *)
Lemma dvb_net_ule_pointer_184 cfg cell n cc :
  zlen cell = TS_SZ -> cell_good cell = true -> cell_pusi cell = true -> cell.[4] = 184 -> receives cfg (priv n) cc None ->
  dvb_net_ule cfg cell n = None.
Proof.
  intros Hz Hg Hp Hptr [Hnp Hf]. pose proof Hz as Hz'. unfold TS_SZ in Hz'. unfold dvb_net_ule.
  destruct (length cell) as [|fuel] eqn:Hlen; [unfold zlen in Hz'; lia|]. cbn [ule_loop_run ts].
  rewrite (proj2 (Z.ltb_lt 0 _)) by lia.
  assert (Hc : cell_at cell (UleLoop 0 0 0 true) cell) by (split; [by exists [], []; rewrite app_nil_r|done..]).
  unfold ule_body. rewrite (check_cell_run cell (UleLoop 0 0 0 true) n cell Hc), Hg. cbn [then_]. unfold sync_pusi. rewrite Hnp. cbn [negb ts].
  rewrite (zget_in cell (0 + 1)), (zget_in cell (0 + 3)), (zget_in cell (0 + 4)) by lia. cbn [mbind option_bind]. change (0 + 4) with 4. change (0 + 1) with 1. change (0 + 3) with 3.
  fold (cell_pusi cell). rewrite Hp, Hptr. cbn [ts_remain Z.ltb Z.compare Pos.compare Pos.compare_cont then_ new_ts].
  unfold check_continuity. cbn [new_ts negb ts]. rewrite (zget_in cell (0 + 3)), (zget_in cell (0 + 1)) by lia. cbn [mbind option_bind].
  change (0 + 3) with 3. change (0 + 1) with 1. cbn [priv set_priv set_tscc tscc]. rewrite Z.eqb_refl. cbn [negb].
  assert (Hp' : (Z.land cell.[1] TS_PUSI =? 0) = false) by (unfold cell_pusi in Hp; by destruct (Z.land cell.[1] TS_PUSI =? 0)).
  rewrite Hp'. cbn [priv set_priv set_tscc need_pusi]. rewrite Hnp. cbn [negb then_ priv set_priv set_need_pusi set_tscc ule_sndu_remain].
  destruct Hf as [Hs Hl _ Hrem _]. rewrite Hrem. cbn [Z.ltb Z.compare then_]. unfold start_sndu, ule_length_field.
  cbn [priv set_priv set_need_pusi set_tscc ule_skb ule_sndu_len ts_remain from_where]. rewrite Hs, Hl. rewrite bool_decide_false by apply is_Some_None.
  change (u8 (184 - (1 + 184)) <? 2) with false. cbn [negb Z.eqb]. rewrite (zget_out cell (0 + 5 + 184)) by lia. reflexivity.
Qed.

(** A bridged SNDU whose frame claims to be of the next type again - that of a bridged SNDU -
    has its headers decoded forever: with 11 bytes of data the type is read from the CRC. *)
Lemma ule_bridged_forever fuel : forall tot p skb,
  ule_skb p = Some skb -> skb_be16 12 skb = Some 1 -> ule_next_hdr p = 0 -> ule_sndu_len p = 15 -> ule_sndu_type p = 1 -> ule_dbit p = 1 ->
  ule_extensions_loop fuel tot p = None.
Proof.
  induction fuel as [|fuel IH]; intros tot p skb Hs H12 Hn Hl Ht Hd; [done|]. cbn [ule_extensions_loop].
  assert (E : handle_one_ule_extension p = Some (0, set_sndu_type 1 (set_next_hdr 0 (set_bridged true p)))).
  { unfold handle_one_ule_extension. rewrite Hs. cbn [mbind option_bind]. rewrite Ht.
    change (Z.shiftr (Z.land 1 1792) 8 =? 0) with true. change (ule_mandatory_ext_handlers (Z.land 1 255)) with (Some (Some ule_bridged_sndu)).
    cbn [mbind option_bind]. unfold ule_bridged_sndu. rewrite Hs, Hn, Hl. cbn [mbind option_bind]. change (0 + 12) with 12. rewrite H12.
    cbn [mbind option_bind]. match goal with |- context [if ?b then Some (-1, p) else _] => change b with false end. cbn [mbind option_bind]. change (0 <=? 0) with true. cbv iota.
    cbn [ule_bridged set_bridged set_next_hdr negb ule_next_hdr ule_dbit]. rewrite ?Hn, ?Hd. change (0 + 0 + (if 1 =? 0 then 3 else 2) * ETH_ALEN) with 12.
    rewrite H12. done. }
  rewrite E. cbn [mbind option_bind Z.ltb Z.compare]. change (ule_sndu_type _ <? 1536) with true. cbv iota.
  by apply (IH _ _ skb).
Qed.

(** Such an SNDU, with a CRC that is right. *)
Definition endless_sndu : list Z := [0x80; 15; 0; 1] ++ [2; 0; 0; 0; 0; 1; 2; 0; 0; 185; 46] ++ [0xdd; 0x00; 0x01; 0xd9].

(** The decoder never comes back from an SNDU of 19 bytes: its CRC is right, and decoding its
    extension headers - the type is the one of a bridged frame, and the type field of the frame
    is read from the CRC, where it is the one of a bridged frame again - does not end, however
    many turns it is given. *)
Theorem ule_endless_sndu_diverges cfg n skb room :
  crc32_be cfg = crc32 -> skb_holds skb 20 (zdrop 4 endless_sndu) room ->
  ule_dbit (priv n) = 1 -> ule_sndu_len (priv n) = 15 -> ule_sndu_type (priv n) = 1 ->
  let without_crc := SkBuff (sk_mem skb) (sk_data skb) (sk_len skb - 4) in
  (exists data, skb_bytes 0 (sk_len without_crc) skb = Some data /\ be32_bytes (ule_crc32 cfg (priv n) data) = [0xdd; 0x00; 0x01; 0xd9]) /\
  forall fuel tot, ule_extensions_loop fuel tot (set_next_hdr 0 (set_ule_skb (Some without_crc) (priv n))) = None.
Proof.
  intros Hcrc Hsk Hd Hl Ht without_crc. pose proof (proj1 (proj2 Hsk)) as Hz. change (zlen (zdrop 4 endless_sndu)) with 15 in Hz. split.
  - exists [2; 0; 0; 0; 0; 1; 2; 0; 0; 185; 46]. split.
    + apply (skb_bytes_run skb 20 [] _ [0xdd; 0x00; 0x01; 0xd9] room); [exact Hsk|done|]. cbn [without_crc sk_len]. by rewrite Hz.
    + unfold ule_crc32. rewrite Hcrc, Hd, Hl, Ht. vm_compute. reflexivity.
  - intros fuel tot. apply (ule_bridged_forever fuel tot _ without_crc); try done.
    unfold skb_be16. change (skb_bytes 12 2 without_crc) with (skb_bytes 12 2 skb).
    rewrite (skb_bytes_run skb 20 [2; 0; 0; 0; 0; 1; 2; 0; 0; 185; 46; 0xdd] [0x00; 0x01] [0xd9] room); done.
Qed.
Definition endless_net : net := set_priv (set_dbit 1 (set_sndu_len 15 (set_sndu_type 1 (priv net_start)))) net_start.
Definition endless_skb (len : Z) : sk_buff := SkBuff (replicate 20 0 ++ zdrop 4 endless_sndu ++ replicate 5 0) 20 len.
Lemma endless_skb_holds : skb_holds (endless_skb 15) 20 (zdrop 4 endless_sndu) 5.
Proof. split; [reflexivity|]. split; [reflexivity|]. exists (replicate 20 0), (replicate 5 0). split; [reflexivity|]. split; reflexivity. Qed.
Lemma ule_endless_sndu_diverges_witness :
  skb_holds (endless_skb 15) 20 (zdrop 4 endless_sndu) 5 /\
  forall fuel tot, ule_extensions_loop fuel tot (set_next_hdr 0 (set_ule_skb (Some (endless_skb 11)) (priv endless_net))) = None.
Proof.
  split; [apply endless_skb_holds|].
  exact (proj2 (ule_endless_sndu_diverges sample_config endless_net (endless_skb 15) 5 eq_refl endless_skb_holds eq_refl eq_refl eq_refl)).
Defined.
