(* ===== verification/DmxDev.v ===== *)
(** * DmxDev: dvb-core/dmxdev.c

    The demux device and the DVR device: the files of user space, each with a filter, on top
    of the feeds and filters of the demultiplexer.  A pointer to a [dmxdev_filter] is its
    index in the table of the device, pointers to feeds and filters of the demultiplexer
    are those of DmxFeeds.v.  [None] is a null pointer that is followed, a deadlock, or an access
    outside a buffer. *)

From stdpp Require Import gmap.
From S2P Require Import Prelude DvbRingbuffer DvbDemux TsFilter DmxFeeds.

Definition EINTR : Z := 4.
Definition EAGAIN : Z := 11.
Definition EMFILE : Z := 24.
Definition EOVERFLOW : Z := 75.
Definition EOPNOTSUPP : Z := 95.
Definition ETIMEDOUT : Z := 110.

Definition DMXDEV_TYPE_NONE : Z := 0.
Definition DMXDEV_TYPE_SEC : Z := 1.
Definition DMXDEV_TYPE_PES : Z := 2.
Definition DMXDEV_STATE_FREE : Z := 0.
Definition DMXDEV_STATE_ALLOCATED : Z := 1.
Definition DMXDEV_STATE_SET : Z := 2.
Definition DMXDEV_STATE_GO : Z := 3.
Definition DMXDEV_STATE_DONE : Z := 4.
Definition DMXDEV_STATE_TIMEDOUT : Z := 5.
Definition DMXDEV_CAP_DUPLEX : Z := 1.
Definition DVR_BUFFER_SIZE : Z := 10 * 188 * 1024.

Definition DMX_OUT_DECODER : Z := 0.
Definition DMX_OUT_TAP : Z := 1.
Definition DMX_OUT_TS_TAP : Z := 2.
Definition DMX_OUT_TSDEMUX_TAP : Z := 3.
Definition DMX_CHECK_CRC : Z := 1.
Definition DMX_ONESHOT : Z := 2.
Definition DMX_IMMEDIATE_START : Z := 4.
Definition DMX_FILTER_SIZE : Z := 16.
Definition DMX_MEMORY_FE : Z := 0.

(** ** The state *)

Record dmx_filter_t := DmxFilter { fl_filter : list Z; fl_mask : list Z; fl_mode : list Z }.
Record dmx_sct_filter_params := SctParams {
  sct_pid : Z; sct_filter : dmx_filter_t; sct_timeout : Z; sct_flags : Z }.
Record dmx_pes_filter_params := PesParams {
  pes_pid : Z; pes_output : Z; pes_filter_type : Z; pes_flags : Z }.

(** The union [params]. *)
Inductive dmxdev_params := ParamsNone | ParamsSec (p : dmx_sct_filter_params) | ParamsPes (p : dmx_pes_filter_params).

Record dmxdev_feed := DevFeed { df_pid : Z; df_ts : option nat }.

(** The members of the union [feed] are separate: the list of feeds is set up before it is
    used with a PES filter, the pointer to the section feed before it is used with another. *)
Record dmxdev_filter := DevFilter {
  sec_filter : option nat; sec_feed : option nat; ts_feeds : list dmxdev_feed;
  params : dmxdev_params; dev_type : Z; dev_state : Z; dev_buffer : dvb_ringbuffer;
  timer : option Z; todo : Z; secheader : list Z }.

(** [sec_priv] and [ts_priv] are the [priv] pointers of the filters and feeds; a front end is
    a name and its source. *)
Record dmxdev := DmxDev {
  dev_filters : list dmxdev_filter; dev_dmx : dmx; dev_tsbuf : list Z; dev_tsbufp : Z;
  sec_priv : gmap nat nat; ts_priv : gmap nat nat;
  frontend_list : list (nat * Z); frontend : option (nat * Z); dvr_orig_fe : option (nat * Z);
  dvr_buffer : dvb_ringbuffer; dev_exit : bool;
  dev_users : Z; dvr_users : Z; dvr_readers : Z; calls : nat }.

Definition set_dev_filters v d := DmxDev v (dev_dmx d) (dev_tsbuf d) (dev_tsbufp d) (sec_priv d) (ts_priv d) (frontend_list d) (frontend d) (dvr_orig_fe d) (dvr_buffer d) (dev_exit d) (dev_users d) (dvr_users d) (dvr_readers d) (calls d).
Definition set_dev_dmx v d := DmxDev (dev_filters d) v (dev_tsbuf d) (dev_tsbufp d) (sec_priv d) (ts_priv d) (frontend_list d) (frontend d) (dvr_orig_fe d) (dvr_buffer d) (dev_exit d) (dev_users d) (dvr_users d) (dvr_readers d) (calls d).
Definition set_tsbuf b p d := DmxDev (dev_filters d) (dev_dmx d) b p (sec_priv d) (ts_priv d) (frontend_list d) (frontend d) (dvr_orig_fe d) (dvr_buffer d) (dev_exit d) (dev_users d) (dvr_users d) (dvr_readers d) (calls d).
Definition set_sec_priv v d := DmxDev (dev_filters d) (dev_dmx d) (dev_tsbuf d) (dev_tsbufp d) v (ts_priv d) (frontend_list d) (frontend d) (dvr_orig_fe d) (dvr_buffer d) (dev_exit d) (dev_users d) (dvr_users d) (dvr_readers d) (calls d).
Definition set_ts_priv v d := DmxDev (dev_filters d) (dev_dmx d) (dev_tsbuf d) (dev_tsbufp d) (sec_priv d) v (frontend_list d) (frontend d) (dvr_orig_fe d) (dvr_buffer d) (dev_exit d) (dev_users d) (dvr_users d) (dvr_readers d) (calls d).
Definition set_frontend v d := DmxDev (dev_filters d) (dev_dmx d) (dev_tsbuf d) (dev_tsbufp d) (sec_priv d) (ts_priv d) (frontend_list d) v (dvr_orig_fe d) (dvr_buffer d) (dev_exit d) (dev_users d) (dvr_users d) (dvr_readers d) (calls d).
Definition set_frontend_list v d := DmxDev (dev_filters d) (dev_dmx d) (dev_tsbuf d) (dev_tsbufp d) (sec_priv d) (ts_priv d) v (frontend d) (dvr_orig_fe d) (dvr_buffer d) (dev_exit d) (dev_users d) (dvr_users d) (dvr_readers d) (calls d).
Definition set_orig_fe v d := DmxDev (dev_filters d) (dev_dmx d) (dev_tsbuf d) (dev_tsbufp d) (sec_priv d) (ts_priv d) (frontend_list d) (frontend d) v (dvr_buffer d) (dev_exit d) (dev_users d) (dvr_users d) (dvr_readers d) (calls d).
Definition set_dvr_buffer v d := DmxDev (dev_filters d) (dev_dmx d) (dev_tsbuf d) (dev_tsbufp d) (sec_priv d) (ts_priv d) (frontend_list d) (frontend d) (dvr_orig_fe d) v (dev_exit d) (dev_users d) (dvr_users d) (dvr_readers d) (calls d).
Definition set_exit v d := DmxDev (dev_filters d) (dev_dmx d) (dev_tsbuf d) (dev_tsbufp d) (sec_priv d) (ts_priv d) (frontend_list d) (frontend d) (dvr_orig_fe d) (dvr_buffer d) v (dev_users d) (dvr_users d) (dvr_readers d) (calls d).
Definition set_dev_users v d := DmxDev (dev_filters d) (dev_dmx d) (dev_tsbuf d) (dev_tsbufp d) (sec_priv d) (ts_priv d) (frontend_list d) (frontend d) (dvr_orig_fe d) (dvr_buffer d) (dev_exit d) v (dvr_users d) (dvr_readers d) (calls d).
Definition set_dvr_users u r d := DmxDev (dev_filters d) (dev_dmx d) (dev_tsbuf d) (dev_tsbufp d) (sec_priv d) (ts_priv d) (frontend_list d) (frontend d) (dvr_orig_fe d) (dvr_buffer d) (dev_exit d) (dev_users d) u r (calls d).
Definition count_call d := DmxDev (dev_filters d) (dev_dmx d) (dev_tsbuf d) (dev_tsbufp d) (sec_priv d) (ts_priv d) (frontend_list d) (frontend d) (dvr_orig_fe d) (dvr_buffer d) (dev_exit d) (dev_users d) (dvr_users d) (dvr_readers d) (S (calls d)).

Definition set_sec_filter v f := DevFilter v (sec_feed f) (ts_feeds f) (params f) (dev_type f) (dev_state f) (dev_buffer f) (timer f) (todo f) (secheader f).
Definition set_sec_feed v f := DevFilter (sec_filter f) v (ts_feeds f) (params f) (dev_type f) (dev_state f) (dev_buffer f) (timer f) (todo f) (secheader f).
Definition set_ts_feeds v f := DevFilter (sec_filter f) (sec_feed f) v (params f) (dev_type f) (dev_state f) (dev_buffer f) (timer f) (todo f) (secheader f).
Definition set_params v f := DevFilter (sec_filter f) (sec_feed f) (ts_feeds f) v (dev_type f) (dev_state f) (dev_buffer f) (timer f) (todo f) (secheader f).
Definition set_dev_type v f := DevFilter (sec_filter f) (sec_feed f) (ts_feeds f) (params f) v (dev_state f) (dev_buffer f) (timer f) (todo f) (secheader f).
Definition set_dev_state v f := DevFilter (sec_filter f) (sec_feed f) (ts_feeds f) (params f) (dev_type f) v (dev_buffer f) (timer f) (todo f) (secheader f).
Definition set_buffer v f := DevFilter (sec_filter f) (sec_feed f) (ts_feeds f) (params f) (dev_type f) (dev_state f) v (timer f) (todo f) (secheader f).
Definition set_timer v f := DevFilter (sec_filter f) (sec_feed f) (ts_feeds f) (params f) (dev_type f) (dev_state f) (dev_buffer f) v (todo f) (secheader f).
Definition set_todo v f := DevFilter (sec_filter f) (sec_feed f) (ts_feeds f) (params f) (dev_type f) (dev_state f) (dev_buffer f) (timer f) v (secheader f).
Definition set_secheader v f := DevFilter (sec_filter f) (sec_feed f) (ts_feeds f) (params f) (dev_type f) (dev_state f) (dev_buffer f) (timer f) (todo f) v.

Definition with_filter (j : nat) (g : dmxdev_filter -> dmxdev_filter) (d : dmxdev) : option dmxdev :=
  f ← dev_filters d !! j; Some (set_dev_filters (<[j := g f]> (dev_filters d)) d).

(** ** Buffers *)

(** A buffer without memory has no data. *)
Definition has_data (r : dvb_ringbuffer) : bool := negb (bool_decide (rb_data r = [])).
Definition set_rb_error (v : Z) (r : dvb_ringbuffer) : dvb_ringbuffer :=
  DvbRingbuffer (rb_data r) (rb_size r) (rb_pread r) (rb_pwrite r) v.

Definition dvb_dmxdev_buffer_write (r : dvb_ringbuffer) (src : list Z) : option (Z * dvb_ringbuffer) :=
  if zlen src =? 0 then Some (0, r) else
  if negb (has_data r) then Some (0, r) else
  let free := dvb_ringbuffer_free r in
  if u64 free <? zlen src then Some (- EOVERFLOW, r) else
  dvb_ringbuffer_write r src.

Section reading.
(** [copy_to_user] of the C library of the kernel; [wait_ring] is the ring when the sleep of a
    reader ends, or nothing when a signal ends it. *)
Context (copy_to_user : list Z -> Z) (wait_ring : dvb_ringbuffer -> option dvb_ringbuffer).

Definition readable (r : dvb_ringbuffer) : bool := negb (dvb_ringbuffer_empty r) || negb (rb_error r =? 0).

(** The loop ends with what is still to do, the last result, and the bytes copied. *)
Fixpoint buffer_read_loop (fuel : nat) (non_blocking : bool) (todo ret : Z) (out : list Z) (r : dvb_ringbuffer) :
    option (Z * Z * list Z * dvb_ringbuffer) :=
  if 0 <? todo then
    match fuel with
    | O => None
    | S fuel =>
        if non_blocking && dvb_ringbuffer_empty r then Some (todo, - EAGAIN, out, r) else
        match (if readable r then Some r else wait_ring r) with
        | None => Some (todo, - ERESTARTSYS, out, r)
        | Some r =>
            if negb (rb_error r =? 0) then Some (todo, rb_error r, out, dvb_ringbuffer_flush r) else
            let avail := dvb_ringbuffer_avail r in
            let avail := if todo <? avail then todo else avail in
            '(ret, b, r) ← dvb_ringbuffer_read_user copy_to_user r avail;
            if ret <? 0 then Some (todo, ret, out, r)
            else buffer_read_loop fuel non_blocking (todo - ret) ret (out ++ b) r
        end
    end
  else Some (todo, ret, out, r).

Definition dvb_dmxdev_buffer_read (r : dvb_ringbuffer) (non_blocking : bool) (count : Z) :
    option (Z * list Z * dvb_ringbuffer) :=
  if negb (has_data r) then Some (0, [], r) else
  if negb (rb_error r =? 0) then Some (rb_error r, [], dvb_ringbuffer_flush r) else
  '(todo, ret, out, r) ← buffer_read_loop (Z.to_nat count) non_blocking count 0 [] r;
  Some (if count - todo =? 0 then ret else count - todo, out, r).

(** The body of a section, after [done] bytes [out] of this call. *)
Definition read_sec_rest (f : dmxdev_filter) (non_blocking : bool) (count done : Z) (out : list Z) :
    option (Z * list Z * dmxdev_filter) :=
  let count := if todo f <? count then todo f else count in
  '(result, b, r) ← dvb_dmxdev_buffer_read (dev_buffer f) non_blocking count;
  let f := set_buffer r f in
  if result <? 0 then Some (result, out ++ b, f)
  else Some (result + done, out ++ b, set_todo (todo f - result) f).

(** The bytes of the header are kept as they are read. *)
Definition dvb_dmxdev_read_sec (f : dmxdev_filter) (non_blocking : bool) (count : Z) (copy_back : bool) :
    option (Z * list Z * dmxdev_filter) :=
  if todo f <=? 0 then
    let hcount := 3 + todo f in
    let hcount := if count <? hcount then count else hcount in
    '(result, b, r) ← dvb_dmxdev_buffer_read (dev_buffer f) non_blocking hcount;
    let f := set_buffer r f in
    if result <? 0 then Some (result, b, set_todo 0 f) else
    if copy_back then Some (- EFAULT, b, f) else
    let f := set_secheader (zsplice (secheader f) (- todo f) b) f in
    let count := count - result in
    let f := set_todo (todo f - result) f in
    if -3 <? todo f then Some (result, b, f) else
    let f := set_todo (Z.land (Z.lor (Z.shiftl (secheader f).[1] 8) (secheader f).[2]) 0xfff) f in
    if count =? 0 then Some (result, b, f) else read_sec_rest f non_blocking count result b
  else read_sec_rest f non_blocking count 0 [].
End reading.

(** ** Feeds and filters *)

Section device.
(** The driver's operations, if it has them, by their results; whether a signal interrupts
    the [n]-th wait for a mutex; and the [n]-th allocation. *)
Context (start_feed stop_feed : option (nat -> Z)) (sig : nat -> bool).
Context (vmalloc : nat -> Z -> option (list Z)) (kzalloc : nat -> bool) (HZ : Z).

(** A call that may be interrupted; memory. *)
Definition interrupted (d : dmxdev) : bool * dmxdev := (sig (calls d), count_call d).
Definition get_memory (size : Z) (d : dmxdev) : option (list Z) * dmxdev := (vmalloc (calls d) size, count_call d).

(** Operations of the demultiplexer. *)
Definition demux_do (op : dmx -> option (dmx * Z)) (d : dmxdev) : option (dmxdev * Z) :=
  '(m, ret) ← op (dev_dmx d); Some (set_dev_dmx m d, ret).
Definition demux_sig (op : bool -> dmx -> option (dmx * Z)) (d : dmxdev) : option (dmxdev * Z) :=
  let '(s, d) := interrupted d in demux_do (op s) d.
Definition demux_alloc (op : bool -> dmx -> option (dmx * Z * option nat)) (d : dmxdev) : option (dmxdev * Z * option nat) :=
  let '(s, d) := interrupted d in
  '(m, ret, o) ← op s (dev_dmx d); Some (set_dev_dmx m d, ret, o).

Definition dvb_dmxdev_filter_state_set (j : nat) (state : Z) (d : dmxdev) : option dmxdev :=
  with_filter j (set_dev_state state) d.

Definition dvb_dmxdev_filter_timer (j : nat) (d : dmxdev) : option dmxdev :=
  with_filter j (fun f =>
    match params f with
    | ParamsSec para =>
        set_timer (if sct_timeout para =? 0 then None
                   else Some (1 + (HZ / 2 + HZ * sct_timeout para) / 1000)) f
    | _ => f
    end) d.

(** All feeds of a PES filter. *)
Fixpoint stop_ts_feeds (feeds : list dmxdev_feed) (d : dmxdev) : option dmxdev :=
  match feeds with
  | [] => Some d
  | feed :: feeds =>
      i ← df_ts feed;
      '(d, _) ← demux_do (dmx_ts_feed_stop_filtering stop_feed i) d;
      stop_ts_feeds feeds d
  end.
Fixpoint release_ts_feeds (feeds : list dmxdev_feed) (d : dmxdev) : option dmxdev :=
  match feeds with
  | [] => Some d
  | feed :: feeds =>
      i ← df_ts feed;
      '(d, _) ← demux_do (dvbdmx_release_ts_feed i) d;
      release_ts_feeds feeds d
  end.

Definition dvb_dmxdev_feed_stop (j : nat) (d : dmxdev) : option (dmxdev * Z) :=
  d ← dvb_dmxdev_filter_state_set j DMXDEV_STATE_SET d;
  f ← dev_filters d !! j;
  if dev_type f =? DMXDEV_TYPE_SEC then
    d ← with_filter j (set_timer None) d;
    i ← sec_feed f;
    '(d, _) ← demux_do (dmx_section_feed_stop_filtering stop_feed i) d;
    Some (d, 0)
  else if dev_type f =? DMXDEV_TYPE_PES then
    d ← stop_ts_feeds (ts_feeds f) d; Some (d, 0)
  else Some (d, - EINVAL).

Fixpoint start_ts_feeds (j : nat) (feeds : list dmxdev_feed) (d : dmxdev) : option (dmxdev * Z) :=
  match feeds with
  | [] => Some (d, 0)
  | feed :: feeds =>
      i ← df_ts feed;
      '(d, ret) ← demux_sig (fun s => dmx_ts_feed_start_filtering start_feed s i) d;
      if ret <? 0 then '(d, _) ← dvb_dmxdev_feed_stop j d; Some (d, ret)
      else start_ts_feeds j feeds d
  end.
Definition dvb_dmxdev_feed_start (j : nat) (d : dmxdev) : option (dmxdev * Z) :=
  d ← dvb_dmxdev_filter_state_set j DMXDEV_STATE_GO d;
  f ← dev_filters d !! j;
  if dev_type f =? DMXDEV_TYPE_SEC then
    i ← sec_feed f; demux_sig (fun s => dmx_section_feed_start_filtering start_feed s i) d
  else if dev_type f =? DMXDEV_TYPE_PES then start_ts_feeds j (ts_feeds f) d
  else Some (d, - EINVAL).

(** The first active section filter of a PID. *)
Definition active_on (pid : Z) (f : dmxdev_filter) : bool :=
  (DMXDEV_STATE_GO <=? dev_state f) && (dev_type f =? DMXDEV_TYPE_SEC) &&
  match params f with ParamsSec p => sct_pid p =? pid | _ => false end.
Definition find_active (pid : Z) (d : dmxdev) : option nat := fst <$> list_find (fun f => active_on pid f = true) (dev_filters d).

Definition dvb_dmxdev_feed_restart (j : nat) (d : dmxdev) : option (dmxdev * Z) :=
  f ← dev_filters d !! j;
  para ← (if params f is ParamsSec p then Some p else None);
  match find_active (sct_pid para) d with
  | Some k => '(d, _) ← dvb_dmxdev_feed_start k d; Some (d, 0)
  | None =>
      i ← sec_feed f;
      '(d, _) ← demux_do (dvbdmx_release_section_feed i) d;
      Some (d, 0)
  end.

Definition flush_buffer (j : nat) (d : dmxdev) : option dmxdev :=
  with_filter j (fun f => set_buffer (dvb_ringbuffer_flush (dev_buffer f)) f) d.

Definition dvb_dmxdev_filter_stop (j : nat) (d : dmxdev) : option (dmxdev * Z) :=
  f ← dev_filters d !! j;
  if dev_state f <? DMXDEV_STATE_GO then Some (d, 0) else
  if dev_type f =? DMXDEV_TYPE_SEC then
    d ← (match sec_feed f with
         | None => Some d
         | Some i =>
             '(d, _) ← dvb_dmxdev_feed_stop j d;
             d ← (match sec_filter f with
                  | Some k => '(d, _) ← demux_do (dmx_section_feed_release_filter stop_feed i k) d; Some d
                  | None => Some d
                  end);
             '(d, _) ← dvb_dmxdev_feed_restart j d;
             with_filter j (set_sec_feed None) d
         end);
    d ← flush_buffer j d; Some (d, 0)
  else if dev_type f =? DMXDEV_TYPE_PES then
    '(d, _) ← dvb_dmxdev_feed_stop j d;
    d ← release_ts_feeds (ts_feeds f) d;
    d ← with_filter j (set_ts_feeds (map (fun feed => DevFeed (df_pid feed) None) (ts_feeds f))) d;
    d ← flush_buffer j d; Some (d, 0)
  else Some (d, if dev_state f =? DMXDEV_STATE_ALLOCATED then 0 else - EINVAL).

Definition dvb_dmxdev_delete_pids (j : nat) (d : dmxdev) : option dmxdev := with_filter j (set_ts_feeds []) d.

Definition dvb_dmxdev_filter_reset (j : nat) (d : dmxdev) : option (dmxdev * Z) :=
  f ← dev_filters d !! j;
  if dev_state f <? DMXDEV_STATE_SET then Some (d, 0) else
  d ← (if dev_type f =? DMXDEV_TYPE_PES then dvb_dmxdev_delete_pids j d else Some d);
  d ← with_filter j (set_dev_type DMXDEV_TYPE_NONE) d;
  d ← dvb_dmxdev_filter_state_set j DMXDEV_STATE_ALLOCATED d;
  Some (d, 0).

(** One feed of a PES filter: [k] is its place in the list. *)
Definition set_feed_ts (j k : nat) (v : option nat) (d : dmxdev) : option dmxdev :=
  with_filter j (fun f => set_ts_feeds (alter (fun feed => DevFeed (df_pid feed) v) k (ts_feeds f)) f) d.
Definition pes_ts_type (para : dmx_pes_filter_params) : Z :=
  let ts_type := if pes_filter_type para <? DMX_PES_OTHER then TS_DECODER else 0 in
  let otype := pes_output para in
  if otype =? DMX_OUT_TS_TAP then Z.lor ts_type TS_PACKET
  else if otype =? DMX_OUT_TSDEMUX_TAP then Z.lor ts_type (Z.lor TS_PACKET TS_DEMUX)
  else if otype =? DMX_OUT_TAP then Z.lor ts_type (Z.lor (Z.lor TS_PACKET TS_DEMUX) TS_PAYLOAD_ONLY)
  else ts_type.
Definition dvb_dmxdev_start_feed (j k : nat) (d : dmxdev) : option (dmxdev * Z) :=
  d ← set_feed_ts j k None d;
  f ← dev_filters d !! j;
  para ← (if params f is ParamsPes p then Some p else None);
  feed ← ts_feeds f !! k;
  '(d, ret, o) ← demux_alloc dvbdmx_allocate_ts_feed d;
  d ← set_feed_ts j k o d;
  if ret <? 0 then Some (d, ret) else
  i ← o;
  let d := set_ts_priv (<[i := j]> (ts_priv d)) d in
  '(d, ret) ← demux_sig (fun s => dmx_ts_feed_set s i (df_pid feed) (pes_ts_type para) (pes_filter_type para)) d;
  if ret <? 0 then '(d, _) ← demux_do (dvbdmx_release_ts_feed i) d; Some (d, ret) else
  '(d, ret) ← demux_sig (fun s => dmx_ts_feed_start_filtering start_feed s i) d;
  if ret <? 0 then '(d, _) ← demux_do (dvbdmx_release_ts_feed i) d; Some (d, ret) else
  Some (d, 0).

(** The feeds from the [k]-th on, of which there are [n]. *)
Fixpoint start_all_feeds (j : nat) (n k : nat) (d : dmxdev) : option (dmxdev * Z) :=
  match n with
  | O => Some (d, 0)
  | S n =>
      '(d, ret) ← dvb_dmxdev_start_feed j k d;
      if ret <? 0 then '(d, _) ← dvb_dmxdev_filter_stop j d; Some (d, ret)
      else start_all_feeds j n (S k) d
  end.

(** What user space gave is spread over the filter of the demultiplexer: the bytes of the
    length field are left out. *)
Definition fill_filter (para : dmx_sct_filter_params) (g : dvb_demux_filter) : dvb_demux_filter :=
  let fl := sct_filter para in
  let spread dst src := zset (zsplice dst 3 (ztake (DMX_FILTER_SIZE - 1) (zdrop 1 src))) 0 src.[0] in
  write_filter (spread (filter_value g) (fl_filter fl))
    (zset (zset (spread (filter_mask g) (fl_mask fl)) 1 0) 2 0)
    (spread (filter_mode g) (fl_mode fl)) g.
Definition fill_sec_filter (k : nat) (para : dmx_sct_filter_params) (d : dmxdev) : option dmxdev :=
  m ← upd_filter k (fill_filter para) (dev_dmx d); Some (set_dev_dmx m d).

(** The feed of another filter on the PID, or a new one; the result says whether one could
    be had. *)
Definition find_sec_feed (j : nat) (para : dmx_sct_filter_params) (d : dmxdev) : option (dmxdev * Z) :=
  other ← match find_active (sct_pid para) d with
          | Some k => g ← dev_filters d !! k; Some (sec_feed g)
          | None => Some None
          end;
  d ← with_filter j (set_sec_feed other) d;
  match other with
  | Some _ => '(d, _) ← dvb_dmxdev_feed_stop j d; Some (d, 0)
  | None =>
      '(d, ret, o) ← demux_alloc dvbdmx_allocate_section_feed d;
      if ret <? 0 then Some (d, ret) else
      d ← with_filter j (set_sec_feed o) d;
      i ← o;
      '(d, ret) ← demux_sig (fun s => dmx_section_feed_set s i (sct_pid para)
                    (negb (Z.land (sct_flags para) DMX_CHECK_CRC =? 0))) d;
      if ret <? 0 then '(d, _) ← dvb_dmxdev_feed_restart j d; Some (d, ret) else Some (d, 0)
  end.

Definition start_sec (j : nat) (para : dmx_sct_filter_params) (d : dmxdev) : option (dmxdev * Z) :=
  d ← with_filter j (fun f => set_sec_feed None (set_sec_filter None f)) d;
  '(d, ret) ← find_sec_feed j para d;
  if ret <? 0 then Some (d, ret) else
  f ← dev_filters d !! j;
  i ← sec_feed f;
  '(d, ret, o) ← demux_alloc (fun s => dmx_section_feed_allocate_filter s i) d;
  if ret <? 0 then
    '(d, _) ← dvb_dmxdev_feed_restart j d;
    '(d, _) ← demux_sig (fun s => dmx_section_feed_start_filtering start_feed s i) d;
    Some (d, ret)
  else
  d ← with_filter j (set_sec_filter o) d;
  k ← o;
  d ← fill_sec_filter k para (set_sec_priv (<[k := j]> (sec_priv d)) d);
  d ← with_filter j (set_todo 0) d;
  '(d, ret) ← demux_sig (fun s => dmx_section_feed_start_filtering start_feed s i) d;
  if ret <? 0 then Some (d, ret) else
  d ← dvb_dmxdev_filter_timer j d; Some (d, 0).

(** The memory of the buffer. *)
Definition get_buffer (j : nat) (d : dmxdev) : option (dmxdev * Z) :=
  f ← dev_filters d !! j;
  if has_data (dev_buffer f) then Some (d, 0) else
  let '(mem, d) := get_memory (rb_size (dev_buffer f)) d in
  match mem with
  | None => Some (d, - ENOMEM)
  | Some mem => d ← with_filter j (fun f => set_buffer (set_data mem (dev_buffer f)) f) d; Some (d, 0)
  end.

Definition dvb_dmxdev_filter_start (j : nat) (d : dmxdev) : option (dmxdev * Z) :=
  f ← dev_filters d !! j;
  if dev_state f <? DMXDEV_STATE_SET then Some (d, - EINVAL) else
  '(d, _) ← (if DMXDEV_STATE_GO <=? dev_state f then dvb_dmxdev_filter_stop j d else Some (d, 0));
  '(d, ret) ← get_buffer j d;
  if ret <? 0 then Some (d, ret) else
  d ← flush_buffer j d;
  f ← dev_filters d !! j;
  '(d, ret) ← (if dev_type f =? DMXDEV_TYPE_SEC then
                 para ← (if params f is ParamsSec p then Some p else None); start_sec j para d
               else if dev_type f =? DMXDEV_TYPE_PES then start_all_feeds j (length (ts_feeds f)) 0 d
               else Some (d, - EINVAL));
  if ret <? 0 then Some (d, ret) else
  d ← dvb_dmxdev_filter_state_set j DMXDEV_STATE_GO d; Some (d, 0).

(** ** The operations on a filter *)

Definition invert_mode (fl : dmx_filter_t) : dmx_filter_t :=
  DmxFilter (fl_filter fl) (fl_mask fl) (map (fun b => Z.lxor b 0xff) (fl_mode fl)).

Definition dvb_dmxdev_add_pid (j : nat) (pid : Z) (d : dmxdev) : option (dmxdev * Z) :=
  f ← dev_filters d !! j;
  if negb (dev_type f =? DMXDEV_TYPE_PES) || (dev_state f <? DMXDEV_STATE_SET) then Some (d, - EINVAL) else
  para ← (if params f is ParamsPes p then Some p else None);
  if negb (pes_output para =? DMX_OUT_TSDEMUX_TAP) && negb (bool_decide (ts_feeds f = [])) then Some (d, - EINVAL) else
  let ok := kzalloc (calls d) in
  let d := count_call d in
  if negb ok then Some (d, - ENOMEM) else
  d ← with_filter j (set_ts_feeds (DevFeed pid None :: ts_feeds f)) d;
  if DMXDEV_STATE_GO <=? dev_state f then dvb_dmxdev_start_feed j 0 d else Some (d, 0).

Fixpoint remove_feeds (pid : Z) (feeds : list dmxdev_feed) (d : dmxdev) : option (dmxdev * list dmxdev_feed) :=
  match feeds with
  | [] => Some (d, [])
  | feed :: feeds =>
      match df_ts feed with
      | Some i =>
          if df_pid feed =? pid then
            '(d, _) ← demux_do (dmx_ts_feed_stop_filtering stop_feed i) d;
            '(d, _) ← demux_do (dvbdmx_release_ts_feed i) d;
            remove_feeds pid feeds d
          else '(d, l) ← remove_feeds pid feeds d; Some (d, feed :: l)
      | None => '(d, l) ← remove_feeds pid feeds d; Some (d, feed :: l)
      end
  end.
Definition dvb_dmxdev_remove_pid (j : nat) (pid : Z) (d : dmxdev) : option (dmxdev * Z) :=
  f ← dev_filters d !! j;
  if negb (dev_type f =? DMXDEV_TYPE_PES) || (dev_state f <? DMXDEV_STATE_SET) then Some (d, - EINVAL) else
  '(d, l) ← remove_feeds pid (ts_feeds f) d;
  d ← with_filter j (set_ts_feeds l) d; Some (d, 0).

Definition dvb_dmxdev_filter_set (j : nat) (p : dmx_sct_filter_params) (d : dmxdev) : option (dmxdev * Z) :=
  '(d, _) ← dvb_dmxdev_filter_stop j d;
  d ← with_filter j (fun f => set_params (ParamsSec (SctParams (sct_pid p) (invert_mode (sct_filter p)) (sct_timeout p) (sct_flags p)))
                                (set_dev_type DMXDEV_TYPE_SEC f)) d;
  d ← dvb_dmxdev_filter_state_set j DMXDEV_STATE_SET d;
  if negb (Z.land (sct_flags p) DMX_IMMEDIATE_START =? 0) then dvb_dmxdev_filter_start j d else Some (d, 0).

Definition dvb_dmxdev_pes_filter_set (j : nat) (p : dmx_pes_filter_params) (d : dmxdev) : option (dmxdev * Z) :=
  '(d, _) ← dvb_dmxdev_filter_stop j d;
  '(d, _) ← dvb_dmxdev_filter_reset j d;
  if DMX_PES_OTHER <? u32 (pes_filter_type p) then Some (d, - EINVAL) else
  d ← with_filter j (fun f => set_ts_feeds [] (set_params (ParamsPes p) (set_dev_type DMXDEV_TYPE_PES f))) d;
  d ← dvb_dmxdev_filter_state_set j DMXDEV_STATE_SET d;
  '(d, ret) ← dvb_dmxdev_add_pid j (pes_pid p) d;
  if ret <? 0 then Some (d, ret) else
  if negb (Z.land (pes_flags p) DMX_IMMEDIATE_START =? 0) then dvb_dmxdev_filter_start j d else Some (d, 0).

(** The memory of a buffer changes and what it holds is lost. *)
Definition new_buffer (size : Z) (mem : list Z) (r : dvb_ringbuffer) : dvb_ringbuffer :=
  dvb_ringbuffer_reset (DvbRingbuffer mem size (rb_pread r) (rb_pwrite r) (rb_error r)).
Definition dvb_dmxdev_set_buffer_size (j : nat) (size : Z) (d : dmxdev) : option (dmxdev * Z) :=
  f ← dev_filters d !! j;
  if rb_size (dev_buffer f) =? size then Some (d, 0) else
  if size =? 0 then Some (d, - EINVAL) else
  if DMXDEV_STATE_GO <=? dev_state f then Some (d, - EBUSY) else
  let '(mem, d) := get_memory size d in
  match mem with
  | None => Some (d, - ENOMEM)
  | Some mem => d ← with_filter j (fun f => set_buffer (new_buffer size mem (dev_buffer f)) f) d; Some (d, 0)
  end.

(** ** The files of the demux device *)

(** An open file is the index of its filter. *)
Definition dvb_demux_open (d : dmxdev) : option (dmxdev * Z * option nat) :=
  if bool_decide (dev_filters d = []) then Some (d, - EINVAL, None) else
  let '(s, d) := interrupted d in
  if s then Some (d, - ERESTARTSYS, None) else
  match list_find (fun f => dev_state f = DMXDEV_STATE_FREE) (dev_filters d) with
  | None => Some (d, - EMFILE, None)
  | Some (j, _) =>
      d ← with_filter j (fun f => set_timer None (set_dev_type DMXDEV_TYPE_NONE (set_buffer (dvb_ringbuffer_init [] 8192) f))) d;
      d ← dvb_dmxdev_filter_state_set j DMXDEV_STATE_ALLOCATED d;
      Some (set_dev_users (dev_users d + 1) d, 0, Some j)
  end.

Definition dvb_dmxdev_filter_free (j : nat) (d : dmxdev) : option (dmxdev * Z) :=
  '(d, _) ← dvb_dmxdev_filter_stop j d;
  '(d, _) ← dvb_dmxdev_filter_reset j d;
  d ← with_filter j (fun f => set_buffer (set_data [] (dev_buffer f)) f) d;
  d ← dvb_dmxdev_filter_state_set j DMXDEV_STATE_FREE d;
  Some (d, 0).
Definition dvb_demux_release (j : nat) (d : dmxdev) : option (dmxdev * Z) :=
  '(d, ret) ← dvb_dmxdev_filter_free j d;
  Some (set_dev_users (dev_users d - 1) d, ret).

Section files.
Context (copy_to_user : list Z -> Z) (wait_ring : dvb_ringbuffer -> option dvb_ringbuffer).
(** Operations the driver may add to the demultiplexer. *)
Context (get_caps set_source get_stc : option Z).

Definition dvb_demux_read (j : nat) (non_blocking : bool) (count : Z) (copy_back : bool) (d : dmxdev) :
    option (dmxdev * Z * list Z) :=
  let '(s, d) := interrupted d in
  if s then Some (d, - ERESTARTSYS, []) else
  f ← dev_filters d !! j;
  if dev_type f =? DMXDEV_TYPE_SEC then
    '(ret, b, f) ← dvb_dmxdev_read_sec copy_to_user wait_ring f non_blocking count copy_back;
    d ← with_filter j (fun _ => f) d; Some (d, ret, b)
  else
    '(ret, b, r) ← dvb_dmxdev_buffer_read copy_to_user wait_ring (dev_buffer f) non_blocking count;
    d ← with_filter j (set_buffer r) d; Some (d, ret, b).

Inductive dmx_cmd :=
| DMX_START | DMX_STOP | DMX_SET_FILTER (p : dmx_sct_filter_params) | DMX_SET_PES_FILTER (p : dmx_pes_filter_params)
| DMX_SET_BUFFER_SIZE (size : Z) | DMX_GET_PES_PIDS | DMX_GET_CAPS | DMX_SET_SOURCE | DMX_GET_STC
| DMX_ADD_PID (pid : Z) | DMX_REMOVE_PID (pid : Z) | DMX_OTHER.

Definition dvbdmx_get_pes_pids (m : dmx) : list Z := ztake 5 (pids m).

(** With the mutex of the filter. *)
Definition filter_locked (op : dmxdev -> option (dmxdev * Z)) (d : dmxdev) : option (dmxdev * Z * list Z) :=
  let '(s, d) := interrupted d in
  if s then Some (d, - ERESTARTSYS, []) else '(d, ret) ← op d; Some (d, ret, []).
Definition driver_op (op : option Z) (d : dmxdev) : option (dmxdev * Z * list Z) :=
  Some (d, if op is Some ret then ret else - EINVAL, []).

Definition dvb_demux_do_ioctl (j : nat) (cmd : dmx_cmd) (d : dmxdev) : option (dmxdev * Z * list Z) :=
  let '(s, d) := interrupted d in
  if s then Some (d, - ERESTARTSYS, []) else
  match cmd with
  | DMX_START => filter_locked (fun d =>
      f ← dev_filters d !! j;
      if dev_state f <? DMXDEV_STATE_SET then Some (d, - EINVAL) else dvb_dmxdev_filter_start j d) d
  | DMX_STOP => filter_locked (dvb_dmxdev_filter_stop j) d
  | DMX_SET_FILTER p => filter_locked (dvb_dmxdev_filter_set j p) d
  | DMX_SET_PES_FILTER p => filter_locked (dvb_dmxdev_pes_filter_set j p) d
  | DMX_SET_BUFFER_SIZE size => filter_locked (dvb_dmxdev_set_buffer_size j size) d
  | DMX_GET_PES_PIDS => Some (d, 0, dvbdmx_get_pes_pids (dev_dmx d))
  | DMX_GET_CAPS => driver_op get_caps d
  | DMX_SET_SOURCE => driver_op set_source d
  | DMX_GET_STC => driver_op get_stc d
  | DMX_ADD_PID pid => filter_locked (dvb_dmxdev_add_pid j pid) d
  | DMX_REMOVE_PID pid => filter_locked (dvb_dmxdev_remove_pid j pid) d
  | DMX_OTHER => Some (d, - EINVAL, [])
  end.

Definition POLLIN : Z := 0x1.
Definition POLLPRI : Z := 0x2.
Definition POLLOUT : Z := 0x4.
Definition POLLERR : Z := 0x8.
Definition POLLRDNORM : Z := 0x40.
Definition POLLWRNORM : Z := 0x100.
Definition poll_mask (r : dvb_ringbuffer) : Z :=
  let input := Z.lor (Z.lor POLLIN POLLRDNORM) POLLPRI in
  Z.lor (if rb_error r =? 0 then 0 else Z.lor input POLLERR)
        (if dvb_ringbuffer_empty r then 0 else input).
Definition dvb_demux_poll (j : nat) (d : dmxdev) : option Z :=
  f ← dev_filters d !! j;
  Some (if (dev_state f =? DMXDEV_STATE_GO) || (dev_state f =? DMXDEV_STATE_DONE) || (dev_state f =? DMXDEV_STATE_TIMEDOUT)
        then poll_mask (dev_buffer f) else 0).
End files.
End device.

(** ** What the demultiplexer delivers *)

(** The write of what a callback is given, in two parts; without room for it the buffer is
    emptied and the error kept. *)
Definition callback_write (r : dvb_ringbuffer) (buffer1 buffer2 : list Z) : option dvb_ringbuffer :=
  '(ret, r) ← dvb_dmxdev_buffer_write r buffer1;
  '(ret, r) ← (if ret =? zlen buffer1 then dvb_dmxdev_buffer_write r buffer2 else Some (ret, r));
  Some (if ret <? 0 then set_rb_error ret (dvb_ringbuffer_flush r) else r).

Definition dvb_dmxdev_section_callback (j : nat) (buffer1 buffer2 : list Z) (d : dmxdev) : option dmxdev :=
  f ← dev_filters d !! j;
  if negb (rb_error (dev_buffer f) =? 0) then Some d else
  if negb (dev_state f =? DMXDEV_STATE_GO) then Some d else
  r ← callback_write (dev_buffer f) buffer1 buffer2;
  para ← (if params f is ParamsSec p then Some p else None);
  with_filter j (fun f =>
    let f := set_buffer r (set_timer None f) in
    if negb (Z.land (sct_flags para) DMX_ONESHOT =? 0) then set_dev_state DMXDEV_STATE_DONE f else f) d.

Definition dvb_dmxdev_ts_callback (j : nat) (buffer1 buffer2 : list Z) (d : dmxdev) : option dmxdev :=
  f ← dev_filters d !! j;
  para ← (if params f is ParamsPes p then Some p else None);
  if pes_output para =? DMX_OUT_DECODER then Some d else
  if (pes_output para =? DMX_OUT_TAP) || (pes_output para =? DMX_OUT_TSDEMUX_TAP) then
    if negb (rb_error (dev_buffer f) =? 0) then Some d else
    r ← callback_write (dev_buffer f) buffer1 buffer2;
    with_filter j (set_buffer r) d
  else
    if negb (rb_error (dvr_buffer d) =? 0) then Some d else
    r ← callback_write (dvr_buffer d) buffer1 buffer2;
    Some (set_dvr_buffer r d).

Definition dvb_dmxdev_filter_timeout (j : nat) (d : dmxdev) : option dmxdev :=
  with_filter j (fun f => set_timer None (set_dev_state DMXDEV_STATE_TIMEDOUT
    (set_buffer (set_rb_error (- ETIMEDOUT) (dev_buffer f)) f))) d.

(** The callbacks of the events of the demultiplexer, in order. *)
Definition deliver_event (e : event) (d : dmxdev) : option dmxdev :=
  match e with
  | EvSection k data => j ← sec_priv d !! k; dvb_dmxdev_section_callback j data [] d
  | EvTs i data => j ← ts_priv d !! i; dvb_dmxdev_ts_callback j data [] d
  | EvDecoder _ _ => Some d
  end.
Fixpoint deliver_events (es : list event) (d : dmxdev) : option dmxdev :=
  match es with [] => Some d | e :: es => d ← deliver_event e d; deliver_events es d end.

Section stream.
Context (crc32_be : Z -> list Z -> Z) (after_base : Z -> Z) (dvb_demux_tscheck dvb_demux_feed_err_pkts : bool).

(** Data for the demultiplexer: the callbacks return 0 and do not look at its state. *)
Definition swfilter_deliver (buf : list Z) (d : dmxdev) : option dmxdev :=
  '(m, es) ← dvb_dmx_swfilter crc32_be (fun _ _ => 0) after_base dvb_demux_tscheck dvb_demux_feed_err_pkts
    (Demux (dm_core (dev_dmx d)) (dev_tsbuf d) (dev_tsbufp d)) buf;
  deliver_events es (set_tsbuf (tsbuf m) (tsbufp m) (set_dev_dmx (with_core (core m) (dev_dmx d)) d)).

(** ** The front ends of the demultiplexer *)

Definition dvbdmx_add_frontend (fe : nat) (source : Z) (d : dmxdev) : dmxdev * Z :=
  (set_frontend_list ((fe, source) :: frontend_list d) d, 0).
Definition dvbdmx_remove_frontend (fe : nat) (d : dmxdev) : dmxdev * Z :=
  match list_find (fun p => fst p = fe) (frontend_list d) with
  | Some (k, _) => (set_frontend_list (delete k (frontend_list d)) d, 0)
  | None => (d, - ENODEV)
  end.
Definition dvbdmx_get_frontends (d : dmxdev) : option (list (nat * Z)) :=
  if bool_decide (frontend_list d = []) then None else Some (frontend_list d).
(** With the mutex of the demultiplexer. *)
Definition demux_locked (d : dmxdev) : option unit := if mutex (dev_dmx d) then None else Some tt.
Definition dvbdmx_connect_frontend (fe : option (nat * Z)) (d : dmxdev) : option (dmxdev * Z) :=
  if bool_decide (is_Some (frontend d)) then Some (d, - EINVAL) else
  _ ← demux_locked d; Some (set_frontend fe d, 0).
Definition dvbdmx_disconnect_frontend (d : dmxdev) : option (dmxdev * Z) :=
  _ ← demux_locked d; Some (set_frontend None d, 0).
Definition get_fe (type : Z) (d : dmxdev) : option (nat * Z) :=
  l ← dvbdmx_get_frontends d; snd <$> list_find (fun p => snd p = type) l.

(** [memdup] is the error of copying the data, if there is one. *)
Definition dvbdmx_write (memdup : option Z) (sig : nat -> bool) (buf : list Z) (d : dmxdev) : option (dmxdev * Z) :=
  if negb (if frontend d is Some fe then snd fe =? DMX_MEMORY_FE else false) then Some (d, - EINVAL) else
  match memdup with
  | Some err => Some (d, err)
  | None =>
      let '(s, d) := interrupted sig d in
      if s then Some (d, - ERESTARTSYS) else
      _ ← demux_locked d;
      d ← swfilter_deliver buf d;
      let '(s, d) := interrupted sig d in
      Some (d, if s then - EINTR else zlen buf)
  end.

(** ** The DVR device *)

Definition O_RDONLY : Z := 0.
Definition O_WRONLY : Z := 1.
Definition O_RDWR : Z := 2.

Context (sig : nat -> bool) (vmalloc : nat -> Z -> option (list Z)) (capabilities : Z).

Definition dvb_dvr_open (accmode : Z) (d : dmxdev) : option (dmxdev * Z) :=
  let '(s, d) := interrupted sig d in
  if s then Some (d, - ERESTARTSYS) else
  if dev_exit d then Some (d, - ENODEV) else
  if (accmode =? O_RDWR) && (Z.land capabilities DMXDEV_CAP_DUPLEX =? 0) then Some (d, - EOPNOTSUPP) else
  if (accmode =? O_RDONLY) && (dvr_readers d =? 0) then Some (d, - EBUSY) else
  let '(mem, d) := if accmode =? O_RDONLY then get_memory vmalloc DVR_BUFFER_SIZE d else (Some [], d) in
  match mem with
  | None => Some (d, - ENOMEM)
  | Some mem =>
      let d := if accmode =? O_RDONLY
               then set_dvr_users (dvr_users d) (dvr_readers d - 1) (set_dvr_buffer (dvb_ringbuffer_init mem DVR_BUFFER_SIZE) d) else d in
      '(d, ret) ← (if accmode =? O_WRONLY then
                     let d := set_orig_fe (frontend d) d in
                     match get_fe DMX_MEMORY_FE d with
                     | None => Some (d, - EINVAL)
                     | Some front =>
                         '(d, _) ← dvbdmx_disconnect_frontend d;
                         '(d, _) ← dvbdmx_connect_frontend (Some front) d; Some (d, 0)
                     end
                   else Some (d, 0));
      if ret <? 0 then Some (d, ret) else Some (set_dvr_users (dvr_users d + 1) (dvr_readers d) d, 0)
  end.

Definition dvb_dvr_release (accmode : Z) (d : dmxdev) : option (dmxdev * Z) :=
  d ← (if accmode =? O_WRONLY then
         '(d, _) ← dvbdmx_disconnect_frontend d;
         '(d, _) ← dvbdmx_connect_frontend (dvr_orig_fe d) d; Some d
       else Some d);
  let d := if accmode =? O_RDONLY
           then set_dvr_users (dvr_users d) (dvr_readers d + 1) (set_dvr_buffer (set_data [] (dvr_buffer d)) d) else d in
  Some (set_dvr_users (dvr_users d - 1) (dvr_readers d) d, 0).

Definition dvb_dvr_write (memdup : option Z) (accmode : Z) (buf : list Z) (d : dmxdev) : option (dmxdev * Z) :=
  if negb (accmode =? O_WRONLY) then Some (d, - EINVAL) else
  let '(s, d) := interrupted sig d in
  if s then Some (d, - ERESTARTSYS) else
  if dev_exit d then Some (d, - ENODEV) else dvbdmx_write memdup sig buf d.

Definition dvb_dvr_read (copy_to_user : list Z -> Z) (wait_ring : dvb_ringbuffer -> option dvb_ringbuffer)
    (non_blocking : bool) (count : Z) (d : dmxdev) : option (dmxdev * Z * list Z) :=
  if dev_exit d then Some (d, - ENODEV, []) else
  '(ret, b, r) ← dvb_dmxdev_buffer_read copy_to_user wait_ring (dvr_buffer d) non_blocking count;
  Some (set_dvr_buffer r d, ret, b).

Definition dvb_dvr_set_buffer_size (size : Z) (d : dmxdev) : dmxdev * Z :=
  if rb_size (dvr_buffer d) =? size then (d, 0) else
  if size =? 0 then (d, - EINVAL) else
  let '(mem, d) := get_memory vmalloc size d in
  match mem with
  | None => (d, - ENOMEM)
  | Some mem => (set_dvr_buffer (new_buffer size mem (dvr_buffer d)) d, 0)
  end.
Definition dvb_dvr_do_ioctl (cmd : dmx_cmd) (d : dmxdev) : dmxdev * Z :=
  let '(s, d) := interrupted sig d in
  if s then (d, - ERESTARTSYS) else
  match cmd with DMX_SET_BUFFER_SIZE size => dvb_dvr_set_buffer_size size d | _ => (d, - EINVAL) end.

Definition dvb_dvr_poll (accmode : Z) (d : dmxdev) : Z :=
  if accmode =? O_RDONLY then poll_mask (dvr_buffer d) else Z.lor (Z.lor POLLOUT POLLWRNORM) POLLPRI.

(** ** Set-up and removal *)

(** The memory of the table of filters is not cleared: [garbage] is what it holds. *)
Definition dvb_dmxdev_init (garbage : option (list dmxdev_filter)) (m : dmx) (tsbuf : list Z) (tsbufp : Z) (fes : list (nat * Z)) (fe : option (nat * Z)) :
    option dmxdev * Z :=
  let '(m, ret) := dvbdmx_open m in
  if ret <? 0 then (None, - EUSERS) else
  match garbage with
  | None => (None, - ENOMEM)
  | Some fs =>
      let fs := map (fun f => set_dev_state DMXDEV_STATE_FREE (set_buffer (set_data [] (dev_buffer f)) f)) fs in
      (Some (DmxDev fs m tsbuf tsbufp ∅ ∅ fes fe None (dvb_ringbuffer_init [] 8192) false 1 1 1 0%nat), 0)
  end.

(** It sleeps until both devices have no other users. *)
Definition dvb_dmxdev_release (d : dmxdev) : option dmxdev :=
  let d := set_exit true d in
  if (1 <? dev_users d) || (1 <? dvr_users d) then None else
  let '(m, _) := dvbdmx_close (dev_dmx d) in
  Some (set_dev_filters [] (set_dev_dmx m d)).
End stream.
