(* ===== verification/DmxDevRead.v ===== *)
(** * DmxDevRead: what is read from a section filter

    The buffer of a section filter as a queue of sections: the callback of the
    demultiplexer puts whole sections in, [read] takes them out, in pieces of any size, but
    never with bytes of two sections in one call. *)

From stdpp Require Import gmap.
From S2P Require Import Prelude DvbRingbuffer DvbDemux TsFilter DmxFeeds DmxDev.

(** ** The ring *)

Lemma ring_write_error r buf n r' : dvb_ringbuffer_write r buf = Some (n, r') -> rb_error r' = rb_error r.
Proof.
  unfold dvb_ringbuffer_write. destruct (0 <? _).
  - destruct (copy_into (rb_data r) _ _); [|done]. cbn [mbind option_bind]. destruct (copy_into _ _ _); [|done].
    cbn [mbind option_bind]. intros H. by injection H as _ <-.
  - destruct (copy_into _ _ _); [|done]. cbn [mbind option_bind]. intros H. by injection H as _ <-.
Qed.

Lemma has_data_ok r : rb_ok r -> has_data r = true.
Proof.
  intros (Hs & Hl & _). unfold has_data. rewrite bool_decide_false; [done|]. intros E. rewrite E in Hl.
  change (zlen []) with 0 in Hl. lia.
Qed.
Lemma flush_ok r : rb_ok r -> rb_ok (dvb_ringbuffer_flush r) /\ contents (dvb_ringbuffer_flush r) = [].
Proof.
  intros (Hs & Hl & Hr & Hw). split; [exact (conj Hs (conj Hl (conj Hw Hw)))|]. unfold contents, dvb_ringbuffer_avail. cbn [dvb_ringbuffer_flush rb_pwrite rb_pread rb_data rb_size].
  rewrite Z.sub_diag. done.
Qed.
Lemma set_error_ok r e : rb_ok r -> rb_ok (set_rb_error e r) /\ contents (set_rb_error e r) = contents r.
Proof. done. Qed.

(** The write of a callback: all of it, or nothing and the error. *)
Lemma callback_write_run r s : rb_ok r -> rb_error r = 0 -> 0 < zlen s ->
  exists r', callback_write r s [] = Some r' /\ rb_ok r' /\ rb_size r' = rb_size r /\
    if zlen (contents r) + zlen s <=? rb_size r - 1
    then contents r' = contents r ++ s /\ rb_error r' = 0 else contents r' = [] /\ rb_error r' = - EOVERFLOW.
Proof.
  intros Hok He Hs. pose proof (has_data_ok r Hok) as Hd. pose proof (avail_free r Hok) as [Hf Hf0]. pose proof (zlen_contents r Hok) as Hz.
  unfold callback_write, dvb_dmxdev_buffer_write. rewrite (proj2 (Z.eqb_neq (zlen s) 0)), Hd by lia. cbn [negb].
  pose proof (avail_range r Hok). pose proof (proj1 Hok). rewrite u64_small by lia.
  destruct (zlen (contents r) + zlen s <=? rb_size r - 1) eqn:E.
  - rewrite (proj2 (Z.ltb_ge (dvb_ringbuffer_free r) (zlen s))) by lia.
    destruct (write_run r s) as (r' & Ew & Hok' & Hc & Hsize & _); [done|lia|]. rewrite Ew. cbn [mbind option_bind].
    rewrite Z.eqb_refl. change (zlen [] =? 0) with true. cbn [mbind option_bind Z.ltb Z.compare].
    exists r'. split_and!; try done; try apply Hok'. by rewrite (ring_write_error _ _ _ _ Ew).
  - rewrite (proj2 (Z.ltb_lt (dvb_ringbuffer_free r) (zlen s))) by lia. cbn [mbind option_bind].
    rewrite (proj2 (Z.eqb_neq (- EOVERFLOW) (zlen s))) by (unfold EOVERFLOW; lia). cbn [mbind option_bind].
    change (- EOVERFLOW <? 0) with true. cbv iota. destruct (flush_ok r) as [Hfo Hfc]; [done|].
    exists (set_rb_error (- EOVERFLOW) (dvb_ringbuffer_flush r)). split_and!; try done; apply Hfo.
Qed.

Section reading.
Context (copy_to_user : list Z -> Z) (wait_ring : dvb_ringbuffer -> option dvb_ringbuffer).
Context (copies : forall b, copy_to_user b = 0).

Lemma read_user_run r n : rb_ok r -> 0 <= n <= dvb_ringbuffer_avail r ->
  exists r', dvb_ringbuffer_read_user copy_to_user r n = Some (n, ztake n (contents r), r') /\
    rb_ok r' /\ contents r' = zdrop n (contents r) /\ rb_size r' = rb_size r /\ rb_error r' = rb_error r.
Proof.
  intros Hok Hn. destruct (read_run r n Hok Hn) as (r' & E & Hok' & Hc & Hsize).
  exists r'. revert E. unfold dvb_ringbuffer_read, dvb_ringbuffer_read_user. destruct (0 <? _).
  - destruct (copy_from (rb_data r) _ _) as [b1|]; [|done]. cbn [mbind option_bind]. rewrite copies. cbn [Z.eqb negb].
    destruct (copy_from _ _ _) as [b2|]; [|done]. cbn [mbind option_bind]. rewrite copies. cbn [Z.eqb negb].
    intros E. injection E as Eb Er. rewrite Eb. subst r'. split_and!; try done; apply Hok'.
  - destruct (copy_from _ _ _) as [b|]; [|done]. cbn [mbind option_bind]. rewrite copies. cbn [Z.eqb negb].
    intros E. injection E as Eb Er. rewrite Eb. subst r'. split_and!; try done; apply Hok'.
Qed.

(** A read of what is there. *)
Lemma buffer_read_run r nb count : rb_ok r -> rb_error r = 0 -> 0 <= count <= zlen (contents r) ->
  exists r', dvb_dmxdev_buffer_read copy_to_user wait_ring r nb count = Some (count, ztake count (contents r), r') /\
    rb_ok r' /\ contents r' = zdrop count (contents r) /\ rb_size r' = rb_size r /\ rb_error r' = 0.
Proof.
  intros Hok He Hc. pose proof (has_data_ok r Hok) as Hd. rewrite (zlen_contents r Hok) in Hc. pose proof (avail_range r Hok) as Hr.
  unfold dvb_dmxdev_buffer_read. rewrite Hd, He. cbn [negb Z.eqb].
  destruct (decide (count = 0)) as [->|Hne].
  { cbn. exists r. rewrite ztake_0, zdrop_0. done. }
  destruct (Z.to_nat count) as [|fuel] eqn:Ef; [lia|]. cbn [buffer_read_loop]. rewrite (proj2 (Z.ltb_lt 0 count)) by lia.
  assert (Hemp : dvb_ringbuffer_empty r = false).
  { unfold dvb_ringbuffer_empty. apply Z.eqb_neq. destruct (avail_cases r); lia. }
  rewrite Hemp, andb_false_r. unfold readable. rewrite Hemp, He. cbn [negb orb Z.eqb].
  replace (if count <? dvb_ringbuffer_avail r then count else dvb_ringbuffer_avail r) with count by (destruct (count <? _) eqn:?; lia).
  destruct (read_user_run r count Hok ltac:(lia)) as (r' & -> & Hok' & Hcon & Hsize & Herr). cbn [mbind option_bind].
  rewrite (proj2 (Z.ltb_ge count 0)), Z.sub_diag by lia. try rewrite He. cbn [negb Z.eqb].
  assert (Eloop : forall ret out, buffer_read_loop copy_to_user wait_ring fuel nb 0 ret out r' = Some (0, ret, out, r')) by (by destruct fuel).
  rewrite Eloop. cbn [mbind option_bind]. rewrite Z.sub_0_r, (proj2 (Z.eqb_neq count 0)) by done. exists r'.
  split_and!; try done. by rewrite Herr.
Qed.

(** Nothing to read, or an error. *)
Lemma buffer_read_empty r count : rb_ok r -> rb_error r = 0 -> contents r = [] -> 0 < count ->
  dvb_dmxdev_buffer_read copy_to_user wait_ring r true count = Some (- EAGAIN, [], r).
Proof.
  intros Hok He Hc Hpos. unfold dvb_dmxdev_buffer_read. rewrite (has_data_ok r Hok), He. cbn [negb Z.eqb].
  destruct (Z.to_nat count) as [|fuel] eqn:Ef; [lia|]. cbn [buffer_read_loop]. rewrite (proj2 (Z.ltb_lt 0 count)) by lia.
  assert (Hemp : dvb_ringbuffer_empty r = true).
  { unfold dvb_ringbuffer_empty. apply Z.eqb_eq. pose proof (zlen_contents r Hok) as Hz. rewrite Hc in Hz. change (zlen []) with 0 in Hz.
    destruct Hok as (Hs & _ & ? & ?). destruct (avail_cases r); lia. }
  rewrite Hemp. cbn [andb mbind option_bind]. by rewrite Z.sub_diag.
Qed.
Lemma buffer_read_error r nb count : rb_ok r -> rb_error r <> 0 ->
  dvb_dmxdev_buffer_read copy_to_user wait_ring r nb count = Some (rb_error r, [], dvb_ringbuffer_flush r).
Proof.
  intros Hok He. unfold dvb_dmxdev_buffer_read. rewrite (has_data_ok r Hok). cbn [negb]. by rewrite (proj2 (Z.eqb_neq _ 0)).
Qed.
End reading.

(** ** Where a reader is *)

(** A section, its length in the header. *)
Definition whole (s : list Z) : Prop :=
  3 <= zlen s /\ zlen s = 3 + Z.land (Z.lor (Z.shiftl s.[1] 8) s.[2]) 0xfff.

(** The bytes [p] of a section have been read, [c] not; sections with the bytes [tail] follow. *)
Record reads (f : dmxdev_filter) (p c tail : list Z) : Prop := {
  rs_ok : rb_ok (dev_buffer f);
  rs_contents : contents (dev_buffer f) = c ++ tail;
  rs_error : rb_error (dev_buffer f) = 0;
  rs_header : zlen (secheader f) = 3;
  rs_todo : if zlen p <? 3 then todo f = - zlen p /\ ztake (zlen p) (secheader f) = p else todo f = zlen c }.

Lemma zsplice_prefix d i src : 0 <= i -> i + zlen src <= zlen d -> ztake (i + zlen src) (zsplice d i src) = ztake i d ++ src.
Proof.
  intros Hi Hl. pose proof (zlen_nonneg src). unfold zsplice. rewrite app_assoc. apply ztake_app.
  rewrite zlen_app, zlen_ztake by lia. lia.
Qed.

(** What other than the reader's position a filter has. *)
Definition same_filter (f g : dmxdev_filter) : Prop :=
  params g = params f /\ dev_type g = dev_type f /\ dev_state g = dev_state f /\ timer g = timer f /\
  rb_size (dev_buffer g) = rb_size (dev_buffer f).

Section reader.
Context (copy_to_user : list Z -> Z) (wait_ring : dvb_ringbuffer -> option dvb_ringbuffer).
Context (copies : forall b, copy_to_user b = 0).
Local Abbreviation read_sec f n := (dvb_dmxdev_read_sec copy_to_user wait_ring f true n false).

(** In the body of a section. *)
Lemma read_rest f p c tail n done out : reads f p c tail -> 3 <= zlen p -> 0 <= n ->
  exists f', read_sec_rest copy_to_user wait_ring f true n done out = Some (zlen (ztake n c) + done, out ++ ztake n c, f') /\
    reads f' (p ++ ztake n c) (zdrop n c) tail /\ same_filter f f'.
Proof.
  intros [Hok Hc He Hh Ht] Hp Hn. rewrite (proj2 (Z.ltb_ge (zlen p) 3)) in Ht by lia. pose proof (zlen_nonneg c).
  assert (Htk : ztake n c = ztake (Z.min n (zlen c)) c /\ zdrop n c = zdrop (Z.min n (zlen c)) c /\ zlen (ztake n c) = Z.min n (zlen c)).
  { destruct (decide (n <= zlen c)).
    - rewrite Z.min_l by done. by rewrite zlen_ztake.
    - rewrite Z.min_r by lia. rewrite !ztake_all, !zdrop_all by lia. done. }
  destruct Htk as (E1 & E2 & E3). unfold read_sec_rest. rewrite Ht.
  replace (if zlen c <? n then zlen c else n) with (Z.min n (zlen c)) by (destruct (zlen c <? n) eqn:?; lia).
  destruct (buffer_read_run copy_to_user wait_ring copies (dev_buffer f) true (Z.min n (zlen c)) Hok He) as (r' & -> & Hok' & Hc' & Hs' & He').
  { rewrite Hc, zlen_app. pose proof (zlen_nonneg tail). lia. }
  cbn [mbind option_bind]. rewrite (proj2 (Z.ltb_ge _ 0)) by lia. rewrite Hc, ztake_app_le, <- E1, E3 by lia.
  eexists. split; [reflexivity|]. split; [|done]. split; cbn; try done.
  - rewrite Hc', Hc, zdrop_app_le by lia. by rewrite E2.
  - rewrite zlen_app, E3, (proj2 (Z.ltb_ge _ 3)) by lia. rewrite E2, zlen_zdrop by lia. cbn. lia.
Qed.

(** In its header, and from there into the body. *)
Lemma read_sec_header f p c tail n : reads f p c tail -> zlen p < 3 -> whole (p ++ c) -> 0 <= n ->
  exists f', read_sec f n = Some (zlen (ztake n c), ztake n c, f') /\
    reads f' (p ++ ztake n c) (zdrop n c) tail /\ same_filter f f'.
Proof.
  intros [Hok Hc He Hh Ht] Hp [Hw3 Hw] Hn. rewrite (proj2 (Z.ltb_lt (zlen p) 3)) in Ht by lia. destruct Ht as [Ht Hpre].
  pose proof (zlen_nonneg p). pose proof (zlen_nonneg tail). rewrite zlen_app in Hw3, Hw.
  set (h := Z.min n (3 - zlen p)). unfold dvb_dmxdev_read_sec. rewrite (proj2 (Z.leb_le (todo f) 0)) by lia.
  replace (if n <? 3 + todo f then n else 3 + todo f) with h by (subst h; destruct (n <? 3 + todo f) eqn:?; lia).
  destruct (buffer_read_run copy_to_user wait_ring copies (dev_buffer f) true h Hok He) as (r' & -> & Hok' & Hc' & Hs' & He').
  { rewrite Hc, zlen_app. lia. }
  cbn [mbind option_bind]. rewrite (proj2 (Z.ltb_ge h 0)) by lia. cbv iota. rewrite Hc, ztake_app_le in * by lia.
  rewrite zdrop_app_le in Hc' by lia. pose proof (zlen_ztake h c ltac:(lia)) as Hlh.
  set (f1 := set_todo _ _). assert (Ht1 : todo f1 = - (zlen p + h)) by (cbn; lia). rewrite Ht1.
  assert (Hsh : ztake (zlen p + h) (secheader f1) = p ++ ztake h c).
  { pose proof (zsplice_prefix (secheader f) (zlen p) (ztake h c) ltac:(lia) ltac:(lia)) as Ez. rewrite Hlh, Hpre in Ez.
    cbn. by rewrite Ht, Z.opp_involutive. }
  assert (Hsl : zlen (secheader f1) = 3) by (cbn; rewrite zlen_zsplice by lia; done).
  destruct (-3 <? _) eqn:E3.
  - assert (h = n) as Ehn by lia. rewrite Ehn in *. rewrite Hlh. eexists. split; [reflexivity|]. split; [|done]. split; try done.
    rewrite zlen_app, Hlh, (proj2 (Z.ltb_lt _ 3)) by lia. split; [done|]. done.
  - assert (zlen p + h = 3) as Eh by lia.
    set (f2 := set_todo _ f1). assert (R : reads f2 (p ++ ztake h c) (zdrop h c) tail).
    { split; try done. rewrite zlen_app, Hlh, Eh. cbn [Z.ltb Z.compare Pos.compare Pos.compare_cont]. rewrite zlen_zdrop by lia.
      assert (Eat : forall i, 0 <= i < 3 -> (secheader f1).[i] = (p ++ c).[i]).
      { intros i Hi. rewrite <- (zat_ztake (secheader f1) 3 i) by lia. rewrite <- Eh, Hsh.
        rewrite !zat_app by lia. destruct (decide (i < zlen p)); [done|]. apply zat_ztake. lia. }
      change (todo f2) with (Z.land (Z.lor (Z.shiftl (secheader f1).[1] 8) (secheader f1).[2]) 0xfff).
      rewrite !Eat by lia. lia. }
    destruct (n - h =? 0) eqn:E0.
    + assert (h = n) as Ehn by lia. rewrite Ehn in *. rewrite Hlh. eexists. split; [reflexivity|]. split; [exact R|done].
    + destruct (read_rest f2 _ _ _ (n - h) h (ztake h c) R) as (f' & -> & R' & S'); [rewrite zlen_app; lia|lia|].
      assert (Etk : ztake n c = ztake h c ++ ztake (n - h) (zdrop h c)).
      { rewrite <- (ztake_zdrop h c) at 1. rewrite (ztake_app_plus n _ _ (n - h)) by lia. done. }
      exists f'. rewrite Etk, zlen_app, Hlh, (Z.add_comm h). split; [done|].
      split; [|destruct S' as (? & ? & ? & ? & Es); split_and!; try done; rewrite Es; exact Hs']. rewrite app_assoc.
      rewrite zdrop_zdrop in R' by lia. by replace (h + (n - h)) with n in R' by lia.
Qed.
Lemma read_sec_body f p c tail n : reads f p c tail -> 3 <= zlen p -> c <> [] -> 0 <= n ->
  exists f', read_sec f n = Some (zlen (ztake n c), ztake n c, f') /\
    reads f' (p ++ ztake n c) (zdrop n c) tail /\ same_filter f f'.
Proof.
  intros R Hp Hc Hn. pose proof (rs_todo _ _ _ _ R) as Ht. rewrite (proj2 (Z.ltb_ge (zlen p) 3)) in Ht by lia.
  assert (zlen c <> 0) by (intros E; by apply zlen_nil_inv in E). pose proof (zlen_nonneg c).
  unfold dvb_dmxdev_read_sec. rewrite (proj2 (Z.leb_gt (todo f) 0)) by lia.
  destruct (read_rest f p c tail n 0 [] R Hp Hn) as (f' & -> & HR). rewrite Z.add_0_r. by exists f'.
Qed.

(** Nothing to read. *)
Lemma read_sec_idle f n : reads f [] [] [] -> 0 <= n ->
  exists f', read_sec f n = Some (if n =? 0 then 0 else - EAGAIN, [], f') /\ reads f' [] [] [] /\ same_filter f f'.
Proof.
  intros [Hok Hc He Hh [Ht _]] Hn. change (- zlen []) with 0 in Ht. unfold dvb_dmxdev_read_sec. rewrite Ht. cbn [Z.leb Z.compare Z.add Z.opp].
  destruct (Z.eqb_spec n 0) as [->|Hne].
  - change (if 0 <? 3 + 0 then 0 else 3 + 0) with 0. destruct (buffer_read_run copy_to_user wait_ring copies (dev_buffer f) true 0 Hok He) as (r' & -> & Hok' & Hc' & Hs' & He').
    { pose proof (zlen_nonneg (contents (dev_buffer f))). lia. }
    cbn [mbind option_bind Z.ltb Z.compare]. rewrite ztake_0. set (f1 := set_todo _ (set_secheader _ _)).
    rewrite (proj2 (Z.ltb_lt (-3) (todo f1))) by (cbn; lia). exists f1. split; [done|]. split; [|done].
    subst f1. split; cbn [dev_buffer set_todo set_secheader set_buffer secheader todo]; rewrite ?zsplice_nil, ?Ht; try done. by rewrite Hc', Hc.
  - rewrite (buffer_read_empty copy_to_user wait_ring); [|done..|change (3 + 0) with 3; destruct (n <? 3) eqn:?; lia]. cbn [mbind option_bind].
    eexists. split; [reflexivity|]. by split.
Qed.

(** ** The queue of sections *)

(** A section of which [sq_read] has been read and [sq_cur] not, sections that wait, the error
    that the next read returns, and whether the filter takes sections. *)
Record sec_queue := SecQueue {
  sq_read : list Z; sq_cur : list Z; sq_next : list (list Z); sq_error : Z; sq_on : bool }.
Definition set_on (v : bool) (q : sec_queue) : sec_queue := SecQueue (sq_read q) (sq_cur q) (sq_next q) (sq_error q) v.

(** All is lost; what follows a section that is half lost is not said. *)
Definition q_fail (err : Z) (on : bool) (q : sec_queue) : option sec_queue :=
  if 3 <=? zlen (sq_read q) then None else Some (SecQueue [] [] [] err on).
(** A section for a buffer of [size] bytes. *)
Definition q_section (oneshot : bool) (size : Z) (s : list Z) (q : sec_queue) : option sec_queue :=
  if negb (sq_error q =? 0) || negb (sq_on q) then Some q else
  if zlen (sq_cur q ++ concat (sq_next q)) + zlen s <=? size - 1
  then Some (SecQueue (sq_read q) (sq_cur q) (sq_next q ++ [s]) 0 (negb oneshot))
  else q_fail (- EOVERFLOW) (negb oneshot) q.
(** At most [n] bytes of one section. *)
Definition q_sections (q : sec_queue) : list (list Z) :=
  if bool_decide (sq_cur q = []) then sq_next q else sq_cur q :: sq_next q.
Definition q_read (n : Z) (q : sec_queue) : Z * list Z * sec_queue :=
  if negb (sq_error q =? 0) then (sq_error q, [], SecQueue [] [] [] 0 (sq_on q)) else
  match q_sections q with
  | [] => (if n =? 0 then 0 else - EAGAIN, [], q)
  | c :: next =>
      (zlen (ztake n c), ztake n c,
       SecQueue (if bool_decide (zdrop n c = []) then [] else sq_read q ++ ztake n c) (zdrop n c) next 0 (sq_on q))
  end.

(** The filter is the queue. *)
Record holds (size : Z) (oneshot : bool) (f : dmxdev_filter) (q : sec_queue) : Prop := {
  hq_ok : rb_ok (dev_buffer f);
  hq_size : rb_size (dev_buffer f) = size;
  hq_error : rb_error (dev_buffer f) = sq_error q;
  hq_neg : sq_error q <= 0;
  hq_header : zlen (secheader f) = 3;
  hq_on : (dev_state f =? DMXDEV_STATE_GO) = sq_on q;
  hq_type : dev_type f = DMXDEV_TYPE_SEC;
  hq_params : exists para, params f = ParamsSec para /\ negb (Z.land (sct_flags para) DMX_ONESHOT =? 0) = oneshot;
  hq_queue : if sq_error q =? 0
    then reads f (sq_read q) (sq_cur q) (concat (sq_next q)) /\ Forall whole (sq_next q) /\
         (if bool_decide (sq_cur q = []) then sq_read q = [] else whole (sq_read q ++ sq_cur q))
    else todo f <= 0 }.

(** A position at the end of a section is one before the next. *)
Lemma reads_next f s c tail : reads f s [] (c ++ tail) -> 3 <= zlen s -> reads f [] c tail.
Proof.
  intros [? Hc ? ? Ht] Hs. rewrite (proj2 (Z.ltb_ge (zlen s) 3)) in Ht by lia. by split.
Qed.
Lemma reads_idle f tail c : reads f [] [] (c ++ tail) -> reads f [] c tail.
Proof. intros [? Hc ? ? Ht]. split; try done. Qed.

Lemma holds_next size oneshot f f' q c next n : holds size oneshot f q -> same_filter f f' -> 0 <= n ->
  sq_error q = 0 -> whole (sq_read q ++ c) -> Forall whole next ->
  reads f' (sq_read q ++ ztake n c) (zdrop n c) (concat next) ->
  holds size oneshot f' (SecQueue (if bool_decide (zdrop n c = []) then [] else sq_read q ++ ztake n c) (zdrop n c) next 0 (sq_on q)).
Proof.
  intros [? ? ? ? ? ? ? ? _] (Ep & Et & Es & _ & Eb) Hn He Hw Hnext R. split; cbn; try congruence; try apply R.
  - by rewrite Ep.
  - case_bool_decide as E.
    + split_and!; [|done|done]. rewrite E in R |- *. apply (reads_next _ (sq_read q ++ ztake n c)); [exact R|].
      rewrite <- (ztake_zdrop n c), E, app_nil_r in Hw. apply Hw.
    + split_and!; [done..|]. by rewrite <- app_assoc, ztake_zdrop.
Qed.

Lemma holds_read size oneshot f q n : holds size oneshot f q -> 0 <= n ->
  let '(ret, b, q') := q_read n q in
  exists f', read_sec f n = Some (ret, b, f') /\ holds size oneshot f' q'.
Proof.
  intros H Hn. pose proof H as []. unfold q_read. destruct (Z.eqb_spec (sq_error q) 0) as [He|He]; cbn [negb].
  - destruct hq_queue0 as (R & Hnext & Hcur). unfold q_sections. case_bool_decide as Ecur.
    + rewrite Hcur, Ecur in R. destruct (sq_next q) as [|c next] eqn:En.
      * destruct (read_sec_idle f n R Hn) as (f' & -> & R' & (Ep & Et & Es & _ & Eb)).
        exists f'. split; [done|]. split; try congruence; try apply R'.
        -- rewrite He. apply R'.
        -- by rewrite Ep.
        -- rewrite He, En, Hcur, Ecur. done.
      * apply Forall_cons_iff in Hnext as [Hc Hnext].
        destruct (read_sec_header f [] c (concat next) n) as (f' & -> & R' & S'); [apply (reads_idle f); exact R|done..|].
        exists f'. split; [done|]. apply (holds_next size oneshot f f' q c next n); rewrite ?Hcur; done.
    + assert (exists f', read_sec f n = Some (zlen (ztake n (sq_cur q)), ztake n (sq_cur q), f') /\
        reads f' (sq_read q ++ ztake n (sq_cur q)) (zdrop n (sq_cur q)) (concat (sq_next q)) /\ same_filter f f') as (f' & E & R' & S').
      { destruct (decide (zlen (sq_read q) < 3)); [by apply read_sec_header|]. apply read_sec_body; [done|lia|done..]. }
      exists f'. split; [done|]. by apply (holds_next size oneshot f f' q (sq_cur q) (sq_next q) n).
  - unfold dvb_dmxdev_read_sec. rewrite (proj2 (Z.leb_le (todo f) 0)) by done.
    rewrite (buffer_read_error copy_to_user wait_ring), hq_error0 by congruence. cbn [mbind option_bind].
    rewrite (proj2 (Z.ltb_lt (sq_error q) 0)) by lia. destruct (flush_ok (dev_buffer f) hq_ok0) as [Hok Hc].
    eexists. split; [reflexivity|]. by split.
Qed.
(** ** The file of a section filter *)

Inductive sec_op := SecArrives (s : list Z) | SecRead (n : Z) | SecTimeout.
Definition sec_op_ok (o : sec_op) : Prop :=
  match o with SecArrives s => whole s | SecRead n => 0 <= n | SecTimeout => True end.

(** What the reads return. *)
Fixpoint q_run (oneshot : bool) (size : Z) (ops : list sec_op) (q : sec_queue) : option (list (Z * list Z) * sec_queue) :=
  match ops with
  | [] => Some ([], q)
  | SecArrives s :: ops => q ← q_section oneshot size s q; q_run oneshot size ops q
  | SecTimeout :: ops => q ← q_fail (- ETIMEDOUT) false q; q_run oneshot size ops q
  | SecRead n :: ops =>
      let '(ret, b, q) := q_read n q in
      '(outs, q) ← q_run oneshot size ops q; Some ((ret, b) :: outs, q)
  end.
Fixpoint file_run (j : nat) (ops : list sec_op) (d : dmxdev) : option (list (Z * list Z) * dmxdev) :=
  match ops with
  | [] => Some ([], d)
  | SecArrives s :: ops => d ← dvb_dmxdev_section_callback j s [] d; file_run j ops d
  | SecTimeout :: ops => d ← dvb_dmxdev_filter_timeout j d; file_run j ops d
  | SecRead n :: ops =>
      '(d, ret, b) ← dvb_demux_read (fun _ => false) copy_to_user wait_ring j true n false d;
      '(outs, d) ← file_run j ops d; Some ((ret, b) :: outs, d)
  end.

Lemma holds_fail size oneshot f f' q err on q' : holds size oneshot f q -> q_fail err on q = Some q' -> err < 0 ->
  rb_ok (dev_buffer f') -> rb_size (dev_buffer f') = size -> rb_error (dev_buffer f') = err ->
  params f' = params f -> dev_type f' = dev_type f -> (dev_state f' =? DMXDEV_STATE_GO) = on ->
  todo f' = todo f -> secheader f' = secheader f -> holds size oneshot f' q'.
Proof.
  intros [] Hq Herr Hok Hs He Hp Ht Hst Htd Hsh. unfold q_fail in Hq. destruct (3 <=? zlen (sq_read q)) eqn:E3; [done|]. injection Hq as <-.
  split; cbn; try congruence; try lia.
  - by rewrite Hp.
  - rewrite (proj2 (Z.eqb_neq err 0)) by lia. rewrite Htd. pose proof (zlen_nonneg (sq_read q)).
    destruct (sq_error q =? 0); [|done]. destruct hq_queue0 as ([_ _ _ _ Hr] & _). rewrite (proj2 (Z.ltb_lt _ 3)) in Hr by lia. lia.
Qed.
Lemma holds_arrives size oneshot f q s q' : holds size oneshot f q -> whole s -> q_section oneshot size s q = Some q' ->
  sq_error q = 0 -> sq_on q = true ->
  exists r para, callback_write (dev_buffer f) s [] = Some r /\ params f = ParamsSec para /\
    let f1 := set_buffer r (set_timer None f) in
    holds size oneshot (if negb (Z.land (sct_flags para) DMX_ONESHOT =? 0) then set_dev_state DMXDEV_STATE_DONE f1 else f1) q'.
Proof.
  intros H [Hs Hlen] Hq He Hon. pose proof H as []. destruct hq_params0 as (para & Hp & Hone).
  destruct (callback_write_run (dev_buffer f) s hq_ok0) as (r & -> & Hok & Hsize & Hr); [congruence|lia|].
  exists r, para. split_and!; [done..|]. cbn zeta. rewrite Hone. unfold q_section in Hq. rewrite He, Hon in Hq. cbn [negb orb Z.eqb] in Hq.
  rewrite He in hq_queue0. cbn [Z.eqb] in hq_queue0. destruct hq_queue0 as ([_ Hc _ Hh Ht] & Hnext & Hcur). rewrite Hc, hq_size0 in Hr.
  rewrite Hon in hq_on0. destruct (zlen _ + zlen s <=? size - 1).
  - injection Hq as <-. destruct Hr as [Hc' He']. destruct oneshot; split; cbn; try congruence; try done; try by exists para.
    all: split_and!; [split; cbn; try done; by rewrite Hc', concat_app, <- app_assoc; cbn; rewrite app_nil_r|..|done].
    all: by apply Forall_app; split; [|constructor].
  - destruct Hr as [Hc' He']. apply (holds_fail size oneshot f _ q _ _ q' H Hq); try by destruct oneshot.
    all: destruct oneshot; cbn; congruence.
Qed.
Lemma with_filter_at j g d f : dev_filters d !! j = Some f ->
  exists d', with_filter j g d = Some d' /\ dev_filters d' !! j = Some (g f).
Proof.
  intros Hj. unfold with_filter. rewrite Hj. eexists. split; [reflexivity|]. cbn.
  apply list_lookup_insert_eq. by apply lookup_lt_Some in Hj.
Qed.

Lemma file_arrives size oneshot j f d q s q' : dev_filters d !! j = Some f -> holds size oneshot f q -> whole s ->
  q_section oneshot size s q = Some q' ->
  exists d' f', dvb_dmxdev_section_callback j s [] d = Some d' /\ dev_filters d' !! j = Some f' /\ holds size oneshot f' q'.
Proof.
  intros Hj H Hs Hq. unfold dvb_dmxdev_section_callback. rewrite Hj. cbn [mbind option_bind].
  rewrite (hq_error _ _ _ _ H), (hq_on _ _ _ _ H). pose proof Hq as Hq'. unfold q_section in Hq'.
  destruct (Z.eqb_spec (sq_error q) 0) as [He|He]; cbn [negb orb] in *; [|injection Hq' as <-; by exists d, f].
  destruct (sq_on q) eqn:Hon; cbn [negb] in *; [|injection Hq' as <-; by exists d, f].
  destruct (holds_arrives size oneshot f q s q' H Hs Hq He Hon) as (r & para & -> & -> & H'). cbn [mbind option_bind].
  edestruct (with_filter_at j) as (d' & -> & Hj'); [done|]. by exists d'; eexists.
Qed.
Lemma file_timeout size oneshot j f d q q' : dev_filters d !! j = Some f -> holds size oneshot f q ->
  q_fail (- ETIMEDOUT) false q = Some q' ->
  exists d' f', dvb_dmxdev_filter_timeout j d = Some d' /\ dev_filters d' !! j = Some f' /\ holds size oneshot f' q'.
Proof.
  intros Hj H Hq. unfold dvb_dmxdev_filter_timeout. edestruct (with_filter_at j) as (d' & -> & Hj'); [done|].
  exists d'; eexists. split_and!; [done..|]. eapply (holds_fail size oneshot f _ q _ _ q' H Hq); try done; apply H.
Qed.
Lemma file_read size oneshot j f d q n : dev_filters d !! j = Some f -> holds size oneshot f q -> 0 <= n ->
  let '(ret, b, q') := q_read n q in
  exists d' f', dvb_demux_read (fun _ => false) copy_to_user wait_ring j true n false d = Some (d', ret, b) /\
    dev_filters d' !! j = Some f' /\ holds size oneshot f' q'.
Proof.
  intros Hj H Hn. pose proof (holds_read size oneshot f q n H Hn) as Hr. destruct (q_read n q) as [[ret b] q'].
  destruct Hr as (f' & E & H'). unfold dvb_demux_read, interrupted. cbn [dev_filters count_call]. rewrite Hj. cbn [mbind option_bind].
  rewrite (hq_type _ _ _ _ H), E. cbn [Z.eqb Pos.eqb DMXDEV_TYPE_SEC mbind option_bind].
  destruct (with_filter_at j (fun _ => f') (count_call d) f Hj) as (d' & -> & Hj'). by exists d', f'.
Qed.

(** A filter that has just been started. *)
Definition sec_started (size : Z) (oneshot : bool) (f : dmxdev_filter) : Prop :=
  dev_type f = DMXDEV_TYPE_SEC /\ dev_state f = DMXDEV_STATE_GO /\
  (exists para, params f = ParamsSec para /\ negb (Z.land (sct_flags para) DMX_ONESHOT =? 0) = oneshot) /\
  rb_ok (dev_buffer f) /\ rb_size (dev_buffer f) = size /\ rb_error (dev_buffer f) = 0 /\ contents (dev_buffer f) = [] /\
  todo f = 0 /\ zlen (secheader f) = 3.
Definition empty_queue : sec_queue := SecQueue [] [] [] 0 true.
Lemma started_holds size oneshot f : sec_started size oneshot f -> holds size oneshot f empty_queue.
Proof. intros (? & Hst & ? & ? & ? & ? & ? & ? & ?). split; try done. by rewrite Hst. Qed.

Lemma file_run_queue size oneshot j ops : Forall sec_op_ok ops -> forall f d q outs q',
  dev_filters d !! j = Some f -> holds size oneshot f q -> q_run oneshot size ops q = Some (outs, q') ->
  exists d' f', file_run j ops d = Some (outs, d') /\ dev_filters d' !! j = Some f' /\ holds size oneshot f' q'.
Proof.
  induction 1 as [|o ops Ho _ IH]; intros f d q outs q' Hj H E.
  - injection E as <- <-. by exists d, f.
  - destruct o as [s|n|]; cbn [q_run file_run] in *.
    + destruct (q_section oneshot size s q) as [q1|] eqn:Eq; [|done].
      destruct (file_arrives size oneshot j f d q s q1 Hj H Ho Eq) as (d1 & f1 & -> & Hj1 & H1). exact (IH f1 d1 q1 outs q' Hj1 H1 E).
    + pose proof (file_read size oneshot j f d q n Hj H Ho) as Hr. destruct (q_read n q) as [[ret b] q1].
      destruct Hr as (d1 & f1 & -> & Hj1 & H1). destruct (q_run oneshot size ops q1) as [[outs1 q2]|] eqn:Eq; [|done].
      injection E as <- <-. destruct (IH f1 d1 q1 outs1 q2 Hj1 H1 Eq) as (d2 & f2 & Er & Hj2 & H2). exists d2, f2.
      cbn [mbind option_bind]. by rewrite Er.
    + destruct (q_fail (- ETIMEDOUT) false q) as [q1|] eqn:Eq; [|done].
      destruct (file_timeout size oneshot j f d q q1 Hj H Eq) as (d1 & f1 & -> & Hj1 & H1). exact (IH f1 d1 q1 outs q' Hj1 H1 E).
Qed.
End reader.

(** ** Nothing is lost without an error *)

Definition arrived (ops : list sec_op) : list Z := concat (omap (fun o => if o is SecArrives s then Some s else None) ops).
(** A read that returned no error but that of having to wait. *)
Definition no_loss (o : Z * list Z) : Prop := fst o = zlen (snd o) \/ fst o = - EAGAIN.

Lemma q_run_failed size ops : forall q outs q', sq_error q < 0 -> sq_error q <> - EAGAIN ->
  q_run false size ops q = Some (outs, q') -> sq_error q' = 0 -> Forall no_loss outs -> False.
Proof.
  induction ops as [|[s|n|] ops IH]; intros q outs q' He Ha E Hz Hg; cbn [q_run] in E.
  - injection E as <- <-. lia.
  - unfold q_section in E. rewrite (proj2 (Z.eqb_neq (sq_error q) 0)) in E by lia. by apply (IH q outs q').
  - unfold q_read in E. rewrite (proj2 (Z.eqb_neq (sq_error q) 0)) in E by lia. cbn [negb] in E.
    destruct (q_run _ _ _ _) as [[outs1 q1]|]; [|done]. injection E as <- <-. apply Forall_cons_iff in Hg as [[Hg|Hg] _]; cbn [fst snd] in Hg; [change (zlen []) with 0 in Hg; lia|done].
  - unfold q_fail in E. destruct (3 <=? _); [done|]. by eapply IH in E.
Qed.
Lemma q_read_lossless n q : sq_error q = 0 ->
  let '(ret, b, q') := q_read n q in
  b ++ sq_cur q' ++ concat (sq_next q') = sq_cur q ++ concat (sq_next q) /\ sq_error q' = 0 /\ sq_on q' = sq_on q.
Proof.
  intros He. unfold q_read, q_sections. rewrite He. cbn [Z.eqb negb]. case_bool_decide as E.
  - destruct (sq_next q) as [|c next] eqn:En; [by rewrite E, En|]. cbn. by rewrite app_assoc, ztake_zdrop, E.
  - cbn. by rewrite app_assoc, ztake_zdrop.
Qed.
Lemma q_run_lossless size ops : forall q outs q', sq_error q = 0 -> sq_on q = true ->
  q_run false size ops q = Some (outs, q') -> sq_error q' = 0 -> Forall no_loss outs ->
  concat (snd <$> outs) ++ sq_cur q' ++ concat (sq_next q') = sq_cur q ++ concat (sq_next q) ++ arrived ops.
Proof.
  induction ops as [|[s|n|] ops IH]; intros q outs q' He Hon E Hz Hg; cbn [q_run] in E.
  - injection E as <- <-. by rewrite app_nil_r.
  - unfold q_section in E. rewrite He, Hon in E. cbn [Z.eqb negb orb] in E. destruct (_ <=? size - 1).
    + cbn [mbind option_bind] in E. apply IH in E; [rewrite E|done..]. cbn. rewrite concat_app, <- !app_assoc. cbn. by rewrite app_nil_r.
    + unfold q_fail in E. destruct (3 <=? _); [done|]. cbn [mbind option_bind] in E. exfalso. by apply q_run_failed in E.
  - pose proof (q_read_lossless n q He) as Hr. destruct (q_read n q) as [[ret b] q1]. destruct Hr as (Hb & He1 & Hon1).
    destruct (q_run false size ops q1) as [[outs1 q2]|] eqn:Eq; [|done]. injection E as <- <-. apply Forall_cons_iff in Hg as [_ Hg].
    rewrite fmap_cons. cbn [concat snd]. rewrite <- app_assoc, (IH q1 outs1 q2 He1) by (done || congruence).
    change (arrived (SecRead n :: ops)) with (arrived ops). by rewrite !app_assoc, <- (app_assoc b), Hb.
  - unfold q_fail in E. destruct (3 <=? _); [done|]. cbn [mbind option_bind] in E. exfalso. by apply q_run_failed in E.
Qed.

(** What a run may end with: a section is lost, for want of room or by the timeout, while a
    reader is in the middle of one. *)
Definition loses_half (size : Z) (q : sec_queue) (o : sec_op) : Prop :=
  3 <= zlen (sq_read q) /\
  match o with
  | SecArrives s => sq_error q = 0 /\ sq_on q = true /\ size - 1 < zlen (sq_cur q ++ concat (sq_next q)) + zlen s
  | SecTimeout => True
  | SecRead _ => False
  end.
Lemma q_section_stops oneshot size s q : q_section oneshot size s q = None -> loses_half size q (SecArrives s).
Proof.
  unfold q_section, q_fail, loses_half. intros E. destruct (Z.eqb_spec (sq_error q) 0); cbn [negb orb] in E; [|done].
  destruct (sq_on q); [|done]. cbn [negb] in E. destruct (_ <=? size - 1) eqn:El; [done|]. destruct (3 <=? _) eqn:E3; [|done]. split_and!; (done || lia).
Qed.
Lemma q_run_until oneshot size ops : forall q, exists ops1 rest outs q',
  ops = ops1 ++ rest /\ q_run oneshot size ops1 q = Some (outs, q') /\
  (rest = [] \/ exists o rest', rest = o :: rest' /\ loses_half size q' o).
Proof.
  induction ops as [|o ops IH]; intros q; [exists [], [], [], q; split_and!; try done; by left|].
  assert (Hgo : forall q1, (forall outs1 q2 ops1, q_run oneshot size ops1 q1 = Some (outs1, q2) ->
      exists outs, q_run oneshot size (o :: ops1) q = Some (outs, q2)) ->
    exists ops1 rest outs q', o :: ops = ops1 ++ rest /\ q_run oneshot size ops1 q = Some (outs, q') /\
      (rest = [] \/ exists o rest', rest = o :: rest' /\ loses_half size q' o)).
  { intros q1 H. destruct (IH q1) as (ops1 & rest & outs1 & q2 & -> & E & Hr). destruct (H _ _ _ E) as [outs E'].
    by exists (o :: ops1), rest, outs, q2. }
  assert (Hstop : loses_half size q o -> exists ops1 rest outs q', o :: ops = ops1 ++ rest /\ q_run oneshot size ops1 q = Some (outs, q') /\
      (rest = [] \/ exists o rest', rest = o :: rest' /\ loses_half size q' o)).
  { intros H. exists [], (o :: ops), [], q. split_and!; try done. right. by exists o, ops. }
  destruct o as [s|n|].
  - destruct (q_section oneshot size s q) as [q1|] eqn:E; [|by apply Hstop, (q_section_stops oneshot)].
    apply (Hgo q1). intros outs1 q2 ops1 E1. exists outs1. cbn [q_run]. by rewrite E.
  - destruct (q_read n q) as [[ret b] q1] eqn:E. apply (Hgo q1). intros outs1 q2 ops1 E1. eexists. cbn [q_run]. by rewrite E, E1.
  - destruct (q_fail (- ETIMEDOUT) false q) as [q1|] eqn:E.
    + apply (Hgo q1). intros outs1 q2 ops1 E1. exists outs1. cbn [q_run]. by rewrite E.
    + apply Hstop. split; [|done]. unfold q_fail in E. destruct (3 <=? _) eqn:?; [lia|done].
Qed.

(** The file of a section filter that has just been started is a queue of whole
    sections, for every sequence of sections that arrive, reads of any length and a
    timeout: a read returns bytes of one section only, in order; without data it returns EAGAIN; a
    section for which there is no room empties the queue and makes the next read return EOVERFLOW; with
    a one-shot filter later sections are dropped; and as long as no read fails and the filter is not
    a one-shot, what has been read and what waits are together what has arrived. *)
Theorem dvb_demux_read_sections copy_to_user wait_ring size oneshot j ops d f outs q :
  (forall b, copy_to_user b = 0) -> Forall sec_op_ok ops ->
  dev_filters d !! j = Some f -> sec_started size oneshot f ->
  q_run oneshot size ops empty_queue = Some (outs, q) ->
  (exists d' f', file_run copy_to_user wait_ring j ops d = Some (outs, d') /\
     dev_filters d' !! j = Some f' /\ holds size oneshot f' q) /\
  (oneshot = false -> sq_error q = 0 -> Forall no_loss outs ->
     concat (snd <$> outs) ++ sq_cur q ++ concat (sq_next q) = arrived ops).
Proof.
  intros Hcopy Hops Hj Hst E. split.
  - apply (file_run_queue copy_to_user wait_ring Hcopy size oneshot j ops Hops f d empty_queue); try done. by apply started_holds.
  - intros -> Hz Hg. by apply (q_run_lossless size ops empty_queue).
Qed.

(** A device with one filter, started, and a buffer of [size] bytes. *)
Definition sec_params_1 : dmx_sct_filter_params := SctParams 0x12 (DmxFilter (repeat 0 16) (repeat 0 16) (repeat 0 16)) 0 0.
Definition sec_filter_1 (size : nat) : dmxdev_filter :=
  DevFilter (Some 0%nat) (Some 0%nat) [] (ParamsSec sec_params_1) DMXDEV_TYPE_SEC DMXDEV_STATE_GO
    (dvb_ringbuffer_init (repeat 0 size) (Z.of_nat size)) None 0 [0; 0; 0].
Definition device_1 (size : nat) : dmxdev :=
  DmxDev [sec_filter_1 size] (Dmx (Core [] [] [] None false) false [] [] 0) (repeat 0 204) 0 ∅ ∅ [] None None (dvb_ringbuffer_init [] 8192) false 1 1 1 0%nat.
Definition reads_1 : list sec_op :=
  [SecArrives [2; 0; 2; 7; 8]; SecRead 2; SecArrives [4; 0; 1; 9]; SecRead 10; SecRead 10; SecRead 10].

Example dvb_demux_read_sections_witness :
  q_run false 16 reads_1 empty_queue = Some ([(2, [2; 0]); (3, [2; 7; 8]); (4, [4; 0; 1; 9]); (- EAGAIN, [])], empty_queue) /\
  exists d' f', file_run (fun _ => 0) (fun _ => None) 0 reads_1 (device_1 16) =
    Some ([(2, [2; 0]); (3, [2; 7; 8]); (4, [4; 0; 1; 9]); (- EAGAIN, [])], d') /\
    dev_filters d' !! 0%nat = Some f' /\ holds 16 false f' empty_queue.
Proof.
  split; [by vm_compute|].
  refine (proj1 (dvb_demux_read_sections (fun _ => 0) (fun _ => None) 16 false 0 reads_1 (device_1 16) (sec_filter_1 16) _ _ _ _ _ _ _)); [done|..].
  - unfold reads_1. repeat (constructor; [cbn; try done; try (by split; [lia|])|]). constructor.
  - done.
  - split_and!; try done; try lia; try (by exists sec_params_1); unfold rb_ok; cbn; lia.
  - by vm_compute.
Defined.

(** A section is lost after its header and a byte have been read: the two bytes that were left are
    taken from the section that comes next, and its fourth byte is taken for a table id. *)
Example half_read_section_lost :
  fst <$> file_run (fun _ => 0) (fun _ => None) 0
    [SecArrives [2; 0; 3; 7; 8; 9]; SecRead 4; SecArrives [4; 0; 3; 1; 2; 3]; SecRead 1; SecArrives [4; 0; 1; 9]; SecRead 10; SecRead 2]
    (device_1 8) = Some [(4, [2; 0; 3; 7]); (- EOVERFLOW, []); (2, [4; 0]); (2, [1; 9])].
Proof. by vm_compute. Qed.
