(* ===== verification/DmxDevFilter.v ===== *)
(** * DmxDevFilter: the filters of the demux devices

    What a filter of user space means for the sections of the demultiplexer, what a start
    that succeeds leaves behind, and the paths on which dmxdev.c loses track of its feeds. *)

From stdpp Require Import gmap.
From S2P Require Import Prelude DvbRingbuffer DvbDemux TsFilter DmxFeeds DmxDev DmxDevRead.

(** ** What user space asks for *)

(** The byte of a section that byte [i] of a filter is for: the length is left out. *)
Definition filtered (d : list Z) (i : Z) : Z := if i =? 0 then d.[0] else d.[i + 2].
(** The bits of the mask at which the mode is 0 agree; if there are bits of the mask at which
    it is 1, one of them differs. *)
Definition user_equal (fl : dmx_filter_t) (i : Z) : Z := Z.land (fl_mask fl).[i] (255 - (fl_mode fl).[i]).
Definition user_differ (fl : dmx_filter_t) (i : Z) : Z := Z.land (fl_mask fl).[i] (fl_mode fl).[i].
Definition user_xor (fl : dmx_filter_t) (d : list Z) (i : Z) : Z := Z.lxor (fl_filter fl).[i] (filtered d i).
Definition user_matches (fl : dmx_filter_t) (d : list Z) : bool :=
  forallb (fun i => Z.land (user_equal fl i) (user_xor fl d i) =? 0) (seqZ 0 16) &&
  (forallb (fun i => user_differ fl i =? 0) (seqZ 0 16) ||
   existsb (fun i => negb (Z.land (user_differ fl i) (user_xor fl d i) =? 0)) (seqZ 0 16)).

Definition user_filter (fl : dmx_filter_t) : Prop :=
  bytes (fl_filter fl) /\ bytes (fl_mask fl) /\ bytes (fl_mode fl) /\
  zlen (fl_filter fl) = 16 /\ zlen (fl_mask fl) = 16 /\ zlen (fl_mode fl) = 16.
(** The tables of a filter of the demultiplexer. *)
Definition filter_tables (g : dvb_demux_filter) : Prop :=
  bytes (filter_value g) /\ bytes (filter_mask g) /\ bytes (filter_mode g) /\
  zlen (filter_value g) = 18 /\ zlen (filter_mask g) = 18 /\ zlen (filter_mode g) = 18.

Definition spread (dst src : list Z) : list Z := zset (zsplice dst 3 (ztake (DMX_FILTER_SIZE - 1) (zdrop 1 src))) 0 src.[0].

Lemma spread_at dst src k : zlen dst = 18 -> zlen src = 16 -> 0 <= k < 18 ->
  (spread dst src).[k] = if k =? 0 then src.[0] else if k <? 3 then dst.[k] else src.[k - 2].
Proof.
  intros Hd Hs Hk. unfold spread, DMX_FILTER_SIZE. change (16 - 1) with 15.
  assert (Hl : zlen (ztake 15 (zdrop 1 src)) = 15) by (rewrite zlen_ztake; [done|rewrite zlen_zdrop; lia]).
  rewrite zat_zset by (rewrite zlen_zsplice; lia). destruct (Z.eqb_spec k 0) as [->|Hne]; [by rewrite decide_True|].
  rewrite decide_False, zat_zsplice by lia. destruct (Z.ltb_spec k 3).
  - by rewrite decide_False by lia.
  - rewrite decide_True, zat_ztake, zat_zdrop by lia. f_equal. lia.
Qed.
Lemma spread_len dst src : zlen dst = 18 -> zlen src = 16 -> zlen (spread dst src) = 18.
Proof.
  intros Hd Hs. unfold spread, DMX_FILTER_SIZE. rewrite zlen_zset, zlen_zsplice; rewrite ?zlen_ztake; rewrite ?zlen_zdrop; lia.
Qed.
Lemma spread_bytes dst src : bytes dst -> bytes src -> bytes (spread dst src).
Proof. intros Hd Hs. apply zset_bytes; [|by apply zat_byte]. apply zsplice_bytes; [done|]. by apply Forall_take, Forall_drop. Qed.

Lemma lxor_255 b : byte b -> Z.lxor b 255 = 255 - b.
Proof.
  intros Hb. apply (Z.eqb_eq (Z.lxor b 255) (255 - b)).
  assert (H : forallb (fun b => Z.lxor b 255 =? 255 - b) (seqZ 0 256) = true) by (by vm_compute).
  rewrite forallb_forall in H. apply H, list_elem_of_In, elem_of_seqZ. unfold byte in Hb. lia.
Qed.

(** The 18 bytes of a filter of the demultiplexer are the 16 of user space and two that are
    not looked at. *)
Lemma seqZ_18 : seqZ 0 18 = 0 :: 1 :: 2 :: map (fun i => i + 2) (seqZ 1 15).
Proof. reflexivity. Qed.
Lemma seqZ_16 : seqZ 0 16 = 0 :: seqZ 1 15.
Proof. reflexivity. Qed.
Lemma forallb_map (P : Z -> bool) (h : Z -> Z) l : forallb P (map h l) = forallb (fun i => P (h i)) l.
Proof. induction l as [|x l IH]; cbn; [done|]. by rewrite IH. Qed.
Lemma forallb_18 (P Q : Z -> bool) : P 1 = true -> P 2 = true -> P 0 = Q 0 ->
  (forall i, 1 <= i < 16 -> P (i + 2) = Q i) -> forallb P (seqZ 0 18) = forallb Q (seqZ 0 16).
Proof.
  intros H1 H2 H0 H. rewrite seqZ_18, seqZ_16. cbn [forallb]. rewrite H0, H1, H2, forallb_map. cbn [andb]. f_equal.
  apply Bool.eq_iff_eq_true. rewrite !forallb_forall. split; intros Hi i Hin; pose proof Hin as Hr; apply list_elem_of_In, elem_of_seqZ in Hr.
  - rewrite <- H by lia. by apply Hi.
  - rewrite H by lia. by apply Hi.
Qed.
Lemma existsb_forallb (P : Z -> bool) l : existsb (fun i => negb (P i)) l = negb (forallb P l).
Proof. induction l as [|x l IH]; cbn; [done|]. rewrite IH. by destruct (P x). Qed.

Section translation.
Context (pid timeout flags : Z) (fl : dmx_filter_t) (g : dvb_demux_filter).
Context (Hu : user_filter fl) (Hg : filter_tables g).
Local Abbreviation filled := (fill_filter (SctParams pid (invert_mode fl) timeout flags) g).

Lemma filled_tables : bytes (filter_value filled) /\ bytes (filter_mask filled) /\ bytes (filter_mode filled).
Proof.
  destruct Hu as (? & ? & Hm & ? & ? & ?), Hg as (? & ? & ? & ? & ? & ?). split_and!; [by apply spread_bytes| |apply spread_bytes; [done|]].
  - do 2 (apply zset_bytes; [|unfold byte; lia]). by apply spread_bytes.
  - cbn [sct_filter invert_mode fl_mode]. apply Forall_fmap. apply (list.Forall_impl _ _ _ Hm). intros b Hb. cbn. rewrite lxor_255 by done. unfold byte in *. lia.
Qed.
Lemma invert_at i : 0 <= i < 16 -> (fl_mode (invert_mode fl)).[i] = 255 - (fl_mode fl).[i].
Proof.
  destruct Hu as (_ & _ & Hm & _ & _ & Hl). intros Hi. rewrite <- lxor_255 by (by apply zat_byte).
  cbn [invert_mode fl_mode]. unfold zat, zget. rewrite !decide_True, list_lookup_fmap by lia.
  destruct (lookup_lt_is_Some_2 (fl_mode fl) (Z.to_nat i)) as [b ->]; [unfold zlen in Hl; lia|done].
Qed.
Lemma filled_at d k :
  (k = 1 \/ k = 2 -> (filter_mask filled).[k] = 0) /\
  (forall i, 0 <= i < 16 -> k = (if i =? 0 then 0 else i + 2) ->
     positive filled k = user_equal fl i /\ negative filled k = user_differ fl i /\ filter_xor filled d k = user_xor fl d i).
Proof.
  destruct Hu as (_ & _ & Hm & Hl1 & Hl2 & Hl3), Hg as (_ & _ & _ & Hg1 & Hg2 & Hg3).
  assert (Hmask : forall k, 0 <= k < 18 -> (filter_mask filled).[k] = if (k =? 1) || (k =? 2) then 0 else (spread (filter_mask g) (fl_mask fl)).[k]).
  { intros k' Hk. change (filter_mask filled) with (zset (zset (spread (filter_mask g) (fl_mask fl)) 1 0) 2 0).
    pose proof (spread_len (filter_mask g) (fl_mask fl) Hg2 Hl2). rewrite !zat_zset by (rewrite ?zlen_zset; lia).
    destruct (Z.eqb_spec k' 1), (Z.eqb_spec k' 2); repeat case_decide; try lia; done. }
  split; [intros [-> | ->]; by rewrite Hmask by lia|]. intros i Hi Hk.
  assert (Hs : forall dst src, zlen dst = 18 -> zlen src = 16 -> (spread dst src).[k] = src.[i]).
  { intros dst src Hd Hsrc. destruct (Z.eqb_spec i 0) as [->|]; subst k; [by rewrite spread_at by lia|].
    rewrite spread_at, (proj2 (Z.eqb_neq (i + 2) 0)), (proj2 (Z.ltb_ge (i + 2) 3)) by lia. f_equal. lia. }
  assert (Hk18 : 0 <= k < 18) by (destruct (Z.eqb_spec i 0); lia).
  assert (Em : (filter_mask filled).[k] = (fl_mask fl).[i]).
  { rewrite Hmask by done. destruct (Z.eqb_spec k 1), (Z.eqb_spec k 2); try (destruct (Z.eqb_spec i 0); lia). by apply Hs. }
  assert (Emo : (filter_mode filled).[k] = 255 - (fl_mode fl).[i]).
  { change (filter_mode filled) with (spread (filter_mode g) (fl_mode (invert_mode fl))). rewrite Hs, invert_at; try done.
    cbn [invert_mode fl_mode]. unfold zlen. by rewrite length_map. }
  unfold positive, negative, user_equal, user_differ, filter_xor, user_xor. rewrite Em, Emo.
  change (filter_value filled) with (spread (filter_value g) (fl_filter fl)). rewrite Hs by done.
  split_and!; [done|f_equal; lia|]. f_equal. unfold filtered. by destruct (Z.eqb_spec i 0); subst k.
Qed.

Lemma filled_accepts d : accepts filled d = user_matches fl d.
Proof.
  assert (H : forall i, 0 <= i < 16 -> let k := if i =? 0 then 0 else i + 2 in
    positive filled k = user_equal fl i /\ negative filled k = user_differ fl i /\ filter_xor filled d k = user_xor fl d i).
  { intros i Hi k. by apply (proj2 (filled_at d k)). }
  destruct (H 0 ltac:(lia)) as (P0 & N0 & X0).
  assert (H' : forall i, 1 <= i < 16 -> positive filled (i + 2) = user_equal fl i /\ negative filled (i + 2) = user_differ fl i /\
    filter_xor filled d (i + 2) = user_xor fl d i).
  { intros i Hi. specialize (H i ltac:(lia)). by rewrite (proj2 (Z.eqb_neq i 0)) in H by lia. }
  cbn [Z.eqb] in P0, N0, X0. unfold accepts, user_matches. rewrite !existsb_forallb. 
  rewrite (forallb_18 (fun k => Z.land (positive filled k) (filter_xor filled d k) =? 0)
            (fun i => Z.land (user_equal fl i) (user_xor fl d i) =? 0)),
    (forallb_18 (fun k => negative filled k =? 0) (fun i => user_differ fl i =? 0)),
    (forallb_18 (fun k => Z.land (negative filled k) (filter_xor filled d k) =? 0)
            (fun i => Z.land (user_differ fl i) (user_xor fl d i) =? 0)); [done|..].
  all: try by (unfold positive, negative; rewrite (proj1 (filled_at d _)), ?Z.land_0_l by auto).
  all: try by rewrite ?P0, ?N0, ?X0.
  all: intros i Hi; destruct (H' i Hi) as (P' & N' & X'); by rewrite ?P', ?N', ?X'.
Qed.
End translation.

(** C17: A section that the demultiplexer has put together reaches a filter with the bytes of user
    space exactly when it is what user space asks for. *)
Theorem dvb_dmxdev_filter_semantics cb_sec after_base s k pid timeout flags fl g :
  user_filter fl -> filter_tables g -> 0 <= seclen s ->
  let f := fill_filter (SctParams pid (invert_mode fl) timeout flags) g in
  filter_fits f (seclen s) ->
  let d := secbuf_data after_base s (seclen s) in
  dvb_dmx_swfilter_sectionfilter cb_sec after_base s k (prepare_secfilter f) =
    if user_matches fl d then ([EvSection k d], cb_sec k d) else ([], 0).
Proof.
  intros Hu Hg Hl f Hfit d. destruct (filled_tables pid timeout flags fl g Hu Hg) as (Hv & Hm & Hmo).
  rewrite <- (filled_accepts pid timeout flags fl g Hu Hg d).
  by apply (dvb_dmx_swfilter_sectionfilter_correct cb_sec after_base s k f Hv Hm Hmo Hl Hfit).
Qed.

(** All sections of table 0x4e but those of the service 0x1234. *)
Definition user_example : dmx_filter_t :=
  DmxFilter ([0x4e; 0x12; 0x34] ++ repeat 0 13) ([0xff; 0xff; 0xff] ++ repeat 0 13) ([0; 0xff; 0xff] ++ repeat 0 13).
Definition filter_example : dvb_demux_filter := Filter (repeat 0 18) (repeat 0 18) (repeat 0 18) [] [] 0 3 1 0.

Definition filled_example : dvb_demux_filter := fill_filter (SctParams 0x12 (invert_mode user_example) 0 0) filter_example.

Example dvb_dmxdev_filter_semantics_witness :
  filter_fits filled_example 8 /\
  dvb_dmx_swfilter_sectionfilter (fun _ _ => 0) (fun _ => 0) (sample_sec (sample_section 0x35) 8) 0 (prepare_secfilter filled_example) =
    ([EvSection 0 (sample_section 0x35)], 0) /\
  dvb_dmx_swfilter_sectionfilter (fun _ _ => 0) (fun _ => 0) (sample_sec (sample_section 0x34) 8) 0 (prepare_secfilter filled_example) = ([], 0).
Proof.
  assert (Hu : user_filter user_example) by (split_and!; try done; by apply (bool_decide_unpack _); vm_compute).
  assert (Hg : filter_tables filter_example) by (split_and!; try done; by apply (bool_decide_unpack _); vm_compute).
  assert (Hfit : filter_fits filled_example 8).
  { intros k Hk. destruct (decide (k < 18)); [|apply zat_out; change (zlen (filter_mask filled_example)) with 18; lia].
    assert (H : forallb (fun k => (filter_mask filled_example).[k] =? 0) (seqZ 8 10) = true) by (by vm_compute).
    rewrite forallb_forall in H. apply Z.eqb_eq, H, list_elem_of_In, elem_of_seqZ. lia. }
  split; [exact Hfit|]. split.
  - refine (eq_trans (dvb_dmxdev_filter_semantics (fun _ _ => 0) (fun _ => 0) (sample_sec (sample_section 0x35) 8) 0 0x12 0 0
      user_example filter_example Hu Hg _ Hfit) _); [done|by vm_compute].
  - refine (eq_trans (dvb_dmxdev_filter_semantics (fun _ _ => 0) (fun _ => 0) (sample_sec (sample_section 0x34) 8) 0 0x12 0 0
      user_example filter_example Hu Hg _ Hfit) _); [done|by vm_compute].
Defined.

(** ** What a start leaves behind *)

Create HintDb keeps.
(** Filter [j] has a property. *)
Definition at_filter (j : nat) (P : dmxdev_filter -> Prop) (d : dmxdev) : Prop := exists f, dev_filters d !! j = Some f /\ P f.

Lemma with_filter_inv j g d d' f : with_filter j g d = Some d' -> dev_filters d !! j = Some f -> dev_filters d' !! j = Some (g f).
Proof. intros E Hj. destruct (with_filter_at j g d f Hj) as (d1 & E1 & H). rewrite E in E1. by injection E1 as <-. Qed.

(** One step of an operation that succeeded. *)
Ltac kept_step :=
  match goal with
  | E : Some _ = Some _ |- _ => injection E; clear E; intros; subst
  | E : None = Some _ |- _ => discriminate E
  | E : mbind _ ?o = Some _ |- _ => let E' := fresh "E" in destruct o eqn:E'; cbn [mbind option_bind] in E; [|discriminate E]
  | E : (let '(_, _) := ?x in _) = Some _ |- _ => destruct x
  | E : (if ?b then _ else _) = Some _ |- _ => destruct b
  | E : (match ?o with Some _ => _ | None => _ end) = Some _ |- _ => destruct o eqn:?
  end.
Ltac kept := repeat kept_step; eauto 12 with keeps.

Section keeps.
Context (start_feed stop_feed : option (nat -> Z)) (sig : nat -> bool) (vmalloc : nat -> Z -> option (list Z)) (HZ : Z).
Context (j : nat) (P : dmxdev_filter -> Prop).
(** Neither the state nor the pointers and the timer matter. *)
Context (P_state : forall f v, P f -> P (set_dev_state v f)) (P_timer : forall f v, P f -> P (set_timer v f))
  (P_feed : forall f v, P f -> P (set_sec_feed v f)) (P_filter : forall f v, P f -> P (set_sec_filter v f))
  (P_feeds : forall f v, P f -> P (set_ts_feeds v f)).
Local Abbreviation at_j := (at_filter j P).

Lemma keep_filters d d' : dev_filters d' = dev_filters d -> at_j d -> at_j d'.
Proof. unfold at_filter. by intros ->. Qed.
Lemma keep_with k g d d' : with_filter k g d = Some d' -> (forall f, P f -> P (g f)) -> at_j d -> at_j d'.
Proof.
  intros E Hg (f & Hj & Hf). unfold with_filter in E. destruct (dev_filters d !! k) as [fk|] eqn:Ek; [|done]. injection E as <-.
  unfold at_filter. cbn. destruct (decide (k = j)) as [->|Hne].
  - exists (g f). rewrite list_lookup_insert_eq by (by apply lookup_lt_Some in Hj). rewrite Hj in Ek. injection Ek as <-. by split; [|apply Hg].
  - exists f. by rewrite list_lookup_insert_ne.
Qed.
Lemma keep_demux op d d' r : demux_do op d = Some (d', r) -> at_j d -> at_j d'.
Proof. unfold demux_do. destruct (op (dev_dmx d)) as [[m x]|]; [|done]. intros E. injection E as <- _. by apply keep_filters. Qed.
Lemma keep_demux_sig op d d' r : demux_sig sig op d = Some (d', r) -> at_j d -> at_j d'.
Proof. unfold demux_sig, interrupted. intros E H. by apply keep_demux in E. Qed.
Lemma keep_demux_alloc op d d' r o : demux_alloc sig op d = Some (d', r, o) -> at_j d -> at_j d'.
Proof.
  unfold demux_alloc, interrupted. destruct (op _ _) as [[[m x] y]|]; [|done]. intros E. injection E as <- _ _. by apply keep_filters.
Qed.

Lemma keep_stop_ts feeds : forall d d', stop_ts_feeds stop_feed feeds d = Some d' -> at_j d -> at_j d'.
Proof.
  induction feeds as [|feed feeds IH]; cbn [stop_ts_feeds]; intros d d' E H; [by injection E as <-|].
  repeat kept_step. eapply IH; [exact E|]. by eapply keep_demux.
Qed.
Lemma keep_release_ts feeds : forall d d', release_ts_feeds feeds d = Some d' -> at_j d -> at_j d'.
Proof.
  induction feeds as [|feed feeds IH]; cbn [release_ts_feeds]; intros d d' E H; [by injection E as <-|].
  repeat kept_step. eapply IH; [exact E|]. by eapply keep_demux.
Qed.
Hint Resolve keep_with keep_demux keep_demux_sig keep_demux_alloc keep_stop_ts keep_release_ts : keeps.
Lemma keep_feed_stop k d d' r : dvb_dmxdev_feed_stop stop_feed k d = Some (d', r) -> at_j d -> at_j d'.
Proof. unfold dvb_dmxdev_feed_stop, dvb_dmxdev_filter_state_set. intros E H. kept. Qed.
Hint Resolve keep_feed_stop : keeps.
Lemma keep_start_ts k feeds : forall d d' r, start_ts_feeds start_feed stop_feed sig k feeds d = Some (d', r) -> at_j d -> at_j d'.
Proof.
  induction feeds as [|feed feeds IH]; cbn [start_ts_feeds]; intros d d' r E H; [by injection E as <- _|].
  kept.
Qed.
Hint Resolve keep_start_ts : keeps.
Lemma keep_feed_start k d d' r : dvb_dmxdev_feed_start start_feed stop_feed sig k d = Some (d', r) -> at_j d -> at_j d'.
Proof. unfold dvb_dmxdev_feed_start, dvb_dmxdev_filter_state_set. intros E H. kept. Qed.
Hint Resolve keep_feed_start : keeps.
Lemma keep_feed_restart k d d' r : dvb_dmxdev_feed_restart start_feed stop_feed sig k d = Some (d', r) -> at_j d -> at_j d'.
Proof. unfold dvb_dmxdev_feed_restart. intros E H. kept. Qed.
Hint Resolve keep_feed_restart : keeps.
Lemma keep_filter_stop k d d' r : (forall f, P f -> P (set_buffer (dvb_ringbuffer_flush (dev_buffer f)) f)) ->
  dvb_dmxdev_filter_stop start_feed stop_feed sig k d = Some (d', r) -> at_j d -> at_j d'.
Proof. unfold dvb_dmxdev_filter_stop, flush_buffer. intros Hf E H. kept. Qed.
Lemma keep_find_sec k para d d' r : find_sec_feed start_feed stop_feed sig k para d = Some (d', r) -> at_j d -> at_j d'.
Proof. unfold find_sec_feed. intros E H. kept. Qed.
Lemma keep_fill i para d d' : fill_sec_filter i para d = Some d' -> at_j d -> at_j d'.
Proof. unfold fill_sec_filter. intros E H. repeat kept_step. by eapply keep_filters. Qed.
Lemma keep_timer k d d' : dvb_dmxdev_filter_timer HZ k d = Some d' -> at_j d -> at_j d'.
Proof.
  unfold dvb_dmxdev_filter_timer. intros E. apply (keep_with _ _ _ _ E). intros f Hf. destruct (params f); try done. by apply P_timer.
Qed.
End keeps.

Section start.
Context (start_feed stop_feed : option (nat -> Z)) (sig : nat -> bool) (vmalloc : nat -> Z -> option (list Z)) (HZ : Z).
Context (vmalloc_size : forall n size l, vmalloc n size = Some l -> zlen l = size).
Context (j : nat) (para : dmx_sct_filter_params) (size : Z).

(** What the filter is for, and its buffer, which may not have memory yet. *)
Definition sec_configured (f : dmxdev_filter) : Prop :=
  dev_type f = DMXDEV_TYPE_SEC /\ params f = ParamsSec para /\ zlen (secheader f) = 3 /\
  rb_size (dev_buffer f) = size /\ 0 < size < 2 ^ 31 /\ (rb_data (dev_buffer f) = [] \/ zlen (rb_data (dev_buffer f)) = size) /\
  0 <= rb_pread (dev_buffer f) < size /\ 0 <= rb_pwrite (dev_buffer f) < size.
Definition sec_emptied (f : dmxdev_filter) : Prop :=
  sec_configured f /\ rb_ok (dev_buffer f) /\ contents (dev_buffer f) = [] /\ rb_error (dev_buffer f) = 0.
Definition sec_ready (f : dmxdev_filter) : Prop := sec_emptied f /\ todo f = 0.

Lemma get_buffer_keeps d d' r : get_buffer vmalloc j d = Some (d', r) -> (r <? 0) = false -> at_filter j sec_configured d ->
  at_filter j (fun f => sec_configured f /\ zlen (rb_data (dev_buffer f)) = size) d'.
Proof.
  unfold get_buffer. intros E Hr0 (f & Hj & Hf). rewrite Hj in E. cbn [mbind option_bind] in E. pose proof Hf as (Ht & Hp & Hh & Hs & Hs0 & Hd & Hr & Hw).
  destruct (has_data (dev_buffer f)) eqn:Ed.
  - injection E as <- _. exists f. split_and!; try done. destruct Hd as [Hd|Hd]; [|done]. unfold has_data in Ed. by rewrite Hd in Ed.
  - cbn in E. destruct (vmalloc _ _) as [mem|] eqn:Em; [|injection E as _ <-; done]. apply vmalloc_size in Em. rewrite Hs in Em.
    apply bind_Some in E as (d1 & E & E1). injection E1 as <- _.
    pose proof (with_filter_inv j _ _ _ f E Hj) as Hj2.
    eexists. split; [exact Hj2|]. unfold sec_configured. cbn. split_and!; try done; try lia; by right.
Qed.

Lemma start_sec_keeps d d' r : start_sec start_feed stop_feed sig HZ j para d = Some (d', r) -> (r <? 0) = false ->
  at_filter j sec_emptied d -> at_filter j sec_ready d'.
Proof.
  unfold start_sec. intros E Hr H.
  apply bind_Some in E as (d1 & E1 & E). 
  assert (at_filter j sec_emptied d1) as H1 by (by apply (keep_with j sec_emptied _ _ _ _ E1)).
  apply bind_Some in E as ([d2 r2] & E2 & E).
  assert (at_filter j sec_emptied d2) as H2 by (by eapply keep_find_sec in E2).
  destruct (r2 <? 0) eqn:Er2; [injection E as _ ->; by rewrite Er2 in Hr|].
  apply bind_Some in E as (f2 & Ef & E). apply bind_Some in E as (i & Ei & E). apply bind_Some in E as ([[d3 r3] o] & E3 & E).
  assert (at_filter j sec_emptied d3) as H3 by (by eapply keep_demux_alloc in E3).
  destruct (r3 <? 0) eqn:Er3.
  { repeat kept_step. by rewrite Er3 in Hr. }
  apply bind_Some in E as (d4 & E4 & E). apply bind_Some in E as (k & Ek & E). apply bind_Some in E as (d5 & E5 & E).
  assert (at_filter j sec_emptied d5) as H5.
  { eapply keep_fill; [exact E5|]. eapply keep_filters; [done|]. by apply (keep_with j sec_emptied _ _ _ _ E4). }
  apply bind_Some in E as (d6 & E6 & E).
  assert (at_filter j sec_ready d6) as H6.
  { destruct H5 as (f5 & Hj5 & Hf5). eexists. split; [exact (with_filter_inv j _ _ _ f5 E6 Hj5)|]. by split. }
  apply bind_Some in E as ([d7 r7] & E7 & E).
  assert (at_filter j sec_ready d7) as H7 by (by eapply keep_demux_sig in E7).
  destruct (r7 <? 0) eqn:Er7; [injection E as _ ->; by rewrite Er7 in Hr|]. apply bind_Some in E as (d8 & E8 & E). injection E as <- _.
  by eapply keep_timer in E8.
Qed.

Lemma filter_start_ready d d' : dvb_dmxdev_filter_start start_feed stop_feed sig vmalloc HZ j d = Some (d', 0) ->
  at_filter j sec_configured d -> at_filter j (fun f => sec_ready f /\ dev_state f = DMXDEV_STATE_GO) d'.
Proof.
  unfold dvb_dmxdev_filter_start. intros E H.
  apply bind_Some in E as (f & Ef & E). destruct (dev_state f <? _); [done|].
  apply bind_Some in E as ([d1 r1] & E1 & E). assert (at_filter j sec_configured d1) as H1.
  { destruct (_ <=? dev_state f); [|by injection E1 as <- _]. eapply (keep_filter_stop start_feed stop_feed sig j sec_configured) in E1; [exact E1|done|done|done|done| |exact H].
    intros g (? & ? & ? & ? & ? & ? & ? & ?). unfold sec_configured. cbn. split_and!; try done; lia. }
  apply bind_Some in E as ([d2 r2] & E2 & E). destruct (r2 <? 0) eqn:Er2; [injection E as _ ->; done|].
  apply get_buffer_keeps in E2 as (f2 & Ef2 & H2 & Hd2); [|done..].
  apply bind_Some in E as (d3 & E3 & E). pose proof (with_filter_inv j _ _ _ f2 E3 Ef2) as Hj3.
  assert (sec_emptied (set_buffer (dvb_ringbuffer_flush (dev_buffer f2)) f2)) as H3.
  { destruct H2 as (? & ? & ? & ? & ? & ? & ? & ?). assert (rb_ok (dev_buffer f2)) as Hok.
    { unfold rb_ok. split_and!; lia. }
    destruct (flush_ok _ Hok). split; [|by split_and!]. unfold sec_configured. cbn. split_and!; try done; try lia. }
  apply bind_Some in E as (f3 & Ef3 & E). rewrite Hj3 in Ef3. injection Ef3 as <-.
  destruct H2 as (Ht & Hp & _). cbn [dev_type set_buffer] in E. rewrite Ht in E. cbn [Z.eqb Pos.eqb DMXDEV_TYPE_SEC] in E.
  cbn [params set_buffer] in E. rewrite Hp in E. cbn [mbind option_bind] in E.
  apply bind_Some in E as ([d4 r4] & E4 & E). destruct (r4 <? 0) eqn:Er4; [injection E as _ ->; done|].
  apply start_sec_keeps in E4 as (f4 & Hj4 & H4); [|done|by eexists].
  apply bind_Some in E as (d5 & E5 & E). injection E as <-.
  eexists. split; [exact (with_filter_inv j _ _ _ f4 E5 Hj4)|]. by split.
Qed.
End start.

(** C16: A section filter from its start on: when the start reports no error, the file is a queue
    of whole sections, for every sequence of sections that arrive, reads of any length and
    timeouts - up to the first loss of data while a reader is in the middle of a section, if there is one.
    A read returns bytes of one section only, in order; without data it returns
    EAGAIN; a section for which there is no room empties the queue and makes the next read
    return EOVERFLOW; a one-shot filter takes one section; and as long as no read fails and the filter is
    not a one-shot, what has been read and what waits are together what has arrived. *)
Theorem dvb_dmxdev_sections_read start_feed stop_feed sig vmalloc HZ copy_to_user wait_ring j para size ops d d1 :
  (forall n size l, vmalloc n size = Some l -> zlen l = size) -> (forall b, copy_to_user b = 0) ->
  at_filter j (sec_configured para size) d -> Forall sec_op_ok ops ->
  dvb_dmxdev_filter_start start_feed stop_feed sig vmalloc HZ j d = Some (d1, 0) ->
  let oneshot := negb (Z.land (sct_flags para) DMX_ONESHOT =? 0) in
  exists run rest outs q, ops = run ++ rest /\ q_run oneshot size run empty_queue = Some (outs, q) /\
    (rest = [] \/ exists o rest', rest = o :: rest' /\ loses_half size q o) /\
    (exists d' f', file_run copy_to_user wait_ring j run d1 = Some (outs, d') /\
       dev_filters d' !! j = Some f' /\ holds size oneshot f' q) /\
    (oneshot = false -> sq_error q = 0 -> Forall no_loss outs ->
       concat (snd <$> outs) ++ sq_cur q ++ concat (sq_next q) = arrived run).
Proof.
  intros Hvm Hcopy Hd Hops E oneshot. destruct (q_run_until oneshot size ops empty_queue) as (run & rest & outs & q & -> & Eq & Hrest).
  apply Forall_app in Hops as [Hops _]. exists run, rest, outs, q. split; [done|]. split; [done|]. split; [done|]. split.
  - apply (filter_start_ready start_feed stop_feed sig vmalloc HZ Hvm j para size) in E as (f & Hj & [[[Hc (Hok & Hcon & He)] Htd] Hst]); [|done].
    destruct Hc as (Ht & Hp & Hh & Hs & _).
    apply (file_run_queue copy_to_user wait_ring Hcopy size oneshot j run Hops f d1 empty_queue); try done. apply started_holds.
    split_and!; try done; try apply Hok. by exists para.
  - intros Hf Hz Hg. rewrite Hf in Eq. by apply (q_run_lossless size run empty_queue).
Qed.

(** A device with [n] feeds and filters and as many files. *)
Definition closed_file : dmxdev_filter :=
  DevFilter None None [] ParamsNone DMXDEV_TYPE_NONE DMXDEV_STATE_FREE (dvb_ringbuffer_init [] 8192) None 0 [0; 0; 0].
Definition free_filter : dvb_demux_filter := Filter (repeat 0 18) (repeat 0 18) (repeat 0 18) [] [] 0 0 0 0.
Definition device (n : nat) : dmxdev :=
  DmxDev (repeat closed_file n)
    (default (initial []) (dvb_dmx_init (Some (repeat free_filter n)) (Some (repeat (raw_feed []) n)) None false).1)
    [] 0 ∅ ∅ [] None None (dvb_ringbuffer_init [] 8192) false 1 1 1 0%nat.
Definition memory (_ : nat) (size : Z) : option (list Z) := if 0 <=? size then Some (repeat 0 (Z.to_nat size)) else None.

(** Files [0], [1] ... are opened; [sig] tells the waits that a signal ends. *)
Definition open_files (sig : nat -> bool) (n : nat) (d : dmxdev) : option dmxdev :=
  Nat.iter n (fun d => d ← d; '(d, _, _) ← dvb_demux_open sig d; Some d) (Some d).
Definition ioctls (sig : nat -> bool) (l : list (nat * dmx_cmd)) (d : dmxdev) : option (list Z * dmxdev) :=
  fold_left (fun r '(j, cmd) =>
    '(rets, d) ← r;
    '(d, ret, _) ← dvb_demux_do_ioctl (Some (fun _ => 0)) (Some (fun _ => 0)) sig memory (fun _ => true) 1000 None None None j cmd d;
    Some (rets ++ [ret], d)) l (Some ([], d)).
Definition no_signal (_ : nat) : bool := false.

Definition section_request (flags : Z) : dmx_sct_filter_params :=
  SctParams 0x12 (DmxFilter (repeat 0 16) (repeat 0 16) (repeat 0 16)) 0 flags.
Definition pes_request (flags : Z) : dmx_pes_filter_params := PesParams 0x100 DMX_OUT_TSDEMUX_TAP DMX_PES_OTHER flags.

(** A file is opened, its buffer made small, and a filter set. *)
Definition run_on (sig : nat -> bool) (n : nat) (l : list (nat * dmx_cmd)) : option (list Z * dmxdev) :=
  d ← open_files sig n (device n); ioctls sig l d.
Definition configured : dmxdev :=
  default (device 1) (snd <$> run_on no_signal 1 [(0%nat, DMX_SET_BUFFER_SIZE 16); (0%nat, DMX_SET_FILTER (section_request 0))]).

Example dvb_dmxdev_sections_read_witness :
  exists d1, dvb_dmxdev_filter_start (Some (fun _ => 0)) (Some (fun _ => 0)) no_signal memory 1000 0 configured = Some (d1, 0) /\
  exists run rest outs q, reads_1 = run ++ rest /\ q_run false 16 run empty_queue = Some (outs, q) /\
    (rest = [] \/ exists o rest', rest = o :: rest' /\ loses_half 16 q o) /\
    (exists d' f', file_run (fun _ => 0) (fun _ => None) 0 run d1 = Some (outs, d') /\
       dev_filters d' !! 0%nat = Some f' /\ holds 16 false f' q) /\
    (false = false -> sq_error q = 0 -> Forall no_loss outs ->
       concat (snd <$> outs) ++ sq_cur q ++ concat (sq_next q) = arrived run).
Proof.
  eexists. split; [vm_compute; reflexivity|].
  refine (dvb_dmxdev_sections_read (Some (fun _ => 0)) (Some (fun _ => 0)) no_signal memory 1000 (fun _ => 0) (fun _ => None) 0
    (SctParams 0x12 (invert_mode (sct_filter (section_request 0))) 0 0) 16 reads_1 configured _ _ _ _ _ _).
  - intros n size l E. unfold memory in E. destruct (Z.leb_spec 0 size); [|done]. injection E as <-. unfold zlen. rewrite repeat_length. lia.
  - done.
  - eexists. split; [vm_compute; reflexivity|]. vm_compute. split_and!; try done; by right.
  - unfold reads_1. repeat (constructor; [cbn; try done; try (by split; [lia|])|]). constructor.
  - vm_compute. reflexivity.
Defined.
(** All of [reads_1] is such a run. *)
Example reads_1_run :
  q_run false 16 reads_1 empty_queue = Some ([(2, [2; 0]); (3, [2; 7; 8]); (4, [4; 0; 1; 9]); (- EAGAIN, [])], empty_queue).
Proof. by vm_compute. Qed.

(** ** Feeds that get lost *)

(** What the demultiplexer's feeds are in. *)
Definition feed_states (d : dmxdev) : list Z := feed_state <$> feeds (dm_core (dev_dmx d)).

(** A PID that is added to a running filter stays in its list when no feed is free for it, without a
    feed: stopping the filter follows the null pointer. *)
Example add_pid_then_stop_crashes :
  (fst <$> run_on no_signal 1 [(0%nat, DMX_SET_PES_FILTER (pes_request DMX_IMMEDIATE_START)); (0%nat, DMX_ADD_PID 0x101)]) = Some [0; - EBUSY] /\
  run_on no_signal 1 [(0%nat, DMX_SET_PES_FILTER (pes_request DMX_IMMEDIATE_START)); (0%nat, DMX_ADD_PID 0x101); (0%nat, DMX_STOP)] = None.
Proof. by split; vm_compute. Qed.

(** When the second feed of a filter cannot be had, the first is not stopped, since the
    filter does not run yet: it is still running after the file has been closed. *)
Example failed_start_leaks :
  (r ← run_on no_signal 1 [(0%nat, DMX_SET_PES_FILTER (pes_request 0)); (0%nat, DMX_ADD_PID 0x101); (0%nat, DMX_START)];
   '(d, _) ← dvb_demux_release (Some (fun _ => 0)) (Some (fun _ => 0)) no_signal 0 (snd r);
   Some (fst r, feed_states d)) = Some ([0; 0; - EBUSY], [DMX_STATE_GO]).
Proof. by vm_compute. Qed.

(** A one-shot filter that is done runs again when another file on its PID is stopped. *)
Example one_shot_restarts :
  (r ← run_on no_signal 2 [(0%nat, DMX_SET_FILTER (section_request (Z.lor DMX_ONESHOT DMX_IMMEDIATE_START)))];
   d ← dvb_dmxdev_section_callback 0 [2; 0; 1; 9] [] (snd r);
   r2 ← ioctls no_signal [(1%nat, DMX_SET_FILTER (section_request DMX_IMMEDIATE_START)); (1%nat, DMX_STOP)] d;
   Some (fst r, dev_state <$> dev_filters d, fst r2, dev_state <$> dev_filters (snd r2))) =
  Some ([0], [DMXDEV_STATE_DONE; DMXDEV_STATE_ALLOCATED], [0; 0], [DMXDEV_STATE_GO; DMXDEV_STATE_SET]).
Proof. by vm_compute. Qed.
