(* ===== verification/DvbTypes.v ===== *)
(** * DvbTypes: libucsi/dvb/types.c

    Dates, durations and character sets of DVB tables.  The conversions of dates compute with
    doubles: the rounding of an operation is a parameter, of which the proofs use the relative
    error of IEEE arithmetic and that it keeps numbers with few bits. *)

From stdpp Require Import base strings.
From Stdlib Require Import QArith Qabs Qround Lqa.
From S2P Require Import Prelude.
Open Scope Z_scope.

(** ** Packed decimal numbers *)

(** The loop from the shift [i] on, [n] times. *)
Fixpoint integer_to_bcd_loop (n : nat) (i intval val : Z) : Z :=
  match n with
  | O => val
  | S n => integer_to_bcd_loop n (i + 4) (intval / 10) (Z.lor val (u32 (Z.shiftl (intval mod 10) i)))
  end.
Definition integer_to_bcd (intval : Z) : Z := integer_to_bcd_loop 8 0 intval 0.

Fixpoint bcd_to_integer_loop (n : nat) (bcdval val : Z) : Z :=
  match n with
  | O => val
  | S n =>
      let i := 4 * Z.of_nat n in
      let val := u32 (val + Z.land (Z.shiftr bcdval i) 0x0f) in
      bcd_to_integer_loop n bcdval (if i =? 0 then val else u32 (val * 10))
  end.
Definition bcd_to_integer (bcdval : Z) : Z := bcd_to_integer_loop 8 bcdval 0.

(** ** Durations *)

Definition dvbduration_to_seconds (d : list Z) : Z :=
  bcd_to_integer d.[0] * 60 * 60 + bcd_to_integer d.[1] * 60 + bcd_to_integer d.[2].
(** A number of type [int] becomes the argument of [integer_to_bcd], its result a byte. *)
Definition bcd_byte (n : Z) : Z := u8 (integer_to_bcd (u32 n)).
Definition seconds_to_dvbduration (seconds : Z) : list Z :=
  let hours := Z.quot seconds (60 * 60) in
  let seconds := seconds - hours * 60 * 60 in
  let mins := Z.quot seconds 60 in
  let seconds := seconds - mins * 60 in
  [bcd_byte hours; bcd_byte mins; bcd_byte seconds].
Definition dvbhhmm_to_seconds (d : list Z) : Z := bcd_to_integer d.[0] * 60 * 60 + bcd_to_integer d.[1] * 60.
Definition seconds_to_dvbhhmm (seconds : Z) : list Z :=
  let hours := Z.quot seconds (60 * 60) in
  let seconds := seconds - hours * 60 * 60 in
  let mins := Z.quot seconds 60 in
  [bcd_byte hours; bcd_byte mins].

(** ** Dates *)

(** The members of [struct tm] that are used. *)
Record tm := Tm { tm_year : Z; tm_mon : Z; tm_mday : Z; tm_hour : Z; tm_min : Z; tm_sec : Z }.

(** The Gregorian calendar. *)
Definition leap (y : Z) : bool := (y mod 4 =? 0) && (negb (y mod 100 =? 0) || (y mod 400 =? 0)).
Definition month_days (y m : Z) : Z :=
  if m =? 2 then if leap y then 29 else 28 else if (m =? 4) || (m =? 6) || (m =? 9) || (m =? 11) then 30 else 31.
Definition next_day (date : Z * Z * Z) : Z * Z * Z :=
  let '(y, m, d) := date in
  if d <? month_days y m then (y, m, d + 1) else if m <? 12 then (y, m + 1, 1) else (y + 1, 1, 1).
Definition previous_day (date : Z * Z * Z) : Z * Z * Z :=
  let '(y, m, d) := date in
  if 1 <? d then (y, m, d - 1) else if 1 <? m then (y, m - 1, month_days y (m - 1)) else (y - 1, 12, 31).
(** The date of a day, counted from the first of January 1970. *)
Definition civil (days : Z) : Z * Z * Z :=
  if 0 <=? days then Nat.iter (Z.to_nat days) next_day (1970, 1, 1) else Nat.iter (Z.to_nat (- days)) previous_day (1970, 1, 1).
(** [gmtime_r] of the C library. *)
Definition gmtime (t : Z) : tm :=
  let '(y, m, d) := civil (t / 86400) in
  let s := t mod 86400 in
  Tm (y - 1900) (m - 1) d (s / 3600) (s mod 3600 / 60) (s mod 60).

Section floating.
(** The rounding of an operation on doubles. *)
Context (rnd : Q -> Q).
(** [(int) x] *)
Definition to_int (x : Q) : Z := Z.quot (Qnum x) (Zpos (Qden x)).

Definition dvbdate_to_tm (dvbdate : list Z) : tm :=
  let mjd := Z.lor (Z.shiftl dvbdate.[0] 8) dvbdate.[1] in
  let year := to_int (rnd (rnd (inject_Z mjd - rnd (150782 # 10)) / rnd (36525 # 100))) in
  let days := to_int (rnd (inject_Z year * rnd (36525 # 100))) in
  let mon := to_int (rnd (rnd (rnd (inject_Z mjd - rnd (149561 # 10)) - inject_Z days) / rnd (306001 # 10000))) in
  let mday := mjd - 14956 - days - to_int (rnd (inject_Z mon * rnd (306001 # 10000))) in
  let k := if (mon =? 14) || (mon =? 15) then 1 else 0 in
  Tm (year + k) (mon - 2 - k * 12) mday (bcd_to_integer dvbdate.[2]) (bcd_to_integer dvbdate.[3]) (bcd_to_integer dvbdate.[4]).

(** [mktime] of the C library. *)
Context (mktime : tm -> Z).
Definition dvbdate_to_unixtime (dvbdate : list Z) : Z :=
  if (dvbdate.[0] =? 0xff) && (dvbdate.[1] =? 0xff) && (dvbdate.[2] =? 0xff) && (dvbdate.[3] =? 0xff) && (dvbdate.[4] =? 0xff)
  then -1 else mktime (dvbdate_to_tm dvbdate).

Definition tm_to_mjd (t : tm) : Z :=
  let mon := tm_mon t + 1 in
  let l := if (mon =? 1) || (mon =? 2) then 1 else 0 in
  14956 + tm_mday t + to_int (rnd (rnd (inject_Z (tm_year t) - inject_Z l) * rnd (36525 # 100)))
    + to_int (rnd (rnd (inject_Z (mon + 1) + rnd (inject_Z l * inject_Z 12)) * rnd (306001 # 10000))).
Definition unixtime_to_dvbdate (unixtime : Z) : list Z :=
  if unixtime =? -1 then [0xff; 0xff; 0xff; 0xff; 0xff] else
  let t := gmtime unixtime in
  let mjd := tm_to_mjd t in
  [Z.shiftr (Z.land mjd 0xff00) 8; Z.land mjd 0xff; bcd_byte (tm_hour t); bcd_byte (tm_min t); bcd_byte (tm_sec t)].
End floating.

(** ** Character sets *)

(** A [char] has a sign. *)
Definition char_of (b : Z) : Z := if b <? 128 then b else b - 256.
Definition charset_ext (ext : Z) : option string :=
  match ext with
  | 0x01 => Some "ISO8859-1" | 0x02 => Some "ISO8859-2" | 0x03 => Some "ISO8859-3" | 0x04 => Some "ISO8859-4"
  | 0x05 => Some "ISO8859-5" | 0x06 => Some "ISO8859-6" | 0x07 => Some "ISO8859-7" | 0x08 => Some "ISO8859-8"
  | 0x09 => Some "ISO8859-9" | 0x0a => Some "ISO8859-10" | 0x0b => Some "ISO8859-11" | 0x0d => Some "ISO8859-13"
  | 0x0e => Some "ISO8859-14" | 0x0f => Some "ISO8859-15" | _ => None
  end%string.
Definition charset_single (b : Z) : option string :=
  match b with
  | 0x01 => Some "ISO8859-5" | 0x02 => Some "ISO8859-6" | 0x03 => Some "ISO8859-7" | 0x04 => Some "ISO8859-8"
  | 0x05 => Some "ISO8859-9" | 0x06 => Some "ISO8859-10" | 0x07 => Some "ISO8859-11" | 0x09 => Some "ISO8859-13"
  | 0x0a => Some "ISO8859-14" | 0x0b => Some "ISO8859-15" | 0x11 => Some "UTF16" | 0x12 => Some "EUC-KR"
  | 0x13 => Some "GB2312" | 0x14 => Some "GBK" | 0x15 => Some "UTF8" | _ => None
  end%string.
(** The name and the number of bytes used; [None] is a read outside the text. *)
Definition dvb_charset (dvb_text : list Z) (dvb_text_length : Z) : option (string * Z) :=
  let none := ("ISO6937"%string, 0) in
  if dvb_text_length =? 0 then Some none else
  b0 ← zget dvb_text 0;
  if 32 <=? char_of b0 then Some none else
  if char_of b0 =? 0x10 then
    if dvb_text_length <? 3 then Some none else
    b1 ← zget dvb_text 1;
    b2 ← zget dvb_text 2;
    let ext := u16 (Z.lor (Z.shiftl (char_of b1) 8) (char_of b2)) in
    Some (if charset_ext ext is Some s then (s, 3) else none)
  else Some (if charset_single (char_of b0) is Some s then (s, 1) else none).

(** ** What the conversions compute *)

(** Arithmetic of doubles: small relative errors, and none for numbers of few bits. *)
Class Rounding (rnd : Q -> Q) : Prop := {
  #[global] rnd_proper :: Proper (Qeq ==> Qeq) rnd;
  rnd_near x : (Qabs (rnd x - x) <= Qabs x * (1 # 2 ^ 52))%Q;
  rnd_exact n k : Z.abs n < 2 ^ 53 -> (k <= 1000)%positive -> (rnd (n # 2 ^ k) == n # 2 ^ k)%Q }.
#[global] Instance exact_rounding : Rounding (fun x => x).
Proof.
  split.
  - by intros x y.
  - intros x. setoid_replace (x - x)%Q with 0%Q using relation Qeq by ring. apply Qmult_le_0_compat; [apply Qabs_nonneg|done].
  - done.
Qed.

Lemma to_int_floor n x : 0 <= n -> (inject_Z n <= x < inject_Z (n + 1))%Q -> to_int x = n.
Proof.
  intros Hn [H1 H2]. unfold Qle, Qlt, to_int, inject_Z in *. cbn [Qnum Qden] in *. rewrite Z.mul_1_r in *.
  rewrite Z.quot_div_nonneg by lia. symmetry. apply (Z.div_unique _ _ _ (Qnum x - n * Zpos (Qden x))); lia.
Qed.

Section rounding.
Context (rnd : Q -> Q) `{!Rounding rnd}.
Definition eps : Q := 1 # 10000000000.

Lemma near x : (- (200000 # 1) <= x <= 200000 # 1)%Q -> (x - eps <= rnd x <= x + eps)%Q.
Proof.
  intros Hx. pose proof (rnd_near x) as H. apply Qabs_Qle_condition in H.
  assert (Ha : (Qabs x <= 200000 # 1)%Q) by (by apply Qabs_Qle_condition).
  assert (Hb : (Qabs x * (1 # 2 ^ 52) <= eps)%Q).
  { apply (Qle_trans _ ((200000 # 1) * (1 # 2 ^ 52))); [|unfold eps; done]. by apply Qmult_le_compat_r. }
  lra.
Qed.
Lemma rnd_Z n : Z.abs n < 2 ^ 52 -> (rnd (inject_Z n) == inject_Z n)%Q.
Proof.
  intros Hn. setoid_replace (inject_Z n) with (2 * n # 2 ^ 1)%Q using relation Qeq by (unfold Qeq, inject_Z; cbn; lia).
  apply rnd_exact; [lia|done].
Qed.
Lemma rnd_year : (rnd (36525 # 100) == 1461 # 4)%Q.
Proof. setoid_replace (36525 # 100)%Q with (1461 # 2 ^ 2)%Q using relation Qeq by done. by apply rnd_exact. Qed.

Lemma year_of mjd : 15079 <= mjd <= 65535 ->
  to_int (rnd (rnd (inject_Z mjd - rnd (150782 # 10)) / rnd (36525 # 100))) = (20 * mjd - 301564) / 7305.
Proof.
  intros Hm. set (y := (20 * mjd - 301564) / 7305).
  assert (Hy : 7305 * y + 1 <= 20 * mjd - 301564 <= 7305 * y + 7304) by (subst y; lia).
  assert (H0 : 0 <= y <= 200) by lia. apply to_int_floor; [lia|]. rewrite rnd_year.
  pose proof (near (150782 # 10) ltac:(split; done)) as H1. set (c := rnd (150782 # 10)) in *.
  assert (Hq : ((7305 # 1) * inject_Z y + 1 <= (20 # 1) * inject_Z mjd - (301564 # 1) <= (7305 # 1) * inject_Z y + (7304 # 1))%Q).
  { unfold Qle, inject_Z. cbn. lia. }
  assert (Hq0 : (0 <= inject_Z y <= 200 # 1)%Q) by (unfold Qle, inject_Z; cbn; lia).
  rewrite inject_Z_plus. set (m := inject_Z mjd) in *. set (v := inject_Z y) in *. unfold eps in *. clearbody m v c.
  assert (H2 : (m - c - eps <= rnd (m - c) <= m - c + eps)%Q) by (apply near; lra).
  set (s := rnd (m - c)) in *. clearbody s. unfold eps in *. setoid_replace (s / (1461 # 4))%Q with (s * (4 # 1461))%Q using relation Qeq by field.
  assert (H3 : (s * (4 # 1461) - eps <= rnd (s * (4 # 1461)) <= s * (4 # 1461) + eps)%Q) by (apply near; lra).
  unfold eps in *. change (inject_Z 1) with (1 # 1)%Q. lra.
Qed.
Lemma days_of y : 0 <= y <= 10000 -> to_int (rnd (inject_Z y * rnd (36525 # 100))) = 1461 * y / 4.
Proof.
  intros Hy. set (n := 1461 * y / 4). assert (Hn : 4 * n <= 1461 * y < 4 * n + 4) by (subst n; lia).
  apply to_int_floor; [lia|]. rewrite rnd_year.
  setoid_replace (inject_Z y * (1461 # 4))%Q with (1461 * y # 2 ^ 2)%Q using relation Qeq by (unfold Qeq, inject_Z; cbn; lia).
  rewrite rnd_exact by lia. unfold Qle, Qlt, inject_Z. cbn. lia.
Qed.
(** Multiples of the length of a month, and the quotient. *)
Lemma month_const : (30 # 1 <= rnd (306001 # 10000) <= 31 # 1)%Q /\
  ((306001 # 10000) - eps <= rnd (306001 # 10000) <= (306001 # 10000) + eps)%Q.
Proof. pose proof (near (306001 # 10000) ltac:(split; done)) as H. unfold eps in *. split; lra. Qed.
Lemma month_times m : (0 <= m <= 20)%Z -> (inject_Z m * (306001 # 10000) - (20 # 1) * eps <= inject_Z m * rnd (306001 # 10000)
  <= inject_Z m * (306001 # 10000) + (20 # 1) * eps)%Q.
Proof.
  intros Hm. destruct month_const as [_ H]. set (c := rnd _) in *. clearbody c. unfold eps in *.
  assert (Hq : (0 <= inject_Z m <= 20 # 1)%Q) by (unfold Qle, inject_Z; cbn; lia). nra.
Qed.
Lemma mon_days m : 1 <= m <= 20 -> to_int (rnd (inject_Z m * rnd (306001 # 10000))) = 306001 * m / 10000.
Proof.
  intros Hm. set (n := 306001 * m / 10000). assert (Hn : 10000 * n + 1 <= 306001 * m <= 10000 * n + 9999) by (subst n; lia).
  apply to_int_floor; [lia|]. pose proof (month_times m ltac:(lia)) as H. set (x := (inject_Z m * rnd _)%Q) in *. clearbody x.
  assert (Hq : ((10000 # 1) * inject_Z n + 1 <= (306001 # 1) * inject_Z m <= (10000 # 1) * inject_Z n + (9999 # 1))%Q).
  { unfold Qle, inject_Z. cbn. lia. }
  assert (Hq0 : (0 <= inject_Z m <= 20 # 1)%Q) by (unfold Qle, inject_Z; cbn; lia).
  rewrite inject_Z_plus. set (v := inject_Z n) in *. set (w := inject_Z m) in *. clearbody v w. unfold eps in *.
  pose proof (near x ltac:(lra)) as H1. unfold eps in *. change (inject_Z 1) with (1 # 1)%Q. lra.
Qed.
Lemma month_of mjd d : 0 <= mjd <= 65535 -> 0 <= d <= 60000 -> 1 <= 10 * (mjd - d) - 149561 <= 6000 ->
  to_int (rnd (rnd (rnd (inject_Z mjd - rnd (149561 # 10)) - inject_Z d) / rnd (306001 # 10000))) =
    1000 * (10 * (mjd - d) - 149561) / 306001.
Proof.
  intros Hm Hd Hu. set (u := 10 * (mjd - d) - 149561) in *. set (n := 1000 * u / 306001).
  assert (Hn : 306001 * n + 1 <= 1000 * u <= 306001 * n + 306000).
  { subst n. assert (1000 * u mod 306001 <> 0); [|lia]. intros E.
    assert (Hdiv : (306001 | u)).
    { apply (Z.gauss _ 1000); [by apply Z.mod_divide|]. by vm_compute. }
    destruct Hdiv as [k Hk]. lia. }
  assert (H0 : 0 <= n <= 20) by lia. apply to_int_floor; [lia|].
  pose proof (near (149561 # 10) ltac:(split; done)) as H1. set (c := rnd (149561 # 10)) in *.
  assert (Hqm : (0 <= inject_Z mjd <= 65535 # 1)%Q) by (unfold Qle, inject_Z; cbn; lia).
  assert (Hqd : (0 <= inject_Z d <= 60000 # 1)%Q) by (unfold Qle, inject_Z; cbn; lia).
  assert (Hq : ((306001 # 1) * inject_Z n + 1 <= (1000 # 1) * ((10 # 1) * (inject_Z mjd - inject_Z d) - (149561 # 1))
      <= (306001 # 1) * inject_Z n + (306000 # 1))%Q).
  { subst u. unfold Qle, Qminus, inject_Z. cbn. lia. }
  pose proof (month_times n ltac:(lia)) as Hn1. pose proof (month_times (n + 1) ltac:(lia)) as Hn2. rewrite inject_Z_plus in Hn2.
  destruct month_const as [Hc _]. assert (Hv : (0 <= inject_Z n <= 20 # 1)%Q) by (unfold Qle, inject_Z; cbn; lia).
  rewrite inject_Z_plus. set (k := rnd (306001 # 10000)) in *. set (v := inject_Z n) in *. set (m := inject_Z mjd) in *. set (e := inject_Z d) in *.
  change (inject_Z 1) with (1 # 1)%Q in *. clearbody m v c e k. unfold eps in *.
  pose proof (near (m - c) ltac:(lra)) as H2. set (s := rnd (m - c)) in *. clearbody s. unfold eps in *.
  pose proof (near (s - e) ltac:(lra)) as H3. set (t := rnd (s - e)) in *. clearbody t. unfold eps in *.
  assert (Hq1 : (v + (1 # 10000000000) <= t / k)%Q) by (apply Qle_shift_div_l; lra).
  assert (Hq2 : (t / k <= v + 1 - (2 # 10000000000))%Q) by (apply Qle_shift_div_r; lra).
  set (q := (t / k)%Q) in *. clearbody q. pose proof (near q ltac:(lra)) as H4. unfold eps in *. lra.
Qed.
#[local] Instance to_int_proper : Proper (Qeq ==> eq) to_int.
Proof.
  intros x y E. unfold Qeq in E. unfold to_int.
  rewrite <- (Z.quot_mul_cancel_r (Qnum x) _ (Zpos (Qden y))), E, (Z.mul_comm (Zpos (Qden x))), Z.quot_mul_cancel_r by lia. done.
Qed.

(** The conversions with integers. *)
Definition date_int (mjd : Z) : Z * Z * Z :=
  let year := (20 * mjd - 301564) / 7305 in
  let days := 1461 * year / 4 in
  let mon := 1000 * (10 * (mjd - days) - 149561) / 306001 in
  let mday := mjd - 14956 - days - 306001 * mon / 10000 in
  let k := if (mon =? 14) || (mon =? 15) then 1 else 0 in
  (year + k, mon - 2 - k * 12, mday).
Definition mjd_int (year mon mday : Z) : Z :=
  let l := if (mon + 1 =? 1) || (mon + 1 =? 2) then 1 else 0 in
  14956 + mday + 1461 * (year - l) / 4 + 306001 * (mon + 1 + 1 + l * 12) / 10000.

Lemma dvbdate_to_tm_run d0 d1 d : byte d0 -> byte d1 -> 15079 <= 256 * d0 + d1 ->
  dvbdate_to_tm rnd (d0 :: d1 :: d) =
  let '(y, m, md) := date_int (256 * d0 + d1) in
  Tm y m md (bcd_to_integer (d0 :: d1 :: d).[2]) (bcd_to_integer (d0 :: d1 :: d).[3]) (bcd_to_integer (d0 :: d1 :: d).[4]).
Proof.
  intros H0 H1 Hm. unfold dvbdate_to_tm, date_int.
  assert (E : Z.lor (Z.shiftl (d0 :: d1 :: d).[0] 8) (d0 :: d1 :: d).[1] = 256 * d0 + d1).
  { change ((d0 :: d1 :: d).[0]) with d0. change ((d0 :: d1 :: d).[1]) with d1. unfold byte in *. rewrite lor_byte by done. lia. }
  rewrite E. set (mjd := 256 * d0 + d1) in *. assert (Hr : 15079 <= mjd <= 65535) by (unfold byte in *; lia). cbv zeta.
  rewrite year_of by done. set (y := (20 * mjd - 301564) / 7305). assert (Hy : 7305 * y <= 20 * mjd - 301564 < 7305 * y + 7305) by (subst y; lia).
  rewrite days_of by lia. set (dd := 1461 * y / 4). assert (Hd : 4 * dd <= 1461 * y < 4 * dd + 4) by (subst dd; lia).
  rewrite month_of by lia. set (mo := 1000 * _ / 306001). 
  assert (Hmo : 3 <= mo <= 16) by (subst mo; lia). rewrite mon_days by lia. done.
Qed.

Lemma tm_to_mjd_run t : 1 <= tm_year t <= 10000 -> 0 <= tm_mon t <= 11 -> tm_to_mjd rnd t = mjd_int (tm_year t) (tm_mon t) (tm_mday t).
Proof.
  intros Hy Hm. unfold tm_to_mjd, mjd_int. cbv zeta. set (l := if (tm_mon t + 1 =? 1) || (tm_mon t + 1 =? 2) then 1 else 0). assert (Hl : l = 0 \/ l = 1 /\ tm_mon t <= 1).
  { subst l. destruct (Z.eqb_spec (tm_mon t + 1) 1), (Z.eqb_spec (tm_mon t + 1) 2); cbn; lia. }
  assert (E1 : (rnd (inject_Z (tm_year t) - inject_Z l) == inject_Z (tm_year t - l))%Q).
  { rewrite <- (rnd_Z (tm_year t - l)) by lia. apply rnd_proper. unfold Qeq, Qminus, inject_Z. cbn. lia. }
  assert (E2 : (rnd (inject_Z (tm_mon t + 1 + 1) + rnd (inject_Z l * inject_Z 12)) == inject_Z (tm_mon t + 1 + 1 + l * 12))%Q).
  { rewrite <- (rnd_Z (tm_mon t + 1 + 1 + l * 12)) by lia. apply rnd_proper.
    rewrite <- inject_Z_mult, rnd_Z by lia. by rewrite <- inject_Z_plus. }
  rewrite E1, E2, days_of, mon_days by lia. done.
Qed.
End rounding.

(** ** The calendar *)

(** The days before a date, and the seconds before a time: [mktime] for the zone of Greenwich. *)
Definition before_month (y m : Z) : Z :=
  [0; 31; 59; 90; 120; 151; 181; 212; 243; 273; 304; 334].[m - 1] + (if leap y && (2 <? m) then 1 else 0).
Definition days_before (y m d : Z) : Z :=
  365 * (y - 1970) + ((y - 1) / 4 - (y - 1) / 100 + (y - 1) / 400) - 477 + before_month y m + (d - 1).
Definition timegm (t : tm) : Z :=
  86400 * days_before (tm_year t + 1900) (tm_mon t + 1) (tm_mday t) + 3600 * tm_hour t + 60 * tm_min t + tm_sec t.

Definition valid_date (date : Z * Z * Z) : Prop :=
  let '(y, m, d) := date in 1901 <= y <= 2099 /\ 1 <= m <= 12 /\ 1 <= d <= month_days y m.

Lemma leap_year y : 1901 <= y <= 2099 -> leap y = (y mod 4 =? 0).
Proof.
  intros Hy. unfold leap. destruct (Z.eqb_spec (y mod 4) 0); [|done]. cbn [andb].
  destruct (Z.eqb_spec (y mod 100) 0); [|done]. cbn [negb orb]. apply Z.eqb_eq. lia.
Qed.
(** One month after the other. *)
Lemma month_cases (P : Z -> Prop) : P 1 -> P 2 -> P 3 -> P 4 -> P 5 -> P 6 -> P 7 -> P 8 -> P 9 -> P 10 -> P 11 -> P 12 ->
  forall m, 1 <= m <= 12 -> P m.
Proof.
  intros. assert (m = 1 \/ m = 2 \/ m = 3 \/ m = 4 \/ m = 5 \/ m = 6 \/ m = 7 \/ m = 8 \/ m = 9 \/ m = 10 \/ m = 11 \/ m = 12) as Hm by lia.
  by repeat destruct Hm as [->|Hm]; subst.
Qed.
Lemma days_before_leap y m d : 1901 <= y <= 2099 ->
  days_before y m d = 365 * (y - 1970) + (y - 1) / 4 - 492 + before_month y m + (d - 1).
Proof. intros Hy. unfold days_before. lia. Qed.

(** A month, whether it counts as one of the year before, and the days before and in it. *)
Definition month_shift (m : Z) : Z := if (m =? 1) || (m =? 2) then 1 else 0.
Definition month_row (m : Z) : Z * Z * Z * Z * Z :=
  (m, month_shift m, 306001 * (m + 1 + month_shift m * 12) / 10000, before_month 1 m, month_days 1 m).
Lemma month_rows m : 1 <= m <= 12 -> In (month_row m)
  [(1, 1, 428, 0, 31); (2, 1, 459, 31, 28); (3, 0, 122, 59, 31); (4, 0, 153, 90, 30); (5, 0, 183, 120, 31); (6, 0, 214, 151, 30); (7, 0, 244, 181, 31); (8, 0, 275, 212, 31); (9, 0, 306, 243, 30); (10, 0, 336, 273, 31); (11, 0, 367, 304, 30); (12, 0, 397, 334, 31)].
Proof. revert m. apply month_cases; vm_compute; tauto. Qed.
Lemma month_leap y m : 1901 <= y <= 2099 -> 1 <= m <= 12 ->
  before_month y m = before_month 1 m + (if (y mod 4 =? 0) && (2 <? m) then 1 else 0) /\
  month_days y m = month_days 1 m + (if (y mod 4 =? 0) && (m =? 2) then 1 else 0).
Proof.
  intros Hy Hm. unfold before_month, month_days. rewrite leap_year by done. change (leap 1) with false. cbn [andb]. split; [lia|].
  destruct (m =? 2) eqn:E; destruct (y mod 4 =? 0); cbn [andb]; lia.
Qed.

Lemma days_before_next date : valid_date date -> let '(y, m, d) := date in let '(y', m', d') := next_day date in
  days_before y' m' d' = days_before y m d + 1.
Proof.
  destruct date as [[y m] d]. intros (Hy & Hm & Hd). unfold next_day. destruct (Z.ltb_spec d (month_days y m)); [unfold days_before; lia|].
  assert (d = month_days y m) as -> by lia. clear Hd H.
  destruct (Z.ltb_spec m 12).
  - unfold days_before. enough (before_month y (m + 1) = before_month y m + month_days y m) by lia.
    unfold before_month, month_days. assert (Hm' : 1 <= m <= 11) by lia. clear - Hm'. 
    assert (m = 1 \/ m = 2 \/ m = 3 \/ m = 4 \/ m = 5 \/ m = 6 \/ m = 7 \/ m = 8 \/ m = 9 \/ m = 10 \/ m = 11) as Hc by lia.
    repeat destruct Hc as [->|Hc]; subst; by destruct (leap y).
  - assert (m = 12) as -> by lia. unfold days_before. change (month_days y 12) with 31.
    assert (E1 : before_month (y + 1) 1 = 0) by (unfold before_month; by rewrite andb_false_r).
    assert (E2 : before_month y 12 = 334 + (if y mod 4 =? 0 then 1 else 0)) by (unfold before_month; by rewrite leap_year, andb_true_r by lia).
    rewrite E1, E2. destruct (Z.eqb_spec (y mod 4) 0); lia.
Qed.
Lemma mjd_days y m d : 1901 <= y <= 2099 -> 1 <= m <= 12 -> mjd_int (y - 1900) (m - 1) d = 40587 + days_before y m d.
Proof.
  intros Hy Hm. rewrite days_before_leap by done. unfold mjd_int. rewrite !Z.sub_add. fold (month_shift m).
  destruct (month_leap y m Hy Hm) as [-> _]. pose proof (month_rows m Hm) as H. unfold month_row in H.
  set (l := month_shift m) in *. set (M := 306001 * (m + 1 + l * 12) / 10000) in *. set (b := before_month 1 m) in *.
  clearbody l M b. cbn [In] in H. repeat destruct H as [H|H]; try done; injection H as <- <- <- <- _; destruct (Z.eqb_spec (y mod 4) 0); cbn [andb Z.ltb Z.compare Pos.compare Pos.compare_cont]; lia.
Qed.
Lemma date_of y m d : 1901 <= y <= 2099 -> 1 <= m <= 12 -> 1 <= d <= month_days y m ->
  date_int (40587 + days_before y m d) = (y - 1900, m - 1, d).
Proof.
  intros Hy Hm Hd. rewrite <- mjd_days by done. unfold mjd_int. rewrite !Z.sub_add. fold (month_shift m).
  rewrite (proj2 (month_leap y m Hy Hm)) in Hd. pose proof (month_rows m Hm) as H. unfold month_row in H. unfold date_int.
  set (l := month_shift m) in *. set (M := 306001 * (m + 1 + l * 12) / 10000) in *. set (b := before_month 1 m) in *. set (n := month_days 1 m) in *.
  set (mjd := 14956 + d + 1461 * (y - 1900 - l) / 4 + M).
  assert (Ey : (20 * mjd - 301564) / 7305 = y - 1900 - l).
  { subst mjd. clearbody l M b n. cbn [In] in H. repeat destruct H as [H|H]; try done; injection H as <- <- <- <- <-;
    destruct (Z.eqb_spec (y mod 4) 0); cbn [andb Z.eqb Pos.eqb] in Hd; lia. }
  rewrite Ey. set (D := 1461 * (y - 1900 - l) / 4) in *.
  replace (mjd - D) with (14956 + d + M) by lia.
  assert (Em : 1000 * (10 * (14956 + d + M) - 149561) / 306001 = m + 1 + l * 12).
  { assert (Hd' : 1 <= d <= n + (if m =? 2 then 1 else 0)) by (destruct (y mod 4 =? 0), (m =? 2); cbn [andb] in Hd; lia). clear Ey Hd mjd.
    clearbody l M b n. cbn [In] in H. repeat destruct H as [H|H]; try done; injection H as <- <- <- <- <-; cbn [Z.eqb Pos.eqb] in Hd'; lia. }
  rewrite Em. fold M. assert (Hk : (if (m + 1 + l * 12 =? 14) || (m + 1 + l * 12 =? 15) then 1 else 0) = l).
  { clear Ey Em Hd mjd. clearbody l M b n. cbn [In] in H. by repeat destruct H as [H|H]; try done; injection H as <- <- <- <- <-. }
  rewrite Hk. f_equal; [f_equal|]; subst mjd; lia.
Qed.

Lemma month_bounds y m : 1 <= m <= 12 -> 0 <= before_month y m /\ 28 <= month_days y m.
Proof.
  intros Hm. split.
  - unfold before_month. enough (0 <= [0; 31; 59; 90; 120; 151; 181; 212; 243; 273; 304; 334].[m - 1]) by (destruct (leap y && (2 <? m)); lia).
    revert m Hm. by apply month_cases.
  - unfold month_days. destruct (m =? 2), (leap y), ((m =? 4) || (m =? 6) || (m =? 9) || (m =? 11)); lia.
Qed.

(** The date of a day of 16 bits. *)
Lemma civil_date days : 0 <= days < 24949 ->
  let '(y, m, d) := civil days in valid_date (y, m, d) /\ days_before y m d = days.
Proof.
  intros Hd. unfold civil. rewrite (proj2 (Z.leb_le 0 days)) by lia.
  assert (H : forall n, Z.of_nat n < 24949 -> let '(y, m, d) := Nat.iter n next_day (1970, 1, 1) in
    valid_date (y, m, d) /\ days_before y m d = Z.of_nat n); [|specialize (H (Z.to_nat days)); rewrite Z2Nat.id in H by lia; apply H; lia].
  induction n as [|n IH]; intros Hn; [by vm_compute|]. specialize (IH ltac:(lia)). cbn [Nat.iter].
  change (Nat.iter (S n) next_day (1970, 1, 1)) with (next_day (Nat.iter n next_day (1970, 1, 1))).
  destruct (Nat.iter n next_day (1970, 1, 1)) as [[y m] d]. destruct IH as [Hv Hb].
  pose proof (days_before_next (y, m, d) Hv) as Hnx. cbn [fst snd] in Hnx.
  destruct Hv as (Hy & Hm & Hdd). destruct (month_bounds y m Hm) as [Hbm Hmd]. assert (y <= 2050) by (rewrite days_before_leap in Hb by done; lia).
  destruct (next_day (y, m, d)) as [[y' m'] d'] eqn:En. split; [|lia].
  unfold next_day in En. destruct (Z.ltb_spec d (month_days y m)); [injection En as <- <- <-; unfold valid_date; lia|].
  destruct (Z.ltb_spec m 12); injection En as <- <- <-; unfold valid_date.
  - destruct (month_bounds y (m + 1)); lia.
  - destruct (month_bounds (y + 1) 1); lia.
Qed.


(** ** Packed decimal numbers *)

(** The decimal digits of a number, as digits of base 16. *)
Fixpoint bcd_digits (n : nat) (x : Z) : Z := match n with O => 0 | S n => x mod 10 + 16 * bcd_digits n (x / 10) end.
Lemma bcd_digits_range n : forall x, 0 <= bcd_digits n x < 16 ^ Z.of_nat n.
Proof.
  induction n as [|n IH]; intros x; [done|]. cbn [bcd_digits]. specialize (IH (x / 10)).
  rewrite Nat2Z.inj_succ, Z.pow_succ_r by lia. lia.
Qed.
Lemma integer_to_bcd_loop_run n : forall i x val, 0 <= i -> i + 4 * Z.of_nat n <= 32 -> 0 <= val < 2 ^ i -> 0 <= x ->
  integer_to_bcd_loop n i x val = val + 2 ^ i * bcd_digits n x.
Proof.
  induction n as [|n IH]; intros i x val Hi Hn Hv Hx; cbn [integer_to_bcd_loop bcd_digits]; [lia|].
  assert (Hp : 2 ^ (i + 4) = 16 * 2 ^ i) by (rewrite Z.pow_add_r by lia; lia). pose proof (Z.pow_pos_nonneg 2 i ltac:(lia) Hi).
  assert (Hle : 2 ^ (i + 4) <= 2 ^ 32) by (apply Z.pow_le_mono_r; lia).
  rewrite u32_small by (rewrite Z.shiftl_mul_pow2 by lia; nia). rewrite Z.lor_comm, lor_shiftl_add by lia.
  rewrite IH by nia. nia.
Qed.
Lemma integer_to_bcd_run x : 0 <= x -> integer_to_bcd x = bcd_digits 8 x.
Proof. intros Hx. unfold integer_to_bcd. rewrite integer_to_bcd_loop_run by lia. lia. Qed.

Lemma bcd_digit n : forall x k, 0 <= k < Z.of_nat n -> Z.land (Z.shiftr (bcd_digits n x) (4 * k)) 0x0f = x / 10 ^ k mod 10.
Proof.
  change 0x0f with (Z.ones 4). induction n as [|n IH]; intros x k Hk; [lia|]. rewrite Z.land_ones, Z.shiftr_div_pow2 by lia.
  cbn [bcd_digits]. pose proof (Z.mod_pos_bound x 10 ltac:(lia)). destruct (decide (k = 0)) as [->|Hne].
  - change (2 ^ (4 * 0)) with 1. change (10 ^ 0) with 1. change (2 ^ 4) with 16. rewrite !Z.div_1_r.
    rewrite Z.mul_comm, Z.mod_add by lia. apply Z.mod_small. lia.
  - replace (4 * k) with (4 + 4 * (k - 1)) by lia. rewrite Z.pow_add_r, <- Z.div_div by lia. change (2 ^ 4) with 16 at 1.
    replace ((x mod 10 + 16 * bcd_digits n (x / 10)) / 16) with (bcd_digits n (x / 10)) by lia.
    specialize (IH (x / 10) (k - 1) ltac:(lia)). rewrite Z.land_ones, Z.shiftr_div_pow2 in IH by lia. rewrite IH.
    replace k with (1 + (k - 1)) at 2 by lia. rewrite Z.pow_add_r, <- Z.div_div by lia. done.
Qed.
(** Each digit comes back. *)
Lemma bcd_step q : 0 <= q -> q = 10 * (q / 10) + q mod 10 /\ 0 <= q mod 10 < 10 /\ 0 <= q / 10.
Proof. lia. Qed.
Lemma bcd_to_integer_digits x : 0 <= x -> bcd_to_integer (bcd_digits 8 x) = x mod 10 ^ 8.
Proof.
  intros Hx. unfold bcd_to_integer. cbn [bcd_to_integer_loop].
  rewrite (bcd_digit 8 x (Z.of_nat 7)) by lia.
  rewrite (bcd_digit 8 x (Z.of_nat 6)) by lia.
  rewrite (bcd_digit 8 x (Z.of_nat 5)) by lia.
  rewrite (bcd_digit 8 x (Z.of_nat 4)) by lia.
  rewrite (bcd_digit 8 x (Z.of_nat 3)) by lia.
  rewrite (bcd_digit 8 x (Z.of_nat 2)) by lia.
  rewrite (bcd_digit 8 x (Z.of_nat 1)) by lia.
  rewrite (bcd_digit 8 x (Z.of_nat 0)) by lia.
  assert (Hs : forall k, x / 10 ^ Z.of_nat (S k) = x / 10 ^ Z.of_nat k / 10).
  { intros k. rewrite Nat2Z.inj_succ, Z.pow_succ_r, Z.mul_comm, Z.div_div by lia. done. }
  rewrite !Hs. change (10 ^ Z.of_nat 0) with 1. rewrite Z.div_1_r.
  destruct (bcd_step x Hx) as (E0 & R0 & P1). destruct (bcd_step _ P1) as (E1 & R1 & P2). destruct (bcd_step _ P2) as (E2 & R2 & P3).
  destruct (bcd_step _ P3) as (E3 & R3 & P4). destruct (bcd_step _ P4) as (E4 & R4 & P5). destruct (bcd_step _ P5) as (E5 & R5 & P6).
  destruct (bcd_step _ P6) as (E6 & R6 & P7). destruct (bcd_step _ P7) as (E7 & R7 & P8).
  repeat match goal with |- context [?a mod 10] => let d := fresh "d" in set (d := a mod 10) in *; clearbody d end.
  repeat match goal with |- context [if 4 * Z.of_nat ?k =? 0 then _ else _] => let b := eval vm_compute in (4 * Z.of_nat k =? 0) in change (4 * Z.of_nat k =? 0) with b; cbv iota end.
  rewrite !(Z.add_0_l).
  repeat match goal with |- context [u32 ?e] => lazymatch e with context [u32 _] => fail | _ => rewrite (u32_small e) by lia end end.
  change (10 ^ 8) with 100000000. apply (Z.mod_unique _ _ (x / 10 / 10 / 10 / 10 / 10 / 10 / 10 / 10)); [left; clear - R0 R1 R2 R3 R4 R5 R6 R7; lia|].
  clear Hs. lia.
Qed.

(** Packing a number in decimal digits and back keeps its last eight digits. *)
Theorem bcd_roundtrip x : 0 <= x < 2 ^ 32 -> bcd_to_integer (integer_to_bcd x) = x mod 10 ^ 8.
Proof. intros Hx. rewrite integer_to_bcd_run by lia. apply bcd_to_integer_digits. lia. Qed.

(** A byte of two digits. *)
Lemma bcd_byte_run n : 0 <= n < 100 -> bcd_byte n = n mod 10 + 16 * (n / 10).
Proof.
  intros Hn. unfold bcd_byte. rewrite u32_small, integer_to_bcd_run by lia. cbn [bcd_digits].
  rewrite (Z.div_small (n / 10) 10), !(Z.div_small 0 10), (Z.mod_small 0 10), (Z.mod_small (n / 10)) by lia.
  rewrite u8_small by (unfold byte; lia). lia.
Qed.
Lemma bcd_byte_back n : 0 <= n < 100 -> bcd_to_integer (bcd_byte n) = n.
Proof.
  intros Hn. assert (E : bcd_byte n = integer_to_bcd n).
  { rewrite bcd_byte_run, integer_to_bcd_run by lia. cbn [bcd_digits].
    rewrite (Z.div_small (n / 10) 10), !(Z.div_small 0 10), (Z.mod_small 0 10), (Z.mod_small (n / 10)) by lia. lia. }
  rewrite E, bcd_roundtrip by lia. apply Z.mod_small. lia.
Qed.

(** ** Round trips *)

(** C22: A time until the 22nd of April 2038, as a date and back, is the time less the offset of the
    local zone: the date is read by [mktime], in local time. *)
Theorem dvbdate_roundtrip rnd zone t : Rounding rnd -> 0 <= t < 24949 * 86400 ->
  let mjd := 40587 + t / 86400 in
  unixtime_to_dvbdate rnd t =
    [mjd / 256; mjd mod 256; bcd_byte (t mod 86400 / 3600); bcd_byte (t mod 3600 / 60); bcd_byte (t mod 60)] /\
  dvbdate_to_unixtime rnd (fun tm => timegm tm - zone) (unixtime_to_dvbdate rnd t) = t - zone.
Proof.
  intros Hr Ht mjd. assert (Hd : 0 <= t / 86400 < 24949) by lia. pose proof (civil_date _ Hd) as Hc.
  unfold unixtime_to_dvbdate, gmtime. rewrite (proj2 (Z.eqb_neq t (-1))) by lia. destruct (civil (t / 86400)) as [[y m] d].
  destruct Hc as [(Hy & Hm & Hdd) Hb]. rewrite (tm_to_mjd_run rnd) by (cbn [tm_year tm_mon]; lia). cbn [tm_year tm_mon tm_mday tm_hour tm_min tm_sec].
  rewrite mjd_days, Hb by done. fold mjd. assert (Hmjd : 40587 <= mjd <= 65535) by (subst mjd; lia).
  assert (E : [Z.shiftr (Z.land mjd 0xff00) 8; Z.land mjd 0xff; bcd_byte (t mod 86400 / 3600); bcd_byte (t mod 86400 mod 3600 / 60);
    bcd_byte (t mod 86400 mod 60)] = [mjd / 256; mjd mod 256; bcd_byte (t mod 86400 / 3600); bcd_byte (t mod 3600 / 60); bcd_byte (t mod 60)]).
  { rewrite land_255. f_equal; [|f_equal; f_equal; f_equal; [f_equal; lia|f_equal; f_equal; lia]].
    change 0xff00 with (Z.shiftl 0xff 8). rewrite <- !shiftr_8, Z.shiftr_land, Z.shiftr_shiftl_l, Z.shiftl_0_r by lia. rewrite land_255, shiftr_8.
    apply Z.mod_small. lia. }
  rewrite E. split; [done|]. unfold dvbdate_to_unixtime.
  assert (H2 : bcd_byte (t mod 86400 / 3600) <> 255) by (rewrite bcd_byte_run; lia).
  assert (B : forall a b c e f, [a; b; c; e; f].[2] = c /\ [a; b; c; e; f].[3] = e /\ [a; b; c; e; f].[4] = f) by (by intros).
  destruct (B (mjd / 256) (mjd mod 256) (bcd_byte (t mod 86400 / 3600)) (bcd_byte (t mod 3600 / 60)) (bcd_byte (t mod 60))) as (B2 & B3 & B4).
  rewrite B2, (proj2 (Z.eqb_neq _ 255) H2), andb_false_r. cbn [andb].
  rewrite (dvbdate_to_tm_run rnd) by (unfold byte; lia). replace (256 * (mjd / 256) + mjd mod 256) with (40587 + t / 86400) by lia.
  rewrite <- Hb, date_of by done. unfold timegm. cbn [tm_year tm_mon tm_mday tm_hour tm_min tm_sec]. rewrite !Z.sub_add.
  rewrite B2, B3, B4.
  rewrite !bcd_byte_back, Hb by lia. lia.
Qed.


(** Exact arithmetic, one hour east of Greenwich. *)
Example dvbdate_roundtrip_witness :
  unixtime_to_dvbdate (fun x => x) 750474005 = [0xc0; 0x79; 0x01; 0x00; 0x05] /\
  dvbdate_to_unixtime (fun x => x) (fun tm => timegm tm - 3600) (unixtime_to_dvbdate (fun x => x) 750474005) = 750470405.
Proof.
  assert (Ht : 0 <= 750474005 < 24949 * 86400) by lia.
  pose proof (dvbdate_roundtrip (fun x => x) 3600 750474005 exact_rounding Ht) as H.
  split.
  - refine (eq_trans (proj1 H) _). vm_compute. reflexivity.
  - refine (eq_trans (proj2 H) _). reflexivity.
Defined.

(** The undefined date. *)
Lemma dvbdate_undefined rnd mktime : dvbdate_to_unixtime rnd mktime (unixtime_to_dvbdate rnd (-1)) = -1.
Proof. done. Qed.

(** Durations of less than a hundred hours, and times without seconds. *)
Theorem dvbduration_roundtrip s : 0 <= s < 360000 ->
  dvbduration_to_seconds (seconds_to_dvbduration s) = s /\ dvbhhmm_to_seconds (seconds_to_dvbhhmm s) = s - s mod 60.
Proof.
  intros Hs. unfold dvbduration_to_seconds, seconds_to_dvbduration, dvbhhmm_to_seconds, seconds_to_dvbhhmm. cbv zeta.
  rewrite !Z.quot_div_nonneg by lia.
  assert (B3 : forall a b c, [a; b; c].[0] = a /\ [a; b; c].[1] = b /\ [a; b; c].[2] = c) by (by intros).
  assert (B2 : forall a b, [a; b].[0] = a /\ [a; b].[1] = b) by (by intros).
  set (h := s / (60 * 60)). set (r := s - h * 60 * 60). assert (Hh : 0 <= r < 3600 /\ 0 <= h < 100) by (subst h r; lia).
  set (m := r / 60). assert (Hm : 0 <= m < 60) by (subst m; lia).
  rewrite (proj1 (B3 _ _ _)), (proj1 (proj2 (B3 _ _ _))), (proj2 (proj2 (B3 _ _ _))), (proj1 (B2 _ _)), (proj2 (B2 _ _)).
  rewrite !bcd_byte_back by (subst m; lia). subst m r h. lia.
Qed.

(** [dvb_charset] reads inside the text, and the bytes of the character set are part of it. *)
Theorem dvb_charset_safe text : bytes text -> exists name used, dvb_charset text (zlen text) = Some (name, used) /\ 0 <= used <= zlen text.
Proof.
  intros Hb. pose proof (zlen_nonneg text). unfold dvb_charset. cbv zeta. destruct (Z.eqb_spec (zlen text) 0) as [|Hne]; [eexists _, _; split; [done|lia]|].
  rewrite (zget_in text 0) by lia. cbn [mbind option_bind]. destruct (32 <=? _); [eexists _, _; split; [done|lia]|].
  destruct (_ =? 0x10).
  - destruct (Z.ltb_spec (zlen text) 3); [eexists _, _; split; [done|lia]|]. rewrite (zget_in text 1), (zget_in text 2) by lia. cbn [mbind option_bind].
    destruct (charset_ext _); eexists _, _; (split; [done|lia]).
  - destruct (charset_single _); eexists _, _; (split; [done|lia]).
Qed.
