(* ===== verification/AppMmi.v ===== *)
(** * AppMmi: libdvben50221/en50221_app_mmi.c

    The man-machine interface: menus, lists and subtitles of the module, which come in
    fragments that are collected for each session, and what the host answers.  The received
    APDU is a list of bytes, a pointer into it an offset; a block of the heap is its bytes,
    and the length kept beside it is theirs.  [None] is an access outside an
    object, a block used after it was freed, or a task that waits for the mutex it holds. *)

From S2P Require Import Prelude Mem EndianOps Asn1 AppResources.

Definition TAG_CLOSE_MMI : Z := 0x9f8800.
Definition TAG_DISPLAY_CONTROL : Z := 0x9f8801.
Definition TAG_DISPLAY_REPLY : Z := 0x9f8802.
Definition TAG_TEXT_LAST : Z := 0x9f8803.
Definition TAG_TEXT_MORE : Z := 0x9f8804.
Definition TAG_KEYPAD_CONTROL : Z := 0x9f8805.
Definition TAG_KEYPRESS : Z := 0x9f8806.
Definition TAG_ENQUIRY : Z := 0x9f8807.
Definition TAG_ANSWER : Z := 0x9f8808.
Definition TAG_MENU_LAST : Z := 0x9f8809.
Definition TAG_MENU_MORE : Z := 0x9f880a.
Definition TAG_MENU_ANSWER : Z := 0x9f880b.
Definition TAG_LIST_LAST : Z := 0x9f880c.
Definition TAG_LIST_MORE : Z := 0x9f880d.
Definition TAG_SUBTITLE_SEGMENT_LAST : Z := 0x9f880e.
Definition TAG_SUBTITLE_SEGMENT_MORE : Z := 0x9f880f.
Definition TAG_DISPLAY_MESSAGE : Z := 0x9f8810.
Definition TAG_SCENE_END_MARK : Z := 0x9f8811.
Definition TAG_SCENE_DONE : Z := 0x9f8812.
Definition TAG_SCENE_CONTROL : Z := 0x9f8813.
Definition TAG_SUBTITLE_DOWNLOAD_LAST : Z := 0x9f8814.
Definition TAG_SUBTITLE_DOWNLOAD_MORE : Z := 0x9f8815.
Definition TAG_FLUSH_DOWNLOAD : Z := 0x9f8816.
Definition TAG_DOWNLOAD_REPLY : Z := 0x9f8817.

Definition MMI_CLOSE_MMI_CMD_ID_DELAY : Z := 0x01.
Definition MMI_DISPLAY_CONTROL_CMD_ID_SET_MMI_MODE : Z := 0x01.
Definition MMI_DISPLAY_REPLY_ID_MMI_MODE_ACK : Z := 0x01.
Definition MMI_DISPLAY_REPLY_ID_LIST_DISPLAY_CHAR_TABLES : Z := 0x02.
Definition MMI_DISPLAY_REPLY_ID_LIST_INPUT_CHAR_TABLES : Z := 0x03.
Definition MMI_DISPLAY_REPLY_ID_LIST_OVERLAY_GFX_CHARACTERISTICS : Z := 0x04.
Definition MMI_DISPLAY_REPLY_ID_LIST_FULLSCREEN_GFX_CHARACTERISTICS : Z := 0x05.
Definition MMI_ANSW_ID_ANSWER : Z := 0x01.

(** ** The state *)

(** A pointer to a block of the heap: null, to the bytes of a block, or to a block that has been
    freed, which was empty. *)
Inductive mblock := Null | Live (b : list Z) | Dangling.

Record en50221_app_mmi_session := MmiSession {
  session_number : Z; menu_block : mblock; list_block : mblock;
  subtitlesegment_block : mblock; subtitledownload_block : mblock }.

Inductive mmi_callback_kind :=
| KClose | KDisplayControl | KKeypadControl | KSubtitleSegment | KSceneEndMark | KSceneControl
| KSubtitleDownload | KFlushDownload | KEnq | KMenu | KList.

(** What the application is told, with the bytes that its pointers are to. *)
Inductive mmi_event :=
| MmiClose (cmd_id delay : Z)
| MmiDisplayControl (cmd_id mmi_mode : Z)
| MmiKeypadControl (cmd_id : Z) (keycodes : list Z)
| MmiEnq (blind_answer answer_length : Z) (text : list Z)
| MmiMenu (title sub_title bottom : list Z) (items : list (list Z)) (items_raw : list Z)
| MmiList (title sub_title bottom : list Z) (items : list (list Z)) (items_raw : list Z)
| MmiSubtitleSegment (segment : list Z)
| MmiSubtitleDownload (segment : list Z)
| MmiSceneEndMark (decoder_continue scene_reveal send_scene_done scene_tag : Z)
| MmiSceneControl (decoder_continue scene_reveal scene_tag : Z)
| MmiFlushDownload.

(** [mmi_cb] gives the callbacks that are registered: they are called with the slot, the session and
    what they are told. [allocs] counts the allocations. *)
Record en50221_app_mmi := AppMmi {
  mmi_lock : bool; mmi_sessions : list en50221_app_mmi_session;
  mmi_cb : mmi_callback_kind -> option (Z -> Z -> mmi_event -> Z); allocs : nat }.

Definition set_sessions (l : list en50221_app_mmi_session) (mmi : en50221_app_mmi) : en50221_app_mmi :=
  AppMmi (mmi_lock mmi) l (mmi_cb mmi) (allocs mmi).
Definition set_lock (b : bool) (mmi : en50221_app_mmi) : en50221_app_mmi :=
  AppMmi b (mmi_sessions mmi) (mmi_cb mmi) (allocs mmi).
Definition count_alloc (mmi : en50221_app_mmi) : en50221_app_mmi :=
  AppMmi (mmi_lock mmi) (mmi_sessions mmi) (mmi_cb mmi) (S (allocs mmi)).

(** [pthread_mutex_lock] *)
Definition take_lock (mmi : en50221_app_mmi) : option en50221_app_mmi := if mmi_lock mmi then None else Some (set_lock true mmi).
Definition drop_lock : en50221_app_mmi -> en50221_app_mmi := set_lock false.

Definition en50221_app_mmi_create (malloc_ok : bool) : option en50221_app_mmi :=
  if malloc_ok then Some (AppMmi false [] (fun _ => None) 0%nat) else None.

(** [if (block) free(block)] *)
Definition free_block (b : mblock) : option unit := if b is Dangling then None else Some tt.
Definition free_session (s : en50221_app_mmi_session) : option unit :=
  _ ← free_block (menu_block s); _ ← free_block (list_block s);
  _ ← free_block (subtitlesegment_block s); free_block (subtitledownload_block s).
Fixpoint en50221_app_mmi_destroy_sessions (l : list en50221_app_mmi_session) : option unit :=
  match l with [] => Some tt | s :: l => _ ← free_session s; en50221_app_mmi_destroy_sessions l end.
Definition en50221_app_mmi_destroy (mmi : en50221_app_mmi) : option unit := en50221_app_mmi_destroy_sessions (mmi_sessions mmi).

(** The lock is not released when the session is found. *)
Fixpoint clear_sessions (n : Z) (l : list en50221_app_mmi_session) : option (option (list en50221_app_mmi_session)) :=
  match l with
  | [] => Some None
  | s :: l =>
      if session_number s =? n then _ ← free_session s; Some (Some l)
      else r ← clear_sessions n l; Some (if r is Some l then Some (s :: l) else None)
  end.
Definition en50221_app_mmi_clear_session (mmi : en50221_app_mmi) (n : Z) : option en50221_app_mmi :=
  mmi ← take_lock mmi;
  r ← clear_sessions n (mmi_sessions mmi);
  Some (if r is Some l then set_sessions l mmi else drop_lock mmi).

Definition mmi_kind_eqb (a b : mmi_callback_kind) : bool :=
  match a, b with
  | KClose, KClose | KDisplayControl, KDisplayControl | KKeypadControl, KKeypadControl | KSubtitleSegment, KSubtitleSegment
  | KSceneEndMark, KSceneEndMark | KSceneControl, KSceneControl | KSubtitleDownload, KSubtitleDownload
  | KFlushDownload, KFlushDownload | KEnq, KEnq | KMenu, KMenu | KList, KList => true
  | _, _ => false
  end.
Definition en50221_app_mmi_register_callback (k : mmi_callback_kind) (cb : option (Z -> Z -> mmi_event -> Z))
    (mmi : en50221_app_mmi) : option en50221_app_mmi :=
  mmi ← take_lock mmi;
  Some (drop_lock (AppMmi (mmi_lock mmi) (mmi_sessions mmi) (fun k' => if mmi_kind_eqb k k' then cb else mmi_cb mmi k') (allocs mmi))).

(** ** Collecting fragments *)

Section mmi.
(** Whether the [n]-th allocation succeeds. *)
Context (mem_ok : nat -> bool).

(** [new = realloc(block, block_length + n)] and, unless it is null, [memcpy] of the [n]
    bytes behind the old ones.  To no bytes, [realloc] of the GNU C library frees a block and returns null.
    A length of more than 32 bits wraps, and the copy leaves the block. *)
Definition append_block (ok : bool) (b : mblock) (src : list Z) : option (option (list Z) * mblock) :=
  match b with
  | Dangling => None
  | Null => Some (if ok then Some src else None, Null)
  | Live old =>
      if zlen old + zlen src =? 0 then Some (None, Dangling) else
      if negb ok then Some (None, b) else
      if zlen old + zlen src <? 2 ^ 32 then Some (Some (old ++ src), b) else None
  end.

(** The block of a tag, if it has one. *)
Definition block_of (tag_id : Z) (s : en50221_app_mmi_session) : option mblock :=
  if (tag_id =? TAG_MENU_LAST) || (tag_id =? TAG_MENU_MORE) then Some (menu_block s)
  else if (tag_id =? TAG_LIST_LAST) || (tag_id =? TAG_LIST_MORE) then Some (list_block s)
  else if (tag_id =? TAG_SUBTITLE_SEGMENT_LAST) || (tag_id =? TAG_SUBTITLE_SEGMENT_MORE) then Some (subtitlesegment_block s)
  else if (tag_id =? TAG_SUBTITLE_DOWNLOAD_LAST) || (tag_id =? TAG_SUBTITLE_DOWNLOAD_MORE) then Some (subtitledownload_block s)
  else None.
Definition set_block_of (tag_id : Z) (b : mblock) (s : en50221_app_mmi_session) : en50221_app_mmi_session :=
  if (tag_id =? TAG_MENU_LAST) || (tag_id =? TAG_MENU_MORE)
  then MmiSession (session_number s) b (list_block s) (subtitlesegment_block s) (subtitledownload_block s)
  else if (tag_id =? TAG_LIST_LAST) || (tag_id =? TAG_LIST_MORE)
  then MmiSession (session_number s) (menu_block s) b (subtitlesegment_block s) (subtitledownload_block s)
  else if (tag_id =? TAG_SUBTITLE_SEGMENT_LAST) || (tag_id =? TAG_SUBTITLE_SEGMENT_MORE)
  then MmiSession (session_number s) (menu_block s) (list_block s) b (subtitledownload_block s)
  else MmiSession (session_number s) (menu_block s) (list_block s) (subtitlesegment_block s) b.

Definition find_session (n : Z) (mmi : en50221_app_mmi) : option (nat * en50221_app_mmi_session) :=
  list_find (fun s => session_number s = n) (mmi_sessions mmi).

(** Bytes of an object. *)
Definition slice (mem : list Z) (p n : Z) : option (list Z) :=
  if decide (0 <= p /\ 0 <= n /\ p + n <= zlen mem) then Some (ztake n (zdrop p mem)) else None.

(** What is to be parsed: bytes of the APDU from an offset on, or a block. *)
Definition outdata : Type := (list Z * Z * Z)%type.
(** The result is -1, 0 for a fragment, 1 for data of the APDU, and 2 for a block. *)
Definition en50221_app_mmi_defragment (mmi : en50221_app_mmi) (sn tag_id : Z) (more_last : bool)
    (mem : list Z) (indata indata_length : Z) : option (en50221_app_mmi * Z * outdata) :=
  let none := ([], 0, 0) in
  let '(mmi, cur_s, oom) :=
    match find_session sn mmi with
    | Some r => (mmi, Some r, false)
    | None =>
        if more_last then (mmi, None, false)
        else if mem_ok (allocs mmi) then
          let s := MmiSession sn Null Null Null Null in
          (set_sessions (s :: mmi_sessions mmi) (count_alloc mmi), Some (0%nat, s), false)
        else (count_alloc mmi, None, true)
    end in
  if oom then Some (mmi, -1, none) else
  match cur_s with
  | None => Some (mmi, 1, (mem, indata, indata_length))
  | Some (k, s) =>
      match block_of tag_id s with
      | None => Some (mmi, -1, none)
      | Some b =>
          src ← slice mem indata indata_length;
          '(new, old) ← append_block (mem_ok (allocs mmi)) b src;
          let mmi := count_alloc mmi in
          let store b mmi := set_sessions (<[k := set_block_of tag_id b s]> (mmi_sessions mmi)) mmi in
          match new with
          | None => Some (store old mmi, -1, none)
          | Some new =>
              if more_last then Some (store Null mmi, 2, (new, 0, zlen new))
              else Some (store (Live new) mmi, 0, none)
          end
      end
  end.

(** One text: pieces with the tag of a continuation, and a last one.  The length of a piece is
    not compared with that of the data.  Each turn moves on by four bytes at least. *)
Fixpoint defragment_text_loop (fuel : nat) (n : nat) (text : mblock) (mem : list Z) (data data_length consumed : Z) :
    option (nat * Z * list Z * Z) :=
  match fuel with
  | O => None
  | S fuel =>
      let fail (text : mblock) (n : nat) := _ ← free_block text; Some (n, -1, [], 0) in
      if data_length <? 3 then fail text n else
      b0 ← zget mem data; b1 ← zget mem (data + 1); b2 ← zget mem (data + 2);
      let tag := Z.lor (Z.lor (Z.shiftl b0 16) (Z.shiftl b1 8)) b2 in
      '(length_field_len, asn) ← asn_1_decode mem (data + 3) (data_length - 3);
      if length_field_len <? 0 then fail text n else
      let asn_data_length := default 0 asn in
      let data := data + 3 + length_field_len in
      let data_length := data_length - 3 - length_field_len in
      let consumed := consumed + 3 + length_field_len in
      if tag =? TAG_TEXT_LAST then
        piece ← slice mem data asn_data_length;
        match text with
        | Null => Some (n, 1, piece, consumed + asn_data_length)
        | _ =>
            '(new, old) ← append_block (mem_ok n) text piece;
            match new with
            | None => fail old (S n)
            | Some new => Some (S n, 2, new, consumed + asn_data_length)
            end
        end
      else if tag =? TAG_TEXT_MORE then
        piece ← slice mem data asn_data_length;
        '(new, old) ← append_block (mem_ok n) text piece;
        match new with
        | None => fail old (S n)
        | Some new =>
            defragment_text_loop fuel (S n) (Live new) mem (data + asn_data_length) (u32 (data_length - asn_data_length))
              (consumed + asn_data_length)
        end
      else fail text n
  end.
Definition en50221_app_mmi_defragment_text (n : nat) (mem : list Z) (data data_length : Z) : option (nat * Z * list Z * Z) :=
  defragment_text_loop (S (length mem)) n Null mem data data_length 0.

(** ** Messages of the module *)

(** The callback of a kind: with the lock its pointer is read, without it it is called. *)
Definition tell_mmi (k : mmi_callback_kind) (slot_id sn : Z) (ev : mmi_event) (mmi : en50221_app_mmi) :
    option (en50221_app_mmi * Z * list mmi_event) :=
  mmi ← take_lock mmi;
  let cb := mmi_cb mmi k in
  let mmi := drop_lock mmi in
  Some (if cb is Some f then (mmi, f slot_id sn ev, [ev]) else (mmi, 0, [])).
Definition mmi_error (mmi : en50221_app_mmi) : option (en50221_app_mmi * Z * list mmi_event) := Some (mmi, -1, []).

(** The two messages with an optional argument. *)
Definition parse_command (k : mmi_callback_kind) (ev : Z -> Z -> mmi_event) (with_arg : Z) (mmi : en50221_app_mmi)
    (slot_id sn : Z) (mem : list Z) (data data_length : Z) : option (en50221_app_mmi * Z * list mmi_event) :=
  if data_length <? 2 then mmi_error mmi else
  b ← zget mem data;
  if data_length - 1 <? b then mmi_error mmi else
  cmd_id ← zget mem (data + 1);
  if cmd_id =? with_arg then
    if negb (b =? 2) then mmi_error mmi else
    arg ← zget mem (data + 2); tell_mmi k slot_id sn (ev cmd_id arg) mmi
  else tell_mmi k slot_id sn (ev cmd_id 0) mmi.
Definition en50221_app_mmi_parse_close := parse_command KClose MmiClose MMI_CLOSE_MMI_CMD_ID_DELAY.
Definition en50221_app_mmi_parse_display_control :=
  parse_command KDisplayControl MmiDisplayControl MMI_DISPLAY_CONTROL_CMD_ID_SET_MMI_MODE.

(** Decoding the length field and checking it. *)
Definition mmi_length (mmi : en50221_app_mmi) (mem : list Z) (data data_length least : Z)
    (parse : Z -> Z -> option (en50221_app_mmi * Z * list mmi_event)) : option (en50221_app_mmi * Z * list mmi_event) :=
  '(length_field_len, asn) ← asn_1_decode mem data data_length;
  if length_field_len <? 0 then mmi_error mmi else
  let asn_data_length := default 0 asn in
  if data_length - length_field_len <? asn_data_length then mmi_error mmi else
  if asn_data_length <? least then mmi_error mmi else
  parse (data + length_field_len) asn_data_length.

Definition en50221_app_mmi_parse_keypad_control (mmi : en50221_app_mmi) (slot_id sn : Z) (mem : list Z) (data data_length : Z) :=
  mmi_length mmi mem data data_length 1 (fun data asn_data_length =>
    cmd_id ← zget mem data;
    keycodes ← slice mem (data + 1) (asn_data_length - 1);
    tell_mmi KKeypadControl slot_id sn (MmiKeypadControl cmd_id keycodes) mmi).
Definition en50221_app_mmi_parse_enq (mmi : en50221_app_mmi) (slot_id sn : Z) (mem : list Z) (data data_length : Z) :=
  mmi_length mmi mem data data_length 2 (fun data asn_data_length =>
    b ← zget mem data;
    let blind_answer := if Z.land b 0x01 =? 0 then 0 else 1 in
    answer_length ← zget mem (data + 1);
    text ← slice mem (data + 2) (asn_data_length - 2);
    tell_mmi KEnq slot_id sn (MmiEnq blind_answer answer_length text) mmi).

(** The texts of a menu: [None] in the result is the error of a text. *)
Fixpoint menu_texts (count : nat) (n : nat) (mem : list Z) (data data_length : Z) : option (nat * option (list (list Z) * Z * Z)) :=
  match count with
  | O => Some (n, Some ([], data, data_length))
  | S count =>
      '(n, cur_status, text, consumed) ← en50221_app_mmi_defragment_text n mem data data_length;
      if cur_status <? 0 then Some (n, None) else
      '(n, r) ← menu_texts count n mem (data + consumed) (u32 (data_length - consumed));
      Some (n, if r is Some (texts, data, data_length) then Some (text :: texts, data, data_length) else None)
  end.

(** The pointers to the first three texts are followed by the callback. *)
Definition menu_event (tag_id : Z) (texts : list (list Z)) (items_raw : list Z) : option mmi_event :=
  match texts with
  | title :: sub_title :: bottom :: items =>
      Some ((if tag_id =? TAG_MENU_LAST then MmiMenu else MmiList) title sub_title bottom items items_raw)
  | _ => None
  end.
(** With the lock. *)
Definition menu_callback (mmi : en50221_app_mmi) (k : mmi_callback_kind) (slot_id sn tag_id : Z) (texts : list (list Z))
    (items_raw : list Z) : option (en50221_app_mmi * Z * list mmi_event) :=
  let mmi' := drop_lock mmi in
  if mmi_cb mmi k is Some f then ev ← menu_event tag_id texts items_raw; Some (mmi', f slot_id sn ev, [ev])
  else Some (mmi', 0, []).
Definition set_allocs (n : nat) (mmi : en50221_app_mmi) : en50221_app_mmi :=
  AppMmi (mmi_lock mmi) (mmi_sessions mmi) (mmi_cb mmi) n.

(** The collected data: the number of choices, and the texts. *)
Definition parse_menu (mmi : en50221_app_mmi) (slot_id sn tag_id : Z) (mem : list Z) (data data_length : Z) :
    option (en50221_app_mmi * Z * list mmi_event) :=
  if data_length <? 1 then mmi_error (drop_lock mmi) else
  choice_nb ← zget mem data;
  let text_count := if choice_nb =? 0xff then 3 else u8 (choice_nb + 3) in
  '(n, r) ← menu_texts (Z.to_nat text_count) (allocs mmi) mem (data + 1) (data_length - 1);
  let mmi := set_allocs n mmi in
  match r with
  | None => mmi_error (drop_lock mmi)
  | Some (texts, data, data_length) =>
      items_raw ← (if choice_nb =? 0xff then slice mem data data_length else Some []);
      if tag_id =? TAG_MENU_LAST then menu_callback mmi KMenu slot_id sn tag_id texts items_raw
      else if tag_id =? TAG_LIST_LAST then menu_callback mmi KList slot_id sn tag_id texts items_raw
      else Some (drop_lock mmi, 0, [])
  end.
Definition en50221_app_mmi_parse_list_menu (mmi : en50221_app_mmi) (slot_id sn tag_id : Z) (more_last : bool)
    (mem : list Z) (data data_length : Z) : option (en50221_app_mmi * Z * list mmi_event) :=
  mmi_length mmi mem data data_length 0 (fun data asn_data_length =>
    mmi ← take_lock mmi;
    '(mmi, dfstatus, out) ← en50221_app_mmi_defragment mmi sn tag_id more_last mem data asn_data_length;
    if dfstatus <=? 0 then Some (drop_lock mmi, dfstatus, []) else
    let '(mem, data, data_length) := out in
    parse_menu mmi slot_id sn tag_id mem data data_length).

Definition en50221_app_mmi_parse_subtitle (mmi : en50221_app_mmi) (slot_id sn tag_id : Z) (more_last : bool)
    (mem : list Z) (data data_length : Z) : option (en50221_app_mmi * Z * list mmi_event) :=
  mmi_length mmi mem data data_length 0 (fun data asn_data_length =>
    mmi ← take_lock mmi;
    '(mmi, dfstatus, out) ← en50221_app_mmi_defragment mmi sn tag_id more_last mem data asn_data_length;
    if dfstatus <=? 0 then Some (drop_lock mmi, dfstatus, []) else
    let '(mem, data, data_length) := out in
    segment ← slice mem data data_length;
    let call k ev :=
      let mmi' := drop_lock mmi in
      Some (if mmi_cb mmi k is Some f then (mmi', f slot_id sn ev, [ev]) else (mmi', 0, [])) in
    if tag_id =? TAG_SUBTITLE_SEGMENT_LAST then call KSubtitleSegment (MmiSubtitleSegment segment)
    else if tag_id =? TAG_SUBTITLE_DOWNLOAD_LAST then call KSubtitleDownload (MmiSubtitleDownload segment)
    else Some (mmi, 0, [])).

Definition flag (b bit : Z) : Z := if Z.land b bit =? 0 then 0 else 1.
Definition parse_flags (mmi : en50221_app_mmi) (mem : list Z) (data data_length : Z)
    (k : Z -> option (en50221_app_mmi * Z * list mmi_event)) : option (en50221_app_mmi * Z * list mmi_event) :=
  if negb (data_length =? 2) then mmi_error mmi else
  b ← zget mem data;
  if negb (b =? 1) then mmi_error mmi else
  flags ← zget mem (data + 1); k flags.
Definition en50221_app_mmi_parse_scene_end_mark (mmi : en50221_app_mmi) (slot_id sn : Z) (mem : list Z) (data data_length : Z) :=
  parse_flags mmi mem data data_length (fun flags =>
    tell_mmi KSceneEndMark slot_id sn (MmiSceneEndMark (flag flags 0x80) (flag flags 0x40) (flag flags 0x20) (Z.land flags 0x0f)) mmi).
Definition en50221_app_mmi_parse_scene_control (mmi : en50221_app_mmi) (slot_id sn : Z) (mem : list Z) (data data_length : Z) :=
  parse_flags mmi mem data data_length (fun flags =>
    tell_mmi KSceneControl slot_id sn (MmiSceneControl (flag flags 0x80) (flag flags 0x40) (Z.land flags 0x0f)) mmi).
Definition en50221_app_mmi_parse_flush_download (mmi : en50221_app_mmi) (slot_id sn : Z) (mem : list Z) (data data_length : Z) :
    option (en50221_app_mmi * Z * list mmi_event) :=
  if negb (data_length =? 1) then mmi_error mmi else
  b ← zget mem data;
  if negb (b =? 0) then mmi_error mmi else tell_mmi KFlushDownload slot_id sn MmiFlushDownload mmi.

(** The APDU [mem] from the module. *)
Definition en50221_app_mmi_message (mmi : en50221_app_mmi) (slot_id sn : Z) (mem : list Z) :
    option (en50221_app_mmi * Z * list mmi_event) :=
  let data_length := zlen mem in
  if data_length <? 3 then mmi_error mmi else
  b0 ← zget mem 0; b1 ← zget mem 1; b2 ← zget mem 2;
  let tag := Z.lor (Z.lor (Z.shiftl b0 16) (Z.shiftl b1 8)) b2 in
  let data := 3 in
  let data_length := data_length - 3 in
  if tag =? TAG_CLOSE_MMI then en50221_app_mmi_parse_close mmi slot_id sn mem data data_length
  else if tag =? TAG_DISPLAY_CONTROL then en50221_app_mmi_parse_display_control mmi slot_id sn mem data data_length
  else if tag =? TAG_KEYPAD_CONTROL then en50221_app_mmi_parse_keypad_control mmi slot_id sn mem data data_length
  else if tag =? TAG_ENQUIRY then en50221_app_mmi_parse_enq mmi slot_id sn mem data data_length
  else if (tag =? TAG_MENU_LAST) || (tag =? TAG_LIST_LAST)
  then en50221_app_mmi_parse_list_menu mmi slot_id sn tag true mem data data_length
  else if (tag =? TAG_MENU_MORE) || (tag =? TAG_LIST_MORE)
  then en50221_app_mmi_parse_list_menu mmi slot_id sn tag false mem data data_length
  else if (tag =? TAG_SUBTITLE_SEGMENT_LAST) || (tag =? TAG_SUBTITLE_DOWNLOAD_LAST)
  then en50221_app_mmi_parse_subtitle mmi slot_id sn tag true mem data data_length
  else if (tag =? TAG_SUBTITLE_SEGMENT_MORE) || (tag =? TAG_SUBTITLE_DOWNLOAD_MORE)
  then en50221_app_mmi_parse_subtitle mmi slot_id sn tag false mem data data_length
  else if tag =? TAG_SCENE_END_MARK then en50221_app_mmi_parse_scene_end_mark mmi slot_id sn mem data data_length
  else if tag =? TAG_SCENE_CONTROL then en50221_app_mmi_parse_scene_control mmi slot_id sn mem data data_length
  else if tag =? TAG_FLUSH_DOWNLOAD then en50221_app_mmi_parse_flush_download mmi slot_id sn mem data data_length
  else mmi_error mmi.
End mmi.

(** ** What the host sends *)

Section senders.
Context {R : Type} (fail : R) (send_data : Z -> list Z -> R) (send_datav : Z -> list (list Z) -> R).
Context (uninit : list Z).

Definition en50221_app_mmi_close (sn cmd_id delay : Z) : R :=
  send_data sn (tag_bytes TAG_CLOSE_MMI ++
    (if cmd_id =? MMI_CLOSE_MMI_CMD_ID_DELAY then [2; cmd_id; delay] else [1; cmd_id])).
Definition en50221_app_mmi_keypress (sn keycode : Z) : R := send_data sn (tag_bytes TAG_KEYPRESS ++ [1; keycode]).
Definition en50221_app_mmi_display_message (sn display_message_id : Z) : R :=
  send_data sn (tag_bytes TAG_DISPLAY_MESSAGE ++ [1; display_message_id]).
Definition en50221_app_mmi_scene_done (sn decoder_continue scene_reveal scene_tag : Z) : R :=
  send_data sn (tag_bytes TAG_SCENE_DONE ++
    [1; Z.lor (Z.lor (if decoder_continue =? 0 then 0 else 0x80) (if scene_reveal =? 0 then 0 else 0x40)) (Z.land scene_tag 0x0f)]).
Definition en50221_app_mmi_download_reply (sn object_id download_reply_id : Z) : R :=
  send_data sn (tag_bytes TAG_DOWNLOAD_REPLY ++ [3; u8 (Z.shiftr object_id 8); u8 object_id; download_reply_id]).
Definition en50221_app_mmi_menu_answ (sn choice_ref : Z) : R := send_data sn (tag_bytes TAG_MENU_ANSWER ++ [1; choice_ref]).

Definition en50221_app_mmi_answ (sn answ_id : Z) (text : list Z) (text_count : Z) : option R :=
  let buf := start_header uninit TAG_ANSWER in
  if answ_id =? MMI_ANSW_ID_ANSWER then
    '(length_field_len, buf) ← asn_1_encode (u16 (text_count + 1)) buf 3 3;
    if length_field_len <? 0 then Some fail else
    buf ← put8 buf (3 + length_field_len) answ_id;
    a ← iov buf (3 + length_field_len + 1);
    b ← iov text text_count;
    Some (send_datav sn [a; b])
  else Some (send_datav sn [tag_bytes TAG_ANSWER ++ [1; answ_id]]).

Record mmi_pixel_depth := PixelDepth { display_depth : Z; pixels_per_byte : Z; region_overhead : Z }.
Record mmi_gfx := MmiGfx {
  gfx_width : Z; gfx_height : Z; aspect_ratio : Z; gfx_relation_to_video : Z; multiple_depths : Z;
  display_bytes : Z; composition_buffer_bytes : Z; object_cache_bytes : Z; pixel_depths : list mmi_pixel_depth }.
Inductive mmi_reply_details := ModeAck (mmi_mode : Z) | CharTable (table : list Z) | Gfx (g : mmi_gfx).

(** The loop over the pixel depths moves the pointer behind the array it has filled: the bytes
    that are sent are what is there on the stack. *)
Definition gfx_header (g : mmi_gfx) : list Z :=
  [u8 (Z.shiftr (gfx_width g) 8); u8 (gfx_width g); u8 (Z.shiftr (gfx_height g) 8); u8 (gfx_height g);
   u8 (Z.lor (Z.lor (Z.shiftl (Z.land (aspect_ratio g) 0x0f) 4) (Z.shiftl (Z.land (gfx_relation_to_video g) 0x07) 1))
     (Z.land (multiple_depths g) 1));
   u8 (Z.shiftr (display_bytes g) 4);
   u8 (Z.lor (Z.shiftl (Z.land (display_bytes g) 0x0f) 4) (Z.shiftr (Z.land (composition_buffer_bytes g) 0xf0) 4));
   u8 (Z.lor (Z.shiftl (Z.land (composition_buffer_bytes g) 0x0f) 4) (Z.shiftr (Z.land (object_cache_bytes g) 0xf0) 4));
   u8 (Z.lor (Z.shiftl (Z.land (object_cache_bytes g) 0x0f) 4) (Z.land (zlen (pixel_depths g)) 0x0f))].
Definition pixel_depth_bytes (p : mmi_pixel_depth) : list Z :=
  [u8 (Z.lor (Z.shiftl (Z.land (display_depth p) 0x07) 5) (Z.shiftl (Z.land (pixels_per_byte p) 0x07) 2)); u8 (region_overhead p)].
Definition en50221_app_mmi_display_reply (sn reply_id : Z) (details : mmi_reply_details) : option R :=
  let data := start_header uninit TAG_DISPLAY_REPLY in
  if reply_id =? MMI_DISPLAY_REPLY_ID_MMI_MODE_ACK then
    mode ← (if details is ModeAck m then Some m else None);
    Some (send_datav sn [tag_bytes TAG_DISPLAY_REPLY ++ [2; reply_id; mode]])
  else if (reply_id =? MMI_DISPLAY_REPLY_ID_LIST_DISPLAY_CHAR_TABLES) || (reply_id =? MMI_DISPLAY_REPLY_ID_LIST_INPUT_CHAR_TABLES) then
    table ← (if details is CharTable t then Some t else None);
    '(length_field_len, data) ← asn_1_encode (u16 (zlen table + 1)) data 3 3;
    if length_field_len <? 0 then Some fail else
    data ← put8 data (3 + length_field_len) reply_id;
    a ← iov data (3 + length_field_len + 1);
    Some (send_datav sn [a; table])
  else if (reply_id =? MMI_DISPLAY_REPLY_ID_LIST_OVERLAY_GFX_CHARACTERISTICS) ||
          (reply_id =? MMI_DISPLAY_REPLY_ID_LIST_FULLSCREEN_GFX_CHARACTERISTICS) then
    g ← (if details is Gfx g then Some g else None);
    '(length_field_len, data) ← asn_1_encode (u16 (1 + 9 + zlen (pixel_depths g) * 2)) data 3 3;
    if length_field_len <? 0 then Some fail else
    data ← copy_to data (3 + length_field_len) (reply_id :: gfx_header g);
    a ← iov data (3 + length_field_len + 10);
    let pixdepths := flat_map pixel_depth_bytes (pixel_depths g) in
    b ← slice pixdepths (zlen (pixel_depths g) * 2) (zlen (pixel_depths g) * 2);
    Some (send_datav sn [a; b])
  else Some (send_datav sn [tag_bytes TAG_DISPLAY_REPLY ++ [1; reply_id]]).
End senders.
