(* ===== verification/AppMmiMenu.v ===== *)
(** * AppMmiMenu: menus and lists of the man-machine interface

    A menu of the module reaches the application as it was sent, however its body is cut into
    fragments and its texts into pieces; and the messages and calls with which the code of
    AppMmi.v goes wrong. *)

From S2P Require Import Prelude Mem EndianOps Asn1 AppResources AppMmi.

(** ** What the standard lets a module send *)

(** A text: pieces to be continued, and a last one. *)
Record mmi_text := MmiText { text_pieces : list (list Z); text_last : list Z }.
Definition text_of (t : mmi_text) : list Z := concat (text_pieces t) ++ text_last t.
Definition text_enc (t : mmi_text) : list Z :=
  flat_map (apdu TAG_TEXT_MORE) (text_pieces t) ++ apdu TAG_TEXT_LAST (text_last t).
Definition piece_ok (p : list Z) : Prop := 0 < zlen p < 65536.
Definition text_ok (t : mmi_text) : Prop := Forall piece_ok (text_pieces t) /\ zlen (text_last t) < 65536.

(** The choices, or bytes that are left to the application. *)
Inductive mmi_choices := Items (l : list mmi_text) | Raw (b : list Z).
Definition choices_ok (c : mmi_choices) : Prop := match c with Items l => zlen l <= 252 /\ Forall text_ok l | Raw _ => True end.
Definition menu_body (title sub_title bottom : mmi_text) (c : mmi_choices) : list Z :=
  match c with
  | Items l => zlen l :: flat_map text_enc (title :: sub_title :: bottom :: l)
  | Raw b => 0xff :: flat_map text_enc [title; sub_title; bottom] ++ b
  end.
Definition told (menu : bool) (title sub_title bottom : mmi_text) (c : mmi_choices) : mmi_event :=
  (if menu then MmiMenu else MmiList) (text_of title) (text_of sub_title) (text_of bottom)
    (match c with Items l => text_of <$> l | Raw _ => [] end) (match c with Items _ => [] | Raw b => b end).

(** ** Running the parsers *)

Lemma tag_at pre tag rest : 0 <= tag < 2 ^ 24 -> exists b0 b1 b2,
  zget (pre ++ tag_bytes tag ++ rest) (zlen pre) = Some b0 /\ zget (pre ++ tag_bytes tag ++ rest) (zlen pre + 1) = Some b1 /\
  zget (pre ++ tag_bytes tag ++ rest) (zlen pre + 2) = Some b2 /\ Z.lor (Z.lor (Z.shiftl b0 16) (Z.shiftl b1 8)) b2 = tag.
Proof.
  intros Ht. eexists _, _, _. pose proof (zget_mid pre (tag_bytes tag) rest) as H.
  split; [rewrite <- (Z.add_0_r (zlen pre)); by apply H|]. split; [by apply H|]. split; [by apply H|]. by apply tag_join.
Qed.
Lemma slice_mid pre l post p n : p = zlen pre -> n = zlen l -> slice (pre ++ l ++ post) p n = Some l.
Proof.
  intros -> ->. unfold slice. pose proof (zlen_nonneg pre). pose proof (zlen_nonneg l). pose proof (zlen_nonneg post).
  rewrite decide_True by (rewrite !zlen_app; lia). by rewrite zdrop_app, ztake_app.
Qed.
Lemma zlen_apdu tag b : zlen (apdu tag b) = 3 + zlen (asn_field (zlen b)) + zlen b.
Proof. unfold apdu. rewrite !zlen_app. change (zlen (tag_bytes tag)) with 3. lia. Qed.

Section run.
Context (mem_ok : nat -> bool) (memory : forall n, mem_ok n = true).

(** A text that has been collected so far. *)
Definition collected (text : mblock) (acc : list Z) : Prop := text = Null /\ acc = [] \/ text = Live acc /\ acc <> [].
Lemma append_collected text acc src : collected text acc -> zlen acc + zlen src < 2 ^ 32 ->
  append_block true text src = Some (Some (acc ++ src), text).
Proof.
  intros [[-> ->]|[-> Hne]] Hl; [done|]. unfold append_block. pose proof (zlen_nonneg src). pose proof (zlen_nonneg acc).
  assert (zlen acc <> 0) by (intros E; by apply zlen_nil_inv in E).
  rewrite (proj2 (Z.eqb_neq _ 0)) by lia. cbn [negb]. by rewrite (proj2 (Z.ltb_lt _ (2 ^ 32))) by lia.
Qed.

(** One turn of the loop over the pieces. *)
Lemma text_piece fuel n text acc pre tag b post len consumed :
  collected text acc -> tag = TAG_TEXT_LAST \/ tag = TAG_TEXT_MORE -> zlen b < 65536 -> zlen acc + zlen b < 2 ^ 32 ->
  zlen (apdu tag b) <= len < 2 ^ 32 ->
  defragment_text_loop mem_ok (S fuel) n text (pre ++ apdu tag b ++ post) (zlen pre) len consumed =
  if tag =? TAG_TEXT_LAST then
    Some (if text is Null then (n, 1, acc ++ b, consumed + zlen (apdu tag b)) else (S n, 2, acc ++ b, consumed + zlen (apdu tag b)))
  else defragment_text_loop mem_ok fuel (S n) (Live (acc ++ b)) (pre ++ apdu tag b ++ post) (zlen (pre ++ apdu tag b)) (len - zlen (apdu tag b))
         (consumed + zlen (apdu tag b)).
Proof.
  intros Ht Htag Hb Hacc Hlen. rewrite zlen_app, zlen_apdu in *. pose proof (asn_field_len (zlen b)) as Ha. pose proof (zlen_nonneg b) as Hb0.
  cbn [defragment_text_loop]. rewrite (proj2 (Z.ltb_ge len 3)) by lia. unfold apdu. rewrite <- !app_assoc.
  destruct (tag_at pre tag (asn_field (zlen b) ++ b ++ post)) as (b0 & b1 & b2 & -> & -> & -> & Ej).
  { destruct Htag as [-> | ->]; split; done. }
  cbn [mbind option_bind]. rewrite Ej.
  pose proof (asn_1_decode_field (pre ++ tag_bytes tag) (zlen b) (b ++ post) (len - 3)) as Hd.
  rewrite zlen_app, <- app_assoc in Hd. change (zlen (tag_bytes tag)) with 3 in Hd. rewrite decide_True in Hd by lia.
  rewrite Hd by lia. cbn [mbind option_bind default from_option]. rewrite (proj2 (Z.ltb_ge _ 0)) by lia.
  assert (Hs : slice (pre ++ tag_bytes tag ++ asn_field (zlen b) ++ b ++ post) (zlen pre + 3 + zlen (asn_field (zlen b))) (zlen b) = Some b).
  { rewrite !(app_assoc pre), (app_assoc (pre ++ _)). apply slice_mid; [|done]. rewrite !zlen_app. change (zlen (tag_bytes tag)) with 3. lia. }
  unfold id. rewrite Hs. cbn [mbind option_bind]. rewrite memory, (append_collected text acc b Ht Hacc). cbn [mbind option_bind].
  replace (consumed + 3 + zlen (asn_field (zlen b)) + zlen b) with (consumed + (3 + zlen (asn_field (zlen b)) + zlen b)) by lia.
  destruct Htag as [-> | ->]; cbn [Z.eqb Pos.eqb TAG_TEXT_LAST TAG_TEXT_MORE].
  - destruct Ht as [[-> ->]|[-> _]]; done.
  - rewrite u32_small by lia. f_equal; lia.
Qed.

Lemma text_loop_run t : forall fuel n text acc pre post len consumed,
  text_ok t -> collected text acc -> (length (text_pieces t) < fuel)%nat ->
  zlen acc + zlen (text_enc t) < 2 ^ 32 -> zlen (text_enc t) <= len < 2 ^ 32 ->
  exists n' st, defragment_text_loop mem_ok fuel n text (pre ++ text_enc t ++ post) (zlen pre) len consumed =
    Some (n', st, acc ++ text_of t, consumed + zlen (text_enc t)) /\ 0 < st.
Proof.
  destruct t as [ps l]. unfold text_enc, text_of, text_ok. cbn [text_pieces text_last].
  induction ps as [|p ps IH]; intros fuel n text acc pre post len consumed [Hps Hl] Ht Hf Hacc Hlen; (destruct fuel as [|fuel]; [cbn in Hf; lia|]).
  - cbn [flat_map concat app] in *. rewrite zlen_apdu in Hacc. pose proof (asn_field_len (zlen l)).
    rewrite (text_piece fuel n text acc) by (auto; lia). rewrite Z.eqb_refl.
    destruct text; eexists _, _; (split; [reflexivity|done]).
  - apply Forall_cons_iff in Hps as [[Hp0 Hp] Hps]. cbn [flat_map concat] in *. rewrite <- !app_assoc in *. rewrite !zlen_app in *.
    pose proof (zlen_apdu TAG_TEXT_MORE p). pose proof (asn_field_len (zlen p)). pose proof (zlen_nonneg (flat_map (apdu TAG_TEXT_MORE) ps)). pose proof (zlen_nonneg (apdu TAG_TEXT_LAST l)).
    rewrite (text_piece fuel n text acc) by (auto; lia). cbn [Z.eqb Pos.eqb TAG_TEXT_LAST TAG_TEXT_MORE]. rewrite app_assoc.
    destruct (IH fuel (S n) (Live (acc ++ p)) (acc ++ p) (pre ++ apdu TAG_TEXT_MORE p) post (len - zlen (apdu TAG_TEXT_MORE p))
      (consumed + zlen (apdu TAG_TEXT_MORE p))) as (n' & st & E & Hst).
    + by split.
    + right. split; [done|]. intros E. apply app_nil in E as [_ ->]. done.
    + cbn in Hf. lia.
    + rewrite !zlen_app. lia.
    + lia.
    + exists n', st. repeat rewrite <- app_assoc in E. repeat rewrite <- app_assoc. split; [|done]. rewrite E. do 2 f_equal. lia.
Qed.
Lemma text_run t n pre post len : text_ok t -> zlen (text_enc t) <= len < 2 ^ 32 ->
  exists n' st, en50221_app_mmi_defragment_text mem_ok n (pre ++ text_enc t ++ post) (zlen pre) len =
    Some (n', st, text_of t, zlen (text_enc t)) /\ 0 < st.
Proof.
  intros Ht Hl. unfold en50221_app_mmi_defragment_text.
  destruct (text_loop_run t (S (length (pre ++ text_enc t ++ post))) n Null [] pre post len 0) as (n' & st & E & Hst); try done.
  - by left.
  - rewrite !length_app. assert (H : (length (text_pieces t) <= length (text_enc t))%nat); [|lia].
    unfold text_enc. rewrite length_app. generalize (text_pieces t) as ps. induction ps as [|p ps IH]; [cbn; lia|].
    cbn [flat_map]. rewrite length_app. unfold apdu at 1. cbn [tag_bytes app length]. lia.
  - change (zlen []) with 0. lia.
  - exists n', st. by rewrite E.
Qed.

Lemma menu_texts_run ts : forall n pre post len, Forall text_ok ts -> zlen (flat_map text_enc ts) <= len < 2 ^ 32 ->
  exists n', menu_texts mem_ok (length ts) n (pre ++ flat_map text_enc ts ++ post) (zlen pre) len =
    Some (n', Some (text_of <$> ts, zlen pre + zlen (flat_map text_enc ts), len - zlen (flat_map text_enc ts))).
Proof.
  induction ts as [|t ts IH]; intros n pre post len Hts Hl; cbn [length menu_texts flat_map].
  - exists n. change (zlen (flat_map text_enc [])) with 0. rewrite Z.add_0_r, Z.sub_0_r. done.
  - apply Forall_cons_iff in Hts as [Ht Hts]. cbn [flat_map] in Hl. rewrite zlen_app in *. pose proof (zlen_nonneg (flat_map text_enc ts)).
    pose proof (zlen_nonneg (text_enc t)). rewrite <- app_assoc.
    destruct (text_run t n pre (flat_map text_enc ts ++ post) len Ht ltac:(lia)) as (n1 & st & -> & Hst). cbn [mbind option_bind].
    rewrite (proj2 (Z.ltb_ge st 0)), u32_small by lia.
    destruct (IH n1 (pre ++ text_enc t) post (len - zlen (text_enc t)) Hts ltac:(lia)) as (n2 & E).
    rewrite zlen_app, <- app_assoc in E. rewrite E. cbn [mbind option_bind]. exists n2. rewrite fmap_cons. do 4 f_equal; [f_equal|]; lia.
Qed.
Definition menu_kind (menu : bool) : mmi_callback_kind := if menu then KMenu else KList.
Definition last_tag (menu : bool) : Z := if menu then TAG_MENU_LAST else TAG_LIST_LAST.
Definition more_tag (menu : bool) : Z := if menu then TAG_MENU_MORE else TAG_LIST_MORE.

Lemma parse_menu_run mmi slot sn menu title sub_title bottom c pre cb :
  text_ok title -> text_ok sub_title -> text_ok bottom -> choices_ok c -> mmi_cb mmi (menu_kind menu) = Some cb ->
  zlen (menu_body title sub_title bottom c) < 2 ^ 32 ->
  exists n, parse_menu mem_ok mmi slot sn (last_tag menu) (pre ++ menu_body title sub_title bottom c) (zlen pre)
      (zlen (menu_body title sub_title bottom c)) =
    Some (drop_lock (set_allocs n mmi), cb slot sn (told menu title sub_title bottom c), [told menu title sub_title bottom c]).
Proof.
  intros Ht Hs Hb Hc Hcb Hlen. set (rest := match c with Items _ => [] | Raw b => b end).
  set (items := match c with Items l => l | Raw _ => [] end). set (nb := match c with Items l => zlen l | Raw _ => 0xff end).
  set (ts := title :: sub_title :: bottom :: items).
  assert (Hbody : menu_body title sub_title bottom c = [nb] ++ flat_map text_enc ts ++ rest).
  { subst nb ts items rest. destruct c; [|done]. cbn [menu_body app]. by rewrite app_nil_r. }
  rewrite Hbody in *. assert (Hts : Forall text_ok ts).
  { subst ts items. repeat (apply Forall_cons_2; [done|]). destruct c; [apply Hc|done]. }
  rewrite zlen_app in *. change (zlen [nb]) with 1 in *. rewrite zlen_app in *.
  pose proof (zlen_nonneg (flat_map text_enc ts)). pose proof (zlen_nonneg rest).
  unfold parse_menu. rewrite (proj2 (Z.ltb_ge _ 1)) by lia. pose proof (zget_mid pre [nb] (flat_map text_enc ts ++ rest) 0 ltac:(done)) as Hz.
  rewrite Z.add_0_r in Hz. rewrite Hz. change ([nb].[0]) with nb. cbn [mbind option_bind].
  assert (Hn : Z.to_nat (if nb =? 0xff then 3 else u8 (nb + 3)) = length ts).
  { subst nb ts items. destruct c as [l|b]; [|done]. destruct Hc as [Hl _]. pose proof (zlen_nonneg l).
    rewrite (proj2 (Z.eqb_neq (zlen l) 255)), u8_small by (unfold byte; lia). cbn [length]. unfold zlen. lia. }
  rewrite Hn. destruct (menu_texts_run ts (allocs mmi) (pre ++ [nb]) rest (1 + (zlen (flat_map text_enc ts) + zlen rest) - 1) Hts ltac:(lia)) as (n & E).
  rewrite zlen_app, <- app_assoc in E. change (zlen [nb]) with 1 in E. rewrite E. cbn [mbind option_bind]. exists n.
  assert (Hraw : (if nb =? 0xff then slice (pre ++ [nb] ++ flat_map text_enc ts ++ rest) (zlen pre + 1 + zlen (flat_map text_enc ts))
      (1 + (zlen (flat_map text_enc ts) + zlen rest) - 1 - zlen (flat_map text_enc ts)) else Some []) = Some rest).
  { destruct c as [l|b]; subst nb.
    - destruct Hc as [Hl _]. by rewrite (proj2 (Z.eqb_neq (zlen l) 255)) by lia.
    - rewrite Z.eqb_refl. rewrite <- (app_nil_r rest) at 1. rewrite !app_assoc, <- app_assoc. apply slice_mid; [|lia].
      rewrite !zlen_app. done. }
  rewrite Hraw. cbn [mbind option_bind]. subst ts. rewrite !fmap_cons. subst items.
  destruct menu; cbn [last_tag menu_kind Z.eqb Pos.eqb TAG_MENU_LAST TAG_LIST_LAST] in *; unfold menu_callback; cbn [mmi_cb set_allocs]; rewrite Hcb; cbn [mbind option_bind menu_event];
    destruct c; done.
Qed.
(** ** Fragments *)

(** The fragments that a session has collected of a menu. *)
Definition gathered (sn : Z) (menu : bool) (acc : list Z) (mmi : en50221_app_mmi) : Prop :=
  match find_session sn mmi with
  | None => acc = []
  | Some (_, s) => exists b, block_of (last_tag menu) s = Some b /\ collected b acc
  end.

Lemma block_more menu s : block_of (more_tag menu) s = block_of (last_tag menu) s.
Proof. by destruct menu. Qed.
Lemma block_set menu tag b s : tag = last_tag menu \/ tag = more_tag menu ->
  block_of (last_tag menu) (set_block_of tag b s) = Some b /\ session_number (set_block_of tag b s) = session_number s.
Proof. by destruct menu; intros [-> | ->]. Qed.
Lemma find_set sn mmi k s s' : find_session sn mmi = Some (k, s) -> session_number s' = session_number s ->
  find_session sn (set_sessions (<[k := s']> (mmi_sessions mmi)) mmi) = Some (k, s').
Proof.
  intros H Hs. unfold find_session in *. apply list_find_Some in H as (Hk & Hn & Hmin). cbn [mmi_sessions set_sessions].
  apply list_find_Some. split; [apply list_lookup_insert_eq; by apply lookup_lt_Some in Hk|]. split; [congruence|].
  intros j y Hj Hlt. rewrite list_lookup_insert_ne in Hj by lia. by apply (Hmin j).
Qed.

Lemma defragment_more sn menu acc mmi pre f post :
  gathered sn menu acc mmi -> zlen acc + zlen f < 2 ^ 32 -> f <> [] ->
  exists mmi' out, en50221_app_mmi_defragment mem_ok mmi sn (more_tag menu) false (pre ++ f ++ post) (zlen pre) (zlen f) = Some (mmi', 0, out) /\
    gathered sn menu (acc ++ f) mmi' /\ mmi_lock mmi' = mmi_lock mmi /\ mmi_cb mmi' = mmi_cb mmi.
Proof.
  intros Hg Hl Hf. unfold en50221_app_mmi_defragment, gathered in *.
  destruct (find_session sn mmi) as [[k s]|] eqn:Ef.
  - destruct Hg as (b & Hb & Hc). rewrite block_more, Hb, slice_mid by done. cbn [mbind option_bind].
    rewrite memory, (append_collected b acc f Hc Hl). cbn [mbind option_bind]. eexists _, _. split; [reflexivity|].
    destruct (block_set menu (more_tag menu) (Live (acc ++ f)) s) as [E1 E2]; [by right|].
    rewrite (find_set sn (count_alloc mmi) k s) by done. split; [|done]. exists (Live (acc ++ f)). split; [done|]. right. split; [done|].
    intros E. by apply app_nil in E as [_ ->].
  - subst acc. rewrite memory. assert (Hb : block_of (more_tag menu) (MmiSession sn Null Null Null Null) = Some Null) by (by destruct menu).
    rewrite Hb, slice_mid by done. cbn [mbind option_bind append_block allocs]. rewrite memory.
    eexists _, _. split; [reflexivity|]. destruct (block_set menu (more_tag menu) (Live f) (MmiSession sn Null Null Null Null)) as [E1 E2]; [by right|].
    unfold find_session. cbn [mmi_sessions set_sessions count_alloc insert list_insert list_find].
    rewrite decide_True by exact E2. split; [|done]. exists (Live f). split; [done|]. by right.
Qed.
Lemma defragment_last sn menu acc mmi pre f :
  gathered sn menu acc mmi -> zlen acc + zlen f < 2 ^ 32 ->
  exists mmi' st mem p, en50221_app_mmi_defragment mem_ok mmi sn (last_tag menu) true (pre ++ f) (zlen pre) (zlen f) =
      Some (mmi', st, (mem, p, zlen (acc ++ f))) /\
    0 < st /\ (exists pre', mem = pre' ++ acc ++ f /\ p = zlen pre') /\
    gathered sn menu [] mmi' /\ mmi_lock mmi' = mmi_lock mmi /\ mmi_cb mmi' = mmi_cb mmi.
Proof.
  intros Hg Hl. rewrite <- (app_nil_r (pre ++ f)), <- app_assoc. unfold en50221_app_mmi_defragment, gathered in *.
  destruct (find_session sn mmi) as [[k s]|] eqn:Ef.
  - destruct Hg as (b & Hb & Hc). rewrite Hb, slice_mid by done. cbn [mbind option_bind].
    rewrite memory, (append_collected b acc f Hc Hl). cbn [mbind option_bind]. eexists _, 2, (acc ++ f), 0. split; [reflexivity|].
    split; [done|]. split. { by exists []. }
    destruct (block_set menu (last_tag menu) Null s) as [E1 E2]; [by left|].
    rewrite (find_set sn (count_alloc mmi) k s) by done. split; [|done]. exists Null. split; [done|]. by left.
  - subst acc. eexists _, 1, _, _. split; [reflexivity|]. split; [done|]. split; [exists pre; by rewrite app_nil_r|]. by rewrite Ef.
Qed.
(** ** Messages *)

Definition is_tag (menu last : bool) : Z := if last then last_tag menu else more_tag menu.
Lemma message_menu mmi slot sn menu last f : mmi_lock mmi = false -> zlen f < 65536 ->
  en50221_app_mmi_message mem_ok mmi slot sn (apdu (is_tag menu last) f) =
  '(mmi, dfstatus, out) ← en50221_app_mmi_defragment mem_ok (set_lock true mmi) sn (is_tag menu last) last
     ((tag_bytes (is_tag menu last) ++ asn_field (zlen f)) ++ f) (zlen (tag_bytes (is_tag menu last) ++ asn_field (zlen f))) (zlen f);
  if dfstatus <=? 0 then Some (drop_lock mmi, dfstatus, []) else
  let '(mem, data, data_length) := out in
  parse_menu mem_ok mmi slot sn (is_tag menu last) mem data data_length.
Proof.
  intros Hlock Hf. unfold en50221_app_mmi_message. pose proof (asn_field_len (zlen f)). pose proof (zlen_nonneg f).
  rewrite zlen_apdu, (proj2 (Z.ltb_ge _ 3)) by lia. unfold apdu.
  destruct (tag_at [] (is_tag menu last) (asn_field (zlen f) ++ f)) as (b0 & b1 & b2 & E0 & E1 & E2 & Ej).
  { by destruct menu, last. }
  cbn [app] in E0, E1, E2. change (zlen []) with 0 in E0, E1, E2. change (0 + 1) with 1 in E1. change (0 + 2) with 2 in E2.
  rewrite E0, E1, E2. cbn [mbind option_bind]. rewrite Ej. set (mem := tag_bytes _ ++ asn_field _ ++ f).
  transitivity (en50221_app_mmi_parse_list_menu mem_ok mmi slot sn (is_tag menu last) last mem 3 (3 + zlen (asn_field (zlen f)) + zlen f - 3)).
  { by destruct menu, last. }
  unfold en50221_app_mmi_parse_list_menu, mmi_length. pose proof (asn_1_decode_field (tag_bytes (is_tag menu last)) (zlen f) f
    (3 + zlen (asn_field (zlen f)) + zlen f - 3) ltac:(lia)) as Ed.
  change (zlen (tag_bytes (is_tag menu last))) with 3 in Ed. rewrite decide_True in Ed by lia. fold mem in Ed. rewrite Ed.
  cbn [mbind option_bind default from_option]. unfold id. rewrite (proj2 (Z.ltb_ge _ 0)) by lia.
  rewrite (proj2 (Z.ltb_ge _ (zlen f))), (proj2 (Z.ltb_ge (zlen f) 0)) by lia. unfold take_lock. rewrite Hlock. cbn [mbind option_bind].
  subst mem. rewrite zlen_app, <- app_assoc. done.
Qed.

End run.

(** ** Other messages in between *)

(** The tag an APDU begins with. *)
Definition apdu_tag (a : list Z) : option Z :=
  b0 ← zget a 0; b1 ← zget a 1; b2 ← zget a 2; Some (Z.lor (Z.lor (Z.shiftl b0 16) (Z.shiftl b1 8)) b2).
(** The messages of a session that carry a menu, or those that carry a list. *)
Definition ours (sn : Z) (menu : bool) (m : Z * list Z) : bool :=
  (m.1 =? sn) && (bool_decide (apdu_tag m.2 = Some (more_tag menu)) || bool_decide (apdu_tag m.2 = Some (last_tag menu))).
Lemma apdu_tag_apdu tag b : 0 <= tag < 2 ^ 24 -> apdu_tag (apdu tag b) = Some tag.
Proof.
  intros Ht. unfold apdu_tag, apdu. destruct (tag_at [] tag (asn_field (zlen b) ++ b) Ht) as (b0 & b1 & b2 & E0 & E1 & E2 & Ej).
  cbn [app] in E0, E1, E2. change (zlen []) with 0 in E0, E1, E2. change (0 + 1) with 1 in E1. change (0 + 2) with 2 in E2.
  rewrite E0, E1, E2. cbn [mbind option_bind]. by rewrite Ej.
Qed.

(** A result with sessions as [P] says, and the lock and the callbacks as they were. *)
Definition leaves (P : list en50221_app_mmi_session -> Prop) (mmi : en50221_app_mmi)
    (o : option (en50221_app_mmi * Z * list mmi_event)) : Prop :=
  forall mmi' r ev, o = Some (mmi', r, ev) -> mmi_lock mmi' = false /\ mmi_cb mmi' = mmi_cb mmi /\ P (mmi_sessions mmi').
Lemma leaves_bind {A} (o : option A) k P mmi : (forall x, o = Some x -> leaves P mmi (k x)) -> leaves P mmi (o ≫= k).
Proof. intros H. destruct o; [by apply H|done]. Qed.
Lemma leaves_if (b : bool) o o' P mmi : leaves P mmi o -> leaves P mmi o' -> leaves P mmi (if b then o else o').
Proof. by destruct b. Qed.
Lemma leaves_done mmi1 r ev (P : _ -> Prop) mmi :
  mmi_lock mmi1 = false -> mmi_cb mmi1 = mmi_cb mmi -> P (mmi_sessions mmi1) -> leaves P mmi (Some (mmi1, r, ev)).
Proof. intros ? ? ? ? ? ? [= <- _ _]. done. Qed.
Lemma leaves_tell k slot sn ev (P : _ -> Prop) mmi : P (mmi_sessions mmi) -> leaves P mmi (tell_mmi k slot sn ev mmi).
Proof.
  intros HP. unfold tell_mmi, take_lock. destruct (mmi_lock mmi); [done|]. cbn [mbind option_bind mmi_cb set_lock].
  destruct (mmi_cb mmi k); by apply leaves_done.
Qed.
Lemma leaves_error (P : _ -> Prop) mmi : mmi_lock mmi = false -> P (mmi_sessions mmi) -> leaves P mmi (mmi_error mmi).
Proof. intros. by apply leaves_done. Qed.
Ltac leaves :=
  repeat first
    [ apply leaves_if | by apply leaves_tell | by apply leaves_error | done
    | (apply leaves_bind; intros) | by apply leaves_done
    | match goal with |- leaves _ _ (match ?x with _ => _ end) => destruct x as [] eqn:? end ].
Lemma leaves_length mmi mem data len least parse P :
  (forall d n, leaves P mmi (parse d n)) -> leaves P mmi (mmi_error mmi) -> leaves P mmi (mmi_length mmi mem data len least parse).
Proof. intros Hp He. unfold mmi_length. leaves. Qed.
Lemma leaves_parse_menu mem_ok mmi0 mmi slot sn tag mem data len (P : _ -> Prop) : mmi_cb mmi = mmi_cb mmi0 -> P (mmi_sessions mmi) ->
  leaves P mmi0 (parse_menu mem_ok mmi slot sn tag mem data len).
Proof. intros Hcb HP. unfold parse_menu, menu_callback. leaves. Qed.

(** What collecting a fragment leaves alone. *)
Lemma defragment_keeps mem_ok mmi sn tag last mem p n mmi1 st out :
  en50221_app_mmi_defragment mem_ok mmi sn tag last mem p n = Some (mmi1, st, out) ->
  mmi_cb mmi1 = mmi_cb mmi /\ (last = false -> st <= 0).
Proof.
  unfold en50221_app_mmi_defragment. intros E. repeat (case_match; simplify_eq/=; try done);
    apply bind_Some in E as (src & _ & E); apply bind_Some in E as ([new old] & _ & E); repeat (case_match; simplify_eq/=; try done).
Qed.
Lemma block_other menu tag b s : tag <> last_tag menu -> tag <> more_tag menu -> block_of tag s <> None ->
  block_of (last_tag menu) (set_block_of tag b s) = block_of (last_tag menu) s.
Proof.
  intros Hl Hm. unfold block_of, set_block_of. destruct menu; cbn [last_tag more_tag] in *; 
    repeat match goal with |- context [tag =? ?t] => destruct (Z.eqb_spec tag t) end; subst; try done.
Qed.
Lemma find_insert_other (P : en50221_app_mmi_session -> Prop) `{forall s, Decision (P s)} l k s s' :
  l !! k = Some s -> ~ P s -> ~ P s' -> list_find P (<[k := s']> l) = list_find P l.
Proof.
  revert k. induction l as [|x l IH]; intros [|k] Hk Hs Hs'; try done; cbn in Hk |- *.
  - injection Hk as ->. by rewrite !decide_False.
  - fold (@insert nat en50221_app_mmi_session _ _ k s' l). by rewrite IH.
Qed.

(** A session's menu is not touched by the fragments of other sessions, nor by those of other objects. *)
Definition undisturbed (sn : Z) (menu : bool) (l l' : list en50221_app_mmi_session) : Prop :=
  forall mmi mmi' acc, mmi_sessions mmi = l -> mmi_sessions mmi' = l' -> gathered sn menu acc mmi -> gathered sn menu acc mmi'.
Lemma stored_undisturbed sn menu sn' tag l k s b :
  list_find (fun s => session_number s = sn') l = Some (k, s) -> block_of tag s <> None ->
  sn' <> sn \/ tag <> last_tag menu /\ tag <> more_tag menu ->
  undisturbed sn menu l (<[k := set_block_of tag b s]> l).
Proof.
  intros Hf Hb Ho mmi mmi' acc El El' Hg. assert (Hn : session_number (set_block_of tag b s) = session_number s).
  { unfold set_block_of. by repeat case_match. }
  pose proof Hf as (Hk & Hs & _)%list_find_Some. destruct (decide (sn' = sn)) as [->|Hne].
  - assert (E : find_session sn mmi = Some (k, s)) by (unfold find_session; by rewrite El).
    pose proof (find_set sn mmi k s (set_block_of tag b s) E Hn) as E'. unfold gathered in *. rewrite E in Hg.
    replace (find_session sn mmi') with (Some (k, set_block_of tag b s)); [|rewrite <- E'; unfold find_session; cbn [mmi_sessions set_sessions]; by rewrite El, El'].
    destruct Ho as [?|[Hl Hm]]; [done|]. rewrite block_other; done.
  - assert (E : find_session sn mmi' = find_session sn mmi).
    { unfold find_session. rewrite El, El'. eapply find_insert_other; [done| |]; cbn; rewrite ?Hn; congruence. }
    unfold gathered in *. by rewrite E.
Qed.
Lemma created_undisturbed sn menu sn' l : list_find (fun s => session_number s = sn') l = None ->
  undisturbed sn menu l (MmiSession sn' Null Null Null Null :: l).
Proof.
  intros Hf mmi mmi' acc El El' Hg. unfold gathered, find_session in *. rewrite El in Hg. rewrite El'. cbn [list_find session_number].
  case_decide as Hn.
  - subst sn'. rewrite Hf in Hg. exists Null. split; [by destruct menu|]. left. done.
  - destruct (list_find (fun s => session_number s = sn) l) as [[k s]|] eqn:E; cbn; done.
Qed.
Lemma undisturbed_refl sn menu l : undisturbed sn menu l l.
Proof. intros mmi mmi' acc <- E Hg. unfold gathered, find_session in *. by rewrite E. Qed.
Lemma undisturbed_trans sn menu l1 l2 l3 : undisturbed sn menu l1 l2 -> undisturbed sn menu l2 l3 -> undisturbed sn menu l1 l3.
Proof. intros H1 H2 mmi mmi' acc E E' Hg. apply (H2 (set_sessions l2 mmi)); [done|done|]. by apply (H1 mmi). Qed.
Lemma defragment_undisturbed mem_ok mmi sn tag last mem p n mmi1 st out sn' menu :
  en50221_app_mmi_defragment mem_ok mmi sn tag last mem p n = Some (mmi1, st, out) ->
  sn <> sn' \/ tag <> last_tag menu /\ tag <> more_tag menu -> undisturbed sn' menu (mmi_sessions mmi) (mmi_sessions mmi1).
Proof.
  intros E Ho. unfold en50221_app_mmi_defragment, find_session in E.
  destruct (list_find _ (mmi_sessions mmi)) as [[k s]|] eqn:Ef; [|destruct last; [simplify_eq/=; apply undisturbed_refl|]; destruct (mem_ok _); [|simplify_eq/=; apply undisturbed_refl]].
  - destruct (block_of tag s) as [b|] eqn:Hb; [|simplify_eq/=; apply undisturbed_refl].
    apply bind_Some in E as (src & _ & E); apply bind_Some in E as ([new old] & _ & E).
    repeat (case_match; simplify_eq/=); by (eapply stored_undisturbed; [done|by rewrite Hb|]).
  - pose proof (created_undisturbed sn' menu sn (mmi_sessions mmi) Ef) as Hc.
    destruct (block_of tag _) as [b|] eqn:Hb; [|simplify_eq/=; done].
    apply bind_Some in E as (src & _ & E); apply bind_Some in E as ([new old] & _ & E).
    assert (Hf : list_find (fun s => session_number s = sn) (MmiSession sn Null Null Null Null :: mmi_sessions mmi) =
      Some (0%nat, MmiSession sn Null Null Null Null)) by (cbn; by rewrite decide_True).
    assert (Hst : forall b', undisturbed sn' menu (MmiSession sn Null Null Null Null :: mmi_sessions mmi)
      (set_block_of tag b' (MmiSession sn Null Null Null Null) :: mmi_sessions mmi)).
    { intros b'. refine (stored_undisturbed sn' menu sn tag _ 0 _ b' Hf _ Ho). by rewrite Hb. }
    repeat (case_match; simplify_eq/=); (eapply undisturbed_trans; [exact Hc|apply Hst]).
Qed.

(** A message that is not of the menu, whoever sends it, leaves what is gathered of it. *)
Lemma leaves_list_menu mem_ok mmi slot sn tag last mem data len sn' menu : mmi_lock mmi = false ->
  sn <> sn' \/ tag <> last_tag menu /\ tag <> more_tag menu ->
  leaves (undisturbed sn' menu (mmi_sessions mmi)) mmi (en50221_app_mmi_parse_list_menu mem_ok mmi slot sn tag last mem data len).
Proof.
  intros Hlock Ho. pose proof (undisturbed_refl sn' menu (mmi_sessions mmi)) as Hr.
  apply leaves_length; [|by apply leaves_error]. intros d n. unfold take_lock. rewrite Hlock. cbn [mbind option_bind].
  apply leaves_bind. intros [[mmi1 st] [[mem' d'] n']] E. pose proof (defragment_keeps _ _ _ _ _ _ _ _ _ _ _ E) as [Hcb _].
  pose proof (defragment_undisturbed _ _ _ _ _ _ _ _ _ _ _ _ _ E Ho) as Hu.
  apply leaves_if; [by apply leaves_done|by apply leaves_parse_menu].
Qed.
Lemma leaves_subtitle mem_ok mmi slot sn tag last mem data len sn' menu : mmi_lock mmi = false ->
  sn <> sn' \/ tag <> last_tag menu /\ tag <> more_tag menu ->
  last = false \/ tag = TAG_SUBTITLE_SEGMENT_LAST \/ tag = TAG_SUBTITLE_DOWNLOAD_LAST ->
  leaves (undisturbed sn' menu (mmi_sessions mmi)) mmi (en50221_app_mmi_parse_subtitle mem_ok mmi slot sn tag last mem data len).
Proof.
  intros Hlock Ho Hlast. pose proof (undisturbed_refl sn' menu (mmi_sessions mmi)) as Hr.
  apply leaves_length; [|by apply leaves_error]. intros d n. unfold take_lock. rewrite Hlock. cbn [mbind option_bind].
  apply leaves_bind. intros [[mmi1 st] [[mem' d'] n']] E. pose proof (defragment_keeps _ _ _ _ _ _ _ _ _ _ _ E) as [Hcb Hst].
  pose proof (defragment_undisturbed _ _ _ _ _ _ _ _ _ _ _ _ _ E Ho) as Hu.
  destruct (st <=? 0) eqn:Es; [by apply leaves_done|].
  destruct Hlast as [->|Hlast]; [lia|]. apply leaves_bind. intros segment _.
  destruct Hlast as [-> | ->]; cbn [Z.eqb Pos.eqb TAG_SUBTITLE_SEGMENT_LAST TAG_SUBTITLE_DOWNLOAD_LAST]; destruct (mmi_cb _ _); by apply leaves_done.
Qed.
Lemma message_leaves mem_ok mmi slot sn a sn' menu : mmi_lock mmi = false -> ours sn' menu (sn, a) = false ->
  leaves (undisturbed sn' menu (mmi_sessions mmi)) mmi (en50221_app_mmi_message mem_ok mmi slot sn a).
Proof.
  intros Hlock Ho. pose proof (undisturbed_refl sn' menu (mmi_sessions mmi)) as Hr. unfold en50221_app_mmi_message.
  apply leaves_if; [by apply leaves_error|]. apply leaves_bind; intros b0 E0. apply leaves_bind; intros b1 E1. apply leaves_bind; intros b2 E2.
  set (tag := Z.lor _ b2). assert (Et : apdu_tag a = Some tag) by (unfold apdu_tag; by rewrite E0, E1, E2).
  assert (Hd : sn <> sn' \/ tag <> last_tag menu /\ tag <> more_tag menu).
  { unfold ours in Ho. cbn [fst snd] in Ho. rewrite Et in Ho. destruct (Z.eqb_spec sn sn') as [->|]; [|by left]. right.
    cbn [andb] in Ho. apply orb_false_iff in Ho as [H1%bool_decide_eq_false H2%bool_decide_eq_false]. split; congruence. }
  assert (Hm : forall last, leaves (undisturbed sn' menu (mmi_sessions mmi)) mmi
    (en50221_app_mmi_parse_list_menu mem_ok mmi slot sn tag last a 3 (zlen a - 3))) by (intros; by apply leaves_list_menu).
  assert (Hs : forall last, last = false \/ tag = TAG_SUBTITLE_SEGMENT_LAST \/ tag = TAG_SUBTITLE_DOWNLOAD_LAST ->
    leaves (undisturbed sn' menu (mmi_sessions mmi)) mmi
    (en50221_app_mmi_parse_subtitle mem_ok mmi slot sn tag last a 3 (zlen a - 3))) by (intros; by apply leaves_subtitle).
  clearbody tag. clear E0 E1 E2 Et.
  assert (Hc : forall k ev w, leaves (undisturbed sn' menu (mmi_sessions mmi)) mmi (parse_command k ev w mmi slot sn a 3 (zlen a - 3))).
  { intros. unfold parse_command. leaves. }
  assert (Hl : forall least parse, (forall d n, leaves (undisturbed sn' menu (mmi_sessions mmi)) mmi (parse d n)) ->
    leaves (undisturbed sn' menu (mmi_sessions mmi)) mmi (mmi_length mmi a 3 (zlen a - 3) least parse)).
  { intros. apply leaves_length; [done|by apply leaves_error]. }
  repeat match goal with |- leaves _ _ (if ?b then _ else _) => let E := fresh in destruct b eqn:E end; try apply Hm; try apply Hc;
    try (apply Hs; first [by left|match goal with E : _ || _ = true |- _ => apply orb_true_iff in E as [E|E]; apply Z.eqb_eq in E; auto end]);
    try (apply Hl; intros; leaves);
    unfold en50221_app_mmi_parse_scene_end_mark, en50221_app_mmi_parse_scene_control, parse_flags, en50221_app_mmi_parse_flush_download; leaves.
Qed.

(** Messages of any sessions, one after the other, with what is returned for each and what the application is told. *)
Fixpoint mmi_messages (mem_ok : nat -> bool) (mmi : en50221_app_mmi) (slot : Z) (l : list (Z * list Z)) :
    option (en50221_app_mmi * list ((Z * list Z) * (Z * list mmi_event))) :=
  match l with
  | [] => Some (mmi, [])
  | m :: l =>
      '(mmi, r, ev) ← en50221_app_mmi_message mem_ok mmi slot m.1 m.2;
      '(mmi, log) ← mmi_messages mem_ok mmi slot l;
      Some (mmi, (m, (r, ev)) :: log)
  end.
(** Those that are not of the menu do not crash. *)
Fixpoint others_return (mem_ok : nat -> bool) (sn : Z) (menu : bool) (mmi : en50221_app_mmi) (slot : Z) (l : list (Z * list Z)) : Prop :=
  match l with
  | [] => True
  | m :: l =>
      (ours sn menu m = false -> is_Some (en50221_app_mmi_message mem_ok mmi slot m.1 m.2)) /\
      forall mmi' r ev, en50221_app_mmi_message mem_ok mmi slot m.1 m.2 = Some (mmi', r, ev) -> others_return mem_ok sn menu mmi' slot l
  end.
Definition outcomes (sn : Z) (menu : bool) (log : list ((Z * list Z) * (Z * list mmi_event))) : list (Z * list mmi_event) :=
  snd <$> List.filter (fun e => ours sn menu e.1) log.

Section mixed.
Context (mem_ok : nat -> bool) (memory : forall n, mem_ok n = true) (slot sn : Z) (menu : bool).
Context (cb : mmi_callback_kind -> option (Z -> Z -> mmi_event -> Z)).

(** The interface between messages: nothing waits, and what has been gathered of the menu is [acc]. *)
Definition ready (acc : list Z) (mmi : en50221_app_mmi) : Prop := mmi_lock mmi = false /\ gathered sn menu acc mmi /\ mmi_cb mmi = cb.

Lemma other_message acc mmi m : ready acc mmi -> ours sn menu m = false -> is_Some (en50221_app_mmi_message mem_ok mmi slot m.1 m.2) ->
  exists mmi' r ev, en50221_app_mmi_message mem_ok mmi slot m.1 m.2 = Some (mmi', r, ev) /\ ready acc mmi'.
Proof.
  intros (Hlock & Hg & Hcb) Ho [[[mmi' r] ev] E]. destruct m as [sn' a].
  destruct (message_leaves mem_ok mmi slot sn' a sn menu Hlock Ho mmi' r ev E) as (Hl & Hc & Hu).
  exists mmi', r, ev. split; [done|]. split_and!; [done|by apply (Hu mmi)|congruence].
Qed.
Definition runs (acc : list Z) (mmi : en50221_app_mmi) (l : list (Z * list Z)) (outs : list (Z * list mmi_event)) : Prop :=
  exists mmi' log, mmi_messages mem_ok mmi slot l = Some (mmi', log) /\ log.*1 = l /\ outcomes sn menu log = outs /\ ready acc mmi'.
Lemma mmi_runs_step acc outs mmi m mmi1 r ev l : en50221_app_mmi_message mem_ok mmi slot m.1 m.2 = Some (mmi1, r, ev) ->
  runs acc mmi1 l outs -> runs acc mmi (m :: l) ((if ours sn menu m then [(r, ev)] else []) ++ outs).
Proof.
  intros E (mmi' & log & El & Hfst & Ho & Hr). exists mmi', ((m, (r, ev)) :: log). cbn [mmi_messages]. rewrite E. cbn [mbind option_bind].
  rewrite El. split; [done|]. rewrite fmap_cons, Hfst. split; [done|]. split; [|done]. unfold outcomes in *. cbn [List.filter fst].
  destruct (ours sn menu m); cbn [app]; rewrite ?fmap_cons, Ho; done.
Qed.

Lemma others_run acc l : forall mmi, ready acc mmi -> List.filter (ours sn menu) l = [] -> others_return mem_ok sn menu mmi slot l -> runs acc mmi l [].
Proof.
  induction l as [|m l IH]; intros mmi Hr Hf Ho; [by exists mmi, []|]. destruct Ho as [Ho Hn]. cbn [List.filter] in Hf. destruct (ours sn menu m) eqn:Em; [done|].
  destruct (other_message acc mmi m Hr Em (Ho eq_refl)) as (mmi1 & r & ev & E & Hr1).
  pose proof (mmi_runs_step acc [] mmi m mmi1 r ev l E (IH mmi1 Hr1 Hf (Hn _ _ _ E))) as Hs. by rewrite Em in Hs.
Qed.
Lemma fragment_message acc f mmi : ready acc mmi -> piece_ok f -> zlen acc + zlen f < 2 ^ 32 ->
  exists mmi', en50221_app_mmi_message mem_ok mmi slot sn (apdu (more_tag menu) f) = Some (mmi', 0, []) /\ ready (acc ++ f) mmi'.
Proof.
  intros (Hlock & Hg & Hcb) [Hf0 Hf] Hl.
  destruct (defragment_more mem_ok memory sn menu acc (set_lock true mmi) (tag_bytes (more_tag menu) ++ asn_field (zlen f)) f [])
    as (mmi1 & out & E & Hg1 & _ & Hcb1); [done|lia|by intros ->|]. rewrite app_nil_r in E.
  pose proof (message_menu mem_ok mmi slot sn menu false f Hlock Hf) as Em. cbn [is_tag] in Em.
  rewrite Em, E. cbn [mbind option_bind]. change (0 <=? 0) with true. cbv iota. exists (drop_lock mmi1). split; [done|].
  split_and!; [done|done|]. cbn [mmi_cb drop_lock set_lock]. by rewrite Hcb1.
Qed.

Lemma fragments_run last result ev l : forall frags acc mmi,
  ready acc mmi -> Forall piece_ok frags -> zlen acc + zlen (concat frags) < 2 ^ 32 ->
  List.filter (ours sn menu) l = pair sn <$> (apdu (more_tag menu) <$> frags) ++ [last] -> others_return mem_ok sn menu mmi slot l ->
  (forall mmi1, ready (acc ++ concat frags) mmi1 ->
     exists mmi', en50221_app_mmi_message mem_ok mmi1 slot sn last = Some (mmi', result, ev) /\ ready [] mmi') ->
  runs [] mmi l (replicate (length frags) (0, []) ++ [(result, ev)]).
Proof.
  induction l as [|m l IH]; intros frags acc mmi Hr Hfs Hl Hf Ho Hlast; [by destruct frags|]. destruct Ho as [Ho Hn]. cbn [List.filter] in Hf.
  destruct (ours sn menu m) eqn:Em.
  - destruct frags as [|f frags]; cbn [app] in Hf; rewrite ?fmap_cons in Hf; injection Hf as -> Hf.
    + rewrite app_nil_r in Hlast. destruct (Hlast mmi Hr) as (mmi1 & E & Hr1).
      pose proof (mmi_runs_step [] [] mmi (sn, last) mmi1 result ev l E (others_run [] l mmi1 Hr1 Hf (Hn _ _ _ E))) as Hs. by rewrite Em in Hs.
    + apply Forall_cons_iff in Hfs as [Hf1 Hfs]. cbn [concat] in *. rewrite zlen_app in Hl. pose proof (zlen_nonneg (concat frags)).
      destruct (fragment_message acc f mmi Hr Hf1 ltac:(lia)) as (mmi1 & E & Hr1). rewrite app_assoc in Hlast.
      pose proof (mmi_runs_step [] _ mmi (sn, _) mmi1 0 [] l E (IH frags (acc ++ f) mmi1 Hr1 Hfs ltac:(rewrite zlen_app; lia) Hf (Hn _ _ _ E) Hlast)) as Hs.
      by rewrite Em in Hs.
  - destruct (other_message acc mmi m Hr Em (Ho eq_refl)) as (mmi1 & r & ev' & E & Hr1).
    pose proof (mmi_runs_step [] _ mmi m mmi1 r ev' l E (IH frags acc mmi1 Hr1 Hfs Hl Hf (Hn _ _ _ E) Hlast)) as Hs. by rewrite Em in Hs.
Qed.
Lemma last_message mmi acc last title sub_title bottom c f : ready acc mmi -> zlen last < 65536 -> zlen acc + zlen last < 2 ^ 32 ->
  text_ok title -> text_ok sub_title -> text_ok bottom -> choices_ok c -> cb (menu_kind menu) = Some f ->
  acc ++ last = menu_body title sub_title bottom c ->
  exists mmi', en50221_app_mmi_message mem_ok mmi slot sn (apdu (last_tag menu) last) =
    Some (mmi', f slot sn (told menu title sub_title bottom c), [told menu title sub_title bottom c]) /\ ready [] mmi'.
Proof.
  intros (Hlock & Hg & Hcb) Hl Hlen Ht Hs Hb Hc Hf Hbody.
  pose proof (message_menu mem_ok mmi slot sn menu true last Hlock Hl) as Em. cbn [is_tag] in Em. rewrite Em.
  destruct (defragment_last mem_ok memory sn menu acc (set_lock true mmi)
    (tag_bytes (last_tag menu) ++ asn_field (zlen last)) last) as (mmi2 & st & mem & p & E & Hst & (pre & -> & ->) & Hg2 & _ & Hcb2); [done|lia|].
  rewrite E. cbn [mbind option_bind]. rewrite (proj2 (Z.leb_gt st 0)) by lia. rewrite Hbody in *.
  destruct (parse_menu_run mem_ok memory mmi2 slot sn menu title sub_title bottom c pre f) as (n & E2); try done.
  { rewrite Hcb2. cbn [mmi_cb set_lock]. by rewrite Hcb. }
  { rewrite <- Hbody, zlen_app. lia. }
  exists (drop_lock (set_allocs n mmi2)). rewrite E2. split; [done|]. split_and!; [done|done|].
  cbn [mmi_cb drop_lock set_lock set_allocs]. by rewrite Hcb2.
Qed.
End mixed.

(** C34: A menu or a list of a module with at most 252 choices, or raw bytes in their place, is delivered to the
    application as it was sent, as long as memory can be had.  Its body may be cut into fragments and each of its texts
    into pieces anywhere that leaves none of the fragments and pieces to be continued empty, each of fewer than 65536
    bytes, and between its fragments other messages may arrive, of other sessions or of the same one, as long as the
    resource returns from them ([others_return]).  Each fragment but the last is answered with 0 and tells the application
    nothing, and the last one calls the registered callback once, with the title, the sub-title, the bottom line and
    the choices that the pieces make up.  The result is the callback's, the lock is free, and the session is ready for
    the next menu. *)
Theorem en50221_app_mmi_menu_delivered mem_ok mmi slot sn menu title sub_title bottom c frags last cb l :
  (forall n, mem_ok n = true) -> mmi_lock mmi = false -> mmi_cb mmi (menu_kind menu) = Some cb -> gathered sn menu [] mmi ->
  text_ok title -> text_ok sub_title -> text_ok bottom -> choices_ok c ->
  Forall piece_ok frags -> zlen last < 65536 ->
  concat frags ++ last = menu_body title sub_title bottom c -> zlen (menu_body title sub_title bottom c) < 2 ^ 32 ->
  List.filter (ours sn menu) l = pair sn <$> (apdu (more_tag menu) <$> frags) ++ [apdu (last_tag menu) last] ->
  others_return mem_ok sn menu mmi slot l ->
  exists mmi' log, mmi_messages mem_ok mmi slot l = Some (mmi', log) /\ log.*1 = l /\
    outcomes sn menu log = replicate (length frags) (0, []) ++
      [(cb slot sn (told menu title sub_title bottom c), [told menu title sub_title bottom c])] /\
    mmi_lock mmi' = false /\ gathered sn menu [] mmi' /\ mmi_cb mmi' = mmi_cb mmi.
Proof.
  intros Hmem Hlock Hcb Hg Ht Hs Hb Hc Hfs Hl Hbody Hlen Hf Ho. rewrite <- Hbody, zlen_app in Hlen. pose proof (zlen_nonneg last).
  apply (fragments_run mem_ok Hmem slot sn menu (mmi_cb mmi) (apdu (last_tag menu) last) _ _ l frags [] mmi); try done.
  { change (zlen []) with 0. lia. }
  intros mmi1 (Hlock1 & Hg1 & Hcb1). cbn [app] in Hg1. rewrite <- Hcb1 in *.
  apply (last_message mem_ok Hmem slot sn menu _ mmi1 (concat frags) last title sub_title bottom c cb); done.
Qed.

(** A menu of one choice, the title of which comes in two pieces, in three fragments; between them come a list of
    another session and an enquiry of the same one. *)
Definition demo_cb (slot sn : Z) (ev : mmi_event) : Z := 7.
Definition demo_mmi : en50221_app_mmi := AppMmi false [] (fun _ => Some demo_cb) 0%nat.
Definition demo_title : mmi_text := MmiText [[0x41; 0x42]] [0x43].
Definition demo_text (b : Z) : mmi_text := MmiText [] [b].
Definition demo_choices : mmi_choices := Items [demo_text 0x46].
Definition demo_body : list Z := menu_body demo_title (demo_text 0x44) (demo_text 0x45) demo_choices.
Definition demo_mixed : list (Z * list Z) :=
  [(6, apdu TAG_LIST_MORE [0]); (5, apdu TAG_MENU_MORE (ztake 3 demo_body)); (5, apdu TAG_ENQUIRY [0; 4; 0x50]);
   (5, apdu TAG_MENU_MORE (ztake 6 (zdrop 3 demo_body)));
   (6, apdu TAG_LIST_LAST (flat_map text_enc [demo_text 0x4c; demo_text 0x4d; demo_text 0x4e])); (5, apdu TAG_MENU_LAST (zdrop 9 demo_body))].
Lemma en50221_app_mmi_menu_delivered_witness :
  exists mmi' log, mmi_messages (fun _ => true) demo_mmi 0 demo_mixed = Some (mmi', log) /\ log.*1 = demo_mixed /\
    outcomes 5 true log = [(0, []); (0, []); (7, [MmiMenu [0x41; 0x42; 0x43] [0x44] [0x45] [[0x46]] []])] /\
    mmi_lock mmi' = false /\ gathered 5 true [] mmi' /\ mmi_cb mmi' = mmi_cb demo_mmi.
Proof.
  apply (en50221_app_mmi_menu_delivered (fun _ => true) demo_mmi 0 5 true demo_title (demo_text 0x44) (demo_text 0x45) demo_choices
    [ztake 3 demo_body; ztake 6 (zdrop 3 demo_body)] (zdrop 9 demo_body) demo_cb demo_mixed); try done.
  - split; [|done]. apply Forall_singleton. by split.
  - split; [done|]. apply Forall_singleton. split; [by apply Forall_nil_2|done].
  - repeat apply Forall_cons_2; by try split.
  - cbn [others_return demo_mixed fst snd]. repeat (split; [intros _; by eexists|]; intros ? ? ? E; vm_compute in E; injection E as <- <- <-). done.
Defined.

(** ** What goes wrong *)

(** Clearing a session that exists leaves the lock taken: the next operation waits for ever. *)
Example clear_session_keeps_lock :
  exists mmi', en50221_app_mmi_clear_session (AppMmi false [MmiSession 5 Null Null Null Null] (fun _ => None) 0%nat) 5 = Some mmi' /\
    mmi_sessions mmi' = [] /\ en50221_app_mmi_message (fun _ => true) mmi' 0 5 (apdu TAG_ENQUIRY [0; 1]) = None /\
    en50221_app_mmi_clear_session mmi' 6 = None.
Proof. eexists. split; [reflexivity|]. by vm_compute. Qed.

(** The number of texts is kept in a byte: with 253 choices there is no text, and the callback gets pointers
    behind an array of no elements. *)
Example many_choices_crash : en50221_app_mmi_message (fun _ => true) demo_mmi 0 5 (apdu TAG_MENU_LAST [253]) = None.
Proof. by vm_compute. Qed.
(** With 254 choices there is one. *)
Example more_choices_crash :
  en50221_app_mmi_message (fun _ => true) demo_mmi 0 5 (apdu TAG_MENU_LAST (254 :: text_enc demo_title)) = None.
Proof. by vm_compute. Qed.

(** A text that says to be longer than the message is read behind its end. *)
Example long_text_read :
  en50221_app_mmi_message (fun _ => true) demo_mmi 0 5 (apdu TAG_MENU_LAST (0 :: tag_bytes TAG_TEXT_LAST ++ [0x7f; 0x41])) = None.
Proof. by vm_compute. Qed.

(** Two empty pieces: the second [realloc] frees the text, and the error path frees it again. *)
Example empty_pieces_crash :
  en50221_app_mmi_message (fun _ => true) demo_mmi 0 5
    (apdu TAG_MENU_LAST (0 :: flat_map text_enc [MmiText [[]; []] []; demo_text 0x44; demo_text 0x45])) = None.
Proof. by vm_compute. Qed.
(** Two empty fragments: the second is an error, and leaves a pointer to a block that was freed, which
    the next fragment, or the end of the session, frees again. *)
Example empty_fragments_crash :
  exists mmi', mmi_messages (fun _ => true) demo_mmi 0 [(5, apdu TAG_MENU_MORE []); (5, apdu TAG_MENU_MORE [])] =
      Some (mmi', [((5, apdu TAG_MENU_MORE []), (0, [])); ((5, apdu TAG_MENU_MORE []), (-1, []))]) /\
    en50221_app_mmi_message (fun _ => true) mmi' 0 5 (apdu TAG_MENU_LAST [0x41]) = None /\ en50221_app_mmi_destroy mmi' = None.
Proof. eexists. split; [reflexivity|]. by vm_compute. Qed.

(** The reply with the characteristics of the graphics sends what is on the stack behind the table of depths. *)
Example display_reply_behind_table :
  en50221_app_mmi_display_reply (R := option (list (list Z))) None (fun _ v => Some v) (replicate 16 0) 5
    MMI_DISPLAY_REPLY_ID_LIST_OVERLAY_GFX_CHARACTERISTICS (Gfx (MmiGfx 720 576 0 0 0 0 0 0 [PixelDepth 1 1 0])) = None.
Proof. by vm_compute. Qed.
