(* ===== verification/AppLowspeed.v ===== *)
(** * AppLowspeed: libdvben50221/en50221_app_lowspeed.c and en50221_app_datetime.c

    Low speed communication: commands of the module, and data to send that comes in fragments, collected
    for each session; and the date and time resource.  As in AppMmi.v the received APDU is a list of
    bytes, a pointer into it an offset, and [None] an access outside an object, a block used after it was freed,
    or a task that waits for the mutex it holds. *)

From S2P Require Import Prelude Mem EndianOps Asn1 AppResources AppMmi AppMmiMenu DvbTypes.

Definition TAG_COMMS_COMMAND : Z := 0x9f8c00.
Definition TAG_CONNECTION_DESCRIPTOR : Z := 0x9f8c01.
Definition TAG_COMMS_REPLY : Z := 0x9f8c02.
Definition TAG_COMMS_SEND_LAST : Z := 0x9f8c03.
Definition TAG_COMMS_SEND_MORE : Z := 0x9f8c04.
Definition TAG_COMMS_RECV_LAST : Z := 0x9f8c05.

Definition COMMS_COMMAND_ID_CONNECT_ON_CHANNEL : Z := 0x01.
Definition COMMS_COMMAND_ID_DISCONNECT_ON_CHANNEL : Z := 0x02.
Definition COMMS_COMMAND_ID_SET_PARAMS : Z := 0x03.
Definition COMMS_COMMAND_ID_ENQUIRE_STATUS : Z := 0x04.
Definition COMMS_COMMAND_ID_GET_NEXT_BUFFER : Z := 0x05.
Definition CONNECTION_DESCRIPTOR_TYPE_TELEPHONE : Z := 0x01.
Definition CONNECTION_DESCRIPTOR_TYPE_CABLE : Z := 0x02.
Definition dtag_dvb_telephone : Z := 0x57.

(** ** The state *)

Record en50221_app_lowspeed_session := LsSession { ls_number : Z; ls_block : mblock }.

(** [struct en50221_app_lowspeed_command]; a telephone descriptor is its bytes. *)
Inductive lowspeed_connection := Telephone (descriptor : list Z) | Cable (channel_id : Z).
Inductive en50221_app_lowspeed_command :=
| ConnectOnChannel (c : lowspeed_connection) (retry_count timeout : Z)
| DisconnectOnChannel | SetParams (buffer_size timeout : Z) | EnquireStatus | GetNextBuffer (phase_id : Z).
Inductive lowspeed_event := LsCommand (c : en50221_app_lowspeed_command) | LsSend (phase_id : Z) (data : list Z).

Record en50221_app_lowspeed := AppLowspeed {
  ls_lock : bool; ls_sessions : list en50221_app_lowspeed_session;
  command_callback : option (Z -> Z -> lowspeed_event -> Z); send_callback : option (Z -> Z -> lowspeed_event -> Z);
  ls_allocs : nat }.

Definition ls_set_sessions (l : list en50221_app_lowspeed_session) (ls : en50221_app_lowspeed) : en50221_app_lowspeed :=
  AppLowspeed (ls_lock ls) l (command_callback ls) (send_callback ls) (ls_allocs ls).
Definition ls_set_lock (b : bool) (ls : en50221_app_lowspeed) : en50221_app_lowspeed :=
  AppLowspeed b (ls_sessions ls) (command_callback ls) (send_callback ls) (ls_allocs ls).
Definition ls_count_alloc (ls : en50221_app_lowspeed) : en50221_app_lowspeed :=
  AppLowspeed (ls_lock ls) (ls_sessions ls) (command_callback ls) (send_callback ls) (S (ls_allocs ls)).
Definition ls_take_lock (ls : en50221_app_lowspeed) : option en50221_app_lowspeed :=
  if ls_lock ls then None else Some (ls_set_lock true ls).
Definition ls_drop_lock : en50221_app_lowspeed -> en50221_app_lowspeed := ls_set_lock false.

Definition en50221_app_lowspeed_create (malloc_ok : bool) : option en50221_app_lowspeed :=
  if malloc_ok then Some (AppLowspeed false [] None None 0%nat) else None.
Fixpoint lowspeed_free_sessions (l : list en50221_app_lowspeed_session) : option unit :=
  match l with [] => Some tt | s :: l => _ ← free_block (ls_block s); lowspeed_free_sessions l end.
Definition en50221_app_lowspeed_destroy (ls : en50221_app_lowspeed) : option unit := lowspeed_free_sessions (ls_sessions ls).

(** The lock is not released when the session is found. *)
Fixpoint lowspeed_clear_sessions (n : Z) (l : list en50221_app_lowspeed_session) :
    option (option (list en50221_app_lowspeed_session)) :=
  match l with
  | [] => Some None
  | s :: l =>
      if ls_number s =? n then _ ← free_block (ls_block s); Some (Some l)
      else r ← lowspeed_clear_sessions n l; Some (if r is Some l then Some (s :: l) else None)
  end.
Definition en50221_app_lowspeed_clear_session (ls : en50221_app_lowspeed) (n : Z) : option en50221_app_lowspeed :=
  ls ← ls_take_lock ls;
  r ← lowspeed_clear_sessions n (ls_sessions ls);
  Some (if r is Some l then ls_set_sessions l ls else ls_drop_lock ls).

Definition en50221_app_lowspeed_register_command_callback (cb : option (Z -> Z -> lowspeed_event -> Z)) (ls : en50221_app_lowspeed) :
    option en50221_app_lowspeed :=
  ls ← ls_take_lock ls; Some (ls_drop_lock (AppLowspeed (ls_lock ls) (ls_sessions ls) cb (send_callback ls) (ls_allocs ls))).
Definition en50221_app_lowspeed_register_send_callback (cb : option (Z -> Z -> lowspeed_event -> Z)) (ls : en50221_app_lowspeed) :
    option en50221_app_lowspeed :=
  ls ← ls_take_lock ls; Some (ls_drop_lock (AppLowspeed (ls_lock ls) (ls_sessions ls) (command_callback ls) cb (ls_allocs ls))).

(** ** Messages of the module *)

Definition ls_result : Type := en50221_app_lowspeed * Z * list lowspeed_event.
Definition ls_error (ls : en50221_app_lowspeed) : option ls_result := Some (ls, -1, []).

(** [dvb_telephone_descriptor_codec] on the descriptor at [d]: whether it is accepted. *)
Definition dvb_telephone_descriptor_codec (mem : list Z) (d : Z) : option bool :=
  len ← zget mem (d + 1);
  if len <? 3 then Some false else
  b1 ← zget mem (d + 3); b2 ← zget mem (d + 4);
  Some (3 + (Z.land (Z.shiftr b1 5) 0x03 + Z.land (Z.shiftr b1 2) 0x07 + Z.land b1 0x03
           + Z.land (Z.shiftr b2 4) 0x07 + Z.land b2 0x0f) =? len).

(** The inner [None] is the result -1. *)
Definition en50221_app_lowspeed_parse_connect_on_channel (mem : list Z) (data data_length : Z) :
    option (option en50221_app_lowspeed_command) :=
  let bad : option (option en50221_app_lowspeed_command) := Some None in
  if data_length <? 3 then bad else
  b0 ← zget mem data; b1 ← zget mem (data + 1); b2 ← zget mem (data + 2);
  if negb (Z.lor (Z.lor (Z.shiftl b0 16) (Z.shiftl b1 8)) b2 =? TAG_CONNECTION_DESCRIPTOR) then bad else
  let data := data + 3 in
  let data_length := data_length - 3 in
  '(length_field_len, asn) ← asn_1_decode mem data data_length;
  if length_field_len <? 0 then bad else
  let asn_data_length := default 0 asn in
  let data := data + length_field_len in
  let data_length := data_length - length_field_len in
  if data_length <? asn_data_length then bad else
  if asn_data_length <? 1 then bad else
  descriptor_type ← zget mem data;
  let data := data + 1 in
  let data_length := data_length - 1 in
  let asn_data_length := asn_data_length - 1 in
  let last (c : lowspeed_connection) (data data_length : Z) :=
    if negb (data_length =? 2) then bad else
    retry_count ← zget mem data; timeout ← zget mem (data + 1); Some (Some (ConnectOnChannel c retry_count timeout)) in
  if descriptor_type =? CONNECTION_DESCRIPTOR_TYPE_TELEPHONE then
    if asn_data_length <? 2 then bad else
    len ← zget mem (data + 1);
    if negb (asn_data_length =? 2 + len) then bad else
    tag ← zget mem data;
    if negb (tag =? dtag_dvb_telephone) then bad else
    ok ← dvb_telephone_descriptor_codec mem data;
    if negb ok then bad else
    d ← slice mem data (2 + len);
    last (Telephone d) (data + (2 + len)) (data_length - (2 + len))
  else if descriptor_type =? CONNECTION_DESCRIPTOR_TYPE_CABLE then
    if negb (asn_data_length =? 1) then bad else
    channel_id ← zget mem data; last (Cable channel_id) (data + 1) (data_length - 1)
  else bad.

Definition lowspeed_command (mem : list Z) (command_id data asn_data_length : Z) : option (option en50221_app_lowspeed_command) :=
  if command_id =? COMMS_COMMAND_ID_CONNECT_ON_CHANNEL then en50221_app_lowspeed_parse_connect_on_channel mem data asn_data_length
  else if command_id =? COMMS_COMMAND_ID_SET_PARAMS then
    if negb (asn_data_length =? 2) then Some None else
    buffer_size ← zget mem data; timeout ← zget mem (data + 1); Some (Some (SetParams buffer_size timeout))
  else if command_id =? COMMS_COMMAND_ID_GET_NEXT_BUFFER then
    if negb (asn_data_length =? 1) then Some None else
    phase_id ← zget mem data; Some (Some (GetNextBuffer phase_id))
  else if command_id =? COMMS_COMMAND_ID_DISCONNECT_ON_CHANNEL then Some (Some DisconnectOnChannel)
  else if command_id =? COMMS_COMMAND_ID_ENQUIRE_STATUS then Some (Some EnquireStatus)
  else Some None.

Definition en50221_app_lowspeed_parse_command (ls : en50221_app_lowspeed) (slot_id sn : Z) (mem : list Z) (data data_length : Z) :
    option ls_result :=
  '(length_field_len, asn) ← asn_1_decode mem data data_length;
  if length_field_len <? 0 then ls_error ls else
  let asn_data_length := default 0 asn in
  if asn_data_length <? 1 then ls_error ls else
  if data_length - length_field_len <? asn_data_length then ls_error ls else
  let data := data + length_field_len in
  command_id ← zget mem data;
  c ← lowspeed_command mem command_id (data + 1) (asn_data_length - 1);
  match c with
  | None => ls_error ls
  | Some c =>
      ls ← ls_take_lock ls;
      let ls := ls_drop_lock ls in
      Some (if command_callback ls is Some f then (ls, f slot_id sn (LsCommand c), [LsCommand c]) else (ls, 0, []))
  end.

Section lowspeed.
(** Whether the [n]-th allocation succeeds. *)
Context (mem_ok : nat -> bool).

Definition ls_find (n : Z) (ls : en50221_app_lowspeed) : option (nat * en50221_app_lowspeed_session) :=
  list_find (fun s => ls_number s = n) (ls_sessions ls).
Definition ls_store (k : nat) (n : Z) (b : mblock) (ls : en50221_app_lowspeed) : en50221_app_lowspeed :=
  ls_set_sessions (<[k := LsSession n b]> (ls_sessions ls)) ls.

(** With the lock: the data of the message are whole. Their length is kept in 16 bits. *)
Definition lowspeed_tell (ls : en50221_app_lowspeed) (slot_id sn : Z) (mem : list Z) (data asn_data_length : Z) : option ls_result :=
  if asn_data_length <? 1 then ls_error (ls_drop_lock ls) else
  phase_id ← zget mem data;
  let ls := ls_drop_lock ls in
  match send_callback ls with
  | Some f => d ← slice mem (data + 1) (asn_data_length - 1); Some (ls, f slot_id sn (LsSend phase_id d), [LsSend phase_id d])
  | None => Some (ls, 0, [])
  end.

Definition en50221_app_lowspeed_parse_send (ls : en50221_app_lowspeed) (slot_id sn : Z) (more_last : bool) (mem : list Z)
    (data data_length : Z) : option ls_result :=
  '(length_field_len, asn) ← asn_1_decode mem data data_length;
  if length_field_len <? 0 then ls_error ls else
  let asn_data_length := default 0 asn in
  if data_length - length_field_len <? asn_data_length then ls_error ls else
  let data := data + length_field_len in
  ls ← ls_take_lock ls;
  if more_last then
    match ls_find sn ls with
    | None => lowspeed_tell ls slot_id sn mem data asn_data_length
    | Some (k, s) =>
        src ← slice mem data asn_data_length;
        '(new, old) ← append_block (mem_ok (ls_allocs ls)) (ls_block s) src;
        let ls := ls_count_alloc ls in
        match new with
        | None => ls_error (ls_drop_lock (ls_store k (ls_number s) old ls))
        | Some new => lowspeed_tell (ls_store k (ls_number s) Null ls) slot_id sn new 0 (u16 (zlen new))
        end
    end
  else
    let '(ls, cur_s, oom) :=
      match ls_find sn ls with
      | Some r => (ls, Some r, false)
      | None =>
          if mem_ok (ls_allocs ls)
          then (ls_set_sessions (LsSession sn Null :: ls_sessions ls) (ls_count_alloc ls), Some (0%nat, LsSession sn Null), false)
          else (ls_count_alloc ls, None, true)
      end in
    if oom then ls_error (ls_drop_lock ls) else
    match cur_s with
    | None => None
    | Some (k, s) =>
        src ← slice mem data asn_data_length;
        '(new, old) ← append_block (mem_ok (ls_allocs ls)) (ls_block s) src;
        let ls := ls_count_alloc ls in
        match new with
        | None => ls_error (ls_drop_lock (ls_store k (ls_number s) old ls))
        | Some new => Some (ls_drop_lock (ls_store k (ls_number s) (Live new) ls), 0, [])
        end
    end.

Definition en50221_app_lowspeed_message (ls : en50221_app_lowspeed) (slot_id sn : Z) (mem : list Z) : option ls_result :=
  let data_length := zlen mem in
  if data_length <? 3 then ls_error ls else
  b0 ← zget mem 0; b1 ← zget mem 1; b2 ← zget mem 2;
  let tag := Z.lor (Z.lor (Z.shiftl b0 16) (Z.shiftl b1 8)) b2 in
  if tag =? TAG_COMMS_COMMAND then en50221_app_lowspeed_parse_command ls slot_id sn mem 3 (data_length - 3)
  else if tag =? TAG_COMMS_SEND_LAST then en50221_app_lowspeed_parse_send ls slot_id sn true mem 3 (data_length - 3)
  else if tag =? TAG_COMMS_SEND_MORE then en50221_app_lowspeed_parse_send ls slot_id sn false mem 3 (data_length - 3)
  else ls_error ls.
End lowspeed.

(** ** What the host sends *)

Section lowspeed_senders.
Context {R : Type} (fail : R) (send_data : Z -> list Z -> R) (send_datav : Z -> list (list Z) -> R).
Context (uninit : list Z).

Definition en50221_app_lowspeed_send_comms_reply (sn comms_reply_id return_value : Z) : R :=
  send_data sn (tag_bytes TAG_COMMS_REPLY ++ [2; comms_reply_id; return_value]).
Definition en50221_app_lowspeed_send_comms_data (sn phase_id : Z) (tx_data : list Z) (tx_data_length : Z) : option R :=
  if 254 <? tx_data_length then Some fail else
  let buf := start_header uninit TAG_COMMS_RECV_LAST in
  '(length_field_len, buf) ← asn_1_encode (u16 (tx_data_length + 1)) buf 3 3;
  if length_field_len <? 0 then Some fail else
  buf ← put8 buf (3 + length_field_len) phase_id;
  a ← iov buf (3 + length_field_len + 1);
  b ← iov tx_data tx_data_length;
  Some (send_datav sn [a; b]).
End lowspeed_senders.

(** ** The date and time resource *)

Definition TAG_DATE_TIME_ENQUIRY : Z := 0x9f8440.
Definition TAG_DATE_TIME : Z := 0x9f8441.

Record en50221_app_datetime := AppDatetime { dt_lock : bool; dt_callback : option (Z -> Z -> Z -> Z) }.
Definition en50221_app_datetime_create (malloc_ok : bool) : option en50221_app_datetime :=
  if malloc_ok then Some (AppDatetime false None) else None.
Definition en50221_app_datetime_register_enquiry_callback (cb : option (Z -> Z -> Z -> Z)) (dt : en50221_app_datetime) :
    option en50221_app_datetime :=
  if dt_lock dt then None else Some (AppDatetime false cb).

(** The result, and the response intervals the application is told of. *)
Definition en50221_app_datetime_parse_enquiry (dt : en50221_app_datetime) (slot_id sn : Z) (mem : list Z) (data data_length : Z) :
    option (Z * list Z) :=
  if negb (data_length =? 2) then Some (-1, []) else
  b ← zget mem data;
  if negb (b =? 1) then Some (-1, []) else
  response_interval ← zget mem (data + 1);
  if dt_lock dt then None else
  Some (if dt_callback dt is Some f then (f slot_id sn response_interval, [response_interval]) else (0, [])).
Definition en50221_app_datetime_message (dt : en50221_app_datetime) (slot_id sn : Z) (mem : list Z) : option (Z * list Z) :=
  let data_length := zlen mem in
  if data_length <? 3 then Some (-1, []) else
  b0 ← zget mem 0; b1 ← zget mem 1; b2 ← zget mem 2;
  if Z.lor (Z.lor (Z.shiftl b0 16) (Z.shiftl b1 8)) b2 =? TAG_DATE_TIME_ENQUIRY
  then en50221_app_datetime_parse_enquiry dt slot_id sn mem 3 (data_length - 3)
  else Some (-1, []).
(** [rnd] rounds doubles, [time_offset] is -1 when there is none. *)
Definition en50221_app_datetime_send {R : Type} (send_data : Z -> list Z -> R) (rnd : QArith_base.Q -> QArith_base.Q)
    (sn utc_time time_offset : Z) : R :=
  if negb (time_offset =? -1) then
    send_data sn (tag_bytes TAG_DATE_TIME ++ [7] ++ unixtime_to_dvbdate rnd utc_time ++ [u8 (Z.shiftr time_offset 8); u8 time_offset])
  else send_data sn (tag_bytes TAG_DATE_TIME ++ [5] ++ unixtime_to_dvbdate rnd utc_time).

(** ** Data to send *)

(** The fragments that a session has collected. *)
Definition ls_gathered (sn : Z) (acc : list Z) (ls : en50221_app_lowspeed) : Prop :=
  match ls_find sn ls with None => acc = [] | Some (_, s) => collected (ls_block s) acc end.
Definition ls_tag (last : bool) : Z := if last then TAG_COMMS_SEND_LAST else TAG_COMMS_SEND_MORE.
(** Messages of one session, with what is returned for each and what the application is told. *)
Fixpoint ls_messages (mem_ok : nat -> bool) (ls : en50221_app_lowspeed) (slot sn : Z) (l : list (list Z)) :
    option (en50221_app_lowspeed * list (Z * list lowspeed_event)) :=
  match l with
  | [] => Some (ls, [])
  | a :: l =>
      '(ls, r, ev) ← en50221_app_lowspeed_message mem_ok ls slot sn a;
      '(ls, log) ← ls_messages mem_ok ls slot sn l;
      Some (ls, (r, ev) :: log)
  end.

Section send.
Context (mem_ok : nat -> bool) (memory : forall n, mem_ok n = true) (slot sn : Z) (cb : Z -> Z -> lowspeed_event -> Z).
Definition ls_ready (acc : list Z) (ls : en50221_app_lowspeed) : Prop :=
  ls_lock ls = false /\ ls_gathered sn acc ls /\ send_callback ls = Some cb.

Lemma ls_find_store k b l : list_find (fun s => ls_number s = sn) l = Some (k, LsSession sn b) ->
  forall b', list_find (fun s => ls_number s = sn) (<[k := LsSession sn b']> l) = Some (k, LsSession sn b').
Proof.
  intros (Hk & _ & Hmin)%list_find_Some b'. apply list_find_Some.
  split; [apply list_lookup_insert_eq; by apply lookup_lt_Some in Hk|]. split; [done|].
  intros j y Hj Hlt. rewrite list_lookup_insert_ne in Hj by lia. by apply (Hmin j).
Qed.
Lemma ls_found ls k s : ls_find sn ls = Some (k, s) -> s = LsSession sn (ls_block s).
Proof. intros (_ & <- & _)%list_find_Some. by destruct s. Qed.

(** A message with data, up to the point where its session is looked up. *)
Lemma ls_message_send ls last f : ls_lock ls = false -> zlen f < 65536 -> exists mem pre,
  mem = pre ++ f /\ zlen mem < 2 ^ 32 /\
  en50221_app_lowspeed_message mem_ok ls slot sn (apdu (ls_tag last) f) =
  en50221_app_lowspeed_parse_send mem_ok ls slot sn last mem 3 (zlen mem - 3) /\
  asn_1_decode mem 3 (zlen mem - 3) = Some (zlen (asn_field (zlen f)), Some (zlen f)) /\
  3 + zlen (asn_field (zlen f)) = zlen pre.
Proof.
  intros Hlock Hf. pose proof (asn_field_len (zlen f)). pose proof (zlen_nonneg f).
  exists (apdu (ls_tag last) f), (tag_bytes (ls_tag last) ++ asn_field (zlen f)).
  split; [unfold apdu; by rewrite app_assoc|]. rewrite zlen_apdu. split; [lia|].
  destruct (tag_at [] (ls_tag last) (asn_field (zlen f) ++ f)) as (b0 & b1 & b2 & E0 & E1 & E2 & Ej); [by destruct last|].
  cbn [app] in E0, E1, E2. change (zlen []) with 0 in E0, E1, E2. change (0 + 1) with 1 in E1. change (0 + 2) with 2 in E2.
  split.
  - unfold en50221_app_lowspeed_message. rewrite zlen_apdu, (proj2 (Z.ltb_ge _ 3)) by lia. unfold apdu.
    rewrite E0, E1, E2. cbn [mbind option_bind]. rewrite Ej. by destruct last.
  - pose proof (asn_1_decode_field (tag_bytes (ls_tag last)) (zlen f) f (3 + zlen (asn_field (zlen f)) + zlen f - 3) ltac:(lia)) as Ed.
    change (zlen (tag_bytes (ls_tag last))) with 3 in Ed. rewrite decide_True in Ed by lia.
    split; [exact Ed|]. rewrite zlen_app. done.
Qed.
Lemma ls_fragment acc f ls : ls_ready acc ls -> piece_ok f -> zlen acc + zlen f < 2 ^ 32 ->
  exists ls', en50221_app_lowspeed_message mem_ok ls slot sn (apdu (ls_tag false) f) = Some (ls', 0, []) /\ ls_ready (acc ++ f) ls'.
Proof.
  intros (Hlock & Hg & Hcb) [Hf0 Hf] Hl. pose proof (asn_field_len (zlen f)).
  destruct (ls_message_send ls false f Hlock Hf) as (mem & pre & -> & Hm & -> & Ed & Ep).
  unfold en50221_app_lowspeed_parse_send. rewrite Ed. cbn [mbind option_bind default from_option]. unfold id.
  rewrite (proj2 (Z.ltb_ge _ 0)), zlen_app, (proj2 (Z.ltb_ge _ (zlen f))) by lia. unfold ls_take_lock. rewrite Hlock. cbn [mbind option_bind].
  rewrite <- (app_nil_r (pre ++ f)), <- app_assoc, Ep. assert (Hne : acc ++ f <> []) by (intros E; apply app_nil in E as [_ ->]; done).
  unfold ls_find. cbn [ls_sessions ls_set_lock]. unfold ls_gathered, ls_find in Hg.
  destruct (list_find _ (ls_sessions ls)) as [[k s]|] eqn:Ef.
  - rewrite slice_mid by done. cbn [mbind option_bind]. rewrite memory, (append_collected _ acc f Hg Hl). cbn [mbind option_bind].
    eexists. split; [reflexivity|]. split; [done|]. split; [|done]. unfold ls_gathered, ls_find. cbn [ls_sessions ls_drop_lock ls_set_lock ls_store ls_set_sessions ls_count_alloc].
    pose proof (ls_found ls k s Ef) as Es. rewrite Es in Ef. rewrite Es. cbn [ls_number]. rewrite (ls_find_store k _ _ Ef). by right.
  - subst acc. rewrite memory, slice_mid by done. cbn [mbind option_bind ls_block append_block]. rewrite memory. cbn [mbind option_bind].
    eexists. split; [reflexivity|]. split; [done|]. split; [|done]. unfold ls_gathered, ls_find.
    cbn [ls_sessions ls_drop_lock ls_set_lock ls_store ls_set_sessions ls_count_alloc ls_number insert list_insert list_find].
    rewrite decide_True by done. by right.
Qed.
Lemma ls_last acc f ls phase_id d : ls_ready acc ls -> zlen f < 65536 -> acc ++ f = phase_id :: d -> zlen (acc ++ f) < 65536 ->
  exists ls', en50221_app_lowspeed_message mem_ok ls slot sn (apdu (ls_tag true) f) =
    Some (ls', cb slot sn (LsSend phase_id d), [LsSend phase_id d]) /\ ls_ready [] ls'.
Proof.
  intros (Hlock & Hg & Hcb) Hf Hd Hl. rewrite zlen_app in Hl. pose proof (asn_field_len (zlen f)). pose proof (zlen_nonneg f). pose proof (zlen_nonneg acc).
  destruct (ls_message_send ls true f Hlock Hf) as (mem & pre & -> & Hm & -> & Ed & Ep).
  unfold en50221_app_lowspeed_parse_send. rewrite Ed. cbn [mbind option_bind default from_option]. unfold id.
  rewrite (proj2 (Z.ltb_ge _ 0)), zlen_app, (proj2 (Z.ltb_ge _ (zlen f))) by lia. unfold ls_take_lock. rewrite Hlock. cbn [mbind option_bind].
  rewrite Ep. assert (Htell : forall ls1 pre1 p n, send_callback ls1 = Some cb -> p = zlen pre1 -> n = zlen (phase_id :: d) ->
    lowspeed_tell ls1 slot sn (pre1 ++ phase_id :: d) p n =
      Some (ls_drop_lock ls1, cb slot sn (LsSend phase_id d), [LsSend phase_id d])).
  { intros ls1 pre1 p n Hc -> ->. unfold lowspeed_tell. pose proof (zlen_nonneg d). rewrite zlen_cons, (proj2 (Z.ltb_ge _ 1)) by lia.
    pose proof (zget_mid pre1 [phase_id] d 0 ltac:(done)) as Hz. rewrite Z.add_0_r in Hz. change (pre1 ++ phase_id :: d) with (pre1 ++ [phase_id] ++ d).
    rewrite Hz. cbn [mbind option_bind send_callback ls_drop_lock ls_set_lock]. rewrite Hc.
    rewrite <- (app_nil_r (pre1 ++ [phase_id] ++ d)), <- !app_assoc, (app_assoc pre1). rewrite slice_mid; [done| |lia]. rewrite zlen_app. done. }
  unfold ls_find. cbn [ls_sessions ls_set_lock]. unfold ls_gathered, ls_find in Hg.
  destruct (list_find _ (ls_sessions ls)) as [[k s]|] eqn:Ef.
  - rewrite <- (app_nil_r (pre ++ f)), <- app_assoc, slice_mid by done. cbn [mbind option_bind]. rewrite memory, (append_collected _ acc f Hg) by lia. cbn [mbind option_bind].
    rewrite u16_small by (rewrite zlen_app; lia). rewrite Hd. rewrite (Htell _ [] 0) by done.
    eexists. split; [reflexivity|]. split; [done|]. split; [|done]. unfold ls_gathered, ls_find. cbn [ls_sessions ls_drop_lock ls_set_lock ls_store ls_set_sessions ls_count_alloc].
    pose proof (ls_found ls k s Ef) as Es. rewrite Es in Ef. rewrite Es. cbn [ls_number]. rewrite (ls_find_store k _ _ Ef). by left.
  - subst acc. cbn [app] in Hd. subst f. rewrite (Htell _ pre) by done. eexists. split; [reflexivity|]. split; [done|]. split; [|done].
    unfold ls_gathered, ls_find. cbn [ls_sessions ls_drop_lock ls_set_lock]. by rewrite Ef.
Qed.
Lemma ls_run last phase_id d frags : forall acc ls, ls_ready acc ls -> Forall piece_ok frags ->
  acc ++ concat frags ++ last = phase_id :: d -> zlen (acc ++ concat frags ++ last) < 65536 ->
  exists ls', ls_messages mem_ok ls slot sn ((apdu TAG_COMMS_SEND_MORE <$> frags) ++ [apdu TAG_COMMS_SEND_LAST last]) =
      Some (ls', replicate (length frags) (0, []) ++ [(cb slot sn (LsSend phase_id d), [LsSend phase_id d])]) /\ ls_ready [] ls'.
Proof.
  induction frags as [|f frags IH]; intros acc ls Hr Hfs Hd Hl; cbn [concat app] in Hd, Hl.
  - pose proof (zlen_nonneg acc). rewrite zlen_app in Hl.
    destruct (ls_last acc last ls phase_id d Hr ltac:(lia) Hd ltac:(rewrite zlen_app; lia)) as (ls' & E & Hr').
    exists ls'. cbn [fmap list_fmap app ls_messages]. cbn [ls_tag] in E. by rewrite E.
  - apply Forall_cons_iff in Hfs as [Hf Hfs]. rewrite <- app_assoc in Hd, Hl. rewrite app_assoc in Hd, Hl. pose proof Hl as Hl'. rewrite !zlen_app in Hl'.
    pose proof (zlen_nonneg (concat frags)). pose proof (zlen_nonneg last).
    destruct (ls_fragment acc f ls Hr Hf ltac:(lia)) as (ls1 & E & Hr1).
    destruct (IH (acc ++ f) ls1 Hr1 Hfs Hd Hl) as (ls' & E' & H'). exists ls'. rewrite fmap_cons. cbn [app ls_messages]. cbn [ls_tag] in E.
    rewrite E. cbn [mbind option_bind]. by rewrite E'.
Qed.
End send.

(** C35: Data to send reach the application as the module sent them, as long as memory can be had: cut into fragments,
    none of them to be continued empty, the phase and the data of fewer than 65536 bytes in all are given to the registered callback once, when the last
    fragment has come; each of the others is answered with 0.  The lock is free and the session ready for the next data. *)
Theorem en50221_app_lowspeed_send_delivered mem_ok ls slot sn cb frags last phase_id d :
  (forall n, mem_ok n = true) -> ls_lock ls = false -> send_callback ls = Some cb -> ls_gathered sn [] ls ->
  Forall piece_ok frags -> concat frags ++ last = phase_id :: d -> zlen (concat frags ++ last) < 65536 ->
  exists ls', ls_messages mem_ok ls slot sn ((apdu TAG_COMMS_SEND_MORE <$> frags) ++ [apdu TAG_COMMS_SEND_LAST last]) =
      Some (ls', replicate (length frags) (0, []) ++ [(cb slot sn (LsSend phase_id d), [LsSend phase_id d])]) /\
    ls_lock ls' = false /\ ls_gathered sn [] ls' /\ send_callback ls' = Some cb.
Proof.
  intros Hmem Hlock Hcb Hg Hfs Hd Hl. by apply (ls_run mem_ok Hmem slot sn cb last phase_id d frags []).
Qed.
Definition demo_ls_cb (slot sn : Z) (ev : lowspeed_event) : Z := 3.
Definition demo_ls : en50221_app_lowspeed := AppLowspeed false [] (Some demo_ls_cb) (Some demo_ls_cb) 0%nat.
Lemma en50221_app_lowspeed_send_delivered_witness :
  exists ls', ls_messages (fun _ => true) demo_ls 0 5 [apdu TAG_COMMS_SEND_MORE [1; 2]; apdu TAG_COMMS_SEND_MORE [3]; apdu TAG_COMMS_SEND_LAST [4; 5]] =
      Some (ls', [(0, []); (0, []); (3, [LsSend 1 [2; 3; 4; 5]])]) /\
    ls_lock ls' = false /\ ls_gathered 5 [] ls' /\ send_callback ls' = Some demo_ls_cb.
Proof.
  apply (en50221_app_lowspeed_send_delivered (fun _ => true) demo_ls 0 5 demo_ls_cb [[1; 2]; [3]] [4; 5] 1 [2; 3; 4; 5]); try done.
  repeat apply Forall_cons_2; by try split.
Defined.

(** A connection by telephone, and one by cable. *)
Example lowspeed_connect :
  en50221_app_lowspeed_message (fun _ => true) demo_ls 0 5
    (apdu TAG_COMMS_COMMAND (1 :: apdu TAG_CONNECTION_DESCRIPTOR [1; 0x57; 5; 0; 0x20; 0x01; 0x31; 0x32] ++ [4; 9])) =
    Some (demo_ls, 3, [LsCommand (ConnectOnChannel (Telephone [0x57; 5; 0; 0x20; 0x01; 0x31; 0x32]) 4 9)]) /\
  en50221_app_lowspeed_message (fun _ => true) demo_ls 0 5
    (apdu TAG_COMMS_COMMAND (1 :: apdu TAG_CONNECTION_DESCRIPTOR [2; 8] ++ [4; 9])) =
    Some (demo_ls, 3, [LsCommand (ConnectOnChannel (Cable 8) 4 9)]).
Proof. by vm_compute. Qed.

(** The length of collected data is kept in 16 bits: of 65538 bytes the application gets the phase and one byte. *)
Example lowspeed_long_data :
  exists ls' s, en50221_app_lowspeed_message (fun _ => true)
      (AppLowspeed false [LsSession 5 (Live (replicate 65535 7))] None (Some demo_ls_cb) 0%nat) 0 5 (apdu TAG_COMMS_SEND_LAST [8; 8; 8]) =
    Some (ls', 3, [LsSend 7 [7]]) /\ ls_sessions ls' = [s].
Proof. eexists _, _. split; [vm_compute; reflexivity|reflexivity]. Qed.
(** Clearing a session that exists leaves the lock taken. *)
Example lowspeed_clear_session_keeps_lock :
  exists ls', en50221_app_lowspeed_clear_session (AppLowspeed false [LsSession 5 Null] None None 0%nat) 5 = Some ls' /\
    en50221_app_lowspeed_message (fun _ => true) ls' 0 5 (apdu TAG_COMMS_SEND_LAST [1]) = None.
Proof. eexists. split; [reflexivity|]. by vm_compute. Qed.
(** Two empty fragments leave a pointer to a block that was freed. *)
Example lowspeed_empty_fragments_crash :
  exists ls', ls_messages (fun _ => true) demo_ls 0 5 [apdu TAG_COMMS_SEND_MORE []; apdu TAG_COMMS_SEND_MORE []] =
      Some (ls', [(0, []); (-1, [])]) /\ en50221_app_lowspeed_destroy ls' = None.
Proof. eexists. split; [reflexivity|]. by vm_compute. Qed.

(** The time is sent with the offset, if there is one; without rounding of doubles. *)
Example datetime_send_demo :
  en50221_app_datetime_send (fun _ d => d) (fun x => x) 5 750474005 60 =
    [0x9f; 0x84; 0x41; 7; 0xc0; 0x79; 0x01; 0x00; 0x05; 0; 60] /\
  en50221_app_datetime_send (fun _ d => d) (fun x => x) 5 750474005 (-1) = [0x9f; 0x84; 0x41; 5; 0xc0; 0x79; 0x01; 0x00; 0x05].
Proof. by vm_compute. Qed.
