(* ===== verification/DvbFrontend.v ===== *)
(** * DvbFrontend: dvb_frontend.c

    The front end core: the cache of the tuning parameters and its translation to the parameters of
    the old interface, the queue of events, the zigzag search for a carrier and the turns of
    the thread that makes it, and the ioctls.  The driver of the card is a record of functions on a state
    of its own, of any type; [None] is an access outside an object, or a loop out of fuel. *)

From S2P Require Import Prelude.

Definition FESTATE_IDLE : Z := 1.
Definition FESTATE_RETUNE : Z := 2.
Definition FESTATE_TUNING_FAST : Z := 4.
Definition FESTATE_TUNING_SLOW : Z := 8.
Definition FESTATE_TUNED : Z := 16.
Definition FESTATE_ZIGZAG_FAST : Z := 32.
Definition FESTATE_ZIGZAG_SLOW : Z := 64.
Definition FESTATE_DISEQC : Z := 128.
Definition FESTATE_ERROR : Z := 256.
Definition FESTATE_WAITFORLOCK : Z := 4 + 8 + 32 + 64 + 128.
Definition FESTATE_SEARCHING_FAST : Z := 4 + 32.
Definition FESTATE_SEARCHING_SLOW : Z := 8 + 64.
Definition FESTATE_LOSTLOCK : Z := 32 + 64.

Definition EOPNOTSUPP : Z := 95.
Definition EAGAIN : Z := 11.
Definition EWOULDBLOCK_fe : Z := 11.
Definition EOVERFLOW_fe : Z := 75.
Definition ERESTARTSYS_fe : Z := 512.
Definition ENOMEM_fe : Z := 12.

(** The values of enumerations that the code compares or stores. *)
Definition FE_HAS_LOCK : Z := 0x10.
Definition FE_CAN_INVERSION_AUTO : Z := 0x1.
Definition FE_CAN_RECOVER : Z := 0x40000000.
Definition FE_TUNE_MODE_ONESHOT : Z := 0x01.
Definition INVERSION_OFF : Z := 0.
Definition INVERSION_ON : Z := 1.
Definition INVERSION_AUTO : Z := 2.
Definition FEC_NONE : Z := 0.
Definition FEC_AUTO : Z := 9.
Definition QPSK : Z := 0.
Definition QAM_AUTO : Z := 6.
Definition VSB_8 : Z := 7.
Definition VSB_16 : Z := 8.
Definition SEC_VOLTAGE_13 : Z := 0.
Definition SEC_VOLTAGE_18 : Z := 1.
Definition SEC_VOLTAGE_OFF : Z := 2.
Definition SEC_TONE_OFF : Z := 1.
Definition TRANSMISSION_MODE_AUTO : Z := 2.
Definition GUARD_INTERVAL_AUTO : Z := 4.
Definition HIERARCHY_NONE : Z := 0.
Definition HIERARCHY_AUTO : Z := 4.
Definition PILOT_AUTO : Z := 2.
Definition ROLLOFF_35 : Z := 0.
Definition ROLLOFF_AUTO : Z := 3.
Definition NO_STREAM_ID_FILTER : Z := 2 ^ 32 - 1.
Definition LNA_AUTO : Z := 2 ^ 32 - 1.
Definition BANDWIDTH_8_MHZ : Z := 0.
Definition BANDWIDTH_7_MHZ : Z := 1.
Definition BANDWIDTH_6_MHZ : Z := 2.
Definition BANDWIDTH_AUTO : Z := 3.
Definition BANDWIDTH_5_MHZ : Z := 4.
Definition BANDWIDTH_10_MHZ : Z := 5.
Definition BANDWIDTH_1_712_MHZ : Z := 6.

Definition SYS_UNDEFINED : Z := 0.
Definition SYS_DVBC_ANNEX_A : Z := 1.
Definition SYS_DVBC_ANNEX_B : Z := 2.
Definition SYS_DVBT : Z := 3.
Definition SYS_DSS : Z := 4.
Definition SYS_DVBS : Z := 5.
Definition SYS_DVBS2 : Z := 6.
Definition SYS_ISDBT : Z := 8.
Definition SYS_ISDBS : Z := 9.
Definition SYS_ATSC : Z := 11.
Definition SYS_ATSCMH : Z := 12.
Definition SYS_DTMB : Z := 13.
Definition SYS_DVBT2 : Z := 16.
Definition SYS_TURBO : Z := 17.
Definition SYS_DVBC_ANNEX_C : Z := 18.

Inductive dvbv3_emulation_type := DVBV3_UNKNOWN | DVBV3_QPSK | DVBV3_QAM | DVBV3_OFDM | DVBV3_ATSC.
#[global] Instance dvbv3_emulation_type_eq : EqDecision dvbv3_emulation_type.
Proof. solve_decision. Defined.
Definition among (x : Z) (l : list Z) : bool := existsb (Z.eqb x) l.
Definition dvbv3_type (delivery_system : Z) : dvbv3_emulation_type :=
  if among delivery_system [SYS_DVBC_ANNEX_A; SYS_DVBC_ANNEX_C] then DVBV3_QAM
  else if among delivery_system [SYS_DVBS; SYS_DVBS2; SYS_TURBO; SYS_ISDBS; SYS_DSS] then DVBV3_QPSK
  else if among delivery_system [SYS_DVBT; SYS_DVBT2; SYS_ISDBT; SYS_DTMB] then DVBV3_OFDM
  else if among delivery_system [SYS_ATSC; SYS_ATSCMH; SYS_DVBC_ANNEX_B] then DVBV3_ATSC
  else DVBV3_UNKNOWN.

(** ** The cache *)

Inductive fe_layer := L0 | L1 | L2.
(** The members of [struct dtv_frontend_properties] before the statistics. *)
Inductive fe_member :=
| C_state | C_frequency | C_modulation | C_voltage | C_sectone | C_inversion | C_fec_inner | C_transmission_mode | C_bandwidth_hz
| C_guard_interval | C_hierarchy | C_symbol_rate | C_code_rate_HP | C_code_rate_LP | C_pilot | C_rolloff | C_delivery_system
| C_interleaving | C_isdbt_partial_reception | C_isdbt_sb_mode | C_isdbt_sb_subchannel | C_isdbt_sb_segment_idx
| C_isdbt_sb_segment_count | C_isdbt_layer_enabled
| C_layer_segment_count (l : fe_layer) | C_layer_fec (l : fe_layer) | C_layer_modulation (l : fe_layer) | C_layer_interleaving (l : fe_layer)
| C_stream_id | C_atscmh_fic_ver | C_atscmh_parade_id | C_atscmh_nog | C_atscmh_tnog | C_atscmh_sgn | C_atscmh_prc
| C_atscmh_rs_frame_mode | C_atscmh_rs_frame_ensemble | C_atscmh_rs_code_mode_pri | C_atscmh_rs_code_mode_sec
| C_atscmh_sccc_block_mode | C_atscmh_sccc_code_mode_a | C_atscmh_sccc_code_mode_b | C_atscmh_sccc_code_mode_c | C_atscmh_sccc_code_mode_d
| C_lna.
#[global] Instance fe_layer_eq : EqDecision fe_layer.
Proof. solve_decision. Defined.
#[global] Instance fe_member_eq : EqDecision fe_member.
Proof. solve_decision. Defined.

(** What a store to a member keeps of a value: [u8] or 32 bits. *)
Definition member_store (m : fe_member) (v : Z) : Z :=
  match m with
  | C_isdbt_partial_reception | C_isdbt_sb_mode | C_isdbt_sb_subchannel | C_isdbt_layer_enabled
  | C_layer_segment_count _ | C_layer_interleaving _
  | C_atscmh_fic_ver | C_atscmh_parade_id | C_atscmh_nog | C_atscmh_tnog | C_atscmh_sgn | C_atscmh_prc
  | C_atscmh_rs_frame_mode | C_atscmh_rs_frame_ensemble | C_atscmh_rs_code_mode_pri | C_atscmh_rs_code_mode_sec
  | C_atscmh_sccc_block_mode | C_atscmh_sccc_code_mode_a | C_atscmh_sccc_code_mode_b | C_atscmh_sccc_code_mode_c
  | C_atscmh_sccc_code_mode_d => u8 v
  | _ => u32 v
  end.
(** The statistics are eight structures, of which the code only makes copies. *)
Record dtv_frontend_properties := Props { members :> fe_member -> Z; fe_stats : list (list Z) }.
Definition cset (m : fe_member) (v : Z) (c : dtv_frontend_properties) : dtv_frontend_properties :=
  Props (fun m' => if decide (m' = m) then member_store m v else c m') (fe_stats c).
Definition csets (l : list (fe_member * Z)) (c : dtv_frontend_properties) : dtv_frontend_properties :=
  fold_left (fun c mv => cset mv.1 mv.2 c) l c.

Definition DTV_UNDEFINED : Z := 0.
Definition DTV_TUNE : Z := 1.
Definition DTV_CLEAR : Z := 2.
Definition DTV_VOLTAGE : Z := 10.
Definition DTV_TONE : Z := 11.
Definition DTV_DELIVERY_SYSTEM : Z := 17.
Definition DTV_API_VERSION : Z := 35.
Definition DTV_ENUM_DELSYS : Z := 44.
Definition DTV_LNA : Z := 61.
Definition DTV_STAT_SIGNAL_STRENGTH : Z := 62.
Definition DTV_STAT_TOTAL_BLOCK_COUNT : Z := 69.

Definition layer_defaults : list (fe_member * Z) :=
  flat_map (fun l => [(C_layer_fec l, FEC_AUTO); (C_layer_modulation l, QAM_AUTO); (C_layer_interleaving l, 0); (C_layer_segment_count l, 0)])
    [L0; L1; L2].
Definition isdbt_defaults (enabled : Z) : list (fe_member * Z) :=
  [(C_isdbt_partial_reception, 0); (C_isdbt_sb_mode, 0); (C_isdbt_sb_subchannel, 0); (C_isdbt_sb_segment_idx, 0);
   (C_isdbt_sb_segment_count, 0); (C_isdbt_layer_enabled, enabled)] ++ layer_defaults.

Definition dvb_frontend_clear_cache (c : dtv_frontend_properties) : dtv_frontend_properties :=
  let delsys := c C_delivery_system in
  let c := csets [(C_delivery_system, delsys); (C_state, DTV_CLEAR)] (Props (fun _ => 0) (fe_stats c)) in
  let c := csets ([(C_transmission_mode, TRANSMISSION_MODE_AUTO); (C_bandwidth_hz, 0); (C_guard_interval, GUARD_INTERVAL_AUTO);
    (C_hierarchy, HIERARCHY_AUTO); (C_symbol_rate, 0); (C_code_rate_HP, FEC_AUTO); (C_code_rate_LP, FEC_AUTO); (C_fec_inner, FEC_AUTO);
    (C_rolloff, ROLLOFF_AUTO); (C_voltage, SEC_VOLTAGE_OFF); (C_sectone, SEC_TONE_OFF); (C_pilot, PILOT_AUTO)] ++ isdbt_defaults 0 ++
    [(C_stream_id, NO_STREAM_ID_FILTER)]) c in
  let c :=
    if among delsys [SYS_DVBS; SYS_DVBS2; SYS_TURBO] then csets [(C_modulation, QPSK); (C_rolloff, ROLLOFF_35)] c
    else if delsys =? SYS_ATSC then cset C_modulation VSB_8 c
    else cset C_modulation QAM_AUTO c in
  cset C_lna LNA_AUTO c.

(** ** The old interface *)

(** [struct dvb_frontend_parameters]: the union holds the words of its largest member, those of the others are
    the first of them.  QPSK: symbol rate, FEC; QAM: and the modulation; OFDM: bandwidth, two code
    rates, constellation, transmission mode, guard interval, hierarchy; VSB: modulation. *)
Record dvb_frontend_parameters := FeParams { p_frequency : Z; p_inversion : Z; p_u : list Z }.
Definition pset (i : Z) (v : Z) (p : dvb_frontend_parameters) : dvb_frontend_parameters :=
  FeParams (p_frequency p) (p_inversion p) (zset (p_u p) i (u32 v)).

Definition bandwidth_hz_of (bandwidth : Z) : option Z :=
  if bandwidth =? BANDWIDTH_10_MHZ then Some 10000000
  else if bandwidth =? BANDWIDTH_8_MHZ then Some 8000000
  else if bandwidth =? BANDWIDTH_7_MHZ then Some 7000000
  else if bandwidth =? BANDWIDTH_6_MHZ then Some 6000000
  else if bandwidth =? BANDWIDTH_5_MHZ then Some 5000000
  else if bandwidth =? BANDWIDTH_1_712_MHZ then Some 1712000
  else if bandwidth =? BANDWIDTH_AUTO then Some 0
  else None.
Definition bandwidth_of_hz (hz : Z) : Z :=
  if hz =? 10000000 then BANDWIDTH_10_MHZ
  else if hz =? 8000000 then BANDWIDTH_8_MHZ
  else if hz =? 7000000 then BANDWIDTH_7_MHZ
  else if hz =? 6000000 then BANDWIDTH_6_MHZ
  else if hz =? 5000000 then BANDWIDTH_5_MHZ
  else if hz =? 1712000 then BANDWIDTH_1_712_MHZ
  else BANDWIDTH_AUTO.

(** The result, and the cache. *)
Definition dtv_property_cache_sync (c : dtv_frontend_properties) (p : dvb_frontend_parameters) : Z * dtv_frontend_properties :=
  let c := csets [(C_frequency, p_frequency p); (C_inversion, p_inversion p)] c in
  let u := p_u p in
  match dvbv3_type (c C_delivery_system) with
  | DVBV3_QPSK => (0, csets [(C_symbol_rate, zat u 0); (C_fec_inner, zat u 1)] c)
  | DVBV3_QAM => (0, csets [(C_symbol_rate, zat u 0); (C_fec_inner, zat u 1); (C_modulation, zat u 2)] c)
  | DVBV3_OFDM =>
      let c := if bandwidth_hz_of (zat u 0) is Some hz then cset C_bandwidth_hz hz c else c in
      (0, csets [(C_code_rate_HP, zat u 1); (C_code_rate_LP, zat u 2); (C_modulation, zat u 3); (C_transmission_mode, zat u 4);
                 (C_guard_interval, zat u 5); (C_hierarchy, zat u 6)] c)
  | DVBV3_ATSC =>
      let c := cset C_modulation (zat u 0) c in
      (0, if c C_delivery_system =? SYS_ATSCMH then c
          else if (c C_modulation =? VSB_8) || (c C_modulation =? VSB_16) then cset C_delivery_system SYS_ATSC c
          else cset C_delivery_system SYS_DVBC_ANNEX_B c)
  | DVBV3_UNKNOWN => (- EINVAL, c)
  end.

(** The result, and the parameters. *)
Definition dtv_property_legacy_params_sync (c : dtv_frontend_properties) (p : dvb_frontend_parameters) : Z * dvb_frontend_parameters :=
  let p := FeParams (c C_frequency) (c C_inversion) (p_u p) in
  match dvbv3_type (c C_delivery_system) with
  | DVBV3_UNKNOWN => (- EINVAL, p)
  | DVBV3_QPSK => (0, pset 1 (c C_fec_inner) (pset 0 (c C_symbol_rate) p))
  | DVBV3_QAM => (0, pset 2 (c C_modulation) (pset 1 (c C_fec_inner) (pset 0 (c C_symbol_rate) p)))
  | DVBV3_OFDM =>
      (0, pset 6 (c C_hierarchy) (pset 5 (c C_guard_interval) (pset 4 (c C_transmission_mode) (pset 3 (c C_modulation)
            (pset 2 (c C_code_rate_LP) (pset 1 (c C_code_rate_HP) (pset 0 (bandwidth_of_hz (c C_bandwidth_hz)) p)))))))
  | DVBV3_ATSC => (0, pset 0 (c C_modulation) p)
  end.

(** ** Events *)

Definition MAX_EVENT : Z := 8.
Record dvb_frontend_event := FeEvent { ev_status : Z; ev_parameters : dvb_frontend_parameters }.
Record dvb_fe_events := FeEvents { fe_ring : list dvb_frontend_event; eventw : Z; eventr : Z; fe_overflow : bool }.

Definition events_add (e : dvb_frontend_event) (events : dvb_fe_events) : dvb_fe_events :=
  let wp := (eventw events + 1) mod MAX_EVENT in
  let full := wp =? eventr events in
  FeEvents (<[Z.to_nat (eventw events) := e]> (fe_ring events)) wp
    (if full then (eventr events + 1) mod MAX_EVENT else eventr events) (fe_overflow events || full).
(** [wait] is what the other tasks do to the queue while this one sleeps, with -ERESTARTSYS when a signal ends
    the sleep; the queue is not looked at again. *)
Definition dvb_frontend_get_event (wait : dvb_fe_events -> Z * dvb_fe_events) (nonblock : bool) (events : dvb_fe_events) :
    option (Z * option dvb_frontend_event * dvb_fe_events) :=
  let take (events : dvb_fe_events) :=
    e ← fe_ring events !! Z.to_nat (eventr events);
    Some (0, Some e, FeEvents (fe_ring events) (eventw events) ((eventr events + 1) mod MAX_EVENT) (fe_overflow events)) in
  if fe_overflow events then Some (- EOVERFLOW_fe, None, FeEvents (fe_ring events) (eventw events) (eventr events) false)
  else if eventw events =? eventr events then
    if nonblock then Some (- EWOULDBLOCK_fe, None, events) else
    let '(ret, events) := wait events in
    if ret <? 0 then Some (ret, None, events) else take events
  else take events.
Definition dvb_frontend_clear_events (events : dvb_fe_events) : dvb_fe_events :=
  FeEvents (fe_ring events) (eventw events) (eventw events) (fe_overflow events).
Definition dvb_frontend_poll (events : dvb_fe_events) : bool := negb (eventw events =? eventr events).

(** ** The state of a front end *)

(** The values of the search; [unsigned int]s but for [lnb_drift] and [quality]. *)
Record zigzag := Zigzag {
  z_state : Z; lnb_drift : Z; z_inversion : Z; auto_step : Z; auto_sub_step : Z; started_auto_step : Z;
  min_delay : Z; max_drift : Z; step_size : Z; quality : Z; check_wrapped : Z; delay : Z }.
Definition set_state (v : Z) (z : zigzag) : zigzag :=
  Zigzag v (lnb_drift z) (z_inversion z) (auto_step z) (auto_sub_step z) (started_auto_step z)
    (min_delay z) (max_drift z) (step_size z) (quality z) (check_wrapped z) (delay z).
Definition set_drift (v : Z) (z : zigzag) : zigzag :=
  Zigzag (z_state z) v (z_inversion z) (auto_step z) (auto_sub_step z) (started_auto_step z)
    (min_delay z) (max_drift z) (step_size z) (quality z) (check_wrapped z) (delay z).
Definition set_inversion (v : Z) (z : zigzag) : zigzag :=
  Zigzag (z_state z) (lnb_drift z) v (auto_step z) (auto_sub_step z) (started_auto_step z)
    (min_delay z) (max_drift z) (step_size z) (quality z) (check_wrapped z) (delay z).
Definition set_steps (step sub : Z) (z : zigzag) : zigzag :=
  Zigzag (z_state z) (lnb_drift z) (z_inversion z) step sub (started_auto_step z)
    (min_delay z) (max_drift z) (step_size z) (quality z) (check_wrapped z) (delay z).
Definition set_started (v w : Z) (z : zigzag) : zigzag :=
  Zigzag (z_state z) (lnb_drift z) (z_inversion z) (auto_step z) (auto_sub_step z) v
    (min_delay z) (max_drift z) (step_size z) (quality z) w (delay z).
Definition set_wrapped (w : Z) (z : zigzag) : zigzag := set_started (started_auto_step z) w z.
Definition set_tuning (d drift step : Z) (z : zigzag) : zigzag :=
  Zigzag (z_state z) (lnb_drift z) (z_inversion z) (auto_step z) (auto_sub_step z) (started_auto_step z)
    d drift step (quality z) (check_wrapped z) (delay z).
Definition set_delay (q d : Z) (z : zigzag) : zigzag :=
  Zigzag (z_state z) (lnb_drift z) (z_inversion z) (auto_step z) (auto_sub_step z) (started_auto_step z)
    (min_delay z) (max_drift z) (step_size z) q (check_wrapped z) d.

(** The union of [struct dtv_property], as its command uses it. *)
Inductive dtv_value := Data (v : Z) | Stats (st : list Z) | Buffer (b : list Z).

(** The driver: its limits, and its functions, null or on its state [D].  [ops_set_frontend] is given the
    cache; what it changes in it is put back. [ops_set_property] and [ops_get_property] may change the value. *)
Record dvb_frontend_ops (D : Type) := FeOps {
  ops_caps : Z; ops_frequency_min : Z; ops_frequency_max : Z; ops_frequency_stepsize : Z;
  ops_symbol_rate_min : Z; ops_symbol_rate_max : Z; tuner_frequency_min : Z; tuner_frequency_max : Z;
  ops_delsys : list Z;
  ops_init : D -> D;
  ops_set_frontend : option (dtv_frontend_properties -> D -> Z * D);
  ops_get_frontend : option (dtv_frontend_properties -> D -> Z * dtv_frontend_properties * D);
  ops_read_status : option (D -> Z * option Z * D);
  ops_get_tune_settings : option (dtv_frontend_properties -> D -> Z * (Z * Z * Z) * D);
  ops_set_tone : option (Z -> D -> Z * D);
  ops_set_voltage : option (Z -> D -> Z * D);
  ops_set_lna : option (dtv_frontend_properties -> D -> Z * D);
  ops_set_property : option (Z -> Z -> D -> Z * Z * D);
  ops_get_property : option (Z -> dtv_value -> D -> Z * dtv_value * D);
  ops_get_frontend_algo : option (D -> Z * D);
  ops_tune : option (bool -> Z -> Z -> Z -> D -> Z * Z * D);
  ops_search : option (D -> Z * D) }.
Arguments FeOps {D}.
Arguments ops_caps {D}. Arguments ops_frequency_min {D}. Arguments ops_frequency_max {D}. Arguments ops_frequency_stepsize {D}.
Arguments ops_symbol_rate_min {D}. Arguments ops_symbol_rate_max {D}. Arguments tuner_frequency_min {D}. Arguments tuner_frequency_max {D}.
Arguments ops_delsys {D}. Arguments ops_init {D}. Arguments ops_set_frontend {D}. Arguments ops_get_frontend {D}.
Arguments ops_read_status {D}. Arguments ops_get_tune_settings {D}. Arguments ops_set_tone {D}. Arguments ops_set_voltage {D}.
Arguments ops_set_lna {D}. Arguments ops_set_property {D}. Arguments ops_get_property {D}. Arguments ops_get_frontend_algo {D}. Arguments ops_tune {D}. Arguments ops_search {D}.

(** The cache, the search, the queue of events, the parameters of the last request, the status the thread saw last,
    and the state of the driver. *)
Record dvb_frontend (D : Type) := Fe {
  fe_cache : dtv_frontend_properties; fe_zz : zigzag; fe_events : dvb_fe_events; parameters_out : dvb_frontend_parameters;
  fe_status : Z; tune_mode_flags : Z; fe_tone : Z; fe_voltage : Z; algo_status : Z; fe_reinitialise : bool; fe_wakeup : bool; fe_hw : D }.
Arguments Fe {D}. Arguments fe_cache {D}. Arguments fe_zz {D}. Arguments fe_events {D}. Arguments parameters_out {D}. Arguments fe_status {D}.
Arguments tune_mode_flags {D}. Arguments fe_tone {D}. Arguments fe_voltage {D}. Arguments algo_status {D}. Arguments fe_reinitialise {D}.
Arguments fe_wakeup {D}. Arguments fe_hw {D}.

Section frontend.
Context {D : Type} (ops : dvb_frontend_ops D) (HZ : Z).
Context (dvb_force_auto_inversion dvb_override_tune_delay : Z).

Implicit Type fe : dvb_frontend D.
Definition with_cache (c : dtv_frontend_properties) fe : dvb_frontend D :=
  Fe c (fe_zz fe) (fe_events fe) (parameters_out fe) (fe_status fe) (tune_mode_flags fe) (fe_tone fe) (fe_voltage fe) (algo_status fe)
    (fe_reinitialise fe) (fe_wakeup fe) (fe_hw fe).
Definition with_zz (z : zigzag) fe : dvb_frontend D :=
  Fe (fe_cache fe) z (fe_events fe) (parameters_out fe) (fe_status fe) (tune_mode_flags fe) (fe_tone fe) (fe_voltage fe) (algo_status fe)
    (fe_reinitialise fe) (fe_wakeup fe) (fe_hw fe).
Definition with_events (ev : dvb_fe_events) fe : dvb_frontend D :=
  Fe (fe_cache fe) (fe_zz fe) ev (parameters_out fe) (fe_status fe) (tune_mode_flags fe) (fe_tone fe) (fe_voltage fe) (algo_status fe)
    (fe_reinitialise fe) (fe_wakeup fe) (fe_hw fe).
Definition with_params (p : dvb_frontend_parameters) fe : dvb_frontend D :=
  Fe (fe_cache fe) (fe_zz fe) (fe_events fe) p (fe_status fe) (tune_mode_flags fe) (fe_tone fe) (fe_voltage fe) (algo_status fe)
    (fe_reinitialise fe) (fe_wakeup fe) (fe_hw fe).
Definition with_status (s : Z) fe : dvb_frontend D :=
  Fe (fe_cache fe) (fe_zz fe) (fe_events fe) (parameters_out fe) s (tune_mode_flags fe) (fe_tone fe) (fe_voltage fe) (algo_status fe)
    (fe_reinitialise fe) (fe_wakeup fe) (fe_hw fe).
Definition with_flags (f : Z) fe : dvb_frontend D :=
  Fe (fe_cache fe) (fe_zz fe) (fe_events fe) (parameters_out fe) (fe_status fe) f (fe_tone fe) (fe_voltage fe) (algo_status fe)
    (fe_reinitialise fe) (fe_wakeup fe) (fe_hw fe).
Definition with_sec (tone voltage : Z) fe : dvb_frontend D :=
  Fe (fe_cache fe) (fe_zz fe) (fe_events fe) (parameters_out fe) (fe_status fe) (tune_mode_flags fe) tone voltage (algo_status fe)
    (fe_reinitialise fe) (fe_wakeup fe) (fe_hw fe).
Definition with_algo (a : Z) fe : dvb_frontend D :=
  Fe (fe_cache fe) (fe_zz fe) (fe_events fe) (parameters_out fe) (fe_status fe) (tune_mode_flags fe) (fe_tone fe) (fe_voltage fe) a
    (fe_reinitialise fe) (fe_wakeup fe) (fe_hw fe).
Definition with_wake (r w : bool) fe : dvb_frontend D :=
  Fe (fe_cache fe) (fe_zz fe) (fe_events fe) (parameters_out fe) (fe_status fe) (tune_mode_flags fe) (fe_tone fe) (fe_voltage fe) (algo_status fe)
    r w (fe_hw fe).
Definition with_hw (d : D) fe : dvb_frontend D :=
  Fe (fe_cache fe) (fe_zz fe) (fe_events fe) (parameters_out fe) (fe_status fe) (tune_mode_flags fe) (fe_tone fe) (fe_voltage fe) (algo_status fe)
    (fe_reinitialise fe) (fe_wakeup fe) d.
Definition in_state (bits : Z) fe : bool := negb (Z.land (z_state (fe_zz fe)) bits =? 0).

Definition dvb_frontend_wakeup fe : dvb_frontend D := with_wake (fe_reinitialise fe) true fe.
Definition dvb_frontend_reinitialise fe : dvb_frontend D := dvb_frontend_wakeup (with_wake true (fe_wakeup fe) fe).

(** The parameters are for the user, or for [parameters_out]: the driver may change the cache. *)
Definition dtv_get_frontend (p_out : option dvb_frontend_parameters) fe : Z * option dvb_frontend_parameters * dvb_frontend D :=
  match ops_get_frontend ops with
  | Some get =>
      let '(r, c, d) := get (fe_cache fe) (fe_hw fe) in
      let fe := with_hw d (with_cache c fe) in
      if r <? 0 then (r, p_out, fe) else (0, option_map (fun p => (dtv_property_legacy_params_sync c p).2) p_out, fe)
  | None => (0, p_out, fe)
  end.
Definition dvb_frontend_add_event (status : Z) fe : dvb_frontend D :=
  let fe :=
    if negb (Z.land status FE_HAS_LOCK =? 0) && bool_decide (is_Some (ops_get_frontend ops)) then
      let '(_, p, fe) := dtv_get_frontend (Some (parameters_out fe)) fe in with_params (default (parameters_out fe) p) fe
    else fe in
  with_events (events_add (FeEvent status (parameters_out fe)) (fe_events fe)) fe.

(** ** The search *)

(** Divisions of [int]s round to 0; [HZ] is positive, and what is divided is not negative. *)
Definition dvb_frontend_swzigzag_update_delay (locked : bool) (z : zigzag) : zigzag :=
  let q := if locked then Z.quot (quality z * 220 + 36 * 256) 256 else Z.quot (quality z * 220 + 0) 256 in
  let q2 := (q - 128) * (q - 128) in
  set_delay q (u32 (min_delay z + Z.quot (q2 * HZ) (128 * 128))) z.

(** Looking for the next thing to try; [auto_sub_step] is unsigned, and -1 becomes 0 in a moment. *)
Definition other_inversion (i : Z) : Z := if i =? INVERSION_OFF then INVERSION_ON else INVERSION_OFF.
Fixpoint autotune_loop (fuel : nat) (autoinversion : bool) (z : zigzag) : option zigzag :=
  match fuel with
  | O => None
  | S fuel =>
      let z := set_drift (s32 (u32 (auto_step z * step_size z))) z in
      let z := if max_drift z <? u32 (lnb_drift z) then set_drift 0 (set_steps 0 0 z) else z in
      let go (z : zigzag) := autotune_loop fuel autoinversion (set_steps (auto_step z) (u32 (auto_sub_step z + 1)) z) in
      let sub := auto_sub_step z in
      if sub =? 0 then Some z
      else if sub =? 1 then
        if negb autoinversion then go z else Some (set_inversion (other_inversion (z_inversion z)) z)
      else if sub =? 2 then
        if lnb_drift z =? 0 then go z else Some (set_drift (s32 (- lnb_drift z)) z)
      else if sub =? 3 then
        if lnb_drift z =? 0 then go z
        else if negb autoinversion then go z
        else Some (set_drift (s32 (- lnb_drift z)) (set_inversion (other_inversion (z_inversion z)) z))
      else go (set_steps (u32 (auto_step z + 1)) (u32 (-1)) z)
  end.
(** The frequency is put back only when the driver accepts what it is given. *)
Definition dvb_frontend_swzigzag_autotune (check_wrapped_now : bool) fe : option (Z * dvb_frontend D) :=
  let c := fe_cache fe in
  let autoinversion := (Z.land (ops_caps ops) FE_CAN_INVERSION_AUTO =? 0) && (c C_inversion =? INVERSION_AUTO) in
  z ← autotune_loop 6 autoinversion (fe_zz fe);
  let fe := with_zz z fe in
  if (auto_step z =? started_auto_step z) && (auto_sub_step z =? 0) && check_wrapped_now then Some (1, fe) else
  let c' := cset C_frequency (c C_frequency + lnb_drift z) c in
  let c' := if autoinversion then cset C_inversion (z_inversion z) c' else c' in
  let '(err, d) := if ops_set_frontend ops is Some set then set c' (fe_hw fe) else (0, fe_hw fe) in
  let fe := with_hw d (with_cache c' fe) in
  if err <? 0 then Some (err, with_zz (set_state FESTATE_ERROR z) fe) else
  let c := cset C_inversion (c C_inversion) (cset C_frequency (c C_frequency) c') in
  Some (0, with_zz (set_steps (auto_step z) (u32 (auto_sub_step z + 1)) z) (with_cache c fe)).

Definition update_delay (s : Z) fe : dvb_frontend D :=
  with_zz (dvb_frontend_swzigzag_update_delay (negb (Z.land s FE_HAS_LOCK =? 0)) (fe_zz fe)) fe.
(** What the driver reads, 0 if it reads nothing. *)
Definition read_status fe : Z * dvb_frontend D :=
  match ops_read_status ops with
  | Some read => let '(_, s, d) := read (fe_hw fe) in (default 0 s, with_hw d fe)
  | None => (0, fe)
  end.
Definition note_status (s : Z) fe : dvb_frontend D :=
  if s =? fe_status fe then fe else with_status s (dvb_frontend_add_event s fe).

(** The slow search: whether it wraps does not matter. *)
Definition slow_search (s : Z) fe : option (dvb_frontend D) :=
  if in_state FESTATE_SEARCHING_SLOW fe
  then '(_, fe) ← dvb_frontend_swzigzag_autotune false (update_delay s fe); Some fe
  else Some fe.
Definition fast_search (s : Z) fe : option (dvb_frontend D) :=
  if in_state FESTATE_SEARCHING_FAST fe || in_state FESTATE_RETUNE fe then
    let z := fe_zz fe in
    '(retval, fe) ← dvb_frontend_swzigzag_autotune (negb (check_wrapped z =? 0)) (with_zz (set_delay (quality z) (min_delay z) z) fe);
    if retval <? 0 then Some fe
    else if negb (retval =? 0)
    then Some (with_zz (set_started (auto_step (fe_zz fe)) (check_wrapped (fe_zz fe)) (set_state FESTATE_SEARCHING_SLOW (fe_zz fe))) fe)
    else
      let fe := with_zz (set_wrapped 1 (fe_zz fe)) fe in
      slow_search s (if in_state FESTATE_RETUNE fe then with_zz (set_state FESTATE_TUNING_FAST (fe_zz fe)) fe else fe)
  else slow_search s fe.

(** From the states in which a front end that has lost its lock is left alone. *)
Definition swzigzag_search (s : Z) fe : option (dvb_frontend D) :=
  if in_state FESTATE_LOSTLOCK fe && negb (Z.land (ops_caps ops) FE_CAN_RECOVER =? 0) && (max_drift (fe_zz fe) =? 0)
  then Some (update_delay s fe)
  else if in_state FESTATE_DISEQC fe then Some (update_delay s fe)
  else fast_search s (if in_state FESTATE_RETUNE fe then with_zz (set_started 0 0 (set_steps 0 0 (set_drift 0 (fe_zz fe)))) fe else fe).
(** With a status: locked now, locked still, lost, or not locked. *)
Definition swzigzag_check (s : Z) fe : option (dvb_frontend D) :=
  let locked := negb (Z.land s FE_HAS_LOCK =? 0) in
  if in_state FESTATE_WAITFORLOCK fe && locked then
    let fe := update_delay s fe in
    let fe := with_zz (set_state FESTATE_TUNED (fe_zz fe)) fe in
    Some (if (Z.land (ops_caps ops) FE_CAN_INVERSION_AUTO =? 0) && (fe_cache fe C_inversion =? INVERSION_AUTO)
          then with_cache (cset C_inversion (z_inversion (fe_zz fe)) (fe_cache fe)) fe else fe)
  else if in_state FESTATE_TUNED fe then
    let fe := update_delay s fe in
    if locked then Some fe
    else swzigzag_search s (with_zz (set_started (auto_step (fe_zz fe)) 0 (set_state FESTATE_ZIGZAG_FAST (fe_zz fe))) fe)
  else swzigzag_search s fe.
Definition swzigzag_idle fe : dvb_frontend D := with_zz (set_delay 0 (u32 (3 * HZ)) (fe_zz fe)) fe.
Definition dvb_frontend_swzigzag fe : option (dvb_frontend D) :=
  if in_state FESTATE_IDLE fe then Some (swzigzag_idle fe)
  else if negb (Z.land (tune_mode_flags fe) FE_TUNE_MODE_ONESHOT =? 0) then
    let fe :=
      if in_state FESTATE_RETUNE fe then
        let '(retval, d) := if ops_set_frontend ops is Some set then set (fe_cache fe) (fe_hw fe) else (0, fe_hw fe) in
        with_zz (set_state (if retval <? 0 then FESTATE_ERROR else FESTATE_TUNED) (fe_zz fe)) (with_hw d fe)
      else fe in
    Some (swzigzag_idle fe)
  else if in_state FESTATE_RETUNE fe then swzigzag_check 0 fe
  else let '(s, fe) := read_status fe in swzigzag_check s (note_status s fe).

(** ** A turn of the thread *)

Definition DVBFE_ALGO_HW : Z := 1.
Definition DVBFE_ALGO_SW : Z := 2.
Definition DVBFE_ALGO_CUSTOM : Z := 4.
Definition DVBFE_ALGO_SEARCH_SUCCESS : Z := 1.
Definition DVBFE_ALGO_SEARCH_AGAIN : Z := 16.

(** [s0] is what the variable [s] of the thread holds, which a driver may leave as it is. *)
Definition algo_hw fe (s0 : Z) : dvb_frontend D * Z :=
  let re_tune := in_state FESTATE_RETUNE fe in
  let fe := if re_tune then with_zz (set_state FESTATE_TUNED (fe_zz fe)) fe else fe in
  let '(fe, s) :=
    match ops_tune ops with
    | Some tune => let '(d, s, hw) := tune re_tune (tune_mode_flags fe) (delay (fe_zz fe)) s0 (fe_hw fe) in
                   (with_hw hw (with_zz (set_delay (quality (fe_zz fe)) d (fe_zz fe)) fe), s)
    | None => (fe, s0)
    end in
  (if negb (s =? fe_status fe) && (Z.land (tune_mode_flags fe) FE_TUNE_MODE_ONESHOT =? 0)
   then with_status s (dvb_frontend_add_event s fe) else fe, s).
Definition with_delay (d : Z) fe : dvb_frontend D := with_zz (set_delay (quality (fe_zz fe)) d (fe_zz fe)) fe.
Definition algo_custom fe (s0 : Z) : option (dvb_frontend D * Z) :=
  let fe := if in_state FESTATE_RETUNE fe then with_zz (set_state FESTATE_TUNED (fe_zz fe)) fe else fe in
  let fe :=
    if negb (Z.land (algo_status fe) DVBFE_ALGO_SEARCH_AGAIN =? 0) then
      match ops_search ops with
      | Some search => let '(a, d) := search (fe_hw fe) in with_algo a (with_hw d fe)
      | None => with_algo (Z.land (algo_status fe) (Z.lnot DVBFE_ALGO_SEARCH_AGAIN)) fe
      end
    else fe in
  let fe := if negb (algo_status fe =? DVBFE_ALGO_SEARCH_SUCCESS)
            then with_delay (HZ / 2) (with_algo (Z.lor (algo_status fe) DVBFE_ALGO_SEARCH_AGAIN) fe) else fe in
  let fe := with_params (dtv_property_legacy_params_sync (fe_cache fe) (parameters_out fe)).2 fe in
  read ← ops_read_status ops;
  let '(_, s', d) := read (fe_hw fe) in
  let s := default s0 s' in
  let fe := with_hw d fe in
  Some (if s =? fe_status fe then (fe, s) else
    let fe := with_status s (dvb_frontend_add_event s fe) in
    (if Z.land s FE_HAS_LOCK =? 0 then with_delay (HZ / 10) (with_algo (Z.lor (algo_status fe) DVBFE_ALGO_SEARCH_AGAIN) fe)
     else with_delay (u32 (60 * HZ)) fe, s)).
Definition restore_sec fe : dvb_frontend D :=
  let fe := if ops_set_tone ops is Some f then if fe_tone fe =? -1 then fe else with_hw (f (fe_tone fe) (fe_hw fe)).2 fe else fe in
  if ops_set_voltage ops is Some f then if fe_voltage fe =? -1 then fe else with_hw (f (fe_voltage fe) (fe_hw fe)).2 fe else fe.
(** From the semaphore to the next sleep. *)
Definition dvb_frontend_thread_turn fe (s : Z) : option (dvb_frontend D * Z) :=
  let fe := if fe_reinitialise fe
            then with_wake false (fe_wakeup fe) (restore_sec (with_hw (ops_init ops (fe_hw fe)) fe)) else fe in
  match ops_get_frontend_algo ops with
  | None => fe ← dvb_frontend_swzigzag fe; Some (fe, s)
  | Some get =>
      let '(algo, d) := get (fe_hw fe) in
      let fe := with_hw d fe in
      if algo =? DVBFE_ALGO_HW then Some (algo_hw fe s)
      else if algo =? DVBFE_ALGO_SW then fe ← dvb_frontend_swzigzag fe; Some (fe, s)
      else if algo =? DVBFE_ALGO_CUSTOM then algo_custom fe s
      else Some (fe, s)
  end.
(** What the thread does before its first turn. *)
Definition dvb_frontend_thread_start fe : dvb_frontend D :=
  let fe := with_zz (set_wrapped 0 (set_delay 0 (u32 (3 * HZ)) (fe_zz fe))) fe in
  let fe := with_wake false false (with_status 0 fe) in
  with_hw (ops_init ops (fe_hw fe)) fe.

(** ** Requests *)

Definition dvb_frontend_get_frequency_limits : Z * Z :=
  (Z.max (ops_frequency_min ops) (tuner_frequency_min ops),
   if ops_frequency_max ops =? 0 then tuner_frequency_max ops
   else if tuner_frequency_max ops =? 0 then ops_frequency_max ops
   else Z.min (ops_frequency_max ops) (tuner_frequency_max ops)).
Definition dvb_frontend_check_parameters (c : dtv_frontend_properties) : Z :=
  let '(freq_min, freq_max) := dvb_frontend_get_frequency_limits in
  let outside (lo hi v : Z) := negb (lo =? 0) && (v <? lo) || negb (hi =? 0) && (hi <? v) in
  if outside freq_min freq_max (c C_frequency) then - EINVAL
  else if among (c C_delivery_system) [SYS_DVBS; SYS_DVBS2; SYS_TURBO; SYS_DVBC_ANNEX_A; SYS_DVBC_ANNEX_C] &&
          outside (ops_symbol_rate_min ops) (ops_symbol_rate_max ops) (c C_symbol_rate) then - EINVAL
  else 0.

(** The delay, the drift and the step for a delivery system. *)
Definition default_settings (c : dtv_frontend_properties) (z : zigzag) : zigzag :=
  let delsys := c C_delivery_system in
  if among delsys [SYS_DVBS; SYS_DVBS2; SYS_ISDBS; SYS_TURBO; SYS_DVBC_ANNEX_A; SYS_DVBC_ANNEX_C]
  then set_tuning (HZ / 20) (c C_symbol_rate / 2000) (c C_symbol_rate / 16000) z
  else if among delsys [SYS_DVBT; SYS_DVBT2; SYS_ISDBT; SYS_DTMB]
  then set_tuning (HZ / 20) (u32 (u32 (ops_frequency_stepsize ops * 2) + 1)) (u32 (ops_frequency_stepsize ops * 2)) z
  else set_tuning (HZ / 20) 0 0 z.
Definition dtv_set_frontend fe : Z * dvb_frontend D :=
  if dvb_frontend_check_parameters (fe_cache fe) <? 0 then (- EINVAL, fe) else
  let fe := with_params (dtv_property_legacy_params_sync (fe_cache fe) (parameters_out fe)).2 fe in
  let c := fe_cache fe in
  let delsys := c C_delivery_system in
  let rolloff := if delsys =? SYS_DVBC_ANNEX_A then 115 else if delsys =? SYS_DVBC_ANNEX_C then 113 else 0 in
  let c := if among delsys [SYS_ATSC; SYS_DVBC_ANNEX_B] then cset C_bandwidth_hz 6000000 c else c in
  let c := if rolloff =? 0 then c else cset C_bandwidth_hz (u32 (c C_symbol_rate * rolloff) / 100) c in
  let c := if dvb_force_auto_inversion =? 0 then c else cset C_inversion INVERSION_AUTO c in
  let c := if (c C_hierarchy =? HIERARCHY_NONE) && (c C_code_rate_LP =? FEC_NONE) then cset C_code_rate_LP FEC_AUTO c else c in
  let '(settings, d) :=
    match ops_get_tune_settings ops with
    | Some get => let '(r, s, d) := get c (fe_hw fe) in (if r =? 0 then Some s else None, d)
    | None => (None, fe_hw fe)
    end in
  let z :=
    match settings with
    | Some (min_delay_ms, step, drift) => set_tuning (u32 (Z.quot (min_delay_ms * HZ) 1000)) (u32 drift) (u32 step) (fe_zz fe)
    | None => default_settings c (fe_zz fe)
    end in
  let z := if 0 <? dvb_override_tune_delay
           then set_tuning (u32 (dvb_override_tune_delay * HZ / 1000)) (max_drift z) (step_size z) z else z in
  let fe := with_zz (set_state FESTATE_RETUNE z) (with_hw d (with_cache c fe)) in
  let fe := with_algo (Z.lor (algo_status fe) DVBFE_ALGO_SEARCH_AGAIN) fe in
  let fe := with_events (dvb_frontend_clear_events (fe_events fe)) fe in
  (0, with_status 0 (dvb_frontend_wakeup (dvb_frontend_add_event 0 fe))).

(** ** Delivery systems *)

Definition is_dvbv3_delsys (delsys : Z) : bool := among delsys [SYS_DVBT; SYS_DVBC_ANNEX_A; SYS_DVBS; SYS_ATSC].
Definition emulate_delivery_system (delsys : Z) (c : dtv_frontend_properties) : dtv_frontend_properties :=
  let c := cset C_delivery_system delsys c in
  if c C_delivery_system =? SYS_ISDBT then
    csets (isdbt_defaults 7) (if c C_bandwidth_hz =? 0 then cset C_bandwidth_hz 6000000 c else c)
  else c.
(** The delivery systems of the driver, up to one that is zero.  With none in the array the element behind it is
    read, before the index is compared with [MAX_DELSYS]. *)
Definition MAX_DELSYS : Z := 8.
Fixpoint delsys_loop (fuel : nat) (ncaps : Z) : option (list Z) :=
  match fuel with
  | O => None
  | S fuel =>
      d ← zget (ops_delsys ops) ncaps;
      if (d =? 0) || negb (ncaps <? MAX_DELSYS) then Some []
      else l ← delsys_loop fuel (ncaps + 1); Some (d :: l)
  end.
Definition supported : option (list Z) := delsys_loop 9 0.
(** A search that stops where the source does; what is behind the element found is not read. *)
Fixpoint delsys_find (fuel : nat) (ncaps : Z) (good : Z -> bool) : option (option Z) :=
  match fuel with
  | O => None
  | S fuel =>
      d ← zget (ops_delsys ops) ncaps;
      if (d =? 0) || negb (ncaps <? MAX_DELSYS) then Some None
      else if good d then Some (Some d) else delsys_find fuel (ncaps + 1) good
  end.
Definition dvbv5_set_delivery_system (desired_system : Z) (c : dtv_frontend_properties) : option (Z * dtv_frontend_properties) :=
  first ← zget (ops_delsys ops) 0;
  let desired_system := if desired_system =? SYS_UNDEFINED then first else desired_system in
  found ← delsys_find 9 0 (Z.eqb desired_system);
  if found is Some _ then Some (0, cset C_delivery_system desired_system c) else
  if negb (is_dvbv3_delsys desired_system) then Some (- EINVAL, c) else
  systems ← supported;
  if existsb (fun d => bool_decide (dvbv3_type d = dvbv3_type desired_system)) systems
  then Some (0, emulate_delivery_system desired_system c)
  else Some (- EINVAL, c).
Definition dvbv3_set_delivery_system (c : dtv_frontend_properties) : option (Z * dtv_frontend_properties) :=
  first ← zget (ops_delsys ops) 0;
  let c := if c C_delivery_system =? SYS_UNDEFINED then cset C_delivery_system first c else c in
  if is_dvbv3_delsys (c C_delivery_system) then Some (0, c) else
  found ← delsys_find 9 0 (fun d => negb (bool_decide (dvbv3_type d = DVBV3_UNKNOWN)));
  if found is Some delsys then Some (0, emulate_delivery_system delsys c) else Some (- EINVAL, c).

(** ** Properties *)

(** The commands that store a value, and those that fetch one. *)
Definition set_table : list (Z * fe_member) :=
  [(3, C_frequency); (4, C_modulation); (5, C_bandwidth_hz); (6, C_inversion); (8, C_symbol_rate); (9, C_fec_inner); (12, C_pilot);
   (13, C_rolloff); (36, C_code_rate_HP); (37, C_code_rate_LP); (38, C_guard_interval); (39, C_transmission_mode); (40, C_hierarchy);
   (60, C_interleaving); (18, C_isdbt_partial_reception); (19, C_isdbt_sb_mode); (20, C_isdbt_sb_subchannel);
   (21, C_isdbt_sb_segment_idx); (22, C_isdbt_sb_segment_count); (41, C_isdbt_layer_enabled);
   (23, C_layer_fec L0); (24, C_layer_modulation L0); (25, C_layer_segment_count L0); (26, C_layer_interleaving L0);
   (27, C_layer_fec L1); (28, C_layer_modulation L1); (29, C_layer_segment_count L1); (30, C_layer_interleaving L1);
   (31, C_layer_fec L2); (32, C_layer_modulation L2); (33, C_layer_segment_count L2); (34, C_layer_interleaving L2);
   (42, C_stream_id); (43, C_stream_id); (46, C_atscmh_parade_id); (52, C_atscmh_rs_frame_ensemble)].
Definition get_table : list (Z * fe_member) :=
  [(3, C_frequency); (4, C_modulation); (5, C_bandwidth_hz); (6, C_inversion); (8, C_symbol_rate); (9, C_fec_inner); (12, C_pilot);
   (13, C_rolloff); (17, C_delivery_system); (10, C_voltage); (11, C_sectone); (36, C_code_rate_HP); (37, C_code_rate_LP);
   (38, C_guard_interval); (39, C_transmission_mode); (40, C_hierarchy); (60, C_interleaving);
   (18, C_isdbt_partial_reception); (19, C_isdbt_sb_mode); (20, C_isdbt_sb_subchannel);
   (21, C_isdbt_sb_segment_idx); (22, C_isdbt_sb_segment_count); (41, C_isdbt_layer_enabled);
   (23, C_layer_fec L0); (24, C_layer_modulation L0); (25, C_layer_segment_count L0); (26, C_layer_interleaving L0);
   (27, C_layer_fec L1); (28, C_layer_modulation L1); (29, C_layer_segment_count L1); (30, C_layer_interleaving L1);
   (31, C_layer_fec L2); (32, C_layer_modulation L2); (33, C_layer_segment_count L2); (34, C_layer_interleaving L2);
   (42, C_stream_id); (43, C_stream_id); (45, C_atscmh_fic_ver); (46, C_atscmh_parade_id); (47, C_atscmh_nog); (48, C_atscmh_tnog);
   (49, C_atscmh_sgn); (50, C_atscmh_prc); (51, C_atscmh_rs_frame_mode); (52, C_atscmh_rs_frame_ensemble); (53, C_atscmh_rs_code_mode_pri);
   (54, C_atscmh_rs_code_mode_sec); (55, C_atscmh_sccc_block_mode); (56, C_atscmh_sccc_code_mode_a); (57, C_atscmh_sccc_code_mode_b);
   (58, C_atscmh_sccc_code_mode_c); (59, C_atscmh_sccc_code_mode_d); (61, C_lna)].
Definition command (table : list (Z * fe_member)) (cmd : Z) : option fe_member :=
  snd <$> find (fun e => e.1 =? cmd) table.
Definition DVB_API_VERSION : Z := 5.
Definition DVB_API_VERSION_MINOR : Z := 10.

Definition dtv_property_process_get (cmd : Z) (c : dtv_frontend_properties) (d : D) : option (Z * option dtv_value * D) :=
  value ←
    (if cmd =? DTV_ENUM_DELSYS then l ← supported; Some (Some (Buffer l))
     else if cmd =? DTV_API_VERSION then Some (Some (Data (Z.lor (Z.shiftl DVB_API_VERSION 8) DVB_API_VERSION_MINOR)))
     else if (DTV_STAT_SIGNAL_STRENGTH <=? cmd) && (cmd <=? DTV_STAT_TOTAL_BLOCK_COUNT)
     then st ← fe_stats c !! Z.to_nat (cmd - DTV_STAT_SIGNAL_STRENGTH); Some (Some (Stats st))
     else Some (m ← command get_table cmd; Some (Data (c m))));
  match value with
  | None => Some (- EINVAL, None, d)
  | Some v =>
      match ops_get_property ops with
      | Some f => let '(r, v, d) := f cmd v d in Some (if r <? 0 then (r, None, d) else (0, Some v, d))
      | None => Some (0, Some v, d)
      end
  end.

(** Tone and voltage, as FE_SET_TONE and FE_SET_VOLTAGE set them. *)
Definition diseqc_state fe : dvb_frontend D := with_status 0 (with_zz (set_state FESTATE_DISEQC (fe_zz fe)) fe).
Definition set_tone (tone : Z) fe : Z * dvb_frontend D :=
  if ops_set_tone ops is Some f
  then let '(err, d) := f tone (fe_hw fe) in (err, diseqc_state (with_sec tone (fe_voltage fe) (with_hw d fe)))
  else (- EOPNOTSUPP, fe).
Definition set_voltage (voltage : Z) fe : Z * dvb_frontend D :=
  if ops_set_voltage ops is Some f
  then let '(err, d) := f voltage (fe_hw fe) in (err, diseqc_state (with_sec (fe_tone fe) voltage (with_hw d fe)))
  else (- EOPNOTSUPP, fe).

Definition dtv_property_process_set (cmd data : Z) fe : option (Z * dvb_frontend D) :=
  let '(r, data, d) := if ops_set_property ops is Some f then f cmd data (fe_hw fe) else (0, data, fe_hw fe) in
  let fe := with_hw d fe in
  if r <? 0 then Some (r, fe) else
  let c := fe_cache fe in
  if cmd =? DTV_CLEAR then Some (r, with_cache (dvb_frontend_clear_cache c) fe)
  else if cmd =? DTV_TUNE then Some (dtv_set_frontend (with_cache (cset C_state cmd c) fe))
  else if cmd =? DTV_DELIVERY_SYSTEM then '(r, c) ← dvbv5_set_delivery_system data c; Some (r, with_cache c fe)
  else if cmd =? DTV_VOLTAGE then Some (set_voltage (u32 data) (with_cache (cset C_voltage data c) fe))
  else if cmd =? DTV_TONE then Some (set_tone (u32 data) (with_cache (cset C_sectone data c) fe))
  else if cmd =? DTV_LNA then
    let c := cset C_lna data c in
    if ops_set_lna ops is Some f then let '(r, d) := f c (fe_hw fe) in Some (r, with_hw d (with_cache c fe)) else Some (r, with_cache c fe)
  else match command set_table cmd with
  | Some m => Some (r, with_cache (cset m data c) fe)
  | None => Some (- EINVAL, fe)
  end.

(** The loops of the two ioctls: the first error ends them. *)
Fixpoint set_properties (l : list (Z * Z)) (err : Z) fe : option (Z * dvb_frontend D) :=
  match l with
  | [] => Some (err, fe)
  | (cmd, data) :: l => '(err, fe) ← dtv_property_process_set cmd data fe; if err <? 0 then Some (err, fe) else set_properties l err fe
  end.
Fixpoint get_properties (l : list Z) (err : Z) (c : dtv_frontend_properties) (d : D) : option (Z * list dtv_value * D) :=
  match l with
  | [] => Some (err, [], d)
  | cmd :: l =>
      '(err, v, d) ← dtv_property_process_get cmd c d;
      match v with
      | Some v => if err <? 0 then Some (err, [], d) else
                  '(err, vs, d) ← get_properties l err c d; Some (err, v :: vs, d)
      | None => Some (err, [], d)
      end
  end.
Definition DTV_IOCTL_MAX_MSGS : Z := 64.
Definition number_ok {A} (l : list A) : bool := negb ((zlen l =? 0) || (DTV_IOCTL_MAX_MSGS <? zlen l)).
(** FE_SET_PROPERTY and FE_GET_PROPERTY; [copied] are the properties of user space, if there is memory for them and they can be read. *)
Definition fe_set_property (copied : Z + list (Z * Z)) fe : option (Z * dvb_frontend D) :=
  match copied with
  | inl err => Some (err, fe)
  | inr l => if number_ok l then set_properties l 0 fe else Some (- EINVAL, fe)
  end.
Definition fe_get_property (copied : Z + list Z) fe : option (Z * list dtv_value * dvb_frontend D) :=
  match copied with
  | inl err => Some (err, [], fe)
  | inr l =>
      if negb (number_ok l) then Some (- EINVAL, [], fe) else
      let '(err, _, fe) := if z_state (fe_zz fe) =? FESTATE_IDLE then (0, None, fe) else dtv_get_frontend None fe in
      if err <? 0 then Some (err, [], fe) else
      '(err, vs, d) ← get_properties l err (fe_cache fe) (fe_hw fe);
      Some (err, if err <? 0 then [] else vs, with_hw d fe)
  end.

(** ** The ioctls *)

Inductive fe_request :=
| FE_SET_PROPERTY (copied : Z + list (Z * Z)) | FE_GET_PROPERTY (copied : Z + list Z)
| FE_GET_INFO | FE_READ_STATUS | FE_SET_TONE (tone : Z) | FE_SET_VOLTAGE (voltage : Z)
| FE_SET_FRONTEND (p : dvb_frontend_parameters) | FE_GET_FRONTEND (p : dvb_frontend_parameters)
| FE_GET_EVENT (nonblock : bool) | FE_SET_FRONTEND_TUNE_MODE (flags : Z).
Inductive fe_reply :=
| NoReply | RStatus (s : Z) | RParams (p : dvb_frontend_parameters) | REvent (e : dvb_frontend_event) | RValues (l : list dtv_value)
| RInfo (type : option dvbv3_emulation_type) (frequency_min frequency_max caps : Z).

Definition read_only_request (r : fe_request) : bool :=
  match r with FE_GET_PROPERTY _ | FE_GET_INFO | FE_READ_STATUS | FE_GET_FRONTEND _ => true | _ => false end.
(** [wait] is what happens while the task sleeps with the semaphore released. *)
Definition dvb_frontend_ioctl_legacy (wait : dvb_fe_events -> Z * dvb_fe_events) (r : fe_request) fe :
    option (Z * fe_reply * dvb_frontend D) :=
  match r with
  | FE_GET_INFO =>
      let '(lo, hi) := dvb_frontend_get_frequency_limits in
      let type := dvbv3_type (fe_cache fe C_delivery_system) in
      Some (0, RInfo (if decide (type = DVBV3_UNKNOWN) then None else Some type) lo hi (Z.lor (ops_caps ops) FE_CAN_INVERSION_AUTO), fe)
  | FE_READ_STATUS =>
      if (z_state (fe_zz fe) =? FESTATE_RETUNE) || (z_state (fe_zz fe) =? FESTATE_ERROR) then Some (0, RStatus 0, fe) else
      Some match ops_read_status ops with
      | Some read => let '(err, s, d) := read (fe_hw fe) in (err, if s is Some s then RStatus s else NoReply, with_hw d fe)
      | None => (- EOPNOTSUPP, NoReply, fe)
      end
  | FE_SET_TONE tone => let '(err, fe) := set_tone tone fe in Some (err, NoReply, fe)
  | FE_SET_VOLTAGE voltage => let '(err, fe) := set_voltage voltage fe in Some (err, NoReply, fe)
  | FE_SET_FRONTEND p =>
      '(err, c) ← dvbv3_set_delivery_system (fe_cache fe);
      let fe := with_cache c fe in
      if negb (err =? 0) then Some (err, NoReply, fe) else
      let '(err, c) := dtv_property_cache_sync c p in
      let fe := with_cache c fe in
      if negb (err =? 0) then Some (err, NoReply, fe) else
      let '(err, fe) := dtv_set_frontend fe in Some (err, NoReply, fe)
  | FE_GET_EVENT nonblock =>
      '(err, e, ev) ← dvb_frontend_get_event wait nonblock (fe_events fe);
      Some (err, if e is Some e then REvent e else NoReply, with_events ev fe)
  | FE_GET_FRONTEND p =>
      let '(err, p, fe) := dtv_get_frontend (Some p) fe in Some (err, if p is Some p then RParams p else NoReply, fe)
  | FE_SET_FRONTEND_TUNE_MODE flags => Some (0, NoReply, with_flags flags fe)
  | _ => Some (- EOPNOTSUPP, NoReply, fe)
  end.
Definition ENODEV : Z := 19.
Definition dvb_frontend_ioctl (wait : dvb_fe_events -> Z * dvb_fe_events) (sig exiting rdonly : bool) (r : fe_request) fe :
    option (Z * fe_reply * dvb_frontend D) :=
  if sig then Some (- ERESTARTSYS_fe, NoReply, fe)
  else if exiting then Some (- ENODEV, NoReply, fe)
  else if rdonly && negb (read_only_request r) then Some (- EPERM, NoReply, fe)
  else match r with
  | FE_SET_PROPERTY copied => '(err, fe) ← fe_set_property copied fe; Some (err, NoReply, fe)
  | FE_GET_PROPERTY copied => '(err, l, fe) ← fe_get_property copied fe; Some (err, RValues l, fe)
  | r => dvb_frontend_ioctl_legacy wait r (with_cache (cset C_state DTV_UNDEFINED (fe_cache fe)) fe)
  end.

(** [dvb_frontend_resume], and the cache as registration leaves it. *)
Definition dvb_frontend_resume fe : dvb_frontend D :=
  dvb_frontend_wakeup (with_zz (set_state FESTATE_RETUNE (fe_zz fe)) (with_hw (ops_init ops (fe_hw fe)) fe)).
Definition registered_cache (stats : list (list Z)) : option dtv_frontend_properties :=
  first ← zget (ops_delsys ops) 0;
  Some (dvb_frontend_clear_cache (cset C_delivery_system first (Props (fun _ => 0) stats))).
End frontend.

(** ** The time between switch commands *)

Definition timeval_usec_diff (lasttime curtime : Z) : Z :=
  if curtime <? lasttime then s32 (1000000 - lasttime + curtime) else s32 (curtime - lasttime).
(** Seconds and microseconds. *)
Definition timeval_usec_add (t : Z * Z) (add_usec : Z) : Z * Z :=
  let usec := t.2 + add_usec in if 1000000 <=? usec then (t.1 + 1, usec - 1000000) else (t.1, usec).
