(* ===== verification/DvbFrontendTune.v ===== *)
(** * DvbFrontendTune: the search for a carrier

    The zigzag search of DvbFrontend.v tries every frequency of its range with every inversion,
    each of them once; and every turn of it, whatever the driver answers, ends and moves the state
    of the front end as the comments of the source describe. *)

From Stdlib Require Import FunctionalExtensionality.
From S2P Require Import Prelude DvbFrontend.

(** ** The cache *)

Definition cache_ok (c : dtv_frontend_properties) : Prop := forall m, member_store m (c m) = c m.
Lemma cache_eq (c c' : dtv_frontend_properties) : (forall m, c m = c' m) -> fe_stats c = fe_stats c' -> c = c'.
Proof. destruct c, c'. cbn. intros H ->. f_equal. by apply functional_extensionality. Qed.
Lemma cset_get m v c m' : cset m v c m' = if decide (m' = m) then member_store m v else c m'.
Proof. done. Qed.
Lemma cset_same m v c : cset m v c m = member_store m v.
Proof. rewrite cset_get. by rewrite decide_True. Qed.
Lemma cset_other m v c m' : m' <> m -> cset m v c m' = c m'.
Proof. intros. rewrite cset_get. by rewrite decide_False. Qed.
Lemma member_store_idem m v : member_store m (member_store m v) = member_store m v.
Proof. destruct m; cbn [member_store]; first [by rewrite (u32_small (u32 _)) by apply u32_range|by rewrite (u8_small (u8 _)) by apply u8_range]. Qed.
Lemma cset_ok m v c : cache_ok c -> cache_ok (cset m v c).
Proof. intros Hc m'. rewrite cset_get. case_decide; subst; [apply member_store_idem|apply Hc]. Qed.
Lemma cset_back m v v' c : cache_ok c -> v' = c m -> cset m v' (cset m v c) = c.
Proof. intros Hc ->. apply cache_eq; [|done]. intros m'. rewrite !cset_get. case_decide; subst; [apply Hc|done]. Qed.
Lemma cset_comm m m' v v' c : m <> m' -> cset m v (cset m' v' c) = cset m' v' (cset m v c).
Proof. intros. apply cache_eq; [|done]. intros m0. rewrite !cset_get. repeat case_decide; congruence. Qed.

(** ** One step of the search *)

Section search.
Context (md st : Z).
Hypothesis (Hst : 0 < st) (Hmd : 0 <= md) (Hov : md + st < 2 ^ 31).

(** What is tried after position [k], [s] with inversion [i]: drift, position, inversion. *)
Definition target (auto : bool) (k s i : Z) : Z * Z * Z * Z :=
  if s =? 0 then (k * st, k, 0, i)
  else if (s =? 1) && auto then (k * st, k, 1, other_inversion i)
  else if (s <=? 2) && negb (k =? 0) then (- (k * st), k, 2, i)
  else if (s <=? 3) && negb (k =? 0) && auto then (- (k * st), k, 3, other_inversion i)
  else if (k + 1) * st <=? md then ((k + 1) * st, k + 1, 0, i)
  else (0, 0, 0, i).
(** The rest of the state of the search. *)
Definition at_pos (z : zigzag) (k s i : Z) : Prop :=
  auto_step z = k /\ auto_sub_step z = s /\ z_inversion z = i /\ max_drift z = md /\ step_size z = st.
Definition same_rest (z z' : zigzag) : Prop :=
  z_state z' = z_state z /\ started_auto_step z' = started_auto_step z /\ min_delay z' = min_delay z /\ quality z' = quality z /\
  check_wrapped z' = check_wrapped z /\ delay z' = delay z.

Lemma drift_small k : 0 <= k -> k * st <= md + st -> u32 (k * st) = k * st /\ s32 (k * st) = k * st /\ s32 (- (k * st)) = - (k * st).
Proof. intros Hk Hd. assert (0 <= k * st) by nia. unfold s32, u32. set (x := k * st) in *. clearbody x. repeat case_match; lia. Qed.

(** One turn of the loop, where the step is inside the range. *)
Lemma loop_turn auto f z k s i : at_pos z k s i -> 0 <= k -> k * st <= md -> 0 <= s <= 4 ->
  autotune_loop (S f) auto z =
  let z1 := set_drift (k * st) z in
  if s =? 0 then Some z1
  else if s =? 1 then
    if auto then Some (set_inversion (other_inversion i) z1) else autotune_loop f auto (set_steps k 2 z1)
  else if s =? 2 then
    if k =? 0 then autotune_loop f auto (set_steps k 3 z1) else Some (set_drift (- (k * st)) z1)
  else if s =? 3 then
    if k =? 0 then autotune_loop f auto (set_steps k 4 z1)
    else if auto then Some (set_drift (- (k * st)) (set_inversion (other_inversion i) z1)) else autotune_loop f auto (set_steps k 4 z1)
  else autotune_loop f auto (set_steps (k + 1) 0 (set_steps (k + 1) (u32 (-1)) z1)).
Proof.
  intros (Ek & Es & Ei & Em & Et) Hk Hd Hs. destruct (drift_small k Hk ltac:(lia)) as (E1 & E2 & E3).
  assert (Hk' : k < 2 ^ 31) by nia. cbn [autotune_loop]. rewrite Ek, Et, E1, E2.
  cbn [lnb_drift set_drift max_drift auto_sub_step auto_step z_inversion set_inversion set_steps]. rewrite E1, Em, (proj2 (Z.ltb_ge md _)) by lia.
  cbn [lnb_drift set_drift max_drift auto_sub_step auto_step z_inversion set_inversion set_steps]. rewrite E3, Es, Ei, Ek.
  assert (Hz : (k * st =? 0) = (k =? 0)) by (destruct (Z.eqb_spec k 0) as [E|]; [by rewrite E, Z.mul_0_l|apply Z.eqb_neq; nia]). rewrite Hz.
  assert (s = 0 \/ s = 1 \/ s = 2 \/ s = 3 \/ s = 4) as [-> | [-> | [-> | [-> | ->]]]] by lia; cbn [Z.eqb Pos.eqb];
    try (by destruct auto).
  rewrite (u32_small (k + 1)) by lia. done.
Qed.
(** A step outside the range starts again. *)
Lemma loop_wraps auto f z k s i : at_pos z k s i -> 0 <= k -> md < k * st <= md + st ->
  autotune_loop (S f) auto z = Some (set_drift 0 (set_steps 0 0 (set_drift (k * st) z))).
Proof.
  intros (Ek & Es & Ei & Em & Et) Hk Hd. destruct (drift_small k Hk ltac:(lia)) as (E1 & E2 & _). cbn [autotune_loop]. rewrite Ek, Et, E1, E2.
  cbn [lnb_drift set_drift max_drift auto_sub_step auto_step z_inversion set_inversion set_steps]. rewrite E1, Em, (proj2 (Z.ltb_lt md _)) by lia. done.
Qed.

Lemma loop_next auto f z k i : at_pos z (k + 1) 0 i -> 0 <= k -> k * st <= md -> exists z',
  autotune_loop (S f) auto z = Some z' /\ same_rest z z' /\
  (let '(d, k', s', i')   := target auto k 4 i in at_pos z' k' s' i' /\ lnb_drift z' = d).
Proof.
  intros Hp Hk Hd. unfold target. cbn [Z.eqb Pos.eqb Z.leb Z.compare Pos.compare Pos.compare_cont andb].
  destruct Hp as (Ek & Es & Ei & Em & Et). destruct (Z.leb_spec ((k + 1) * st) md) as [Hle|Hgt].
  - rewrite (loop_turn _ f z (k + 1) 0 i) by (done || lia). eexists. split; [reflexivity|]. done.
  - rewrite (loop_wraps _ f z (k + 1) 0 i) by (done || lia || nia). eexists. split; [reflexivity|]. done.
Qed.
Definition leads (auto : bool) (f : nat) (z : zigzag) (t : Z * Z * Z * Z) : Prop := exists z',
  autotune_loop f auto z = Some z' /\ same_rest z z' /\ (let '(d, k', s', i') := t in at_pos z' k' s' i' /\ lnb_drift z' = d).
Lemma leads_steps auto f z z1 t : leads auto f z1 t -> same_rest z z1 -> autotune_loop (S f) auto z = autotune_loop f auto z1 -> leads auto (S f) z t.
Proof.
  intros (z' & E & (H1 & H2 & H3 & H4 & H5 & H6) & Ht) (G1 & G2 & G3 & G4 & G5 & G6) Hl. exists z'. rewrite Hl. split; [done|]. split; [|done].
  split_and!; congruence.
Qed.
Lemma leads_now auto f z z' d k s i : autotune_loop f auto z = Some z' -> same_rest z z' -> at_pos z' k s i -> lnb_drift z' = d -> leads auto f z (d, k, s, i).
Proof. intros. by exists z'. Qed.

Lemma loop_target auto z k s i : at_pos z k s i -> 0 <= k -> k * st <= md -> 0 <= s <= 4 -> leads auto 6 z (target auto k s i).
Proof.
  intros Hp Hk Hd Hs.
  assert (H4 : forall f z, at_pos z k 4 i -> leads auto (S (S f)) z (target auto k 4 i)).
  { intros f z0 H0. eapply leads_steps; [| |rewrite (loop_turn _ _ _ k 4 i) by (done || lia); reflexivity]; [|done].
    apply loop_next; [|done|done]. destruct H0 as (? & ? & ? & ? & ?). done. }
  assert (H3 : forall f z, at_pos z k 3 i -> leads auto (S (S (S f))) z (target auto k 3 i)).
  { intros f z0 H0. pose proof (loop_turn auto (S (S f)) z0 k 3 i H0 Hk Hd ltac:(lia)) as E. cbn [Z.eqb Pos.eqb] in E. cbv zeta in E.
    destruct H0 as (? & ? & ? & ? & ?). unfold target. cbn [Z.eqb Pos.eqb Z.leb Z.compare Pos.compare Pos.compare_cont andb].
    destruct (k =? 0) eqn:Ek; cbn [negb andb] in *; [eapply leads_steps; [| |exact E]; [by apply H4|done]|].
    destruct auto; [eapply leads_now; [exact E|done..]|eapply leads_steps; [| |exact E]; [by apply H4|done]]. }
  assert (H2 : forall f z, at_pos z k 2 i -> leads auto (S (S (S (S f)))) z (target auto k 2 i)).
  { intros f z0 H0. pose proof (loop_turn auto (S (S (S f))) z0 k 2 i H0 Hk Hd ltac:(lia)) as E. cbn [Z.eqb Pos.eqb] in E. cbv zeta in E.
    destruct H0 as (? & ? & ? & ? & ?). unfold target. cbn [Z.eqb Pos.eqb Z.leb Z.compare Pos.compare Pos.compare_cont andb].
    destruct (k =? 0) eqn:Ek; cbn [negb andb] in *; [|eapply leads_now; [exact E|done..]].
    pose proof (fun f z H => H3 f z H) as H3'. unfold target in H3'. rewrite Ek in H3'. eapply leads_steps; [| |exact E]; [by apply H3'|done]. }
  assert (s = 0 \/ s = 1 \/ s = 2 \/ s = 3 \/ s = 4) as [-> | [-> | [-> | [-> | ->]]]] by lia; [| |by apply H2|by apply H3|by apply H4].
  - pose proof (loop_turn auto 5 z k 0 i Hp Hk Hd ltac:(lia)) as E. destruct Hp as (? & ? & ? & ? & ?). eapply leads_now; [exact E|done..].
  - pose proof (loop_turn auto 5 z k 1 i Hp Hk Hd ltac:(lia)) as E. destruct Hp as (? & ? & ? & ? & ?). cbn [Z.eqb Pos.eqb] in E. cbv zeta in E.
    change (target auto k 1 i) with (if auto then (k * st, k, 1, other_inversion i) else target auto k 2 i).
    destruct auto eqn:Ea; [eapply leads_now; [exact E|done..]|]. refine (leads_steps _ 5 z _ _ (H2 1%nat _ _) _ E); clear E; done.
Qed.

(** What is tried in the [k]-th step, and in all of them: drift and inversion. *)
Definition tries_at (auto : bool) (i k : Z) : list (Z * Z) :=
  let i' := other_inversion i in
  if k =? 0 then (0, i) :: (if auto then [(0, i')] else [])
  else (k * st, i) :: (if auto then [(k * st, i'); (- (k * st), i'); (- (k * st), i)] else [(- (k * st), i)]).
Definition tries (auto : bool) (i : Z) : list (Z * Z) :=
  tries_at auto i 0 ++ flat_map (tries_at auto (if auto then other_inversion i else i)) (seqZ 1 (md / st)).
End search.

(** ** The turns of the thread *)

(** Deciding which states a known state belongs to. *)
Ltac bits :=
  repeat match goal with
  | |- context [negb (Z.land ?a ?b =? 0)] =>
      first [change (negb (Z.land a b =? 0)) with true | change (negb (Z.land a b =? 0)) with false]
  end; cbv iota; cbn [andb orb negb].

Section turns.
Context {D : Type} (ops : dvb_frontend_ops D) (HZ : Z) (md st : Z).
Context (Hst : 0 < st) (Hmd : 0 <= md) (Hov : md + st < 2 ^ 31).
Context (set : dtv_frontend_properties -> D -> Z * D) (rd : D -> Z * option Z * D).
Context (Hset : ops_set_frontend ops = Some set) (set_ok : forall c d, 0 <= (set c d).1).
Context (Hrd : ops_read_status ops = Some rd) (unlocked : forall d, Z.land (default 0 (rd d).1.2) FE_HAS_LOCK = 0).
Context (c0 : dtv_frontend_properties) (Hc0 : cache_ok c0).

Definition autoinversion : bool := (Z.land (ops_caps ops) FE_CAN_INVERSION_AUTO =? 0) && (c0 C_inversion =? INVERSION_AUTO).
(** The cache that the driver gets for a try. *)
Definition tuned (t : Z * Z) : dtv_frontend_properties :=
  let c := cset C_frequency (c0 C_frequency + t.1) c0 in if autoinversion then cset C_inversion t.2 c else c.
Lemma tuned_back t : cset C_inversion (c0 C_inversion) (cset C_frequency (c0 C_frequency) (tuned t)) = c0.
Proof.
  apply cache_eq; [|unfold tuned; by destruct autoinversion]. intros m. unfold tuned. destruct autoinversion; rewrite !cset_get; repeat case_decide; subst; try done; apply Hc0.
Qed.

Lemma autotune_run w fe k s i : fe_cache fe = c0 -> at_pos md st (fe_zz fe) k s i -> 0 <= k -> k * st <= md -> 0 <= s <= 4 ->
  let '(dr, k', s', i') := target md st autoinversion k s i in
  exists r fe', dvb_frontend_swzigzag_autotune ops w fe = Some (r, fe') /\ fe_cache fe' = c0 /\ tune_mode_flags fe' = tune_mode_flags fe /\
    z_state (fe_zz fe') = z_state (fe_zz fe) /\ started_auto_step (fe_zz fe') = started_auto_step (fe_zz fe) /\
    check_wrapped (fe_zz fe') = check_wrapped (fe_zz fe) /\
    if (k' =? started_auto_step (fe_zz fe)) && (s' =? 0) && w
    then r = 1 /\ fe_hw fe' = fe_hw fe /\ at_pos md st (fe_zz fe') k' s' i'
    else r = 0 /\ fe_hw fe' = (set (tuned (dr, i')) (fe_hw fe)).2 /\ at_pos md st (fe_zz fe') k' (s' + 1) i'.
Proof.
  intros Hc Hp Hk Hd Hs. destruct (loop_target md st Hst Hov autoinversion (fe_zz fe) k s i Hp Hk Hd Hs) as (z' & E & Hz & Ht).
  destruct (target md st autoinversion k s i) as [[[dr k'] s'] i'] eqn:Et. destruct Ht as (Hp' & Hdr). pose proof Hp' as (Ek & Es & Ei & Em & Est).
  destruct Hz as (G1 & G2 & _ & _ & G5 & _).
  unfold dvb_frontend_swzigzag_autotune. rewrite Hc. fold autoinversion. rewrite E. cbn [mbind option_bind]. rewrite Ek, Es, G2.
  destruct ((k' =? started_auto_step (fe_zz fe)) && (s' =? 0) && w) eqn:Ew.
  - exists 1, (with_zz z' fe). split_and!; done.
  - rewrite Hset, Hdr, Ei. pose proof (set_ok (tuned (dr, i')) (fe_hw fe)) as Hok. unfold tuned in Hok |- *. cbn [fst snd] in *.
    destruct (set _ _) as [err d] eqn:Eset. cbn [fst snd] in Hok |- *. rewrite (proj2 (Z.ltb_ge err 0)) by lia.
    eexists 0, _. split; [reflexivity|]. cbn [fe_cache with_cache with_zz fe_zz tune_mode_flags with_hw].
    split; [apply (tuned_back (dr, i'))|]. cbn [z_state set_steps started_auto_step check_wrapped]. split_and!; try done.
    + rewrite u32_small; [done|]. unfold target in Et. repeat case_match; simplify_eq; lia.
Qed.

Lemma note_unlocked s fe : Z.land s FE_HAS_LOCK = 0 ->
  fe_zz (note_status ops s fe) = fe_zz fe /\ fe_cache (note_status ops s fe) = fe_cache fe /\ fe_hw (note_status ops s fe) = fe_hw fe /\
  tune_mode_flags (note_status ops s fe) = tune_mode_flags fe.
Proof. unfold note_status, dvb_frontend_add_event. intros ->. by destruct (s =? fe_status fe). Qed.

(** Searching at a position; nothing has been found so far. *)
Definition searching (k s i : Z) (d : D) (fe : dvb_frontend D) : Prop :=
  fe_cache fe = c0 /\ Z.land (tune_mode_flags fe) FE_TUNE_MODE_ONESHOT = 0 /\ z_state (fe_zz fe) = FESTATE_TUNING_FAST /\
  started_auto_step (fe_zz fe) = 0 /\ check_wrapped (fe_zz fe) = 1 /\ at_pos md st (fe_zz fe) k s i /\ fe_hw fe = d.
Definition try_hw (t : Z * Z) (d : D) : D := (set (tuned t) (rd d).2).2.

Lemma in_st (fe : dvb_frontend D) v : z_state (fe_zz fe) = v -> forall b, in_state b fe = negb (Z.land v b =? 0).
Proof. unfold in_state. by intros ->. Qed.
(** The fast search from a position, where the first attempt of a request is not compared with it. *)
Lemma fast_run v s fe k p i : z_state (fe_zz fe) = v -> v = FESTATE_RETUNE \/ v = FESTATE_TUNING_FAST ->
  started_auto_step (fe_zz fe) = 0 -> check_wrapped (fe_zz fe) = (if v =? FESTATE_RETUNE then 0 else 1) ->
  fe_cache fe = c0 -> at_pos md st (fe_zz fe) k p i -> 0 <= k -> k * st <= md -> 0 <= p <= 4 ->
  Z.land (tune_mode_flags fe) FE_TUNE_MODE_ONESHOT = 0 ->
  let '(dr, k', s', i') := target md st autoinversion k p i in
  exists fe', fast_search ops HZ s fe = Some fe' /\
    if (k' =? 0) && (s' =? 0) && negb (v =? FESTATE_RETUNE)
    then fe_cache fe' = c0 /\ fe_hw fe' = fe_hw fe /\ z_state (fe_zz fe') = FESTATE_SEARCHING_SLOW /\
         tune_mode_flags fe' = tune_mode_flags fe /\ at_pos md st (fe_zz fe') k' s' i'
    else searching k' (s' + 1) i' (set (tuned (dr, i')) (fe_hw fe)).2 fe'.
Proof.
  intros Hz Hv Hs Hw Hc Hp Hk Hd Hpp Hf. unfold fast_search.
  assert (Hin : in_state FESTATE_SEARCHING_FAST fe || in_state FESTATE_RETUNE fe = true).
  { rewrite !(in_st fe v Hz). by destruct Hv as [-> | ->]. }
  rewrite Hin. set (fe1 := with_zz _ fe). set (w := negb (check_wrapped (fe_zz fe) =? 0)).
  pose proof (autotune_run w fe1 k p i Hc Hp Hk Hd Hpp) as Ha.
  destruct (target md st autoinversion k p i) as [[[dr k'] s'] i'] eqn:Et.
  destruct Ha as (r & fe2 & -> & Hc2 & Hf2 & Hz2 & Hs2 & Hw2 & Hr). cbn [mbind option_bind].
  change (fe_hw fe1) with (fe_hw fe) in Hr. change (z_state (fe_zz fe1)) with (z_state (fe_zz fe)) in Hz2.
  change (started_auto_step (fe_zz fe1)) with (started_auto_step (fe_zz fe)) in Hs2, Hr. rewrite Hs in Hs2, Hr. rewrite Hz in Hz2.
  assert (Ew : w = negb (v =? FESTATE_RETUNE)) by (subst w; rewrite Hw; by destruct Hv as [-> | ->]). rewrite Ew in Hr.
  destruct ((k' =? 0) && (s' =? 0) && negb (v =? FESTATE_RETUNE)) eqn:Eb; destruct Hr as (-> & Hh & Hp2).
  - eexists. split; [reflexivity|]. done.
  - cbn [Z.ltb Z.compare Z.eqb negb]. unfold slow_search. set (fe3 := with_zz (set_wrapped 1 (fe_zz fe2)) fe2).
    assert (Hz3 : z_state (fe_zz fe3) = v) by done. rewrite (in_st fe3 v Hz3).
    assert (Hsr : forall fe4 : dvb_frontend D, z_state (fe_zz fe4) = FESTATE_TUNING_FAST -> in_state FESTATE_SEARCHING_SLOW fe4 = false).
    { intros fe4 H4. by rewrite (in_st fe4 _ H4). }
    assert (Hok : forall fe4 : dvb_frontend D, z_state (fe_zz fe4) = FESTATE_TUNING_FAST -> fe_cache fe4 = fe_cache fe3 ->
      tune_mode_flags fe4 = tune_mode_flags fe3 -> started_auto_step (fe_zz fe4) = 0 -> check_wrapped (fe_zz fe4) = 1 ->
      at_pos md st (fe_zz fe4) k' (s' + 1) i' -> fe_hw fe4 = fe_hw fe3 -> searching k' (s' + 1) i' (set (tuned (dr, i')) (fe_hw fe)).2 fe4).
    { intros fe4 ? E1 E2 ? ? ? E3. rewrite <- Hh. split_and!; try done; [by rewrite E1|]. rewrite E2. change (tune_mode_flags fe3) with (tune_mode_flags fe2). by rewrite Hf2. }
    destruct Hv as [-> | ->]; bits.
    + rewrite Hsr by done. eexists. split; [reflexivity|]. by apply Hok.
    + rewrite Hsr by done. eexists. split; [reflexivity|]. by apply Hok.
Qed.
Lemma turn_first fe d i : fe_cache fe = c0 -> Z.land (tune_mode_flags fe) FE_TUNE_MODE_ONESHOT = 0 -> z_state (fe_zz fe) = FESTATE_RETUNE ->
  max_drift (fe_zz fe) = md -> step_size (fe_zz fe) = st -> z_inversion (fe_zz fe) = i -> fe_hw fe = d ->
  exists fe', dvb_frontend_swzigzag ops HZ fe = Some fe' /\ searching 0 1 i (set (tuned (0, i)) d).2 fe'.
Proof.
  intros Hc Hf Hz Hm Hs Hi Hd. unfold dvb_frontend_swzigzag, swzigzag_check, swzigzag_search. rewrite !(in_st fe 2 Hz), Hf. bits.
  set (fe1 := with_zz _ fe). pose proof (fast_run FESTATE_RETUNE 0 fe1 0 0 i Hz ltac:(by left) eq_refl eq_refl Hc) as H.
  destruct H as (fe' & E & H); [done|done|lia|lia|done|].
  exists fe'. cbn in H. rewrite <- Hd. done.
Qed.
Lemma turn_next fe d k p i : searching k p i d fe -> 0 <= k -> k * st <= md -> 0 <= p <= 4 ->
  let '(dr, k', s', i') := target md st autoinversion k p i in
  exists fe', dvb_frontend_swzigzag ops HZ fe = Some fe' /\
    if (k' =? 0) && (s' =? 0)
    then fe_cache fe' = c0 /\ fe_hw fe' = (rd d).2 /\ z_state (fe_zz fe') = FESTATE_SEARCHING_SLOW
    else searching k' (s' + 1) i' (try_hw (dr, i') d) fe'.
Proof.
  intros (Hc & Hf & Hz & Hs & Hw & Hp & Hd) Hk Hkd Hpp. unfold dvb_frontend_swzigzag. rewrite !(in_st fe 4 Hz), Hf. bits.
  unfold read_status. rewrite Hrd, Hd. pose proof (unlocked d) as Hu. destruct (rd d) as [[err s0] d1] eqn:Erd. cbn [fst snd] in Hu.
  set (s := default 0 s0) in *. destruct (note_unlocked s (with_hw d1 fe) Hu) as (N1 & N2 & N3 & N4).
  set (fe1 := note_status ops s (with_hw d1 fe)) in *. clearbody fe1.
  assert (Hz1 : z_state (fe_zz fe1) = 4) by (by rewrite N1).
  unfold swzigzag_check, swzigzag_search. rewrite !(in_st fe1 4 Hz1), Hu. bits. unfold try_hw. rewrite Erd. cbn [snd].
  pose proof (fast_run FESTATE_TUNING_FAST s fe1 k p i Hz1 ltac:(by right)) as H. rewrite N1, N2, N3, N4 in H. cbn [fe_zz fe_cache fe_hw with_hw tune_mode_flags] in H.
  specialize (H Hs Hw Hc Hp Hk Hkd Hpp Hf). destruct (target md st autoinversion k p i) as [[[dr k'] s'] i'].
  destruct H as (fe' & -> & H). exists fe'. split; [done|]. change (negb (FESTATE_TUNING_FAST =? FESTATE_RETUNE)) with true in H.
  rewrite andb_true_r in H. destruct ((k' =? 0) && (s' =? 0)); [|done]. by destruct H as (? & ? & ? & _).
Qed.

Fixpoint turns (n : nat) (fe : dvb_frontend D) : option (dvb_frontend D) :=
  match n with O => Some fe | S n => fe ← dvb_frontend_swzigzag ops HZ fe; turns n fe end.
Lemma turns_app n m fe fe1 : turns n fe = Some fe1 -> turns (n + m) fe = turns m fe1.
Proof.
  revert fe. induction n as [|n IH]; intros fe E; [by injection E as ->|]. cbn [turns Nat.add] in *. apply bind_Some in E as (fe' & -> & E). cbn [mbind option_bind]. by apply IH.
Qed.
Lemma turn_to fe d k p i dr k' s' i' : searching k p i d fe -> 0 <= k -> k * st <= md -> 0 <= p <= 4 ->
  target md st autoinversion k p i = (dr, k', s', i') -> (k' =? 0) && (s' =? 0) = false ->
  exists fe', turns 1 fe = Some fe' /\ searching k' (s' + 1) i' (try_hw (dr, i') d) fe'.
Proof.
  intros Hs Hk Hd Hp Et Hz. pose proof (turn_next fe d k p i Hs Hk Hd Hp) as H. rewrite Et, Hz in H. destruct H as (fe' & E & H).
  exists fe'. cbn [turns]. by rewrite E.
Qed.

(** From the end of a step to the end of the next one. *)
Definition ends (k p : Z) : Prop := 0 <= p <= 4 /\ k * st <= md /\ 0 <= k /\ forall i, target md st autoinversion k p i = target md st autoinversion k 4 i.
Lemma turns_snoc fe n fe1 fe2 : turns n fe = Some fe1 -> turns 1 fe1 = Some fe2 -> turns (S n) fe = Some fe2.
Proof. intros E1 E2. rewrite <- Nat.add_1_r. by rewrite (turns_app n 1 fe fe1 E1). Qed.
Definition inversion_ok (i : Z) : Prop := i = INVERSION_OFF \/ i = INVERSION_ON.
Lemma other_other i : inversion_ok i -> other_inversion (other_inversion i) = i.
Proof. by intros [-> | ->]. Qed.
Lemma other_ok i : inversion_ok (other_inversion i).
Proof. unfold other_inversion, inversion_ok. destruct (i =? INVERSION_OFF); auto. Qed.

Lemma turn_run fe d k p i : searching k p i d fe -> ends k p -> (k + 1) * st <= md -> inversion_ok i ->
  exists fe' p', turns (length (tries_at st autoinversion i (k + 1))) fe = Some fe' /\ ends (k + 1) p' /\
    searching (k + 1) p' i (fold_left (fun d t => try_hw t d) (tries_at st autoinversion i (k + 1)) d) fe'.
Proof.
  intros Hs (Hp & Hd & Hk & Ht) Hn Hi. assert (Hk1 : (k + 1 =? 0) = false) by (apply Z.eqb_neq; lia). unfold tries_at. rewrite Hk1.
  assert (T0 : target md st autoinversion k p i = ((k + 1) * st, k + 1, 0, i)).
  { rewrite Ht. unfold target. cbn [Z.eqb Pos.eqb Z.leb Z.compare Pos.compare Pos.compare_cont andb]. by rewrite (proj2 (Z.leb_le _ md)) by lia. }
  assert (Hz : forall s', (k + 1 =? 0) && (s' =? 0) = false) by (intros; by rewrite Hk1).
  assert (Hgo : forall fe d p j dr s' j', searching (k + 1) p j d fe -> 0 <= p <= 4 -> target md st autoinversion (k + 1) p j = (dr, k + 1, s', j') ->
    exists fe', turns 1 fe = Some fe' /\ searching (k + 1) (s' + 1) j' (try_hw (dr, j') d) fe').
  { intros. by eapply turn_to; [done|lia|lia|done|done|]. }
  destruct (turn_to fe d k p i _ _ _ _ Hs Hk Hd Hp T0 (Hz 0)) as (fe1 & E1 & S1). clear Ht T0. fold ((k + 1) * st).
  destruct autoinversion eqn:Ea.
  - destruct (Hgo fe1 _ 1 i ((k + 1) * st) 1 (other_inversion i) S1 ltac:(lia) eq_refl) as (fe2 & E2 & S2).
    destruct (Hgo fe2 _ 2 (other_inversion i) (- ((k + 1) * st)) 2 (other_inversion i) S2 ltac:(lia)) as (fe3 & E3 & S3).
    { unfold target. cbn [Z.eqb Pos.eqb Z.leb Z.compare Pos.compare Pos.compare_cont andb]. by rewrite Hk1. }
    destruct (Hgo fe3 _ 3 (other_inversion i) (- ((k + 1) * st)) 3 i S3 ltac:(lia)) as (fe4 & E4 & S4).
    { unfold target. cbn [Z.eqb Pos.eqb Z.leb Z.compare Pos.compare Pos.compare_cont andb]. rewrite Hk1. cbn [negb andb]. by rewrite other_other. }
    exists fe4, 4. split; [|split; [|exact S4]].
    + exact (turns_snoc _ _ _ _ (turns_snoc _ _ _ _ (turns_snoc _ _ _ _ E1 E2) E3) E4).
    + split_and!; try done; lia.
  - destruct (Hgo fe1 _ 1 i (- ((k + 1) * st)) 2 i S1 ltac:(lia)) as (fe2 & E2 & S2).
    { unfold target. cbn [Z.eqb Pos.eqb Z.leb Z.compare Pos.compare Pos.compare_cont andb]. by rewrite Hk1. }
    exists fe2, 3. split; [exact (turns_snoc _ _ _ _ E1 E2)|]. split; [|exact S2]. split_and!; try done; try lia.
    intros j. rewrite Ea. unfold target. cbn [Z.eqb Pos.eqb Z.leb Z.compare Pos.compare Pos.compare_cont andb]. by rewrite andb_false_r.
Qed.
Lemma steps_run n : forall fe d k p i, searching k p i d fe -> ends k p -> (k + Z.of_nat n) * st <= md -> inversion_ok i ->
  let l := flat_map (tries_at st autoinversion i) (seqZ (k + 1) (Z.of_nat n)) in
  exists fe' p', turns (length l) fe = Some fe' /\ ends (k + Z.of_nat n) p' /\
    searching (k + Z.of_nat n) p' i (fold_left (fun d t => try_hw t d) l d) fe'.
Proof.
  induction n as [|n IH]; intros fe d k p i Hs He Hn Hi.
  - cbn. exists fe, p. rewrite Z.add_0_r. done.
  - rewrite seqZ_cons by lia. cbn [flat_map]. assert (Hk : 0 <= k) by apply He.
    destruct (turn_run fe d k p i Hs He ltac:(nia) Hi) as (fe1 & p1 & E1 & He1 & S1).
    destruct (IH fe1 _ (k + 1) p1 i S1 He1 ltac:(lia) Hi) as (fe2 & p2 & E2 & He2 & S2).
    replace (Z.succ (k + 1)) with (k + 1 + 1) by lia. replace (Z.pred (Z.of_nat (S n))) with (Z.of_nat n) by lia.
    replace (k + Z.of_nat (S n)) with (k + 1 + Z.of_nat n) by lia. exists fe2, p2. split; [|split; [done|]].
    + rewrite length_app. by rewrite (turns_app _ _ _ _ E1).
    + by rewrite fold_left_app.
Qed.

(** What the driver has done after the tries; before each but the first its status is read. *)
Definition search_hw (l : list (Z * Z)) (d : D) : D :=
  match l with [] => d | t :: l => fold_left (fun d t => try_hw t d) l (set (tuned t) d).2 end.

Lemma search_hw_app l1 l2 d : l1 <> [] -> search_hw (l1 ++ l2) d = fold_left (fun d t => try_hw t d) l2 (search_hw l1 d).
Proof. destruct l1; [done|]. intros _. cbn [app search_hw]. apply fold_left_app. Qed.

Lemma last_step fe d p i : searching (md / st) p i d fe -> ends (md / st) p ->
  exists fe', turns 1 fe = Some fe' /\ fe_cache fe' = c0 /\ fe_hw fe' = (rd d).2 /\ z_state (fe_zz fe') = FESTATE_SEARCHING_SLOW.
Proof.
  intros Hs (Hp & Hd & Hk & Ht). pose proof (turn_next fe d _ p i Hs Hk Hd Hp) as H. rewrite Ht in H. unfold target in H.
  cbn [Z.eqb Pos.eqb Z.leb Z.compare Pos.compare Pos.compare_cont andb] in H. rewrite (proj2 (Z.leb_gt _ md)) in H by nia.
  destruct H as (fe' & E & H). exists fe'. cbn [turns]. by rewrite E.
Qed.
Lemma first_step fe d i : fe_cache fe = c0 -> Z.land (tune_mode_flags fe) FE_TUNE_MODE_ONESHOT = 0 -> z_state (fe_zz fe) = FESTATE_RETUNE ->
  max_drift (fe_zz fe) = md -> step_size (fe_zz fe) = st -> z_inversion (fe_zz fe) = i -> fe_hw fe = d -> inversion_ok i ->
  let l := tries_at st autoinversion i 0 in
  exists fe' p, turns (length l) fe = Some fe' /\ ends 0 p /\ searching 0 p (if autoinversion then other_inversion i else i) (search_hw l d) fe'.
Proof.
  intros Hc Hf Hz Hm Hs Hi Hd Hok. destruct (turn_first fe d i Hc Hf Hz Hm Hs Hi Hd) as (fe1 & E1 & S1).
  assert (T1 : turns 1 fe = Some fe1) by (cbn [turns]; by rewrite E1).
  unfold tries_at. cbn [Z.eqb]. destruct autoinversion eqn:Ea.
  - assert (Ht : target md st autoinversion 0 1 i = (0, 0, 1, other_inversion i)) by (by rewrite Ea).
    destruct (turn_to fe1 _ 0 1 i _ _ _ _ S1 ltac:(lia) ltac:(lia) ltac:(lia) Ht eq_refl) as (fe2 & E2 & S2).
    exists fe2, 2. split; [exact (turns_snoc _ _ _ _ T1 E2)|]. split; [|exact S2]. split_and!; try lia. intros j. by rewrite Ea.
  - exists fe1, 1. split; [exact T1|]. split; [|exact S1]. split_and!; try lia. intros j. by rewrite Ea.
Qed.
Lemma search_run fe i : fe_cache fe = c0 -> Z.land (tune_mode_flags fe) FE_TUNE_MODE_ONESHOT = 0 -> z_state (fe_zz fe) = FESTATE_RETUNE ->
  max_drift (fe_zz fe) = md -> step_size (fe_zz fe) = st -> z_inversion (fe_zz fe) = i -> inversion_ok i ->
  let l := tries md st autoinversion i in
  exists fe', turns (S (length l)) fe = Some fe' /\ z_state (fe_zz fe') = FESTATE_SEARCHING_SLOW /\ fe_cache fe' = c0 /\
    fe_hw fe' = (rd (search_hw l (fe_hw fe))).2.
Proof.
  intros Hc Hf Hz Hm Hs Hi Hok l. destruct (first_step fe _ i Hc Hf Hz Hm Hs Hi eq_refl Hok) as (fe1 & p1 & E1 & He1 & S1).
  set (j := if autoinversion then other_inversion i else i) in *.
  assert (Hj : inversion_ok j) by (subst j; destruct autoinversion; [apply other_ok|done]).
  pose proof (Z.div_pos md st ltac:(lia) ltac:(lia)) as Hq. pose proof (Z.mul_div_le md st Hst) as Hq2.
  destruct (steps_run (Z.to_nat (md / st)) fe1 _ 0 p1 j S1 He1 ltac:(rewrite Z2Nat.id by lia; lia) Hj) as (fe2 & p2 & E2 & He2 & S2).
  rewrite Z2Nat.id in E2, He2, S2 by lia. rewrite Z.add_0_l in *.
  destruct (last_step fe2 _ p2 j S2 He2) as (fe3 & E3 & Hc3 & Hh3 & Hz3). exists fe3. split; [|split; [done|split; [done|]]].
  - subst l. unfold tries. fold j. rewrite length_app. eapply turns_snoc; [|exact E3]. by rewrite (turns_app _ _ _ _ E1).
  - rewrite Hh3. do 2 f_equal. subst l. unfold tries. fold j. by rewrite search_hw_app.
Qed.
End turns.

(** ** All of them, and each once *)

Lemma NoDup_flat_map {A} (f : Z -> list A) (g : A -> Z) l :
  (forall k x, k ∈ l -> x ∈ f k -> g x = k) -> (forall k, k ∈ l -> NoDup (f k)) -> NoDup l -> NoDup (flat_map f l).
Proof.
  intros Hg Hf. induction 1 as [|k l Hk Hl IH]; cbn [flat_map]; [apply NoDup_nil_2|]. apply list.NoDup_app. split_and!.
  - apply Hf. by left.
  - intros x Hx Hin. apply list_elem_of_In, in_flat_map in Hin as (k' & Hk' & Hx'). apply list_elem_of_In in Hk', Hx'.
    pose proof (Hg k x ltac:(by left) Hx). pose proof (Hg k' x ltac:(by right) Hx'). by subst.
  - apply IH; [intros; apply Hg; [by right|done]|intros; apply Hf; by right].
Qed.
Lemma tries_at_elem st auto i k drift j : inversion_ok i -> 0 <= k ->
  (drift, j) ∈ tries_at st auto i k <-> (drift = k * st \/ drift = - (k * st)) /\ (if auto then inversion_ok j else j = i).
Proof.
  intros Hi Hk. unfold tries_at.
  assert (Hij : auto = true -> (j = i \/ j = other_inversion i) <-> inversion_ok j).
  { intros _. destruct Hi as [-> | ->]; unfold inversion_ok, other_inversion; cbn; tauto. }
  assert (Hp : forall a b c d : Z, (a, b) = (c, d) <-> a = c /\ b = d) by (intros; split; [by intros [= -> ->]|by intros [-> ->]]).
  destruct (Z.eqb_spec k 0) as [->|Hne]; destruct auto; rewrite ?elem_of_cons, ?elem_of_nil, ?Hp; try rewrite <- Hij by done;
    rewrite ?Z.mul_0_l, ?Z.opp_0; clear; tauto.
Qed.
Lemma tries_at_nodup st auto i k : 0 < st -> inversion_ok i -> 0 <= k -> NoDup (tries_at st auto i k).
Proof.
  intros Hst Hi Hk. unfold tries_at. assert (other_inversion i <> i) by (destruct Hi as [-> | ->]; done).
  destruct (Z.eqb_spec k 0) as [->|Hne]; [|assert (0 < k * st) by nia]; destruct auto;
    repeat (apply list.NoDup_cons; split; [rewrite ?elem_of_cons, ?elem_of_nil; intros ?; destruct_or?; simplify_eq; try lia; congruence|]);
    apply NoDup_nil_2.
Qed.

Section all_tries.
Context (md st i : Z) (auto : bool) (Hst : 0 < st) (Hmd : 0 <= md) (Hi : inversion_ok i).
Let j := if auto then other_inversion i else i.
Lemma next_inversion : inversion_ok j.
Proof. subst j. destruct auto; [apply other_ok|done]. Qed.
Lemma tries_elem drift i' : (drift, i') ∈ tries md st auto i <->
  (exists n, - (md / st) <= n <= md / st /\ drift = n * st) /\ (if auto then inversion_ok i' else i' = i).
Proof.
  pose proof next_inversion as Hj. pose proof (Z.div_pos md st Hmd Hst) as Hq.
  assert (Hsame : (if auto then inversion_ok i' else i' = j) <-> (if auto then inversion_ok i' else i' = i)) by (subst j; by destruct auto).
  unfold tries. fold j. rewrite elem_of_app, tries_at_elem by (done || lia). rewrite list_elem_of_In, in_flat_map. split.
  - intros [[Hd H]|(k & Hk & H)]; [split; [exists 0; split; [lia|destruct Hd; lia]|done]|].
    apply list_elem_of_In, elem_of_seqZ in Hk. apply list_elem_of_In, tries_at_elem in H as [Hd H]; [|done|lia].
    split; [|by apply Hsame]. destruct Hd as [-> | ->]; [exists k|exists (- k)]; split; lia.
  - intros [(n & Hn & ->) H]. destruct (decide (n = 0)) as [->|Hne]; [left; split; [by left|done]|right].
    exists (Z.abs n). split; [apply list_elem_of_In, elem_of_seqZ; lia|]. apply list_elem_of_In, tries_at_elem; [done|lia|].
    split; [|by apply Hsame]. destruct (Z.abs_spec n) as [[? ->]|[? ->]]; [left|right]; lia.
Qed.
Lemma tries_nodup : NoDup (tries md st auto i).
Proof.
  pose proof next_inversion as Hj. unfold tries. fold j. apply list.NoDup_app. split_and!.
  - by apply tries_at_nodup.
  - intros [d i'] H Hin. apply tries_at_elem in H as [Hd _]; [|done|lia]. apply list_elem_of_In, in_flat_map in Hin as (k & Hk & Hin).
    apply list_elem_of_In, elem_of_seqZ in Hk. apply list_elem_of_In, tries_at_elem in Hin as [Hd' _]; [|done|lia]. nia.
  - apply (NoDup_flat_map _ (fun x => Z.abs x.1 / st)).
    + intros k [d i'] Hk H. apply elem_of_seqZ in Hk. apply tries_at_elem in H as [Hd _]; [|done|lia]. cbn [fst].
      replace (Z.abs d) with (k * st) by (destruct Hd; nia). by apply Z.div_mul; lia.
    + intros k Hk. apply elem_of_seqZ in Hk. apply tries_at_nodup; [done|done|lia].
    + apply NoDup_seqZ.
Qed.
End all_tries.

(** C18: The search for a carrier with a positive step size, and a maximal drift that is not negative, tries each frequency of its range with each inversion
    once, and ends.  Whatever the driver does, as long as it takes what it is given and reports no lock: from a request on, one turn of the thread per try, it
    is given the frequency of the request with every multiple of the step size up to the maximal drift, in both directions, each of them with both
    inversions when the core has to find the inversion and with the one of the request otherwise.  The turn after
    the last of them changes to the slow search, and the cache is as it was. *)
Theorem dvb_frontend_search_covers {D} (ops : dvb_frontend_ops D) HZ set rd (fe : dvb_frontend D) :
  ops_set_frontend ops = Some set -> (forall c d, 0 <= (set c d).1) ->
  ops_read_status ops = Some rd -> (forall d, Z.land (default 0 (rd d).1.2) FE_HAS_LOCK = 0) ->
  let c := fe_cache fe in let z := fe_zz fe in let auto := autoinversion ops c in
  cache_ok c -> Z.land (tune_mode_flags fe) FE_TUNE_MODE_ONESHOT = 0 -> z_state z = FESTATE_RETUNE ->
  0 < step_size z -> 0 <= max_drift z -> max_drift z + step_size z < 2 ^ 31 -> inversion_ok (z_inversion z) ->
  exists l fe', turns ops HZ (S (length l)) fe = Some fe' /\ z_state (fe_zz fe') = FESTATE_SEARCHING_SLOW /\ fe_cache fe' = c /\
    fe_hw fe' = (rd (search_hw ops set rd c l (fe_hw fe))).2 /\ NoDup l /\
    forall drift i, (drift, i) ∈ l <->
      (exists n, - (max_drift z / step_size z) <= n <= max_drift z / step_size z /\ drift = n * step_size z) /\
      (if auto then inversion_ok i else i = z_inversion z).
Proof.
  intros Hset Hok Hrd Hu c z auto Hc Hf Hz Hst Hmd Hov Hi.
  exists (tries (max_drift z) (step_size z) auto (z_inversion z)).
  destruct (search_run ops HZ (max_drift z) (step_size z) Hst Hmd Hov set rd Hset Hok Hrd Hu c Hc fe (z_inversion z)) as (fe' & E & H1 & H2 & H3); try done.
  exists fe'. split; [exact E|]. split_and!; [done..|by apply tries_nodup|]. intros drift i. by apply tries_elem.
Qed.

(** A driver without a lock that remembers what it was given. *)
Definition demo_set (c : dtv_frontend_properties) (d : list (Z * Z)) : Z * list (Z * Z) := (0, d ++ [(c C_frequency, c C_inversion)]).
Definition demo_read {A} (d : A) : Z * option Z * A := (0, Some 3, d).
Definition demo_fe_ops : dvb_frontend_ops (list (Z * Z)) :=
  FeOps 0 0 0 0 0 0 0 0 [SYS_DVBS] (fun d => d) (Some demo_set) None
    (Some (@demo_read _)) None None None None None None None None None.
Definition demo_events : dvb_fe_events := FeEvents (replicate 8 (FeEvent 0 (FeParams 0 0 (replicate 7 0)))) 0 0 false.
Definition demo_fe : dvb_frontend (list (Z * Z)) :=
  Fe (csets [(C_frequency, 1000); (C_inversion, INVERSION_AUTO)] (Props (fun _ => 0) []))
    (Zigzag FESTATE_RETUNE 0 INVERSION_OFF 0 0 0 5 7 5 0 0 0) demo_events (FeParams 0 0 (replicate 7 0)) 0 0 (-1) (-1) 0 false false [].
Lemma demo_cache_ok : cache_ok (fe_cache demo_fe).
Proof. apply cset_ok, cset_ok. by intros []. Qed.
Lemma dvb_frontend_search_covers_witness :
  let c := fe_cache demo_fe in
  exists l fe', turns demo_fe_ops 100 (S (length l)) demo_fe = Some fe' /\ z_state (fe_zz fe') = FESTATE_SEARCHING_SLOW /\ fe_cache fe' = c /\
    fe_hw fe' = (0, Some 3, search_hw demo_fe_ops demo_set (@demo_read _) c l []).2 /\
    NoDup l /\ forall drift i, (drift, i) ∈ l <-> (exists n, -1 <= n <= 1 /\ drift = n * 5) /\ inversion_ok i.
Proof.
  apply (dvb_frontend_search_covers demo_fe_ops 100 demo_set (@demo_read _) demo_fe);
    try done.
  - exact demo_cache_ok.
  - by left.
Defined.
(** What it was given, in order. *)
Example search_order :
  (fe_hw <$> turns demo_fe_ops 100 7 demo_fe) =
    Some [(1000, 0); (1000, 1); (1005, 1); (1005, 0); (995, 0); (995, 1)].
Proof. by vm_compute. Qed.
(** A driver that refuses a frequency leaves it in the cache. *)
Example refused_frequency_stays :
  let ops := FeOps 0 0 0 0 0 0 0 0 [SYS_DVBS] (fun d : unit => d) (Some (fun (c : dtv_frontend_properties) d => (if c C_frequency =? 1000 then 0 else - EINVAL, d))) None
    (Some (@demo_read _)) None None None None None None None None None in
  let fe := Fe (cset C_frequency 1000 (Props (fun _ => 0) [])) (fe_zz demo_fe) demo_events (FeParams 0 0 []) 0 0 0 0 0 false false tt in
  (fun fe => (z_state (fe_zz fe), fe_cache fe C_frequency)) <$> turns ops 100 2 fe = Some (FESTATE_ERROR, 1005).
Proof. by vm_compute. Qed.
(** With step size 0, the default for the systems the code has no other for ("no zigzag"), no step is outside the
    range: the fast search gives the driver the same frequency again and again and does not end. *)
Definition no_zigzag_fe : dvb_frontend (list (Z * Z)) :=
  Fe (csets [(C_frequency, 1000); (C_inversion, INVERSION_OFF)] (Props (fun _ => 0) []))
    (Zigzag FESTATE_RETUNE 0 INVERSION_OFF 0 0 0 5 0 0 0 0 0) demo_events (FeParams 0 0 (replicate 7 0)) 0 0 (-1) (-1) 0 false false [].
Example search_without_zigzag :
  (fun fe => (z_state (fe_zz fe), fe_hw fe)) <$> turns demo_fe_ops 100 100 no_zigzag_fe =
    Some (FESTATE_TUNING_FAST, replicate 100 (1000, 0)).
Proof. by vm_compute. Qed.
