(* ===== verification/DvbFrontendStates.v ===== *)
(** * DvbFrontendStates: the states of the front end, and its events

    Every turn of the software search ends, whatever the driver answers, moves the state of the front end along
    its state machine and keeps the measure of quality and the delay in their bounds; and the queue of
    events keeps the newest ones. *)

From S2P Require Import Prelude DvbFrontend DvbFrontendTune.

(** ** The loop of the search always ends *)

Definition next_sub (s : Z) : Z := if decide (1 <= s <= 3) then s + 1 else 0.
Lemma loop_step f auto z :
  (exists z', autotune_loop (S f) auto z = Some z' /\ same_rest z z') \/
  auto_sub_step z <> 0 /\ exists z', autotune_loop (S f) auto z = autotune_loop f auto z' /\ same_rest z z' /\ auto_sub_step z' = next_sub (auto_sub_step z).
Proof.
  cbn [autotune_loop]. set (z1 := set_drift _ z). destruct (max_drift z1 <? u32 (lnb_drift z1)) eqn:Ew.
  { left. eexists. split; [reflexivity|done]. }
  change (auto_sub_step z1) with (auto_sub_step z). unfold next_sub.
  destruct (Z.eqb_spec (auto_sub_step z) 0); [left; eexists; split; [reflexivity|done]|].
  destruct (Z.eqb_spec (auto_sub_step z) 1) as [->|]; [destruct auto|].
  { left. eexists. split; [reflexivity|done]. }
  { right. split; [done|]. eexists. split; [reflexivity|done]. }
  destruct (Z.eqb_spec (auto_sub_step z) 2) as [->|]; [destruct (lnb_drift z1 =? 0)|].
  { right. split; [done|]. eexists. split; [reflexivity|done]. }
  { left. eexists. split; [reflexivity|done]. }
  destruct (Z.eqb_spec (auto_sub_step z) 3) as [->|]; [destruct (lnb_drift z1 =? 0), auto|].
  1, 2, 4: right; split; [done|]; eexists; split; [reflexivity|done].
  { left. eexists. split; [reflexivity|done]. }
  right. split; [done|]. eexists. split; [reflexivity|]. split; [done|]. rewrite decide_False by lia. done.
Qed.
Lemma same_rest_trans z1 z2 z3 : same_rest z1 z2 -> same_rest z2 z3 -> same_rest z1 z3.
Proof. unfold same_rest. intros H1 H2. destruct_and?. split_and!; congruence. Qed.
Lemma autotune_total auto z : exists z', autotune_loop 6 auto z = Some z' /\ same_rest z z'.
Proof.
  assert (Hstep : forall n s, (forall z, auto_sub_step z = next_sub s -> exists z', autotune_loop n auto z = Some z' /\ same_rest z z') ->
    forall z, auto_sub_step z = s -> exists z', autotune_loop (S n) auto z = Some z' /\ same_rest z z').
  { intros n s IH z0 Hs. destruct (loop_step n auto z0) as [H|(_ & z1 & E & Hr & H1)]; [done|].
    destruct (IH z1) as (z2 & E2 & H2); [by rewrite H1, Hs|]. exists z2. split; [by rewrite E|]. by eapply same_rest_trans. }
  assert (H0 : forall n z, auto_sub_step z = 0 -> exists z', autotune_loop (S n) auto z = Some z' /\ same_rest z z').
  { intros n z0 Hs. destruct (loop_step n auto z0) as [H|(H & _)]; done. }
  assert (H4 : forall n s, ~ 1 <= s <= 3 -> forall z, auto_sub_step z = s -> exists z', autotune_loop (S (S n)) auto z = Some z' /\ same_rest z z').
  { intros n s Hs. apply Hstep. unfold next_sub. rewrite decide_False by done. apply H0. }
  destruct (decide (1 <= auto_sub_step z <= 3)) as [Hs|Hs]; [|by apply (H4 4%nat (auto_sub_step z))].
  assert (H3 : forall n z, auto_sub_step z = 3 -> exists z', autotune_loop (3 + n) auto z = Some z' /\ same_rest z z').
  { intros n. apply (Hstep (S (S n)) 3). change (next_sub 3) with 4. apply H4. lia. }
  assert (H2 : forall n z, auto_sub_step z = 2 -> exists z', autotune_loop (4 + n) auto z = Some z' /\ same_rest z z').
  { intros n. apply (Hstep (3 + n)%nat 2). change (next_sub 2) with 3. apply H3. }
  assert (H1 : forall n z, auto_sub_step z = 1 -> exists z', autotune_loop (5 + n) auto z = Some z' /\ same_rest z z').
  { intros n. apply (Hstep (4 + n)%nat 1). change (next_sub 1) with 2. apply H2. }
  assert (auto_sub_step z = 1 \/ auto_sub_step z = 2 \/ auto_sub_step z = 3) as [H | [H | H]] by lia.
  - by apply (H1 1%nat).
  - by apply (H2 2%nat).
  - by apply (H3 3%nat).
Qed.

(** A case for each member of a list. *)
Ltac listed :=
  repeat match goal with
  | H : _ ∈ _ :: _ |- _ => apply elem_of_cons in H; destruct H as [H|H]
  | H : _ ∈ [] |- _ => by apply elem_of_nil in H
  end.

(** ** The state machine *)

(** A turn with a status of the driver that says locked or not; [held] is whether the front end is left alone when it
    has lost its lock, and [refuses] whether the driver may refuse what it is given. *)
Inductive fe_turn (refuses : Prop) (locked held : bool) : Z -> Z -> Prop :=
| TurnIdle : fe_turn refuses locked held FESTATE_IDLE FESTATE_IDLE
| TurnError : fe_turn refuses locked held FESTATE_ERROR FESTATE_ERROR
| TurnRetune : fe_turn refuses locked held FESTATE_RETUNE FESTATE_TUNING_FAST
| TurnLock st : locked = true -> st ∈ [FESTATE_TUNING_FAST; FESTATE_ZIGZAG_FAST; FESTATE_SEARCHING_SLOW; FESTATE_DISEQC; FESTATE_TUNED] ->
    fe_turn refuses locked held st FESTATE_TUNED
| TurnLost : locked = false -> fe_turn refuses locked held FESTATE_TUNED FESTATE_ZIGZAG_FAST
| TurnDiseqc : locked = false -> fe_turn refuses locked held FESTATE_DISEQC FESTATE_DISEQC
| TurnSearch st : locked = false -> st ∈ [FESTATE_TUNING_FAST; FESTATE_ZIGZAG_FAST; FESTATE_SEARCHING_SLOW] -> fe_turn refuses locked held st st
| TurnSlow st : locked = false -> st = FESTATE_TUNING_FAST \/ st = FESTATE_ZIGZAG_FAST /\ held = false -> fe_turn refuses locked held st FESTATE_SEARCHING_SLOW
| TurnRefused st : refuses -> locked = false \/ st = FESTATE_RETUNE ->
    st = FESTATE_RETUNE \/ st = FESTATE_TUNING_FAST \/ st ∈ [FESTATE_TUNED; FESTATE_ZIGZAG_FAST; FESTATE_SEARCHING_SLOW] /\ held = false ->
    fe_turn refuses locked held st FESTATE_ERROR.

Lemma turn_error R locked h v' : fe_turn R locked h FESTATE_ERROR v' -> v' = FESTATE_ERROR.
Proof.
  intros H. inversion H as [| | |? ? Hs| | |? ? Hs|? ? Hs|? ? ? Hs]; subst; try done; rewrite ?elem_of_cons, ?elem_of_nil in Hs;
    repeat (destruct Hs as [Hs|Hs]); try done; by destruct Hs as [Hs _]; rewrite ?elem_of_cons, ?elem_of_nil in Hs; repeat (destruct Hs as [Hs|Hs]).
Qed.

Definition fe_states : list Z :=
  [FESTATE_IDLE; FESTATE_RETUNE; FESTATE_TUNING_FAST; FESTATE_TUNED; FESTATE_ZIGZAG_FAST; FESTATE_SEARCHING_SLOW; FESTATE_DISEQC; FESTATE_ERROR].

Lemma turn_states R locked h v v' : fe_turn R locked h v v' -> v' ∈ fe_states.
Proof.
  unfold fe_states. intros H. inversion H as [| | |? ? Hs| | |? ? Hs|? ? Hs|? ? ? Hs]; subst; rewrite ?elem_of_cons; auto 10.
  listed; subst; auto 10.
Qed.

Section machine.
Context {D : Type} (ops : dvb_frontend_ops D) (HZ : Z) (HHZ : 0 <= HZ).
Implicit Type fe : dvb_frontend D.

(** The measure of quality stays between 0 and 256, and the delay, if it changes, becomes three seconds or what the
    quality adds to the least delay, a second at most. *)
Definition paced (z z' : zigzag) : Prop :=
  0 <= quality z' <= 256 /\ min_delay z' = min_delay z /\ max_drift z' = max_drift z /\
  (delay z' = delay z \/ delay z' = u32 (3 * HZ) \/ min_delay z <= delay z' <= min_delay z + HZ).
Definition can_pace (z : zigzag) : Prop := 0 <= quality z <= 256 /\ 0 <= min_delay z /\ min_delay z + HZ < 2 ^ 32.

Lemma pace_update locked z : can_pace z -> paced z (dvb_frontend_swzigzag_update_delay HZ locked z) /\ can_pace (dvb_frontend_swzigzag_update_delay HZ locked z).
Proof.
  intros (Hq & Hm & Hh). unfold dvb_frontend_swzigzag_update_delay. set (q := if locked then _ else _).
  assert (H : 0 <= q <= 256) by (subst q; destruct locked; rewrite Z.quot_div_nonneg by lia; lia).
  clearbody q. assert (Hq2 : 0 <= (q - 128) * (q - 128) <= 16384).
  { split; [apply Z.square_nonneg|]. pose proof (Z.mul_nonneg_nonneg (256 - q) q ltac:(lia) ltac:(lia)). lia. }
  assert (Hp : 0 <= Z.quot ((q - 128) * (q - 128) * HZ) (128 * 128) <= HZ).
  { rewrite Z.quot_div_nonneg by nia. split; [apply Z.div_pos; nia|]. apply Z.div_le_upper_bound; nia. }
  split; (split; [done|]); cbn [min_delay max_drift delay set_delay]; [|lia]. split; [done|]. split; [done|]. right. right. rewrite u32_small by lia. lia.
Qed.
Lemma paced_refl z : can_pace z -> paced z z.
Proof. intros [H _]. split_and!; try lia; auto. Qed.
Lemma paced_trans z1 z2 z3 : paced z1 z2 -> paced z2 z3 -> paced z1 z3.
Proof. unfold paced. intros (H1 & H2 & H3 & H4) (G1 & G2 & G3 & G4). rewrite H2, H3 in *. split_and!; try lia. Qed.
Lemma paced_can z z' : can_pace z -> paced z z' -> can_pace z'.
Proof. intros (_ & H1 & H2) (H & E & _). split; [done|]. by rewrite E. Qed.

Definition refuses : Prop := exists set c d, ops_set_frontend ops = Some set /\ (set c d).1 < 0.
(** What a try leaves, whatever the driver answers. *)
Definition tried (w : bool) (fe fe' : dvb_frontend D) (r : Z) : Prop :=
  let z := fe_zz fe in let z' := fe_zz fe' in
  min_delay z' = min_delay z /\ max_drift z' = max_drift z /\ quality z' = quality z /\ delay z' = delay z /\
  (r = 0 /\ z_state z' = z_state z \/ r = 1 /\ w = true /\ z_state z' = z_state z \/ r < 0 /\ z_state z' = FESTATE_ERROR /\ refuses).
Lemma loop_drift n auto : forall z z', autotune_loop n auto z = Some z' -> max_drift z' = max_drift z.
Proof.
  induction n as [|n IH]; intros z z' E; [done|]. cbn [autotune_loop] in E.
  repeat (case_match; try (by simplify_eq)); by apply IH in E.
Qed.
Lemma autotune_any w fe : exists r fe', dvb_frontend_swzigzag_autotune ops w fe = Some (r, fe') /\ tried w fe fe' r.
Proof.
  unfold dvb_frontend_swzigzag_autotune. set (auto := _ && _). destruct (autotune_total auto (fe_zz fe)) as (z & E & H1 & H2 & H3 & H4 & H5 & H6).
  pose proof (loop_drift _ _ _ _ E) as H7. rewrite E. cbn [mbind option_bind]. unfold tried.
  destruct (_ && _ && w) eqn:Ew.
  - eexists _, _. split; [reflexivity|]. cbn [fe_zz with_zz]. apply andb_true_iff in Ew as [_ ->]. split_and!; try done. right. by left.
  - set (o := if ops_set_frontend ops is Some set then _ else _).
    assert (Hr : o.1 < 0 -> refuses) by (subst o; destruct (ops_set_frontend ops) as [set|] eqn:Eset; [intros ?; by eexists set, _, _|done]).
    clearbody o. destruct o as [err d]. destruct (Z.ltb_spec err 0); eexists _, _; (split; [reflexivity|]);
      cbn [fe_zz with_zz with_cache with_hw min_delay max_drift quality delay z_state set_state set_steps]; split_and!; auto 8.
Qed.

Lemma tried_paced w fe fe' r : tried w fe fe' r -> can_pace (fe_zz fe) -> paced (fe_zz fe) (fe_zz fe').
Proof. intros (E1 & E2 & E3 & E4 & _) (H & _). split_and!; try lia. Qed.
Definition ends_in (fe : dvb_frontend D) (o : option (dvb_frontend D)) (P : Z -> Prop) : Prop :=
  exists fe', o = Some fe' /\ paced (fe_zz fe) (fe_zz fe') /\ P (z_state (fe_zz fe')).
Lemma ends_paced fe fe1 o P : paced (fe_zz fe) (fe_zz fe1) -> ends_in fe1 o P -> ends_in fe o P.
Proof. intros Hp (fe' & E & Hp' & H). exists fe'. split; [done|]. split; [by eapply paced_trans|done]. Qed.
Lemma turn_ends fe fe' (P : Z -> Prop) : paced (fe_zz fe) (fe_zz fe') -> P (z_state (fe_zz fe')) -> ends_in fe (Some fe') P.
Proof. intros. by exists fe'. Qed.
Lemma ends_weaken fe o (P Q : Z -> Prop) : ends_in fe o P -> (forall v, P v -> Q v) -> ends_in fe o Q.
Proof. intros (fe' & E & Hp & H) HPQ. exists fe'. auto. Qed.

Lemma slow_none s fe : in_state FESTATE_SEARCHING_SLOW fe = false -> slow_search ops HZ s fe = Some fe.
Proof. unfold slow_search. by intros ->. Qed.
Lemma slow_any s fe : can_pace (fe_zz fe) -> z_state (fe_zz fe) = FESTATE_SEARCHING_SLOW ->
  ends_in fe (slow_search ops HZ s fe) (fun v => v = FESTATE_SEARCHING_SLOW \/ v = FESTATE_ERROR /\ refuses).
Proof.
  intros Hp Hz. unfold slow_search. rewrite (in_st fe _ Hz). bits. destruct (pace_update (negb (Z.land s FE_HAS_LOCK =? 0)) (fe_zz fe) Hp) as [Hp1 Hp2].
  apply (ends_paced _ (update_delay HZ s fe)); [exact Hp1|].
  destruct (autotune_any false (update_delay HZ s fe)) as (r & fe' & -> & Ht). apply turn_ends; [by eapply tried_paced|].
  destruct Ht as (_ & _ & _ & _ & [[_ Hr]|[(_ & Hw & _)|(_ & Hr & Href)]]); [left; by transitivity (z_state (fe_zz (update_delay HZ s fe)))|done|by right].
Qed.
Lemma fast_any s fe v : can_pace (fe_zz fe) -> z_state (fe_zz fe) = v -> v ∈ [FESTATE_RETUNE; FESTATE_TUNING_FAST; FESTATE_ZIGZAG_FAST] ->
  ends_in fe (fast_search ops HZ s fe) (fun v' => v' = (if v =? FESTATE_RETUNE then FESTATE_TUNING_FAST else v) \/
    v' = FESTATE_ERROR /\ refuses \/ v' = FESTATE_SEARCHING_SLOW /\ check_wrapped (fe_zz fe) <> 0).
Proof.
  intros Hp Hz Hv. unfold fast_search.
  assert (Hin : in_state FESTATE_SEARCHING_FAST fe || in_state FESTATE_RETUNE fe = true).
  { rewrite !(in_st fe v Hz). by repeat (apply elem_of_cons in Hv as [-> | Hv]; [done|]); apply elem_of_nil in Hv. }
  rewrite Hin. set (fe1 := with_zz _ fe).
  assert (Hp1 : paced (fe_zz fe) (fe_zz fe1)) by (destruct Hp as (? & ? & ?); unfold paced; subst fe1; cbn [fe_zz with_zz quality min_delay max_drift delay set_delay]; lia).
  assert (Hc1 : can_pace (fe_zz fe1)) by (by eapply paced_can).
  destruct (autotune_any (negb (check_wrapped (fe_zz fe) =? 0)) fe1) as (r & fe2 & -> & Ht). pose proof (tried_paced _ _ _ _ Ht Hc1) as Hp2.
  pose proof (paced_trans _ _ _ Hp1 Hp2) as Hp3. cbn [mbind option_bind].
  destruct Ht as (_ & _ & _ & _ & [[-> Hr]|[(-> & Hw & Hr)|(Hr0 & Hr & Href)]]).
  - cbn [Z.ltb Z.compare Z.eqb negb]. set (fe3 := with_zz (set_wrapped 1 (fe_zz fe2)) fe2).
    assert (Hz3 : z_state (fe_zz fe3) = v) by (change (z_state (fe_zz fe2) = v); by rewrite Hr).
    rewrite (in_st fe3 v Hz3). set (fe4 := if negb (Z.land v FESTATE_RETUNE =? 0) then with_zz _ fe3 else fe3).
    assert (H4 : z_state (fe_zz fe4) = (if v =? FESTATE_RETUNE then FESTATE_TUNING_FAST else v) /\ paced (fe_zz fe2) (fe_zz fe4)).
    { pose proof (paced_refl (fe_zz fe2) ltac:(by eapply paced_can)) as Hp4. subst fe4.
      repeat (apply elem_of_cons in Hv as [-> | Hv]; [bits; done|]); by apply elem_of_nil in Hv. }
    rewrite slow_none; [apply turn_ends; [by apply (paced_trans _ (fe_zz fe2)), H4|left; apply H4]|]. rewrite (in_st fe4 _ (proj1 H4)).
    by repeat (apply elem_of_cons in Hv as [-> | Hv]; [done|]); apply elem_of_nil in Hv.
  - cbn [Z.ltb Z.compare Z.eqb Pos.eqb negb]. apply turn_ends; [exact Hp3|]. right. right. split; [done|].
    intros E. rewrite E in Hw. done.
  - rewrite (proj2 (Z.ltb_lt r 0)) by lia. apply turn_ends; [exact Hp3|]. by right; left.
Qed.

Definition held fe : bool := negb (Z.land (ops_caps ops) FE_CAN_RECOVER =? 0) && (max_drift (fe_zz fe) =? 0).
Definition searched (h : bool) (v w : Z) (v' : Z) : Prop :=
  fe_turn refuses false h v v' /\ (w = 0 -> v = FESTATE_ZIGZAG_FAST -> v' = FESTATE_ZIGZAG_FAST \/ v' = FESTATE_ERROR).
Lemma waits s fe P : can_pace (fe_zz fe) -> P (z_state (fe_zz fe)) -> ends_in fe (Some (update_delay HZ s fe)) P.
Proof. intros Hp H. apply turn_ends; [by apply pace_update|done]. Qed.
Ltac elems := rewrite ?elem_of_cons; auto 10.
Lemma search_any s fe v : can_pace (fe_zz fe) -> z_state (fe_zz fe) = v ->
  v ∈ [FESTATE_RETUNE; FESTATE_TUNING_FAST; FESTATE_ZIGZAG_FAST; FESTATE_SEARCHING_SLOW; FESTATE_DISEQC; FESTATE_ERROR] ->
  ends_in fe (swzigzag_search ops HZ s fe) (searched (held fe) v (check_wrapped (fe_zz fe))).
Proof.
  intros Hp Hz Hv. unfold swzigzag_search. rewrite <- andb_assoc. fold (held fe). rewrite !(in_st fe v Hz).
  repeat (apply elem_of_cons in Hv as [Hv|Hv]); [..|by apply elem_of_nil in Hv]; rewrite Hv in *; bits.
  - set (fe1 := with_zz _ fe). assert (Hz1 : z_state (fe_zz fe1) = FESTATE_RETUNE) by done.
    assert (Hp1 : paced (fe_zz fe) (fe_zz fe1)) by (split; [apply Hp|split_and!; auto]).
    apply (ends_paced _ fe1); [done|]. eapply ends_weaken; [apply (fast_any s fe1 FESTATE_RETUNE); [by eapply paced_can|done|elems]|].
    cbn beta. intros v' [-> | [[-> Href] | [-> Hw]]]; split; try done; [apply TurnRetune|apply TurnRefused; auto].
  - eapply ends_weaken; [apply (fast_any s fe FESTATE_TUNING_FAST Hp Hz); elems|]. cbn beta. intros v' [-> | [[-> Href] | [-> Hw]]]; split; try done.
    + apply TurnSearch; [done|elems].
    + apply TurnRefused; auto.
    + apply TurnSlow; auto.
  - destruct (held fe) eqn:Eh; [apply waits; [done|]; rewrite Hz; split; [apply TurnSearch; [done|elems]|auto]|].
    eapply ends_weaken; [apply (fast_any s fe FESTATE_ZIGZAG_FAST Hp Hz); elems|]. cbn beta. intros v' [-> | [[-> Href] | [-> Hw]]]; (split; [|auto; by intros]).
    + apply TurnSearch; [done|elems].
    + apply TurnRefused; [done|auto|]. right. right. split; [elems|done].
    + apply TurnSlow; auto.
  - destruct (held fe) eqn:Eh; [apply waits; [done|]; rewrite Hz; split; [apply TurnSearch; [done|elems]|done]|].
    unfold fast_search. rewrite !(in_st fe _ Hz). bits. eapply ends_weaken; [by apply slow_any|]. cbn beta. intros v' [-> | [-> Href]]; (split; [|done]).
    + apply TurnSearch; [done|elems].
    + apply TurnRefused; [done|auto|]. right. right. split; [elems|done].
  - apply waits; [done|]. rewrite Hz. split; [by apply TurnDiseqc|done].
  - unfold fast_search. rewrite !(in_st fe _ Hz). bits. rewrite slow_none by (by rewrite (in_st fe _ Hz)).
    apply turn_ends; [by apply paced_refl|]. rewrite Hz. split; [apply TurnError|done].
Qed.

Definition waiting : list Z := [FESTATE_TUNING_FAST; FESTATE_ZIGZAG_FAST; FESTATE_SEARCHING_SLOW; FESTATE_DISEQC].
Definition status_locked (s : Z) : bool := negb (Z.land s FE_HAS_LOCK =? 0).
(** A front end that has no lock goes on searching. *)
Lemma check_searches s fe v : z_state (fe_zz fe) = v -> v <> FESTATE_TUNED -> status_locked s = false \/ v ∈ [FESTATE_RETUNE; FESTATE_ERROR] ->
  v ∈ fe_states -> swzigzag_check ops HZ s fe = swzigzag_search ops HZ s fe.
Proof.
  intros Hz Hn Hs Hv. unfold swzigzag_check. fold (status_locked s). rewrite !(in_st fe v Hz).
  assert (E : negb (Z.land v FESTATE_TUNED =? 0) = false).
  { unfold fe_states in Hv. by repeat (apply elem_of_cons in Hv as [-> | Hv]; [done|]); apply elem_of_nil in Hv. }
  rewrite E. destruct Hs as [-> | Hs]; [by rewrite andb_false_r|].
  by repeat (apply elem_of_cons in Hs as [-> | Hs]; [done|]); apply elem_of_nil in Hs.
Qed.
Lemma check_locked s fe v : can_pace (fe_zz fe) -> z_state (fe_zz fe) = v -> status_locked s = true -> v ∈ FESTATE_TUNED :: waiting ->
  ends_in fe (swzigzag_check ops HZ s fe) (fun v' => v' = FESTATE_TUNED).
Proof.
  intros Hp Hz Hs Hv. unfold swzigzag_check. fold (status_locked s). rewrite Hs, !(in_st fe v Hz).
  pose proof (proj1 (pace_update (status_locked s) _ Hp)) as Hu. unfold waiting in Hv.
  repeat (apply elem_of_cons in Hv as [Hv|Hv]); [..|by apply elem_of_nil in Hv]; subst v; rewrite Hv; bits;
    [by apply waits|destruct (_ && _); by apply turn_ends..].
Qed.
(** A front end that was tuned starts to search around where it was. *)
Lemma check_lost s fe : can_pace (fe_zz fe) -> z_state (fe_zz fe) = FESTATE_TUNED -> status_locked s = false ->
  ends_in fe (swzigzag_check ops HZ s fe) (fe_turn refuses false (held fe) FESTATE_TUNED).
Proof.
  intros Hp Hz Hs. unfold swzigzag_check. fold (status_locked s). rewrite Hs, andb_false_r, (in_st fe _ Hz). bits.
  set (fe1 := with_zz _ _). destruct (pace_update (status_locked s) _ Hp) as [Hp1 _].
  apply (ends_paced _ fe1); [exact Hp1|]. eapply ends_weaken; [apply (search_any s fe1 FESTATE_ZIGZAG_FAST); [by eapply paced_can|done|elems]|].
  intros v' [Ht Hv]. destruct (Hv eq_refl eq_refl) as [-> | ->]; [by apply TurnLost|].
  inversion Ht as [| | | | | | | |? Href ? [?|[?|[_ ?]]]]; try done. apply TurnRefused; [done|by left|]. right. right. split; [elems|done].
Qed.
Lemma check_turn s fe v : can_pace (fe_zz fe) -> z_state (fe_zz fe) = v -> v ∈ fe_states -> v <> FESTATE_IDLE -> (v = FESTATE_RETUNE -> s = 0) ->
  ends_in fe (swzigzag_check ops HZ s fe) (fe_turn refuses (status_locked s) (held fe) v).
Proof.
  intros Hp Hz Hv Hi Hr. destruct (decide (v = FESTATE_TUNED)) as [->|Ht].
  { destruct (status_locked s) eqn:Es; [|by apply check_lost].
    eapply ends_weaken; [apply (check_locked s fe _ Hp Hz Es); elems|]. intros v' ->. apply TurnLock; [done|elems]. }
  assert (Hcase : v ∈ waiting \/ v ∈ [FESTATE_RETUNE; FESTATE_ERROR]).
  { unfold fe_states in Hv. unfold waiting. repeat rewrite elem_of_cons in Hv. rewrite !elem_of_cons. tauto. }
  assert (Hsearch : status_locked s = false \/ v ∈ [FESTATE_RETUNE; FESTATE_ERROR] ->
    ends_in fe (swzigzag_check ops HZ s fe) (fe_turn refuses false (held fe) v)).
  { intros H. rewrite (check_searches s fe v) by done. 
    assert (Hin : v ∈ [FESTATE_RETUNE; FESTATE_TUNING_FAST; FESTATE_ZIGZAG_FAST; FESTATE_SEARCHING_SLOW; FESTATE_DISEQC; FESTATE_ERROR])
      by (destruct Hcase as [Hc|Hc]; unfold waiting in Hc; clear -Hc; listed; subst v; elems).
    eapply ends_weaken; [by apply (search_any s fe v Hp Hz)|]. by intros ? []. }
  destruct (status_locked s) eqn:Es; [|by apply Hsearch; left]. destruct Hcase as [H|H].
  - eapply ends_weaken; [apply (check_locked s fe v Hp Hz Es); by right|]. intros v' ->. apply TurnLock; [done|].
    unfold waiting in H. repeat rewrite elem_of_cons in H. rewrite !elem_of_cons. tauto.
  - repeat rewrite elem_of_cons in H. destruct H as [H|[H|H]]; [by rewrite (Hr H) in Es| |by apply elem_of_nil in H].
    eapply ends_weaken; [apply Hsearch; rewrite H; elems|]. intros v' Hv'. rewrite H in Hv' |- *. by rewrite (turn_error _ _ _ _ Hv'); apply TurnError.
Qed.
(** The tests of a single state. *)
Lemma state_is v : v ∈ fe_states -> negb (Z.land v FESTATE_IDLE =? 0) = bool_decide (v = FESTATE_IDLE) /\
  negb (Z.land v FESTATE_RETUNE =? 0) = bool_decide (v = FESTATE_RETUNE).
Proof. unfold fe_states. intros Hv. listed; by subst. Qed.
Lemma note_keeps s fe : fe_zz (note_status ops s fe) = fe_zz fe.
Proof.
  unfold note_status, dvb_frontend_add_event, dtv_get_frontend. repeat case_match; simplify_eq; done.
Qed.
Lemma read_keeps fe s fe1 : read_status ops fe = (s, fe1) -> fe_zz fe1 = fe_zz fe.
Proof. unfold read_status. intros. repeat case_match; simplify_eq; done. Qed.
(** What a single shot leaves: a request is given to the driver once. *)
Lemma oneshot_turn fe : can_pace (fe_zz fe) -> z_state (fe_zz fe) <> FESTATE_IDLE -> z_state (fe_zz fe) ∈ fe_states ->
  Z.land (tune_mode_flags fe) FE_TUNE_MODE_ONESHOT <> 0 ->
  ends_in fe (dvb_frontend_swzigzag ops HZ fe) (fun v' => if decide (z_state (fe_zz fe) = FESTATE_RETUNE)
    then v' = FESTATE_TUNED \/ v' = FESTATE_ERROR else v' = z_state (fe_zz fe)).
Proof.
  intros Hp Hi Hv Ho. unfold dvb_frontend_swzigzag. rewrite !(in_st fe _ eq_refl).
  destruct (state_is _ Hv) as [-> ->]. rewrite bool_decide_false, (proj2 (Z.eqb_neq _ _) Ho) by done. cbn [negb].
  destruct Hp as (Hq & _). case_bool_decide as Hd.
  - destruct (if ops_set_frontend ops is Some set then _ else _) as [r d]. apply turn_ends; [split_and!; cbn; auto; lia|].
    rewrite decide_True by done. cbn [z_state swzigzag_idle fe_zz with_zz set_delay set_state]. destruct (r <? 0); auto.
  - apply turn_ends; [split_and!; cbn; auto; lia|]. by rewrite decide_False by done.
Qed.
End machine.

(** C19: Each turn of the software search ends and follows the state machine of the front end.  Whatever the driver answers, the
    turn ends in one of the eight states; the measure of quality stays between 0 and 256, the range of the search is as it was,
    and the delay until the next turn changes to three seconds or to something between the least delay and a second more than it.  A turn
    which reads the status goes to the tuned state from each of the searching ones and stays there exactly while the driver reports a lock, goes on with the fast search when a lock is
    lost, changes to the slow search only from the fast one, and goes to the error state only when the driver refused
    what it was given; a request that is to be tried once leaves the tuned or the error state. *)
Theorem dvb_frontend_swzigzag_machine {D} (ops : dvb_frontend_ops D) HZ (fe : dvb_frontend D) :
  0 <= HZ -> can_pace HZ (fe_zz fe) -> z_state (fe_zz fe) ∈ fe_states ->
  let st := z_state (fe_zz fe) in
  exists fe', dvb_frontend_swzigzag ops HZ fe = Some fe' /\ paced HZ (fe_zz fe) (fe_zz fe') /\ z_state (fe_zz fe') ∈ fe_states /\
    (if decide (Z.land (tune_mode_flags fe) FE_TUNE_MODE_ONESHOT = 0 \/ st = FESTATE_IDLE)
     then fe_turn (refuses ops) (status_locked (if decide (st = FESTATE_RETUNE) then 0 else (read_status ops fe).1)) (held ops fe) st (z_state (fe_zz fe'))
     else if decide (st = FESTATE_RETUNE) then z_state (fe_zz fe') = FESTATE_TUNED \/ z_state (fe_zz fe') = FESTATE_ERROR
     else z_state (fe_zz fe') = st).
Proof.
  intros HHZ Hp Hv st.
  assert (Hturn : forall (fe1 : dvb_frontend D) o R l h v, paced HZ (fe_zz fe) (fe_zz fe1) -> ends_in HZ fe1 o (fe_turn R l h v) ->
    exists fe', o = Some fe' /\ paced HZ (fe_zz fe) (fe_zz fe') /\ z_state (fe_zz fe') ∈ fe_states /\ fe_turn R l h v (z_state (fe_zz fe'))).
  { intros fe1 o R l h v H1 H2. destruct (ends_paced HZ _ _ _ _ H1 H2) as (fe' & E & ? & Ht). exists fe'. split_and!; [done..|by eapply turn_states|done]. }
  destruct (decide (st = FESTATE_IDLE)) as [Hi|Hi].
  { destruct (decide (_ \/ _)) as [_|Hn]; [|by destruct Hn; right]. apply (Hturn fe); [by apply paced_refl|]. unfold dvb_frontend_swzigzag. rewrite (in_st fe _ Hi). bits.
    fold st. rewrite Hi. apply turn_ends; [|cbn; change (z_state (fe_zz fe)) with st; rewrite Hi; apply TurnIdle].
    destruct Hp as [Hq _]. split_and!; cbn; auto; lia. }
  destruct (decide (Z.land (tune_mode_flags fe) FE_TUNE_MODE_ONESHOT = 0)) as [Ho|Ho].
  - destruct (decide (_ \/ _)) as [_|Hn]; [|by destruct Hn; left]. unfold dvb_frontend_swzigzag. rewrite !(in_st fe st eq_refl). destruct (state_is st Hv) as [-> ->]. rewrite Ho.
    rewrite bool_decide_false by done. cbn [Z.eqb negb]. case_bool_decide as Hr.
    + rewrite decide_True by done. apply (Hturn fe); [by apply paced_refl|]. by apply check_turn.
    + rewrite decide_False by done. destruct (read_status ops fe) as [s fe1] eqn:Er. cbn [fst].
      assert (Hz : fe_zz (note_status ops s fe1) = fe_zz fe).
      { rewrite note_keeps. by eapply read_keeps. }
      apply (Hturn (note_status ops s fe1)); [rewrite Hz; by apply paced_refl|].
      assert (Hh : held ops fe = held ops (note_status ops s fe1)) by (unfold held; by rewrite Hz). rewrite Hh.
      apply check_turn; by rewrite ?Hz.
  - destruct (decide (_ \/ _)) as [[?|?]|_]; [done..|]. destruct (oneshot_turn ops HZ fe Hp Hi Hv Ho) as (fe' & E & Hp' & H). exists fe'. split_and!; [done..| |].
    + fold st in H. destruct (decide _); [destruct H as [-> | ->]; unfold fe_states; rewrite ?elem_of_cons; auto 10|]. by rewrite H.
    + fold st in H. by destruct (decide _).
Qed.

(** A front end that has lost its lock. *)
Definition demo_tuned : dvb_frontend (list (Z * Z)) := with_zz (set_state FESTATE_TUNED (fe_zz demo_fe)) demo_fe.
Lemma dvb_frontend_swzigzag_machine_witness :
  exists fe', dvb_frontend_swzigzag demo_fe_ops 100 demo_tuned = Some fe' /\ paced 100 (fe_zz demo_tuned) (fe_zz fe') /\
    z_state (fe_zz fe') ∈ fe_states /\ fe_turn (refuses demo_fe_ops) false false FESTATE_TUNED (z_state (fe_zz fe')).
Proof.
  apply (dvb_frontend_swzigzag_machine demo_fe_ops 100 demo_tuned).
  - done.
  - by vm_compute.
  - unfold fe_states. rewrite !elem_of_cons. cbn. auto 10.
Defined.
(** It starts to search around the frequency it had, and finds it. *)
Example lost_and_found :
  let rd (locked : nat -> bool) := Some (fun d : list (Z * Z) => (0, Some (if locked (length d) then 31 else 3), d)) in
  let ops (locked : nat -> bool) := FeOps 0 0 0 0 0 0 0 0 [SYS_DVBS] (fun d => d) (Some demo_set) None (rd locked) None None None None None None None None None in
  map (fun n => (fun fe => z_state (fe_zz fe)) <$> turns (ops (fun k => (2 <? k)%nat)) 100 n demo_tuned) [1; 2; 3; 4]%nat =
    map Some [FESTATE_ZIGZAG_FAST; FESTATE_ZIGZAG_FAST; FESTATE_ZIGZAG_FAST; FESTATE_TUNED].
Proof. vm_compute. reflexivity. Qed.
