(* ===== verification/DvbFrontendEvents.v ===== *)
(** * DvbFrontendEvents: the events of a front end

    The ring of eight entries of dvb_frontend.c is a queue of the newest seven events, and a reader is told once of the events it has
    missed. *)

From S2P Require Import Prelude DvbFrontend DvbFrontendTune.

(** ** The queue *)

(** The events that wait, oldest first, and whether some were dropped. *)
Definition fe_queue : Type := list dvb_frontend_event * bool.
Definition queue_add (e : dvb_frontend_event) (s : fe_queue) : fe_queue :=
  if decide (length s.1 = 7)%nat then (drop 1 s.1 ++ [e], true) else (s.1 ++ [e], s.2).
Definition queue_adds (es : list dvb_frontend_event) (s : fe_queue) : fe_queue := fold_left (fun s e => queue_add e s) es s.

(** What happens to the queue: the thread adds an event, a task reads one without waiting, or it sleeps, if
    there is none, until others have added some or, if they add none, a signal comes; and a request
    clears the queue. *)
Inductive fe_event_op := EvAdd (e : dvb_frontend_event) | EvGet | EvWait (es : list dvb_frontend_event) | EvClear | EvPoll.
Inductive fe_event_reply := RDone | RGot (ret : Z) (e : option dvb_frontend_event) | RReady (b : bool).

Definition queue_get (empty : fe_queue -> fe_event_reply * fe_queue) (s : fe_queue) : fe_event_reply * fe_queue :=
  if s.2 then (RGot (- EOVERFLOW_fe) None, (s.1, false)) else
  match s.1 with [] => empty s | e :: q => (RGot 0 (Some e), (q, false)) end.
Definition queue_op (o : fe_event_op) (s : fe_queue) : fe_event_reply * fe_queue :=
  match o with
  | EvAdd e => (RDone, queue_add e s)
  | EvGet => queue_get (fun s => (RGot (- EWOULDBLOCK_fe) None, s)) s
  | EvWait es =>
      queue_get (fun s => match (queue_adds es s).1 with
                          | [] => (RGot (- ERESTARTSYS_fe) None, s)
                          | e :: q => (RGot 0 (Some e), (q, (queue_adds es s).2))
                          end) s
  | EvClear => (RDone, ([], s.2))
  | EvPoll => (RReady (negb (bool_decide (s.1 = []))), s)
  end.
Fixpoint queue_run (l : list fe_event_op) (s : fe_queue) : list fe_event_reply * fe_queue :=
  match l with
  | [] => ([], s)
  | o :: l => let '(r, s) := queue_op o s in let '(rs, s) := queue_run l s in (r :: rs, s)
  end.

(** ** The ring *)

Definition events_adds (es : list dvb_frontend_event) (evs : dvb_fe_events) : dvb_fe_events := fold_left (fun evs e => events_add e evs) es evs.
Definition events_op (o : fe_event_op) (evs : dvb_fe_events) : option (fe_event_reply * dvb_fe_events) :=
  match o with
  | EvAdd e => Some (RDone, events_add e evs)
  | EvGet => '(ret, e, evs) ← dvb_frontend_get_event (fun evs => (0, evs)) true evs; Some (RGot ret e, evs)
  | EvWait es =>
      let wait evs := if es is [] then (- ERESTARTSYS_fe, evs) else (0, events_adds es evs) in
      '(ret, e, evs) ← dvb_frontend_get_event wait false evs; Some (RGot ret e, evs)
  | EvClear => Some (RDone, dvb_frontend_clear_events evs)
  | EvPoll => Some (RReady (dvb_frontend_poll evs), evs)
  end.
Fixpoint events_run (l : list fe_event_op) (evs : dvb_fe_events) : option (list fe_event_reply * dvb_fe_events) :=
  match l with
  | [] => Some ([], evs)
  | o :: l => '(r, evs) ← events_op o evs; '(rs, evs) ← events_run l evs; Some (r :: rs, evs)
  end.

(** The ring holds the queue from the place to read to the place to write, one entry less than there are. *)
Definition ring_rep (evs : dvb_fe_events) (s : fe_queue) : Prop :=
  length (fe_ring evs) = 8%nat /\ 0 <= eventr evs < 8 /\ (length s.1 < 8)%nat /\ fe_overflow evs = s.2 /\
  eventw evs = (eventr evs + Z.of_nat (length s.1)) mod 8 /\
  forall i, (i < length s.1)%nat -> fe_ring evs !! Z.to_nat ((eventr evs + Z.of_nat i) mod 8) = s.1 !! i.

Lemma ring_other r a b : 0 <= r < 8 -> 0 <= a < 8 -> 0 <= b < 8 -> a <> b -> Z.to_nat ((r + a) mod 8) <> Z.to_nat ((r + b) mod 8).
Proof.
  intros. pose proof (Z.mod_pos_bound (r + a) 8 ltac:(lia)). pose proof (Z.mod_pos_bound (r + b) 8 ltac:(lia)).
  intros E. assert ((r + a) mod 8 = (r + b) mod 8) by lia. pose proof (Z.div_mod (r + a) 8). pose proof (Z.div_mod (r + b) 8). lia.
Qed.
Lemma add_rep e evs s : ring_rep evs s -> ring_rep (events_add e evs) (queue_add e s).
Proof.
  destruct s as [q o]. intros (Hl & Hr & Hq & Ho & Hw & H). cbn [fst snd] in *. unfold events_add, queue_add, MAX_EVENT. cbn [fst snd].
  assert (Hfull : ((eventw evs + 1) mod 8 =? eventr evs) = bool_decide (length q = 7%nat)).
  { rewrite Hw, Zplus_mod_idemp_l. case_bool_decide as Hd.
    - rewrite Hd. replace (eventr evs + Z.of_nat 7 + 1) with (eventr evs + 1 * 8) by lia. rewrite Z.mod_add, Z.mod_small by lia. apply Z.eqb_refl.
    - apply Z.eqb_neq. intros E. apply (ring_other (eventr evs) (Z.of_nat (length q) + 1) 0); [lia..|].
      rewrite Z.add_0_r, Z.add_assoc, E, (Z.mod_small (eventr evs)) by lia. done. }
  rewrite Hfull. assert (Hnew : (Z.to_nat ((eventr evs + Z.of_nat (length q)) mod 8) < length (fe_ring evs))%nat).
  { pose proof (Z.mod_pos_bound (eventr evs + Z.of_nat (length q)) 8 ltac:(lia)). lia. }
  assert (Hold : forall i, (i < length q)%nat ->
    <[Z.to_nat (eventw evs) := e]> (fe_ring evs) !! Z.to_nat ((eventr evs + Z.of_nat i) mod 8) = q !! i).
  { intros i Hi. rewrite list_lookup_insert_ne; [by apply H|]. rewrite Hw. apply ring_other; lia. }
  case_bool_decide as Hd; [rewrite decide_True by done|rewrite decide_False by done]; rewrite ?orb_true_r, ?orb_false_r.
  - split_and!; cbn [fe_ring eventr eventw fe_overflow fst snd]; try done; try (rewrite ?length_insert, ?length_app, ?length_drop; cbn [length]; lia).
    + intros i Hi. rewrite length_app, length_drop, Hd in Hi. cbn [length] in Hi. rewrite Zplus_mod_idemp_l.
      replace (eventr evs + 1 + Z.of_nat i) with (eventr evs + Z.of_nat (S i)) by lia. destruct (decide (i = 6%nat)) as [->|].
      * rewrite lookup_app_r by (rewrite length_drop; lia). rewrite length_drop, Hd. rewrite Hw, Hd. apply list_lookup_insert_eq. by rewrite Hd in Hnew.
      * rewrite lookup_app_l by (rewrite length_drop; lia). rewrite lookup_drop. apply Hold. lia.
  - split_and!; cbn [fe_ring eventr eventw fe_overflow fst snd]; try done; try lia; try (rewrite ?length_insert, ?length_app; cbn [length]; lia).
    + intros i Hi. rewrite length_app in Hi. cbn [length] in Hi. destruct (decide (i = length q)) as [->|].
      * rewrite lookup_app_r, Nat.sub_diag, Hw by lia. by apply list_lookup_insert_eq.
      * rewrite lookup_app_l by lia. apply Hold. lia.
Qed.
Lemma adds_rep es : forall evs s, ring_rep evs s -> ring_rep (events_adds es evs) (queue_adds es s).
Proof. induction es as [|e es IH]; intros evs s H; [done|]. by apply IH, add_rep. Qed.
Lemma rep_empty evs s : ring_rep evs s -> (eventw evs =? eventr evs) = bool_decide (s.1 = []).
Proof.
  destruct s as [[|e q] o]; intros (_ & Hr & Hq & _ & Hw & _); cbn [fst length] in *; rewrite Hw.
  - rewrite bool_decide_true by done. apply Z.eqb_eq. rewrite Z.add_0_r. by apply Z.mod_small.
  - rewrite bool_decide_false by done. apply Z.eqb_neq. lia.
Qed.
(** What is read is the head of the queue. *)
Lemma take_rep evs e q o : ring_rep evs (e :: q, o) -> fe_ring evs !! Z.to_nat (eventr evs) = Some e /\
  ring_rep (FeEvents (fe_ring evs) (eventw evs) ((eventr evs + 1) mod MAX_EVENT) (fe_overflow evs)) (q, o).
Proof.
  intros (Hl & Hr & Hq & Ho & Hw & H). cbn [fst snd length] in *. unfold MAX_EVENT. split.
  - specialize (H 0%nat ltac:(lia)). rewrite Z.add_0_r, Z.mod_small in H by done. exact H.
  - split_and!; cbn [fe_ring eventr eventw fe_overflow fst snd]; try done; try lia.
    intros i Hi. rewrite Zplus_mod_idemp_l. replace (eventr evs + 1 + Z.of_nat i) with (eventr evs + Z.of_nat (S i)) by lia.
    apply (H (S i)). lia.
Qed.
Lemma adds_head es s : es <> [] -> (queue_adds es s).1 <> [].
Proof.
  assert (H : forall es s, s.1 <> [] -> (queue_adds es s).1 <> []).
  { clear. induction es as [|e es IH]; intros s Hs; [done|]. apply IH. unfold queue_add. case_match; cbn [fst]; by intros [_ [=]]%app_eq_nil. }
  destruct es as [|e es]; [done|]. intros _. apply (H es (queue_add e s)). unfold queue_add. case_match; cbn [fst]; by intros [_ [=]]%app_eq_nil.
Qed.
Lemma op_rep o evs s : ring_rep evs s -> exists evs', events_op o evs = Some ((queue_op o s).1, evs') /\ ring_rep evs' (queue_op o s).2.
Proof.
  intros H. pose proof (rep_empty _ _ H) as He. pose proof H as (Hl & Hr & Hq & Ho & Hw & Hi).
  assert (Hover : s.2 = true -> ring_rep (FeEvents (fe_ring evs) (eventw evs) (eventr evs) false) (s.1, false)).
  { intros _. exact (conj Hl (conj Hr (conj Hq (conj eq_refl (conj Hw Hi))))). }
  destruct o as [e| |es| |]; cbn [events_op queue_op]; unfold queue_get, dvb_frontend_get_event; rewrite ?Ho, ?He.
  - eexists. split; [done|by apply add_rep].
  - destruct s as [q []]; cbn [fst snd] in *; [eexists; split; [done|auto]|]. destruct q as [|e q]; [by eexists|].
    destruct (take_rep _ _ _ _ H) as [-> H']. rewrite Ho in H'. rewrite bool_decide_false by done. eexists. split; [done|]. exact H'.
  - destruct s as [q []]; cbn [fst snd] in *; [eexists; split; [done|auto]|]. destruct q as [|e q].
    + rewrite bool_decide_true by done. destruct es as [|e es]; [by eexists|]. cbn [Z.ltb Z.compare].
      pose proof (adds_rep (e :: es) _ _ H) as H2. destruct (queue_adds (e :: es) ([], false)) as [[|e1 q] o] eqn:E.
      * by pose proof (adds_head (e :: es) ([], false) ltac:(done)) as E2; rewrite E in E2.
      * destruct (take_rep _ _ _ _ H2) as [-> H']. eexists. split; [done|]. exact H'.
    + destruct (take_rep _ _ _ _ H) as [-> H']. rewrite Ho in H'. rewrite bool_decide_false by done. eexists. split; [done|]. exact H'.
  - eexists. split; [done|]. split_and!; cbn [fst snd length dvb_frontend_clear_events fe_ring eventr eventw fe_overflow]; try done; lia.
  - unfold dvb_frontend_poll. rewrite He. by eexists.
Qed.

(** C20: The ring of events of a front end is a queue of the newest seven.  Whatever the thread adds and the tasks do - read without waiting,
    sleep until there are events or a signal comes, clear, poll -
    the replies are those of a queue that drops its oldest event when there are seven and another comes, tells the next reader once
    that it did, and hands out the others in their order; and the ring is never read outside. *)
Theorem dvb_frontend_events_queue (evs : dvb_fe_events) (s : fe_queue) (l : list fe_event_op) :
  ring_rep evs s -> exists evs', events_run l evs = Some ((queue_run l s).1, evs') /\ ring_rep evs' (queue_run l s).2.
Proof.
  revert evs s. induction l as [|o l IH]; intros evs s H; [by eexists|]. cbn [events_run queue_run].
  destruct (op_rep o _ _ H) as (evs1 & -> & H1). cbn [mbind option_bind]. destruct (queue_op o s) as [r s1]. cbn [fst snd] in *.
  destruct (IH _ _ H1) as (evs2 & -> & H2). cbn [mbind option_bind]. destruct (queue_run l s1) as [rs s2]. by eexists.
Qed.

Definition demo_event (n : nat) : dvb_frontend_event := FeEvent (Z.of_nat n) (FeParams 0 0 []).
Definition demo_ops : list fe_event_op := map (fun n => EvAdd (demo_event n)) (seq 1 9) ++ [EvGet; EvGet; EvPoll; EvClear; EvWait [demo_event 10]; EvGet].
Lemma dvb_frontend_events_queue_witness :
  exists evs', events_run demo_ops demo_events = Some (replicate 9 RDone ++
    [RGot (- EOVERFLOW_fe) None; RGot 0 (Some (demo_event 3)); RReady true; RDone; RGot 0 (Some (demo_event 10)); RGot (- EWOULDBLOCK_fe) None], evs') /\
    ring_rep evs' ([], false).
Proof. apply (dvb_frontend_events_queue demo_events ([], false) demo_ops). split_and!; cbn; try done; lia. Defined.
(** The queue is not looked at again after the sleep: of two readers that wait for one event, the second gets an old event again, and the
    place to read overtakes the place to write. *)
Example second_reader_old_event :
  match dvb_frontend_get_event (fun evs => match dvb_frontend_get_event (fun evs => (0, events_add (demo_event 1) evs)) false evs with
                                          | Some (_, _, evs) => (0, evs) | None => (0, evs) end) false demo_events with
  | Some (ret, e, evs) => (ret, e, eventr evs - eventw evs, dvb_frontend_poll evs)
  | None => (0, None, 0, false)
  end = (0, Some (FeEvent 0 (FeParams 0 0 (replicate 7 0))), 1, true).
Proof. by vm_compute. Qed.
(** A request clears the events and not what is told of those dropped before it. *)
Example clear_leaves_overflow :
  let evs := dvb_frontend_clear_events (events_adds (map demo_event (seq 1 9)) demo_events) in
  (fe_overflow evs, dvb_frontend_poll evs) = (true, false).
Proof. by vm_compute. Qed.
