(* ===== verification/DvbFrontendParams.v ===== *)
(** * DvbFrontendParams: what is set of a front end is what is read back

    The parameters of the old interface pass through the cache unharmed, and the properties of the new one
    are read as they were set. *)

From S2P Require Import Prelude DvbFrontend DvbFrontendTune.

(** ** The parameters of the old interface *)

Definition word_ok (v : Z) : Prop := 0 <= v < 2 ^ 32.
Definition params_ok (p : dvb_frontend_parameters) : Prop :=
  word_ok (p_frequency p) /\ word_ok (p_inversion p) /\ exists w0 w1 w2 w3 w4 w5 w6,
    p_u p = [w0; w1; w2; w3; w4; w5; w6] /\ Forall word_ok [w0; w1; w2; w3; w4; w5; w6].
Definition bandwidth_ok (b : Z) : Prop := 0 <= b <= 6.

Lemma bandwidth_roundtrip b : bandwidth_ok b -> exists hz, bandwidth_hz_of b = Some hz /\ word_ok hz /\ bandwidth_of_hz hz = b.
Proof.
  intros Hb. assert (b = 0 \/ b = 1 \/ b = 2 \/ b = 3 \/ b = 4 \/ b = 5 \/ b = 6) as H by (unfold bandwidth_ok in Hb; lia).
  destruct H as [->|[->|[->|[->|[->|[-> | ->]]]]]]; eexists; (split; [reflexivity|]); by vm_compute.
Qed.
Lemma cset_at m v c : cset m v c m = member_store m v.
Proof. unfold cset. cbn [members]. by rewrite decide_True. Qed.
Ltac at_members :=
  cbn [csets fold_left fst snd];
  repeat match goal with
  | |- context [members (cset ?m ?v ?c) ?m'] => first [rewrite (cset_other m v c m') by done | rewrite (cset_at m v c)]
  end; cbn [member_store].

Lemma cset_sync_delsys f i c : csets [(C_frequency, f); (C_inversion, i)] c C_delivery_system = c C_delivery_system.
Proof. done. Qed.
(** The words of a list that is written out. *)
Ltac at_words := repeat match goal with |- context [zat ?l ?k] => let v := eval cbv in (zat l k) in change (zat l k) with v end.

Ltac small := repeat match goal with |- context [u32 ?w] => rewrite (u32_small w) by done end.

(** How many words of the union the parameters of a type have. *)
Definition words_of (t : dvbv3_emulation_type) : Z :=
  match t with
  | DVBV3_UNKNOWN => 0 | DVBV3_QPSK => 2 | DVBV3_QAM => 3 | DVBV3_OFDM => 7 | DVBV3_ATSC => 1
  end.

(** C21: The parameters of the old interface pass through the cache unharmed.  For each delivery system the old interface can
    describe, what FE_SET_FRONTEND copies to the cache is written into whatever parameters the reader has: the frequency, the
    inversion and each member that the type of the front end uses become those that were set, the words it does not
    use stay what they were, as long as the bandwidth of a terrestrial channel is one of
    the seven that have a name. *)
Theorem dtv_property_legacy_roundtrip (c : dtv_frontend_properties) (p p0 : dvb_frontend_parameters) :
  params_ok p -> zlen (p_u p0) = 7 -> dvbv3_type (c C_delivery_system) <> DVBV3_UNKNOWN ->
  (dvbv3_type (c C_delivery_system) = DVBV3_OFDM -> bandwidth_ok (zat (p_u p) 0)) ->
  let k := words_of (dvbv3_type (c C_delivery_system)) in
  let r := dtv_property_cache_sync c p in
  r.1 = 0 /\ dtv_property_legacy_params_sync r.2 p0 =
    (0, FeParams (p_frequency p) (p_inversion p) (ztake k (p_u p) ++ zdrop k (p_u p0))).
Proof.
  destruct p as [f i u], p0 as [f0 i0 u0]. intros (Hf & Hi & w0 & w1 & w2 & w3 & w4 & w5 & w6 & E & Hu) H7 Ht Hb. cbn [p_frequency p_inversion p_u] in *. subst u.
  unfold zlen in H7. do 7 (destruct u0 as [|? u0]; [cbn in H7; lia|]). destruct u0; [clear H7|cbn in H7; lia].
  repeat (apply Forall_cons_1 in Hu as [? Hu]). unfold word_ok in *. unfold dtv_property_cache_sync.
  rewrite !cset_sync_delsys. cbn [p_frequency p_inversion p_u].
  destruct (dvbv3_type (c C_delivery_system)) eqn:Et; [done| | | |]; cbn [words_of].
  - cbn [fst snd]; split; [done|]. unfold dtv_property_legacy_params_sync. at_members. rewrite Et. at_members. unfold pset. cbn [p_frequency p_inversion p_u].
    at_words. small. reflexivity.
  - cbn [fst snd]; split; [done|]. unfold dtv_property_legacy_params_sync. at_members. rewrite Et. at_members. unfold pset. cbn [p_frequency p_inversion p_u].
    at_words. small. reflexivity.
  - change (zat _ 0) with w0 in *. destruct (bandwidth_roundtrip w0) as (hz & -> & Hhz & Hw); [by apply Hb|]. unfold word_ok in Hhz. cbn [fst snd]; split; [done|].
    unfold dtv_property_legacy_params_sync. at_members. rewrite Et. at_members. unfold pset. cbn [p_frequency p_inversion p_u].
    assert (0 <= w0 < 2 ^ 32) by done. at_words. rewrite (u32_small hz), Hw by done. small. reflexivity.
  - set (c1 := cset C_modulation _ _). assert (Hm : c1 C_modulation = w0) by (subst c1; at_members; by apply u32_small).
    assert (Hd : c1 C_delivery_system = c C_delivery_system) by done.
    assert (Hf1 : c1 C_frequency = f /\ c1 C_inversion = i) by (subst c1; at_members; split; by apply u32_small).
    match goal with |- context [dtv_property_legacy_params_sync _ ?q = ?res] =>
      assert (Hout : forall c' : dtv_frontend_properties, c' C_frequency = f -> c' C_inversion = i -> c' C_modulation = w0 -> dvbv3_type (c' C_delivery_system) = DVBV3_ATSC ->
        dtv_property_legacy_params_sync c' q = res) end.
    { intros c' E1 E2 E3 E4. unfold dtv_property_legacy_params_sync. rewrite E4, E1, E2, E3. unfold pset. cbn [p_frequency p_inversion p_u].
      by rewrite u32_small. }
    clearbody c1. destruct Hf1 as [Hf1 Hi1]. split; [done|]. cbn [snd].
    destruct (c1 C_delivery_system =? SYS_ATSCMH); [by apply Hout; rewrite ?Hd|].
    destruct ((c1 C_modulation =? VSB_8) || (c1 C_modulation =? VSB_16)); apply Hout; by at_members.
Qed.

Definition demo_cache : dtv_frontend_properties := csets [(C_delivery_system, SYS_DVBT); (C_frequency, 5)] (Props (fun _ => 0) []).
Definition demo_params : dvb_frontend_parameters := FeParams 474000000 INVERSION_AUTO [1; 2; 3; 4; 5; 6; 7].
Definition other_params : dvb_frontend_parameters := FeParams 8 9 [10; 11; 12; 13; 14; 15; 16].
Definition demo_cable : dtv_frontend_properties := csets [(C_delivery_system, SYS_DVBC_ANNEX_A)] demo_cache.
Lemma dtv_property_legacy_roundtrip_witness :
  (let r := dtv_property_cache_sync demo_cache demo_params in r.1 = 0 /\ dtv_property_legacy_params_sync r.2 other_params = (0, demo_params)) /\
  (let r := dtv_property_cache_sync demo_cable demo_params in
   r.1 = 0 /\ dtv_property_legacy_params_sync r.2 other_params = (0, FeParams 474000000 INVERSION_AUTO [1; 2; 3; 13; 14; 15; 16])).
Proof.
  assert (params_ok demo_params).
  { split; [by vm_compute|]. split; [by vm_compute|]. exists 1, 2, 3, 4, 5, 6, 7. split; [done|]. by repeat constructor. }
  split.
  - apply (dtv_property_legacy_roundtrip demo_cache demo_params other_params); [done|done|by vm_compute..].
  - apply (dtv_property_legacy_roundtrip demo_cable demo_params other_params); [done|done|by vm_compute..].
Defined.

(** ** The properties of the new interface *)

Section properties.
Context {D : Type} (ops : dvb_frontend_ops D) (HZ force delays : Z).
Context (Hset : ops_set_property ops = None) (Hget : ops_get_property ops = None) (Hfe : ops_get_frontend ops = None).
Implicit Type fe : dvb_frontend D.

(** The special commands are not in the table, and what can be set can be read. *)
Lemma table_command cmd m : command set_table cmd = Some m ->
  ~ cmd ∈ [DTV_CLEAR; DTV_TUNE; DTV_DELIVERY_SYSTEM; DTV_VOLTAGE; DTV_TONE; DTV_LNA; DTV_ENUM_DELSYS; DTV_API_VERSION] /\
  ~ DTV_STAT_SIGNAL_STRENGTH <= cmd <= DTV_STAT_TOTAL_BLOCK_COUNT /\ command get_table cmd = Some m.
Proof.
  intros H. assert (Hin : exists e, e ∈ set_table /\ e.1 = cmd /\ e.2 = m).
  { unfold command in H. destruct (find _ set_table) as [e|] eqn:E; [|done]. apply find_some in E as [E1 E2]. exists e.
    split; [by apply list_elem_of_In|]. split; [by apply Z.eqb_eq|]. by simplify_eq/=. }
  destruct Hin as (e & He & <- & <-). clear H. revert e He. apply list.Forall_forall.
  unfold set_table. repeat (apply Forall_cons_2; [cbn [fst snd]; split_and!; [..|reflexivity]|]); [..|apply Forall_nil_2].
  all: try (intros Hin; repeat (apply elem_of_cons in Hin as [Hin|Hin]; [done|]); by apply elem_of_nil in Hin).
  all: by intros [? ?].
Qed.
Lemma set_in_table cmd m data fe : command set_table cmd = Some m ->
  dtv_property_process_set ops HZ force delays cmd data fe = Some (0, with_cache (cset m data (fe_cache fe)) fe).
Proof.
  intros H. pose proof (table_command _ _ H) as (Hn & _ & _). unfold dtv_property_process_set. rewrite Hset, H.
  cbn [Z.ltb Z.compare].
  assert (E : forall k, k ∈ [DTV_CLEAR; DTV_TUNE; DTV_DELIVERY_SYSTEM; DTV_VOLTAGE; DTV_TONE; DTV_LNA; DTV_ENUM_DELSYS; DTV_API_VERSION] -> (cmd =? k) = false)
    by (intros k Hk; apply Z.eqb_neq; by intros ->).
  rewrite !E by (rewrite !elem_of_cons; auto 10). by destruct fe.
Qed.
Lemma get_in_table cmd m c (d : D) : command set_table cmd = Some m -> dtv_property_process_get ops cmd c d = Some (0, Some (Data (c m)), d).
Proof.
  intros H. pose proof (table_command _ _ H) as (Hn & Hs & Ht). unfold dtv_property_process_get. rewrite Hget, Ht.
  assert (E : forall k, k ∈ [DTV_CLEAR; DTV_TUNE; DTV_DELIVERY_SYSTEM; DTV_VOLTAGE; DTV_TONE; DTV_LNA; DTV_ENUM_DELSYS; DTV_API_VERSION] -> (cmd =? k) = false)
    by (intros k Hk; apply Z.eqb_neq; by intros ->).
  rewrite !E by (rewrite !elem_of_cons; auto 10). replace ((_ <=? cmd) && _) with false; [done|].
  symmetry. apply andb_false_iff. rewrite !Z.leb_gt. lia.
Qed.

(** What a list of commands leaves in the cache. *)
Definition set_all (l : list (Z * Z)) (c : dtv_frontend_properties) : dtv_frontend_properties :=
  fold_left (fun c e => if command set_table e.1 is Some m then cset m e.2 c else c) l c.
Definition in_table (e : Z * Z) : Prop := is_Some (command set_table e.1).
Lemma set_list l : forall fe, Forall in_table l -> set_properties ops HZ force delays l 0 fe = Some (0, with_cache (set_all l (fe_cache fe)) fe).
Proof.
  induction l as [|[cmd data] l IH]; intros fe Hl; [by destruct fe|]. apply Forall_cons_1 in Hl as [[m Hm] Hl]. cbn [fst] in Hm.
  cbn [set_properties]. rewrite (set_in_table _ m _ _ Hm). cbn [mbind option_bind Z.ltb Z.compare]. rewrite IH by done.
  unfold set_all. cbn [fold_left fst snd]. rewrite Hm. by destruct fe.
Qed.
Lemma get_list l c (d : D) : Forall in_table l ->
  get_properties ops (map fst l) 0 c d = Some (0, map (fun e => Data (default 0 (c <$> command set_table e.1))) l, d).
Proof.
  induction l as [|[cmd data] l IH]; intros Hl; [done|]. apply Forall_cons_1 in Hl as [[m Hm] Hl]. cbn [fst] in Hm.
  cbn [get_properties map fst]. rewrite (get_in_table _ m _ _ Hm). cbn [mbind option_bind Z.ltb Z.compare]. rewrite IH by done.
  cbn [mbind option_bind]. by rewrite Hm.
Qed.
(** The last value that was set to a member. *)
Fixpoint last_set (l : list (Z * Z)) (m : fe_member) (v : Z) : Z :=
  match l with
  | [] => v
  | e :: l => last_set l m (if decide (command set_table e.1 = Some m) then member_store m e.2 else v)
  end.
Lemma set_all_last l m : forall c, set_all l c m = last_set l m (c m).
Proof.
  induction l as [|e l IH]; intros c; [done|]. cbn [set_all fold_left last_set]. fold (set_all l).
  change (fold_left _ l ?c1) with (set_all l c1). rewrite IH. f_equal. destruct (command set_table e.1) as [m'|]; [|by rewrite decide_False].
  destruct (decide (m' = m)) as [->|Hn]; [rewrite decide_True by done; by rewrite cset_at|].
  rewrite decide_False by (intros [= ?]; done). by apply cset_other.
Qed.
End properties.

(** What FE_SET_PROPERTY sets is what FE_GET_PROPERTY reads.  For a front end whose driver leaves properties alone, any list of at most 64 commands that
    set a member of the cache is accepted; each member then has the last value that was set to it, in its
    width, the others the value they had, and reading the same commands returns those values. *)
Theorem fe_property_roundtrip {D} (ops : dvb_frontend_ops D) HZ force delays wait rdonly (l : list (Z * Z)) (fe : dvb_frontend D) :
  ops_set_property ops = None -> ops_get_property ops = None -> ops_get_frontend ops = None ->
  number_ok l = true -> Forall in_table l ->
  exists fe', dvb_frontend_ioctl ops HZ force delays wait false false false (FE_SET_PROPERTY (inr l)) fe = Some (0, NoReply, fe') /\
    (forall m, fe_cache fe' m = last_set l m (fe_cache fe m)) /\
    dvb_frontend_ioctl ops HZ force delays wait false false rdonly (FE_GET_PROPERTY (inr (map fst l))) fe' =
      Some (0, RValues (map (fun e => Data (default 0 ((fun m => last_set l m (fe_cache fe m)) <$> command set_table e.1))) l), fe').
Proof.
  intros Hset Hget Hfe Hn Hl. exists (with_cache (set_all l (fe_cache fe)) fe).
  unfold dvb_frontend_ioctl. cbn [read_only_request negb andb]. rewrite andb_false_r.
  unfold fe_set_property, fe_get_property. rewrite Hn, (set_list ops) by done. split; [done|]. split; [intros m; apply set_all_last|].
  assert (E : number_ok (map fst l) = number_ok l) by (unfold number_ok, zlen; by rewrite length_map). rewrite E, Hn. cbn [negb].
  set (fe1 := with_cache _ fe). assert (Ef : dtv_get_frontend ops None fe1 = (0, None, fe1)) by (unfold dtv_get_frontend; by rewrite Hfe).
  rewrite Ef. replace (if z_state (fe_zz fe1) =? FESTATE_IDLE then (0, None, fe1) else (0, None, fe1)) with (0, @None dvb_frontend_parameters, fe1) by (by case_match).
  cbn [Z.ltb Z.compare]. rewrite (get_list ops) by done. cbn [mbind option_bind Z.ltb Z.compare]. assert (Hw : with_hw (fe_hw fe1) fe1 = fe1) by (by destruct fe). rewrite Hw.
  do 4 f_equal. apply map_ext. intros e. destruct (command set_table e.1) as [m|]; [|done]. cbn. by rewrite <- set_all_last.
Qed.
Definition demo_commands : list (Z * Z) := [(3, 474000000); (5, 8000000); (46, 257); (3, 5000000000)].
Lemma fe_property_roundtrip_witness :
  exists fe', dvb_frontend_ioctl demo_fe_ops 100 0 0 (fun evs => (0, evs)) false false false (FE_SET_PROPERTY (inr demo_commands)) demo_fe = Some (0, NoReply, fe') /\
    (forall m, fe_cache fe' m = last_set demo_commands m (fe_cache demo_fe m)) /\
    dvb_frontend_ioctl demo_fe_ops 100 0 0 (fun evs => (0, evs)) false false true (FE_GET_PROPERTY (inr [3; 5; 46; 3])) fe' =
      Some (0, RValues [Data 705032704; Data 8000000; Data 1; Data 705032704], fe').
Proof.
  apply (fe_property_roundtrip demo_fe_ops 100 0 0 (fun evs => (0, evs)) true demo_commands demo_fe); try done.
  repeat constructor; by eexists.
Defined.
(** The loops over the delivery systems look at the entry behind the last one of eight before they look at the index. *)
Example eight_systems_read_behind :
  let ops := FeOps 0 0 0 0 0 0 0 0 [1; 2; 3; 4; 5; 6; 7; 8] (fun d : unit => d) None None None None None None None None None None None None in
  dtv_property_process_get ops DTV_ENUM_DELSYS (Props (fun _ => 0) []) tt = None.
Proof. reflexivity. Qed.
