(* ===== verification/AtscText.v ===== *)
(** * AtscText: the structure of ATSC texts

    types.c and types.h of libucsi/atsc: a text is a list of strings in a language, each a list of
    segments.  The specification is the encoder; [atsc_text_validate] accepts exactly the bytes that
    begin with an encoded text, and the iterators visit what was encoded. *)

From S2P Require Import Prelude Mem Descriptor.

(** ** The code *)

Definition GPS_EPOCH : Z := 315964800.
(** The sum of a 32-bit time and the epoch is taken in 32 bits, before it becomes a [time_t] of 64. *)
Definition atsctime_to_unixtime (atsc : Z) : Z := u32 (atsc + GPS_EPOCH).
Definition unixtime_to_atsctime (t : Z) : Z := u32 (t - GPS_EPOCH).

(** The two loops of the check; [len] is an [int]. *)
Definition validate_segment (buf len pos : Z) : M Z :=
  fail_if (len <? pos + 3);;
  number_bytes ← rd8 (buf + pos + 2);
  let pos := pos + 3 in
  fail_if (len <? pos + number_bytes);;
  mret (pos + number_bytes).
Definition validate_string (buf len pos : Z) : M Z :=
  fail_if (len <? pos + 4);;
  number_segments ← rd8 (buf + pos + 3);
  for_upto (Z.to_nat number_segments) 0 (fun _ => validate_segment buf len) (pos + 4).
Definition atsc_text_validate (buf len : Z) : M Z :=
  if len =? 0 then mret 0 else
  catch (number_strings ← rd8 buf;
         _ ← for_upto (Z.to_nat number_strings) 0 (fun _ => validate_string buf len) 1;
         mret 0) (-1).

Definition sizeof_atsc_text_string : Z := 4.
Definition sizeof_atsc_text_string_segment : Z := 3.
Definition atsc_text_strings_first (txt : Z) : M (option Z) :=
  n ← rd8 txt; mret (if n =? 0 then None else Some (txt + 1)).
Definition atsc_text_strings_next (txt pos idx : Z) : M (option Z) :=
  n ← rd8 txt;
  if n <=? idx then mret None else
  k ← rd8 (pos + 3);
  buf ← for_upto (Z.to_nat k) 0 (fun _ buf => n ← rd8 (buf + 2); mret (buf + sizeof_atsc_text_string_segment + n)) (pos + sizeof_atsc_text_string);
  mret (Some buf).
Definition atsc_text_string_segments_first (str : Z) : M (option Z) :=
  n ← rd8 (str + 3); mret (if n =? 0 then None else Some (str + sizeof_atsc_text_string)).
Definition atsc_text_string_segments_next (str pos idx : Z) : M (option Z) :=
  n ← rd8 (str + 3);
  if n <=? idx then mret None else
  k ← rd8 (pos + 2);
  mret (Some (pos + sizeof_atsc_text_string_segment + k)).
Definition atsc_text_string_segment_bytes (d : Z) : Z := d + sizeof_atsc_text_string_segment.

(** The [_for_each] macros, with the index they count; a count is a byte. *)
Fixpoint for_each_idx {B} (fuel : nat) (idx : Z) (next : Z -> Z -> M (option Z)) (visit : Z -> M B) (pos : option Z) : M (list B) :=
  match pos with
  | None => mret []
  | Some p =>
      match fuel with
      | O => fun _ => NoFuel
      | S f => b ← visit p; n ← next p (idx + 1); bs ← for_each_idx f (idx + 1) next visit n; mret (b :: bs)
      end
  end.

(** ** Specification *)

Record segment := Segment { sg_compression : Z; sg_mode : Z; sg_bytes : list Z }.
Record string_lang := StringLang { sl_lang : list Z; sl_segments : list segment }.

Definition encode_segment (s : segment) : list Z := [sg_compression s; sg_mode s; zlen (sg_bytes s)] ++ sg_bytes s.
Definition encode_string (s : string_lang) : list Z := sl_lang s ++ zlen (sl_segments s) :: flat_map encode_segment (sl_segments s).
Definition encode_text (strs : list string_lang) : list Z := zlen strs :: flat_map encode_string strs.

Definition segment_ok (s : segment) : Prop := byte (sg_compression s) /\ byte (sg_mode s) /\ bytes (sg_bytes s) /\ zlen (sg_bytes s) < 256.
Definition string_ok (s : string_lang) : Prop :=
  bytes (sl_lang s) /\ zlen (sl_lang s) = 3 /\ zlen (sl_segments s) < 256 /\ Forall segment_ok (sl_segments s).
Definition text_ok (strs : list string_lang) : Prop := zlen strs < 256 /\ Forall string_ok strs.

(** What a client reads. *)
Definition read_segment (d : Z) : M segment :=
  c ← rd8 d; mode ← rd8 (d + 1); n ← rd8 (d + 2); b ← rd_bytes (atsc_text_string_segment_bytes d) n; mret (Segment c mode b).
Definition read_string (d : Z) : M string_lang :=
  l ← rd_bytes d 3;
  first ← atsc_text_string_segments_first d;
  segs ← for_each_idx 256 0 (atsc_text_string_segments_next d) read_segment first;
  mret (StringLang l segs).
Definition read_text (txt : Z) : M (list string_lang) :=
  first ← atsc_text_strings_first txt;
  for_each_idx 256 0 (atsc_text_strings_next txt) read_string first.

(** ** Parsers of a prefix *)

Lemma bind_null {A B} (c : M A) (k : A -> M B) m m' : c m = Null m' -> (c ≫= k) m = Null m'.
Proof. unfold mbind, M_bind. by intros ->. Qed.

(** The bytes at [p] begin with an encoding. *)
Definition starts {A} (enc : A -> list Z) (m : mem) (p n : Z) (a : A) : Prop :=
  zlen (enc a) <= n /\ slice m p (zlen (enc a)) = enc a.
(** [body] moves behind the encoding it finds between [pos] and [len], or fails and there is none. *)
Definition parses {A} (body : Z -> M Z) (enc : A -> list Z) (ok : A -> Prop) (m : mem) (buf len : Z) : Prop :=
  forall pos, 0 <= pos <= len ->
    (exists a, ok a /\ starts enc m (buf + pos) (len - pos) a /\ body pos m = Ret (pos + zlen (enc a)) m) \/
    ((forall a, ok a -> ~ starts enc m (buf + pos) (len - pos) a) /\ body pos m = Null m).
(** No encoding is the beginning of another. *)
Definition prefix_free {A} (enc : A -> list Z) (ok : A -> Prop) : Prop :=
  forall a b x y, ok a -> ok b -> enc a ++ x = enc b ++ y -> a = b.

Lemma starts_app {A} (enc : A -> list Z) m p n a : 0 <= p -> 0 <= n -> p + n <= zlen m ->
  starts enc m p n a <-> exists x, slice m p n = enc a ++ x.
Proof.
  intros Hp Hn Hl. pose proof (zlen_nonneg (enc a)). split.
  - intros [Hle E]. exists (slice m (p + zlen (enc a)) (n - zlen (enc a))). rewrite <- E at 1. by apply slice_split; lia.
  - intros [x E]. pose proof (f_equal zlen E) as El. rewrite zlen_slice_le, zlen_app in El by lia. pose proof (zlen_nonneg x).
    split; [lia|]. rewrite (slice_split m p n (zlen (enc a))) in E by lia. apply app_inj_1 in E as [-> _]; [done|].
    pose proof (zlen_slice_le m p (zlen (enc a))). unfold zlen in *. lia.
Qed.
Lemma prefix_unique {A} (enc : A -> list Z) ok m p n a b : prefix_free enc ok -> 0 <= p -> 0 <= n -> p + n <= zlen m ->
  ok a -> ok b -> starts enc m p n a -> starts enc m p n b -> a = b.
Proof.
  intros Hpf Hp Hn Hl Ha Hb Sa Sb. apply starts_app in Sa as [x Ex]; [|done..]. apply starts_app in Sb as [y Ey]; [|done..].
  apply (Hpf a b x y Ha Hb). by rewrite <- Ex, <- Ey.
Qed.

Definition counted {A} (ok : A -> Prop) (n : nat) (l : list A) : Prop := length l = n /\ Forall ok l.
Lemma prefix_free_counted {A} (enc : A -> list Z) ok n : prefix_free enc ok -> prefix_free (flat_map enc) (counted ok n).
Proof.
  intros Hpf. induction n as [|n IH]; intros a b x y [Ea Ha] [Eb Hb] E; [by destruct a, b|].
  destruct a as [|a la], b as [|b lb]; try done. apply Forall_cons_1 in Ha as [Ha Hla]. apply Forall_cons_1 in Hb as [Hb Hlb].
  cbn [flat_map] in E. rewrite <- !app_assoc in E. assert (a = b) as <- by exact (Hpf a b _ _ Ha Hb E). apply app_inv_head in E. f_equal.
  apply (IH la lb x y); [split; [by simplify_eq/=|done]..|done].
Qed.

Section counted.
Context {A : Type} (body : Z -> M Z) (enc : A -> list Z) (ok : A -> Prop) (m : mem) (buf len : Z).
Context (Hm : 0 <= buf /\ buf + len <= zlen m) (Hpf : prefix_free enc ok) (Hbody : parses body enc ok m buf len).

Lemma starts_cons a l pos : 0 <= pos -> starts (flat_map enc) m (buf + pos) (len - pos) (a :: l) ->
  starts enc m (buf + pos) (len - pos) a /\ starts (flat_map enc) m (buf + (pos + zlen (enc a))) (len - (pos + zlen (enc a))) l.
Proof.
  intros Hp [Hle E]. cbn [flat_map] in *. rewrite zlen_app in *. pose proof (zlen_nonneg (enc a)). pose proof (zlen_nonneg (flat_map enc l)).
  rewrite (slice_split m _ _ (zlen (enc a))) in E by lia. apply app_inj_1 in E as [E1 E2].
  - split; [split; [lia|done]|]. split; [lia|]. rewrite <- E2 at 2. f_equal; lia.
  - pose proof (zlen_slice_le m (buf + pos) (zlen (enc a))). unfold zlen in *. lia.
Qed.
Lemma cons_starts a l pos : 0 <= pos -> starts enc m (buf + pos) (len - pos) a ->
  starts (flat_map enc) m (buf + (pos + zlen (enc a))) (len - (pos + zlen (enc a))) l ->
  starts (flat_map enc) m (buf + pos) (len - pos) (a :: l).
Proof.
  intros Hp [Hle E] [Hle2 E2]. pose proof (zlen_nonneg (enc a)). pose proof (zlen_nonneg (flat_map enc l)). unfold starts.
  cbn [flat_map]. rewrite zlen_app. split; [lia|]. rewrite (slice_split m _ _ (zlen (enc a))) by lia.
  rewrite E. f_equal. rewrite <- E2 at 2. f_equal; lia.
Qed.
Lemma parses_counted n : forall i, parses (for_upto n i (fun _ => body)) (flat_map enc) (counted ok n) m buf len.
Proof.
  induction n as [|n IH]; intros i pos Hpos.
  - left. exists []. split; [by split|]. change (zlen (flat_map enc [])) with 0. split; [split; [change (zlen (flat_map enc [])) with 0; lia|by rewrite slice_nil]|].
    by rewrite Z.add_0_r.
  - cbn [for_upto]. destruct (Hbody pos Hpos) as [(a & Ha & Sa & E)|[Hno E]].
    2:{ right. split; [|by rewrite (bind_null _ _ _ _ E)]. intros [|a l] [El Hl] S; [done|]. apply Forall_cons_1 in Hl as [Ha _].
        apply starts_cons in S as [S _]; [|lia]. by apply (Hno a). }
    rewrite (bind_run _ _ m _ m E). pose proof (zlen_nonneg (enc a)).
    destruct (IH (i + 1) (pos + zlen (enc a))) as [(l & [El Hl] & Sl & ->)|[Hno ->]]; [destruct Sa; lia| |].
    + left. exists (a :: l). split; [split; [by simpl; f_equal|by constructor]|]. split; [apply cons_starts; done || lia|].
      cbn [flat_map]. rewrite zlen_app. f_equal. lia.
    + right. split; [|done]. intros [|a' l] [El Hl] S; [done|]. apply Forall_cons_1 in Hl as [Ha' Hl].
      apply starts_cons in S as [Sa' Sl]; [|lia]. assert (a' = a) as -> by (apply (prefix_unique enc ok m (buf + pos) (len - pos)); done || lia).
      apply (Hno l); [|done]. split; [by simplify_eq/=|done].
Qed.
End counted.

(** ** Segments and strings *)

Lemma encode_segment_len s : zlen (encode_segment s) = 3 + zlen (sg_bytes s).
Proof. unfold encode_segment. rewrite zlen_app. done. Qed.
Lemma encode_string_len s : string_ok s -> zlen (encode_string s) = 4 + zlen (flat_map encode_segment (sl_segments s)).
Proof. intros (_ & Hl & _). unfold encode_string. rewrite zlen_app, zlen_cons. lia. Qed.
Lemma prefix_free_segment : prefix_free encode_segment segment_ok.
Proof.
  intros [c mode b] [c' mode' b'] x y _ _ E. unfold encode_segment in E. cbn [sg_compression sg_mode sg_bytes app] in E.
  injection E as -> -> El E. apply app_inj_1 in E as [-> _]; [done|]. unfold zlen in El. lia.
Qed.
Lemma prefix_free_string : prefix_free encode_string string_ok.
Proof.
  intros [l segs] [l' segs'] x y (_ & Hl & _ & Hs) (_ & Hl' & _ & Hs') E. unfold encode_string in E. cbn [sl_lang sl_segments] in *.
  rewrite <- !app_assoc in E. apply app_inj_1 in E as [-> E]; [|unfold zlen in *; lia]. injection E as El E. f_equal.
  apply (prefix_free_counted encode_segment segment_ok (length segs) prefix_free_segment segs segs' x y); [by split|split; [unfold zlen in El; lia|done]|done].
Qed.

Section at_pos.
Context (m : mem) (Hb : bytes m).

Lemma segment_at p s : 0 <= p -> p + zlen (encode_segment s) <= zlen m -> slice m p (zlen (encode_segment s)) = encode_segment s ->
  m.[p] = sg_compression s /\ m.[p + 1] = sg_mode s /\ m.[p + 2] = zlen (sg_bytes s) /\ slice m (p + 3) (zlen (sg_bytes s)) = sg_bytes s.
Proof.
  rewrite encode_segment_len. intros Hp Hl E. pose proof (zlen_nonneg (sg_bytes s)). unfold encode_segment in E.
  do 3 rewrite slice_cons in E by lia. injection E as E0 E1 E2 E. replace (p + 1 + 1) with (p + 2) in * by lia.
  replace (p + 2 + 1) with (p + 3) in E by lia. replace (3 + zlen (sg_bytes s) - 1 - 1 - 1) with (zlen (sg_bytes s)) in E by lia. done.
Qed.
Lemma segment_from p : 0 <= p -> p + 3 + m.[p + 2] <= zlen m ->
  exists s, segment_ok s /\ zlen (encode_segment s) = 3 + m.[p + 2] /\ slice m p (zlen (encode_segment s)) = encode_segment s.
Proof.
  intros Hp Hl. pose proof (zat_range m (p + 2) Hb). exists (Segment (m.[p]) (m.[p + 1]) (slice m (p + 3) (m.[p + 2]))).
  assert (E : zlen (slice m (p + 3) (m.[p + 2])) = m.[p + 2]) by (apply zlen_slice_le; lia).
  split; [split_and!; cbn [sg_compression sg_mode sg_bytes]; [by apply zat_byte..|by apply slice_bytes|lia]|].
  rewrite encode_segment_len. cbn [sg_bytes]. rewrite E. split; [done|]. unfold encode_segment. cbn [sg_compression sg_mode sg_bytes app].
  rewrite E. do 3 rewrite slice_cons by lia. replace (p + 1 + 1) with (p + 2) by lia. replace (p + 2 + 1) with (p + 3) by lia.
  by replace (3 + m.[p + 2] - 1 - 1 - 1) with (m.[p + 2]) by lia.
Qed.
Lemma string_at p s : 0 <= p -> string_ok s -> p + zlen (encode_string s) <= zlen m -> slice m p (zlen (encode_string s)) = encode_string s ->
  slice m p 3 = sl_lang s /\ m.[p + 3] = zlen (sl_segments s) /\
  slice m (p + 4) (zlen (flat_map encode_segment (sl_segments s))) = flat_map encode_segment (sl_segments s).
Proof.
  intros Hp Hok. rewrite encode_string_len by done. intros Hl E. destruct Hok as (_ & H3 & _). unfold encode_string in E.
  set (k := zlen (flat_map encode_segment (sl_segments s))) in *. assert (0 <= k) by apply zlen_nonneg.
  rewrite (slice_split m p (4 + k) 3) in E by lia. apply app_inj_1 in E as [E1 E]; [|pose proof (zlen_slice_le m p 3); unfold zlen in *; lia].
  rewrite slice_cons in E by lia. injection E as E2 E. split; [done|]. split; [done|]. rewrite <- E. f_equal; lia.
Qed.

Context (buf len : Z) (Hm : 0 <= buf /\ buf + len <= zlen m).
Lemma parses_segment : parses (validate_segment buf len) encode_segment segment_ok m buf len.
Proof.
  intros pos Hpos. unfold validate_segment. rewrite bind_fail_if. destruct (Z.ltb_spec len (pos + 3)).
  { right. split; [|done]. intros s Hs [Hle _]. rewrite encode_segment_len in Hle. pose proof (zlen_nonneg (sg_bytes s)). lia. }
  rewrite (bind_run _ _ m _ m (rd8_run (buf + pos + 2) m ltac:(lia))), bind_fail_if. pose proof (zat_range m (buf + pos + 2) Hb).
  destruct (Z.ltb_spec len (pos + 3 + m.[buf + pos + 2])).
  - right. split; [|done]. intros s Hs [Hle E]. destruct (segment_at (buf + pos) s) as (_ & _ & E2 & _); [lia|lia|done|].
    rewrite encode_segment_len in Hle. lia.
  - left. destruct (segment_from (buf + pos)) as (s & Hs & El & E); [lia|lia|]. exists s. split; [done|]. split; [split; [lia|done]|].
    rewrite El. unfold mret, M_ret. f_equal. lia.
Qed.
Lemma parses_string : parses (validate_string buf len) encode_string string_ok m buf len.
Proof.
  intros pos Hpos. unfold validate_string. rewrite bind_fail_if. destruct (Z.ltb_spec len (pos + 4)).
  { right. split; [|done]. intros s Hs [Hle _]. rewrite encode_string_len in Hle by done.
    pose proof (zlen_nonneg (flat_map encode_segment (sl_segments s))). lia. }
  rewrite (bind_run _ _ m _ m (rd8_run (buf + pos + 3) m ltac:(lia))). pose proof (zat_range m (buf + pos + 3) Hb).
  destruct (parses_counted (validate_segment buf len) encode_segment segment_ok m buf len Hm prefix_free_segment parses_segment
              (Z.to_nat (m.[buf + pos + 3])) 0 (pos + 4)) as [(segs & [El Hs] & [Hle E] & ->)|[Hno ->]]; [lia| |].
  - assert (E3 : zlen (slice m (buf + pos) 3) = 3) by (apply zlen_slice_le; lia).
    assert (Hk : zlen segs = m.[buf + pos + 3]) by (unfold zlen; lia). pose proof (zlen_nonneg (flat_map encode_segment segs)).
    assert (Hok : string_ok (StringLang (slice m (buf + pos) 3) segs)) by (split_and!; cbn [sl_lang sl_segments]; [by apply slice_bytes|done|lia|done]).
    left. eexists. split; [exact Hok|]. unfold starts. rewrite encode_string_len by done. cbn [sl_segments]. split; [split; [lia|]|f_equal; lia].
    rewrite (slice_split m _ _ 3) by lia. unfold encode_string. cbn [sl_lang sl_segments]. f_equal. rewrite slice_cons by lia. f_equal; [done|].
    rewrite <- E at 2. f_equal; lia.
  - right. split; [|done]. intros s Hs [Hle E]. destruct (string_at (buf + pos) s) as (_ & E2 & E4); [lia|done|lia|done|].
    rewrite encode_string_len in Hle by done. apply (Hno (sl_segments s)).
    + split; [rewrite E2; unfold zlen; lia|by destruct Hs as (_ & _ & _ & ?)].
    + split; [lia|]. by replace (buf + (pos + 4)) with (buf + pos + 4) by lia.
Qed.
End at_pos.

(** ** Iteration *)

Lemma for_each_idx_view {A B} (enc : A -> list Z) (ok : A -> Prop) (view : A -> B) (next : Z -> Z -> M (option Z)) (visit : Z -> M B) m N : forall l p i fuel,
  (forall a p, ok a -> 0 <= p -> p + zlen (enc a) <= zlen m -> slice m p (zlen (enc a)) = enc a ->
    visit p m = Ret (view a) m /\ forall idx, next p idx m = Ret (if N <=? idx then None else Some (p + zlen (enc a))) m) ->
  (length l <= fuel)%nat -> i + zlen l = N -> Forall ok l -> 0 <= p -> p + zlen (flat_map enc l) <= zlen m ->
  slice m p (zlen (flat_map enc l)) = flat_map enc l ->
  for_each_idx fuel i next visit (if l is [] then None else Some p) m = Ret (map view l) m.
Proof.
  induction l as [|a l IH]; intros p i fuel Hitem Hf Hi Hl Hp Hle E; [by destruct fuel|]. destruct fuel as [|fuel]; [simpl in Hf; lia|].
  cbn [flat_map] in *. rewrite zlen_app in *. apply Forall_cons_1 in Hl as [Ha Hl]. pose proof (zlen_nonneg (enc a)). pose proof (zlen_nonneg (flat_map enc l)).
  rewrite (slice_split m p _ (zlen (enc a))) in E by lia.
  apply app_inj_1 in E as [E1 E2]; [|pose proof (zlen_slice_le m p (zlen (enc a))); unfold zlen in *; lia].
  destruct (Hitem a p Ha Hp ltac:(lia) E1) as [Hv Hn]. cbn [for_each_idx].
  rewrite (bind_run _ _ m _ m Hv), (bind_run _ _ m _ m (Hn (i + 1))). rewrite zlen_cons in Hi.
  replace (if N <=? i + 1 then None else Some (p + zlen (enc a))) with (if l is [] then None else Some (p + zlen (enc a))).
  2:{ destruct l as [|b l]; [by rewrite (proj2 (Z.leb_le _ _)) by (change (zlen []) with 0 in Hi; lia)|].
      rewrite (proj2 (Z.leb_gt _ _)); [done|]. rewrite zlen_cons in Hi. pose proof (zlen_nonneg l). lia. }
  assert (El : zlen (flat_map enc l) = zlen (enc a) + zlen (flat_map enc l) - zlen (enc a)) by lia.
  rewrite (bind_run _ _ m (map view l) m); [done|]. apply IH; [done|simpl in Hf; lia|lia|done|lia|lia|]. by rewrite El at 1.
Qed.
Lemma for_each_idx_run {B} (enc : B -> list Z) (ok : B -> Prop) (next : Z -> Z -> M (option Z)) (visit : Z -> M B) m N l p i fuel :
  (forall a p, ok a -> 0 <= p -> p + zlen (enc a) <= zlen m -> slice m p (zlen (enc a)) = enc a ->
    visit p m = Ret a m /\ forall idx, next p idx m = Ret (if N <=? idx then None else Some (p + zlen (enc a))) m) ->
  (length l <= fuel)%nat -> i + zlen l = N -> Forall ok l -> 0 <= p -> p + zlen (flat_map enc l) <= zlen m ->
  slice m p (zlen (flat_map enc l)) = flat_map enc l ->
  for_each_idx fuel i next visit (if l is [] then None else Some p) m = Ret l m.
Proof. intros. rewrite <- (map_id l) at 2. by apply (for_each_idx_view enc ok id next visit m N). Qed.
(** The loop of [atsc_text_strings_next] over the segments. *)
Lemma skip_segments m : forall segs p i, Forall segment_ok segs -> 0 <= p -> p + zlen (flat_map encode_segment segs) <= zlen m ->
  slice m p (zlen (flat_map encode_segment segs)) = flat_map encode_segment segs ->
  for_upto (length segs) i (fun _ buf => n ← rd8 (buf + 2); mret (buf + sizeof_atsc_text_string_segment + n)) p m =
    Ret (p + zlen (flat_map encode_segment segs)) m.
Proof.
  induction segs as [|s segs IH]; intros p i Hs Hp Hle E.
  { change (zlen (flat_map encode_segment [])) with 0. by rewrite Z.add_0_r. }
  apply Forall_cons_1 in Hs as [Hs Hsegs]. cbn [flat_map length for_upto] in *. rewrite zlen_app in *.
  pose proof (zlen_nonneg (encode_segment s)). pose proof (zlen_nonneg (flat_map encode_segment segs)).
  rewrite (slice_split m p _ (zlen (encode_segment s))) in E by lia.
  apply app_inj_1 in E as [E1 E2]; [|pose proof (zlen_slice_le m p (zlen (encode_segment s))); unfold zlen in *; lia].
  destruct (segment_at m p s Hp ltac:(lia) E1) as (_ & _ & En & _). pose proof (zlen_nonneg (sg_bytes s)).
  rewrite (bind_run _ _ m (p + zlen (encode_segment s)) m).
  2:{ rewrite encode_segment_len in *. rewrite (bind_run _ _ m _ m (rd8_run (p + 2) m ltac:(lia))), En.
      unfold mret, M_ret, sizeof_atsc_text_string_segment. f_equal. lia. }
  rewrite IH; [f_equal; lia|done|lia|lia|].
  replace (zlen (flat_map encode_segment segs)) with (zlen (encode_segment s) + zlen (flat_map encode_segment segs) - zlen (encode_segment s)) at 1 by lia.
  exact E2.
Qed.
Lemma read_string_run m p s : string_ok s -> 0 <= p -> p + zlen (encode_string s) <= zlen m -> slice m p (zlen (encode_string s)) = encode_string s ->
  read_string p m = Ret s m.
Proof.
  intros Hs Hp Hle E. destruct (string_at m p s Hp Hs Hle E) as (E1 & E2 & E3). rewrite encode_string_len in Hle by done.
  destruct Hs as (_ & H3 & Hn & Hsegs). pose proof (zlen_nonneg (flat_map encode_segment (sl_segments s))).
  unfold read_string, atsc_text_string_segments_first. rewrite (bind_run _ _ m _ m (rd_bytes_run p 3 m ltac:(lia) ltac:(lia) ltac:(lia))), E1.
  rewrite (bind_run _ _ m (if sl_segments s is [] then None else Some (p + 4)) m).
  2:{ rewrite (bind_run _ _ m _ m (rd8_run (p + 3) m ltac:(lia))), E2. by destruct (sl_segments s). }
  rewrite (bind_run _ _ m (sl_segments s) m); [by destruct s|].
  apply (for_each_idx_run encode_segment segment_ok _ _ m (zlen (sl_segments s))); [|unfold zlen in Hn; lia|lia|done|lia|lia|done].
  intros a q Ha Hq Hla Ea. destruct (segment_at m q a Hq Hla Ea) as (A0 & A1 & A2 & A3). pose proof (zlen_nonneg (sg_bytes a)).
  rewrite encode_segment_len in *. split.
  - unfold read_segment, atsc_text_string_segment_bytes, sizeof_atsc_text_string_segment.
    rewrite (bind_run _ _ m _ m (rd8_run q m ltac:(lia))), (bind_run _ _ m _ m (rd8_run (q + 1) m ltac:(lia))), (bind_run _ _ m _ m (rd8_run (q + 2) m ltac:(lia))), A2.
    rewrite (bind_run _ _ m _ m (rd_bytes_run (q + 3) (zlen (sg_bytes a)) m ltac:(lia) ltac:(lia) ltac:(lia))), A0, A1, A3. by destruct a.
  - intros idx. unfold atsc_text_string_segments_next. rewrite (bind_run _ _ m _ m (rd8_run (p + 3) m ltac:(lia))), E2.
    destruct (zlen (sl_segments s) <=? idx); [done|]. rewrite (bind_run _ _ m _ m (rd8_run (q + 2) m ltac:(lia))), A2.
    unfold mret, M_ret, sizeof_atsc_text_string_segment. do 2 f_equal. lia.
Qed.
Lemma read_text_run m p strs : text_ok strs -> 0 <= p -> p + zlen (encode_text strs) <= zlen m -> slice m p (zlen (encode_text strs)) = encode_text strs ->
  read_text p m = Ret strs m.
Proof.
  intros [Hn Hstrs] Hp Hle E. unfold encode_text in *. rewrite zlen_cons in *. pose proof (zlen_nonneg (flat_map encode_string strs)).
  rewrite slice_cons in E by lia. injection E as E0 E. unfold read_text, atsc_text_strings_first.
  replace (zlen (flat_map encode_string strs) + 1 - 1) with (zlen (flat_map encode_string strs)) in E by lia.
  rewrite (bind_run _ _ m (if strs is [] then None else Some (p + 1)) m).
  2:{ rewrite (bind_run _ _ m _ m (rd8_run p m ltac:(lia))), E0. by destruct strs. }
  apply (for_each_idx_run encode_string string_ok _ _ m (zlen strs)); [|unfold zlen in Hn; lia|lia|done|lia|lia|by replace (1 + _ - 1) with (zlen (flat_map encode_string strs)) in E by lia].
  intros a q Ha Hq Hla Ea. split; [by apply read_string_run|]. intros idx. unfold atsc_text_strings_next.
  rewrite (bind_run _ _ m _ m (rd8_run p m ltac:(lia))), E0. destruct (zlen strs <=? idx); [done|].
  destruct (string_at m q a Hq Ha Hla Ea) as (_ & A2 & A3). rewrite encode_string_len in * by done.
  pose proof (zlen_nonneg (flat_map encode_segment (sl_segments a))). destruct Ha as (_ & _ & _ & Hsegs).
  rewrite (bind_run _ _ m _ m (rd8_run (q + 3) m ltac:(lia))), A2. unfold zlen at 1. rewrite Nat2Z.id.
  unfold sizeof_atsc_text_string. rewrite (bind_run _ _ m _ m (skip_segments m _ (q + 4) 0 Hsegs ltac:(lia) ltac:(lia) A3)).
  unfold mret, M_ret. do 2 f_equal. lia.
Qed.

(** The check alone. *)
Lemma atsc_text_validate_run m buf len :
  bytes m -> 0 <= buf -> 0 < len -> buf + len <= zlen m ->
  (exists strs, text_ok strs /\ starts encode_text m buf len strs /\ atsc_text_validate buf len m = Ret 0 m) \/
  ((forall strs, text_ok strs -> ~ starts encode_text m buf len strs) /\ atsc_text_validate buf len m = Ret (-1) m).
Proof.
  intros Hb Hbuf Hlen Hl. unfold atsc_text_validate. rewrite (proj2 (Z.eqb_neq len 0)) by lia. unfold catch.
  rewrite (bind_run _ _ m _ m (rd8_run buf m ltac:(lia))). pose proof (zat_range m buf Hb).
  destruct (parses_counted (validate_string buf len) encode_string string_ok m buf len ltac:(lia) prefix_free_string
              (parses_string m Hb buf len ltac:(lia)) (Z.to_nat (m.[buf])) 0 1) as [(strs & [El Hs] & [Hle E] & Er)|[Hno Er]]; [lia| |].
  - left. exists strs. assert (Hn : zlen strs = m.[buf]) by (unfold zlen; lia). assert (Hok : text_ok strs) by (split; [lia|done]).
    pose proof (zlen_nonneg (flat_map encode_string strs)). split; [done|]. split.
    { unfold starts, encode_text. rewrite zlen_cons. split; [lia|]. rewrite slice_cons by lia. f_equal; [done|]. rewrite <- E at 2. f_equal; lia. }
    by rewrite (bind_run _ _ m _ m Er).
  - right. rewrite (bind_null _ _ _ _ Er). split; [|done]. intros strs [Hn Hstrs] [Hle E]. unfold encode_text in *. rewrite zlen_cons in *.
    pose proof (zlen_nonneg (flat_map encode_string strs)). rewrite slice_cons in E by lia. injection E as E0 E. apply (Hno strs).
    + split; [rewrite E0; unfold zlen; lia|done].
    + split; [lia|]. rewrite <- E at 2. f_equal; lia.
Qed.

(** Texts of ATSC tables are accepted exactly when they are texts.  For every buffer and length, the check neither reads
    outside the buffer nor runs for ever; it returns 0 exactly when the buffer begins with the encoding of a list of strings, each a language and a list of
    segments, and the iterators then visit these strings and their segments, once and in order. *)
Theorem atsc_text_correct m buf len :
  bytes m -> 0 <= buf -> 0 < len -> buf + len <= zlen m ->
  (exists strs, text_ok strs /\ starts encode_text m buf len strs /\
     atsc_text_validate buf len m = Ret 0 m /\ read_text buf m = Ret strs m) \/
  ((forall strs, text_ok strs -> ~ starts encode_text m buf len strs) /\ atsc_text_validate buf len m = Ret (-1) m).
Proof.
  intros Hb Hbuf Hlen Hl. destruct (atsc_text_validate_run m buf len Hb Hbuf Hlen Hl) as [(strs & Hok & Hst & E)|?]; [left|by right].
  exists strs. split_and!; [done..|]. destruct Hst. by apply read_text_run; try lia.
Qed.
(** "Hi" in English, in two segments, and a byte behind it. *)
Definition text_example : mem := [1; 101; 110; 103; 2; 0; 0; 1; 72; 0; 0; 1; 105; 255].
Lemma atsc_text_correct_witness :
  exists strs, read_text 0 text_example = Ret strs text_example /\ atsc_text_validate 0 14 text_example = Ret 0 text_example.
Proof.
  destruct (atsc_text_correct text_example 0 14) as [(strs & _ & _ & Ev & Er)|[_ Ev]];
    [repeat constructor; unfold byte; lia|lia|lia|vm_compute; discriminate|exists strs; exact (conj Er Ev)|].
  vm_compute in Ev. discriminate Ev.
Defined.
