(* ===== verification/AtscHuffman.v ===== *)
(** * AtscHuffman: the characters of ATSC texts

    atsc_text.c of libucsi: segments of texts, plain or compressed with the two Huffman tables of the standard, become UTF-8.  A
    compressed character is coded in the context of the one before.  What a reference encoder
    writes is what the decoder reads. *)

From S2P Require Import Prelude Mem Descriptor AtscText.

(** ** The code *)

Definition HUFFTREE_LITERAL_MASK : Z := 0x80.
Definition HUFFSTRING_END : Z := 0x00.
Definition HUFFSTRING_ESCAPE : Z := 0x1b.
Definition DEST_ALLOC_DELTA : Z := 20.
Definition ENOMEM_text : Z := 12.

Record huffbuff := Huffbuff { hb_buf : list Z; hb_len : Z; cur_byte : Z; cur_bit : Z }.
(** A table has a row for each context; the entries of a row that are not written are zero, a row has 128. *)
Definition hufftree : Type := list (list (Z * Z)).
Definition tree_entry (tree : list (Z * Z)) (idx : Z) : Z * Z := default (0, 0) (if decide (0 <= idx) then tree !! Z.to_nat idx else None).
Definition tree_of (t : hufftree) (ctx : Z) : option (list (Z * Z)) := if decide (0 <= ctx) then t !! Z.to_nat ctx else None.

Definition program_description_hufftree : hufftree :=
  [
    [(0x14, 0x15); (0x9b, 0xd6); (0xc9, 0xcf); (0xd7, 0xc7); (0x01, 0xa2); (0xce, 0xcb); (0x02, 0x03); (0xc5, 0xcc);
    (0xc6, 0xc8); (0x04, 0xc4); (0x05, 0xc2); (0x06, 0xc3); (0xd2, 0x07); (0xd3, 0x08); (0xca, 0xd4); (0x09, 0xcd);
    (0xd0, 0x0a); (0xc1, 0x0b); (0x0c, 0x0d); (0x0e, 0x0f); (0x10, 0x11); (0x12, 0x13)];
    [(0x9b, 0x9b)]; [(0x9b, 0x9b)]; [(0x9b, 0x9b)]; [(0x9b, 0x9b)]; [(0x9b, 0x9b)]; [(0x9b, 0x9b)]; [(0x9b, 0x9b)];
    [(0x9b, 0x9b)]; [(0x9b, 0x9b)]; [(0x9b, 0x9b)]; [(0x9b, 0x9b)]; [(0x9b, 0x9b)]; [(0x9b, 0x9b)]; [(0x9b, 0x9b)];
    [(0x9b, 0x9b)]; [(0x9b, 0x9b)]; [(0x9b, 0x9b)]; [(0x9b, 0x9b)]; [(0x9b, 0x9b)]; [(0x9b, 0x9b)]; [(0x9b, 0x9b)];
    [(0x9b, 0x9b)]; [(0x9b, 0x9b)]; [(0x9b, 0x9b)]; [(0x9b, 0x9b)]; [(0x9b, 0x9b)]; [(0x9b, 0x9b)]; [(0x9b, 0x9b)];
    [(0x9b, 0x9b)]; [(0x9b, 0x9b)]; [(0x9b, 0x9b)];
    [(0x38, 0x39); (0xad, 0xaf); (0xb7, 0xda); (0xa8, 0xb3); (0xb5, 0x01); (0x02, 0x9b); (0xb4, 0xf1); (0xa2, 0xd5);
    (0xd6, 0xd9); (0x03, 0x04); (0x05, 0xcf); (0x06, 0xc9); (0xf9, 0xea); (0xeb, 0xf5); (0xf6, 0x07); (0x08, 0x09);
    (0xb2, 0xc5); (0xc6, 0xb1); (0x0a, 0xee); (0xcb, 0x0b); (0xd4, 0x0c); (0xc4, 0xc8); (0xd2, 0x0d); (0x0e, 0x0f);
    (0xc7, 0xca); (0xce, 0xd0); (0xd7, 0x10); (0xc2, 0x11); (0xcc, 0xec); (0xe5, 0xe7); (0x12, 0xcd); (0x13, 0x14);
    (0xc3, 0x15); (0x16, 0x17); (0xed, 0x18); (0x19, 0xf2); (0x1a, 0xd3); (0x1b, 0x1c); (0xe4, 0x1d); (0xc1, 0xe3);
    (0x1e, 0xe9); (0xf0, 0xe2); (0xf7, 0x1f); (0xf3, 0xe6); (0x20, 0x21); (0x22, 0xe8); (0xef, 0x23); (0x24, 0x25);
    (0x26, 0x27); (0x28, 0x29); (0x2a, 0xf4); (0x2b, 0x2c); (0x2d, 0x2e); (0x2f, 0xe1); (0x30, 0x31); (0x32, 0x33);
    (0x34, 0x35); (0x36, 0x37)];
    [(0x9b, 0x9b)];
    [(0x03, 0x04); (0x80, 0xae); (0xc8, 0xd4); (0x01, 0x02); (0x9b, 0xa0)];
    [(0x9b, 0x9b)]; [(0x9b, 0x9b)]; [(0x9b, 0x9b)]; [(0x9b, 0x9b)];
    [(0x02, 0xf3); (0xa0, 0xf4); (0x9b, 0x01)];
    [(0x9b, 0x9b)]; [(0xac, 0x9b)]; [(0x9b, 0x9b)]; [(0x9b, 0x9b)]; [(0x01, 0xa0); (0x9b, 0xa2)];
    [(0x07, 0x08); (0xe2, 0xe4); (0xe5, 0xe6); (0xa0, 0xf2); (0xe1, 0x01); (0x02, 0xf3); (0xe3, 0x03); (0x04, 0x05);
    (0x9b, 0x06)];
    [(0x04, 0x80); (0xca, 0xd3); (0xa2, 0x01); (0x9b, 0x02); (0x03, 0xa0)];
    [(0x9b, 0xa0)];
    [(0x03, 0x04); (0x9b, 0xb7); (0xf4, 0xa0); (0xb0, 0xf3); (0x01, 0x02)];
    [(0xb9, 0x02); (0xb8, 0x9b); (0xa0, 0x01)];
    [(0xae, 0x02); (0xb6, 0x9b); (0x01, 0xa0)];
    [(0xa0, 0x01); (0x9b, 0xb0)]; [(0xae, 0x01); (0x9b, 0xa0)]; [(0xae, 0x01); (0xa0, 0x9b)]; [(0x9b, 0x9b)];
    [(0x9b, 0x01); (0xac, 0xae)]; [(0x9b, 0x9b)];
    [(0x02, 0x03); (0x9b, 0xa0); (0xb5, 0xb6); (0xb8, 0x01)];
    [(0x9b, 0xa0)]; [(0x9b, 0xa0)]; [(0x9b, 0x9b)]; [(0x9b, 0x9b)]; [(0x9b, 0x9b)]; [(0x9b, 0xa0)]; [(0x9b, 0x9b)];
    [(0x08, 0x09); (0xe6, 0xf5); (0xf3, 0xf4); (0x9b, 0xe4); (0x01, 0xed); (0x02, 0x03); (0x04, 0xf2); (0x05, 0x06);
    (0xec, 0xee); (0x07, 0xa0)];
    [(0x05, 0x06); (0x9b, 0xec); (0xf5, 0x01); (0x02, 0xe1); (0xef, 0xe5); (0xe9, 0xf2); (0x03, 0x04)];
    [(0x06, 0x07); (0x9b, 0xe9); (0xf9, 0xf2); (0xf5, 0x01); (0x02, 0x03); (0xec, 0xef); (0xe1, 0x04); (0xe8, 0x05)];
    [(0x05, 0x06); (0xf9, 0xf2); (0xf5, 0x9b); (0xe5, 0xef); (0x01, 0x02); (0xe9, 0xe1); (0x03, 0x04)];
    [(0x06, 0x07); (0xe1, 0xe9); (0xee, 0xf6); (0xe4, 0xec); (0xf3, 0x01); (0x02, 0xf2); (0x03, 0x04); (0x9b, 0x05)];
    [(0x02, 0x03); (0xe5, 0xec); (0x9b, 0xef); (0x01, 0xf2)];
    [(0x05, 0x06); (0xf5, 0xef); (0x9b, 0xec); (0xe9, 0x01); (0xe1, 0xf2); (0x02, 0xe5); (0x03, 0x04)];
    [(0x03, 0x04); (0x9b, 0xe5); (0xe9, 0xf5); (0xe1, 0x01); (0xef, 0x02)];
    [(0x04, 0x05); (0xa0, 0xc9); (0xf3, 0x9b); (0xae, 0xf2); (0x01, 0x02); (0x03, 0xee)];
    [(0xef, 0x05); (0x9b, 0xae); (0xe9, 0xe5); (0x01, 0xf5); (0x02, 0xe1); (0x03, 0x04)];
    [(0xe5, 0x03); (0xe1, 0xe9); (0xf2, 0x9b); (0x01, 0x02)];
    [(0x03, 0x04); (0x9b, 0xe9); (0xf5, 0x01); (0xe5, 0x02); (0xef, 0xe1)];
    [(0xe1, 0x05); (0x9b, 0xe3); (0xef, 0x01); (0xf5, 0xe5); (0x02, 0x03); (0xe9, 0x04)];
    [(0xe5, 0x03); (0x9b, 0xe9); (0x01, 0xe1); (0xef, 0x02)];
    [(0x03, 0x04); (0xa7, 0xee); (0xec, 0xf2); (0xf3, 0x01); (0x9b, 0x02)];
    [(0xe1, 0x06); (0x9b, 0xe8); (0xe9, 0x01); (0xf2, 0xec); (0x02, 0xef); (0x03, 0xe5); (0x04, 0x05)];
    [(0x9b, 0x9b)];
    [(0x03, 0x04); (0x9b, 0xae); (0x01, 0xe9); (0x02, 0xe1); (0xe5, 0xef)];
    [(0x09, 0x0a); (0xf6, 0xf9); (0x01, 0xae); (0xe3, 0xe9); (0xf5, 0x9b); (0xe5, 0xef); (0x02, 0x03); (0xe1, 0x04);
    (0xe8, 0x05); (0x06, 0xf4); (0x07, 0x08)];
    [(0xe8, 0x07); (0xe5, 0xf7); (0xd6, 0xe1); (0x9b, 0xe9); (0xf2, 0x01); (0x02, 0x03); (0x04, 0xef); (0x05, 0x06)];
    [(0xae, 0x01); (0x9b, 0xee)];
    [(0xe9, 0x02); (0xe5, 0x9b); (0xa0, 0x01)];
    [(0x03, 0x04); (0x9b, 0xe8); (0xe5, 0xe1); (0xef, 0x01); (0xe9, 0x02)];
    [(0x9b, 0x9b)]; [(0x9b, 0xef)]; [(0x9b, 0x9b)]; [(0x9b, 0x9b)]; [(0x9b, 0x9b)]; [(0x9b, 0x9b)]; [(0x9b, 0x9b)];
    [(0x9b, 0x9b)]; [(0x9b, 0x9b)];
    [(0x18, 0x19); (0xe8, 0xef); (0xf8, 0x9b); (0xa7, 0xf7); (0xfa, 0x01); (0x02, 0x03); (0x04, 0xe5); (0xae, 0x05);
    (0xe6, 0xe2); (0x06, 0xf6); (0xeb, 0xf5); (0xe9, 0x07); (0xf0, 0xf9); (0xe7, 0x08); (0x09, 0xe4); (0x0a, 0xe3);
    (0x0b, 0xed); (0x0c, 0xf3); (0x0d, 0x0e); (0x0f, 0xec); (0x10, 0xf4); (0x11, 0x12); (0xf2, 0xa0); (0x13, 0x14);
    (0x15, 0xee); (0x16, 0x17)];
    [(0x0b, 0x0c); (0xe4, 0xf3); (0x9b, 0xae); (0xe2, 0x01); (0x02, 0x03); (0xec, 0xa0); (0x04, 0xe9); (0xf2, 0xf5);
    (0x05, 0xf9); (0xe1, 0x06); (0xef, 0x07); (0xe5, 0x08); (0x09, 0x0a)];
    [(0x0f, 0x10); (0xf1, 0xae); (0xc4, 0xf9); (0xac, 0x01); (0xe3, 0x02); (0x9b, 0xf2); (0x03, 0x04); (0xa0, 0xec);
    (0xf5, 0x05); (0x06, 0xe9); (0x07, 0xeb); (0x08, 0xf4); (0x09, 0xe5); (0x0a, 0xef); (0xe1, 0xe8); (0x0b, 0x0c);
    (0x0d, 0x0e)];
    [(0x13, 0x14); (0xa7, 0xbb); (0xe6, 0xed); (0xf7, 0xe7); (0xf6, 0x01); (0x02, 0x9b); (0xee, 0x03); (0x04, 0xec);
    (0x05, 0xf5); (0x06, 0xac); (0xe4, 0xf9); (0xf2, 0x07); (0x08, 0x09); (0xae, 0x0a); (0xef, 0x0b); (0xe1, 0xf3);
    (0x0c, 0xe9); (0x0d, 0x0e); (0x0f, 0x10); (0xe5, 0x11); (0x12, 0xa0)];
    [(0x1d, 0x1e); (0xa9, 0xe8); (0xf5, 0x9b); (0x01, 0xad); (0xbb, 0xeb); (0xfa, 0x02); (0xa7, 0xe6); (0xe2, 0xe7);
    (0x03, 0x04); (0x05, 0x06); (0xe9, 0xf8); (0x07, 0xac); (0xef, 0xf0); (0x08, 0xed); (0xf6, 0xf9); (0x09, 0xf7);
    (0x0a, 0x0b); (0xae, 0x0c); (0xe3, 0x0d); (0xe5, 0xf4); (0x0e, 0x0f); (0xe4, 0x10); (0xec, 0x11); (0xe1, 0x12);
    (0x13, 0x14); (0x15, 0x16); (0xee, 0xf3); (0x17, 0x18); (0xf2, 0xa0); (0x19, 0x1a); (0x1b, 0x1c)];
    [(0x09, 0x0a); (0xae, 0x9b); (0xec, 0x01); (0xf5, 0x02); (0xf4, 0xe6); (0x03, 0xe1); (0xe5, 0xe9); (0x04, 0xf2);
    (0xef, 0x05); (0x06, 0x07); (0xa0, 0x08)];
    [(0x0e, 0x0f); (0xad, 0xe7); (0x9b, 0xa7); (0xf9, 0x01); (0xec, 0x02); (0xac, 0xf2); (0x03, 0xae); (0xf3, 0xf5);
    (0x04, 0x05); (0xef, 0x06); (0x07, 0xe9); (0xe1, 0x08); (0x09, 0xe8); (0x0a, 0x0b); (0xe5, 0x0c); (0xa0, 0x0d)];
    [(0x0d, 0x0e); (0xa7, 0xac); (0xf3, 0xad); (0x01, 0x02); (0x9b, 0xf9); (0xf5, 0xae); (0x03, 0xee); (0x04, 0xf2);
    (0x05, 0x06); (0xf4, 0x07); (0x08, 0x09); (0xef, 0xe1); (0xa0, 0x0a); (0xe9, 0x0b); (0x0c, 0xe5)];
    [(0x14, 0x15); (0xac, 0xe2); (0xf8, 0x9b); (0xae, 0xfa); (0x01, 0xeb); (0x02, 0xa0); (0x03, 0x04); (0xf0, 0x05);
    (0x06, 0xe6); (0xf6, 0x07); (0xe4, 0xed); (0xe7, 0x08); (0xe1, 0xef); (0xf2, 0x09); (0x0a, 0x0b); (0xec, 0x0c);
    (0xe5, 0xe3); (0x0d, 0xf4); (0x0e, 0xf3); (0x0f, 0x10); (0x11, 0xee); (0x12, 0x13)];
    [(0x03, 0xef); (0x9b, 0xe1); (0xe5, 0xf5); (0x01, 0x02)];
    [(0x08, 0x09); (0xec, 0xf9); (0xa7, 0xee); (0x01, 0xac); (0x9b, 0xae); (0x02, 0x03); (0x04, 0xf3); (0x05, 0xe9);
    (0x06, 0xa0); (0x07, 0xe5)];
    [(0x16, 0x17); (0xa7, 0xad); (0xee, 0xe3); (0xeb, 0xf2); (0x9b, 0xe2); (0x01, 0x02); (0xf5, 0x03); (0xf4, 0xac);
    (0x04, 0x05); (0xe6, 0xed); (0xf6, 0x06); (0xae, 0xf0); (0x07, 0x08); (0xf3, 0x09); (0x0a, 0xe4); (0x0b, 0x0c);
    (0xf9, 0x0d); (0xef, 0x0e); (0xe1, 0x0f); (0x10, 0xe9); (0xec, 0x11); (0xa0, 0xe5); (0x12, 0x13); (0x14, 0x15)];
    [(0x0c, 0x0d); (0xa7, 0xbb); (0x9b, 0x01); (0xf9, 0xae); (0xe2, 0x02); (0xed, 0xf3); (0x03, 0xf5); (0xef, 0xf0);
    (0x04, 0x05); (0xe9, 0x06); (0x07, 0x08); (0x09, 0xa0); (0xe1, 0xe5); (0x0a, 0x0b)];
    [(0x19, 0x1a); (0xad, 0xbb); (0xe2, 0xea); (0xed, 0xf2); (0xfa, 0xe6); (0xec, 0x01); (0x02, 0x03); (0x9b, 0xf5);
    (0x04, 0xa7); (0xf6, 0xf9); (0x05, 0x06); (0xeb, 0xef); (0x07, 0x08); (0x09, 0x0a); (0xac, 0x0b); (0x0c, 0xe3);
    (0xae, 0x0d); (0xee, 0xe9); (0x0e, 0xe1); (0x0f, 0xf3); (0x10, 0x11); (0xf4, 0x12); (0xe7, 0xe5); (0x13, 0x14);
    (0xe4, 0x15); (0x16, 0x17); (0xa0, 0x18)];
    [(0x1a, 0x1b); (0xc2, 0x9b); (0xad, 0xac); (0xf8, 0x01); (0xae, 0x02); (0x03, 0xe5); (0xe7, 0xe8); (0xf9, 0xe9);
    (0xeb, 0x04); (0xe3, 0xe1); (0x05, 0xf6); (0x06, 0xe4); (0x07, 0xe2); (0xf0, 0x08); (0x09, 0xf3); (0xf4, 0xf7);
    (0xef, 0x0a); (0x0b, 0x0c); (0x0d, 0xec); (0x0e, 0x0f); (0x10, 0xf5); (0xed, 0x11); (0xe6, 0xa0); (0x12, 0xf2);
    (0x13, 0x14); (0x15, 0xee); (0x16, 0x17); (0x18, 0x19)];
    [(0x0e, 0x0f); (0xad, 0xed); (0xf9, 0x9b); (0xae, 0x01); (0xf3, 0x02); (0x03, 0xf5); (0xf4, 0xf0); (0x04, 0xef);
    (0x05, 0xe9); (0x06, 0xe8); (0xa0, 0xe1); (0xec, 0x07); (0xf2, 0x08); (0xe5, 0x09); (0x0a, 0x0b); (0x0c, 0x0d)];
    [(0x9b, 0xf5)];
    [(0x19, 0x1a); (0xa9, 0xbb); (0xf6, 0xe6); (0x01, 0x9b); (0xad, 0xe2); (0xf0, 0x02); (0xa7, 0x03); (0x04, 0x05);
    (0xf5, 0xe3); (0xac, 0xe7); (0xf2, 0x06); (0xeb, 0x07); (0xec, 0xed); (0xee, 0xf9); (0x08, 0xae); (0x09, 0x0a);
    (0xe4, 0x0b); (0x0c, 0xf4); (0x0d, 0xf3); (0x0e, 0x0f); (0x10, 0xe1); (0xef, 0x11); (0xe9, 0x12); (0x13, 0xe5);
    (0x14, 0xa0); (0x15, 0x16); (0x17, 0x18)];
    [(0xa0, 0x16); (0xa2, 0xa7); (0xe2, 0xeb); (0xed, 0xee); (0x9b, 0xf7); (0x01, 0x02); (0x03, 0xbb); (0xf9, 0xf0);
    (0x04, 0x05); (0xec, 0x06); (0x07, 0x08); (0xf5, 0xe1); (0x09, 0xac); (0xe3, 0x0a); (0xe8, 0x0b); (0xe9, 0x0c);
    (0xef, 0xf3); (0xae, 0x0d); (0x0e, 0xe5); (0x0f, 0x10); (0x11, 0xf4); (0x12, 0x13); (0x14, 0x15)];
    [(0x14, 0x15); (0xbb, 0xe2); (0xad, 0xed); (0x01, 0x9b); (0xa7, 0xe3); (0xac, 0xec); (0xee, 0x02); (0xf7, 0x03);
    (0x04, 0xf9); (0x05, 0x06); (0x07, 0x08); (0xf4, 0xae); (0xf5, 0x09); (0x0a, 0xf2); (0xe1, 0xf3); (0x0b, 0x0c);
    (0x0d, 0xe9); (0x0e, 0x0f); (0xef, 0xe5); (0x10, 0xa0); (0xe8, 0x11); (0x12, 0x13)];
    [(0x11, 0x12); (0xef, 0xf6); (0x9b, 0xeb); (0xf9, 0x01); (0xa0, 0xe2); (0x02, 0xe1); (0x03, 0xed); (0x04, 0xe3);
    (0xe9, 0x05); (0xe4, 0xe5); (0xe7, 0x06); (0xec, 0xf0); (0x07, 0x08); (0x09, 0x0a); (0x0b, 0xf3); (0x0c, 0xf4);
    (0xee, 0x0d); (0xf2, 0x0e); (0x0f, 0x10)];
    [(0x05, 0xe5); (0xf3, 0xf9); (0x9b, 0x01); (0xef, 0x02); (0x03, 0xe1); (0x04, 0xe9)];
    [(0x0a, 0x0b); (0xae, 0x9b); (0xec, 0xed); (0x01, 0x02); (0xf3, 0xee); (0xf2, 0x03); (0xe5, 0x04); (0xe8, 0xa0);
    (0xe1, 0x05); (0xef, 0x06); (0x07, 0x08); (0xe9, 0x09)];
    [(0x05, 0x06); (0xa0, 0xac); (0xad, 0xf4); (0xe9, 0x01); (0x02, 0xe1); (0xe5, 0x03); (0x9b, 0x04)];
    [(0x11, 0xa0); (0xbf, 0xe1); (0xe2, 0xe6); (0xed, 0xe4); (0xe9, 0xf7); (0xa7, 0x01); (0x02, 0xbb); (0x03, 0x04);
    (0xec, 0x05); (0x9b, 0xee); (0x06, 0xef); (0x07, 0xac); (0xe5, 0xf3); (0x08, 0x09); (0x0a, 0xae); (0x0b, 0x0c);
    (0x0d, 0x0e); (0x0f, 0x10)];
    [(0x06, 0x07); (0xa0, 0xae); (0xe1, 0xe5); (0xec, 0xfa); (0x9b, 0xef); (0xe9, 0x01); (0x02, 0x03); (0x04, 0x05)];
    [(0x9b, 0x9b)]; [(0x9b, 0x9b)]; [(0x9b, 0x9b)]; [(0x9b, 0x9b)]].

Definition program_title_hufftree : hufftree :=
  [
    [(0x1b, 0x1c); (0xb4, 0xa4); (0xb2, 0xb7); (0xda, 0x01); (0xd1, 0x02); (0x03, 0x9b); (0x04, 0xd5); (0xd9, 0x05);
    (0xcb, 0xd6); (0x06, 0xcf); (0x07, 0x08); (0xca, 0x09); (0xc9, 0xc5); (0xc6, 0x0a); (0xd2, 0xc4); (0xc7, 0xcc);
    (0xd0, 0xc8); (0xd7, 0xce); (0x0b, 0xc1); (0x0c, 0xc2); (0xcd, 0xc3); (0x0d, 0x0e); (0x0f, 0x10); (0xd3, 0x11);
    (0xd4, 0x12); (0x13, 0x14); (0x15, 0x16); (0x17, 0x18); (0x19, 0x1a)];
    [(0x9b, 0x9b)]; [(0x9b, 0x9b)]; [(0x9b, 0x9b)]; [(0x9b, 0x9b)]; [(0x9b, 0x9b)]; [(0x9b, 0x9b)]; [(0x9b, 0x9b)];
    [(0x9b, 0x9b)]; [(0x9b, 0x9b)]; [(0x9b, 0x9b)]; [(0x9b, 0x9b)]; [(0x9b, 0x9b)]; [(0x9b, 0x9b)]; [(0x9b, 0x9b)];
    [(0x9b, 0x9b)]; [(0x9b, 0x9b)]; [(0x9b, 0x9b)]; [(0x9b, 0x9b)]; [(0x9b, 0x9b)]; [(0x9b, 0x9b)]; [(0x9b, 0x9b)];
    [(0x9b, 0x9b)]; [(0x9b, 0x9b)]; [(0x9b, 0x9b)]; [(0x9b, 0x9b)]; [(0x9b, 0x9b)]; [(0x9b, 0x9b)]; [(0x9b, 0x9b)];
    [(0x9b, 0x9b)]; [(0x9b, 0x9b)]; [(0x9b, 0x9b)];
    [(0x29, 0x2a); (0xd8, 0xe5); (0xb9, 0x01); (0xa7, 0xb1); (0xec, 0xd1); (0x02, 0xad); (0xb2, 0xda); (0xe3, 0xb3);
    (0x03, 0xe4); (0xe6, 0x04); (0x9b, 0xe2); (0x05, 0x06); (0x07, 0x08); (0x09, 0xd5); (0x0a, 0xd6); (0x0b, 0xd9);
    (0x0c, 0xa6); (0xe9, 0xcb); (0xc5, 0xcf); (0x0d, 0x0e); (0xca, 0xc9); (0x0f, 0xc7); (0x10, 0x11); (0xe1, 0x12);
    (0x13, 0xc6); (0xd2, 0xc8); (0xce, 0xc1); (0xc4, 0xd0); (0xcc, 0x14); (0x15, 0xef); (0xc2, 0xd7); (0x16, 0xcd);
    (0x17, 0xf4); (0xd4, 0x18); (0x19, 0x1a); (0xc3, 0xd3); (0x1b, 0x1c); (0x1d, 0x1e); (0x1f, 0x20); (0x21, 0x22);
    (0x23, 0x24); (0x25, 0x26); (0x27, 0x28)];
    [(0x01, 0x80); (0xa0, 0x9b)]; [(0x9b, 0x9b)]; [(0x9b, 0x9b)]; [(0xb1, 0x9b)]; [(0x9b, 0x9b)]; [(0x9b, 0xa0)];
    [(0x04, 0xf3); (0xe4, 0xb9); (0x01, 0xf4); (0xa0, 0x9b); (0x02, 0x03)];
    [(0x9b, 0x9b)]; [(0x9b, 0x9b)];
    [(0x01, 0x02); (0x9b, 0xc1); (0xc8, 0xd3)];
    [(0x9b, 0x9b)]; [(0x9b, 0xa0)];
    [(0x07, 0x08); (0xb1, 0xd2); (0xd3, 0xd4); (0xd5, 0xad); (0xcd, 0xc1); (0x01, 0x02); (0x03, 0xa0); (0x04, 0x9b);
    (0x05, 0x06)];
    [(0xa0, 0x05); (0xc9, 0xd7); (0xd3, 0x01); (0x02, 0x9b); (0xae, 0x80); (0x03, 0x04)];
    [(0x9b, 0x9b)];
    [(0x02, 0x03); (0xad, 0x9b); (0x01, 0x80); (0xa0, 0xb0)];
    [(0x04, 0x05); (0x80, 0x9b); (0xb1, 0xb2); (0xa0, 0xb0); (0xb9, 0x01); (0x02, 0x03)];
    [(0x02, 0x03); (0xb1, 0xba); (0x01, 0xb0); (0x9b, 0x80)];
    [(0x80, 0x01); (0xb0, 0x9b)]; [(0x9b, 0xb8)]; [(0x9b, 0x9b)]; [(0x9b, 0x9b)]; [(0x9b, 0xb0)]; [(0x9b, 0xa0)];
    [(0x02, 0x03); (0xb1, 0xb3); (0xb9, 0xb0); (0x01, 0x9b)];
    [(0x9b, 0xa0)]; [(0x9b, 0x9b)]; [(0x9b, 0x9b)]; [(0x9b, 0x9b)]; [(0x9b, 0x9b)]; [(0x9b, 0x80)]; [(0x9b, 0x9b)];
    [(0x13, 0x14); (0xaa, 0xad); (0xae, 0xf6); (0xe7, 0xf4); (0xe2, 0xe9); (0x01, 0x02); (0xc2, 0xf0); (0x9b, 0xf3);
    (0xe3, 0xe6); (0xf7, 0x03); (0xf5, 0x04); (0x05, 0x06); (0xf2, 0x07); (0x08, 0x09); (0x0a, 0x0b); (0x0c, 0xe4);
    (0xa0, 0x0d); (0xec, 0xee); (0x0e, 0xed); (0x0f, 0x10); (0x11, 0x12)];
    [(0x08, 0x09); (0xc1, 0xd3); (0x9b, 0x01); (0xc3, 0x02); (0xe9, 0xec); (0x03, 0xf2); (0xf5, 0x04); (0xef, 0xe1);
    (0x05, 0xe5); (0x06, 0x07)];
    [(0x0b, 0x0c); (0xc1, 0xf9); (0x01, 0xc2); (0xcf, 0xe5); (0xf5, 0x9b); (0xe9, 0x02); (0xa0, 0x03); (0x04, 0x05);
    (0xf2, 0x06); (0xec, 0x07); (0xe1, 0x08); (0x09, 0xe8); (0x0a, 0xef)];
    [(0x05, 0x06); (0xf9, 0x9b); (0x01, 0xf5); (0x02, 0xf2); (0xe9, 0xe5); (0xef, 0x03); (0xe1, 0x04)];
    [(0x0a, 0x0b); (0xf1, 0xf5); (0xf3, 0x01); (0xed, 0xf9); (0xc3, 0x02); (0xec, 0xee); (0xe4, 0xf8); (0x03, 0x9b);
    (0xf6, 0x04); (0x05, 0xe1); (0x06, 0x07); (0x08, 0x09)];
    [(0x07, 0x08); (0xa0, 0x9b); (0xcc, 0x01); (0xe5, 0x02); (0xec, 0xf5); (0xef, 0x03); (0xe9, 0xf2); (0x04, 0x05);
    (0xe1, 0x06)];
    [(0x09, 0x0a); (0xae, 0xec); (0xf9, 0xc1); (0xe8, 0x01); (0x9b, 0x02); (0x03, 0x04); (0xe1, 0xf5); (0xe9, 0x05);
    (0xe5, 0x06); (0xf2, 0xef); (0x07, 0x08)];
    [(0xef, 0x05); (0x80, 0x9b); (0xf5, 0x01); (0x02, 0xe9); (0xe1, 0x03); (0xe5, 0x04)];
    [(0xee, 0x0b); (0xba, 0xd4); (0xae, 0xf2); (0xe3, 0x01); (0xa0, 0x02); (0x80, 0x9b); (0xed, 0x03); (0xc9, 0xf3);
    (0xf4, 0x04); (0x05, 0x06); (0x07, 0x08); (0x09, 0x0a)];
    [(0x02, 0x03); (0x9b, 0xf5); (0x01, 0xe1); (0xef, 0xe5)];
    [(0x05, 0xe9); (0xe1, 0xef); (0xf5, 0xee); (0x9b, 0xe5); (0x01, 0x02); (0x03, 0x04)];
    [(0x04, 0x05); (0xa0, 0x9b); (0x01, 0xf5); (0x02, 0xe5); (0xef, 0x03); (0xe1, 0xe9)];
    [(0x08, 0x09); (0xaa, 0xd4); (0x01, 0x9b); (0xe3, 0x02); (0xf2, 0x03); (0xe5, 0x04); (0xf5, 0xf9); (0xe9, 0x05);
    (0xef, 0x06); (0x07, 0xe1)];
    [(0xe5, 0x08); (0xce, 0xa0); (0xc6, 0xf5); (0x01, 0x02); (0x9b, 0xc2); (0x03, 0xe1); (0x04, 0xef); (0x05, 0xe9);
    (0x06, 0x07)];
    [(0x09, 0x0a); (0xe4, 0xf3); (0xe6, 0xf6); (0xf7, 0xf0); (0xf2, 0x01); (0xec, 0x02); (0x03, 0xa0); (0x9b, 0x04);
    (0x05, 0xf5); (0x06, 0x07); (0xee, 0x08)];
    [(0x0b, 0x0c); (0xa0, 0xf3); (0xf9, 0xae); (0xd2, 0xc7); (0x01, 0x9b); (0x02, 0xf5); (0x03, 0x04); (0x05, 0xe9);
    (0xec, 0x06); (0xe5, 0x07); (0xef, 0x08); (0xe1, 0x09); (0xf2, 0x0a)];
    [(0x01, 0xf5); (0x9b, 0xd6)];
    [(0x04, 0x05); (0xe8, 0x9b); (0x01, 0xf5); (0x02, 0xe1); (0xe9, 0xef); (0x03, 0xe5)];
    [(0x10, 0x11); (0xaa, 0xec); (0xf1, 0xae); (0xa0, 0xf7); (0xed, 0xee); (0x01, 0x02); (0x9b, 0xeb); (0x03, 0x04);
    (0x05, 0x06); (0xe3, 0x07); (0xef, 0x08); (0xe9, 0xf5); (0x09, 0xe1); (0xe5, 0xf0); (0xe8, 0x0a); (0x0b, 0x0c);
    (0x0d, 0xf4); (0x0e, 0x0f)];
    [(0xe8, 0x0a); (0xad, 0xce); (0x9b, 0x01); (0xd6, 0x02); (0xf5, 0xf7); (0x03, 0x04); (0xe1, 0xe5); (0xe9, 0x05);
    (0xf2, 0x06); (0xef, 0x07); (0x08, 0x09)];
    [(0xee, 0x03); (0xec, 0xae); (0x01, 0x9b); (0x02, 0xf0)];
    [(0x06, 0xe9); (0xa0, 0xc3); (0xef, 0x9b); (0xe5, 0x01); (0x80, 0x02); (0x03, 0xe1); (0x04, 0x05)];
    [(0x06, 0x07); (0xc6, 0xd7); (0x01, 0x9b); (0xf2, 0x02); (0x03, 0xe8); (0xe5, 0xe1); (0x04, 0xe9); (0xef, 0x05)];
    [(0x9b, 0x9b)];
    [(0x02, 0xef); (0xe1, 0x9b); (0x01, 0xe5)];
    [(0x01, 0xef); (0x9b, 0xe1)]; [(0x9b, 0x9b)]; [(0x9b, 0x9b)]; [(0x9b, 0x9b)]; [(0x9b, 0x9b)]; [(0x9b, 0x9b)];
    [(0x9b, 0x9b)];
    [(0x19, 0x1a); (0x9b, 0xba); (0xe5, 0xea); (0xf8, 0x01); (0x02, 0xe6); (0xa7, 0x03); (0xfa, 0xe8); (0x04, 0xf7);
    (0x05, 0xf5); (0xe2, 0x06); (0xeb, 0x07); (0xf0, 0x08); (0x80, 0xf6); (0xe7, 0x09); (0xe4, 0x0a); (0xa0, 0xe9);
    (0x0b, 0xe3); (0xf9, 0x0c); (0x0d, 0xed); (0x0e, 0x0f); (0xf3, 0x10); (0x11, 0xec); (0x12, 0xf4); (0xf2, 0x13);
    (0xee, 0x14); (0x15, 0x16); (0x17, 0x18)];
    [(0x0a, 0x0b); (0xf3, 0x9b); (0xf5, 0xe2); (0x01, 0x80); (0xa0, 0x02); (0xe5, 0xf2); (0xe9, 0x03); (0xec, 0x04);
    (0xf9, 0x05); (0xef, 0x06); (0xe1, 0x07); (0x08, 0x09)];
    [(0x10, 0x11); (0xc3, 0xcc); (0xc7, 0x9b); (0xe3, 0x01); (0x80, 0xec); (0xf9, 0x02); (0xf3, 0x03); (0xf5, 0x04);
    (0x05, 0xf2); (0x06, 0xe9); (0xa0, 0x07); (0x08, 0xef); (0xf4, 0x09); (0x0a, 0xe1); (0x0b, 0xe8); (0xeb, 0xe5);
    (0x0c, 0x0d); (0x0e, 0x0f)];
    [(0x0e, 0x0f); (0xae, 0xf5); (0xf7, 0x01); (0xec, 0x02); (0xe4, 0xe7); (0xf2, 0x03); (0x9b, 0xef); (0x04, 0xf6);
    (0x05, 0x06); (0xf9, 0xf3); (0x07, 0xe9); (0xe1, 0x08); (0x09, 0x80); (0x0a, 0x0b); (0xe5, 0x0c); (0x0d, 0xa0)];
    [(0x1e, 0x1f); (0x9b, 0xa1); (0xad, 0xe8); (0xea, 0xf1); (0xf5, 0xfa); (0x01, 0x02); (0x03, 0x04); (0xba, 0xf8);
    (0xa7, 0xe2); (0xe9, 0x05); (0x06, 0x07); (0xe6, 0xed); (0xe7, 0xeb); (0x08, 0x09); (0xf6, 0xf0); (0x0a, 0xef);
    (0x0b, 0xe3); (0x0c, 0x0d); (0x0e, 0xf9); (0x0f, 0xe4); (0xec, 0x10); (0xe5, 0x11); (0xf4, 0xf7); (0x12, 0x13);
    (0xe1, 0x14); (0x15, 0x16); (0xee, 0xf3); (0x17, 0x80); (0x18, 0x19); (0xf2, 0x1a); (0x1b, 0xa0); (0x1c, 0x1d)];
    [(0xa0, 0x0b); (0xf5, 0x9b); (0x01, 0xec); (0xf3, 0xf2); (0x80, 0xe1); (0x02, 0x03); (0xf4, 0xe9); (0xef, 0xe6);
    (0x04, 0x05); (0x06, 0x07); (0xe5, 0x08); (0x09, 0x0a)];
    [(0x0f, 0x10); (0xba, 0xf9); (0xa7, 0xf4); (0x9b, 0x01); (0xe7, 0xec); (0x02, 0xee); (0x03, 0xef); (0xf5, 0x04);
    (0xf2, 0x05); (0x06, 0xe9); (0x07, 0xf3); (0xe1, 0x08); (0x09, 0x0a); (0x0b, 0xe5); (0x80, 0x0c); (0xe8, 0xa0);
    (0x0d, 0x0e)];
    [(0xe5, 0x0d); (0xe2, 0xf5); (0xf7, 0x9b); (0xec, 0x01); (0xf9, 0xee); (0x02, 0x03); (0x04, 0xf2); (0x05, 0x80);
    (0x06, 0xa0); (0xe1, 0xef); (0x07, 0xf4); (0xe9, 0x08); (0x09, 0x0a); (0x0b, 0x0c)];
    [(0x15, 0x16); (0xa1, 0xf8); (0xe9, 0xeb); (0x01, 0x80); (0x9b, 0xfa); (0xe2, 0x02); (0x03, 0x04); (0xa0, 0xf0);
    (0x05, 0x06); (0x07, 0xe1); (0x08, 0xe6); (0xf2, 0xed); (0xf6, 0x09); (0xe4, 0x0a); (0xef, 0xf4); (0xec, 0xf3);
    (0xe7, 0xe5); (0x0b, 0xe3); (0x0c, 0x0d); (0x0e, 0x0f); (0x10, 0x11); (0x12, 0x13); (0xee, 0x14)];
    [(0xef, 0x01); (0x9b, 0xe1)];
    [(0x0b, 0x0c); (0xd4, 0xef); (0xe6, 0xec); (0xf7, 0xe1); (0x01, 0xba); (0x02, 0x9b); (0xf9, 0x03); (0x04, 0x05);
    (0xf3, 0x06); (0x07, 0x08); (0xe9, 0xa0); (0x09, 0x80); (0xe5, 0x0a)];
    [(0x15, 0x16); (0xa7, 0xba); (0xe3, 0xf7); (0xf2, 0xad); (0xe2, 0x01); (0x02, 0x9b); (0xe6, 0x03); (0xed, 0xf6);
    (0x04, 0xeb); (0x05, 0xf4); (0x06, 0x07); (0x08, 0xf3); (0x09, 0xf5); (0x0a, 0xef); (0x0b, 0x0c); (0x80, 0xf9);
    (0xe1, 0x0d); (0xe4, 0xe9); (0xa0, 0x0e); (0x0f, 0xec); (0xe5, 0x10); (0x11, 0x12); (0x13, 0x14)];
    [(0x0a, 0x0b); (0xf9, 0x9b); (0xf5, 0xf3); (0x01, 0x02); (0xe2, 0xed); (0x80, 0x03); (0xf0, 0xef); (0x04, 0xa0);
    (0x05, 0xe9); (0x06, 0xe1); (0x07, 0x08); (0x09, 0xe5)];
    [(0x18, 0x19); (0xe2, 0xea); (0xf2, 0xe8); (0xec, 0xed); (0xfa, 0x9b); (0x01, 0xf5); (0x02, 0x03); (0xf6, 0x04);
    (0xba, 0xe6); (0x05, 0x06); (0xeb, 0xef); (0x07, 0xa7); (0xf9, 0x08); (0x09, 0x0a); (0x0b, 0xe3); (0x0c, 0xee);
    (0xe1, 0x0d); (0xf3, 0x0e); (0xe9, 0x0f); (0x10, 0xf4); (0x80, 0xe4); (0xe5, 0x11); (0x12, 0xe7); (0xa0, 0x13);
    (0x14, 0x15); (0x16, 0x17)];
    [(0x1b, 0x1c); (0xae, 0xfa); (0xbf, 0x01); (0xa7, 0x9b); (0x02, 0xe9); (0xf8, 0xf9); (0x03, 0xe5); (0xe8, 0x04);
    (0xe1, 0xeb); (0x05, 0xe2); (0x06, 0x07); (0xe3, 0x08); (0xe7, 0xf4); (0x09, 0x80); (0xf6, 0xf0); (0x0a, 0xe4);
    (0x0b, 0xf3); (0xf7, 0x0c); (0x0d, 0xef); (0xec, 0xa0); (0x0e, 0x0f); (0xed, 0xe6); (0x10, 0xf5); (0x11, 0x12);
    (0x13, 0x14); (0x15, 0xf2); (0x16, 0xee); (0x17, 0x18); (0x19, 0x1a)];
    [(0x0e, 0x0f); (0xed, 0xa7); (0x9b, 0xe4); (0x01, 0xf9); (0xf3, 0xf2); (0xf4, 0x02); (0xe8, 0x03); (0xec, 0xf0);
    (0x04, 0xe1); (0xe9, 0x05); (0x06, 0x80); (0xa0, 0x07); (0x08, 0x09); (0x0a, 0xe5); (0xef, 0x0b); (0x0c, 0x0d)];
    [(0x9b, 0xf5)];
    [(0x18, 0x19); (0xba, 0xac); (0xf6, 0x9b); (0xf0, 0xe2); (0x01, 0xe6); (0x02, 0xa7); (0xae, 0xe7); (0x03, 0xe3);
    (0xf5, 0x04); (0xed, 0x05); (0x06, 0x07); (0xeb, 0x08); (0x09, 0xee); (0xf2, 0x0a); (0xe4, 0x0b); (0xf9, 0xec);
    (0x0c, 0x0d); (0xf4, 0x80); (0x0e, 0xef); (0xf3, 0xa0); (0xe1, 0x0f); (0xe9, 0x10); (0x11, 0xe5); (0x12, 0x13);
    (0x14, 0x15); (0x16, 0x17)];
    [(0x19, 0x1a); (0xa7, 0xac); (0xbf, 0xc3); (0xc8, 0xe4); (0xe6, 0xed); (0xf2, 0xae); (0xec, 0xee); (0xf9, 0x01);
    (0x02, 0x03); (0x04, 0xba); (0x05, 0x9b); (0xf5, 0x06); (0x07, 0x08); (0x09, 0xeb); (0xf0, 0x0a); (0x0b, 0x0c);
    (0xe1, 0xe3); (0x0d, 0xe8); (0x0e, 0x0f); (0xef, 0x10); (0x11, 0xf3); (0x12, 0xe9); (0x13, 0xe5); (0x14, 0x15);
    (0xf4, 0x16); (0x17, 0xa0); (0x18, 0x80)];
    [(0x14, 0x15); (0xba, 0xbf); (0xe4, 0xf7); (0x9b, 0xa7); (0x01, 0xee); (0x02, 0x03); (0x04, 0xe3); (0xe2, 0xed);
    (0x05, 0xf9); (0x06, 0xf4); (0x07, 0xec); (0x08, 0xf5); (0xf2, 0x09); (0xe1, 0xf3); (0x0a, 0xef); (0x0b, 0x0c);
    (0x0d, 0xe9); (0x80, 0xe5); (0x0e, 0xa0); (0x0f, 0xe8); (0x10, 0x11); (0x12, 0x13)];
    [(0x11, 0x12); (0xeb, 0xfa); (0x80, 0xe6); (0x9b, 0x01); (0xa0, 0x02); (0x03, 0xe9); (0xe1, 0x04); (0xe4, 0xf0);
    (0xed, 0xe2); (0xe3, 0xe7); (0xec, 0x05); (0xe5, 0x06); (0x07, 0x08); (0x09, 0xf4); (0x0a, 0x0b); (0x0c, 0xf3);
    (0xee, 0x0d); (0x0e, 0xf2); (0x0f, 0x10)];
    [(0x04, 0xe5); (0xf3, 0xef); (0x9b, 0x01); (0xe1, 0x02); (0x03, 0xe9)];
    [(0x0b, 0x0c); (0xa7, 0xe2); (0xec, 0xe3); (0xf2, 0x01); (0x9b, 0x02); (0x03, 0x04); (0xe9, 0xef); (0xee, 0xe5);
    (0xe1, 0x80); (0x05, 0xa0); (0x06, 0x07); (0x08, 0x09); (0xf3, 0x0a)];
    [(0x05, 0x06); (0x9b, 0xa0); (0xe1, 0xe5); (0xe9, 0x01); (0x80, 0xf0); (0x02, 0xf4); (0x03, 0x04)];
    [(0xa0, 0x13); (0xe3, 0xad); (0xe4, 0xe9); (0xee, 0xef); (0xf0, 0xf4); (0xf6, 0xa1); (0xe1, 0xed); (0x01, 0xe2);
    (0x02, 0x03); (0x04, 0xa7); (0x05, 0x06); (0xf7, 0x07); (0x9b, 0xec); (0x08, 0xe5); (0x09, 0x0a); (0x0b, 0x0c);
    (0x0d, 0x0e); (0xf3, 0x0f); (0x10, 0x11); (0x80, 0x12)];
    [(0x05, 0x06); (0xe5, 0xfa); (0xa0, 0xf9); (0x9b, 0x01); (0x80, 0xe9); (0x02, 0xe1); (0x03, 0x04)];
    [(0x9b, 0x9b)]; [(0x9b, 0x9b)]; [(0x9b, 0x9b)]; [(0x9b, 0x9b)]].

Definition huffbuff_init (buf : list Z) (buf_len : Z) : huffbuff := Huffbuff buf buf_len 0 0.
Fixpoint bits_loop (nbits : nat) (result : Z) (h : huffbuff) : option (Z * huffbuff) :=
  match nbits with
  | O => Some (result, h)
  | S nbits =>
      if hb_len h <=? cur_byte h then Some (-1, h) else
      v ← zget (hb_buf h) (cur_byte h);
      let result := u8 (Z.shiftl result 1) in
      let result := if Z.land v (Z.shiftr 0x80 (cur_bit h)) =? 0 then result else Z.lor result 1 in
      bits_loop nbits result
        (if 7 <? cur_bit h + 1 then Huffbuff (hb_buf h) (hb_len h) (cur_byte h + 1) 0
         else Huffbuff (hb_buf h) (hb_len h) (cur_byte h) (cur_bit h + 1))
  end.
Definition huffbuff_bits (h : huffbuff) (nbits : Z) : option (Z * huffbuff) :=
  if 8 <? nbits then Some (-1, h) else bits_loop (Z.to_nat nbits) 0 h.

(** The buffer of the caller with its size, and the place behind the text; no object is so large that their sum wraps. *)
Record dest := Dest { d_buf : list Z; d_size : Z; d_pos : Z }.

Section decode.
(** The block with its contents, of a new size. *)
Context (realloc : list Z -> Z -> option (list Z)).

Definition append_unicode_char (c : Z) (d : dest) : option (Z * dest) :=
  let tmp :=
    if c <? 0x80 then Some [u8 c]
    else if c <? 0x800 then Some [Z.lor 0xc0 (Z.land (Z.shiftr c 6) 0x1f); Z.lor 0x80 (Z.land c 0x3f)]
    else if c <? 0x10000 then Some [Z.lor 0xe0 (Z.land (Z.shiftr c 12) 0x0f); Z.lor 0x80 (Z.land (Z.shiftr c 6) 0x3f); Z.lor 0x80 (Z.land c 0x3f)]
    else None in
  match tmp with
  | None => Some (-1, d)
  | Some tmp =>
      match
        (if d_size d <=? d_pos d + zlen tmp
         then option_map (fun b => Dest b (d_size d + DEST_ALLOC_DELTA) (d_pos d)) (realloc (d_buf d) (d_size d + DEST_ALLOC_DELTA))
         else Some d)
      with
      | None => Some (- ENOMEM_text, d)
      | Some d =>
          if decide (0 <= d_pos d /\ d_pos d + zlen tmp <= zlen (d_buf d))
          then Some (0, Dest (zsplice (d_buf d) (d_pos d) tmp) (d_size d) (d_pos d + zlen tmp)) else None
      end
  end.

(** A position that is returned is an [int]. *)
Definition pos_result (d : dest) : Z := s32 (d_pos d).
(** [srcbuf] from the first byte on; [i] is the index of the next. *)
Fixpoint unicode_loop (n : nat) (srcbuf : list Z) (i msb : Z) (d : dest) : option (Z * dest) :=
  match n with
  | O => Some (pos_result d, d)
  | S n =>
      c ← zget srcbuf i;
      '(r, d) ← append_unicode_char (msb + c) d;
      if r =? 0 then unicode_loop n srcbuf (i + 1) msb d else Some (-1, d)
  end.
Definition unicode_decode (srcbuf : list Z) (srcbuflen mode : Z) (d : dest) : option (Z * dest) :=
  unicode_loop (Z.to_nat srcbuflen) srcbuf 0 (Z.shiftl mode 8) d.

Fixpoint uncompressed_loop (fuel : nat) (h : huffbuff) (d : dest) : option (Z * huffbuff * dest) :=
  match fuel with
  | O => None
  | S fuel =>
      if negb (cur_byte h <? hb_len h) then Some (HUFFSTRING_END, h, d) else
      '(c, h) ← huffbuff_bits h 8;
      if c <? 0 then Some (-1, h, d)
      else if c =? HUFFSTRING_END then Some (0, h, d)
      else if c =? HUFFSTRING_ESCAPE then Some (HUFFSTRING_ESCAPE, h, d)
      else
        '(r, d) ← append_unicode_char c d;
        if negb (r =? 0) then Some (-1, h, d)
        else if Z.land c 0x80 =? 0 then Some (c, h, d)
        else uncompressed_loop fuel h d
  end.
Definition huffman_decode_uncompressed (h : huffbuff) (d : dest) : option (Z * huffbuff * dest) :=
  uncompressed_loop (S (Z.to_nat (hb_len h))) h d.

(** The loop takes a bit in each turn; [ctx] is the row that [tree] points to. *)
Fixpoint huffman_loop (fuel : nat) (t : hufftree) (ctx : Z) (treeidx : Z) (h : huffbuff) (d : dest) : option (Z * dest) :=
  match fuel with
  | O => None
  | S fuel =>
      if negb (cur_byte h <? hb_len h) then Some (pos_result d, d) else
      '(bit, h) ← huffbuff_bits h 1;
      if bit <? 0 then Some (pos_result d, d) else
      tree ← tree_of t ctx;
      let treeval := if bit =? 0 then (tree_entry tree treeidx).1 else (tree_entry tree treeidx).2 in
      if negb (Z.land treeval HUFFTREE_LITERAL_MASK =? 0) then
        let c := Z.land treeval 0x7f in
        if c =? HUFFSTRING_END then Some (0, d)
        else if c =? HUFFSTRING_ESCAPE then
          '(tmp, h, d) ← huffman_decode_uncompressed h d;
          if tmp <? 0 then Some (tmp, d)
          else if tmp =? 0 then Some (pos_result d, d)
          else huffman_loop fuel t tmp 0 h d
        else
          '(r, d) ← append_unicode_char c d;
          if negb (r =? 0) then Some (-1, d) else
          huffman_loop fuel t c 0 h d
      else huffman_loop fuel t ctx treeval h d
  end.
Definition huffman_decode (src : list Z) (srclen : Z) (t : hufftree) (d : dest) : option (Z * dest) :=
  huffman_loop (S (Z.to_nat (8 * srclen))) t 0 0 (huffbuff_init src srclen) d.

Definition ATSC_TEXT_COMPRESS_NONE : Z := 0.
Definition ATSC_TEXT_COMPRESS_PROGRAM_TITLE : Z := 1.
Definition ATSC_TEXT_COMPRESS_PROGRAM_DESCRIPTION : Z := 2.
Definition ATSC_TEXT_SEGMENT_MODE_UNICODE_RANGE_MAX : Z := 0x33.
(** The segment at [p] of an object [m]. *)
Definition atsc_text_segment_decode (m : list Z) (p : Z) (d : dest) : option (Z * dest) :=
  compression_type ← zget m p;
  mode ← zget m (p + 1);
  if ATSC_TEXT_SEGMENT_MODE_UNICODE_RANGE_MAX <? mode then Some (-1, d)
  else if negb (mode =? 0) && negb (compression_type =? 0) then Some (-1, d)
  else
    number_bytes ← zget m (p + 2);
    let buf := atsc_text_string_segment_bytes p in
    if compression_type =? ATSC_TEXT_COMPRESS_NONE then unicode_decode (zdrop buf m) number_bytes mode d
    else if compression_type =? ATSC_TEXT_COMPRESS_PROGRAM_TITLE then huffman_decode (zdrop buf m) number_bytes program_title_hufftree d
    else if compression_type =? ATSC_TEXT_COMPRESS_PROGRAM_DESCRIPTION then huffman_decode (zdrop buf m) number_bytes program_description_hufftree d
    else Some (-1, d).
End decode.

(** ** Specification *)

(** UTF-8 of a character below 65536. *)
Definition utf8 (c : Z) : list Z :=
  if c <? 128 then [c]
  else if c <? 2048 then [192 + c / 64; 128 + c mod 64]
  else [224 + c / 4096; 128 + c / 64 mod 64; 128 + c mod 64].

(** A byte, the highest bit first. *)
Definition byte_bits (v : Z) : list bool := map (fun k => Z.testbit v (7 - Z.of_nat k)) (seq 0 8).
Definition bits_byte (l : list bool) : Z := fold_left (fun v (b : bool) => 2 * v + Z.b2z b) l 0.
(** Bytes that hold some bits, the last filled with zeros. *)
Fixpoint pack_fuel (fuel : nat) (l : list bool) : list Z :=
  match fuel with
  | O => []
  | S fuel => match l with [] => [] | _ => bits_byte (take 8 (l ++ replicate 8 false)) :: pack_fuel fuel (drop 8 l) end
  end.
Definition pack (l : list bool) : list Z := pack_fuel (length l) l.

(** The way from an entry of a row to the leaf of a character. *)
Definition is_leaf (v c : Z) : bool := v =? 128 + c.
Definition is_node (v : Z) : bool := (0 <=? v) && (v <? 128).
Fixpoint find_path (fuel : nat) (tree : list (Z * Z)) (idx c : Z) : option (list bool) :=
  match fuel with
  | O => None
  | S fuel =>
      let '(l, r) := tree_entry tree idx in
      if is_leaf l c then Some [false]
      else if is_leaf r c then Some [true]
      else match (if is_node l then find_path fuel tree l c else None) with
           | Some p => Some (false :: p)
           | None => if is_node r then p ← find_path fuel tree r c; Some (true :: p) else None
           end
  end.
Definition code (tree : list (Z * Z)) (c : Z) : option (list bool) := find_path 128 tree 0 c.

(** The encoder, in the context of a character below 128, or behind one above, which is not coded.  A character that
    has no code, or the end, is written behind an escape. *)
Definition next_context (c : Z) : option Z := if c <? 128 then Some c else None.
Fixpoint huff_encode (t : hufftree) (s : list Z) (context : option Z) : option (list bool) :=
  match context with
  | None =>
      match s with
      | [] => Some (byte_bits 0)
      | c :: s => bits ← huff_encode t s (next_context c); Some (byte_bits c ++ bits)
      end
  | Some ctx =>
      tree ← tree_of t ctx;
      match s with
      | [] => match code tree 0 with Some p => Some p | None => p ← code tree 27; Some (p ++ byte_bits 0) end
      | c :: s =>
          match (if c <? 128 then code tree c else None) with
          | Some p => bits ← huff_encode t s (Some c); Some (p ++ bits)
          | None => p ← code tree 27; bits ← huff_encode t s (next_context c); Some (p ++ byte_bits c ++ bits)
          end
      end
  end.
(** All characters of Latin-1 but the two marks and, since the tables have no row 127, the character before 128. *)
Definition char_ok (c : Z) : Prop := 1 <= c < 256 /\ c <> 27 /\ c <> 127.

(** ** Bits *)

Lemma byte_bits_len v : length (byte_bits v) = 8%nat.
Proof. done. Qed.
Lemma bits_byte_bits l : length l = 8%nat -> byte_bits (bits_byte l) = l /\ byte (bits_byte l).
Proof.
  intros Hl. do 8 (destruct l as [|[] l]; [done| |]); destruct l; try done; (split; [reflexivity|by vm_compute]).
Qed.
Lemma pack_bits : forall fuel l, (length l <= fuel)%nat -> exists pad, flat_map byte_bits (pack_fuel fuel l) = l ++ pad.
Proof.
  induction fuel as [|fuel IH]; intros l Hl; [destruct l; [by exists []|simpl in Hl; lia]|].
  cbn [pack_fuel]. destruct l as [|b l]; [by exists []|]. set (k := b :: l) in *.
  assert (Ht : length (take 8 (k ++ replicate 8 false)) = 8%nat) by (rewrite length_take, length_app, length_replicate; lia).
  destruct (IH (drop 8 k)) as [pad E]; [rewrite length_drop; subst k; simpl in *; lia|].
  cbn [flat_map]. rewrite E, (proj1 (bits_byte_bits _ Ht)). destruct (decide (8 <= length k)%nat).
  - exists pad. rewrite take_app_le by lia. by rewrite app_assoc, take_drop.
  - exists (take (8 - length k) (replicate 8 false) ++ pad). rewrite take_app_ge, drop_ge by lia. cbn [app]. by rewrite <- app_assoc.
Qed.
Lemma pack_bytes l : bytes (pack l).
Proof.
  unfold pack. generalize (length l) as fuel. intros fuel. revert l.
  induction fuel as [|fuel IH]; intros [|b l]; try by constructor. cbn [pack_fuel]. constructor; [|by apply IH].
  apply bits_byte_bits. rewrite length_take, length_app, length_replicate. lia.
Qed.
Lemma bits_length l : length (flat_map byte_bits l) = (8 * length l)%nat.
Proof. induction l as [|v l IH]; [done|]. cbn [flat_map length]. rewrite length_app, byte_bits_len, IH. lia. Qed.
Lemma bits_at l i j v : l !! i = Some v -> (j < 8)%nat -> flat_map byte_bits l !! (8 * i + j)%nat = Some (Z.testbit v (7 - Z.of_nat j)).
Proof.
  revert i. induction l as [|w l IH]; intros [|i] E Hj; try done.
  - simplify_eq/=. do 8 (destruct j as [|j]; [done|]). lia.
  - cbn [flat_map]. rewrite lookup_app_r by (rewrite byte_bits_len; lia). rewrite byte_bits_len, <- (IH i) by done. f_equal. lia.
Qed.

(** What is still to be read. *)
Definition hb_ok (h : huffbuff) : Prop := 0 <= cur_byte h <= hb_len h /\ 0 <= cur_bit h < 8 /\ hb_len h <= zlen (hb_buf h).
Definition hbits (h : huffbuff) : list bool := drop (Z.to_nat (8 * cur_byte h + cur_bit h)) (flat_map byte_bits (ztake (hb_len h) (hb_buf h))).

Lemma land_bit v k : 0 <= k < 8 -> (Z.land v (Z.shiftr 128 k) =? 0) = negb (Z.testbit v (7 - k)).
Proof.
  intros Hk. assert (E : Z.shiftr 128 k = 2 ^ (7 - k)).
  { assert (k = 0 \/ k = 1 \/ k = 2 \/ k = 3 \/ k = 4 \/ k = 5 \/ k = 6 \/ k = 7) as H by lia.
    by repeat (destruct H as [-> | H]; [reflexivity|]); rewrite H. }
  rewrite E. destruct (Z.testbit v (7 - k)) eqn:Eb; cbn [negb]; [apply Z.eqb_neq|apply Z.eqb_eq].
  - intros H. apply (f_equal (fun x => Z.testbit x (7 - k))) in H. rewrite Z.land_spec, Eb, Z.pow2_bits_true, Z.bits_0 in H by lia. done.
  - apply Z.bits_inj'. intros n Hn. rewrite Z.land_spec, Z.bits_0. destruct (decide (n = 7 - k)) as [->|]; [by rewrite Eb|].
    rewrite Z.pow2_bits_false by lia. apply andb_false_r.
Qed.
Definition next_bit (h : huffbuff) : huffbuff :=
  if 7 <? cur_bit h + 1 then Huffbuff (hb_buf h) (hb_len h) (cur_byte h + 1) 0
  else Huffbuff (hb_buf h) (hb_len h) (cur_byte h) (cur_bit h + 1).
Lemma next_bit_len h : hb_len (next_bit h) = hb_len h.
Proof. unfold next_bit. by destruct (7 <? cur_bit h + 1). Qed.
Lemma take_bit h b rest : hb_ok h -> hbits h = b :: rest ->
  cur_byte h < hb_len h /\ hb_ok (next_bit h) /\ hbits (next_bit h) = rest /\
  forall n r, 0 <= r < 128 -> bits_loop (S n) r h = bits_loop n (2 * r + Z.b2z b) (next_bit h).
Proof.
  intros (Hc & Hb & Hl) E. unfold hbits in E. set (bits := flat_map byte_bits (ztake (hb_len h) (hb_buf h))) in *.
  assert (Hlen : length bits = Z.to_nat (8 * hb_len h)).
  { subst bits. rewrite bits_length. pose proof (zlen_ztake (hb_len h) (hb_buf h) ltac:(lia)). unfold zlen in *. lia. }
  pose proof (f_equal length E) as El. rewrite length_drop, Hlen in El. simpl in El.
  assert (Hlt : cur_byte h < hb_len h) by lia. split; [done|].
  assert (Hv : hb_buf h !! Z.to_nat (cur_byte h) = Some (zat (hb_buf h) (cur_byte h))).
  { pose proof (zget_in (hb_buf h) (cur_byte h) ltac:(lia)) as Hz. unfold zget in Hz. by rewrite decide_True in Hz by lia. }
  assert (Hbit : b = Z.testbit (zat (hb_buf h) (cur_byte h)) (7 - cur_bit h)).
  { assert (H0 : bits !! Z.to_nat (8 * cur_byte h + cur_bit h) = Some b) by (rewrite <- (Nat.add_0_r (Z.to_nat _)), <- lookup_drop, E; done).
    replace (Z.to_nat (8 * cur_byte h + cur_bit h)) with (8 * Z.to_nat (cur_byte h) + Z.to_nat (cur_bit h))%nat in H0 by lia.
    subst bits. rewrite (bits_at _ _ _ (zat (hb_buf h) (cur_byte h))) in H0; [|unfold ztake; rewrite lookup_take_lt by lia; done|lia].
    rewrite Z2Nat.id in H0 by lia. by simplify_eq. }
  assert (Hnext : hb_ok (next_bit h) /\ hbits (next_bit h) = rest).
  { assert (Hr : rest = drop (S (Z.to_nat (8 * cur_byte h + cur_bit h))) bits).
    { by rewrite <- Nat.add_1_r, <- drop_drop, E. }
    rewrite Hr. unfold next_bit, hb_ok, hbits. destruct (Z.ltb_spec 7 (cur_bit h + 1)); cbn [hb_buf hb_len cur_byte cur_bit]; fold bits;
      (split; [lia|f_equal; lia]). }
  split; [apply Hnext|]. split; [apply Hnext|]. intros n r Hrr. cbn [bits_loop]. rewrite (proj2 (Z.leb_gt _ _)) by lia.
  rewrite (zget_in (hb_buf h)) by lia. cbn [mbind option_bind]. fold (next_bit h). f_equal.
  change 0x80 with 128. rewrite land_bit by lia. rewrite <- Hbit.
  assert (Es : Z.shiftl r 1 = 2 * r) by (rewrite Z.shiftl_mul_pow2 by lia; lia). rewrite u8_small by lia.
  destruct b; cbn [negb Z.b2z]; [rewrite lor_shiftl_add by lia|rewrite Es]; lia.
Qed.
Definition bits_value (r : Z) (l : list bool) : Z := fold_left (fun v (b : bool) => 2 * v + Z.b2z b) l r.
Lemma take_bits : forall l rest h r, hb_ok h -> hbits h = l ++ rest -> 0 <= r -> (r + 1) * 2 ^ zlen l <= 256 ->
  exists h', hb_ok h' /\ hbits h' = rest /\ hb_len h' = hb_len h /\ bits_loop (length l) r h = Some (bits_value r l, h').
Proof.
  induction l as [|b l IH]; intros rest h r Hh E Hr Hb; [by exists h|]. destruct (take_bit h b (l ++ rest) Hh E) as (_ & Hh1 & E1 & Hstep).
  rewrite zlen_cons, Z.pow_add_r in Hb by (pose proof (zlen_nonneg l); lia). change (2 ^ 1) with 2 in Hb.
  assert (H1 : 1 <= 2 ^ zlen l) by (pose proof (Z.pow_pos_nonneg 2 (zlen l) ltac:(lia) (zlen_nonneg l)); lia).
  assert (Hr7 : r < 128) by nia. cbn [length]. rewrite Hstep by lia.
  destruct (IH rest (next_bit h) (2 * r + Z.b2z b)) as (h' & H & Hrest & Hl & ->); [done|done|destruct b; cbn; lia|destruct b; cbn [Z.b2z]; nia|].
  exists h'. split_and!; [done..| |done]. by rewrite Hl, next_bit_len.
Qed.
Lemma bits_byte_value v : byte v -> bits_byte (byte_bits v) = v.
Proof.
  intros Hv. apply Z.eqb_eq. assert (H : forallb (fun v => bits_byte (byte_bits v) =? v) (seqZ 0 256) = true) by by vm_compute.
  rewrite forallb_forall in H. apply H. apply list_elem_of_In, elem_of_seqZ. unfold byte in Hv. lia.
Qed.
Lemma take_byte h v rest : hb_ok h -> byte v -> hbits h = byte_bits v ++ rest ->
  cur_byte h < hb_len h /\ exists h', hb_ok h' /\ hbits h' = rest /\ hb_len h' = hb_len h /\ huffbuff_bits h 8 = Some (v, h').
Proof.
  intros Hh Hv E. assert (E1 : exists b l, byte_bits v = b :: l) by (by eexists _, _). destruct E1 as (b & l & Ev).
  split; [apply (take_bit h b (l ++ rest) Hh); by rewrite E, Ev|].
  destruct (take_bits (byte_bits v) rest h 0 Hh E) as (h' & H1 & H2 & H3 & H4); [lia|by vm_compute|]. exists h'. split_and!; try done.
  unfold huffbuff_bits. cbn [Z.ltb Z.compare Pos.compare Pos.compare_cont]. change (Z.to_nat 8) with (length (byte_bits v)).
  rewrite H4. do 2 f_equal. by apply (bits_byte_value v).
Qed.

(** ** The buffer *)

Definition dest_ok (d : dest) : Prop := zlen (d_buf d) = d_size d /\ 0 <= d_pos d <= d_size d.
Definition dest_text (d : dest) : list Z := ztake (d_pos d) (d_buf d).

Lemma utf8_len c : 1 <= zlen (utf8 c) <= 3.
Proof. unfold utf8. repeat case_match; by vm_compute. Qed.

(** What [realloc] promises when there is memory. *)
Definition realloc_ok (realloc : list Z -> Z -> option (list Z)) : Prop :=
  forall b n, zlen b <= n -> exists b', realloc b n = Some b' /\ zlen b' = n /\ ztake (zlen b) b' = b.

Section decoded.
Context (realloc : list Z -> Z -> option (list Z)) (Hrealloc : realloc_ok realloc).

Lemma zsplice_text b pos src : 0 <= pos -> pos + zlen src <= zlen b -> ztake (pos + zlen src) (zsplice b pos src) = ztake pos b ++ src.
Proof.
  intros Hp Hl. pose proof (zlen_nonneg src). apply zlist_eq.
  - rewrite zlen_app, !zlen_ztake; rewrite ?zlen_zsplice by lia; lia.
  - rewrite zlen_ztake by (rewrite zlen_zsplice by lia; lia). intros j Hj. rewrite zat_ztake, zat_zsplice by lia.
    case_decide as Hd.
    + rewrite zat_app, zlen_ztake, decide_False by lia. done.
    + rewrite zat_app, zlen_ztake, decide_True, zat_ztake by lia. done.
Qed.
Lemma append_spec c d : 0 <= c < 65536 -> dest_ok d ->
  exists d', append_unicode_char realloc c d = Some (0, d') /\ dest_ok d' /\ dest_text d' = dest_text d ++ utf8 c.
Proof.
  intros Hc [Hl Hp]. unfold append_unicode_char. set (tmp := if c <? 128 then _ else _). assert (Etmp : tmp = Some (utf8 c)).
  { subst tmp. unfold utf8. change 0x80 with 128. change 0x800 with 2048. change 0x10000 with 65536.
    destruct (Z.ltb_spec c 128); [by rewrite u8_small by lia|]. rewrite (proj2 (Z.ltb_lt c 65536)) by lia.
    change 0x3f with (Z.ones 6). change 0x1f with (Z.ones 5). change 0x0f with (Z.ones 4). rewrite !Z.land_ones, !Z.shiftr_div_pow2 by lia.
    change (2 ^ 6) with 64. change (2 ^ 5) with 32. change (2 ^ 4) with 16. change (2 ^ 12) with 4096.
    assert (Hor : forall n k a, 0 <= k -> 0 <= n -> 0 <= a < 2 ^ k -> Z.lor (n * 2 ^ k) a = n * 2 ^ k + a).
    { intros n k a Hk Hn Ha. rewrite <- lor_shiftl_add by done. by rewrite Z.shiftl_mul_pow2. }
    change 0xc0 with (6 * 2 ^ 5). change 128 with (2 * 2 ^ 6). change 0xe0 with (14 * 2 ^ 4).
    change (2 ^ 5) with 32 in *. destruct (Z.ltb_spec c 2048).
    - rewrite (Hor 6 5), (Hor 2 6) by (try change (2 ^ 5) with 32; try change (2 ^ 6) with 64; lia).
      rewrite (Z.mod_small (c / 64)) by lia. done.
    - rewrite (Hor 14 4), !(Hor 2 6) by (try change (2 ^ 4) with 16; try change (2 ^ 6) with 64; lia).
      rewrite (Z.mod_small (c / 4096)) by lia. done. }
  rewrite Etmp. pose proof (utf8_len c).
  assert (Hfit : exists d1, (if d_size d <=? d_pos d + zlen (utf8 c)
      then option_map (fun b => Dest b (d_size d + DEST_ALLOC_DELTA) (d_pos d)) (realloc (d_buf d) (d_size d + DEST_ALLOC_DELTA))
      else Some d) = Some d1 /\ zlen (d_buf d1) = d_size d1 /\ d_pos d1 = d_pos d /\ d_pos d + zlen (utf8 c) <= d_size d1 /\ dest_text d1 = dest_text d).
  { destruct (Z.leb_spec (d_size d) (d_pos d + zlen (utf8 c))); [|exists d; split_and!; done || lia].
    destruct (Hrealloc (d_buf d) (d_size d + DEST_ALLOC_DELTA)) as (b & -> & Hb & Ht); [unfold DEST_ALLOC_DELTA; lia|].
    eexists. split; [reflexivity|]. unfold DEST_ALLOC_DELTA in *. cbn [d_buf d_size d_pos]. split_and!; [done|done|lia|].
    unfold dest_text. cbn [d_buf d_pos]. rewrite <- Ht. by rewrite ztake_ztake by lia. }
  destruct Hfit as (d1 & -> & H1 & H2 & H3 & H4). rewrite decide_True by lia. eexists. split; [reflexivity|].
  unfold dest_ok, dest_text in *. cbn [d_buf d_size d_pos]. rewrite zlen_zsplice by lia. split; [lia|]. by rewrite zsplice_text, H4 by lia.
Qed.

(** ** A way through a row *)


(** What the loop does at the leaf of [c]. *)
Definition leaf (n : nat) (t : hufftree) (c : Z) (h : huffbuff) (d : dest) : option (Z * dest) :=
  if c =? HUFFSTRING_END then Some (0, d)
  else if c =? HUFFSTRING_ESCAPE then
    '(tmp, h, d) ← huffman_decode_uncompressed realloc h d;
    if tmp <? 0 then Some (tmp, d)
    else if tmp =? 0 then Some (pos_result d, d)
    else huffman_loop realloc n t tmp 0 h d
  else
    '(r, d) ← append_unicode_char realloc c d;
    if negb (r =? 0) then Some (-1, d) else huffman_loop realloc n t c 0 h d.

Lemma literal_bits v c : 0 <= c < 128 -> is_leaf v c = true -> (Z.land v 128 =? 0) = false /\ Z.land v 127 = c.
Proof.
  unfold is_leaf. intros Hc Hv. apply Z.eqb_eq in Hv as ->.
  assert (H : forallb (fun c => negb (Z.land (128 + c) 128 =? 0) && (Z.land (128 + c) 127 =? c)) (seqZ 0 128) = true) by by vm_compute.
  rewrite forallb_forall in H. specialize (H c). rewrite <- list_elem_of_In, elem_of_seqZ, andb_true_iff, negb_true_iff, Z.eqb_eq in H. apply H. lia.
Qed.
Lemma node_bits v : is_node v = true -> (Z.land v 128 =? 0) = true.
Proof.
  unfold is_node. intros Hv. assert (H : forallb (fun c => Z.land c 128 =? 0) (seqZ 0 128) = true) by by vm_compute.
  rewrite forallb_forall in H. apply H. apply list_elem_of_In, elem_of_seqZ. lia.
Qed.

Lemma huffman_step n t ctx tree idx h d b rest : hb_ok h -> hbits h = b :: rest -> tree_of t ctx = Some tree ->
  let v := if b : bool then (tree_entry tree idx).2 else (tree_entry tree idx).1 in
  huffman_loop realloc (S n) t ctx idx h d =
  if negb (Z.land v 128 =? 0) then leaf n t (Z.land v 127) (next_bit h) d else huffman_loop realloc n t ctx v (next_bit h) d.
Proof.
  intros Hh E Et v. destruct (take_bit h b rest Hh E) as (Hlt & _ & _ & Hstep). cbn [huffman_loop].
  rewrite (proj2 (Z.ltb_lt (cur_byte h) (hb_len h))) by done. cbn [negb]. unfold huffbuff_bits. cbn [Z.ltb Z.compare Pos.compare Pos.compare_cont].
  change (Z.to_nat 1) with 1%nat. rewrite Hstep by lia. cbn [bits_loop mbind option_bind]. rewrite Et. cbn [mbind option_bind].
  subst v. by destruct b.
Qed.
Lemma follow t ctx tree c n d : tree_of t ctx = Some tree -> 0 <= c < 128 ->
  forall fuel idx p, find_path fuel tree idx c = Some p -> forall h rest, hb_ok h -> hbits h = p ++ rest ->
  exists h', hb_ok h' /\ hbits h' = rest /\ hb_len h' = hb_len h /\
    huffman_loop realloc (length p + n) t ctx idx h d = leaf n t c h' d.
Proof.
  intros Et Hc. 
  assert (Hone : forall b idx h rest, hb_ok h -> hbits h = b :: rest ->
    is_leaf (if b : bool then (tree_entry tree idx).2 else (tree_entry tree idx).1) c = true ->
    exists h', hb_ok h' /\ hbits h' = rest /\ hb_len h' = hb_len h /\ huffman_loop realloc (S n) t ctx idx h d = leaf n t c h' d).
  { intros b idx h rest Hh E Hv. destruct (take_bit h b rest Hh E) as (_ & H1 & H2 & _). exists (next_bit h). split; [done|]. split; [done|]. split.
    - by rewrite next_bit_len.
    - rewrite (huffman_step n t ctx tree idx h d b rest Hh E Et). destruct (literal_bits _ c Hc Hv) as [-> ->]. done. }
  assert (Hmore : forall b idx h k rest, hb_ok h -> hbits h = b :: rest ->
    is_node (if b : bool then (tree_entry tree idx).2 else (tree_entry tree idx).1) = true ->
    huffman_loop realloc (S k) t ctx idx h d = huffman_loop realloc k t ctx (if b : bool then (tree_entry tree idx).2 else (tree_entry tree idx).1) (next_bit h) d).
  { intros b idx h k rest Hh E Hv. rewrite (huffman_step k t ctx tree idx h d b rest Hh E Et). by rewrite (node_bits _ Hv). }
  assert (Hrec : forall b idx p, is_node (if b : bool then (tree_entry tree idx).2 else (tree_entry tree idx).1) = true ->
    (forall h rest, hb_ok h -> hbits h = p ++ rest -> exists h', hb_ok h' /\ hbits h' = rest /\ hb_len h' = hb_len h /\
      huffman_loop realloc (length p + n) t ctx (if b : bool then (tree_entry tree idx).2 else (tree_entry tree idx).1) h d = leaf n t c h' d) ->
    forall h rest, hb_ok h -> hbits h = (b :: p) ++ rest -> exists h', hb_ok h' /\ hbits h' = rest /\ hb_len h' = hb_len h /\
      huffman_loop realloc (length (b :: p) + n) t ctx idx h d = leaf n t c h' d).
  { intros b idx p Hv IH h rest Hh E. destruct (take_bit h b (p ++ rest) Hh E) as (_ & H1 & H2 & _).
    destruct (IH (next_bit h) rest H1 H2) as (h' & A & B & C & D). exists h'. split; [done|]. split; [done|]. split.
    - by rewrite C, next_bit_len.
    - cbn [length Nat.add]. by rewrite (Hmore b idx h _ (p ++ rest) Hh E Hv). }
  induction fuel as [|fuel IH]; intros idx p E; [done|]. cbn [find_path] in E. destruct (tree_entry tree idx) as [l r] eqn:El.
  specialize (Hone true idx) as Hr. specialize (Hone false idx) as Hl. specialize (Hrec true idx) as Rr. specialize (Hrec false idx) as Rl.
  rewrite El in Hr, Hl, Rr, Rl. cbn [fst snd] in *.
  destruct (is_leaf l c) eqn:E1; [simplify_eq; intros h rest Hh Eh; by apply Hl|].
  destruct (is_leaf r c) eqn:E2; [simplify_eq; intros h rest Hh Eh; by apply Hr|].
  destruct (if is_node l then find_path fuel tree l c else None) as [p'|] eqn:E3.
  - destruct (is_node l) eqn:E4; [|done]. simplify_eq. apply Rl; [done|]. by apply IH.
  - destruct (is_node r) eqn:E4; [|done]. destruct (find_path fuel tree r c) as [p'|] eqn:E5; [|done].
    cbn [mbind option_bind] in E. simplify_eq. apply Rr; [done|]. by apply IH.
Qed.

Lemma follow_code t ctx tree c n d p h rest : tree_of t ctx = Some tree -> 0 <= c < 128 -> code tree c = Some p ->
  hb_ok h -> hbits h = p ++ rest ->
  exists h', hb_ok h' /\ hbits h' = rest /\ hb_len h' = hb_len h /\
    huffman_loop realloc (length p + n) t ctx 0 h d = leaf n t c h' d.
Proof. unfold code. intros Et Hc Ep. by apply (follow t ctx tree c n d Et Hc 128). Qed.

#[local] Opaque code.

(** ** The text *)

(** The decoder has come to its end with [s] behind the text that was there. *)
Definition decoded (d : dest) (s : list Z) (r : option (Z * dest)) : Prop :=
  exists ret d', r = Some (ret, d') /\ (ret = 0 \/ ret = pos_result d') /\ dest_ok d' /\ dest_text d' = dest_text d ++ flat_map utf8 s.
(** What follows an escape. *)
Definition escaped (uf fuel : nat) (t : hufftree) (h : huffbuff) (d : dest) : option (Z * dest) :=
  '(tmp, h, d) ← uncompressed_loop realloc uf h d;
  if tmp <? 0 then Some (tmp, d)
  else if tmp =? 0 then Some (pos_result d, d)
  else huffman_loop realloc fuel t tmp 0 h d.

Lemma decoded_nil d ret : dest_ok d -> ret = 0 \/ ret = pos_result d -> decoded d [] (Some (ret, d)).
Proof. intros H1 H2. exists ret, d. cbn [flat_map]. by rewrite app_nil_r. Qed.
Lemma decoded_cons d d1 c s r : dest_text d1 = dest_text d ++ utf8 c -> decoded d1 s r -> decoded d (c :: s) r.
Proof. intros E (ret & d' & H1 & H2 & H3 & H4). exists ret, d'. split_and!; [done..|]. by rewrite H4, E, <- app_assoc. Qed.
Lemma escaped_end uf fuel t h d rest : hb_ok h -> hbits h = byte_bits 0 ++ rest -> dest_ok d -> decoded d [] (escaped (S uf) fuel t h d).
Proof.
  intros Hh E Hd. destruct (take_byte h 0 rest Hh ltac:(by vm_compute) E) as (Hlt & h' & _ & _ & _ & E8).
  unfold escaped. cbn [uncompressed_loop]. rewrite (proj2 (Z.ltb_lt _ _) Hlt). cbn [negb]. rewrite E8. cbn. apply decoded_nil; auto.
Qed.
(** A character that is written plain: one below 128 leads back to the coded ones. *)
Lemma escaped_char uf fuel t c h d rest : hb_ok h -> char_ok c -> hbits h = byte_bits c ++ rest -> dest_ok d ->
  exists h' d', hb_ok h' /\ hbits h' = rest /\ hb_len h' = hb_len h /\ dest_ok d' /\ dest_text d' = dest_text d ++ utf8 c /\
    escaped (S uf) fuel t h d = if c <? 128 then huffman_loop realloc fuel t c 0 h' d' else escaped uf fuel t h' d'.
Proof.
  intros Hh (Hc & H27 & _) E Hd. destruct (take_byte h c rest Hh ltac:(unfold byte; lia) E) as (Hlt & h' & H1 & H2 & H3 & E8).
  destruct (append_spec c d ltac:(lia) Hd) as (d' & Ea & Hd' & Et). exists h', d'. do 5 (split; [done|]).
  unfold escaped. cbn [uncompressed_loop]. rewrite (proj2 (Z.ltb_lt _ _) Hlt). cbn [negb]. rewrite E8. cbn [mbind option_bind].
  unfold HUFFSTRING_END, HUFFSTRING_ESCAPE. rewrite (proj2 (Z.ltb_ge c 0)), (proj2 (Z.eqb_neq c 0)), (proj2 (Z.eqb_neq c 27)) by lia.
  rewrite Ea. cbn [mbind option_bind Z.eqb negb]. change 0x80 with 128. destruct (Z.ltb_spec c 128).
  - rewrite (node_bits c) by (unfold is_node; lia). cbn [mbind option_bind]. rewrite (proj2 (Z.ltb_ge c 0)), (proj2 (Z.eqb_neq c 0)) by lia. done.
  - destruct (literal_bits c (c - 128)) as [-> _]; [lia|unfold is_leaf; lia|]. done.
Qed.
(** A character with a code. *)
Lemma leaf_char n t c h d : char_ok c -> c < 128 -> dest_ok d ->
  exists d', dest_ok d' /\ dest_text d' = dest_text d ++ utf8 c /\ leaf n t c h d = huffman_loop realloc n t c 0 h d'.
Proof.
  intros (Hc & H27 & _) Hlt Hd. destruct (append_spec c d ltac:(lia) Hd) as (d' & Ea & Hd' & Et). exists d'. do 2 (split; [done|]).
  unfold leaf, HUFFSTRING_END, HUFFSTRING_ESCAPE. rewrite (proj2 (Z.eqb_neq c 0)), (proj2 (Z.eqb_neq c 27)) by lia.
  rewrite Ea. done.
Qed.
Lemma leaf_end n t h d : dest_ok d -> decoded d [] (leaf n t 0 h d).
Proof. intros Hd. apply decoded_nil; auto. Qed.
Lemma leaf_escape n t h d : leaf n t 27 h d = escaped (S (Z.to_nat (hb_len h))) n t h d.
Proof. done. Qed.

Lemma hbits_le h : hb_ok h -> (length (hbits h) <= 8 * Z.to_nat (hb_len h))%nat.
Proof.
  intros (Hc & Hb & Hl). unfold hbits. rewrite length_drop, bits_length. pose proof (zlen_ztake (hb_len h) (hb_buf h) ltac:(lia)). unfold zlen in *. lia.
Qed.
Lemma hbits_len h : hb_ok h -> (length (hbits h) < 8 * S (Z.to_nat (hb_len h)))%nat.
Proof. intros Hh. pose proof (hbits_le h Hh). lia. Qed.

Lemma huffman_text t : forall s ctx bits h d rest, Forall char_ok s -> huff_encode t s ctx = Some bits ->
  hb_ok h -> hbits h = bits ++ rest -> dest_ok d ->
  forall fuel, (length (hbits h) < fuel)%nat ->
  match ctx with
  | Some c => decoded d s (huffman_loop realloc fuel t c 0 h d)
  | None => forall uf, (length (hbits h) < 8 * uf)%nat -> decoded d s (escaped uf fuel t h d)
  end.
Proof.
  (* behind the escape of a row *)
  assert (Hesc : forall s ctx tree p k h d rest, tree_of t ctx = Some tree -> code tree 27 = Some p ->
    hb_ok h -> hbits h = p ++ k ++ rest -> dest_ok d ->
    (forall fuel uf h', hb_ok h' -> hbits h' = k ++ rest -> (length (hbits h') < fuel)%nat -> (length (hbits h') < 8 * uf)%nat -> decoded d s (escaped uf fuel t h' d)) ->
    forall fuel, (length (hbits h) < fuel)%nat -> decoded d s (huffman_loop realloc fuel t ctx 0 h d)).
  { intros s ctx tree p k h d rest Et Ep Hh E Hd Hk fuel Hf. rewrite E, length_app in Hf.
    destruct (follow_code t ctx tree 27 (fuel - length p) d p h (k ++ rest) Et ltac:(lia) Ep Hh E) as (h' & H1 & H2 & H3 & H4).
    replace fuel with (length p + (fuel - length p))%nat by lia. rewrite H4, leaf_escape.
    apply Hk; [done|done|rewrite H2; lia|by apply hbits_len]. }
  assert (Hplain : forall s c ctx h d rest, char_ok c -> ctx = next_context c -> hb_ok h -> hbits h = byte_bits c ++ rest -> dest_ok d ->
    (forall h' d', hb_ok h' -> hbits h' = rest -> dest_ok d' -> forall fuel, (length (hbits h') < fuel)%nat ->
      match ctx with
      | Some c => decoded d' s (huffman_loop realloc fuel t c 0 h' d')
      | None => forall uf, (length (hbits h') < 8 * uf)%nat -> decoded d' s (escaped uf fuel t h' d')
      end) ->
    forall fuel uf, (length (hbits h) < fuel)%nat -> (length (hbits h) < 8 * uf)%nat -> decoded d (c :: s) (escaped uf fuel t h d)).
  { intros s c ctx h d rest Hc -> Hh E Hd Hk fuel uf Hf Hu. rewrite E, length_app, byte_bits_len in Hf, Hu. destruct uf as [|uf]; [lia|].
    destruct (escaped_char uf fuel t c h d rest Hh Hc E Hd) as (h' & d' & H1 & H2 & H3 & H4 & H5 & ->).
    specialize (Hk h' d' H1 H2 H4 fuel). rewrite H2 in Hk. apply (decoded_cons d d' c s); [done|].
    unfold next_context in Hk. destruct (c <? 128); [apply Hk; lia|]. apply Hk; lia. }
  induction s as [|c s IH]; intros ctx bits h d rest Hs Ee Hh E Hd fuel Hf.
  - destruct ctx as [ctx|]; cbn [huff_encode] in Ee.
    + destruct (tree_of t ctx) as [tree|] eqn:Et; [|done]. cbn [mbind option_bind] in Ee. destruct (code tree 0) as [p|] eqn:Ec.
      * apply (inj Some) in Ee as <-. rewrite E, length_app in Hf.
        destruct (follow_code t ctx tree 0 (fuel - length p) d p h rest Et ltac:(lia) Ec Hh E) as (h' & _ & _ & _ & H4).
        replace fuel with (length p + (fuel - length p))%nat by lia. rewrite H4. by apply leaf_end.
      * destruct (code tree 27) as [p|] eqn:Ep; [|done]. cbn [mbind option_bind] in Ee. apply (inj Some) in Ee as <-. rewrite <- app_assoc in E.
        apply (Hesc [] ctx tree p (byte_bits 0) h d rest Et Ep Hh E Hd); [|done]. intros f uf h' Hh' E' _ Hu.
        destruct uf; [lia|]. by apply (escaped_end uf f t h' d rest).
    + apply (inj Some) in Ee as <-. intros uf Hu. destruct uf; [lia|]. by apply (escaped_end uf fuel t h d rest).
  - apply Forall_cons_1 in Hs as [Hc Hs]. destruct ctx as [ctx|]; cbn [huff_encode] in Ee.
    + destruct (tree_of t ctx) as [tree|] eqn:Et; [|done]. cbn [mbind option_bind] in Ee.
      destruct (if c <? 128 then code tree c else None) as [p|] eqn:Ec.
      * destruct (Z.ltb_spec c 128); [|done]. destruct (huff_encode t s (Some c)) as [k|] eqn:Ek; [|done]. cbn [mbind option_bind] in Ee. apply (inj Some) in Ee as <-.
        rewrite <- app_assoc in E. rewrite E, length_app in Hf. assert (0 <= c < 128) by (destruct Hc; lia).
        destruct (follow_code t ctx tree c (fuel - length p) d p h (k ++ rest) Et ltac:(lia) Ec Hh E) as (h' & H1 & H2 & H3 & H4).
        replace fuel with (length p + (fuel - length p))%nat by lia. rewrite H4.
        destruct (leaf_char (fuel - length p) t c h' d Hc ltac:(lia) Hd) as (d' & Hd' & Et' & ->).
        apply (decoded_cons d d' c s); [done|]. apply (IH (Some c) k h' d' rest Hs Ek H1 H2 Hd'). rewrite H2. lia.
      * destruct (code tree 27) as [p|] eqn:Ep; [|done]. cbn [mbind option_bind] in Ee.
        destruct (huff_encode t s (next_context c)) as [k|] eqn:Ek; [|done]. cbn [mbind option_bind] in Ee. apply (inj Some) in Ee as <-.
        rewrite <- app_assoc in E. apply (Hesc (c :: s) ctx tree p (byte_bits c ++ k) h d rest Et Ep Hh E Hd); [|done].
        intros f uf h' Hh' E' H1 H2. rewrite <- app_assoc in E'. apply (Hplain s c (next_context c) h' d (k ++ rest)); try done.
        intros h2 d2 A B C. by apply (IH (next_context c) k h2 d2 rest).
    + destruct (huff_encode t s (next_context c)) as [k|] eqn:Ek; [|done]. cbn [mbind option_bind] in Ee. apply (inj Some) in Ee as <-.
      rewrite <- app_assoc in E. intros uf Hu. apply (Hplain s c (next_context c) h d (k ++ rest)); try done.
      intros h2 d2 A B C. by apply (IH (next_context c) k h2 d2 rest).
Qed.
End decoded.

(** ** The two tables *)

(** Every character has a row but 127, and every row an escape. *)
Definition rows_ok (t : hufftree) : bool :=
  (zlen t =? 127) && forallb (fun tree => match code tree 27 with Some _ => true | None => false end) t.
Lemma tables_ok : rows_ok program_title_hufftree = true /\ rows_ok program_description_hufftree = true.
Proof. by vm_compute. Qed.
Lemma row_escape t c : rows_ok t = true -> 0 <= c < 127 -> exists tree p, tree_of t c = Some tree /\ code tree 27 = Some p.
Proof.
  unfold rows_ok, zlen. rewrite andb_true_iff, Z.eqb_eq, forallb_forall. intros [Hl Ht] Hc. unfold tree_of. rewrite decide_True by lia.
  destruct (lookup_lt_is_Some_2 t (Z.to_nat c)) as [tree E]; [lia|]. exists tree. specialize (Ht tree).
  destruct (code tree 27) as [p|]; [by exists p|]. rewrite <- list_elem_of_In in Ht. apply list_elem_of_lookup_2 in E. by apply Ht in E.
Qed.
Lemma huff_encode_total t s ctx : rows_ok t = true -> Forall char_ok s -> (match ctx with Some c => 0 <= c < 127 | None => True end) ->
  exists bits, huff_encode t s ctx = Some bits.
Proof.
  intros Ht. revert ctx. induction s as [|c s IH]; intros ctx Hs Hc.
  - destruct ctx as [ctx|]; [|by eexists]. destruct (row_escape t ctx Ht Hc) as (tree & p & E & Ep). cbn [huff_encode]. rewrite E.
    cbn [mbind option_bind]. rewrite Ep. destruct (code tree 0); by eexists.
  - apply Forall_cons_1 in Hs as [(H1 & H2 & H3) Hs].
    assert (Hn : match next_context c with Some c => 0 <= c < 127 | None => True end) by (unfold next_context; destruct (Z.ltb_spec c 128); [lia|done]).
    destruct ctx as [ctx|]; cbn [huff_encode].
    + destruct (row_escape t ctx Ht Hc) as (tree & p & E & Ep). rewrite E. cbn [mbind option_bind]. rewrite Ep.
      destruct (Z.ltb_spec c 128) as [Hlt|Hge].
      * destruct (IH (Some c) Hs ltac:(lia)) as [k Ek]. unfold next_context. rewrite (proj2 (Z.ltb_lt c 128) Hlt), Ek. destruct (code tree c); by eexists.
      * destruct (IH (next_context c) Hs Hn) as [k ->]. by eexists.
    + destruct (IH (next_context c) Hs Hn) as [k ->]. by eexists.
Qed.

(** ** Segments *)

(** The segment that carries a text, with the tag of a table. *)
Definition table (compression : Z) : hufftree :=
  if compression =? ATSC_TEXT_COMPRESS_PROGRAM_TITLE then program_title_hufftree else program_description_hufftree.
Definition segment_of (compression : Z) (bits : list bool) : list Z := [compression; 0; zlen (pack bits)] ++ pack bits.

Lemma hbits_init bits post : exists pad, hb_ok (huffbuff_init (pack bits ++ post) (zlen (pack bits))) /\
  hbits (huffbuff_init (pack bits ++ post) (zlen (pack bits))) = bits ++ pad.
Proof.
  destruct (pack_bits (length bits) bits ltac:(done)) as [pad E]. exists pad. pose proof (zlen_nonneg (pack bits)). pose proof (zlen_nonneg post).
  unfold hb_ok, hbits, huffbuff_init. cbn [hb_buf hb_len cur_byte cur_bit]. rewrite zlen_app. split; [lia|].
  unfold ztake, zlen. rewrite Nat2Z.id, take_app_length. by rewrite <- E.
Qed.
Lemma segment_fetch pre compression bits post : let m := pre ++ segment_of compression bits ++ post in
  zget m (zlen pre) = Some compression /\ zget m (zlen pre + 1) = Some 0 /\ zget m (zlen pre + 2) = Some (zlen (pack bits)) /\
  zdrop (zlen pre + 3) m = pack bits ++ post.
Proof.
  intros m. pose proof (zlen_nonneg pre).
  assert (Hg : forall k, 0 <= k < 3 -> zget m (zlen pre + k) = ([compression; 0; zlen (pack bits)] ++ pack bits ++ post) !! Z.to_nat k).
  { intros k Hk. subst m. unfold zget, zlen in *. rewrite decide_True by lia. rewrite lookup_app_r by lia. unfold segment_of.
    rewrite <- app_assoc. f_equal. lia. }
  split_and!.
  - rewrite <- (Z.add_0_r (zlen pre)). by rewrite Hg by lia.
  - by rewrite Hg by lia.
  - by rewrite Hg by lia.
  - subst m. unfold zdrop, zlen. unfold segment_of.
    replace (Z.to_nat (Z.of_nat (length pre) + 3)) with (length (pre ++ [compression; 0; zlen (pack bits)])) by (rewrite length_app; cbn [length]; lia).
    rewrite <- app_assoc, app_assoc. by rewrite drop_app_length.
Qed.

(** C23: Texts of ATSC tables: a text of Latin-1 characters that the standard's Huffman tables code (each in the context of the
    character before it, an escape in front of those a context lacks) always has a code, and the segment that carries the code,
    wherever it lies in a section, becomes the UTF-8 of the text, appended to what the caller's buffer holds; the buffer, grown
    as needed, never overflows. *)
Theorem atsc_text_segment_roundtrip realloc (Hrealloc : realloc_ok realloc) compression s d :
  compression = ATSC_TEXT_COMPRESS_PROGRAM_TITLE \/ compression = ATSC_TEXT_COMPRESS_PROGRAM_DESCRIPTION ->
  Forall char_ok s -> dest_ok d ->
  exists bits, huff_encode (table compression) s (Some 0) = Some bits /\
  (zlen (pack bits) < 256 -> forall pre post, exists ret d',
    atsc_text_segment_decode realloc (pre ++ segment_of compression bits ++ post) (zlen pre) d = Some (ret, d') /\
    (ret = 0 \/ ret = pos_result d') /\ dest_ok d' /\ dest_text d' = dest_text d ++ flat_map utf8 s).
Proof.
  intros Hcomp Hs Hd. assert (Ht : rows_ok (table compression) = true) by (destruct Hcomp as [-> | ->]; apply tables_ok).
  destruct (huff_encode_total (table compression) s (Some 0) Ht Hs ltac:(cbn; lia)) as [bits Eb]. exists bits. split; [done|]. intros _ pre post.
  destruct (segment_fetch pre compression bits post) as (E0 & E1 & E2 & E3). destruct (hbits_init bits post) as (pad & Hh & Ebits).
  unfold atsc_text_segment_decode, atsc_text_string_segment_bytes, sizeof_atsc_text_string_segment.
  rewrite E0, E1, E2, E3. cbn [mbind option_bind].
  pose proof (hbits_le _ Hh) as Hlen. cbn [hb_len huffbuff_init] in Hlen.
  assert (Hrun : decoded d s (huffman_decode realloc (pack bits ++ post) (zlen (pack bits)) (table compression) d)).
  { unfold huffman_decode. apply (huffman_text realloc Hrealloc (table compression) s (Some 0) bits _ d pad); try done.
    pose proof (zlen_nonneg (pack bits)). lia. }
  destruct Hcomp as [-> | ->]; exact Hrun.
Qed.

Definition grow (b : list Z) (n : Z) : option (list Z) := Some (b ++ replicate (Z.to_nat (n - zlen b)) 0).
Lemma grow_ok : realloc_ok grow.
Proof.
  intros b n Hn. pose proof (zlen_nonneg b). eexists. split; [reflexivity|]. unfold ztake, zlen in *. split.
  - rewrite length_app, length_replicate. lia.
  - rewrite Nat2Z.id. apply take_app_length.
Qed.
(** A title in 11 bytes, behind a text of two characters in a buffer with room for one more: the e with its accent has no code. *)
Lemma atsc_text_segment_roundtrip_witness :
  let s := [67; 97; 102; 233; 32; 84; 86] in let d := Dest [79; 75; 0] 3 2 in
  huff_encode program_title_hufftree s (Some 0) <> None /\
  exists bits, huff_encode (table 1) s (Some 0) = Some bits /\ exists ret d',
    atsc_text_segment_decode grow ([9; 9] ++ segment_of 1 bits ++ [255]) 2 d = Some (ret, d') /\
    (ret = 0 \/ ret = pos_result d') /\ dest_ok d' /\ dest_text d' = [79; 75; 67; 97; 102; 195; 169; 32; 84; 86].
Proof.
  intros s d. split; [by vm_compute|].
  assert (Hz : match huff_encode (table 1) s (Some 0) with Some bits => (zlen (pack bits) <? 256) = true | None => False end) by by vm_compute.
  destruct (atsc_text_segment_roundtrip grow grow_ok 1 s d ltac:(left; reflexivity)) as (bits & Eb & H).
  - unfold s. repeat (apply Forall_cons_2; [unfold char_ok; lia|]). by apply Forall_nil.
  - unfold dest_ok, d. cbn [d_buf d_size d_pos]. change (zlen [79; 75; 0]) with 3. lia.
  - rewrite Eb in Hz. apply Z.ltb_lt in Hz. exists bits. split; [exact Eb|].
    destruct (H Hz [9; 9] [255]) as (ret & d' & E & Hret & Hd & Et). exists ret, d'. split; [exact E|]. split; [exact Hret|]. split; [exact Hd|]. exact Et.
Defined.

(** A text that is not compressed: the mode is the upper byte of all its characters. *)
Lemma unicode_loop_text realloc (Hrealloc : realloc_ok realloc) mode post : 0 <= mode <= 0x33 -> forall bs pre d, bytes bs -> dest_ok d ->
  exists d', unicode_loop realloc (length bs) (pre ++ bs ++ post) (zlen pre) (Z.shiftl mode 8) d = Some (pos_result d', d') /\
    dest_ok d' /\ dest_text d' = dest_text d ++ flat_map (fun b => utf8 (256 * mode + b)) bs.
Proof.
  intros Hm. induction bs as [|b bs IH]; intros pre d Hb Hd.
  - exists d. cbn [flat_map]. by rewrite app_nil_r.
  - apply Forall_cons_1 in Hb as [Hb Hbs]. unfold byte in Hb. cbn [length unicode_loop].
    assert (Ez : zget (pre ++ (b :: bs) ++ post) (zlen pre) = Some b).
    { unfold zget, zlen. rewrite decide_True, Nat2Z.id by lia. rewrite lookup_app_r, Nat.sub_diag by lia. done. }
    rewrite Ez. cbn [mbind option_bind]. replace (Z.shiftl mode 8 + b) with (256 * mode + b) by (rewrite Z.shiftl_mul_pow2 by lia; lia).
    destruct (append_spec realloc Hrealloc (256 * mode + b) d ltac:(lia) Hd) as (d1 & -> & Hd1 & E1). cbn [mbind option_bind Z.eqb].
    destruct (IH (pre ++ [b]) d1 Hbs Hd1) as (d' & E & Hd' & Et). exists d'.
    rewrite <- app_assoc in E. cbn [app] in E |- *. rewrite zlen_app in E. change (zlen [b]) with 1 in E. rewrite E.
    split_and!; [done|done|]. by rewrite Et, E1, <- app_assoc.
Qed.

(** An escaped 127 leads to a row that the tables do not have: with another bit behind it, the decoder reads outside the table. *)
Example escaped_127_reads_outside :
  match code (default [] (tree_of program_title_hufftree 0)) 27 with
  | Some p => atsc_text_segment_decode grow (segment_of 1 (p ++ byte_bits 127 ++ replicate 8 true)) 0 (Dest [] 0 0) = None
  | None => False
  end.
Proof. by vm_compute. Qed.
(** A compressed text whose end is coded returns 0; the same text in characters of its own returns the position. *)
Example end_mark_returns_zero :
  match huff_encode program_title_hufftree [84; 86] (Some 0) with
  | Some bits => option_map (fun '(ret, d) => (ret, d_pos d)) (atsc_text_segment_decode grow (segment_of 1 bits) 0 (Dest [] 0 0)) = Some (0, 2)
  | None => False
  end /\
  option_map (fun '(ret, d) => (ret, d_pos d)) (atsc_text_segment_decode grow [0; 0; 2; 84; 86] 0 (Dest [] 0 0)) = Some (2, 2).
Proof. by vm_compute. Qed.
