(* ===== verification/AtscSections.v ===== *)
(** * AtscSections: the codecs of the ATSC tables

    libucsi/atsc: the section codecs (cvct, dccsct, dcct, eit, ett, mgt, rrt, stt, tvct) and
    the accessors and iterators of their headers.  Every codec swaps the fields of the packed
    structures in place and checks that the counted entries, their texts and descriptors fill the
    section.  Offsets are from the start of the section. *)

From S2P Require Import Prelude Mem EndianOps Descriptor PsiSection AtscText.

(** ** What the codecs share *)

Definition sizeof_atsc_section_psip : Z := 9.
Definition atsc_section_psip_decode : M unit :=
  len ← section_ext_length;
  fail_if (len <? sizeof_atsc_section_psip).

(** A bit field of 10 or 12 bits at the low end of a swapped word. *)
Definition length10 (p : Z) : M Z := x ← rd16 p; mret (Z.land x 0x3ff).
Definition length12 (p : Z) : M Z := x ← rd16 p; mret (Z.land x 0xfff).

(** The statements behind each length: the bytes must be inside, and descriptors or a text. *)
Definition skip_descriptors (len pos n : Z) : M Z :=
  fail_if (len <? pos + n);;
  r ← verify_descriptors pos n;
  fail_if (negb (r =? 0));;
  mret (pos + n).
Definition skip_text (len pos n : Z) : M Z :=
  fail_if (len <? pos + n);;
  r ← atsc_text_validate pos n;
  fail_if (negb (r =? 0));;
  mret (pos + n).

(** The iterators of the descriptors behind a structure of [size] bytes that holds their length. *)
Definition descriptors_first (size : Z) (length : Z -> M Z) (s : Z) : M (option Z) :=
  n ← length s; mret (if n =? 0 then None else Some (s + size)).
Definition descriptors_next (size : Z) (length : Z -> M Z) (s pos : Z) : M (option Z) :=
  n ← length s; next_descriptor (s + size) n (Some pos).
Definition descriptors_of (size : Z) (length : Z -> M Z) (s : Z) : M (list descriptor) :=
  first ← descriptors_first size length s; for_each (descriptors_next size length s) read_descriptor first.

(** The accessor of a text with its length. *)
Definition text_if (n p : Z) : option Z := if n =? 0 then None else Some p.

(** ** Terrestrial virtual channels: tvct_section.[ch] *)

Definition sizeof_atsc_tvct_section : Z := 10.
Definition sizeof_atsc_tvct_channel : Z := 32.
Definition sizeof_atsc_tvct_section_part2 : Z := 2.
Definition tvct_num_channels_in_section : M Z := rd8 9.
Definition tvct_channel_descriptors_length (channel : Z) : M Z := length10 (channel + 30).
Definition tvct_part2_descriptors_length (part2 : Z) : M Z := length10 part2.

Definition atsc_tvct_channel_codec (len pos : Z) : M Z :=
  fail_if (len <? pos + sizeof_atsc_tvct_channel);;
  let channel := pos in
  let pos := pos + 7 * 2 in
  bswap32 pos;;
  bswap32 (pos + 4);;
  bswap16 (pos + 8);;
  bswap16 (pos + 10);;
  bswap16 (pos + 12);;
  bswap16 (pos + 14);;
  bswap16 (pos + 16);;
  let pos := pos + 18 in
  n ← tvct_channel_descriptors_length channel;
  skip_descriptors len pos n.

Definition atsc_tvct_section_codec : M unit :=
  let pos := sizeof_atsc_section_psip in
  len ← section_ext_length;
  fail_if (len <? sizeof_atsc_tvct_section);;
  let pos := pos + 1 in
  n ← tvct_num_channels_in_section;
  pos ← for_upto (Z.to_nat n) 0 (fun _ => atsc_tvct_channel_codec len) pos;
  fail_if (len <? pos + sizeof_atsc_tvct_section_part2);;
  let part2 := pos in
  bswap16 pos;;
  let pos := pos + 2 in
  n ← tvct_part2_descriptors_length part2;
  pos ← skip_descriptors len pos n;
  fail_if (negb (pos =? len)).

Definition atsc_tvct_section_transport_stream_id : M Z := section_ext_table_id_ext.

(** The fields of a channel. *)
Definition tvct_short_name (c : Z) : M (list Z) := rd_bytes c 14.
Definition tvct_major_channel_number (c : Z) : M Z := x ← rd32 (c + 14); mret (Z.land (Z.shiftr x 18) 0x3ff).
Definition tvct_minor_channel_number (c : Z) : M Z := x ← rd32 (c + 14); mret (Z.land (Z.shiftr x 8) 0x3ff).
Definition tvct_modulation_mode (c : Z) : M Z := x ← rd32 (c + 14); mret (Z.land x 0xff).
Definition tvct_carrier_frequency (c : Z) : M Z := rd32 (c + 18).
Definition tvct_channel_TSID (c : Z) : M Z := rd16 (c + 22).
Definition tvct_program_number (c : Z) : M Z := rd16 (c + 24).
Definition tvct_ETM_location (c : Z) : M Z := x ← rd16 (c + 26); mret (Z.shiftr x 14).
Definition tvct_access_controlled (c : Z) : M Z := x ← rd16 (c + 26); mret (Z.land (Z.shiftr x 13) 1).
Definition tvct_hidden (c : Z) : M Z := x ← rd16 (c + 26); mret (Z.land (Z.shiftr x 12) 1).
Definition tvct_hide_guide (c : Z) : M Z := x ← rd16 (c + 26); mret (Z.land (Z.shiftr x 9) 1).
Definition tvct_service_type (c : Z) : M Z := x ← rd16 (c + 26); mret (Z.land x 0x3f).
Definition tvct_source_id (c : Z) : M Z := rd16 (c + 28).

Definition atsc_tvct_section_channels_first : M (option Z) :=
  n ← tvct_num_channels_in_section;
  mret (if n =? 0 then None else Some sizeof_atsc_tvct_section).
Definition atsc_tvct_section_channels_next (pos idx : Z) : M (option Z) :=
  n ← tvct_num_channels_in_section;
  if n <=? idx then mret None else
  l ← tvct_channel_descriptors_length pos;
  mret (Some (pos + sizeof_atsc_tvct_channel + l)).
Definition atsc_tvct_channel_descriptors_first : Z -> M (option Z) :=
  descriptors_first sizeof_atsc_tvct_channel tvct_channel_descriptors_length.
Definition atsc_tvct_channel_descriptors_next : Z -> Z -> M (option Z) :=
  descriptors_next sizeof_atsc_tvct_channel tvct_channel_descriptors_length.
Definition atsc_tvct_section_part2_descriptors_first : Z -> M (option Z) :=
  descriptors_first sizeof_atsc_tvct_section_part2 tvct_part2_descriptors_length.
Definition atsc_tvct_section_part2_descriptors_next : Z -> Z -> M (option Z) :=
  descriptors_next sizeof_atsc_tvct_section_part2 tvct_part2_descriptors_length.

(** An iteration that adds up sizes. *)
Definition sum (l : list Z) : Z := foldr Z.add 0 l.
Definition atsc_tvct_section_part2 : M Z :=
  first ← atsc_tvct_section_channels_first;
  sizes ← for_each_idx 256 0 atsc_tvct_section_channels_next
            (fun c => l ← tvct_channel_descriptors_length c; mret (sizeof_atsc_tvct_channel + l)) first;
  mret (sizeof_atsc_tvct_section + sum sizes).

(** ** Cable virtual channels: cvct_section.[ch] *)

Definition sizeof_atsc_cvct_section : Z := 10.
Definition sizeof_atsc_cvct_channel : Z := 32.
Definition sizeof_atsc_cvct_section_part2 : Z := 2.
Definition cvct_num_channels_in_section : M Z := rd8 9.
Definition cvct_channel_descriptors_length (channel : Z) : M Z := length10 (channel + 30).
Definition cvct_part2_descriptors_length (part2 : Z) : M Z := length10 part2.

Definition atsc_cvct_channel_codec (len pos : Z) : M Z :=
  fail_if (len <? pos + sizeof_atsc_cvct_channel);;
  let channel := pos in
  let pos := pos + 7 * 2 in
  bswap32 pos;;
  bswap32 (pos + 4);;
  bswap16 (pos + 8);;
  bswap16 (pos + 10);;
  bswap16 (pos + 12);;
  bswap16 (pos + 14);;
  bswap16 (pos + 16);;
  let pos := pos + 18 in
  n ← cvct_channel_descriptors_length channel;
  skip_descriptors len pos n.

Definition atsc_cvct_section_codec : M unit :=
  let pos := sizeof_atsc_section_psip in
  len ← section_ext_length;
  fail_if (len <? sizeof_atsc_cvct_section);;
  let pos := pos + 1 in
  n ← cvct_num_channels_in_section;
  pos ← for_upto (Z.to_nat n) 0 (fun _ => atsc_cvct_channel_codec len) pos;
  fail_if (len <? pos + sizeof_atsc_cvct_section_part2);;
  let part2 := pos in
  bswap16 pos;;
  let pos := pos + 2 in
  n ← cvct_part2_descriptors_length part2;
  pos ← skip_descriptors len pos n;
  fail_if (negb (pos =? len)).

Definition atsc_cvct_section_transport_stream_id : M Z := section_ext_table_id_ext.
Definition cvct_path_select (c : Z) : M Z := x ← rd16 (c + 26); mret (Z.land (Z.shiftr x 11) 1).
Definition cvct_out_of_band (c : Z) : M Z := x ← rd16 (c + 26); mret (Z.land (Z.shiftr x 10) 1).

Definition atsc_cvct_section_channels_first : M (option Z) :=
  n ← cvct_num_channels_in_section;
  mret (if n =? 0 then None else Some sizeof_atsc_cvct_section).
Definition atsc_cvct_section_channels_next (pos idx : Z) : M (option Z) :=
  n ← cvct_num_channels_in_section;
  if n <=? idx then mret None else
  l ← cvct_channel_descriptors_length pos;
  mret (Some (pos + sizeof_atsc_cvct_channel + l)).
Definition atsc_cvct_channel_descriptors_first : Z -> M (option Z) :=
  descriptors_first sizeof_atsc_cvct_channel cvct_channel_descriptors_length.
Definition atsc_cvct_channel_descriptors_next : Z -> Z -> M (option Z) :=
  descriptors_next sizeof_atsc_cvct_channel cvct_channel_descriptors_length.
Definition atsc_cvct_section_part2_descriptors_first : Z -> M (option Z) :=
  descriptors_first sizeof_atsc_cvct_section_part2 cvct_part2_descriptors_length.
Definition atsc_cvct_section_part2_descriptors_next : Z -> Z -> M (option Z) :=
  descriptors_next sizeof_atsc_cvct_section_part2 cvct_part2_descriptors_length.
Definition atsc_cvct_section_part2 : M Z :=
  first ← atsc_cvct_section_channels_first;
  sizes ← for_each_idx 256 0 atsc_cvct_section_channels_next
            (fun c => l ← cvct_channel_descriptors_length c; mret (sizeof_atsc_cvct_channel + l)) first;
  mret (sizeof_atsc_cvct_section + sum sizes).

(** ** Events: eit_section.[ch] *)

Definition sizeof_atsc_eit_section : Z := 10.
Definition sizeof_atsc_eit_event : Z := 10.
Definition sizeof_atsc_eit_event_part2 : Z := 2.
Definition eit_num_events_in_section : M Z := rd8 9.
Definition eit_title_length (event : Z) : M Z := x ← rd32 (event + 6); mret (Z.land x 0xff).
Definition eit_part2_descriptors_length (part2 : Z) : M Z := length12 part2.

Definition atsc_eit_event_codec (len pos : Z) : M Z :=
  fail_if (len <? pos + sizeof_atsc_eit_event);;
  let event := pos in
  bswap16 pos;;
  bswap32 (pos + 2);;
  bswap32 (pos + 6);;
  let pos := pos + sizeof_atsc_eit_event in
  n ← eit_title_length event;
  pos ← skip_text len pos n;
  fail_if (len <? pos + sizeof_atsc_eit_event_part2);;
  let part2 := pos in
  bswap16 pos;;
  let pos := pos + sizeof_atsc_eit_event_part2 in
  n ← eit_part2_descriptors_length part2;
  skip_descriptors len pos n.

Definition atsc_eit_section_codec : M unit :=
  let pos := 0 in
  len ← section_ext_length;
  fail_if (len <? sizeof_atsc_eit_section);;
  let pos := pos + sizeof_atsc_eit_section in
  n ← eit_num_events_in_section;
  pos ← for_upto (Z.to_nat n) 0 (fun _ => atsc_eit_event_codec len) pos;
  fail_if (negb (pos =? len)).

Definition atsc_eit_section_source_id : M Z := section_ext_table_id_ext.
Definition eit_event_event_id (e : Z) : M Z := x ← rd16 e; mret (Z.land x 0x3fff).
Definition eit_event_start_time (e : Z) : M Z := rd32 (e + 2).
Definition eit_ETM_location (e : Z) : M Z := x ← rd32 (e + 6); mret (Z.land (Z.shiftr x 28) 3).
Definition eit_length_in_seconds (e : Z) : M Z := x ← rd32 (e + 6); mret (Z.land (Z.shiftr x 8) 0xfffff).
Definition atsc_eit_event_name_title_text (event : Z) : M (option Z) :=
  n ← eit_title_length event; mret (text_if n (event + sizeof_atsc_eit_event)).
Definition atsc_eit_event_part2 (event : Z) : M Z :=
  n ← eit_title_length event; mret (event + sizeof_atsc_eit_event + n).
Definition atsc_eit_section_events_first : M (option Z) :=
  n ← eit_num_events_in_section;
  mret (if n =? 0 then None else Some sizeof_atsc_eit_section).
Definition atsc_eit_section_events_next (pos idx : Z) : M (option Z) :=
  n ← eit_num_events_in_section;
  if n <=? idx then mret None else
  part2 ← atsc_eit_event_part2 pos;
  l ← eit_part2_descriptors_length part2;
  mret (Some (part2 + (sizeof_atsc_eit_event_part2 + l))).
Definition atsc_eit_event_part2_descriptors_first : Z -> M (option Z) :=
  descriptors_first sizeof_atsc_eit_event_part2 eit_part2_descriptors_length.
Definition atsc_eit_event_part2_descriptors_next : Z -> Z -> M (option Z) :=
  descriptors_next sizeof_atsc_eit_event_part2 eit_part2_descriptors_length.

(** ** Extended texts: ett_section.[ch] *)

Definition sizeof_atsc_ett_section : Z := 13.
Definition atsc_ett_section_codec : M unit :=
  let pos := sizeof_atsc_section_psip in
  len ← section_ext_length;
  fail_if (len <? sizeof_atsc_ett_section);;
  bswap32 pos;;
  let pos := pos + 4 in
  l ← section_ext_length;
  r ← atsc_text_validate pos (l - sizeof_atsc_ett_section);
  fail_if (negb (r =? 0)).

Definition ett_ETM_source_id : M Z := x ← rd32 9; mret (Z.shiftr x 16).
Definition ett_ETM_sub_id : M Z := x ← rd32 9; mret (Z.land (Z.shiftr x 2) 0x3fff).
Definition ett_ETM_type : M Z := x ← rd32 9; mret (Z.land x 3).
Definition atsc_ett_section_extended_text_message_length : M Z :=
  l ← section_ext_length; mret (l - sizeof_atsc_ett_section).
Definition atsc_ett_section_extended_text_message : M (option Z) :=
  l ← section_ext_length; mret (text_if (l - sizeof_atsc_ett_section) sizeof_atsc_ett_section).

(** ** The master guide: mgt_section.[ch] *)

Definition sizeof_atsc_mgt_section : Z := 11.
Definition sizeof_atsc_mgt_table : Z := 11.
Definition sizeof_atsc_mgt_section_part2 : Z := 2.
Definition mgt_tables_defined : M Z := rd16 9.
Definition mgt_table_type_descriptors_length (table : Z) : M Z := length12 (table + 9).
Definition mgt_part2_descriptors_length (part2 : Z) : M Z := length12 part2.

Definition atsc_mgt_table_codec (len pos : Z) : M Z :=
  fail_if (len <? pos + sizeof_atsc_mgt_table);;
  let table := pos in
  bswap16 pos;;
  bswap16 (pos + 2);;
  bswap32 (pos + 5);;
  bswap16 (pos + 9);;
  let pos := pos + sizeof_atsc_mgt_table in
  n ← mgt_table_type_descriptors_length table;
  skip_descriptors len pos n.

Definition atsc_mgt_section_codec : M unit :=
  let pos := sizeof_atsc_section_psip in
  len ← section_ext_length;
  fail_if (len <? sizeof_atsc_mgt_section);;
  bswap16 pos;;
  let pos := pos + 2 in
  n ← mgt_tables_defined;
  pos ← for_upto (Z.to_nat n) 0 (fun _ => atsc_mgt_table_codec len) pos;
  fail_if (len <? pos + sizeof_atsc_mgt_section_part2);;
  let part2 := pos in
  bswap16 pos;;
  let pos := pos + sizeof_atsc_mgt_section_part2 in
  n ← mgt_part2_descriptors_length part2;
  pos ← skip_descriptors len pos n;
  fail_if (negb (pos =? len)).

Definition mgt_table_type (t : Z) : M Z := rd16 t.
Definition mgt_table_type_PID (t : Z) : M Z := x ← rd16 (t + 2); mret (Z.land x 0x1fff).
Definition mgt_table_type_version_number (t : Z) : M Z := x ← rd8 (t + 4); mret (Z.land x 0x1f).
Definition mgt_number_bytes (t : Z) : M Z := rd32 (t + 5).
Definition atsc_mgt_section_tables_first : M (option Z) :=
  n ← mgt_tables_defined;
  mret (if n =? 0 then None else Some sizeof_atsc_mgt_section).
Definition atsc_mgt_section_tables_next (pos idx : Z) : M (option Z) :=
  n ← mgt_tables_defined;
  if n <=? idx then mret None else
  l ← mgt_table_type_descriptors_length pos;
  mret (Some (pos + sizeof_atsc_mgt_table + l)).
Definition atsc_mgt_table_descriptors_first : Z -> M (option Z) :=
  descriptors_first sizeof_atsc_mgt_table mgt_table_type_descriptors_length.
Definition atsc_mgt_table_descriptors_next : Z -> Z -> M (option Z) :=
  descriptors_next sizeof_atsc_mgt_table mgt_table_type_descriptors_length.
Definition atsc_mgt_section_part2_descriptors_first : Z -> M (option Z) :=
  descriptors_first sizeof_atsc_mgt_section_part2 mgt_part2_descriptors_length.
Definition atsc_mgt_section_part2_descriptors_next : Z -> Z -> M (option Z) :=
  descriptors_next sizeof_atsc_mgt_section_part2 mgt_part2_descriptors_length.
(** The count has 16 bits, but every table takes 11 bytes of a section below 4096. *)
Definition atsc_mgt_section_part2 : M Z :=
  first ← atsc_mgt_section_tables_first;
  sizes ← for_each_idx 4096 0 atsc_mgt_section_tables_next
            (fun t => l ← mgt_table_type_descriptors_length t; mret (sizeof_atsc_mgt_table + l)) first;
  mret (sizeof_atsc_mgt_section + sum sizes).

(** ** The system time: stt_section.[ch] *)

Definition sizeof_atsc_stt_section : Z := 16.
Definition atsc_stt_section_codec : M unit :=
  let pos := sizeof_atsc_section_psip in
  len ← section_ext_length;
  fail_if (len <? sizeof_atsc_stt_section);;
  bswap32 pos;;
  let pos := pos + 5 in
  bswap16 pos;;
  let pos := pos + 2 in
  r ← verify_descriptors pos (len - sizeof_atsc_stt_section);
  fail_if (negb (r =? 0)).

Definition stt_system_time : M Z := rd32 9.
Definition stt_gps_utc_offset : M Z := rd8 13.
Definition stt_DS_status : M Z := x ← rd16 14; mret (Z.shiftr x 15).
Definition stt_DS_day_of_month : M Z := x ← rd16 14; mret (Z.land (Z.shiftr x 8) 0x1f).
Definition stt_DS_hour : M Z := x ← rd16 14; mret (Z.land x 0xff).
Definition atsc_stt_section_descriptors_first : M (option Z) :=
  len ← section_ext_length; mret (if len <=? sizeof_atsc_stt_section then None else Some sizeof_atsc_stt_section).
Definition atsc_stt_section_descriptors_next (pos : Z) : M (option Z) :=
  len ← section_ext_length; next_descriptor sizeof_atsc_stt_section (len - sizeof_atsc_stt_section) (Some pos).

(** ** The rating region: rrt_section.[ch] *)

Definition sizeof_atsc_rrt_section : Z := 10.
Definition sizeof_atsc_rrt_section_part2 : Z := 1.
Definition sizeof_atsc_rrt_dimension : Z := 1.
Definition sizeof_atsc_rrt_dimension_part2 : Z := 1.
Definition sizeof_atsc_rrt_dimension_value : Z := 1.
Definition sizeof_atsc_rrt_dimension_value_part2 : Z := 1.
Definition sizeof_atsc_rrt_section_part3 : Z := 2.
Definition rrt_rating_region_name_length : M Z := rd8 9.
Definition rrt_dimensions_defined (part2 : Z) : M Z := rd8 part2.
Definition rrt_dimension_name_length (dimension : Z) : M Z := rd8 dimension.
Definition rrt_graduated_scale (dpart2 : Z) : M Z := x ← rd8 dpart2; mret (Z.land (Z.shiftr x 4) 1).
Definition rrt_values_defined (dpart2 : Z) : M Z := x ← rd8 dpart2; mret (Z.land x 0xf).
Definition rrt_abbrev_rating_value_length (value : Z) : M Z := rd8 value.
Definition rrt_rating_value_length (vpart2 : Z) : M Z := rd8 vpart2.
Definition rrt_part3_descriptors_length (part3 : Z) : M Z := length10 part3.

Definition atsc_rrt_value_codec (len pos : Z) : M Z :=
  fail_if (len <? pos + sizeof_atsc_rrt_dimension_value);;
  let value := pos in
  let pos := pos + sizeof_atsc_rrt_dimension_value in
  n ← rrt_abbrev_rating_value_length value;
  pos ← skip_text len pos n;
  fail_if (len <? pos + sizeof_atsc_rrt_dimension_value_part2);;
  let vpart2 := pos in
  let pos := pos + sizeof_atsc_rrt_dimension_value_part2 in
  n ← rrt_rating_value_length vpart2;
  skip_text len pos n.
Definition atsc_rrt_dimension_codec (len pos : Z) : M Z :=
  fail_if (len <? pos + sizeof_atsc_rrt_dimension);;
  let dimension := pos in
  let pos := pos + sizeof_atsc_rrt_dimension in
  n ← rrt_dimension_name_length dimension;
  pos ← skip_text len pos n;
  fail_if (len <? pos + sizeof_atsc_rrt_dimension_part2);;
  let dpart2 := pos in
  let pos := pos + sizeof_atsc_rrt_dimension_part2 in
  n ← rrt_values_defined dpart2;
  for_upto (Z.to_nat n) 0 (fun _ => atsc_rrt_value_codec len) pos.

(** The length of part 3 is not swapped. *)
Definition atsc_rrt_section_codec : M unit :=
  let pos := 0 in
  len ← section_ext_length;
  fail_if (len <? sizeof_atsc_rrt_section);;
  let pos := pos + sizeof_atsc_rrt_section in
  n ← rrt_rating_region_name_length;
  pos ← skip_text len pos n;
  fail_if (len <? pos + sizeof_atsc_rrt_section_part2);;
  let rrtpart2 := pos in
  let pos := pos + sizeof_atsc_rrt_section_part2 in
  n ← rrt_dimensions_defined rrtpart2;
  pos ← for_upto (Z.to_nat n) 0 (fun _ => atsc_rrt_dimension_codec len) pos;
  fail_if (len <? pos + sizeof_atsc_rrt_section_part3);;
  let part3 := pos in
  let pos := pos + sizeof_atsc_rrt_section_part3 in
  n ← rrt_part3_descriptors_length part3;
  pos ← skip_descriptors len pos n;
  fail_if (negb (pos =? len)).

Definition atsc_rrt_section_rating_region : M Z := x ← section_ext_table_id_ext; mret (Z.land x 0xff).
Definition atsc_rrt_section_rating_region_name_text : M (option Z) :=
  n ← rrt_rating_region_name_length; mret (text_if n sizeof_atsc_rrt_section).
Definition atsc_rrt_section_part2 : M Z :=
  n ← rrt_rating_region_name_length; mret (sizeof_atsc_rrt_section + n).
Definition atsc_rrt_dimension_name_text (dimension : Z) : M (option Z) :=
  n ← rrt_dimension_name_length dimension; mret (text_if n (dimension + sizeof_atsc_rrt_dimension)).
Definition atsc_rrt_dimension_part2 (dimension : Z) : M Z :=
  n ← rrt_dimension_name_length dimension; mret (dimension + sizeof_atsc_rrt_dimension + n).
Definition atsc_rrt_dimension_value_abbrev_rating_value_text (value : Z) : M (option Z) :=
  n ← rrt_abbrev_rating_value_length value; mret (text_if n (value + sizeof_atsc_rrt_dimension_value)).
Definition atsc_rrt_dimension_value_part2 (value : Z) : M Z :=
  n ← rrt_abbrev_rating_value_length value; mret (value + sizeof_atsc_rrt_dimension_value + n).
Definition atsc_rrt_dimension_value_part2_rating_value_text (vpart2 : Z) : M (option Z) :=
  n ← rrt_rating_value_length vpart2; mret (text_if n (vpart2 + sizeof_atsc_rrt_dimension_value_part2)).

Definition atsc_rrt_dimension_part2_values_first (dpart2 : Z) : M (option Z) :=
  n ← rrt_values_defined dpart2;
  mret (if n =? 0 then None else Some (dpart2 + sizeof_atsc_rrt_dimension_part2)).
Definition atsc_rrt_dimension_part2_values_next (dpart2 pos idx : Z) : M (option Z) :=
  n ← rrt_values_defined dpart2;
  if n <=? idx then mret None else
  vpart2 ← atsc_rrt_dimension_value_part2 pos;
  l ← rrt_rating_value_length vpart2;
  mret (Some (vpart2 + (sizeof_atsc_rrt_dimension_value_part2 + l))).
(** The sizes of the values behind a dimension. *)
Definition rrt_values_size (dpart2 : Z) : M Z :=
  first ← atsc_rrt_dimension_part2_values_first dpart2;
  sizes ← for_each_idx 256 0 (atsc_rrt_dimension_part2_values_next dpart2)
    (fun value =>
       n ← rrt_abbrev_rating_value_length value;
       vpart2 ← atsc_rrt_dimension_value_part2 value;
       l ← rrt_rating_value_length vpart2;
       mret (sizeof_atsc_rrt_dimension_value + n + sizeof_atsc_rrt_dimension_value_part2 + l)) first;
  mret (sum sizes).
Definition atsc_rrt_section_dimensions_first (part2 : Z) : M (option Z) :=
  n ← rrt_dimensions_defined part2;
  mret (if n =? 0 then None else Some (part2 + sizeof_atsc_rrt_section_part2)).
Definition atsc_rrt_section_dimensions_next (part2 pos idx : Z) : M (option Z) :=
  n ← rrt_dimensions_defined part2;
  if n <=? idx then mret None else
  dpart2 ← atsc_rrt_dimension_part2 pos;
  size ← rrt_values_size dpart2;
  mret (Some (dpart2 + (sizeof_atsc_rrt_dimension_part2 + size))).
Definition atsc_rrt_section_part3 (part2 : Z) : M Z :=
  first ← atsc_rrt_section_dimensions_first part2;
  sizes ← for_each_idx 256 0 (atsc_rrt_section_dimensions_next part2)
    (fun dimension =>
       n ← rrt_dimension_name_length dimension;
       dpart2 ← atsc_rrt_dimension_part2 dimension;
       size ← rrt_values_size dpart2;
       mret (sizeof_atsc_rrt_dimension + n + sizeof_atsc_rrt_dimension_part2 + size)) first;
  mret (part2 + (sizeof_atsc_rrt_section_part2 + sum sizes)).
Definition atsc_rrt_section_part3_descriptors_first : Z -> M (option Z) :=
  descriptors_first sizeof_atsc_rrt_section_part3 rrt_part3_descriptors_length.
Definition atsc_rrt_section_part3_descriptors_next : Z -> Z -> M (option Z) :=
  descriptors_next sizeof_atsc_rrt_section_part3 rrt_part3_descriptors_length.

(** ** Directed channel change: dcct_section.[ch] *)

Definition sizeof_atsc_dcct_section : Z := 10.
Definition sizeof_atsc_dcct_test : Z := 15.
Definition sizeof_atsc_dcct_term : Z := 11.
Definition sizeof_atsc_dcct_test_part2 : Z := 2.
Definition sizeof_atsc_dcct_section_part2 : Z := 2.
Definition dcct_dcc_test_count : M Z := rd8 9.
Definition dcct_dcc_term_count (test : Z) : M Z := rd8 (test + 14).
Definition dcct_term_descriptors_length (term : Z) : M Z := length10 (term + 9).
Definition dcct_part2_descriptors_length (part2 : Z) : M Z := length10 part2.

Definition atsc_dcct_term_codec (len pos : Z) : M Z :=
  fail_if (len <? pos + sizeof_atsc_dcct_term);;
  let term := pos in
  bswap64 (pos + 1);;
  bswap16 (pos + 9);;
  let pos := pos + sizeof_atsc_dcct_term in
  n ← dcct_term_descriptors_length term;
  skip_descriptors len pos n.
Definition atsc_dcct_test_codec (len pos : Z) : M Z :=
  fail_if (len <? pos + sizeof_atsc_dcct_test);;
  let test := pos in
  bswap24 pos;;
  bswap24 (pos + 3);;
  bswap32 (pos + 6);;
  bswap32 (pos + 10);;
  let pos := pos + sizeof_atsc_dcct_test in
  n ← dcct_dcc_term_count test;
  pos ← for_upto (Z.to_nat n) 0 (fun _ => atsc_dcct_term_codec len) pos;
  fail_if (len <? pos + sizeof_atsc_dcct_test_part2);;
  let part2 := pos in
  bswap16 pos;;
  let pos := pos + sizeof_atsc_dcct_test_part2 in
  n ← dcct_part2_descriptors_length part2;
  skip_descriptors len pos n.

Definition atsc_dcct_section_codec : M unit :=
  let pos := 0 in
  len ← section_ext_length;
  fail_if (len <? sizeof_atsc_dcct_section);;
  let pos := pos + sizeof_atsc_dcct_section in
  n ← dcct_dcc_test_count;
  pos ← for_upto (Z.to_nat n) 0 (fun _ => atsc_dcct_test_codec len) pos;
  fail_if (len <? pos + sizeof_atsc_dcct_section_part2);;
  let part2 := pos in
  bswap16 pos;;
  let pos := pos + sizeof_atsc_dcct_section_part2 in
  n ← dcct_part2_descriptors_length part2;
  pos ← skip_descriptors len pos n;
  fail_if (negb (pos =? len)).

Definition atsc_dcct_section_dcc_subtype : M Z := x ← section_ext_table_id_ext; mret (Z.shiftr x 8).
Definition atsc_dcct_section_dcc_id : M Z := x ← section_ext_table_id_ext; mret (Z.land x 0xff).
Definition atsc_dcct_test_terms_first (test : Z) : M (option Z) :=
  n ← dcct_dcc_term_count test;
  mret (if n =? 0 then None else Some (test + sizeof_atsc_dcct_test)).
Definition atsc_dcct_test_terms_next (test pos idx : Z) : M (option Z) :=
  n ← dcct_dcc_term_count test;
  if n <=? idx then mret None else
  l ← dcct_term_descriptors_length pos;
  mret (Some (pos + (sizeof_atsc_dcct_term + l))).
Definition atsc_dcct_test_part2 (test : Z) : M Z :=
  first ← atsc_dcct_test_terms_first test;
  sizes ← for_each_idx 256 0 (atsc_dcct_test_terms_next test)
            (fun term => l ← dcct_term_descriptors_length term; mret (sizeof_atsc_dcct_term + l)) first;
  mret (test + (sizeof_atsc_dcct_test + sum sizes)).
Definition atsc_dcct_section_tests_first : M (option Z) :=
  n ← dcct_dcc_test_count;
  mret (if n =? 0 then None else Some sizeof_atsc_dcct_section).
Definition atsc_dcct_section_tests_next (pos idx : Z) : M (option Z) :=
  n ← dcct_dcc_test_count;
  if n <=? idx then mret None else
  part2 ← atsc_dcct_test_part2 pos;
  l ← dcct_part2_descriptors_length part2;
  mret (Some (part2 + (sizeof_atsc_dcct_test_part2 + l))).
Definition atsc_dcct_section_part2 : M Z :=
  first ← atsc_dcct_section_tests_first;
  sizes ← for_each_idx 256 0 atsc_dcct_section_tests_next
    (fun test =>
       part2 ← atsc_dcct_test_part2 test;
       l ← dcct_part2_descriptors_length part2;
       mret (part2 - test + sizeof_atsc_dcct_test_part2 + l)) first;
  mret (sizeof_atsc_dcct_section + sum sizes).
Definition atsc_dcct_term_descriptors_first : Z -> M (option Z) :=
  descriptors_first sizeof_atsc_dcct_term dcct_term_descriptors_length.
Definition atsc_dcct_term_descriptors_next : Z -> Z -> M (option Z) :=
  descriptors_next sizeof_atsc_dcct_term dcct_term_descriptors_length.
Definition atsc_dcct_test_part2_descriptors_first : Z -> M (option Z) :=
  descriptors_first sizeof_atsc_dcct_test_part2 dcct_part2_descriptors_length.
Definition atsc_dcct_test_part2_descriptors_next : Z -> Z -> M (option Z) :=
  descriptors_next sizeof_atsc_dcct_test_part2 dcct_part2_descriptors_length.
Definition atsc_dcct_section_part2_descriptors_first : Z -> M (option Z) :=
  descriptors_first sizeof_atsc_dcct_section_part2 dcct_part2_descriptors_length.
Definition atsc_dcct_section_part2_descriptors_next : Z -> Z -> M (option Z) :=
  descriptors_next sizeof_atsc_dcct_section_part2 dcct_part2_descriptors_length.

(** ** Selection codes: dccsct_section.[ch] *)

Definition sizeof_atsc_dccsct_section : Z := 10.
Definition sizeof_atsc_dccsct_update : Z := 2.
Definition sizeof_atsc_dccsct_update_new_genre : Z := 1.
Definition sizeof_atsc_dccsct_update_new_state : Z := 1.
Definition sizeof_atsc_dccsct_update_new_county : Z := 3.
Definition sizeof_atsc_dccsct_update_part2 : Z := 2.
Definition sizeof_atsc_dccsct_section_part2 : Z := 2.
Definition ATSC_DCCST_UPDATE_NEW_GENRE : Z := 1.
Definition ATSC_DCCST_UPDATE_NEW_STATE : Z := 2.
Definition ATSC_DCCST_UPDATE_NEW_COUNTY : Z := 3.
Definition dccsct_updates_defined : M Z := rd8 9.
Definition dccsct_update_type (update : Z) : M Z := rd8 update.
Definition dccsct_update_data_length (update : Z) : M Z := rd8 (update + 1).
Definition dccsct_part2_descriptors_length (part2 : Z) : M Z := length10 part2.

(** The cases of the switch: [sublen] bytes, of which a county swaps two, and a name. *)
Definition dccsct_update_name (pos data_length sublen : Z) (swap : M unit) : M unit :=
  fail_if (data_length <? sublen);;
  swap;;
  r ← atsc_text_validate (pos + sublen) (data_length - sublen);
  fail_if (negb (r =? 0)).
(** [part2] is a pointer to the section, cast first and then moved by [pos] elements of two bytes. *)
Definition atsc_dccsct_update_codec (len pos : Z) : M Z :=
  fail_if (len <? pos + sizeof_atsc_dccsct_update);;
  let update := pos in
  let pos := pos + sizeof_atsc_dccsct_update in
  n ← dccsct_update_data_length update;
  fail_if (len <? pos + n);;
  t ← dccsct_update_type update;
  (if t =? ATSC_DCCST_UPDATE_NEW_GENRE then dccsct_update_name pos n sizeof_atsc_dccsct_update_new_genre (mret tt)
   else if t =? ATSC_DCCST_UPDATE_NEW_STATE then dccsct_update_name pos n sizeof_atsc_dccsct_update_new_state (mret tt)
   else if t =? ATSC_DCCST_UPDATE_NEW_COUNTY then dccsct_update_name pos n sizeof_atsc_dccsct_update_new_county (bswap16 (pos + 1))
   else mret tt);;
  let pos := pos + n in
  fail_if (len <? pos + sizeof_atsc_dccsct_update_part2);;
  let part2 := 0 + sizeof_atsc_dccsct_update_part2 * pos in
  bswap16 pos;;
  let pos := pos + sizeof_atsc_dccsct_update_part2 in
  n ← dccsct_part2_descriptors_length part2;
  skip_descriptors len pos n.

Definition atsc_dccsct_section_codec : M unit :=
  let pos := 0 in
  len ← section_ext_length;
  fail_if (len <? sizeof_atsc_dccsct_section);;
  let pos := pos + sizeof_atsc_dccsct_section in
  n ← dccsct_updates_defined;
  pos ← for_upto (Z.to_nat n) 0 (fun _ => atsc_dccsct_update_codec len) pos;
  fail_if (len <? pos + sizeof_atsc_dccsct_section_part2);;
  let part2 := pos in
  bswap16 pos;;
  let pos := pos + sizeof_atsc_dccsct_section_part2 in
  n ← dccsct_part2_descriptors_length part2;
  pos ← skip_descriptors len pos n;
  fail_if (negb (pos =? len)).

Definition atsc_dccsct_section_dccsct_type : M Z := section_ext_table_id_ext.
Definition dccsct_update_data (kind update : Z) : M (option Z) :=
  t ← dccsct_update_type update; mret (if t =? kind then Some (update + sizeof_atsc_dccsct_update) else None).
Definition atsc_dccsct_update_new_genre : Z -> M (option Z) := dccsct_update_data ATSC_DCCST_UPDATE_NEW_GENRE.
Definition atsc_dccsct_update_new_state : Z -> M (option Z) := dccsct_update_data ATSC_DCCST_UPDATE_NEW_STATE.
Definition atsc_dccsct_update_new_county : Z -> M (option Z) := dccsct_update_data ATSC_DCCST_UPDATE_NEW_COUNTY.
(** The names are given for the update, not for the data behind its header. *)
Definition atsc_dccsct_update_new_genre_name (update : Z) : M (option Z) :=
  n ← dccsct_update_data_length update; mret (text_if (n - 1) (update + sizeof_atsc_dccsct_update_new_genre)).
Definition atsc_dccsct_update_new_state_name (update : Z) : M (option Z) :=
  n ← dccsct_update_data_length update; mret (text_if (n - 1) (update + sizeof_atsc_dccsct_update_new_state)).
Definition atsc_dccsct_update_new_county_name (update : Z) : M (option Z) :=
  n ← dccsct_update_data_length update; mret (text_if (n - 3) (update + sizeof_atsc_dccsct_update_new_county)).
Definition atsc_dccsct_update_part2 (update : Z) : M Z :=
  n ← dccsct_update_data_length update; mret (update + (sizeof_atsc_dccsct_update + n)).
Definition atsc_dccsct_section_updates_first : M (option Z) :=
  n ← dccsct_updates_defined;
  mret (if n =? 0 then None else Some sizeof_atsc_dccsct_section).
Definition atsc_dccsct_section_updates_next (pos idx : Z) : M (option Z) :=
  n ← dccsct_updates_defined;
  if n <=? idx then mret None else
  part2 ← atsc_dccsct_update_part2 pos;
  l ← dccsct_part2_descriptors_length part2;
  mret (Some (part2 + (sizeof_atsc_dccsct_update_part2 + l))).
Definition atsc_dccsct_update_part2_descriptors_first : Z -> M (option Z) :=
  descriptors_first sizeof_atsc_dccsct_update_part2 dccsct_part2_descriptors_length.
Definition atsc_dccsct_update_part2_descriptors_next : Z -> Z -> M (option Z) :=
  descriptors_next sizeof_atsc_dccsct_update_part2 dccsct_part2_descriptors_length.
Definition atsc_dccsct_section_part2_descriptors_first : Z -> M (option Z) :=
  descriptors_first sizeof_atsc_dccsct_section_part2 dccsct_part2_descriptors_length.
Definition atsc_dccsct_section_part2_descriptors_next : Z -> Z -> M (option Z) :=
  descriptors_next sizeof_atsc_dccsct_section_part2 dccsct_part2_descriptors_length.
