(* ===== verification/AtscFormats.v ===== *)
(** * AtscFormats: formats of tables, and the rules for codecs

    A format says how a value is transmitted and what a codec that swaps fields in place leaves of
    it.  Formats are put together as structures followed by what their fields announce.  [codes]
    states that a codec accepts exactly the bytes of a format; there is one rule for each kind of
    statement of the codecs of AtscSections.v. *)

From S2P Require Import Prelude Mem EndianOps Descriptor PsiSection EntryLoop AtscText AtscSections.

(** ** Splices *)

Lemma zsplice_same m p l : 0 <= p -> p + zlen l <= zlen m -> slice m p (zlen l) = l -> zsplice m p l = m.
Proof.
  intros Hp Hl E. pose proof (zlen_nonneg l). apply zlist_eq; [by rewrite zlen_zsplice|]. intros j Hj. rewrite zlen_zsplice in Hj by done.
  rewrite zat_zsplice by lia. case_decide; [|done]. rewrite <- E, zat_slice by lia. f_equal. lia.
Qed.
Lemma zsplice_zsplice m p a b : 0 <= p -> p + zlen a + zlen b <= zlen m ->
  zsplice (zsplice m p a) (p + zlen a) b = zsplice m p (a ++ b).
Proof.
  intros Hp Hl. pose proof (zlen_nonneg a). pose proof (zlen_nonneg b).
  assert (H1 : zlen (zsplice m p a) = zlen m) by (apply zlen_zsplice; lia).
  assert (H2 : zlen (zsplice (zsplice m p a) (p + zlen a) b) = zlen m) by (rewrite zlen_zsplice; lia).
  assert (H3 : zlen (a ++ b) = zlen a + zlen b) by apply zlen_app.
  apply zlist_eq; [rewrite H2, zlen_zsplice; lia|]. intros j Hj.
  rewrite (zat_zsplice (zsplice m p a)) by lia. rewrite (zat_zsplice m p a), (zat_zsplice m p (a ++ b)) by lia.
  repeat case_decide; try lia; try done; rewrite zat_app by lia; case_decide; try lia; f_equal; lia.
Qed.
Lemma slice_zsplice m p l q n : 0 <= p -> p + zlen l <= zlen m -> 0 <= n -> 0 <= q -> q + n <= zlen m -> p + zlen l <= q \/ q + n <= p ->
  slice (zsplice m p l) q n = slice m q n.
Proof.
  intros Hp Hl Hn Hq Hm Hout. pose proof (zlen_nonneg l). apply slice_ext; rewrite ?zlen_zsplice by lia; try lia. intros j Hj.
  rewrite zat_zsplice by lia. by rewrite decide_False by lia.
Qed.
Lemma slice_zsplice_in m p l o n : 0 <= p -> p + zlen l <= zlen m -> 0 <= o -> 0 <= n -> o + n <= zlen l ->
  slice (zsplice m p l) (p + o) n = slice l o n.
Proof.
  intros Hp Hl Ho Hn Hon. apply zlist_eq; rewrite !zlen_slice_le; rewrite ?zlen_zsplice by lia; try lia. intros j Hj.
  rewrite !zat_slice, zat_zsplice, decide_True by lia. f_equal. lia.
Qed.
Lemma slice_full l : slice l 0 (zlen l) = l.
Proof. unfold slice, ztake, zdrop, zlen. rewrite Nat2Z.id. cbn [Z.to_nat drop]. by rewrite firstn_all. Qed.

(** ** Swaps of fields of any width *)

Definition bswapn (w p : Z) : M unit :=
  if w =? 2 then bswap16 p else if w =? 3 then bswap24 p else if w =? 4 then bswap32 p else bswap64 p.
(** Fields by offset and width. *)
Definition swaps_mem (sws : list (Z * Z)) (p : Z) (m : mem) : mem := foldl (fun m '(o, w) => rev_at m (p + o) w) m sws.
Definition run_swaps {A} (sws : list (Z * Z)) (p : Z) (k : M A) : M A := foldr (fun '(o, w) k => bswapn w (field_at p o);; k) k sws.
Definition swaps_ok (sz : Z) (sws : list (Z * Z)) : Prop :=
  Forall (fun '(o, w) => 0 <= o /\ o + w <= sz /\ (w = 2 \/ w = 3 \/ w = 4 \/ w = 8)) sws.
Definition swaps_okb (sz : Z) (sws : list (Z * Z)) : bool :=
  (0 <=? sz) && forallb (fun '(o, w) => (0 <=? o) && (o + w <=? sz) && ((w =? 2) || (w =? 3) || (w =? 4) || (w =? 8))) sws.
(** The byte of the structure that comes to index [j]. *)
Definition swap_index (sws : list (Z * Z)) (j : Z) : Z := foldr (fun '(o, w) j => if (o <=? j) && (j <? o + w) then 2 * o + w - 1 - j else j) j sws.

Lemma swaps_okb_ok sz sws : swaps_okb sz sws = true -> 0 <= sz /\ swaps_ok sz sws.
Proof.
  unfold swaps_okb, swaps_ok. rewrite andb_true_iff, forallb_forall, Forall_forall. intros [Hsz H]. split; [lia|].
  intros [o w] Hin. specialize (H (o, w)). apply H in Hin. cbn in Hin. lia.
Qed.
Lemma bswapn_run w p m : w = 2 \/ w = 3 \/ w = 4 \/ w = 8 -> bytes m -> 0 <= p -> p + w <= zlen m -> bswapn w p m = Ret tt (rev_at m p w).
Proof.
  intros Hw Hb Hp Hl. destruct Hw as [-> | [-> | [-> | ->]]]; cbn [bswapn Z.eqb Pos.eqb];
    [by apply bswap16_run|by apply bswap24_run|by apply bswap32_run|by apply bswap64_run].
Qed.
Lemma swap_index_range sz sws j : swaps_ok sz sws -> 0 <= j < sz -> 0 <= swap_index sws j < sz.
Proof.
  intros Hs Hj. induction Hs as [|[o w] sws (H1 & H2 & _) Hs IH]; [done|]. cbn [swap_index foldr] in *. fold (swap_index sws j).
  destruct (Z.leb_spec o (swap_index sws j)), (Z.ltb_spec (swap_index sws j) (o + w)); cbn [andb]; lia.
Qed.
Lemma swaps_mem_spec sz p sws : 0 <= p -> swaps_ok sz sws -> forall m, bytes m -> p + sz <= zlen m ->
  zlen (swaps_mem sws p m) = zlen m /\ bytes (swaps_mem sws p m) /\
  forall j, 0 <= j -> (swaps_mem sws p m).[j] = m.[if decide (p <= j < p + sz) then p + swap_index sws (j - p) else j].
Proof.
  intros Hp Hs. induction Hs as [|[o w] sws (H1 & H2 & Hw) Hs IH]; intros m Hb Hl.
  { split; [done|]. split; [done|]. intros j Hj. cbn [swaps_mem foldl swap_index foldr]. case_decide; f_equal; lia. }
  cbn [swaps_mem foldl]. fold (swaps_mem sws p (rev_at m (p + o) w)).
  assert (Hlr : zlen (rev_at m (p + o) w) = zlen m) by (rewrite zlen_rev_at; lia).
  destruct (IH (rev_at m (p + o) w)) as (E1 & E2 & E3); [apply rev_at_bytes; done || lia|lia|]. split; [lia|]. split; [done|].
  intros j Hj. rewrite E3 by done. cbn [swap_index foldr]. fold (swap_index sws (j - p)).
  destruct (decide (p <= j < p + sz)) as [Hin|Hout].
  - pose proof (swap_index_range sz sws (j - p) Hs ltac:(lia)). rewrite zat_rev_at by lia.
    destruct (Z.leb_spec o (swap_index sws (j - p))), (Z.ltb_spec (swap_index sws (j - p)) (o + w)); cbn [andb]; case_decide; try lia; f_equal; lia.
  - rewrite zat_rev_at by lia. by rewrite decide_False by lia.
Qed.
Lemma run_swaps_run {A} sz p sws (k : M A) : 0 <= p -> swaps_ok sz sws -> forall m, bytes m -> p + sz <= zlen m ->
  run_swaps sws p k m = k (swaps_mem sws p m).
Proof.
  intros Hp Hs. induction Hs as [|[o w] sws (H1 & H2 & Hw) Hs IH]; intros m Hb Hl; [done|].
  cbn [run_swaps foldr]. rewrite field_at_eq. rewrite (bind_run _ _ m _ _ (bswapn_run w (p + o) m Hw Hb ltac:(lia) ltac:(lia))).
  apply IH; [apply rev_at_bytes; done || lia|rewrite zlen_rev_at; lia].
Qed.
(** The structure in the order of the host. *)
Definition swapped_struct (sws : list (Z * Z)) (h : list Z) : list Z := swaps_mem sws 0 h.
Lemma swapped_struct_spec sws h : bytes h -> swaps_ok (zlen h) sws ->
  zlen (swapped_struct sws h) = zlen h /\ bytes (swapped_struct sws h) /\ forall j, 0 <= j < zlen h -> (swapped_struct sws h).[j] = h.[swap_index sws j].
Proof.
  intros Hb Hs. destruct (swaps_mem_spec (zlen h) 0 sws ltac:(lia) Hs h Hb ltac:(lia)) as (H1 & H2 & H3). split_and!; [done..|].
  intros j Hj. unfold swapped_struct. rewrite H3, decide_True by lia. f_equal. by rewrite Z.sub_0_r.
Qed.
Lemma swaps_mem_splice sz sws p m : 0 <= p -> 0 <= sz -> swaps_ok sz sws -> bytes m -> p + sz <= zlen m ->
  swaps_mem sws p m = zsplice m p (swapped_struct sws (slice m p sz)).
Proof.
  intros Hp Hsz Hs Hb Hl. destruct (swaps_mem_spec sz p sws Hp Hs m Hb Hl) as (H1 & H2 & H3).
  assert (Hz : zlen (slice m p sz) = sz) by (apply zlen_slice_le; lia).
  destruct (swapped_struct_spec sws (slice m p sz)) as (G1 & G2 & G3); [by apply slice_bytes|by rewrite Hz|]. rewrite Hz in *.
  apply zlist_eq; [rewrite zlen_zsplice; lia|]. intros j Hj. rewrite H3, zat_zsplice, G1 by lia. case_decide; [|done].
  rewrite G3 by lia. rewrite zat_slice by (pose proof (swap_index_range sz sws (j - p) Hs); lia). f_equal. 
Qed.

(** ** Formats *)

Record format (A : Type) := Format { enc : A -> list Z; host : A -> list Z; ok : A -> Prop }.
Arguments Format {A}.
Arguments enc {A}.
Arguments host {A}.
Arguments ok {A}.
(** No encoding begins another, and the host's bytes take the same room. *)
Class lawful {A} (F : format A) : Prop := Lawful {
  law_prefix : prefix_free (enc F) (ok F);
  law_len : forall a, ok F a -> zlen (host F a) = zlen (enc F a);
  law_bytes : forall a, ok F a -> bytes (host F a) }.
Arguments law_prefix {A} F _.
Arguments law_len {A} F _.
Arguments law_bytes {A} F _.

Definition nothing : format unit := Format (fun _ => []) (fun _ => []) (fun _ => True).
(** What a structure announces: [G] depends on its bytes. *)
Definition followed {A B} (F : format A) (G : A -> format B) : format (A * B) :=
  Format (fun '(a, b) => enc F a ++ enc (G a) b) (fun '(a, b) => host F a ++ host (G a) b) (fun '(a, b) => ok F a /\ ok (G a) b).
Definition struct (sz : Z) (sws : list (Z * Z)) : format (list Z) :=
  Format (fun h => h) (swapped_struct sws) (fun h => bytes h /\ zlen h = sz).
Definition descs (n : Z) : format (list descriptor) :=
  Format encode_descriptors encode_descriptors (fun ds => Forall descriptor_ok ds /\ zlen (encode_descriptors ds) = n).
(** [n] bytes: a text and what is behind it, or none. *)
Definition text_value : Type := option (list string_lang * list Z).
Definition encode_text_value (v : text_value) : list Z := match v with None => [] | Some (strs, rest) => encode_text strs ++ rest end.
Definition text (n : Z) : format text_value :=
  Format encode_text_value encode_text_value
    (fun v => bytes (encode_text_value v) /\ zlen (encode_text_value v) = n /\ match v with None => True | Some (strs, _) => text_ok strs end).
Definition repeated {A} (n : Z) (F : format A) : format (list A) :=
  Format (flat_map (enc F)) (flat_map (host F)) (counted (ok F) (Z.to_nat n)).

Lemma lawful_nothing : lawful nothing.
Proof. split; try done. by intros [] []. Qed.
Lemma lawful_followed {A B} (F : format A) (G : A -> format B) : lawful F -> (forall a, ok F a -> lawful (G a)) -> lawful (followed F G).
Proof.
  intros [P1 L1 B1] HG. split.
  - intros [a b] [a' b'] x y [Ha Hb] [Ha' Hb'] E. cbn [enc followed] in E. rewrite <- !app_assoc in E.
    assert (a = a') as <- by exact (P1 a a' _ _ Ha Ha' E). apply app_inv_head in E. by rewrite (law_prefix _ (HG a Ha) b b' x y Hb Hb' E).
  - intros [a b] [Ha Hb]. cbn [enc host followed]. rewrite !zlen_app, L1, (law_len _ (HG a Ha)) by done. done.
  - intros [a b] [Ha Hb]. cbn [host followed]. apply Forall_app. split; [by apply B1|by apply (law_bytes _ (HG a Ha))].
Qed.
Lemma lawful_struct sz sws : 0 <= sz -> swaps_ok sz sws -> lawful (struct sz sws).
Proof.
  intros Hsz Hs. split; cbn [enc host ok struct].
  - intros a b x y [_ Ha] [_ Hb] E. apply app_inj_1 in E as [-> _]; [done|]. unfold zlen in *. lia.
  - intros h [Hb <-]. by apply swapped_struct_spec.
  - intros h [Hb <-]. by apply swapped_struct_spec.
Qed.
Lemma encode_descriptors_bytes ds : Forall descriptor_ok ds -> bytes (encode_descriptors ds).
Proof.
  induction 1 as [|d ds (H1 & H2 & H3) Hds IH]; [constructor|]. change (bytes (encode_descriptor d ++ encode_descriptors ds)).
  apply Forall_app. split; [|done]. unfold encode_descriptor. pose proof (zlen_nonneg (d_data d)). repeat constructor; [apply H1..|lia|lia|done].
Qed.
Lemma prefix_free_descriptor : prefix_free encode_descriptor descriptor_ok.
Proof.
  intros [t d] [t' d'] x y _ _ E. unfold encode_descriptor in E. cbn [d_tag d_data app] in E. injection E as -> El E.
  apply app_inj_1 in E as [-> _]; [done|]. unfold zlen in El. lia.
Qed.
Lemma encode_descriptors_inj a b : Forall descriptor_ok a -> Forall descriptor_ok b -> encode_descriptors a = encode_descriptors b -> a = b.
Proof.
  revert b. induction a as [|d a IH]; intros [|e b] Ha Hb E; [done|by destruct e|by destruct d|].
  apply Forall_cons_1 in Ha as [Hd Ha]. apply Forall_cons_1 in Hb as [He Hb].
  change (encode_descriptor d ++ encode_descriptors a = encode_descriptor e ++ encode_descriptors b) in E.
  assert (d = e) as <- by exact (prefix_free_descriptor d e _ _ Hd He E). apply app_inv_head in E. f_equal. by apply IH.
Qed.
Lemma lawful_descs n : lawful (descs n).
Proof.
  split; cbn [enc host ok descs]; [|done|by intros ds [Hds _]; apply encode_descriptors_bytes].
  intros a b x y [Ha Na] [Hb Nb] E. apply app_inj_1 in E as [E _]; [by apply encode_descriptors_inj|]. unfold zlen in *. lia.
Qed.
Lemma prefix_free_text : prefix_free encode_text text_ok.
Proof.
  intros a b x y [_ Ha] [_ Hb] E. unfold encode_text in E. injection E as En E.
  apply (prefix_free_counted encode_string string_ok (length a) prefix_free_string a b x y); [by split|split; [unfold zlen in En; lia|done]|done].
Qed.
Lemma text_value_nil v : zlen (encode_text_value v) = 0 -> v = None.
Proof.
  destruct v as [[strs rest]|]; [|done]. cbn [encode_text_value]. unfold encode_text. rewrite zlen_app, zlen_cons.
  pose proof (zlen_nonneg (flat_map encode_string strs)). pose proof (zlen_nonneg rest). lia.
Qed.
Lemma lawful_text n : lawful (text n).
Proof.
  split; cbn [enc host ok text]; [|done|by intros b [Hb _]].
  intros a b x y (_ & Ha & Ta) (_ & Hb & Tb) E. apply app_inj_1 in E as [E _]; [|unfold zlen in *; lia].
  destruct a as [[sa ra]|]; [|symmetry; apply text_value_nil; by rewrite <- E]. destruct b as [[sb rb]|]; [|apply text_value_nil; by rewrite E].
  cbn [encode_text_value] in E. assert (sa = sb) as -> by exact (prefix_free_text sa sb ra rb Ta Tb E). apply app_inv_head in E. by subst.
Qed.
Lemma lawful_repeated {A} n (F : format A) : lawful F -> lawful (repeated n F).
Proof.
  intros [P1 L1 B1]. split; cbn [enc host ok repeated]; [by apply prefix_free_counted|..].
  - intros l [_ Hl]. induction Hl as [|a l Ha Hl IH]; [done|]. cbn [flat_map]. by rewrite !zlen_app, IH, L1.
  - intros l [_ Hl]. induction Hl as [|a l Ha Hl IH]; [constructor|]. cbn [flat_map]. apply Forall_app. split; [by apply B1|done].
Qed.
Lemma lawful_structb sz sws : TCEq (swaps_okb sz sws) true -> lawful (struct sz sws).
Proof. intros H. apply TCEq_eq, swaps_okb_ok in H as [H1 H2]. by apply lawful_struct. Qed.
(** The dependent pair for instances: the rest is a format of its own whatever the structure says. *)
Lemma lawful_dependent {A B} (F : format A) (G : A -> format B) : lawful F -> (forall a, lawful (G a)) -> lawful (followed F G).
Proof. intros HF HG. by apply lawful_followed. Qed.
#[export] Existing Instances lawful_nothing lawful_dependent lawful_structb lawful_descs lawful_text lawful_repeated.

(** ** Codecs of a format *)

(** From [pos] on, [prog] goes on with [fin] behind the encoding it finds before [len], and leaves the host's bytes in its place; or
    there is none, and it fails. *)
Definition codes {A B} (F : format A) (len : Z) (prog : M B) (fin : Z -> M B) (pos : Z) (m : mem) : Prop :=
  (exists a, ok F a /\ starts (enc F) m pos (len - pos) a /\ prog m = fin (pos + zlen (enc F a)) (zsplice m pos (host F a))) \/
  ((forall a, ok F a -> ~ starts (enc F) m pos (len - pos) a) /\ exists m', prog m = Null m').
Definition inside (len pos : Z) (m : mem) : Prop := bytes m /\ 0 <= pos <= len /\ len <= zlen m.

Lemma codes_nothing {B} len (fin : Z -> M B) pos m : inside len pos m -> codes nothing len (fin pos) fin pos m.
Proof.
  intros (_ & Hp & Hl). left. exists tt. cbn [ok enc host nothing]. rewrite zsplice_nil. change (zlen []) with 0. rewrite Z.add_0_r.
  split; [done|]. split; [|done]. split; cbn [enc nothing]; [change (zlen []) with 0; lia|by rewrite slice_nil].
Qed.

Section seq.
Context {A B C : Type} (F : format A) (G : A -> format B) (HF : lawful F) (HG : forall a, ok F a -> lawful (G a)).
Context (len : Z) (prog : M C) (fin : Z -> M C) (pos : Z) (m : mem) (Hin : inside len pos m).

Lemma starts_followed a b : ok F a -> starts (enc (followed F G)) m pos (len - pos) (a, b) <->
  starts (enc F) m pos (len - pos) a /\ starts (enc (G a)) m (pos + zlen (enc F a)) (len - (pos + zlen (enc F a))) b.
Proof.
  intros Ha. destruct Hin as (Hb & Hp & Hl). unfold starts. cbn [enc followed]. rewrite zlen_app.
  pose proof (zlen_nonneg (enc F a)). pose proof (zlen_nonneg (enc (G a) b)). split.
  - intros [Hle E]. rewrite slice_split with (k := zlen (enc F a)) in E by lia. apply app_inj_1 in E as [E1 E2].
    + split; [split; [lia|done]|]. split; [lia|]. rewrite <- E2 at 2. f_equal. lia.
    + pose proof (zlen_slice_le m pos (zlen (enc F a))). unfold zlen in *. lia.
  - intros [[Hle E] [Hle2 E2]]. split; [lia|]. rewrite slice_split with (k := zlen (enc F a)) by lia. rewrite E. f_equal.
    rewrite <- E2 at 2. f_equal. lia.
Qed.
(** The first part is found; the rest is left to the program behind it. *)
Lemma codes_followed a k : ok F a -> starts (enc F) m pos (len - pos) a -> prog m = k (zsplice m pos (host F a)) ->
  codes (G a) len k fin (pos + zlen (enc F a)) (zsplice m pos (host F a)) -> codes (followed F G) len prog fin pos m.
Proof.
  intros Ha Sa E Hk. pose proof Hin as (Hb & Hp & Hl). pose proof (law_len F HF a Ha) as Hla. pose proof (zlen_nonneg (enc F a)). destruct Sa as [Hle Sa].
  assert (Hstart : forall b, starts (enc (G a)) (zsplice m pos (host F a)) (pos + zlen (enc F a)) (len - (pos + zlen (enc F a))) b <->
    starts (enc (G a)) m (pos + zlen (enc F a)) (len - (pos + zlen (enc F a))) b).
  { intros b. unfold starts. pose proof (zlen_nonneg (enc (G a) b)).
    destruct (decide (zlen (enc (G a) b) <= len - (pos + zlen (enc F a)))); [|by split; intros [? ?]]. by rewrite slice_zsplice by lia. }
  destruct Hk as [(b & Hbk & Sb & Ek)|[Hno (m' & Ek)]].
  - left. exists (a, b). split; [done|]. split; [apply starts_followed; [done|]; split; [done|by apply Hstart]|].
    rewrite E, Ek. cbn [enc host followed]. pose proof (law_len _ (HG a Ha) b Hbk). destruct Sb as [Sb _]. pose proof (zlen_nonneg (enc (G a) b)).
    rewrite zlen_app, Z.add_assoc. f_equal. rewrite <- Hla. apply zsplice_zsplice; lia.
  - right. split; [|exists m'; by rewrite E]. intros [a' b] [Ha' Hb'] S. apply starts_followed in S as [Sa' Sb]; [|done].
    assert (a' = a) as -> by (apply (prefix_unique (enc F) (ok F) m pos (len - pos)); try done; try lia; apply HF).
    by apply (Hno b Hb'), Hstart.
Qed.
(** The first part is not there. *)
Lemma codes_fail m' : (forall a, ok F a -> ~ starts (enc F) m pos (len - pos) a) -> prog m = Null m' -> codes (followed F G) len prog fin pos m.
Proof.
  intros Hno E. right. split; [|by exists m']. intros [a b] [Ha Hb] S. apply starts_followed in S as [Sa _]; [|done]. by apply (Hno a).
Qed.
End seq.

(** ** Rules *)

Lemma inside_next {A} (F : format A) len pos m a : lawful F -> inside len pos m -> ok F a -> starts (enc F) m pos (len - pos) a ->
  inside len (pos + zlen (enc F a)) (zsplice m pos (host F a)).
Proof.
  intros HF (Hb & Hp & Hl) Ha [Hle _]. pose proof (law_len F HF a Ha). pose proof (zlen_nonneg (enc F a)).
  split; [apply zsplice_bytes; [done|by apply HF]|]. split; [lia|]. rewrite zlen_zsplice; lia.
Qed.

Section rules.
Context {A B C : Type} (F : format A) (G : format B) (HF : lawful F) (HG : lawful G).
Context (len : Z) (prog : M C) (fin : Z -> M C) (pos : Z) (m : mem) (Hin : inside len pos m).

Lemma codes_bind (c : M Z) k : codes F len c mret pos m -> prog m = (p ← c; k p) m ->
  (forall p m', inside len p m' -> codes G len (k p) fin p m') -> codes (followed F (fun _ => G)) len prog fin pos m.
Proof.
  intros [(a & Ha & Sa & Ec)|[Hno (m' & Ec)]] E Hk.
  - apply (codes_followed F (fun _ => G) HF (fun _ _ => HG) len prog fin pos m Hin a (k (pos + zlen (enc F a))) Ha Sa).
    + by rewrite E, (bind_run _ _ m _ _ Ec).
    + apply Hk. by apply (inside_next F).
  - apply (codes_fail F _ len prog fin pos m Hin m' Hno). by rewrite E, (bind_null _ _ _ _ Ec).
Qed.
Lemma codes_fin (c : M Z) : codes F len c mret pos m -> prog m = (p ← c; fin p) m -> codes F len prog fin pos m.
Proof.
  intros [(a & Ha & Sa & Ec)|[Hno (m' & Ec)]] E; [left|right].
  - exists a. split; [done|]. split; [done|]. by rewrite E, (bind_run _ _ m _ _ Ec).
  - split; [done|]. exists m'. by rewrite E, (bind_null _ _ _ _ Ec).
Qed.
End rules.

Lemma codes_struct {B C} sz sws (G : list Z -> format B) len (prog : M C) fin k pos m :
  swaps_okb sz sws = true -> (forall h, lawful (G h)) -> inside len pos m ->
  prog m = (if len <? pos + sz then Null m else run_swaps sws pos k m) ->
  (forall h m', bytes h -> zlen h = sz -> inside len (pos + sz) m' ->
     (forall j, 0 <= j < sz -> m'.[pos + j] = h.[swap_index sws j]) -> (forall j, 0 <= j < pos -> m'.[j] = m.[j]) ->
     codes (G h) len k fin (pos + sz) m') ->
  codes (followed (struct sz sws) G) len prog fin pos m.
Proof.
  intros [Hsz Hs]%swaps_okb_ok HG Hin E Hk. pose proof Hin as (Hb & Hp & Hl). pose proof (lawful_struct sz sws Hsz Hs) as HF. destruct (Z.ltb_spec len (pos + sz)).
  { apply (codes_fail _ _ len prog fin pos m Hin m); [|done]. intros h [_ Hh] [Hle _]. cbn [enc struct] in Hle. lia. }
  assert (Hz : zlen (slice m pos sz) = sz) by (apply zlen_slice_le; lia).
  assert (Hok : ok (struct sz sws) (slice m pos sz)) by (split; [by apply slice_bytes|done]).
  assert (Hst : starts (enc (struct sz sws)) m pos (len - pos) (slice m pos sz)) by (split; cbn [enc struct]; rewrite Hz; [lia|done]).
  apply (codes_followed _ _ HF (fun h _ => HG h) len prog fin pos m Hin (slice m pos sz) k Hok Hst).
  - rewrite E, (run_swaps_run sz pos sws k ltac:(lia) Hs m Hb ltac:(lia)), (swaps_mem_splice sz sws pos m) by (done || lia). done.
  - pose proof (inside_next _ len pos m _ HF Hin Hok Hst) as Hin'. cbn [enc host struct] in *. rewrite Hz in *.
    destruct (swapped_struct_spec sws (slice m pos sz)) as (G1 & G2 & G3); [by apply slice_bytes|by rewrite Hz|]. rewrite Hz in *.
    apply Hk; [by apply slice_bytes|done|done|..]; intros j Hj.
    + rewrite zat_zsplice, decide_True by lia. replace (pos + j - pos) with j by lia. by apply G3.
    + rewrite zat_zsplice by lia. by rewrite decide_False by lia.
Qed.

Section skips.
Context (len pos n : Z) (m : mem) (Hin : inside len pos m) (Hn : 0 <= n).

Lemma codes_skip_descriptors : codes (descs n) len (skip_descriptors len pos n) mret pos m.
Proof.
  destruct Hin as (Hb & Hp & Hl). unfold skip_descriptors, codes. rewrite bind_fail_if. cbn [ok enc host descs].
  destruct (Z.ltb_spec len (pos + n)).
  { right. split; [|by exists m]. intros ds [_ En] [Hle _]. cbn [enc descs] in Hle. lia. }
  destruct (wp_total _ _ _ _ (wp_verify_descriptors m pos n Hb ltac:(lia) Hn ltac:(lia)))
    as [(r & m' & E & -> & [[-> (ds & Hds & Eds)]|[-> Hno]])|(? & _ & [])]; rewrite (bind_run _ _ m _ m E), bind_fail_if.
  - left. exists ds. assert (Ez : zlen (encode_descriptors ds) = n) by (rewrite <- Eds; apply zlen_slice_le; lia).
    split; [done|]. unfold starts. cbn [enc descs]. rewrite Ez. split; [by split; [lia|]|]. rewrite zsplice_same by (rewrite ?Ez; (done || lia)). done.
  - right. split; [|by exists m]. intros ds [Hds En] [_ Eds]. cbn [enc descs] in Eds. rewrite En in Eds. by apply Hno; exists ds.
Qed.
Lemma codes_skip_text : codes (text n) len (skip_text len pos n) mret pos m.
Proof.
  destruct Hin as (Hb & Hp & Hl). unfold skip_text, codes. rewrite bind_fail_if. cbn [ok enc host text].
  destruct (Z.ltb_spec len (pos + n)).
  { right. split; [|by exists m]. intros v (_ & En & _) [Hle _]. cbn [enc text] in Hle. lia. }
  assert (Hz : zlen (slice m pos n) = n) by (apply zlen_slice_le; lia).
  assert (Hgood : forall v, encode_text_value v = slice m pos n -> match v with None => True | Some (strs, _) => text_ok strs end ->
    atsc_text_validate pos n m = Ret 0 m -> exists v, ok (text n) v /\ starts encode_text_value m pos (len - pos) v /\
    (r ← atsc_text_validate pos n; fail_if (negb (r =? 0));; mret (pos + n)) m = Ret (pos + zlen (encode_text_value v)) (zsplice m pos (encode_text_value v))).
  { intros v Ev Hv E. exists v. unfold starts. cbn [ok text]. rewrite Ev, Hz. split; [split; [by apply slice_bytes|done]|]. split; [by split; [lia|]|].
    rewrite (bind_run _ _ m _ m E), bind_fail_if. rewrite zsplice_same by (rewrite ?Hz; (done || lia)). done. }
  destruct (decide (n = 0)) as [-> | Hne].
  { left. apply (Hgood None); [symmetry; by apply slice_nil|done..]. }
  destruct (atsc_text_validate_run m pos n Hb ltac:(lia) ltac:(lia) ltac:(lia)) as [(strs & Hok & Hst & E)|[Hno E]].
  - left. apply starts_app in Hst as [rest Er]; [|lia..]. by apply (Hgood (Some (strs, rest))).
  - right. split; [|exists m; by rewrite (bind_run _ _ m _ m E), bind_fail_if]. intros v (_ & En & Hv) [_ Ev]. cbn [enc text] in Ev. rewrite En in Ev.
    destruct v as [[strs rest]|]; [|by change (zlen (encode_text_value None)) with 0 in En; lia]. apply (Hno strs Hv).
    apply starts_app; [lia..|]. by exists rest.
Qed.
End skips.

Lemma codes_repeated {A} (F : format A) len body n : lawful F ->
  (forall pos m, inside len pos m -> codes F len (body pos) mret pos m) ->
  forall pos m i, inside len pos m -> codes (repeated n F) len (for_upto (Z.to_nat n) i (fun _ => body) pos) mret pos m.
Proof.
  intros HF Hbody. unfold repeated. generalize (Z.to_nat n) as k. clear n. induction k as [|k IH]; intros pos m i Hin.
  - destruct (codes_nothing len mret pos m Hin) as [([] & _ & [Hs _] & E)|[Hno _]]; [|exfalso; apply (Hno tt); [done|]].
    + left. exists []. split; [by split|]. split; [split; [done|by rewrite slice_nil]|done].
    + destruct Hin as (_ & Hp & _). split; cbn [enc nothing]; [change (zlen []) with 0; lia|by rewrite slice_nil].
  - cbn [for_upto]. assert (HR : lawful (repeated (Z.of_nat k) F)) by (by apply lawful_repeated). unfold repeated in HR. rewrite Nat2Z.id in HR.
    destruct (codes_bind F _ HF HR len (pos' ← body pos; for_upto k (i + 1) (fun _ => body) pos') mret pos m Hin (body pos)
      (fun p => for_upto k (i + 1) (fun _ => body) p) (Hbody pos m Hin) eq_refl (fun p m' H => IH p m' (i + 1) H)) as [([a l] & [Ha [Hl1 Hl2]] & S & E)|[Hno Hnull]].
    + left. exists (a :: l). split; [split; [by cbn [length]; f_equal|by constructor]|]. by split.
    + right. split; [|done]. intros [|a l] [El Hl] S; [done|]. apply Forall_cons_1 in Hl as [Ha Hl]. apply (Hno (a, l)); [|done].
      split; [done|split; [by injection El|done]].
Qed.
