(* ===== verification/AtscTables.v ===== *)
(** * AtscTables: which sections the ATSC codecs accept

    The formats of the tables, the proof that seven of the nine codecs of AtscSections.v accept
    exactly their format and leave it in the order of the host, and what the iterators read from channels and
    events then. *)

From S2P Require Import Prelude Mem EndianOps Descriptor PsiSection EntryLoop TableCodec AtscText AtscSections AtscFormats.

(** ** The formats *)

Definition be10 (h : list Z) (o : Z) : Z := Z.land (be16 h o) 0x3ff.
Definition be12 (h : list Z) (o : Z) : Z := Z.land (be16 h o) 0xfff.

Definition part2_10 := followed (struct 2 [(0, 2)]) (fun h => descs (be10 h 0)).
Definition part2_12 := followed (struct 2 [(0, 2)]) (fun h => descs (be12 h 0)).

Definition vct_swaps : list (Z * Z) := [(14, 4); (18, 4); (22, 2); (24, 2); (26, 2); (28, 2); (30, 2)].
Definition channel_format := followed (struct 32 vct_swaps) (fun h => descs (be10 h 30)).
Definition vct_format := followed (struct 2 []) (fun h => followed (repeated (h.[1]) channel_format) (fun _ => part2_10)).

Definition eit_swaps : list (Z * Z) := [(0, 2); (2, 4); (6, 4)].
Definition event_format := followed (struct 10 eit_swaps) (fun h => followed (text (h.[9])) (fun _ => part2_12)).
Definition eit_format := followed (struct 2 []) (fun h => repeated (h.[1]) event_format).

Definition ett_format (len : Z) := followed (struct 5 [(1, 4)]) (fun _ => text (len - 13)).
Definition stt_format (len : Z) := followed (struct 8 [(1, 4); (6, 2)]) (fun _ => descs (len - 16)).

Definition mgt_table_format := followed (struct 11 [(0, 2); (2, 2); (5, 4); (9, 2)]) (fun h => descs (be12 h 9)).
Definition mgt_format := followed (struct 3 [(1, 2)]) (fun h => followed (repeated (be16 h 1) mgt_table_format) (fun _ => part2_12)).

Definition rrt_value_format :=
  followed (struct 1 []) (fun h => followed (text (h.[0])) (fun _ => followed (struct 1 []) (fun h => text (h.[0])))).
Definition rrt_dimension_format :=
  followed (struct 1 []) (fun h => followed (text (h.[0])) (fun _ =>
    followed (struct 1 []) (fun h => repeated (Z.land (h.[0]) 0xf) rrt_value_format))).
(** Not the format of the table: the length of the last descriptors is in the order of the
    host, the way the codec reads it. *)
Definition rrt_part3_as_read := followed (struct 2 []) (fun h => descs (Z.land (le16 h 0) 0x3ff)).
Definition rrt_as_read :=
  followed (struct 2 []) (fun h => followed (text (h.[1])) (fun _ =>
    followed (struct 1 []) (fun h => followed (repeated (h.[0]) rrt_dimension_format) (fun _ => rrt_part3_as_read)))).

Definition term_format := followed (struct 11 [(1, 8); (9, 2)]) (fun h => descs (be10 h 9)).
Definition test_format :=
  followed (struct 15 [(0, 3); (3, 3); (6, 4); (10, 4)]) (fun h => followed (repeated (h.[14]) term_format) (fun _ => part2_10)).
Definition dcct_format := followed (struct 2 []) (fun h => followed (repeated (h.[1]) test_format) (fun _ => part2_10)).

(** The laws hold by the instances of the combinators. *)
#[export] Instance part2_10_lawful : lawful part2_10.
Proof. unfold part2_10. apply _. Qed.
#[export] Instance part2_12_lawful : lawful part2_12.
Proof. unfold part2_12. apply _. Qed.
#[export] Instance channel_lawful : lawful channel_format.
Proof. unfold channel_format. apply _. Qed.
#[export] Instance event_lawful : lawful event_format.
Proof. unfold event_format. apply _. Qed.
#[export] Instance mgt_table_lawful : lawful mgt_table_format.
Proof. unfold mgt_table_format. apply _. Qed.
#[export] Instance rrt_value_lawful : lawful rrt_value_format.
Proof. unfold rrt_value_format. apply _. Qed.
#[export] Instance rrt_dimension_lawful : lawful rrt_dimension_format.
Proof. unfold rrt_dimension_format. apply _. Qed.
#[export] Instance rrt_part3_lawful : lawful rrt_part3_as_read.
Proof. unfold rrt_part3_as_read. apply _. Qed.
#[export] Instance term_lawful : lawful term_format.
Proof. unfold term_format. apply _. Qed.
#[export] Instance test_lawful : lawful test_format.
Proof. unfold test_format. apply _. Qed.
#[export] Instance vct_lawful : lawful vct_format.
Proof. unfold vct_format. apply _. Qed.
#[export] Instance eit_lawful : lawful eit_format.
Proof. unfold eit_format. apply _. Qed.
#[export] Instance ett_lawful len : lawful (ett_format len).
Proof. unfold ett_format. apply _. Qed.
#[export] Instance stt_lawful len : lawful (stt_format len).
Proof. unfold stt_format. apply _. Qed.
#[export] Instance mgt_lawful : lawful mgt_format.
Proof. unfold mgt_format. apply _. Qed.
#[export] Instance rrt_lawful : lawful rrt_as_read.
Proof. unfold rrt_as_read. apply _. Qed.
#[export] Instance dcct_lawful : lawful dcct_format.
Proof. unfold dcct_format. apply _. Qed.

(** ** The parts of the codecs *)

Lemma codes_run {A B} (F : format A) len (prog prog' : M B) fin pos m :
  prog m = prog' m -> codes F len prog' fin pos m -> codes F len prog fin pos m.
Proof. unfold codes. by intros ->. Qed.
(** A field that was swapped is read in the order of the wire. *)
Lemma host_le16 m h p o : bytes m -> m.[p + o] = h.[o + 1] -> m.[p + (o + 1)] = h.[o] -> le16 m (p + o) = be16 h o.
Proof. intros Hb E0 E1. rewrite le16_eq by done. unfold be16. rewrite <- Z.add_assoc, E0, E1. lia. Qed.
Lemma length_run mask m p : 0 <= p -> p + 2 <= zlen m -> (x ← rd16 p; mret (Z.land x mask)) m = Ret (Z.land (le16 m p) mask) m.
Proof. intros. by rewrite (bind_run _ _ m _ m (rd16_run p m ltac:(lia) ltac:(lia))). Qed.
Lemma be_range mask h o : 0 <= mask -> 0 <= Z.land (be16 h o) mask.
Proof. intros. apply Z.land_nonneg. by right. Qed.

(** A structure with a length at [o] that announces descriptors. *)
Lemma codes_length_descs len sz sws o mask pos h m' (k : M Z) :
  0 <= mask -> 0 <= pos -> bytes h -> zlen h = sz -> inside len (pos + sz) m' -> (forall j, 0 <= j < sz -> m'.[pos + j] = h.[swap_index sws j]) ->
  0 <= o -> o + 2 <= sz -> swap_index sws o = o + 1 -> swap_index sws (o + 1) = o ->
  k m' = (n ← (x ← rd16 (pos + o); mret (Z.land x mask)); skip_descriptors len (pos + sz) n) m' ->
  codes (descs (Z.land (be16 h o) mask)) len k mret (pos + sz) m'.
Proof.
  intros Hmask Hp Hh Hz Hin E Ho Hsz E0 E1 Ek. pose proof Hin as (Hb & Hi & Hl).
  apply (codes_run _ _ _ (skip_descriptors len (pos + sz) (Z.land (be16 h o) mask))).
  - rewrite Ek, (bind_run _ _ m' _ m' (length_run mask m' (pos + o) ltac:(lia) ltac:(lia))).
    rewrite (host_le16 m' h pos o Hb); [done|by rewrite E, E0 by lia|by rewrite E, E1 by lia].
  - apply codes_skip_descriptors; [done|]. by apply be_range.
Qed.

Section parts.
Context (len pos : Z) (m : mem) (Hin : inside len pos m).

Lemma codes_part2_10 (prog : M Z) :
  prog m = (fail_if (len <? pos + 2);; bswap16 pos;; n ← length10 pos; skip_descriptors len (pos + 2) n) m -> codes part2_10 len prog mret pos m.
Proof.
  intros E. apply (codes_struct 2 [(0, 2)] _ len _ _ (n ← length10 pos; skip_descriptors len (pos + 2) n)); [done|apply _|done|..].
  - by rewrite E, bind_fail_if.
  - intros h m' Hh Hz Hin' Ej _. destruct Hin as (_ & Hp & _). apply (codes_length_descs len 2 [(0, 2)] 0 0x3ff pos h m'); try done || lia.
    by rewrite Z.add_0_r.
Qed.
Lemma codes_part2_12 (prog : M Z) :
  prog m = (fail_if (len <? pos + 2);; bswap16 pos;; n ← length12 pos; skip_descriptors len (pos + 2) n) m -> codes part2_12 len prog mret pos m.
Proof.
  intros E. apply (codes_struct 2 [(0, 2)] _ len _ _ (n ← length12 pos; skip_descriptors len (pos + 2) n)); [done|apply _|done|..].
  - by rewrite E, bind_fail_if.
  - intros h m' Hh Hz Hin' Ej _. destruct Hin as (_ & Hp & _). apply (codes_length_descs len 2 [(0, 2)] 0 0xfff pos h m'); try done || lia.
    by rewrite Z.add_0_r.
Qed.
Lemma codes_tvct_channel : codes channel_format len (atsc_tvct_channel_codec len pos) mret pos m.
Proof.
  apply (codes_struct 32 vct_swaps _ len _ _ (n ← tvct_channel_descriptors_length pos; skip_descriptors len (pos + 32) n)); [done|apply _|done|..].
  - unfold atsc_tvct_channel_codec. rewrite bind_fail_if. change (7 * 2) with 14. rewrite <- !(Z.add_assoc pos). done.
  - intros h m' Hh Hz Hin' Ej _. destruct Hin as (_ & Hp & _). apply (codes_length_descs len 32 vct_swaps 30 0x3ff pos h m'); done || lia.
Qed.
Lemma codes_mgt_table : codes mgt_table_format len (atsc_mgt_table_codec len pos) mret pos m.
Proof.
  apply (codes_struct 11 [(0, 2); (2, 2); (5, 4); (9, 2)] _ len _ _ (n ← mgt_table_type_descriptors_length pos; skip_descriptors len (pos + 11) n)); [done|apply _|done|..].
  - unfold atsc_mgt_table_codec. by rewrite bind_fail_if.
  - intros h m' Hh Hz Hin' Ej _. destruct Hin as (_ & Hp & _). apply (codes_length_descs len 11 [(0, 2); (2, 2); (5, 4); (9, 2)] 9 0xfff pos h m'); done || lia.
Qed.
Lemma codes_dcct_term : codes term_format len (atsc_dcct_term_codec len pos) mret pos m.
Proof.
  apply (codes_struct 11 [(1, 8); (9, 2)] _ len _ _ (n ← dcct_term_descriptors_length pos; skip_descriptors len (pos + 11) n)); [done|apply _|done|..].
  - unfold atsc_dcct_term_codec. by rewrite bind_fail_if.
  - intros h m' Hh Hz Hin' Ej _. destruct Hin as (_ & Hp & _). apply (codes_length_descs len 11 [(1, 8); (9, 2)] 9 0x3ff pos h m'); done || lia.
Qed.
End parts.

(** The value a byte of a structure has for the host, when no field covers it. *)
Lemma rd8_struct {A} m p o v (k : Z -> M A) : 0 <= p -> 0 <= o -> p + o < zlen m -> m.[p + o] = v -> (n ← rd8 (p + o); k n) m = k v m.
Proof. intros Hp Ho Hl <-. by rewrite (bind_run _ _ m _ m (rd8_run (p + o) m ltac:(lia))). Qed.
Lemma rd8_struct0 {A} m p v (k : Z -> M A) : 0 <= p < zlen m -> m.[p + 0] = v -> (n ← rd8 p; k n) m = k v m.
Proof. rewrite Z.add_0_r. intros Hp <-. by rewrite (bind_run _ _ m _ m (rd8_run p m Hp)). Qed.
Lemma inside_byte len pos m j : inside len pos m -> byte (m.[j]).
Proof. intros (Hb & _). by apply zat_byte. Qed.

(** The low byte of a word is its last on the wire. *)
Lemma rd32_low m p v : bytes m -> 0 <= p -> p + 4 <= zlen m -> m.[p] = v -> (x ← rd32 p; mret (Z.land x 0xff)) m = Ret v m.
Proof.
  intros Hb Hp Hl <-. rewrite (bind_run _ _ m _ m (rd32_run p m Hb Hp Hl)). unfold mret, M_ret. f_equal.
  change 0xff with (Z.ones 8). rewrite Z.land_ones by lia. change (2 ^ 8) with 256. change (2 ^ 16) with 65536. change (2 ^ 24) with 16777216.
  pose proof (zat_range m p Hb). pose proof (zat_range m (p + 1) Hb). pose proof (zat_range m (p + 2) Hb). pose proof (zat_range m (p + 3) Hb). lia.
Qed.

Lemma codes_event len pos m : inside len pos m -> codes event_format len (atsc_eit_event_codec len pos) mret pos m.
Proof.
  intros Hin. apply (codes_struct 10 eit_swaps _ len _ _
    (n ← eit_title_length pos; pos ← skip_text len (pos + 10) n;
     fail_if (len <? pos + 2);; bswap16 pos;; n ← length12 pos; skip_descriptors len (pos + 2) n)); [done|apply _|done|..].
  - unfold atsc_eit_event_codec. by rewrite bind_fail_if.
  - intros h m' Hh Hz Hin' Ej _. pose proof Hin as (_ & Hp & _). pose proof Hin' as (Hb' & Hi & Hl).
    assert (E : m'.[pos + 6] = h.[9]) by (by rewrite Ej by lia).
    apply (codes_bind (text (h.[9])) part2_12 _ _ len _ _ _ m' Hin' (skip_text len (pos + 10) (h.[9]))
      (fun pos => fail_if (len <? pos + 2);; bswap16 pos;; n ← length12 pos; skip_descriptors len (pos + 2) n)).
    + apply codes_skip_text; [done|]. pose proof (zat_range h 9 Hh). lia.
    + by rewrite (bind_run _ _ m' _ m' (rd32_low m' (pos + 6) (h.[9]) Hb' ltac:(lia) ltac:(lia) E)).
    + intros p m2 Hin2. by apply codes_part2_12.
Qed.
Lemma codes_test len pos m : inside len pos m -> codes test_format len (atsc_dcct_test_codec len pos) mret pos m.
Proof.
  intros Hin. apply (codes_struct 15 [(0, 3); (3, 3); (6, 4); (10, 4)] _ len _ _
    (n ← dcct_dcc_term_count pos; pos ← for_upto (Z.to_nat n) 0 (fun _ => atsc_dcct_term_codec len) (pos + 15);
     fail_if (len <? pos + 2);; bswap16 pos;; n ← length10 pos; skip_descriptors len (pos + 2) n)); [done|apply _|done|..].
  - unfold atsc_dcct_test_codec. by rewrite bind_fail_if.
  - intros h m' Hh Hz Hin' Ej _. pose proof Hin as (_ & Hp & _). pose proof Hin' as (Hb' & Hi & Hl).
    apply (codes_bind (repeated (h.[14]) term_format) part2_10 _ _ len _ _ _ m' Hin' (for_upto (Z.to_nat (h.[14])) 0 (fun _ => atsc_dcct_term_codec len) (pos + 15))
      (fun pos => fail_if (len <? pos + 2);; bswap16 pos;; n ← length10 pos; skip_descriptors len (pos + 2) n)).
    + apply codes_repeated; [apply _| |done]. intros. by apply codes_dcct_term.
    + apply (rd8_struct m' pos 14 (h.[14])); try lia. by rewrite Ej by lia.
    + intros p m2 Hin2. by apply codes_part2_10.
Qed.
(** A count or length in a structure of one byte. *)
Lemma codes_byte {B C} (G : list Z -> format B) len (prog : M C) (k : Z -> M C) fin pos m :
  (forall h, lawful (G h)) -> inside len pos m -> prog m = (fail_if (len <? pos + 1);; n ← rd8 pos; k n) m ->
  (forall h m', bytes h -> inside len (pos + 1) m' -> codes (G h) len (k (h.[0])) fin (pos + 1) m') ->
  codes (followed (struct 1 []) G) len prog fin pos m.
Proof.
  intros HG Hin E Hk. apply (codes_struct 1 [] _ len _ _ (n ← rd8 pos; k n)); [done|done|done|by rewrite E, bind_fail_if|].
  intros h m' Hh Hz Hin' Ej _. pose proof Hin as (_ & Hp & _). pose proof Hin' as (_ & Hi & Hl).
  apply (codes_run _ _ _ (k (h.[0]))); [|by apply Hk]. apply rd8_struct0; [lia|]. by rewrite Ej by lia.
Qed.
Lemma codes_rrt_value len pos m : inside len pos m -> codes rrt_value_format len (atsc_rrt_value_codec len pos) mret pos m.
Proof.
  intros Hin. apply (codes_byte _ len _ (fun n => pos ← skip_text len (pos + 1) n; fail_if (len <? pos + 1);; n ← rd8 pos; skip_text len (pos + 1) n)); [apply _|done|done|].
  intros h m' Hh Hin'. pose proof (zat_range h 0 Hh).
  apply (codes_bind (text (h.[0])) _ _ _ len _ _ _ m' Hin' (skip_text len (pos + 1) (h.[0])) (fun pos => fail_if (len <? pos + 1);; n ← rd8 pos; skip_text len (pos + 1) n));
    [apply codes_skip_text; [done|lia]|done|]. intros p m2 Hin2.
  apply (codes_byte _ len _ (fun n => skip_text len (p + 1) n)); [apply _|done|done|]. intros h2 m3 Hh2 Hin3. pose proof (zat_range h2 0 Hh2).
  apply codes_skip_text; [done|lia].
Qed.
Lemma codes_rrt_dimension len pos m : inside len pos m -> codes rrt_dimension_format len (atsc_rrt_dimension_codec len pos) mret pos m.
Proof.
  intros Hin. apply (codes_byte _ len _ (fun n => pos ← skip_text len (pos + 1) n; fail_if (len <? pos + 1);; n ← rrt_values_defined pos;
    for_upto (Z.to_nat n) 0 (fun _ => atsc_rrt_value_codec len) (pos + 1))); [apply _|done|done|].
  intros h m' Hh Hin'. pose proof (zat_range h 0 Hh).
  apply (codes_bind (text (h.[0])) _ _ _ len _ _ _ m' Hin' (skip_text len (pos + 1) (h.[0])) (fun pos => fail_if (len <? pos + 1);; n ← rrt_values_defined pos;
    for_upto (Z.to_nat n) 0 (fun _ => atsc_rrt_value_codec len) (pos + 1)));
    [apply codes_skip_text; [done|lia]|done|]. intros p m2 Hin2.
  apply (codes_byte _ len _ (fun x => for_upto (Z.to_nat (Z.land x 0xf)) 0 (fun _ => atsc_rrt_value_codec len) (p + 1))); [apply _|done|..].
  { rewrite !bind_fail_if. destruct (len <? p + 1); [done|]. unfold rrt_values_defined, mbind, M_bind. by destruct (rd8 p m2). }
  intros h2 m3 Hh2 Hin3. apply codes_repeated; [apply _| |done]. intros. by apply codes_rrt_value.
Qed.

(** ** The sections *)

(** What every codec but two does behind its last part. *)
Definition at_end (len pos : Z) : M unit := fail_if (negb (pos =? len)).
Lemma part2_assoc {A B C D E} (a : M A) (b : M B) (l : M C) (s : C -> M D) (f : D -> M E) m :
  (a;; b;; n ← l; p ← s n; f p) m = (p ← (a;; b;; n ← l; s n); f p) m.
Proof. unfold mbind, M_bind. destruct (a m) as [? m1| | |]; try done. destruct (b m1) as [? m2| | |]; try done. by destruct (l m2). Qed.
Lemma part3_assoc {A C D E} (a : M A) (l : M C) (s : C -> M D) (f : D -> M E) m :
  (a;; n ← l; p ← s n; f p) m = (p ← (a;; n ← l; s n); f p) m.
Proof. unfold mbind, M_bind. destruct (a m) as [? m1| | |]; try done. by destruct (l m1). Qed.

(** The codecs behind the computation of [len]. *)
Definition body (codec : M unit) (len : Z) (rest : M unit) (m : mem) : Prop := section_ext_length m = Ret len m -> codec m = rest m.

Section sections.
Context (len : Z) (m : mem) (Hin : inside len 8 m).

Lemma part2_10_fin p m' : inside len p m' ->
  codes part2_10 len (fail_if (len <? p + 2);; bswap16 p;; n ← length10 p; p ← skip_descriptors len (p + 2) n; at_end len p) (at_end len) p m'.
Proof.
  intros Hin'. apply (codes_fin _ len _ _ _ _ (fail_if (len <? p + 2);; bswap16 p;; n ← length10 p; skip_descriptors len (p + 2) n));
    [by apply codes_part2_10|apply part2_assoc].
Qed.
Lemma part2_12_fin p m' : inside len p m' ->
  codes part2_12 len (fail_if (len <? p + 2);; bswap16 p;; n ← length12 p; p ← skip_descriptors len (p + 2) n; at_end len p) (at_end len) p m'.
Proof.
  intros Hin'. apply (codes_fin _ len _ _ _ _ (fail_if (len <? p + 2);; bswap16 p;; n ← length12 p; skip_descriptors len (p + 2) n));
    [by apply codes_part2_12|apply part2_assoc].
Qed.

(** A header with a count in its second byte, entries, and a second part. *)
Lemma codes_counted {A B} (F : format A) (G : format B) entry tail (prog : M unit) : lawful F -> lawful G ->
  (forall pos m, inside len pos m -> codes F len (entry pos) mret pos m) ->
  (forall pos m, inside len pos m -> codes G len (tail pos) (at_end len) pos m) ->
  prog m = (fail_if (len <? 10);; n ← rd8 9; p ← for_upto (Z.to_nat n) 0 (fun _ => entry) 10; tail p) m ->
  codes (followed (struct 2 []) (fun h => followed (repeated (h.[1]) F) (fun _ => G))) len prog (at_end len) 8 m.
Proof.
  intros HF HG Hentry Htail E.
  apply (codes_struct 2 [] _ len _ _ (n ← rd8 9; p ← for_upto (Z.to_nat n) 0 (fun _ => entry) 10; tail p)); [done|apply _|done|by rewrite E, bind_fail_if|].
  intros h m' Hh Hz Hin' Ej _. pose proof Hin' as (_ & Hi & Hl).
  apply (codes_bind (repeated (h.[1]) F) G _ _ len _ _ _ m' Hin' (for_upto (Z.to_nat (h.[1])) 0 (fun _ => entry) 10) tail); [by apply codes_repeated| |done].
  apply (rd8_struct m' 8 1 (h.[1])); try lia. by rewrite Ej by lia.
Qed.

Lemma codes_tvct : exists rest, codes vct_format len rest (at_end len) 8 m /\ body atsc_tvct_section_codec len rest m.
Proof.
  eexists. split; [apply (codes_counted channel_format part2_10 (atsc_tvct_channel_codec len) _ _ _ _ (codes_tvct_channel len) part2_10_fin); reflexivity|].
  intros E. unfold atsc_tvct_section_codec. by rewrite (bind_run _ _ m _ m E).
Qed.
Lemma codes_cvct : exists rest, codes vct_format len rest (at_end len) 8 m /\ body atsc_cvct_section_codec len rest m.
Proof. apply codes_tvct. Qed.
Lemma codes_dcct : exists rest, codes dcct_format len rest (at_end len) 8 m /\ body atsc_dcct_section_codec len rest m.
Proof.
  eexists. split; [apply (codes_counted test_format part2_10 (atsc_dcct_test_codec len) _ _ _ _ (codes_test len) part2_10_fin); reflexivity|].
  intros E. unfold atsc_dcct_section_codec. by rewrite (bind_run _ _ m _ m E).
Qed.
Lemma codes_eit : exists rest, codes eit_format len rest (at_end len) 8 m /\ body atsc_eit_section_codec len rest m.
Proof.
  exists (fail_if (len <? 10);; n ← rd8 9; p ← for_upto (Z.to_nat n) 0 (fun _ => atsc_eit_event_codec len) 10; at_end len p). split.
  - apply (codes_struct 2 [] _ len _ _ (n ← rd8 9; p ← for_upto (Z.to_nat n) 0 (fun _ => atsc_eit_event_codec len) 10; at_end len p));
      [done|apply _|done|by rewrite bind_fail_if|].
    intros h m' Hh Hz Hin' Ej _. pose proof Hin' as (_ & Hi & Hl).
    apply (codes_fin _ len _ _ _ _ (for_upto (Z.to_nat (h.[1])) 0 (fun _ => atsc_eit_event_codec len) 10)); [apply codes_repeated; [apply _|apply codes_event|done]|].
    apply (rd8_struct m' 8 1 (h.[1])); try lia. by rewrite Ej by lia.
  - intros E. unfold atsc_eit_section_codec. by rewrite (bind_run _ _ m _ m E).
Qed.
Lemma codes_mgt : exists rest, codes mgt_format len rest (at_end len) 8 m /\ body atsc_mgt_section_codec len rest m.
Proof.
  set (tail := fun p => fail_if (len <? p + 2);; bswap16 p;; n ← length12 p; p ← skip_descriptors len (p + 2) n; at_end len p).
  exists (fail_if (len <? 11);; bswap16 9;; n ← rd16 9; p ← for_upto (Z.to_nat n) 0 (fun _ => atsc_mgt_table_codec len) 11; tail p). split.
  - apply (codes_struct 3 [(1, 2)] _ len _ _ (n ← rd16 9; p ← for_upto (Z.to_nat n) 0 (fun _ => atsc_mgt_table_codec len) 11; tail p));
      [done|apply _|done|by rewrite bind_fail_if|].
    intros h m' Hh Hz Hin' Ej _. pose proof Hin' as (Hb' & Hi & Hl).
    apply (codes_bind (repeated (be16 h 1) mgt_table_format) part2_12 _ _ len _ _ _ m' Hin' (for_upto (Z.to_nat (be16 h 1)) 0 (fun _ => atsc_mgt_table_codec len) 11) tail);
      [apply codes_repeated; [apply _|apply codes_mgt_table|done]| |apply part2_12_fin].
    rewrite (bind_run _ _ m' _ m' (rd16_run 9 m' ltac:(lia) ltac:(lia))).
    pose proof (host_le16 m' h 8 1 Hb' (Ej 1 ltac:(lia)) (Ej 2 ltac:(lia))) as E. change (8 + 1) with 9 in E. by rewrite E.
  - intros E. unfold atsc_mgt_section_codec. by rewrite (bind_run _ _ m _ m E).
Qed.
Lemma codes_rrt : exists rest, codes rrt_as_read len rest (at_end len) 8 m /\ body atsc_rrt_section_codec len rest m.
Proof.
  set (tail3 := fun p => fail_if (len <? p + 2);; n ← length10 p; p ← skip_descriptors len (p + 2) n; at_end len p).
  set (tail2 := fun p => fail_if (len <? p + 1);; n ← rd8 p; p ← for_upto (Z.to_nat n) 0 (fun _ => atsc_rrt_dimension_codec len) (p + 1); tail3 p).
  exists (fail_if (len <? 10);; n ← rd8 9; p ← skip_text len 10 n; tail2 p). split.
  - apply (codes_struct 2 [] _ len _ _ (n ← rd8 9; p ← skip_text len 10 n; tail2 p)); [done|apply _|done|by rewrite bind_fail_if|].
    intros h m' Hh Hz Hin' Ej _. pose proof Hin' as (_ & Hi & Hl). pose proof (zat_range h 1 Hh).
    apply (codes_bind (text (h.[1])) _ _ _ len _ _ _ m' Hin' (skip_text len 10 (h.[1])) tail2); [apply codes_skip_text; [done|lia]| |].
    { apply (rd8_struct m' 8 1 (h.[1])); try lia. by rewrite Ej by lia. }
    intros p m2 Hin2.
    apply (codes_byte _ len _ (fun n => p ← for_upto (Z.to_nat n) 0 (fun _ => atsc_rrt_dimension_codec len) (p + 1); tail3 p)); [apply _|done|done|].
    intros h2 m3 Hh2 Hin3.
    apply (codes_bind (repeated (h2.[0]) rrt_dimension_format) rrt_part3_as_read _ _ len _ _ _ m3 Hin3
      (for_upto (Z.to_nat (h2.[0])) 0 (fun _ => atsc_rrt_dimension_codec len) (p + 1)) tail3);
      [apply codes_repeated; [apply _|apply codes_rrt_dimension|done]|done|].
    intros q m4 Hin4. apply (codes_fin _ len _ _ _ _ (fail_if (len <? q + 2);; n ← length10 q; skip_descriptors len (q + 2) n)); [|apply part3_assoc].
    apply (codes_struct 2 [] _ len _ _ (n ← length10 q; skip_descriptors len (q + 2) n)); [done|apply _|done|by rewrite bind_fail_if|].
    intros h5 m5 Hh5 Hz5 Hin5 Ej5 _. pose proof Hin4 as (_ & Hq & _). pose proof Hin5 as (_ & Hq5 & Hl5).
    apply (codes_run _ _ _ (skip_descriptors len (q + 2) (Z.land (le16 h5 0) 0x3ff))).
    + unfold length10. rewrite (bind_run _ _ m5 _ m5 (length_run 0x3ff m5 q ltac:(lia) ltac:(lia))). do 2 f_equal.
      pose proof (Ej5 0 ltac:(lia)) as E0. rewrite Z.add_0_r in E0. unfold le16. by rewrite E0, (Ej5 1) by lia.
    + apply codes_skip_descriptors; [done|]. apply Z.land_nonneg. by right.
  - intros E. unfold atsc_rrt_section_codec. by rewrite (bind_run _ _ m _ m E).
Qed.

(** The two codecs whose last part takes all that is left. *)
Lemma codes_full {A} (F : format A) (prog : M unit) : (forall a, ok F a -> zlen (enc F a) = len - 8) ->
  codes F len prog (fun _ => mret tt) 8 m -> codes F len prog (at_end len) 8 m.
Proof.
  intros Hfull [(a & Ha & Sa & E)|Hno]; [left|by right]. exists a. split; [done|]. split; [done|]. rewrite E, (Hfull a Ha). unfold at_end.
  by rewrite (proj2 (Z.eqb_eq (8 + (len - 8)) len)) by lia.
Qed.
Lemma section_ext_length_ext m' : section_ext_length m = Ret len m -> 3 <= zlen m' -> m'.[1] = m.[1] -> m'.[2] = m.[2] -> section_ext_length m' = Ret len m'.
Proof.
  destruct Hin as (_ & Hp & Hl). intros E Hl' E1 E2. unfold section_ext_length in *.
  rewrite (bind_run _ _ m _ m (section_length_field_run m ltac:(lia))) in E. rewrite (bind_run _ _ m' _ m' (section_length_field_run m' Hl')).
  rewrite (le16_ext m' m 1 E1 E2). unfold mret, M_ret in *. by injection E as ->.
Qed.
Lemma codes_ett : section_ext_length m = Ret len m -> exists rest, codes (ett_format len) len rest (at_end len) 8 m /\ body atsc_ett_section_codec len rest m.
Proof.
  intros Elen. exists (fail_if (len <? 13);; bswap32 9;; l ← section_ext_length; r ← atsc_text_validate 13 (l - 13); fail_if (negb (r =? 0))). split.
  - apply codes_full.
    { intros [h b] [[_ Hh] (_ & Hb & _)]. unfold ett_format. cbn [enc followed struct text]. rewrite zlen_app. lia. }
    apply (codes_struct 5 [(1, 4)] _ len _ _ (l ← section_ext_length; r ← atsc_text_validate 13 (l - 13); fail_if (negb (r =? 0)))); [done|apply _|done|by rewrite bind_fail_if|].
    intros h m' Hh Hz Hin' _ Eo. pose proof Hin' as (_ & Hi & Hl).
    apply (codes_fin _ len _ _ _ _ (skip_text len 13 (len - 13))); [apply codes_skip_text; [done|lia]|].
    rewrite (bind_run _ _ m' _ m' (section_ext_length_ext m' Elen ltac:(lia) (Eo 1 ltac:(lia)) (Eo 2 ltac:(lia)))).
    unfold skip_text. rewrite (proj2 (Z.ltb_ge len (13 + (len - 13)))) by lia. unfold fail_if, mbind, M_bind, mret, M_ret, ret_null.
    destruct (atsc_text_validate 13 (len - 13) m') as [r m2| | |]; try done. by destruct (r =? 0).
  - intros E. unfold atsc_ett_section_codec. by rewrite (bind_run _ _ m _ m E).
Qed.
Lemma codes_stt : exists rest, codes (stt_format len) len rest (at_end len) 8 m /\ body atsc_stt_section_codec len rest m.
Proof.
  exists (fail_if (len <? 16);; bswap32 9;; bswap16 14;; r ← verify_descriptors 16 (len - 16); fail_if (negb (r =? 0))). split.
  - apply codes_full.
    { intros [h ds] [[_ Hh] [_ Hds]]. unfold stt_format. cbn [enc followed struct descs]. rewrite zlen_app. lia. }
    apply (codes_struct 8 [(1, 4); (6, 2)] _ len _ _ (r ← verify_descriptors 16 (len - 16); fail_if (negb (r =? 0)))); [done|apply _|done|by rewrite bind_fail_if|].
    intros h m' Hh Hz Hin' _ Eo. pose proof Hin' as (_ & Hi & Hl).
    apply (codes_fin _ len _ _ _ _ (skip_descriptors len 16 (len - 16))); [apply codes_skip_descriptors; [done|lia]|].
    unfold skip_descriptors. rewrite (proj2 (Z.ltb_ge len (16 + (len - 16)))) by lia. unfold fail_if, mbind, M_bind, mret, M_ret, ret_null.
    destruct (verify_descriptors 16 (len - 16) m') as [r m2| | |]; try done. by destruct (r =? 0).
  - intros E. unfold atsc_stt_section_codec. by rewrite (bind_run _ _ m _ m E).
Qed.
End sections.

(** ** Acceptance *)

(** The tables, but for the DCCSCT, whose codec reads the wrong place, and the RRT, whose
    codec reads a length in the wrong order. *)
Inductive atsc_table := MGT | TVCT | CVCT | EIT | ETT | STT | DCCT.
Definition table_codec (t : atsc_table) : M unit :=
  match t with
  | MGT => atsc_mgt_section_codec | TVCT => atsc_tvct_section_codec | CVCT => atsc_cvct_section_codec
  | EIT => atsc_eit_section_codec | ETT => atsc_ett_section_codec | STT => atsc_stt_section_codec | DCCT => atsc_dcct_section_codec
  end.
(** What is transmitted, and what it becomes. *)
Definition encodes {A} (F : format A) (wire native : list Z) : Prop := exists a, ok F a /\ wire = enc F a /\ native = host F a.
Definition table_encodes (t : atsc_table) (len : Z) : list Z -> list Z -> Prop :=
  match t with
  | MGT => encodes mgt_format | TVCT | CVCT => encodes vct_format
  | EIT => encodes eit_format | ETT => encodes (ett_format len) | STT => encodes (stt_format len) | DCCT => encodes dcct_format
  end.

Lemma encodes_accepted {A} (F : format A) codec m L : lawful F -> parsed m L -> 10 <= L ->
  (exists rest, codes F (L - 1) rest (at_end (L - 1)) 8 m /\ body codec (L - 1) rest m) ->
  (exists native, encodes F (slice m 8 (L - 9)) native /\ codec m = Ret tt (zsplice m 8 native)) \/
  ((forall native, ~ encodes F (slice m 8 (L - 9)) native) /\ exists m', codec m = Null m').
Proof.
  intros HF Hm HL (rest & Hc & Hbody). pose proof Hm as (Hb & Hl & _). rewrite (Hbody (section_ext_length_run m L Hm ltac:(lia))).
  assert (Hst : forall a, enc F a = slice m 8 (L - 9) -> starts (enc F) m 8 (L - 1 - 8) a).
  { intros a E. assert (Hz : zlen (enc F a) = L - 9) by (rewrite E; apply zlen_slice_le; lia). split; [lia|]. by rewrite Hz. }
  destruct Hc as [(a & Ha & Sa & E)|[Hno Hnull]].
  - unfold at_end in E. destruct (Z.eqb_spec (8 + zlen (enc F a)) (L - 1)) as [Eq|Hne].
    + left. exists (host F a). split; [|done]. exists a. split; [done|]. split; [|done]. destruct Sa as [_ <-]. f_equal. lia.
    + right. split; [|by eexists]. intros native (b & Hb' & Eb & _). symmetry in Eb. apply Hne.
      assert (b = a) as -> by (apply (prefix_unique (enc F) (ok F) m 8 (L - 1 - 8)); try done; try lia; [apply HF|by apply Hst]).
      rewrite Eb, zlen_slice_le by lia. lia.
  - right. split; [|done]. intros native (a & Ha & Ea & _). by apply (Hno a Ha), Hst.
Qed.

(** The head of a PSIP section lets the codec behind it run when there is room for it. *)
Lemma psip_run (codec : M unit) m L : parsed m L -> 1 <= L ->
  (atsc_section_psip_decode;; codec) m = if L - 1 <? 9 then Null m else codec m.
Proof.
  intros Hm HL. pose proof (section_ext_length_run m L Hm HL) as Elen. unfold atsc_section_psip_decode, mbind, M_bind.
  rewrite Elen. unfold sizeof_atsc_section_psip. by destruct (L - 1 <? 9).
Qed.

(** C24: Which sections seven of the nine codecs of the ATSC tables accept.  For every section with its length, the head of a PSIP
    section followed by the codec of an MGT, TVCT, CVCT, EIT, ETT, STT or DCCT neither leaves the section nor runs for ever: it succeeds
    exactly when the body is an encoding of such a table
    (entries by their count, each with its texts and descriptors of the announced length, and nothing behind the last), and then has
    swapped exactly the fields of the structures; otherwise it returns NULL. *)
Theorem atsc_section_codecs_correct t m L : parsed m L -> 1 <= L ->
  (exists native, 10 <= L /\ table_encodes t (L - 1) (slice m 8 (L - 9)) native /\
     (atsc_section_psip_decode;; table_codec t) m = Ret tt (zsplice m 8 native)) \/
  ((forall native, ~ (10 <= L /\ table_encodes t (L - 1) (slice m 8 (L - 9)) native)) /\
     exists m', (atsc_section_psip_decode;; table_codec t) m = Null m').
Proof.
  intros Hm HL. pose proof (section_ext_length_run m L Hm HL) as Elen. pose proof Hm as (Hb & Hl & _). rewrite (psip_run _ m L Hm HL).
  destruct (Z.ltb_spec (L - 1) 9); [right; split; [intros ? [? _]; lia|by eexists]|].
  assert (Hin : inside (L - 1) 8 m) by (split; [done|lia]).
  destruct t; cbn [table_codec table_encodes];
    (match goal with |- context [encodes ?F _ _ /\ ?codec m = Ret _ _] => destruct (encodes_accepted F codec m L _ Hm ltac:(lia)
      ltac:(first [by apply codes_mgt|by apply codes_tvct|by apply codes_cvct|by apply codes_eit|by apply codes_ett|by apply codes_stt|by apply codes_dcct]))
      as [(native & He & E)|[Hno E]] end;
     [left; exists native; split; [lia|done]|right; split; [intros w [_ ?]; by apply (Hno w)|done]]).
Qed.

(** The codec of the RRT stays in its section too, but what it accepts are the sections whose last length is in the order of the host. *)
Theorem atsc_rrt_section_accepts m L : parsed m L -> 10 <= L ->
  (exists native, encodes rrt_as_read (slice m 8 (L - 9)) native /\
     (atsc_section_psip_decode;; atsc_rrt_section_codec) m = Ret tt (zsplice m 8 native)) \/
  ((forall native, ~ encodes rrt_as_read (slice m 8 (L - 9)) native) /\
     exists m', (atsc_section_psip_decode;; atsc_rrt_section_codec) m = Null m').
Proof.
  intros Hm HL. pose proof Hm as (Hb & Hl & _). rewrite (psip_run _ m L Hm ltac:(lia)), (proj2 (Z.ltb_ge (L - 1) 9)) by lia.
  assert (Hin : inside (L - 1) 8 m) by (split; [done|lia]). apply encodes_accepted; [apply _|done|done|]. by apply codes_rrt.
Qed.

(** A system time without descriptors. *)
Definition stt_example : mem := [0xcd; 17; 0xf0; 0; 0; 0xc1; 0; 0] ++ [0; 0x40; 1; 2; 3; 18; 0x60; 0] ++ [1; 2; 3; 4].
Lemma parsed_stt_example : parsed stt_example 17.
Proof. split; [|split; reflexivity]. repeat (apply Forall_cons_2; [unfold byte; lia|]). by apply Forall_nil. Qed.
Lemma atsc_section_codecs_correct_witness :
  exists native, table_encodes STT 16 [0; 0x40; 1; 2; 3; 18; 0x60; 0] native /\
    (atsc_section_psip_decode;; atsc_stt_section_codec) stt_example = Ret tt (zsplice stt_example 8 native).
Proof.
  destruct (atsc_section_codecs_correct STT stt_example 17 parsed_stt_example ltac:(lia)) as [(native & _ & He & E)|[_ (m' & E)]].
  - exists native. split; [exact He|exact E].
  - vm_compute in E. discriminate E.
Defined.
