(* ===== verification/AtscGuide.v ===== *)
(** * AtscGuide: reading channels and events

    What a program gets that decodes a virtual channel table or an event information table with the
    codecs of AtscSections.v and walks over it with their iterators: the fields, texts and descriptors
    that were transmitted.  And the codecs that do not do what they mean to. *)

From S2P Require Import Prelude Mem EndianOps Descriptor PsiSection EntryLoop TableCodec AtscText AtscSections AtscFormats AtscTables.

(** ** Reading a structure of the host *)

Lemma slice_app_mid (a b c : list Z) p n : p = zlen a -> n = zlen b -> slice (a ++ b ++ c) p n = b.
Proof.
  intros -> ->. unfold slice, ztake, zdrop, zlen. by rewrite !Nat2Z.id, drop_app_length, take_app_length.
Qed.
(** The bytes of a structure that was swapped, and what is behind it. *)
Definition at_host (m : mem) (p sz : Z) (sws : list (Z * Z)) (h : list Z) : Prop :=
  bytes m /\ 0 <= p /\ p + sz <= zlen m /\ forall j, 0 <= j < sz -> m.[p + j] = h.[swap_index sws j].
Lemma at_host_slice m p sz sws h e : bytes m -> bytes h -> zlen h = sz -> swaps_okb sz sws = true -> 0 <= p -> p + sz + zlen e <= zlen m ->
  slice m p (sz + zlen e) = swapped_struct sws h ++ e -> at_host m p sz sws h /\ slice m (p + sz) (zlen e) = e.
Proof.
  intros Hb Hh Hz [Hsz Hs]%swaps_okb_ok Hp Hl E. pose proof (zlen_nonneg e).
  destruct (swapped_struct_spec sws h Hh) as (G1 & G2 & G3); [by rewrite Hz|].
  rewrite (slice_split m p (sz + zlen e) sz) in E by lia. apply app_inj_1 in E as [E1 E2].
  - replace (sz + zlen e - sz) with (zlen e) in E2 by lia. split; [|done]. split; [done|]. split; [done|]. split; [lia|].
    intros j Hj. rewrite <- G3 by lia. rewrite <- E1. by rewrite zat_slice by lia.
  - pose proof (zlen_slice_le m p sz). unfold zlen in *. lia.
Qed.

Section fields.
Context (m : mem) (p sz : Z) (sws : list (Z * Z)) (h : list Z) (Hat : at_host m p sz sws h).

Lemma field8 o : 0 <= o < sz -> swap_index sws o = o -> rd8 (p + o) m = Ret (h.[o]) m.
Proof. destruct Hat as (Hb & Hp & Hl & E). intros Ho Ei. rewrite rd8_run by lia. by rewrite E, Ei by lia. Qed.
Lemma field16 o : 0 <= o -> o + 2 <= sz -> swap_index sws o = o + 1 -> swap_index sws (o + 1) = o -> rd16 (p + o) m = Ret (be16 h o) m.
Proof.
  destruct Hat as (Hb & Hp & Hl & E). intros Ho Hs E0 E1. rewrite rd16_run by lia. f_equal. apply host_le16; [done|by rewrite E, E0 by lia|by rewrite E, E1 by lia].
Qed.
Lemma field32 o : 0 <= o -> o + 4 <= sz ->
  swap_index sws o = o + 3 -> swap_index sws (o + 1) = o + 2 -> swap_index sws (o + 2) = o + 1 -> swap_index sws (o + 3) = o ->
  rd32 (p + o) m = Ret (be32 h o) m.
Proof.
  destruct Hat as (Hb & Hp & Hl & E). intros Ho Hs E0 E1 E2 E3. rewrite rd32_run by (done || lia). f_equal.
  rewrite <- !(Z.add_assoc p), !E, E0, E1, E2, E3 by lia. unfold be32, be16. rewrite <- !Z.add_assoc. change (1 + 1) with 2. change (2 + 1) with 3.
  change (2 ^ 16) with 65536. change (2 ^ 24) with 16777216. lia.
Qed.
Lemma field_bytes o n : 0 <= o -> 0 <= n -> o + n <= sz -> zlen h = sz -> (forall j, o <= j < o + n -> swap_index sws j = j) ->
  rd_bytes (p + o) n m = Ret (slice h o n) m.
Proof.
  destruct Hat as (Hb & Hp & Hl & E). intros Ho Hn Hs Hz Ei. rewrite rd_bytes_run by lia. f_equal.
  apply zlist_eq; rewrite !zlen_slice_le by lia; [done|]. intros j Hj. rewrite !zat_slice by lia. by rewrite <- Z.add_assoc, E, Ei by lia.
Qed.
End fields.
Lemma map_run {A B} (c : M A) (f : A -> B) m a : c m = Ret a m -> (x ← c; mret (f x)) m = Ret (f a) m.
Proof. intros E. by rewrite (bind_run _ _ m _ m E). Qed.

Lemma descriptors_of_run m s size length n ds : 0 <= s + size -> 0 <= n -> s + size + n <= zlen m -> length s m = Ret n m ->
  slice m (s + size) n = encode_descriptors ds -> descriptors_of size length s m = Ret ds m.
Proof.
  intros Hp Hn Hl E Ed. unfold descriptors_of. apply (for_each_descriptors_run m (s + size) n (length s)); try done.
  unfold descriptors_first. by rewrite (bind_run _ _ m _ m E).
Qed.

(** ** Channels *)

Record atsc_channel := AtscChannel {
  ch_short_name : list Z; ch_major : Z; ch_minor : Z; ch_modulation : Z; ch_frequency : Z; ch_TSID : Z; ch_program : Z;
  ch_ETM_location : Z; ch_access_controlled : Z; ch_hidden : Z; ch_hide_guide : Z; ch_service_type : Z; ch_source : Z;
  ch_descriptors : list descriptor }.
(** What a client reads from a channel. *)
Definition read_atsc_tvct_channel (c : Z) : M atsc_channel :=
  name ← tvct_short_name c;
  major ← tvct_major_channel_number c; minor ← tvct_minor_channel_number c; modulation ← tvct_modulation_mode c;
  frequency ← tvct_carrier_frequency c; tsid ← tvct_channel_TSID c; program ← tvct_program_number c;
  etm ← tvct_ETM_location c; access ← tvct_access_controlled c; hidden ← tvct_hidden c; hide ← tvct_hide_guide c;
  type ← tvct_service_type c; source ← tvct_source_id c;
  ds ← (first ← atsc_tvct_channel_descriptors_first c; for_each (atsc_tvct_channel_descriptors_next c) read_descriptor first);
  mret (AtscChannel name major minor modulation frequency tsid program etm access hidden hide type source ds).
Definition atsc_tvct_section_channels_for_each : M (list atsc_channel) :=
  first ← atsc_tvct_section_channels_first; for_each_idx 256 0 atsc_tvct_section_channels_next read_atsc_tvct_channel first.
Definition atsc_tvct_section_part2_descriptors_for_each : M (list descriptor) :=
  part2 ← atsc_tvct_section_part2;
  first ← atsc_tvct_section_part2_descriptors_first part2; for_each (atsc_tvct_section_part2_descriptors_next part2) read_descriptor first.

(** The channel that is transmitted: a field of [w] bits behind [o] bits of the words of the structure. *)
Definition bits_of (v shift w : Z) : Z := v / 2 ^ shift mod 2 ^ w.
Definition channel_of (c : list Z * list descriptor) : atsc_channel :=
  let '(h, ds) := c in
  AtscChannel (slice h 0 14) (bits_of (be32 h 14) 18 10) (bits_of (be32 h 14) 8 10) (bits_of (be32 h 14) 0 8) (be32 h 18) (be16 h 22) (be16 h 24)
    (bits_of (be16 h 26) 14 2) (bits_of (be16 h 26) 13 1) (bits_of (be16 h 26) 12 1) (bits_of (be16 h 26) 9 1) (bits_of (be16 h 26) 0 6) (be16 h 28) ds.

Lemma bits_land v shift w : 0 <= shift -> 0 <= w -> Z.land (Z.shiftr v shift) (Z.ones w) = bits_of v shift w.
Proof. intros Hs Hw. unfold bits_of. by rewrite Z.land_ones, Z.shiftr_div_pow2. Qed.

Lemma read_channel_run m p c : ok channel_format c -> bytes m -> 0 <= p -> p + zlen (host channel_format c) <= zlen m ->
  slice m p (zlen (host channel_format c)) = host channel_format c ->
  tvct_channel_descriptors_length p m = Ret (zlen (encode_descriptors c.2)) m /\ read_atsc_tvct_channel p m = Ret (channel_of c) m.
Proof.
  destruct c as [h ds]. intros [[Hh Hz] [Hds Hn]] Hb Hp Hl E. cbn [host channel_format followed struct descs snd] in *.
  assert (Hsw : zlen (swapped_struct vct_swaps h) = 32) by (rewrite <- Hz; apply swapped_struct_spec; [done|rewrite Hz; by apply swaps_okb_ok]).
  rewrite zlen_app, Hsw in Hl, E. destruct (at_host_slice m p 32 vct_swaps h (encode_descriptors ds) Hb Hh Hz eq_refl Hp ltac:(lia) E) as [Hat Ed].
  pose proof (zlen_nonneg (encode_descriptors ds)).
  pose proof (fun o H1 H2 H3 H4 => field16 m p 32 vct_swaps h Hat o H1 H2 H3 H4) as F16.
  pose proof (fun o H1 H2 H3 H4 H5 H6 => field32 m p 32 vct_swaps h Hat o H1 H2 H3 H4 H5 H6) as F32.
  assert (Elen : tvct_channel_descriptors_length p m = Ret (zlen (encode_descriptors ds)) m).
  { rewrite Hn. unfold tvct_channel_descriptors_length, length10, be10. apply (map_run _ (fun x => Z.land x 0x3ff)), F16; done || lia. }
  split; [done|]. pose proof (be16_range h 26 Hh) as Hr.
  pose proof (F32 14 ltac:(lia) ltac:(lia) eq_refl eq_refl eq_refl eq_refl) as E14. pose proof (F16 26 ltac:(lia) ltac:(lia) eq_refl eq_refl) as E26.
  unfold read_atsc_tvct_channel. pose proof (field_bytes m p 32 vct_swaps h Hat 0 14 ltac:(lia) ltac:(lia) ltac:(lia) Hz) as En. rewrite Z.add_0_r in En.
  rewrite (bind_run _ _ m _ m (En ltac:(intros j Hj; assert (j = 0 \/ j = 1 \/ j = 2 \/ j = 3 \/ j = 4 \/ j = 5 \/ j = 6 \/ j = 7 \/ j = 8 \/ j = 9 \/ j = 10 \/ j = 11 \/ j = 12 \/ j = 13) as Hc by lia; repeat (destruct Hc as [-> | Hc]; [reflexivity|]); by rewrite Hc))).
  unfold tvct_major_channel_number, tvct_minor_channel_number, tvct_modulation_mode, tvct_carrier_frequency, tvct_channel_TSID, tvct_program_number.
  do 3 rewrite (bind_run _ _ m _ m (map_run _ _ m _ E14)).
  rewrite (bind_run _ _ m _ m (F32 18 ltac:(lia) ltac:(lia) eq_refl eq_refl eq_refl eq_refl)).
  rewrite (bind_run _ _ m _ m (F16 22 ltac:(lia) ltac:(lia) eq_refl eq_refl)), (bind_run _ _ m _ m (F16 24 ltac:(lia) ltac:(lia) eq_refl eq_refl)).
  unfold tvct_ETM_location, tvct_access_controlled, tvct_hidden, tvct_hide_guide, tvct_service_type, tvct_source_id.
  do 5 rewrite (bind_run _ _ m _ m (map_run _ _ m _ E26)). rewrite (bind_run _ _ m _ m (F16 28 ltac:(lia) ltac:(lia) eq_refl eq_refl)).
  rewrite (bind_run _ _ m ds m (descriptors_of_run m p 32 tvct_channel_descriptors_length (zlen (encode_descriptors ds)) ds ltac:(lia) ltac:(lia) ltac:(lia) Elen Ed)).
  unfold mret, M_ret, channel_of. f_equal.
  change 0x3ff with (Z.ones 10). change 0xff with (Z.ones 8). change 0x3f with (Z.ones 6). change 1 with (Z.ones 1) at 1 2 3.
  rewrite <- !bits_land by lia. rewrite !Z.shiftr_0_r. f_equal.
  rewrite (Z.land_ones _ 2) by lia. rewrite Z.mod_small; [done|]. rewrite Z.shiftr_div_pow2 by lia. change (2 ^ 14) with 16384. change (2 ^ 2) with 4. lia.
Qed.

(** ** Sections *)

(** A section that encodes a value is decoded to its native form. *)
Lemma decoded_native {A} (F : format A) codec m L a : lawful F -> parsed m L -> 10 <= L -> ok F a -> slice m 8 (L - 9) = enc F a ->
  (inside (L - 1) 8 m -> exists rest, codes F (L - 1) rest (at_end (L - 1)) 8 m /\ body codec (L - 1) rest m) ->
  exists m', (atsc_section_psip_decode;; codec) m = Ret tt m' /\ bytes m' /\ 8 + zlen (host F a) <= zlen m' /\
    slice m' 8 (zlen (host F a)) = host F a.
Proof.
  intros HF Hm HL Ha Ea Hc. pose proof Hm as (Hb & Hl & _). assert (Hin : inside (L - 1) 8 m) by (split; [done|lia]).
  assert (Hz : zlen (enc F a) = L - 9) by (rewrite <- Ea; apply zlen_slice_le; lia). pose proof (law_len F HF a Ha) as Hn.
  destruct (encodes_accepted F codec m L HF Hm HL (Hc Hin)) as [(native & (b & Hb' & Eb & ->) & E)|[Hno _]]; [|by exfalso; apply (Hno (host F a)); exists a].
  assert (b = a) as -> by (apply (law_prefix F HF b a [] []); [done..|]; by rewrite <- Eb, Ea).
  exists (zsplice m 8 (host F a)). rewrite zlen_zsplice by lia. split; [|split; [apply zsplice_bytes; [done|by apply HF]|split; [lia|]]].
  - unfold atsc_section_psip_decode. unfold mbind at 1 2, M_bind at 1 2. rewrite (section_ext_length_run m L Hm ltac:(lia)).
    unfold sizeof_atsc_section_psip. by rewrite (proj2 (Z.ltb_ge (L - 1) 9)) by lia.
  - pose proof (slice_zsplice_in m 8 (host F a) 0 (zlen (host F a)) ltac:(lia) ltac:(lia) ltac:(lia) ltac:(lia) ltac:(lia)) as E2.
    rewrite Z.add_0_r in E2. by rewrite E2, slice_full.
Qed.
Lemma slice_within m p l o n : 0 <= p -> p + zlen l <= zlen m -> slice m p (zlen l) = l -> 0 <= o -> 0 <= n -> o + n <= zlen l -> slice m (p + o) n = slice l o n.
Proof.
  intros Hp Hl E Ho Hn Hon. pose proof (zlen_nonneg l). apply zlist_eq; rewrite !zlen_slice_le by lia; [done|]. intros j Hj.
  rewrite !zat_slice by lia. rewrite <- E, zat_slice by lia. f_equal. lia.
Qed.

(** The iteration over counted entries, from the answer of the [_first] function. *)
Lemma counted_run {A B} (F : format A) n (view : A -> B) (first : M (option Z)) next (visit : Z -> M B) m p l fuel :
  lawful F -> counted (ok F) (Z.to_nat n) l -> 0 <= n -> (Z.to_nat n <= fuel)%nat -> 0 <= p -> p + zlen (flat_map (host F) l) <= zlen m ->
  slice m p (zlen (flat_map (host F) l)) = flat_map (host F) l ->
  first m = Ret (if n =? 0 then None else Some p) m ->
  (forall a p, ok F a -> 0 <= p -> p + zlen (host F a) <= zlen m -> slice m p (zlen (host F a)) = host F a ->
    visit p m = Ret (view a) m /\ forall idx, next p idx m = Ret (if n <=? idx then None else Some (p + zlen (host F a))) m) ->
  (f ← first; for_each_idx fuel 0 next visit f) m = Ret (map view l) m.
Proof.
  intros HF [Hn Hl] H0 Hf Hp Hle E Ef Hitem. rewrite (bind_run _ _ m _ m Ef).
  replace (if n =? 0 then None else Some p) with (if l is [] then None else Some p).
  2:{ destruct l as [|a l]; [by rewrite (proj2 (Z.eqb_eq n 0)) by (simpl in Hn; lia)|]. rewrite (proj2 (Z.eqb_neq n 0)); [done|]. simpl in Hn. lia. }
  apply (for_each_idx_view (host F) (ok F) view next visit m n); try done; [lia|unfold zlen; lia].
Qed.

(** What is at its place after a section with a count in its second byte was decoded. *)
Lemma counted_layout {A B} (F : format A) (G : format B) m h l b : lawful G -> bytes h -> zlen h = 2 -> ok (repeated (h.[1]) F) l -> ok G b -> bytes m ->
  let native := h ++ flat_map (host F) l ++ host G b in
  8 + zlen native <= zlen m -> slice m 8 (zlen native) = native ->
  rd8 9 m = Ret (h.[1]) m /\ 0 <= h.[1] < 256 /\
  10 + zlen (flat_map (host F) l) <= zlen m /\ slice m 10 (zlen (flat_map (host F) l)) = flat_map (host F) l /\
  10 + zlen (flat_map (host F) l) + zlen (host G b) <= zlen m /\ slice m (10 + zlen (flat_map (host F) l)) (zlen (host G b)) = host G b.
Proof.
  intros HG Hh Hz Hl Hb Hm native Hle E. set (hc := flat_map (host F) l) in *. set (hg := host G b) in *.
  assert (Hn : zlen native = 2 + zlen hc + zlen hg) by (unfold native; rewrite !zlen_app; lia). pose proof (zlen_nonneg hc). pose proof (zlen_nonneg hg).
  assert (E9 : m.[9] = h.[1]).
  { transitivity ((slice m 8 (zlen native)).[1]); [by rewrite zat_slice by lia|]. rewrite E. unfold native. by rewrite zat_app, decide_True by lia. }
  split; [rewrite rd8_run by lia; by rewrite E9|]. split; [by apply zat_range|]. split; [lia|]. split; [|split; [lia|]].
  - change 10 with (8 + 2). rewrite (slice_within m 8 native 2 (zlen hc)) by (done || lia). by apply slice_app_mid.
  - replace (10 + zlen hc) with (8 + (2 + zlen hc)) by lia. rewrite (slice_within m 8 native (2 + zlen hc) (zlen hg)) by (done || lia).
    unfold native. rewrite app_assoc. rewrite <- (app_nil_r ((h ++ hc) ++ hg)), <- app_assoc. apply slice_app_mid; [rewrite zlen_app; lia|done].
Qed.

(** The second part of a section: descriptors behind a length. *)
Definition part2_of (mask : Z) := followed (struct 2 [(0, 2)]) (fun h => descs (Z.land (be16 h 0) mask)).
Lemma part2_run mask m p b : ok (part2_of mask) b -> bytes m -> 0 <= p -> p + zlen (host (part2_of mask) b) <= zlen m ->
  slice m p (zlen (host (part2_of mask) b)) = host (part2_of mask) b ->
  zlen (host (part2_of mask) b) = 2 + zlen (encode_descriptors b.2) /\ (x ← rd16 p; mret (Z.land x mask)) m = Ret (zlen (encode_descriptors b.2)) m /\
  descriptors_of 2 (fun p => x ← rd16 p; mret (Z.land x mask)) p m = Ret b.2 m.
Proof.
  destruct b as [h ds]. intros [[Hh Hz] [Hds Hn]] Hb Hp Hl E. cbn [host part2_of followed struct descs snd] in *.
  assert (Hsw : zlen (swapped_struct [(0, 2)] h) = 2) by (rewrite <- Hz; apply swapped_struct_spec; [done|rewrite Hz; by apply swaps_okb_ok]).
  rewrite zlen_app, Hsw in *. destruct (at_host_slice m p 2 [(0, 2)] h (encode_descriptors ds) Hb Hh Hz eq_refl Hp ltac:(lia) E) as [Hat Ed].
  pose proof (zlen_nonneg (encode_descriptors ds)).
  assert (El : (x ← rd16 p; mret (Z.land x mask)) m = Ret (zlen (encode_descriptors ds)) m).
  { rewrite Hn. apply (map_run _ (fun x => Z.land x mask)). rewrite <- (Z.add_0_r p) at 1. apply (field16 m p 2 [(0, 2)] h Hat); done || lia. }
  split; [done|]. split; [done|]. by apply (descriptors_of_run m p 2 _ (zlen (encode_descriptors ds)) ds); try lia.
Qed.

Lemma sum_sizes {A} (F : format A) (size : A -> Z) l : (forall a, ok F a -> zlen (host F a) = size a) -> Forall (ok F) l ->
  sum (map size l) = zlen (flat_map (host F) l).
Proof. intros Hs Hl. induction Hl as [|a l Ha Hl IH]; [done|]. cbn [map flat_map sum foldr]. rewrite zlen_app, (Hs a Ha), <- IH. done. Qed.
Lemma host_channel_len c : ok channel_format c -> zlen (host channel_format c) = 32 + zlen (encode_descriptors c.2).
Proof.
  intros Hc. rewrite (law_len channel_format _ c Hc). destruct c as [h ds], Hc as [[_ Hz] _]. cbn [enc channel_format followed struct descs snd].
  rewrite zlen_app. lia.
Qed.

(** A virtual channel table of terrestrial ATSC is read as it was sent.  For every section that encodes a table (a count, channels with
    their descriptors, and further descriptors), decoding succeeds, and the iterators then give every channel once and in order with the value of each of
    its fields and its descriptors, and the descriptors of the table. *)
Theorem atsc_tvct_section_correct m L h channels part2 :
  parsed m L -> 10 <= L -> ok vct_format (h, (channels, part2)) -> slice m 8 (L - 9) = enc vct_format (h, (channels, part2)) ->
  exists m', (atsc_section_psip_decode;; atsc_tvct_section_codec) m = Ret tt m' /\
    atsc_tvct_section_channels_for_each m' = Ret (map channel_of channels) m' /\
    atsc_tvct_section_part2_descriptors_for_each m' = Ret part2.2 m'.
Proof.
  intros Hm HL Hok E.
  destruct (decoded_native vct_format atsc_tvct_section_codec m L _ vct_lawful Hm HL Hok E (codes_tvct (L - 1) m)) as (m' & Edec & Hb & Hl & En).
  destruct Hok as ([Hh Hz] & Hcs & Hp2). exists m'. split; [done|].
  destruct (counted_layout channel_format part2_10 m' h channels part2 part2_10_lawful Hh Hz Hcs Hp2 Hb Hl En) as (E9 & Hr & H1 & H2 & H3 & H4).
  assert (Hfirst : atsc_tvct_section_channels_first m' = Ret (if h.[1] =? 0 then None else Some 10) m').
  { unfold atsc_tvct_section_channels_first, tvct_num_channels_in_section. by rewrite (bind_run _ _ m' _ m' E9). }
  assert (Hnext : forall c p, ok channel_format c -> 0 <= p -> p + zlen (host channel_format c) <= zlen m' -> slice m' p (zlen (host channel_format c)) = host channel_format c ->
    forall idx, atsc_tvct_section_channels_next p idx m' = Ret (if h.[1] <=? idx then None else Some (p + zlen (host channel_format c))) m').
  { intros c p Hc Hp Hle Ec idx. destruct (read_channel_run m' p c Hc Hb Hp Hle Ec) as [El _].
    unfold atsc_tvct_section_channels_next, tvct_num_channels_in_section. rewrite (bind_run _ _ m' _ m' E9). destruct (h.[1] <=? idx); [done|].
    rewrite (bind_run _ _ m' _ m' El), host_channel_len by done. unfold mret, M_ret, sizeof_atsc_tvct_channel. do 2 f_equal. lia. }
  split.
  - apply (counted_run channel_format (h.[1]) channel_of _ _ _ m' 10 channels); try (done || lia); [apply _|].
    intros c p Hc Hp Hle Ec. split; [by apply read_channel_run|by apply Hnext].
  - pose proof (zlen_nonneg (flat_map (host channel_format) channels)). unfold atsc_tvct_section_part2_descriptors_for_each. rewrite (bind_run _ _ m' (10 + zlen (flat_map (host channel_format) channels)) m');
      [by apply (part2_run 0x3ff); [..|lia| |]|].
    pose proof (counted_run channel_format (h.[1]) (fun c => 32 + zlen (encode_descriptors c.2)) atsc_tvct_section_channels_first atsc_tvct_section_channels_next
      (fun c => l ← tvct_channel_descriptors_length c; mret (sizeof_atsc_tvct_channel + l)) m' 10 channels 256) as Hrun.
    unfold atsc_tvct_section_part2. rewrite (bind_run _ _ m' _ m' Hfirst). rewrite (bind_run _ _ m' _ m' Hfirst) in Hrun.
    rewrite (bind_run _ _ m' (map (fun c => 32 + zlen (encode_descriptors c.2)) channels) m').
    + rewrite (sum_sizes channel_format) by (done || apply host_channel_len || apply Hcs). done.
    + apply Hrun; try (done || lia); [apply _|]. intros c p Hc Hp Hle Ec. split; [|by apply Hnext].
      destruct (read_channel_run m' p c Hc Hb Hp Hle Ec) as [El _]. by rewrite (bind_run _ _ m' _ m' El).
Qed.

(** ** Events *)

Record atsc_event := AtscEvent {
  ev_id : Z; ev_start_time : Z; ev_ETM_location : Z; ev_length : Z; ev_title : list string_lang; ev_descriptors : list descriptor }.
Definition read_atsc_eit_event (e : Z) : M atsc_event :=
  id ← eit_event_event_id e; start ← eit_event_start_time e; etm ← eit_ETM_location e; length ← eit_length_in_seconds e;
  title ← atsc_eit_event_name_title_text e;
  strs ← (match title with None => mret [] | Some p => read_text p end);
  part2 ← atsc_eit_event_part2 e;
  ds ← (first ← atsc_eit_event_part2_descriptors_first part2; for_each (atsc_eit_event_part2_descriptors_next part2) read_descriptor first);
  mret (AtscEvent id start etm length strs ds).
Definition atsc_eit_section_events_for_each : M (list atsc_event) :=
  first ← atsc_eit_section_events_first; for_each_idx 256 0 atsc_eit_section_events_next read_atsc_eit_event first.

(** The event that is transmitted. *)
Definition title_of (v : text_value) : list string_lang := match v with None => [] | Some (strs, _) => strs end.
Definition event_of (e : list Z * (text_value * (list Z * list descriptor))) : atsc_event :=
  let '(h, (title, (h2, ds))) := e in
  AtscEvent (bits_of (be16 h 0) 0 14) (be32 h 2) (bits_of (be32 h 6) 28 2) (bits_of (be32 h 6) 8 20) (title_of title) ds.

Lemma host_event_len e : ok event_format e -> let '(h, (title, (h2, ds))) := e in
  zlen (host event_format e) = 10 + zlen (encode_text_value title) + (2 + zlen (encode_descriptors ds)).
Proof.
  intros He. pose proof (law_len event_format _ e He) as El. destruct e as [h [title [h2 ds]]], He as ([_ Hz] & _ & [_ Hz2] & _).
  rewrite El. cbn [enc event_format followed struct text part2_12 descs]. rewrite !zlen_app. lia.
Qed.
(** The places of the parts of an event. *)
Lemma event_layout m p h title b : ok event_format (h, (title, b)) -> bytes m -> 0 <= p -> p + zlen (host event_format (h, (title, b))) <= zlen m ->
  slice m p (zlen (host event_format (h, (title, b)))) = host event_format (h, (title, b)) ->
  at_host m p 10 eit_swaps h /\ h.[9] = zlen (encode_text_value title) /\
  slice m (p + 10) (zlen (encode_text_value title)) = encode_text_value title /\
  p + 10 + zlen (encode_text_value title) + zlen (host part2_12 b) <= zlen m /\
  slice m (p + 10 + zlen (encode_text_value title)) (zlen (host part2_12 b)) = host part2_12 b.
Proof.
  intros ([Hh Hz] & (_ & Hn & _) & _) Hb Hp Hl E. cbn [host event_format followed struct text] in Hl, E.
  assert (Hsw : zlen (swapped_struct eit_swaps h) = 10) by (rewrite <- Hz; apply swapped_struct_spec; [done|rewrite Hz; by apply swaps_okb_ok]).
  set (e := encode_text_value title ++ host part2_12 b) in *. rewrite zlen_app, Hsw in Hl, E.
  destruct (at_host_slice m p 10 eit_swaps h e Hb Hh Hz eq_refl Hp ltac:(lia) E) as [Hat Ee]. split; [done|]. split; [done|].
  assert (He : zlen e = zlen (encode_text_value title) + zlen (host part2_12 b)) by apply zlen_app.
  pose proof (zlen_nonneg (encode_text_value title)). pose proof (zlen_nonneg (host part2_12 b)).
  split; [|split; [lia|]].
  - pose proof (slice_within m (p + 10) e 0 (zlen (encode_text_value title)) ltac:(lia) ltac:(lia) Ee ltac:(lia) ltac:(lia) ltac:(lia)) as E1.
    rewrite Z.add_0_r in E1. rewrite E1. subst e. by apply (slice_app_mid []).
  - rewrite (slice_within m (p + 10) e (zlen (encode_text_value title)) (zlen (host part2_12 b))) by (done || lia).
    subst e. rewrite <- (app_nil_r (_ ++ host part2_12 b)), <- app_assoc. by apply slice_app_mid.
Qed.
Lemma read_event_run m p e : ok event_format e -> bytes m -> 0 <= p -> p + zlen (host event_format e) <= zlen m ->
  slice m p (zlen (host event_format e)) = host event_format e ->
  read_atsc_eit_event p m = Ret (event_of e) m /\
  (part2 ← atsc_eit_event_part2 p; l ← eit_part2_descriptors_length part2; mret (Some (part2 + (sizeof_atsc_eit_event_part2 + l)))) m =
    Ret (Some (p + zlen (host event_format e))) m.
Proof.
  intros He Hb Hp Hl E. pose proof (host_event_len e He) as Hlen. destruct e as [h [title [h2 ds]]]. rewrite Hlen in Hl.
  destruct (event_layout m p h title (h2, ds) He Hb Hp ltac:(lia) E) as (Hat & E9 & Et & Hl2 & E2). pose proof He as ([Hh Hz] & (_ & _ & Ht) & Hp2).
  pose proof (zlen_nonneg (encode_text_value title)). pose proof (zlen_nonneg (encode_descriptors ds)).
  destruct (part2_run 0xfff m (p + 10 + zlen (encode_text_value title)) (h2, ds) Hp2 Hb ltac:(lia) Hl2 E2) as (_ & Elen & Eds). cbn [snd] in Elen, Eds.
  pose proof (field16 m p 10 eit_swaps h Hat 0 ltac:(lia) ltac:(lia) eq_refl eq_refl) as E0. rewrite Z.add_0_r in E0.
  pose proof (field32 m p 10 eit_swaps h Hat 2 ltac:(lia) ltac:(lia) eq_refl eq_refl eq_refl eq_refl) as F2.
  pose proof (field32 m p 10 eit_swaps h Hat 6 ltac:(lia) ltac:(lia) eq_refl eq_refl eq_refl eq_refl) as F6.
  assert (Etl : eit_title_length p m = Ret (zlen (encode_text_value title)) m).
  { unfold eit_title_length. rewrite <- E9. destruct Hat as (_ & _ & Hls & Ej). apply rd32_low; [done|lia|lia|]. by rewrite Ej by lia. }
  assert (Ep2 : atsc_eit_event_part2 p m = Ret (p + 10 + zlen (encode_text_value title)) m).
  { unfold atsc_eit_event_part2. by rewrite (bind_run _ _ m _ m Etl). }
  split.
  - unfold read_atsc_eit_event, eit_event_event_id, eit_event_start_time, eit_ETM_location, eit_length_in_seconds.
    rewrite (bind_run _ _ m _ m (map_run _ _ m _ E0)), (bind_run _ _ m _ m F2). do 2 rewrite (bind_run _ _ m _ m (map_run _ _ m _ F6)).
    unfold atsc_eit_event_name_title_text. rewrite (bind_run _ _ m _ m (map_run _ _ m _ Etl)). unfold text_if, sizeof_atsc_eit_event.
    rewrite (bind_run _ _ m (title_of title) m).
    + rewrite (bind_run _ _ m _ m Ep2), (bind_run _ _ m ds m Eds). unfold mret, M_ret, event_of. f_equal.
      change 0x3fff with (Z.ones 14). change 3 with (Z.ones 2). change 0xfffff with (Z.ones 20). rewrite <- !bits_land by lia. by rewrite Z.shiftr_0_r.
    + destruct title as [[strs rest]|]; [|done]. cbn [encode_text_value title_of] in *.
      assert (Hne : 0 < zlen (encode_text strs)) by (unfold encode_text; rewrite zlen_cons; pose proof (zlen_nonneg (flat_map encode_string strs)); lia).
      rewrite zlen_app in *. pose proof (zlen_nonneg rest). rewrite (proj2 (Z.eqb_neq _ 0)) by lia. apply read_text_run; [done|lia|lia|].
      rewrite (slice_split m (p + 10) _ (zlen (encode_text strs))) in Et by lia. apply app_inj_1 in Et as [-> _]; [done|].
      pose proof (zlen_slice_le m (p + 10) (zlen (encode_text strs))). unfold zlen in *. lia.
  - rewrite (bind_run _ _ m _ m Ep2), (bind_run _ _ m _ m Elen), Hlen. unfold mret, M_ret, sizeof_atsc_eit_event_part2. do 2 f_equal. lia.
Qed.

(** C25: An event information table of ATSC is read as it was sent.  For every section that encodes a table (a count, and events
    with a title and descriptors), decoding succeeds, and the iterators then give every event once and in order: the value of each of its fields, its title
    with all its strings and segments, and its descriptors. *)
Theorem atsc_eit_section_correct m L h events :
  parsed m L -> 10 <= L -> ok eit_format (h, events) -> slice m 8 (L - 9) = enc eit_format (h, events) ->
  exists m', (atsc_section_psip_decode;; atsc_eit_section_codec) m = Ret tt m' /\
    atsc_eit_section_events_for_each m' = Ret (map event_of events) m'.
Proof.
  intros Hm HL Hok E.
  destruct (decoded_native eit_format atsc_eit_section_codec m L _ eit_lawful Hm HL Hok E (codes_eit (L - 1) m)) as (m' & Edec & Hb & Hl & En).
  destruct Hok as ([Hh Hz] & Hes). exists m'. split; [done|]. cbn [host eit_format followed struct] in Hl, En.
  destruct (counted_layout event_format nothing m' h events tt lawful_nothing Hh Hz Hes I Hb) as (E9 & Hr & H1 & H2 & _);
    [by rewrite app_nil_r|by rewrite app_nil_r|].
  apply (counted_run event_format (h.[1]) event_of _ _ _ m' 10 events); try (done || lia); [apply _| |].
  { unfold atsc_eit_section_events_first, eit_num_events_in_section. by rewrite (bind_run _ _ m' _ m' E9). }
  intros e p He Hp Hle Ee. destruct (read_event_run m' p e He Hb Hp Hle Ee) as [Er Enext]. split; [done|]. intros idx.
  unfold atsc_eit_section_events_next, eit_num_events_in_section. rewrite (bind_run _ _ m' _ m' E9). by destruct (h.[1] <=? idx).
Qed.

(** ** Examples *)

Ltac solve_bytes :=
  lazymatch goal with |- bytes ?l => let l := eval vm_compute in l in change (bytes l) end;
  repeat (apply Forall_cons_2; [unfold byte; lia|]); apply Forall_nil; exact I.

(** "Hi" in English, a title of 10 bytes, and an empty private descriptor. *)
Definition hi : list string_lang := [StringLang [101; 110; 103] [Segment 0 0 [72; 105]]].
Definition hi_event : list Z * (text_value * (list Z * list descriptor)) :=
  ([0xc0; 0x01; 0x40; 0; 0; 1; 0xd0; 0x07; 0x08; 10], (Some (hi, []), ([0xf0; 2], [Descriptor 0x80 []]))).
Definition eit_example : mem :=
  [0xcb; 35; 0xf0; 7; 0; 0xc1; 0; 0] ++ [0; 1] ++
  [0xc0; 0x01; 0x40; 0; 0; 1; 0xd0; 0x07; 0x08; 10] ++ [1; 101; 110; 103; 1; 0; 0; 2; 72; 105] ++ [0xf0; 2; 0x80; 0] ++ [1; 2; 3; 4].
Lemma parsed_eit_guide : parsed eit_example 35.
Proof. split; [solve_bytes|]. split; reflexivity. Qed.
Lemma hi_event_ok : ok eit_format ([0; 1], [hi_event]).
Proof.
  split; [split; [solve_bytes|reflexivity]|]. split; [reflexivity|]. apply Forall_cons_2; [|by apply Forall_nil].
  split; [split; [solve_bytes|reflexivity]|]. split.
  - split; [solve_bytes|]. split; [reflexivity|]. split; [reflexivity|]. apply Forall_cons_2; [|by apply Forall_nil].
    split; [solve_bytes|]. split; [reflexivity|]. split; [reflexivity|]. apply Forall_cons_2; [|by apply Forall_nil].
    split; [unfold byte; cbn; lia|]. split; [unfold byte; cbn; lia|]. split; [solve_bytes|reflexivity].
  - split; [split; [solve_bytes|reflexivity]|]. split; [|reflexivity]. apply Forall_cons_2; [|by apply Forall_nil].
    split; [unfold byte; cbn; lia|]. split; [apply Forall_nil; exact I|reflexivity].
Qed.
Lemma atsc_eit_section_correct_witness :
  exists m', (atsc_section_psip_decode;; atsc_eit_section_codec) eit_example = Ret tt m' /\
    atsc_eit_section_events_for_each m' = Ret [AtscEvent 1 0x40000001 1 0x708 hi [Descriptor 0x80 []]] m'.
Proof.
  exact (atsc_eit_section_correct eit_example 35 [0; 1] [hi_event] parsed_eit_guide ltac:(lia) hi_event_ok eq_refl).
Defined.

(** Channel 7.1, with an empty descriptor of its own and one of the table. *)
Definition channel_7_1 : list Z * list descriptor :=
  ([0; 78; 0; 66; 0; 67; 0; 0; 0; 0; 0; 0; 0; 0; 0xf0; 0x1c; 0x01; 0x04; 0; 0; 0; 0; 8; 0; 0; 3; 0x0e; 0x42; 0; 5; 0xfc; 2], [Descriptor 0xa1 []]).
Definition tvct_example : mem :=
  [0xc8; 49; 0xf0; 7; 0; 0xc1; 0; 0] ++ [0; 1] ++ channel_7_1.1 ++ [0xa1; 0] ++ [0xfc; 2; 0x80; 0] ++ [1; 2; 3; 4].
Lemma parsed_tvct_example : parsed tvct_example 49.
Proof. split; [solve_bytes|]. split; reflexivity. Qed.
Lemma one_descriptor_ok t : byte t -> Forall descriptor_ok [Descriptor t []].
Proof. intros Ht. apply Forall_cons_2; [|by apply Forall_nil]. split; [done|]. split; [by apply Forall_nil|done]. Qed.
Lemma channel_7_1_ok : ok vct_format ([0; 1], ([channel_7_1], ([0xfc; 2], [Descriptor 0x80 []]))).
Proof.
  split; [split; [solve_bytes|reflexivity]|]. split; [split; [reflexivity|apply Forall_cons_2; [|by apply Forall_nil]]|].
  - split; [split; [solve_bytes|reflexivity]|]. split; [by apply one_descriptor_ok|reflexivity].
  - split; [split; [solve_bytes|reflexivity]|]. split; [by apply one_descriptor_ok|reflexivity].
Qed.
Lemma atsc_tvct_section_correct_witness :
  exists m', (atsc_section_psip_decode;; atsc_tvct_section_codec) tvct_example = Ret tt m' /\
    atsc_tvct_section_channels_for_each m' =
      Ret [AtscChannel [0; 78; 0; 66; 0; 67; 0; 0; 0; 0; 0; 0; 0; 0] 7 1 4 0 0x800 3 0 0 0 1 2 5 [Descriptor 0xa1 []]] m' /\
    atsc_tvct_section_part2_descriptors_for_each m' = Ret [Descriptor 0x80 []] m'.
Proof.
  exact (atsc_tvct_section_correct tvct_example 49 [0; 1] [channel_7_1] ([0xfc; 2], [Descriptor 0x80 []]) parsed_tvct_example ltac:(lia) channel_7_1_ok eq_refl).
Defined.

(** ** Where the code does something else *)

(** The rating region codec does not swap the length of the last descriptors: a section without any, its reserved bits set as the
    standard wants, is refused. *)
Example rrt_without_descriptors_refused : exists m',
  (atsc_section_psip_decode;; atsc_rrt_section_codec) ([0xca; 14; 0xf0; 1; 0; 0xc1; 0; 0] ++ [0; 0] ++ [0] ++ [0xfc; 0] ++ [1; 2; 3; 4]) = Null m'.
Proof. eexists. vm_compute. reflexivity. Qed.
(** The selection code codec takes the length of an update's descriptors from a place twice as far away: a section with one new state
    without a name makes it read behind the section. *)
Example dccsct_update_reads_outside :
  (atsc_section_psip_decode;; atsc_dccsct_section_codec) ([0xd4; 18; 0xf0; 1; 0; 0xc1; 0; 0] ++ [0; 1] ++ [2; 1; 5] ++ [0xfc; 0] ++ [0xfc; 0] ++ [1; 2; 3; 4]) = Fault.
Proof. vm_compute. reflexivity. Qed.
(** The name of a new state is looked for in the header of the update. *)
Example dccsct_name_in_header : let m := [2; 3; 5; 1; 0] in
  atsc_dccsct_update_new_state 0 m = Ret (Some 2) m /\ atsc_dccsct_update_new_state_name 0 m = Ret (Some 1) m.
Proof. done. Qed.
(** A time behind February 2106 comes out as one of 1970. *)
Example atsctime_wraps : atsctime_to_unixtime 0xffffffff = 315964799.
Proof. done. Qed.
